(* ===== verification/_CoqProject ===== *)
-Q . S2P
Prelude.v
Text.v
Sha256.v
Uapi.v
Kernel.v
Machine.v
Guard.v
Registry.v
Comms.v
Posture.v
Sched.v
Advance.v
Pmu.v
Run.v
Modgate.v
PciScan.v
Hw.v
Input.v
TextCheck.v
Integrity.v
Main.v
System.v
PolicyParse.v
Policy.v
KgmonText.v
KgmonChild.v
Monitor.v
DigestTable.v
Bytes.v
Modid.v
Kgmon.v
KgmonCmd.v
KgmonMain.v
PeAuthenticode.v
WinState.v
WinComms.v
WinMitigate.v
WinRouter.v
WinIntegrity.v
WinPmu.v
WinLoadGuard.v
WinHashes.v
WinHw.v
WinMain.v
WinMonitor.v
WinTray.v
WinExample.v
