(* ===== verification/Prelude.v ===== *)
(** * KernelGuard: a verification library

    KernelGuard is a Linux kernel module (linux/module), a user-space monitor
    (linux/monitor) and a Windows port (windows).  Sensors in the module raise
    alerts; every alert goes through one router, which may raise a posture ladder
    (NORMAL, ELEVATED, HIGH, FAILSAFE), switch the per-CPU cache-flush strategy and
    publish an authenticated record in a ring the monitor maps; the monitor (kgmon) checks
    the HMAC of each record, prints, logs and notifies, and feeds an escalation policy that
    runs programs; its other commands report and set the module's state.  A
    driver-load gate refuses denied modules while the posture enforces.  This
    library models those parts as functions and proves what they promise each
    other.  Paths below are relative to src/.

    The Windows port is a driver of five modules (cache mitigation, keyboard-stack and DMA
    monitor, kernel integrity with a driver-load guard, PMU detection, secure channel) around
    one event router, and a tray monitor that polls the shared ring.  It has no posture
    ladder: an alert may raise the flush strategy of a CPU, run a scan, or enter a fail-safe
    mode that is never left, and is published in the ring; its policy is a block under a seal.

    The sensors are three monitors that run as work items (kernel integrity, PCI and DMA,
    keyboard path), the PMU sampler and the module notifiers.  They touch the guarded state
    only through reports and statistics: [advances] (Advance.v) is the contract each of
    their handlers is proved to meet, and System.v composes the handlers from it.

    ** Conventions

    A w-bit C integer is a [Z] with its wrap written out ([u8] .. [u64] below,
    [is_u8] .. [is_u64] its range).  Buffers are lists of such bytes.  [option] is
    partial or fuelled code, sums carry errors, and state is passed explicitly.  The
    module's file-level variables are the record [world] of Kernel.v; a handler is a
    function on worlds that covers the critical section it runs in.  What the
    sources call and do not contain is a class: [Crypto] (the kernel's transforms),
    [Platform] (CPUs, topology, clocks), [TextEnv] and [CpuEnv] (live text, page tables,
    registers, descriptor tables), [PciEnv] (ACPI tables, configuration space, the PCI
    core's lists), [InputEnv] (kallsyms, kernel memory, the input core), [Files] (the policy
    parser's file system), [Host] (time zones, the calendar, the clock and processes of
    kgmon), [Device] (the node kgmon opens), [Manager] (systemd's socket), [AckFile], the
    [Update] callback of the Authenticode walk.
    What changes under a running handler (text, registers, configuration space, lists of
    devices) is read at numbered times, so it may answer differently at every access.  What
    is assumed of the classes are [CryptoLaws], [HmacWorks], [CryptoIsHmac] (Machine.v),
    [TopologyLaws] (Pmu.v), [HostLaws] (KgmonText.v), [TextLaws] (Integrity.v: the kernel does not lie at the edge of
    the address space) and [Streaming] (PeAuthenticode.v), each with a concrete instance on
    which the theorems about it are evaluated.

    The Windows driver has classes of its own: [WinEnv] (processors, registers, pool, CNG,
    AuxKlib, clock), [WinKernel] (kernel memory and driver objects), [WinCpu] (the IDT,
    threads), [WinApic], [WinFiles] (driver files, registry lists, code-integrity state),
    [WinDevices] (device stacks, physical memory) and [WinBoot] (the I/O manager).  Every
    answer is read at the time [clock] of the state and advances it, so a failure may come at
    any call.  Assumed are [BCryptWorks] (CNG does not fail and digests have 32 bytes) and
    [WinLaws] (the current CPU exists).  The record [core] is what every module reaches;
    each module's own variables are a record of its file ([mit], [integ], [pmu], [lg], [hw])
    and [win] holds them all.  A hook of one module that another calls is an argument: the
    router takes the dispatch scan it may start.

    ** Files

    - Prelude.v: this file; machine words, little-endian bytes, the hint database
      [kg], the word tactics and list lemmas.
    - Sha256.v: linux/monitor/kg_hmac.c.  The streaming SHA-256 context, HMAC,
      the constant-time compare and the self-test; FIPS 180-4 and RFC 2104 as
      one-shot references.
    - Uapi.v: linux/include/kernelguard_uapi.h.  Constants, the notification and
      its 40 authenticated bytes.
    - Kernel.v: linux/module/kg.h.  The state of the module and the kernel it runs
      on.  Machine.v: the laws of the crypto API and a concrete machine.
    - Guard.v: linux/module/kg_mitigate.c, the guard half of kg_state.c, the inline
      flushes of kg.h.  Digest of the policy state, strategies, hotplug, flushes.
    - Registry.v: kg_list_contains and the sensitive-allocation registry of
      kg_state.c.
    - Comms.v: linux/module/kg_comms.c.  Rate limiter, publication, uevent worker,
      key, device operations.  Publication is a list of single stores, so that a
      reader can be put between any two of them.
    - Posture.v: linux/module/kg_posture.c, kg_dispatch and kg_report of kg_state.c.
    - Sched.v: which work items a handler may queue, and that the uevent loop ends.
      Advance.v: what a monitor's handler does to the guarded state.
    - Pmu.v: linux/module/kg_pmu.c.  Overflow NMI, irq work, sampler, hotplug.
    - Run.v: the step relation of the guarded state over all those handlers.
    - Modgate.v: linux/module/kg_modgate.c and the module walk of kg_integrity.c.
    - PciScan.v and Hw.v: linux/module/kg_hw.c.  The scans of the buses; suspects,
      cross-check, DMA audit, enforcement, worker, init and exit.
    - Input.v: linux/module/kg_input.c and kg_sym_module of kg_integrity.c.
    - TextCheck.v and Integrity.v: linux/module/kg_integrity.c.  Text bounds, baseline
      copies and the classification of changes; registers, IDT, module notifier, worker,
      init and exit.
    - Main.v: linux/module/kg_main.c, kg_state_init and kg_state_exit.  The state of the
      whole module ([kernelguard]), ioctl, load with its error paths, unload, and the
      invariant [sys_inv].  System.v: every handler interleaved ([sys_step], [sys_run]).
    - PolicyParse.v and Policy.v: linux/monitor/kg_policy.c, parser and engine.
    - Text.v: the printf conversions the two monitors use, and that numbers read back.
    - linux/monitor/kgmon.c is six files.  KgmonText.v: the texts of an alert and its line
      in the CSV log, with a reader of such logs as reference.  KgmonChild.v: options, helper
      processes, desktop notifications and policy actions.  Monitor.v: read_slot, drain, emit
      and policy_feed.  Kgmon.v: opening the device, systemd, acknowledgements, the monitor's
      loop and set-up; errors that end the program are values of [death].  KgmonCmd.v: the
      status, posture, ack, policy, modid, selftest and run commands.  KgmonMain.v: the
      command line and main.
    - DigestTable.v: windows/src/digest_table.c.
    - Bytes.v: checked reads of hostile files.  Modid.v:
      linux/monitor/kg_modid.c.  PeAuthenticode.v: windows/src/pe_authenticode.c.
    - WinState.v: windows/src/KernelGuard.h and shared_state.c.  Policy loading, the seal,
      allow lists, ntoskrnl lookup, boundary flush; ComputeSha256 of kernel_integrity.c.
    - WinComms.v: windows/src/secure_comms.c, against a log of everything written.
    - WinMitigate.v: windows/src/cache_mitigation.c.
    - WinRouter.v: the router and fail-safe mode of shared_state.c, the dispatch scan of
      kernel_integrity.c, which call each other; [effect] is the contract every alert meets.
    - WinIntegrity.v: the rest of windows/src/kernel_integrity.c, exceptions included.
    - WinPmu.v: windows/src/pmu_detection.c, register writes as a trace per CPU.
    - WinLoadGuard.v: windows/src/driver_load_guard.c.  WinHashes.v:
      windows/src/vuln_driver_hashes.h, the shipped digests themselves.
    - WinHw.v: windows/src/hw_keylogger_detect.c.
    - WinMain.v: windows/src/driver_main.c.
    - WinMonitor.v: windows/usermode/driver_comm.c.
    - WinTray.v: windows/usermode/main.c and log_window.c.  Tray icon, event log, both window
      procedures over one message queue, the pump and WinMain; [desk_inv] is its invariant.
    - WinExample.v: a concrete Windows machine, and the Windows theorems evaluated on it.

    ** What the theorems show

    - The channel.  The ring refines a log of everything published ([ring_holds],
      [chan_inv]); [notify_refines_log], [uevent_worker_catches_up] and
      [drain_delivers_log] state each operation against the log, [read_slot_atomic]
      puts the reader between the writer's stores, [critical_alert_end_to_end]
      composes both ends through the HMAC.  [rate_limit_bound] and
      [critical_always_delivered] bound the limiter from both sides.
    - The guarded state.  [guard_inv] (sealed, typed, posture and strategies
      consistent) holds after every operation; [reachable_states_sealed],
      [untrusted_never_lowered] and [only_operator_or_decay_lowers] are by rule
      induction over runs; [guard_tamper_evident] is the digest's guarantee.
    - The ladder.  [report_refines_router] gives the posture after any report as a
      closed formula over the router's table ([alert_target]); [posture_set_table]
      and [decay_table] cover every branch of the two ways down.
    - The gate.  [gate_verdict], [deny_list_exact], [second_denied_load_refused];
      [modid_entry_denies] ties the monitor's modid command to it.
    - The whole module.  [load_or_unwind]: a load succeeds into [sys_inv] or leaves nothing;
      [loaded_runs_sound]: every reachable state keeps it and unloads cleanly;
      [queued_work_completes]: no worker gets stuck; [system_lowered_only_by]: nothing but
      the operator and decay lowers the posture; [ioctl_contract].
    - Kernel integrity.  [silent_patches_are_sites] says which changes of text pass
      unreported, [text_pass_complete] that a pass misses no byte; [text_bounds_maximal],
      [register_tamper_once], [idt_hook_reported], [corruption_answered],
      [integrity_exit_releases].
    - PCI and DMA.  [ecam_init_exact], [scan_distinct], [scan_finds_routed];
      [discrepancy_lifecycle], [bus_master_announced], [enforcement_confined],
      [baseline_trusted].
    - The keyboard path.  [kbd_findings_reported], [enforcement_detaches], [detour_found],
      [kbd_baseline_authorised].
    - Detection.  [sampler_escalates_core], [pmu_rise_reported],
      [pmu_critical_hysteresis], [majority_task_named].
    - The monitor as a program.  [monitor_delivers]: a run of the loop hands every record of
      the ring, in order, to its outputs and keeps its cursor; [monitor_accounts]: after any
      rounds the counters, log and helper table are consistent; [watchdog_one_second];
      [log_reads_back]: an RFC 4180 reader recovers every field of the log whatever a module
      is called; [helpers_accounted], [reap_pass] and [action_env_complete] the helper
      processes; [ack_reaches_monitor], [posture_set_command], [modid_command],
      [run_verbatim] and [options_roundtrip] the commands, from the command line to the
      module, the file or the program they run.
    - The policy.  [kgp_parse_wf], [tokenize_quote_roundtrip];
      [engine_operations_keep_table], [escalates_iff_burst],
      [base_actions_throttled], [ack_covers_wrapped], [forged_content_ignored].
    - Parsers.  [pea_memory_safe] and [modid_memory_safe] hold for every byte
      string; [pea_digest_covers] and [signing_keeps_digest] say what the digest is
      of; [DtFind_correct] that the binary search is the scan.
    - Cryptography.  [kg_sha256_streaming_correct], [kg_hmac_sha256_correct].
    - The Windows channel.  [notify_appends] and [poll_delivers_log] state writer and reader
      against the log, [win_router_table] the router, [win_alert_end_to_end] composes them;
      [packed_name_shown], [event_log_trusts_hmac], [saved_log_lines] what the user sees;
      [tray_reflects_alerts] and [WinMain_paths] the tray application over any run of its pump.
    - The Windows driver.  [policy_seal], [failsafe_keeps_full]; [entry_loads_or_unwinds],
      [unload_releases], [device_request_table]; [probed_flush_covers],
      [keyboard_isr_bracketed], [cat_masks_partition], [smt_map_pairs]; [idt_gates_reported],
      [patched_module_found], [dispatch_hook_detected]; [pmi_isr_escalates],
      [rdtsc_emulated]; [load_guard_verdict], [driver_file_digest],
      [queued_paths_processed], [notify_appends_path], [load_guard_starts],
      [load_guard_stops], [shipped_digests_found]; [filters_restored],
      [detect_only_confined], [stub_forwards_below], [dma_writes_confined],
      [bus_walk_correct].
    - Limits of the code, proved as such: [torn_read_reported_forged],
      [lock_switch_window], [pmu_thresholds_wrap], [adjacent_retargets_misjudged],
      [unstable_copy_kept], [hooked_idt_adopted], [corruption_at_top_ignored],
      [wide_domain_misjudged], [unread_register_announced], [empty_user_is_root]; on Windows
      [class_driver_not_scanned], [freed_pages_stay_tagged], [ibpb_never_issued],
      [unsealed_round_failsafe], [pmu_stop_leaves_running], [rdtsc_flag_is_total],
      [stuck_callback_faults_worker], [top_filter_cuts_keyboard],
      [vtd_flush_not_requested], [dma_check_inert], [enforcement_alerts_unnamed],
      [warning_turns_icon], [dialog_clear_keeps_indicator], [taskbar_restart_hides_alert].

    ** Bounds and fuel

    Every fuelled function returns [None] (or an error of its own) when the fuel
    runs out, and a theorem shows that it does not; for the two loops of the policy
    parser [tokenize_fuel] and [parse_lines_fuel] show that more changes nothing.  [kg_report] calls itself
    through the fail-safe notice only, which cannot raise again: depth 2.  The two
    ring loops start at most 16 records behind the writer, so 17 rounds suffice;
    [drain] tries a slot 50 times, the source's own bound.  Loops over text
    ([kg_gate_parse], [parse_modinfo], the policy's tokenizer) consume at least a
    character per round and get at least the length.  [HashRange] reads in chunks
    of [PEA_CHUNK] bytes and gets length / chunk + 2 rounds; the binary search
    halves its range and gets the table's length plus one.  The search for the text's bounds
    stops at 256 MiB and gets the pages of that; the passes over text get the region's
    size; the bus walk is nine levels deep, the source's own bound; number printing gets 20
    decimal and 16 hexadecimal digits, enough for 64 bits.  Reading a module file gets a round
    per answer of read plus eleven, the self-test's million bytes 1002 rounds.  On Windows the chunked hash gets a round per chunk ([sha_fuel]), the
    walk of a device stack 127 devices, the most a stack can hold ([stack_fuel]), the polling
    of an IOMMU register the source's own 100001 reads ([poll_limit]), the reading of a file
    a round per byte, a poll of the ring one round per entry up to the write index.  Threads
    are taken round by round, so a run of any length is a number of rounds.

    ** Not modelled

    Of kgmon.c, the usage text, the wording of fatal errors (each is a constructor of
    [death]), the child's session, signal and descriptor set-up before exec, creation of the
    state directory, and what the executed programs do.  Of the Windows monitor, the shell, the
    dialog manager and the drawing of controls.  Everything else in the C files that is not
    here is declarations, parameter descriptions and tables of pointers.  Texts for the
    kernel log or the debugger are left out everywhere, as are the KG_TESTHOOKS build, the VERW instruction itself (verw_flush.asm, an operation of the
    trace) and the inside of the Windows kernel's calls.  The sensitive-allocation registry
    keeps its own list and is not a handler of [sys_step].  Locks are represented by taking
    each critical section as one step, and a work function or notifier is one step of
    [sys_step]; the Windows modules are composed in sequence, the load-image callback apart,
    which is split where the stop can come between; memory order is that of the stores in program order. *)
From Stdlib Require Export ZArith Lia Sorting.Sorted.
From stdpp Require Export functions.
From stdpp Require Export prelude list strings.

Declare Scope kg_scope.
Delimit Scope kg_scope with kg.

(** ** Machine integers

    A [uN] of the C code is a [Z] in [[0, 2^N)].  [u8] .. [u64] are the
    conversions the C arithmetic performs on every store, [s32] is the cast
    [(int32_t)]/[(int)] of a 32-bit pattern. *)
Definition u8 (z : Z) : Z := (z mod 256)%Z.
Definition u16 (z : Z) : Z := (z mod 65536)%Z.
Definition u32 (z : Z) : Z := (z mod 4294967296)%Z.
Definition u64 (z : Z) : Z := (z mod 18446744073709551616)%Z.
Definition s32 (z : Z) : Z :=
  (let w := u32 z in if w <? 2147483648 then w else w - 4294967296)%Z.

Definition is_u8 (z : Z) : Prop := (0 ≤ z < 256)%Z.
Definition is_u16 (z : Z) : Prop := (0 ≤ z < 65536)%Z.
Definition is_u32 (z : Z) : Prop := (0 ≤ z < 4294967296)%Z.
Definition is_u64 (z : Z) : Prop := (0 ≤ z < 18446744073709551616)%Z.

#[export] Instance is_u8_dec z : Decision (is_u8 z).
Proof. unfold is_u8. apply _. Defined.
#[export] Instance is_u16_dec z : Decision (is_u16 z).
Proof. unfold is_u16. apply _. Defined.
#[export] Instance is_u32_dec z : Decision (is_u32 z).
Proof. unfold is_u32. apply _. Defined.
#[export] Instance is_u64_dec z : Decision (is_u64 z).
Proof. unfold is_u64. apply _. Defined.

Notation "x ⊞ y" := (u32 (x + y)%Z) (at level 50, left associativity) : kg_scope.
Notation "x ⊟ y" := (u32 (x - y)%Z) (at level 50, left associativity) : kg_scope.

(** Linear arithmetic through the wrap-around conversions. *)
Ltac kg_unfold_words :=
  unfold is_u8, is_u16, is_u32, is_u64, s32, u8, u16, u32, u64 in *.
Ltac word_lia := kg_unfold_words; Z.div_mod_to_equations; lia.

(** Reduce a bind of the option monad whose first computation is known.  By
    rewriting and not by conversion, so that the kernel never has to compare
    the computation that follows with an unfolded one. *)
Lemma option_bind_known {A B} (f : A → option B) (x : A) : mbind f (Some x) = f x.
Proof. done. Qed.
Ltac bind_simpl := rewrite !option_bind_known.

(** Case analysis on a test of the goal only (never of a hypothesis). *)
Tactic Notation "case_goal" :=
  match goal with |- context [match ?x with _ => _ end] => destruct x eqn:? end.
Tactic Notation "case_goal" "as" simple_intropattern(E) :=
  match goal with |- context [match ?x with _ => _ end] => destruct x eqn:E end.

(** Turn the boolean tests of the code into their propositions. *)
Ltac bool_props :=
  repeat match goal with
  | H : (_ && _) = true |- _ => apply andb_true_iff in H as [? ?]
  | H : (_ && _) = false |- _ => apply andb_false_iff in H
  | H : (_ || _) = false |- _ => apply orb_false_iff in H as [? ?]
  | H : (_ || _) = true |- _ => apply orb_true_iff in H
  | H : negb _ = true |- _ => apply negb_true_iff in H
  | H : negb _ = false |- _ => apply negb_false_iff in H
  | H : (_ =? _)%Z = true |- _ => apply Z.eqb_eq in H
  | H : (_ =? _)%Z = false |- _ => apply Z.eqb_neq in H
  | H : (_ <=? _)%Z = true |- _ => apply Z.leb_le in H
  | H : (_ <=? _)%Z = false |- _ => apply Z.leb_gt in H
  | H : (_ <? _)%Z = true |- _ => apply Z.ltb_lt in H
  | H : (_ <? _)%Z = false |- _ => apply Z.ltb_ge in H
  | H : bool_decide _ = true |- _ => apply bool_decide_eq_true in H
  | H : bool_decide _ = false |- _ => apply bool_decide_eq_false in H
  end.

Create HintDb kg.

Lemma u8_range z : is_u8 (u8 z).
Proof. unfold is_u8, u8. apply Z.mod_pos_bound. lia. Qed.
Lemma u16_range z : is_u16 (u16 z).
Proof. unfold is_u16, u16. apply Z.mod_pos_bound. lia. Qed.
Lemma u32_range z : is_u32 (u32 z).
Proof. unfold is_u32, u32. apply Z.mod_pos_bound. lia. Qed.
Lemma u64_range z : is_u64 (u64 z).
Proof. unfold is_u64, u64. apply Z.mod_pos_bound. lia. Qed.
Lemma u8_id z : is_u8 z → u8 z = z.
Proof. apply Z.mod_small. Qed.
Lemma u16_id z : is_u16 z → u16 z = z.
Proof. apply Z.mod_small. Qed.
Lemma u32_id z : is_u32 z → u32 z = z.
Proof. apply Z.mod_small. Qed.
Lemma u64_id z : is_u64 z → u64 z = z.
Proof. apply Z.mod_small. Qed.
#[export] Hint Resolve u8_range u16_range u32_range u64_range : kg.

Lemma filter_all {A} (P : A → Prop) `{∀ x, Decision (P x)} l : Forall P l → filter P l = l.
Proof.
  induction 1 as [|x l Hx Hl IH]; [done|]. rewrite filter_cons, decide_True by done. by rewrite IH.
Qed.
Lemma filter_none {A} (P : A → Prop) `{∀ x, Decision (P x)} l : Forall (λ x, ¬ P x) l → filter P l = [].
Proof.
  induction 1 as [|x l Hx Hl IH]; [done|]. by rewrite filter_cons, decide_False by done.
Qed.

(** The wrap-safe comparison of sequence numbers in the ring's readers: a
    difference of two wrapped values is the wrapped difference. *)
Lemma u32_sub_wrap a b : u32 (u32 a - u32 b) = u32 (a - b).
Proof. unfold u32. by rewrite <- Zminus_mod. Qed.
Lemma u32_add_wrap a b : u32 (u32 a + b) = u32 (a + b).
Proof. unfold u32. by rewrite Zplus_mod_idemp_l. Qed.
Lemma u64_add_wrap a b : u64 (u64 a + b) = u64 (a + b).
Proof. unfold u64. by rewrite Zplus_mod_idemp_l. Qed.
Lemma s32_id z : (- 2147483648 ≤ z < 2147483648)%Z → s32 z = z.
Proof.
  intros Hz. unfold s32, u32. destruct (decide (0 ≤ z)%Z).
  - rewrite Z.mod_small by lia. case_goal; bool_props; lia.
  - rewrite <- (Z.mod_unique z 4294967296 (-1) (z + 4294967296))%Z by lia. case_goal; bool_props; lia.
Qed.
Lemma s32_add_wrap a b : s32 (s32 a + b) = s32 (a + b).
Proof.
  assert (Hu : u32 (s32 a + b) = u32 (a + b)).
  { rewrite <- (u32_add_wrap a b). unfold s32. cbv zeta. destruct (_ <? _)%Z; [done|].
    replace (u32 a - 4294967296 + b)%Z with (u32 a + b + -1 * 4294967296)%Z by lia.
    unfold u32. apply Z_mod_plus_full. }
  unfold s32 at 1 3. by rewrite Hu.
Qed.

(** ** Bit operations keep their width *)
Lemma lt_pow2_log2 n z : (0 < n → 0 ≤ z → z < 2 ^ n ↔ z = 0 ∨ Z.log2 z < n)%Z.
Proof.
  intros Hn Hz. destruct (decide (z = 0%Z)) as [->|Hne].
  - split; [by left|]. intros _. by apply Z.pow_pos_nonneg; lia.
  - rewrite <- Z.log2_lt_pow2 by lia. split; [by right|]. by intros [?|?].
Qed.

Section bit_widths.
Local Open Scope Z_scope.
Context (n : Z) (Hn : 0 < n).

Lemma land_bound_l x y : 0 ≤ x < 2 ^ n → 0 ≤ y → 0 ≤ Z.land x y < 2 ^ n.
Proof.
  intros [Hx Hxn] Hy. assert (0 ≤ Z.land x y) by (apply Z.land_nonneg; by left).
  split; [done|]. apply lt_pow2_log2; [done..|].
  destruct (decide (x = 0)) as [->|]; [left; apply Z.land_0_l|].
  right. pose proof (Z.log2_land x y Hx Hy).
  apply Z.log2_lt_pow2 in Hxn; lia.
Qed.

Lemma lor_bound x y : 0 ≤ x < 2 ^ n → 0 ≤ y < 2 ^ n → 0 ≤ Z.lor x y < 2 ^ n.
Proof.
  intros [Hx Hxn] [Hy Hyn].
  assert (0 ≤ Z.lor x y) by (by apply Z.lor_nonneg). split; [done|].
  apply lt_pow2_log2; [done..|]. right. rewrite Z.log2_lor by done.
  apply lt_pow2_log2 in Hxn as [->|]; apply lt_pow2_log2 in Hyn as [->|];
    try done; simpl; try lia.
Qed.

Lemma lxor_bound x y : 0 ≤ x < 2 ^ n → 0 ≤ y < 2 ^ n → 0 ≤ Z.lxor x y < 2 ^ n.
Proof.
  intros [Hx Hxn] [Hy Hyn].
  assert (0 ≤ Z.lxor x y) by (by apply Z.lxor_nonneg). split; [done|].
  apply lt_pow2_log2; [done..|]. right.
  pose proof (Z.log2_lxor x y Hx Hy).
  apply lt_pow2_log2 in Hxn as [->|]; apply lt_pow2_log2 in Hyn as [->|];
    try done; simpl in *; try lia.
Qed.
End bit_widths.

(** ** Errors as values: the sum monad *)
Global Instance sum_err_bind {E} : MBind (sum E) :=
  λ A B f m, match m with inl e => inl e | inr x => f x end.

Lemma bind_inr {E A B} (f : A → E + B) (m : E + A) y :
  m ≫= f = inr y → ∃ x, m = inr x ∧ f x = inr y.
Proof. destruct m; simpl; [done|]. eauto. Qed.

(** ** Lists used as C arrays *)
Definition zlen {A} (l : list A) : Z := Z.of_nat (length l).

(** [memcpy(dst + off, src, length src)] inside one array. *)
Definition memcpy {A} (dst : list A) (off : nat) (src : list A) : list A :=
  take off dst ++ src ++ drop (off + length src) dst.

Section memcpy.
Context {A : Type}.
Implicit Types (dst src : list A).

Lemma memcpy_length dst off src :
  off + length src ≤ length dst → length (memcpy dst off src) = length dst.
Proof.
  intros H. unfold memcpy. rewrite !length_app, length_take, length_drop. lia.
Qed.

Lemma memcpy_take dst off src :
  off ≤ length dst → take (off + length src) (memcpy dst off src) = take off dst ++ src.
Proof.
  intros H. unfold memcpy. rewrite app_assoc.
  rewrite take_app_length'; [done|]. rewrite length_app, length_take. lia.
Qed.

Lemma memcpy_whole dst src :
  length src = length dst → memcpy dst 0 src = src.
Proof.
  intros H. unfold memcpy. simpl. rewrite drop_ge by lia. by rewrite app_nil_r.
Qed.
End memcpy.

Lemma Forall_memcpy {A} (P : A → Prop) dst off src :
  Forall P dst → Forall P src → Forall P (memcpy dst off src).
Proof.
  intros. unfold memcpy. rewrite !Forall_app.
  split_and!; auto using Forall_take, Forall_drop.
Qed.

(** Two updates of the same array element. *)
Lemma list_alter_alter {A} (f g : A → A) (k : nat) (l : list A) :
  alter f k (alter g k l) = alter (λ x, f (g x)) k l.
Proof.
  apply list_eq. intros i. destruct (decide (k = i)) as [->|Hne].
  - rewrite !list_lookup_alter_eq. by destruct (l !! i).
  - by rewrite !list_lookup_alter_ne by done.
Qed.

Lemma list_alter_same {A} (f : A → A) (k : nat) (l : list A) :
  (∀ x, f x = x) → alter f k l = l.
Proof.
  intros Hf. apply list_eq. intros i. destruct (decide (k = i)) as [->|Hne].
  - rewrite list_lookup_alter_eq. destruct (l !! i); simpl; by rewrite ?Hf.
  - by rewrite list_lookup_alter_ne by done.
Qed.

(** One more element of a concatenation of per-element lists. *)
Lemma join_fmap_cons {A B} (f : A → list B) x l : mjoin (f <$> x :: l) = f x ++ mjoin (f <$> l).
Proof. done. Qed.

Lemma prefix_of_app_cases {A} (d a b : list A) :
  d `prefix_of` a ++ b → d `prefix_of` a ∨ ∃ d', d = a ++ d' ∧ d' `prefix_of` b.
Proof.
  intros [r Hr]. apply app_eq_inv in Hr as [(k & -> & ->)|(k & -> & ->)].
  - left. by exists k.
  - right. exists k. split; [done|]. by exists r.
Qed.

(** Strings as the C code sees them: the bytes before the NUL. *)
Definition bytes_of (s : string) : list Z :=
  (λ c, Z.of_nat (Ascii.nat_of_ascii c)) <$> String.list_ascii_of_string s.
