(* ===== verification/Text.v ===== *)
(** * Printed text: the conversions of printf both monitors use

    Text is a list of bytes without the terminator.  The conversions print machine words, so
    twenty decimal and sixteen hexadecimal digits are enough; [digits_value] shows that reading
    the digits back gives the number, and [digits_wf] which characters occur. *)
From S2P Require Import Prelude.
Local Open Scope Z_scope.

(** ** Conversions *)
Definition digit (upper : bool) (d : Z) : Z := if d <? 10 then 48 + d else (if upper then 55 else 87) + d.
Fixpoint digits_of (upper : bool) (fuel : nat) (base n : Z) : list Z :=
  match fuel with
  | O => []
  | S fuel => if n <? base then [digit upper n]
              else digits_of upper fuel base (n / base) ++ [digit upper (n mod base)]
  end.
Definition pad_zero (width : nat) (s : list Z) : list Z := replicate (width - length s) 48 ++ s.
(** %u, %lu, %llu; with a width [%0Nu], [%0Nx], [%0NX]; %d and %ld. *)
Definition fmt_u (n : Z) : list Z := digits_of true 20 10 n.
Definition fmt_0u (width : nat) (n : Z) : list Z := pad_zero width (fmt_u n).
Definition fmt_x (width : nat) (n : Z) : list Z := pad_zero width (digits_of false 16 16 n).
Definition fmt_X (width : nat) (n : Z) : list Z := pad_zero width (digits_of true 16 16 n).
Definition fmt_02d (n : Z) : list Z := fmt_0u 2 n.
Definition fmt_d (n : Z) : list Z := if n <? 0 then 45 :: fmt_u (- n) else fmt_u n.
(** [%-Ns] and [%Ns]. *)
Definition pad_right (width : nat) (s : list Z) : list Z := s ++ replicate (width - length s) 32.
Definition pad_left (width : nat) (s : list Z) : list Z := replicate (width - length s) 32 ++ s.
(** What snprintf (or [_TRUNCATE]) leaves in a buffer of [n] characters. *)
Definition truncate (n : nat) (s : list Z) : list Z := take (n - 1) s.

(** The characters before the first NUL. *)
Fixpoint c_string (l : list Z) : list Z :=
  match l with [] => [] | b :: l => if b =? 0 then [] else b :: c_string l end.

(** Bytes as a [string], for the components that keep one. *)
Definition string_of (l : list Z) : string :=
  String.string_of_list_ascii ((λ b, Ascii.ascii_of_nat (Z.to_nat b)) <$> l).

(** ** Characters *)
Definition alnum (b : Z) : Prop := 48 ≤ b ≤ 57 ∨ 65 ≤ b ≤ 90 ∨ 97 ≤ b ≤ 122.
Definition printable (b : Z) : Prop := 0x20 ≤ b ≤ 0x7e.
#[export] Instance printable_dec b : Decision (printable b).
Proof. unfold printable. apply _. Defined.

Lemma alnum_printable b : alnum b → printable b.
Proof. unfold alnum, printable. lia. Qed.

Lemma digit_alnum upper d : 0 ≤ d < 16 → alnum (digit upper d).
Proof. intros Hd. unfold digit, alnum. destruct (d <? 10) eqn:E; bool_props; destruct upper; lia. Qed.

Lemma digits_wf upper fuel base n : 2 ≤ base ≤ 16 → 0 ≤ n → Forall alnum (digits_of upper fuel base n).
Proof.
  intros Hb. revert n. induction fuel as [|fuel IH]; intros n Hn; simpl; [constructor|].
  destruct (n <? base) eqn:E; bool_props; [apply Forall_singleton, digit_alnum; lia|].
  apply Forall_app. split; [apply IH, Z.div_pos; lia|].
  apply Forall_singleton, digit_alnum. pose proof (Z.mod_pos_bound n base). lia.
Qed.

Lemma digits_length upper fuel base n : (length (digits_of upper fuel base n) ≤ fuel)%nat.
Proof.
  revert n. induction fuel as [|fuel IH]; intros n; simpl; [done|].
  destruct (n <? base); simpl; [lia|]. rewrite length_app. simpl. specialize (IH (n / base)). lia.
Qed.

Lemma digits_nonempty upper fuel base n : digits_of upper (S fuel) base n ≠ [].
Proof. simpl. destruct (n <? base); [done|]. by intros [_ ?]%app_eq_nil. Qed.

(** Reading decimal digits back. *)
Definition value10 (l : list Z) : Z := foldl (λ v b, v * 10 + (b - 48)) 0 l.
Lemma value10_app l b : value10 (l ++ [b]) = value10 l * 10 + (b - 48).
Proof. unfold value10. by rewrite foldl_app. Qed.

Lemma digits_decimal upper fuel n : 0 ≤ n → Forall (λ b, 48 ≤ b ≤ 57) (digits_of upper fuel 10 n).
Proof.
  revert n. induction fuel as [|fuel IH]; intros n Hn; simpl; [constructor|].
  destruct (n <? 10) eqn:E; bool_props.
  - apply Forall_singleton. unfold digit. rewrite (proj2 (Z.ltb_lt _ _)); lia.
  - pose proof (Z.mod_pos_bound n 10 ltac:(lia)). apply Forall_app. split; [apply IH, Z.div_pos; lia|].
    apply Forall_singleton. unfold digit. rewrite (proj2 (Z.ltb_lt _ _)); lia.
Qed.

Lemma digits_value upper fuel n :
  0 ≤ n < 10 ^ Z.of_nat fuel → value10 (digits_of upper fuel 10 n) = n.
Proof.
  revert n. induction fuel as [|fuel IH]; intros n Hn; [unfold value10; simpl in *; lia|].
  rewrite Nat2Z.inj_succ, Z.pow_succ_r in Hn by lia. cbn [digits_of].
  destruct (n <? 10) eqn:E; bool_props.
  - unfold value10, digit. cbn [foldl]. rewrite (proj2 (Z.ltb_lt _ _)) by lia. lia.
  - pose proof (Z.mod_pos_bound n 10 ltac:(lia)). rewrite value10_app, IH.
    + unfold digit. rewrite (proj2 (Z.ltb_lt _ _)) by lia. pose proof (Z.div_mod n 10). lia.
    + split; [apply Z.div_pos; lia|]. apply Z.div_lt_upper_bound; lia.
Qed.

Lemma pad_zero_wf width s : Forall alnum s → Forall alnum (pad_zero width s).
Proof.
  intros Hs. apply Forall_app. split; [|done]. apply Forall_replicate. unfold alnum. lia.
Qed.
Lemma fmt_u_wf n : 0 ≤ n → Forall alnum (fmt_u n).
Proof. intros. apply digits_wf; lia. Qed.
Lemma fmt_0u_wf w n : 0 ≤ n → Forall alnum (fmt_0u w n).
Proof. intros. by apply pad_zero_wf, fmt_u_wf. Qed.
Lemma fmt_x_wf w n : 0 ≤ n → Forall alnum (fmt_x w n).
Proof. intros. apply pad_zero_wf, digits_wf; lia. Qed.

Lemma fmt_u_value n : is_u64 n → value10 (fmt_u n) = n.
Proof. intros Hn. apply digits_value. unfold is_u64 in Hn. simpl. lia. Qed.

(** The same for lower-case hexadecimal digits. *)
Definition value16 (l : list Z) : Z := foldl (λ v b, v * 16 + (if b <? 58 then b - 48 else b - 87)) 0 l.
Lemma value16_app l b : value16 (l ++ [b]) = value16 l * 16 + (if b <? 58 then b - 48 else b - 87).
Proof. unfold value16. by rewrite foldl_app. Qed.
Lemma digit16_value d : 0 ≤ d < 16 → (if digit false d <? 58 then digit false d - 48 else digit false d - 87) = d.
Proof. intros Hd. unfold digit. destruct (d <? 10) eqn:E; bool_props; case_match; bool_props; lia. Qed.
Lemma digits16_value fuel n :
  0 ≤ n < 16 ^ Z.of_nat fuel → value16 (digits_of false fuel 16 n) = n.
Proof.
  revert n. induction fuel as [|fuel IH]; intros n Hn; [unfold value16; simpl in *; lia|].
  rewrite Nat2Z.inj_succ, Z.pow_succ_r in Hn by lia. cbn [digits_of].
  pose proof (Z.mod_pos_bound n 16 ltac:(lia)). destruct (n <? 16) eqn:E; bool_props.
  - unfold value16. cbn [foldl]. rewrite digit16_value; lia.
  - rewrite value16_app, digit16_value, IH by
      (done || (split; [apply Z.div_pos; lia|apply Z.div_lt_upper_bound; lia])).
    pose proof (Z.div_mod n 16). lia.
Qed.
Lemma value16_pad w s : value16 (pad_zero w s) = value16 s.
Proof.
  unfold pad_zero, value16. rewrite foldl_app. f_equal.
  induction (w - length s)%nat as [|k IH]; simpl; [done|exact IH].
Qed.
Lemma fmt_x_value w n : is_u64 n → value16 (fmt_x w n) = n.
Proof. intros Hn. unfold fmt_x. rewrite value16_pad. apply digits16_value. unfold is_u64 in Hn. simpl. lia. Qed.

Lemma Forall_truncate {P : Z → Prop} n s : Forall P s → Forall P (truncate n s).
Proof. apply Forall_take. Qed.
Lemma truncate_id n s : (length s < n)%nat → truncate n s = s.
Proof. intros. apply take_ge. lia. Qed.
Lemma truncate_length n s : (0 < n)%nat → (length (truncate n s) < n)%nat.
Proof. intros. unfold truncate. rewrite length_take. lia. Qed.

Lemma c_string_wf {P : Z → Prop} l : Forall P l → Forall P (c_string l).
Proof. induction 1; simpl; [constructor|]. case_match; constructor; auto. Qed.
Lemma c_string_nonzero l : Forall (λ b, b ≠ 0) (c_string l).
Proof. induction l as [|b l IH]; simpl; [constructor|]. destruct (b =? 0) eqn:E; bool_props; by constructor. Qed.

Lemma Forall_alnum_printable l : Forall alnum l → Forall printable l.
Proof. intros Hl. eapply Forall_impl; [exact Hl|apply alnum_printable]. Qed.

Create HintDb text.
#[export] Hint Resolve fmt_u_wf fmt_0u_wf fmt_x_wf Forall_alnum_printable Forall_truncate : text.

(** Concatenations of printable pieces; literals by evaluation. *)
Ltac printable_literal := apply (bool_decide_unpack _); vm_compute; exact I.
