(* ===== verification/Sha256.v ===== *)
(** * SHA-256, HMAC-SHA256 and the constant-time compare (linux/monitor/kg_hmac.c)

    The monitor carries its own streaming SHA-256.  [Section]s below give the
    context record [kg_sha256] and its three operations as the C code has them,
    the one-shot FIPS 180-4 reference [sha256_spec], and the refinement proof:
    feeding a message in any chunking and finalising yields the reference
    digest, and [kg_hmac_sha256] is RFC 2104's construction over it. *)
From S2P Require Import Prelude.
Local Open Scope Z_scope.

(** ** The block function *)
Definition K : list Z := [
  1116352408; 1899447441; 3049323471; 3921009573; 961987163; 1508970993; 2453635748; 2870763221;
  3624381080; 310598401; 607225278; 1426881987; 1925078388; 2162078206; 2614888103; 3248222580;
  3835390401; 4022224774; 264347078; 604807628; 770255983; 1249150122; 1555081692; 1996064986;
  2554220882; 2821834349; 2952996808; 3210313671; 3336571891; 3584528711; 113926993; 338241895;
  666307205; 773529912; 1294757372; 1396182291; 1695183700; 1986661051; 2177026350; 2456956037;
  2730485921; 2820302411; 3259730800; 3345764771; 3516065817; 3600352804; 4094571909; 275423344;
  430227734; 506948616; 659060556; 883997877; 958139571; 1322822218; 1537002063; 1747873779;
  1955562222; 2024104815; 2227730452; 2361852424; 2428436474; 2756734187; 3204031479; 3329325298 ].

Definition ROR (x n : Z) : Z := Z.lor (Z.shiftr x n) (u32 (Z.shiftl x (32 - n))).

(** [w[0..15]]: the block as big-endian words. *)
Definition load_be32 (p : list Z) (i : nat) : Z :=
  Z.lor (Z.lor (Z.lor (Z.shiftl (p !!! (i * 4)%nat) 24) (Z.shiftl (p !!! (i * 4 + 1)%nat) 16))
               (Z.shiftl (p !!! (i * 4 + 2)%nat) 8))
        (p !!! (i * 4 + 3)%nat).

(** One step of the schedule loop: appends [w[i]] where [i = length w]. *)
Definition sched_step (w : list Z) : list Z :=
  let i := length w in
  let x15 := w !!! (i - 15)%nat in
  let x2 := w !!! (i - 2)%nat in
  let s0 := Z.lxor (Z.lxor (ROR x15 7) (ROR x15 18)) (Z.shiftr x15 3) in
  let s1 := Z.lxor (Z.lxor (ROR x2 17) (ROR x2 19)) (Z.shiftr x2 10) in
  w ++ [u32 (w !!! (i - 16)%nat + s0 + w !!! (i - 7)%nat + s1)].

Definition schedule (p : list Z) : list Z :=
  Nat.iter 48 sched_step (load_be32 p <$> seq 0 16).

Record regs := Regs { ra : Z; rb : Z; rc : Z; rd : Z; re : Z; rf : Z; rg : Z; rh : Z }.

Definition round (w : list Z) (s : regs) (i : nat) : regs :=
  let t1 := u32 (rh s + Z.lxor (Z.lxor (ROR (re s) 6) (ROR (re s) 11)) (ROR (re s) 25)
                 + Z.lxor (Z.land (re s) (rf s)) (Z.land (u32 (Z.lnot (re s))) (rg s))
                 + K !!! i + w !!! i) in
  let t2 := u32 (Z.lxor (Z.lxor (ROR (ra s) 2) (ROR (ra s) 13)) (ROR (ra s) 22)
                 + Z.lxor (Z.lxor (Z.land (ra s) (rb s)) (Z.land (ra s) (rc s)))
                          (Z.land (rb s) (rc s))) in
  Regs (u32 (t1 + t2)) (ra s) (rb s) (rc s) (u32 (rd s + t1)) (re s) (rf s) (rg s).

Definition sha256_block (h : list Z) (p : list Z) : list Z :=
  let w := schedule p in
  let s := foldl (round w)
                 (Regs (h !!! 0%nat) (h !!! 1%nat) (h !!! 2%nat) (h !!! 3%nat)
                       (h !!! 4%nat) (h !!! 5%nat) (h !!! 6%nat) (h !!! 7%nat))
                 (seq 0 64) in
  [u32 (h !!! 0%nat + ra s); u32 (h !!! 1%nat + rb s); u32 (h !!! 2%nat + rc s);
   u32 (h !!! 3%nat + rd s); u32 (h !!! 4%nat + re s); u32 (h !!! 5%nat + rf s);
   u32 (h !!! 6%nat + rg s); u32 (h !!! 7%nat + rh s)].

(** ** The streaming context *)
Record kg_sha256 := Sha { sh : list Z; total : Z; buf : list Z; fill : nat }.

Definition iv : list Z :=
  [0x6a09e667; 0xbb67ae85; 0x3c6ef372; 0xa54ff53a; 0x510e527f; 0x9b05688c; 0x1f83d9ab; 0x5be0cd19].

(** [init] leaves [buf] as it finds it. *)
Definition kg_sha256_init (c : kg_sha256) : kg_sha256 := Sha iv 0 (buf c) 0.

(** The [while (len)] loop; [None] when the fuel runs out. *)
Fixpoint update_loop (fuel : nat) (c : kg_sha256) (data : list Z) : option kg_sha256 :=
  match data with
  | [] => Some c
  | _ =>
    match fuel with
    | O => None
    | S fuel =>
      let n := Nat.min (64 - fill c) (length data) in
      let b := memcpy (buf c) (fill c) (take n data) in
      let f := (fill c + n)%nat in
      let c' := if decide (f = 64%nat) then Sha (sha256_block (sh c) b) (total c) b 0
                else Sha (sh c) (total c) b f in
      update_loop fuel c' (drop n data)
    end
  end.

Definition kg_sha256_update (c : kg_sha256) (data : list Z) : option kg_sha256 :=
  update_loop (length data)
    (Sha (sh c) (u64 (total c + Z.of_nat (length data))) (buf c) (fill c)) data.

(** [while (c->fill != 56) kg_sha256_update(c, &zero, 1);] *)
Fixpoint pad_loop (fuel : nat) (c : kg_sha256) : option kg_sha256 :=
  if decide (fill c = 56%nat) then Some c
  else match fuel with
       | O => None
       | S fuel => c' ← kg_sha256_update c [0]; pad_loop fuel c'
       end.

Definition be64 (bits : Z) : list Z :=
  (λ i : nat, u8 (Z.shiftr bits (56 - 8 * Z.of_nat i))) <$> seq 0 8.

Definition store_be32 (x : Z) : list Z :=
  [u8 (Z.shiftr x 24); u8 (Z.shiftr x 16); u8 (Z.shiftr x 8); u8 x].

Definition kg_sha256_final (c : kg_sha256) : option (list Z) :=
  let bits := u64 (total c * 8) in
  c1 ← kg_sha256_update c [0x80];
  c2 ← pad_loop 64 c1;
  c3 ← kg_sha256_update c2 (be64 bits);
  Some (mjoin (store_be32 <$> sh c3)).

(** Stack memory before [kg_sha256_init] has run. *)
Definition ctx0 : kg_sha256 := Sha [] 0 (replicate 64 0) 0.

Definition kg_hmac_sha256 (key msg : list Z) : option (list Z) :=
  k ← (if decide (64 < length key)%nat
       then c ← kg_sha256_update (kg_sha256_init ctx0) key;
            d ← kg_sha256_final c;
            Some (memcpy (replicate 64 0) 0 d)
       else Some (memcpy (replicate 64 0) 0 key));
  let ipad := (λ x, Z.lxor x 0x36) <$> k in
  let opad := (λ x, Z.lxor x 0x5c) <$> k in
  c1 ← kg_sha256_update (kg_sha256_init ctx0) ipad;
  c2 ← kg_sha256_update c1 msg;
  inner ← kg_sha256_final c2;
  c3 ← kg_sha256_update (kg_sha256_init ctx0) opad;
  c4 ← kg_sha256_update c3 inner;
  kg_sha256_final c4.

(** [diff |= x[i] ^ y[i]] over [n] bytes, then [diff == 0]. *)
Definition kg_ct_equal (a b : list Z) (n : nat) : bool :=
  bool_decide (foldl (λ diff i, Z.lor diff (Z.lxor (a !!! i) (b !!! i))) 0 (seq 0 n) = 0).

(** ** Known-answer tests of [kg_hmac_selftest] *)
Definition hexval (c : Z) : Z :=
  if (48 <=? c) && (c <=? 57) then c - 48
  else if (97 <=? c) && (c <=? 102) then c - 97 + 10
  else -1.

Fixpoint hex_decode (s : list Z) : option (list Z) :=
  match s with
  | [] => Some []
  | c0 :: c1 :: s =>
    let hi := hexval c0 in
    let lo := hexval c1 in
    if (hi <? 0) || (lo <? 0) then None
    else r ← hex_decode s; Some (u8 (Z.lor (Z.shiftl hi 4) lo) :: r)
  | _ => None
  end.

Definition hex_eq (got : list Z) (want_hex : string) : bool :=
  match hex_decode (take 64 (bytes_of want_hex)) with
  | Some want => kg_ct_equal got want 32
  | None => false
  end.

Definition sha_case (msg : list Z) (want : string) : bool :=
  match c ← kg_sha256_update (kg_sha256_init ctx0) msg; kg_sha256_final c with
  | Some d => hex_eq d want
  | None => false
  end.

Definition hmac_case (key msg : list Z) (want : string) : bool :=
  match kg_hmac_sha256 key msg with
  | Some d => hex_eq d want
  | None => false
  end.

(** ** Reference: FIPS 180-4 padding and iteration, RFC 2104 *)
Fixpoint hash_blocks (n : nat) (h m : list Z) : list Z :=
  match n with
  | O => h
  | S n => hash_blocks n (sha256_block h (take 64 m)) (drop 64 m)
  end.

Definition zeros_for (len : nat) : nat := Z.to_nat ((55 - Z.of_nat len) mod 64).

Definition sha_pad (m : list Z) : list Z :=
  m ++ [0x80] ++ replicate (zeros_for (length m)) 0 ++ be64 (u64 (8 * Z.of_nat (length m))).

Definition sha256_spec (m : list Z) : list Z :=
  let p := sha_pad m in
  mjoin (store_be32 <$> hash_blocks (length p / 64) iv p).

Definition hmac_block_key (key : list Z) : list Z :=
  let k := if decide (64 < length key)%nat then sha256_spec key else key in
  k ++ replicate (64 - length k) 0.

Definition hmac_spec (key msg : list Z) : list Z :=
  let k := hmac_block_key key in
  sha256_spec (((λ x, Z.lxor x 0x5c) <$> k)
               ++ sha256_spec (((λ x, Z.lxor x 0x36) <$> k) ++ msg)).

(** ** Block iteration *)
Lemma hash_blocks_last n h m :
  hash_blocks (S n) h m = sha256_block (hash_blocks n h m) (take 64 (drop (64 * n) m)).
Proof.
  revert h m. induction n as [|n IH]; intros h m; [done|].
  change (hash_blocks (S (S n)) h m)
    with (hash_blocks (S n) (sha256_block h (take 64 m)) (drop 64 m)).
  rewrite IH, drop_drop. replace (64 * S n)%nat with (64 + 64 * n)%nat by lia. reflexivity.
Qed.

Lemma hash_blocks_app n h m x :
  (64 * n ≤ length m)%nat → hash_blocks n h (m ++ x) = hash_blocks n h m.
Proof.
  revert h m. induction n as [|n IH]; intros h m Hlen; [done|].
  simpl. rewrite take_app_le by lia. rewrite drop_app_le by lia.
  apply IH. rewrite length_drop. lia.
Qed.

Lemma sha256_block_wf h p : length (sha256_block h p) = 8%nat ∧ Forall is_u32 (sha256_block h p).
Proof. split; [done|]. repeat constructor; apply u32_range. Qed.

Lemma hash_blocks_wf n h m :
  length h = 8%nat → Forall is_u32 h →
  length (hash_blocks n h m) = 8%nat ∧ Forall is_u32 (hash_blocks n h m).
Proof.
  destruct n as [|n]; [done|]. intros _ _. rewrite hash_blocks_last. apply sha256_block_wf.
Qed.

(** ** The context as a partially absorbed message *)
Record absorbed (c : kg_sha256) (m : list Z) : Prop := Absorbed {
  ab_fill : fill c = (length m mod 64)%nat;
  ab_buf : length (buf c) = 64%nat;
  ab_tail : take (fill c) (buf c) = drop (64 * (length m / 64)) m;
  ab_hash : sh c = hash_blocks (length m / 64) iv m
}.

Lemma absorbed_init c : length (buf c) = 64%nat → absorbed (kg_sha256_init c) [].
Proof. intros. by constructor. Qed.

(** One iteration of the update loop: at most the free part of the buffer. *)
Lemma absorb_chunk c m x :
  absorbed c m → (fill c + length x ≤ 64)%nat →
  absorbed (if decide (fill c + length x = 64)%nat
            then Sha (sha256_block (sh c) (memcpy (buf c) (fill c) x)) (total c)
                     (memcpy (buf c) (fill c) x) 0
            else Sha (sh c) (total c) (memcpy (buf c) (fill c) x) (fill c + length x))
           (m ++ x).
Proof.
  intros [Hf Hb Ht Hh] Hle.
  pose proof (Nat.div_mod_eq (length m) 64) as Hdm.
  pose proof (Nat.mod_upper_bound (length m) 64 ltac:(lia)) as Hmod.
  set (q := (length m / 64)%nat) in *.
  assert (Hbuf : length (memcpy (buf c) (fill c) x) = 64%nat)
    by (rewrite memcpy_length; lia).
  assert (Hpre : take (fill c + length x) (memcpy (buf c) (fill c) x)
                 = drop (64 * q) (m ++ x)).
  { rewrite memcpy_take by lia. rewrite drop_app_le by lia. by rewrite Ht. }
  case_decide as Hfull.
  - assert (Hdiv : (length (m ++ x) / 64 = S q)%nat)
      by (rewrite length_app; symmetry; apply Nat.div_unique with 0%nat; lia).
    constructor; cbn [fill buf sh]; rewrite ?Hdiv.
    + rewrite length_app. apply Nat.mod_unique with (S q); lia.
    + done.
    + rewrite take_0, drop_ge; [done|]. rewrite length_app. lia.
    + rewrite hash_blocks_last, hash_blocks_app by lia. rewrite <- Hpre, Hfull, Hh.
      rewrite take_take. by rewrite take_ge by lia.
  - assert (Hdiv : (length (m ++ x) / 64 = q)%nat)
      by (rewrite length_app; symmetry; apply Nat.div_unique with (fill c + length x)%nat; lia).
    constructor; cbn [fill buf sh]; rewrite ?Hdiv.
    + rewrite length_app. apply Nat.mod_unique with q; lia.
    + done.
    + done.
    + by rewrite hash_blocks_app by lia.
Qed.

Lemma update_loop_absorbs fuel c m data :
  absorbed c m → (length data ≤ fuel)%nat →
  ∃ c', update_loop fuel c data = Some c' ∧ absorbed c' (m ++ data) ∧ total c' = total c.
Proof.
  revert c m data. induction fuel as [|fuel IH]; intros c m data Hc Hlen.
  - destruct data; [|simpl in Hlen; lia]. exists c. by rewrite app_nil_r.
  - destruct data as [|d data]; [exists c; by rewrite app_nil_r|].
    set (l := d :: data) in *.
    pose proof (Nat.mod_upper_bound (length m) 64 ltac:(lia)) as Hmod.
    pose proof (ab_fill _ _ Hc) as Hf.
    set (n := Nat.min (64 - fill c) (length l)).
    assert (Hl : length l = S (length data)) by done.
    assert (Hn : length (take n l) = n) by (rewrite length_take; lia).
    pose proof (absorb_chunk c m (take n l) Hc ltac:(lia)) as Hstep.
    rewrite Hn in Hstep.
    destruct (IH _ _ (drop n l) Hstep) as (c' & Hrun & Habs & Htot).
    { rewrite length_drop. lia. }
    exists c'. split_and!.
    + exact Hrun.
    + by rewrite <- app_assoc, take_drop in Habs.
    + rewrite Htot. by case_decide.
Qed.

(** The whole streaming state: [total] counts the message modulo 2^64. *)
Definition streams (c : kg_sha256) (m : list Z) : Prop :=
  absorbed c m ∧ total c = u64 (Z.of_nat (length m)).

Lemma streams_init c : length (buf c) = 64%nat → streams (kg_sha256_init c) [].
Proof. split; [by apply absorbed_init | done]. Qed.

Lemma update_streams c m data :
  streams c m → ∃ c', kg_sha256_update c data = Some c' ∧ streams c' (m ++ data).
Proof.
  intros [Ha Ht].
  destruct (update_loop_absorbs (length data)
              (Sha (sh c) (u64 (total c + Z.of_nat (length data))) (buf c) (fill c)) m data)
    as (c' & Hrun & Habs & Htot); [destruct Ha; by constructor | done |].
  exists c'. split; [exact Hrun|]. split; [done|].
  rewrite Htot. cbn [total]. rewrite Ht, u64_add_wrap. f_equal. rewrite length_app. lia.
Qed.

Lemma pad_loop_streams k fuel c m :
  streams c m → (k ≤ fuel)%nat → (k < 64)%nat → ((length m + k) mod 64 = 56)%nat →
  ∃ c', pad_loop fuel c = Some c' ∧ streams c' (m ++ replicate k 0).
Proof.
  revert fuel c m. induction k as [|k IH]; intros fuel c m Hs Hfuel Hk Hmod.
  - exists c. rewrite app_nil_r. split; [|done].
    pose proof (ab_fill _ _ (proj1 Hs)) as Hf. rewrite Nat.add_0_r in Hmod.
    destruct fuel; simpl; by rewrite decide_True by lia.
  - destruct fuel as [|fuel]; [lia|]. simpl.
    pose proof (ab_fill _ _ (proj1 Hs)) as Hf.
    rewrite decide_False.
    2:{ rewrite Hf. pose proof (Nat.div_mod_eq (length m) 64).
        pose proof (Nat.div_mod_eq (length m + S k) 64). lia. }
    destruct (update_streams c m [0] Hs) as (c1 & -> & Hs1). simpl.
    destruct (IH fuel c1 (m ++ [0]) Hs1 ltac:(lia) ltac:(lia)) as (c2 & -> & Hs2).
    { replace (length (m ++ [0%Z]) + k)%nat with (length m + S k)%nat; [done|].
      rewrite length_app. cbn [length]. lia. }
    exists c2. split; [done|]. by rewrite <- app_assoc in Hs2.
Qed.

Lemma zeros_for_spec len :
  (zeros_for len < 64)%nat ∧ ((len + 1 + zeros_for len) mod 64 = 56)%nat.
Proof.
  unfold zeros_for. split.
  - pose proof (Z.mod_pos_bound (55 - Z.of_nat len) 64 ltac:(lia)). lia.
  - apply Nat2Z.inj. rewrite Nat2Z.inj_mod, !Nat2Z.inj_add, Z2Nat.id
      by (apply Z.mod_pos_bound; lia).
    change (Z.of_nat 1) with 1. change (Z.of_nat 64) with 64. change (Z.of_nat 56) with 56.
    Z.div_mod_to_equations. lia.
Qed.

(** The bytes [final] feeds are the FIPS padding. *)
Lemma sha_pad_streamed c m :
  total c = u64 (Z.of_nat (length m)) →
  ((m ++ [0x80]) ++ replicate (zeros_for (length m)) 0) ++ be64 (u64 (total c * 8)) = sha_pad m.
Proof.
  intros ->. unfold sha_pad. rewrite <- !app_assoc.
  replace (u64 (u64 (Z.of_nat (length m)) * 8)) with (u64 (8 * Z.of_nat (length m))); [done|].
  unfold u64. by rewrite Zmult_mod_idemp_l, Z.mul_comm.
Qed.

Lemma final_streams c m :
  streams c m → kg_sha256_final c = Some (sha256_spec m).
Proof.
  intros Hs. unfold kg_sha256_final.
  destruct (update_streams c m [0x80] Hs) as (c1 & -> & Hs1). bind_simpl.
  pose proof (zeros_for_spec (length m)) as [Hz1 Hz2].
  destruct (pad_loop_streams (zeros_for (length m)) 64 c1 (m ++ [0x80]))
    as (c2 & -> & Hs2); [done|lia|lia|by rewrite length_app|]. bind_simpl.
  destruct (update_streams c2 _ (be64 (u64 (total c * 8))) Hs2) as (c3 & -> & Hs3). bind_simpl.
  rewrite (sha_pad_streamed c m (proj2 Hs)) in Hs3.
  unfold sha256_spec. by rewrite (ab_hash _ _ (proj1 Hs3)).
Qed.

(** ** The properties of the component *)

(** C36 — feeding a message in any sequence of chunks and finalising returns the FIPS 180-4
    digest of their concatenation, whatever the context held before [init]. *)
Theorem kg_sha256_streaming_correct c chunks :
  length (buf c) = 64%nat →
  (c' ← foldl (λ o d, c' ← o; kg_sha256_update c' d) (Some (kg_sha256_init c)) chunks;
   kg_sha256_final c') = Some (sha256_spec (mjoin chunks)).
Proof.
  intros Hb.
  assert (Hgen : ∀ ds c0 m, streams c0 m →
    ∃ c', foldl (λ o d, c' ← o; kg_sha256_update c' d) (Some c0) ds = Some c'
          ∧ streams c' (m ++ mjoin ds)).
  { induction ds as [|d ds IH]; intros c0 m Hs; simpl.
    - exists c0. by rewrite app_nil_r.
    - destruct (update_streams c0 m d Hs) as (c1 & -> & Hs1).
      destruct (IH c1 _ Hs1) as (c2 & ? & ?). exists c2. by rewrite <- app_assoc in *. }
  destruct (Hgen chunks _ [] (streams_init c Hb)) as (c' & -> & Hs). bind_simpl.
  by apply final_streams.
Qed.

Lemma kg_sha256_streaming_correct_witness :
  (c' ← foldl (λ o d, c' ← o; kg_sha256_update c' d) (Some (kg_sha256_init ctx0))
          [bytes_of "a"; []; bytes_of "bc"]; kg_sha256_final c')
  = Some (sha256_spec (bytes_of "abc")).
Proof.
  apply (kg_sha256_streaming_correct ctx0 [bytes_of "a"; []; bytes_of "bc"]). reflexivity.
Defined.

(** One-shot use, as [kg_hmac_sha256], [sha_case] and [kg_modid_parse] do it. *)
Lemma sha256_oneshot c msg :
  length (buf c) = 64%nat →
  (c' ← kg_sha256_update (kg_sha256_init c) msg; kg_sha256_final c') = Some (sha256_spec msg).
Proof.
  intros Hb. destruct (update_streams _ [] msg (streams_init c Hb)) as (c' & -> & Hs). bind_simpl.
  by apply final_streams.
Qed.

Lemma sha256_twoshot c x y :
  length (buf c) = 64%nat →
  (c1 ← kg_sha256_update (kg_sha256_init c) x;
   c2 ← kg_sha256_update c1 y; kg_sha256_final c2) = Some (sha256_spec (x ++ y)).
Proof.
  intros Hb. destruct (update_streams _ [] x (streams_init c Hb)) as (c1 & -> & Hs1). bind_simpl.
  destruct (update_streams _ _ y Hs1) as (c2 & -> & Hs2). bind_simpl. by apply final_streams.
Qed.

Lemma sha256_spec_wf m : length (sha256_spec m) = 32%nat ∧ Forall is_u8 (sha256_spec m).
Proof.
  unfold sha256_spec.
  destruct (hash_blocks_wf (length (sha_pad m) / 64) iv (sha_pad m)) as [Hl _];
    [done | by repeat constructor |].
  remember (hash_blocks _ iv _) as h eqn:E. clear E.
  do 8 (destruct h as [|? h]; [done|]). destruct h; [|done].
  split; [done|]. simpl. repeat constructor; apply u8_range.
Qed.

Lemma memcpy_pad k : (length k ≤ 64)%nat →
  memcpy (replicate 64 0) 0 k = k ++ replicate (64 - length k) 0.
Proof. intros H. unfold memcpy. by rewrite take_0, drop_replicate. Qed.

Lemma hmac_sha256_eq key msg :
  kg_hmac_sha256 key msg = Some (hmac_spec key msg).
Proof.
  unfold kg_hmac_sha256.
  assert (Hk : (if decide (64 < length key)%nat
                then c ← kg_sha256_update (kg_sha256_init ctx0) key;
                     d ← kg_sha256_final c;
                     Some (memcpy (replicate 64 0) 0 d)
                else Some (memcpy (replicate 64 0) 0 key)) = Some (hmac_block_key key)).
  { unfold hmac_block_key. case_decide.
    - pose proof (sha256_oneshot ctx0 key eq_refl) as H1.
      destruct (kg_sha256_update _ key) as [c|]; [|done]. simpl in *.
      rewrite H1. simpl. rewrite memcpy_pad; [done|].
      by rewrite (proj1 (sha256_spec_wf key)); lia.
    - by rewrite memcpy_pad by lia. }
  rewrite Hk. simpl.
  set (ipad := (λ x, Z.lxor x 54) <$> hmac_block_key key).
  set (opad := (λ x, Z.lxor x 92) <$> hmac_block_key key).
  pose proof (sha256_twoshot ctx0 ipad msg eq_refl) as Hi.
  destruct (kg_sha256_update _ ipad) as [c1|]; [|done]. simpl in *.
  destruct (kg_sha256_update c1 msg) as [c2|]; [|done]. simpl in *. rewrite Hi. simpl.
  pose proof (sha256_twoshot ctx0 opad (sha256_spec (ipad ++ msg)) eq_refl) as Ho.
  destruct (kg_sha256_update _ opad) as [c3|]; [|done]. simpl in *.
  destruct (kg_sha256_update c3 _) as [c4|]; [|done]. by simpl in *.
Qed.

(** [kg_hmac_sha256] always returns, and returns RFC 2104's
    H((K xor opad) || H((K xor ipad) || msg)) for keys of every length. *)
Theorem kg_hmac_sha256_correct key msg :
  kg_hmac_sha256 key msg = Some (hmac_spec key msg).
Proof. apply hmac_sha256_eq. Qed.

Lemma hmac_spec_wf key msg : length (hmac_spec key msg) = 32%nat ∧ Forall is_u8 (hmac_spec key msg).
Proof. apply sha256_spec_wf. Qed.

Lemma ct_fold_zero (a b : list Z) (idx : list nat) d :
  foldl (λ diff i, Z.lor diff (Z.lxor (a !!! i) (b !!! i))) d idx = 0
  ↔ d = 0 ∧ ∀ i, i ∈ idx → a !!! i = b !!! i.
Proof.
  revert d. induction idx as [|i idx IH]; intros d; simpl.
  - split; [intros ->; split; [done|set_solver] | by intros [-> _]].
  - rewrite IH, Z.lor_eq_0_iff, Z.lxor_eq_0_iff. set_solver.
Qed.

Lemma ct_equal_iff a b n :
  (n ≤ length a)%nat → (n ≤ length b)%nat →
  kg_ct_equal a b n = true ↔ take n a = take n b.
Proof.
  intros Ha Hb. unfold kg_ct_equal. rewrite bool_decide_eq_true, ct_fold_zero. split.
  - intros [_ H]. apply list_eq. intros i.
    destruct (decide (i < n)%nat) as [Hi|].
    + rewrite !lookup_take_lt by done.
      specialize (H i). rewrite elem_of_seq in H. specialize (H ltac:(lia)).
      rewrite !list_lookup_total_alt in H.
      destruct (lookup_lt_is_Some_2 a i ltac:(lia)) as [x Hx].
      destruct (lookup_lt_is_Some_2 b i ltac:(lia)) as [y Hy].
      rewrite Hx, Hy in *. simpl in H. by f_equal.
    + by rewrite !lookup_take_ge by lia.
  - intros H. split; [done|]. intros i Hi. rewrite elem_of_seq in Hi.
    rewrite !list_lookup_total_alt. f_equal.
    rewrite <- (lookup_take_lt a n i), <- (lookup_take_lt b n i) by lia. by rewrite H.
Qed.

(** [kg_ct_equal] is equality of the compared prefixes: every byte takes part,
    wherever the first difference is. *)
Theorem kg_ct_equal_spec a b n :
  (n ≤ length a)%nat → (n ≤ length b)%nat →
  kg_ct_equal a b n = true ↔ take n a = take n b.
Proof. apply ct_equal_iff. Qed.

Lemma kg_ct_equal_spec_witness :
  kg_ct_equal [1; 2; 3] [1; 2; 4] 2 = true ∧ kg_ct_equal [1; 2; 3] [1; 2; 4] 3 = false.
Proof.
  split; [apply kg_ct_equal_spec; simpl; by repeat constructor|].
  apply not_true_is_false. intros Heq. apply kg_ct_equal_spec in Heq; [|simpl; lia..].
  discriminate Heq.
Defined.

(** The implementation passes its own FIPS 180-4 and RFC 4231 vectors. *)
Theorem kg_hmac_vectors :
  sha_case [] "e3b0c44298fc1c149afbf4c8996fb92427ae41e4649b934ca495991b7852b855" = true
  ∧ sha_case (bytes_of "abc")
      "ba7816bf8f01cfea414140de5dae2223b00361a396177a9cb410ff61f20015ad" = true
  ∧ sha_case (bytes_of "abcdbcdecdefdefgefghfghighijhijkijkljklmklmnlmnomnopnopq")
      "248d6a61d20638b8e5c026930c3e6039a33ce45964ff2167f6ecedd419db06c1" = true
  ∧ hmac_case (replicate 20 0x0b) (bytes_of "Hi There")
      "b0344c61d8db38535ca8afceaf0bf12b881dc200c9833da726e9376c2e32cff7" = true
  ∧ hmac_case (bytes_of "Jefe") (bytes_of "what do ya want for nothing?")
      "5bdcc146bf60754e6a042426089575c75a003f089d2739839dec58b964ec3843" = true
  ∧ hmac_case (replicate 131 0xaa)
      (bytes_of "Test Using Larger Than Block-Size Key - Hash Key First")
      "60e431591ee0b67f0d8a26aacbf5b77f8e0bc6213728c5140546040f0ee37f54" = true.
Proof. by vm_compute. Qed.
