(* ===== verification/Uapi.v ===== *)
(** * The ABI shared by the kernel module and the monitor
      (linux/include/kernelguard_uapi.h)

    Alert codes, levels, postures, strategies and flag bits, and the
    authenticated notification with its 40-byte wire prefix.  The layout facts
    here are what both ends rely on: the prefix is 40 bytes long and determines
    every field it carries, so the HMAC covers the whole content. *)
From S2P Require Import Prelude.
Local Open Scope Z_scope.

(** ** Constants *)
Definition KG_NOTIFY_SLOTS : Z := 16.
Definition KG_NOTIFY_MAGIC : Z := 0xDEADC0DE.
Definition KG_HMAC_AUTH_LEN : nat := 40.

Definition KG_LEVEL_INFO : Z := 0.
Definition KG_LEVEL_WATCH : Z := 1.
Definition KG_LEVEL_CRITICAL : Z := 2.

Definition KG_ALERT_PMU_L1D_ANOMALY : Z := 0x0001.
Definition KG_ALERT_PMU_L2_ANOMALY : Z := 0x0002.
Definition KG_ALERT_PMU_RDTSC_RATE : Z := 0x0003.
Definition KG_ALERT_UNAUTHORIZED_KBD_FILTER : Z := 0x0010.
Definition KG_ALERT_UNAUTHORIZED_DMA : Z := 0x0011.
Definition KG_ALERT_PCI_DISCREPANCY : Z := 0x0012.
Definition KG_ALERT_KBD_FILTER_NEUTRALIZED : Z := 0x0013.
Definition KG_ALERT_DMA_BLOCKED_IOMMU : Z := 0x0014.
Definition KG_ALERT_DEVICE_BME_DISABLED : Z := 0x0015.
Definition KG_ALERT_IDT_HOOK : Z := 0x0020.
Definition KG_ALERT_DISPATCH_HOOK : Z := 0x0021.
Definition KG_ALERT_TEXT_PATCH : Z := 0x0022.
Definition KG_ALERT_CTRL_REG_TAMPER : Z := 0x0023.
Definition KG_ALERT_MODULE_LOADED : Z := 0x0024.
Definition KG_ALERT_VULN_DRIVER : Z := 0x0025.
Definition KG_ALERT_DRIVER_BLOCKED : Z := 0x0026.
Definition KG_ALERT_LOAD_POLICY : Z := 0x0027.
Definition KG_ALERT_SHARED_STATE_CORRUPT : Z := 0x0030.
Definition KG_ALERT_FAIL_SAFE_ENTERED : Z := 0x0031.
Definition KG_ALERT_POSTURE_CHANGED : Z := 0x0032.

Definition KG_TEXTF_KERNEL : Z := 0x1.
Definition KG_TEXTF_UNKNOWN_TARGET : Z := 0x2.
Definition KG_TEXTF_BREAKPOINT : Z := 0x4.

Definition KG_LP_NO_SIG_ENFORCE : Z := 0x0001.
Definition KG_LP_NO_LOCKDOWN : Z := 0x0002.
Definition KG_LP_NO_SECUREBOOT : Z := 0x0004.
Definition KG_LP_RAW_SIG_ENFORCE : Z := 0x0001.
Definition KG_LP_RAW_LOCKDOWN : Z := 0x0002.
Definition KG_LP_RAW_SECUREBOOT : Z := 0x0004.
Definition KG_LP_RAW_SIG_BUILT : Z := 0x0008.

Definition KG_MIT_VERW : Z := 0x01.
Definition KG_MIT_L1D_FLUSH : Z := 0x02.
Definition KG_MIT_IBPB : Z := 0x04.
Definition KG_MIT_FAIL_SAFE : Z := 0x08.

Definition KG_STRAT_NONE : Z := 0.
Definition KG_STRAT_VERW : Z := 1.
Definition KG_STRAT_L1D : Z := 2.
Definition KG_STRAT_VERW_L1D : Z := 3.
Definition KG_STRAT_FULL : Z := 4.

Definition KG_FEAT_MDS_NO : Z := 0x0001.
Definition KG_FEAT_L1TF_NO : Z := 0x0002.
Definition KG_FEAT_RDCL_NO : Z := 0x0004.
Definition KG_FEAT_IBRS_ALL : Z := 0x0008.
Definition KG_FEAT_VERW_FLUSH : Z := 0x0010.
Definition KG_FEAT_L1D_FLUSH : Z := 0x0020.
Definition KG_FEAT_SSB_NO : Z := 0x0040.
Definition KG_FEAT_IBPB : Z := 0x0080.
Definition KG_FEAT_CAT_L3 : Z := 0x0100.
Definition KG_FEAT_SMT : Z := 0x0200.
Definition KG_FEAT_ARCH_CAP_MSR : Z := 0x0400.

Definition KG_POSTURE_NORMAL : Z := 0.
Definition KG_POSTURE_ELEVATED : Z := 1.
Definition KG_POSTURE_HIGH : Z := 2.
Definition KG_POSTURE_FAILSAFE : Z := 3.
Definition KG_POSTURE_COUNT : Z := 4.
Definition KG_POSTURE_WHY_DECAY : Z := 2.
Definition KG_POSTURE_WHY_OPERATOR : Z := 3.

(** Error numbers the module returns (negated, as in the kernel). *)
Inductive errno :=
  | EPERM | ENOENT | ENOMEM | EFAULT | EBUSY | ENODEV | EINVAL | ENOTTY | ENOSPC | ERANGE
  | ENODATA | EUCLEAN | EOTHER (e : Z).

#[export] Instance errno_eq_dec : EqDecision errno.
Proof. solve_decision. Defined.

(** ** Notifications *)
Record kg_notification := Notif {
  magic : Z;
  sequence : Z;
  alert_type : Z;
  alert_level : Z;
  timestamp : Z;
  param1 : Z;
  param2 : Z;
  hmac : list Z
}.

#[export] Instance kg_notification_eq_dec : EqDecision kg_notification.
Proof. solve_decision. Defined.

Record kg_shared_region := Region {
  write_index : Z;
  read_index : Z;
  driver_nonce : Z;
  reserved : Z;
  notifications : list kg_notification
}.

(** A field of [n] bytes as x86-64 stores it. *)
Fixpoint le_bytes (n : nat) (z : Z) : list Z :=
  match n with
  | O => []
  | S n => z mod 256 :: le_bytes n (z / 256)
  end.

(** Bytes [[0, KG_HMAC_AUTH_LEN)] of the structure. *)
Definition auth_bytes (n : kg_notification) : list Z :=
  le_bytes 4 (magic n) ++ le_bytes 4 (sequence n) ++ le_bytes 4 (alert_type n)
  ++ le_bytes 4 (alert_level n) ++ le_bytes 8 (timestamp n)
  ++ le_bytes 8 (param1 n) ++ le_bytes 8 (param2 n).

Definition zero_notification : kg_notification := Notif 0 0 0 0 0 0 0 (replicate 32 0).

#[export] Instance kg_notification_inhabited : Inhabited kg_notification :=
  populate zero_notification.

(** Field ranges the C types impose. *)
Definition notif_typed (n : kg_notification) : Prop :=
  is_u32 (magic n) ∧ is_u32 (sequence n) ∧ is_u32 (alert_type n) ∧ is_u32 (alert_level n)
  ∧ is_u64 (timestamp n) ∧ is_u64 (param1 n) ∧ is_u64 (param2 n)
  ∧ length (hmac n) = 32%nat.

(** ** Layout facts *)
Lemma le_bytes_length n z : length (le_bytes n z) = n.
Proof. revert z. induction n; intros; simpl; auto. Qed.

Lemma le_bytes_u8 n z : Forall is_u8 (le_bytes n z).
Proof.
  revert z. induction n; intros z; simpl; constructor; auto.
  unfold is_u8. apply Z.mod_pos_bound. lia.
Qed.

Lemma le_bytes_inj n x y :
  0 ≤ x < 256 ^ Z.of_nat n → 0 ≤ y < 256 ^ Z.of_nat n → le_bytes n x = le_bytes n y → x = y.
Proof.
  revert x y. induction n as [|n IH]; intros x y Hx Hy Heq.
  - simpl in *. lia.
  - simpl in Heq. injection Heq as Hm Hd.
    rewrite Nat2Z.inj_succ, Z.pow_succ_r in Hx, Hy by lia.
    apply IH in Hd; [|Z.div_mod_to_equations; lia..].
    rewrite (Z.div_mod x 256), (Z.div_mod y 256) by lia. lia.
Qed.

Lemma le_bytes_app_inj n x y l k :
  le_bytes n x ++ l = le_bytes n y ++ k → le_bytes n x = le_bytes n y ∧ l = k.
Proof. intros H. apply app_inj_1 in H; [done|]. by rewrite !le_bytes_length. Qed.

Lemma le_bytes_u32_inj x y : is_u32 x → is_u32 y → le_bytes 4 x = le_bytes 4 y → x = y.
Proof. intros Hx Hy. by apply le_bytes_inj. Qed.
Lemma le_bytes_u64_inj x y : is_u64 x → is_u64 y → le_bytes 8 x = le_bytes 8 y → x = y.
Proof. intros Hx Hy. by apply le_bytes_inj. Qed.
Lemma le_bytes_u16_inj x y : is_u16 x → is_u16 y → le_bytes 2 x = le_bytes 2 y → x = y.
Proof. intros Hx Hy. by apply le_bytes_inj. Qed.
Lemma le_bytes_u8_inj x y : is_u8 x → is_u8 y → le_bytes 1 x = le_bytes 1 y → x = y.
Proof. intros Hx Hy. by apply le_bytes_inj. Qed.

(** Peel the fields of two equal serialisations, front to back. *)
Ltac le_peel H :=
  repeat match type of H with
  | le_bytes ?n ?x ++ _ = le_bytes ?n ?y ++ _ =>
      let H1 := fresh "Hf" in apply le_bytes_app_inj in H as [H1 H]
  end.

Lemma auth_bytes_length n : length (auth_bytes n) = KG_HMAC_AUTH_LEN.
Proof. unfold auth_bytes. by rewrite !length_app, !le_bytes_length. Qed.

Lemma auth_bytes_inj n m :
  notif_typed n → notif_typed m → auth_bytes n = auth_bytes m →
  magic n = magic m ∧ sequence n = sequence m ∧ alert_type n = alert_type m
  ∧ alert_level n = alert_level m ∧ timestamp n = timestamp m
  ∧ param1 n = param1 m ∧ param2 n = param2 m.
Proof.
  intros Hn Hm H. unfold auth_bytes in H. le_peel H.
  destruct Hn as (?&?&?&?&?&?&?&_), Hm as (?&?&?&?&?&?&?&_).
  split_and!; auto using le_bytes_u32_inj, le_bytes_u64_inj.
Qed.
