(* ===== verification/Kernel.v ===== *)
(** * The module's global state and its platform (linux/module/kg.h)

    The C module keeps its state in file-level variables.  [world] collects the
    ones the modelled components share; each component's file changes its own
    part through the setters below.  What the running kernel supplies is in two
    classes: [Crypto], the crypto API transforms, fixed for the life of the
    module, and [Platform], the machine seen by one operation (CPUs, topology,
    clocks), so a run may see a different machine at every step. *)
From S2P Require Import Prelude Uapi.
Local Open Scope Z_scope.

(** ** Integrity-protected policy state *)
Record kg_cpu_mit := CpuMit {
  features : Z;
  strategy : Z;
  base_strategy : Z;
  flush_cost_ns : Z;
  cat_ways : Z;
  mpad : Z;
  cat_sens_cbm : Z;
  cat_def_cbm : Z
}.

Record kg_guard_hdr := Hdr {
  hmagic : Z;
  abi : Z;
  ncpu : Z;
  failsafe : Z;
  posture : Z
}.

Record kg_guard := Guard {
  hdr : kg_guard_hdr;
  cpu : option (list kg_cpu_mit);     (* NULL before kg_mit_init and after kg_mit_exit *)
  digest : list Z;
  valid : bool
}.

Definition zero_cpu_mit : kg_cpu_mit := CpuMit 0 0 0 0 0 0 0 0.
#[export] Instance kg_cpu_mit_inhabited : Inhabited kg_cpu_mit := populate zero_cpu_mit.
#[export] Instance kg_cpu_mit_eq_dec : EqDecision kg_cpu_mit.
Proof. solve_decision. Defined.

(** ** Live statistics ([struct kg_kstats]) *)
Inductive stat :=
  | pmu_alert_level | pmu_l1d_overflows | pmu_llc_overflows | hw_discrepancy_count
  | hw_dma_violation_count | idt_hook_detected | dispatch_hook_detected | text_patch_detected
  | failed_module_hash_count | text_dynamic_patches | sens_page_count
  | active_mitigation_flags | total_flush_count | notifications_sent
  | fallback_signals_sent | notifications_dropped.
#[export] Instance stat_eq_dec : EqDecision stat.
Proof. solve_decision. Defined.

(** ** Posture bookkeeping (the statics of kg_posture.c) *)
Record kg_pos := Pos {
  pos_ready : bool;
  pos_untrusted : bool;
  pos_since_ns : Z;
  pos_trigger_ns : Z;
  pos_trigger_mono : Z;
  pos_trigger : Z;
  pos_entered : list Z
}.

(** ** Module parameters *)
Record params := Params {
  kg_enforce : bool;
  kg_auto_enforce : bool;
  kg_max_posture : Z;
  kg_posture_decay_s : Z;
  kg_hw_interval_ms : Z;
  kg_integ_interval_ms : Z
}.

(** ** Secure channel ([struct kg_comms]); [dev] is whether a device is set. *)
Record kg_comms := Comms {
  ring : kg_shared_region;
  key : list Z;
  rl_last_ns : Z;
  rl_tokens : Z;
  ue_cursor : Z;
  dev : bool
}.

(** ** Which periodic monitors accept a kick *)
Record monitors := Monitors {
  kg_input_running : bool;
  kg_input_stop : bool;
  kg_hw_stop : bool;
  kg_integ_stop : bool
}.

(** ** Work items: when each is due, if it is queued *)
Inductive work := DecayWork | InputWork | HwWork | IntegWork | PmuWork | UeventWork.
#[export] Instance work_eq_dec : EqDecision work.
Proof. solve_decision. Defined.

(** A delay as the source writes it: [msecs_to_jiffies(ms)] or [nsecs_to_jiffies(ns) + 1]. *)
Inductive delay := msecs (ms : Z) | nsecs_plus1 (ns : Z).

(** ** Instructions with a microarchitectural effect, tagged with the CPU they ran on *)
Inductive hwop := Verw (c : Z) | L1dFlush (c : Z) | Lfence (c : Z) | Ibpb (c : Z).

Record world := World {
  wguard : kg_guard;
  wstats : stat → Z;
  wpos : kg_pos;
  wpar : params;
  wcomms : option kg_comms;
  wmon : monitors;
  wwork : work → option delay;
  wops : list hwop;
  nmono : nat;          (* readings taken from the monotonic clock so far *)
  nreal : nat           (* ... from the real-time clock *)
}.

Definition set_guard (g : kg_guard) (w : world) : world :=
  World g (wstats w) (wpos w) (wpar w) (wcomms w) (wmon w) (wwork w) (wops w) (nmono w) (nreal w).
Definition set_stats (s : stat → Z) (w : world) : world :=
  World (wguard w) s (wpos w) (wpar w) (wcomms w) (wmon w) (wwork w) (wops w) (nmono w) (nreal w).
Definition set_pos (p : kg_pos) (w : world) : world :=
  World (wguard w) (wstats w) p (wpar w) (wcomms w) (wmon w) (wwork w) (wops w) (nmono w) (nreal w).
Definition set_comms (c : option kg_comms) (w : world) : world :=
  World (wguard w) (wstats w) (wpos w) (wpar w) c (wmon w) (wwork w) (wops w) (nmono w) (nreal w).
Definition set_work (q : work → option delay) (w : world) : world :=
  World (wguard w) (wstats w) (wpos w) (wpar w) (wcomms w) (wmon w) q (wops w) (nmono w) (nreal w).
Definition set_mon (m : monitors) (w : world) : world :=
  World (wguard w) (wstats w) (wpos w) (wpar w) (wcomms w) m (wwork w) (wops w) (nmono w) (nreal w).
Definition add_op (o : hwop) (w : world) : world :=
  World (wguard w) (wstats w) (wpos w) (wpar w) (wcomms w) (wmon w) (wwork w) (wops w ++ [o])
        (nmono w) (nreal w).
Definition tick_mono (w : world) : world :=
  World (wguard w) (wstats w) (wpos w) (wpar w) (wcomms w) (wmon w) (wwork w) (wops w)
        (S (nmono w)) (nreal w).
Definition tick_real (w : world) : world :=
  World (wguard w) (wstats w) (wpos w) (wpar w) (wcomms w) (wmon w) (wwork w) (wops w)
        (nmono w) (S (nreal w)).

(** ** What the kernel supplies *)
Class Crypto := {
  shash_sha256 : list Z → errno + list Z;              (* crypto_shash "sha256" *)
  shash_hmac : list Z → list Z → errno + list Z        (* crypto_shash "hmac(sha256)": key, data *)
}.

Class Platform := {
  nr_cpu_ids : Z;
  cpu_online : Z → bool;
  topology_sibling_cpumask : Z → list Z;
  raw_smp_processor_id : Z;
  ktime_get_ns_at : nat → Z;             (* the n-th reading of the monotonic clock *)
  ktime_get_real_ns_at : nat → Z;
  kobject_uevent_ok : Z → bool           (* kobject_uevent_env() accepts notification n *)
}.

(** ** Statistics helpers *)
Definition kg_stat_add (f : stat) (n : Z) (w : world) : world :=
  set_stats (<[f := u64 (wstats w f + n)]> (wstats w)) w.
Definition kg_stat_inc (f : stat) (w : world) : world := kg_stat_add f 1 w.
Definition kg_stat_set (f : stat) (v : Z) (w : world) : world :=
  set_stats (<[f := v]> (wstats w)) w.
Definition stat_or (f : stat) (v : Z) (w : world) : world :=
  set_stats (<[f := Z.lor (wstats w f) v]> (wstats w)) w.
Definition stat_andnot (f : stat) (v : Z) (w : world) : world :=
  set_stats (<[f := Z.ldiff (wstats w f) v]> (wstats w)) w.

(** ** Work-queue helpers: [mod_delayed_work] replaces a pending delay,
    [queue_delayed_work] leaves an item that is already queued alone. *)
Definition mod_delayed_work (i : work) (d : delay) (w : world) : world :=
  set_work (<[i := Some d]> (wwork w)) w.
Definition queue_delayed_work (i : work) (d : delay) (w : world) : world :=
  match wwork w i with
  | Some _ => w
  | None => set_work (<[i := Some d]> (wwork w)) w
  end.
Definition cancel_work (i : work) (w : world) : world :=
  set_work (<[i := None]> (wwork w)) w.

Section clocks.
Context `{Platform}.
Definition ktime_get_ns (w : world) : Z * world := (ktime_get_ns_at (nmono w), tick_mono w).
Definition ktime_get_real_ns (w : world) : Z * world :=
  (ktime_get_real_ns_at (nreal w), tick_real w).
End clocks.

(** ** Frames: what a helper leaves alone *)
Definition same_policy (w w' : world) : Prop :=
  wguard w' = wguard w ∧ wpos w' = wpos w ∧ wpar w' = wpar w.

#[export] Instance same_policy_preorder : PreOrder same_policy.
Proof.
  split; [by intros w|].
  intros w1 w2 w3 (?&?&?) (?&?&?). repeat split; congruence.
Qed.
