(* ===== verification/Machine.v ===== *)
(** * What the kernel promises, and a concrete machine

    The interfaces between the module and the kernel's crypto API: a digest
    always comes back ([CryptoLaws]), a keyed transform does not fail
    ([HmacWorks]), and it computes RFC 2104 over FIPS 180-4 ([CryptoIsHmac]).
    [sha_api] implements all of them with the specification of Sha256.v, and
    [two_cpus] is a small machine; theorems about every kernel are evaluated on
    this one. *)
From S2P Require Import Prelude Sha256 Uapi Kernel.
Local Open Scope Z_scope.

(** ** Interface: what the crypto API promises its clients *)
Class CryptoLaws `{Crypto} := {
  sha_total : ∀ m, ∃ d, shash_sha256 m = inr d;
  hmac_len : ∀ k m d, shash_hmac k m = inr d → length d = 32%nat
}.

(** ... that a keyed transform does not fail ... *)
Class HmacWorks `{Crypto} := hmac_total : ∀ k m, ∃ d, shash_hmac k m = inr d.

(** ... and that "hmac(sha256)" is HMAC-SHA-256, so that the monitor's own
    implementation agrees with it. *)
Class CryptoIsHmac `{Crypto} := shash_hmac_spec : ∀ k m, shash_hmac k m = inr (hmac_spec k m).

Lemma hmac_spec_works `{Crypto} : CryptoIsHmac → HmacWorks.
Proof. intros Hs k m. eexists. apply Hs. Qed.

(** ** The interfaces can be met *)
Definition sha_api : Crypto :=
  {| shash_sha256 m := inr (sha256_spec m); shash_hmac k m := inr (hmac_spec k m) |}.

Lemma sha_api_laws : @CryptoLaws sha_api.
Proof.
  split; [by eexists|]. intros k m d [= <-]. apply hmac_spec_wf.
Qed.
Lemma sha_api_is_hmac : @CryptoIsHmac sha_api.
Proof. by intros k m. Qed.
Lemma sha_api_works : @HmacWorks sha_api.
Proof. apply hmac_spec_works, sha_api_is_hmac. Qed.

(** Two sibling CPUs, both up; the clocks advance a second per reading. *)
Definition two_cpus : Platform := {|
  nr_cpu_ids := 2;
  cpu_online c := (0 <=? c) && (c <? 2);
  topology_sibling_cpumask c := if (0 <=? c) && (c <? 2) then [0; 1] else [c];
  raw_smp_processor_id := 0;
  ktime_get_ns_at n := 1000000000 * (Z.of_nat n + 1);
  ktime_get_real_ns_at n := 1700000000000000000 + 1000000000 * Z.of_nat n;
  kobject_uevent_ok _ := true
|}.

(** The module's statics before [kg_init], with the default parameters. *)
Definition boot_world : world :=
  World (Guard (Hdr 0 0 0 0 0) None (replicate 32 0) false) (λ _, 0)
        (Pos false false 0 0 0 0 (replicate 4 0))
        (Params false false KG_POSTURE_FAILSAFE 600 5000 30000)
        None (Monitors false false true true) (λ _, None) [] 0 0.
