(* ===== verification/Guard.v ===== *)
(** * Policy guard and mitigation engine (kg_state.c, kg_mitigate.c, kg.h)

    The guarded table (posture, fail-safe flag, per-CPU strategy) with its
    SHA-256 digest, every operation that changes it, and the flush machinery
    that reads it.  Each mutator is one critical section: mutate, re-hash. *)
From S2P Require Import Prelude Uapi Kernel Machine.
Local Open Scope Z_scope.

Definition KG_GUARD_MAGIC : Z := 0x4B474744.
Definition KG_ABI_VERSION : Z := 1.

Definition set_strategy (s : Z) (m : kg_cpu_mit) : kg_cpu_mit :=
  CpuMit (features m) s (base_strategy m) (flush_cost_ns m) (cat_ways m) (mpad m)
         (cat_sens_cbm m) (cat_def_cbm m).

(** ** The bytes the digest covers (both structures are packed) *)
Definition hdr_bytes (h : kg_guard_hdr) : list Z :=
  le_bytes 4 (hmagic h) ++ le_bytes 4 (abi h) ++ le_bytes 4 (ncpu h)
  ++ le_bytes 4 (failsafe h) ++ le_bytes 4 (posture h).

Definition cpu_mit_bytes (m : kg_cpu_mit) : list Z :=
  le_bytes 4 (features m) ++ le_bytes 1 (strategy m) ++ le_bytes 1 (base_strategy m)
  ++ le_bytes 2 (flush_cost_ns m) ++ le_bytes 2 (cat_ways m) ++ le_bytes 2 (mpad m)
  ++ le_bytes 4 (cat_sens_cbm m) ++ le_bytes 4 (cat_def_cbm m).

Definition guard_bytes (h : kg_guard_hdr) (tab : list kg_cpu_mit) : list Z :=
  hdr_bytes h ++ mjoin (cpu_mit_bytes <$> take (Z.to_nat (ncpu h)) tab).

Section guard.
Context `{Crypto}.

Definition kg_guard_compute (g : kg_guard) : errno + list Z :=
  match cpu g with
  | None => inl ENODEV
  | Some tab => shash_sha256 (guard_bytes (hdr g) tab)
  end.

Definition kg_guard_update_locked (g : kg_guard) : kg_guard :=
  match kg_guard_compute g with
  | inr d => Guard (hdr g) (cpu g) d true
  | inl _ => g
  end.

Definition kg_guard_update (w : world) : world :=
  set_guard (kg_guard_update_locked (wguard w)) w.

Definition kg_guard_verify (w : world) : bool :=
  if valid (wguard w) then
    match kg_guard_compute (wguard w) with
    | inl _ => false
    | inr now => bool_decide (now = digest (wguard w))
    end
  else false.

(** [kg_guard_lock_acquire(); mutate; kg_guard_unlock_release();] *)
Definition guarded (mutate : kg_guard → kg_guard) (w : world) : world :=
  set_guard (kg_guard_update_locked (mutate (wguard w))) w.
End guard.

Definition with_hdr (f : kg_guard_hdr → kg_guard_hdr) (g : kg_guard) : kg_guard :=
  Guard (f (hdr g)) (cpu g) (digest g) (valid g).
Definition with_cpu (f : list kg_cpu_mit → list kg_cpu_mit) (g : kg_guard) : kg_guard :=
  Guard (hdr g) (f <$> cpu g) (digest g) (valid g).

Definition kg_in_failsafe (w : world) : bool := negb (failsafe (hdr (wguard w)) =? 0).
Definition kg_posture (w : world) : Z := posture (hdr (wguard w)).

(** ** Capability probe *)
Record cpu_caps := Caps {
  bug_mds : bool; bug_taa : bool; bug_mmio_stale : bool; bug_rfds : bool; bug_l1tf : bool;
  feat_arch_cap : bool;
  msr_arch_cap : option Z;           (* None: the safe read faults *)
  feat_md_clear : bool; feat_verw_clear : bool; feat_flush_l1d : bool; feat_ibpb : bool;
  sibling_weight : Z;
  feat_cat_l3 : bool;
  cpuid_10_1_eax : Z; cpuid_10_1_edx : Z
}.

Record kg_probe := Probe {
  p_features : Z; p_strategy : Z; p_cost_ns : Z; p_cat_ways : Z;
  p_cat_sens_cbm : Z; p_cat_def_cbm : Z
}.

Definition ARCH_CAP_RDCL_NO : Z := 0x1.
Definition ARCH_CAP_IBRS_ALL : Z := 0x2.
Definition ARCH_CAP_SSB_NO : Z := 0x10.
Definition ARCH_CAP_MDS_NO : Z := 0x20.

Definition has (x bit : Z) : bool := negb (Z.land x bit =? 0).
Definition flag_if (b : bool) (f : Z) : Z := if b then f else 0.

Definition kg_cpu_needs_buffer_clear (c : cpu_caps) : bool :=
  bug_mds c || bug_taa c || bug_mmio_stale c || bug_rfds c.

Definition probe_features (c : cpu_caps) : Z :=
  let ok := feat_arch_cap c && bool_decide (is_Some (msr_arch_cap c)) in
  let cap := if feat_arch_cap c then default 0 (msr_arch_cap c) else 0 in
  let f := flag_if ok KG_FEAT_ARCH_CAP_MSR in
  let f := Z.lor f (flag_if (has cap ARCH_CAP_RDCL_NO) (Z.lor KG_FEAT_RDCL_NO KG_FEAT_L1TF_NO)) in
  let f := Z.lor f (flag_if (has cap ARCH_CAP_MDS_NO) KG_FEAT_MDS_NO) in
  let f := Z.lor f (flag_if (has cap ARCH_CAP_IBRS_ALL) KG_FEAT_IBRS_ALL) in
  let f := Z.lor f (flag_if (has cap ARCH_CAP_SSB_NO) KG_FEAT_SSB_NO) in
  let f := Z.lor f (flag_if (feat_md_clear c || feat_verw_clear c) KG_FEAT_VERW_FLUSH) in
  let f := Z.lor f (flag_if (feat_flush_l1d c) KG_FEAT_L1D_FLUSH) in
  let f := Z.lor f (flag_if (feat_ibpb c) KG_FEAT_IBPB) in
  Z.lor f (flag_if (1 <? sibling_weight c) KG_FEAT_SMT).

(** L3 CAT: (ways, sensitive mask, default mask). *)
Definition probe_cat (eax : Z) : Z * Z * Z :=
  let ways := Z.land eax 0x1f + 1 in
  let sens := if 4 <=? ways then ways / 4 else 1 in
  let sens_cbm := u64 (Z.shiftl (u64 (Z.shiftl 1 sens) - 1) (ways - sens)) in
  let all := u64 (Z.shiftl 1 ways) - 1 in
  (ways, u32 sens_cbm, u32 (Z.ldiff all sens_cbm)).

(** The strategy table: (strategy, cost in ns). *)
Definition probe_strategy (mds_vuln l1tf_vuln verw_flush : bool) : Z * Z :=
  if negb mds_vuln && negb l1tf_vuln then (KG_STRAT_NONE, 0)
  else if mds_vuln && negb l1tf_vuln then (KG_STRAT_VERW, 50)
  else if negb mds_vuln && l1tf_vuln then (KG_STRAT_L1D, 200)
  else if verw_flush then (KG_STRAT_VERW_L1D, 250)
  else (KG_STRAT_FULL, 500).

Definition kg_probe_this_cpu (c : cpu_caps) : kg_probe :=
  let f := probe_features c in
  let cat := feat_cat_l3 c && (1 <=? Z.land (cpuid_10_1_edx c) 0xffff) in
  let '(ways, sens, def) := if cat then probe_cat (cpuid_10_1_eax c) else (0, 0, 0) in
  let f := Z.lor f (flag_if cat KG_FEAT_CAT_L3) in
  let '(strat, cost) :=
    probe_strategy (kg_cpu_needs_buffer_clear c) (bug_l1tf c) (has f KG_FEAT_VERW_FLUSH) in
  Probe f strat cost ways sens def.

(** ** Policy mutation *)
Section mitigate.
Context `{Crypto}.

Definition mit_of_probe (pst : Z) (p : kg_probe) (m : kg_cpu_mit) : kg_cpu_mit :=
  CpuMit (p_features p) (if KG_POSTURE_HIGH <=? pst then KG_STRAT_FULL else p_strategy p)
         (p_strategy p) (p_cost_ns p) (p_cat_ways p) (mpad m)
         (p_cat_sens_cbm p) (p_cat_def_cbm p).

Definition kg_mit_store (c : Z) (p : kg_probe) : world → world :=
  guarded (λ g, with_cpu (alter (mit_of_probe (posture (hdr g)) p) (Z.to_nat c)) g).

Definition kg_mit_cpu_online (c : Z) (caps : cpu_caps) (w : world) : world :=
  kg_mit_store c (kg_probe_this_cpu caps) w.

(** The loops run over [0 <= cpu < ncpu]. *)
Definition on_table (f : kg_cpu_mit → kg_cpu_mit) (n : Z) (tab : list kg_cpu_mit)
  : list kg_cpu_mit :=
  (f <$> take (Z.to_nat n) tab) ++ drop (Z.to_nat n) tab.

Definition restore_base (m : kg_cpu_mit) : kg_cpu_mit := set_strategy (base_strategy m) m.

Definition set_posture_hdr (p : Z) (h : kg_guard_hdr) : kg_guard_hdr :=
  Hdr (hmagic h) (abi h) (ncpu h) (if p =? KG_POSTURE_FAILSAFE then 1 else 0) p.

Definition kg_mit_set_posture (p : Z) : world → world :=
  guarded (λ g,
    let g1 := if KG_POSTURE_HIGH <=? p
              then with_cpu (on_table (set_strategy KG_STRAT_FULL) (ncpu (hdr g))) g
              else if KG_POSTURE_HIGH <=? posture (hdr g)
              then with_cpu (on_table restore_base (ncpu (hdr g))) g
              else g in
    with_hdr (set_posture_hdr p) g1).

Definition kg_mit_enter_failsafe (w : world) : bool * world :=
  if negb (failsafe (hdr (wguard w)) =? 0) then (false, guarded id w)
  else (true, guarded (λ g,
    with_cpu (on_table (set_strategy KG_STRAT_FULL) (ncpu (hdr g)))
      (with_hdr (λ h, Hdr (hmagic h) (abi h) (ncpu h) 1 KG_POSTURE_FAILSAFE) g)) w).

Definition cpu_in_table (c : Z) (w : world) : bool :=
  (0 <=? c) && (c <? ncpu (hdr (wguard w))).

Definition kg_mit_escalate_cpu (c : Z) (w : world) : world :=
  if cpu_in_table c w
  then guarded (with_cpu (alter (set_strategy KG_STRAT_FULL) (Z.to_nat c))) w
  else w.

Definition kg_mit_relax_cpu (c : Z) (w : world) : world :=
  if cpu_in_table c w
  then guarded (λ g, if posture (hdr g) <? KG_POSTURE_HIGH
                     then with_cpu (alter restore_base (Z.to_nat c)) g else g) w
  else w.
End mitigate.

(** ** Flushing *)
Definition cpu_mit_at (w : world) (c : Z) : kg_cpu_mit :=
  default [] (cpu (wguard w)) !!! Z.to_nat c.

Definition kg_verw (c : Z) (w : world) : world := add_op (Verw c) w.
Definition kg_l1d_flush (c : Z) (m : kg_cpu_mit) (w : world) : world :=
  if has (features m) KG_FEAT_L1D_FLUSH then add_op (L1dFlush c) w else w.

Definition kg_boundary_flush (c : Z) (w : world) : world :=
  let m := cpu_mit_at w c in
  let w := kg_stat_inc total_flush_count w in
  if strategy m =? KG_STRAT_NONE then w
  else if strategy m =? KG_STRAT_VERW then kg_verw c w
  else if strategy m =? KG_STRAT_L1D then kg_l1d_flush c m w
  else if strategy m =? KG_STRAT_VERW_L1D then kg_l1d_flush c m (kg_verw c w)
  else if strategy m =? KG_STRAT_FULL then add_op (Lfence c) (kg_l1d_flush c m (kg_verw c w))
  else w.

Definition kg_boundary_flush_forced (c : Z) (w : world) : world :=
  let m := cpu_mit_at w c in
  add_op (Lfence c) (kg_l1d_flush c m (kg_verw c (kg_stat_inc total_flush_count w))).

(** Runs on CPU [c]. *)
Definition kg_flush_ipi (c : Z) (w : world) : world :=
  let m := cpu_mit_at w c in
  let strat := strategy m in
  let w := kg_boundary_flush c w in
  let verw := (strat =? KG_STRAT_VERW) || (strat =? KG_STRAT_VERW_L1D) || (strat =? KG_STRAT_FULL) in
  let l1d := ((strat =? KG_STRAT_L1D) || (strat =? KG_STRAT_VERW_L1D) || (strat =? KG_STRAT_FULL))
             && has (features m) KG_FEAT_L1D_FLUSH in
  let ibpb := (strat =? KG_STRAT_FULL) && has (features m) KG_FEAT_IBPB in
  let w := if ibpb then add_op (Ibpb c) w else w in
  let flags := Z.lor (Z.lor (flag_if verw KG_MIT_VERW) (flag_if l1d KG_MIT_L1D_FLUSH))
                     (flag_if ibpb KG_MIT_IBPB) in
  if flags =? 0 then w else stat_or active_mitigation_flags flags w.

Section flush.
Context `{Crypto} `{Platform}.

Definition valid_online (c : Z) : bool := (0 <=? c) && (c <? nr_cpu_ids) && cpu_online c.

Definition kg_mit_flush_cpu (c : Z) (w : world) : world :=
  if valid_online c then kg_flush_ipi c w else w.

Definition kg_mit_flush_siblings (c : Z) (w : world) : world :=
  if (c <? 0) || (nr_cpu_ids <=? c) then w
  else foldl (λ w sib, if (sib =? c) || negb (cpu_online sib) then w
                       else kg_flush_ipi sib (kg_mit_escalate_cpu sib w))
             w (topology_sibling_cpumask c).

Definition online_cpus : list Z :=
  filter (λ c, cpu_online c = true) (Z.of_nat <$> seq 0 (Z.to_nat nr_cpu_ids)).

Definition kg_mit_flush_all (w : world) : world := foldl (λ w c, kg_flush_ipi c w) w online_cpus.
End flush.

(** ** KG_IOC_GET_CPU_INFO *)
Record kg_cpu_info := CpuInfo {
  ci_cpu : Z; ci_online : bool; ci_features : Z; ci_strategy : Z; ci_base_strategy : Z;
  ci_flush_cost_ns : Z; ci_cat_ways : Z; ci_cat_sensitive_cbm : Z; ci_cat_default_cbm : Z
}.

(** [array_index_nospec(index, size)]: the index inside the array, 0 outside. *)
Definition array_index_nospec (index size : Z) : Z := if index <? size then index else 0.

Definition kg_mit_cpu_info `{Platform} (c : Z) (w : world) : errno + kg_cpu_info :=
  let n := ncpu (hdr (wguard w)) in
  if n <=? c then inl EINVAL
  else
    let idx := array_index_nospec c n in
    let m := cpu_mit_at w idx in
    inr (CpuInfo c (cpu_online idx) (features m) (strategy m) (base_strategy m)
                 (flush_cost_ns m) (cat_ways m) (cat_sens_cbm m) (cat_def_cbm m)).

(** ** init / exit *)
Section init.
Context `{Crypto} `{Platform}.

(** [alloc_ok] is whether kcalloc succeeded; [hp] the result of
    cpuhp_setup_state, which on success has run the online callback on every
    CPU that is up and on failure (negative) on the CPUs [ran]; [caps] what the
    callback finds on each CPU. *)
Definition kg_mit_init (alloc_ok : bool) (hp : Z) (ran : list Z) (caps : Z → cpu_caps)
  (w : world) : option errno * world :=
  let g := wguard w in
  let h := Hdr KG_GUARD_MAGIC KG_ABI_VERSION nr_cpu_ids 0 KG_POSTURE_NORMAL in
  if alloc_ok then
    let tab := replicate (Z.to_nat nr_cpu_ids) zero_cpu_mit in
    let w := set_guard (Guard h (Some tab) (digest g) (valid g)) w in
    let w := foldl (λ w c, kg_mit_cpu_online c (caps c) w) w
                   (if hp <? 0 then ran else online_cpus) in
    if hp <? 0 then
      let g := wguard w in
      (Some (EOTHER hp), set_guard (Guard (hdr g) None (digest g) (valid g)) w)
    else (None, kg_guard_update w)
  else
    (Some ENOMEM, set_guard (Guard h None (digest g) (valid g)) w).

Definition kg_mit_exit (w : world) : world :=
  let g := wguard w in
  match cpu g with
  | None => w
  | Some _ => set_guard (Guard (hdr g) None (digest g) false) w
  end.
End init.

(** ** Invariants of the guarded state *)
Record policy_inv (g : kg_guard) : Prop := PolicyInv {
  pi_posture : 0 ≤ posture (hdr g) < KG_POSTURE_COUNT;
  pi_failsafe : failsafe (hdr g) = if posture (hdr g) =? KG_POSTURE_FAILSAFE then 1 else 0;
  pi_table : ∃ tab, cpu g = Some tab ∧ Z.of_nat (length tab) = ncpu (hdr g)
    ∧ Forall (λ m, 0 ≤ strategy m ≤ KG_STRAT_FULL ∧ 0 ≤ base_strategy m ≤ KG_STRAT_FULL) tab
    ∧ (KG_POSTURE_HIGH ≤ posture (hdr g) → Forall (λ m, strategy m = KG_STRAT_FULL) tab)
}.

Definition sealed `{Crypto} (g : kg_guard) : Prop :=
  valid g = true ∧ kg_guard_compute g = inr (digest g).

Definition guard_inv `{Crypto} (w : world) : Prop :=
  policy_inv (wguard w) ∧ sealed (wguard w).

Section guard_facts.
Context `{CryptoLaws}.

Lemma sealed_verify w : sealed (wguard w) → kg_guard_verify w = true.
Proof.
  intros [Hv Hd]. unfold kg_guard_verify. rewrite Hv, Hd. by apply bool_decide_eq_true.
Qed.

Lemma update_locked_hdr g : hdr (kg_guard_update_locked g) = hdr g.
Proof. unfold kg_guard_update_locked. by destruct (kg_guard_compute g). Qed.
Lemma update_locked_cpu g : cpu (kg_guard_update_locked g) = cpu g.
Proof. unfold kg_guard_update_locked. by destruct (kg_guard_compute g). Qed.

Lemma update_locked_seals g : is_Some (cpu g) → sealed (kg_guard_update_locked g).
Proof.
  intros [tab Ht]. unfold sealed, kg_guard_update_locked, kg_guard_compute. rewrite Ht.
  destruct (sha_total (guard_bytes (hdr g) tab)) as [d Hd]. by rewrite Hd.
Qed.

Lemma policy_inv_update g : policy_inv g → policy_inv (kg_guard_update_locked g).
Proof.
  intros [Hp Hf Ht]. constructor; rewrite ?update_locked_hdr, ?update_locked_cpu; done.
Qed.

Lemma guarded_inv f w : policy_inv (f (wguard w)) → guard_inv (guarded f w).
Proof.
  intros Hf. split; simpl.
  - by apply policy_inv_update.
  - apply update_locked_seals. destruct Hf as [_ _ (tab & -> & _)]. eauto.
Qed.

(** *** Each mutator preserves the policy invariant *)
Definition mit_ok (m : kg_cpu_mit) : Prop :=
  0 ≤ strategy m ≤ KG_STRAT_FULL ∧ 0 ≤ base_strategy m ≤ KG_STRAT_FULL.

Lemma set_strategy_full_ok m : mit_ok m → mit_ok (set_strategy KG_STRAT_FULL m).
Proof. unfold mit_ok, KG_STRAT_FULL. simpl. lia. Qed.
Lemma restore_base_ok m : mit_ok m → mit_ok (restore_base m).
Proof. unfold mit_ok. simpl. lia. Qed.

Lemma on_table_all f n tab :
  Z.of_nat (length tab) = n → on_table f n tab = f <$> tab.
Proof.
  intros <-. unfold on_table. rewrite Nat2Z.id, take_ge, drop_ge by lia.
  by rewrite app_nil_r.
Qed.

Lemma Forall_fmap_impl (f : kg_cpu_mit → kg_cpu_mit) (P Q : kg_cpu_mit → Prop) tab :
  (∀ m, P m → Q (f m)) → Forall P tab → Forall Q (f <$> tab).
Proof. intros Hf Ht. rewrite Forall_fmap. eapply Forall_impl; eauto. Qed.

Lemma set_posture_inv p w :
  0 ≤ p < KG_POSTURE_COUNT → policy_inv (wguard w) → guard_inv (kg_mit_set_posture p w).
Proof.
  intros Hp [Hpo Hfs (tab & Ht & Hlen & Hok & Hfl)]. apply guarded_inv.
  set (g := wguard w) in *.
  constructor; simpl; try done.
  destruct (KG_POSTURE_HIGH <=? p) eqn:Hhi;
    [|destruct (KG_POSTURE_HIGH <=? posture (hdr g)) eqn:Hlo];
    simpl; rewrite Ht; simpl; rewrite ?on_table_all by done.
  - eexists. split; [done|]. rewrite length_fmap. split; [done|]. split.
    + eapply Forall_fmap_impl; [apply set_strategy_full_ok | done].
    + intros _. by apply Forall_fmap, Forall_true.
  - eexists. split; [done|]. rewrite length_fmap. split; [done|]. split.
    + eapply Forall_fmap_impl; [apply restore_base_ok | done].
    + apply Z.leb_gt in Hhi. lia.
  - eexists. split_and!; [done..|]. apply Z.leb_gt in Hhi. lia.
Qed.

(** Entering fail-safe needs no trust in the stored posture and strategies: it rebuilds a
    consistent state from any table of the right size. *)
Lemma set_failsafe_rebuilds w tab :
  cpu (wguard w) = Some tab → Z.of_nat (length tab) = ncpu (hdr (wguard w)) →
  Forall (λ m, 0 ≤ base_strategy m ≤ KG_STRAT_FULL) tab →
  guard_inv (kg_mit_set_posture KG_POSTURE_FAILSAFE w).
Proof.
  intros Ht Hlen Hb. apply guarded_inv. constructor; simpl; try done.
  rewrite Ht. simpl. rewrite on_table_all by done. eexists. split; [done|].
  rewrite length_fmap. split; [done|]. split.
  - eapply Forall_fmap_impl; [|exact Hb]. intros m Hm. simpl. unfold KG_STRAT_FULL in *. lia.
  - intros _. by apply Forall_fmap, Forall_true.
Qed.

Lemma with_cpu_alter_inv f c g :
  (∀ m, mit_ok m → mit_ok (f m)) →
  (KG_POSTURE_HIGH ≤ posture (hdr g) → ∀ m, strategy m = KG_STRAT_FULL →
     strategy (f m) = KG_STRAT_FULL) →
  policy_inv g → policy_inv (with_cpu (alter f c) g).
Proof.
  intros Hok Hfull [Hpo Hfs (tab & Ht & Hlen & Htab & Hfl)].
  constructor; simpl; try done. rewrite Ht. eexists. split; [done|].
  rewrite length_alter. split; [done|]. split.
  - apply Forall_alter; [done|]. intros. by apply Hok.
  - intros Hh. apply Forall_alter; auto.
Qed.

Lemma escalate_inv c w : guard_inv w → guard_inv (kg_mit_escalate_cpu c w).
Proof.
  intros [Hp Hs]. unfold kg_mit_escalate_cpu. case_goal; [|done].
  apply guarded_inv, with_cpu_alter_inv; [apply set_strategy_full_ok | done | done].
Qed.

Lemma relax_inv c w : guard_inv w → guard_inv (kg_mit_relax_cpu c w).
Proof.
  intros [Hp Hs]. unfold kg_mit_relax_cpu. case_goal; [|done].
  apply guarded_inv. case_goal as E; [|done].
  apply with_cpu_alter_inv; [apply restore_base_ok | | done].
  apply Z.ltb_lt in E. lia.
Qed.

Lemma enter_failsafe_inv w : guard_inv w → guard_inv (kg_mit_enter_failsafe w).2.
Proof.
  intros [[Hpo Hfs (tab & Ht & Hlen & Hok & Hfl)] Hs]. unfold kg_mit_enter_failsafe.
  case_goal; simpl; apply guarded_inv; [by constructor; eauto 10|].
  constructor; simpl; [done..|]. rewrite Ht. simpl.
  rewrite on_table_all by done. eexists. split; [done|]. rewrite length_fmap.
  split; [done|]. split.
  - eapply Forall_fmap_impl; [apply set_strategy_full_ok | done].
  - intros _. by apply Forall_fmap, Forall_true.
Qed.

Lemma probe_strategy_range a b v :
  0 ≤ (probe_strategy a b v).1 ≤ KG_STRAT_FULL.
Proof. by destruct a, b, v. Qed.

Lemma probe_this_cpu_strategy c : 0 ≤ p_strategy (kg_probe_this_cpu c) ≤ KG_STRAT_FULL.
Proof.
  unfold kg_probe_this_cpu. case_goal as E0. destruct p as [??].
  case_goal as E. simpl.
  match type of E with probe_strategy ?a ?b ?v = _ =>
    pose proof (probe_strategy_range a b v) as Hr; by rewrite E in Hr end.
Qed.

Lemma store_inv c p w :
  0 ≤ p_strategy p ≤ KG_STRAT_FULL → policy_inv (wguard w) → guard_inv (kg_mit_store c p w).
Proof.
  intros Hp Hi. apply guarded_inv, with_cpu_alter_inv; [| |done].
  - intros m _. unfold mit_ok, KG_STRAT_FULL. simpl. case_goal; unfold KG_STRAT_FULL in *; lia.
  - intros Hh m _. simpl. rewrite (proj2 (Z.leb_le _ _)) by done. done.
Qed.

Lemma cpu_online_inv c caps w :
  policy_inv (wguard w) → guard_inv (kg_mit_cpu_online c caps w).
Proof. apply store_inv, probe_this_cpu_strategy. Qed.
End guard_facts.

(** ** Start-up *)
Lemma policy_inv_zero_table (n : Z) :
  0 ≤ n → ∀ d v, policy_inv (Guard (Hdr KG_GUARD_MAGIC KG_ABI_VERSION n 0 KG_POSTURE_NORMAL)
                        (Some (replicate (Z.to_nat n) zero_cpu_mit)) d v).
Proof.
  intros Hn d v. constructor; simpl; [by compute|done|].
  eexists. split; [done|]. rewrite length_replicate. split; [lia|]. split.
  - apply Forall_replicate. by compute.
  - by compute.
Qed.

Lemma foldl_online_inv `{CryptoLaws} (caps : Z → cpu_caps) l w :
  policy_inv (wguard w) →
  policy_inv (wguard (foldl (λ w c, kg_mit_cpu_online c (caps c) w) w l)).
Proof.
  revert w. induction l as [|c l IH]; intros w Hi; simpl; [done|].
  apply IH. by apply cpu_online_inv.
Qed.

Lemma foldl_online_hdr `{CryptoLaws} (caps : Z → cpu_caps) l w :
  hdr (wguard (foldl (λ w c, kg_mit_cpu_online c (caps c) w) w l)) = hdr (wguard w)
  ∧ wpar (foldl (λ w c, kg_mit_cpu_online c (caps c) w) w l) = wpar w.
Proof.
  revert w. induction l as [|c l IH]; intros w; simpl; [done|].
  destruct (IH (kg_mit_cpu_online c (caps c) w)) as [-> ->]. split; [|done].
  simpl. by rewrite update_locked_hdr.
Qed.

(** A successful start: the invariant holds, at NORMAL. *)
Lemma mit_init_ok `{CryptoLaws} `{Platform} hp ran caps w :
  0 ≤ nr_cpu_ids → 0 ≤ hp →
  let '(r, w') := kg_mit_init true hp ran caps w in
  r = None ∧ guard_inv w' ∧ kg_posture w' = KG_POSTURE_NORMAL ∧ wpar w' = wpar w.
Proof.
  intros Hn Hhp. unfold kg_mit_init. rewrite (proj2 (Z.ltb_ge _ _)) by done.
  set (w1 := set_guard _ w).
  assert (Hi : policy_inv (wguard w1)) by by apply policy_inv_zero_table.
  pose proof (foldl_online_inv caps online_cpus w1 Hi) as Hw.
  pose proof (foldl_online_hdr caps online_cpus w1) as [Hh Hp].
  split_and!; [done|by apply (guarded_inv id)| |exact Hp].
  unfold kg_posture. simpl. by rewrite update_locked_hdr, Hh.
Qed.

(** A machine with two affected sibling CPUs after a successful start. *)
Definition sample_caps : cpu_caps :=
  Caps true false false false true true (Some 0) true false true true 2 false 0 0.
Definition up_world : world :=
  (@kg_mit_init sha_api two_cpus true 0 [] (λ _, sample_caps) boot_world).2.
Lemma up_world_inv : @guard_inv sha_api up_world.
Proof.
  pose proof (@mit_init_ok sha_api sha_api_laws two_cpus 0 [] (λ _, sample_caps) boot_world) as Hok.
  unfold up_world. destruct (kg_mit_init _ _ _ _ _). by apply Hok.
Qed.

(** ** Tamper evidence: the digest binds every policy field *)
Definition hdr_typed (h : kg_guard_hdr) : Prop :=
  is_u32 (hmagic h) ∧ is_u32 (abi h) ∧ is_u32 (ncpu h) ∧ is_u32 (failsafe h)
  ∧ is_u32 (posture h).
Definition mit_typed (m : kg_cpu_mit) : Prop :=
  is_u32 (features m) ∧ is_u8 (strategy m) ∧ is_u8 (base_strategy m)
  ∧ is_u16 (flush_cost_ns m) ∧ is_u16 (cat_ways m) ∧ is_u16 (mpad m)
  ∧ is_u32 (cat_sens_cbm m) ∧ is_u32 (cat_def_cbm m).

#[export] Instance hdr_typed_dec h : Decision (hdr_typed h).
Proof. unfold hdr_typed. apply _. Defined.
#[export] Instance mit_typed_dec m : Decision (mit_typed m).
Proof. unfold mit_typed. apply _. Defined.

Lemma cpu_mit_bytes_app_inj m k x y :
  mit_typed m → mit_typed k → cpu_mit_bytes m ++ x = cpu_mit_bytes k ++ y → m = k ∧ x = y.
Proof.
  intros Hm Hk H. unfold cpu_mit_bytes in H. rewrite <- !app_assoc in H. le_peel H.
  destruct Hm as (?&?&?&?&?&?&?&?), Hk as (?&?&?&?&?&?&?&?), m, k. simpl in *.
  split; [f_equal|]; auto using le_bytes_u32_inj, le_bytes_u16_inj, le_bytes_u8_inj.
Qed.

Lemma table_bytes_inj t1 t2 :
  Forall mit_typed t1 → Forall mit_typed t2 →
  mjoin (cpu_mit_bytes <$> t1) = mjoin (cpu_mit_bytes <$> t2) → t1 = t2.
Proof.
  revert t2. induction t1 as [|m t1 IH]; intros [|k t2] H1 H2 Heq;
    [done|discriminate Heq..|].
  rewrite !fmap_cons in Heq. cbn [mjoin list_join] in Heq.
  inversion_clear H1. inversion_clear H2.
  apply cpu_mit_bytes_app_inj in Heq as [-> Heq]; [|done..]. f_equal. auto.
Qed.

Lemma guard_bytes_inj h1 h2 t1 t2 :
  hdr_typed h1 → hdr_typed h2 → Forall mit_typed t1 → Forall mit_typed t2 →
  guard_bytes h1 t1 = guard_bytes h2 t2 →
  h1 = h2 ∧ take (Z.to_nat (ncpu h1)) t1 = take (Z.to_nat (ncpu h1)) t2.
Proof.
  intros H1 H2 Ht1 Ht2 H. unfold guard_bytes, hdr_bytes in H.
  rewrite <- !app_assoc in H. le_peel H.
  assert (h1 = h2) as ->.
  { destruct H1 as (?&?&?&?&?), H2 as (?&?&?&?&?), h1, h2. simpl in *.
    f_equal; auto using le_bytes_u32_inj. }
  split; [done|]. apply table_bytes_inj in H; auto using Forall_take.
Qed.

(** C11 — an attacker rewrites the header and the strategy table of a sealed guard,
    leaving the digest.  If the check still passes then nothing covered changed, or
    the two byte strings that were hashed are a collision of SHA-256. *)
Theorem guard_tamper_evident `{Crypto} w tab h' tab' :
  sealed (wguard w) → cpu (wguard w) = Some tab →
  hdr_typed (hdr (wguard w)) → hdr_typed h' →
  Forall mit_typed tab → Forall mit_typed tab' →
  kg_guard_verify
    (set_guard (Guard h' (Some tab') (digest (wguard w)) (valid (wguard w))) w) = true →
  (h' = hdr (wguard w)
   ∧ take (Z.to_nat (ncpu h')) tab' = take (Z.to_nat (ncpu h')) tab)
  ∨ (guard_bytes h' tab' ≠ guard_bytes (hdr (wguard w)) tab
     ∧ shash_sha256 (guard_bytes h' tab') = shash_sha256 (guard_bytes (hdr (wguard w)) tab)).
Proof.
  intros [Hv Hd] Ht Hh Hh' Hm Hm' Hver.
  unfold kg_guard_compute in Hd. rewrite Ht in Hd.
  unfold kg_guard_verify, kg_guard_compute in Hver. simpl in Hver. rewrite Hv in Hver.
  destruct (shash_sha256 (guard_bytes h' tab')) as [|d] eqn:E; [done|].
  apply bool_decide_eq_true in Hver as ->.
  destruct (decide (guard_bytes h' tab' = guard_bytes (hdr (wguard w)) tab)) as [Heq|Hne].
  - left. by apply guard_bytes_inj.
  - right. split; [exact Hne|]. by rewrite Hd.
Qed.

(** Entries past [ncpu] are not covered by the digest. *)
Lemma guard_tamper_evident_witness :
  let g := wguard up_world in
  let tab := default [] (cpu g) in
  (hdr g = hdr g ∧ take (Z.to_nat (ncpu (hdr g))) (tab ++ [zero_cpu_mit])
                   = take (Z.to_nat (ncpu (hdr g))) tab)
  ∨ (guard_bytes (hdr g) (tab ++ [zero_cpu_mit]) ≠ guard_bytes (hdr g) tab
     ∧ @shash_sha256 sha_api (guard_bytes (hdr g) (tab ++ [zero_cpu_mit]))
       = @shash_sha256 sha_api (guard_bytes (hdr g) tab)).
Proof.
  intros g tab.
  apply (@guard_tamper_evident sha_api up_world tab (hdr g) (tab ++ [zero_cpu_mit]));
    [apply up_world_inv|vm_compute; reflexivity| | | | |vm_compute; reflexivity].
  all: refine (bool_decide_unpack _ _); vm_compute; exact I.
Defined.

(** ** Flushing: frames and effect *)
Lemma l1d_flush_frame c m w : same_policy w (kg_l1d_flush c m w).
Proof. unfold kg_l1d_flush. by case_goal. Qed.

Lemma boundary_flush_frame c w : same_policy w (kg_boundary_flush c w).
Proof.
  unfold kg_boundary_flush, kg_l1d_flush.
  repeat (case_goal; try done).
Qed.

Lemma flush_ipi_frame c w : same_policy w (kg_flush_ipi c w).
Proof.
  unfold kg_flush_ipi. etrans; [apply (boundary_flush_frame c)|]. by repeat case_goal.
Qed.

Lemma foldl_same_policy {A} (f : world → A → world) l w :
  (∀ w x, same_policy w (f w x)) → same_policy w (foldl f w l).
Proof.
  intros Hf. revert w. induction l as [|x l IH]; intros w; simpl; [reflexivity|].
  etrans; [apply Hf | apply IH].
Qed.

Lemma flush_all_frame `{Platform} w : same_policy w (kg_mit_flush_all w).
Proof. apply foldl_same_policy. intros. apply flush_ipi_frame. Qed.

Lemma flush_cpu_frame `{Platform} c w : same_policy w (kg_mit_flush_cpu c w).
Proof. unfold kg_mit_flush_cpu. case_goal; [apply flush_ipi_frame | reflexivity]. Qed.

(** The instruction sequence a flush request issues on its CPU, by strategy. *)
Definition flush_ops (c : Z) (m : kg_cpu_mit) : list hwop :=
  let s := strategy m in
  let l1 := if has (features m) KG_FEAT_L1D_FLUSH then [L1dFlush c] else [] in
  if s =? KG_STRAT_VERW then [Verw c]
  else if s =? KG_STRAT_L1D then l1
  else if s =? KG_STRAT_VERW_L1D then Verw c :: l1
  else if s =? KG_STRAT_FULL
       then Verw c :: l1 ++ [Lfence c] ++ (if has (features m) KG_FEAT_IBPB then [Ibpb c] else [])
  else [].

(** The mitigation flags a sequence of instructions stands for. *)
Definition op_flag (o : hwop) : Z :=
  match o with Verw _ => KG_MIT_VERW | L1dFlush _ => KG_MIT_L1D_FLUSH | Ibpb _ => KG_MIT_IBPB | Lfence _ => 0 end.
Definition ops_flags (l : list hwop) : Z := foldr (λ o f, Z.lor (op_flag o) f) 0 l.

(** Every flush is counted once, issues exactly its strategy's instructions in
    order, and records what it did in [active_mitigation_flags]. *)
Theorem flush_ipi_effect c w :
  mit_ok (cpu_mit_at w c) →
  wops (kg_flush_ipi c w) = wops w ++ flush_ops c (cpu_mit_at w c)
  ∧ wstats (kg_flush_ipi c w) total_flush_count = u64 (wstats w total_flush_count + 1)
  ∧ wstats (kg_flush_ipi c w) active_mitigation_flags
    = Z.lor (wstats w active_mitigation_flags) (ops_flags (flush_ops c (cpu_mit_at w c))).
Proof.
  unfold mit_ok, kg_flush_ipi, kg_boundary_flush, kg_l1d_flush, flush_ops.
  generalize (cpu_mit_at w c) as m. intros [f s b co cw mp cs cd] [Hs Hb].
  cbn [strategy features base_strategy] in *. unfold KG_STRAT_FULL in Hs, Hb.
  assert (s = 0 ∨ s = 1 ∨ s = 2 ∨ s = 3 ∨ s = 4) as [->|[->|[->|[->| ->]]]] by lia;
    simpl; destruct (has f KG_FEAT_L1D_FLUSH); simpl; try destruct (has f KG_FEAT_IBPB);
    simpl; by rewrite ?app_nil_r, <- ?app_assoc, ?Z.lor_0_r.
Qed.

Lemma flush_ipi_effect_witness :
  wops (kg_flush_ipi 1 up_world) = wops up_world ++ flush_ops 1 (cpu_mit_at up_world 1)
  ∧ wstats (kg_flush_ipi 1 up_world) total_flush_count = 1
  ∧ wstats (kg_flush_ipi 1 up_world) active_mitigation_flags
    = Z.lor 0 (ops_flags (flush_ops 1 (cpu_mit_at up_world 1))).
Proof. apply (flush_ipi_effect 1 up_world). by vm_compute. Defined.

(** ** The strategy the probe picks *)

(** The probed strategy covers what the CPU is vulnerable to: a CPU that leaks through
    its buffers gets VERW, one affected by L1TF gets the L1D flush, and a CPU that is
    affected by neither is not flushed at all. *)
Theorem probe_strategy_safe c :
  let s := p_strategy (kg_probe_this_cpu c) in
  (kg_cpu_needs_buffer_clear c = true →
     s = KG_STRAT_VERW ∨ s = KG_STRAT_VERW_L1D ∨ s = KG_STRAT_FULL)
  ∧ (bug_l1tf c = true → s = KG_STRAT_L1D ∨ s = KG_STRAT_VERW_L1D ∨ s = KG_STRAT_FULL)
  ∧ (kg_cpu_needs_buffer_clear c = false → bug_l1tf c = false → s = KG_STRAT_NONE).
Proof.
  unfold kg_probe_this_cpu. case_goal. destruct p as [??]. unfold probe_strategy.
  destruct (kg_cpu_needs_buffer_clear c), (bug_l1tf c); simpl;
    try (destruct (has _ _)); simpl; naive_solver.
Qed.

(** ** L3 CAT partition: the two masks split the ways *)
Lemma cat_split_all :
  forallb (λ e : nat,
    let '(ways, sens, def) := probe_cat (Z.of_nat e) in
    (1 <=? ways) && (ways <=? 32)
    && (Z.land sens def =? 0)
    && (Z.lor sens def =? Z.shiftl 1 ways - 1)
    && (negb (sens =? 0))
    && (Z.eqb (Z.shiftr sens (ways - (if 4 <=? ways then ways / 4 else 1)))
              (Z.shiftl 1 (if 4 <=? ways then ways / 4 else 1) - 1)))
    (seq 0 32) = true.
Proof. by vm_compute. Qed.

Lemma probe_cat_low eax : probe_cat eax = probe_cat (Z.land eax 0x1f).
Proof.
  unfold probe_cat. rewrite <- Z.land_assoc. reflexivity.
Qed.

(** The two L3 masks split the cache ways: disjoint, together all of them, and the
    sensitive part is never empty. *)
Theorem probe_cat_partition eax :
  let '(ways, sens, def) := probe_cat eax in
  1 ≤ ways ≤ 32 ∧ Z.land sens def = 0 ∧ Z.lor sens def = 2 ^ ways - 1 ∧ sens ≠ 0.
Proof.
  rewrite probe_cat_low.
  assert (Hr : 0 ≤ Z.land eax 0x1f < 32).
  { change 31 with (Z.ones 5). rewrite Z.land_ones by lia. apply Z.mod_pos_bound. lia. }
  pose proof cat_split_all as Hall. rewrite forallb_forall in Hall.
  specialize (Hall (Z.to_nat (Z.land eax 31))).
  rewrite Z2Nat.id in Hall by lia.
  destruct (probe_cat (Z.land eax 31)) as [[ways sens] def].
  assert (In (Z.to_nat (Z.land eax 31)) (seq 0 32)) as Hin by (apply in_seq; lia).
  specialize (Hall Hin). bool_props. rewrite Z.shiftl_1_l in *. done.
Qed.

(** ** The floor, per operation *)

(** Below HIGH, relaxing a CPU restores its probed baseline; at HIGH and above
    it changes nothing. *)
Theorem relax_respects_floor `{CryptoLaws} w c :
  guard_inv w → 0 ≤ c < ncpu (hdr (wguard w)) →
  strategy (cpu_mit_at (kg_mit_relax_cpu c w) c) =
    (if KG_POSTURE_HIGH <=? kg_posture w then KG_STRAT_FULL else base_strategy (cpu_mit_at w c))
  ∧ kg_posture (kg_mit_relax_cpu c w) = kg_posture w.
Proof.
  intros [[Hpo Hfs (tab & Ht & Hlen & Hok & Hfl)] _] Hc.
  unfold kg_mit_relax_cpu, cpu_in_table, kg_posture, cpu_mit_at.
  rewrite (proj2 (Z.leb_le 0 c)), (proj2 (Z.ltb_lt c _)) by lia. simpl.
  rewrite update_locked_hdr, update_locked_cpu.
  destruct (lookup_lt_is_Some_2 tab (Z.to_nat c)) as [m Hm]; [lia|].
  destruct (posture (hdr (wguard w)) <? KG_POSTURE_HIGH) eqn:E; bool_props.
  - rewrite (proj2 (Z.leb_gt _ _)) by done. simpl. rewrite Ht. simpl.
    rewrite !list_lookup_total_alt, list_lookup_alter_eq, Hm. done.
  - rewrite (proj2 (Z.leb_le _ _)) by lia. rewrite Ht. simpl.
    rewrite !list_lookup_total_alt, Hm. simpl. split; [|done].
    specialize (Hfl ltac:(lia)). rewrite Forall_lookup in Hfl. eauto.
Qed.

Lemma relax_respects_floor_witness :
  strategy (cpu_mit_at (@kg_mit_relax_cpu sha_api 1 up_world) 1) = KG_STRAT_VERW_L1D
  ∧ kg_posture (@kg_mit_relax_cpu sha_api 1 up_world) = KG_POSTURE_NORMAL.
Proof.
  destruct (@relax_respects_floor sha_api sha_api_laws up_world 1 up_world_inv) as [Hs Hp];
    [by vm_compute|]. rewrite Hs, Hp. by vm_compute.
Defined.

(** [kg_mit_init] establishes the invariant, or fails leaving no table behind. *)
Theorem mit_init_establishes `{CryptoLaws} `{Platform} alloc_ok hp ran caps w :
  0 ≤ nr_cpu_ids →
  match kg_mit_init alloc_ok hp ran caps w with
  | (None, w') => guard_inv w' ∧ kg_guard_verify w' = true ∧ kg_posture w' = KG_POSTURE_NORMAL
  | (Some _, w') => cpu (wguard w') = None ∧ kg_guard_verify w' = false
  end.
Proof.
  intros Hn. destruct alloc_ok.
  - destruct (hp <? 0) eqn:Hhp; bool_props.
    + unfold kg_mit_init. rewrite (proj2 (Z.ltb_lt _ _)) by done.
      unfold kg_guard_verify. simpl. split; [done|]. by case_goal.
    + pose proof (mit_init_ok hp ran caps w Hn Hhp) as Hok.
      destruct (kg_mit_init true hp ran caps w) as [r w'].
      destruct Hok as (-> & Hi & Hp & _). split_and!; [apply Hi..|by apply sealed_verify, Hi|done].
  - unfold kg_mit_init, kg_guard_verify. simpl. by destruct (valid (wguard w)).
Qed.

Lemma mit_init_establishes_witness :
  cpu (wguard (@kg_mit_init sha_api two_cpus true (-28) [0] (λ _, sample_caps) boot_world).2) = None.
Proof.
  pose proof (@mit_init_establishes sha_api sha_api_laws two_cpus true (-28) [0] (λ _, sample_caps)
                boot_world ltac:(by compute)) as Hw. apply Hw.
Defined.
