(* ===== verification/Registry.v ===== *)
(** * Shared helpers of kg_state.c: the allow-list test and the registry of
    sensitive allocations

    The registry is the list of records in allocation order; its page count is
    a statistic of the module, kept modulo 2^64. *)
From S2P Require Import Prelude Uapi Kernel Machine.
Local Open Scope Z_scope.

(** ** Allow lists *)
Definition list_sep (c : Z) : bool := (c =? 44) || (c =? 32).

Fixpoint skip_list_sep (p : list Z) : list Z :=
  match p with c :: p' => if list_sep c then skip_list_sep p' else p | [] => [] end.
(** [strcspn(p, ", ")] *)
Fixpoint word_len (p : list Z) : nat :=
  match p with c :: p' => if list_sep c then O else S (word_len p') | [] => O end.

Fixpoint contains_loop (fuel : nat) (p name : list Z) : option bool :=
  match p with
  | [] => Some false
  | _ :: _ =>
    match fuel with
    | O => None
    | S fuel =>
      let p := skip_list_sep p in
      let n := word_len p in
      if (n =? length name)%nat && bool_decide (take n p = name) then Some true
      else contains_loop fuel (drop n p) name
    end
  end.

(** Strings without their terminating NUL; each round consumes a character. *)
Definition kg_list_contains (csv name : list Z) : option bool :=
  if (length name =? 0)%nat then Some false
  else contains_loop (S (length csv)) csv name.

(** ** Sensitive allocations *)
Definition PAGE_SHIFT : Z := 12.

Record kg_sens_rec := SensRec { s_ptr : Z; s_size : Z; s_flags : Z; s_tgid : Z }.

Definition kg_sens_pages (size : Z) : Z := (size + 4096 - 1) / 4096.

(** [rec_ok] is whether the record could be allocated, [mem] the buffer kzalloc
    returned (0 for NULL), [tgid] that of the caller. *)
Definition kg_sens_alloc (rec_ok : bool) (mem size flags tgid : Z) (l : list kg_sens_rec) (w : world)
  : Z * list kg_sens_rec * world :=
  if negb rec_ok || (mem =? 0) then (0, l, w)
  else (mem, l ++ [SensRec mem size flags tgid], kg_stat_add sens_page_count (kg_sens_pages size) w).

Fixpoint sens_remove (ptr : Z) (l : list kg_sens_rec) : option kg_sens_rec * list kg_sens_rec :=
  match l with
  | [] => (None, [])
  | r :: l => if s_ptr r =? ptr then (Some r, l)
              else let '(f, l) := sens_remove ptr l in (f, r :: l)
  end.

(** The last component is the buffer given to kfree_sensitive, if any. *)
Definition kg_sens_free (ptr : Z) (l : list kg_sens_rec) (w : world)
  : list kg_sens_rec * world * option Z :=
  if ptr =? 0 then (l, w, None)
  else
    let '(found, l) := sens_remove ptr l in
    let w := match found with
             | Some r => kg_stat_add sens_page_count (- kg_sens_pages (s_size r)) w
             | None => w
             end in
    (l, w, Some ptr).

(** [pa] is the kernel's virtual-to-physical map __pa. *)
Definition kg_sens_pfn_tagged (pa : Z → Z) (pfn : Z) (l : list kg_sens_rec) : bool :=
  existsb (λ r,
    let first := Z.shiftr (pa (s_ptr r)) PAGE_SHIFT in
    let last := Z.shiftr (u64 (pa (s_ptr r) + s_size r - 1)) PAGE_SHIFT in
    (first <=? pfn) && (pfn <=? last)) l.

(** ** The allow-list test finds exactly the words of the list *)
Definition starts_sep (b : list Z) : Prop := b = [] ∨ ∃ c b', b = c :: b' ∧ list_sep c = true.
Definition ends_sep (a : list Z) : Prop := a = [] ∨ ∃ a' c, a = a' ++ [c] ∧ list_sep c = true.
Definition word (s : list Z) : Prop := Forall (λ c, list_sep c = false) s.

(** [name] stands in [p] between separators or the ends of the text. *)
Definition listed (p name : list Z) : Prop :=
  ∃ a b, p = a ++ name ++ b ∧ ends_sep a ∧ starts_sep b.

Lemma word_len_spec p :
  word (take (word_len p) p) ∧ starts_sep (drop (word_len p) p) ∧ (word_len p ≤ length p)%nat.
Proof.
  induction p as [|c p IH]; simpl; [repeat split; [constructor|by left|lia]|].
  destruct (list_sep c) eqn:E; simpl.
  - split_and!; [constructor|right; eauto|lia].
  - destruct IH as (? & ? & ?). split_and!; [by constructor|done|lia].
Qed.

Lemma listed_sep c p name :
  name ≠ [] → word name → list_sep c = true → listed (c :: p) name ↔ listed p name.
Proof.
  intros Hne Hw Hc. split; intros (a & b & Hp & Ha & Hb).
  - destruct a as [|c' a].
    { destruct name as [|x name]; [done|]. injection Hp as -> ->. inversion_clear Hw. congruence. }
    injection Hp as <- ->. exists a, b. split_and!; [done| |done].
    destruct Ha as [|(a' & y & Ha & Hy)]; [done|]. destruct a' as [|z a'].
    + injection Ha as _ ->. by left.
    + injection Ha as _ ->. right. eauto.
  - exists (c :: a), b. subst p. split_and!; [done| |done].
    destruct Ha as [->|(a' & y & -> & Hy)]; right; [by exists [], c|by exists (c :: a'), y].
Qed.

Lemma word_split u v x y :
  word u → word v → starts_sep x → starts_sep y → u ++ x = v ++ y → u = v.
Proof.
  intros Hu Hv Hx Hy. revert v Hv. induction Hu as [|c u Hc Hu IH]; intros v Hv Heq.
  - destruct Hv as [|d v Hd Hv]; [done|]. simpl in Heq.
    destruct Hx as [->|(e & x' & -> & He)]; [done|]. injection Heq as -> _. congruence.
  - destruct Hv as [|d v Hd Hv]; simpl in Heq.
    + destruct Hy as [->|(e & y' & -> & He)]; [done|]. injection Heq as -> _. congruence.
    + injection Heq as -> Heq. f_equal. by apply IH.
Qed.

Lemma listed_word u rest name :
  name ≠ [] → word name → word u → starts_sep rest →
  listed (u ++ rest) name ↔ u = name ∨ listed rest name.
Proof.
  intros Hne Hw Hu Hr. split.
  - intros (a & b & Hp & Ha & Hb). destruct Ha as [->|(a' & c & -> & Hc)].
    { left. by apply (word_split u name rest b). }
    right. assert (Hlen : (length u ≤ length a')%nat).
    { destruct (decide (length u ≤ length a')%nat) as [|Hgt]; [done|exfalso].
      assert (Hl : (u ++ rest) !! length a' = Some c)
        by (by rewrite Hp, <- app_assoc; apply list_lookup_middle).
      rewrite lookup_app_l in Hl by lia. unfold word in Hu. rewrite Forall_lookup in Hu.
      specialize (Hu _ _ Hl). simpl in Hu. congruence. }
    exists (drop (length u) a' ++ [c]), b. split_and!; [|right; eauto|done].
    apply (f_equal (drop (length u))) in Hp. rewrite drop_app_length in Hp.
    rewrite <- app_assoc in Hp. rewrite drop_app_le in Hp by lia. by rewrite <- app_assoc.
  - intros [->|(a & b & -> & Ha & Hb)]; [by exists [], rest; repeat split; [left|]|].
    exists (u ++ a), b. split_and!; [by rewrite app_assoc| |done].
    destruct Ha as [->|(a' & c & -> & Hc)]; [exfalso|right; exists (u ++ a'), c; by rewrite app_assoc].
    destruct name as [|x name]; [done|]. inversion_clear Hw.
    destruct Hr as [|(c & b' & Heq & Hc)]; [done|]. injection Heq as <- _. congruence.
Qed.

Lemma skip_sep_listed p name :
  name ≠ [] → word name → listed (skip_list_sep p) name ↔ listed p name.
Proof.
  intros Hne Hw. induction p as [|c p IH]; [done|]. simpl.
  destruct (list_sep c) eqn:E; [|done]. by rewrite IH, listed_sep.
Qed.

Lemma skip_sep_length p : (length (skip_list_sep p) ≤ length p)%nat.
Proof. induction p as [|c p IH]; simpl; [lia|]. destruct (list_sep c); simpl; lia. Qed.
Lemma skip_sep_word p : skip_list_sep p = [] ∨ (0 < word_len (skip_list_sep p))%nat.
Proof.
  induction p as [|c p IH]; simpl; [by left|]. destruct (list_sep c) eqn:E; [done|].
  right. simpl. rewrite E. lia.
Qed.

Lemma not_listed_nil name : name ≠ [] → ¬ listed [] name.
Proof.
  intros Hne (a & b & Hp & _). destruct a, name; done.
Qed.

Lemma contains_loop_spec fuel p name :
  (length p < fuel)%nat → name ≠ [] → word name →
  ∃ r, contains_loop fuel p name = Some r ∧ (r = true ↔ listed p name).
Proof.
  revert p. induction fuel as [|fuel IH]; intros p Hf Hne Hw; [lia|].
  destruct p as [|c p]; [exists false; split; [done|]; split; [done|by intros ?%not_listed_nil]|].
  cbn [contains_loop]. set (q := skip_list_sep (c :: p)).
  destruct (word_len_spec q) as (Hwq & Hsq & Hlq).
  assert (Hq : listed (c :: p) name ↔ listed q name) by (symmetry; by apply skip_sep_listed).
  rewrite <- (take_drop (word_len q) q), listed_word in Hq by done.
  destruct (_ && _) eqn:E; [bool_props|].
  - exists true. split; [done|]. rewrite Hq. split; [by left|done].
  - pose proof (skip_sep_length (c :: p)) as Hsl. fold q in Hsl.
    assert (Hne' : take (word_len q) q ≠ name).
    { intros Heq. apply andb_false_iff in E as [E|E].
      - apply Nat.eqb_neq in E. apply E. rewrite <- Heq, length_take. lia.
      - by apply bool_decide_eq_false in E. }
    destruct (IH (drop (word_len q) q)) as (r & Hr & Hrl); [|done..|].
    + rewrite length_drop. destruct (skip_sep_word (c :: p)) as [Hnil|Hpos]; fold q in Hnil || fold q in Hpos; [|lia].
      rewrite Hnil. simpl in *. lia.
    + exists r. split; [done|]. rewrite Hrl, Hq. naive_solver.
Qed.

(** A name with a separator in it is never found, and the test answers all the same. *)
Lemma contains_loop_total fuel : ∀ p name,
  (length p < fuel)%nat → ∃ r, contains_loop fuel p name = Some r ∧ (r = true → word name).
Proof.
  induction fuel as [|fuel IH]; intros p name Hf; [lia|]. destruct p as [|c p]; [by exists false|].
  cbn [contains_loop]. set (q := skip_list_sep (c :: p)). destruct (word_len_spec q) as (Hwq & _ & Hlq).
  destruct (_ && _) eqn:E; bool_props; [exists true; split; [done|]; intros _; by simplify_eq|].
  apply IH. pose proof (skip_sep_length (c :: p)) as Hsl. fold q in Hsl. rewrite length_drop.
  destruct (skip_sep_word (c :: p)) as [Hnil|Hpos]; fold q in Hnil || fold q in Hpos; [|simpl in *; lia].
  rewrite Hnil. simpl in *. lia.
Qed.
Lemma list_contains_total csv name :
  ∃ r, kg_list_contains csv name = Some r ∧ (r = true → word name).
Proof.
  unfold kg_list_contains. destruct (_ =? 0)%nat; [by exists false|]. apply contains_loop_total. lia.
Qed.

(** The allow-list test always answers, and says yes exactly when the name stands in the
    list as a whole entry: never for a prefix, a suffix or the empty name. *)
Theorem list_contains_exact csv name :
  word name →
  ∃ r, kg_list_contains csv name = Some r ∧ (r = true ↔ name ≠ [] ∧ listed csv name).
Proof.
  intros Hw. unfold kg_list_contains. destruct (length name =? 0)%nat eqn:E.
  - apply Nat.eqb_eq, length_zero_iff_nil in E. exists false. naive_solver.
  - apply Nat.eqb_neq in E. assert (name ≠ []) by (by intros ->).
    destruct (contains_loop_spec (S (length csv)) csv name) as (r & Hr & Hl); [lia|done..|].
    exists r. naive_solver.
Qed.

Lemma list_contains_exact_witness :
  kg_list_contains (bytes_of "evdev, kbd") (bytes_of "kbd") = Some true
  ∧ listed (bytes_of "evdev, kbd") (bytes_of "kbd").
Proof.
  destruct (list_contains_exact (bytes_of "evdev, kbd") (bytes_of "kbd")) as (r & Hr & Hl).
  { repeat constructor. }
  assert (r = true) as -> by (vm_compute in Hr; congruence). split; [done|]. by apply Hl.
Defined.

(** ** The page count is the sum over the records *)
Definition total_pages (l : list kg_sens_rec) : Z := foldr (λ r n, kg_sens_pages (s_size r) + n) 0 l.

Record sens_inv (l : list kg_sens_rec) (w : world) : Prop := SensInv {
  sn_ptrs : NoDup (s_ptr <$> l);
  sn_nonnull : Forall (λ r, s_ptr r ≠ 0) l;
  sn_pages : wstats w sens_page_count = u64 (total_pages l)
}.

Lemma total_pages_app l k : total_pages (l ++ k) = total_pages l + total_pages k.
Proof. induction l as [|r l IH]; simpl; [done|]. lia. Qed.

Lemma sens_remove_spec ptr l :
  match sens_remove ptr l with
  | (Some r, l') => ∃ a b, l = a ++ r :: b ∧ l' = a ++ b ∧ s_ptr r = ptr
  | (None, l') => l' = l ∧ ptr ∉ (s_ptr <$> l)
  end.
Proof.
  induction l as [|r l IH]; simpl; [split; [done|apply not_elem_of_nil]|].
  destruct (Z.eqb_spec (s_ptr r) ptr) as [E|E]; [by exists [], l|].
  destruct (sens_remove ptr l) as [[f|] l'].
  - destruct IH as (a & b & -> & -> & Hp). by exists (r :: a), b.
  - destruct IH as [-> Hn]. split; [done|]. by apply not_elem_of_cons.
Qed.

Lemma stat_add_pages n w : wstats (kg_stat_add sens_page_count n w) sens_page_count
  = u64 (wstats w sens_page_count + n).
Proof. unfold kg_stat_add. simpl. by rewrite fn_lookup_insert. Qed.

Lemma sens_alloc_spec rec_ok mem size flags tgid l w :
  sens_inv l w → mem ∉ (s_ptr <$> l) →
  let '(p, l1, w1) := kg_sens_alloc rec_ok mem size flags tgid l w in
  sens_inv l1 w1 ∧ (if decide (p = 0) then l1 = l else p = mem ∧ l1 = l ++ [SensRec mem size flags tgid]).
Proof.
  intros [Hnd Hnn Hp] Hmem. unfold kg_sens_alloc.
  destruct (negb rec_ok || (mem =? 0)) eqn:E; [done|].
  apply orb_false_iff in E as [_ E%Z.eqb_neq]. rewrite decide_False by done. split; [|done].
  constructor.
  - rewrite fmap_app. apply NoDup_app. split_and!; [done| |apply NoDup_singleton].
    intros x Hx ->%list_elem_of_singleton. done.
  - apply Forall_app. split; [done|]. by constructor.
  - rewrite stat_add_pages, Hp, total_pages_app, u64_add_wrap. simpl. by rewrite Z.add_0_r.
Qed.

Lemma sens_free_spec ptr l w :
  sens_inv l w →
  let '(l2, w2, freed) := kg_sens_free ptr l w in
  sens_inv l2 w2 ∧ freed = (if decide (ptr = 0) then None else Some ptr)
  ∧ (∀ q, q ∈ (s_ptr <$> l2) ↔ q ∈ (s_ptr <$> l) ∧ q ≠ ptr).
Proof.
  intros [Hnd Hnn Hp]. unfold kg_sens_free.
  destruct (Z.eqb_spec ptr 0) as [->|E].
  { split_and!; [done..|]. intros q. split; [|naive_solver]. intros Hq. split; [done|].
    intros ->. apply list_elem_of_fmap in Hq as (r & Hr & Hin). rewrite Forall_forall in Hnn.
    by apply (Hnn r). }
  rewrite decide_False by done. pose proof (sens_remove_spec ptr l) as Hrem.
  destruct (sens_remove ptr l) as [[r|] l'].
  - destruct Hrem as (a & b & -> & -> & Hr). rewrite fmap_app, fmap_cons in *.
    rewrite <- Permutation_middle, NoDup_cons in Hnd. destruct Hnd as [Hnin Hnd].
    split_and!; [constructor|done|].
    + by rewrite fmap_app.
    + rewrite Forall_app, Forall_cons in Hnn. rewrite Forall_app. naive_solver.
    + rewrite stat_add_pages, Hp, u64_add_wrap, !total_pages_app. simpl. f_equal. lia.
    + intros q. rewrite elem_of_app in Hnin.
      rewrite !fmap_app, fmap_cons, !elem_of_app, elem_of_cons. naive_solver.
  - destruct Hrem as [-> Hnin]. split_and!; [done..|]. naive_solver.
Qed.

(** The registry under allocation and release: a buffer that was handed out is
    registered once, releasing it removes exactly its record and is always followed by a
    zeroising free, releasing an unknown buffer leaves the registry alone, and the
    statistic counts the pages of the registered buffers. *)
Theorem registry_accounts_pages rec_ok mem size flags tgid ptr l w :
  sens_inv l w → mem ∉ (s_ptr <$> l) →
  let '(p, l1, w1) := kg_sens_alloc rec_ok mem size flags tgid l w in
  let '(l2, w2, freed) := kg_sens_free ptr l1 w1 in
  sens_inv l1 w1 ∧ (if decide (p = 0) then l1 = l else p = mem ∧ l1 = l ++ [SensRec mem size flags tgid])
  ∧ sens_inv l2 w2 ∧ freed = (if decide (ptr = 0) then None else Some ptr)
  ∧ (∀ q, q ∈ (s_ptr <$> l2) ↔ q ∈ (s_ptr <$> l1) ∧ q ≠ ptr).
Proof.
  intros Hi Hmem. pose proof (sens_alloc_spec rec_ok mem size flags tgid l w Hi Hmem) as Ha.
  destruct (kg_sens_alloc _ _ _ _ _ l w) as [[p l1] w1]. destruct Ha as [Hi1 Hp].
  pose proof (sens_free_spec ptr l1 w1 Hi1) as Hf. destruct (kg_sens_free ptr l1 w1) as [[l2 w2] fr].
  naive_solver.
Qed.

Lemma registry_accounts_pages_witness :
  let '(_, l1, w1) := kg_sens_alloc true 4096 5000 0 1 [] boot_world in
  let '(l2, w2, freed) := kg_sens_free 4096 l1 w1 in
  sens_inv l1 w1 ∧ wstats w1 sens_page_count = 2 ∧ sens_inv l2 w2 ∧ freed = Some 4096.
Proof.
  pose proof (registry_accounts_pages true 4096 5000 0 1 4096 [] boot_world) as Hr.
  destruct Hr as (Hi & _ & Hi2 & Hf & _); [by repeat constructor|apply not_elem_of_nil|].
  split_and!; [exact Hi|reflexivity|exact Hi2|exact Hf].
Defined.
