(* ===== verification/Comms.v ===== *)
(** * Module 5: the authenticated notification ring (linux/module/kg_comms.c)

    The writer's publication is a list of individual stores ([publish]), run
    back to back here and interleaved with a reader in Monitor.v.  The abstract
    view of the ring is the log of everything ever published; [ring_holds]
    relates the two, and every operation is proved against it. *)
From S2P Require Import Prelude Uapi Kernel Machine Guard.
Local Open Scope Z_scope.

Definition KG_RL_BURST : Z := 32.
Definition KG_RL_INTERVAL_NS : Z := 100 * 1000000.
Definition PAGE_SIZE : Z := 4096.

(** ** Rate limiter: (allowed, rl_last_ns, rl_tokens) *)
Definition kg_rl_allow (now last tokens : Z) : bool * Z * Z :=
  let add := u64 (now - last) / KG_RL_INTERVAL_NS in
  let '(last, tokens) :=
    if add =? 0 then (last, tokens)
    else (u64 (last + add * KG_RL_INTERVAL_NS), Z.min KG_RL_BURST (u64 (tokens + add))) in
  if tokens =? 0 then (false, last, tokens) else (true, last, tokens - 1).

(** ** Stores to the shared page *)
Inductive store :=
  | SetMagic (slot : nat) (v : Z)
  | SetSequence (slot : nat) (v : Z)
  | SetAlertType (slot : nat) (v : Z)
  | SetAlertLevel (slot : nat) (v : Z)
  | SetTimestamp (slot : nat) (v : Z)
  | SetParam1 (slot : nat) (v : Z)
  | SetParam2 (slot : nat) (v : Z)
  | SetHmacByte (slot : nat) (i : nat) (v : Z)
  | SetWriteIndex (v : Z)
  | SetNonce (v : Z).

#[export] Instance store_eq_dec : EqDecision store.
Proof. solve_decision. Defined.

Definition put_field (s : store) (n : kg_notification) : kg_notification :=
  match s with
  | SetMagic _ v => Notif v (sequence n) (alert_type n) (alert_level n) (timestamp n) (param1 n) (param2 n) (hmac n)
  | SetSequence _ v => Notif (magic n) v (alert_type n) (alert_level n) (timestamp n) (param1 n) (param2 n) (hmac n)
  | SetAlertType _ v => Notif (magic n) (sequence n) v (alert_level n) (timestamp n) (param1 n) (param2 n) (hmac n)
  | SetAlertLevel _ v => Notif (magic n) (sequence n) (alert_type n) v (timestamp n) (param1 n) (param2 n) (hmac n)
  | SetTimestamp _ v => Notif (magic n) (sequence n) (alert_type n) (alert_level n) v (param1 n) (param2 n) (hmac n)
  | SetParam1 _ v => Notif (magic n) (sequence n) (alert_type n) (alert_level n) (timestamp n) v (param2 n) (hmac n)
  | SetParam2 _ v => Notif (magic n) (sequence n) (alert_type n) (alert_level n) (timestamp n) (param1 n) v (hmac n)
  | SetHmacByte _ i v => Notif (magic n) (sequence n) (alert_type n) (alert_level n) (timestamp n) (param1 n) (param2 n) (<[i := v]> (hmac n))
  | SetWriteIndex _ | SetNonce _ => n
  end.

Definition store_slot (s : store) : option nat :=
  match s with
  | SetMagic k _ | SetSequence k _ | SetAlertType k _ | SetAlertLevel k _ | SetTimestamp k _
  | SetParam1 k _ | SetParam2 k _ | SetHmacByte k _ _ => Some k
  | SetWriteIndex _ | SetNonce _ => None
  end.

Definition do_store (r : kg_shared_region) (s : store) : kg_shared_region :=
  match s with
  | SetWriteIndex v => Region v (read_index r) (driver_nonce r) (reserved r) (notifications r)
  | SetNonce v => Region (write_index r) (read_index r) v (reserved r) (notifications r)
  | _ => match store_slot s with
         | Some k => Region (write_index r) (read_index r) (driver_nonce r) (reserved r)
                            (alter (put_field s) k (notifications r))
         | None => r
         end
  end.

(** Steps 1-4 of the publication protocol on one slot, then step 5. *)
Definition publish_slot (slot : nat) (n : kg_notification) : list store :=
  [SetMagic slot 0; SetSequence slot (sequence n); SetAlertType slot (alert_type n);
   SetAlertLevel slot (alert_level n); SetTimestamp slot (timestamp n);
   SetParam1 slot (param1 n); SetParam2 slot (param2 n)]
  ++ imap (λ i b, SetHmacByte slot i b) (hmac n)
  ++ [SetMagic slot KG_NOTIFY_MAGIC].

Definition slot_of (seq : Z) : nat :=
  Z.to_nat (array_index_nospec (seq mod KG_NOTIFY_SLOTS) KG_NOTIFY_SLOTS).

Definition publish (n : kg_notification) : list store :=
  publish_slot (slot_of (sequence n)) n ++ [SetWriteIndex (u32 (sequence n + 1))].

Section comms.
Context `{Crypto} `{Platform}.

Definition set_ring (r : kg_shared_region) (c : kg_comms) : kg_comms :=
  Comms r (key c) (rl_last_ns c) (rl_tokens c) (ue_cursor c) (dev c).
Definition set_rl (last tokens : Z) (c : kg_comms) : kg_comms :=
  Comms (ring c) (key c) last tokens (ue_cursor c) (dev c).

(** The limiter under the lock: allowed?, channel, world. *)
Definition rate_check (level : Z) (c : kg_comms) (w : world) : bool * kg_comms * world :=
  if level <? KG_LEVEL_CRITICAL then
    let '(now, w) := ktime_get_ns w in
    let '(ok, last, tokens) := kg_rl_allow now (rl_last_ns c) (rl_tokens c) in
    (ok, set_rl last tokens c, w)
  else (true, c, w).

Definition kg_comms_notify (type level p1 p2 : Z) (w : world) : option errno * world :=
  match wcomms w with
  | None => (Some ENODEV, w)
  | Some c =>
    let '(ts, w) := ktime_get_real_ns w in
    let '(ok, c, w) := rate_check level c w in
    if negb ok then
      (Some EBUSY, kg_stat_inc notifications_dropped (set_comms (Some c) w))
    else
      let r := ring c in
      let seq := driver_nonce r in
      let r1 := do_store r (SetNonce (u32 (seq + 1))) in
      let n0 := Notif KG_NOTIFY_MAGIC seq type level ts p1 p2 (replicate 32 0) in
      match shash_hmac (key c) (auth_bytes n0) with
      | inl e =>
        let r2 := do_store r1 (SetNonce (u32 (driver_nonce r1 - 1))) in
        (Some e, set_comms (Some (set_ring r2 c)) w)
      | inr mac =>
        let n := Notif KG_NOTIFY_MAGIC seq type level ts p1 p2 mac in
        let r2 := foldl do_store r1 (publish n) in
        let w := kg_stat_inc notifications_sent (set_comms (Some (set_ring r2 c)) w) in
        (None, if KG_LEVEL_WATCH <=? level then queue_delayed_work UeventWork (msecs 0) w else w)
      end
  end.

(** ** File operations *)
Definition kg_comms_get_key (cap_sys_admin : bool) (w : world) : errno + list Z :=
  match wcomms w with
  | None => inl ENODEV
  | Some c => if cap_sys_admin then inr (take 32 (key c)) else inl EPERM
  end.

Record vma := Vma {
  vm_start : Z; vm_end : Z; vm_pgoff : Z;
  vm_write : bool; vm_maywrite : bool; vm_dontexpand : bool; vm_dontdump : bool
}.

(** [insert] is the result of vm_insert_page. *)
Definition kg_comms_mmap (insert : option errno) (v : vma) (w : world) : option errno * vma :=
  match wcomms w with
  | None => (Some ENODEV, v)
  | Some _ =>
    if negb (vm_pgoff v =? 0) || (PAGE_SIZE <? u64 (vm_end v - vm_start v)) then (Some EINVAL, v)
    else if vm_write v then (Some EPERM, v)
    else (insert, Vma (vm_start v) (vm_end v) (vm_pgoff v) (vm_write v) false true true)
  end.

Definition kg_comms_open (w : world) : Z :=
  match wcomms w with Some c => write_index (ring c) | None => 0 end.

(** EPOLLERR, or whether the descriptor became readable, with the new [seen]. *)
Inductive poll_result := PollErr | PollIn | PollNone.
Definition kg_comms_poll (seen : Z) (w : world) : poll_result * Z :=
  match wcomms w with
  | None => (PollErr, seen)
  | Some c => if write_index (ring c) =? seen then (PollNone, seen)
              else (PollIn, write_index (ring c))
  end.

(** ** Fallback channel *)
Record uevent := Uevent { ue_alert : Z; ue_level : Z; ue_seq : Z }.

Definition set_cursor (i : Z) (c : kg_comms) : kg_comms :=
  Comms (ring c) (key c) (rl_last_ns c) (rl_tokens c) i (dev c).

(** The [for (;;)] loop; the second component lists the uevents sent. *)
Fixpoint uevent_loop (fuel : nat) (c : kg_comms) (w : world)
  : option (kg_comms * list uevent * world) :=
  match fuel with
  | O => None
  | S fuel =>
    let e := write_index (ring c) in
    let i := ue_cursor c in
    if negb (dev c) || (i =? e) then Some (c, [], w)
    else
      let i := if KG_NOTIFY_SLOTS <? u32 (e - i) then u32 (e - KG_NOTIFY_SLOTS) else i in
      let snap := notifications (ring c) !!! Z.to_nat (i mod KG_NOTIFY_SLOTS) in
      let c := set_cursor (u32 (i + 1)) c in
      let ok := (magic snap =? KG_NOTIFY_MAGIC) && (sequence snap =? i) in
      if negb ok || (alert_level snap <? KG_LEVEL_WATCH) then uevent_loop fuel c w
      else
        let ev := Uevent (alert_type snap) (alert_level snap) (sequence snap) in
        if kobject_uevent_ok (sequence snap) then
          '(c, l, w) ← uevent_loop fuel c (kg_stat_inc fallback_signals_sent w);
          Some (c, ev :: l, w)
        else uevent_loop fuel c w
  end.

(** At most one round per slot, plus the final test (see [uevent_worker_catches_up]). *)
Definition kg_uevent_workfn (w : world) : option (list uevent * world) :=
  match wcomms w with
  | None => Some ([], w)
  | Some c => '(c, l, w) ← uevent_loop 17 c w; Some (l, set_comms (Some c) w)
  end.

Definition set_dev (d : bool) (c : kg_comms) : kg_comms :=
  Comms (ring c) (key c) (rl_last_ns c) (rl_tokens c) (ue_cursor c) d.

Definition kg_comms_set_device (d : bool) (w : world) : world :=
  match wcomms w with
  | None => w
  | Some c =>
    let w := set_comms (Some (set_dev d c)) w in
    if d then queue_delayed_work UeventWork (msecs 0) w else cancel_work UeventWork w
  end.

(** ** init / exit: the outcomes of the allocations are inputs *)
Definition empty_ring : kg_shared_region :=
  Region 0 0 0 0 (replicate 16 zero_notification).

Definition kg_comms_init (alloc_ok page_ok : bool) (tfm_err setkey_err : option errno)
  (random_key : list Z) (w : world) : option errno * world :=
  if negb alloc_ok then (Some ENOMEM, set_comms None w)
  else
    let '(now, w) := ktime_get_ns w in
    if negb page_ok then (Some ENOMEM, set_comms None w)
    else match tfm_err with
    | Some e => (Some e, set_comms None w)
    | None =>
      match setkey_err with
      | Some e => (Some e, set_comms None w)
      | None => (None, set_comms (Some (Comms empty_ring random_key now KG_RL_BURST 0 false)) w)
      end
    end.

Definition kg_comms_exit (w : world) : world :=
  match wcomms w with
  | None => w
  | Some _ => set_comms None (cancel_work UeventWork (kg_comms_set_device false w))
  end.
End comms.

(** ** One publication writes exactly one slot *)
Lemma do_store_slot r s k :
  store_slot s = Some k →
  do_store r s = Region (write_index r) (read_index r) (driver_nonce r) (reserved r)
                        (alter (put_field s) k (notifications r)).
Proof. by destruct s; intros [= ->]. Qed.

Definition put_fields (n : kg_notification) (l : list store) : kg_notification :=
  foldl (λ n s, put_field s n) n l.

Lemma stores_on_slot l r k :
  Forall (λ s, store_slot s = Some k) l →
  foldl do_store r l
  = Region (write_index r) (read_index r) (driver_nonce r) (reserved r)
           (alter (λ n, put_fields n l) k (notifications r)).
Proof.
  intros Hl. revert r. induction Hl as [|s l Hs Hl IH]; intros r; simpl.
  - unfold put_fields. simpl. rewrite list_alter_same by done. by destruct r.
  - rewrite IH, (do_store_slot r s k Hs). cbn [write_index read_index driver_nonce reserved notifications].
    f_equal. unfold put_fields. simpl. by rewrite list_alter_alter.
Qed.

Lemma put_hmac_bytes k bs off n :
  (off + length bs ≤ length (hmac n))%nat →
  put_fields n (imap (λ i b, SetHmacByte k (off + i) b) bs)
  = Notif (magic n) (sequence n) (alert_type n) (alert_level n) (timestamp n) (param1 n)
          (param2 n) (memcpy (hmac n) off bs).
Proof.
  revert off n. induction bs as [|b bs IH]; intros off n Hlen.
  - unfold memcpy, put_fields. simpl. rewrite Nat.add_0_r, take_drop. by destruct n.
  - simpl in Hlen. rewrite imap_cons. unfold put_fields in *. simpl.
    rewrite (imap_ext _ (λ i b, SetHmacByte k (S off + i) b)) by (intros; simpl; f_equal; lia).
    rewrite IH by (simpl; rewrite length_insert; lia). simpl. f_equal.
    unfold memcpy. rewrite Nat.add_0_r. simpl.
    rewrite drop_insert_lt by lia. rewrite take_S_r with (x := b).
    + rewrite take_insert_ge by lia. rewrite <- app_assoc. simpl.
      by replace (off + S (length bs))%nat with (S (off + length bs)) by lia.
    + apply list_lookup_insert_eq. lia.
Qed.

Lemma publish_slot_on k n : Forall (λ s, store_slot s = Some k) (publish_slot k n).
Proof.
  unfold publish_slot. rewrite !Forall_app. split; [by repeat constructor|].
  split; [|by repeat constructor].
  apply Forall_forall. intros s (i & b & -> & _)%elem_of_lookup_imap. done.
Qed.

Lemma publish_slot_result k n old :
  magic n = KG_NOTIFY_MAGIC → length (hmac n) = length (hmac old) →
  put_fields old (publish_slot k n) = n.
Proof.
  intros Hm Hl. unfold publish_slot, put_fields. rewrite !foldl_app. simpl.
  set (o1 := Notif 0 _ _ _ _ _ _ _).
  change (foldl (λ n s, put_field s n) o1 (imap (λ i b, SetHmacByte k i b) (hmac n)))
    with (put_fields o1 (imap (λ i b, SetHmacByte k (0 + i) b) (hmac n))).
  rewrite put_hmac_bytes by (simpl; lia). subst o1. simpl.
  rewrite memcpy_whole by done. rewrite <- Hm. by destruct n.
Qed.

Lemma publish_effect r n old :
  magic n = KG_NOTIFY_MAGIC → length (hmac n) = length (hmac old) →
  notifications r !! slot_of (sequence n) = Some old →
  foldl do_store r (publish n)
  = Region (u32 (sequence n + 1)) (read_index r) (driver_nonce r) (reserved r)
           (<[slot_of (sequence n) := n]> (notifications r)).
Proof.
  intros Hm Hl Hold. unfold publish. rewrite foldl_app.
  rewrite (stores_on_slot _ _ _ (publish_slot_on _ n)).
  cbn [foldl do_store notifications read_index driver_nonce reserved]. f_equal.
  apply list_eq. intros i. destruct (decide (i = slot_of (sequence n))) as [->|Hne].
  - rewrite list_lookup_alter_eq, Hold. cbn [fmap option_fmap option_map].
    rewrite publish_slot_result by done. symmetry. apply list_lookup_insert_eq.
    by eapply lookup_lt_Some.
  - by rewrite list_lookup_alter_ne, list_lookup_insert_ne by done.
Qed.

(** ** The ring as a window on the log *)
Definition idx_slot (i : nat) : nat := (i mod 16)%nat.

Record ring_holds (r : kg_shared_region) (log : list kg_notification) : Prop := RingHolds {
  rh_len : length (notifications r) = 16%nat;
  rh_hmac : Forall (λ n, length (hmac n) = 32%nat) (notifications r);
  rh_widx : write_index r = u32 (Z.of_nat (length log));
  rh_nonce : driver_nonce r = u32 (Z.of_nat (length log));
  rh_seq : ∀ i n, log !! i = Some n → sequence n = u32 (Z.of_nat i) ∧ magic n = KG_NOTIFY_MAGIC;
  rh_slots : ∀ i n, (length log ≤ i + 16)%nat → log !! i = Some n →
             notifications r !! idx_slot i = Some n
}.

Lemma slot_of_index (i : nat) : slot_of (u32 (Z.of_nat i)) = idx_slot i.
Proof.
  unfold slot_of, array_index_nospec, idx_slot, KG_NOTIFY_SLOTS, u32.
  assert (Hm : (Z.of_nat i mod 4294967296) mod 16 = Z.of_nat i mod 16).
  { apply Z.mod_mod_divide. exists 268435456. lia. }
  rewrite Hm. pose proof (Z.mod_pos_bound (Z.of_nat i) 16 ltac:(lia)).
  rewrite (proj2 (Z.ltb_lt _ _)) by lia.
  rewrite <- (Nat2Z.id (i mod 16)), Nat2Z.inj_mod. done.
Qed.

Lemma empty_ring_holds : ring_holds empty_ring [].
Proof.
  constructor; try done.
  simpl. by repeat constructor.
Qed.

Lemma ring_holds_append r log n :
  ring_holds r log → magic n = KG_NOTIFY_MAGIC → length (hmac n) = 32%nat →
  sequence n = u32 (Z.of_nat (length log)) →
  ring_holds (foldl do_store (do_store r (SetNonce (u32 (sequence n + 1)))) (publish n))
             (log ++ [n]).
Proof.
  intros [Hlen Hhm Hw Hn Hs Hsl] Hm Hh Hseq.
  pose proof (slot_of_index (length log)) as Hslot. rewrite <- Hseq in Hslot.
  assert (Hlt : (slot_of (sequence n) < 16)%nat)
    by (rewrite Hslot; apply Nat.mod_upper_bound; lia).
  destruct (lookup_lt_is_Some_2 (notifications r) (slot_of (sequence n))) as [old Hold]; [lia|].
  assert (length (hmac old) = 32%nat) by (rewrite Forall_lookup in Hhm; eauto).
  rewrite (publish_effect _ n old) by (simpl; congruence). simpl.
  assert (Hnext : u32 (sequence n + 1) = u32 (Z.of_nat (length (log ++ [n])))).
  { rewrite Hseq, u32_add_wrap, length_app. f_equal. simpl. lia. }
  constructor; simpl; rewrite ?Hnext; try done.
  - by rewrite length_insert.
  - by apply Forall_insert.
  - intros i x Hx. apply lookup_app_Some in Hx as [Hx|[Hge Hx]]; [eauto|].
    apply list_lookup_singleton_Some in Hx as [Hi <-].
    replace i with (length log) by lia. done.
  - intros i x Hwin Hx. rewrite length_app in Hwin. simpl in Hwin. rewrite Hslot.
    apply lookup_app_Some in Hx as [Hx|[Hge Hx]].
    + pose proof (lookup_lt_Some _ _ _ Hx).
      rewrite list_lookup_insert_ne; [apply Hsl; [lia|done]|].
      unfold idx_slot. intros Heq.
      pose proof (Nat.div_mod_eq i 16). pose proof (Nat.div_mod_eq (length log) 16). lia.
    + apply list_lookup_singleton_Some in Hx as [Hi <-].
      replace i with (length log) by lia. apply list_lookup_insert_eq.
      unfold idx_slot. rewrite Hlen. by apply Nat.mod_upper_bound.
Qed.

(** ** Rate limiter *)
Lemma rl_allow_step now last tokens :
  0 ≤ last ≤ now → is_u64 now → 0 ≤ tokens ≤ KG_RL_BURST →
  let '(ok, last', tokens') := kg_rl_allow now last tokens in
  let add := (now - last) / KG_RL_INTERVAL_NS in
  last' = last + add * KG_RL_INTERVAL_NS ∧ last' ≤ now
  ∧ tokens' = Z.min KG_RL_BURST (tokens + add) - (if ok then 1 else 0)
  ∧ 0 ≤ tokens' ≤ KG_RL_BURST
  ∧ (ok = false → tokens = 0 ∧ now - last < KG_RL_INTERVAL_NS).
Proof.
  unfold kg_rl_allow, is_u64, KG_RL_BURST. intros Hl Hn Ht.
  set (I := KG_RL_INTERVAL_NS). assert (HI : I = 100000000) by reflexivity. clearbody I.
  rewrite (u64_id (now - last)) by (unfold is_u64; lia).
  set (add := (now - last) / I).
  assert (Hadd : 0 ≤ add ∧ add * I ≤ now - last < add * I + I)
    by (subst add; rewrite HI; Z.div_mod_to_equations; lia).
  clearbody add. destruct (add =? 0) eqn:E; bool_props.
  - subst. destruct (tokens =? 0) eqn:E'; bool_props; split_and!; try lia.
  - rewrite (u64_id (last + _)), (u64_id (tokens + _)) by (unfold is_u64; lia).
    destruct (Z.min 32 (tokens + add) =? 0) eqn:E'; bool_props; split_and!; lia.
Qed.

Fixpoint rl_run (ts : list Z) (last tokens : Z) : nat * Z * Z :=
  match ts with
  | [] => (O, last, tokens)
  | now :: ts =>
    let '(ok, last, tokens) := kg_rl_allow now last tokens in
    let '(n, last, tokens) := rl_run ts last tokens in
    ((if ok then S n else n), last, tokens)
  end.

(** Non-critical alerts offered at the instants [ts]: never more get through
    than the bucket held plus one per 100 ms elapsed. *)
Theorem rate_limit_bound ts last tokens T :
  Sorted Z.le (last :: ts) → 0 ≤ last → Forall (λ t, t ≤ T) ts → last ≤ T → is_u64 T →
  0 ≤ tokens ≤ KG_RL_BURST →
  Z.of_nat (rl_run ts last tokens).1.1 ≤ tokens + (T - last) / KG_RL_INTERVAL_NS.
Proof.
  intros Hs%Sorted_StronglySorted; [|by intros ???; apply Z.le_trans].
  revert last tokens Hs. induction ts as [|now ts IH]; intros last tokens Hs H0 HT HlT HT64 Htok.
  - simpl. assert (0 ≤ (T - last) / KG_RL_INTERVAL_NS) by (apply Z.div_pos; [lia|done]). lia.
  - inversion_clear HT. inversion_clear Hs as [|?? Hts Hle]. inversion_clear Hle.
    pose proof (rl_allow_step now last tokens ltac:(lia) ltac:(unfold is_u64 in *; lia) Htok) as Hst.
    cbn [rl_run]. destruct (kg_rl_allow now last tokens) as [[ok last'] tokens'].
    destruct Hst as (Hlast & Hln & Htok' & Hr & _).
    specialize (IH last' tokens').
    destruct (rl_run ts last' tokens') as [[n l2] t2]. simpl in *.
    assert (Hs' : StronglySorted Z.le (last' :: ts)).
    { inversion_clear Hts. constructor; [done|]. eapply Forall_impl; [done|].
      intros; simpl in *; lia. }
    specialize (IH Hs' ltac:(unfold KG_RL_INTERVAL_NS in *; Z.div_mod_to_equations; lia)
                   ltac:(done) ltac:(lia) HT64 Hr).
    set (add := (now - last) / KG_RL_INTERVAL_NS) in *.
    replace (T - last') with ((T - last) + (- add) * KG_RL_INTERVAL_NS) in IH by lia.
    rewrite Z.div_add in IH by done. destruct ok; lia.
Qed.

Lemma rate_limit_bound_witness :
  Z.of_nat (rl_run (replicate 40 5) 5 32).1.1 ≤ 32 + (5 - 5) / KG_RL_INTERVAL_NS
  ∧ (rl_run (replicate 40 5) 5 32).1.1 = 32%nat.
Proof.
  split; [|by vm_compute].
  apply (rate_limit_bound (replicate 40 5) 5 32 5); try (by compute).
  - simpl. repeat constructor; lia.
  - simpl. repeat constructor; lia.
Defined.

Lemma rl_allow_tokens now last tokens :
  0 ≤ tokens ≤ KG_RL_BURST → 0 ≤ (kg_rl_allow now last tokens).2 ≤ KG_RL_BURST.
Proof.
  unfold kg_rl_allow, KG_RL_BURST. intros Ht.
  set (add := u64 (now - last) / KG_RL_INTERVAL_NS).
  pose proof (u64_range (tokens + add)) as Hu. unfold is_u64 in Hu.
  destruct (add =? 0).
  - destruct (tokens =? 0) eqn:E; bool_props; simpl; lia.
  - destruct (Z.min 32 (u64 (tokens + add)) =? 0) eqn:E; bool_props; simpl; lia.
Qed.

(** ** Notify against the log *)
Definition chan_inv (c : kg_comms) (log : list kg_notification) : Prop :=
  ring_holds (ring c) log ∧ 0 ≤ rl_tokens c ≤ KG_RL_BURST.

(** A channel that was just set up. *)
Definition sample_comms : kg_comms := Comms empty_ring (replicate 32 0x0b) 0 KG_RL_BURST 0 false.
Definition comms_world : world := set_comms (Some sample_comms) boot_world.
Lemma sample_comms_inv : chan_inv sample_comms [].
Proof.
  split; [|by compute]. constructor; try done; repeat constructor.
Qed.

Section notify.
Context `{CryptoLaws} `{Platform}.

Lemma rate_check_spec level c w :
  let '(ok, c', w') := rate_check level c w in
  ring c' = ring c ∧ key c' = key c ∧ ue_cursor c' = ue_cursor c ∧ dev c' = dev c
  ∧ same_policy w w' ∧ nreal w' = nreal w
  ∧ (0 ≤ rl_tokens c ≤ KG_RL_BURST → 0 ≤ rl_tokens c' ≤ KG_RL_BURST)
  ∧ (ok = false → level < KG_LEVEL_CRITICAL).
Proof.
  unfold rate_check. destruct (level <? KG_LEVEL_CRITICAL) eqn:E; bool_props; [|done].
  simpl. pose proof (rl_allow_tokens (ktime_get_ns_at (nmono w)) (rl_last_ns c) (rl_tokens c)).
  destruct (kg_rl_allow _ _ _) as [[ok l] t]. simpl in *. done.
Qed.

Lemma queue_work_comms i d w : wcomms (queue_delayed_work i d w) = wcomms w.
Proof. unfold queue_delayed_work. by destruct (wwork w i). Qed.
Lemma queue_work_frame i d w : same_policy w (queue_delayed_work i d w).
Proof. unfold queue_delayed_work. by destruct (wwork w i). Qed.

Lemma notify_refines ty lv p1 p2 w c log :
  wcomms w = Some c → chan_inv c log →
  match kg_comms_notify ty lv p1 p2 w with
  | (None, w') => ∃ c' mac,
      let n := Notif KG_NOTIFY_MAGIC (u32 (Z.of_nat (length log))) ty lv
                     (ktime_get_real_ns_at (nreal w)) p1 p2 mac in
      wcomms w' = Some c' ∧ key c' = key c ∧ dev c' = dev c ∧ ue_cursor c' = ue_cursor c
      ∧ chan_inv c' (log ++ [n])
      ∧ shash_hmac (key c) (auth_bytes n) = inr mac
  | (Some e, w') => ∃ c',
      wcomms w' = Some c' ∧ key c' = key c ∧ dev c' = dev c ∧ ue_cursor c' = ue_cursor c
      ∧ ring c' = ring c ∧ chan_inv c' log
      ∧ (e = EBUSY ∧ lv < KG_LEVEL_CRITICAL ∨ ∃ m, shash_hmac (key c) m = inl e)
  end.
Proof.
  intros Hc [Hr Htok]. unfold kg_comms_notify. rewrite Hc. cbn [ktime_get_real_ns].
  pose proof (rate_check_spec lv c (tick_real w)) as Hrc.
  destruct (rate_check lv c (tick_real w)) as [[ok c1] w1].
  destruct Hrc as (Hring & Hkey & Hcur & Hdev & _ & _ & Ht1 & Hok).
  destruct ok; cbn [negb].
  2:{ exists c1. split_and!; try done; [split; [by rewrite Hring|auto]|left; auto]. }
  rewrite Hring, Hkey. pose proof (rh_nonce _ _ Hr) as Hnonce. rewrite Hnonce.
  destruct (shash_hmac (key c) _) as [e|mac] eqn:Emac.
  - exists (set_ring (ring c) c1). cbn [set_ring ring key dev ue_cursor rl_tokens].
    split_and!; try done; [|split; auto|right; eauto].
    simpl. do 2 f_equal. destruct (ring c) as [wi ri dn rs ns]. simpl in *.
    f_equal. rewrite Hnonce. unfold u32. rewrite Zminus_mod_idemp_l.
    rewrite Z.add_simpl_r. by rewrite Z.mod_mod.
  - eexists _, mac. split_and!.
    + case_goal; rewrite ?queue_work_comms; reflexivity.
    + done.
    + done.
    + done.
    + split; [|by apply Ht1]. cbn [set_ring ring].
      apply (ring_holds_append (ring c) log
               (Notif KG_NOTIFY_MAGIC (u32 (Z.of_nat (length log))) ty lv
                      (ktime_get_real_ns_at (nreal w)) p1 p2 mac)); try done.
      by eapply hmac_len.
    + done.
Qed.

Lemma notify_frame ty lv p1 p2 w : same_policy w (kg_comms_notify ty lv p1 p2 w).2.
Proof.
  unfold kg_comms_notify. destruct (wcomms w) as [c|]; [|done]. cbn [ktime_get_real_ns].
  pose proof (rate_check_spec lv c (tick_real w)) as Hrc.
  destruct (rate_check lv c (tick_real w)) as [[ok c1] w1].
  destruct Hrc as (_ & _ & _ & _ & (Hg & Hp & Hpa) & _).
  destruct ok; cbn [negb]; [|done].
  destruct (shash_hmac _ _); [done|]. simpl.
  case_goal; [etrans; [|apply queue_work_frame]|]; done.
Qed.
End notify.

(** ** The properties of the channel *)

(** C6 — publication refines appending to the log: on success the ring holds the old
    log extended by one notification that carries exactly the arguments, the next
    sequence number and a valid HMAC over all of it; on failure (no channel apart)
    the ring is untouched, and the only failures are the limiter refusing a
    non-critical alert and the transform itself failing. *)
Theorem notify_refines_log `{CryptoLaws} `{Platform} ty lv p1 p2 w c log :
  wcomms w = Some c → chan_inv c log →
  match kg_comms_notify ty lv p1 p2 w with
  | (None, w') => ∃ c' n, wcomms w' = Some c' ∧ chan_inv c' (log ++ [n])
      ∧ alert_type n = ty ∧ alert_level n = lv ∧ param1 n = p1 ∧ param2 n = p2
      ∧ sequence n = u32 (Z.of_nat (length log))
      ∧ shash_hmac (key c) (auth_bytes n) = inr (hmac n)
  | (Some e, w') => ∃ c', wcomms w' = Some c' ∧ ring c' = ring c ∧ chan_inv c' log
      ∧ (e = EBUSY ∧ lv < KG_LEVEL_CRITICAL ∨ ∃ m, shash_hmac (key c) m = inl e)
  end.
Proof.
  intros Hc Hi. pose proof (notify_refines ty lv p1 p2 w c log Hc Hi) as Hn.
  destruct (kg_comms_notify ty lv p1 p2 w) as [[e|] w'].
  - destruct Hn as (c' & ? & _ & _ & _ & ? & ? & ?). eauto 10.
  - destruct Hn as (c' & mac & ? & _ & _ & _ & ? & ?). eexists c', _. split_and!; done.
Qed.

Lemma notify_refines_log_witness :
  ∃ c' n, wcomms (@kg_comms_notify sha_api two_cpus KG_ALERT_IDT_HOOK KG_LEVEL_WATCH 7 8 comms_world).2 = Some c'
  ∧ chan_inv c' [n] ∧ param1 n = 7.
Proof.
  pose proof (@notify_refines_log sha_api sha_api_laws two_cpus KG_ALERT_IDT_HOOK KG_LEVEL_WATCH 7 8
                comms_world sample_comms [] eq_refl sample_comms_inv) as Hn.
  assert (Hok : (@kg_comms_notify sha_api two_cpus KG_ALERT_IDT_HOOK KG_LEVEL_WATCH 7 8 comms_world).1
                = None) by (vm_compute; reflexivity).
  destruct (kg_comms_notify _ _ _ _ _) as [r w']. simpl in Hok. subst r.
  destruct Hn as (c' & n & Hc & Hi & _ & _ & Hp & _). by exists c', n.
Defined.

(** A critical alert is never dropped. *)
Theorem critical_always_delivered `{CryptoLaws} `{!HmacWorks} `{Platform} ty lv p1 p2 w c :
  wcomms w = Some c → KG_LEVEL_CRITICAL ≤ lv →
  (kg_comms_notify ty lv p1 p2 w).1 = None
  ∧ wstats (kg_comms_notify ty lv p1 p2 w).2 notifications_sent
    = u64 (wstats w notifications_sent + 1).
Proof.
  intros Hc Hlv. unfold kg_comms_notify. rewrite Hc. cbn [ktime_get_real_ns].
  unfold rate_check. rewrite (proj2 (Z.ltb_ge _ _)) by done. cbn [negb].
  destruct (hmac_total (key c) (auth_bytes (Notif KG_NOTIFY_MAGIC (driver_nonce (ring c)) ty lv
              (ktime_get_real_ns_at (nreal w)) p1 p2 (replicate 32 0)))) as [d Hd].
  rewrite Hd. unfold KG_LEVEL_CRITICAL in Hlv. unfold KG_LEVEL_WATCH.
  rewrite (proj2 (Z.leb_le _ _)) by lia. split; [done|].
  unfold queue_delayed_work. by case_goal.
Qed.

(** ... even with an empty bucket. *)
Lemma critical_always_delivered_witness :
  (@kg_comms_notify sha_api two_cpus KG_ALERT_TEXT_PATCH KG_LEVEL_CRITICAL 0 0
     (set_comms (Some (set_rl 0 0 sample_comms)) comms_world)).1 = None.
Proof.
  by apply (@critical_always_delivered sha_api sha_api_laws sha_api_works two_cpus KG_ALERT_TEXT_PATCH
           KG_LEVEL_CRITICAL 0 0 (set_comms (Some (set_rl 0 0 sample_comms)) comms_world)
           (set_rl 0 0 sample_comms)).
Defined.

Section uevents.
Context `{Platform}.

Definition uevent_of (n : kg_notification) : uevent :=
  Uevent (alert_type n) (alert_level n) (sequence n).
Definition announces (n : kg_notification) : bool :=
  (KG_LEVEL_WATCH <=? alert_level n) && kobject_uevent_ok (sequence n).

Definition bump_fallback (w : world) (l : list kg_notification) : world :=
  foldl (λ w _, kg_stat_inc fallback_signals_sent w) w l.

(** The worker catches up with the writer from a cursor inside the window. *)
Lemma uevent_loop_window m fuel c log k w :
  ring_holds (ring c) log → dev c = true → Z.of_nat (length log) < 4294967296 →
  ue_cursor c = Z.of_nat k → (k + m = length log)%nat → (m ≤ 16)%nat → (m < fuel)%nat →
  uevent_loop fuel c w
  = Some (set_cursor (write_index (ring c)) c,
          uevent_of <$> filter (λ n, announces n = true) (drop k log),
          bump_fallback w (filter (λ n, announces n = true) (drop k log))).
Proof.
  revert fuel c k w.
  induction m as [|m IH]; intros fuel c k w Hr Hdev Hsm Hcur Hk Hm Hfuel;
    (destruct fuel as [|fuel]; [lia|]); cbn [uevent_loop];
    rewrite Hdev, (rh_widx _ _ Hr), (u32_id (Z.of_nat (length log))), Hcur
      by (unfold is_u32; lia); cbn [negb orb].
  - rewrite (proj2 (Z.eqb_eq _ _)) by lia. rewrite drop_ge by lia. simpl.
    replace (Z.of_nat (length log)) with (Z.of_nat k) by lia. rewrite <- Hcur. by destruct c.
  - rewrite (proj2 (Z.eqb_neq _ _)) by lia.
    rewrite (u32_id (Z.of_nat (length log) - Z.of_nat k)) by (unfold is_u32; lia).
    rewrite (proj2 (Z.ltb_ge _ _)) by (unfold KG_NOTIFY_SLOTS; lia).
    destruct (lookup_lt_is_Some_2 log k ltac:(lia)) as [n Hn].
    destruct (rh_seq _ _ Hr k n Hn) as [Hseq Hmag].
    rewrite u32_id in Hseq by (unfold is_u32; lia).
    pose proof (rh_slots _ _ Hr k n ltac:(lia) Hn) as Hslot.
    assert (Hidx : Z.to_nat (Z.of_nat k mod KG_NOTIFY_SLOTS) = idx_slot k).
    { unfold idx_slot, KG_NOTIFY_SLOTS. rewrite <- (Nat2Z.id (k mod 16)), Nat2Z.inj_mod. done. }
    rewrite Hidx, list_lookup_total_alt, Hslot. cbn [from_option id].
    rewrite Hmag, Hseq, !Z.eqb_refl. cbn [andb negb orb].
    assert (Hnext : u32 (Z.of_nat k + 1) = Z.of_nat (S k))
      by (rewrite u32_id; [lia|unfold is_u32; lia]).
    rewrite (drop_S log n k Hn), filter_cons, Hnext.
    specialize (IH fuel (set_cursor (Z.of_nat (S k)) c) (S k)) with (1 := Hr) (2 := Hdev).
    assert (Hw : write_index (ring (set_cursor (Z.of_nat (S k)) c)) = Z.of_nat (length log))
      by (cbn [ring set_cursor]; rewrite (rh_widx _ _ Hr); apply u32_id; unfold is_u32; lia).
    destruct (alert_level n <? KG_LEVEL_WATCH) eqn:Elv; bool_props.
    + rewrite decide_False by (unfold announces; rewrite (proj2 (Z.leb_gt _ _)) by lia; done).
      by rewrite IH, Hw by (simpl; lia).
    + assert (Han : announces n = kobject_uevent_ok (Z.of_nat k)).
      { unfold announces. rewrite (proj2 (Z.leb_le _ _)), Hseq by lia. done. }
      rewrite Han. destruct (kobject_uevent_ok (Z.of_nat k)).
      * rewrite decide_True by done. rewrite IH by (simpl; lia). bind_simpl.
        rewrite fmap_cons. unfold uevent_of at 2. rewrite Hseq.
        by rewrite Hw.
      * rewrite decide_False by done. by rewrite IH, Hw by (simpl; lia).
Qed.
End uevents.

(** A cursor the writer has lapped behaves as one at the oldest slot still held. *)
Lemma uevent_loop_lapped `{Platform} fuel c log k w :
  ring_holds (ring c) log → dev c = true → Z.of_nat (length log) < 4294967296 →
  ue_cursor c = Z.of_nat k → (k + 16 < length log)%nat →
  uevent_loop fuel c w = uevent_loop fuel (set_cursor (Z.of_nat (length log - 16)) c) w.
Proof.
  intros Hr Hdev Hsm Hcur Hk. destruct fuel as [|fuel]; [done|]. cbn [uevent_loop].
  cbn [ring ue_cursor dev set_cursor]. rewrite Hdev. cbn [negb orb].
  rewrite (rh_widx _ _ Hr), (u32_id (Z.of_nat (length log))), Hcur by (unfold is_u32; lia).
  rewrite (proj2 (Z.eqb_neq (Z.of_nat k) (Z.of_nat (length log)))),
          (proj2 (Z.eqb_neq (Z.of_nat (length log - 16)) (Z.of_nat (length log)))) by lia.
  rewrite (u32_id (Z.of_nat (length log) - Z.of_nat k)),
          (u32_id (Z.of_nat (length log) - Z.of_nat (length log - 16)))
    by (unfold is_u32; lia).
  rewrite (proj2 (Z.ltb_lt KG_NOTIFY_SLOTS (Z.of_nat (length log) - Z.of_nat k)))
    by (unfold KG_NOTIFY_SLOTS; lia).
  rewrite (proj2 (Z.ltb_ge KG_NOTIFY_SLOTS (Z.of_nat (length log) - Z.of_nat (length log - 16))))
    by (unfold KG_NOTIFY_SLOTS; lia).
  rewrite (u32_id (Z.of_nat (length log) - KG_NOTIFY_SLOTS))
    by (unfold is_u32, KG_NOTIFY_SLOTS; lia).
  replace (Z.of_nat (length log - 16)) with (Z.of_nat (length log) - KG_NOTIFY_SLOTS)
    by (unfold KG_NOTIFY_SLOTS; lia).
  reflexivity.
Qed.

(** The uevent worker terminates (17 rounds are enough for its loop), announces in
    order exactly the WATCH-or-worse notifications that it has not seen and that the
    ring still holds, counts the accepted ones and leaves its cursor at the writer's. *)
Theorem uevent_worker_catches_up `{Platform} w c log k :
  wcomms w = Some c → ring_holds (ring c) log → dev c = true →
  Z.of_nat (length log) < 4294967296 → ue_cursor c = Z.of_nat k → (k ≤ length log)%nat →
  let pending := filter (λ n, announces n = true) (drop (Nat.max k (length log - 16)) log) in
  kg_uevent_workfn w
  = Some (uevent_of <$> pending,
          set_comms (Some (set_cursor (write_index (ring c)) c)) (bump_fallback w pending)).
Proof.
  intros Hc Hr Hdev Hsm Hcur Hk. unfold kg_uevent_workfn. rewrite Hc.
  destruct (decide (k + 16 < length log)%nat) as [Hlap|Hin].
  - rewrite (uevent_loop_lapped _ _ log k), Nat.max_r by (done || lia).
    rewrite (uevent_loop_window 16 17 _ log (length log - 16)) by (done || simpl; lia).
    by bind_simpl.
  - rewrite Nat.max_l by lia.
    rewrite (uevent_loop_window (length log - k) 17 _ log k) by (done || lia). by bind_simpl.
Qed.

Lemma uevent_worker_catches_up_witness :
  @kg_uevent_workfn two_cpus (set_comms (Some (set_dev true sample_comms)) comms_world)
  = Some ([], set_comms (Some (set_cursor 0 (set_dev true sample_comms)))
                (set_comms (Some (set_dev true sample_comms)) comms_world)).
Proof.
  apply (@uevent_worker_catches_up two_cpus (set_comms (Some (set_dev true sample_comms)) comms_world)
           (set_dev true sample_comms) [] 0); try (by compute). apply sample_comms_inv.
Defined.

(** A mapping the device grants is one page at offset 0, not writable and never
    to become writable. *)
Theorem mmap_read_only ins v w v' :
  kg_comms_mmap ins v w = (None, v') →
  vm_write v' = false ∧ vm_maywrite v' = false ∧ vm_dontexpand v' = true
  ∧ vm_pgoff v' = 0 ∧ u64 (vm_end v' - vm_start v') ≤ PAGE_SIZE ∧ is_Some (wcomms w).
Proof.
  unfold kg_comms_mmap. destruct (wcomms w); [|done].
  destruct (negb (vm_pgoff v =? 0) || _) eqn:E; [done|].
  destruct (vm_write v) eqn:Ew; [done|]. intros [= -> <-]. simpl.
  bool_props. eauto 10.
Qed.

Lemma mmap_read_only_witness :
  ∃ v, kg_comms_mmap None (Vma 8192 12288 0 false true false false) comms_world = (None, v)
       ∧ vm_maywrite v = false.
Proof.
  eexists. split; [reflexivity|].
  by apply (mmap_read_only None (Vma 8192 12288 0 false true false false) comms_world).
Defined.
