(* ===== verification/Posture.v ===== *)
(** * Graduated response: posture ladder, alert dispatch and reporting
      (linux/module/kg_posture.c, and kg_dispatch / kg_report of kg_state.c)

    In C [kg_report] and [kg_posture_raise] call each other: a report may raise
    the posture, and entering fail-safe is itself reported.  The handlers below
    take the reporting function as an argument and [kg_report] ties the knot
    with a depth bound; [report_refines_router] shows that depth 2 is enough. *)
From S2P Require Import Prelude Uapi Kernel Machine Guard Comms.
Local Open Scope Z_scope.

Definition KG_POSTURE_SCAN_DIV : Z := 4.
Definition KG_POSTURE_MIN_SCAN_MS : Z := 100.
Definition KG_POSTURE_MAX_DECAY_S : Z := 1000000.
Definition NSEC_PER_SEC : Z := 1000000000.
Definition MSEC_PER_SEC : Z := 1000.

Definition kg_enforcing (w : world) : bool :=
  kg_enforce (wpar w) || (kg_auto_enforce (wpar w) && (KG_POSTURE_HIGH <=? kg_posture w)).

Definition kg_scan_ms (base_ms : Z) (w : world) : Z :=
  let ms := Z.max base_ms KG_POSTURE_MIN_SCAN_MS in
  if KG_POSTURE_ELEVATED <=? kg_posture w
  then Z.max (ms / KG_POSTURE_SCAN_DIV) KG_POSTURE_MIN_SCAN_MS else ms.

Definition kg_pos_decay_s (w : world) : Z :=
  Z.min (kg_posture_decay_s (wpar w)) KG_POSTURE_MAX_DECAY_S.

Definition posture_cap (w : world) : Z := Z.min (kg_max_posture (wpar w)) KG_POSTURE_FAILSAFE.

(** ** Kicks *)
Definition kg_input_kick (w : world) : world :=
  if kg_input_running (wmon w) && negb (kg_input_stop (wmon w))
  then mod_delayed_work InputWork (msecs 0) w else w.
Definition kg_hw_kick (w : world) : world :=
  if negb (kg_hw_stop (wmon w)) then mod_delayed_work HwWork (msecs 0) w else w.
Definition kg_integrity_kick (w : world) : world :=
  if negb (kg_integ_stop (wmon w)) then mod_delayed_work IntegWork (msecs 0) w else w.

(** ** Bookkeeping *)
Definition set_since (t : Z) (p : kg_pos) : kg_pos :=
  Pos (pos_ready p) (pos_untrusted p) t (pos_trigger_ns p) (pos_trigger_mono p)
      (pos_trigger p) (pos_entered p).
Definition bump_entered (t : Z) (p : kg_pos) : kg_pos :=
  Pos (pos_ready p) (pos_untrusted p) (pos_since_ns p) (pos_trigger_ns p) (pos_trigger_mono p)
      (pos_trigger p) (alter (λ n, u64 (n + 1)) (Z.to_nat t) (pos_entered p)).
Definition set_untrusted (p : kg_pos) : kg_pos :=
  Pos (pos_ready p) true (pos_since_ns p) (pos_trigger_ns p) (pos_trigger_mono p)
      (pos_trigger p) (pos_entered p).
Definition set_trigger (ns mono trig : Z) (p : kg_pos) : kg_pos :=
  Pos (pos_ready p) (pos_untrusted p) (pos_since_ns p) ns mono trig (pos_entered p).
Definition set_trigger_mono (mono : Z) (p : kg_pos) : kg_pos :=
  Pos (pos_ready p) (pos_untrusted p) (pos_since_ns p) (pos_trigger_ns p) mono
      (pos_trigger p) (pos_entered p).

Definition kg_pos_arm_decay_locked (w : world) : world :=
  let secs := kg_pos_decay_s w in
  if pos_ready (wpos w) && negb (secs =? 0) && (kg_posture w =? KG_POSTURE_ELEVATED)
  then mod_delayed_work DecayWork (msecs (secs * MSEC_PER_SEC)) w else w.

Section posture.
Context `{Crypto} `{Platform}.

Definition kg_pos_apply_locked (target : Z) (w : world) : world :=
  let w := kg_mit_set_posture target w in
  let '(t, w) := ktime_get_real_ns w in
  let w := set_pos (bump_entered target (set_since t (wpos w))) w in
  if target =? KG_POSTURE_FAILSAFE then w
  else stat_andnot active_mitigation_flags KG_MIT_FAIL_SAFE w.

(** A reporting function: type, level, p1, p2. *)
Definition reporter : Type := Z → Z → Z → Z → world → option world.

Section with_report.
Context (report : reporter).

Definition kg_pos_after_up (target : Z) (w : world) : option world :=
  w ← (if target =? KG_POSTURE_FAILSAFE then
         let w := stat_or active_mitigation_flags KG_MIT_FAIL_SAFE w in
         let w := kg_mit_flush_all w in
         report KG_ALERT_FAIL_SAFE_ENTERED KG_LEVEL_CRITICAL 0 0 w
       else if target =? KG_POSTURE_HIGH then Some (kg_mit_flush_all w)
       else Some w);
  let w := kg_hw_kick (kg_input_kick w) in
  Some (if KG_POSTURE_HIGH <=? target then kg_integrity_kick w else w).

Definition kg_posture_raise (target trigger : Z) (w : world) : option world :=
  let target := Z.min target (posture_cap w) in
  if negb (pos_ready (wpos w)) then Some w
  else
    let w := if trigger =? KG_ALERT_SHARED_STATE_CORRUPT
             then set_pos (set_untrusted (wpos w)) w else w in
    let old := kg_posture w in
    let w := if KG_POSTURE_ELEVATED <=? target then
               let '(ns, w) := ktime_get_real_ns w in
               let '(mono, w) := ktime_get_ns w in
               set_pos (set_trigger ns mono trigger (wpos w)) w
             else w in
    let up := old <? target in
    let w := if up then kg_pos_apply_locked target w else w in
    let w := kg_pos_arm_decay_locked w in
    if up then kg_pos_after_up target w else Some w.

Definition kg_dispatch (type level p1 p2 : Z) (w : world) : option world :=
  if (type =? KG_ALERT_PMU_L1D_ANOMALY) || (type =? KG_ALERT_PMU_L2_ANOMALY) then
    if KG_LEVEL_CRITICAL <=? level then
      let cpu := s32 (Z.shiftr p2 32) in
      let w := if valid_online cpu then
                 kg_mit_flush_siblings cpu (kg_mit_flush_cpu cpu (kg_mit_escalate_cpu cpu w))
               else w in
      kg_posture_raise KG_POSTURE_ELEVATED type w
    else Some w
  else if type =? KG_ALERT_UNAUTHORIZED_DMA then
    kg_posture_raise KG_POSTURE_ELEVATED type (kg_mit_flush_cpu raw_smp_processor_id w)
  else if type =? KG_ALERT_PCI_DISCREPANCY then
    kg_posture_raise KG_POSTURE_ELEVATED type (kg_input_kick w)
  else if (type =? KG_ALERT_UNAUTHORIZED_KBD_FILTER)
          || (type =? KG_ALERT_KBD_FILTER_NEUTRALIZED)
          || (type =? KG_ALERT_DEVICE_BME_DISABLED) then
    kg_posture_raise KG_POSTURE_ELEVATED type w
  else if type =? KG_ALERT_MODULE_LOADED then
    if KG_LEVEL_WATCH <=? level then kg_posture_raise KG_POSTURE_ELEVATED type w else Some w
  else if type =? KG_ALERT_VULN_DRIVER then
    kg_posture_raise (if KG_LEVEL_CRITICAL <=? level then KG_POSTURE_HIGH
                      else KG_POSTURE_ELEVATED) type w
  else if type =? KG_ALERT_DRIVER_BLOCKED then
    if KG_LEVEL_CRITICAL <=? level then kg_posture_raise KG_POSTURE_ELEVATED type w else Some w
  else if (type =? KG_ALERT_IDT_HOOK) || (type =? KG_ALERT_CTRL_REG_TAMPER) then
    if KG_LEVEL_CRITICAL <=? level then kg_posture_raise KG_POSTURE_HIGH type w else Some w
  else if (type =? KG_ALERT_TEXT_PATCH) || (type =? KG_ALERT_DISPATCH_HOOK) then
    if KG_LEVEL_CRITICAL <=? level then kg_posture_raise KG_POSTURE_FAILSAFE type w else Some w
  else if type =? KG_ALERT_SHARED_STATE_CORRUPT then
    kg_posture_raise KG_POSTURE_FAILSAFE type w
  else Some w.
End with_report.

(** Deliver first, then dispatch; [None] when the nesting is deeper than [depth]. *)
Fixpoint kg_report (depth : nat) (type level p1 p2 : Z) (w : world) : option world :=
  match depth with
  | O => None
  | S depth =>
    let w := (kg_comms_notify type level p1 p2 w).2 in
    kg_dispatch (kg_report depth) type level p1 p2 w
  end.

Definition report : reporter := kg_report 2.

Definition kg_pos_announce (old new why trigger : Z) (w : world) : option world :=
  report KG_ALERT_POSTURE_CHANGED
         (if why =? KG_POSTURE_WHY_DECAY then KG_LEVEL_INFO else KG_LEVEL_WATCH)
         (Z.lor (Z.shiftl old 32) new) (Z.lor (Z.shiftl why 32) trigger) w.

(** ** Decay *)
Definition kg_pos_decay_fn (w : world) : option world :=
  let secs := kg_pos_decay_s w in
  if pos_ready (wpos w) && negb (secs =? 0) && (kg_posture w =? KG_POSTURE_ELEVATED) then
    let due := u64 (pos_trigger_mono (wpos w) + secs * NSEC_PER_SEC) in
    let '(now, w) := ktime_get_ns w in
    if due <=? now then
      let trigger := pos_trigger (wpos w) in
      kg_pos_announce KG_POSTURE_ELEVATED KG_POSTURE_NORMAL KG_POSTURE_WHY_DECAY trigger
                      (kg_pos_apply_locked KG_POSTURE_NORMAL w)
    else Some (mod_delayed_work DecayWork (nsecs_plus1 (due - now)) w)
  else Some w.

(** ** Operator control: (error, world) *)
Definition kg_posture_set (target : Z) (w : world) : option (option errno * world) :=
  if KG_POSTURE_COUNT <=? target then Some (Some EINVAL, w)
  else if negb (pos_ready (wpos w)) then Some (Some ENODEV, w)
  else
    let old := kg_posture w in
    if target =? old then Some (None, w)
    else if (target <? old) && (KG_POSTURE_HIGH <=? old) && pos_untrusted (wpos w)
    then Some (Some EUCLEAN, w)
    else
      let trigger := pos_trigger (wpos w) in
      let w := kg_pos_apply_locked target w in
      let '(mono, w) := ktime_get_ns w in
      let w := set_pos (set_trigger_mono mono (wpos w)) w in
      let w := kg_pos_arm_decay_locked w in
      w ← (if old <? target then kg_pos_after_up report target w else Some w);
      w ← kg_pos_announce old target KG_POSTURE_WHY_OPERATOR trigger w;
      Some (None, w).

(** ** init / exit *)
Definition kg_posture_init (w : world) : world :=
  let '(t, w) := ktime_get_real_ns w in
  set_pos (Pos true false t 0 0 0 [1; 0; 0; 0]) w.

Definition kg_posture_exit (w : world) : world :=
  let p := wpos w in
  cancel_work DecayWork
    (set_pos (Pos false (pos_untrusted p) (pos_since_ns p) (pos_trigger_ns p)
                  (pos_trigger_mono p) (pos_trigger p) (pos_entered p)) w).
End posture.

(** ** KG_IOC_GET_POSTURE *)
Record kg_posture_info_t := PostureInfo {
  pi_cur : Z; pi_max : Z; pi_decay_s : Z; pi_flags : Z; pi_since_ns : Z;
  pi_last_trigger_ns : Z; pi_last_trigger_alert : Z;
  pi_hw_interval_ms : Z; pi_integ_interval_ms : Z; pi_entered : list Z
}.

Definition KG_POSTURE_F_AUTO_ENFORCE : Z := 1.
Definition KG_POSTURE_F_ENFORCING : Z := 2.
Definition KG_POSTURE_F_UNTRUSTED : Z := 4.

Definition kg_posture_info (w : world) : kg_posture_info_t :=
  PostureInfo (kg_posture w) (posture_cap w) (kg_pos_decay_s w)
    (Z.lor (Z.lor (flag_if (kg_auto_enforce (wpar w)) KG_POSTURE_F_AUTO_ENFORCE)
                  (flag_if (kg_enforcing w) KG_POSTURE_F_ENFORCING))
           (flag_if (pos_untrusted (wpos w)) KG_POSTURE_F_UNTRUSTED))
    (pos_since_ns (wpos w)) (pos_trigger_ns (wpos w)) (pos_trigger (wpos w))
    (kg_scan_ms (kg_hw_interval_ms (wpar w)) w)
    (kg_scan_ms (kg_integ_interval_ms (wpar w)) w)
    (pos_entered (wpos w)).

(** ** Quiet operations: they leave the ladder where it is *)
Record quiet `{Crypto} (w w' : world) : Prop := Quiet {
  q_par : wpar w' = wpar w;
  q_pos : wpos w' = wpos w;
  q_posture : kg_posture w' = kg_posture w;
  q_inv : guard_inv w → guard_inv w'
}.

#[export] Instance quiet_preorder `{Crypto} : PreOrder quiet.
Proof.
  split; [by intros w; constructor|].
  intros w1 w2 w3 [????] [????]. constructor; try congruence. auto.
Qed.

Lemma same_policy_quiet `{Crypto} w w' : same_policy w w' → quiet w w'.
Proof.
  intros (Hg & Hp & Hpa). constructor; try done; unfold kg_posture, guard_inv; by rewrite Hg.
Qed.

Lemma escalate_quiet `{CryptoLaws} c w : quiet w (kg_mit_escalate_cpu c w).
Proof.
  unfold kg_mit_escalate_cpu.
  constructor; try (by case_goal); [|intros Hi; by apply (escalate_inv c w)].
  unfold kg_posture. case_goal; [|done]. simpl. by rewrite update_locked_hdr.
Qed.

Lemma relax_quiet `{CryptoLaws} c w : quiet w (kg_mit_relax_cpu c w).
Proof.
  unfold kg_mit_relax_cpu.
  constructor; try (by case_goal); [|intros Hi; by apply (relax_inv c w)].
  unfold kg_posture. case_goal; [|done]. simpl. rewrite update_locked_hdr. by case_goal.
Qed.

Lemma cpu_online_quiet `{CryptoLaws} c caps w : quiet w (kg_mit_cpu_online c caps w).
Proof.
  constructor; try done; [|intros [Hi _]; by apply cpu_online_inv].
  unfold kg_posture. simpl. by rewrite update_locked_hdr.
Qed.

Lemma foldl_quiet `{Crypto} {A} (f : world → A → world) l w :
  (∀ w x, quiet w (f w x)) → quiet w (foldl f w l).
Proof.
  intros Hf. revert w. induction l as [|x l IH]; intros w; simpl; [reflexivity|].
  etrans; [apply Hf | apply IH].
Qed.

Section quiet.
Context `{CryptoLaws} `{Platform}.

Lemma flush_cpu_quiet c w : quiet w (kg_mit_flush_cpu c w).
Proof. apply same_policy_quiet, flush_cpu_frame. Qed.
Lemma flush_all_quiet w : quiet w (kg_mit_flush_all w).
Proof. apply same_policy_quiet, flush_all_frame. Qed.
Lemma flush_siblings_quiet c w : quiet w (kg_mit_flush_siblings c w).
Proof.
  unfold kg_mit_flush_siblings. case_goal; [reflexivity|].
  apply foldl_quiet. intros w1 sib. case_goal; [reflexivity|].
  etrans; [apply escalate_quiet | apply same_policy_quiet, flush_ipi_frame].
Qed.
Lemma notify_quiet ty lv p1 p2 w : quiet w (kg_comms_notify ty lv p1 p2 w).2.
Proof. apply same_policy_quiet, notify_frame. Qed.

Lemma input_kick_quiet w : quiet w (kg_input_kick w).
Proof. unfold kg_input_kick. case_goal; [by apply same_policy_quiet|reflexivity]. Qed.
Lemma hw_kick_quiet w : quiet w (kg_hw_kick w).
Proof. unfold kg_hw_kick. case_goal; [by apply same_policy_quiet|reflexivity]. Qed.
Lemma integrity_kick_quiet w : quiet w (kg_integrity_kick w).
Proof. unfold kg_integrity_kick. case_goal; [by apply same_policy_quiet|reflexivity]. Qed.

Lemma arm_decay_quiet w : quiet w (kg_pos_arm_decay_locked w).
Proof.
  unfold kg_pos_arm_decay_locked. case_goal; [|reflexivity]. by apply same_policy_quiet.
Qed.
End quiet.

(** Decide which alert type [ty] is: one goal per type the goal tests for. *)
Ltac eval_closed_tests :=
  repeat match goal with
  | |- context [?a =? ?b] =>
    let r := eval vm_compute in (a =? b) in
    match r with true => idtac | false => idtac end;
    change (a =? b) with r
  end; cbn [orb].
Ltac split_type_tests ty :=
  match goal with
  | |- context [ty =? ?k] =>
    let E := fresh "E" in
    destruct (Z.eqb_spec ty k) as [E|E];
    [subst ty; eval_closed_tests | cbn [orb]; split_type_tests ty]
  | |- _ => idtac
  end.

(** ** Moving on the ladder *)
Section ladder.
Context `{CryptoLaws} `{Platform}.

Lemma apply_locked_spec target w :
  0 ≤ target < KG_POSTURE_COUNT → guard_inv w →
  let w' := kg_pos_apply_locked target w in
  guard_inv w' ∧ kg_posture w' = target ∧ wpar w' = wpar w
  ∧ pos_ready (wpos w') = pos_ready (wpos w)
  ∧ pos_untrusted (wpos w') = pos_untrusted (wpos w)
  ∧ pos_trigger (wpos w') = pos_trigger (wpos w)
  ∧ pos_trigger_mono (wpos w') = pos_trigger_mono (wpos w)
  ∧ wcomms w' = wcomms w.
Proof.
  intros Ht [Hp _]. pose proof (set_posture_inv target w Ht Hp) as Hi.
  assert (Hpost : kg_posture (kg_mit_set_posture target w) = target)
    by (unfold kg_posture; simpl; by rewrite update_locked_hdr).
  unfold kg_pos_apply_locked. cbn [ktime_get_real_ns].
  destruct (target =? KG_POSTURE_FAILSAFE); split_and!; done.
Qed.

(** What a report sent from inside the ladder may do. *)
Definition failsafe_report_ok (report : reporter) : Prop :=
  ∀ w, ∃ w', report KG_ALERT_FAIL_SAFE_ENTERED KG_LEVEL_CRITICAL 0 0 w = Some w' ∧ quiet w w'.

Lemma after_up_spec report target w :
  failsafe_report_ok report →
  ∃ w', kg_pos_after_up report target w = Some w' ∧ quiet w w'.
Proof.
  intros Hrep. unfold kg_pos_after_up.
  assert (Hkick : ∀ v, quiet v (let u := kg_hw_kick (kg_input_kick v) in
            if KG_POSTURE_HIGH <=? target then kg_integrity_kick u else u)).
  { intros v. cbv zeta.
    assert (quiet v (kg_hw_kick (kg_input_kick v)))
      by (etrans; [apply input_kick_quiet | apply hw_kick_quiet]).
    case_goal; [|done]. etrans; [done|]. apply integrity_kick_quiet. }
  destruct (target =? KG_POSTURE_FAILSAFE).
  - set (w1 := kg_mit_flush_all (stat_or active_mitigation_flags KG_MIT_FAIL_SAFE w)).
    assert (quiet w w1).
    { etrans; [|apply flush_all_quiet]. by apply same_policy_quiet. }
    destruct (Hrep w1) as (w2 & Hr & Hq). rewrite Hr. bind_simpl. eexists. split; [done|].
    etrans; [done|]. etrans; [exact Hq | apply Hkick].
  - destruct (target =? KG_POSTURE_HIGH);
      bind_simpl; eexists; (split; [done|]); [|apply Hkick].
    etrans; [apply flush_all_quiet | apply Hkick].
Qed.

Record raised (target trigger : Z) (w w' : world) : Prop := Raised {
  ra_inv : guard_inv w';
  ra_par : wpar w' = wpar w;
  ra_ready : pos_ready (wpos w') = pos_ready (wpos w);
  ra_posture : kg_posture w' = if pos_ready (wpos w)
                               then Z.max (kg_posture w) (Z.min target (posture_cap w))
                               else kg_posture w;
  ra_untrusted : pos_untrusted (wpos w')
                 = pos_untrusted (wpos w)
                   || (pos_ready (wpos w) && (trigger =? KG_ALERT_SHARED_STATE_CORRUPT))
}.

Lemma raise_spec report target trigger w :
  failsafe_report_ok report → guard_inv w → 0 ≤ target → 0 ≤ kg_max_posture (wpar w) →
  ∃ w', kg_posture_raise report target trigger w = Some w' ∧ raised target trigger w w'.
Proof.
  intros Hrep Hi Ht Hmax. unfold kg_posture_raise.
  set (t := Z.min target (posture_cap w)).
  assert (Htr : 0 ≤ t < KG_POSTURE_COUNT)
    by (unfold t, posture_cap, KG_POSTURE_COUNT, KG_POSTURE_FAILSAFE; lia).
  destruct (pos_ready (wpos w)) eqn:Hready; cbn [negb].
  2:{ exists w. split; [done|]. constructor; rewrite ?Hready, ?orb_false_r; done. }
  set (w1 := if trigger =? _ then _ else w).
  set (w2 := if KG_POSTURE_ELEVATED <=? t then _ else w1).
  assert (H2 : guard_inv w2 ∧ wpar w2 = wpar w ∧ pos_ready (wpos w2) = true
            ∧ kg_posture w2 = kg_posture w
            ∧ pos_untrusted (wpos w2)
              = pos_untrusted (wpos w) || (trigger =? KG_ALERT_SHARED_STATE_CORRUPT)).
  { subst w2 w1. destruct (trigger =? _), (KG_POSTURE_ELEVATED <=? t); simpl;
      rewrite ?orb_true_r, ?orb_false_r; split_and!; done. }
  destruct H2 as (Hi2 & Hpar2 & Hr2 & Hp2 & Hu2).
  assert (Hw1 : kg_posture w1 = kg_posture w) by (subst w1; by destruct (trigger =? _)).
  rewrite Hw1.
  destruct (kg_posture w <? t) eqn:Hup; bool_props.
  - pose proof (apply_locked_spec t w2 Htr Hi2) as (Hi3 & Hp3 & Hpar3 & Hr3 & Hu3 & _).
    pose proof (arm_decay_quiet (kg_pos_apply_locked t w2)) as [Qa Qb Qc Qd].
    destruct (after_up_spec report t (kg_pos_arm_decay_locked (kg_pos_apply_locked t w2)) Hrep)
      as (w' & Hrun & [Ra Rb Rc Rd]).
    exists w'. split; [done|]. constructor; rewrite ?Hready.
    + auto.
    + congruence.
    + rewrite Rb, Qb. congruence.
    + rewrite Rc, Qc, Hp3. fold t. lia.
    + rewrite Rb, Qb, Hu3, Hu2. done.
  - pose proof (arm_decay_quiet w2) as [Qa Qb Qc Qd].
    eexists. split; [done|]. constructor; rewrite ?Hready.
    + auto.
    + congruence.
    + rewrite Qb. congruence.
    + rewrite Qc, Hp2. fold t. lia.
    + by rewrite Qb, Hu2.
Qed.

(** *** The specification of the router: which posture an alert asks for *)
Definition alert_target (type level : Z) : Z :=
  if (type =? KG_ALERT_PMU_L1D_ANOMALY) || (type =? KG_ALERT_PMU_L2_ANOMALY)
     || (type =? KG_ALERT_DRIVER_BLOCKED) then
    if KG_LEVEL_CRITICAL <=? level then KG_POSTURE_ELEVATED else KG_POSTURE_NORMAL
  else if (type =? KG_ALERT_UNAUTHORIZED_DMA) || (type =? KG_ALERT_PCI_DISCREPANCY)
     || (type =? KG_ALERT_UNAUTHORIZED_KBD_FILTER) || (type =? KG_ALERT_KBD_FILTER_NEUTRALIZED)
     || (type =? KG_ALERT_DEVICE_BME_DISABLED) then KG_POSTURE_ELEVATED
  else if type =? KG_ALERT_MODULE_LOADED then
    if KG_LEVEL_WATCH <=? level then KG_POSTURE_ELEVATED else KG_POSTURE_NORMAL
  else if type =? KG_ALERT_VULN_DRIVER then
    if KG_LEVEL_CRITICAL <=? level then KG_POSTURE_HIGH else KG_POSTURE_ELEVATED
  else if (type =? KG_ALERT_IDT_HOOK) || (type =? KG_ALERT_CTRL_REG_TAMPER) then
    if KG_LEVEL_CRITICAL <=? level then KG_POSTURE_HIGH else KG_POSTURE_NORMAL
  else if (type =? KG_ALERT_TEXT_PATCH) || (type =? KG_ALERT_DISPATCH_HOOK) then
    if KG_LEVEL_CRITICAL <=? level then KG_POSTURE_FAILSAFE else KG_POSTURE_NORMAL
  else if type =? KG_ALERT_SHARED_STATE_CORRUPT then KG_POSTURE_FAILSAFE
  else KG_POSTURE_NORMAL.

Lemma raised_quiet_l t trig w w1 w2 :
  quiet w w1 → raised t trig w1 w2 → raised t trig w w2.
Proof.
  intros [Qa Qb Qc Qd] [Ha Hb Hc Hd He].
  constructor; unfold posture_cap in *; rewrite ?Hb, ?Hc, ?Hd, ?He, ?Qa, ?Qb, ?Qc; done.
Qed.

Lemma raised_none trig w :
  guard_inv w → 0 ≤ kg_max_posture (wpar w) → trig ≠ KG_ALERT_SHARED_STATE_CORRUPT →
  raised KG_POSTURE_NORMAL trig w w.
Proof.
  intros Hi Hm Ht. rewrite <- Z.eqb_neq in Ht.
  destruct Hi as [[Hp ? ?] ?] eqn:?. constructor; try done.
  - unfold posture_cap, kg_posture in *.
    unfold KG_POSTURE_NORMAL, KG_POSTURE_FAILSAFE, KG_POSTURE_COUNT in *. case_goal; lia.
  - by rewrite Ht, andb_false_r, orb_false_r.
Qed.

Lemma dispatch_pmu_quiet c w :
  quiet w (if valid_online c
           then kg_mit_flush_siblings c (kg_mit_flush_cpu c (kg_mit_escalate_cpu c w)) else w).
Proof.
  case_goal; [|reflexivity]. etrans; [apply escalate_quiet|].
  etrans; [apply flush_cpu_quiet | apply flush_siblings_quiet].
Qed.

Lemma dispatch_spec report ty lv p1 p2 w :
  failsafe_report_ok report → guard_inv w → 0 ≤ kg_max_posture (wpar w) →
  ∃ w', kg_dispatch report ty lv p1 p2 w = Some w' ∧ raised (alert_target ty lv) ty w w'.
Proof.
  intros Hrep Hi Hmax.
  assert (Hraise : ∀ v t, quiet w v → 0 ≤ t →
    ∃ w', kg_posture_raise report t ty v = Some w' ∧ raised t ty w w').
  { intros v t Hq Ht. pose proof Hq as [Qa Qb Qc Qd].
    destruct (raise_spec report t ty v Hrep (Qd Hi) Ht) as (w' & ? & Hr); [by rewrite Qa|].
    exists w'. split; [done|]. by eapply raised_quiet_l. }
  assert (Hstay : ty ≠ KG_ALERT_SHARED_STATE_CORRUPT →
    ∃ w', Some w = Some w' ∧ raised KG_POSTURE_NORMAL ty w w').
  { intros Hne. exists w. split; [done|]. by apply raised_none. }
  assert (Hrefl : quiet w w) by reflexivity.
  unfold kg_dispatch, alert_target.
  split_type_tests ty; try (by apply Hstay);
    repeat match goal with
    | |- context [KG_LEVEL_CRITICAL <=? lv] => destruct (KG_LEVEL_CRITICAL <=? lv)
    | |- context [KG_LEVEL_WATCH <=? lv] => destruct (KG_LEVEL_WATCH <=? lv)
    end; try (by apply Hstay); try (by apply Hraise).
  - apply Hraise; [apply dispatch_pmu_quiet|done].
  - apply Hraise; [apply dispatch_pmu_quiet|done].
  - apply Hraise; [apply flush_cpu_quiet|done].
  - apply Hraise; [apply input_kick_quiet|done].
Qed.

Lemma report_failsafe_quiet n : failsafe_report_ok (kg_report (S n)).
Proof. intros w. eexists. split; [done|]. apply notify_quiet. Qed.

Lemma report_spec n ty lv p1 p2 w :
  guard_inv w → 0 ≤ kg_max_posture (wpar w) →
  ∃ w', kg_report (S (S n)) ty lv p1 p2 w = Some w' ∧ raised (alert_target ty lv) ty w w'.
Proof.
  intros Hi Hm. pose proof (notify_quiet ty lv p1 p2 w) as Hq.
  destruct (dispatch_spec (kg_report (S n)) ty lv p1 p2 (kg_comms_notify ty lv p1 p2 w).2)
    as (w' & Hd & Hr); [apply report_failsafe_quiet|by apply Hq|by rewrite (q_par _ _ Hq)|].
  exists w'. split; [exact Hd|]. by eapply raised_quiet_l.
Qed.
End ladder.

(** *** Nesting: two reporters that agree on the fail-safe notice give the same run *)
Section nesting.
Context `{CryptoLaws} `{Platform}.
Context (r1 r2 : reporter).
Context (Hagree : ∀ w, r1 KG_ALERT_FAIL_SAFE_ENTERED KG_LEVEL_CRITICAL 0 0 w
                       = r2 KG_ALERT_FAIL_SAFE_ENTERED KG_LEVEL_CRITICAL 0 0 w).

Lemma after_up_agree t w : kg_pos_after_up r1 t w = kg_pos_after_up r2 t w.
Proof. unfold kg_pos_after_up. by rewrite Hagree. Qed.

Lemma raise_agree t trig w : kg_posture_raise r1 t trig w = kg_posture_raise r2 t trig w.
Proof.
  unfold kg_posture_raise. destruct (pos_ready (wpos w)); [|done]. cbn [negb].
  case_goal; [apply after_up_agree|done].
Qed.

Lemma dispatch_agree ty lv p1 p2 w :
  kg_dispatch r1 ty lv p1 p2 w = kg_dispatch r2 ty lv p1 p2 w.
Proof. unfold kg_dispatch. by rewrite !raise_agree. Qed.
End nesting.

Lemma report_depth `{CryptoLaws} `{Platform} n ty lv p1 p2 w :
  kg_report (S (S n)) ty lv p1 p2 w = report ty lv p1 p2 w.
Proof. apply dispatch_agree. intros w'. reflexivity. Qed.

(** ** A loaded module on a concrete machine *)
Definition ready_world : world := @kg_posture_init two_cpus up_world.
Lemma ready_world_inv : @guard_inv sha_api ready_world.
Proof. exact up_world_inv. Qed.

(** ... and after the ladder moved up. *)
Definition world_at (p : Z) : world := @kg_pos_apply_locked sha_api two_cpus p ready_world.
Lemma world_at_inv p : 0 ≤ p < KG_POSTURE_COUNT → @guard_inv sha_api (world_at p).
Proof.
  intros Hp.
  exact (proj1 (@apply_locked_spec sha_api sha_api_laws two_cpus p ready_world Hp ready_world_inv)).
Qed.

(** ** The properties of reporting *)

(** C4 — a report always completes (one level of nesting is enough: more depth
    changes nothing), keeps the guarded state consistent and sealed, and leaves
    the posture at exactly the highest of where it was and what the router's
    table asks for, capped by [max_posture]; it never lowers it. *)
Theorem report_refines_router `{CryptoLaws} `{Platform} ty lv p1 p2 w :
  guard_inv w → 0 ≤ kg_max_posture (wpar w) →
  ∃ w', (∀ n, kg_report (S (S n)) ty lv p1 p2 w = Some w')
  ∧ guard_inv w'
  ∧ kg_posture w' = (if pos_ready (wpos w)
                     then Z.max (kg_posture w) (Z.min (alert_target ty lv) (posture_cap w))
                     else kg_posture w)
  ∧ pos_untrusted (wpos w') = pos_untrusted (wpos w)
      || (pos_ready (wpos w) && (ty =? KG_ALERT_SHARED_STATE_CORRUPT)).
Proof.
  intros Hi Hm. destruct (report_spec 0 ty lv p1 p2 w Hi Hm) as (w' & Hw & [Ra Rb Rc Rd Re]).
  exists w'. split; [|done]. intros n. rewrite report_depth. exact Hw.
Qed.

Lemma report_refines_router_witness :
  ∃ w', @report sha_api two_cpus KG_ALERT_IDT_HOOK KG_LEVEL_CRITICAL 0 0 ready_world = Some w'
  ∧ @guard_inv sha_api w' ∧ kg_posture w' = KG_POSTURE_HIGH.
Proof.
  destruct (@report_refines_router sha_api sha_api_laws two_cpus KG_ALERT_IDT_HOOK KG_LEVEL_CRITICAL
              0 0 ready_world ready_world_inv ltac:(by compute)) as (w' & Hr & Hi & Hp & _).
  exists w'. split_and!; [apply (Hr O)|done|]. rewrite Hp. by vm_compute.
Defined.

(** *** Lemmas shared by the operator and decay paths *)
Section lowering.
Context `{CryptoLaws} `{Platform}.

(** Announcing a change notifies but never moves the ladder. *)
Lemma announce_quiet old new why trig w :
  ∃ w', kg_pos_announce old new why trig w = Some w' ∧ quiet w w'.
Proof. eexists. split; [done|]. apply notify_quiet. Qed.

Lemma kg_posture_set_moves target w :
  guard_inv w → 0 ≤ target < KG_POSTURE_COUNT → pos_ready (wpos w) = true →
  target ≠ kg_posture w →
  (target < kg_posture w → KG_POSTURE_HIGH ≤ kg_posture w → pos_untrusted (wpos w) = false) →
  ∃ w', kg_posture_set target w = Some (None, w')
  ∧ guard_inv w' ∧ kg_posture w' = target ∧ wpar w' = wpar w
  ∧ pos_ready (wpos w') = true ∧ pos_untrusted (wpos w') = pos_untrusted (wpos w).
Proof.
  intros Hi Ht Hready Hne Hun. unfold kg_posture_set.
  rewrite (proj2 (Z.leb_gt _ _)), Hready, (proj2 (Z.eqb_neq _ _)) by (done || lia).
  cbn [negb].
  assert (Hguard : (target <? kg_posture w) && (KG_POSTURE_HIGH <=? kg_posture w)
                   && pos_untrusted (wpos w) = false).
  { destruct (target <? _) eqn:E1; [|done]. destruct (KG_POSTURE_HIGH <=? _) eqn:E2; [|done].
    bool_props. by apply Hun. }
  rewrite Hguard.
  pose proof (apply_locked_spec target w Ht Hi) as (Hi1 & Hp1 & Hpar1 & Hr1 & Hu1 & _).
  set (w1 := kg_pos_apply_locked target w) in *. cbn [ktime_get_ns].
  set (w2 := set_pos _ (tick_mono w1)).
  pose proof (arm_decay_quiet w2) as [Qa Qb Qc Qd].
  set (w3 := kg_pos_arm_decay_locked w2) in *.
  assert (H3 : guard_inv w3 ∧ kg_posture w3 = target ∧ wpar w3 = wpar w
               ∧ pos_ready (wpos w3) = true
               ∧ pos_untrusted (wpos w3) = pos_untrusted (wpos w)).
  { rewrite Qa, Qb, Qc. split_and!; try done; [by apply Qd|].
    simpl. by rewrite Hr1. }
  clearbody w3. clear Qa Qb Qc Qd.
  assert (Hup : ∃ w4, (if kg_posture w <? target then kg_pos_after_up report target w3
                       else Some w3) = Some w4 ∧ quiet w3 w4).
  { destruct (kg_posture w <? target); [|eexists; split; [done|reflexivity]].
    apply after_up_spec, (report_failsafe_quiet 1). }
  destruct Hup as (w4 & Hw4 & Hq4). rewrite Hw4. bind_simpl.
  destruct (announce_quiet (kg_posture w) target KG_POSTURE_WHY_OPERATOR
              (pos_trigger (wpos w)) w4) as (w5 & Hw5 & Hq5).
  rewrite Hw5. bind_simpl. exists w5. split; [done|].
  destruct (transitivity Hq4 Hq5) as [Ra Rb Rc Rd]. rewrite Ra, Rb, Rc. naive_solver.
Qed.
End lowering.

(** The operator's request is answered by the decision table of the source:
    EINVAL for a posture that does not exist, ENODEV before the ladder is up,
    success without effect where nothing changes, EUCLEAN when a corrupted policy
    state would be lowered from HIGH or above, and otherwise the ladder stands at
    exactly the posture that was asked for, above [max_posture] too. *)
Theorem posture_set_table `{CryptoLaws} `{Platform} target w :
  guard_inv w → 0 ≤ target →
  ∃ r w', kg_posture_set target w = Some (r, w') ∧ guard_inv w' ∧
    if KG_POSTURE_COUNT <=? target then r = Some EINVAL ∧ w' = w
    else if negb (pos_ready (wpos w)) then r = Some ENODEV ∧ w' = w
    else if target =? kg_posture w then r = None ∧ w' = w
    else if (target <? kg_posture w) && (KG_POSTURE_HIGH <=? kg_posture w)
            && pos_untrusted (wpos w) then r = Some EUCLEAN ∧ w' = w
    else r = None ∧ kg_posture w' = target.
Proof.
  intros Hi Ht.
  destruct (KG_POSTURE_COUNT <=? target) eqn:E1.
  { eexists _, w. unfold kg_posture_set. rewrite E1. done. }
  destruct (pos_ready (wpos w)) eqn:E2; cbn [negb].
  2:{ eexists _, w. unfold kg_posture_set. rewrite E1, E2. done. }
  destruct (target =? kg_posture w) eqn:E3.
  { eexists _, w. unfold kg_posture_set. rewrite E1, E2, E3. done. }
  destruct (_ && _) eqn:E4.
  { eexists _, w. unfold kg_posture_set. rewrite E1, E2, E3, E4. done. }
  bool_props. destruct (kg_posture_set_moves target w) as (w' & -> & ?); [done|lia|done..| |].
  - intros Hlt Hhi. apply not_true_is_false. intros Hu.
    rewrite Hu, (proj2 (Z.ltb_lt _ _)), (proj2 (Z.leb_le _ _)) in E4 by done. naive_solver.
  - exists None, w'. naive_solver.
Qed.

Lemma posture_set_table_witness :
  ∃ w', @kg_posture_set sha_api two_cpus KG_POSTURE_FAILSAFE ready_world = Some (None, w')
  ∧ kg_posture w' = KG_POSTURE_FAILSAFE.
Proof.
  destruct (@posture_set_table sha_api sha_api_laws two_cpus KG_POSTURE_FAILSAFE ready_world
              ready_world_inv ltac:(by compute)) as (r & w' & Hs & _ & Hp & Hq).
  exists w'. split; [|exact Hq]. by rewrite <- Hp.
Defined.

(** Decay lowers only ELEVATED to NORMAL and only after a whole quiet period
    since the last trigger; before that it re-arms itself for the time that is
    left, and everywhere else it does nothing. *)
Theorem decay_table `{CryptoLaws} `{Platform} w :
  guard_inv w →
  let due := u64 (pos_trigger_mono (wpos w) + kg_pos_decay_s w * NSEC_PER_SEC) in
  let now := ktime_get_ns_at (nmono w) in
  ∃ w', kg_pos_decay_fn w = Some w' ∧ guard_inv w' ∧
    if pos_ready (wpos w) && negb (kg_pos_decay_s w =? 0) && (kg_posture w =? KG_POSTURE_ELEVATED)
    then if due <=? now then kg_posture w' = KG_POSTURE_NORMAL
         else kg_posture w' = KG_POSTURE_ELEVATED
              ∧ wwork w' DecayWork = Some (nsecs_plus1 (due - now))
    else w' = w.
Proof.
  intros Hi. cbv zeta. unfold kg_pos_decay_fn.
  destruct (_ && _ && _) eqn:E; [|by exists w]. cbn [ktime_get_ns tick_mono wpos].
  destruct (_ <=? _).
  - destruct (apply_locked_spec KG_POSTURE_NORMAL (tick_mono w)) as (Hi1 & Hp1 & _);
      [by compute|done|].
    destruct (announce_quiet KG_POSTURE_ELEVATED KG_POSTURE_NORMAL KG_POSTURE_WHY_DECAY
                (pos_trigger (wpos w)) (kg_pos_apply_locked KG_POSTURE_NORMAL (tick_mono w)))
      as (w' & Hw & [Qa Qb Qc Qd]).
    exists w'. split; [exact Hw|]. rewrite Qc, Hp1. split; [by apply Qd|done].
  - eexists. split; [done|]. bool_props. split; [done|]. split; [done|].
    simpl. by rewrite fn_lookup_insert.
Qed.

Lemma decay_table_witness :
  ∃ w', @kg_pos_decay_fn sha_api two_cpus (world_at KG_POSTURE_ELEVATED) = Some w'
  ∧ wwork w' DecayWork = Some (nsecs_plus1 (600 * NSEC_PER_SEC - NSEC_PER_SEC)).
Proof.
  destruct (@decay_table sha_api sha_api_laws two_cpus (world_at KG_POSTURE_ELEVATED) (world_at_inv KG_POSTURE_ELEVATED ltac:(by compute)))
    as (w' & Hd & _ & _ & Hw).
  exists w'. split; [exact Hd|]. rewrite Hw. by vm_compute.
Defined.
