(* ===== verification/Sched.v ===== *)
(** * Which work items a handler may queue

    A report may wake monitors, arm the decay timer and start the uevent worker.  [sched]
    says under which conditions: a monitor's item is touched only while the monitor accepts
    kicks, the decay timer only while the ladder is ready, the uevent worker only while there
    is a channel, the PMU sampler never.  The teardown of Main.v depends on it: an item that is
    cancelled after its monitor has stopped is not queued again. *)
From S2P Require Import Prelude Uapi Kernel Machine Guard Comms Posture.
Local Open Scope Z_scope.

Definition accepts_input (m : monitors) : bool := kg_input_running m && negb (kg_input_stop m).

(** The indices of the channel are what their C types hold. *)
Definition chan_typed (w : world) : Prop :=
  ∀ c, wcomms w = Some c → is_u32 (write_index (ring c)) ∧ is_u32 (ue_cursor c).

Record sched (w w' : world) : Prop := Sched {
  sc_mon : wmon w' = wmon w;
  sc_chan : wcomms w' = None ↔ wcomms w = None;
  sc_pmu : wwork w' PmuWork = wwork w PmuWork;
  sc_hw : kg_hw_stop (wmon w) = true → wwork w' HwWork = wwork w HwWork;
  sc_integ : kg_integ_stop (wmon w) = true → wwork w' IntegWork = wwork w IntegWork;
  sc_input : accepts_input (wmon w) = false → wwork w' InputWork = wwork w InputWork;
  sc_decay : pos_ready (wpos w) = false → wwork w' DecayWork = wwork w DecayWork;
  sc_uevent : wcomms w = None → wwork w' UeventWork = wwork w UeventWork;
  sc_ready : pos_ready (wpos w') = pos_ready (wpos w);
  sc_typed : chan_typed w → chan_typed w'
}.

#[export] Instance sched_preorder : PreOrder sched.
Proof.
  split; [by intros w; constructor|].
  intros w1 w2 w3 [M1 C1 P1 H1 I1 N1 D1 U1 R1 T1] [M2 C2 P2 H2 I2 N2 D2 U2 R2 T2]. rewrite M1, R1 in *.
  constructor; try congruence.
  - by rewrite C2.
  - intros Hs. rewrite H2, H1 by done. done.
  - intros Hs. rewrite I2, I1 by done. done.
  - intros Hs. rewrite N2, N1 by done. done.
  - intros Hs. rewrite D2, D1 by done. done.
  - intros Hs. rewrite U2, U1 by (try done; by apply C1). done.
  - auto.
Qed.

(** Nothing about scheduling changes. *)
Definition unscheduled (w w' : world) : Prop :=
  wmon w' = wmon w ∧ wcomms w' = wcomms w ∧ wwork w' = wwork w ∧ pos_ready (wpos w') = pos_ready (wpos w).
#[export] Instance unscheduled_preorder : PreOrder unscheduled.
Proof.
  split; [by intros w|]. intros w1 w2 w3 (?&?&?&?) (?&?&?&?). split_and!; congruence.
Qed.
Lemma unscheduled_sched w w' : unscheduled w w' → sched w w'.
Proof. intros (Hm & Hc & Hq & Hp). constructor; unfold chan_typed; rewrite ?Hm, ?Hc, ?Hq; done. Qed.

Section flushes.
Context `{Crypto} `{Platform}.

Lemma flush_ipi_unscheduled c w : unscheduled w (kg_flush_ipi c w).
Proof.
  unfold kg_flush_ipi. trans (kg_boundary_flush c w).
  - unfold kg_boundary_flush, kg_l1d_flush. repeat (case_goal; try done).
  - by repeat case_goal.
Qed.
Lemma foldl_unscheduled {A} (f : world → A → world) l w :
  (∀ w x, unscheduled w (f w x)) → unscheduled w (foldl f w l).
Proof.
  intros Hf. revert w. induction l as [|x l IH]; intros w; simpl; [reflexivity|]. etrans; [apply Hf|apply IH].
Qed.
Lemma flush_all_unscheduled w : unscheduled w (kg_mit_flush_all w).
Proof. apply foldl_unscheduled. intros. apply flush_ipi_unscheduled. Qed.
Lemma flush_cpu_unscheduled c w : unscheduled w (kg_mit_flush_cpu c w).
Proof. unfold kg_mit_flush_cpu. case_goal; [apply flush_ipi_unscheduled|reflexivity]. Qed.
Lemma escalate_unscheduled c w : unscheduled w (kg_mit_escalate_cpu c w).
Proof. unfold kg_mit_escalate_cpu. by case_goal. Qed.
Lemma relax_unscheduled c w : unscheduled w (kg_mit_relax_cpu c w).
Proof. unfold kg_mit_relax_cpu. by case_goal. Qed.
Lemma flush_siblings_unscheduled c w : unscheduled w (kg_mit_flush_siblings c w).
Proof.
  unfold kg_mit_flush_siblings. case_goal; [reflexivity|]. apply foldl_unscheduled. intros w1 sib.
  case_goal; [reflexivity|]. etrans; [apply escalate_unscheduled|apply flush_ipi_unscheduled].
Qed.
End flushes.

(** ** The pieces of a report *)
Lemma queue_sched i d w :
  (i = HwWork → kg_hw_stop (wmon w) = false) → (i = IntegWork → kg_integ_stop (wmon w) = false) →
  (i = InputWork → accepts_input (wmon w) = true) → (i = DecayWork → pos_ready (wpos w) = true) →
  (i = UeventWork → wcomms w ≠ None) → i ≠ PmuWork →
  sched w (mod_delayed_work i d w) ∧ sched w (queue_delayed_work i d w).
Proof.
  intros Hh Hi Hn Hd Hu Hp.
  assert (Hm : sched w (mod_delayed_work i d w)).
  { unfold mod_delayed_work. constructor; cbn [wmon wcomms wwork wpos set_work]; try done; intros;
      rewrite fn_lookup_insert_ne; try done; intros ->; try congruence; by naive_solver congruence. }
  split; [done|]. unfold queue_delayed_work. destruct (wwork w i); [reflexivity|exact Hm].
Qed.

Section reports.
Context `{Crypto} `{Platform}.

Lemma hw_kick_sched w : sched w (kg_hw_kick w).
Proof. unfold kg_hw_kick. case_goal as E; [|reflexivity]. apply negb_true_iff in E. by apply queue_sched. Qed.
Lemma integrity_kick_sched w : sched w (kg_integrity_kick w).
Proof. unfold kg_integrity_kick. case_goal as E; [|reflexivity]. apply negb_true_iff in E. by apply queue_sched. Qed.
Lemma input_kick_sched w : sched w (kg_input_kick w).
Proof. unfold kg_input_kick. case_goal as E; [|reflexivity]. by apply queue_sched. Qed.
Lemma arm_decay_sched w : sched w (kg_pos_arm_decay_locked w).
Proof.
  unfold kg_pos_arm_decay_locked. case_goal as E; [|reflexivity]. bool_props. by apply queue_sched.
Qed.

Lemma notify_sched ty lv p1 p2 w : sched w (kg_comms_notify ty lv p1 p2 w).2.
Proof.
  unfold kg_comms_notify. destruct (wcomms w) as [c|] eqn:Hc; [|reflexivity].
  cbn [ktime_get_real_ns]. unfold rate_check.
  assert (Hset : ∀ w1 c1, unscheduled w w1 → ue_cursor c1 = ue_cursor c →
    (is_u32 (write_index (ring c)) → is_u32 (write_index (ring c1))) → sched w (set_comms (Some c1) w1)).
  { intros w1 c1 (Hm & Hcc & Hq & Hp) Hcur Hidx. constructor; cbn [wmon wcomms wwork wpos set_comms]; rewrite ?Hm, ?Hq, ?Hc; try done.
    intros Ht x [= <-]. destruct (Ht c Hc). rewrite Hcur. auto. }
  assert (Hpub : ∀ r n, is_u32 (write_index (foldl do_store r (publish n)))).
  { intros r n. unfold publish. rewrite foldl_app. cbn [foldl do_store write_index]. apply u32_range. }
  assert (Hstat : ∀ f w1, sched w w1 → sched w (kg_stat_inc f w1)) by (intros f w1 Hs; etrans; [exact Hs|]; by apply unscheduled_sched).
  assert (Hq : ∀ w1, sched w w1 → sched w (queue_delayed_work UeventWork (msecs 0) w1)).
  { intros w1 Hs. etrans; [exact Hs|]. apply queue_sched; try done. intros _ Hn. apply (sc_chan _ _ Hs) in Hn. congruence. }
  destruct (lv <? KG_LEVEL_CRITICAL).
  - cbn [ktime_get_ns]. destruct (kg_rl_allow _ _ _) as [[ok last] tokens].
    destruct ok; cbn [negb]; [|by apply Hstat, Hset]. destruct (shash_hmac _ _); [by apply Hset|]. cbn [snd].
    case_goal; [apply Hq|]; apply Hstat, Hset; try done; intros _; apply Hpub.
  - cbn [negb]. destruct (shash_hmac _ _); [by apply Hset|]. cbn [snd].
    case_goal; [apply Hq|]; apply Hstat, Hset; try done; intros _; apply Hpub.
Qed.

Lemma kicks_sched t w :
  sched w (let u := kg_hw_kick (kg_input_kick w) in if KG_POSTURE_HIGH <=? t then kg_integrity_kick u else u).
Proof.
  trans (kg_hw_kick (kg_input_kick w)); [etrans; [apply input_kick_sched|apply hw_kick_sched]|].
  cbv zeta. case_goal; [apply integrity_kick_sched|reflexivity].
Qed.

(** The posture has gone up; [r] announces the fail-safe. *)
Lemma after_up_sched_of (r : reporter) t w w' :
  (∀ w1 w2, r KG_ALERT_FAIL_SAFE_ENTERED KG_LEVEL_CRITICAL 0 0 w1 = Some w2 → sched w1 w2) →
  kg_pos_after_up r t w = Some w' → sched w w'.
Proof.
  intros Hr. unfold kg_pos_after_up. destruct (t =? KG_POSTURE_FAILSAFE); [|destruct (t =? KG_POSTURE_HIGH)].
  - set (w1 := kg_mit_flush_all _). intros (w2 & Hw2%Hr & [= <-])%bind_Some.
    etrans; [|apply kicks_sched]. etrans; [|exact Hw2]. unfold w1.
    etrans; [|apply unscheduled_sched, flush_all_unscheduled]. by apply unscheduled_sched.
  - intros [= <-]. etrans; [apply unscheduled_sched, flush_all_unscheduled|apply kicks_sched].
  - intros [= <-]. apply kicks_sched.
Qed.
Lemma after_up_sched t w w' : kg_pos_after_up (kg_report 1) t w = Some w' → sched w w'.
Proof.
  apply after_up_sched_of. intros w1 w2.
  change (kg_report 1 ?a ?b ?c ?d w1) with (Some (kg_comms_notify a b c d w1).2). intros [= <-]. apply notify_sched.
Qed.

Lemma apply_locked_unscheduled t w : unscheduled w (kg_pos_apply_locked t w).
Proof. unfold kg_pos_apply_locked, kg_mit_set_posture, guarded. cbn [ktime_get_real_ns]. by case_goal. Qed.

Lemma raise_sched t trig w w' : kg_posture_raise (kg_report 1) t trig w = Some w' → sched w w'.
Proof.
  unfold kg_posture_raise. destruct (negb _); [by intros [= <-]|]. set (cap := Z.min t _).
  set (w1 := if trig =? _ then _ else w).
  assert (H1 : unscheduled w w1) by (unfold w1; by destruct (trig =? _)).
  set (w2 := if KG_POSTURE_ELEVATED <=? cap then _ else w1).
  assert (H2 : unscheduled w w2) by (etrans; [exact H1|]; unfold w2; by destruct (_ <=? cap)).
  destruct (kg_posture w1 <? cap).
  - intros Hu%after_up_sched. etrans; [|exact Hu]. etrans; [|apply arm_decay_sched]. apply unscheduled_sched.
    etrans; [exact H2|apply apply_locked_unscheduled].
  - intros [= <-]. etrans; [by apply unscheduled_sched|apply arm_decay_sched].
Qed.

Lemma dispatch_sched ty lv p1 p2 w w' :
  kg_dispatch (kg_report 1) ty lv p1 p2 w = Some w' → sched w w'.
Proof.
  intros Hd. unfold kg_dispatch in Hd.
  repeat match type of Hd with context [if ?b then _ else _] => destruct b end;
    try (injection Hd as <-; reflexivity);
    apply raise_sched in Hd; (etrans; [|exact Hd]); try reflexivity;
    try (apply unscheduled_sched, flush_cpu_unscheduled); try apply input_kick_sched.
  all: apply unscheduled_sched; (etrans; [apply escalate_unscheduled|]);
    (etrans; [|apply flush_siblings_unscheduled]); apply flush_cpu_unscheduled.
Qed.

Lemma report_sched ty lv p1 p2 w w' : report ty lv p1 p2 w = Some w' → sched w w'.
Proof.
  intros Hr. change (kg_dispatch (kg_report 1) ty lv p1 p2 (kg_comms_notify ty lv p1 p2 w).2 = Some w') in Hr.
  apply dispatch_sched in Hr. etrans; [|exact Hr]. apply notify_sched.
Qed.

(** ** The other handlers of the core *)
Lemma posture_set_sched t r w w' : kg_posture_set t w = Some (r, w') → sched w w'.
Proof.
  unfold kg_posture_set. repeat (case_goal; [by intros [= _ <-]|]). cbn [ktime_get_ns].
  set (w1 := kg_pos_arm_decay_locked _).
  assert (Hq : sched w w1).
  { etrans; [|apply arm_decay_sched]. etrans; [apply unscheduled_sched, apply_locked_unscheduled|].
    by apply unscheduled_sched. }
  intros (w2 & Hup & (w3 & Han%report_sched & [= _ <-])%bind_Some)%bind_Some. etrans; [exact Hq|]. etrans; [|exact Han].
  destruct (_ <? t); [|by injection Hup as <-]. eapply after_up_sched_of, Hup. intros ??. apply report_sched.
Qed.

Lemma decay_sched_fn w w' : kg_pos_decay_fn w = Some w' → sched w w'.
Proof.
  unfold kg_pos_decay_fn. destruct (_ && _ && _) eqn:E; [|by intros [= <-]]. cbn [ktime_get_ns].
  apply andb_true_iff in E as [[Hr _]%andb_true_iff _].
  assert (Ht : sched w (tick_mono w)) by (by apply unscheduled_sched).
  destruct (_ <=? _).
  - intros Hd%report_sched. etrans; [exact Ht|]. etrans; [apply unscheduled_sched, apply_locked_unscheduled|exact Hd].
  - intros [= <-]. etrans; [exact Ht|]. by apply queue_sched.
Qed.
End reports.

Section uevents.
Context `{Platform}.

(** One round brings the cursor within the window, each further round one closer. *)
Lemma uevent_loop_total n : ∀ fuel c w,
  is_u32 (write_index (ring c)) → is_u32 (ue_cursor c) →
  (Z.to_nat (Z.min 16 (u32 (write_index (ring c) - ue_cursor c))) ≤ n)%nat → (n < fuel)%nat →
  ∃ c' l w', uevent_loop fuel c w = Some (c', l, w') ∧ ring c' = ring c ∧ is_u32 (ue_cursor c') ∧ dev c' = dev c
  ∧ unscheduled w w'.
Proof.
  induction n as [|n IH]; intros fuel c w Hi Hc Hn Hf; (destruct fuel as [|fuel]; [lia|]); cbn [uevent_loop];
    (destruct (negb (dev c) || _) eqn:Estop; [by eexists _, _, w|]); apply orb_false_iff in Estop as [_ Hne%Z.eqb_neq].
  { exfalso. revert Hn Hne. unfold u32, is_u32 in *. intros Hn Hne.
    destruct (decide (ue_cursor c ≤ write_index (ring c))).
    - rewrite Z.mod_small in Hn by lia. lia.
    - rewrite <- (Z_mod_plus_full _ 1), Z.mod_small in Hn by lia. lia. }
  set (e := write_index (ring c)) in *. set (i := if _ <? _ then _ else _).
  assert (Hnext : (Z.to_nat (Z.min 16 (u32 (e - u32 (i + 1)))) ≤ n)%nat).
  { assert (Hsub : u32 (e - u32 (i + 1)) = u32 (e - (i + 1))) by (unfold u32; by rewrite Zminus_mod_idemp_r).
    rewrite Hsub. unfold i, KG_NOTIFY_SLOTS. destruct (16 <? u32 (e - ue_cursor c)) eqn:E; bool_props.
    - assert (Hw : u32 (e - (u32 (e - 16) + 1)) = 15).
      { unfold u32. replace (e - ((e - 16) mod 4294967296 + 1)) with (e - 1 - (e - 16) mod 4294967296) by lia.
        rewrite Zminus_mod_idemp_r. by replace (e - 1 - (e - 16)) with 15 by lia. }
      rewrite Hw. lia.
    - revert Hn E. unfold u32, is_u32 in *. destruct (decide (ue_cursor c ≤ e)).
      + rewrite !Z.mod_small by lia. lia.
      + rewrite <- (Z_mod_plus_full (e - ue_cursor c) 1), <- (Z_mod_plus_full (e - (ue_cursor c + 1)) 1).
        rewrite !Z.mod_small by lia. lia. }
  assert (Hgo : ∀ w1, ∃ c' l w', uevent_loop fuel (set_cursor (u32 (i + 1)) c) w1 = Some (c', l, w')
    ∧ ring c' = ring c ∧ is_u32 (ue_cursor c') ∧ dev c' = dev c ∧ unscheduled w1 w').
  { intros w1. apply (IH fuel (set_cursor (u32 (i + 1)) c) w1); [done|apply u32_range|exact Hnext|lia]. }
  destruct (negb _ || _); [by apply Hgo|]. destruct (kobject_uevent_ok _); [|by apply Hgo].
  destruct (Hgo (kg_stat_inc fallback_signals_sent w)) as (c' & l & w' & -> & Hr & Hu & Hd & Hs). bind_simpl.
  eexists _, _, w'. split_and!; [done..|]. by etrans; [|exact Hs].
Qed.

Lemma uevent_workfn_total w :
  chan_typed w → ∃ l w', kg_uevent_workfn w = Some (l, w') ∧ sched w w'.
Proof.
  intros Ht. unfold kg_uevent_workfn. destruct (wcomms w) as [c|] eqn:Hc; [|by eexists _, w].
  destruct (Ht c Hc) as [Hi Hu].
  destruct (uevent_loop_total 16 17 c w Hi Hu) as (c' & l & w' & -> & Hr & Hu' & Hd & (Hm & Hcc & Hq & Hp)); [lia..|].
  bind_simpl. eexists _, _. split; [done|].
  constructor; cbn [wmon wcomms wwork wpos set_comms]; rewrite ?Hm, ?Hq, ?Hp, ?Hc; try done.
  intros _ x [= <-]. by rewrite Hr.
Qed.
End uevents.
