(* ===== verification/Advance.v ===== *)
(** * How a monitor moves the guarded state

    The monitors (integrity, PCI, keyboard path) touch the guarded state through
    reports, statistics and work items only.  [advances] is what any sequence of those
    guarantees: the state stays sealed, the ladder is never lowered, the parameters
    and the trust flag survive, and work is queued only as [sched] allows.  Each monitor's handlers are proved to complete and to
    advance the world; Main.v puts them together. *)
From S2P Require Import Prelude Uapi Kernel Machine Guard Comms Posture Sched.
Local Open Scope Z_scope.

Record advances `{Crypto} (w w' : world) : Prop := Advances {
  ad_inv : guard_inv w';
  ad_par : wpar w' = wpar w;
  ad_sched : sched w w';
  ad_posture : kg_posture w ≤ kg_posture w';
  ad_untrusted : pos_untrusted (wpos w) = true → pos_untrusted (wpos w') = true
}.

#[export] Instance advances_trans `{Crypto} : Transitive advances.
Proof.
  intros w1 w2 w3 [????] [????]. constructor; [done|congruence|by etrans|lia|auto].
Qed.

(** The worlds a handler may start from. *)
Definition sound `{Crypto} (w : world) : Prop := guard_inv w ∧ 0 ≤ kg_max_posture (wpar w).

Section advances.
Context `{CryptoLaws} `{Platform}.

Lemma ad_ready w w' : advances w w' → pos_ready (wpos w') = pos_ready (wpos w).
Proof. intros Ha. apply Ha. Qed.
Lemma advances_refl w : sound w → advances w w.
Proof. intros [Hi _]. by constructor. Qed.

Lemma advances_sound w w' : sound w → advances w w' → sound w'.
Proof. intros [_ Hm] [Hi Hp]. split; [done|]. by rewrite Hp. Qed.

Lemma quiet_advances w w' : sound w → quiet w w' → sched w w' → advances w w'.
Proof.
  intros [Hi _] [Qa Qb Qc Qd] Hs. constructor; rewrite ?Qb, ?Qc; auto. lia.
Qed.

Lemma same_policy_advances w w' : sound w → same_policy w w' → sched w w' → advances w w'.
Proof. intros Hw Hs. by apply quiet_advances, same_policy_quiet. Qed.
Lemma same_policy_sound w w' : sound w → same_policy w w' → sound w'.
Proof. intros [Hi Hm] (Hg & Hp & Hpar). split; [unfold guard_inv; by rewrite Hg|by rewrite Hpar]. Qed.

Lemma stat_advances f w : sound w → advances w (kg_stat_inc f w).
Proof. intros Hw. apply same_policy_advances; [done|done|]. by apply unscheduled_sched. Qed.

(** A report, and what it asks of the ladder. *)
Lemma report_advances ty lv p1 p2 w :
  sound w →
  ∃ w', report ty lv p1 p2 w = Some w' ∧ advances w w'
  ∧ (pos_ready (wpos w) = true → Z.min (alert_target ty lv) (posture_cap w) ≤ kg_posture w').
Proof.
  intros [Hi Hm]. destruct (report_spec 0 ty lv p1 p2 w Hi Hm) as (w' & Hr & [Ra Rb Rc Rd Re]).
  exists w'. split; [exact Hr|]. split.
  - constructor; [done|done|by eapply report_sched| |by intros Hu; rewrite Re, Hu].
    rewrite Rd. destruct (pos_ready (wpos w)); lia.
  - intros Hready. rewrite Rd, Hready. lia.
Qed.

Lemma advances_cap w w' : advances w w' → posture_cap w' = posture_cap w.
Proof. intros [_ Hp]. unfold posture_cap. by rewrite Hp. Qed.

(** From the first world to the second the ladder has reached [t], as far as it may climb. *)
Definition climbs (t : Z) (w w' : world) : Prop :=
  pos_ready (wpos w) = true → Z.min t (posture_cap w) ≤ kg_posture w'.
Lemma climbs_later t w w1 w' : advances w w1 → climbs t w1 w' → climbs t w w'.
Proof. intros Ha Hr. unfold climbs in *. rewrite <- (advances_cap _ _ Ha), <- (ad_ready _ _ Ha). done. Qed.
Lemma climbs_earlier t w w1 w' : climbs t w w1 → advances w1 w' → climbs t w w'.
Proof. intros Hr Ha Hp. pose proof (Hr Hp). pose proof (ad_posture _ _ Ha). lia. Qed.

(** What has begun to enforce keeps enforcing. *)
Lemma enforcing_advances w w' : advances w w' → kg_enforcing w = true → kg_enforcing w' = true.
Proof.
  intros Ha. pose proof (ad_posture _ _ Ha). unfold kg_enforcing. rewrite (ad_par _ _ Ha).
  rewrite !orb_true_iff, !andb_true_iff, !Z.leb_le. intros [?|[? ?]]; [by left|right; split; [done|lia]].
Qed.

(** Counted, then reported. *)
Lemma stat_report_advances f ty lv p1 p2 w :
  sound w →
  ∃ w', report ty lv p1 p2 (kg_stat_inc f w) = Some w' ∧ advances w w'
  ∧ (pos_ready (wpos w) = true → Z.min (alert_target ty lv) (posture_cap w) ≤ kg_posture w').
Proof.
  intros Hw. destruct (report_advances ty lv p1 p2 (kg_stat_inc f w)) as (w' & Hr & Ha & Ht).
  { by eapply advances_sound, stat_advances. }
  exists w'. split; [done|]. split; [|exact Ht]. etrans; [by apply stat_advances|exact Ha].
Qed.
End advances.

(** Keep the bookkeeping of a proof about handlers short: a world that advanced is sound. *)
Create HintDb adv.
#[export] Hint Resolve advances_refl advances_sound stat_advances : adv.

(** The concrete loaded module of Posture.v is sound. *)
Lemma ready_world_sound : @sound sha_api ready_world.
Proof. split; [exact ready_world_inv|by compute]. Qed.
Lemma world_at_sound p : 0 ≤ p < KG_POSTURE_COUNT → @sound sha_api (world_at p).
Proof.
  intros Hp. split; [by apply world_at_inv|].
  change (wpar (world_at p)) with (wpar (@kg_pos_apply_locked sha_api two_cpus p ready_world)).
  destruct (@apply_locked_spec sha_api sha_api_laws two_cpus p ready_world Hp ready_world_inv)
    as (_ & _ & -> & _). by compute.
Qed.
