(* ===== verification/Pmu.v ===== *)
(** * Module 1: cache-miss detection (linux/module/kg_pmu.c)

    Per CPU and event a counter that the overflow NMI increments and a sampler
    drains; rates become levels, levels become alerts with a minimum spacing
    and hysteresis on the way down.  The NMI also keeps a majority vote over
    the user tasks it interrupts.  The C arrays indexed by event kind
    ([ev], [ovf], [level], [calm], [last_alert_ns]) are one record per kind. *)
From S2P Require Import Prelude Uapi Kernel Machine Guard Comms Posture.
Local Open Scope Z_scope.

Definition KG_PMU_CALM_WINDOWS : Z := 3.
Definition NSEC_PER_MSEC : Z := 1000000.
Definition s64 (z : Z) : Z := let u := u64 z in if u <? 2 ^ 63 then u else u - 2 ^ 64.

Inductive kind := KG_EV_L1D | KG_EV_LLC.
Definition kinds : list kind := [KG_EV_L1D; KG_EV_LLC].
(** [overflow_handler_context] as an index; [None] from KG_EV_NR on. *)
Definition kind_of (ctx : Z) : option kind :=
  if ctx =? 0 then Some KG_EV_L1D else if ctx =? 1 then Some KG_EV_LLC else None.

Record pmu_params := PmuParams {
  p_period_l1d : Z; p_period_llc : Z; p_window_ms : Z; p_warn : Z; p_crit : Z
}.

Definition kg_pmu_thresholds (p : pmu_params) : Z * Z :=
  let w := Z.max (p_warn p) 1 in
  (w, Z.max (p_crit p) (u32 (w + 1))).

(** ** State *)
Record pmu_ev := PmuEv {
  ev : bool;              (* the counter exists *)
  ovf : Z;
  level : Z;
  calm : Z;
  last_alert_ns : Z
}.
Record kg_pmu_cpu := PmuCpu {
  l1d : pmu_ev; llc : pmu_ev;
  cand_tgid : Z; cand_cnt : Z;
  iw : bool;              (* irq_work queued and not yet run *)
  crit : bool
}.
Record kg_pmu := Pmu {
  pmu_cpu : Z → kg_pmu_cpu;
  kg_pmu_running : bool;
  kg_pmu_stop : bool;
  kg_pmu_events : Z;
  kg_pmu_last_ns : Z;
  pmu_par : pmu_params
}.

Definition ev_of (k : kind) (pc : kg_pmu_cpu) : pmu_ev :=
  match k with KG_EV_L1D => l1d pc | KG_EV_LLC => llc pc end.
Definition set_ev (k : kind) (e : pmu_ev) (pc : kg_pmu_cpu) : kg_pmu_cpu :=
  match k with
  | KG_EV_L1D => PmuCpu e (llc pc) (cand_tgid pc) (cand_cnt pc) (iw pc) (crit pc)
  | KG_EV_LLC => PmuCpu (l1d pc) e (cand_tgid pc) (cand_cnt pc) (iw pc) (crit pc)
  end.
Definition set_ovf (n : Z) (e : pmu_ev) : pmu_ev :=
  PmuEv (ev e) n (level e) (calm e) (last_alert_ns e).
Definition set_cand (tgid cnt : Z) (pc : kg_pmu_cpu) : kg_pmu_cpu :=
  PmuCpu (l1d pc) (llc pc) tgid cnt (iw pc) (crit pc).
Definition set_iw (b : bool) (pc : kg_pmu_cpu) : kg_pmu_cpu :=
  PmuCpu (l1d pc) (llc pc) (cand_tgid pc) (cand_cnt pc) b (crit pc).
Definition set_crit (b : bool) (pc : kg_pmu_cpu) : kg_pmu_cpu :=
  PmuCpu (l1d pc) (llc pc) (cand_tgid pc) (cand_cnt pc) (iw pc) b.

Definition on_cpu (c : Z) (f : kg_pmu_cpu → kg_pmu_cpu) (s : kg_pmu) : kg_pmu :=
  Pmu (<[c := f (pmu_cpu s c)]> (pmu_cpu s)) (kg_pmu_running s) (kg_pmu_stop s)
      (kg_pmu_events s) (kg_pmu_last_ns s) (pmu_par s).
Definition set_last_ns (t : Z) (s : kg_pmu) : kg_pmu :=
  Pmu (pmu_cpu s) (kg_pmu_running s) (kg_pmu_stop s) (kg_pmu_events s) t (pmu_par s).
Definition add_events (n : Z) (s : kg_pmu) : kg_pmu :=
  Pmu (pmu_cpu s) (kg_pmu_running s) (kg_pmu_stop s) (s32 (kg_pmu_events s + n))
      (kg_pmu_last_ns s) (pmu_par s).
Definition set_pmu_stop (b : bool) (s : kg_pmu) : kg_pmu :=
  Pmu (pmu_cpu s) (kg_pmu_running s) b (kg_pmu_events s) (kg_pmu_last_ns s) (pmu_par s).
Definition set_running (b : bool) (s : kg_pmu) : kg_pmu :=
  Pmu (pmu_cpu s) b (kg_pmu_stop s) (kg_pmu_events s) (kg_pmu_last_ns s) (pmu_par s).
Definition set_periods (l1d llc : Z) (s : kg_pmu) : kg_pmu :=
  Pmu (pmu_cpu s) (kg_pmu_running s) (kg_pmu_stop s) (kg_pmu_events s) (kg_pmu_last_ns s)
      (PmuParams l1d llc (p_window_ms (pmu_par s)) (p_warn (pmu_par s)) (p_crit (pmu_par s))).

Definition kg_pmu_active (s : kg_pmu) : bool := kg_pmu_running s.
Definition window_ms (s : kg_pmu) : Z := Z.max (p_window_ms (pmu_par s)) 100.

(** ** The overflow NMI on CPU [c] *)

(** The vote: [tgid] was running in user mode. *)
Definition vote (tgid : Z) (pc : kg_pmu_cpu) : kg_pmu_cpu :=
  if cand_tgid pc =? tgid then set_cand (cand_tgid pc) (s32 (cand_cnt pc + 1)) pc
  else if cand_cnt pc <=? 0 then set_cand tgid 1 pc
  else set_cand (cand_tgid pc) (s32 (cand_cnt pc - 1)) pc.

(** [self_busy] is kg_self_busy of this CPU; [user] the tgid of [current] when the
    interrupted registers are user-mode ones. *)
Definition kg_pmu_overflow (c ctx : Z) (self_busy : bool) (user : option Z) (s : kg_pmu) (w : world)
  : kg_pmu * world :=
  match kind_of ctx with
  | None => (s, w)
  | Some k =>
    if kg_pmu_stop s || self_busy then (s, w)
    else
      let e := ev_of k (pmu_cpu s c) in
      let n := s64 (ovf e + 1) in
      let s := on_cpu c (set_ev k (set_ovf n e)) s in
      let w := kg_stat_inc (match k with KG_EV_L1D => pmu_l1d_overflows
                                       | KG_EV_LLC => pmu_llc_overflows end) w in
      let s := match user with Some tgid => on_cpu c (vote tgid) s | None => s end in
      let '(_, crit) := kg_pmu_thresholds (pmu_par s) in
      if crit <=? n then
        let w := kg_boundary_flush_forced c w in
        (if n =? crit then on_cpu c (set_iw true) s else s, w)
      else (s, w)
  end.

(** The irq_work of CPU [c] runs, if it is queued. *)
Definition kg_pmu_irq_work (c : Z) (s : kg_pmu) (w : world) : kg_pmu * world :=
  if iw (pmu_cpu s c) then
    (on_cpu c (set_iw false) s,
     if negb (kg_pmu_stop s) then mod_delayed_work PmuWork (msecs 0) w else w)
  else (s, w).

(** ** The sampler *)
Definition pmu_level (rate warn crit : Z) : Z :=
  if crit <=? rate then KG_LEVEL_CRITICAL else if warn <=? rate then KG_LEVEL_WATCH else 0.

Definition alert_due (now lvl : Z) (e : pmu_ev) : bool :=
  ((level e <? lvl) && (NSEC_PER_SEC <=? u64 (now - last_alert_ns e)))
  || (negb (lvl =? 0) && (lvl =? level e) && (10 * NSEC_PER_SEC <=? u64 (now - last_alert_ns e))).

(** One window of one counter at level [lvl]: the new state and whether it alerts. *)
Definition sample_ev (now lvl : Z) (e : pmu_ev) : pmu_ev * bool :=
  if alert_due now lvl e then (PmuEv (ev e) (ovf e) lvl 0 now, true)
  else if lvl <? level e then
    let n := u8 (calm e + 1) in
    if KG_PMU_CALM_WINDOWS <=? n then (PmuEv (ev e) (ovf e) lvl 0 (last_alert_ns e), false)
    else (PmuEv (ev e) (ovf e) (level e) n (last_alert_ns e), false)
  else (PmuEv (ev e) (ovf e) (level e) 0 (last_alert_ns e), false).

Section sampler.
Context `{Crypto} `{Platform}.

Definition sample_kind (now denom warn crit c : Z) (k : kind) (s : kg_pmu) (w : world)
  : option (kg_pmu * world) :=
  let pc := pmu_cpu s c in
  let e := ev_of k pc in
  if negb (ev e) then Some (s, w)
  else
    let rate := u64 (u64 (ovf e) * 1000) / denom in
    let lvl := pmu_level rate warn crit in
    let '(e', alert) := sample_ev now lvl (set_ovf 0 e) in
    if alert then
      let tgid := cand_tgid pc in
      let s := on_cpu c (λ pc, set_ev k e' (set_cand 0 0 pc)) s in
      w ← report (match k with KG_EV_L1D => KG_ALERT_PMU_L1D_ANOMALY
                             | KG_EV_LLC => KG_ALERT_PMU_L2_ANOMALY end)
                 lvl (if 0 <? tgid then tgid else 0)
                 (Z.lor (u64 (Z.shiftl c 32)) (u32 rate)) w;
      Some (s, w)
    else Some (on_cpu c (set_ev k e') s, w).

Definition active_level (pc : kg_pmu_cpu) (k : kind) : Z :=
  if ev (ev_of k pc) then level (ev_of k pc) else 0.
Definition any_crit (pc : kg_pmu_cpu) : bool :=
  existsb (λ k, ev (ev_of k pc) && (KG_LEVEL_CRITICAL <=? level (ev_of k pc))) kinds.

(** One CPU: both counters, then [crit] and the running maximum. *)
Definition sample_cpu (now denom warn crit : Z) (c : Z) (acc : kg_pmu * world * Z)
  : option (kg_pmu * world * Z) :=
  let '(s, w, maxlvl) := acc in
  '(s, w) ← sample_kind now denom warn crit c KG_EV_L1D s w;
  '(s, w) ← sample_kind now denom warn crit c KG_EV_LLC s w;
  let pc := pmu_cpu s c in
  Some (on_cpu c (set_crit (any_crit pc)) s, w,
        Z.max (Z.max maxlvl (active_level pc KG_EV_L1D)) (active_level pc KG_EV_LLC)).

Fixpoint sample_cpus (now denom warn crit : Z) (cs : list Z) (acc : kg_pmu * world * Z)
  : option (kg_pmu * world * Z) :=
  match cs with
  | [] => Some acc
  | c :: cs => acc ← sample_cpu now denom warn crit c acc; sample_cpus now denom warn crit cs acc
  end.

Definition core_hot (s : kg_pmu) (c : Z) : bool :=
  existsb (λ sib, crit (pmu_cpu s sib)) (topology_sibling_cpumask c).

Definition relax_calm (s : kg_pmu) (w : world) (c : Z) : world :=
  if negb (core_hot s c) && (kg_posture w <? KG_POSTURE_HIGH)
     && negb (strategy (cpu_mit_at w c) =? base_strategy (cpu_mit_at w c))
  then kg_mit_relax_cpu c w else w.

Definition kg_pmu_sample (s : kg_pmu) (w : world) : option (kg_pmu * world) :=
  let '(now, w) := ktime_get_ns w in
  let elapsed_ms := Z.max (u64 (now - kg_pmu_last_ns s) / NSEC_PER_MSEC) 1 in
  let denom_ms := Z.max elapsed_ms (window_ms s) in
  let '(warn, crit) := kg_pmu_thresholds (pmu_par s) in
  '(s, w, maxlvl) ← sample_cpus now denom_ms warn crit online_cpus (set_last_ns now s, w, 0);
  let w := kg_stat_set pmu_alert_level maxlvl w in
  let w := foldl (relax_calm s) w online_cpus in
  Some (s, if negb (kg_pmu_stop s) then queue_delayed_work PmuWork (msecs (window_ms s)) w else w).
End sampler.

(** ** Hotplug: [avail] says for which kinds a counter can be created *)
Definition fresh_ev (avail : bool) (e : pmu_ev) : pmu_ev := PmuEv avail 0 0 0 (last_alert_ns e).
Definition n_events (pc : kg_pmu_cpu) : Z :=
  (if ev (l1d pc) then 1 else 0) + (if ev (llc pc) then 1 else 0).

Definition kg_pmu_cpu_online (avail : kind → bool) (c : Z) (s : kg_pmu) : kg_pmu :=
  let fresh pc := PmuCpu (fresh_ev (avail KG_EV_L1D) (l1d pc)) (fresh_ev (avail KG_EV_LLC) (llc pc))
                         0 0 false (crit pc) in
  add_events (n_events (fresh (pmu_cpu s c))) (on_cpu c fresh s).

Definition drop_ev (e : pmu_ev) : pmu_ev :=
  PmuEv false (ovf e) (level e) (calm e) (last_alert_ns e).

Definition kg_pmu_cpu_offline (c : Z) (s : kg_pmu) (w : world) : kg_pmu * world :=
  let n := n_events (pmu_cpu s c) in
  let s := add_events (- n)
    (on_cpu c (λ pc, set_ev KG_EV_L1D (drop_ev (l1d pc)) (set_ev KG_EV_LLC (drop_ev (llc pc)) pc)) s) in
  let '(s, w) := kg_pmu_irq_work c s w in      (* irq_work_sync *)
  (on_cpu c (set_crit false) s, w).

Definition offline_all (cs : list Z) (s : kg_pmu) (w : world) : kg_pmu * world :=
  foldl (λ sw c, kg_pmu_cpu_offline c sw.1 sw.2) (s, w) cs.

(** ** init / exit *)
Section init_exit.
Context `{Platform}.

(** [has_pmu]: the boot CPU has architectural or core performance counters;
    [hp] the result of cpuhp_setup_state, which runs the online callback on
    every CPU that is up, or fails before any. *)
Definition kg_pmu_init (has_pmu : bool) (hp : Z) (avail : Z → kind → bool) (s : kg_pmu) (w : world)
  : option errno * kg_pmu * world :=
  if negb has_pmu then (Some ENODEV, s, w)
  else
    let l1d := Z.min (Z.max (p_period_l1d (pmu_par s)) 1000) (2 ^ 30) in
    let llc := Z.min (Z.max (p_period_llc (pmu_par s)) 1000) (2 ^ 30) in
    let s := set_pmu_stop false (set_periods l1d llc s) in
    let '(now, w) := ktime_get_ns w in
    let s := set_last_ns now s in
    if hp <? 0 then (Some (EOTHER hp), s, w)
    else
      let s := foldl (λ s c, kg_pmu_cpu_online (avail c) c s) s online_cpus in
      if kg_pmu_events s =? 0 then
        let '(s, w) := offline_all online_cpus s w in (Some ENODEV, s, w)
      else (None, set_running true s, queue_delayed_work PmuWork (msecs (window_ms s)) w).

Definition kg_pmu_exit (s : kg_pmu) (w : world) : kg_pmu * world :=
  if negb (kg_pmu_running s) then (s, w)
  else
    let '(s, w) := offline_all online_cpus (set_pmu_stop true s) w in
    (set_running false s, cancel_work PmuWork w).
End init_exit.

(** ** A concrete machine: both counters of two sibling CPUs *)
Definition sample_ev_state : pmu_ev := PmuEv true 0 0 0 0.
Definition sample_pmu_cpu (n : Z) : kg_pmu_cpu :=
  PmuCpu (set_ovf n sample_ev_state) sample_ev_state 0 0 false false.
Definition sample_pmu : kg_pmu :=
  Pmu (λ _, sample_pmu_cpu 0) true false 4 0 (PmuParams 100000 20000 1000 500 2000).
(** CPU 0 missed its cache 5000 times in the last window. *)
Definition busy_pmu : kg_pmu :=
  Pmu (λ c, sample_pmu_cpu (if c =? 0 then 5000 else 0)) true false 4 0
      (PmuParams 100000 20000 1000 500 2000).

(** ** Thresholds *)

(** The thresholds in force: at least 1, and critical above warning, for every pair of
    parameters that was typed except one. *)
Theorem pmu_thresholds_ordered p :
  is_u32 (p_warn p) → is_u32 (p_crit p) → p_warn p ≠ 4294967295 →
  let '(warn, crit) := kg_pmu_thresholds p in
  1 ≤ warn < crit ∧ is_u32 crit
  ∧ (1 ≤ p_warn p < p_crit p → warn = p_warn p ∧ crit = p_crit p).
Proof.
  unfold kg_pmu_thresholds, is_u32. intros Hw Hc Hne.
  rewrite u32_id by (unfold is_u32; lia). lia.
Qed.

Lemma pmu_thresholds_ordered_witness :
  kg_pmu_thresholds (PmuParams 100000 20000 1000 0 0) = (1, 2) ∧ 1 ≤ 1 < 2.
Proof.
  pose proof (pmu_thresholds_ordered (PmuParams 100000 20000 1000 0 0)
                ltac:(by compute) ltac:(by compute) ltac:(done)) as (Ho & _).
  split; [reflexivity|exact Ho].
Defined.

(** The limit of the threshold clamp: with pmu_warn at its maximum [w + 1] wraps to
    zero, and the critical threshold is whatever pmu_crit says, below the warning one,
    although the comment promises it never is; with pmu_crit = 0 every window counts as
    critical. *)
Theorem pmu_thresholds_wrap c :
  is_u32 c →
  kg_pmu_thresholds (PmuParams 100000 20000 1000 4294967295 c) = (4294967295, c)
  ∧ (∀ rate, 0 ≤ rate → pmu_level rate 4294967295 0 = KG_LEVEL_CRITICAL).
Proof.
  unfold is_u32, kg_pmu_thresholds, pmu_level. cbn [p_warn p_crit]. intros Hc. split.
  - change (u32 (Z.max 4294967295 1 + 1)) with 0. change (Z.max 4294967295 1) with 4294967295.
    f_equal. lia.
  - intros rate Hr. by rewrite (proj2 (Z.leb_le 0 rate)).
Qed.

Lemma pmu_thresholds_wrap_witness :
  kg_pmu_thresholds (PmuParams 100000 20000 1000 4294967295 2000) = (4294967295, 2000).
Proof. by apply (pmu_thresholds_wrap 2000). Defined.

(** ** The vote names the culprit *)

(** Votes in the order of the overflows. *)
Definition tally (t : Z) (l : list Z) : Z := zlen (filter (λ x, x = t) l).

Record majority_state (l : list Z) (pc : kg_pmu_cpu) : Prop := MajorityState {
  mj_cnt : 0 ≤ cand_cnt pc ≤ zlen l;
  mj_cand : 2 * tally (cand_tgid pc) l ≤ zlen l + cand_cnt pc;
  mj_other : ∀ t, t ≠ cand_tgid pc → 2 * tally t l ≤ zlen l - cand_cnt pc
}.

Lemma tally_snoc t l x : tally t (l ++ [x]) = tally t l + (if decide (x = t) then 1 else 0).
Proof.
  unfold tally, zlen. rewrite filter_app, length_app.
  rewrite filter_cons. destruct (decide (x = t)); rewrite filter_nil; simpl; lia.
Qed.

Lemma vote_majority l pc tgid :
  zlen l + 1 < 2147483648 → majority_state l pc → majority_state (l ++ [tgid]) (vote tgid pc).
Proof.
  intros Hl [Hc Hcand Ho]. unfold vote.
  assert (Hlen : zlen (l ++ [tgid]) = zlen l + 1)
    by (unfold zlen; rewrite length_app; simpl; lia).
  destruct (cand_tgid pc =? tgid) eqn:E; bool_props; [|destruct (cand_cnt pc <=? 0) eqn:E0; bool_props].
  - rewrite s32_id by lia. subst tgid. constructor; simpl; rewrite ?Hlen; [lia| |].
    + rewrite tally_snoc, decide_True by done. lia.
    + intros t Ht. rewrite tally_snoc, decide_False by done. specialize (Ho t Ht). lia.
  - constructor; simpl; rewrite ?Hlen; [unfold zlen in *; lia| |].
    + rewrite tally_snoc, decide_True by done. specialize (Ho tgid ltac:(done)). lia.
    + intros t Ht. rewrite tally_snoc, decide_False by done.
      destruct (decide (t = cand_tgid pc)) as [->|Hne]; [lia|]. specialize (Ho t Hne). lia.
  - rewrite s32_id by lia. constructor; simpl; rewrite ?Hlen; [lia| |].
    + rewrite tally_snoc, decide_False by done. lia.
    + intros t Ht. rewrite tally_snoc. specialize (Ho t Ht). case_decide; lia.
Qed.

(** A burst of overflows of CPU [c]: event kind and user task, if any. *)
Definition overflows (c : Z) (l : list (Z * option Z)) (s : kg_pmu) (w : world) : kg_pmu * world :=
  foldl (λ sw x, kg_pmu_overflow c x.1 false x.2 sw.1 sw.2) (s, w) l.
Definition votes (l : list (Z * option Z)) : list Z := omap (λ x, kind_of x.1 ≫= λ _, x.2) l.

Lemma majority_state_same l pc pc' :
  cand_tgid pc' = cand_tgid pc → cand_cnt pc' = cand_cnt pc →
  majority_state l pc → majority_state l pc'.
Proof. intros Ht Hc [? ? ?]. constructor; rewrite ?Ht, ?Hc; done. Qed.

Lemma on_cpu_same c f s : pmu_cpu (on_cpu c f s) c = f (pmu_cpu s c).
Proof. apply fn_lookup_insert. Qed.
Lemma on_cpu_other c c' f s : c ≠ c' → pmu_cpu (on_cpu c f s) c' = pmu_cpu s c'.
Proof. apply fn_lookup_insert_ne. Qed.

Lemma cand_set_ev k e pc : cand_tgid (set_ev k e pc) = cand_tgid pc ∧ cand_cnt (set_ev k e pc) = cand_cnt pc.
Proof. by destruct k. Qed.

Lemma overflow_majority c ctx user l s w :
  kg_pmu_stop s = false → zlen l + 1 < 2147483648 → majority_state l (pmu_cpu s c) →
  let '(s', w') := kg_pmu_overflow c ctx false user s w in
  kg_pmu_stop s' = false ∧ majority_state (l ++ votes [(ctx, user)]) (pmu_cpu s' c).
Proof.
  intros Hs Hl Hm. unfold kg_pmu_overflow, votes. cbn [omap list_omap fst snd].
  destruct (kind_of ctx) as [k|]; [|by rewrite app_nil_r].
  rewrite Hs. cbn [orb mbind option_bind].
  set (e := ev_of k (pmu_cpu s c)). set (n := s64 (ovf e + 1)).
  set (s1 := on_cpu c (set_ev k (set_ovf n e)) s).
  set (s2 := match user with Some tgid => _ | None => s1 end).
  assert (H1 : majority_state l (pmu_cpu s1 c)).
  { unfold s1. rewrite on_cpu_same. destruct (cand_set_ev k (set_ovf n e) (pmu_cpu s c)).
    by eapply majority_state_same. }
  assert (H2 : kg_pmu_stop s2 = false ∧ majority_state (l ++ match user with Some y => [y] | None => [] end) (pmu_cpu s2 c)).
  { unfold s2. destruct user as [t|]; (split; [done|]); [|by rewrite app_nil_r].
    rewrite on_cpu_same. by apply vote_majority. }
  destruct (kg_pmu_thresholds (pmu_par s2)) as [warn crit].
  destruct (crit <=? n); [|by destruct user].
  destruct (n =? crit); [|by destruct user].
  split; [apply H2|]. rewrite on_cpu_same. destruct H2 as [_ H2].
  eapply (majority_state_same _ (pmu_cpu s2 c)); [done|done|]. by destruct user.
Qed.

Lemma overflows_majority c l s w :
  kg_pmu_stop s = false → zlen l < 2147483648 → cand_tgid (pmu_cpu s c) = 0 → cand_cnt (pmu_cpu s c) = 0 →
  kg_pmu_stop (overflows c l s w).1 = false
  ∧ majority_state (votes l) (pmu_cpu (overflows c l s w).1 c).
Proof.
  intros Hs Hl Ht Hc. induction l as [|x l IH] using rev_ind.
  { simpl. split; [done|]. constructor; rewrite ?Hc; unfold tally, zlen; simpl; intros; lia. }
  assert (Hlen : zlen (votes l) ≤ zlen l).
  { unfold zlen. clear. induction l as [|y l IH]; [done|]. unfold votes in *. cbn [omap list_omap].
    destruct (kind_of y.1 ≫= _); cbn [length]; lia. }
  unfold zlen in Hl. rewrite length_app in Hl. simpl in Hl.
  destruct IH as [IHs IHm]; [unfold zlen; lia|].
  unfold overflows in *. rewrite foldl_app. cbn [foldl].
  destruct (foldl _ (s, w) l) as [s1 w1]. cbn [fst snd] in *.
  pose proof (overflow_majority c x.1 x.2 (votes l) s1 w1 IHs ltac:(unfold zlen in *; lia) IHm) as Hstep.
  destruct (kg_pmu_overflow c x.1 false x.2 s1 w1) as [s2 w2]. cbn [fst].
  unfold votes in *. rewrite omap_app. by destruct x.
Qed.

(** The alert names the right task: if one user task was running at more than half of
    the user-mode overflows since the last reset, in whatever order they came, it is the
    candidate the sampler reports. *)
Theorem majority_task_named c l s w t :
  kg_pmu_stop s = false → zlen l < 2147483648 →
  cand_tgid (pmu_cpu s c) = 0 → cand_cnt (pmu_cpu s c) = 0 →
  zlen (votes l) < 2 * tally t (votes l) →
  cand_tgid (pmu_cpu (overflows c l s w).1 c) = t.
Proof.
  intros Hs Hl Ht Hc Hmaj.
  destruct (overflows_majority c l s w Hs Hl Ht Hc) as [_ [Hr Hcand Ho]].
  destruct (decide (t = cand_tgid (pmu_cpu (overflows c l s w).1 c))) as [|Hne]; [done|].
  specialize (Ho t Hne). lia.
Qed.

Lemma majority_task_named_witness :
  cand_tgid (pmu_cpu (overflows 0 [(0, Some 7); (1, Some 9); (0, None); (1, Some 9); (0, Some 9)]
                        sample_pmu boot_world).1 0) = 9.
Proof. by apply majority_task_named. Defined.

(** ** Levels over time *)

(** A sequence of windows (time, level measured) and the alerts it raises. *)
Fixpoint ev_run (ws : list (Z * Z)) (e : pmu_ev) : pmu_ev * list (Z * Z) :=
  match ws with
  | [] => (e, [])
  | (now, lvl) :: ws =>
    let '(e, alert) := sample_ev now lvl e in
    let '(e, l) := ev_run ws e in
    (e, if alert then (now, lvl) :: l else l)
  end.

Lemma u64_diff a b : is_u64 a → is_u64 b → b ≤ a → u64 (a - b) = a - b.
Proof. unfold is_u64. intros. apply u64_id. unfold is_u64. lia. Qed.

Lemma sample_ev_cases now lvl e :
  let '(e', alert) := sample_ev now lvl e in
  if alert then NSEC_PER_SEC ≤ u64 (now - last_alert_ns e) ∧ last_alert_ns e' = now ∧ level e' = lvl
  else last_alert_ns e' = last_alert_ns e.
Proof.
  unfold sample_ev. destruct (alert_due now lvl e) eqn:E.
  - split_and!; [|done..]. unfold alert_due in E. unfold NSEC_PER_SEC in *.
    apply orb_true_iff in E as [E|E]; bool_props; lia.
  - destruct (lvl <? level e); [destruct (_ <=? _)|]; done.
Qed.

(** Bounded alert rate: whatever the thresholds and the measurements, two alerts of one
    counter are at least a second apart. *)
Theorem pmu_alerts_spaced ws e :
  Sorted Z.le (last_alert_ns e :: (fst <$> ws)) → Forall is_u64 (last_alert_ns e :: (fst <$> ws)) →
  Sorted (λ a b, a + NSEC_PER_SEC ≤ b) (last_alert_ns e :: (fst <$> (ev_run ws e).2)).
Proof.
  revert e. induction ws as [|[now lvl] ws IH]; intros e Hs Hu; simpl; [by repeat constructor|].
  pose proof (sample_ev_cases now lvl e) as Hc. destruct (sample_ev now lvl e) as [e' alert].
  inversion_clear Hs as [|?? Hs' Hle]. inversion_clear Hle as [|?? Hle'].
  inversion_clear Hu as [|?? Hu0 Hu']. inversion_clear Hu' as [|?? Hu1 Hu''].
  inversion_clear Hs' as [|?? Hs'' Hle2].
  specialize (IH e'). destruct (ev_run ws e') as [e'' al]. destruct alert; simpl in *.
  - destruct Hc as (Hd & Hl & _). rewrite u64_diff in Hd by done.
    constructor; [|constructor; lia]. rewrite <- Hl. apply IH; rewrite Hl; by constructor.
  - rewrite <- Hc. apply IH; rewrite Hc; constructor; try done.
    destruct ws; constructor. inversion_clear Hle2. lia.
Qed.

Lemma pmu_alerts_spaced_witness :
  Sorted (λ a b, a + NSEC_PER_SEC ≤ b)
    (0 :: (fst <$> (ev_run [(5000000000, 1); (5500000000, 2); (6100000000, 2)] sample_ev_state).2))
  ∧ fst <$> (ev_run [(5000000000, 1); (5500000000, 2); (6100000000, 2)] sample_ev_state).2
    = [5000000000; 6100000000].
Proof.
  split; [|reflexivity]. apply (pmu_alerts_spaced _ sample_ev_state).
  - repeat constructor; simpl; lia.
  - repeat constructor; simpl; lia.
Defined.

Lemma sample_ev_rise now lvl e :
  level e < lvl → NSEC_PER_SEC ≤ u64 (now - last_alert_ns e) → (sample_ev now lvl e).2 = true.
Proof.
  intros Hl Ht. unfold sample_ev, alert_due.
  rewrite (proj2 (Z.ltb_lt _ _)), (proj2 (Z.leb_le _ _)) by done. done.
Qed.

Lemma sample_ev_deferred now lvl e :
  level e < lvl → (sample_ev now lvl e).2 = false →
  level (sample_ev now lvl e).1 = level e ∧ last_alert_ns (sample_ev now lvl e).1 = last_alert_ns e.
Proof.
  intros Hl. unfold sample_ev. case_goal; [done|]. intros _.
  rewrite (proj2 (Z.ltb_ge _ _)) by lia. done.
Qed.

(** A rise is deferred, never lost: while the counter measures level [L] or more, the
    first window that comes at least a second after the previous alert raises one of level
    [L] or more. *)
Theorem pmu_rise_reported ws e L t l :
  level e < L → Forall (λ x, L ≤ x.2) ws → (t, l) ∈ ws →
  is_u64 t → is_u64 (last_alert_ns e) → last_alert_ns e + NSEC_PER_SEC ≤ t →
  ∃ t' l', (t', l') ∈ (ev_run ws e).2 ∧ L ≤ l'.
Proof.
  intros Hl Hws Hin Hut Hul Ht. revert e Hl Hul Ht.
  induction ws as [|[now lvl] ws IH]; intros e Hl Hul Ht; [by apply elem_of_nil in Hin|].
  inversion_clear Hws as [|?? HL Hws']. simpl in HL. cbn [ev_run].
  destruct (sample_ev now lvl e) as [e' alert] eqn:E.
  destruct alert.
  { destruct (ev_run ws e') as [e'' al]. exists now, lvl. split; [apply list_elem_of_here|done]. }
  pose proof (sample_ev_deferred now lvl e ltac:(lia) ltac:(by rewrite E)) as [Hl' Hla].
  rewrite E in Hl', Hla. cbn [fst] in Hl', Hla.
  apply elem_of_cons in Hin as [[= -> ->]|Hin].
  { pose proof (sample_ev_rise now lvl e ltac:(lia)) as Hr.
    rewrite u64_diff in Hr by (done || unfold NSEC_PER_SEC in *; lia).
    specialize (Hr ltac:(lia)). rewrite E in Hr. done. }
  destruct (IH Hws' Hin e') as (t' & l' & Hin' & HL'); [lia|by rewrite Hla..|].
  exists t', l'. destruct (ev_run ws e') as [e'' al]. done.
Qed.

Lemma pmu_rise_reported_witness :
  ∃ t l, (t, l) ∈ (ev_run [(500, 2); (1000000500, 2)] sample_ev_state).2 ∧ 2 ≤ l.
Proof.
  apply (pmu_rise_reported _ sample_ev_state 2 1000000500 2); try (by compute).
  - repeat constructor; simpl; lia.
  - right. left.
Defined.

(** Three windows in a row below critical, [k] of them already counted. *)
Fixpoint calm_streak (k : Z) (ws : list (Z * Z)) : bool :=
  match ws with
  | [] => false
  | (_, lvl) :: ws => if lvl <? KG_LEVEL_CRITICAL then (KG_PMU_CALM_WINDOWS <=? k + 1) || calm_streak (k + 1) ws
                      else calm_streak 0 ws
  end.

(** Hysteresis: a counter that went critical leaves the critical level only after three
    consecutive windows below it; until then the CPU's core keeps its escalation. *)
Theorem pmu_critical_hysteresis ws e :
  level e = KG_LEVEL_CRITICAL → 0 ≤ calm e < KG_PMU_CALM_WINDOWS →
  Forall (λ x, x.2 ≤ KG_LEVEL_CRITICAL) ws → calm_streak (calm e) ws = false →
  level (ev_run ws e).1 = KG_LEVEL_CRITICAL.
Proof.
  revert e. induction ws as [|[now lvl] ws IH]; intros e Hl Hc Hws Hs; [done|].
  inversion_clear Hws as [|?? Hle Hws']. simpl in Hle, Hs. cbn [ev_run].
  assert (Hstep : level (sample_ev now lvl e).1 = KG_LEVEL_CRITICAL
     ∧ 0 ≤ calm (sample_ev now lvl e).1 < KG_PMU_CALM_WINDOWS
     ∧ calm_streak (calm (sample_ev now lvl e).1) ws = false).
  { unfold sample_ev, alert_due. rewrite Hl. unfold KG_PMU_CALM_WINDOWS in *.
    revert Hs. destruct (Z.ltb_spec lvl KG_LEVEL_CRITICAL); intros Hs.
    - rewrite (proj2 (Z.ltb_ge KG_LEVEL_CRITICAL lvl)) by lia. rewrite (proj2 (Z.eqb_neq lvl KG_LEVEL_CRITICAL)) by lia.
      rewrite andb_false_r. cbn [andb orb]. unfold u8. rewrite Z.mod_small by lia.
      apply orb_false_iff in Hs as [Hs1 Hs2]. rewrite Hs1. simpl.
      apply Z.leb_gt in Hs1. split_and!; try done; lia.
    - assert (lvl = KG_LEVEL_CRITICAL) as -> by lia. rewrite Z.ltb_irrefl. by destruct (_ || _). }
  destruct (sample_ev now lvl e) as [e' alert]. simpl in Hstep. destruct Hstep as (Hl' & Hc' & Hs').
  specialize (IH e' Hl' Hc' Hws' Hs'). by destruct (ev_run ws e').
Qed.

Lemma pmu_critical_hysteresis_witness :
  level (ev_run [(1, 0); (2, 1); (3, 2); (4, 0); (5, 0)] (PmuEv true 0 2 0 0)).1 = KG_LEVEL_CRITICAL.
Proof.
  apply pmu_critical_hysteresis; try (by compute). repeat constructor; simpl; by compute.
Defined.

(** ** Full-spectrum CPUs stay so until they are relaxed *)
Definition full_in (g : kg_guard) (c : Z) : Prop :=
  ∃ tab m, cpu g = Some tab ∧ tab !! Z.to_nat c = Some m ∧ strategy m = KG_STRAT_FULL.
Definition full_at (w : world) (c : Z) : Prop := full_in (wguard w) c.
Definition keeps_full (w w' : world) : Prop :=
  ncpu (hdr (wguard w')) = ncpu (hdr (wguard w)) ∧ ∀ c, full_at w c → full_at w' c.

#[export] Instance keeps_full_preorder : PreOrder keeps_full.
Proof. split; [by intros w|]. intros w1 w2 w3 [? ?] [? ?]. split; [congruence|auto]. Qed.

Lemma same_guard_full w w' : wguard w' = wguard w → keeps_full w w'.
Proof. intros Hg. unfold keeps_full, full_at. by rewrite Hg. Qed.
Lemma same_policy_full w w' : same_policy w w' → keeps_full w w'.
Proof. intros (Hg & _). by apply same_guard_full. Qed.

Section full.
Context `{CryptoLaws} `{Platform}.

Lemma guarded_full f w :
  ncpu (hdr (f (wguard w))) = ncpu (hdr (wguard w)) →
  (∀ c, full_in (wguard w) c → full_in (f (wguard w)) c) → keeps_full w (guarded f w).
Proof.
  intros Hn Hf. split; [simpl; by rewrite update_locked_hdr|].
  intros c Hc. apply Hf in Hc as (tab & m & Ht & Hm & Hs). exists tab, m.
  split; [|done]. simpl. by rewrite update_locked_cpu.
Qed.

Lemma escalate_keeps_full c w : keeps_full w (kg_mit_escalate_cpu c w).
Proof.
  unfold kg_mit_escalate_cpu. destruct (cpu_in_table c w); [|reflexivity].
  apply guarded_full; [done|]. intros c' (tab & m & Ht & Hm & Hs). unfold full_in. simpl. rewrite Ht.
  eexists. destruct (decide (Z.to_nat c = Z.to_nat c')) as [Heq|Hne].
  - exists (set_strategy KG_STRAT_FULL m). split; [done|]. by rewrite Heq, list_lookup_alter_eq, Hm.
  - exists m. split; [done|]. by rewrite list_lookup_alter_ne by done.
Qed.

Lemma escalate_full c w :
  policy_inv (wguard w) → 0 ≤ c < ncpu (hdr (wguard w)) → full_at (kg_mit_escalate_cpu c w) c.
Proof.
  intros [_ _ (tab & Ht & Hlen & _)] Hc. unfold kg_mit_escalate_cpu, cpu_in_table.
  rewrite (proj2 (Z.leb_le 0 c)), (proj2 (Z.ltb_lt c _)) by lia. cbn [andb].
  destruct (lookup_lt_is_Some_2 tab (Z.to_nat c)) as [m Hm]; [lia|].
  unfold full_at, full_in. simpl. rewrite update_locked_cpu. simpl. rewrite Ht.
  eexists _, _. split; [done|]. by rewrite list_lookup_alter_eq, Hm.
Qed.

Lemma set_posture_full p w : kg_posture w < p → keeps_full w (kg_mit_set_posture p w).
Proof.
  unfold kg_posture, kg_mit_set_posture. intros Hp. apply guarded_full.
  { simpl. by repeat case_match. }
  intros c (tab & m & Ht & Hm & Hs). unfold full_in. cbn [with_hdr cpu].
  destruct (KG_POSTURE_HIGH <=? p) eqn:E; bool_props.
  - simpl. rewrite Ht. simpl. eexists. unfold on_table.
    destruct (decide (Z.to_nat c < Z.to_nat (ncpu (hdr (wguard w))))%nat).
    + exists (set_strategy KG_STRAT_FULL m). split; [done|].
      rewrite lookup_app_l by (rewrite length_fmap, length_take; apply lookup_lt_Some in Hm; lia).
      by rewrite list_lookup_fmap, lookup_take_lt, Hm.
    + exists m. split; [done|]. pose proof (lookup_lt_Some _ _ _ Hm).
      rewrite lookup_app_r by (rewrite length_fmap, length_take; lia).
      rewrite length_fmap, length_take, lookup_drop.
      by replace (_ + _)%nat with (Z.to_nat c) by lia.
  - rewrite (proj2 (Z.leb_gt _ _)) by lia. eauto.
Qed.

Lemma flush_siblings_keeps_full c w : keeps_full w (kg_mit_flush_siblings c w).
Proof.
  unfold kg_mit_flush_siblings. destruct ((c <? 0) || (nr_cpu_ids <=? c)); [reflexivity|].
  generalize (topology_sibling_cpumask c) as l. intros l. revert w.
  induction l as [|sib l IH]; intros w; [reflexivity|]. simpl. etrans; [|apply IH].
  destruct (_ || _); [reflexivity|]. etrans; [apply escalate_keeps_full|].
  apply same_policy_full, flush_ipi_frame.
Qed.

Lemma input_kick_full w : keeps_full w (kg_input_kick w).
Proof. unfold kg_input_kick. case_goal; [by apply same_policy_full|reflexivity]. Qed.
Lemma hw_kick_full w : keeps_full w (kg_hw_kick w).
Proof. unfold kg_hw_kick. case_goal; [by apply same_policy_full|reflexivity]. Qed.
Lemma integrity_kick_full w : keeps_full w (kg_integrity_kick w).
Proof. unfold kg_integrity_kick. case_goal; [by apply same_policy_full|reflexivity]. Qed.

Lemma kick_keeps_full w t :
  keeps_full w (let u := kg_hw_kick (kg_input_kick w) in
                if KG_POSTURE_HIGH <=? t then kg_integrity_kick u else u).
Proof.
  trans (kg_hw_kick (kg_input_kick w)); [etrans; [apply input_kick_full|apply hw_kick_full]|].
  cbv zeta. case_goal; [apply integrity_kick_full|reflexivity].
Qed.

Lemma report_failsafe_full w w' :
  kg_report 1 KG_ALERT_FAIL_SAFE_ENTERED KG_LEVEL_CRITICAL 0 0 w = Some w' → keeps_full w w'.
Proof. intros [= <-]. apply same_policy_full, notify_frame. Qed.

Lemma after_up_full t w w' : kg_pos_after_up (kg_report 1) t w = Some w' → keeps_full w w'.
Proof.
  unfold kg_pos_after_up.
  destruct (t =? KG_POSTURE_FAILSAFE); [|destruct (t =? KG_POSTURE_HIGH)].
  - set (w1 := kg_mit_flush_all _). destruct (kg_report 1 _ _ _ _ w1) as [w2|] eqn:E; [|done].
    intros [= <-]. apply report_failsafe_full in E.
    trans w1; [|etrans; [exact E|apply kick_keeps_full]].
    etrans; [|apply same_policy_full, flush_all_frame]. by apply same_policy_full.
  - intros [= <-]. etrans; [apply same_policy_full, flush_all_frame|apply kick_keeps_full].
  - intros [= <-]. apply kick_keeps_full.
Qed.

Lemma raise_full t trig w w' : kg_posture_raise (kg_report 1) t trig w = Some w' → keeps_full w w'.
Proof.
  unfold kg_posture_raise. destruct (negb _); [by intros [= <-]|]. set (cap := Z.min t _).
  set (w1 := if trig =? _ then _ else w).
  assert (Hg1 : wguard w1 = wguard w) by (unfold w1; by destruct (trig =? _)).
  set (w2 := if KG_POSTURE_ELEVATED <=? cap then _ else w1).
  assert (Hg2 : wguard w2 = wguard w) by (unfold w2; rewrite <- Hg1; by destruct (_ <=? cap)).
  assert (Hk : ∀ v, keeps_full v (kg_pos_arm_decay_locked v)).
  { intros v. unfold kg_pos_arm_decay_locked. case_goal; [by apply same_policy_full|reflexivity]. }
  assert (Hw2 : keeps_full w w2) by by apply same_guard_full.
  destruct (kg_posture w1 <? cap) eqn:E; bool_props.
  - intros Hu%after_up_full. etrans; [exact Hw2|]. etrans; [|exact Hu].
    etrans; [|apply Hk]. etrans; [apply (set_posture_full cap)|].
    + unfold kg_posture in *. rewrite Hg2. by rewrite Hg1 in E.
    + unfold kg_pos_apply_locked. cbn [ktime_get_real_ns].
      apply same_guard_full. by destruct (cap =? _).
  - intros [= <-]. etrans; [exact Hw2|apply Hk].
Qed.
End full.

(** ** A critical alert escalates the whole core *)
Section core.
Context `{CryptoLaws} `{Platform}.

Lemma dispatch_full ty lv p1 p2 w w' :
  kg_dispatch (kg_report 1) ty lv p1 p2 w = Some w' → keeps_full w w'.
Proof.
  intros Hd. unfold kg_dispatch in Hd.
  repeat match type of Hd with context [if ?b then _ else _] => destruct b end;
    try (injection Hd as <-; reflexivity);
    apply raise_full in Hd; (etrans; [|exact Hd]); try reflexivity;
    try (apply same_policy_full, flush_cpu_frame); try apply input_kick_full.
  all: (etrans; [apply escalate_keeps_full|]); (etrans; [|apply flush_siblings_keeps_full]);
    apply same_policy_full, flush_cpu_frame.
Qed.

Lemma report_full ty lv p1 p2 w w' : report ty lv p1 p2 w = Some w' → keeps_full w w'.
Proof.
  intros Hr. change (kg_dispatch (kg_report 1) ty lv p1 p2 (kg_comms_notify ty lv p1 p2 w).2 = Some w') in Hr.
  apply dispatch_full in Hr. etrans; [|exact Hr]. apply same_policy_full, notify_frame.
Qed.

Definition pmu_alert (ty : Z) : Prop := ty = KG_ALERT_PMU_L1D_ANOMALY ∨ ty = KG_ALERT_PMU_L2_ANOMALY.

Lemma flush_siblings_full c sib w :
  guard_inv w → 0 ≤ c < nr_cpu_ids → sib ∈ topology_sibling_cpumask c → cpu_online sib = true →
  0 ≤ sib < ncpu (hdr (wguard w)) → sib ≠ c → full_at (kg_mit_flush_siblings c w) sib.
Proof.
  intros Hi Hc Hin Hon Hs Hne. unfold kg_mit_flush_siblings.
  rewrite (proj2 (Z.ltb_ge c 0)), (proj2 (Z.leb_gt nr_cpu_ids c)) by lia. cbn [orb].
  revert w Hi Hs Hin. generalize (topology_sibling_cpumask c) as l.
  induction l as [|x l IH]; intros w Hi Hs Hin; [by apply elem_of_nil in Hin|]. cbn [foldl].
  apply elem_of_cons in Hin as [<-|Hin].
  - rewrite (proj2 (Z.eqb_neq sib c)), Hon by done. cbn [negb orb].
    set (w1 := kg_flush_ipi sib (kg_mit_escalate_cpu sib w)).
    assert (Hk : keeps_full w1 (foldl (λ w sib, if (sib =? c) || negb (cpu_online sib) then w
                       else kg_flush_ipi sib (kg_mit_escalate_cpu sib w)) w1 l)).
    { clearbody w1. clear. revert w1. induction l as [|y l IH]; intros w1; [reflexivity|]. simpl.
      etrans; [|apply IH]. destruct (_ || _); [reflexivity|].
      etrans; [apply escalate_keeps_full|]. apply same_policy_full, flush_ipi_frame. }
    apply Hk. apply (same_policy_full (kg_mit_escalate_cpu sib w)); [apply flush_ipi_frame|].
    apply escalate_full; [apply Hi|done].
  - apply IH; [destruct (_ || _); [done|]|destruct (_ || _); [done|]|done].
    + eapply (q_inv (kg_mit_escalate_cpu x w)); [apply same_policy_quiet, flush_ipi_frame|].
      by eapply q_inv; [apply escalate_quiet|].
    + destruct (flush_ipi_frame x (kg_mit_escalate_cpu x w)) as (-> & _ & _).
      unfold kg_mit_escalate_cpu. destruct (cpu_in_table x w); [|done].
      simpl. by rewrite update_locked_hdr.
Qed.

Lemma pmu_p2_cpu c rate :
  0 ≤ c < 2147483648 → s32 (Z.shiftr (Z.lor (u64 (Z.shiftl c 32)) (u32 rate)) 32) = c.
Proof.
  intros Hc. pose proof (u32_range rate) as Hr. unfold is_u32 in Hr.
  assert (Hs : Z.shiftl c 32 = c * 4294967296) by (rewrite Z.shiftl_mul_pow2 by lia; done).
  rewrite u64_id, Z.shiftr_lor by (unfold is_u64; lia).
  rewrite !Z.shiftr_div_pow2, Hs by lia. change (2 ^ 32) with 4294967296.
  rewrite Z.div_mul, (Z.div_small (u32 rate)), Z.lor_0_r by lia. apply s32_id. lia.
Qed.

Lemma report_covers_core ty lv p1 rate c sib w w' :
  pmu_alert ty → KG_LEVEL_CRITICAL ≤ lv → guard_inv w →
  nr_cpu_ids = ncpu (hdr (wguard w)) → nr_cpu_ids ≤ 2147483648 → valid_online c = true →
  sib = c ∨ (sib ∈ topology_sibling_cpumask c ∧ valid_online sib = true) →
  report ty lv p1 (Z.lor (u64 (Z.shiftl c 32)) (u32 rate)) w = Some w' → full_at w' sib.
Proof.
  intros Hty Hlv Hi Hn Hn31 Hv Hsib. unfold valid_online in *. bool_props.
  set (p2 := Z.lor _ _). intros Hr.
  change (kg_dispatch (kg_report 1) ty lv p1 p2 (kg_comms_notify ty lv p1 p2 w).2 = Some w') in Hr.
  set (w1 := (kg_comms_notify ty lv p1 p2 w).2) in *.
  assert (Hw1 : guard_inv w1) by (by eapply q_inv; [apply notify_quiet|]).
  assert (Hg1 : wguard w1 = wguard w) by apply notify_frame.
  unfold kg_dispatch in Hr.
  assert (Ht : (ty =? KG_ALERT_PMU_L1D_ANOMALY) || (ty =? KG_ALERT_PMU_L2_ANOMALY) = true)
    by (destruct Hty as [-> | ->]; done).
  rewrite Ht, (proj2 (Z.leb_le _ _) Hlv) in Hr. unfold p2 in Hr. rewrite pmu_p2_cpu in Hr by lia.
  unfold valid_online in Hr.
  rewrite (proj2 (Z.leb_le 0 c)), (proj2 (Z.ltb_lt c _)) in Hr by lia.
  match type of Hr with context [cpu_online c] =>
    replace (cpu_online c) with true in Hr end. cbn [andb] in Hr.
  apply raise_full in Hr. apply Hr. clear Hr.
  set (w2 := kg_mit_flush_cpu c (kg_mit_escalate_cpu c w1)).
  assert (Hf : same_policy (kg_mit_escalate_cpu c w1) w2) by apply flush_cpu_frame.
  assert (Hw2 : guard_inv w2).
  { eapply q_inv; [apply same_policy_quiet, Hf|]. by eapply q_inv; [apply escalate_quiet|]. }
  destruct (decide (sib = c)) as [->|Hne].
  - apply flush_siblings_keeps_full, (same_policy_full _ _ Hf), escalate_full; [apply Hw1|].
    rewrite Hg1. lia.
  - destruct Hsib as [|[Hin Hvs]]; [done|]. unfold valid_online in Hvs. bool_props.
    apply flush_siblings_full; try done. destruct Hf as (-> & _ & _).
    unfold kg_mit_escalate_cpu. destruct (cpu_in_table c w1); simpl;
      rewrite ?update_locked_hdr, ?Hg1; simpl; rewrite ?Hg1; lia.
Qed.
End core.

(** ** The sampler *)

(** Documented behaviour of the topology masks: a CPU is in its own, and being
    siblings is mutual. *)
Class TopologyLaws `{Platform} := {
  sibling_self : ∀ c, c ∈ topology_sibling_cpumask c;
  sibling_sym : ∀ c d, d ∈ topology_sibling_cpumask c → c ∈ topology_sibling_cpumask d
}.

Lemma two_cpus_topology : @TopologyLaws two_cpus.
Proof.
  split; simpl.
  - intros c. destruct (_ && _) eqn:E; [|apply list_elem_of_here]. bool_props.
    assert (c = 0 ∨ c = 1) as [-> | ->] by lia; by set_solver.
  - intros c d. destruct (_ && _) eqn:E; [|by intros ->%list_elem_of_singleton; rewrite E; set_solver].
    bool_props. assert (c = 0 ∨ c = 1) as Hc by lia. intros Hd.
    assert (d = 0 ∨ d = 1) as [-> | ->] by set_solver; simpl; set_solver.
Qed.

Definition hot (s : kg_pmu) (c : Z) (k : kind) : bool :=
  ev (ev_of k (pmu_cpu s c)) && (KG_LEVEL_CRITICAL <=? level (ev_of k (pmu_cpu s c))).

(** How a pass over the counters moves the guarded state. *)
Record steady `{Crypto} (w w' : world) : Prop := Steady {
  sd_inv : guard_inv w → guard_inv w';
  sd_par : wpar w' = wpar w;
  sd_posture : kg_posture w ≤ kg_posture w';
  sd_full : keeps_full w w'
}.

#[export] Instance steady_preorder `{Crypto} : PreOrder steady.
Proof.
  split; [intros w; constructor; done || lia|].
  intros w1 w2 w3 [????] [????]. constructor; [auto|congruence|lia|by etrans].
Qed.

Section sampler_facts.
Context `{CryptoLaws} `{Platform}.

Lemma hot_set_ev_ne s c k k' e : k ≠ k' → hot (on_cpu c (set_ev k e) s) c k' = hot s c k'.
Proof. unfold hot. rewrite on_cpu_same. by destruct k, k'. Qed.

Lemma sample_ev_critical now lvl e :
  level e < KG_LEVEL_CRITICAL → lvl ≤ KG_LEVEL_CRITICAL →
  KG_LEVEL_CRITICAL ≤ level (sample_ev now lvl e).1 →
  (sample_ev now lvl e).2 = true ∧ lvl = KG_LEVEL_CRITICAL.
Proof.
  unfold sample_ev. intros He Hl. destruct (alert_due now lvl e).
  - simpl. intros. split; [done|lia].
  - destruct (lvl <? level e) eqn:E; [destruct (_ <=? _)|]; simpl; bool_props; lia.
Qed.

Lemma pmu_level_le rate warn crit : pmu_level rate warn crit ≤ KG_LEVEL_CRITICAL.
Proof. unfold pmu_level, KG_LEVEL_CRITICAL, KG_LEVEL_WATCH. repeat case_match; lia. Qed.

Lemma report_steady ty lv p1 p2 w :
  guard_inv w → 0 ≤ kg_max_posture (wpar w) →
  ∃ w', report ty lv p1 p2 w = Some w' ∧ steady w w'.
Proof.
  intros Hi Hm. destruct (report_spec 0 ty lv p1 p2 w Hi Hm) as (w' & Hr & [Ra Rb Rc Rd Re]).
  exists w'. split; [exact Hr|]. constructor; [done|done| |by eapply report_full].
  rewrite Rd. destruct (pos_ready (wpos w)); lia.
Qed.

(** A CPU and its online siblings are all at full-spectrum. *)
Definition core_full (w : world) (c : Z) : Prop :=
  ∀ sib, sib = c ∨ (sib ∈ topology_sibling_cpumask c ∧ valid_online sib = true) → full_at w sib.

Lemma core_full_keeps w w' c : keeps_full w w' → core_full w c → core_full w' c.
Proof. intros [_ Hk] Hc sib Hs. by apply Hk, Hc. Qed.

Definition in_range (w : world) : Prop :=
  nr_cpu_ids = ncpu (hdr (wguard w)) ∧ nr_cpu_ids ≤ 2147483648.
Lemma in_range_steady w w' : steady w w' → in_range w → in_range w'.
Proof. intros [_ _ _ [Hn _]]. unfold in_range. by rewrite Hn. Qed.

Lemma sample_kind_spec now denom warn crit c k s w :
  guard_inv w → 0 ≤ kg_max_posture (wpar w) →
  ∃ s' w', sample_kind now denom warn crit c k s w = Some (s', w') ∧ steady w w'
  ∧ (∀ c', c ≠ c' → pmu_cpu s' c' = pmu_cpu s c')
  ∧ (∀ k', k ≠ k' → hot s' c k' = hot s c k')
  ∧ (in_range w → valid_online c = true → hot s c k = false → hot s' c k = true → core_full w' c).
Proof.
  intros Hi Hm. unfold sample_kind. set (e := ev_of k (pmu_cpu s c)).
  destruct (ev e) eqn:Hev; cbn [negb].
  2:{ exists s, w. split_and!; [done|reflexivity|done..|congruence]. }
  set (rate := u64 _ / denom). set (lvl := pmu_level rate warn crit).
  pose proof (sample_ev_critical now lvl (set_ovf 0 e)) as Hcrit.
  assert (Hev' : ev (sample_ev now lvl (set_ovf 0 e)).1 = true)
    by (unfold sample_ev; repeat case_match; done).
  destruct (sample_ev now lvl (set_ovf 0 e)) as [e' alert]. cbn [fst snd] in *.
  set (ty := match k with KG_EV_L1D => _ | KG_EV_LLC => _ end).
  set (p1 := if 0 <? _ then _ else 0). set (p2 := Z.lor _ _).
  destruct (report_steady ty lvl p1 p2 w Hi Hm) as (w' & Hr & Hst).
  assert (Hrise : in_range w → valid_online c = true → hot s c k = false →
                  KG_LEVEL_CRITICAL ≤ level e' → alert = true ∧ core_full w' c).
  { intros [Hn Hn31] Hv Hh He'. unfold hot in Hh. fold e in Hh. rewrite Hev in Hh. bool_props.
    destruct Hcrit as [-> Hl]; [simpl; lia|apply pmu_level_le|done|]. split; [done|].
    intros sib Hsib.
    eapply (report_covers_core ty lvl p1 rate c sib w w'); try done; [|lia].
    destruct k; [by left|by right]. }
  destruct alert.
  - rewrite Hr. bind_simpl. eexists _, w'. split; [done|]. split_and!; [done|..].
    + intros c' Hne. by apply on_cpu_other.
    + intros k' Hk. unfold hot. rewrite on_cpu_same. by destruct k, k'.
    + intros Hn Hv Hh Hh'. apply Hrise; try done. unfold hot in Hh'. rewrite on_cpu_same in Hh'.
      destruct k; simpl in Hh'; bool_props; done.
  - eexists _, w. split; [done|]. split_and!; [reflexivity|..].
    + intros c' Hne. by apply on_cpu_other.
    + intros k' Hk. by apply hot_set_ev_ne.
    + intros Hn Hv Hh Hh'. destruct Hrise as [? _]; try done.
      unfold hot in Hh'. rewrite on_cpu_same in Hh'. destruct k; simpl in Hh'; bool_props; done.
Qed.

Lemma any_crit_hot s c : any_crit (pmu_cpu s c) = hot s c KG_EV_L1D || hot s c KG_EV_LLC.
Proof. unfold any_crit, hot. simpl. by rewrite orb_false_r. Qed.

Lemma sample_cpu_spec now denom warn crit0 c s w m :
  guard_inv w → 0 ≤ kg_max_posture (wpar w) →
  ∃ s' w' m', sample_cpu now denom warn crit0 c (s, w, m) = Some (s', w', m') ∧ steady w w'
  ∧ (∀ c', c ≠ c' → pmu_cpu s' c' = pmu_cpu s c')
  ∧ (in_range w → valid_online c = true → any_crit (pmu_cpu s c) = false →
     crit (pmu_cpu s' c) = true → core_full w' c).
Proof.
  intros Hi Hm. unfold sample_cpu.
  destruct (sample_kind_spec now denom warn crit0 c KG_EV_L1D s w Hi Hm)
    as (s1 & w1 & -> & St1 & Ho1 & Hk1 & Hf1). bind_simpl.
  destruct (sample_kind_spec now denom warn crit0 c KG_EV_LLC s1 w1)
    as (s2 & w2 & -> & St2 & Ho2 & Hk2 & Hf2);
    [by apply (sd_inv _ _ St1)|by rewrite (sd_par _ _ St1)|]. bind_simpl.
  eexists _, _, _. split; [done|]. split_and!; [by etrans|..].
  - intros c' Hne. rewrite on_cpu_other, Ho2, Ho1 by done. done.
  - intros Hr Hv Hc. rewrite on_cpu_same. cbn [crit set_crit]. rewrite any_crit_hot in *.
    apply orb_false_iff in Hc as [HcL HcC]. intros [Hh|Hh]%orb_true_iff.
    + rewrite (Hk2 KG_EV_L1D) in Hh by done.
      eapply core_full_keeps; [apply St2|]. by apply Hf1.
    + apply Hf2; try done; [by eapply in_range_steady|]. by rewrite (Hk1 KG_EV_LLC).
Qed.

Lemma sample_cpus_spec now denom warn crit0 cs s w m :
  guard_inv w → 0 ≤ kg_max_posture (wpar w) → NoDup cs →
  ∃ s' w' m', sample_cpus now denom warn crit0 cs (s, w, m) = Some (s', w', m') ∧ steady w w'
  ∧ (∀ c', c' ∉ cs → pmu_cpu s' c' = pmu_cpu s c')
  ∧ (in_range w → ∀ c, c ∈ cs → valid_online c = true → any_crit (pmu_cpu s c) = false →
     crit (pmu_cpu s' c) = true → core_full w' c).
Proof.
  revert s w m. induction cs as [|c cs IH]; intros s w m Hi Hm Hnd.
  { exists s, w, m. split_and!; [done|reflexivity|done|]. by intros _ c ?%elem_of_nil. }
  apply NoDup_cons in Hnd as [Hnin Hnd]. cbn [sample_cpus].
  destruct (sample_cpu_spec now denom warn crit0 c s w m Hi Hm)
    as (s1 & w1 & m1 & -> & St1 & Ho1 & Hf1). bind_simpl.
  destruct (IH s1 w1 m1) as (s2 & w2 & m2 & -> & St2 & Ho2 & Hf2);
    [by apply (sd_inv _ _ St1)|by rewrite (sd_par _ _ St1)|done|].
  exists s2, w2, m2. split_and!; [done|by etrans|..].
  - intros c' Hc'. apply not_elem_of_cons in Hc' as [? ?]. rewrite Ho2, Ho1 by done. done.
  - intros Hr c' Hc' Hv Hcr Hcr'. apply elem_of_cons in Hc' as [->|Hin].
    + rewrite Ho2 in Hcr' by done. eapply core_full_keeps; [apply St2|]. by apply Hf1.
    + apply Hf2; try done; [by eapply in_range_steady|]. rewrite Ho1; [done|]. by intros ->.
Qed.

Lemma relax_calm_other s w c d :
  0 ≤ c → 0 ≤ d → full_at w d → core_hot s d = true → full_at (relax_calm s w c) d.
Proof.
  intros Hc Hd Hf Hhot. unfold relax_calm. destruct (core_hot s c) eqn:E; [done|]. cbn [negb andb].
  destruct (_ && _); [|done]. unfold kg_mit_relax_cpu. destruct (cpu_in_table c w); [|done].
  destruct Hf as (tab & m & Ht & Hl & Hs). unfold full_at, full_in. simpl. rewrite update_locked_cpu.
  destruct (posture _ <? KG_POSTURE_HIGH); [|by eauto]. simpl. rewrite Ht. eexists _, m.
  split; [done|]. rewrite list_lookup_alter_ne; [done|]. intros Heq.
  assert (c = d) as -> by lia. congruence.
Qed.

Lemma relax_all_spec s cs w :
  Forall (λ c, 0 ≤ c) cs →
  quiet w (foldl (relax_calm s) w cs)
  ∧ ∀ d, 0 ≤ d → full_at w d → core_hot s d = true → full_at (foldl (relax_calm s) w cs) d.
Proof.
  revert w. induction cs as [|c cs IH]; intros w Hcs; [done|]. inversion_clear Hcs.
  destruct (IH (relax_calm s w c)) as [Hq Hf]; [done|]. split.
  - etrans; [|exact Hq]. unfold relax_calm. case_goal; [apply relax_quiet|reflexivity].
  - intros d Hd Hfd Hh. apply Hf; try done. by apply relax_calm_other.
Qed.

Lemma online_cpus_spec : NoDup online_cpus ∧ Forall (λ c, valid_online c = true) online_cpus.
Proof.
  unfold online_cpus. split.
  - apply NoDup_filter, NoDup_fmap_2; [by intros ?? ?%Nat2Z.inj|apply NoDup_seq].
  - apply Forall_forall. intros c Hc. rewrite list_elem_of_filter, list_elem_of_fmap in Hc.
    destruct Hc as (Hon & i & -> & Hi). apply elem_of_seq in Hi. unfold valid_online.
    rewrite Hon, (proj2 (Z.leb_le 0 _)), (proj2 (Z.ltb_lt _ _)) by lia. done.
Qed.
End sampler_facts.

(** One pass of the sampler always completes, keeps the guarded state sealed and never
    lowers the posture; a core with a critical thread keeps its escalation, and when a CPU
    becomes critical in this pass it and all its online siblings end it at full-spectrum. *)
Theorem sampler_escalates_core `{CryptoLaws} `{Platform} `{!TopologyLaws} s w :
  guard_inv w → 0 ≤ kg_max_posture (wpar w) → in_range w →
  ∃ s' w', kg_pmu_sample s w = Some (s', w') ∧ guard_inv w' ∧ kg_posture w ≤ kg_posture w'
  ∧ (∀ c, 0 ≤ c → full_at w c → core_hot s' c = true → full_at w' c)
  ∧ (∀ c, c ∈ online_cpus → any_crit (pmu_cpu s c) = false → crit (pmu_cpu s' c) = true →
     ∀ sib, sib ∈ topology_sibling_cpumask c → valid_online sib = true → full_at w' sib).
Proof.
  intros Hi Hm Hr. unfold kg_pmu_sample. cbn [ktime_get_ns].
  destruct (kg_pmu_thresholds (pmu_par s)) as [warn crit0].
  set (now := ktime_get_ns_at _). set (denom := Z.max _ _).
  destruct online_cpus_spec as [Hnd Hon].
  destruct (sample_cpus_spec now denom warn crit0 online_cpus (set_last_ns now s) (tick_mono w) 0 Hi Hm Hnd)
    as (s' & w1 & m1 & -> & St & _ & Hf). bind_simpl.
  set (w2 := kg_stat_set _ _ w1).
  assert (Hpos : Forall (λ c, 0 ≤ c) online_cpus).
  { eapply Forall_impl; [exact Hon|]. intros c Hc. unfold valid_online in Hc. bool_props. lia. }
  destruct (relax_all_spec s' online_cpus w2 Hpos) as [Hq Hk].
  set (w3 := foldl _ w2 _) in *. eexists _, _. split; [done|].
  assert (Hend : keeps_full w3 (if negb (kg_pmu_stop s') then
            queue_delayed_work PmuWork (msecs (window_ms s')) w3 else w3)
          ∧ quiet w3 (if negb (kg_pmu_stop s') then
            queue_delayed_work PmuWork (msecs (window_ms s')) w3 else w3)).
  { destruct (negb _); [|split; reflexivity].
    pose proof (queue_work_frame PmuWork (msecs (window_ms s')) w3).
    split; [by apply same_policy_full|by apply same_policy_quiet]. }
  destruct Hend as [[_ Hend] [_ _ Hp Hinv]]. split_and!.
  - apply Hinv, Hq, (sd_inv _ _ St Hi).
  - rewrite Hp, (q_posture _ _ Hq). apply (sd_posture _ _ St).
  - intros c Hc Hfc Hh. apply Hend, Hk; try done. by apply (sd_full _ _ St).
  - intros c Hc Hcr Hcr' sib Hsib Hv. apply Hend, Hk.
    + unfold valid_online in Hv. bool_props. lia.
    + apply (Hf Hr c Hc); [by eapply Forall_forall in Hon|done|done|by right].
    + apply existsb_exists. exists c. split; [|done]. apply list_elem_of_In. by apply sibling_sym.
Qed.

Lemma sampler_escalates_core_witness :
  ∃ s' w', @kg_pmu_sample sha_api two_cpus busy_pmu ready_world = Some (s', w')
  ∧ @guard_inv sha_api w' ∧ full_at w' 0 ∧ full_at w' 1.
Proof.
  destruct (@sampler_escalates_core sha_api sha_api_laws two_cpus two_cpus_topology busy_pmu ready_world
              ready_world_inv ltac:(by compute) ltac:(by vm_compute)) as (s' & w' & Hs & Hi & _ & _ & Hf).
  assert (Hc : (λ r, crit (pmu_cpu r.1 0)) <$> @kg_pmu_sample sha_api two_cpus busy_pmu ready_world
               = Some true) by (vm_compute; reflexivity).
  rewrite Hs in Hc. injection Hc as Hc.
  assert (Hon : 0 ∈ @online_cpus two_cpus) by (refine (bool_decide_unpack _ _); vm_compute; exact I).
  exists s', w'. split_and!; [exact Hs|exact Hi| |].
  - apply (Hf 0 Hon eq_refl Hc 0); [apply list_elem_of_here|reflexivity].
  - apply (Hf 0 Hon eq_refl Hc 1); [apply list_elem_of_further, list_elem_of_here|reflexivity].
Defined.
