(* ===== verification/Run.v ===== *)
(** * Runs of the module: the guarded state under every interleaving

    The handlers of the previous files are critical sections; a run of the
    loaded module is any sequence of them.  Each step sees a machine of its own
    (CPUs come and go, clocks move) and the operator may rewrite the run-time
    parameters between any two steps. *)
From S2P Require Import Prelude Uapi Kernel Machine Guard Comms Posture.
Local Open Scope Z_scope.

Inductive event :=
  | Report (type level p1 p2 : Z)          (* any monitor calls kg_report *)
  | Operator (target : Z)                  (* KG_IOC_SET_POSTURE *)
  | Decay                                  (* kg_pos_decay_work runs *)
  | CpuOnline (c : Z) (caps : cpu_caps)    (* the hotplug callback *)
  | Relax (c : Z)                          (* the PMU sampler finds a calm CPU *)
  | Uevents                                (* kg_uevent_work runs *)
  | WriteParams (p : params).              (* /sys/module/kernelguard/parameters *)

Definition set_par (p : params) (w : world) : world :=
  World (wguard w) (wstats w) (wpos w) p (wcomms w) (wmon w) (wwork w) (wops w)
        (nmono w) (nreal w).

Inductive kstep `{Crypto} : world → event → world → Prop :=
  | step_report (P : Platform) ty lv p1 p2 w w' :
      report ty lv p1 p2 w = Some w' → kstep w (Report ty lv p1 p2) w'
  | step_operator (P : Platform) target r w w' :
      0 ≤ target → kg_posture_set target w = Some (r, w') → kstep w (Operator target) w'
  | step_decay (P : Platform) w w' :
      kg_pos_decay_fn w = Some w' → kstep w Decay w'
  | step_online c caps w : kstep w (CpuOnline c caps) (kg_mit_cpu_online c caps w)
  | step_relax c w : kstep w (Relax c) (kg_mit_relax_cpu c w)
  | step_uevents (P : Platform) l w w' :
      kg_uevent_workfn w = Some (l, w') → kstep w Uevents w'
  | step_params p w : 0 ≤ kg_max_posture p → kstep w (WriteParams p) (set_par p w).

Inductive run `{Crypto} : world → list event → world → Prop :=
  | run_nil w : run w [] w
  | run_cons w1 e w2 es w3 : kstep w1 e w2 → run w2 es w3 → run w1 (e :: es) w3.

(** What every state of a run satisfies. *)
Definition run_inv `{Crypto} (w : world) : Prop :=
  guard_inv w ∧ 0 ≤ kg_max_posture (wpar w).

(** How one step moves the ladder. *)
Definition step_posture (e : event) (w w' : world) : Prop :=
  match e with
  | Report ty lv _ _ =>
      kg_posture w' = if pos_ready (wpos w)
                      then Z.max (kg_posture w) (Z.min (alert_target ty lv) (posture_cap w))
                      else kg_posture w
  | Operator t => kg_posture w' = kg_posture w
      ∨ (kg_posture w' = t
         ∧ ¬ (t < kg_posture w ∧ KG_POSTURE_HIGH ≤ kg_posture w ∧ pos_untrusted (wpos w) = true))
  | Decay => kg_posture w' = kg_posture w
      ∨ (kg_posture w = KG_POSTURE_ELEVATED ∧ kg_posture w' = KG_POSTURE_NORMAL)
  | _ => kg_posture w' = kg_posture w
  end.

Section steps.
Context `{CryptoLaws}.

Lemma bump_fallback_quiet `{Platform} l w : quiet w (bump_fallback w l).
Proof. apply foldl_quiet. intros. by apply same_policy_quiet. Qed.

Lemma uevent_loop_quiet `{Platform} fuel c w c' l w' :
  uevent_loop fuel c w = Some (c', l, w') → quiet w w'.
Proof.
  revert c w c' l w'. induction fuel as [|fuel IH]; intros c w c' l w'; [done|].
  cbn [uevent_loop].
  destruct (negb (dev c) || _); [by intros [= -> <- ->]|].
  destruct (negb _ || _); [apply IH|]. destruct (kobject_uevent_ok _); [|apply IH].
  intros (((c1 & l1) & w1) & Hl & [= -> <- ->])%bind_Some.
  apply IH in Hl. etrans; [|exact Hl]. by apply same_policy_quiet.
Qed.

Lemma uevents_quiet `{Platform} w l w' : kg_uevent_workfn w = Some (l, w') → quiet w w'.
Proof.
  unfold kg_uevent_workfn. destruct (wcomms w) as [c|]; [|by intros [= _ ->]].
  intros (((c1 & l1) & w1) & Hl & [= -> <-])%bind_Some.
  apply uevent_loop_quiet in Hl. etrans; [exact Hl|]. by apply same_policy_quiet.
Qed.

(** What a step that reports or obeys the operator preserves besides. *)
Definition step_ok (e : event) (w w' : world) : Prop :=
  run_inv w' ∧ step_posture e w w'
  ∧ (pos_untrusted (wpos w) = true → pos_untrusted (wpos w') = true).

Lemma quiet_step_ok e w w' :
  quiet w w' → (kg_posture w' = kg_posture w → step_posture e w w') →
  run_inv w → step_ok e w w'.
Proof.
  intros [Qa Qb Qc Qd] He [Hi Hm]. split_and!; [split|auto|by rewrite Qb].
  - by apply Qd.
  - by rewrite Qa.
Qed.

Lemma report_step_ok `{Platform} ty lv p1 p2 w w' :
  report ty lv p1 p2 w = Some w' → run_inv w → step_ok (Report ty lv p1 p2) w w'.
Proof.
  intros Hr [Hi Hm]. destruct (report_spec 0 ty lv p1 p2 w Hi Hm) as (w1 & Hr1 & [Ra Rb Rc Rd Re]).
  assert (w1 = w') as -> by (unfold report in Hr; congruence).
  split_and!; [split; [done|by rewrite Rb]|exact Rd|].
  intros Hu. by rewrite Re, Hu.
Qed.

Lemma operator_step_ok `{Platform} t r w w' :
  0 ≤ t → kg_posture_set t w = Some (r, w') → run_inv w → step_ok (Operator t) w w'.
Proof.
  intros Ht Hs [Hi Hm].
  assert (Hsame : w' = w → step_ok (Operator t) w w').
  { intros ->. split_and!; [done|by left|done]. }
  destruct (KG_POSTURE_COUNT <=? t) eqn:E1, (pos_ready (wpos w)) eqn:E2,
    (t =? kg_posture w) eqn:E3,
    ((t <? kg_posture w) && (KG_POSTURE_HIGH <=? kg_posture w) && pos_untrusted (wpos w)) eqn:E4;
    try (apply Hsame; unfold kg_posture_set in Hs; rewrite ?E1, ?E2, ?E3, ?E4 in Hs;
         by simplify_eq/=).
  clear Hsame.
  assert (Hno : ¬ (t < kg_posture w ∧ KG_POSTURE_HIGH ≤ kg_posture w
                   ∧ pos_untrusted (wpos w) = true)).
  { intros (Hlt & Hhi & Hu).
    by rewrite Hu, (proj2 (Z.ltb_lt _ _)), (proj2 (Z.leb_le _ _)) in E4. }
  apply Z.leb_gt in E1. apply Z.eqb_neq in E3.
  destruct (kg_posture_set_moves t w) as (w1 & Hw1 & Hi1 & Hp1 & Hpar1 & _ & Hu1); try done.
  { intros ? ?. apply not_true_is_false. intros ?. by apply Hno. }
  rewrite Hw1 in Hs. simplify_eq.
  split_and!; [split; [done|by rewrite Hpar1]|by right|by rewrite Hu1].
Qed.

Lemma decay_step_ok `{Platform} w w' :
  kg_pos_decay_fn w = Some w' → run_inv w → step_ok Decay w w'.
Proof.
  unfold kg_pos_decay_fn. intros Hs [Hi Hm].
  destruct (_ && _ && _) eqn:E; cbn [ktime_get_ns] in Hs.
  2:{ simplify_eq. split_and!; [done|by left|done]. }
  destruct (_ <=? _).
  - destruct (apply_locked_spec KG_POSTURE_NORMAL (tick_mono w))
      as (Hi1 & Hp1 & Hpar & _ & Hu & _); [by compute|done|].
    destruct (announce_quiet KG_POSTURE_ELEVATED KG_POSTURE_NORMAL KG_POSTURE_WHY_DECAY
                (pos_trigger (wpos (tick_mono w)))
                (kg_pos_apply_locked KG_POSTURE_NORMAL (tick_mono w)))
      as (w1 & Hw & [Qa Qb Qc Qd]).
    rewrite Hw in Hs. simplify_eq. bool_props. split_and!.
    + split; [by apply Qd|by rewrite Qa, Hpar].
    + right. by rewrite Qc.
    + rewrite Qb, Hu. done.
  - simplify_eq. split_and!; [done|by left|done].
Qed.

Lemma kstep_ok w e w' : kstep w e w' → run_inv w → step_ok e w w'.
Proof.
  intros Hs Hi. destruct Hs as [P ty lv p1 p2 w w' Hr|P t r w w' Ht Hr|P w w' Hr|c caps w
                               |c w|P l w w' Hr|p w Hp].
  - by eapply report_step_ok.
  - by eapply operator_step_ok.
  - by apply decay_step_ok.
  - by apply quiet_step_ok; [apply cpu_online_quiet|..].
  - by apply quiet_step_ok; [apply relax_quiet|..].
  - by apply quiet_step_ok; [eapply uevents_quiet|..].
  - destruct Hi as [Hi Hm]. done.
Qed.

Lemma run_ok w es w' : run w es w' → run_inv w → run_inv w'.
Proof.
  induction 1 as [|w1 e w2 es w3 Hs Hr IH]; [done|].
  intros Hi. by apply IH, (kstep_ok _ _ _ Hs Hi).
Qed.
End steps.

(** ** Start-up: the posture ladder on top of the mitigation table *)
Definition module_start `{Crypto} `{Platform} (ran : list Z) (caps : Z → cpu_caps) (w : world)
  : world :=
  kg_posture_init (kg_mit_init true 0 ran caps w).2.

Lemma module_start_inv `{CryptoLaws} `{Platform} ran caps w :
  0 ≤ nr_cpu_ids → 0 ≤ kg_max_posture (wpar w) → run_inv (module_start ran caps w).
Proof.
  intros Hn Hm. unfold module_start.
  pose proof (mit_init_ok 0 ran caps w Hn ltac:(lia)) as Hok.
  destruct (kg_mit_init true 0 ran caps w) as [r w']. destruct Hok as (_ & Hi & _ & Hp).
  split; [done|]. simpl. by rewrite Hp.
Qed.

(** In every state the loaded module can reach, by any interleaving of alerts,
    operator requests, decay, hotplug, relaxing and parameter writes, the guarded
    state verifies against its digest, the posture is one of the four, the fail-safe
    flag says exactly whether it is FAILSAFE, and at HIGH and above every CPU's
    strategy is the full one. *)
Theorem reachable_states_sealed `{CryptoLaws} `{Platform} ran caps w0 es w :
  0 ≤ nr_cpu_ids → 0 ≤ kg_max_posture (wpar w0) →
  run (module_start ran caps w0) es w →
  kg_guard_verify w = true
  ∧ 0 ≤ kg_posture w < KG_POSTURE_COUNT
  ∧ kg_in_failsafe w = (kg_posture w =? KG_POSTURE_FAILSAFE)
  ∧ (KG_POSTURE_HIGH ≤ kg_posture w →
     ∀ c, 0 ≤ c < ncpu (hdr (wguard w)) → strategy (cpu_mit_at w c) = KG_STRAT_FULL).
Proof.
  intros Hn Hm Hrun. apply run_ok in Hrun as [[[Hpo Hfs (tab & Ht & Hlen & Hok & Hfl)] Hs] _];
    [|by apply module_start_inv].
  split_and!; [by apply sealed_verify|apply Hpo..| |].
  - unfold kg_in_failsafe, kg_posture. rewrite Hfs. by destruct (_ =? _).
  - intros Hh c Hc. unfold cpu_mit_at. rewrite Ht. simpl.
    destruct (lookup_lt_is_Some_2 tab (Z.to_nat c)) as [m Hm']; [lia|].
    rewrite list_lookup_total_alt, Hm'. simpl.
    specialize (Hfl Hh). rewrite Forall_lookup in Hfl. eauto.
Qed.

Lemma reachable_states_sealed_witness :
  ∃ w, @run sha_api (@module_start sha_api two_cpus [] (λ _, sample_caps) boot_world)
         [Report KG_ALERT_TEXT_PATCH KG_LEVEL_CRITICAL 0 0; Relax 1] w
  ∧ @kg_guard_verify sha_api w = true ∧ strategy (cpu_mit_at w 1) = KG_STRAT_FULL.
Proof.
  set (w0 := @module_start sha_api two_cpus [] (λ _, sample_caps) boot_world).
  destruct (@report sha_api two_cpus KG_ALERT_TEXT_PATCH KG_LEVEL_CRITICAL 0 0 w0) as [w1|] eqn:Hr.
  2:{ exfalso. apply (f_equal (fmap kg_posture)) in Hr. vm_compute in Hr. discriminate Hr. }
  assert (Hrun : @run sha_api w0 [Report KG_ALERT_TEXT_PATCH KG_LEVEL_CRITICAL 0 0; Relax 1]
                   (@kg_mit_relax_cpu sha_api 1 w1)).
  { eapply run_cons; [by eapply (step_report two_cpus)|].
    eapply run_cons; [apply step_relax|apply run_nil]. }
  pose proof (@reachable_states_sealed sha_api sha_api_laws two_cpus [] (λ _, sample_caps) boot_world
                _ _ ltac:(by compute) ltac:(by compute) Hrun) as (Hv & _ & _ & Hfull).
  exists (@kg_mit_relax_cpu sha_api 1 w1). split_and!; [exact Hrun|exact Hv|].
  assert (Hw : (λ w, (kg_posture (@kg_mit_relax_cpu sha_api 1 w),
                      ncpu (hdr (wguard (@kg_mit_relax_cpu sha_api 1 w)))))
               <$> @report sha_api two_cpus KG_ALERT_TEXT_PATCH KG_LEVEL_CRITICAL 0 0 w0
               = Some (KG_POSTURE_FAILSAFE, 2)) by (vm_compute; reflexivity).
  rewrite Hr in Hw. injection Hw as Hpost Hn. apply Hfull; [by rewrite Hpost|by rewrite Hn].
Defined.

(** Once the policy state has been found corrupted and the module stands at HIGH
    or above, no sequence of steps lowers the posture: not the operator, not decay,
    not a parameter write. *)
Theorem untrusted_never_lowered `{CryptoLaws} w es w' :
  run w es w' → run_inv w → pos_untrusted (wpos w) = true →
  KG_POSTURE_HIGH ≤ kg_posture w → kg_posture w ≤ kg_posture w'.
Proof.
  induction 1 as [|w1 e w2 es w3 Hs Hr IH]; [lia|]. intros Hi Hu Hh.
  destruct (kstep_ok _ _ _ Hs Hi) as (Hi2 & Hp & Hu2).
  assert (Hle : kg_posture w1 ≤ kg_posture w2).
  { unfold KG_POSTURE_HIGH in *. destruct e; simpl in Hp; try lia.
    - rewrite Hp. destruct (pos_ready _); lia.
    - destruct Hp as [->|[-> Hn]]; [lia|]. destruct (decide (target < kg_posture w1)); [|lia].
      exfalso. apply Hn. split_and!; [done|unfold KG_POSTURE_HIGH; lia|done].
    - destruct Hp as [->|[Hp _]]; [lia|]. rewrite Hp in Hh. by compute in Hh. }
  specialize (IH Hi2 (Hu2 Hu)). lia.
Qed.

Lemma untrusted_never_lowered_witness :
  let w := set_pos (set_untrusted (wpos (world_at KG_POSTURE_HIGH))) (world_at KG_POSTURE_HIGH) in
  @run sha_api w [Relax 0; Relax 1] (@kg_mit_relax_cpu sha_api 1 (@kg_mit_relax_cpu sha_api 0 w))
  ∧ KG_POSTURE_HIGH ≤ kg_posture (@kg_mit_relax_cpu sha_api 1 (@kg_mit_relax_cpu sha_api 0 w)).
Proof.
  intros w. assert (Hrun : @run sha_api w [Relax 0; Relax 1]
    (@kg_mit_relax_cpu sha_api 1 (@kg_mit_relax_cpu sha_api 0 w))).
  { eapply run_cons; [apply step_relax|]. eapply run_cons; [apply step_relax|apply run_nil]. }
  split; [exact Hrun|].
  apply (@untrusted_never_lowered sha_api sha_api_laws _ _ _ Hrun);
    [split; [by apply world_at_inv|by vm_compute]|reflexivity|by vm_compute].
Defined.

(** The posture goes down only by the operator's hand or, from ELEVATED to NORMAL,
    by decay; alerts and hotplug never relax the machine. *)
Theorem only_operator_or_decay_lowers `{CryptoLaws} w e w' :
  kstep w e w' → run_inv w → kg_posture w' < kg_posture w →
  (∃ t, e = Operator t ∧ kg_posture w' = t)
  ∨ (e = Decay ∧ kg_posture w = KG_POSTURE_ELEVATED ∧ kg_posture w' = KG_POSTURE_NORMAL).
Proof.
  intros Hs Hi Hlt. destruct (kstep_ok _ _ _ Hs Hi) as (_ & Hp & _).
  destruct e; simpl in Hp; try lia.
  - destruct (pos_ready _); lia.
  - left. exists target. destruct Hp as [Hp|[Hp _]]; [lia|done].
  - right. destruct Hp as [Hp|Hp]; [lia|done].
Qed.

Lemma only_operator_or_decay_lowers_witness :
  ∃ w', @kstep sha_api (world_at KG_POSTURE_HIGH) (Operator KG_POSTURE_NORMAL) w'
  ∧ ((∃ t, Operator KG_POSTURE_NORMAL = Operator t ∧ kg_posture w' = t)
     ∨ (Operator KG_POSTURE_NORMAL = Decay ∧ kg_posture (world_at KG_POSTURE_HIGH) = KG_POSTURE_ELEVATED
        ∧ kg_posture w' = KG_POSTURE_NORMAL)).
Proof.
  destruct (@kg_posture_set sha_api two_cpus KG_POSTURE_NORMAL (world_at KG_POSTURE_HIGH)) as [[r w']|] eqn:Hs.
  2:{ exfalso. apply (f_equal (fmap (λ r, kg_posture r.2))) in Hs. vm_compute in Hs. discriminate Hs. }
  assert (Hk : @kstep sha_api (world_at KG_POSTURE_HIGH) (Operator KG_POSTURE_NORMAL) w')
    by (by eapply (step_operator two_cpus)).
  exists w'. split; [exact Hk|].
  apply (@only_operator_or_decay_lowers sha_api sha_api_laws _ _ _ Hk);
    [split; [by apply world_at_inv|by vm_compute]|].
  assert (Hp : (λ r, kg_posture r.2)
               <$> @kg_posture_set sha_api two_cpus KG_POSTURE_NORMAL (world_at KG_POSTURE_HIGH)
               = Some KG_POSTURE_NORMAL) by (vm_compute; reflexivity).
  rewrite Hs in Hp. injection Hp as ->. by vm_compute.
Defined.
