(* ===== verification/Modgate.v ===== *)
(** * Driver-load gate (linux/module/kg_modgate.c)

    The deny and allow lists parsed from the module parameters, the lock-mode
    baseline, the verdict on a module that is being loaded and the load-policy
    audit.  Strings are the bytes before the NUL. *)
From S2P Require Import Prelude Uapi Kernel Machine Guard Comms Posture.
Local Open Scope Z_scope.

Definition KG_GATE_LIST_MAX : Z := 64.
Definition KG_GATE_SRCVER_MAX : Z := 32.
Definition KG_GATE_BASE_MAX : Z := 1024.
Definition KG_MAX_BOOT_MODULES : Z := 1024.
Definition MODULE_NAME_LEN : Z := 56.        (* 64 - sizeof(unsigned long) *)

(** ** Characters (the kernel's ctype table, Latin-1 letters included) *)
Definition in_rng (lo hi c : Z) : bool := (lo <=? c) && (c <=? hi).
Definition isdigit (c : Z) : bool := in_rng 48 57 c.
Definition isupper (c : Z) : bool := in_rng 65 90 c || (in_rng 192 222 c && negb (c =? 215)).
Definition islower (c : Z) : bool := in_rng 97 122 c || (in_rng 223 255 c && negb (c =? 247)).
Definition isalnum (c : Z) : bool := isdigit c || isupper c || islower c.
Definition isxdigit (c : Z) : bool := isdigit c || in_rng 65 70 c || in_rng 97 102 c.
Definition toupper (c : Z) : Z := if islower c then u8 (c - 32) else c.
Definition tolower (c : Z) : Z := if isupper c then c + 32 else c.

(** [!strcasecmp(s, t)] *)
Definition strcaseeq (s t : list Z) : bool := bool_decide (tolower <$> s = tolower <$> t).

(** ** State *)
Record kg_gate := Gate {
  g_deny : list (list Z * list Z);       (* kg_deny: name, srcver ([]: every version) *)
  g_allow : list (list Z);               (* kg_allow *)
  g_ignored : Z;
  g_base : list (list Z);                (* kg_base[0 .. kg_nbase) *)
  g_lock : bool;                         (* p_lock *)
  g_ready : bool;
  g_registered : bool;
  g_audited : bool;
  g_lp_mask : Z;
  g_lp_raw : Z;
  g_deny_hits : Z;
  g_blocked : Z;
  g_lock_hits : Z
}.

(** [struct module], as far as the gate looks at it. *)
Record kmod := Kmod { m_name : list Z; m_srcversion : option (list Z) }.

(** ** Parsing *)
Definition kg_gate_sep (c : Z) : bool := (c =? 44) || (c =? 32) || (c =? 9) || (c =? 10).

Fixpoint skip_sep (p : list Z) : list Z :=
  match p with c :: p' => if kg_gate_sep c then skip_sep p' else p | [] => [] end.
Fixpoint entry_len (p : list Z) : nat :=
  match p with c :: p' => if kg_gate_sep c then O else S (entry_len p') | [] => O end.

(** The entry (empty at the end) and what follows it. *)
Definition kg_gate_next (p : list Z) : list Z * list Z :=
  let s := skip_sep p in (take (entry_len s) s, drop (entry_len s) s).

Definition name_char (c : Z) : bool := isalnum c || (c =? 95) || (c =? 45) || (c =? 46).
Definition kg_gate_name_ok (s : list Z) : bool :=
  negb (zlen s =? 0) && (zlen s <? MODULE_NAME_LEN) && forallb name_char s.
Definition kg_gate_hex_ok (s : list Z) : bool :=
  negb (zlen s =? 0) && (zlen s <? KG_GATE_SRCVER_MAX) && forallb isxdigit s.

(** [memchr(s, '@', len)]: the name and, after an at sign, the version. *)
Fixpoint split_at (s : list Z) : list Z * option (list Z) :=
  match s with
  | [] => ([], None)
  | c :: s => if c =? 64 then ([], Some s) else let '(n, v) := split_at s in (c :: n, v)
  end.

Definition norm_name (s : list Z) : list Z := (λ c, if c =? 45 then 95 else c) <$> s.

Definition add_deny (e : list Z * list Z) (g : kg_gate) : kg_gate :=
  Gate (g_deny g ++ [e]) (g_allow g) (g_ignored g) (g_base g) (g_lock g) (g_ready g)
       (g_registered g) (g_audited g) (g_lp_mask g) (g_lp_raw g) (g_deny_hits g) (g_blocked g)
       (g_lock_hits g).
Definition add_allow (n : list Z) (g : kg_gate) : kg_gate :=
  Gate (g_deny g) (g_allow g ++ [n]) (g_ignored g) (g_base g) (g_lock g) (g_ready g)
       (g_registered g) (g_audited g) (g_lp_mask g) (g_lp_raw g) (g_deny_hits g) (g_blocked g)
       (g_lock_hits g).
Definition ignore (g : kg_gate) : kg_gate :=
  Gate (g_deny g) (g_allow g) (u32 (g_ignored g + 1)) (g_base g) (g_lock g) (g_ready g)
       (g_registered g) (g_audited g) (g_lp_mask g) (g_lp_raw g) (g_deny_hits g) (g_blocked g)
       (g_lock_hits g).

Definition kg_gate_entry (is_deny : bool) (s : list Z) (g : kg_gate) : kg_gate :=
  let '(name, ver) := split_at s in
  let bad_ver := match ver with
                 | None => false
                 | Some v => negb is_deny || negb (kg_gate_hex_ok v)
                 end in
  if negb (kg_gate_name_ok name) || bad_ver then ignore g
  else
    let count := if is_deny then zlen (g_deny g) else zlen (g_allow g) in
    if KG_GATE_LIST_MAX <=? count then ignore g
    else if is_deny then add_deny (norm_name name, toupper <$> default [] ver) g
    else add_allow (norm_name name) g.

Fixpoint kg_gate_parse_loop (fuel : nat) (p : list Z) (is_deny : bool) (g : kg_gate) : option kg_gate :=
  match fuel with
  | O => None
  | S fuel =>
    let '(s, rest) := kg_gate_next p in
    match s with
    | [] => Some g
    | _ => kg_gate_parse_loop fuel rest is_deny (kg_gate_entry is_deny s g)
    end
  end.
(** Every round but the last consumes an entry. *)
Definition kg_gate_parse (csv : list Z) (is_deny : bool) (g : kg_gate) : option kg_gate :=
  kg_gate_parse_loop (S (length csv)) csv is_deny g.

(** ** Verdicts *)
Definition kg_gate_denied (g : kg_gate) (m : kmod) : bool :=
  existsb (λ e, bool_decide (e.1 = m_name m)
                && (bool_decide (e.2 = [])
                    || match m_srcversion m with Some v => strcaseeq e.2 v | None => false end))
          (g_deny g).

Definition kg_gate_trusted (g : kg_gate) (name : list Z) : bool :=
  bool_decide (name ∈ g_allow g) || bool_decide (name ∈ g_base g).

(** ** The live modules: [kg_for_each_live_module] of kg_integrity.c *)
Record list_entry {A : Type} := ListEntry {
  le_in_area : bool;         (* false: the list head *)
  le_self : bool;
  le_live : bool;
  le_get_ok : bool;          (* try_module_get succeeds *)
  le_mod : A
}.
Arguments list_entry : clear implicits.

Fixpoint take_live {A} (l : list (list_entry A)) (n : Z) : list A :=
  match l with
  | [] => []
  | e :: l =>
    if negb (le_in_area e) then []
    else if le_self e || negb (le_live e) then take_live l n
    else if (n <? KG_MAX_BOOT_MODULES) && le_get_ok e then le_mod e :: take_live l (n + 1)
    else take_live l n
  end.

(** [alloc_ok]: kvcalloc succeeds. *)
Definition kg_for_each_live_module {A} (alloc_ok : bool) (l : list (list_entry A)) : errno + list A :=
  if alloc_ok then inr (take_live l 0) else inl ENOMEM.

(** ** Lock mode *)
Definition set_lock (b : bool) (g : kg_gate) : kg_gate :=
  Gate (g_deny g) (g_allow g) (g_ignored g) (g_base g) b (g_ready g) (g_registered g) (g_audited g)
       (g_lp_mask g) (g_lp_raw g) (g_deny_hits g) (g_blocked g) (g_lock_hits g).
Definition set_base (b : list (list Z)) (g : kg_gate) : kg_gate :=
  Gate (g_deny g) (g_allow g) (g_ignored g) b (g_lock g) (g_ready g) (g_registered g) (g_audited g)
       (g_lp_mask g) (g_lp_raw g) (g_deny_hits g) (g_blocked g) (g_lock_hits g).
Definition set_ready (b : bool) (g : kg_gate) : kg_gate :=
  Gate (g_deny g) (g_allow g) (g_ignored g) (g_base g) (g_lock g) b (g_registered g) (g_audited g)
       (g_lp_mask g) (g_lp_raw g) (g_deny_hits g) (g_blocked g) (g_lock_hits g).
Definition set_registered (b : bool) (g : kg_gate) : kg_gate :=
  Gate (g_deny g) (g_allow g) (g_ignored g) (g_base g) (g_lock g) (g_ready g) b (g_audited g)
       (g_lp_mask g) (g_lp_raw g) (g_deny_hits g) (g_blocked g) (g_lock_hits g).
Definition set_audit (mask raw : Z) (g : kg_gate) : kg_gate :=
  Gate (g_deny g) (g_allow g) (g_ignored g) (g_base g) (g_lock g) (g_ready g) (g_registered g) true
       mask raw (g_deny_hits g) (g_blocked g) (g_lock_hits g).
Definition count_hit (denied : bool) (g : kg_gate) : kg_gate :=
  Gate (g_deny g) (g_allow g) (g_ignored g) (g_base g) (g_lock g) (g_ready g) (g_registered g)
       (g_audited g) (g_lp_mask g) (g_lp_raw g)
       (if denied then u64 (g_deny_hits g + 1) else g_deny_hits g) (g_blocked g)
       (if denied then g_lock_hits g else u64 (g_lock_hits g + 1)).
Definition count_blocked (g : kg_gate) : kg_gate :=
  Gate (g_deny g) (g_allow g) (g_ignored g) (g_base g) (g_lock g) (g_ready g) (g_registered g)
       (g_audited g) (g_lp_mask g) (g_lp_raw g) (g_deny_hits g) (u64 (g_blocked g + 1))
       (g_lock_hits g).

(** [strscpy(dst, src, size)]: at most [size - 1] bytes. *)
Definition strscpy (s : list Z) (size : nat) : list Z := take (size - 1) s.

Definition snap_table (mods : list kmod) : list (list Z) :=
  (λ m, strscpy (m_name m) 56) <$> take (Z.to_nat KG_GATE_BASE_MAX) mods.

(** [tab_ok]: the table's kvcalloc; [live]: the walk's result. *)
Definition kg_gate_snapshot (tab_ok : bool) (live : errno + list kmod) (g : kg_gate)
  : option errno * kg_gate :=
  if negb tab_ok then (Some ENOMEM, g)
  else match live with
  | inl e => (Some e, g)
  | inr mods => (None, set_base (snap_table mods) g)
  end.

(** A write to mod_lock takes effect in two steps: param_set_bool stores the flag, then
    the baseline is recorded under the configuration lock. *)
Definition set_lock_store (val : errno + bool) (g : kg_gate) : option errno * kg_gate :=
  match val with inl e => (Some e, g) | inr b => (None, set_lock b g) end.
Definition set_lock_finish (was tab_ok : bool) (live : errno + list kmod) (g : kg_gate)
  : option errno * kg_gate :=
  if g_ready g && g_lock g && negb was then
    match kg_gate_snapshot tab_ok live g with
    | (Some e, g) => (Some e, set_lock was g)
    | (None, g) => (None, g)
    end
  else (None, g).
Definition kg_gate_cfg_set_lock (val : errno + bool) (tab_ok : bool) (live : errno + list kmod)
  (g : kg_gate) : option errno * kg_gate :=
  let was := g_lock g in
  match set_lock_store val g with
  | (Some e, g) => (Some e, g)
  | (None, g) => set_lock_finish was tab_ok live g
  end.

(** ** The gate *)
Definition pack8 (b : list Z) : Z := foldr (λ x acc, x + 256 * acc) 0 b.
(** 15 characters, zero padded to 16, as two little-endian words. *)
Definition kg_pack_name (s : list Z) : Z * Z :=
  let b := strscpy s 16 ++ replicate (16 - length (strscpy s 16)) 0 in
  (pack8 (take 8 b), pack8 (drop 8 b)).

Inductive notifier_ret := NOTIFY_DONE | NOTIFY_EPERM.
#[export] Instance notifier_ret_eq_dec : EqDecision notifier_ret.
Proof. solve_decision. Defined.

Section gate.
Context `{Crypto} `{Platform}.

Definition kg_gate_notify (coming self : bool) (m : kmod) (g : kg_gate) (w : world)
  : option (notifier_ret * kg_gate * world) :=
  if negb coming || self then Some (NOTIFY_DONE, g, w)
  else
    let denied := kg_gate_denied g m in
    let locked := negb denied && g_lock g && negb (kg_gate_trusted g (m_name m)) in
    if negb denied && negb locked then Some (NOTIFY_DONE, g, w)
    else
      let g := count_hit denied g in
      let '(np0, np1) := kg_pack_name (m_name m) in
      if kg_enforcing w then
        w ← report KG_ALERT_DRIVER_BLOCKED
              (if denied then KG_LEVEL_CRITICAL else KG_LEVEL_WATCH) np0 np1 w;
        Some (NOTIFY_EPERM, count_blocked g, w)
      else
        w ← (if denied then report KG_ALERT_VULN_DRIVER KG_LEVEL_CRITICAL np0 np1 w
             else report KG_ALERT_MODULE_LOADED KG_LEVEL_WATCH np0 np1 w);
        Some (NOTIFY_DONE, g, w).

Definition kg_gate_walk_cb (m : kmod) (g : kg_gate) (w : world) : option (kg_gate * world) :=
  if negb (kg_gate_denied g m) then Some (g, w)
  else
    let g := count_hit true g in
    let '(np0, np1) := kg_pack_name (m_name m) in
    w ← report KG_ALERT_VULN_DRIVER KG_LEVEL_WATCH np0 np1 w;
    Some (g, w).

Fixpoint gate_walk (l : list kmod) (g : kg_gate) (w : world) : option (kg_gate * world) :=
  match l with
  | [] => Some (g, w)
  | m :: l => '(g, w) ← kg_gate_walk_cb m g w; gate_walk l g w
  end.

(** *** Load-policy audit *)
Record load_policy := LoadPolicy {
  config_module_sig : bool; sig_enforced : bool; locked_down : bool; secure_boot : bool
}.

Definition audit_raw (p : load_policy) : Z :=
  Z.lor (Z.lor (Z.lor (flag_if (config_module_sig p) KG_LP_RAW_SIG_BUILT)
                      (flag_if (sig_enforced p) KG_LP_RAW_SIG_ENFORCE))
               (flag_if (locked_down p) KG_LP_RAW_LOCKDOWN))
        (flag_if (secure_boot p) KG_LP_RAW_SECUREBOOT).
Definition audit_weak (p : load_policy) : Z :=
  Z.lor (Z.lor (flag_if (negb (sig_enforced p)) KG_LP_NO_SIG_ENFORCE)
               (flag_if (negb (locked_down p)) KG_LP_NO_LOCKDOWN))
        (flag_if (negb (secure_boot p)) KG_LP_NO_SECUREBOOT).

Definition kg_gate_audit (p : load_policy) (g : kg_gate) (w : world) : option (kg_gate * world) :=
  let weak := audit_weak p in
  let raw := audit_raw p in
  let g := set_audit weak raw g in
  w ← report KG_ALERT_LOAD_POLICY (if weak =? 0 then KG_LEVEL_INFO else KG_LEVEL_WATCH) weak raw w;
  Some (g, w).

(** *** init / exit *)
Definition kg_modgate_exit (g : kg_gate) : kg_gate :=
  set_base [] (set_ready false (if g_registered g then set_registered false g else g)).

(** [snap_ok], [live]: the baseline's allocation and walk; [reg]: the result of
    register_module_notifier; [walk]: the second walk of the live modules. *)
Definition kg_modgate_init (p_gate : bool) (p_deny p_allow : list Z) (snap_ok : bool)
  (live : errno + list kmod) (reg : option errno) (walk : errno + list kmod) (pol : load_policy)
  (g : kg_gate) (w : world) : option (option errno * kg_gate * world) :=
  if negb p_gate then Some (None, g, w)
  else
    g ← kg_gate_parse p_deny true g;
    g ← kg_gate_parse p_allow false g;
    let g := if g_lock g then
               match kg_gate_snapshot snap_ok live g with
               | (Some _, g) => set_lock false g
               | (None, g) => g
               end
             else g in
    let g := set_ready true g in
    match reg with
    | Some e => Some (Some e, kg_modgate_exit g, w)
    | None =>
      let g := set_registered true g in
      '(g, w) ← (if zlen (g_deny g) =? 0 then Some (g, w)
                 else match walk with inr l => gate_walk l g w | inl _ => Some (g, w) end);
      '(g, w) ← kg_gate_audit pol g w;
      Some (None, g, w)
    end.
End gate.

(** ** KG_IOC_GET_MODGATE *)
Record kg_modgate_info_t := ModgateInfo {
  mi_flags : Z; mi_n_deny : Z; mi_n_allow : Z; mi_n_baseline : Z; mi_deny_hits : Z;
  mi_blocked : Z; mi_lock_hits : Z; mi_lp_mask : Z; mi_lp_raw : Z; mi_ignored : Z
}.
Definition kg_modgate_info (g : kg_gate) (w : world) : kg_modgate_info_t :=
  ModgateInfo
    (Z.lor (Z.lor (Z.lor (flag_if (g_registered g) 1)
                         (flag_if (g_registered g && kg_enforcing w) 4))
                  (flag_if (g_lock g) 2))
           (flag_if (g_audited g) 8))
    (zlen (g_deny g)) (zlen (g_allow g)) (zlen (g_base g)) (g_deny_hits g) (g_blocked g)
    (g_lock_hits g) (g_lp_mask g) (g_lp_raw g) (g_ignored g).

(** ** The lists the parser builds *)

(** The separated entries of a parameter, as a specification. *)
Fixpoint split_sep (p cur : list Z) : list (list Z) :=
  let flush := match cur with [] => [] | _ => [cur] end in
  match p with
  | [] => flush
  | c :: p => if kg_gate_sep c then flush ++ split_sep p [] else split_sep p (cur ++ [c])
  end.
Definition entries (csv : list Z) : list (list Z) := split_sep csv [].

Lemma split_sep_skip p : split_sep (skip_sep p) [] = split_sep p [].
Proof. induction p as [|c p IH]; simpl; [done|]. by destruct (kg_gate_sep c) eqn:E; simpl; rewrite ?E. Qed.

Lemma split_sep_run s cur :
  split_sep s cur = match cur ++ take (entry_len s) s with [] => [] | e => [e] end
                    ++ split_sep (drop (entry_len s) s) [].
Proof.
  revert cur. induction s as [|c s IH]; intros cur; simpl.
  - destruct cur; simpl; by rewrite ?app_nil_r.
  - destruct (kg_gate_sep c) eqn:E; simpl.
    + rewrite E. destruct cur; simpl; by rewrite ?app_nil_r.
    + rewrite IH, <- app_assoc. done.
Qed.

Lemma entries_next p :
  entries p = match (kg_gate_next p).1 with [] => [] | s => s :: entries (kg_gate_next p).2 end.
Proof.
  unfold entries, kg_gate_next. rewrite <- split_sep_skip, split_sep_run. simpl.
  set (s := skip_sep p). destruct (take (entry_len s) s) eqn:E; [|done].
  simpl. destruct s as [|c s'] eqn:Es; [done|]. simpl in E.
  destruct (kg_gate_sep c) eqn:Ec; [|done]. exfalso. subst s. clear -Es Ec.
  induction p as [|d p IH]; simpl in Es; [done|].
  destruct (kg_gate_sep d) eqn:Ed; [auto|]. congruence.
Qed.

Lemma kg_gate_next_shorter p : (kg_gate_next p).1 ≠ [] → (length (kg_gate_next p).2 < length p)%nat.
Proof.
  unfold kg_gate_next. simpl. intros Hne.
  assert (Hs : (length (skip_sep p) ≤ length p)%nat)
    by (clear; induction p as [|c p IH]; simpl; [lia|]; destruct (kg_gate_sep c); simpl; lia).
  rewrite length_drop. destruct (entry_len (skip_sep p)) eqn:E; [by rewrite take_0 in Hne|].
  assert (Hle : (entry_len (skip_sep p) ≤ length (skip_sep p))%nat).
  { clear. generalize (skip_sep p) as l. induction l as [|c l IH]; simpl; [lia|].
    destruct (kg_gate_sep c); lia. }
  lia.
Qed.

Lemma parse_is_fold fuel csv d g :
  (length csv < fuel)%nat →
  kg_gate_parse_loop fuel csv d g = Some (foldl (λ g s, kg_gate_entry d s g) g (entries csv)).
Proof.
  revert csv g. induction fuel as [|fuel IH]; intros csv g Hf; [lia|]. cbn [kg_gate_parse_loop].
  rewrite entries_next. pose proof (kg_gate_next_shorter csv) as Hsh.
  destruct (kg_gate_next csv) as [[|c s] rest]; [done|]. simpl in *.
  rewrite IH; [done|]. specialize (Hsh ltac:(done)). lia.
Qed.

(** What a well-formed mod_deny entry stands for. *)
Definition deny_of (s : list Z) : option (list Z * list Z) :=
  let '(name, ver) := split_at s in
  if kg_gate_name_ok name && match ver with None => true | Some v => kg_gate_hex_ok v end
  then Some (norm_name name, toupper <$> default [] ver) else None.

Lemma deny_entry_spec s g :
  g_deny (kg_gate_entry true s g)
  = match deny_of s with
    | Some e => if KG_GATE_LIST_MAX <=? zlen (g_deny g) then g_deny g else g_deny g ++ [e]
    | None => g_deny g
    end.
Proof.
  unfold kg_gate_entry, deny_of. destruct (split_at s) as [name ver].
  destruct (kg_gate_name_ok name); [|done]. cbn [negb orb andb].
  destruct ver as [v|]; cbn [negb orb]; [destruct (kg_gate_hex_ok v); [|done]|]; cbn [negb];
    by destruct (_ <=? _).
Qed.

Lemma deny_fold_spec l g :
  (length (g_deny g) ≤ 64)%nat →
  g_deny (foldl (λ g s, kg_gate_entry true s g) g l) = take 64 (g_deny g ++ omap deny_of l).
Proof.
  revert g. induction l as [|s l IH]; intros g Hg; cbn [foldl omap list_omap].
  - rewrite app_nil_r, take_ge by done. done.
  - pose proof (deny_entry_spec s g) as Hs. rewrite IH.
    + rewrite Hs. destruct (deny_of s) as [e|]; [|done].
      destruct (KG_GATE_LIST_MAX <=? zlen (g_deny g)) eqn:E; bool_props.
      * unfold KG_GATE_LIST_MAX, zlen in E.
        by rewrite !take_app_le, !take_ge by lia.
      * by rewrite <- app_assoc.
    + rewrite Hs. destruct (deny_of s) as [e|]; [|done].
      destruct (_ <=? _) eqn:E; [done|]. bool_props. unfold KG_GATE_LIST_MAX, zlen in E.
      rewrite length_app. simpl. lia.
Qed.

Lemma parse_deny_spec csv g :
  g_deny g = [] →
  ∃ g', kg_gate_parse csv true g = Some g' ∧ g_deny g' = take 64 (omap deny_of (entries csv)).
Proof.
  intros Hg. unfold kg_gate_parse. rewrite parse_is_fold by lia. eexists. split; [done|].
  rewrite deny_fold_spec, Hg; [done|]. rewrite Hg. simpl. lia.
Qed.

(** ** A concrete gate *)
Definition empty_gate : kg_gate := Gate [] [] 0 [] false true true false 0 0 0 0 0.
Definition sample_gate : kg_gate := add_deny (bytes_of "rtcore64", []) empty_gate.
Definition sample_mod : kmod := Kmod (bytes_of "rtcore64") None.
Definition with_params (p : params) (w : world) : world :=
  World (wguard w) (wstats w) (wpos w) p (wcomms w) (wmon w) (wwork w) (wops w) (nmono w) (nreal w).
Definition auto_world : world :=
  with_params (Params false true KG_POSTURE_FAILSAFE 600 5000 30000) ready_world.
Definition enforcing_world : world :=
  with_params (Params true false KG_POSTURE_FAILSAFE 600 5000 30000) ready_world.

(** Parsing mod_deny always ends and denies exactly what the text says: a module is
    denied if and only if one of the first 64 well-formed entries names it (hyphens
    read as underscores) and gives no version or, case aside, the module's own. *)
Theorem deny_list_exact csv g m :
  g_deny g = [] →
  ∃ g', kg_gate_parse csv true g = Some g'
  ∧ (kg_gate_denied g' m = true ↔
     ∃ name ver, (name, ver) ∈ take 64 (omap deny_of (entries csv))
       ∧ name = m_name m ∧ (ver = [] ∨ ∃ v, m_srcversion m = Some v ∧ strcaseeq ver v = true)).
Proof.
  intros Hg. destruct (parse_deny_spec csv g Hg) as (g' & Hp & Hd). exists g'. split; [done|].
  unfold kg_gate_denied. rewrite Hd, existsb_exists. split.
  - intros ([name ver] & Hin%list_elem_of_In & Hm). simpl in Hm. exists name, ver.
    apply andb_true_iff in Hm as [Hn%bool_decide_eq_true Hv]. split_and!; [done..|].
    apply orb_true_iff in Hv as [Hv%bool_decide_eq_true|Hv]; [by left|].
    destruct (m_srcversion m) as [v|]; [eauto|done].
  - intros (name & ver & Hin%list_elem_of_In & -> & Hv). exists (m_name m, ver). split; [done|].
    simpl. rewrite bool_decide_true by done. destruct Hv as [->|(v & -> & ->)]; [done|].
    by rewrite orb_true_r.
Qed.

Lemma deny_list_exact_witness :
  ∃ g', kg_gate_parse (bytes_of "rt-core64@AbC, vbox") true empty_gate = Some g'
  ∧ kg_gate_denied g' (Kmod (bytes_of "rt_core64") (Some (bytes_of "aBc"))) = true.
Proof.
  destruct (deny_list_exact (bytes_of "rt-core64@AbC, vbox") empty_gate
              (Kmod (bytes_of "rt_core64") (Some (bytes_of "aBc"))) eq_refl) as (g' & Hg & Hd).
  exists g'. split; [exact Hg|]. apply Hd. exists (bytes_of "rt_core64"), (bytes_of "ABC").
  split_and!; [refine (bool_decide_unpack _ _); vm_compute; exact I|reflexivity|].
  right. eexists. split; [reflexivity|vm_compute; reflexivity].
Defined.

(** ** Verdicts *)

(** Why a module that is coming up would be stopped. *)
Definition gate_hit (g : kg_gate) (m : kmod) : bool :=
  kg_gate_denied g m || (g_lock g && negb (kg_gate_trusted g (m_name m))).

Section verdict.
Context `{CryptoLaws} `{Platform}.

Lemma notify_spec m g w :
  guard_inv w → 0 ≤ kg_max_posture (wpar w) →
  ∃ g' w',
    kg_gate_notify true false m g w
    = Some (if gate_hit g m && kg_enforcing w then NOTIFY_EPERM else NOTIFY_DONE, g', w')
  ∧ g_deny g' = g_deny g ∧ guard_inv w' ∧ wpar w' = wpar w
  ∧ g_deny_hits g' = (if kg_gate_denied g m then u64 (g_deny_hits g + 1) else g_deny_hits g)
  ∧ g_blocked g' = (if gate_hit g m && kg_enforcing w then u64 (g_blocked g + 1) else g_blocked g)
  ∧ (kg_gate_denied g m = true → kg_enforcing w = false → pos_ready (wpos w) = true →
     kg_posture w' = Z.max (kg_posture w) (Z.min KG_POSTURE_HIGH (posture_cap w))).
Proof.
  intros Hi Hmax. unfold kg_gate_notify, gate_hit. cbn [negb orb].
  assert (Hrep : ∀ ty lv p1 p2, ∃ w', report ty lv p1 p2 w = Some w'
            ∧ raised (alert_target ty lv) ty w w')
    by (intros; apply (report_spec 0); done).
  destruct (kg_pack_name (m_name m)) as [np0 np1].
  destruct (kg_gate_denied g m) eqn:Hd; cbn [negb andb orb].
  - destruct (kg_enforcing w) eqn:He.
    + destruct (Hrep KG_ALERT_DRIVER_BLOCKED KG_LEVEL_CRITICAL np0 np1) as (w' & -> & [Ra Rb _ _ _]).
      bind_simpl. eexists _, w'. split; [done|]. by split_and!.
    + destruct (Hrep KG_ALERT_VULN_DRIVER KG_LEVEL_CRITICAL np0 np1) as (w' & -> & [Ra Rb _ Rd _]).
      bind_simpl. eexists _, w'. split; [done|]. split_and!; try done.
      intros _ _ Hready. by rewrite Rd, Hready.
  - destruct (g_lock g && negb (kg_gate_trusted g (m_name m))); cbn [negb andb].
    2:{ eexists _, w. by split_and!. }
    destruct (kg_enforcing w) eqn:He.
    + destruct (Hrep KG_ALERT_DRIVER_BLOCKED KG_LEVEL_WATCH np0 np1) as (w' & -> & [Ra Rb _ _ _]).
      bind_simpl. eexists _, w'. split; [done|]. by split_and!.
    + destruct (Hrep KG_ALERT_MODULE_LOADED KG_LEVEL_WATCH np0 np1) as (w' & -> & [Ra Rb _ _ _]).
      bind_simpl. eexists _, w'. split; [done|]. by split_and!.
Qed.
End verdict.



(** The graduated response closes the gate: with [auto_enforce] on and the ladder
    allowed to reach HIGH, the first denied module met in detect-only mode gets through
    and is reported, and from then on every denied module is refused. *)
Theorem second_denied_load_refused `{CryptoLaws} `{Platform} m m2 g w :
  guard_inv w → KG_POSTURE_HIGH ≤ kg_max_posture (wpar w) → pos_ready (wpos w) = true →
  kg_auto_enforce (wpar w) = true → kg_enforcing w = false →
  kg_gate_denied g m = true → kg_gate_denied g m2 = true →
  ∃ g' w' g'' w'', kg_gate_notify true false m g w = Some (NOTIFY_DONE, g', w')
  ∧ kg_gate_notify true false m2 g' w' = Some (NOTIFY_EPERM, g'', w'').
Proof.
  intros Hi Hmax Hready Hauto Henf Hd Hd2. unfold KG_POSTURE_HIGH in Hmax.
  destruct (notify_spec m g w Hi ltac:(lia)) as (g' & w' & Hn & Hdl & Hi' & Hpar & _ & _ & Hp).
  specialize (Hp Hd Henf Hready).
  assert (Henf' : kg_enforcing w' = true).
  { unfold kg_enforcing. rewrite Hpar, Hauto, Hp. unfold posture_cap, KG_POSTURE_FAILSAFE, KG_POSTURE_HIGH.
    rewrite (proj2 (Z.leb_le _ _)) by lia. by rewrite orb_true_r. }
  destruct (notify_spec m2 g' w' Hi' ltac:(rewrite Hpar; lia)) as (g'' & w'' & Hn2 & _).
  assert (Hd2' : kg_gate_denied g' m2 = true) by (unfold kg_gate_denied in *; by rewrite Hdl).
  unfold gate_hit in Hn, Hn2. rewrite Henf, andb_false_r in Hn. rewrite Hd2', Henf' in Hn2.
  exists g', w', g'', w''. done.
Qed.

Lemma second_denied_load_refused_witness :
  ∃ g' w' g'' w'',
    @kg_gate_notify sha_api two_cpus true false sample_mod sample_gate auto_world = Some (NOTIFY_DONE, g', w')
    ∧ @kg_gate_notify sha_api two_cpus true false sample_mod g' w' = Some (NOTIFY_EPERM, g'', w'').
Proof.
  apply (@second_denied_load_refused sha_api sha_api_laws two_cpus sample_mod sample_mod sample_gate
           auto_world); [exact ready_world_inv|by vm_compute..].
Defined.

(** ** Lock mode *)
(** Switching lock mode on either fails and leaves the gate as it was, or records
    the modules that are loaded: from then on each of them (of the first 1024) is trusted
    besides mod_allow, and nothing else is. *)
Theorem lock_mode_baseline tab_ok live g :
  g_ready g = true → g_lock g = false →
  match kg_gate_cfg_set_lock (inr true) tab_ok live g with
  | (Some e, g') => g' = g ∧ (live = inl e ∨ (tab_ok = false ∧ e = ENOMEM))
  | (None, g') => g_lock g' = true ∧ ∃ mods, live = inr mods
      ∧ ∀ name, kg_gate_trusted g' name = true ↔
          name ∈ g_allow g ∨ ∃ m, m ∈ take 1024 mods ∧ name = strscpy (m_name m) 56
  end.
Proof.
  intros Hr Hl. unfold kg_gate_cfg_set_lock, set_lock_store, set_lock_finish.
  cbn [g_ready g_lock set_lock]. rewrite Hr, Hl. cbn [andb negb].
  unfold kg_gate_snapshot. destruct tab_ok; cbn [negb].
  - destruct live as [e|mods].
    + split; [|by left]. destruct g. simpl in *. by subst.
    + split; [done|]. exists mods. split; [done|]. intros name.
      unfold kg_gate_trusted. cbn [g_allow g_base set_base set_lock].
      rewrite orb_true_iff, !bool_decide_eq_true. unfold snap_table.
      rewrite list_elem_of_fmap. naive_solver.
  - split; [|by right]. destruct g. simpl in *. by subst.
Qed.

Lemma lock_mode_baseline_witness :
  ∀ name, kg_gate_trusted (kg_gate_cfg_set_lock (inr true) true (inr [sample_mod]) sample_gate).2 name = true
    ↔ name ∈ ([] : list (list Z)) ∨ ∃ m, m ∈ take 1024 [sample_mod] ∧ name = strscpy (m_name m) 56.
Proof.
  pose proof (lock_mode_baseline true (inr [sample_mod]) sample_gate eq_refl eq_refl) as Hl.
  assert (Hr : (kg_gate_cfg_set_lock (inr true) true (inr [sample_mod]) sample_gate).1 = None)
    by reflexivity.
  destruct (kg_gate_cfg_set_lock _ _ _ _) as [r g']. simpl in Hr. subst r.
  destruct Hl as (_ & mods & [= <-] & Ht). exact Ht.
Defined.

(** Switching lock mode on takes two steps: a load that falls between them meets
    lock mode with the baseline still missing, so a module that the baseline is about to
    trust is refused. *)
Theorem lock_switch_window `{CryptoLaws} `{Platform} m g w :
  guard_inv w → 0 ≤ kg_max_posture (wpar w) → kg_enforcing w = true →
  g_ready g = true → g_lock g = false → g_base g = [] → g_allow g = [] →
  kg_gate_denied g m = false → (length (m_name m) < 56)%nat →
  let g1 := (set_lock_store (inr true) g).2 in
  (∃ g' w', kg_gate_notify true false m g1 w = Some (NOTIFY_EPERM, g', w'))
  ∧ kg_gate_trusted (set_lock_finish false true (inr [m]) g1).2 (m_name m) = true.
Proof.
  intros Hi Hmax Henf Hr Hl Hb Ha Hd Hlen. cbv zeta. split.
  - destruct (notify_spec m (set_lock_store (inr true) g).2 w Hi Hmax) as (g' & w' & Hn & _).
    exists g', w'. rewrite Hn. unfold gate_hit, kg_gate_trusted, kg_gate_denied in *. simpl.
    rewrite Hd, Hb, Ha, Henf. done.
  - assert (Hsnap : snap_table [m] = [m_name m]).
    { unfold snap_table. rewrite (take_ge [m]) by (unfold KG_GATE_BASE_MAX; cbn [length]; lia).
      unfold strscpy. cbn [fmap list_fmap]. by rewrite take_ge by lia. }
    unfold set_lock_finish. cbn [snd set_lock_store g_ready g_lock set_lock]. rewrite Hr.
    cbn [andb negb kg_gate_snapshot snd]. rewrite Hsnap.
    unfold kg_gate_trusted. cbn [g_base set_base set_lock].
    rewrite (bool_decide_true (m_name m ∈ [m_name m])) by (by left). by rewrite orb_true_r.
Qed.

Lemma lock_switch_window_witness :
  let m := Kmod (bytes_of "xhci_hcd") None in
  let g1 := (set_lock_store (inr true) sample_gate).2 in
  (∃ g' w', @kg_gate_notify sha_api two_cpus true false m g1 enforcing_world = Some (NOTIFY_EPERM, g', w'))
  ∧ kg_gate_trusted (set_lock_finish false true (inr [m]) g1).2 (m_name m) = true.
Proof.
  apply (@lock_switch_window sha_api sha_api_laws two_cpus (Kmod (bytes_of "xhci_hcd") None) sample_gate
           enforcing_world); [exact ready_world_inv|by vm_compute..|simpl; lia].
Defined.
