(* ===== verification/PciScan.v ===== *)
(** * Module 2: what the PCI hardware and the PCI core present
      (linux/module/kg_hw.c, up to kg_scan_os)

    The configuration space is read through the memory windows (ECAM) that the ACPI
    MCFG table announces, one mebibyte per bus, following the secondary-bus registers
    of the bridges; without such a table the PCI core's own list is taken.

    The hardware and the PCI core are outside the module: [PciEnv] gives what the [n]-th
    question put to them is answered, so nothing is assumed to stay the same between two
    of them.  A window is mapped once per bus and each of its registers is read at most
    once while it is, so a mapping is a function from offsets to bytes. *)
From stdpp Require Import gmap.
From S2P Require Import Prelude Uapi Modgate.
Local Open Scope Z_scope.

Definition KG_MAX_ECAM : nat := 16.
Definition KG_MAX_PCI : nat := 1024.
Definition KG_MAX_SUSPECT : nat := 64.
Definition KG_MAX_SECONDARIES : nat := 32.

Definition PCI_VENDOR_ID : Z := 0x00.
Definition PCI_COMMAND : Z := 0x04.
Definition PCI_CLASS_REVISION : Z := 0x08.
Definition PCI_HEADER_TYPE : Z := 0x0e.
Definition PCI_SECONDARY_BUS : Z := 0x19.
Definition PCI_HEADER_TYPE_NORMAL : Z := 0.
Definition PCI_HEADER_TYPE_BRIDGE : Z := 1.
Definition PCI_COMMAND_MASTER : Z := 4.
Definition PCI_D3cold : Z := 4.
Definition IOMMU_DOMAIN_IDENTITY : Z := 4.

Record kg_ecam_seg := EcamSeg { es_base : Z; es_seg : Z; es_bus_start : Z; es_bus_end : Z }.

Record kg_pci_ent := PciEnt {
  pe_seg : Z; pe_bus : Z; pe_dev : Z; pe_fn : Z; pe_vid : Z; pe_did : Z;
  pe_class_rev : Z; pe_cmd : Z; pe_hdr : Z; pe_from_ecam : bool
}.
Definition zero_ent : kg_pci_ent := PciEnt 0 0 0 0 0 0 0 0 0 false.
#[export] Instance kg_pci_ent_eq_dec : EqDecision kg_pci_ent.
Proof. solve_decision. Defined.

(** ** The platform *)
Record acpi_mcfg_allocation := McfgAlloc { ma_address : Z; ma_segment : Z; ma_start : Z; ma_end : Z }.

(** A device of the PCI core: the fields the module looks at, the power states of the
    bridges above it, the type of its IOMMU domain if it has one, and what the two
    configuration reads of kg_scan_os leave in their variables. *)
Record pci_dev := PciDev {
  pd_domain : Z; pd_bus : Z; pd_devfn : Z; pd_vendor : Z; pd_device : Z; pd_class : Z; pd_revision : Z;
  pd_is_virtfn : bool; pd_current_state : Z; pd_channel_offline : bool; pd_bridges : list Z;
  pd_untrusted : bool; pd_external_facing : bool; pd_thunderbolt : bool; pd_iommu : option Z;
  pd_cmd : Z; pd_hdr : Z
}.
Record pci_bus := PciBus { pb_parent : bool; pb_domain : Z; pb_number : Z }.

Class PciEnv := {
  acpi_disabled : bool;
  acpi_mcfg : option (Z * (nat → acpi_mcfg_allocation));   (* its length, the memory after its header *)
  ioremap : nat → Z → option (Z → Z);
  pci_buses : nat → list pci_bus;                          (* in the order of pci_find_next_bus *)
  pci_devs : nat → list pci_dev;                           (* in the order of for_each_pci_dev *)
  pci_get_domain_bus_and_slot : nat → Z → Z → Z → option pci_dev
}.

Definition PCI_SLOT (devfn : Z) : Z := Z.land (Z.shiftr devfn 3) 0x1f.
Definition PCI_FUNC (devfn : Z) : Z := Z.land devfn 0x07.
Definition PCI_DEVFN (dev fn : Z) : Z := Z.lor (Z.shiftl (Z.land dev 0x1f) 3) (Z.land fn 0x07).

(** ** Comparing entries *)
Definition kg_bdf (e : kg_pci_ent) : Z :=
  u32 (Z.lor (Z.lor (Z.lor (Z.shiftl (pe_seg e) 24) (Z.shiftl (pe_bus e) 16)) (Z.shiftl (pe_dev e) 8))
             (pe_fn e)).
Definition kg_same_dev (a b : kg_pci_ent) : bool :=
  (pe_seg a =? pe_seg b) && (pe_bus a =? pe_bus b) && (pe_dev a =? pe_dev b) && (pe_fn a =? pe_fn b).
Definition kg_same_identity (a b : kg_pci_ent) : bool :=
  kg_same_dev a b && (pe_vid a =? pe_vid b) && (pe_did a =? pe_did b).

(** ** ECAM location.  [s32] is the conversion of the quotient to [int]. *)
Definition SIZEOF_MCFG : Z := 44.
Definition SIZEOF_ALLOC : Z := 16.
Definition mcfg_count (len : Z) : Z := s32 (u64 (len - SIZEOF_MCFG) / SIZEOF_ALLOC).

Fixpoint ecam_collect (n : nat) (i : nat) (a : nat → acpi_mcfg_allocation) (l : list kg_ecam_seg)
  : list kg_ecam_seg :=
  match n with
  | O => l
  | S n =>
    if (KG_MAX_ECAM <=? length l)%nat then l
    else ecam_collect n (S i) a
      (if (ma_address (a i) =? 0) || (ma_end (a i) <? ma_start (a i)) then l
       else l ++ [EcamSeg (ma_address (a i)) (ma_segment (a i)) (ma_start (a i)) (ma_end (a i))])
  end.

Definition kg_ecam_init_table (t : option (Z * (nat → acpi_mcfg_allocation))) (l : list kg_ecam_seg)
  : option errno * list kg_ecam_seg :=
  match t with
  | None => (Some ENODEV, l)
  | Some (len, a) =>
    let l := ecam_collect (Z.to_nat (mcfg_count len)) 0 a l in
    (if (length l =? 0)%nat then Some ENODEV else None, l)
  end.

Definition ecam_covers (seg bus : Z) (e : kg_ecam_seg) : bool :=
  (es_seg e =? seg) && (es_bus_start e <=? bus) && (bus <=? es_bus_end e).
Fixpoint kg_ecam_find (l : list kg_ecam_seg) (seg bus : Z) : option kg_ecam_seg :=
  match l with
  | [] => None
  | e :: l => if ecam_covers seg bus e then Some e else kg_ecam_find l seg bus
  end.

Definition readb (m : Z → Z) (o : Z) : Z := u8 (m o).
Definition readw (m : Z → Z) (o : Z) : Z := pack8 [readb m o; readb m (o + 1)].
Definition readl (m : Z → Z) (o : Z) : Z :=
  pack8 [readb m o; readb m (o + 1); readb m (o + 2); readb m (o + 3)].
Definition cfg_offset (dev fn : Z) : Z := Z.shiftl dev 15 + Z.shiftl fn 12.

(** ** Tree walk *)
Definition absent_id (id : Z) : bool :=
  (Z.land id 0xffff =? 0xffff) || (Z.land id 0xffff =? 0) || (id =? 0xffffffff).

Definition read_ent (e : kg_ecam_seg) (bus : Z) (m : Z → Z) (dev fn : Z) : kg_pci_ent :=
  let cfg := cfg_offset dev fn in
  let id := readl m (cfg + PCI_VENDOR_ID) in
  PciEnt (es_seg e) bus dev fn (Z.land id 0xffff) (Z.shiftr id 16) (readl m (cfg + PCI_CLASS_REVISION))
         (readw m (cfg + PCI_COMMAND)) (readb m (cfg + PCI_HEADER_TYPE)) true.

Definition add_secondary (e : kg_ecam_seg) (bus : Z) (m : Z → Z) (dev fn : Z) (secs : list Z) : list Z :=
  let cfg := cfg_offset dev fn in
  if (Z.land (readb m (cfg + PCI_HEADER_TYPE)) 0x7f =? PCI_HEADER_TYPE_BRIDGE)
     && (length secs <? KG_MAX_SECONDARIES)%nat then
    let sec := readb m (cfg + PCI_SECONDARY_BUS) in
    if (bus <? sec) && (sec <=? es_bus_end e) then secs ++ [sec] else secs
  else secs.

Definition record_ent (ent : kg_pci_ent) (cur : list kg_pci_ent) : list kg_pci_ent :=
  if (length cur <? KG_MAX_PCI)%nat then cur ++ [ent] else cur.

(** The functions [fns] of one device slot. *)
Fixpoint walk_fns (e : kg_ecam_seg) (bus : Z) (m : Z → Z) (dev : Z) (fns : list Z) (multifn : bool)
  (st : list kg_pci_ent * list Z) : list kg_pci_ent * list Z :=
  match fns with
  | [] => st
  | fn :: fns =>
    let '(cur, secs) := st in
    let cfg := cfg_offset dev fn in
    if absent_id (readl m (cfg + PCI_VENDOR_ID)) then
      if fn =? 0 then st else walk_fns e bus m dev fns multifn st
    else
      let multifn := if fn =? 0 then Z.testbit (readb m (cfg + PCI_HEADER_TYPE)) 7 else multifn in
      let st := (record_ent (read_ent e bus m dev fn) cur, add_secondary e bus m dev fn secs) in
      if (fn =? 0) && negb multifn then st else walk_fns e bus m dev fns multifn st
  end.

Definition all_fns : list Z := seqZ 0 8.
Definition all_devs : list Z := seqZ 0 32.
Definition walk_devs (e : kg_ecam_seg) (bus : Z) (m : Z → Z) (st : list kg_pci_ent * list Z)
  : list kg_pci_ent * list Z :=
  foldl (λ st dev, walk_fns e bus m dev all_fns false st) st all_devs.

(** The table being filled, the buses visited, the questions asked so far. *)
Record scan := Scan { sc_cur : list kg_pci_ent; sc_visited : gset Z; sc_time : nat }.

Section scanning.
Context `{PciEnv}.

Definition kg_ecam_init (l : list kg_ecam_seg) : option errno * list kg_ecam_seg :=
  if acpi_disabled then (Some ENODEV, l) else kg_ecam_init_table acpi_mcfg l.

Definition kg_ecam_map (t : nat) (e : kg_ecam_seg) (bus : Z) : option (Z → Z) :=
  ioremap t (u64 (es_base e + Z.shiftl (bus - es_bus_start e) 20)).

(** The recursion stops at depth 9: [levels] is 9 less the depth. *)
Fixpoint kg_walk_bus (levels : nat) (e : kg_ecam_seg) (bus : Z) (s : scan) : scan :=
  match levels with
  | O => s
  | S levels =>
    if bool_decide (bus ∈ sc_visited s) then s
    else
      let vis := {[ bus ]} ∪ sc_visited s in
      match kg_ecam_map (sc_time s) e bus with
      | None => Scan (sc_cur s) vis (S (sc_time s))
      | Some m =>
        let '(cur, secs) := walk_devs e bus m (sc_cur s, []) in
        foldl (λ s sec, kg_walk_bus levels e sec s) (Scan cur vis (S (sc_time s))) secs
      end
  end.
Definition KG_MAX_DEPTH : nat := 9.

Definition walk_root (e : kg_ecam_seg) (pb : pci_bus) (s : scan) : scan :=
  if pb_parent pb || negb (pb_domain pb =? es_seg e) then s
  else if (es_bus_start e <=? pb_number pb) && (pb_number pb <=? es_bus_end e)
  then kg_walk_bus KG_MAX_DEPTH e (pb_number pb) s else s.

Definition scan_segment (s : scan) (e : kg_ecam_seg) : scan :=
  let s := kg_walk_bus KG_MAX_DEPTH e (es_bus_start e) (Scan (sc_cur s) ∅ (sc_time s)) in
  foldl (λ s pb, walk_root e pb s) (Scan (sc_cur s) (sc_visited s) (S (sc_time s)))
        (pci_buses (sc_time s)).

(** The new table, and the questions asked. *)
Definition kg_scan_ecam (ecam : list kg_ecam_seg) (t : nat) : list kg_pci_ent * nat :=
  let s := foldl scan_segment (Scan [] ∅ t) ecam in (sc_cur s, sc_time s).

Definition os_ent (d : pci_dev) : kg_pci_ent :=
  PciEnt (u16 (pd_domain d)) (pd_bus d) (PCI_SLOT (pd_devfn d)) (PCI_FUNC (pd_devfn d))
         (pd_vendor d) (pd_device d) (u32 (Z.lor (Z.shiftl (pd_class d) 8) (pd_revision d)))
         (pd_cmd d) (pd_hdr d) false.

Definition scan_os_dev (cur : list kg_pci_ent) (d : pci_dev) : list kg_pci_ent :=
  if pd_is_virtfn d then cur else record_ent (os_ent d) cur.
Definition kg_scan_os (t : nat) : list kg_pci_ent * nat :=
  (foldl scan_os_dev [] (pci_devs t), S t).

Definition kg_pdev_powered_off (d : pci_dev) : bool :=
  (pd_current_state d =? PCI_D3cold) || pd_channel_offline d
  || existsb (λ s, s =? PCI_D3cold) (pd_bridges d).
End scanning.

(** ** The MCFG table *)
Definition usable_seg (a : acpi_mcfg_allocation) : option kg_ecam_seg :=
  if (ma_address a =? 0) || (ma_end a <? ma_start a) then None
  else Some (EcamSeg (ma_address a) (ma_segment a) (ma_start a) (ma_end a)).
(** The usable entries that lie inside a table of [len] bytes. *)
Definition segs_within (len : Z) (a : nat → acpi_mcfg_allocation) : list kg_ecam_seg :=
  omap (λ i, usable_seg (a i)) (seq 0 (Z.to_nat ((len - SIZEOF_MCFG) / SIZEOF_ALLOC))).

Lemma mcfg_count_exact len :
  is_u32 len → Z.to_nat (mcfg_count len) = Z.to_nat ((len - SIZEOF_MCFG) / SIZEOF_ALLOC).
Proof.
  intros Hl. unfold mcfg_count, SIZEOF_MCFG, SIZEOF_ALLOC.
  destruct (decide (44 ≤ len)) as [Hge|Hlt].
  - rewrite u64_id by word_lia. unfold s32. rewrite u32_id by word_lia.
    destruct (Z.ltb_spec ((len - 44) / 16) 2147483648) as [_|?]; [done|word_lia].
  - assert (s32 (u64 (len - 44) / 16) < 0 ∧ (len - 44) / 16 < 0) as [? ?]; [|lia].
    split; [|word_lia].
    assert (∃ k, u64 (len - 44) / 16 = 1152921504606846976 - k ∧ 1 ≤ k ≤ 3) as (k & -> & Hk).
    { exists (1152921504606846976 - u64 (len - 44) / 16). word_lia. }
    assert (k = 1 ∨ k = 2 ∨ k = 3) as [->|[->| ->]] by lia; by compute.
Qed.

Lemma ecam_collect_spec n : ∀ i a l,
  (length l ≤ KG_MAX_ECAM)%nat →
  ecam_collect n i a l = take KG_MAX_ECAM (l ++ omap (λ i, usable_seg (a i)) (seq i n)).
Proof.
  induction n as [|n IH]; intros i a l Hl; cbn [ecam_collect seq].
  - simpl. rewrite app_nil_r. by rewrite take_ge by done.
  - destruct (Nat.leb_spec KG_MAX_ECAM (length l)) as [Hge|Hlt].
    + rewrite take_app_le by lia. by rewrite take_ge by lia.
    + simpl. unfold usable_seg at 1. destruct (_ || _).
      * by rewrite IH by lia.
      * rewrite IH by (rewrite length_app; simpl; lia). by rewrite <- app_assoc.
Qed.

(** The ECAM regions are the first sixteen usable entries of the MCFG table, and no
    entry past the table's own length is looked at, whatever that length is: a table
    shorter than its header makes the unsigned count wrap to a negative [int] and the
    loop does not run. *)
Theorem ecam_init_exact len a :
  is_u32 len →
  let l := take KG_MAX_ECAM (segs_within len a) in
  kg_ecam_init_table (Some (len, a)) [] = (if decide (l = []) then Some ENODEV else None, l)
  ∧ Forall (λ e, es_base e ≠ 0 ∧ es_bus_start e ≤ es_bus_end e) l.
Proof.
  intros Hlen l. split.
  - cbn [kg_ecam_init_table]. rewrite ecam_collect_spec by (unfold KG_MAX_ECAM; simpl; lia).
    rewrite mcfg_count_exact by done. cbn [app]. fold (segs_within len a). fold l.
    by destruct l.
  - apply Forall_take. apply Forall_forall. intros e He.
    unfold segs_within in He. apply list_elem_of_omap in He as (i & _ & Hu).
    unfold usable_seg in Hu. destruct (_ || _) eqn:E; [done|]. injection Hu as <-. bool_props. done.
Qed.
Lemma ecam_init_exact_witness :
  kg_ecam_init_table (Some (60, λ i, McfgAlloc (0xe0000000 + Z.of_nat i) 0 0 255)) []
  = (None, [EcamSeg 0xe0000000 0 0 255]).
Proof.
  destruct (ecam_init_exact 60 (λ i, McfgAlloc (0xe0000000 + Z.of_nat i) 0 0 255)) as [-> _];
    [by compute|reflexivity].
Defined.

(** ** One bus, as lists *)
Definition answers (m : Z → Z) (dev fn : Z) : bool :=
  negb (absent_id (readl m (cfg_offset dev fn + PCI_VENDOR_ID))).
(** The functions of a slot: those that answer, but only function 0 unless it says that
    there are others, and none if it is silent. *)
Definition slot_fns (m : Z → Z) (dev : Z) : list Z :=
  if answers m dev 0 then
    0 :: (if Z.testbit (readb m (cfg_offset dev 0 + PCI_HEADER_TYPE)) 7
          then filter (λ fn, answers m dev fn = true) (seqZ 1 7) else [])
  else [].
Definition bus_fns (m : Z → Z) : list (Z * Z) :=
  dev ← all_devs; pair dev <$> slot_fns m dev.
Definition bus_ents (e : kg_ecam_seg) (bus : Z) (m : Z → Z) : list kg_pci_ent :=
  (λ p, read_ent e bus m p.1 p.2) <$> bus_fns m.
Definition secondary (e : kg_ecam_seg) (bus : Z) (m : Z → Z) (p : Z * Z) : option Z :=
  let cfg := cfg_offset p.1 p.2 in
  let sec := readb m (cfg + PCI_SECONDARY_BUS) in
  if (Z.land (readb m (cfg + PCI_HEADER_TYPE)) 0x7f =? PCI_HEADER_TYPE_BRIDGE)
     && ((bus <? sec) && (sec <=? es_bus_end e)) then Some sec else None.
Definition bus_secs (e : kg_ecam_seg) (bus : Z) (m : Z → Z) : list Z :=
  take KG_MAX_SECONDARIES (omap (secondary e bus m) (bus_fns m)).

Lemma foldl_capped {A} (cap : nat) (l : list A) : ∀ cur,
  (length cur ≤ cap)%nat →
  foldl (λ cur x, if (length cur <? cap)%nat then cur ++ [x] else cur) cur l = take cap (cur ++ l).
Proof.
  induction l as [|x l IH]; intros cur Hc; simpl.
  - rewrite app_nil_r. by rewrite take_ge.
  - destruct (Nat.ltb_spec (length cur) cap) as [Hlt|Hge].
    + rewrite IH by (rewrite length_app; simpl; lia). by rewrite <- app_assoc.
    + rewrite IH by done. rewrite !take_app_le by lia. done.
Qed.

Section one_bus.
Context (e : kg_ecam_seg) (bus : Z) (m : Z → Z).
Let st_of (st : list kg_pci_ent * list Z) (dev : Z) (fns : list Z) : list kg_pci_ent * list Z :=
  (foldl (λ c fn, record_ent (read_ent e bus m dev fn) c) st.1 fns,
   foldl (λ s fn, add_secondary e bus m dev fn s) st.2 fns).

Lemma walk_fns_rest dev fns : ∀ st,
  Forall (λ fn, fn ≠ 0) fns →
  walk_fns e bus m dev fns true st = st_of st dev (filter (λ fn, answers m dev fn = true) fns).
Proof.
  induction fns as [|fn fns IH]; intros [cur secs] Hf; [done|].
  inversion Hf as [|? ? Hfn Hf']; subst. cbn [walk_fns]. rewrite filter_cons.
  rewrite (proj2 (Z.eqb_neq fn 0)) by done. cbn [andb].
  destruct (decide (answers m dev fn = true)) as [Ha|Ha]; unfold answers in Ha;
    destruct (absent_id _); try done; by rewrite IH.
Qed.

Lemma walk_slot dev st : walk_fns e bus m dev all_fns false st = st_of st dev (slot_fns m dev).
Proof.
  destruct st as [cur secs]. change all_fns with (0 :: seqZ 1 7). cbn [walk_fns].
  unfold slot_fns, answers at 1. destruct (absent_id _); [done|]. rewrite Z.eqb_refl. cbn [negb andb].
  destruct (Z.testbit _ 7); [|done]. rewrite walk_fns_rest; [done|].
  repeat (constructor; [done|]). constructor.
Qed.

Lemma walk_devs_fold devs : ∀ st,
  foldl (λ st dev, walk_fns e bus m dev all_fns false st) st devs
  = (foldl (λ c p, record_ent (read_ent e bus m p.1 p.2) c) st.1 (dev ← devs; pair dev <$> slot_fns m dev),
     foldl (λ s p, add_secondary e bus m p.1 p.2 s) st.2 (dev ← devs; pair dev <$> slot_fns m dev)).
Proof.
  induction devs as [|dev devs IH]; intros [cur secs]; [done|].
  cbn [foldl]. rewrite walk_slot, IH. rewrite bind_cons, !foldl_app.
  unfold st_of. cbn [fst snd]. by rewrite !foldl_fmap.
Qed.

Lemma add_secondaries ps : ∀ secs,
  (length secs ≤ KG_MAX_SECONDARIES)%nat →
  foldl (λ s p, add_secondary e bus m p.1 p.2 s) secs ps
  = take KG_MAX_SECONDARIES (secs ++ omap (secondary e bus m) ps).
Proof.
  induction ps as [|p ps IH]; intros secs Hs; simpl.
  - rewrite app_nil_r. by rewrite take_ge.
  - unfold add_secondary, secondary at 1. destruct (_ =? PCI_HEADER_TYPE_BRIDGE); [|by rewrite IH].
    cbn [andb]. destruct (_ && (_ <=? _)); [|destruct (length secs <? _)%nat; by rewrite IH].
    destruct (Nat.ltb_spec (length secs) KG_MAX_SECONDARIES).
    + rewrite IH by (rewrite length_app; simpl; lia). by rewrite <- app_assoc.
    + rewrite IH by done. by rewrite !take_app_le by lia.
Qed.

(** Reading a bus appends its functions, as far as there is room, and collects the buses
    behind its bridges. *)
Lemma walk_devs_spec cur :
  (length cur ≤ KG_MAX_PCI)%nat →
  walk_devs e bus m (cur, []) = (take KG_MAX_PCI (cur ++ bus_ents e bus m), bus_secs e bus m).
Proof.
  intros Hc. unfold walk_devs. rewrite walk_devs_fold. cbn [fst snd]. f_equal.
  - unfold bus_ents. rewrite <- (foldl_capped _ _ _ Hc). by rewrite foldl_fmap.
  - apply add_secondaries. simpl. lia.
Qed.
End one_bus.

(** ** The walk *)
Section walk.
Context `{PciEnv}.

(** What the walk does on a bus before it goes down. *)
Definition visit (e : kg_ecam_seg) (bus : Z) (s : scan) : scan :=
  Scan (match kg_ecam_map (sc_time s) e bus with
        | None => sc_cur s
        | Some m => take KG_MAX_PCI (sc_cur s ++ bus_ents e bus m)
        end) ({[ bus ]} ∪ sc_visited s) (S (sc_time s)).
Definition visit_secs (e : kg_ecam_seg) (bus : Z) (s : scan) : list Z :=
  match kg_ecam_map (sc_time s) e bus with None => [] | Some m => bus_secs e bus m end.

Definition roomy (s : scan) : Prop := (length (sc_cur s) ≤ KG_MAX_PCI)%nat.

Lemma visit_roomy e bus s : roomy s → roomy (visit e bus s).
Proof. unfold roomy, visit. intros Hs. cbn [sc_cur]. destruct (kg_ecam_map _ _ _); [|done].
  rewrite length_take. lia.
Qed.

Lemma walk_step n e bus s :
  roomy s →
  kg_walk_bus (S n) e bus s
  = if bool_decide (bus ∈ sc_visited s) then s
    else foldl (λ s sec, kg_walk_bus n e sec s) (visit e bus s) (visit_secs e bus s).
Proof.
  intros Hs. cbn [kg_walk_bus]. case_bool_decide; [done|]. unfold visit, visit_secs.
  destruct (kg_ecam_map _ _ _); [|done]. by rewrite walk_devs_spec.
Qed.

(** Every secondary bus is above its primary and inside the segment. *)
Definition in_seg (e : kg_ecam_seg) (bus : Z) : Prop := es_bus_start e ≤ bus ≤ es_bus_end e.
Lemma visit_secs_in_seg e bus s sec : in_seg e bus → sec ∈ visit_secs e bus s → in_seg e sec.
Proof.
  unfold visit_secs, in_seg. intros Hb. destruct (kg_ecam_map _ _ _); [|by intros ?%not_elem_of_nil].
  intros Hs%elem_of_take. destruct Hs as (i & Hi & _).
  apply list_elem_of_lookup_2, list_elem_of_omap in Hi as ([dev fn] & _ & Hi).
  unfold secondary in Hi. destruct (_ && (_ && _)) eqn:E; [|done]. injection Hi as <-. bool_props. cbn [fst snd] in *. lia.
Qed.

(** What every visit preserves, the whole walk preserves. *)
Lemma walk_ind (P : scan → Prop) e n : ∀ bus s,
  (∀ bus s, in_seg e bus → bus ∉ sc_visited s → roomy s → P s → P (visit e bus s)) →
  in_seg e bus → roomy s → P s → roomy (kg_walk_bus n e bus s) ∧ P (kg_walk_bus n e bus s).
Proof.
  intros bus s HP. revert bus s. induction n as [|n IH]; intros bus s Hb Hr Hs; [done|].
  rewrite walk_step by done. case_bool_decide as Hv; [done|].
  assert (Hsecs : Forall (in_seg e) (visit_secs e bus s)).
  { apply Forall_forall. intros sec. by apply visit_secs_in_seg. }
  assert (Hr' : roomy (visit e bus s)) by by apply visit_roomy.
  assert (Hs' : P (visit e bus s)) by by apply HP.
  revert Hr' Hs'. generalize (visit e bus s). clear Hr Hs Hv Hb.
  induction Hsecs as [|sec secs Hsec Hsecs IHs]; intros t Ht Hpt; [done|]. cbn [foldl].
  destruct (IH sec t Hsec Ht Hpt). by apply IHs.
Qed.

Lemma roots_ind (P : scan → Prop) e pbs : ∀ s,
  (∀ bus s, in_seg e bus → bus ∉ sc_visited s → roomy s → P s → P (visit e bus s)) →
  roomy s → P s →
  roomy (foldl (λ s pb, walk_root e pb s) s pbs) ∧ P (foldl (λ s pb, walk_root e pb s) s pbs).
Proof.
  intros s HP. revert s. induction pbs as [|pb l IH]; intros v Hv Pv; [done|]. cbn [foldl].
  assert (roomy (walk_root e pb v) ∧ P (walk_root e pb v)) as [? ?]; [|by apply IH].
  unfold walk_root. case_goal; [done|]. case_goal; [|done]. bool_props.
  apply walk_ind; [done|by split|done|done].
Qed.

Lemma segment_ind (P : scan → Prop) e s :
  (∀ bus s, in_seg e bus → bus ∉ sc_visited s → roomy s → P s → P (visit e bus s)) →
  (∀ s, P s → P (Scan (sc_cur s) (sc_visited s) (S (sc_time s)))) →
  es_bus_start e ≤ es_bus_end e → roomy s → P (Scan (sc_cur s) ∅ (sc_time s)) →
  roomy (scan_segment s e) ∧ P (scan_segment s e).
Proof.
  intros HP Htick Hb Hr Hs. unfold scan_segment.
  destruct (walk_ind P e KG_MAX_DEPTH (es_bus_start e) (Scan (sc_cur s) ∅ (sc_time s)) HP) as [Hr1 Hs1];
    [split; lia|done|done|].
  apply roots_ind; [done|done|by apply Htick].
Qed.

(** ** What a scan finds: soundness *)
Definition dev_key (x : kg_pci_ent) : Z * Z * Z * Z := (pe_seg x, pe_bus x, pe_dev x, pe_fn x).
Lemma same_dev_key a b : kg_same_dev a b = true ↔ dev_key a = dev_key b.
Proof.
  unfold kg_same_dev, dev_key. split.
  - intros Hs. bool_props. congruence.
  - intros [= -> -> -> ->]. by rewrite !Z.eqb_refl.
Qed.

Lemma slot_fns_range m dev fn : fn ∈ slot_fns m dev → 0 ≤ fn < 8.
Proof.
  unfold slot_fns. destruct (answers m dev 0); [|by intros ?%not_elem_of_nil].
  rewrite elem_of_cons. intros [->|Hf]; [lia|]. destruct (Z.testbit _ 7); [|by apply not_elem_of_nil in Hf].
  apply list_elem_of_filter in Hf as [_ Hf%elem_of_seqZ]. lia.
Qed.
Lemma slot_fns_NoDup m dev : NoDup (slot_fns m dev).
Proof.
  unfold slot_fns. destruct (answers m dev 0); [|constructor]. constructor.
  - destruct (Z.testbit _ 7); [|apply not_elem_of_nil].
    intros [_ Hf%elem_of_seqZ]%list_elem_of_filter. lia.
  - destruct (Z.testbit _ 7); [|constructor]. apply NoDup_filter, NoDup_seqZ.
Qed.
Lemma bus_fns_NoDup m : NoDup (bus_fns m).
Proof.
  unfold bus_fns. assert (Hd : NoDup all_devs) by apply NoDup_seqZ. revert Hd.
  generalize all_devs. intros l Hl. induction Hl as [|dev l Hdev Hl IH]; [constructor|].
  rewrite bind_cons. apply NoDup_app. split_and!; [|  |done].
  - apply NoDup_fmap_2; [by intros ? ? [= ->]|apply slot_fns_NoDup].
  - intros [d f] Hin. apply list_elem_of_fmap in Hin as (? & [= -> ->] & _).
    rewrite list_elem_of_bind. intros (d' & Hin & Hd'). apply list_elem_of_fmap in Hin as (? & [= -> ->] & _). done.
Qed.

Lemma bus_ents_keys e bus m : dev_key <$> bus_ents e bus m = (λ p, (es_seg e, bus, p.1, p.2)) <$> bus_fns m.
Proof. unfold bus_ents. rewrite <- list_fmap_compose. done. Qed.
Lemma bus_ents_NoDup e bus m : NoDup (dev_key <$> bus_ents e bus m).
Proof.
  rewrite bus_ents_keys. apply NoDup_fmap_2; [|apply bus_fns_NoDup].
  intros [d f] [d' f'] [= -> ->]. done.
Qed.

(** The entries found so far in the segment being walked are distinct from each other and from
    those of the segments before it. *)
Record scan_inv (e : kg_ecam_seg) (base : list kg_pci_ent) (s : scan) : Prop := ScanInv {
  si_nodup : NoDup (dev_key <$> sc_cur s);
  si_visited : ∀ b, b ∈ sc_visited s → in_seg e b;
  si_where : ∀ x, x ∈ sc_cur s → x ∈ base ∨ pe_seg x = es_seg e ∧ pe_bus x ∈ sc_visited s
}.
Definition away (e : kg_ecam_seg) (base : list kg_pci_ent) : Prop :=
  ∀ x, x ∈ base → ecam_covers (pe_seg x) (pe_bus x) e = false.

Lemma visit_inv e base bus s :
  away e base → in_seg e bus → bus ∉ sc_visited s → scan_inv e base s → scan_inv e base (visit e bus s).
Proof.
  intros Haway Hb Hv [Hn Hr Hw].
  assert (Hr' : ∀ b, b ∈ {[ bus ]} ∪ sc_visited s → in_seg e b).
  { intros b [->%elem_of_singleton|?]%elem_of_union; auto. }
  unfold visit. destruct (kg_ecam_map _ _ _) as [m|]; constructor; cbn [sc_cur sc_visited]; [|done| |done|done|].
  - rewrite fmap_take. eapply sublist_NoDup; [|apply sublist_take]. rewrite fmap_app. apply NoDup_app. split_and!; [done| |apply bus_ents_NoDup].
    intros k (x & -> & Hx)%list_elem_of_fmap Hk. rewrite bus_ents_keys in Hk.
    apply list_elem_of_fmap in Hk as ([d f] & Hk & _). injection Hk as Hs Hbus _ _.
    destruct (Hw x Hx) as [Hx'|[_ Hx']]; [|by rewrite Hbus in Hx'].
    apply Haway in Hx'. unfold ecam_covers in Hx'. destruct Hb. bool_props. 
    destruct Hx' as [Hx'|Hx']; bool_props; [|lia]. destruct Hx'; bool_props; [congruence|lia].
  - intros x Hx. apply elem_of_take in Hx as (i & Hx & _). apply list_elem_of_lookup_2, elem_of_app in Hx as [Hx|Hx].
    + destruct (Hw x Hx) as [?|[? ?]]; [by left|right]. set_solver.
    + right. unfold bus_ents in Hx. apply list_elem_of_fmap in Hx as (p & -> & _). split; [done|]. cbn [pe_bus read_ent]. set_solver.
  - intros x Hx. destruct (Hw x Hx) as [?|[? ?]]; [by left|right]. set_solver.
Qed.

Definition seg_ok (e : kg_ecam_seg) : Prop := es_bus_start e ≤ es_bus_end e.
Definition seg_apart (e1 e2 : kg_ecam_seg) : Prop :=
  ∀ seg bus, ecam_covers seg bus e1 = true → ecam_covers seg bus e2 = false.

Lemma in_seg_covers e bus : in_seg e bus → ecam_covers (es_seg e) bus e = true.
Proof. intros [? ?]. unfold ecam_covers. rewrite Z.eqb_refl. apply andb_true_iff. split; by apply Z.leb_le. Qed.

Lemma segment_distinct e s :
  seg_ok e → roomy s → NoDup (dev_key <$> sc_cur s) → away e (sc_cur s) →
  roomy (scan_segment s e) ∧ NoDup (dev_key <$> sc_cur (scan_segment s e))
  ∧ ∀ x, x ∈ sc_cur (scan_segment s e) → x ∈ sc_cur s ∨ ecam_covers (pe_seg x) (pe_bus x) e = true.
Proof.
  intros He Hr Hn Ha. destruct (segment_ind (scan_inv e (sc_cur s)) e s) as [Hr' [Hn' Hv Hw]].
  - intros. by apply visit_inv.
  - intros ? [???]. by constructor.
  - done.
  - done.
  - constructor; cbn; [done|set_solver|auto].
  - split_and!; [done|done|]. intros x Hx. destruct (Hw x Hx) as [?|[-> ?]]; [by left|right].
    by apply in_seg_covers, Hv.
Qed.

Lemma segments_distinct ecam : ∀ s,
  Forall seg_ok ecam → ForallOrdPairs seg_apart ecam → roomy s → NoDup (dev_key <$> sc_cur s) →
  Forall (λ e, away e (sc_cur s)) ecam →
  let s' := foldl scan_segment s ecam in
  roomy s' ∧ NoDup (dev_key <$> sc_cur s')
  ∧ ∀ x, x ∈ sc_cur s' → x ∈ sc_cur s ∨ ∃ e, e ∈ ecam ∧ ecam_covers (pe_seg x) (pe_bus x) e = true.
Proof.
  induction ecam as [|e ecam IH]; intros s Hok Hap Hr Hn Haw; cbn [foldl]; [split_and!; auto|].
  inversion Hok as [|? ? Hoke Hok']; inversion Hap as [|? ? Hape Hap']; inversion Haw as [|? ? Hawe Haw']; subst.
  destruct (segment_distinct e s Hoke Hr Hn Hawe) as (Hr1 & Hn1 & Hc1).
  destruct (IH (scan_segment s e) Hok' Hap' Hr1 Hn1) as (Hr2 & Hn2 & Hc2).
  { apply Forall_forall. intros e' He' x Hx. rewrite Forall_forall in Haw', Hape.
    destruct (Hc1 x Hx) as [Hx'|Hx']; [by apply (Haw' e' He')|by apply (Hape e' He')]. }
  split_and!; [done|done|]. intros x Hx. destruct (Hc2 x Hx) as [Hx'|(e' & He' & Hx')].
  - destruct (Hc1 x Hx') as [?|?]; [by left|right]. exists e. by split; [left|].
  - right. exists e'. by split; [right|].
Qed.
End walk.

(** A scan of the hardware records every function at most once and only where the MCFG
    table says configuration space is, whatever the hardware answers and however it changes
    meanwhile, as long as the table's regions do not overlap; and the table never
    overflows. *)
Theorem scan_distinct `{PciEnv} ecam t :
  Forall seg_ok ecam → ForallOrdPairs seg_apart ecam →
  let cur := (kg_scan_ecam ecam t).1 in
  NoDup (dev_key <$> cur) ∧ (length cur ≤ KG_MAX_PCI)%nat
  ∧ ∀ x, x ∈ cur → is_Some (kg_ecam_find ecam (pe_seg x) (pe_bus x)).
Proof.
  intros Hok Hap cur. unfold cur, kg_scan_ecam. cbn [fst].
  destruct (segments_distinct ecam (Scan [] ∅ t) Hok Hap) as (Hr & Hn & Hc);
    [unfold roomy; cbn; lia|constructor|apply Forall_true; intros ? ? Hx; by apply not_elem_of_nil in Hx|].
  split_and!; [done|done|]. intros x Hx. destruct (Hc x Hx) as [Hx'|(e & He & Hx')]; [by apply not_elem_of_nil in Hx'|].
  clear -He Hx'. induction He as [e l|e e' l He IH]; cbn [kg_ecam_find]; [by rewrite Hx'|].
  destruct (ecam_covers _ _ e'); [done|by apply IH].
Qed.

(** ** What a scan finds: completeness, on hardware that keeps still *)
Section complete.
Context `{PciEnv}.
Definition still : Prop := ∀ t a, ioremap t a = ioremap 0 a.

Definition ents_of (e : kg_ecam_seg) (bus : Z) : list kg_pci_ent :=
  match kg_ecam_map 0 e bus with None => [] | Some m => bus_ents e bus m end.
Definition secs_of (e : kg_ecam_seg) (bus : Z) : list Z :=
  match kg_ecam_map 0 e bus with None => [] | Some m => bus_secs e bus m end.

(** The buses the bridges route to, by depth. *)
Inductive bus_at (e : kg_ecam_seg) : nat → Z → Prop :=
  | at_root : bus_at e 0 (es_bus_start e)
  | at_secondary d b sec : bus_at e d b → sec ∈ secs_of e b → bus_at e (S d) sec.
Definition routed (e : kg_ecam_seg) : Prop := ∀ d d' b, bus_at e d b → bus_at e d' b → d = d'.

Context (Hstill : still).
Lemma map_still t e b : kg_ecam_map t e b = kg_ecam_map 0 e b.
Proof. unfold kg_ecam_map. apply Hstill. Qed.
Lemma visit_secs_still e b s : visit_secs e b s = secs_of e b.
Proof. unfold visit_secs, secs_of. by rewrite map_still. Qed.

Lemma bus_at_in_seg e d b : seg_ok e → bus_at e d b → in_seg e b.
Proof.
  intros He Hb. induction Hb as [|d b sec Hb IH Hs]; [split; [lia|done]|].
  apply (visit_secs_in_seg e b (Scan [] ∅ 0)); [done|]. by rewrite visit_secs_still.
Qed.

(** What a piece of the walk adds: buses that are routed, whose own secondaries are added too
    unless the depth bound stops it. *)
Record closes (e : kg_ecam_seg) (s s' : scan) : Prop := Closes {
  cl_grow : sc_visited s ⊆ sc_visited s';
  cl_new : ∀ b, b ∈ sc_visited s' → b ∉ sc_visited s → ∃ d, bus_at e d b ∧ (d < KG_MAX_DEPTH)%nat
           ∧ ((S d < KG_MAX_DEPTH)%nat → ∀ sec, sec ∈ secs_of e b → sec ∈ sc_visited s')
}.
Lemma closes_refl e s : closes e s s.
Proof. constructor; [done|]. intros b ? ?. done. Qed.
Lemma closes_trans e s1 s2 s3 : closes e s1 s2 → closes e s2 s3 → closes e s1 s3.
Proof.
  intros [Ha Hb] [Hc Hd]. constructor; [set_solver|]. intros b Hb3 Hb1.
  destruct (decide (b ∈ sc_visited s2)) as [Hin|Hout]; [|by apply Hd].
  destruct (Hb b Hin Hb1) as (d & Hat & Hd8 & Hs). exists d. split_and!; [done|done|]. intros Hlt sec Hsec.
  apply Hc. by apply Hs.
Qed.

Lemma walk_closes e n : ∀ d b s,
  seg_ok e → roomy s → bus_at e d b → (d + n)%nat = KG_MAX_DEPTH →
  let s' := kg_walk_bus n e b s in
  roomy s' ∧ closes e s s' ∧ (n ≠ O → b ∈ sc_visited s').
Proof.
  induction n as [|n IH]; intros d b s He Hr Hat Hd; [split_and!; [done|apply closes_refl|done]|].
  rewrite walk_step by done. case_bool_decide as Hv; [split_and!; [done|apply closes_refl|done]|].
  cbv zeta. rewrite visit_secs_still.
  assert (Hgo : ∀ secs t, (∀ sec, sec ∈ secs → sec ∈ secs_of e b) → roomy t →
    let t' := foldl (λ s sec, kg_walk_bus n e sec s) t secs in
    roomy t' ∧ closes e t t' ∧ (n ≠ O → ∀ sec, sec ∈ secs → sec ∈ sc_visited t')).
  { induction secs as [|sec secs IHs]; intros t Hsub Ht; cbn [foldl].
    { split_and!; [done|apply closes_refl|]. intros _ ? Hx. by apply not_elem_of_nil in Hx. }
    destruct (IH (S d) sec t He Ht) as (Hr1 & Hc1 & Hv1); [|lia|].
    { eapply at_secondary; [done|]. apply Hsub. by left. }
    destruct (IHs (kg_walk_bus n e sec t)) as (Hr2 & Hc2 & Hv2); [|done|].
    { intros x Hx. apply Hsub. by right. }
    split_and!; [done|by eapply closes_trans|]. intros Hn x [->|Hx]%elem_of_cons; [|by apply Hv2].
    apply (cl_grow _ _ _ Hc2). by apply Hv1. }
  destruct (Hgo (secs_of e b) (visit e b s)) as (Hr' & [Hg Hnew] & Hs); [done|by apply visit_roomy|].
  assert (Hbv : b ∈ sc_visited (visit e b s)) by (unfold visit; cbn; set_solver).
  split_and!; [done| |intros _; by apply Hg]. constructor.
  - unfold visit in Hg. cbn [sc_visited] in Hg. set_solver.
  - intros x Hx Hxs. destruct (decide (x = b)) as [->|Hne].
    + exists d. split_and!; [done|lia|]. intros Hlt sec Hsec. apply Hs; [lia|done].
    + apply Hnew; [done|]. unfold visit. cbn [sc_visited]. set_solver.
Qed.

(** The functions of a visited bus are in the table, if it has room. *)
Definition recorded (e : kg_ecam_seg) (s : scan) : Prop :=
  ∀ b x, b ∈ sc_visited s → x ∈ ents_of e b → x ∈ sc_cur s ∨ length (sc_cur s) = KG_MAX_PCI.
Definition extends (s0 s : scan) : Prop := sc_cur s0 `prefix_of` sc_cur s ∧ sc_visited s0 ⊆ sc_visited s.

Lemma visit_prefix e b s : roomy s → sc_cur s `prefix_of` sc_cur (visit e b s).
Proof.
  intros Hr. unfold visit. cbn [sc_cur]. destruct (kg_ecam_map _ _ _); [|done].
  rewrite take_app. rewrite take_ge by done. by apply prefix_app_r.
Qed.
Lemma in_or_full {A} (x : A) l l' cap :
  l `prefix_of` l' → (length l' ≤ cap)%nat → x ∈ l ∨ length l = cap → x ∈ l' ∨ length l' = cap.
Proof.
  intros Hp Hl [Hx|Hx].
  - left. destruct Hp as [k ->]. set_solver.
  - right. apply prefix_length in Hp. lia.
Qed.

Lemma visit_recorded e b s : roomy s → recorded e s → recorded e (visit e b s).
Proof.
  intros Hr Hrec c x Hc Hx. destruct (decide (c = b)) as [->|Hne].
  - unfold ents_of in Hx. unfold visit. cbn [sc_cur]. rewrite map_still.
    destruct (kg_ecam_map 0 e b) as [m|]; [|by apply not_elem_of_nil in Hx].
    destruct (decide (KG_MAX_PCI ≤ length (sc_cur s ++ bus_ents e b m))%nat) as [Hf|Hf].
    + right. rewrite length_take. lia.
    + left. rewrite take_ge by lia. apply elem_of_app. by right.
  - apply (in_or_full _ (sc_cur s)); [by apply visit_prefix|by apply visit_roomy|].
    apply (Hrec c); [|done]. unfold visit in Hc. cbn [sc_visited] in Hc. set_solver.
Qed.

Lemma segment_recorded e s :
  seg_ok e → roomy s → routed e →
  ∀ d b x, bus_at e d b → (d < KG_MAX_DEPTH)%nat → x ∈ ents_of e b →
  x ∈ sc_cur (scan_segment s e) ∨ length (sc_cur (scan_segment s e)) = KG_MAX_PCI.
Proof.
  intros He Hr Hrt d b x Hat Hd Hx. unfold scan_segment.
  set (s0 := Scan (sc_cur s) ∅ (sc_time s)).
  destruct (walk_closes e KG_MAX_DEPTH 0 (es_bus_start e) s0) as (Hr1 & [_ Hnew] & Hroot);
    [done|done|constructor|done|].
  destruct (walk_ind (recorded e) e KG_MAX_DEPTH (es_bus_start e) s0) as [_ Hrec1].
  { intros. by apply visit_recorded. }
  { split; [lia|done]. }
  { done. }
  { intros c y Hc. by apply not_elem_of_empty in Hc. }
  set (s1 := kg_walk_bus KG_MAX_DEPTH e (es_bus_start e) s0) in *.
  assert (Hin : b ∈ sc_visited s1).
  { clear Hx. revert Hd. induction Hat as [|d b sec Hat IH Hs]; intros Hd; [by apply Hroot|].
    destruct (Hnew b) as (d' & Hat' & _ & Hsecs); [apply IH; lia|apply not_elem_of_empty|].
    rewrite (Hrt d' d b Hat' Hat) in Hsecs. by apply Hsecs. }
  destruct (roots_ind (λ u, recorded e u ∧ sc_visited s1 ⊆ sc_visited u) e (pci_buses (sc_time s1))
              (Scan (sc_cur s1) (sc_visited s1) (S (sc_time s1)))) as [_ [Hrec Hsub]].
  { intros c u _ _ Hu [Hru Hsu]. split; [by apply visit_recorded|]. unfold visit. cbn. set_solver. }
  { done. }
  { split; [exact Hrec1|done]. }
  apply (Hrec b x); [by apply Hsub|done].
Qed.

Lemma segment_prefix e s :
  seg_ok e → roomy s → roomy (scan_segment s e) ∧ sc_cur s `prefix_of` sc_cur (scan_segment s e).
Proof.
  intros He Hr. apply (segment_ind (λ u, sc_cur s `prefix_of` sc_cur u)); [|done|done|done|done].
  intros b u _ _ Hu Hp. etrans; [exact Hp|]. by apply visit_prefix.
Qed.
Lemma segments_prefix ecam : ∀ s,
  Forall seg_ok ecam → roomy s →
  roomy (foldl scan_segment s ecam) ∧ sc_cur s `prefix_of` sc_cur (foldl scan_segment s ecam).
Proof.
  induction ecam as [|e ecam IH]; intros s Hok Hr; [done|]. inversion Hok; subst. cbn [foldl].
  destruct (segment_prefix e s) as [Hr1 Hp1]; [done|done|]. destruct (IH (scan_segment s e)) as [Hr2 Hp2]; [done|done|].
  split; [done|by etrans].
Qed.

Lemma scan_recorded ecam : ∀ e s d b x,
  Forall seg_ok ecam → roomy s → e ∈ ecam → routed e → bus_at e d b → (d < KG_MAX_DEPTH)%nat → x ∈ ents_of e b →
  let s' := foldl scan_segment s ecam in x ∈ sc_cur s' ∨ length (sc_cur s') = KG_MAX_PCI.
Proof.
  induction ecam as [|e' ecam IH]; intros e s d b x Hok Hr He Hrt Hat Hd Hx; [by apply not_elem_of_nil in He|].
  inversion Hok as [|? ? He' Hok']; subst. cbn [foldl]. destruct (segment_prefix e' s He' Hr) as [Hr1 _].
  apply elem_of_cons in He as [->|He]; [|by eapply IH].
  destruct (segments_prefix ecam (scan_segment s e') Hok' Hr1) as [Hr2 Hp2].
  eapply in_or_full; [exact Hp2|exact Hr2|]. by eapply segment_recorded.
Qed.
End complete.

(** On hardware that does not change during the scan, every function that answers on a
    bus the bridges route to, up to eight bridges below the root, is in the table, unless
    the table is full: nothing the configuration space shows is passed over.  A slot's
    functions are those of [slot_fns], and a bus has at most 32 bridges followed. *)
Theorem scan_finds_routed `{PciEnv} ecam t e d b x :
  still → Forall seg_ok ecam → e ∈ ecam → routed e → bus_at e d b → (d ≤ 8)%nat → x ∈ ents_of e b →
  let cur := (kg_scan_ecam ecam t).1 in x ∈ cur ∨ length cur = KG_MAX_PCI.
Proof.
  intros Hst Hok He Hrt Hat Hd Hx. unfold kg_scan_ecam. cbn [fst].
  apply (scan_recorded Hst ecam e (Scan [] ∅ t) d b x); try done.
  - unfold roomy. cbn. lia.
  - unfold KG_MAX_DEPTH. lia.
Qed.

(** A host bridge and a PCI bridge on bus 0, a disk controller with bus mastering on bus 1. *)
Definition cfg_bytes (l : list (Z * Z)) (o : Z) : Z :=
  match list_find (λ p, p.1 = o) l with Some (_, p) => p.2 | None => 0xff end.
Definition sample_bus0 : Z → Z :=
  cfg_bytes [(0, 0x86); (1, 0x80); (2, 0x01); (3, 0x00); (4, 0); (5, 0); (8, 0); (9, 0); (10, 0); (11, 6); (14, 0);
             (0x8000, 0x86); (0x8001, 0x80); (0x8002, 0x02); (0x8003, 0); (0x8004, 6); (0x8005, 0);
             (0x8008, 0); (0x8009, 0); (0x800a, 4); (0x800b, 6); (0x800e, 1); (0x8019, 1)].
Definition sample_bus1 : Z → Z :=
  cfg_bytes [(0, 0x4d); (1, 0x14); (2, 0x08); (3, 0xa8); (4, 6); (5, 4); (8, 0); (9, 2); (10, 8); (11, 1); (14, 0)].
Definition sample_seg : kg_ecam_seg := EcamSeg 0xe0000000 0 0 255.
Definition sample_pci (devs : list pci_dev) : PciEnv := {|
  acpi_disabled := false;
  acpi_mcfg := Some (60, λ _, McfgAlloc 0xe0000000 0 0 255);
  ioremap _ a := if a =? 0xe0000000 then Some sample_bus0
                 else if a =? 0xe0100000 then Some sample_bus1 else None;
  pci_buses _ := [PciBus false 0 0; PciBus true 0 1];
  pci_devs _ := devs;
  pci_get_domain_bus_and_slot _ seg bus devfn :=
    snd <$> list_find (λ d, pd_domain d = seg ∧ pd_bus d = bus ∧ pd_devfn d = devfn) devs
|}.
Definition sample_disk : kg_pci_ent := PciEnt 0 1 0 0 0x144d 0xa808 0x01080200 0x406 0 true.

Lemma sample_bus_at devs d b :
  @bus_at (sample_pci devs) sample_seg d b → (d = 0%nat ∧ b = 0) ∨ (d = 1%nat ∧ b = 1).
Proof.
  intros Hat. induction Hat as [|d b sec Hat IH Hs]; [by left|]. destruct IH as [[-> ->]|[-> ->]].
  - change (secs_of sample_seg 0) with (@secs_of (sample_pci []) sample_seg 0) in Hs.
    replace (@secs_of (sample_pci []) sample_seg 0) with [1] in Hs by (vm_compute; reflexivity).
    apply list_elem_of_singleton in Hs as ->. by right.
  - change (secs_of sample_seg 1) with (@secs_of (sample_pci []) sample_seg 1) in Hs.
    replace (@secs_of (sample_pci []) sample_seg 1) with (@nil Z) in Hs by (vm_compute; reflexivity).
    by apply not_elem_of_nil in Hs.
Qed.
Lemma sample_routed devs : @routed (sample_pci devs) sample_seg.
Proof. intros d d' b Hb Hb'. apply sample_bus_at in Hb, Hb'. lia. Qed.
Lemma sample_disk_at devs :
  @bus_at (sample_pci devs) sample_seg 1 1 ∧ sample_disk ∈ @ents_of (sample_pci devs) sample_seg 1.
Proof.
  split.
  - apply (@at_secondary _ _ 0 0); [apply at_root|].
    replace (secs_of sample_seg 0) with [1] by (vm_compute; reflexivity). by left.
  - replace (ents_of sample_seg 1) with [sample_disk] by (vm_compute; reflexivity). by left.
Qed.
Lemma sample_scan devs t :
  (@kg_scan_ecam (sample_pci devs) [sample_seg] t).1
  = [PciEnt 0 0 0 0 0x8086 1 0x06000000 0 0 true; PciEnt 0 0 1 0 0x8086 2 0x06040000 6 1 true; sample_disk].
Proof. vm_compute. reflexivity. Qed.

Lemma scan_finds_routed_witness :
  let cur := (@kg_scan_ecam (sample_pci []) [sample_seg] 0).1 in
  sample_disk ∈ cur ∨ length cur = KG_MAX_PCI.
Proof.
  apply (@scan_finds_routed (sample_pci []) [sample_seg] 0 sample_seg 1 1 sample_disk).
  - intros t a. reflexivity.
  - apply Forall_singleton. by compute.
  - apply list_elem_of_singleton. reflexivity.
  - apply sample_routed.
  - apply sample_disk_at.
  - lia.
  - apply sample_disk_at.
Defined.
Lemma scan_distinct_witness :
  NoDup (dev_key <$> (@kg_scan_ecam (sample_pci []) [sample_seg] 0).1).
Proof.
  apply (@scan_distinct (sample_pci []) [sample_seg] 0).
  - apply Forall_singleton. by compute.
  - repeat constructor.
Defined.
