(* ===== verification/Hw.v ===== *)
(** * Module 2: PCI cross-check and DMA audit (linux/module/kg_hw.c, from kg_suspect_report on)

    The table of PciScan.v is compared with the PCI core's view and audited for bus masters
    that nobody authorised.  A discrepancy is reported when two consecutive scans see it; an
    unauthorised bus master is reported once, and loses bus mastering at every pass while the
    posture enforces.  Writes to the hardware are collected in [h_ops]. *)
From stdpp Require Import gmap.
From S2P Require Import Prelude Uapi Kernel Machine Guard Registry Comms Posture Sched Advance Modgate PciScan.
Local Open Scope Z_scope.

Definition KG_PCI_HIDDEN_FROM_OS : Z := 1.
Definition KG_PCI_MISSING_IN_HW : Z := 2.
Definition KG_PCI_IDENTITY_MISMATCH : Z := 3.

Record kg_suspect := Suspect { su_e : kg_pci_ent; su_kind : Z; su_seen : Z; su_reported : bool }.
Definition zero_suspect : kg_suspect := Suspect zero_ent 0 0 false.
#[export] Instance kg_suspect_inhabited : Inhabited kg_suspect := populate zero_suspect.

Record kg_dma_rec := DmaRec { dr_e : kg_pci_ent; dr_alerted : bool; dr_cleared : bool }.

(** What the audit does to the hardware: [pci_clear_master] of a device of the PCI core, or a
    16-bit write into a configuration window. *)
Inductive pci_op :=
  | ClearMaster (d : pci_dev)
  | WriteW (seg : kg_ecam_seg) (bus : Z) (off : Z) (v : Z).

(** The statics of kg_hw.c but the flag that accepts kicks, which is in [monitors]. *)
Record kg_hw := Hw {
  h_ecam : list kg_ecam_seg;
  h_cur : option (list kg_pci_ent);       (* kg_cur, its first kg_ncur entries; None for NULL *)
  h_base : list kg_pci_ent;
  h_susp : list kg_suspect;
  h_recs : list kg_dma_rec;
  h_running : bool;
  h_nb_registered : bool;
  h_time : nat;
  h_ops : list pci_op
}.
Definition kg_hw_ecam_active (h : kg_hw) : bool := h_running h && negb (length (h_ecam h) =? 0)%nat.
Definition kg_hw_device_count (h : kg_hw) : Z := zlen (default [] (h_cur h)).

Definition set_hw_stop (b : bool) (w : world) : world :=
  let m := wmon w in set_mon (Monitors (kg_input_running m) (kg_input_stop m) b (kg_integ_stop m)) w.

(** ** Text of the audit: "%04x" and the like *)
Definition hex_char (d : Z) : Z := if d <? 10 then 48 + d else 87 + d.
Fixpoint hex_digits (fuel : nat) (v : Z) (acc : list Z) : list Z :=
  match fuel with
  | O => acc
  | S fuel => let acc := hex_char (v mod 16) :: acc in
              if v / 16 =? 0 then acc else hex_digits fuel (v / 16) acc
  end.
(** [v] in hexadecimal, at least [width] characters; eight digits hold an [unsigned int]. *)
Definition print_hex (width : nat) (v : Z) : list Z :=
  let d := hex_digits 8 v [] in replicate (width - length d) 48 ++ d.
Definition print_bdf (e : kg_pci_ent) : list Z :=
  print_hex 4 (pe_seg e) ++ [58] ++ print_hex 2 (pe_bus e) ++ [58] ++ print_hex 2 (pe_dev e) ++ [46]
  ++ print_hex 1 (pe_fn e).
Definition print_id (e : kg_pci_ent) : list Z := print_hex 4 (pe_vid e) ++ [58] ++ print_hex 4 (pe_did e).

Section cross_check.
Context `{Crypto} `{Platform} `{PciEnv}.

Definition kg_suspect_report (s : kg_suspect) (w : world) : option (kg_suspect * world) :=
  let p2 := Z.lor (Z.shiftl (su_kind s) 32) (Z.lor (Z.shiftl (pe_vid (su_e s)) 16) (pe_did (su_e s))) in
  w ← report KG_ALERT_PCI_DISCREPANCY
        (if su_kind s =? KG_PCI_IDENTITY_MISMATCH then KG_LEVEL_CRITICAL else KG_LEVEL_WATCH)
        (kg_bdf (su_e s)) p2 (kg_stat_inc hw_discrepancy_count w);
  Some (Suspect (su_e s) (su_kind s) (su_seen s) true, w).

(** The loop of kg_note_suspect: the slot of this discrepancy, or the first free one. *)
Fixpoint find_suspect (e : kg_pci_ent) (kind : Z) (i : nat) (l : list kg_suspect) (free : option nat)
  : nat + option nat :=
  match l with
  | [] => inr free
  | s :: l =>
    if su_seen s =? 0 then find_suspect e kind (S i) l (match free with None => Some i | _ => free end)
    else if (su_kind s =? kind) && kg_same_dev (su_e s) e then inl i
    else find_suspect e kind (S i) l free
  end.

(** The suspects and the [touched] flags of this check. *)
Definition suspects : Type := list kg_suspect * list bool.

Definition kg_note_suspect (e : kg_pci_ent) (kind : Z) (st : suspects) (w : world)
  : option (suspects * world) :=
  let '(l, touched) := st in
  match find_suspect e kind 0 l None with
  | inl i =>
    let s := l !!! i in
    let s := if su_seen s <? 255 then Suspect (su_e s) (su_kind s) (su_seen s + 1) (su_reported s) else s in
    '(s, w) ← (if (2 <=? su_seen s) && negb (su_reported s) then kg_suspect_report s w else Some (s, w));
    Some ((<[i := s]> l, <[i := true]> touched), w)
  | inr (Some i) => Some ((<[i := Suspect e kind 1 false]> l, <[i := true]> touched), w)
  | inr None => Some (st, w)
  end.

(** hardware -> OS *)
Fixpoint check_hw (es : list kg_pci_ent) (t : nat) (st : suspects) (w : world)
  : option (nat * suspects * world) :=
  match es with
  | [] => Some (t, st, w)
  | e :: es =>
    '(st, w) ←
      match pci_get_domain_bus_and_slot t (pe_seg e) (pe_bus e) (PCI_DEVFN (pe_dev e) (pe_fn e)) with
      | None => kg_note_suspect e KG_PCI_HIDDEN_FROM_OS st w
      | Some d =>
        if negb (pd_vendor d =? pe_vid e) || negb (pd_device d =? pe_did e)
           || negb (Z.shiftr (pd_class d) 8 =? Z.shiftr (pe_class_rev e) 16)
        then kg_note_suspect e KG_PCI_IDENTITY_MISMATCH st w else Some (st, w)
      end;
    check_hw es (S t) st w
  end.

Definition os_probe (d : pci_dev) : kg_pci_ent :=
  PciEnt (u16 (pd_domain d)) (pd_bus d) (PCI_SLOT (pd_devfn d)) (PCI_FUNC (pd_devfn d))
         (pd_vendor d) (pd_device d) 0 0 0 false.

(** OS -> hardware *)
Fixpoint check_os (ecam : list kg_ecam_seg) (cur : list kg_pci_ent) (ds : list pci_dev) (st : suspects)
  (w : world) : option (suspects * world) :=
  match ds with
  | [] => Some (st, w)
  | d :: ds =>
    '(st, w) ←
      (if pd_is_virtfn d || kg_pdev_powered_off d then Some (st, w)
       else
         let probe := os_probe d in
         match kg_ecam_find ecam (pe_seg probe) (pe_bus probe) with
         | None => Some (st, w)
         | Some _ =>
           if existsb (λ x, kg_same_dev x probe) cur then Some (st, w)
           else kg_note_suspect probe KG_PCI_MISSING_IN_HW st w
         end);
    check_os ecam cur ds st w
  end.

Definition settle (s : kg_suspect) (touched : bool) : kg_suspect :=
  if negb (su_seen s =? 0) && negb touched then zero_suspect else s.

Definition kg_cross_check (h : kg_hw) (w : world) : option (kg_hw * world) :=
  let cur := default [] (h_cur h) in
  '(t, st, w) ← check_hw cur (h_time h) (h_susp h, replicate KG_MAX_SUSPECT false) w;
  '((l, touched), w) ← check_os (h_ecam h) cur (pci_devs t) st w;
  Some (Hw (h_ecam h) (h_cur h) (h_base h) (zip_with settle l touched) (h_recs h) (h_running h)
           (h_nb_registered h) (S t) (h_ops h), w).
End cross_check.

Section dma_audit.
Context `{Crypto} `{Platform} `{PciEnv}.
Context (kg_dma_allow : list Z).

Definition kg_dma_authorized (base : list kg_pci_ent) (e : kg_pci_ent) : option bool :=
  if existsb (λ b, kg_same_identity b e) base then Some true
  else
    a ← kg_list_contains kg_dma_allow (print_bdf e);
    if (a : bool) then Some true else kg_list_contains kg_dma_allow (print_id e).

Definition kg_iommu_protected (d : pci_dev) : bool :=
  match pd_iommu d with Some ty => negb (ty =? IOMMU_DOMAIN_IDENTITY) | None => false end.

Definition master_bit (cmd : Z) : bool := negb (Z.land cmd PCI_COMMAND_MASTER =? 0).
Definition command_off (e : kg_pci_ent) : Z := cfg_offset (pe_dev e) (pe_fn e) + PCI_COMMAND.

(** Each returns the number of questions asked so far, too. *)
Definition kg_bme_now (ecam : list kg_ecam_seg) (e : kg_pci_ent) (t : nat) : bool * nat :=
  match kg_ecam_find ecam (pe_seg e) (pe_bus e) with
  | None => (false, t)
  | Some seg =>
    match kg_ecam_map t seg (pe_bus e) with
    | None => (false, S t)
    | Some m => (master_bit (readw m (command_off e)), S t)
    end
  end.

Definition kg_ecam_clear_master (ecam : list kg_ecam_seg) (e : kg_pci_ent) (t : nat) (ops : list pci_op)
  : bool * nat * list pci_op :=
  match kg_ecam_find ecam (pe_seg e) (pe_bus e) with
  | None => (false, t, ops)
  | Some seg =>
    match kg_ecam_map t seg (pe_bus e) with
    | None => (false, S t, ops)
    | Some m =>
      let ops := ops ++ [WriteW seg (pe_bus e) (command_off e)
                           (u16 (Z.land (readw m (command_off e)) (Z.lnot PCI_COMMAND_MASTER)))] in
      let '(now, t) := kg_bme_now ecam e (S t) in
      (negb now, t, ops)
    end
  end.

Definition kg_disable_bme (ecam : list kg_ecam_seg) (e : kg_pci_ent) (pdev : option pci_dev) (t : nat)
  (ops : list pci_op) : bool * nat * list pci_op :=
  let ops := match pdev with Some d => ops ++ [ClearMaster d] | None => ops end in
  if (length ecam =? 0)%nat then (match pdev with Some _ => true | None => false end, t, ops)
  else
    let '(now, t) := kg_bme_now ecam e t in
    if negb now then (true, t, ops) else kg_ecam_clear_master ecam e t ops.

Fixpoint rec_index (e : kg_pci_ent) (i : nat) (l : list kg_dma_rec) : option nat :=
  match l with
  | [] => None
  | r :: l => if kg_same_identity (dr_e r) e then Some i else rec_index e (S i) l
  end.
Definition kg_dma_rec_get (e : kg_pci_ent) (recs : list kg_dma_rec) : option nat * list kg_dma_rec :=
  match rec_index e 0 recs with
  | Some i => (Some i, recs)
  | None =>
    if (KG_MAX_SUSPECT <=? length recs)%nat then (None, recs)
    else (Some (length recs), recs ++ [DmaRec e false false])
  end.

Definition kg_dma_rec_prune (cur : list kg_pci_ent) (recs : list kg_dma_rec) : list kg_dma_rec :=
  filter (λ r, existsb (λ x, kg_same_identity x (dr_e r)) cur = true) recs.

(** The audit's own state: records, questions asked, writes. *)
Record audit := Audit { au_recs : list kg_dma_rec; au_time : nat; au_ops : list pci_op }.

Definition rec_at (i : option nat) (l : list kg_dma_rec) : option kg_dma_rec := i ← i; l !! i.
Definition audit_p2 (e : kg_pci_ent) : Z := Z.lor (Z.shiftl (pe_vid e) 16) (pe_did e).
Definition exposed_dev (pdev : option pci_dev) : bool :=
  match pdev with Some d => pd_untrusted d || pd_external_facing d || pd_thunderbolt d | None => false end.
Definition open_dma (pdev : option pci_dev) : bool :=
  match pdev with Some d => negb (kg_iommu_protected d) | None => true end.
Definition alert_level (pdev : option pci_dev) : Z :=
  if exposed_dev pdev && open_dma pdev then KG_LEVEL_CRITICAL else KG_LEVEL_WATCH.

(** The alert: raised unless the device has a record that says it was. *)
Definition audit_alert (e : kg_pci_ent) (pdev : option pci_dev) (i : option nat) (recs : list kg_dma_rec)
  (w : world) : option (list kg_dma_rec * world) :=
  match rec_at i recs with
  | Some (DmaRec re false rc) =>
    w ← report KG_ALERT_UNAUTHORIZED_DMA (alert_level pdev) (kg_bdf e) (audit_p2 e)
          (kg_stat_inc hw_dma_violation_count w);
    Some (<[default O i := DmaRec re true rc]> recs, w)
  | _ => Some (recs, w)
  end.

(** The enforcement: applied at every pass, announced once. *)
Definition audit_enforce (ecam : list kg_ecam_seg) (e : kg_pci_ent) (pdev : option pci_dev)
  (i : option nat) (a : audit) (w : world) : option (audit * world) :=
  if kg_enforcing w then
    let '(ok, t, ops) := kg_disable_bme ecam e pdev (au_time a) (au_ops a) in
    if (ok : bool) then
      match rec_at i (au_recs a) with
      | Some (DmaRec re ra false) =>
        w ← report KG_ALERT_DEVICE_BME_DISABLED KG_LEVEL_CRITICAL (kg_bdf e) (audit_p2 e) w;
        Some (Audit (<[default O i := DmaRec re ra true]> (au_recs a)) t ops, w)
      | _ => Some (Audit (au_recs a) t ops, w)
      end
    else Some (Audit (au_recs a) t ops, w)
  else Some (a, w).

(** Endpoints that master the bus. *)
Definition audited (e : kg_pci_ent) : bool :=
  (Z.land (pe_hdr e) 0x7f =? PCI_HEADER_TYPE_NORMAL) && master_bit (pe_cmd e).

Definition audit_one (ecam : list kg_ecam_seg) (base : list kg_pci_ent) (e : kg_pci_ent) (a : audit)
  (w : world) : option (audit * world) :=
  if negb (audited e) then Some (a, w)
  else
    auth ← kg_dma_authorized base e;
    if (auth : bool) then Some (a, w)
    else
      let pdev := pci_get_domain_bus_and_slot (au_time a) (pe_seg e) (pe_bus e)
                    (PCI_DEVFN (pe_dev e) (pe_fn e)) in
      let '(i, recs) := kg_dma_rec_get e (au_recs a) in
      '(recs, w) ← audit_alert e pdev i recs w;
      audit_enforce ecam e pdev i (Audit recs (S (au_time a)) (au_ops a)) w.

Fixpoint audit_all (ecam : list kg_ecam_seg) (base : list kg_pci_ent) (es : list kg_pci_ent) (a : audit)
  (w : world) : option (audit * world) :=
  match es with
  | [] => Some (a, w)
  | e :: es => '(a, w) ← audit_one ecam base e a w; audit_all ecam base es a w
  end.

Definition kg_dma_audit (h : kg_hw) (w : world) : option (kg_hw * world) :=
  let cur := default [] (h_cur h) in
  '(a, w) ← audit_all (h_ecam h) (h_base h) cur (Audit (h_recs h) (h_time h) (h_ops h)) w;
  Some (Hw (h_ecam h) (h_cur h) (h_base h) (h_susp h) (kg_dma_rec_prune cur (au_recs a)) (h_running h)
           (h_nb_registered h) (au_time a) (au_ops a), w).

(** ** Baseline *)
Definition baseline_add (base : list kg_pci_ent) (d : pci_dev) : list kg_pci_ent :=
  if pd_is_virtfn d then base
  else if existsb (λ b, kg_same_identity b (os_probe d)) base then base
  else if (length base <? KG_MAX_PCI)%nat then base ++ [os_probe d] else base.
Definition kg_baseline_add_os_view (ds : list pci_dev) (base : list kg_pci_ent) : list kg_pci_ent :=
  foldl baseline_add base ds.

(** ** Worker, notifier, init and exit *)
Definition rescan (h : kg_hw) : kg_hw :=
  let '(cur, t) := if (length (h_ecam h) =? 0)%nat then kg_scan_os (h_time h)
                   else kg_scan_ecam (h_ecam h) (h_time h) in
  Hw (h_ecam h) (Some cur) (h_base h) (h_susp h) (h_recs h) (h_running h) (h_nb_registered h) t (h_ops h).

Definition kg_hw_scan (h : kg_hw) (w : world) : option (kg_hw * world) :=
  let h := rescan h in
  '(h, w) ← (if (length (h_ecam h) =? 0)%nat then Some (h, w) else kg_cross_check h w);
  kg_dma_audit h w.

Definition requeue_hw (w : world) : world :=
  queue_delayed_work HwWork (msecs (kg_scan_ms (kg_hw_interval_ms (wpar w)) w)) w.

Definition kg_hw_workfn (h : kg_hw) (w : world) : option (kg_hw * world) :=
  '(h, w) ← kg_hw_scan h w;
  Some (h, if negb (kg_hw_stop (wmon w)) then requeue_hw w else w).

Inductive bus_action := BUS_NOTIFY_ADD_DEVICE | BUS_NOTIFY_BOUND_DRIVER | BUS_NOTIFY_OTHER (a : Z).
Definition kg_pci_notify (a : bus_action) (w : world) : world :=
  match a with
  | BUS_NOTIFY_ADD_DEVICE | BUS_NOTIFY_BOUND_DRIVER =>
    if negb (kg_hw_stop (wmon w)) then mod_delayed_work HwWork (msecs 300) w else w
  | BUS_NOTIFY_OTHER _ => w
  end.

(** [cur_ok] and [base_ok]: the two tables could be allocated; [nb_ok]: the notifier could be
    registered. *)
Definition kg_hw_init (cur_ok base_ok nb_ok : bool) (h : kg_hw) (w : world)
  : option errno * kg_hw * world :=
  if negb cur_ok || negb base_ok then
    (Some ENOMEM,
     Hw (h_ecam h) None [] (h_susp h) (h_recs h) (h_running h) (h_nb_registered h) (h_time h) (h_ops h), w)
  else
    let '(ret, ecam) := kg_ecam_init (h_ecam h) in
    let ecam := match ret with Some _ => [] | None => ecam end in
    let h := rescan (Hw ecam (Some []) [] (h_susp h) (h_recs h) (h_running h) (h_nb_registered h)
                        (h_time h) (h_ops h)) in
    let base := default [] (h_cur h) in
    let '(base, t) := if (length ecam =? 0)%nat then (base, h_time h)
                      else (kg_baseline_add_os_view (pci_devs (h_time h)) base, S (h_time h)) in
    (None,
     Hw ecam (h_cur h) base (h_susp h) [] true (nb_ok || h_nb_registered h) t (h_ops h),
     requeue_hw (set_hw_stop false w)).

Definition kg_hw_exit (h : kg_hw) (w : world) : kg_hw * world :=
  if negb (h_running h) then (h, w)
  else (Hw (h_ecam h) None [] (h_susp h) (h_recs h) false (h_nb_registered h) (h_time h) (h_ops h),
        cancel_work HwWork (set_hw_stop true w)).
End dma_audit.

(** ** The discrepancies of one check, as a list *)
Definition note : Type := kg_pci_ent * Z.
Definition key : Type := Z * Z * Z * Z * Z.
Definition note_key (n : note) : key := (dev_key n.1, n.2).
Definition su_key (s : kg_suspect) : key := (dev_key (su_e s), su_kind s).
Definition in_use (s : kg_suspect) : Prop := su_seen s ≠ 0.
#[export] Instance in_use_dec s : Decision (in_use s).
Proof. unfold in_use. apply _. Defined.

Section notes.
Context `{PciEnv}.
Definition hw_note (t : nat) (e : kg_pci_ent) : list note :=
  match pci_get_domain_bus_and_slot t (pe_seg e) (pe_bus e) (PCI_DEVFN (pe_dev e) (pe_fn e)) with
  | None => [(e, KG_PCI_HIDDEN_FROM_OS)]
  | Some d =>
    if negb (pd_vendor d =? pe_vid e) || negb (pd_device d =? pe_did e)
       || negb (Z.shiftr (pd_class d) 8 =? Z.shiftr (pe_class_rev e) 16)
    then [(e, KG_PCI_IDENTITY_MISMATCH)] else []
  end.
Fixpoint hw_notes (t : nat) (es : list kg_pci_ent) : list note :=
  match es with [] => [] | e :: es => hw_note t e ++ hw_notes (S t) es end.
Definition os_note (ecam : list kg_ecam_seg) (cur : list kg_pci_ent) (d : pci_dev) : list note :=
  if pd_is_virtfn d || kg_pdev_powered_off d then []
  else match kg_ecam_find ecam (pe_seg (os_probe d)) (pe_bus (os_probe d)) with
       | None => []
       | Some _ => if existsb (λ x, kg_same_dev x (os_probe d)) cur then []
                   else [(os_probe d, KG_PCI_MISSING_IN_HW)]
       end.
(** Everything the two views disagree about in the check that starts at [h]. *)
Definition discrepancies (h : kg_hw) : list note :=
  let cur := default [] (h_cur h) in
  hw_notes (h_time h) cur ++ (pci_devs (h_time h + length cur) ≫= os_note (h_ecam h) cur).
End notes.

Section note_all.
Context `{Crypto} `{Platform} `{PciEnv}.
Fixpoint note_all (ns : list note) (st : suspects) (w : world) : option (suspects * world) :=
  match ns with
  | [] => Some (st, w)
  | n :: ns => '(st, w) ← kg_note_suspect n.1 n.2 st w; note_all ns st w
  end.

Lemma note_all_app ns ms : ∀ st w,
  note_all (ns ++ ms) st w = ('(st, w) ← note_all ns st w; note_all ms st w).
Proof.
  induction ns as [|n ns IH]; intros st w; [done|]. cbn [app note_all].
  destruct (kg_note_suspect _ _ _ _) as [[st1 w1]|]; [|done]. bind_simpl. apply IH.
Qed.

Lemma check_hw_notes es : ∀ t st w,
  check_hw es t st w = ('(st, w) ← note_all (hw_notes t es) st w; Some ((t + length es)%nat, st, w)).
Proof.
  induction es as [|e es IH]; intros t st w.
  - cbn. by rewrite Nat.add_0_r.
  - cbn [check_hw hw_notes length]. rewrite note_all_app, <- Nat.add_succ_comm.
    unfold hw_note. destruct (pci_get_domain_bus_and_slot _ _ _ _) as [d|].
    2:{ cbn [note_all fst snd]. destruct (kg_note_suspect _ _ _ _) as [[st1 w1]|]; [|done]. bind_simpl. apply IH. }
    destruct (_ || _); cbn [note_all fst snd]; [|bind_simpl; apply IH].
    destruct (kg_note_suspect _ _ _ _) as [[st1 w1]|]; [|done]. bind_simpl. apply IH.
Qed.

Lemma check_os_notes ecam cur ds : ∀ st w,
  check_os ecam cur ds st w = note_all (ds ≫= os_note ecam cur) st w.
Proof.
  induction ds as [|d ds IH]; intros st w; [done|]. cbn [check_os]. rewrite bind_cons, note_all_app.
  assert (Hone : ∀ n st w, note_all [n] st w = kg_note_suspect n.1 n.2 st w).
  { intros n st' w'. cbn [note_all]. by destruct (kg_note_suspect _ _ _ _) as [[? ?]|]. }
  assert (Hd : os_note ecam cur d = os_note ecam cur d) by done. unfold os_note in Hd at 2.
  rewrite Hd. clear Hd.
  destruct (_ || _); [bind_simpl; apply IH|]. cbv zeta.
  destruct (kg_ecam_find _ _ _); [|bind_simpl; apply IH].
  destruct (existsb _ _); [bind_simpl; apply IH|]. rewrite Hone. cbn [fst snd].
  destruct (kg_note_suspect _ _ _ _) as [[st1 w1]|]; [|done]. bind_simpl. apply IH.
Qed.

Lemma cross_check_notes h w :
  kg_cross_check h w =
  ('((l, touched), w) ← note_all (discrepancies h) (h_susp h, replicate KG_MAX_SUSPECT false) w;
   Some (Hw (h_ecam h) (h_cur h) (h_base h) (zip_with settle l touched) (h_recs h) (h_running h)
            (h_nb_registered h) (S (h_time h + length (default [] (h_cur h)))) (h_ops h), w)).
Proof.
  unfold kg_cross_check, discrepancies. rewrite check_hw_notes, note_all_app.
  destruct (note_all (hw_notes _ _) _ _) as [[st1 w1]|]; [|done]. bind_simpl. by rewrite check_os_notes.
Qed.
End note_all.

(** ** Noting one discrepancy *)
Definition nlive (l : list kg_suspect) : nat := length (filter in_use l).

Lemma nlive_insert l i s s' :
  l !! i = Some s → in_use s' →
  nlive (<[i := s']> l) = if decide (in_use s) then nlive l else S (nlive l).
Proof.
  unfold nlive. revert i. induction l as [|x l IH]; intros i Hi Hs'; [done|].
  destruct i as [|i]; simpl in Hi.
  - injection Hi as ->. change (<[0%nat := s']> (s :: l)) with (s' :: l). rewrite !filter_cons.
    destruct (decide (in_use s')); [|done]. by destruct (decide (in_use s)).
  - change (<[S i := s']> (x :: l)) with (x :: <[i := s']> l). rewrite !filter_cons.
    specialize (IH i Hi Hs'). destruct (decide (in_use x)), (decide (in_use s)); cbn [length]; by rewrite IH.
Qed.
Lemma nlive_full l : (∀ s, s ∈ l → in_use s) → nlive l = length l.
Proof.
  unfold nlive. induction l as [|x l IH]; intros Hl; [done|]. rewrite filter_cons.
  rewrite decide_True by (apply Hl; by left). cbn. f_equal. apply IH. intros s Hs. apply Hl. by right.
Qed.

Lemma find_suspect_spec e kind l : ∀ i free,
  match find_suspect e kind i l free with
  | inl j => ∃ k s, j = (i + k)%nat ∧ l !! k = Some s ∧ in_use s ∧ su_key s = (dev_key e, kind)
  | inr f =>
    (∀ s, s ∈ l → in_use s → su_key s ≠ (dev_key e, kind))
    ∧ match f with
      | Some j => free = Some j ∨ ∃ k s, j = (i + k)%nat ∧ l !! k = Some s ∧ ¬ in_use s
      | None => free = None ∧ ∀ s, s ∈ l → in_use s
      end
  end.
Proof.
  induction l as [|x l IH]; intros i free; cbn [find_suspect].
  { split; [intros s Hs; by apply not_elem_of_nil in Hs|]. destruct free as [j|]; [by left|].
    split; [done|]. intros s Hs. by apply not_elem_of_nil in Hs. }
  destruct (Z.eqb_spec (su_seen x) 0) as [Hx|Hx].
  - assert (Hdead : ¬ in_use x) by (intros Hl; by apply Hl).
    specialize (IH (S i) (match free with None => Some i | Some _ => free end)).
    destruct (find_suspect _ _ _ _ _) as [j|f].
    + destruct IH as (k & s & -> & Hk & Hs). exists (S k), s. split; [lia|]. done.
    + destruct IH as [Hno Hf]. split; [intros s [->|Hs]%elem_of_cons Hl; [done|by apply Hno]|].
      destruct f as [j|].
      * destruct Hf as [Hf|(k & s & -> & Hk & Hs)]; [|right; exists (S k), s; split; [lia|done]].
        destruct free as [j'|]; [by left|]. injection Hf as <-. right. exists 0%nat, x. split; [lia|done].
      * by destruct free, Hf.
  - destruct (_ && _) eqn:Em.
    + bool_props. exists 0%nat, x. split_and!; [lia|done|done|]. unfold su_key. f_equal; [|done].
      by apply same_dev_key.
    + specialize (IH (S i) free). destruct (find_suspect _ _ _ _ _) as [j|f].
      * destruct IH as (k & s & -> & Hk & Hs). exists (S k), s. split; [lia|done].
      * destruct IH as [Hno Hf]. split.
        { intros s [->|Hs]%elem_of_cons Hl Hkey; [|by eapply Hno]. unfold su_key in Hkey.
          injection Hkey as Hd Hk. assert (kg_same_dev (su_e x) e = true) as Hsd by (apply same_dev_key; unfold dev_key; congruence).
          rewrite Hsd in Em. bool_props. destruct Em as [Em|Em]; bool_props; done. }
        destruct f as [j|].
        { destruct Hf as [Hf|(k & s & -> & Hk & Hs)]; [by left|right; exists (S k), s; split; [lia|done]]. }
        { destruct Hf as [-> Hall]. split; [done|]. intros s [->|Hs]%elem_of_cons; [done|by apply Hall]. }
Qed.

(** The suspect table: 64 slots whose counters are bytes. *)
Definition susp_wf (l : list kg_suspect) : Prop :=
  length l = KG_MAX_SUSPECT ∧ Forall (λ s, is_u8 (su_seen s)) l.

(** What noting [k] does: it confirms the slot that has it, or takes a free one. *)
Inductive noted (k : key) (st : suspects) (w : world) (st' : suspects) (w' : world) : Prop :=
  | noted_again i s s' :
      st.1 !! i = Some s → in_use s → su_key s = k →
      st' = (<[i := s']> st.1, <[i := true]> st.2) →
      in_use s' → is_u8 (su_seen s') → su_key s' = k → su_reported s' = true →
      (su_reported s = true → w' = w) → noted k st w st' w'
  | noted_first i s e kind :
      (∀ s, s ∈ st.1 → in_use s → su_key s ≠ k) → k = (dev_key e, kind) →
      st.1 !! i = Some s → ¬ in_use s →
      st' = (<[i := Suspect e kind 1 false]> st.1, <[i := true]> st.2) → w' = w → noted k st w st' w'
  | noted_full :
      (∀ s, s ∈ st.1 → in_use s → su_key s ≠ k) → (∀ s, s ∈ st.1 → in_use s) → st' = st → w' = w →
      noted k st w st' w'.

Section note_spec.
Context `{CryptoLaws} `{Platform}.

Lemma suspect_report_spec s w :
  sound w →
  ∃ w', kg_suspect_report s w = Some (Suspect (su_e s) (su_kind s) (su_seen s) true, w') ∧ advances w w'
  ∧ (pos_ready (wpos w) = true → Z.min KG_POSTURE_ELEVATED (posture_cap w) ≤ kg_posture w').
Proof.
  intros Hw. unfold kg_suspect_report. cbv zeta.
  destruct (stat_report_advances hw_discrepancy_count KG_ALERT_PCI_DISCREPANCY
              (if su_kind s =? KG_PCI_IDENTITY_MISMATCH then KG_LEVEL_CRITICAL else KG_LEVEL_WATCH)
              (kg_bdf (su_e s))
              (Z.lor (Z.shiftl (su_kind s) 32) (Z.lor (Z.shiftl (pe_vid (su_e s)) 16) (pe_did (su_e s)))) w Hw)
    as (w' & -> & Ha & Hp). bind_simpl. exists w'. split; [done|]. split; [done|]. exact Hp.
Qed.

Lemma note_spec e kind st w :
  sound w → susp_wf st.1 →
  ∃ st' w', kg_note_suspect e kind st w = Some (st', w') ∧ advances w w'
  ∧ noted (dev_key e, kind) st w st' w'
  ∧ ((∃ s, s ∈ st.1 ∧ in_use s ∧ su_key s = (dev_key e, kind))
     → (∀ s, s ∈ st.1 → in_use s → su_key s = (dev_key e, kind) → su_reported s = false) → climbs KG_POSTURE_ELEVATED w w').
Proof.
  intros Hw [Hlen Hu8]. destruct st as [l touched]. cbn [fst] in *. unfold kg_note_suspect.
  pose proof (find_suspect_spec e kind l 0 None) as Hf.
  destruct (find_suspect e kind 0 l None) as [i|[i|]].
  - destruct Hf as (j & s & -> & Hj & Hlive & Hk). cbn [Nat.add].
    rewrite (list_lookup_total_correct _ _ _ Hj).
    assert (Hs8 : is_u8 (su_seen s)) by (by apply (Forall_lookup_1 _ _ _ _ Hu8 Hj)).
    set (s1 := if su_seen s <? 255 then _ else _).
    assert (Hs1 : 2 ≤ su_seen s1 < 256 ∧ su_key s1 = su_key s ∧ su_reported s1 = su_reported s).
    { unfold in_use in Hlive. unfold s1, is_u8 in *. destruct (Z.ltb_spec (su_seen s) 255); cbn; split_and!; try done; lia. }
    destruct Hs1 as (Hseen & Hkey1 & Hrep1). rewrite (proj2 (Z.leb_le _ _)) by lia. cbn [andb].
    destruct (su_reported s1) eqn:Er; cbn [negb].
    + bind_simpl. eexists _, w. split; [done|]. split; [by apply advances_refl|]. split.
      * eapply (noted_again _ _ _ _ _ j s s1); try done; [unfold in_use; lia|unfold is_u8; lia|by rewrite Hkey1].
      * intros _ Hall. rewrite (Hall s) in Hrep1 by (try done; by eapply list_elem_of_lookup_2). congruence.
    + destruct (suspect_report_spec s1 w Hw) as (w' & -> & Ha & Hp). bind_simpl.
      eexists _, w'. split; [done|]. split; [done|]. split.
      * eapply (noted_again _ _ _ _ _ j s); try done; cbn; [unfold in_use; cbn; lia|unfold is_u8; lia| |].
        { rewrite <- Hk, <- Hkey1. done. }
        { congruence. }
      * intros _ _. exact Hp.
  - destruct Hf as [Hno [?|(j & s & -> & Hj & Hdead)]]; [done|]. cbn [Nat.add].
    eexists _, w. split; [done|]. split; [by apply advances_refl|]. split.
    + by eapply (noted_first _ _ _ _ _ j s e kind).
    + intros (s' & Hs' & Hl & Hk). by destruct (Hno s').
  - destruct Hf as [Hno [_ Hall]]. eexists _, w. split; [done|]. split; [by apply advances_refl|]. split.
    + by apply noted_full.
    + intros (s' & Hs' & Hl & Hk). by destruct (Hno s').
Qed.
End note_spec.

(** ** A whole check: the table against the one it started from *)
Record tracks (l0 : list kg_suspect) (done : list key) (st : suspects) : Prop := Tracks {
  tr_wf : susp_wf st.1;
  tr_len : length st.2 = KG_MAX_SUSPECT;
  (* a slot touched holds something noted *)
  tr_touched : ∀ i, st.2 !! i = Some true → ∃ s, st.1 !! i = Some s ∧ in_use s ∧ su_key s ∈ done;
  (* a slot in use stays as it was, and a report is not forgotten *)
  tr_keep : ∀ i s0, l0 !! i = Some s0 → in_use s0 →
    ∃ s, st.1 !! i = Some s ∧ in_use s ∧ su_key s = su_key s0 ∧ (su_reported s0 = true → su_reported s = true);
  tr_same : ∀ i s0, l0 !! i = Some s0 → in_use s0 → su_key s0 ∉ done → st.1 !! i = Some s0;
  (* a slot newly in use holds something noted that no slot had *)
  tr_new : ∀ i s, st.1 !! i = Some s → in_use s →
    (∃ s0, l0 !! i = Some s0 ∧ in_use s0 ∧ su_key s0 = su_key s)
    ∨ su_key s ∈ done ∧ (∀ s0, s0 ∈ l0 → in_use s0 → su_key s0 ≠ su_key s);
  (* what was noted and was there before has been reported *)
  tr_again : ∀ k, k ∈ done → (∃ s0, s0 ∈ l0 ∧ in_use s0 ∧ su_key s0 = k) →
    ∃ i s, st.1 !! i = Some s ∧ st.2 !! i = Some true ∧ in_use s ∧ su_key s = k ∧ su_reported s = true;
  tr_count : (nlive st.1 ≤ nlive l0 + length done)%nat;
  (* what was noted is in the table, if there was room *)
  tr_room : (nlive l0 + length done ≤ KG_MAX_SUSPECT)%nat → ∀ k, k ∈ done →
    ∃ i s, st.1 !! i = Some s ∧ st.2 !! i = Some true ∧ in_use s ∧ su_key s = k
}.

Lemma tracks_start l0 : susp_wf l0 → tracks l0 [] (l0, replicate KG_MAX_SUSPECT false).
Proof.
  intros Hwf. constructor; cbn [fst snd].
  - done.
  - by rewrite length_replicate.
  - intros i Hi. by apply lookup_replicate in Hi as [? _].
  - intros i s Hi Hl. by exists s.
  - done.
  - intros i s Hi Hl. left. by exists s.
  - intros k Hk. by apply not_elem_of_nil in Hk.
  - cbn. lia.
  - intros _ k Hk. by apply not_elem_of_nil in Hk.
Qed.

Section tracks_insert.
Context (l0 : list kg_suspect) (done : list key) (l : list kg_suspect) (touched : list bool).
Context (i : nat) (s s' : kg_suspect).
Context (Ht : tracks l0 done (l, touched)) (Hi : l !! i = Some s) (Hlive' : in_use s').
Context (Hagain : in_use s → su_key s' = su_key s ∧ su_reported s' = true).
Context (Hfirst : ¬ in_use s → ∀ x, x ∈ l → in_use x → su_key x ≠ su_key s').
Notation l' := (<[i := s']> l).
Notation touched' := (<[i := true]> touched).

Lemma insert_touched : touched' !! i = Some true.
Proof.
  apply list_lookup_insert_eq. destruct Ht as [[Hl _] Hlt]. cbn in Hl, Hlt. rewrite Hlt, <- Hl.
  by eapply lookup_lt_Some.
Qed.
Lemma insert_slot : l' !! i = Some s'.
Proof. apply list_lookup_insert_eq. by eapply lookup_lt_Some. Qed.

(** A slot of the old table with a property of its key is one of the new table. *)
Lemma insert_keeps j x :
  l !! j = Some x → in_use x → touched !! j = Some true →
  ∃ j x', l' !! j = Some x' ∧ touched' !! j = Some true ∧ in_use x' ∧ su_key x' = su_key x
          ∧ (su_reported x = true → su_reported x' = true).
Proof.
  intros Hj Hx Htj. destruct (decide (j = i)) as [->|Hne].
  - assert (x = s) as -> by congruence. destruct (Hagain Hx) as [Hk Hr].
    exists i, s'. split_and!; auto using insert_slot, insert_touched.
  - exists j, x. rewrite !list_lookup_insert_ne by done. done.
Qed.

Lemma insert_was_live : (∃ s0, s0 ∈ l0 ∧ in_use s0 ∧ su_key s0 = su_key s') → in_use s.
Proof.
  intros (s0 & Hs0 & Hl0 & Hk). destruct (decide (in_use s)) as [|Hd]; [done|]. exfalso.
  apply list_elem_of_lookup_1 in Hs0 as [j Hj]. destruct (tr_keep _ _ _ Ht j s0 Hj Hl0) as (x & Hx & Hlx & Hkx & _).
  apply (Hfirst Hd x); [by eapply list_elem_of_lookup_2|done|congruence].
Qed.

Lemma tracks_insert : is_u8 (su_seen s') → tracks l0 (done ++ [su_key s']) (l', touched').
Proof.
  intros H8. pose proof Ht as [[Hlen Hu8] Hlt Htch Hkeep Hsame Hnew Hag Hcnt Hroom]. cbn [fst snd] in *.
  constructor; cbn [fst snd].
  - split; [by rewrite length_insert|]. by apply Forall_insert.
  - by rewrite length_insert.
  - intros j Hj. destruct (decide (j = i)) as [->|Hne].
    + exists s'. split_and!; [apply insert_slot|done|set_solver].
    + rewrite list_lookup_insert_ne in Hj by done. destruct (Htch j Hj) as (x & Hx & Hlx & Hkx).
      exists x. rewrite list_lookup_insert_ne by done. set_solver.
  - intros j s0 Hj Hl0. destruct (Hkeep j s0 Hj Hl0) as (x & Hx & Hlx & Hkx & Hrx).
    destruct (decide (j = i)) as [->|Hne]; [|exists x; by rewrite list_lookup_insert_ne by done].
    assert (x = s) as -> by congruence. destruct (Hagain Hlx) as [Hk Hr].
    exists s'. split_and!; [apply insert_slot|done|congruence|done].
  - intros j s0 Hj Hl0 Hout. assert (Hold : l !! j = Some s0) by (apply Hsame; [done|done|set_solver]).
    destruct (decide (j = i)) as [->|Hne]; [|by rewrite list_lookup_insert_ne by done].
    assert (s0 = s) as -> by congruence. destruct (Hagain Hl0) as [Hk _]. rewrite <- Hk in Hout. set_solver.
  - intros j x Hj Hlx. destruct (decide (j = i)) as [->|Hne].
    2:{ rewrite list_lookup_insert_ne in Hj by done. destruct (Hnew j x Hj Hlx) as [?|[? ?]]; [by left|right]. set_solver. }
    rewrite insert_slot in Hj. injection Hj as <-. destruct (decide (in_use s)) as [Hls|Hd].
    + destruct (Hagain Hls) as [Hk _]. rewrite Hk. destruct (Hnew i s Hi Hls) as [?|[? ?]]; [by left|right]. set_solver.
    + right. split; [set_solver|]. intros s0 Hs0 Hl0 Hk0. apply Hd, insert_was_live. by exists s0.
  - intros k [Hk|Hk%list_elem_of_singleton]%elem_of_app Hs0.
    + destruct (Hag k Hk Hs0) as (j & x & Hj & Htj & Hlx & <- & Hrx).
      destruct (insert_keeps j x Hj Hlx Htj) as (j' & x' & ? & ? & ? & ? & ?). exists j', x'. auto 10.
    + subst k. destruct (Hagain (insert_was_live Hs0)) as [_ Hr]. exists i, s'. auto 10 using insert_slot, insert_touched.
  - rewrite length_app, (nlive_insert _ _ _ _ Hi Hlive'). cbn [length]. destruct (decide (in_use s)); lia.
  - rewrite length_app. cbn [length]. intros Hle k [Hk|Hk%list_elem_of_singleton]%elem_of_app.
    + destruct (Hroom ltac:(lia) k Hk) as (j & x & Hj & Htj & Hlx & <-).
      destruct (insert_keeps j x Hj Hlx Htj) as (j' & x' & ? & ? & ? & ? & ?). exists j', x'. auto.
    + subst k. exists i, s'. auto using insert_slot, insert_touched.
Qed.
End tracks_insert.

Lemma tracks_step l0 done st w k st' w' :
  tracks l0 done st → noted k st w st' w' → tracks l0 (done ++ [k]) st'.
Proof.
  destruct st as [l touched]. intros Ht [i s s' Hi Hl <- -> Hl' H8 Hk Hr _|i s e kind Hno Hk Hi Hd -> _|Hno Hall -> _];
    cbn [fst snd] in *.
  - rewrite <- Hk. eapply tracks_insert; [done|done|done|done|by intros|done].
  - change k with k. rewrite Hk in *. change (dev_key e, kind) with (su_key (Suspect e kind 1 false)).
    eapply tracks_insert; [done|done|by unfold in_use|by intros|done|by unfold is_u8].
  - destruct Ht as [Hwf Hlt Htch Hkeep Hsame Hnew Hag Hcnt Hroom]. cbn [fst snd] in *.
    constructor; cbn [fst snd]; [done|done| |done| | | | |].
    + intros i Hi. destruct (Htch i Hi) as (s & ? & ? & ?). exists s. set_solver.
    + intros i s0 Hi Hl Hout. apply Hsame; [done|done|set_solver].
    + intros i s Hi Hl. destruct (Hnew i s Hi Hl) as [?|[? ?]]; [by left|right]. set_solver.
    + intros k' [Hk'| ->%list_elem_of_singleton]%elem_of_app Hs0; [by apply Hag|].
      destruct Hs0 as (s0 & Hs0 & Hl0 & Hk0). apply list_elem_of_lookup_1 in Hs0 as [j Hj].
      destruct (Hkeep j s0 Hj Hl0) as (x & Hx & Hlx & Hkx & _). destruct (Hno x); [by eapply list_elem_of_lookup_2|done|congruence].
    + rewrite length_app. lia.
    + rewrite length_app. cbn [length]. intros Hle. rewrite (nlive_full _ Hall) in Hcnt. destruct Hwf as [Hlen _]. cbn in Hlen. lia.
Qed.

Definition in_table (l : list kg_suspect) (k : key) (s : kg_suspect) : Prop :=
  s ∈ l ∧ in_use s ∧ su_key s = k.

Section whole_check.
Context `{CryptoLaws} `{Platform}.

(** A slot that holds [k] when [k] was not noted yet in this check is the one it was. *)
Lemma tracks_fresh l0 done st k s :
  tracks l0 done st → k ∉ done → in_table st.1 k s → in_table l0 k s.
Proof.
  intros Ht Hk (Hs & Hl & <-). apply list_elem_of_lookup_1 in Hs as [i Hi].
  destruct (tr_new _ _ _ Ht i s Hi Hl) as [(s0 & Hi0 & Hl0 & Hk0)|[? _]]; [|done].
  assert (Hsame : st.1 !! i = Some s0) by (apply (tr_same _ _ _ Ht); [done|done|by rewrite Hk0]).
  assert (s = s0) as -> by congruence. split_and!; [by eapply list_elem_of_lookup_2|done|done].
Qed.
Lemma tracks_still l0 done st k s :
  tracks l0 done st → k ∉ done → in_table l0 k s → in_table st.1 k s.
Proof.
  intros Ht Hk (Hs & Hl & <-). apply list_elem_of_lookup_1 in Hs as [i Hi].
  split_and!; [|done|done]. eapply list_elem_of_lookup_2. by apply (tr_same _ _ _ Ht).
Qed.

Lemma noted_quiet l0 done k st w st' w' :
  tracks l0 done st → k ∉ done → (∀ s, in_table l0 k s → su_reported s = true) →
  noted k st w st' w' → w' = w.
Proof.
  intros Ht Hk Hrep [i s s' Hi Hl Hks _ _ _ _ _ Hq| |]; [|done|done]. apply Hq, Hrep.
  eapply tracks_fresh; [done|done|]. split_and!; [by eapply list_elem_of_lookup_2|done|done].
Qed.

Lemma note_all_spec l0 ns : ∀ done st w,
  sound w → tracks l0 done st →
  ∃ st' w', note_all ns st w = Some (st', w') ∧ advances w w' ∧ tracks l0 (done ++ (note_key <$> ns)) st'
  ∧ (NoDup (done ++ (note_key <$> ns)) →
     (∀ k s, k ∈ note_key <$> ns → in_table l0 k s → su_reported s = true) → w' = w)
  ∧ (∀ k, k ∈ note_key <$> ns → k ∉ done → (∃ s, in_table l0 k s) →
     (∀ s, in_table l0 k s → su_reported s = false) → climbs KG_POSTURE_ELEVATED w w').
Proof.
  induction ns as [|[e kind] ns IH]; intros done st w Hw Ht.
  { exists st, w. cbn [note_all fmap list_fmap]. rewrite app_nil_r.
    split_and!; [done|by apply advances_refl|done|done|]. intros k Hk. by apply not_elem_of_nil in Hk. }
  cbn [note_all fst snd]. rewrite fmap_cons. set (k0 := note_key (e, kind)).
  destruct (note_spec e kind st w Hw (tr_wf _ _ _ Ht)) as (st1 & w1 & -> & Ha1 & Hn1 & Hr1). bind_simpl.
  change (dev_key e, kind) with k0 in *.
  assert (Hw1 : sound w1) by (by eapply advances_sound).
  destruct (IH (done ++ [k0]) st1 w1 Hw1) as (st2 & w2 & -> & Ha2 & Ht2 & Hq2 & Hr2).
  { by eapply tracks_step. }
  rewrite <- app_assoc in Ht2, Hq2. cbn [app] in Ht2, Hq2.
  exists st2, w2. split_and!; [done|by etrans|done| |].
  - intros Hnd Hrep. rewrite Hq2; [|done|intros k s Hk; apply Hrep; by right].
    eapply noted_quiet; [exact Ht| | |exact Hn1].
    + intros Hin. apply NoDup_app in Hnd as (_ & Hnd & _). apply (Hnd k0 Hin). by left.
    + intros s. apply Hrep. by left.
  - intros k Hk Hout Hex Hun. destruct (decide (k = k0)) as [->|Hne].
    + eapply climbs_earlier; [|exact Ha2]. apply Hr1.
      * destruct Hex as [s Hs]. exists s. by apply (tracks_still l0 done).
      * intros s Hs Hl Hks. apply Hun. by apply (tracks_fresh l0 done st).
    + eapply climbs_later; [exact Ha1|]. apply elem_of_cons in Hk as [->|Hk]; [done|].
      apply (Hr2 k); [done|set_solver|done|done].
Qed.

(** ** The table after the check *)
Lemma settle_lookup l touched i s b :
  l !! i = Some s → touched !! i = Some b → zip_with settle l touched !! i = Some (settle s b).
Proof. intros Hl Hb. by rewrite lookup_zip_with, Hl, Hb. Qed.
Lemma settle_live s b : in_use (settle s b) → b = true ∧ in_use s ∧ settle s b = s.
Proof.
  unfold settle, in_use. destruct (Z.eqb_spec (su_seen s) 0); cbn [negb andb]; [by intros|].
  destruct b; cbn [negb]; [done|]. by intros [].
Qed.
Lemma settle_touched s : settle s true = s.
Proof. unfold settle. by rewrite andb_false_r. Qed.

Lemma settle_wf l0 done l touched : tracks l0 done (l, touched) → susp_wf (zip_with settle l touched).
Proof.
  intros [[Hl Hu8] Hlt]. cbn [fst snd] in *. split.
  - rewrite length_zip_with. lia.
  - apply Forall_lookup. intros i x Hx. apply lookup_zip_with_Some in Hx as (s & b & -> & Hs & _).
    unfold settle. destruct (_ && _); [by unfold is_u8|]. by apply (Forall_lookup_1 _ _ _ _ Hu8 Hs).
Qed.
End whole_check.

(** One cross-check.  A discrepancy is kept for as long as every check sees it and dropped
    by the first that does not; one that the previous check had noted is reported when this
    one sees it again, which raises the posture; it is reported once only, and nothing is
    reported on first sight, as long as no discrepancy occurs twice in the same check
    (which [scan_distinct] excludes for the hardware's side).  While the table has room every
    discrepancy seen is in it afterwards. *)
Theorem discrepancy_lifecycle `{CryptoLaws} `{Platform} `{PciEnv} h w :
  sound w → susp_wf (h_susp h) →
  let ks := note_key <$> discrepancies h in
  ∃ h' w', kg_cross_check h w = Some (h', w') ∧ advances w w' ∧ susp_wf (h_susp h')
  ∧ (∀ k s, in_table (h_susp h') k s → k ∈ ks)
  ∧ (∀ k s0, k ∈ ks → in_table (h_susp h) k s0 → ∃ s, in_table (h_susp h') k s ∧ su_reported s = true)
  ∧ (∀ k s0, k ∈ ks → in_table (h_susp h) k s0 → (∀ s, in_table (h_susp h) k s → su_reported s = false) →
       pos_ready (wpos w) = true → Z.min KG_POSTURE_ELEVATED (posture_cap w) ≤ kg_posture w')
  ∧ (NoDup ks → (∀ k s, k ∈ ks → in_table (h_susp h) k s → su_reported s = true) → w' = w)
  ∧ ((nlive (h_susp h) + length ks ≤ KG_MAX_SUSPECT)%nat → ∀ k, k ∈ ks → ∃ s, in_table (h_susp h') k s).
Proof.
  intros Hw Hwf ks. rewrite cross_check_notes.
  destruct (note_all_spec (h_susp h) (discrepancies h) [] _ w Hw (tracks_start _ Hwf))
    as ([l touched] & w' & -> & Ha & Ht & Hq & Hr). bind_simpl. cbn [app] in Ht, Hq. fold ks in Ht, Hq, Hr.
  eexists _, w'. split; [done|]. cbn [h_susp]. split_and!; [done|by eapply settle_wf| | | | |].
  - intros k s (Hs & Hl & <-). apply list_elem_of_lookup_1 in Hs as [i Hi].
    apply lookup_zip_with_Some in Hi as (x & b & -> & Hx & Hb). destruct (settle_live _ _ Hl) as (-> & Hlx & Hsx). rewrite Hsx.
    destruct (tr_touched _ _ _ Ht i Hb) as (y & Hy & _ & Hky). cbn in Hy. by assert (x = y) as -> by congruence.
  - intros k s0 Hk Hs0. destruct (tr_again _ _ _ Ht k Hk) as (i & s & Hi & Hti & Hl & Hks & Hrs); [by exists s0|].
    cbn in Hi, Hti. pose proof (settle_lookup _ _ _ _ _ Hi Hti) as Hz. rewrite settle_touched in Hz.
    exists s. split; [|done]. split_and!; [by eapply list_elem_of_lookup_2|done|done].
  - intros k s0 Hk Hs0 Hun. apply (Hr k); [done|apply not_elem_of_nil|by exists s0|done].
  - done.
  - intros Hroom k Hk. destruct (tr_room _ _ _ Ht Hroom k Hk) as (i & s & Hi & Hti & Hl & Hks).
    cbn in Hi, Hti. pose proof (settle_lookup _ _ _ _ _ Hi Hti) as Hz. rewrite settle_touched in Hz.
    exists s. split_and!; [by eapply list_elem_of_lookup_2|done|done].
Qed.

Lemma cross_check_advances `{CryptoLaws} `{Platform} `{PciEnv} h w :
  sound w → susp_wf (h_susp h) →
  ∃ l t w', kg_cross_check h w
    = Some (Hw (h_ecam h) (h_cur h) (h_base h) l (h_recs h) (h_running h) (h_nb_registered h) t (h_ops h), w')
  ∧ susp_wf l ∧ advances w w'.
Proof.
  intros Hw Hwf. rewrite cross_check_notes.
  destruct (note_all_spec (h_susp h) (discrepancies h) [] _ w Hw (tracks_start _ Hwf))
    as ([l touched] & w' & -> & Ha & Ht & _). bind_simpl.
  eexists _, _, w'. split; [done|]. split; [by eapply settle_wf|done].
Qed.

(** ** The DMA audit *)
Section audit_spec.
Context `{CryptoLaws} `{Platform} `{PciEnv}.
Context (allow : list Z).

Lemma authorized_total base e : ∃ b, kg_dma_authorized allow base e = Some b.
Proof.
  unfold kg_dma_authorized. destruct (existsb _ _); [by exists true|].
  destruct (list_contains_total allow (print_bdf e)) as ([] & -> & _); bind_simpl; [by exists true|].
  destruct (list_contains_total allow (print_id e)) as (b & -> & _). by exists b.
Qed.

(** A bus master that nobody authorised. *)
Definition offending (base : list kg_pci_ent) (e : kg_pci_ent) : Prop :=
  audited e = true ∧ kg_dma_authorized allow base e = Some false.
#[export] Instance offending_dec base e : Decision (offending base e).
Proof. unfold offending. apply _. Defined.

(** What a write of the audit is aimed at. *)
Definition aimed_at (e : kg_pci_ent) (o : pci_op) : Prop :=
  match o with
  | ClearMaster d =>
    ∃ t, pci_get_domain_bus_and_slot t (pe_seg e) (pe_bus e) (PCI_DEVFN (pe_dev e) (pe_fn e)) = Some d
  | WriteW seg bus off v =>
    ecam_covers (pe_seg e) (pe_bus e) seg = true ∧ bus = pe_bus e ∧ off = command_off e
    ∧ ∃ t m, kg_ecam_map t seg bus = Some m
             ∧ ∀ i, 0 ≤ i < 16 → Z.testbit v i = Z.testbit (readw m off) i && negb (i =? 2)
  end.

Lemma ecam_find_covers l seg bus e : kg_ecam_find l seg bus = Some e → ecam_covers seg bus e = true.
Proof.
  induction l as [|x l IH]; [done|]. cbn [kg_ecam_find]. destruct (ecam_covers seg bus x) eqn:E; [by intros [= <-]|done].
Qed.
Lemma cleared_bits c i :
  0 ≤ i < 16 → Z.testbit (u16 (Z.land c (Z.lnot PCI_COMMAND_MASTER))) i = Z.testbit c i && negb (i =? 2).
Proof.
  intros Hi. unfold u16. change 65536 with (2 ^ 16). rewrite Z.mod_pow2_bits_low by lia.
  rewrite Z.land_spec, Z.lnot_spec by lia. f_equal. f_equal. unfold PCI_COMMAND_MASTER. change 4 with (2 ^ 2).
  rewrite Z.pow2_bits_eqb by lia. by rewrite Z.eqb_sym.
Qed.

(** What turning bus mastering off does: the writes are aimed at the device, and success
    means that there is no hardware view, or that the device's command register was read
    clear or could not be read. *)
Lemma disable_bme_spec ecam e t pdev ops ok t' ops' :
  (∀ d, pdev = Some d → aimed_at e (ClearMaster d)) →
  kg_disable_bme ecam e pdev t ops = (ok, t', ops') →
  ∃ new, ops' = ops ++ new ∧ Forall (aimed_at e) new
  ∧ (∀ d, pdev = Some d → ClearMaster d ∈ new)
  ∧ (ok = true → (ecam = [] ∧ is_Some pdev) ∨ ∃ t, fst (kg_bme_now ecam e t) = false).
Proof.
  intros Haim. unfold kg_disable_bme.
  assert (Hops : ∃ new, match pdev with Some d => ops ++ [ClearMaster d] | None => ops end = ops ++ new
    ∧ Forall (aimed_at e) new ∧ ∀ d, pdev = Some d → ClearMaster d ∈ new).
  { destruct pdev as [d|].
    - exists [ClearMaster d]. split_and!; [done|apply Forall_singleton; by apply Haim|]. intros ? [= ->]. by left.
    - exists []. split_and!; [by rewrite app_nil_r|constructor|done]. }
  destruct Hops as (new & -> & Hnew & Hcl). destruct (Nat.eqb_spec (length ecam) 0) as [Hz|Hz].
  { intros [= <- <- <-]. exists new. split_and!; [done|done|done|]. intros Hok. left.
    split; [by apply length_zero_iff_nil|]. by destruct pdev. }
  destruct (kg_bme_now ecam e t) as [now t1] eqn:Hnow. destruct now; cbn [negb].
  2:{ intros [= <- <- <-]. exists new. split_and!; [done|done|done|]. intros _. right. exists t. by rewrite Hnow. }
  unfold kg_ecam_clear_master. destruct (kg_ecam_find ecam _ _) as [seg|] eqn:Hf.
  2:{ intros [= <- <- <-]. by exists new. }
  destruct (kg_ecam_map t1 seg (pe_bus e)) as [m|] eqn:Hm.
  2:{ intros [= <- <- <-]. by exists new. }
  destruct (kg_bme_now ecam e (S t1)) as [now2 t2] eqn:Hnow2. intros [= <- <- <-].
  eexists. split; [by rewrite <- app_assoc|]. split_and!.
  - apply Forall_app. split; [done|]. apply Forall_singleton. cbn. split_and!; [by eapply ecam_find_covers|done|done|].
    exists t1, m. split; [done|]. intros i Hi. by apply cleared_bits.
  - intros d Hd. apply elem_of_app. left. by apply Hcl.
  - intros Hok. apply negb_true_iff in Hok. right. exists (S t1). by rewrite Hnow2.
Qed.

(** Records are kept in place; flags are only set. *)
Definition recs_le (l l' : list kg_dma_rec) : Prop :=
  ∀ i r, l !! i = Some r → ∃ r', l' !! i = Some r' ∧ dr_e r' = dr_e r
         ∧ (dr_alerted r = true → dr_alerted r' = true).
Definition newly_alerted (l l' : list kg_dma_rec) : Prop :=
  ∃ i r', l' !! i = Some r' ∧ dr_alerted r' = true ∧ ¬ ∃ r, l !! i = Some r ∧ dr_alerted r = true.

#[export] Instance recs_le_refl : Reflexive recs_le.
Proof. intros l i r Hi. by exists r. Qed.
#[export] Instance recs_le_trans : Transitive recs_le.
Proof.
  intros l1 l2 l3 H12 H23 i r Hi. destruct (H12 i r Hi) as (r2 & Hi2 & He2 & Ha2).
  destruct (H23 i r2 Hi2) as (r3 & Hi3 & He3 & Ha3). exists r3. split_and!; [done|congruence|auto].
Qed.
Lemma newly_alerted_cases l1 l2 l3 :
  recs_le l1 l2 → recs_le l2 l3 → newly_alerted l1 l3 → newly_alerted l1 l2 ∨ newly_alerted l2 l3.
Proof.
  intros H12 H23 (i & r & Hi & Ha & Hno). destruct (l2 !! i) as [r2|] eqn:E2.
  - destruct (dr_alerted r2) eqn:Ea.
    + left. by exists i, r2.
    + right. exists i, r. split_and!; [done|done|]. intros (r2' & Hi2 & Ha2). congruence.
  - right. exists i, r. split_and!; [done|done|]. intros (r2' & Hi2 & Ha2). congruence.
Qed.

Lemma recs_le_insert l i re ra rc ra' rc' :
  l !! i = Some (DmaRec re ra rc) → (ra = true → ra' = true) → recs_le l (<[i := DmaRec re ra' rc']> l).
Proof.
  intros Hi Hra j r Hj. destruct (decide (j = i)) as [->|Hne].
  - assert (r = DmaRec re ra rc) as -> by congruence. eexists. rewrite list_lookup_insert_eq by (by eapply lookup_lt_Some).
    split_and!; [done|done|done].
  - exists r. by rewrite list_lookup_insert_ne by done.
Qed.
Lemma recs_le_app l k : recs_le l (l ++ k).
Proof. intros i r Hi. exists r. split_and!; [by apply lookup_app_l_Some|done|done]. Qed.

Lemma rec_index_spec e l : ∀ i,
  match rec_index e i l with
  | Some j => ∃ k r, j = (i + k)%nat ∧ l !! k = Some r ∧ kg_same_identity (dr_e r) e = true
  | None => ∀ r, r ∈ l → kg_same_identity (dr_e r) e = false
  end.
Proof.
  induction l as [|x l IH]; intros i; cbn [rec_index]; [intros r Hr; by apply not_elem_of_nil in Hr|].
  destruct (kg_same_identity (dr_e x) e) eqn:E; [exists 0%nat, x; split_and!; [lia|done|done]|].
  specialize (IH (S i)). destruct (rec_index e (S i) l) as [j|].
  - destruct IH as (k & r & -> & Hk & Hr). exists (S k), r. split_and!; [lia|done|done].
  - intros r [->|Hr]%elem_of_cons; [done|by apply IH].
Qed.

Lemma same_identity_refl e : kg_same_identity e e = true.
Proof. unfold kg_same_identity, kg_same_dev. by rewrite !Z.eqb_refl. Qed.

Lemma rec_get_spec e recs :
  let '(i, recs') := kg_dma_rec_get e recs in
  recs_le recs recs' ∧ (length recs ≤ length recs' ≤ S (length recs))%nat
  ∧ (length recs ≤ KG_MAX_SUSPECT → length recs' ≤ KG_MAX_SUSPECT)%nat ∧ ¬ newly_alerted recs recs'
  ∧ match i with
    | Some i => ∃ r, recs' !! i = Some r ∧ kg_same_identity (dr_e r) e = true
                     ∧ (recs' = recs ∨ ∀ r, r ∈ recs → kg_same_identity (dr_e r) e = false)
    | None => (KG_MAX_SUSPECT ≤ length recs)%nat ∧ ∀ r, r ∈ recs → kg_same_identity (dr_e r) e = false
    end.
Proof.
  assert (Hno : ∀ l, ¬ newly_alerted l l) by (intros l (i & r & Hi & Ha & Hn); apply Hn; by exists r).
  unfold kg_dma_rec_get. pose proof (rec_index_spec e recs 0) as Hix. destruct (rec_index e 0 recs) as [j|].
  - destruct Hix as (k & r & -> & Hk & Hr). cbn [Nat.add]. split_and!; [done|lia|lia|done|done|]. exists r. auto.
  - destruct (Nat.leb_spec KG_MAX_SUSPECT (length recs)); [split_and!; try done; lia|].
    rewrite length_app. cbn [length]. split_and!; [apply recs_le_app|lia|lia|lia| |].
    + intros (i & r & Hi & Ha & Hn). apply lookup_app_Some in Hi as [Hi|[_ Hi]]; [by apply Hn; exists r|].
      apply list_lookup_singleton_Some in Hi as [_ <-]. done.
    + eexists. split; [by apply list_lookup_middle|]. split; [apply same_identity_refl|by right].
Qed.

Lemma alert_spec e pdev i recs w :
  sound w →
  ∃ recs' w', audit_alert e pdev i recs w = Some (recs', w') ∧ advances w w' ∧ recs_le recs recs'
  ∧ length recs' = length recs ∧ (newly_alerted recs recs' → climbs KG_POSTURE_ELEVATED w w')
  ∧ (∀ j r, i = Some j → recs !! j = Some r → ∃ r', recs' !! j = Some r' ∧ dr_e r' = dr_e r ∧ dr_alerted r' = true)
  ∧ ((∀ r, rec_at i recs = Some r → dr_alerted r = true) → recs' = recs ∧ w' = w).
Proof.
  intros Hw. unfold audit_alert.
  assert (Hno : ∀ l, ¬ newly_alerted l l) by (intros l (j & r & Hi & Ha & Hn); apply Hn; by exists r).
  destruct (rec_at i recs) as [[re ra rc]|] eqn:Hi.
  2:{ exists recs, w. split_and!; [done|by apply advances_refl|done|done|by intros ?%Hno| |done].
      intros j r -> Hj. cbn in Hi. congruence. }
  destruct i as [i|]; [|done]. cbn in Hi. destruct ra.
  { exists recs, w. split_and!; [done|by apply advances_refl|done|done|by intros ?%Hno| |done].
    intros j r [= ->] Hj. assert (r = DmaRec re true rc) as -> by congruence. by eexists. }
  destruct (stat_report_advances hw_dma_violation_count KG_ALERT_UNAUTHORIZED_DMA (alert_level pdev) (kg_bdf e)
              (audit_p2 e) w Hw) as (w' & -> & Ha & Hp). bind_simpl. cbn [default].
  eexists _, w'. split; [done|]. split_and!; [done|by eapply recs_le_insert|by rewrite length_insert| | |].
  - intros _. exact Hp.
  - intros j r [= <-] Hj. assert (r = DmaRec re false rc) as -> by congruence. eexists.
    split; [apply list_lookup_insert_eq; by eapply lookup_lt_Some|done].
  - intros Hall. by specialize (Hall _ eq_refl).
Qed.

Lemma enforce_spec ecam e pdev i a w :
  sound w → (∀ d, pdev = Some d → aimed_at e (ClearMaster d)) →
  ∃ a' w', audit_enforce ecam e pdev i a w = Some (a', w') ∧ advances w w'
  ∧ recs_le (au_recs a) (au_recs a') ∧ length (au_recs a') = length (au_recs a)
  ∧ ¬ newly_alerted (au_recs a) (au_recs a')
  ∧ (kg_enforcing w = false → a' = a ∧ w' = w)
  ∧ ∃ new, au_ops a' = au_ops a ++ new ∧ Forall (aimed_at e) new
    ∧ (new ≠ [] → kg_enforcing w = true)
    ∧ (kg_enforcing w = true → ∀ d, pdev = Some d → ClearMaster d ∈ new).
Proof.
  intros Hw Haim. unfold audit_enforce.
  assert (Hno : ∀ l, ¬ newly_alerted l l) by (intros l (j & r & Hi & Ha & Hn); apply Hn; by exists r).
  destruct (kg_enforcing w) eqn:He.
  2:{ exists a, w. split_and!; [done|by apply advances_refl|done|done|by apply Hno|done|].
      exists []. split_and!; [by rewrite app_nil_r|constructor|done|done]. }
  destruct (kg_disable_bme ecam e pdev (au_time a) (au_ops a)) as [[ok t] ops] eqn:Hd.
  apply disable_bme_spec in Hd as (new & -> & Hnew & Hcl & _); [|done].
  assert (Hrest : ∀ recs w', recs_le (au_recs a) recs → length recs = length (au_recs a) →
    ¬ newly_alerted (au_recs a) recs → advances w w' →
    ∃ a' w'', Some (Audit recs t (au_ops a ++ new), w') = Some (a', w'') ∧ advances w w''
    ∧ recs_le (au_recs a) (au_recs a') ∧ length (au_recs a') = length (au_recs a)
    ∧ ¬ newly_alerted (au_recs a) (au_recs a') ∧ (true = false → a' = a ∧ w'' = w)
    ∧ ∃ new, au_ops a' = au_ops a ++ new ∧ Forall (aimed_at e) new ∧ (new ≠ [] → true = true)
      ∧ (true = true → ∀ d, pdev = Some d → ClearMaster d ∈ new)).
  { intros recs w' Hle Hlen Hna Ha. eexists _, w'. split; [done|]. split_and!; [done|done|done|done|done|]. by exists new. }
  destruct ok; [|by apply Hrest; [done|done|apply Hno|apply advances_refl]].
  destruct (rec_at i (au_recs a)) as [[re ra []]|] eqn:Hi;
    [by apply Hrest; [done|done|apply Hno|apply advances_refl]| |by apply Hrest; [done|done|apply Hno|apply advances_refl]].
  destruct (report_advances KG_ALERT_DEVICE_BME_DISABLED KG_LEVEL_CRITICAL (kg_bdf e) (audit_p2 e) w Hw)
    as (w' & -> & Ha & _). bind_simpl. destruct i as [i|]; [|done]. cbn in Hi |- *.
  apply Hrest; [by eapply recs_le_insert|by rewrite length_insert| |done].
  intros (j & r & Hj & Har & Hn). destruct (decide (j = i)) as [->|Hne].
  - rewrite list_lookup_insert_eq in Hj by (by eapply lookup_lt_Some). injection Hj as <-. apply Hn. by eexists.
  - rewrite list_lookup_insert_ne in Hj by done. apply Hn. by exists r.
Qed.

(** One entry of the table. *)
Record audit_step (ecam : list kg_ecam_seg) (base es : list kg_pci_ent) (a : audit) (w : world) (a' : audit)
    (w' : world) : Prop := AuditStep {
  as_advances : advances w w';
  as_recs : recs_le (au_recs a) (au_recs a');
  as_cap : (length (au_recs a) ≤ KG_MAX_SUSPECT → length (au_recs a') ≤ KG_MAX_SUSPECT)%nat;
  as_grow : (length (au_recs a) ≤ length (au_recs a')
             ≤ length (au_recs a) + length (filter (offending base) es))%nat;
  as_raised : newly_alerted (au_recs a) (au_recs a') → climbs KG_POSTURE_ELEVATED w w';
  as_alerted : ∀ e, e ∈ es → offending base e →
    (KG_MAX_SUSPECT ≤ length (au_recs a'))%nat
    ∨ ∃ i r, au_recs a' !! i = Some r ∧ kg_same_identity (dr_e r) e = true ∧ dr_alerted r = true;
  as_ops : ∃ new, au_ops a' = au_ops a ++ new
    ∧ Forall (λ o, ∃ e, e ∈ es ∧ offending base e ∧ aimed_at e o) new
    ∧ (new ≠ [] → kg_enforcing w' = true)
    ∧ (kg_enforcing w = true → ∀ e, e ∈ es → offending base e →
       ∃ t, ∀ d, pci_get_domain_bus_and_slot t (pe_seg e) (pe_bus e) (PCI_DEVFN (pe_dev e) (pe_fn e)) = Some d
                 → ClearMaster d ∈ new)
}.

Lemma audit_step_none ecam base es a w :
  sound w → (∀ e, e ∈ es → ¬ offending base e) → audit_step ecam base es a w a w.
Proof.
  intros Hw Hes. constructor.
  - by apply advances_refl.
  - done.
  - done.
  - lia.
  - intros (i & r & Hi & Ha & Hn). destruct Hn. by exists r.
  - intros e He Ho. by destruct (Hes e).
  - exists []. split_and!; [by rewrite app_nil_r|constructor|done|]. intros _ e He Ho. by destruct (Hes e).
Qed.

Lemma audit_step_trans ecam base es1 es2 a1 w1 a2 w2 a3 w3 :
  audit_step ecam base es1 a1 w1 a2 w2 → audit_step ecam base es2 a2 w2 a3 w3 →
  audit_step ecam base (es1 ++ es2) a1 w1 a3 w3.
Proof.
  intros [Ha1 Hr1 Hc1 Hg1 Hn1 Hal1 (n1 & Ho1 & Hf1 & He1 & Hx1)] [Ha2 Hr2 Hc2 Hg2 Hn2 Hal2 (n2 & Ho2 & Hf2 & He2 & Hx2)].
  constructor.
  - by etrans.
  - by etrans.
  - lia.
  - rewrite filter_app, length_app. lia.
  - intros Hna. destruct (newly_alerted_cases _ _ _ Hr1 Hr2 Hna) as [?|?].
    + eapply climbs_earlier; [by apply Hn1|done].
    + eapply climbs_later; [done|by apply Hn2].
  - intros e [He|He]%elem_of_app Ho; [|by apply Hal2].
    destruct (Hal1 e He Ho) as [?|(i & r & Hi & Hid & Hal)]; [left; lia|right].
    destruct (Hr2 i r Hi) as (r' & Hi' & Hre & Hra). exists i, r'. split_and!; [done|by rewrite Hre|auto].
  - exists (n1 ++ n2). split_and!.
    + by rewrite Ho2, Ho1, <- app_assoc.
    + apply Forall_app. split; eapply Forall_impl; try done; intros o (e & ? & ? & ?); exists e; set_solver.
    + intros Hne. destruct n2 as [|]; [|by apply He2]. rewrite app_nil_r in Hne.
      eapply enforcing_advances; [done|by apply He1].
    + intros Hen e [He|He]%elem_of_app Ho.
      * destruct (Hx1 Hen e He Ho) as (t & Ht). exists t. intros d Hd. apply elem_of_app. left. by apply Ht.
      * destruct (Hx2 (enforcing_advances _ _ Ha1 Hen) e He Ho) as (t & Ht).
        exists t. intros d Hd. apply elem_of_app. right. by apply Ht.
Qed.

(** Every record of the device says that it was announced. *)
Definition announced (recs : list kg_dma_rec) (e : kg_pci_ent) : Prop :=
  (∃ r, r ∈ recs ∧ kg_same_identity (dr_e r) e = true)
  ∧ ∀ r, r ∈ recs → kg_same_identity (dr_e r) e = true → dr_alerted r = true.

Lemma audit_one_spec ecam base e a w :
  sound w →
  ∃ a' w', audit_one allow ecam base e a w = Some (a', w') ∧ audit_step ecam base [e] a w a' w'
  ∧ (¬ offending base e → a' = a ∧ w' = w)
  ∧ (announced (au_recs a) e → kg_enforcing w = false →
     au_recs a' = au_recs a ∧ au_ops a' = au_ops a ∧ w' = w).
Proof.
  intros Hw. unfold audit_one.
  assert (Hskip : ¬ offending base e → ∃ a' w', Some (a, w) = Some (a', w') ∧ audit_step ecam base [e] a w a' w'
    ∧ (¬ offending base e → a' = a ∧ w' = w)
    ∧ (announced (au_recs a) e → kg_enforcing w = false → au_recs a' = au_recs a ∧ au_ops a' = au_ops a ∧ w' = w)).
  { intros Ho. exists a, w. split; [done|]. split; [|done]. apply audit_step_none; [done|].
    by intros x ->%list_elem_of_singleton. }
  destruct (audited e) eqn:Hau; cbn [negb]; [|apply Hskip; intros [? _]; congruence].
  destruct (authorized_total base e) as ([] & Hauth); rewrite Hauth; bind_simpl; [apply Hskip; intros [_ ?]; congruence|].
  clear Hskip. assert (Ho : offending base e) by done.
  set (pdev := pci_get_domain_bus_and_slot _ _ _ _).
  assert (Haim : ∀ d, pdev = Some d → aimed_at e (ClearMaster d)) by (intros d Hd; by exists (au_time a)).
  pose proof (rec_get_spec e (au_recs a)) as Hget. destruct (kg_dma_rec_get e (au_recs a)) as [i recs1].
  destruct Hget as (Hle1 & Hlen1 & Hcap1 & Hna1 & Hi).
  destruct (alert_spec e pdev i recs1 w Hw) as (recs2 & w2 & -> & Ha2 & Hle2 & Hlen2 & Hr2 & Hal2 & Hq2). bind_simpl.
  set (a2 := Audit recs2 (S (au_time a)) (au_ops a)).
  destruct (enforce_spec ecam e pdev i a2 w2) as
    (a3 & w3 & -> & Ha3 & Hle3 & Hlen3 & Hna3 & Hoff & new & Hops & Hnew & Hen & Hcl); [by eapply advances_sound|done|].
  change (au_recs a2) with recs2 in *. change (au_ops a2) with (au_ops a) in *.
  exists a3, w3. split; [done|]. split_and!; [|done|].
  - constructor.
    + by etrans.
    + etrans; [exact Hle1|]. by etrans.
    + lia.
    + rewrite (filter_cons_True (offending base)) by done. cbn [length]. lia.
    + intros Hna. destruct (newly_alerted_cases _ _ _ Hle1 (transitivity Hle2 Hle3) Hna) as [?|Hna']; [done|].
      destruct (newly_alerted_cases _ _ _ Hle2 Hle3 Hna') as [?|?]; [|done].
      eapply climbs_earlier; [by apply Hr2|done].
    + intros x ->%list_elem_of_singleton _. destruct i as [i|]; [|left; lia].
      destruct Hi as (r & Hr & Hid & _). right. destruct (Hal2 i r eq_refl Hr) as (r2 & Hr2i & He2 & Ha2r).
      destruct (Hle3 i r2 Hr2i) as (r3 & Hr3 & He3 & Ha3r). exists i, r3. split_and!; [done|congruence|auto].
    + exists new. split_and!; [done| | |].
      * eapply Forall_impl; [exact Hnew|]. intros o Hao. exists e. split_and!; [by left|done|done].
      * intros Hne. eapply enforcing_advances; [done|by apply Hen].
      * intros Henf x ->%list_elem_of_singleton _. exists (au_time a). intros d Hd.
        apply Hcl; [by eapply enforcing_advances|done].
  - intros [(r0 & Hr0 & Hid0) Hall] Hnot. destruct i as [i|]; [|by destruct Hi as [_ Hnone]; rewrite Hnone in Hid0].
    destruct Hi as (r & Hr & Hid & [->|Hnone]); [|by rewrite Hnone in Hid0].
    destruct Hq2 as [-> ->].
    { cbn. intros r' Hr'. assert (r' = r) as -> by congruence. apply Hall; [by eapply list_elem_of_lookup_2|done]. }
    by destruct (Hoff Hnot) as [-> ->].
Qed.

Lemma audit_all_spec ecam base es : ∀ a w,
  sound w →
  ∃ a' w', audit_all allow ecam base es a w = Some (a', w') ∧ audit_step ecam base es a w a' w'
  ∧ ((∀ e, e ∈ es → ¬ offending base e) → a' = a ∧ w' = w)
  ∧ ((∀ e, e ∈ es → offending base e → announced (au_recs a) e) → kg_enforcing w = false →
     au_recs a' = au_recs a ∧ au_ops a' = au_ops a ∧ w' = w).
Proof.
  induction es as [|e es IH]; intros a w Hw.
  { exists a, w. split; [done|]. split; [|done]. apply audit_step_none; [done|]. intros e He. by apply not_elem_of_nil in He. }
  cbn [audit_all]. destruct (audit_one_spec ecam base e a w Hw) as (a1 & w1 & -> & Hs1 & Hq1 & Hn1). bind_simpl.
  destruct (IH a1 w1) as (a2 & w2 & -> & Hs2 & Hq2 & Hn2); [eapply advances_sound; [done|apply Hs1]|].
  exists a2, w2. split; [done|]. split_and!.
  - change (e :: es) with ([e] ++ es). by eapply audit_step_trans.
  - intros Hno. destruct Hq1 as [-> ->]; [apply Hno; by left|]. apply Hq2. intros x Hx. apply Hno. by right.
  - intros Hall Hen.
    assert (au_recs a1 = au_recs a ∧ au_ops a1 = au_ops a ∧ w1 = w) as (Hr & Ho & ->).
    { destruct (decide (offending base e)) as [Hof|Hof]; [apply Hn1; [apply Hall; [by left|done]|done]|].
      by destruct (Hq1 Hof) as [-> ->]. }
    rewrite <- Hr, <- Ho. apply Hn2; [|done]. intros x Hx Hof. rewrite Hr. apply Hall; [by right|done].
Qed.
End audit_spec.

(** One DMA audit.  Every endpoint that masters the bus and that neither the baseline nor
    dma_allow= authorises has an announced record afterwards, as long as the 64 records
    suffice; one that had none before raises the posture.  Nothing is announced twice while
    the module only reports, and the records of devices that left are gone. *)
Theorem bus_master_announced `{CryptoLaws} `{Platform} `{PciEnv} allow h w :
  sound w → (length (h_recs h) ≤ KG_MAX_SUSPECT)%nat →
  let cur := default [] (h_cur h) in
  let offends e := e ∈ cur ∧ offending allow (h_base h) e in
  ∃ h' w', kg_dma_audit allow h w = Some (h', w') ∧ advances w w'
  ∧ (length (h_recs h') ≤ KG_MAX_SUSPECT)%nat
  ∧ (∀ e, offends e →
       (length (h_recs h) + length (filter (λ e, audited e = true) cur) < KG_MAX_SUSPECT)%nat →
       (∃ r, r ∈ h_recs h' ∧ kg_same_identity (dr_e r) e = true ∧ dr_alerted r = true)
       ∧ ((∀ r, r ∈ h_recs h → kg_same_identity (dr_e r) e = true → dr_alerted r = false) →
          pos_ready (wpos w) = true → Z.min KG_POSTURE_ELEVATED (posture_cap w) ≤ kg_posture w'))
  ∧ ((∀ e, offends e → announced (h_recs h) e) → kg_enforcing w = false → w' = w)
  ∧ (∀ r, r ∈ h_recs h' → ∃ e, e ∈ cur ∧ kg_same_identity e (dr_e r) = true).
Proof.
  intros Hw Hlen cur offends. unfold kg_dma_audit. fold cur.
  destruct (audit_all_spec allow (h_ecam h) (h_base h) cur (Audit (h_recs h) (h_time h) (h_ops h)) w Hw)
    as (a & w' & -> & Hs & Hq & Hn). bind_simpl.
  destruct Hs as [Ha Hr Hc Hg Hra Hal _]. cbn [au_recs] in *.
  eexists _, w'. split; [done|]. cbn [h_recs]. unfold kg_dma_rec_prune. split_and!.
  - done.
  - etrans; [apply length_filter|]. by apply Hc.
  - intros e [He Ho] Hroom.
    assert (Hle : (length (filter (offending allow (h_base h)) cur)
                   ≤ length (filter (λ e, audited e = true) cur))%nat).
    { clear. induction cur as [|x l IH]; [done|]. rewrite !filter_cons.
      destruct (decide (offending allow (h_base h) x)) as [[Hx _]|_]; destruct (decide (audited x = true)); cbn [length]; [lia|done|lia|lia]. }
    destruct (Hal e He Ho) as [Hf|(i & r & Hi & Hid & Hrr)]; [lia|]. split.
    + exists r. split; [|done]. apply list_elem_of_filter. split; [|by eapply list_elem_of_lookup_2].
      apply existsb_exists. exists e. split; [by apply list_elem_of_In|].
      unfold kg_same_identity, kg_same_dev in *. bool_props. repeat (apply andb_true_iff; split); apply Z.eqb_eq; congruence.
    + intros Hun. apply Hra. exists i, r. split_and!; [done|done|]. intros (r0 & Hi0 & Hr0).
      destruct (Hr i r0 Hi0) as (r1 & Hi1 & He1 & _). assert (r1 = r) as -> by congruence.
      rewrite Hun in Hr0; [done|by eapply list_elem_of_lookup_2|by rewrite <- He1].
  - intros Hann Hen. apply Hn; [|done]. intros e He Ho. by apply Hann.
  - intros r Hin. apply list_elem_of_filter in Hin as [Hex _]. apply existsb_exists in Hex as (e & He & Hid).
    exists e. split; [by apply list_elem_of_In|done].
Qed.

(** C32 — What the audit does to the hardware.  Every write is aimed at an endpoint of the latest
    scan that masters the bus without authorisation — never a bridge, never a device of the
    baseline — and changes nothing but the bus-master bit; nothing is written while the
    module only reports; and while it enforces, every such endpoint the PCI core knows has
    its bus mastering cleared at every pass, announced or not. *)
Theorem enforcement_confined `{CryptoLaws} `{Platform} `{PciEnv} allow h w :
  sound w →
  let cur := default [] (h_cur h) in
  let offends e := e ∈ cur ∧ offending allow (h_base h) e in
  ∃ h' w' new, kg_dma_audit allow h w = Some (h', w') ∧ h_ops h' = h_ops h ++ new
  ∧ Forall (λ o, ∃ e, offends e ∧ aimed_at e o) new
  ∧ (kg_enforcing w' = false → new = [])
  ∧ (kg_enforcing w = true → ∀ e, offends e →
     ∃ t, ∀ d, pci_get_domain_bus_and_slot t (pe_seg e) (pe_bus e) (PCI_DEVFN (pe_dev e) (pe_fn e)) = Some d
               → ClearMaster d ∈ new).
Proof.
  intros Hw cur offends. unfold kg_dma_audit. fold cur.
  destruct (audit_all_spec allow (h_ecam h) (h_base h) cur (Audit (h_recs h) (h_time h) (h_ops h)) w Hw)
    as (a & w' & -> & [_ _ _ _ _ _ (new & Ho & Hf & He & Hx)] & _). bind_simpl.
  eexists _, w', new. split; [done|]. split_and!; [done| | |].
  - eapply Forall_impl; [exact Hf|]. intros o (e & ? & ? & ?). by exists e.
  - intros Hen. destruct new; [done|]. rewrite He in Hen by done. done.
  - intros Hen e [? ?]. by apply Hx.
Qed.

(** ** Loading, the worker, unloading *)
Record hw_inv (h : kg_hw) : Prop := HwInv {
  hi_ecam : Forall seg_ok (h_ecam h);
  hi_cur : (length (default [] (h_cur h)) ≤ KG_MAX_PCI)%nat;
  hi_base : (length (h_base h) ≤ KG_MAX_PCI)%nat;
  hi_susp : susp_wf (h_susp h);
  hi_recs : (length (h_recs h) ≤ KG_MAX_SUSPECT)%nat
}.

Lemma ecam_collect_ok n : ∀ i a l, Forall seg_ok l → Forall seg_ok (ecam_collect n i a l).
Proof.
  induction n as [|n IH]; intros i a l Hl; [done|]. cbn [ecam_collect]. destruct (_ <=? _)%nat; [done|].
  apply IH. destruct (_ || _) eqn:E; [done|]. apply Forall_app. split; [done|]. apply Forall_singleton.
  bool_props. done.
Qed.
Lemma scan_os_length ds : ∀ cur,
  (length cur ≤ KG_MAX_PCI)%nat → (length (foldl scan_os_dev cur ds) ≤ KG_MAX_PCI)%nat.
Proof.
  induction ds as [|d ds IH]; intros cur Hc; [done|]. cbn [foldl]. apply IH. unfold scan_os_dev, record_ent.
  destruct (pd_is_virtfn d); [done|]. destruct (Nat.ltb_spec (length cur) KG_MAX_PCI); [|done].
  rewrite length_app. cbn. lia.
Qed.
Lemma rescan_length `{PciEnv} h :
  Forall seg_ok (h_ecam h) →
  ∃ cur t, rescan h = Hw (h_ecam h) (Some cur) (h_base h) (h_susp h) (h_recs h) (h_running h)
                         (h_nb_registered h) t (h_ops h) ∧ (length cur ≤ KG_MAX_PCI)%nat.
Proof.
  intros He. unfold rescan. destruct (_ =? 0)%nat.
  - eexists _, _. split; [done|]. apply scan_os_length. cbn. lia.
  - eexists _, _. split; [done|]. destruct (segments_prefix (h_ecam h) (Scan [] ∅ (h_time h)) He) as [Hr _];
      [unfold roomy; cbn; lia|done].
Qed.

Lemma baseline_spec ds : ∀ base,
  (length base ≤ KG_MAX_PCI)%nat →
  let base' := kg_baseline_add_os_view ds base in
  base `prefix_of` base' ∧ (length base' ≤ KG_MAX_PCI)%nat
  ∧ ∀ d, d ∈ ds → pd_is_virtfn d = false →
    (∃ b, b ∈ base' ∧ kg_same_identity b (os_probe d) = true) ∨ length base' = KG_MAX_PCI.
Proof.
  unfold kg_baseline_add_os_view. induction ds as [|d ds IH]; intros base Hb; cbn [foldl].
  { split_and!; [done|done|]. intros d Hd. by apply not_elem_of_nil in Hd. }
  assert (Hone : base `prefix_of` baseline_add base d ∧ (length (baseline_add base d) ≤ KG_MAX_PCI)%nat
    ∧ (pd_is_virtfn d = false → (∃ b, b ∈ baseline_add base d ∧ kg_same_identity b (os_probe d) = true)
                                ∨ length (baseline_add base d) = KG_MAX_PCI)).
  { unfold baseline_add. destruct (pd_is_virtfn d); [done|].
    destruct (existsb _ _) eqn:E.
    - split_and!; [done|done|]. intros _. left. apply existsb_exists in E as (b & Hb' & Hid). exists b.
      split; [by apply list_elem_of_In|done].
    - destruct (Nat.ltb_spec (length base) KG_MAX_PCI) as [Hlt|Hge].
      + split_and!; [by apply prefix_app_r|rewrite length_app; cbn; lia|]. intros _. left. exists (os_probe d).
        split; [set_solver|]. unfold kg_same_identity, kg_same_dev. by rewrite !Z.eqb_refl.
      + split_and!; [done|done|]. intros _. right. lia. }
  destruct Hone as (Hp1 & Hl1 & Hd1). destruct (IH _ Hl1) as (Hp2 & Hl2 & Hd2).
  split_and!; [by etrans|done|]. intros x [->|Hx]%elem_of_cons Hv; [|by apply Hd2].
  destruct (Hd1 Hv) as [(b & Hbin & Hid)|Hfull].
  - left. exists b. split; [|done]. destruct Hp2 as [k ->]. set_solver.
  - right. apply prefix_length in Hp2. lia.
Qed.

Lemma requeue_hw_policy w : same_policy w (requeue_hw w).
Proof. unfold requeue_hw, queue_delayed_work. by destruct (wwork w HwWork). Qed.

Section hw_life.
Context `{CryptoLaws} `{Platform} `{PciEnv}.
Context (allow : list Z).

Lemma dma_audit_advances h w :
  sound w → hw_inv h →
  ∃ h' w', kg_dma_audit allow h w = Some (h', w') ∧ advances w w' ∧ hw_inv h'
  ∧ h_running h' = h_running h ∧ h_cur h' = h_cur h.
Proof.
  intros Hw [He Hc Hb Hs Hr]. unfold kg_dma_audit.
  destruct (audit_all_spec allow (h_ecam h) (h_base h) (default [] (h_cur h)) (Audit (h_recs h) (h_time h) (h_ops h)) w Hw)
    as (a & w' & -> & [Ha _ Hcap _ _ _ _] & _). bind_simpl. eexists _, w'. split; [done|].
  split_and!; [done| |done|done]. constructor; cbn; try done.
  unfold kg_dma_rec_prune. etrans; [apply length_filter|]. by apply Hcap.
Qed.

Lemma hw_scan_advances h w :
  sound w → hw_inv h →
  ∃ h' w', kg_hw_scan allow h w = Some (h', w') ∧ advances w w' ∧ hw_inv h' ∧ h_running h' = h_running h.
Proof.
  intros Hsnd Hi. pose proof Hi as [He Hc Hb Hs Hr]. unfold kg_hw_scan.
  destruct (rescan_length h He) as (cur & t & -> & Hlen). cbn [h_ecam].
  set (h1 := Hw _ _ _ _ _ _ _ _ _). assert (Hi1 : hw_inv h1) by (by constructor).
  destruct (_ =? 0)%nat.
  - bind_simpl. destruct (dma_audit_advances h1 w Hsnd Hi1) as (h' & w' & -> & Ha & Hi' & Hrun & _). by exists h', w'.
  - destruct (cross_check_advances h1 w Hsnd Hs) as (l & t' & w1 & -> & Hl & Ha1). bind_simpl.
    set (h2 := Hw _ _ _ _ _ _ _ _ _). assert (Hi2 : hw_inv h2) by (by constructor).
    destruct (dma_audit_advances h2 w1) as (h' & w' & -> & Ha & Hi' & Hrun & _); [by eapply advances_sound|done|].
    exists h', w'. split_and!; [done|by etrans|done|done].
Qed.

Lemma hw_workfn_advances h w :
  sound w → hw_inv h →
  ∃ h' w', kg_hw_workfn allow h w = Some (h', w') ∧ advances w w' ∧ hw_inv h' ∧ h_running h' = h_running h.
Proof.
  intros Hw Hi. unfold kg_hw_workfn. destruct (hw_scan_advances h w Hw Hi) as (h' & w' & -> & Ha & Hi' & Hrun).
  bind_simpl. eexists h', _. split; [done|]. split_and!; [|done|done].
  destruct (kg_hw_stop (wmon w')) eqn:Hstop; [done|]. etrans; [exact Ha|].
  apply same_policy_advances; [by eapply advances_sound|apply requeue_hw_policy|by apply queue_sched].
Qed.

Lemma hw_init_spec cur_ok base_ok nb_ok h w :
  h_ecam h = [] → susp_wf (h_susp h) → (length (h_recs h) ≤ KG_MAX_SUSPECT)%nat →
  ∃ e h' w', kg_hw_init cur_ok base_ok nb_ok h w = (e, h', w') ∧ hw_inv h' ∧ same_policy w w'
  ∧ (e = Some ENOMEM ∧ h_cur h' = None ∧ w' = w ∧ h_running h' = h_running h
     ∨ e = None ∧ w' = requeue_hw (set_hw_stop false w) ∧ h_running h' = true ∧ h_recs h' = []
       ∧ (∀ x, x ∈ default [] (h_cur h') → x ∈ h_base h')
       ∧ (h_ecam h' ≠ [] → ∃ t, ∀ d, d ∈ pci_devs t → pd_is_virtfn d = false →
          (∃ b, b ∈ h_base h' ∧ kg_same_identity b (os_probe d) = true) ∨ length (h_base h') = KG_MAX_PCI)).
Proof.
  intros He Hs Hr. unfold kg_hw_init. destruct (_ || _).
  { eexists _, _, w. split; [done|]. split_and!; [constructor; cbn; [by rewrite He|lia|lia|done|done]|done|by left]. }
  rewrite He. destruct (kg_ecam_init []) as [ret ecam] eqn:Hec.
  assert (Hok : Forall seg_ok (match ret with Some _ => [] | None => ecam end)).
  { destruct ret; [constructor|]. unfold kg_ecam_init, kg_ecam_init_table in Hec. destruct acpi_disabled; [done|].
    destruct acpi_mcfg as [[len tbl]|]; [|done]. injection Hec as _ <-. by apply ecam_collect_ok. }
  cbv zeta. set (ecam' := match ret with Some _ => [] | None => ecam end) in *.
  destruct (rescan_length (Hw ecam' (Some []) [] (h_susp h) (h_recs h) (h_running h) (h_nb_registered h) (h_time h) (h_ops h)) Hok)
    as (cur & t & -> & Hlen). cbn [h_cur h_time h_susp h_ops default].
  destruct (baseline_spec (pci_devs t) cur Hlen) as (Hp & Hl & Hd).
  destruct (Nat.eqb_spec (length ecam') 0) as [Hz|Hz].
  - eexists _, _, _. split; [done|]. split_and!; [constructor; cbn; try done; lia|by trans (set_hw_stop false w); [|apply requeue_hw_policy]|].
    right. split_and!; try done. intros Hne. by apply length_zero_iff_nil in Hz.
  - eexists _, _, _. split; [done|]. split_and!; [constructor; cbn; try done; lia|by trans (set_hw_stop false w); [|apply requeue_hw_policy]|].
    right. split_and!; try done; [|intros _; by exists t].
    intros x Hx. cbn in Hx |- *. destruct Hp as [k Hk]. rewrite Hk. set_solver.
Qed.
End hw_life.

Lemma authorized_base allow base e b :
  b ∈ base → kg_same_identity b e = true → kg_dma_authorized allow base e = Some true.
Proof.
  intros Hb Hid. unfold kg_dma_authorized.
  rewrite (proj2 (existsb_exists _ _)); [done|]. exists b. split; [by apply list_elem_of_In|done].
Qed.

(** Trust on first use: once the monitor has loaded, every device its first scan found is
    authorised, and so is every device the PCI core listed then, powered or not, as long as the
    table had room; an audit before the hardware changes therefore finds nothing, reports
    nothing and writes nothing, and loading itself reports nothing. *)
Theorem baseline_trusted `{CryptoLaws} `{Platform} `{PciEnv} allow nb_ok h w :
  sound w → h_ecam h = [] → susp_wf (h_susp h) → (length (h_recs h) ≤ KG_MAX_SUSPECT)%nat →
  ∃ h' w', kg_hw_init true true nb_ok h w = (None, h', w') ∧ same_policy w w'
  ∧ (∀ e, e ∈ default [] (h_cur h') → kg_dma_authorized allow (h_base h') e = Some true)
  ∧ (h_ecam h' ≠ [] → (length (h_base h') < KG_MAX_PCI)%nat →
     ∃ t, ∀ d e, d ∈ pci_devs t → pd_is_virtfn d = false → kg_same_identity (os_probe d) e = true →
          kg_dma_authorized allow (h_base h') e = Some true)
  ∧ ∃ h'', kg_dma_audit allow h' w' = Some (h'', w') ∧ h_recs h'' = [] ∧ h_ops h'' = h_ops h'.
Proof.
  intros Hw He Hs Hr. destruct (hw_init_spec true true nb_ok h w He Hs Hr) as (e & h' & w' & Hi & Hinv & Hpol & Hcase).
  assert (e = None) as ->.
  { unfold kg_hw_init in Hi. cbn [negb orb] in Hi. destruct (kg_ecam_init _). cbv zeta in Hi.
    destruct (if (_ =? 0)%nat then _ else _). by injection Hi. }
  destruct Hcase as [[? _]|(_ & _ & _ & Hrecs & Hbase & Hos)]; [done|]. exists h', w'. split; [done|]. split; [done|].
  assert (Hauth : ∀ e, e ∈ default [] (h_cur h') → kg_dma_authorized allow (h_base h') e = Some true).
  { intros e Hin. eapply authorized_base; [by apply Hbase|apply same_identity_refl]. }
  split_and!; [done| |].
  - intros Hne Hroom. destruct (Hos Hne) as [t Ht]. exists t. intros d x Hd Hv Hid.
    destruct (Ht d Hd Hv) as [(b & Hb & Hbd)|?]; [|lia]. eapply authorized_base; [done|].
    unfold kg_same_identity, kg_same_dev in *. bool_props. repeat (apply andb_true_iff; split); apply Z.eqb_eq; congruence.
  - unfold kg_dma_audit. assert (Hw' : sound w') by (by eapply same_policy_sound).
    destruct (audit_all_spec allow (h_ecam h') (h_base h') (default [] (h_cur h'))
                (Audit (h_recs h') (h_time h') (h_ops h')) w' Hw') as (a & w2 & -> & _ & Hq & _).
    destruct Hq as [-> ->]. { intros x Hx [_ Hno]. rewrite Hauth in Hno by done. done. }
    bind_simpl. eexists. split; [done|]. cbn. rewrite Hrecs. done.
Qed.

(** ** Limits of the code *)

(** A device of a PCI domain above 65535 (the domains Linux gives to VMD controllers start at
    65536) is looked up under its domain modulo 65536: when a region of the MCFG table covers
    that number, the device is noted as missing in hardware although no region covers it.
    The comment on the loop says that only devices ECAM actually covers are judged. *)
Theorem wide_domain_misjudged `{PciEnv} h d seg :
  let cur := default [] (h_cur h) in
  Forall (λ e, is_u16 (es_seg e)) (h_ecam h) →
  d ∈ pci_devs (h_time h + length cur) → 65536 ≤ pd_domain d →
  pd_is_virtfn d = false → kg_pdev_powered_off d = false →
  kg_ecam_find (h_ecam h) (u16 (pd_domain d)) (pd_bus d) = Some seg →
  Forall (λ x, kg_same_dev x (os_probe d) = false) cur →
  kg_ecam_find (h_ecam h) (pd_domain d) (pd_bus d) = None
  ∧ (os_probe d, KG_PCI_MISSING_IN_HW) ∈ discrepancies h.
Proof.
  intros cur Hu Hd Hdom Hv Hp Hf Hx. split.
  - clear Hf. induction Hu as [|e l He Hl IH]; [done|]. cbn [kg_ecam_find]. unfold ecam_covers.
    rewrite (proj2 (Z.eqb_neq (es_seg e) (pd_domain d))) by (unfold is_u16 in He; lia). exact IH.
  - unfold discrepancies. apply elem_of_app. right. apply list_elem_of_bind. exists d. split; [|exact Hd].
    unfold os_note. rewrite Hv, Hp. cbn [orb pe_seg pe_bus os_probe]. rewrite Hf.
    replace (existsb _ _) with false; [by left|]. symmetry. apply not_true_is_false. intros (x & Hin & Heq)%existsb_exists.
    rewrite Forall_forall in Hx. apply list_elem_of_In in Hin. rewrite (Hx x Hin) in Heq. done.
Qed.

(** When the configuration window cannot be mapped, a device the PCI core does not know is
    announced as stripped of bus mastering although nothing was written: kg_bme_now answers
    "not mastering" for a register it could not read. *)
Theorem unread_register_announced `{CryptoLaws} `{Platform} `{PciEnv} ecam seg e i re ra a w :
  sound w → kg_enforcing w = true →
  kg_ecam_find ecam (pe_seg e) (pe_bus e) = Some seg → kg_ecam_map (au_time a) seg (pe_bus e) = None →
  au_recs a !! i = Some (DmaRec re ra false) →
  ∃ a' w', audit_enforce ecam e None (Some i) a w = Some (a', w')
  ∧ report KG_ALERT_DEVICE_BME_DISABLED KG_LEVEL_CRITICAL (kg_bdf e) (audit_p2 e) w = Some w'
  ∧ au_recs a' !! i = Some (DmaRec re ra true) ∧ au_ops a' = au_ops a.
Proof.
  intros Hw He Hf Hm Hi. unfold audit_enforce, kg_disable_bme. rewrite He.
  destruct (Nat.eqb_spec (length ecam) 0) as [Hz%length_zero_iff_nil|_]; [by subst|].
  unfold kg_bme_now. rewrite Hf, Hm. cbn [negb].
  replace (rec_at (Some i) (au_recs a)) with (Some (DmaRec re ra false)) by done.
  destruct (report_advances KG_ALERT_DEVICE_BME_DISABLED KG_LEVEL_CRITICAL (kg_bdf e) (audit_p2 e) w Hw)
    as (w' & -> & _). bind_simpl. eexists _, w'. split; [done|]. split_and!; [done| |done].
  apply list_lookup_insert_eq. by eapply lookup_lt_Some.
Qed.

(** ** On the machine of PciScan.v *)
Definition sample_hw (susp : list kg_suspect) : kg_hw :=
  Hw [sample_seg] (Some [sample_disk]) [] (susp ++ replicate (64 - length susp) zero_suspect) [] true true 0 [].
Definition disk_dev : pci_dev :=
  PciDev 0 1 0 0x144d 0xa808 0x010802 0 false 0 false [] false false false None 0x406 0.
Lemma enforcing_world_sound : @sound sha_api enforcing_world.
Proof. split; [exact ready_world_inv|by compute]. Qed.
Lemma one_suspect_wf s : is_u8 (su_seen s) → susp_wf (h_susp (sample_hw [s])).
Proof.
  intros Hs. split; [reflexivity|]. apply Forall_cons. split; [done|]. apply Forall_replicate. by unfold is_u8.
Qed.

Lemma discrepancy_lifecycle_witness :
  let h := sample_hw [Suspect sample_disk KG_PCI_HIDDEN_FROM_OS 1 false] in
  ∃ h' w', @kg_cross_check sha_api two_cpus (sample_pci []) h ready_world = Some (h', w')
  ∧ ∃ s, in_table (h_susp h') (0, 1, 0, 0, KG_PCI_HIDDEN_FROM_OS) s ∧ su_reported s = true.
Proof.
  intros h. destruct (@discrepancy_lifecycle sha_api sha_api_laws two_cpus (sample_pci []) h ready_world)
    as (h' & w' & Hc & _ & _ & _ & Hrep & _).
  - exact ready_world_sound.
  - apply one_suspect_wf. by unfold is_u8.
  - exists h', w'. split; [exact Hc|].
    apply (Hrep _ (Suspect sample_disk KG_PCI_HIDDEN_FROM_OS 1 false)).
    + replace (@discrepancies (sample_pci []) h) with [(sample_disk, KG_PCI_HIDDEN_FROM_OS)]
        by (vm_compute; reflexivity). by left.
    + split; [by left|]. split; [by unfold in_use|reflexivity].
Defined.

Lemma bus_master_announced_witness :
  ∃ h' w', @kg_dma_audit sha_api two_cpus (sample_pci []) [] (sample_hw []) ready_world = Some (h', w')
  ∧ (∃ r, r ∈ h_recs h' ∧ kg_same_identity (dr_e r) sample_disk = true ∧ dr_alerted r = true)
  ∧ KG_POSTURE_ELEVATED ≤ kg_posture w'.
Proof.
  destruct (@bus_master_announced sha_api sha_api_laws two_cpus (sample_pci []) [] (sample_hw []) ready_world)
    as (h' & w' & Hc & _ & _ & Hal & _).
  - exact ready_world_sound.
  - cbn. lia.
  - exists h', w'. split; [exact Hc|].
    destruct (Hal sample_disk) as [Hr Hp].
    + split; [by left|split; vm_compute; reflexivity].
    + by apply Nat.leb_le.
    + split; [exact Hr|]. apply Hp; [|reflexivity]. intros r Hin. by apply not_elem_of_nil in Hin.
Defined.

Lemma enforcement_confined_witness :
  ∃ h' w' new, @kg_dma_audit sha_api two_cpus (sample_pci [disk_dev]) [] (sample_hw []) enforcing_world = Some (h', w')
  ∧ h_ops h' = new ∧ ClearMaster disk_dev ∈ new.
Proof.
  destruct (@enforcement_confined sha_api sha_api_laws two_cpus (sample_pci [disk_dev]) [] (sample_hw []) enforcing_world)
    as (h' & w' & new & Hc & Ho & _ & _ & Hall).
  - exact enforcing_world_sound.
  - exists h', w', new. split; [exact Hc|]. split; [exact Ho|].
    destruct (Hall eq_refl sample_disk) as [t Ht].
    + split; [by left|split; vm_compute; reflexivity].
    + apply Ht. vm_compute. reflexivity.
Defined.

Definition boot_hw : kg_hw := Hw [] None [] (replicate 64 zero_suspect) [] false false 0 [].
Lemma boot_hw_wf : susp_wf (h_susp boot_hw).
Proof. split; [reflexivity|]. apply Forall_replicate. by unfold is_u8. Qed.
Lemma baseline_trusted_witness :
  ∃ h' w', @kg_hw_init (sample_pci [disk_dev]) true true true boot_hw ready_world = (None, h', w')
  ∧ ∃ h'', @kg_dma_audit sha_api two_cpus (sample_pci [disk_dev]) [] h' w' = Some (h'', w')
           ∧ h_recs h'' = [] ∧ h_ops h'' = h_ops h'.
Proof.
  destruct (@baseline_trusted sha_api sha_api_laws two_cpus (sample_pci [disk_dev]) [] true boot_hw ready_world)
    as (h' & w' & Hi & _ & _ & _ & Ha).
  - exact ready_world_sound.
  - reflexivity.
  - exact boot_hw_wf.
  - cbn. lia.
  - by exists h', w'.
Defined.

Definition vmd_dev : pci_dev :=
  PciDev 0x10000 1 8 0x144d 0xa808 0x010802 0 false 0 false [] false false false None 0x406 0.
Lemma wide_domain_misjudged_witness :
  (os_probe vmd_dev, KG_PCI_MISSING_IN_HW) ∈ @discrepancies (sample_pci [disk_dev; vmd_dev]) (sample_hw []).
Proof.
  apply (@wide_domain_misjudged (sample_pci [disk_dev; vmd_dev]) (sample_hw []) vmd_dev sample_seg).
  - apply Forall_singleton. by unfold is_u16.
  - right. by left.
  - cbn. lia.
  - reflexivity.
  - reflexivity.
  - reflexivity.
  - apply Forall_singleton. reflexivity.
Defined.

Definition unmapped_pci : PciEnv := {|
  acpi_disabled := false; acpi_mcfg := None; ioremap _ _ := None; pci_buses _ := []; pci_devs _ := [];
  pci_get_domain_bus_and_slot _ _ _ _ := None |}.
Lemma unread_register_announced_witness :
  ∃ a' w', @audit_enforce sha_api two_cpus unmapped_pci [sample_seg] sample_disk None (Some 0%nat)
             (Audit [DmaRec sample_disk true false] 0 []) enforcing_world = Some (a', w')
  ∧ au_ops a' = [].
Proof.
  destruct (@unread_register_announced sha_api sha_api_laws two_cpus unmapped_pci [sample_seg] sample_seg sample_disk 0
              sample_disk true (Audit [DmaRec sample_disk true false] 0 []) enforcing_world)
    as (a' & w' & Hc & _ & _ & Ho).
  - exact enforcing_world_sound.
  - reflexivity.
  - reflexivity.
  - reflexivity.
  - reflexivity.
  - by exists a', w'.
Defined.

(** Unloading stops the worker and forgets the tables. *)
Lemma hw_exit_releases h w :
  h_running h = true →
  let '(h', w') := kg_hw_exit h w in
  h_cur h' = None ∧ h_base h' = [] ∧ h_running h' = false ∧ wwork w' HwWork = None
  ∧ kg_hw_stop (wmon w') = true ∧ same_policy w w'.
Proof. intros Hr. unfold kg_hw_exit. rewrite Hr. done. Qed.
