(* ===== verification/Input.v ===== *)
(** * Module 2: the keyboard path (linux/module/kg_input.c, and kg_sym_module of kg_integrity.c)

    Every keyboard's list of attached input handlers is gathered and judged: a handler whose
    name nobody authorised is reported, and detached while the posture enforces; a callback
    that is not where its handler is, or whose first instruction jumps elsewhere, is reported
    as a hook.

    The lists belong to the input core and change under the module: [in_store] is their
    shared state, [input_race] whatever the rest of the kernel does to it before a list is
    gathered and again before an entry is taken off it. *)
From stdpp Require Import gmap.
From S2P Require Import Prelude Uapi Kernel Machine Guard Registry Comms Posture Sched Advance Modgate.
Local Open Scope Z_scope.

Definition KG_BUILTIN_HANDLERS : list Z :=
  bytes_of "kbd,evdev,sysrq,leds,rfkill,mousedev,joydev,kernelguard".
Definition KG_MAX_HANDLES : nat := 24.
Definition KG_MAX_BASE : nat := 48.
Definition KG_MAX_REPORTED : nat := 96.
Definition MODULE_NAME_LEN : nat := 56.

Inductive kg_hook_kind :=
  | KG_HK_NONE | KG_HK_UNKNOWN_MEM | KG_HK_FOREIGN_MODULE | KG_HK_DETOUR_FOREIGN | KG_HK_DETOUR_UNKNOWN
  | KG_HK_INT3.
#[export] Instance kg_hook_kind_eq_dec : EqDecision kg_hook_kind.
Proof. solve_decision. Defined.
Definition kind_code (k : kg_hook_kind) : Z :=
  match k with
  | KG_HK_NONE => 0 | KG_HK_UNKNOWN_MEM => 1 | KG_HK_FOREIGN_MODULE => 2 | KG_HK_DETOUR_FOREIGN => 3
  | KG_HK_DETOUR_UNKNOWN => 4 | KG_HK_INT3 => 5
  end.

(** ** The input core *)
Record input_handler := InputHandler { hd_addr : Z; hd_name : option (list Z); hd_cb : list Z }.
Record input_handle := InputHandle { ih_ptr : Z; ih_open : Z; ih_handler : option input_handler }.
Record input_dev := InputDev { id_list : list input_handle; id_grab : option Z }.
(** The devices by address. *)
Notation in_store := (Z → input_dev).

Class InputEnv := {
  sprint_symbol_no_offset : Z → list Z;
  copy_from_kernel_nofault : Z → nat → option (list Z);
  kcalloc_ok : nat → bool;
  mutex_lock_interrupted : nat → bool;
  input_race : nat → in_store → in_store;
  input_register_handle : Z → Z → in_store → option errno * in_store;      (* handle, device *)
  input_unregister_handle : Z → Z → in_store → in_store
}.

(** ** The module's own state *)
Record kg_kbd := Kbd { kb_handle : Z; kb_dev : Z }.
Record kg_report_rec := ReportRec { rr_handle : Z; rr_cb : Z; rr_kind : Z }.
#[export] Instance kg_report_rec_eq_dec : EqDecision kg_report_rec.
Proof. solve_decision. Defined.

Record kg_input := Input {
  in_kbds : list kg_kbd;
  in_nkbd : Z;
  in_base : list (list Z);            (* kg_base_names *)
  in_reported : list kg_report_rec;
  in_baselining : bool;
  in_devs : in_store;
  in_time : nat
}.
Definition with_kbds (l : list kg_kbd) (n : Z) (devs : in_store) (s : kg_input) : kg_input :=
  Input l n (in_base s) (in_reported s) (in_baselining s) devs (in_time s).
Definition with_base (b : list (list Z)) (s : kg_input) : kg_input :=
  Input (in_kbds s) (in_nkbd s) b (in_reported s) (in_baselining s) (in_devs s) (in_time s).
Definition with_reported (r : list kg_report_rec) (s : kg_input) : kg_input :=
  Input (in_kbds s) (in_nkbd s) (in_base s) r (in_baselining s) (in_devs s) (in_time s).
Definition with_baselining (b : bool) (s : kg_input) : kg_input :=
  Input (in_kbds s) (in_nkbd s) (in_base s) (in_reported s) b (in_devs s) (in_time s).
Definition with_devs (devs : in_store) (t : nat) (s : kg_input) : kg_input :=
  Input (in_kbds s) (in_nkbd s) (in_base s) (in_reported s) (in_baselining s) devs t.

Definition kg_input_active (w : world) : bool := kg_input_running (wmon w).
Definition kg_input_device_count (s : kg_input) : Z := in_nkbd s.
Definition set_input_mon (running stop : bool) (w : world) : world :=
  let m := wmon w in set_mon (Monitors running stop (kg_hw_stop m) (kg_integ_stop m)) w.

(** ** kg_sym_module (kg_integrity.c) *)
Fixpoint strchr (c : Z) (s : list Z) : option (list Z) :=
  match s with [] => None | x :: s' => if x =? c then Some s else strchr c s' end.
(** The text before the first [c]; all of it if there is none. *)
Fixpoint cut_at (c : Z) (s : list Z) : list Z :=
  match s with [] => [] | x :: s => if x =? c then [] else x :: cut_at c s end.

Section input.
Context `{Crypto} `{Platform} `{InputEnv}.
Context (kg_kbd_allow : list Z).

(** Whether the address resolves, and the module it is in: [] for the kernel itself. *)
Definition kg_sym_module (addr : Z) : bool * list Z :=
  let buf := sprint_symbol_no_offset addr in
  let found := negb (bool_decide (take 2 buf = [48; 120])) in
  (found,
   if found then
     match strchr 91 buf with
     | Some lb =>
       match strchr 93 lb with
       | Some _ => cut_at 32 (strscpy (drop 1 (cut_at 93 lb)) MODULE_NAME_LEN)
       | None => []
       end
     | None => []
     end
   else []).

(** ** Bookkeeping *)
Definition kg_handler_authorised (base : list (list Z)) (name : list Z) : option bool :=
  a ← kg_list_contains KG_BUILTIN_HANDLERS name;
  if (a : bool) then Some true
  else
    b ← kg_list_contains kg_kbd_allow name;
    if (b : bool) then Some true else Some (bool_decide (name ∈ base)).

Definition kg_base_add (name : list Z) (base : list (list Z)) : list (list Z) :=
  if bool_decide (name ∈ base) then base
  else if (length base <? KG_MAX_BASE)%nat then base ++ [strscpy name 32] else base.

Definition kg_was_reported (h cb kind : Z) (l : list kg_report_rec) : bool :=
  bool_decide (ReportRec h cb kind ∈ l).
Definition kg_mark_reported (h cb kind : Z) (l : list kg_report_rec) : list kg_report_rec :=
  if (length l <? KG_MAX_REPORTED)%nat then l ++ [ReportRec h cb kind] else l.

(** ** Callback integrity *)
Definition kg_read_kernel (src : Z) (n : nat) : option (list Z) := copy_from_kernel_nofault src n.

(** The detour at [b + off]: the address it goes to, 0 for none. *)
Definition entry_target (fn : Z) (off : nat) (b : list Z) : Z :=
  let p i := b !!! (off + i)%nat in
  let rel i := s32 (pack8 (take 4 (drop (off + i) b))) in
  if p 0%nat =? 0xe9 then u64 (fn + Z.of_nat off + 5 + rel 1%nat)
  else if (p 0%nat =? 0xff) && (p 1%nat =? 0x25) then
    match kg_read_kernel (u64 (fn + Z.of_nat off + 6 + rel 2%nat)) 8 with
    | Some t => pack8 t
    | None => 0
    end
  else if (p 0%nat =? 0x48) && (p 1%nat =? 0xb8) && (p 10%nat =? 0xff) && (p 11%nat =? 0xe0) then
    pack8 (take 8 (drop (off + 2) b))
  else if (p 0%nat =? 0x68) && (p 5%nat =? 0xc3) then u64 (rel 1%nat)
  else 0.

Definition judge_target (fn_mod : list Z) (tgt : Z) : kg_hook_kind :=
  let '(found, modname) := kg_sym_module tgt in
  if negb found then KG_HK_DETOUR_UNKNOWN
  else if negb (bool_decide (modname = [])) && negb (bool_decide (modname = fn_mod))
  then KG_HK_DETOUR_FOREIGN else KG_HK_NONE.

Definition endbr64 : list Z := [0xf3; 0x0f; 0x1e; 0xfa].

Definition kg_check_entry (fn : Z) (fn_mod : list Z) : kg_hook_kind :=
  match kg_read_kernel fn 24 with
  | None => KG_HK_NONE
  | Some b =>
    let pass (off : nat) (next : kg_hook_kind) :=
      if b !!! off =? 0xcc then KG_HK_INT3
      else let tgt := entry_target fn off b in
           if negb (tgt =? 0) then judge_target fn_mod tgt else next in
    pass 0%nat (if bool_decide (take 4 b = endbr64) then pass 4%nat KG_HK_NONE else KG_HK_NONE)
  end.

Record kg_hinfo := HInfo { hi_handle : Z; hi_open : bool; hi_name : list Z; hi_addr : Z; hi_cb : list Z }.

Definition callback_kind (hfound : bool) (hmod : list Z) (cb : Z) : kg_hook_kind :=
  let '(cfound, cmod) := kg_sym_module cb in
  if negb cfound then KG_HK_UNKNOWN_MEM
  else if hfound && negb (bool_decide (hmod = cmod)) then KG_HK_FOREIGN_MODULE
  else kg_check_entry cb cmod.
Definition kind_level (k : kg_hook_kind) : Z :=
  match k with KG_HK_DETOUR_UNKNOWN | KG_HK_INT3 => KG_LEVEL_WATCH | _ => KG_LEVEL_CRITICAL end.

Fixpoint check_cbs (handle : Z) (hfound : bool) (hmod : list Z) (cbs : list Z) (l : list kg_report_rec)
  (w : world) : option (list kg_report_rec * world) :=
  match cbs with
  | [] => Some (l, w)
  | cb :: cbs =>
    let kind := callback_kind hfound hmod cb in
    if (cb =? 0) || bool_decide (kind = KG_HK_NONE) || kg_was_reported handle cb (kind_code kind) l
    then check_cbs handle hfound hmod cbs l w
    else
      let l := kg_mark_reported handle cb (kind_code kind) l in
      w ← report KG_ALERT_DISPATCH_HOOK (kind_level kind) cb (Z.shiftl (kind_code kind) 32)
            (kg_stat_inc dispatch_hook_detected w);
      check_cbs handle hfound hmod cbs l w
  end.
Definition kg_check_callbacks (hi : kg_hinfo) (l : list kg_report_rec) (w : world)
  : option (list kg_report_rec * world) :=
  let '(hfound, hmod) := kg_sym_module (hi_addr hi) in
  check_cbs (hi_handle hi) hfound hmod (hi_cb hi) l w.

(** ** Neutralisation: unlink a handle that is still on the list, release its grab *)
Fixpoint unlink (ptr : Z) (l : list input_handle) : option (list input_handle) :=
  match l with
  | [] => None
  | h :: l => if ih_ptr h =? ptr then Some l else cons h <$> unlink ptr l
  end.
Definition kg_detach_handle (dev ptr : Z) (s : kg_input) : bool * kg_input :=
  let devs := input_race (in_time s) (in_devs s) in
  let s := with_devs devs (S (in_time s)) s in
  if mutex_lock_interrupted (in_time s) then (false, s)
  else
    match unlink ptr (id_list (devs dev)) with
    | None => (false, s)
    | Some l =>
      let grab := if decide (id_grab (devs dev) = Some ptr) then None else id_grab (devs dev) in
      (true, with_devs (<[dev := InputDev l grab]> devs) (in_time s) s)
    end.

(** ** One keyboard *)
Definition handle_info (h : input_handle) (hd : input_handler) : kg_hinfo :=
  HInfo (ih_ptr h) (0 <? ih_open h) (strscpy (default (bytes_of "?") (hd_name hd)) 32) (hd_addr hd) (hd_cb hd).
Fixpoint gather (own : Z) (l : list input_handle) (acc : list kg_hinfo) : list kg_hinfo :=
  match l with
  | [] => acc
  | h :: l =>
    gather own l
      match ih_handler h with
      | None => acc
      | Some hd => if (ih_ptr h =? own) || (KG_MAX_HANDLES <=? length acc)%nat then acc
                   else acc ++ [handle_info h hd]
      end
  end.

(** Identity, then callbacks. *)
Definition judge_handle (hi : kg_hinfo) (s : kg_input) (w : world) : option (kg_input * world) :=
  '(s, w) ←
    (if in_baselining s then Some (with_base (kg_base_add (hi_name hi) (in_base s)) s, w)
     else
       auth ← kg_handler_authorised (in_base s) (hi_name hi);
       if negb auth && negb (kg_was_reported (hi_handle hi) 0 0 (in_reported s)) then
         let s := with_reported (kg_mark_reported (hi_handle hi) 0 0 (in_reported s)) s in
         let np := kg_pack_name (hi_name hi) in
         w ← report KG_ALERT_UNAUTHORIZED_KBD_FILTER
               (if hi_open hi then KG_LEVEL_CRITICAL else KG_LEVEL_WATCH) np.1 np.2
               (kg_stat_inc hw_discrepancy_count w);
         Some (s, w)
       else Some (s, w));
  '(l, w) ← kg_check_callbacks hi (in_reported s) w;
  Some (with_reported l s, w).
Fixpoint judge_all (his : list kg_hinfo) (s : kg_input) (w : world) : option (kg_input * world) :=
  match his with
  | [] => Some (s, w)
  | hi :: his => '(s, w) ← judge_handle hi s w; judge_all his s w
  end.

Definition neutralise (dev : Z) (hi : kg_hinfo) (s : kg_input) (w : world) : option (kg_input * world) :=
  auth ← kg_handler_authorised (in_base s) (hi_name hi);
  if (auth : bool) then Some (s, w)
  else
    let '(ok, s) := kg_detach_handle dev (hi_handle hi) s in
    if (ok : bool) then
      let np := kg_pack_name (hi_name hi) in
      w ← report KG_ALERT_KBD_FILTER_NEUTRALIZED KG_LEVEL_CRITICAL np.1 np.2 w;
      Some (s, w)
    else Some (s, w).
Fixpoint neutralise_all (dev : Z) (his : list kg_hinfo) (s : kg_input) (w : world)
  : option (kg_input * world) :=
  match his with
  | [] => Some (s, w)
  | hi :: his => '(s, w) ← neutralise dev hi s w; neutralise_all dev his s w
  end.

Definition kg_scan_kbd (k : kg_kbd) (s : kg_input) (w : world) : option (kg_input * world) :=
  let ok := kcalloc_ok (in_time s) in
  let s := with_devs (input_race (in_time s) (in_devs s)) (S (in_time s)) s in
  if negb ok then Some (s, w)
  else
    let his := gather (kb_handle k) (id_list (in_devs s (kb_dev k))) [] in
    '(s, w) ← judge_all his s w;
    if kg_enforcing w && negb (in_baselining s) then neutralise_all (kb_dev k) his s w
    else Some (s, w).

(** ** All keyboards *)
Definition handle_alive (s : kg_input) (h : Z) : bool :=
  existsb (λ k, existsb (λ x, ih_ptr x =? h) (id_list (in_devs s (kb_dev k)))) (in_kbds s).
Definition kg_prune_reported (s : kg_input) : kg_input :=
  with_reported (filter (λ r, handle_alive s (rr_handle r) = true) (in_reported s)) s.

Fixpoint scan_kbds (ks : list kg_kbd) (s : kg_input) (w : world) : option (kg_input * world) :=
  match ks with
  | [] => Some (s, w)
  | k :: ks => '(s, w) ← kg_scan_kbd k s w; scan_kbds ks s w
  end.
Definition kg_input_scan_all (s : kg_input) (w : world) : option (kg_input * world) :=
  '(s, w) ← scan_kbds (in_kbds s) s w;
  Some (kg_prune_reported s, w).

Definition requeue_input (w : world) : world :=
  queue_delayed_work InputWork (msecs (kg_scan_ms (kg_hw_interval_ms (wpar w)) w)) w.
Definition kg_input_workfn (s : kg_input) (w : world) : option (kg_input * world) :=
  '(s, w) ← kg_input_scan_all s w;
  Some (s, if negb (kg_input_stop (wmon w)) then requeue_input w else w).

(** ** Keyboards come and go *)
Definition kg_input_connect (alloc_ok : bool) (handle dev : Z) (s : kg_input) (w : world)
  : option errno * kg_input * world :=
  if negb alloc_ok then (Some ENOMEM, s, w)
  else
    match input_register_handle handle dev (in_devs s) with
    | (Some e, devs) => (Some e, with_devs devs (in_time s) s, w)
    | (None, devs) =>
      (None, with_kbds (in_kbds s ++ [Kbd handle dev]) (u32 (in_nkbd s + 1)) devs s,
       if kg_input_running (wmon w) then kg_input_kick w else w)
    end.

Fixpoint remove_kbd (handle : Z) (l : list kg_kbd) : list kg_kbd :=
  match l with [] => [] | k :: l => if kb_handle k =? handle then l else k :: remove_kbd handle l end.
(** [k] is the keyboard the handle is embedded in. *)
Definition kg_input_disconnect (k : kg_kbd) (s : kg_input) : kg_input :=
  with_kbds (remove_kbd (kb_handle k) (in_kbds s)) (u32 (in_nkbd s - 1))
            (input_unregister_handle (kb_handle k) (kb_dev k) (in_devs s)) s.

(** ** init and exit.  [reg] is what input_register_handler returns: an error, or the keyboards
    it calls connect() for, with whether their kzalloc succeeds. *)
Fixpoint connect_all (l : list (bool * Z * Z)) (s : kg_input) (w : world) : kg_input * world :=
  match l with
  | [] => (s, w)
  | (ok, handle, dev) :: l => let '(_, s, w) := kg_input_connect ok handle dev s w in connect_all l s w
  end.

Definition kg_input_init (reg : errno + list (bool * Z * Z)) (s : kg_input) (w : world)
  : option (option errno * kg_input * world) :=
  let w := set_input_mon (kg_input_running (wmon w)) false w in
  match reg with
  | inl e => Some (Some e, s, w)
  | inr l =>
    let '(s, w) := connect_all l s w in
    '(s, w) ← kg_input_scan_all (with_baselining true s) w;
    Some (None, with_baselining false s,
          requeue_input (set_input_mon true (kg_input_stop (wmon w)) w))
  end.

Definition kg_input_exit (s : kg_input) (w : world) : kg_input * world :=
  if negb (kg_input_running (wmon w)) then (s, w)
  else
    let w := cancel_work InputWork (set_input_mon (kg_input_running (wmon w)) true w) in
    (foldl (λ s k, kg_input_disconnect k s) s (in_kbds s), set_input_mon false (kg_input_stop (wmon w)) w).
End input.

(** ** What there is to say about a handle, as a list of findings *)
Record finding := Finding { fi_rec : kg_report_rec; fi_stat : stat; fi_type : Z; fi_level : Z; fi_p1 : Z; fi_p2 : Z }.
(** The posture a finding asks for, from its record alone. *)
Definition rec_target (r : kg_report_rec) : Z :=
  if rr_kind r =? 0 then KG_POSTURE_ELEVATED
  else if (rr_kind r =? 4) || (rr_kind r =? 5) then KG_POSTURE_NORMAL else KG_POSTURE_FAILSAFE.
Definition finding_ok (f : finding) : Prop := alert_target (fi_type f) (fi_level f) = rec_target (fi_rec f).

Section findings.
Context `{InputEnv}.
Context (allow : list Z).

Definition cb_finding (handle : Z) (hfound : bool) (hmod : list Z) (cb : Z) : list finding :=
  let kind := callback_kind hfound hmod cb in
  if (cb =? 0) || bool_decide (kind = KG_HK_NONE) then []
  else [Finding (ReportRec handle cb (kind_code kind)) dispatch_hook_detected KG_ALERT_DISPATCH_HOOK
                (kind_level kind) cb (Z.shiftl (kind_code kind) 32)].
Definition cb_findings (hi : kg_hinfo) : list finding :=
  let '(hfound, hmod) := kg_sym_module (hi_addr hi) in
  hi_cb hi ≫= cb_finding (hi_handle hi) hfound hmod.

Definition unauthorised (base : list (list Z)) (hi : kg_hinfo) : Prop :=
  kg_handler_authorised allow base (hi_name hi) = Some false.
#[export] Instance unauthorised_dec base hi : Decision (unauthorised base hi).
Proof. unfold unauthorised. apply _. Defined.
Definition id_finding (base : list (list Z)) (hi : kg_hinfo) : list finding :=
  if decide (unauthorised base hi) then
    [Finding (ReportRec (hi_handle hi) 0 0) hw_discrepancy_count KG_ALERT_UNAUTHORIZED_KBD_FILTER
             (if hi_open hi then KG_LEVEL_CRITICAL else KG_LEVEL_WATCH)
             (kg_pack_name (hi_name hi)).1 (kg_pack_name (hi_name hi)).2]
  else [].
(** An unauthorised name first, then the callbacks. *)
Definition handle_findings (base : list (list Z)) (hi : kg_hinfo) : list finding :=
  id_finding base hi ++ cb_findings hi.

Lemma authorised_total base name : ∃ b, kg_handler_authorised allow base name = Some b.
Proof.
  unfold kg_handler_authorised.
  destruct (list_contains_total KG_BUILTIN_HANDLERS name) as ([] & -> & _); bind_simpl; [by exists true|].
  destruct (list_contains_total allow name) as ([] & -> & _); bind_simpl; [by exists true|by eexists].
Qed.

Lemma cb_finding_ok handle hfound hmod cb : Forall finding_ok (cb_finding handle hfound hmod cb).
Proof.
  unfold cb_finding. cbv zeta. destruct (callback_kind hfound hmod cb); destruct (cb =? 0); cbn; constructor; try done;
    constructor.
Qed.
Lemma handle_findings_ok base hi : Forall finding_ok (handle_findings base hi).
Proof.
  unfold handle_findings. apply Forall_app. split.
  - unfold id_finding. destruct (decide _); [|constructor]. apply Forall_singleton. unfold finding_ok.
    by destruct (hi_open hi).
  - unfold cb_findings. destruct (kg_sym_module _) as [hfound hmod]. apply Forall_forall. intros f Hf.
    apply list_elem_of_bind in Hf as (cb & Hf & _). pose proof (cb_finding_ok (hi_handle hi) hfound hmod cb) as Hok.
    rewrite Forall_forall in Hok. by apply Hok.
Qed.
End findings.

Section announce.
Context `{Crypto} `{Platform}.
(** Say it once. *)
Definition announce (f : finding) (l : list kg_report_rec) (w : world) : option (list kg_report_rec * world) :=
  if bool_decide (fi_rec f ∈ l) then Some (l, w)
  else
    w ← report (fi_type f) (fi_level f) (fi_p1 f) (fi_p2 f) (kg_stat_inc (fi_stat f) w);
    Some (kg_mark_reported (rr_handle (fi_rec f)) (rr_cb (fi_rec f)) (rr_kind (fi_rec f)) l, w).
Fixpoint announce_all (fs : list finding) (l : list kg_report_rec) (w : world)
  : option (list kg_report_rec * world) :=
  match fs with
  | [] => Some (l, w)
  | f :: fs => '(l, w) ← announce f l w; announce_all fs l w
  end.
Lemma announce_all_app fs gs : ∀ l w,
  announce_all (fs ++ gs) l w = ('(l, w) ← announce_all fs l w; announce_all gs l w).
Proof.
  induction fs as [|f fs IH]; intros l w; [done|]. cbn [app announce_all].
  destruct (announce f l w) as [[l1 w1]|]; [|done]. bind_simpl. apply IH.
Qed.
Lemma announce_one f l w : announce_all [f] l w = announce f l w.
Proof. cbn [announce_all]. by destruct (announce f l w) as [[? ?]|]. Qed.
End announce.

Section judge_as_findings.
Context `{Crypto} `{Platform} `{InputEnv}.
Context (allow : list Z).

Lemma check_cbs_findings handle hfound hmod cbs : ∀ l w,
  check_cbs handle hfound hmod cbs l w = announce_all (cbs ≫= cb_finding handle hfound hmod) l w.
Proof.
  induction cbs as [|cb cbs IH]; intros l w; [done|]. cbn [check_cbs]. rewrite bind_cons, announce_all_app.
  assert (Hf : cb_finding handle hfound hmod cb = cb_finding handle hfound hmod cb) by done.
  unfold cb_finding in Hf at 2. rewrite Hf. clear Hf. cbv zeta.
  destruct ((cb =? 0) || _); cbn [orb]; [cbn [announce_all]; bind_simpl; apply IH|].
  rewrite announce_one. unfold announce, kg_was_reported. cbn [fi_rec fi_type fi_level fi_p1 fi_p2 fi_stat rr_handle rr_cb rr_kind].
  case_bool_decide; [bind_simpl; apply IH|].
  destruct (report _ _ _ _ _) as [w1|]; [|done]. bind_simpl. apply IH.
Qed.
Lemma check_callbacks_findings hi l w : kg_check_callbacks hi l w = announce_all (cb_findings hi) l w.
Proof. unfold kg_check_callbacks, cb_findings. destruct (kg_sym_module _). apply check_cbs_findings. Qed.

(** Outside of the baseline a handle is judged by announcing its findings. *)
Lemma judge_handle_findings hi s w :
  in_baselining s = false →
  judge_handle allow hi s w
  = ('(l, w) ← announce_all (handle_findings allow (in_base s) hi) (in_reported s) w; Some (with_reported l s, w)).
Proof.
  intros Hb. unfold judge_handle. rewrite Hb. unfold handle_findings. rewrite announce_all_app.
  destruct (authorised_total allow (in_base s) (hi_name hi)) as (auth & Hauth).
  rewrite Hauth. bind_simpl. unfold id_finding. destruct auth.
  - rewrite decide_False by (unfold unauthorised; congruence). cbn [negb andb announce_all]. bind_simpl. by rewrite check_callbacks_findings.
  - rewrite decide_True by done. cbn [negb andb]. rewrite announce_one. unfold announce, kg_was_reported.
    cbn [fi_rec fi_type fi_level fi_p1 fi_p2 fi_stat rr_handle rr_cb rr_kind].
    case_bool_decide; cbn [negb]; [bind_simpl; by rewrite check_callbacks_findings|].
    destruct (report _ _ _ _ _) as [w1|]; [|done]. bind_simpl. rewrite check_callbacks_findings. done.
Qed.

Lemma judge_all_findings his : ∀ s w,
  in_baselining s = false →
  judge_all allow his s w
  = ('(l, w) ← announce_all (his ≫= handle_findings allow (in_base s)) (in_reported s) w;
     Some (with_reported l s, w)).
Proof.
  induction his as [|hi his IH]; intros s w Hb; [cbn; by destruct s|].
  cbn [judge_all]. rewrite judge_handle_findings by done. rewrite bind_cons, announce_all_app.
  destruct (announce_all (handle_findings allow (in_base s) hi) (in_reported s) w) as [[l1 w1]|]; [|done]. bind_simpl.
  rewrite IH by done. cbn [in_reported in_base with_reported].
  destruct (announce_all _ l1 w1) as [[l2 w2]|]; [|done]. bind_simpl. by destruct s.
Qed.
End judge_as_findings.

Section announce_spec.
Context `{CryptoLaws} `{Platform}.

Lemma mark_spec h cb kind l :
  let l' := kg_mark_reported h cb kind l in
  l `prefix_of` l' ∧ (length l ≤ KG_MAX_REPORTED → length l' ≤ KG_MAX_REPORTED)%nat
  ∧ (length l ≤ KG_MAX_REPORTED → ReportRec h cb kind ∈ l' ∨ length l' = KG_MAX_REPORTED)%nat
  ∧ (∀ r, r ∈ l' → r ∈ l ∨ r = ReportRec h cb kind).
Proof.
  unfold kg_mark_reported. destruct (Nat.ltb_spec (length l) KG_MAX_REPORTED); split_and!; try done.
  - by apply prefix_app_r.
  - rewrite length_app. cbn. lia.
  - intros _. left. set_solver.
  - intros r. set_solver.
  - intros Hl. right. lia.
  - auto.
Qed.

Lemma announce_all_spec fs : ∀ l w,
  sound w → Forall finding_ok fs → (length l ≤ KG_MAX_REPORTED)%nat →
  ∃ l' w', announce_all fs l w = Some (l', w') ∧ advances w w' ∧ l `prefix_of` l'
  ∧ (length l' ≤ KG_MAX_REPORTED)%nat
  ∧ (∀ f, f ∈ fs → fi_rec f ∈ l' ∨ length l' = KG_MAX_REPORTED)
  ∧ (∀ f, f ∈ fs → fi_rec f ∉ l → climbs (rec_target (fi_rec f)) w w')
  ∧ ((∀ f, f ∈ fs → fi_rec f ∈ l) → l' = l ∧ w' = w).
Proof.
  induction fs as [|f fs IH]; intros l w Hw Hok Hl; cbn [announce_all].
  { exists l, w. split_and!; [done|by apply advances_refl|done|done| | |done]; intros f Hf; by apply not_elem_of_nil in Hf. }
  inversion Hok as [|? ? Hfo Hok']; subst. unfold announce. case_bool_decide as Hin.
  - bind_simpl. destruct (IH l w Hw Hok' Hl) as (l' & w' & -> & Ha & Hp & Hc & Hk & Hcl & Hq).
    exists l', w'. split_and!; [done|done|done|done| | |].
    + intros g [->|Hg]%elem_of_cons; [|by apply Hk]. left. destruct Hp as [k ->]. set_solver.
    + intros g [->|Hg]%elem_of_cons Hno; [done|by apply Hcl].
    + intros Hall. apply Hq. intros g Hg. apply Hall. by right.
  - destruct (stat_report_advances (fi_stat f) (fi_type f) (fi_level f) (fi_p1 f) (fi_p2 f) w Hw) as (w1 & -> & Ha1 & Hc1).
    bind_simpl. rewrite Hfo in Hc1. destruct f as [[h cb kd] fst fty flv fp1 fp2]. cbn [fi_rec rr_handle rr_cb rr_kind] in *.
    destruct (mark_spec h cb kd l) as (Hp1 & Hl1 & Hk1 & Hn1). cbv zeta in *. set (l1 := kg_mark_reported h cb kd l) in *.
    destruct (IH l1 w1) as (l' & w' & -> & Ha & Hp & Hc & Hk & Hcl & Hq); [by eapply advances_sound|done|by apply Hl1|].
    exists l', w'. split_and!; [done|by etrans|by etrans|done| | |].
    + intros g [->|Hg]%elem_of_cons; [|by apply Hk]. cbn [fi_rec]. destruct (Hk1 Hl) as [Hi|Hf].
      * left. destruct Hp as [k ->]. set_solver.
      * right. apply prefix_length in Hp. lia.
    + intros g Hg Hno. destruct (decide (fi_rec g ∈ l1)) as [Hg1|Hg1].
      * destruct (Hn1 _ Hg1) as [?| ->]; [done|]. eapply climbs_earlier; [exact Hc1|exact Ha].
      * apply elem_of_cons in Hg as [->|Hg]; [eapply climbs_earlier; [exact Hc1|exact Ha]|].
        eapply climbs_later; [exact Ha1|]. by apply Hcl.
    + intros Hall. destruct Hin. apply (Hall (Finding (ReportRec h cb kd) fst fty flv fp1 fp2)). by left.
Qed.
End announce_spec.

(** ** Taking handlers off the list *)
Section detach.
Context `{CryptoLaws} `{Platform} `{InputEnv}.
Context (allow : list Z).

Lemma unlink_spec ptr l :
  NoDup (ih_ptr <$> l) →
  unlink ptr l = if decide (ptr ∈ ih_ptr <$> l) then Some (filter (λ h, ih_ptr h ≠ ptr) l) else None.
Proof.
  induction l as [|h l IH]; intros Hn; [done|]. rewrite fmap_cons in *. apply NoDup_cons in Hn as [Hh Hn].
  cbn [unlink]. destruct (Z.eqb_spec (ih_ptr h) ptr) as [<-|Hne].
  - rewrite decide_True by by left. rewrite filter_cons, decide_False by auto. f_equal. symmetry.
    clear -Hh. induction l as [|x l IH]; [done|]. rewrite fmap_cons, not_elem_of_cons in Hh. destruct Hh as [Hx Hh].
    rewrite filter_cons, decide_True by congruence. f_equal. by apply IH.
  - rewrite IH by done. rewrite filter_cons, (decide_True (P:=ih_ptr h ≠ ptr)) by done.
    destruct (decide (ptr ∈ ih_ptr <$> l)) as [Hi|Hi].
    + rewrite decide_True by by right. done.
    + rewrite decide_False; [done|]. rewrite not_elem_of_cons. by split.
Qed.

Lemma NoDup_fmap_filter {A B} (f : A → B) (P : A → Prop) `{!∀ x, Decision (P x)} (l : list A) :
  NoDup (f <$> l) → NoDup (f <$> filter P l).
Proof.
  induction l as [|x l IH]; intros Hn; [constructor|]. rewrite fmap_cons in Hn. apply NoDup_cons in Hn as [Hx Hn].
  rewrite filter_cons. destruct (decide (P x)); [|by apply IH]. rewrite fmap_cons. apply NoDup_cons. split; [|by apply IH].
  intros (y & Heq & Hy%list_elem_of_filter)%list_elem_of_fmap. apply Hx. rewrite Heq. apply list_elem_of_fmap_2. by destruct Hy.
Qed.

(** Nothing else touches the lists meanwhile, and the mutex is not interrupted. *)
Definition calm : Prop := (∀ t d, input_race t d = d) ∧ ∀ t, mutex_lock_interrupted t = false.

Definition drop_handles (bad : list Z) (l : list input_handle) : list input_handle :=
  filter (λ h, ih_ptr h ∉ bad) l.
Definition bad_handles (base : list (list Z)) (his : list kg_hinfo) : list Z :=
  hi_handle <$> filter (unauthorised allow base) his.

Lemma drop_handles_cons p bad l :
  drop_handles (p :: bad) l = drop_handles bad (filter (λ h, ih_ptr h ≠ p) l).
Proof.
  unfold drop_handles. rewrite list_filter_filter. apply list_filter_iff. intros h. rewrite not_elem_of_cons. tauto.
Qed.
Lemma drop_absent p (l : list input_handle) : p ∉ ih_ptr <$> l → filter (λ h, ih_ptr h ≠ p) l = l.
Proof.
  induction l as [|h l IH]; intros Hp; [done|]. rewrite fmap_cons, not_elem_of_cons in Hp. destruct Hp as [Hh Hp].
  rewrite filter_cons, decide_True by congruence. f_equal. by apply IH.
Qed.

(** What the store becomes: the device's list without the bad handles, a grab of one of
    them released, every other device as it was. *)
Definition detached (dev : Z) (bad : list Z) (d d' : in_store) : Prop :=
  id_list (d' dev) = drop_handles bad (id_list (d dev))
  ∧ (∀ g, id_grab (d' dev) = Some g → id_grab (d dev) = Some g)
  ∧ (∀ p, p ∈ bad → p ∈ ih_ptr <$> id_list (d dev) → id_grab (d' dev) ≠ Some p)
  ∧ ∀ x, x ≠ dev → d' x = d x.

Definition same_tables (s s' : kg_input) : Prop :=
  in_kbds s' = in_kbds s ∧ in_nkbd s' = in_nkbd s ∧ in_base s' = in_base s
  ∧ in_reported s' = in_reported s ∧ in_baselining s' = in_baselining s.

Lemma neutralise_all_advances dev his : ∀ s w,
  sound w →
  ∃ s' w', neutralise_all allow dev his s w = Some (s', w') ∧ advances w w' ∧ same_tables s s'.
Proof.
  induction his as [|hi his IH]; intros s w Hw; cbn [neutralise_all].
  { exists s, w. split_and!; [done|by apply advances_refl|done]. }
  unfold neutralise. destruct (authorised_total allow (in_base s) (hi_name hi)) as ([] & ->); bind_simpl; [by apply IH|].
  destruct (kg_detach_handle dev (hi_handle hi) s) as [ok s1] eqn:Hd.
  assert (Hs1 : same_tables s s1).
  { unfold kg_detach_handle in Hd. cbv zeta in Hd. destruct (mutex_lock_interrupted _); [by injection Hd as <- <-|].
    destruct (unlink _ _); by injection Hd as <- <-. }
  assert (Hrest : ∀ w1, advances w w1 → ∃ s' w', neutralise_all allow dev his s1 w1 = Some (s', w')
    ∧ advances w w' ∧ same_tables s s').
  { intros w1 Ha1. destruct (IH s1 w1) as (s' & w' & -> & Ha & Hs'); [by eapply advances_sound|].
    exists s', w'. split_and!; [done|by etrans|]. unfold same_tables in *. naive_solver congruence. }
  destruct ok; [|bind_simpl; by apply Hrest, advances_refl].
  destruct (report_advances KG_ALERT_KBD_FILTER_NEUTRALIZED KG_LEVEL_CRITICAL (kg_pack_name (hi_name hi)).1
              (kg_pack_name (hi_name hi)).2 w Hw) as (w1 & -> & Ha1 & _). bind_simpl. by apply Hrest.
Qed.

Lemma neutralise_all_detaches dev his : ∀ s w s' w',
  calm → neutralise_all allow dev his s w = Some (s', w') →
  NoDup (ih_ptr <$> id_list (in_devs s dev)) →
  detached dev (bad_handles (in_base s) his) (in_devs s) (in_devs s').
Proof.
  intros s w s' w' [Hrace Hmx]. revert s w. induction his as [|hi his IH]; intros s w Hrun Hn; cbn [neutralise_all] in Hrun.
  { injection Hrun as <- <-. split_and!; [|done| |done].
    - unfold bad_handles, drop_handles. cbn. symmetry. clear. induction (id_list (in_devs s dev)) as [|h l IH]; [done|].
      rewrite filter_cons, decide_True by apply not_elem_of_nil. by f_equal.
    - intros p Hp. by apply not_elem_of_nil in Hp. }
  unfold neutralise in Hrun. unfold bad_handles. rewrite filter_cons.
  destruct (authorised_total allow (in_base s) (hi_name hi)) as ([] & Hauth); rewrite Hauth in Hrun; rewrite option_bind_known in Hrun.
  { rewrite decide_False by (unfold unauthorised; congruence). rewrite option_bind_known in Hrun. by eapply IH. }
  rewrite decide_True by done. rewrite fmap_cons. fold (bad_handles (in_base s) his).
  set (p := hi_handle hi) in *. unfold kg_detach_handle in Hrun. cbv zeta in Hrun. rewrite Hrace, Hmx in Hrun.
  rewrite unlink_spec in Hrun by done. destruct (decide (p ∈ ih_ptr <$> id_list (in_devs s dev))) as [Hin|Hout].
  - destruct (report _ _ _ _ w) as [w1|]; [|done]. rewrite !option_bind_known in Hrun.
    apply IH in Hrun.
    2:{ cbn [in_devs with_devs]. rewrite fn_lookup_insert. cbn [id_list].
        by apply NoDup_fmap_filter. }
    cbn [in_devs with_devs in_base] in Hrun. destruct Hrun as (Hl & Hg & Hb & Hx). rewrite fn_lookup_insert in Hl, Hg, Hb.
    cbn [id_list id_grab] in *. split_and!.
    + by rewrite drop_handles_cons.
    + intros g Hgr. specialize (Hg g Hgr). by destruct (decide (id_grab (in_devs s dev) = Some p)).
    + intros q Hq Hqin Hgr. pose proof (Hg _ Hgr) as Hold.
      destruct (decide (id_grab (in_devs s dev) = Some p)) as [E|E]; [done|].
      apply elem_of_cons in Hq as [->|Hq]; [done|].
      destruct (decide (q = p)) as [->|Hqp]; [done|]. apply (Hb q Hq); [|done].
      apply list_elem_of_fmap in Hqin as (h & -> & Hh). apply list_elem_of_fmap_2. apply list_elem_of_filter. done.
    + intros x Hne. rewrite (Hx x Hne). by rewrite fn_lookup_insert_ne.
  - rewrite !option_bind_known in Hrun. apply IH in Hrun; [|done].
    cbn [in_devs with_devs in_base] in Hrun. destruct Hrun as (Hl & Hg & Hb & Hx). split_and!; [|done| |done].
    + by rewrite drop_handles_cons, drop_absent.
    + intros q [->|Hq]%elem_of_cons Hqin; [done|by apply Hb].
Qed.
End detach.

(** ** The tables over a scan *)
Record input_inv (s : kg_input) : Prop := InputInv {
  ii_nkbd : in_nkbd s = u32 (zlen (in_kbds s));
  ii_base : (length (in_base s) ≤ KG_MAX_BASE)%nat;
  ii_reported : (length (in_reported s) ≤ KG_MAX_REPORTED)%nat
}.
(** What a scan leaves alone. *)
Record scanned (s s' : kg_input) : Prop := Scanned {
  sd_kbds : in_kbds s' = in_kbds s;
  sd_nkbd : in_nkbd s' = in_nkbd s;
  sd_mode : in_baselining s' = in_baselining s;
  sd_base : in_base s `prefix_of` in_base s';
  sd_inv : input_inv s'
}.
Lemma scanned_trans s1 s2 s3 : scanned s1 s2 → scanned s2 s3 → scanned s1 s3.
Proof. intros [????] [????]. constructor; try congruence. by etrans. Qed.
Lemma scanned_refl s : input_inv s → scanned s s.
Proof. by constructor. Qed.

Lemma gather_names own l : ∀ acc,
  Forall (λ hi, (length (hi_name hi) ≤ 31)%nat) acc → Forall (λ hi, (length (hi_name hi) ≤ 31)%nat) (gather own l acc).
Proof.
  induction l as [|h l IH]; intros acc Ha; [done|]. cbn [gather]. apply IH.
  destruct (ih_handler h) as [hd|]; [|done]. destruct (_ || _); [done|]. apply Forall_app. split; [done|].
  apply Forall_singleton. cbn [hi_name handle_info]. unfold strscpy. rewrite length_take. lia.
Qed.

Lemma base_add_spec name base :
  (length name ≤ 31)%nat → (length base ≤ KG_MAX_BASE)%nat →
  let base' := kg_base_add name base in
  base `prefix_of` base' ∧ (length base' ≤ KG_MAX_BASE)%nat ∧ (name ∈ base' ∨ length base' = KG_MAX_BASE).
Proof.
  intros Hn Hb. unfold kg_base_add. case_bool_decide; [auto|].
  destruct (Nat.ltb_spec (length base) KG_MAX_BASE).
  - split_and!; [by apply prefix_app_r|rewrite length_app; cbn; lia|]. left. unfold strscpy. rewrite take_ge by lia. set_solver.
  - split_and!; [done|done|right; lia].
Qed.
Lemma in_base_later (name : list Z) (base base' : list (list Z)) :
  base `prefix_of` base' → (length base' ≤ KG_MAX_BASE)%nat →
  name ∈ base ∨ length base = KG_MAX_BASE → name ∈ base' ∨ length base' = KG_MAX_BASE.
Proof.
  intros Hp Hl [Hn|Hn]; [left; destruct Hp as [k ->]; set_solver|right]. apply prefix_length in Hp. lia.
Qed.

Section scan_spec.
Context `{CryptoLaws} `{Platform} `{InputEnv}.
Context (allow : list Z).

Lemma judge_all_scans his : ∀ s w,
  sound w → input_inv s → Forall (λ hi, (length (hi_name hi) ≤ 31)%nat) his →
  ∃ s' w', judge_all allow his s w = Some (s', w') ∧ advances w w' ∧ scanned s s'
  ∧ in_devs s' = in_devs s ∧ in_time s' = in_time s
  ∧ (in_baselining s = true → ∀ hi, hi ∈ his → hi_name hi ∈ in_base s' ∨ length (in_base s') = KG_MAX_BASE).
Proof.
  induction his as [|hi his IH]; intros s w Hw Hi Hn.
  { exists s, w. split_and!; [done|by apply advances_refl|by apply scanned_refl|done|done|].
    intros _ hi Hin. by apply not_elem_of_nil in Hin. }
  inversion Hn as [|? ? Hname Hn']; subst. cbn [judge_all].
  assert (Hone : ∃ s1 w1, judge_handle allow hi s w = Some (s1, w1) ∧ advances w w1 ∧ scanned s s1
    ∧ in_devs s1 = in_devs s ∧ in_time s1 = in_time s
    ∧ (in_baselining s = true → hi_name hi ∈ in_base s1 ∨ length (in_base s1) = KG_MAX_BASE)).
  { destruct Hi as [Hk Hb Hr]. destruct (in_baselining s) eqn:Hbl.
    - unfold judge_handle. rewrite Hbl. bind_simpl. cbn [in_reported with_base]. rewrite check_callbacks_findings.
      destruct (announce_all_spec (cb_findings hi) (in_reported s) w Hw) as (l & w1 & -> & Ha & Hp & Hl & _).
      { eapply Forall_app. exact (handle_findings_ok allow (in_base s) hi). }
      { done. }
      bind_simpl. destruct (base_add_spec (hi_name hi) (in_base s) Hname Hb) as (Hbp & Hbl' & Hbn).
      eexists _, w1. split; [done|]. split_and!; [done| |done|done|done]. constructor; try done; by constructor.
    - rewrite judge_handle_findings by done.
      destruct (announce_all_spec (handle_findings allow (in_base s) hi) (in_reported s) w Hw)
        as (l & w1 & -> & Ha & Hp & Hl & _); [apply handle_findings_ok|done|].
      bind_simpl. eexists _, w1. split; [done|]. split_and!; [done| |done|done|done]. constructor; try done; by constructor. }
  destruct Hone as (s1 & w1 & -> & Ha1 & Hs1 & Hd1 & Ht1 & Hb1). bind_simpl.
  destruct (IH s1 w1) as (s2 & w2 & -> & Ha2 & Hs2 & Hd2 & Ht2 & Hb2); [by eapply advances_sound|apply Hs1|done|].
  exists s2, w2. split_and!; [done|by etrans|by eapply scanned_trans|congruence|congruence|].
  intros Hbl x [->|Hx]%elem_of_cons.
  - eapply in_base_later; [apply Hs2|apply Hs2|by apply Hb1].
  - apply Hb2; [|done]. by rewrite (sd_mode _ _ Hs1).
Qed.

Lemma scan_kbd_scans k s w :
  sound w → input_inv s →
  ∃ s' w', kg_scan_kbd allow k s w = Some (s', w') ∧ advances w w' ∧ scanned s s'
  ∧ (in_baselining s = true → calm → (∀ t, kcalloc_ok t = true) →
     in_devs s' = in_devs s
     ∧ ∀ hi, hi ∈ gather (kb_handle k) (id_list (in_devs s (kb_dev k))) [] →
       hi_name hi ∈ in_base s' ∨ length (in_base s') = KG_MAX_BASE).
Proof.
  intros Hw Hi. unfold kg_scan_kbd. cbv zeta.
  set (s0 := with_devs _ _ s). assert (Hs0 : scanned s s0) by (destruct Hi; by constructor).
  destruct (kcalloc_ok (in_time s)) eqn:Hk; cbn [negb].
  2:{ exists s0, w. split_and!; [done|by apply advances_refl|done|]. intros _ _ Hall. by rewrite Hall in Hk. }
  set (his := gather _ _ []).
  destruct (judge_all_scans his s0 w Hw (sd_inv _ _ Hs0)) as (s1 & w1 & -> & Ha1 & Hs1 & Hd1 & _ & Hb1);
    [apply gather_names; constructor|]. bind_simpl.
  assert (Hs01 : scanned s s1) by (by eapply scanned_trans).
  destruct (kg_enforcing w1 && negb (in_baselining s1)) eqn:He.
  - destruct (neutralise_all_advances allow (kb_dev k) his s1 w1) as (s2 & w2 & -> & Ha2 & (E1 & E2 & E3 & E4 & E5));
      [by eapply advances_sound|].
    exists s2, w2. split_and!; [done|by etrans| |].
    + destruct Hs01 as [? ? ? ? [? ? ?]]. constructor; try congruence. constructor; congruence.
    + intros Hbl. bool_props. rewrite (sd_mode _ _ Hs01) in *. congruence.
  - exists s1, w1. split_and!; [done|done|done|]. intros Hbl [Hrace _] _.
    assert (Hdv : in_devs s0 = in_devs s) by apply Hrace.
    split; [congruence|]. intros hi Hin. apply Hb1; [done|]. unfold his. by rewrite Hdv.
Qed.

Lemma scan_kbds_scans ks : ∀ s w,
  sound w → input_inv s →
  ∃ s' w', scan_kbds allow ks s w = Some (s', w') ∧ advances w w' ∧ scanned s s'
  ∧ (in_baselining s = true → calm → (∀ t, kcalloc_ok t = true) →
     in_devs s' = in_devs s
     ∧ ∀ k hi, k ∈ ks → hi ∈ gather (kb_handle k) (id_list (in_devs s (kb_dev k))) [] →
       hi_name hi ∈ in_base s' ∨ length (in_base s') = KG_MAX_BASE).
Proof.
  induction ks as [|k ks IH]; intros s w Hw Hi; cbn [scan_kbds].
  { exists s, w. split_and!; [done|by apply advances_refl|by apply scanned_refl|]. intros _ _ _. split; [done|].
    intros k hi Hk. by apply not_elem_of_nil in Hk. }
  destruct (scan_kbd_scans k s w Hw Hi) as (s1 & w1 & -> & Ha1 & Hs1 & Hb1). bind_simpl.
  destruct (IH s1 w1) as (s2 & w2 & -> & Ha2 & Hs2 & Hb2); [by eapply advances_sound|apply Hs1|].
  exists s2, w2. split_and!; [done|by etrans|by eapply scanned_trans|]. intros Hbl Hc Hk.
  destruct (Hb1 Hbl Hc Hk) as [Hd1 Hn1]. destruct Hb2 as [Hd2 Hn2]; [by rewrite (sd_mode _ _ Hs1)|done|done|].
  split; [congruence|]. intros k' hi [->|Hk']%elem_of_cons Hin.
  - eapply in_base_later; [apply Hs2|apply Hs2|by apply Hn1].
  - apply (Hn2 k'); [done|by rewrite Hd1].
Qed.

Lemma prune_scanned s : input_inv s → scanned s (kg_prune_reported s).
Proof.
  intros [Hk Hb Hr]. constructor; try done. constructor; [done|done|]. cbn. etrans; [apply length_filter|done].
Qed.

Lemma scan_all_advances s w :
  sound w → input_inv s →
  ∃ s' w', kg_input_scan_all allow s w = Some (s', w') ∧ advances w w' ∧ scanned s s'
  ∧ (in_baselining s = true → calm → (∀ t, kcalloc_ok t = true) →
     in_devs s' = in_devs s
     ∧ ∀ k hi, k ∈ in_kbds s → hi ∈ gather (kb_handle k) (id_list (in_devs s (kb_dev k))) [] →
       hi_name hi ∈ in_base s' ∨ length (in_base s') = KG_MAX_BASE).
Proof.
  intros Hw Hi. unfold kg_input_scan_all.
  destruct (scan_kbds_scans (in_kbds s) s w Hw Hi) as (s1 & w1 & -> & Ha1 & Hs1 & Hb1). bind_simpl.
  eexists _, w1. split; [done|]. split_and!; [done|eapply scanned_trans; [done|apply prune_scanned, Hs1]|exact Hb1].
Qed.

Lemma requeue_input_policy w : same_policy w (requeue_input w).
Proof. unfold requeue_input, queue_delayed_work. by destruct (wwork w InputWork). Qed.

Lemma input_workfn_advances s w :
  sound w → input_inv s → kg_input_running (wmon w) = true →
  ∃ s' w', kg_input_workfn allow s w = Some (s', w') ∧ advances w w' ∧ scanned s s'.
Proof.
  intros Hw Hi Hrun. unfold kg_input_workfn. destruct (scan_all_advances s w Hw Hi) as (s' & w' & -> & Ha & Hs & _).
  bind_simpl. eexists s', _. split; [done|]. split; [|done]. destruct (kg_input_stop (wmon w')) eqn:Hstop; [done|].
  etrans; [exact Ha|]. apply same_policy_advances; [by eapply advances_sound|apply requeue_input_policy|].
  apply queue_sched; try done. intros _. unfold accepts_input. rewrite Hstop.
  by rewrite (sc_mon _ _ (ad_sched _ _ Ha)), Hrun.
Qed.
End scan_spec.

Section scan_kbd_findings.
Context `{CryptoLaws} `{Platform} `{InputEnv}.
Context (allow : list Z).

(** A keyboard's scan after the baseline, in its two halves. *)
Lemma scan_kbd_split k s w :
  sound w → input_inv s → in_baselining s = false → kcalloc_ok (in_time s) = true →
  let devs := input_race (in_time s) (in_devs s) in
  let his := gather (kb_handle k) (id_list (devs (kb_dev k))) [] in
  let fs := his ≫= handle_findings allow (in_base s) in
  ∃ l w1, announce_all fs (in_reported s) w = Some (l, w1) ∧ advances w w1
  ∧ (length l ≤ KG_MAX_REPORTED)%nat
  ∧ (∀ f, f ∈ fs → fi_rec f ∈ l ∨ length l = KG_MAX_REPORTED)
  ∧ (∀ f, f ∈ fs → fi_rec f ∉ in_reported s → climbs (rec_target (fi_rec f)) w w1)
  ∧ ((∀ f, f ∈ fs → fi_rec f ∈ in_reported s) → w1 = w)
  ∧ kg_scan_kbd allow k s w
    = (let s1 := with_reported l (with_devs devs (S (in_time s)) s) in
       if kg_enforcing w1 then neutralise_all allow (kb_dev k) his s1 w1 else Some (s1, w1)).
Proof.
  intros Hw Hi Hb Hk devs his fs.
  destruct (announce_all_spec fs (in_reported s) w Hw) as (l & w1 & Han & Ha & _ & Hl & Hin & Hcl & Hq).
  { apply Forall_forall. intros f Hf. apply list_elem_of_bind in Hf as (hi & Hf & _).
    pose proof (handle_findings_ok allow (in_base s) hi) as Hok. rewrite Forall_forall in Hok. by apply Hok. }
  { apply Hi. }
  exists l, w1. split_and!; [done|done|done|done|done|intros Hall; by apply Hq|].
  unfold kg_scan_kbd. cbv zeta. rewrite Hk. cbn [negb]. rewrite judge_all_findings by done.
  cbn [in_base with_devs in_reported in_devs in_time]. fold devs. fold his. fold fs. rewrite Han. bind_simpl.
  cbn [in_baselining with_reported with_devs]. rewrite Hb. cbn [negb]. by rewrite andb_true_r.
Qed.
End scan_kbd_findings.

(** One keyboard after the baseline.  Every handler attached to it whose name neither the
    stock list, nor kbd_allow=, nor the baseline authorises, and every callback that is not
    in its handler's module or whose entry jumps out of it, is reported and remembered as
    long as the 96 records suffice; reporting it for the first time raises the posture to what
    its kind asks for (fail-safe for a hooked callback); nothing is reported twice. *)
Theorem kbd_findings_reported `{CryptoLaws} `{Platform} `{InputEnv} allow k s w :
  sound w → input_inv s → in_baselining s = false → kcalloc_ok (in_time s) = true →
  let his := gather (kb_handle k) (id_list (input_race (in_time s) (in_devs s) (kb_dev k))) [] in
  let fs := his ≫= handle_findings allow (in_base s) in
  ∃ s' w', kg_scan_kbd allow k s w = Some (s', w') ∧ advances w w'
  ∧ (∀ f, f ∈ fs → fi_rec f ∈ in_reported s' ∨ length (in_reported s') = KG_MAX_REPORTED)
  ∧ (∀ f, f ∈ fs → fi_rec f ∉ in_reported s → pos_ready (wpos w) = true →
     Z.min (rec_target (fi_rec f)) (posture_cap w) ≤ kg_posture w')
  ∧ ((∀ f, f ∈ fs → fi_rec f ∈ in_reported s) → kg_enforcing w = false → w' = w).
Proof.
  intros Hw Hi Hb Hk his fs.
  destruct (scan_kbd_split allow k s w Hw Hi Hb Hk) as (l & w1 & _ & Ha & Hl & Hin & Hcl & Hq & ->).
  fold his in Hin, Hcl, Hq |- *. fold fs in Hin, Hcl, Hq. cbv zeta. set (s1 := with_reported l _).
  destruct (kg_enforcing w1) eqn:He.
  - destruct (neutralise_all_advances allow (kb_dev k) his s1 w1) as (s2 & w2 & -> & Ha2 & (_ & _ & _ & Hr2 & _));
      [by eapply advances_sound|].
    exists s2, w2. split_and!; [done|by etrans| | |].
    + intros f Hf. rewrite Hr2. by apply Hin.
    + intros f Hf Hno. eapply climbs_earlier; [by apply Hcl|done].
    + intros Hall Hne. rewrite (Hq Hall) in He. congruence.
  - exists s1, w1. split_and!; [done|done|exact Hin|exact Hcl|]. intros Hall _. by apply Hq.
Qed.


(** ** Detours *)
Lemma pack8_le_bytes n z : pack8 (le_bytes n z) = z mod 256 ^ Z.of_nat n.
Proof.
  revert z. induction n as [|n IH]; intros z; [cbn; by rewrite Z.mod_1_r|].
  cbn [le_bytes pack8 foldr]. change (foldr _ 0 (le_bytes n (z / 256))) with (pack8 (le_bytes n (z / 256))). rewrite IH.
  rewrite Nat2Z.inj_succ, Z.pow_succ_r by lia. rewrite Z.rem_mul_r by lia. done.
Qed.

(** The four forms of detour the entry check knows, at the address [at_] and going to [tgt]. *)
Inductive detour := JmpRel32 | JmpMem (slot : Z) | MovJmp | PushRet.
Definition detour_bytes (d : detour) (at_ tgt : Z) : list Z :=
  match d with
  | JmpRel32 => 0xe9 :: le_bytes 4 (tgt - (at_ + 5))
  | JmpMem slot => [0xff; 0x25] ++ le_bytes 4 (slot - (at_ + 6))
  | MovJmp => [0x48; 0xb8] ++ le_bytes 8 tgt ++ [0xff; 0xe0]
  | PushRet => 0x68 :: le_bytes 4 tgt ++ [0xc3]
  end.
(** That the form can reach [tgt]: within two gibibytes, through a slot that holds it, or as a
    sign-extended immediate. *)
Definition near (d : Z) : Prop := -2147483648 ≤ d < 2147483648.
Definition reaches `{InputEnv} (d : detour) (at_ tgt : Z) : Prop :=
  match d with
  | JmpRel32 => near (tgt - (at_ + 5))
  | JmpMem slot => near (slot - (at_ + 6)) ∧ is_u64 slot ∧ copy_from_kernel_nofault slot 8 = Some (le_bytes 8 tgt)
  | MovJmp => True
  | PushRet => u64 (s32 tgt) = tgt
  end.

Lemma rel_decodes v base :
  near v → is_u64 (base + v) → u64 (base + s32 (pack8 (le_bytes 4 v))) = base + v.
Proof.
  intros Hv Hb. rewrite pack8_le_bytes. change (256 ^ Z.of_nat 4) with 4294967296.
  assert (s32 (v mod 4294967296) = v) as ->; [|by apply u64_id].
  unfold near in Hv. unfold s32, u32. rewrite Z.mod_mod by lia.
  destruct (Z.ltb_spec (v mod 4294967296) 2147483648); Z.div_mod_to_equations; lia.
Qed.

Lemma take_le n v (rest : list Z) : take n (le_bytes n v ++ rest) = le_bytes n v.
Proof. apply take_app_length'. by rewrite le_bytes_length. Qed.

Lemma entry_target_decodes `{InputEnv} fn pre d tgt rest :
  is_u64 tgt → reaches d (fn + Z.of_nat (length pre)) tgt →
  let b := pre ++ detour_bytes d (fn + Z.of_nat (length pre)) tgt ++ rest in
  entry_target fn (length pre) b = tgt ∧ b !!! length pre ≠ 0xcc.
Proof.
  intros Ht Hr b. unfold b. set (a := fn + Z.of_nat (length pre)) in *. set (code := detour_bytes d a tgt ++ rest).
  assert (Hp : ∀ i, (pre ++ code) !!! (length pre + i)%nat = code !!! i).
  { intros i. rewrite lookup_total_app_r by lia. f_equal. lia. }
  assert (Hd : ∀ i, drop (length pre + i) (pre ++ code) = drop i code).
  { intros i. rewrite <- drop_drop. by rewrite drop_app_length. }
  assert (H0 : (pre ++ code) !!! length pre = code !!! 0%nat) by (rewrite <- (Hp 0%nat); f_equal; lia).
  unfold entry_target. rewrite H0, !Hp, !Hd. fold a. unfold code. clearbody a. clear Hp Hd H0 code b.
  destruct d as [|slot| |]; cbn [detour_bytes reaches] in *.
  - cbn [app drop]. change ((0xe9 :: ?x) !!! 0%nat) with 0xe9. cbn [Z.eqb Pos.eqb].
    rewrite ?drop_0, take_le. split; [|done]. rewrite rel_decodes; [lia|done|]. by replace (a + 5 + (tgt - (a + 5))) with tgt by lia.
  - destruct Hr as (Hn & Hs & Hm). rewrite <- app_assoc. cbn [app drop].
    change ((0xff :: ?x) !!! 0%nat) with 0xff. change ((0xff :: 0x25 :: ?x) !!! 1%nat) with 0x25. cbn [Z.eqb Pos.eqb andb].
    rewrite ?drop_0, take_le. rewrite rel_decodes; [|done|by replace (a + 6 + (slot - (a + 6))) with slot by lia].
    replace (a + 6 + (slot - (a + 6))) with slot by lia. unfold kg_read_kernel. rewrite Hm. split; [|done].
    rewrite pack8_le_bytes. by apply Z.mod_small.
  - rewrite <- !app_assoc. cbn [app drop].
    change ((0x48 :: ?x) !!! 0%nat) with 0x48. change ((0x48 :: 0xb8 :: ?x) !!! 1%nat) with 0xb8. cbn [Z.eqb Pos.eqb andb].
    change ((0x48 :: 0xb8 :: ?x) !!! 10%nat) with (x !!! 8%nat). change ((0x48 :: 0xb8 :: ?x) !!! 11%nat) with (x !!! 9%nat).
    rewrite !lookup_total_app_r by (rewrite le_bytes_length; lia). rewrite le_bytes_length. cbn [Nat.sub].
    change ((0xff :: 0xe0 :: rest) !!! 0%nat) with 0xff. change ((0xff :: 0xe0 :: rest) !!! 1%nat) with 0xe0. cbn [Z.eqb Pos.eqb andb].
    split; [|done]. rewrite ?drop_0, take_le, pack8_le_bytes. by apply Z.mod_small.
  - rewrite <- app_comm_cons, <- app_assoc. cbn [app drop]. change ((0x68 :: ?x) !!! 0%nat) with 0x68. cbn [Z.eqb Pos.eqb andb].
    change ((0x68 :: ?x) !!! 5%nat) with (x !!! 4%nat).
    rewrite lookup_total_app_r by (rewrite le_bytes_length; lia). rewrite le_bytes_length. cbn [Nat.sub].
    change ((0xc3 :: rest) !!! 0%nat) with 0xc3. cbn [Z.eqb Pos.eqb].
    split; [|done]. rewrite ?drop_0, take_le, pack8_le_bytes. change (256 ^ Z.of_nat 4) with 4294967296.
    rewrite <- Hr at 2. f_equal. unfold s32, u32. by rewrite Z.mod_mod by lia.
Qed.

(** A function whose entry is one of the four detours, at its first instruction or after an
    endbr64, is judged by the address the detour goes to: unresolved code, another module, or
    its own module and the kernel, which are fine. *)
Theorem detour_found `{InputEnv} fn fn_mod pre d tgt rest :
  pre = [] ∨ pre = endbr64 → is_u64 tgt → tgt ≠ 0 → reaches d (fn + Z.of_nat (length pre)) tgt →
  copy_from_kernel_nofault fn 24 = Some (pre ++ detour_bytes d (fn + Z.of_nat (length pre)) tgt ++ rest) →
  kg_check_entry fn fn_mod = judge_target fn_mod tgt.
Proof.
  intros Hpre Ht Hne Hr Hb. unfold kg_check_entry, kg_read_kernel. rewrite Hb. cbv zeta.
  destruct (entry_target_decodes fn pre d tgt rest Ht Hr) as [Htgt Hcc]. cbv zeta in Htgt, Hcc.
  destruct Hpre as [->| ->].
  - cbn [length] in *. rewrite (proj2 (Z.eqb_neq _ _) Hcc), Htgt, (proj2 (Z.eqb_neq _ _) Hne). done.
  - change (length endbr64) with 4%nat in *. set (code := detour_bytes _ _ _ ++ rest) in *.
    assert (H0 : (endbr64 ++ code) !!! 0%nat = 0xf3) by done. rewrite H0. cbn [Z.eqb Pos.eqb].
    assert (Hz : entry_target fn 0 (endbr64 ++ code) = 0) by done. rewrite Hz. cbn [Z.eqb negb].
    rewrite bool_decide_eq_true_2 by done.
    rewrite (proj2 (Z.eqb_neq _ _) Hcc), Htgt, (proj2 (Z.eqb_neq _ _) Hne). done.
Qed.

(** ** Keyboards, loading and unloading *)
Section life.
Context `{CryptoLaws} `{Platform} `{InputEnv}.
Context (allow : list Z).

Lemma connect_inv ok handle dev s w :
  input_inv s →
  let '(_, s', w') := kg_input_connect ok handle dev s w in
  input_inv s' ∧ in_base s' = in_base s ∧ in_baselining s' = in_baselining s ∧ same_policy w w' ∧ sched w w'.
Proof.
  intros [Hk Hb Hr]. unfold kg_input_connect. destruct ok; cbn [negb]; [|by split_and!].
  destruct (input_register_handle _ _ _) as [[e|] devs]; [by split_and!|]. split_and!; try done.
  - constructor; cbn; [|done|done]. rewrite Hk. unfold zlen. rewrite u32_add_wrap, length_app. cbn. f_equal. lia.
  - unfold kg_input_kick. destruct (kg_input_running (wmon w)); [|done]. by destruct (true && _).
  - destruct (kg_input_running (wmon w)); [apply input_kick_sched|done].
Qed.
Lemma connect_all_inv l : ∀ s w,
  input_inv s →
  let '(s', w') := connect_all l s w in
  input_inv s' ∧ in_base s' = in_base s ∧ in_baselining s' = in_baselining s ∧ same_policy w w' ∧ sched w w'.
Proof.
  induction l as [|[[ok handle] dev] l IH]; intros s w Hi; cbn [connect_all]; [by split_and!|].
  pose proof (connect_inv ok handle dev s w Hi) as Hc. destruct (kg_input_connect ok handle dev s w) as [[e s1] w1].
  destruct Hc as (Hi1 & Hb1 & Hm1 & Hp1 & Hq1). specialize (IH s1 w1 Hi1). destruct (connect_all l s1 w1) as [s2 w2].
  destruct IH as (? & ? & ? & ? & ?). split_and!; [done|congruence|congruence|by etrans|by etrans].
Qed.

Lemma remove_kbd_length k l : k ∈ l → S (length (remove_kbd (kb_handle k) l)) = length l.
Proof.
  induction l as [|x l IH]; intros Hk; [by apply not_elem_of_nil in Hk|]. cbn [remove_kbd].
  destruct (Z.eqb_spec (kb_handle x) (kb_handle k)); [done|]. apply elem_of_cons in Hk as [->|Hk]; [done|].
  cbn [length]. by rewrite IH.
Qed.
Lemma disconnect_inv k s : k ∈ in_kbds s → input_inv s → input_inv (kg_input_disconnect k s).
Proof.
  intros Hk [Hn Hb Hr]. constructor; cbn; [|done|done]. rewrite Hn. pose proof (remove_kbd_length k _ Hk) as Hl.
  unfold zlen. rewrite <- Hl. unfold u32. rewrite Zminus_mod_idemp_l. f_equal. lia.
Qed.

Lemma exit_empties s :
  input_inv s → let s' := foldl (λ s k, kg_input_disconnect k s) s (in_kbds s) in in_kbds s' = [] ∧ in_nkbd s' = 0.
Proof.
  intros Hi. cbv zeta.
  assert (Hgo : ∀ l s, in_kbds s = l → input_inv s →
    in_kbds (foldl (λ s k, kg_input_disconnect k s) s l) = [] ∧ input_inv (foldl (λ s k, kg_input_disconnect k s) s l)).
  { clear. induction l as [|k l IH]; intros s Hl Hi; [done|]. cbn [foldl]. apply IH.
    - cbn. rewrite Hl. cbn [remove_kbd]. by rewrite Z.eqb_refl.
    - apply disconnect_inv; [rewrite Hl; by left|done]. }
  destruct (Hgo _ s eq_refl Hi) as [Hk [Hn _ _]]. split; [done|]. by rewrite Hn, Hk.
Qed.

(** Loading, against the world in which the stop flag has been cleared. *)
Lemma input_init_spec reg s w :
  sound w → input_inv s → in_baselining s = false →
  let w0 := set_input_mon (kg_input_running (wmon w)) false w in
  ∃ e s' w1 w', kg_input_init allow reg s w = Some (e, s', w') ∧ advances w0 w1 ∧ input_inv s' ∧ in_baselining s' = false
  ∧ (e = None → calm → (∀ t, kcalloc_ok t = true) →
     ∀ k hi, k ∈ in_kbds s' → hi ∈ gather (kb_handle k) (id_list (in_devs s' (kb_dev k))) [] →
       hi_name hi ∈ in_base s' ∨ length (in_base s') = KG_MAX_BASE)
  ∧ match reg with
    | inl e' => e = Some e' ∧ w' = w0 ∧ w1 = w0
    | inr _ => e = None ∧ w' = requeue_input (set_input_mon true false w1)
    end.
Proof.
  intros Hw Hi Hb w0. unfold kg_input_init. cbv zeta. fold w0.
  assert (Hw0 : sound w0) by (by eapply same_policy_sound).
  destruct reg as [e|l].
  { eexists _, s, w0, w0. split; [done|]. split_and!; [by apply advances_refl|done|done|done|done|done|done]. }
  pose proof (connect_all_inv l s w0 Hi) as Hc. destruct (connect_all l s w0) as [s1 w1].
  destruct Hc as (Hi1 & Hb1 & Hm1 & Hp1 & Hq1).
  assert (Hw1 : advances w0 w1) by (by apply same_policy_advances).
  destruct (scan_all_advances allow (with_baselining true s1) w1) as (s2 & w2 & -> & Ha2 & Hs2 & Hbase);
    [by eapply advances_sound|destruct Hi1; by constructor|]. bind_simpl.
  eexists _, _, w2, _. split; [done|]. split_and!.
  - by etrans.
  - destruct Hs2 as [? ? ? ? [? ? ?]]. by constructor.
  - done.
  - intros _ Hcalm Hk. destruct (Hbase eq_refl Hcalm Hk) as [Hd Hn]. cbn in Hd, Hn |- *. rewrite Hd.
    intros k hi Hkin. apply Hn. pose proof (sd_kbds _ _ Hs2) as Hsame. cbn in Hsame. by rewrite <- Hsame.
  - done.
  - rewrite (sc_mon _ _ (ad_sched _ _ Ha2)), (sc_mon _ _ Hq1). done.
Qed.
End life.

(** Trust on first use for the keyboard: when loading has gone through, every handler
    that was attached to a tracked keyboard is authorised from then on, as long as the 48
    names of the baseline sufficed; loading completes whatever keyboards there are. *)
Theorem kbd_baseline_authorised `{CryptoLaws} `{Platform} `{InputEnv} allow l s w :
  sound w → input_inv s → in_baselining s = false → calm → (∀ t, kcalloc_ok t = true) →
  ∃ s' w', kg_input_init allow (inr l) s w = Some (None, s', w') ∧ input_inv s'
  ∧ guard_inv w' ∧ kg_posture w ≤ kg_posture w'
  ∧ ∀ k hi, k ∈ in_kbds s' → hi ∈ gather (kb_handle k) (id_list (in_devs s' (kb_dev k))) [] →
      (length (in_base s') < KG_MAX_BASE)%nat →
      kg_handler_authorised allow (in_base s') (hi_name hi) = Some true.
Proof.
  intros Hw Hi Hb Hc Hk.
  destruct (input_init_spec allow (inr l) s w Hw Hi Hb) as (e & s' & w1 & w' & Hrun & Ha & Hi' & _ & Hbase & [-> ->]).
  assert (Hpol : same_policy w1 (requeue_input (set_input_mon true false w1)))
    by (trans (set_input_mon true false w1); [done|apply requeue_input_policy]).
  eexists s', _. split_and!; [done|done| | |].
  { eapply same_policy_sound; [|exact Hpol]. eapply advances_sound; [|exact Ha]. by eapply same_policy_sound. }
  { destruct Hpol as (Hg & _ & _). unfold kg_posture in *. rewrite Hg. apply (ad_posture _ _ Ha). } intros k hi Hkin Hin Hroom.
  destruct (Hbase eq_refl Hc Hk k hi Hkin Hin) as [Hn|Hf]; [|lia]. unfold kg_handler_authorised.
  destruct (list_contains_total KG_BUILTIN_HANDLERS (hi_name hi)) as ([] & -> & _); bind_simpl; [done|].
  destruct (list_contains_total allow (hi_name hi)) as ([] & -> & _); bind_simpl; [done|].
  by rewrite bool_decide_eq_true_2.
Qed.

(** ** A keyboard with a logger on it *)
Definition logger : input_handler :=
  InputHandler 0xffffffffc0001000 (Some (bytes_of "keylog")) [0xffffffffc0002000; 0; 0; 0; 0; 0; 0].
Definition console : input_handler :=
  InputHandler 0xffffffff81001000 (Some (bytes_of "kbd")) [0xffffffff81002000; 0; 0; 0; 0; 0; 0].
Definition kbd_store (x : Z) : input_dev :=
  if x =? 7 then InputDev [InputHandle 100 1 (Some console); InputHandle 101 1 (Some logger); InputHandle 102 0 None] (Some 101)
  else InputDev [] None.
Definition kbd_env : InputEnv := {|
  sprint_symbol_no_offset a := if a <? 0xffffffffc0000000 then bytes_of "kbd_event" else bytes_of "log_event [keylog]";
  copy_from_kernel_nofault a n := Some (replicate n 0x90);
  kcalloc_ok _ := true; mutex_lock_interrupted _ := false; input_race _ d := d;
  input_register_handle _ _ d := (None, d); input_unregister_handle _ _ d := d |}.
Definition sample_input : kg_input := Input [Kbd 102 7] 1 [] [] false kbd_store 0.
Lemma sample_input_inv : input_inv sample_input.
Proof. by constructor; cbn; [|unfold KG_MAX_BASE; lia|unfold KG_MAX_REPORTED; lia]. Qed.
Lemma kbd_env_calm : @calm kbd_env.
Proof. done. Qed.

Lemma kbd_findings_reported_witness :
  ∃ s' w', @kg_scan_kbd sha_api two_cpus kbd_env [] (Kbd 102 7) sample_input ready_world = Some (s', w')
  ∧ KG_POSTURE_ELEVATED ≤ kg_posture w'.
Proof.
  destruct (@kbd_findings_reported sha_api sha_api_laws two_cpus kbd_env [] (Kbd 102 7) sample_input ready_world)
    as (s' & w' & Hc & _ & _ & Hp & _).
  - exact ready_world_sound.
  - exact sample_input_inv.
  - reflexivity.
  - reflexivity.
  - exists s', w'. split; [exact Hc|].
    apply (Hp (Finding (ReportRec 101 0 0) hw_discrepancy_count KG_ALERT_UNAUTHORIZED_KBD_FILTER KG_LEVEL_CRITICAL
                 (kg_pack_name (bytes_of "keylog")).1 (kg_pack_name (bytes_of "keylog")).2)).
    + apply list_elem_of_In. vm_compute. left. reflexivity.
    + apply not_elem_of_nil.
    + reflexivity.
Defined.
Lemma detour_found_witness :
  @kg_check_entry {| sprint_symbol_no_offset := @sprint_symbol_no_offset kbd_env;
     copy_from_kernel_nofault a n := Some (endbr64 ++ [0xe9] ++ le_bytes 4 0x1000 ++ replicate 15 0x90);
     kcalloc_ok _ := true; mutex_lock_interrupted _ := false; input_race _ d := d;
     input_register_handle _ _ d := (None, d); input_unregister_handle _ _ d := d |} 0xffffffffc0002000 [] = KG_HK_DETOUR_FOREIGN.
Proof.
  rewrite (@detour_found _ 0xffffffffc0002000 [] endbr64 JmpRel32 0xffffffffc0003009 (replicate 15 0x90)).
  - vm_compute. reflexivity.
  - right. reflexivity.
  - by compute.
  - done.
  - by compute.
  - vm_compute. reflexivity.
Defined.
Lemma kbd_baseline_authorised_witness :
  ∃ s' w', @kg_input_init sha_api two_cpus kbd_env [] (inr [(true, 102, 7)]) (Input [] 0 [] [] false kbd_store 0) ready_world
           = Some (None, s', w') ∧ input_inv s'.
Proof.
  destruct (@kbd_baseline_authorised sha_api sha_api_laws two_cpus kbd_env [] [(true, 102, 7)]
              (Input [] 0 [] [] false kbd_store 0) ready_world) as (s' & w' & Hc & Hinv & _).
  - exact ready_world_sound.
  - by constructor; cbn; [|unfold KG_MAX_BASE; lia|unfold KG_MAX_REPORTED; lia].
  - reflexivity.
  - exact kbd_env_calm.
  - reflexivity.
  - by exists s', w'.
Defined.
