(* ===== verification/TextCheck.v ===== *)
(** * Module 3.3: text integrity (linux/module/kg_integrity.c, up to kg_text_verify_all)

    The baseline copies of the kernel's and the modules' text, the classification
    of a modified run of bytes, and the verification pass.  Live text changes under
    the reader, so every access has a number and [live n a] is the byte that access
    [n] finds at address [a]: two accesses need not agree, and the bytes of one need
    not come from one instant.  Offsets into a region are [nat]s, addresses [Z]s. *)
From S2P Require Import Prelude Uapi Kernel Machine Guard Comms Posture Advance Modgate.
Local Open Scope Z_scope.

Definition PAGE_SIZE : Z := 4096.
Definition KG_CHUNK : nat := Z.to_nat 65536.
Definition KG_OVERLAP : nat := 8.
Arguments KG_CHUNK : simpl never.
Arguments KG_OVERLAP : simpl never.

Record pte := Pte { pte_present : bool; pte_exec : bool; pte_write : bool }.

(** What the running kernel supplies. *)
Class TextEnv := {
  live : nat → Z → Z;
  lookup_address : Z → option pte;
  printk_addr : Z;
  MODULES_VADDR : Z;
  MODULES_END : Z
}.

Record text_params := TextParams { p_text : bool; p_text_modules : bool; p_text_max_mb : Z }.

(** ** State *)
Record kg_region := KgRegion {
  r_name : list Z; r_base : Z; r_size : nat; r_copy : list Z; r_kernel : bool;
  r_mod : Z                       (* identity of the module; 0: NULL *)
}.

Record kg_text := KgText {
  t_start : Z; t_end : Z;         (* kg_text_start, kg_text_end *)
  t_regions : list kg_region;
  t_copy_bytes : Z;
  t_nregions : Z;
  t_enabled : bool;
  t_tmp : bool;                   (* kg_tmp is allocated *)
  t_reads : nat                   (* accesses to live text so far *)
}.

Definition set_bounds (lo hi : Z) (t : kg_text) : kg_text :=
  KgText lo hi (t_regions t) (t_copy_bytes t) (t_nregions t) (t_enabled t) (t_tmp t) (t_reads t).
Definition set_regions (l : list kg_region) (bytes n : Z) (k : nat) (t : kg_text) : kg_text :=
  KgText (t_start t) (t_end t) l bytes n (t_enabled t) (t_tmp t) k.
Definition set_text_enabled (b : bool) (t : kg_text) : kg_text :=
  KgText (t_start t) (t_end t) (t_regions t) (t_copy_bytes t) (t_nregions t) b (t_tmp t) (t_reads t).
Definition set_tmp (b : bool) (t : kg_text) : kg_text :=
  KgText (t_start t) (t_end t) (t_regions t) (t_copy_bytes t) (t_nregions t) (t_enabled t) b (t_reads t).
Definition set_copy (c : list Z) (r : kg_region) : kg_region :=
  KgRegion (r_name r) (r_base r) (r_size r) c (r_kernel r) (r_mod r).

(** ** Bounds of the kernel's text, from the page tables *)
Definition kg_addr_in_kernel_text (t : kg_text) (addr : Z) : bool :=
  negb (t_end t =? 0) && (t_start t <=? addr) && (addr <? t_end t).

Section bounds.
Context `{TextEnv}.

Definition kg_va_is_rx (va : Z) : bool :=
  match lookup_address va with
  | Some p => pte_present p && pte_exec p && negb (pte_write p)
  | None => false
  end.

Definition text_limit : Z := Z.shiftl 256 20.

Fixpoint extend_down (fuel : nat) (anchor lo : Z) : option Z :=
  match fuel with
  | O => None
  | S fuel =>
    if (u64 (anchor - lo) <? text_limit) && kg_va_is_rx (u64 (lo - PAGE_SIZE))
    then extend_down fuel anchor (u64 (lo - PAGE_SIZE)) else Some lo
  end.
Fixpoint extend_up (fuel : nat) (anchor hi : Z) : option Z :=
  match fuel with
  | O => None
  | S fuel =>
    if (u64 (hi - anchor) <? text_limit) && kg_va_is_rx hi
    then extend_up fuel anchor (u64 (hi + PAGE_SIZE)) else Some hi
  end.

(** The limit is 65536 pages away from the anchor. *)
Definition kg_find_text_bounds (t : kg_text) : option (option errno * kg_text) :=
  let anchor := Z.ldiff printk_addr (PAGE_SIZE - 1) in
  if negb (kg_va_is_rx anchor) then Some (Some ENODATA, t)
  else
    lo ← extend_down (Z.to_nat 65538) anchor anchor;
    hi ← extend_up (Z.to_nat 65538) anchor (u64 (anchor + PAGE_SIZE));
    if (u64 (hi - lo) <? Z.shiftl 1 20) || (text_limit <=? u64 (hi - lo))
    then Some (Some ERANGE, t)
    else Some (None, set_bounds lo hi t).
End bounds.

(** ** Regions *)
Definition kg_region_contains (r : kg_region) (addr : Z) : bool :=
  (r_base r <=? addr) && (addr <? u64 (r_base r + Z.of_nat (r_size r))).

Definition kg_in_tracked_module (t : kg_text) (addr : Z) : bool :=
  existsb (λ r, negb (r_kernel r) && kg_region_contains r addr) (t_regions t).

Section regions.
Context `{TextEnv}.

Definition kg_in_module_area (addr : Z) : bool :=
  (MODULES_VADDR <=? addr) && (addr <? MODULES_END).

(** [n] bytes from address [a], as access [k] sees them. *)
Definition read_live (k : nat) (a : Z) (n : nat) : list Z :=
  (λ i, live k (a + Z.of_nat i)) <$> seq 0 n.

Fixpoint stream_copy_loop (fuel k : nat) (src : Z) (off n : nat) : list Z :=
  match fuel with
  | O => []
  | S fuel =>
    if (off <? n)%nat then
      read_live k (src + Z.of_nat off) (Nat.min KG_CHUNK (n - off))
      ++ stream_copy_loop fuel k src (off + KG_CHUNK) n
    else []
  end.
(** Every round copies at least one byte. *)
Definition kg_stream_copy (k : nat) (src : Z) (n : nat) : list Z := stream_copy_loop n k src 0 n.

Fixpoint stream_equal_loop (fuel k : nat) (a : list Z) (b : Z) (off n : nat) : bool :=
  match fuel with
  | O => true
  | S fuel =>
    if (off <? n)%nat then
      let len := Nat.min KG_CHUNK (n - off) in
      if bool_decide (take len (drop off a) = read_live k (b + Z.of_nat off) len)
      then stream_equal_loop fuel k a b (off + KG_CHUNK) n else false
    else true
  end.
Definition kg_stream_equal (k : nat) (a : list Z) (b : Z) (n : nat) : bool :=
  stream_equal_loop n k a b 0 n.

(** Up to [attempts] copies, each followed by a comparison: the last copy made and
    the number of the next access. *)
Fixpoint copy_stable (attempts k : nat) (base : Z) (size : nat) (copy : list Z) : list Z * nat :=
  match attempts with
  | O => (copy, k)
  | S attempts =>
    let copy := kg_stream_copy k base size in
    if kg_stream_equal (S k) copy base size then (copy, S (S k))
    else copy_stable attempts (S (S k)) base size copy
  end.

(** [rec_ok], [copy_ok]: kzalloc and vmalloc succeed. *)
Definition kg_region_add (max_mb : Z) (rec_ok copy_ok : bool) (name : list Z) (base : Z)
  (size : nat) (kernel : bool) (owner : Z) (t : kg_text) : option errno * kg_text :=
  if (size =? 0)%nat then (None, t)
  else if Z.shiftl max_mb 20 <? u64 (t_copy_bytes t + Z.of_nat size) then (Some ENOSPC, t)
  else if negb rec_ok then (Some ENOMEM, t)
  else if negb copy_ok then (Some ENOMEM, t)
  else
    let '(copy, k) := copy_stable 4 (t_reads t) base size [] in
    let r := KgRegion (strscpy name 56) base size copy kernel owner in
    (None, set_regions (t_regions t ++ [r]) (u64 (t_copy_bytes t + Z.of_nat size))
                       (u32 (t_nregions t + 1)) k t).

(** [i]: the region's place in the list. *)
Definition kg_region_del (i : nat) (t : kg_text) : kg_text :=
  match t_regions t !! i with
  | None => t
  | Some r => set_regions (delete i (t_regions t)) (u64 (t_copy_bytes t - Z.of_nat (r_size r)))
                          (u32 (t_nregions t - 1)) (t_reads t) t
  end.
End regions.

Definition kg_text_active (t : kg_text) : bool := t_enabled t.
Definition kg_text_stats (t : kg_text) : Z * Z :=
  (t_nregions t, u32 (Z.shiftr (t_copy_bytes t) 10)).

(** ** Classification of a modified byte run *)
Inductive kg_form := F_OTHER | F_NOP5 | F_CALL | F_JMP | F_XOR5 | F_RET5.
#[export] Instance kg_form_eq_dec : EqDecision kg_form.
Proof. solve_decision. Defined.

Definition nop_p6 : list Z := [0x0f; 0x1f; 0x44; 0x00; 0x00].
Definition nop_k8 : list Z := [0x66; 0x66; 0x90; 0x66; 0x90].
Definition xor5 : list Z := [0x2e; 0x2e; 0x2e; 0x31; 0xc0].
Definition ret5 : list Z := [0xc3; 0xcc; 0xcc; 0xcc; 0xcc].

Definition kg_form5 (p : list Z) : kg_form :=
  if bool_decide (p = nop_p6) || bool_decide (p = nop_k8) then F_NOP5
  else if p !!! 0%nat =? 0xe8 then F_CALL
  else if p !!! 0%nat =? 0xe9 then F_JMP
  else if bool_decide (p = xor5) then F_XOR5
  else if bool_decide (p = ret5) then F_RET5
  else F_OTHER.

Definition kg_branch_target (site : Z) (p : list Z) : Z :=
  u64 (site + 5 + s32 (pack8 (take 4 (drop 1 p)))).

Inductive kg_verdict := KG_V_BENIGN | KG_V_WATCH | KG_V_CRITICAL.
#[export] Instance kg_verdict_eq_dec : EqDecision kg_verdict.
Proof. solve_decision. Defined.
Definition vnum (v : kg_verdict) : Z :=
  match v with KG_V_BENIGN => 0 | KG_V_WATCH => 1 | KG_V_CRITICAL => 2 end.
Definition vmax (a b : kg_verdict) : kg_verdict := if vnum a <? vnum b then b else a.

Record kg_verdict_info := VerdictInfo {
  vi_v : kg_verdict; vi_flags : Z; vi_site : Z; vi_wlen : nat
}.
Record kg_seg := Seg { sg_end : nat; sg_v : kg_verdict; sg_flags : Z; sg_site : Z }.

(** A byte of the region after the change: the run's new bytes, the copy elsewhere. *)
Definition kg_new_at (r : kg_region) (rs re : nat) (newb : list Z) (pos : nat) : Z :=
  if (rs <=? pos)%nat && (pos <? re)%nat then newb !!! (pos - rs)%nat else r_copy r !!! pos.

Definition window (f : nat → Z) (s : nat) : list Z := (λ k, f (s + k)%nat) <$> seq 0 5.

Section classify.
Context `{TextEnv}.
Context (t : kg_text) (r : kg_region).

Definition addr_of (s : nat) : Z := u64 (r_base r + Z.of_nat s).

Section run.
Context (rs re : nat) (newb : list Z).
Notation new_at := (kg_new_at r rs re newb).

(** One window of the loop over [delta]; [None] is its [continue]. *)
Definition try_window (pos delta : nat) : option kg_seg :=
  let s := (pos - delta)%nat in
  if (r_size r <? s + 5)%nat then None
  else
    let o := window (λ k, r_copy r !!! k) s in
    let n := window new_at s in
    let o0 := o !!! 0%nat in
    if (0 <? delta)%nat
       && (negb (o0 =? n !!! 0%nat) || (negb (o0 =? 0xe8) && negb (o0 =? 0xe9))) then None
    else
      let fo := kg_form5 o in
      let fn := kg_form5 n in
      let site := addr_of s in
      if bool_decide (fo = F_OTHER) && bool_decide (fn = F_OTHER) then None
      else if bool_decide (fo = F_OTHER) || bool_decide (fn = F_OTHER) then
        if bool_decide (fo = F_OTHER) && bool_decide (fn = F_JMP) && (delta =? 0)%nat then
          let tg := kg_branch_target site n in
          Some (Seg (s + 5)
                    (if kg_in_module_area tg && negb (kg_in_tracked_module t tg)
                        && negb (kg_addr_in_kernel_text t tg)
                     then KG_V_WATCH else KG_V_CRITICAL)
                    KG_TEXTF_UNKNOWN_TARGET site)
        else None
      else if bool_decide (fo = F_XOR5) || bool_decide (fo = F_RET5)
              || bool_decide (fn = F_XOR5) || bool_decide (fn = F_RET5) then
        Some (Seg (s + 5) KG_V_WATCH 0 site)
      else
        let tg := kg_branch_target site n in
        let branch := bool_decide (fn = F_CALL) || bool_decide (fn = F_JMP) in
        let ok := kg_addr_in_kernel_text t tg || kg_region_contains r tg in
        let ok := if negb ok && bool_decide (fn = F_CALL)
                  then kg_in_tracked_module t tg || kg_in_module_area tg else ok in
        if branch && negb ok then
          Some (Seg (s + 5)
                    (if bool_decide (fn = F_JMP) && kg_in_module_area tg
                        && negb (kg_in_tracked_module t tg)
                     then KG_V_WATCH else KG_V_CRITICAL)
                    KG_TEXTF_UNKNOWN_TARGET site)
        else Some (Seg (s + 5) KG_V_BENIGN 0 site).

(** The loop itself: it breaks at the start of the region. *)
Fixpoint try_windows (pos : nat) (deltas : list nat) : option kg_seg :=
  match deltas with
  | [] => None
  | d :: deltas =>
    if (pos <? d)%nat then None
    else match try_window pos d with
         | Some seg => Some seg
         | None => try_windows pos deltas
         end
  end.

Definition short_site (pos : nat) : bool :=
  let o0 := r_copy r !!! pos in
  let o1 := r_copy r !!! (pos + 1)%nat in
  let n0 := new_at pos in
  let n1 := new_at (pos + 1) in
  (pos + 2 <=? r_size r)%nat
  && ((o0 =? 0x66) && (o1 =? 0x90) && (n0 =? 0xeb)
      || (n0 =? 0x66) && (n1 =? 0x90) && (o0 =? 0xeb)).

Definition kg_match_site (pos : nat) (first : bool) : option kg_seg :=
  if short_site pos then Some (Seg (pos + 2) KG_V_BENIGN 0 (addr_of pos))
  else try_windows pos (if first then [0; 1; 2; 3; 4]%nat else [0]%nat).

Fixpoint classify_loop (fuel pos : nat) (first : bool) (out : kg_verdict_info)
  : option kg_verdict_info :=
  match fuel with
  | O => None
  | S fuel =>
    if (pos <? re)%nat then
      if newb !!! (pos - rs)%nat =? r_copy r !!! pos then classify_loop fuel (pos + 1) first out
      else
        match kg_match_site pos first with
        | None =>
          Some (if (re - rs =? 1)%nat
                   && ((newb !!! 0%nat =? 0xcc) || (r_copy r !!! rs =? 0xcc))
                then VerdictInfo (vmax (vi_v out) KG_V_WATCH)
                                 (Z.lor (vi_flags out) KG_TEXTF_BREAKPOINT) (vi_site out) (vi_wlen out)
                else VerdictInfo KG_V_CRITICAL (vi_flags out) (addr_of pos) (re - pos))
        | Some seg =>
          let out := if vnum (vi_v out) <? vnum (sg_v seg)
                     then VerdictInfo (sg_v seg) (vi_flags out) (sg_site seg) 5 else out in
          let out := VerdictInfo (vi_v out) (Z.lor (vi_flags out) (sg_flags seg))
                                 (vi_site out) (vi_wlen out) in
          classify_loop fuel (if (pos <? sg_end seg)%nat then sg_end seg else pos + 1) false out
        end
    else Some out
  end.

(** [pos] grows in every round. *)
Definition kg_classify : option kg_verdict_info :=
  classify_loop (S (re - rs)) rs true
    (VerdictInfo KG_V_BENIGN (flag_if (r_kernel r) KG_TEXTF_KERNEL) (addr_of rs) (re - rs)).
End run.
End classify.

(** ** Verification *)
Section verify.
Context `{Crypto} `{Platform} `{TextEnv}.
Context (t : kg_text).

Definition kg_handle_run (r : kg_region) (rs re : nat) (newb : list Z) (w : world)
  : option (kg_region * world) :=
  vi ← kg_classify t r rs re newb;
  w ← match vi_v vi with
      | KG_V_BENIGN => Some (kg_stat_inc text_dynamic_patches w)
      | v =>
        let p2 := Z.lor (Z.shiftl (vi_flags vi) 32) (u32 (Z.of_nat (re - rs))) in
        report KG_ALERT_TEXT_PATCH
               (if bool_decide (v = KG_V_CRITICAL) then KG_LEVEL_CRITICAL else KG_LEVEL_WATCH)
               (addr_of r rs) p2 (kg_stat_inc text_patch_detected w)
      end;
  Some (set_copy (memcpy (r_copy r) rs newb) r, w).

Section scan.
Context (cur : list Z) (off n : nat).

Definition differs (r : kg_region) (i : nat) : bool :=
  negb (cur !!! i =? r_copy r !!! (off + i)%nat).

Fixpoint skip_same (fuel : nat) (r : kg_region) (i : nat) : nat :=
  match fuel with
  | O => i
  | S fuel => if (i <? n)%nat && negb (differs r i) then skip_same fuel r (i + 1) else i
  end.

Fixpoint run_end (fuel : nat) (r : kg_region) (j re gap : nat) : nat :=
  match fuel with
  | O => re
  | S fuel =>
    if (j <? n)%nat && (gap <=? 3)%nat then
      if differs r j then run_end fuel r (j + 1) (j + 1) 0 else run_end fuel r (j + 1) re (gap + 1)
    else re
  end.

Fixpoint scan_runs (fuel : nat) (r : kg_region) (i : nat) (w : world) : option (kg_region * world) :=
  match fuel with
  | O => None
  | S fuel =>
    if (i <? n)%nat then
      let rs := skip_same n r i in
      if (n <=? rs)%nat then Some (r, w)
      else
        let re := run_end n r (rs + 1) (rs + 1) 0 in
        '(r, w) ← (if (rs <? KG_CHUNK)%nat || (r_size r <=? off + n)%nat
                   then kg_handle_run r (off + rs) (off + re) (take (re - rs) (drop rs cur)) w
                   else Some (r, w));
        scan_runs fuel r re w
    else Some (r, w)
  end.
End scan.

(** The bytes two accesses agree on; the baseline's elsewhere. *)
Definition settled (k : nat) (r : kg_region) (off n : nat) : list Z :=
  imap (λ i b, if b =? live (S k) (r_base r + Z.of_nat (off + i)) then b
               else r_copy r !!! (off + i)%nat)
       (kg_stream_copy k (r_base r + Z.of_nat off) n).

Definition kg_chunk_check (k : nat) (r : kg_region) (off n : nat) (w : world)
  : option (kg_region * world) :=
  scan_runs (settled k r off n) off n (S n) r 0 w.

(** Three accesses per chunk: the comparison and the two samples. *)
Fixpoint verify_loop (fuel k : nat) (r : kg_region) (off : nat) (w : world)
  : option (kg_region * nat * world) :=
  match fuel with
  | O => None
  | S fuel =>
    if (off <? r_size r)%nat then
      let n := Nat.min (KG_CHUNK + KG_OVERLAP) (r_size r - off) in
      '(r, w) ← (if bool_decide (read_live k (r_base r + Z.of_nat off) n = take n (drop off (r_copy r)))
                 then Some (r, w) else kg_chunk_check (S k) r off n w);
      verify_loop fuel (S (S (S k))) r (off + KG_CHUNK) w
    else Some (r, k, w)
  end.

Definition kg_region_verify (k : nat) (r : kg_region) (w : world) : option (kg_region * nat * world) :=
  verify_loop (S (r_size r)) k r 0 w.

Fixpoint verify_regions (k : nat) (l : list kg_region) (w : world)
  : option (list kg_region * nat * world) :=
  match l with
  | [] => Some ([], k, w)
  | r :: l =>
    '(r, k, w) ← kg_region_verify k r w;
    '(l, k, w) ← verify_regions k l w;
    Some (r :: l, k, w)
  end.
End verify.

(** The targets of branches are looked up in the regions' bounds, which no pass changes. *)
Definition kg_text_verify_all `{Crypto} `{Platform} `{TextEnv} (t : kg_text) (w : world)
  : option (kg_text * world) :=
  if negb (t_enabled t) then Some (t, w)
  else
    '(l, k, w) ← verify_regions t (t_reads t) (t_regions t) w;
    Some (set_regions l (t_copy_bytes t) (t_nregions t) k t, w).

(** ** Reading live text *)
Section reads.
Context `{TextEnv}.

Lemma read_live_length k a n : length (read_live k a n) = n.
Proof. unfold read_live. by rewrite length_fmap, length_seq. Qed.

Lemma read_live_lookup k a n i : (i < n)%nat → read_live k a n !! i = Some (live k (a + Z.of_nat i)).
Proof. intros Hi. unfold read_live. by rewrite list_lookup_fmap, lookup_seq_lt. Qed.

Lemma read_live_app k a n m :
  read_live k a (n + m) = read_live k a n ++ read_live k (a + Z.of_nat n) m.
Proof.
  apply list_eq. intros i. destruct (decide (i < n)%nat) as [Hi|Hi].
  - rewrite lookup_app_l by (rewrite read_live_length; lia). by rewrite !read_live_lookup by lia.
  - rewrite lookup_app_r by (rewrite read_live_length; lia). rewrite read_live_length.
    destruct (decide (i < n + m)%nat) as [Hm|Hm].
    + rewrite !read_live_lookup by lia. do 2 f_equal. lia.
    + rewrite !lookup_ge_None_2; [done|rewrite read_live_length; lia..].
Qed.

Lemma read_live_take k a n m : (m ≤ n)%nat → take m (read_live k a n) = read_live k a m.
Proof.
  intros Hm. replace n with (m + (n - m))%nat by lia. rewrite read_live_app.
  by rewrite take_app_length' by (by rewrite read_live_length).
Qed.

(** The chunked copy and the chunked comparison are the plain ones. *)
Lemma stream_copy_loop_spec fuel k src off n :
  (n - off ≤ fuel)%nat →
  stream_copy_loop fuel k src off n = read_live k (src + Z.of_nat off) (n - off).
Proof.
  revert off. induction fuel as [|fuel IH]; intros off Hf; cbn [stream_copy_loop].
  { by replace (n - off)%nat with O by lia. }
  destruct (Nat.ltb_spec off n) as [Hlt|Hge]; [|by replace (n - off)%nat with O by lia].
  rewrite IH by (unfold KG_CHUNK; lia).
  destruct (decide (n - off ≤ KG_CHUNK)%nat) as [Hc|Hc].
  - replace (n - (off + KG_CHUNK))%nat with O by lia.
    rewrite Nat.min_r by lia. unfold read_live at 2. by rewrite app_nil_r.
  - rewrite Nat.min_l by lia.
    replace (n - off)%nat with (KG_CHUNK + (n - (off + KG_CHUNK)))%nat by lia.
    rewrite read_live_app. do 2 f_equal. lia.
Qed.

Lemma stream_copy_reads k src n : kg_stream_copy k src n = read_live k src n.
Proof. unfold kg_stream_copy. rewrite stream_copy_loop_spec by lia. f_equal; lia. Qed.

Lemma stream_equal_loop_spec fuel k a b off n :
  length a = n → (n - off ≤ fuel)%nat →
  stream_equal_loop fuel k a b off n
  = bool_decide (drop off a = read_live k (b + Z.of_nat off) (n - off)).
Proof.
  intros Ha. revert off. induction fuel as [|fuel IH]; intros off Hf; cbn [stream_equal_loop].
  { replace (n - off)%nat with O by lia. rewrite drop_ge by lia. by rewrite bool_decide_true. }
  destruct (Nat.ltb_spec off n) as [Hlt|Hge].
  2:{ replace (n - off)%nat with O by lia. rewrite drop_ge by lia. by rewrite bool_decide_true. }
  rewrite IH by (unfold KG_CHUNK; lia).
  assert (Hsplit : ∀ c, (c ≤ n - off)%nat →
    drop off a = read_live k (b + Z.of_nat off) (n - off)
    ↔ take c (drop off a) = read_live k (b + Z.of_nat off) c
      ∧ drop (off + c) a = read_live k (b + Z.of_nat (off + c)) (n - (off + c))).
  { intros c Hc. replace (n - off)%nat with (c + (n - (off + c)))%nat at 1 by lia.
    rewrite read_live_app, <- drop_drop.
    replace (b + Z.of_nat off + Z.of_nat c) with (b + Z.of_nat (off + c)) by lia.
    split.
    - intros He. rewrite He, take_app_length', drop_app_length' by (by rewrite read_live_length).
      done.
    - intros [<- <-]. by rewrite take_drop. }
  destruct (decide (n - off ≤ KG_CHUNK)%nat) as [Hc|Hc].
  - rewrite Nat.min_r by lia. specialize (Hsplit (n - off)%nat ltac:(lia)).
    rewrite (drop_ge a (off + KG_CHUNK)) by lia.
    replace (n - (off + KG_CHUNK))%nat with O by lia.
    rewrite take_ge by (rewrite length_drop; lia).
    case_bool_decide; [|done]. by rewrite bool_decide_true.
  - rewrite Nat.min_l by lia. specialize (Hsplit KG_CHUNK ltac:(lia)).
    rewrite (bool_decide_ext _ _ Hsplit), bool_decide_and. by case_bool_decide.
Qed.

Lemma stream_equal_reads k a b n :
  length a = n → kg_stream_equal k a b n = bool_decide (a = read_live k b n).
Proof.
  intros Ha. unfold kg_stream_equal. rewrite stream_equal_loop_spec by (done || lia).
  rewrite drop_0. by replace (b + Z.of_nat 0) with b by lia; rewrite Nat.sub_0_r.
Qed.

(** What [kg_region_add] stores: a copy that was confirmed, or the fourth one that was not. *)
Lemma copy_stable_spec att k base size copy c k' :
  copy_stable (S att) k base size copy = (c, k') →
  ∃ j, (j ≤ att)%nat ∧ k' = (k + 2 * j + 2)%nat
  ∧ c = read_live (k + 2 * j) base size
  ∧ (c = read_live (k + 2 * j + 1) base size ∨ j = att)
  ∧ (∀ i, (i < j)%nat → read_live (k + 2 * i) base size ≠ read_live (k + 2 * i + 1) base size).
Proof.
  revert k copy. induction att as [|att IH]; intros k copy; cbn [copy_stable];
    rewrite stream_copy_reads, stream_equal_reads by apply read_live_length;
    case_bool_decide as Heq; intros Hc.
  - injection Hc as <- <-. exists O. rewrite Nat.add_1_r, !Nat.add_0_r.
    split_and!; [lia..|done|by left|lia].
  - injection Hc as <- <-. exists O. rewrite !Nat.add_0_r. split_and!; [lia..|done|by right|lia].
  - injection Hc as <- <-. exists O. rewrite Nat.add_1_r, !Nat.add_0_r.
    split_and!; [lia..|done|by left|lia].
  - apply (IH _ []) in Hc as (j & Hj & -> & Hc & Hst & Hun). exists (S j).
    replace (k + 2 * S j)%nat with (S (S k) + 2 * j)%nat by lia.
    split_and!; [lia|lia|done|destruct Hst as [Hst| ->]; [by left|by right]|].
    intros [|i] Hi.
    + rewrite Nat.mul_0_r, Nat.add_0_r, Nat.add_1_r. done.
    + replace (k + 2 * S i)%nat with (S (S k) + 2 * i)%nat by lia. apply Hun. lia.
Qed.
End reads.

(** ** The table of regions *)
Definition total_size (l : list kg_region) : Z := foldr (λ r n, Z.of_nat (r_size r) + n) 0 l.

(** The counters agree with the list, every copy is as long as its region, and the
    copies stay below the cap. *)
Record text_inv (max_mb : Z) (t : kg_text) : Prop := TextInv {
  ti_copies : Forall (λ r, length (r_copy r) = r_size r ∧ (0 < r_size r)%nat) (t_regions t);
  ti_bytes : t_copy_bytes t = total_size (t_regions t);
  ti_count : t_nregions t = u32 (zlen (t_regions t));
  ti_cap : t_copy_bytes t ≤ Z.shiftl max_mb 20
}.

Lemma total_size_app a b : total_size (a ++ b) = total_size a + total_size b.
Proof. unfold total_size. induction a as [|x a IH]; simpl; lia. Qed.
Lemma total_size_nonneg l : 0 ≤ total_size l.
Proof. induction l; simpl; lia. Qed.
Lemma total_size_delete l i r :
  l !! i = Some r → total_size (delete i l) = total_size l - Z.of_nat (r_size r).
Proof.
  intros Hi. rewrite <- (take_drop_middle l i r Hi) at 2.
  rewrite delete_take_drop, !total_size_app. simpl. lia.
Qed.

Section region_table.
Context `{TextEnv}.
Context (max_mb : Z) (Hmb : is_u32 max_mb).

Lemma cap_u64 : Z.shiftl max_mb 20 < 9223372036854775808.
Proof. rewrite Z.shiftl_mul_pow2 by lia. unfold is_u32 in Hmb. change (2 ^ 20) with 1048576. lia. Qed.

Lemma region_add_inv rec_ok copy_ok name base size kernel owner t :
  text_inv max_mb t → Z.of_nat size < 9223372036854775808 →
  text_inv max_mb (kg_region_add max_mb rec_ok copy_ok name base size kernel owner t).2.
Proof.
  intros [Hc Hb Hn Hcap] Hs. pose proof cap_u64. pose proof (total_size_nonneg (t_regions t)).
  unfold kg_region_add. destruct (Nat.eqb_spec size 0) as [->|Hsz]; [done|].
  destruct (Z.ltb_spec (Z.shiftl max_mb 20) (u64 (t_copy_bytes t + Z.of_nat size))) as [?|Hle]; [done|].
  destruct rec_ok; [|done]. destruct copy_ok; [|done]. cbn [negb].
  destruct (copy_stable _ _ _ _ _) as [c k] eqn:Ec. apply copy_stable_spec in Ec as (j & _ & _ & -> & _).
  rewrite u64_id in Hle |- * by (unfold is_u64; lia). constructor; simpl.
  - rewrite Forall_app, Forall_singleton. simpl. rewrite read_live_length. split; [done|lia].
  - rewrite total_size_app. simpl. lia.
  - rewrite Hn. unfold zlen. rewrite length_app, Nat2Z.inj_add. apply u32_add_wrap.
  - done.
Qed.

Lemma region_del_inv i t : text_inv max_mb t → text_inv max_mb (kg_region_del i t).
Proof.
  intros [Hc Hb Hn Hcap]. unfold kg_region_del. destruct (t_regions t !! i) as [r|] eqn:Hi; [|done].
  pose proof (total_size_delete _ _ _ Hi) as Hd. pose proof (total_size_nonneg (delete i (t_regions t))).
  pose proof cap_u64. rewrite u64_id by (unfold is_u64; lia). constructor; simpl.
  - by apply Forall_delete.
  - lia.
  - rewrite Hn. unfold zlen. rewrite length_delete by (by eexists).
    pose proof (lookup_lt_Some _ _ _ Hi). rewrite Nat2Z.inj_sub by lia.
    unfold u32. by rewrite Zminus_mod_idemp_l.
  - lia.
Qed.
End region_table.

(** ** Classification: what is accepted silently *)

(** The kernel's own patch sites, as a specification: a window of [len] bytes at
    offset [s] of the region whose bytes go from [old] to [new]. *)
Definition plain_form (f : kg_form) : Prop := f = F_NOP5 ∨ f = F_CALL ∨ f = F_JMP.

Definition branch_ok `{TextEnv} (t : kg_text) (r : kg_region) (f : kg_form) (tg : Z) : Prop :=
  match f with
  | F_CALL => kg_addr_in_kernel_text t tg = true ∨ kg_region_contains r tg = true
              ∨ kg_in_tracked_module t tg = true ∨ kg_in_module_area tg = true
  | F_JMP => kg_addr_in_kernel_text t tg = true ∨ kg_region_contains r tg = true
  | _ => True
  end.

Inductive patch_site `{TextEnv} (t : kg_text) (r : kg_region) (old new : nat → Z) : nat → nat → Prop :=
  | site_short s :
      (s + 2 ≤ r_size r)%nat →
      (old s = 0x66 ∧ old (s + 1)%nat = 0x90 ∧ new s = 0xeb)
      ∨ (new s = 0x66 ∧ new (s + 1)%nat = 0x90 ∧ old s = 0xeb) →
      patch_site t r old new s 2
  | site_long s :
      (s + 5 ≤ r_size r)%nat →
      plain_form (kg_form5 (window old s)) → plain_form (kg_form5 (window new s)) →
      branch_ok t r (kg_form5 (window new s)) (kg_branch_target (addr_of r s) (window new s)) →
      patch_site t r old new s 5.

Section classify_facts.
Context `{TextEnv}.
Context (t : kg_text) (r : kg_region) (rs re : nat) (newb : list Z).
Notation old_at := (λ k, r_copy r !!! k).
Notation new_at := (kg_new_at r rs re newb).

Lemma try_window_end pos delta seg :
  try_window t r rs re newb pos delta = Some seg → sg_end seg = (pos - delta + 5)%nat.
Proof.
  unfold try_window. repeat (case_goal; try done); by intros [= <-].
Qed.

Lemma try_window_benign pos delta seg :
  try_window t r rs re newb pos delta = Some seg → sg_v seg = KG_V_BENIGN →
  patch_site t r old_at new_at (pos - delta) 5.
Proof.
  unfold try_window. destruct (Nat.ltb_spec (r_size r) (pos - delta + 5)) as [|Hs]; [done|].
  set (fo := kg_form5 (window old_at _)). set (fn := kg_form5 (window new_at _)).
  set (tg := kg_branch_target _ _).
  assert (Hgoal : plain_form fo → plain_form fn → branch_ok t r fn tg →
                  patch_site t r old_at new_at (pos - delta) 5) by (intros; by apply site_long).
  case_goal as E0; [done|]. clear E0.
  case_goal as E1; [done|]. clear E1.
  case_goal as E2; [case_goal; [|done]; intros [= <-]; cbn; by case_goal|].
  case_goal as E3; [by intros [= <-]|].
  case_goal as E4; [intros [= <-]; cbn; by case_goal|].
  intros _ _. bool_props. unfold plain_form, branch_ok in Hgoal.
  destruct fo; try done; destruct fn; try done; cbn in E4; auto;
    apply Hgoal; auto; destruct (kg_addr_in_kernel_text t tg), (kg_region_contains r tg); cbn in E4; auto.
  all: destruct E4 as [|E4]; [done|]; bool_props; case_bool_decide; try done; bool_props; tauto.
Qed.

Lemma try_windows_some pos deltas seg :
  try_windows t r rs re newb pos deltas = Some seg →
  ∃ d, d ∈ deltas ∧ (d ≤ pos)%nat ∧ try_window t r rs re newb pos d = Some seg.
Proof.
  induction deltas as [|d deltas IH]; [done|]. cbn [try_windows].
  destruct (Nat.ltb_spec pos d) as [|Hd]; [done|].
  destruct (try_window t r rs re newb pos d) as [s|] eqn:E.
  - intros [= <-]. exists d. split_and!; [by left|done|done].
  - intros (d' & Hin & ?)%IH. exists d'. split; [by right|done].
Qed.

(** A match covers the byte it started from; a silent one is a patch site. *)
Lemma match_site_spec pos first seg :
  kg_match_site t r rs re newb pos first = Some seg →
  (pos < sg_end seg)%nat
  ∧ (sg_v seg = KG_V_BENIGN →
     ∃ s len, (s ≤ pos)%nat ∧ sg_end seg = (s + len)%nat ∧ patch_site t r old_at new_at s len).
Proof.
  unfold kg_match_site. destruct (short_site r rs re newb pos) eqn:Hsh.
  - intros [= <-]. cbn. split; [lia|]. intros _. exists pos, 2%nat. split_and!; [lia..|].
    unfold short_site in Hsh. apply andb_true_iff in Hsh as [Hsz Hb].
    apply Nat.leb_le in Hsz. apply site_short; [done|].
    apply orb_true_iff in Hb as [Hb|Hb]; bool_props; auto.
  - intros (d & Hd & Hp & Hw)%try_windows_some.
    assert (d ≤ 4)%nat by (destruct first; set_unfold; lia).
    pose proof (try_window_end _ _ _ Hw) as He. split; [lia|].
    intros Hv. exists (pos - d)%nat, 5%nat. split_and!; [lia..|]. by eapply try_window_benign.
Qed.

Lemma classify_loop_total fuel pos first out :
  (re - pos < fuel)%nat → is_Some (classify_loop t r rs re newb fuel pos first out).
Proof.
  revert pos first out. induction fuel as [|fuel IH]; intros pos first out Hf; [lia|].
  cbn [classify_loop]. destruct (Nat.ltb_spec pos re); [|done].
  destruct (_ =? _); [apply IH; lia|].
  destruct (kg_match_site t r rs re newb pos first) as [seg|] eqn:Em; [|done].
  apply match_site_spec in Em as [He _]. apply IH. rewrite (proj2 (Nat.ltb_lt _ _)) by done. lia.
Qed.

Lemma classify_total : ∃ vi, kg_classify t r rs re newb = Some vi.
Proof. apply classify_loop_total. lia. Qed.

Lemma classify_loop_benign fuel pos first out vi :
  classify_loop t r rs re newb fuel pos first out = Some vi → vi_v vi = KG_V_BENIGN → (rs ≤ pos)%nat →
  vi_v out = KG_V_BENIGN
  ∧ ∀ p, (pos ≤ p < re)%nat → newb !!! (p - rs)%nat ≠ r_copy r !!! p →
      ∃ s len, (s ≤ p < s + len)%nat ∧ patch_site t r old_at new_at s len.
Proof.
  revert pos first out. induction fuel as [|fuel IH]; intros pos first out; [done|].
  cbn [classify_loop]. destruct (Nat.ltb_spec pos re) as [Hlt|Hge].
  2:{ intros [= <-] Hv _. split; [done|lia]. }
  destruct (newb !!! (pos - rs)%nat =? r_copy r !!! pos) eqn:Esame.
  { intros Hl Hv Hp. destruct (IH _ _ _ Hl Hv ltac:(lia)) as [Ho Hc]. split; [done|].
    intros p Hpp Hne. apply Hc; [|done]. apply Z.eqb_eq in Esame.
    destruct (decide (p = pos)) as [->|]; [done|lia]. }
  destruct (kg_match_site t r rs re newb pos first) as [seg|] eqn:Em.
  2:{ intros [= <-]. destruct (_ && _); [|done]. cbn. unfold vmax. by destruct (vi_v out). }
  apply match_site_spec in Em as [He Hsite]. rewrite (proj2 (Nat.ltb_lt _ _)) by done.
  intros Hl Hv Hp. destruct (IH _ _ _ Hl Hv ltac:(lia)) as [Ho Hc]. cbn in Ho.
  assert (Hvv : vi_v out = KG_V_BENIGN ∧ sg_v seg = KG_V_BENIGN).
  { revert Ho. destruct (vnum (vi_v out) <? vnum (sg_v seg)) eqn:E; cbn; intros Ho.
    - rewrite Ho in E. by destruct (vi_v out).
    - rewrite Ho in E. by destruct (sg_v seg). }
  destruct Hvv as [Hvo Hvs]. split; [done|]. intros p Hpp Hne.
  destruct (decide (p < sg_end seg)%nat) as [Hin|Hout]; [|apply Hc; [lia|done]].
  destruct (Hsite Hvs) as (s & len & Hs & Hlen & Hps). exists s, len. split; [lia|done].
Qed.
End classify_facts.


(** ** The verification pass as a list of handled runs *)
Record run := Run { run_s : nat; run_e : nat; run_new : list Z }.

(** The baseline after the runs have been accepted into it. *)
Definition accept_runs (runs : list run) (c : list Z) : list Z :=
  foldl (λ c x, memcpy c (run_s x) (run_new x)) c runs.

Lemma memcpy_lookup {A} (dst src : list A) off i :
  (off + length src ≤ length dst)%nat →
  memcpy dst off src !! i
  = if decide (off ≤ i < off + length src)%nat then src !! (i - off)%nat else dst !! i.
Proof.
  intros Hl. unfold memcpy. case_decide as Hi.
  - rewrite lookup_app_r by (rewrite length_take; lia). rewrite length_take.
    rewrite lookup_app_l by lia. f_equal. lia.
  - destruct (decide (i < off)%nat) as [Hlt|Hge].
    + rewrite lookup_app_l by (rewrite length_take; lia). by rewrite lookup_take_lt by lia.
    + rewrite lookup_app_r by (rewrite length_take; lia). rewrite length_take.
      rewrite lookup_app_r by lia. rewrite lookup_drop. f_equal. lia.
Qed.

Section handled.
Context `{Crypto} `{Platform} `{TextEnv}.
Context (t : kg_text).

Fixpoint handle_all (runs : list run) (r : kg_region) (w : world) : option (kg_region * world) :=
  match runs with
  | [] => Some (r, w)
  | x :: runs => '(r, w) ← kg_handle_run t r (run_s x) (run_e x) (run_new x) w; handle_all runs r w
  end.

Lemma handle_run_region r rs re newb w r' w' :
  kg_handle_run t r rs re newb w = Some (r', w') → r' = set_copy (memcpy (r_copy r) rs newb) r.
Proof.
  unfold kg_handle_run. destruct (kg_classify t r rs re newb); [|done]. cbn.
  destruct (match vi_v k with KG_V_BENIGN => _ | _ => _ end); [|done]. cbn. by intros [= <- _].
Qed.

Lemma handle_all_app a b r w :
  handle_all (a ++ b) r w = ('(r, w) ← handle_all a r w; handle_all b r w).
Proof.
  revert r w. induction a as [|x a IH]; intros r w; [done|]. cbn [app handle_all].
  destruct (kg_handle_run _ _ _ _ _ _) as [[r1 w1]|]; [|done]. cbn. apply IH.
Qed.

Lemma handle_all_region runs r w r' w' :
  handle_all runs r w = Some (r', w') → r' = set_copy (accept_runs runs (r_copy r)) r.
Proof.
  revert r w. induction runs as [|x runs IH]; intros r w; cbn [handle_all].
  - intros [= <- _]. by destruct r.
  - destruct (kg_handle_run _ _ _ _ _ _) as [[r1 w1]|] eqn:E; [|done]. cbn.
    apply handle_run_region in E as ->. intros Hh. apply IH in Hh as ->. done.
Qed.

(** *** One chunk *)
Section chunk.
Context (cur : list Z) (off n : nat).
Notation differs := (differs cur off).

Lemma skip_same_spec fuel r i :
  (i ≤ n)%nat → (n - i ≤ fuel)%nat →
  (i ≤ skip_same cur off n fuel r i ≤ n)%nat
  ∧ (∀ j, (i ≤ j < skip_same cur off n fuel r i)%nat → differs r j = false)
  ∧ ((skip_same cur off n fuel r i < n)%nat → differs r (skip_same cur off n fuel r i) = true).
Proof.
  revert i. induction fuel as [|fuel IH]; intros i Hi Hf; cbn [skip_same].
  { split_and!; [lia|lia|intros; lia|intros; lia]. }
  destruct (Nat.ltb_spec i n) as [Hlt|Hge]; cbn [andb].
  2:{ split_and!; [lia|lia|intros; lia|intros; lia]. }
  destruct (differs r i) eqn:Ed; cbn [negb].
  { split_and!; [lia|lia|intros; lia|done]. }
  destruct (IH (i + 1)%nat) as (Hr & Hs & He); [lia..|].
  split_and!; [lia|lia| |done]. intros j Hj.
  destruct (decide (j = i)) as [->|]; [done|apply Hs; lia].
Qed.

Lemma run_end_spec fuel r j re gap :
  (re ≤ j ≤ n)%nat → (n - j ≤ fuel)%nat → (0 < re)%nat → differs r (re - 1) = true →
  (re ≤ run_end cur off n fuel r j re gap ≤ n)%nat
  ∧ differs r (run_end cur off n fuel r j re gap - 1) = true.
Proof.
  revert j re gap. induction fuel as [|fuel IH]; intros j re gap Hj Hf Hpos Hd; cbn [run_end].
  { split; [lia|done]. }
  destruct ((j <? n)%nat && (gap <=? 3)%nat) eqn:E; [|split; [lia|done]].
  apply andb_true_iff in E as [Hlt _]. apply Nat.ltb_lt in Hlt.
  destruct (differs r j) eqn:Ed.
  - destruct (IH (j + 1)%nat (j + 1)%nat O) as [Hr He]; [lia..| |].
    { by replace (j + 1 - 1)%nat with j by lia. }
    split; [lia|done].
  - destruct (IH (j + 1)%nat re (gap + 1)%nat) as [Hr He]; [lia..|done|]. split; [lia|done].
Qed.

(** A run inside the chunk that starts and ends with a changed byte and carries the
    bytes that were read. *)
Definition chunk_run (c : list Z) (i : nat) (x : run) : Prop :=
  ∃ a b, run_s x = (off + a)%nat ∧ run_e x = (off + b)%nat ∧ (i ≤ a < b)%nat ∧ (b ≤ n)%nat
  ∧ run_new x = take (b - a) (drop a cur)
  ∧ cur !!! a ≠ c !!! (off + a)%nat ∧ cur !!! (b - 1)%nat ≠ c !!! (off + (b - 1))%nat.

(** Whether a run that starts at [a] is handled in this chunk. *)
Definition mine (size a : nat) : Prop := (a < KG_CHUNK)%nat ∨ (size ≤ off + n)%nat.

(** What a scan from offset [i] does to a baseline [c] of a region of [size] bytes. *)
Record scanned (size i : nat) (runs : list run) (c : list Z) : Prop := Scanned {
  sc_runs : Forall (chunk_run c i) runs;
  sc_length : length (accept_runs runs c) = length c;
  sc_frame : ∀ p, (p < off + i ∨ off + n ≤ p)%nat → accept_runs runs c !!! p = c !!! p;
  sc_accepts : ∀ a, (i ≤ a < n)%nat → mine size a → accept_runs runs c !!! (off + a)%nat = cur !!! a;
  sc_covers : ∀ a, (i ≤ a < n)%nat → mine size a → cur !!! a ≠ c !!! (off + a)%nat →
    ∃ x, x ∈ runs ∧ (run_s x ≤ off + a < run_e x)%nat
}.

Lemma differs_spec r a : differs r a = true ↔ cur !!! a ≠ r_copy r !!! (off + a)%nat.
Proof. unfold TextCheck.differs. rewrite negb_true_iff, Z.eqb_neq. done. Qed.
Lemma differs_false r a : differs r a = false ↔ cur !!! a = r_copy r !!! (off + a)%nat.
Proof. unfold TextCheck.differs. rewrite negb_false_iff, Z.eqb_eq. done. Qed.

Lemma chunk_run_mono c i i' x : (i' ≤ i)%nat → chunk_run c i x → chunk_run c i' x.
Proof. intros Hi (a & b & ? & ? & ? & ?). exists a, b. split_and!; try done; naive_solver lia. Qed.

(** Scanning on from a run that was left to the next chunk. *)
Lemma scanned_skip size i rs re runs c :
  (i ≤ rs < re)%nat → (∀ a, (i ≤ a < rs)%nat → cur !!! a = c !!! (off + a)%nat) →
  ¬ mine size rs → scanned size re runs c → scanned size i runs c.
Proof.
  intros Hi Hsame Hm [Hr Hl Hf Ha Hc]. unfold mine in Hm.
  assert (Hlt : ∀ a, mine size a → (a < rs)%nat) by (unfold mine; intros; lia).
  constructor; [|done|..].
  - eapply Forall_impl; [exact Hr|]. intros x Hx. eapply chunk_run_mono; [|exact Hx]. lia.
  - intros p Hp. apply Hf. lia.
  - intros a Har Hma. specialize (Hlt a Hma). rewrite Hf by lia. symmetry. apply Hsame. lia.
  - intros a Har Hma Hne. specialize (Hlt a Hma). destruct Hne. apply Hsame. lia.
Qed.

(** ... and from one that was handled. *)
Lemma scanned_run size i rs re runs c :
  length cur = n → (off + n ≤ length c)%nat → (i ≤ rs < re)%nat → (re ≤ n)%nat →
  (∀ a, (i ≤ a < rs)%nat → cur !!! a = c !!! (off + a)%nat) →
  cur !!! rs ≠ c !!! (off + rs)%nat → cur !!! (re - 1)%nat ≠ c !!! (off + (re - 1))%nat →
  let x := Run (off + rs) (off + re) (take (re - rs) (drop rs cur)) in
  scanned size re runs (memcpy c (off + rs) (run_new x)) → scanned size i (x :: runs) c.
Proof.
  intros Hcur Hlen Hi Hre Hsame Hd1 Hd2 x [Hr Hl Hf Ha Hc].
  set (c1 := memcpy c (off + rs) (run_new x)) in *.
  assert (Hnl : length (run_new x) = (re - rs)%nat).
  { cbn. rewrite length_take, length_drop. lia. }
  assert (Hc1 : ∀ p, c1 !!! p = if decide (off + rs ≤ p < off + re)%nat
                                then cur !!! (p - off)%nat else c !!! p).
  { intros p. unfold c1. rewrite !list_lookup_total_alt, memcpy_lookup by lia. rewrite Hnl.
    destruct (decide (off + rs ≤ p < off + re)%nat) as [Hp|Hp].
    - rewrite decide_True by lia. cbn. rewrite lookup_take_lt, lookup_drop by lia.
      do 2 f_equal. lia.
    - by rewrite decide_False by lia. }
  assert (Hc1r : ∀ a, (re ≤ a)%nat → c1 !!! (off + a)%nat = c !!! (off + a)%nat).
  { intros a Hae. rewrite Hc1, decide_False by lia. done. }
  constructor.
  - constructor; [by exists rs, re|]. eapply Forall_impl; [exact Hr|].
    intros y (a & b & E1 & E2 & E3 & E4 & E5 & E6 & E7). rewrite Hc1r in E6, E7 by lia.
    exists a, b. split_and!; try done; lia.
  - cbn [accept_runs foldl]. fold (accept_runs runs). cbn. fold c1. change (length (accept_runs runs c1) = length c).
    rewrite Hl. apply memcpy_length. lia.
  - intros p Hp. change (accept_runs runs c1 !!! p = c !!! p). rewrite Hf by lia.
    rewrite Hc1, decide_False by lia. done.
  - intros a Har Hma. change (accept_runs runs c1 !!! (off + a)%nat = cur !!! a).
    destruct (decide (a < re)%nat) as [Hlt|Hge]; [|apply Ha; [lia|done]].
    rewrite Hf, Hc1 by lia. case_decide; [f_equal; lia|]. symmetry. apply Hsame. lia.
  - intros a Har Hma Hne. destruct (decide (a < re)%nat) as [Hlt|Hge].
    + exists x. split; [by left|]. cbn. destruct (decide (a < rs)%nat); [|lia].
      destruct Hne. apply Hsame. lia.
    + destruct (Hc a) as (y & Hy & Hin); [lia|done|by rewrite Hc1r by lia|].
      exists y. split; [by right|done].
Qed.

Lemma scanned_nil size i c :
  (i ≤ n)%nat → (∀ a, (i ≤ a < n)%nat → cur !!! a = c !!! (off + a)%nat) → scanned size i [] c.
Proof.
  intros Hi Hsame. constructor; [done|done|done|..].
  - intros a Ha _. symmetry. by apply Hsame.
  - intros a Ha _ Hne. by destruct Hne; apply Hsame.
Qed.

Lemma scan_runs_spec fuel r i :
  length cur = n → length (r_copy r) = r_size r → (off + n ≤ r_size r)%nat →
  (i ≤ n)%nat → (n - i < fuel)%nat →
  ∃ runs, (∀ w, scan_runs t cur off n fuel r i w = handle_all runs r w)
  ∧ scanned (r_size r) i runs (r_copy r).
Proof.
  intros Hcur. revert r i. induction fuel as [|fuel IH]; intros r i Hlen Hsz Hi Hf; [lia|].
  cbn [scan_runs]. destruct (Nat.ltb_spec i n) as [Hlt|Hge].
  2:{ exists []. split; [done|]. apply scanned_nil; [done|lia]. }
  destruct (skip_same_spec n r i Hi ltac:(lia)) as (Hrs & Hsame & Hdiff).
  set (rs := skip_same cur off n n r i) in *.
  assert (Hsame' : ∀ a, (i ≤ a < rs)%nat → cur !!! a = r_copy r !!! (off + a)%nat)
    by (intros a Ha; apply differs_false, Hsame; lia).
  destruct (Nat.leb_spec n rs) as [Hend|Hin].
  { exists []. split; [done|]. apply scanned_nil; [done|]. intros a Ha. apply Hsame'. lia. }
  destruct (run_end_spec n r (rs + 1) (rs + 1) 0) as [Hre Hlast]; [lia..| |].
  { replace (rs + 1 - 1)%nat with rs by lia. by apply Hdiff. }
  set (re := run_end cur off n n r (rs + 1) (rs + 1) 0) in *.
  destruct ((rs <? KG_CHUNK)%nat || (r_size r <=? off + n)%nat) eqn:Em.
  - set (newb := take (re - rs) (drop rs cur)).
    assert (Hnl : length newb = (re - rs)%nat)
      by (unfold newb; rewrite length_take, length_drop; lia).
    destruct (IH (set_copy (memcpy (r_copy r) (off + rs) newb) r) re) as (runs & Hw & Hs);
      [cbn; rewrite memcpy_length; lia|done|lia|lia|].
    exists (Run (off + rs) (off + re) newb :: runs). split.
    + intros w. cbn [handle_all run_s run_e run_new].
      destruct (kg_handle_run _ _ _ _ _ _) as [[r1 w1]|] eqn:Eh; [|done]. cbn.
      apply handle_run_region in Eh as ->. apply Hw.
    + apply scanned_run; try done; try lia; by apply differs_spec; auto.
  - destruct (IH r re) as (runs & Hw & Hs); [done..|lia|lia|]. exists runs. split; [exact Hw|].
    apply (scanned_skip _ _ rs re); [lia|done| |exact Hs]. unfold mine.
    apply orb_false_iff in Em as [Ea%Nat.ltb_ge Eb%Nat.leb_gt]. lia.
Qed.
End chunk.
End handled.

(** *** A whole region whose text does not change while it is verified *)
Definition bytes_from (m : Z → Z) (a : Z) (n : nat) : list Z :=
  (λ i, m (a + Z.of_nat i)) <$> seq 0 n.

Lemma bytes_from_length m a n : length (bytes_from m a n) = n.
Proof. unfold bytes_from. by rewrite length_fmap, length_seq. Qed.
Lemma bytes_from_lookup m a n i : (i < n)%nat → bytes_from m a n !! i = Some (m (a + Z.of_nat i)).
Proof. intros Hi. unfold bytes_from. by rewrite list_lookup_fmap, lookup_seq_lt. Qed.
Lemma bytes_from_at m a n i : (i < n)%nat → bytes_from m a n !!! i = m (a + Z.of_nat i).
Proof. intros Hi. by rewrite list_lookup_total_alt, bytes_from_lookup. Qed.

Lemma bytes_from_slice m a n i j :
  (i ≤ j ≤ n)%nat → take (j - i) (drop i (bytes_from m a n)) = bytes_from m (a + Z.of_nat i) (j - i).
Proof.
  intros Hij. apply list_eq. intros k. destruct (decide (k < j - i)%nat) as [Hk|Hk].
  - rewrite lookup_take_lt, lookup_drop, !bytes_from_lookup by lia. do 2 f_equal. lia.
  - rewrite !lookup_ge_None_2; [done|rewrite ?length_take, ?length_drop, ?bytes_from_length; lia..].
Qed.

(** A run of a region with text [m]: its new bytes are the text's, and its first and
    last byte differ from the baseline [c]. *)
Definition region_run (m : Z → Z) (base : Z) (c : list Z) (x : run) : Prop :=
  (run_s x < run_e x ≤ length c)%nat
  ∧ run_new x = bytes_from m (base + Z.of_nat (run_s x)) (run_e x - run_s x)
  ∧ c !!! run_s x ≠ m (base + Z.of_nat (run_s x))
  ∧ c !!! (run_e x - 1)%nat ≠ m (base + Z.of_nat (run_e x - 1)).

(** The verification of the offsets from [off] on. *)
Record pass (m : Z → Z) (base : Z) (off : nat) (runs : list run) (c : list Z) : Prop := Pass {
  ps_length : length (accept_runs runs c) = length c;
  ps_result : ∀ p, (off ≤ p < length c)%nat → accept_runs runs c !!! p = m (base + Z.of_nat p);
  ps_frame : ∀ p, (p < off)%nat → accept_runs runs c !!! p = c !!! p;
  ps_runs : Forall (region_run m base c) runs;
  ps_covers : ∀ p, (off ≤ p < length c)%nat → c !!! p ≠ m (base + Z.of_nat p) →
    ∃ x, x ∈ runs ∧ (run_s x ≤ p < run_e x)%nat
}.

Lemma accept_runs_app a b c : accept_runs (a ++ b) c = accept_runs b (accept_runs a c).
Proof. apply foldl_app. Qed.

Lemma accept_either m base runs c :
  Forall (λ x, (run_e x ≤ length c)%nat
    ∧ run_new x = bytes_from m (base + Z.of_nat (run_s x)) (run_e x - run_s x)) runs →
  length (accept_runs runs c) = length c
  ∧ ∀ p, accept_runs runs c !!! p = c !!! p
         ∨ accept_runs runs c !!! p = m (base + Z.of_nat p).
Proof.
  revert c. induction runs as [|x runs IH]; intros c Hr; [by split; [|left]|].
  apply Forall_cons in Hr as [[He Hn] Hr].
  change (accept_runs (x :: runs) c) with (accept_runs runs (memcpy c (run_s x) (run_new x))).
  assert (Hdone : (run_e x ≤ run_s x)%nat → memcpy c (run_s x) (run_new x) = c).
  { intros Hge. rewrite Hn. replace (run_e x - run_s x)%nat with O by lia. unfold memcpy. simpl.
    by rewrite Nat.add_0_r, take_drop. }
  assert (Hml : length (memcpy c (run_s x) (run_new x)) = length c).
  { destruct (decide (run_e x ≤ run_s x)%nat) as [?|?]; [by rewrite Hdone|].
    apply memcpy_length. rewrite Hn, bytes_from_length. lia. }
  destruct (IH (memcpy c (run_s x) (run_new x))) as [Hl Hp]; [by rewrite Hml|].
  split; [by rewrite Hl|]. intros p. destruct (Hp p) as [-> | ->]; [|by right].
  destruct (decide (run_e x ≤ run_s x)%nat) as [Hge|Hlt]; [rewrite Hdone by done; by left|].
  rewrite !list_lookup_total_alt, memcpy_lookup by (rewrite Hn, bytes_from_length; lia).
  case_decide as Hin; [|by left]. rewrite Hn, bytes_from_length in Hin. right.
  rewrite Hn, bytes_from_lookup by lia. simpl. f_equal. lia.
Qed.

(** One chunk, then the rest. *)
Lemma pass_app m base off k runs1 runs2 c :
  (off ≤ k)%nat →
  Forall (region_run m base c) runs1 →
  (∀ p, (off ≤ p < k)%nat → (p < length c)%nat →
        accept_runs runs1 c !!! p = m (base + Z.of_nat p)) →
  (∀ p, (p < off)%nat → accept_runs runs1 c !!! p = c !!! p) →
  (∀ p, (off ≤ p < k)%nat → (p < length c)%nat → c !!! p ≠ m (base + Z.of_nat p) →
     ∃ x, x ∈ runs1 ∧ (run_s x ≤ p < run_e x)%nat) →
  (∀ p, (k ≤ p < length c)%nat → c !!! p ≠ m (base + Z.of_nat p) →
     accept_runs runs1 c !!! p ≠ c !!! p → ∃ x, x ∈ runs1 ∧ (run_s x ≤ p < run_e x)%nat) →
  pass m base k runs2 (accept_runs runs1 c) → pass m base off (runs1 ++ runs2) c.
Proof.
  intros Hk Hr1 Hres Hfr Hcov Hover [Hl2 Hres2 Hfr2 Hr2 Hcov2].
  destruct (accept_either m base runs1 c) as [Hl1 Hei].
  { eapply Forall_impl; [exact Hr1|]. intros x (? & ? & _). split; [lia|done]. }
  assert (Hback : ∀ p, accept_runs runs1 c !!! p ≠ m (base + Z.of_nat p) →
                       c !!! p ≠ m (base + Z.of_nat p)).
  { intros p Hp. destruct (Hei p) as [He|He]; congruence. }
  constructor; rewrite ?accept_runs_app.
  - congruence.
  - intros p Hp. destruct (decide (p < k)%nat) as [Hlt|Hge].
    + rewrite Hfr2 by done. apply Hres; lia.
    + apply Hres2. lia.
  - intros p Hp. rewrite Hfr2 by lia. by apply Hfr.
  - rewrite Forall_app. split; [done|]. eapply Forall_impl; [exact Hr2|].
    intros x (Ha & Hb & Hc & Hd). split_and!; [lia..|done|by apply Hback|by apply Hback].
  - intros p Hp Hne. destruct (decide (p < k)%nat) as [Hlt|Hge].
    + destruct (Hcov p) as (x & Hx & ?); [lia|lia|done|].
      exists x. split; [apply elem_of_app; by left|done].
    + destruct (decide (accept_runs runs1 c !!! p = c !!! p)) as [Heq|Hch].
      * destruct (Hcov2 p) as (x & Hx & ?); [lia|by rewrite Heq|].
        exists x. split; [apply elem_of_app; by right|done].
      * destruct (Hover p) as (x & Hx & ?); [lia|done|done|].
        exists x. split; [apply elem_of_app; by left|done].
Qed.

Lemma accept_changed m base runs c p :
  Forall (region_run m base c) runs → accept_runs runs c !!! p ≠ c !!! p →
  ∃ x, x ∈ runs ∧ (run_s x ≤ p < run_e x)%nat.
Proof.
  intros Hr. assert (Hw : Forall (λ x, (run_s x + length (run_new x) ≤ length c)%nat
                            ∧ length (run_new x) = (run_e x - run_s x)%nat) runs).
  { eapply Forall_impl; [exact Hr|]. intros x (? & -> & _). rewrite bytes_from_length. lia. }
  clear Hr. revert c Hw. induction runs as [|x runs IH]; intros c Hw Hne; [done|].
  apply Forall_cons in Hw as [[Hx Hxl] Hw].
  change (accept_runs (x :: runs) c) with (accept_runs runs (memcpy c (run_s x) (run_new x))) in Hne.
  destruct (decide (run_s x ≤ p < run_e x)%nat) as [Hin|Hout]; [by exists x; split; [left|]|].
  destruct (IH (memcpy c (run_s x) (run_new x))) as (y & Hy & ?).
  - by rewrite memcpy_length.
  - intros He. apply Hne. rewrite He, !list_lookup_total_alt, memcpy_lookup by done.
    by rewrite decide_False by lia.
  - exists y. split; [by right|done].
Qed.

Section region_pass.
Context `{Crypto} `{Platform} `{TextEnv}.
Context (t : kg_text) (m : Z → Z) (k0 : nat).

(** From access [k0] on the text of the region is [m]. *)
Definition stable (r : kg_region) : Prop :=
  ∀ k i, (k0 ≤ k)%nat → (i < r_size r)%nat → live k (r_base r + Z.of_nat i) = m (r_base r + Z.of_nat i).

Lemma stable_read r k off n :
  stable r → (k0 ≤ k)%nat → (off + n ≤ r_size r)%nat →
  read_live k (r_base r + Z.of_nat off) n = bytes_from m (r_base r + Z.of_nat off) n.
Proof.
  intros Hst Hk Hn. apply list_eq. intros i. destruct (decide (i < n)%nat) as [Hi|Hi].
  - rewrite read_live_lookup, bytes_from_lookup by done. f_equal.
    replace (r_base r + Z.of_nat off + Z.of_nat i) with (r_base r + Z.of_nat (off + i)) by lia.
    apply Hst; lia.
  - rewrite !lookup_ge_None_2; [done|rewrite ?read_live_length, ?bytes_from_length; lia..].
Qed.

Lemma settled_stable r k off n :
  stable r → (k0 ≤ k)%nat → (off + n ≤ r_size r)%nat →
  settled k r off n = bytes_from m (r_base r + Z.of_nat off) n.
Proof.
  intros Hst Hk Hn. unfold settled. rewrite stream_copy_reads, stable_read by done.
  apply list_eq. intros i. rewrite list_lookup_imap.
  destruct (decide (i < n)%nat) as [Hi|Hi].
  - rewrite bytes_from_lookup by done. simpl. rewrite Hst by lia.
    replace (r_base r + Z.of_nat off + Z.of_nat i) with (r_base r + Z.of_nat (off + i)) by lia.
    by rewrite Z.eqb_refl.
  - by rewrite lookup_ge_None_2 by (rewrite bytes_from_length; lia).
Qed.

(** The chunk at [off]: its handled runs, and what they do to the baseline. *)
Lemma chunk_pass k r off :
  stable r → (k0 ≤ k)%nat → length (r_copy r) = r_size r → (off < r_size r)%nat →
  let n := Nat.min (KG_CHUNK + KG_OVERLAP) (r_size r - off) in
  ∃ runs, (∀ w, kg_chunk_check t k r off n w = handle_all t runs r w)
  ∧ Forall (region_run m (r_base r) (r_copy r)) runs
  ∧ (∀ p, (p < off)%nat → accept_runs runs (r_copy r) !!! p = r_copy r !!! p)
  ∧ (∀ p, (off ≤ p < off + KG_CHUNK)%nat → (p < r_size r)%nat →
       accept_runs runs (r_copy r) !!! p = m (r_base r + Z.of_nat p)).
Proof.
  intros Hst Hk Hlen Hoff n. assert (Hn : (off + n ≤ r_size r)%nat) by lia.
  destruct (scan_runs_spec t (settled k r off n) off n (S n) r 0) as (runs & Hw & Hs);
    [by rewrite settled_stable by done; rewrite bytes_from_length|done|lia|lia|lia|].
  exists runs. split; [exact Hw|]. destruct Hs as [Hr Hl Hf Ha _].
  rewrite settled_stable in Hr, Ha by done. split_and!.
  - eapply Forall_impl; [exact Hr|].
    intros x (a & b & E1 & E2 & E3 & E4 & E5 & E6 & E7).
    rewrite bytes_from_at in E6, E7 by lia. unfold region_run.
    rewrite E5, bytes_from_slice, E1, E2 by lia.
    replace (off + b - 1)%nat with (off + (b - 1))%nat by lia.
    split_and!; [lia..| | |].
    + f_equal; lia.
    + replace (r_base r + Z.of_nat (off + a)) with (r_base r + Z.of_nat off + Z.of_nat a) by lia. done.
    + replace (r_base r + Z.of_nat (off + (b - 1)))
        with (r_base r + Z.of_nat off + Z.of_nat (b - 1)) by lia. done.
  - intros p Hp. apply Hf. lia.
  - intros p Hp Hps. replace p with (off + (p - off))%nat by lia.
    rewrite Ha; [|unfold n, KG_OVERLAP; lia|].
    + rewrite bytes_from_at by (unfold n, KG_OVERLAP; lia). f_equal. lia.
    + unfold mine. left. lia.
Qed.

Lemma verify_loop_spec fuel k r off :
  stable r → (k0 ≤ k)%nat → length (r_copy r) = r_size r → (r_size r - off < fuel)%nat →
  ∃ runs k', (∀ w, verify_loop t fuel k r off w
                   = ('(r', w') ← handle_all t runs r w; Some (r', k', w')))
  ∧ (k ≤ k')%nat ∧ pass m (r_base r) off runs (r_copy r).
Proof.
  revert k r off. induction fuel as [|fuel IH]; intros k r off Hst Hk Hlen Hf; [lia|].
  cbn [verify_loop]. destruct (Nat.ltb_spec off (r_size r)) as [Hlt|Hge].
  2:{ exists [], k. split_and!; [done|lia|]. constructor; try done; cbn; lia. }
  set (n := Nat.min (KG_CHUNK + KG_OVERLAP) (r_size r - off)).
  assert (Hn : (off + n ≤ r_size r)%nat) by lia.
  assert (Hchunk : ∃ runs,
    (∀ w, (if bool_decide (read_live k (r_base r + Z.of_nat off) n = take n (drop off (r_copy r)))
           then Some (r, w) else kg_chunk_check t (S k) r off n w) = handle_all t runs r w)
    ∧ Forall (region_run m (r_base r) (r_copy r)) runs
    ∧ (∀ p, (p < off)%nat → accept_runs runs (r_copy r) !!! p = r_copy r !!! p)
    ∧ (∀ p, (off ≤ p < off + KG_CHUNK)%nat → (p < r_size r)%nat →
         accept_runs runs (r_copy r) !!! p = m (r_base r + Z.of_nat p))).
  { case_bool_decide as Heq.
    - exists []. split_and!; [done..|]. intros p Hp Hps. cbn.
      rewrite stable_read in Heq by done.
      pose proof (f_equal (.!! (p - off)%nat) Heq) as Hp'. simpl in Hp'.
      rewrite bytes_from_lookup in Hp' by (unfold n, KG_OVERLAP; lia).
      rewrite lookup_take_lt, lookup_drop in Hp' by (unfold n, KG_OVERLAP; lia).
      replace (off + (p - off))%nat with p in Hp' by lia.
      rewrite list_lookup_total_alt, <- Hp'. simpl. f_equal. lia.
    - apply chunk_pass; [done|lia|done|done]. }
  destruct Hchunk as (runs1 & Hw1 & Hr1 & Hf1 & Hres1).
  destruct (accept_either m (r_base r) runs1 (r_copy r)) as [Hl1 _].
  { eapply Forall_impl; [exact Hr1|]. intros x (? & ? & _). split; [lia|done]. }
  destruct (IH (S (S (S k))) (set_copy (accept_runs runs1 (r_copy r)) r) (off + KG_CHUNK)%nat)
    as (runs2 & k' & Hw2 & Hk' & Hp2); [done|lia|cbn; lia|cbn; unfold KG_CHUNK; lia|].
  exists (runs1 ++ runs2), k'. split_and!; [|lia|].
  - intros w. rewrite Hw1, handle_all_app.
    destruct (handle_all t runs1 r w) as [[r1 w1]|] eqn:Eh; [|done]. cbn.
    apply handle_all_region in Eh as ->. apply Hw2.
  - eapply pass_app; [|done|..|exact Hp2]; [lia| | done | |].
    + intros p Hp Hps. apply Hres1; lia.
    + intros p Hp Hps Hne. eapply accept_changed; [exact Hr1|]. rewrite Hres1 by lia. done.
    + intros p Hp Hne Hch. by eapply accept_changed.
Qed.
End region_pass.

Section handled_facts.
Context `{CryptoLaws} `{Platform} `{TextEnv}.
Context (t : kg_text).

Lemma handle_run_advances r rs re newb w :
  sound w →
  ∃ vi w', kg_classify t r rs re newb = Some vi
  ∧ kg_handle_run t r rs re newb w = Some (set_copy (memcpy (r_copy r) rs newb) r, w')
  ∧ advances w w'
  ∧ (vi_v vi = KG_V_CRITICAL → pos_ready (wpos w) = true →
     Z.min KG_POSTURE_FAILSAFE (posture_cap w) ≤ kg_posture w').
Proof.
  intros Hw. destruct (classify_total t r rs re newb) as [vi Hvi].
  unfold kg_handle_run. rewrite Hvi. bind_simpl.
  set (p2 := Z.lor _ _).
  destruct (vi_v vi) eqn:Hv.
  - eexists vi, _. bind_simpl. split_and!; [done|done|by apply stat_advances|congruence].
  - destruct (stat_report_advances text_patch_detected KG_ALERT_TEXT_PATCH KG_LEVEL_WATCH
                (addr_of r rs) p2 w Hw) as (w' & Hr & Ha & _).
    exists vi, w'. rewrite bool_decide_false by done. rewrite Hr. bind_simpl.
    split_and!; [done|done|done|congruence].
  - destruct (stat_report_advances text_patch_detected KG_ALERT_TEXT_PATCH KG_LEVEL_CRITICAL
                (addr_of r rs) p2 w Hw) as (w' & Hr & Ha & Ht).
    exists vi, w'. rewrite bool_decide_true by done. rewrite Hr. bind_simpl.
    split_and!; [done|done|done|]. intros _. exact Ht.
Qed.

(** [x] is one of the runs, met when the ones before it had been accepted. *)
Definition critical_run (runs : list run) (r : kg_region) : Prop :=
  ∃ pre x post vi, runs = pre ++ x :: post
  ∧ kg_classify t (set_copy (accept_runs pre (r_copy r)) r) (run_s x) (run_e x) (run_new x) = Some vi
  ∧ vi_v vi = KG_V_CRITICAL.

Lemma handle_all_advances runs r w :
  sound w →
  ∃ w', handle_all t runs r w = Some (set_copy (accept_runs runs (r_copy r)) r, w') ∧ advances w w'
  ∧ (critical_run runs r → pos_ready (wpos w) = true →
     Z.min KG_POSTURE_FAILSAFE (posture_cap w) ≤ kg_posture w').
Proof.
  revert r w. induction runs as [|x runs IH]; intros r w Hw.
  { exists w. split_and!; [by destruct r|by apply advances_refl|].
    intros (pre & x & post & vi & Hr & _). by destruct pre. }
  cbn [handle_all].
  destruct (handle_run_advances r (run_s x) (run_e x) (run_new x) w Hw) as (vi & w1 & Hvi & -> & Ha & Hc).
  bind_simpl. destruct (IH (set_copy (memcpy (r_copy r) (run_s x) (run_new x)) r) w1)
    as (w2 & -> & Ha2 & Hc2); [by eapply advances_sound|].
  exists w2. split_and!; [done|by etrans|].
  intros (pre & y & post & vi' & Hr & Hcl & Hv) Hready.
  destruct pre as [|z pre]; injection Hr as <- ->.
  - change (accept_runs [] (r_copy r)) with (r_copy r) in Hcl.
    replace (set_copy (r_copy r) r) with r in Hcl by (by destruct r).
    rewrite Hvi in Hcl. injection Hcl as <-. specialize (Hc Hv Hready).
    pose proof (ad_posture _ _ Ha2). lia.
  - rewrite <- (advances_cap _ _ Ha). apply Hc2; [|by rewrite (ad_ready _ _ Ha)].
    by exists pre, y, post, vi'.
Qed.
End handled_facts.

(** *** The pass completes whatever the text does under it *)
Section completes.
Context `{CryptoLaws} `{Platform} `{TextEnv}.
Context (t : kg_text).

(** The same region with another copy of the right length. *)
Definition recopied (r r' : kg_region) : Prop :=
  ∃ c, r' = set_copy c r ∧ length c = length (r_copy r).

Lemma settled_length k r off n : length (settled k r off n) = n.
Proof. unfold settled. by rewrite length_imap, stream_copy_reads, read_live_length. Qed.

Lemma chunk_check_advances k r off n w :
  sound w → length (r_copy r) = r_size r → (off + n ≤ r_size r)%nat →
  ∃ r' w', kg_chunk_check t k r off n w = Some (r', w') ∧ recopied r r' ∧ advances w w'.
Proof.
  intros Hw Hlen Hn.
  destruct (scan_runs_spec t (settled k r off n) off n (S n) r 0) as (runs & Hs & [_ Hl _ _ _]);
    [apply settled_length|done|lia|lia|lia|].
  destruct (handle_all_advances t runs r w Hw) as (w' & Hh & Ha & _).
  eexists _, w'. split; [unfold kg_chunk_check; by rewrite Hs, Hh|]. split; [|done].
  by eexists.
Qed.

Lemma verify_loop_advances fuel k r off w :
  sound w → length (r_copy r) = r_size r → (r_size r - off < fuel)%nat →
  ∃ r' k' w', verify_loop t fuel k r off w = Some (r', k', w') ∧ recopied r r' ∧ advances w w'.
Proof.
  revert k r off w. induction fuel as [|fuel IH]; intros k r off w Hw Hlen Hf; [lia|].
  cbn [verify_loop]. destruct (Nat.ltb_spec off (r_size r)) as [Hlt|Hge].
  2:{ exists r, k, w. split_and!; [done| |by apply advances_refl].
      exists (r_copy r). split; [by destruct r|done]. }
  set (n := Nat.min (KG_CHUNK + KG_OVERLAP) (r_size r - off)).
  assert (Hstep : ∃ r1 w1, (if bool_decide (read_live k (r_base r + Z.of_nat off) n
                                            = take n (drop off (r_copy r)))
                            then Some (r, w) else kg_chunk_check t (S k) r off n w) = Some (r1, w1)
                  ∧ recopied r r1 ∧ advances w w1).
  { case_bool_decide; [|apply chunk_check_advances; [done|done|lia]].
    exists r, w. split_and!; [done| |by apply advances_refl].
    exists (r_copy r). split; [by destruct r|done]. }
  destruct Hstep as (r1 & w1 & -> & (c & -> & Hc) & Ha). bind_simpl.
  destruct (IH (S (S (S k))) (set_copy c r) (off + KG_CHUNK)%nat w1)
    as (r2 & k2 & w2 & -> & (c2 & -> & Hc2) & Ha2); [by eapply advances_sound|cbn; lia|cbn; unfold KG_CHUNK; lia|].
  exists (set_copy c2 r), k2, w2. split_and!; [done| |by etrans].
  exists c2. split; [done|]. cbn in Hc2. lia.
Qed.

Lemma region_verify_advances k r w :
  sound w → length (r_copy r) = r_size r →
  ∃ r' k' w', kg_region_verify t k r w = Some (r', k', w') ∧ recopied r r' ∧ advances w w'.
Proof. intros. apply verify_loop_advances; [done|done|lia]. Qed.

Lemma verify_regions_advances k l w :
  sound w → Forall (λ r, length (r_copy r) = r_size r ∧ (0 < r_size r)%nat) l →
  ∃ l' k' w', verify_regions t k l w = Some (l', k', w') ∧ Forall2 recopied l l' ∧ advances w w'.
Proof.
  revert k w. induction l as [|r l IH]; intros k w Hw Hl.
  { exists [], k, w. split_and!; [done..|by apply advances_refl]. }
  apply Forall_cons in Hl as [[Hr _] Hl]. cbn [verify_regions].
  destruct (region_verify_advances k r w Hw Hr) as (r' & k' & w' & -> & Hrc & Ha). bind_simpl.
  destruct (IH k' w') as (l' & k2 & w2 & -> & Hl' & Ha2); [by eapply advances_sound|done|]. bind_simpl.
  exists (r' :: l'), k2, w2. split_and!; [done|by constructor|by etrans].
Qed.

Lemma recopied_total l l' : Forall2 recopied l l' → total_size l' = total_size l.
Proof.
  induction 1 as [|r r' l l' (c & -> & _) _ IH]; [done|]. simpl. by rewrite IH.
Qed.
End completes.

Lemma text_verify_all_advances `{CryptoLaws} `{Platform} `{TextEnv} max_mb t w :
  sound w → text_inv max_mb t →
  ∃ t' w', kg_text_verify_all t w = Some (t', w') ∧ text_inv max_mb t' ∧ advances w w'
  ∧ t_start t' = t_start t ∧ t_end t' = t_end t ∧ t_enabled t' = t_enabled t.
Proof.
  intros Hw Ht. unfold kg_text_verify_all. destruct (t_enabled t) eqn:He; cbn [negb].
  2:{ exists t, w. split_and!; [done..|by apply advances_refl|done|done|done]. }
  pose proof Ht as [Hc Hb Hn Hcap].
  destruct (verify_regions_advances t (t_reads t) (t_regions t) w Hw Hc) as (l' & k' & w' & -> & Hl & Ha).
  bind_simpl. eexists _, w'. split; [done|]. split_and!; [|done..].
  constructor; cbn [t_regions t_copy_bytes t_nregions set_regions].
  - clear -Hl Hc. induction Hl as [|r r' l l' (c & -> & Hlen) _ IH]; [done|].
    apply Forall_cons in Hc as [[Hr1 Hr2] Hc]. constructor; [cbn; split; [congruence|done]|auto].
  - rewrite (recopied_total _ _ Hl). exact Hb.
  - rewrite Hn. unfold zlen. by rewrite (Forall2_length _ _ _ Hl).
  - done.
Qed.


(** *** A concrete kernel text: one instruction is overwritten *)
Definition text_byte (l : list Z) (base a : Z) : Z := default 0x90 (l !! Z.to_nat (a - base)).
Definition sample_env : TextEnv := {|
  live _ a := text_byte [0x90; 0x90; 0x41; 0x42] 0x1000 a;
  lookup_address a := if (0x1000 <=? a) && (a <? 0x2000) then Some (Pte true true false) else None;
  printk_addr := 0x1000; MODULES_VADDR := 0x100000; MODULES_END := 0x200000
|}.
Definition sample_region : kg_region := KgRegion (bytes_of "vmlinux") 0x1000 8 (replicate 8 0x90) true 0.
Definition sample_text : kg_text := KgText 0x1000 0x2000 [sample_region] 8 1 true true 0.


(** ** Limits of the code *)

Definition two_calls : list Z := [0xe8; 0; 1; 0; 0; 0xe8; 0; 2; 0; 0].
Definition retarget_region : kg_region := KgRegion (bytes_of "vmlinux") 0x1000 10 two_calls true 0.
Definition verdict_of (rs re : nat) (newb : list Z) : option kg_verdict :=
  vi_v <$> @kg_classify sample_env sample_text retarget_region rs re newb.

(** Two neighbouring CALLs that the kernel retargets together: each change alone is
    accepted, both targets being kernel text, but as one run the second is no longer
    recognised, because an opcode before the changed bytes is looked for only at the
    start of a run; the pair is judged critical and the module enters fail-safe. *)
Theorem adjacent_retargets_misjudged :
  verdict_of 2 3 [3] = Some KG_V_BENIGN
  ∧ verdict_of 7 8 [3] = Some KG_V_BENIGN
  ∧ verdict_of 1 8 [4; 3; 0; 0; 0xe8; 4; 3] = Some KG_V_CRITICAL.
Proof. by vm_compute. Qed.

(** The baseline of a region is kept even when no copy of it was ever confirmed: if text
    changes between each of the four copies and its comparison, the fourth copy becomes
    the baseline although it already differs from the text. *)
Theorem unstable_copy_kept `{TextEnv} max_mb name base size kernel owner t :
  (0 < size)%nat → u64 (t_copy_bytes t + Z.of_nat size) ≤ Z.shiftl max_mb 20 →
  (∀ i, (i < 4)%nat → read_live (t_reads t + 2 * i) base size
                      ≠ read_live (t_reads t + 2 * i + 1) base size) →
  ∃ t' r, kg_region_add max_mb true true name base size kernel owner t = (None, t')
  ∧ last (t_regions t') = Some r
  ∧ r_copy r = read_live (t_reads t + 6) base size
  ∧ r_copy r ≠ read_live (t_reads t + 7) base size.
Proof.
  intros Hs Hcap Hun. unfold kg_region_add.
  rewrite (proj2 (Nat.eqb_neq _ _)), (proj2 (Z.ltb_ge _ _)) by lia. cbn [negb].
  destruct (copy_stable 4 (t_reads t) base size []) as [c k] eqn:Ec.
  apply copy_stable_spec in Ec as (j & Hj & _ & -> & Hst & _).
  assert (j = 3%nat) as ->.
  { destruct Hst as [Hst|?]; [|lia]. destruct (Hun j); [lia|done]. }
  eexists _, _. split; [done|]. cbn [t_regions set_regions]. rewrite last_snoc.
  split_and!; [done|done|]. cbn [r_copy].
  replace (t_reads t + 7)%nat with (t_reads t + 2 * 3 + 1)%nat by lia. apply Hun. lia.
Qed.

(** A text that is rewritten between any two accesses. *)
Definition restless_env : TextEnv := {|
  live n a := if Nat.even n then 0xcc else 0x90; lookup_address _ := None;
  printk_addr := 0; MODULES_VADDR := 0; MODULES_END := 0
|}.
Lemma unstable_copy_kept_witness :
  ∃ t' r, @kg_region_add restless_env 1 true true [] 0x1000 1 true 0 (KgText 0 0 [] 0 0 false true 0)
          = (None, t')
  ∧ last (t_regions t') = Some r ∧ r_copy r = [0xcc] ∧ r_copy r ≠ [0x90].
Proof.
  apply (@unstable_copy_kept restless_env 1 [] 0x1000 1 true 0 (KgText 0 0 [] 0 0 false true 0));
    [lia|by compute|].
  intros i Hi. destruct i as [|[|[|[|i]]]]; [by compute..|lia].
Defined.

(** ** The bounds of the kernel's text *)
Section text_bounds.
Context `{TextEnv}.
Context (anchor : Z) (Hlo : 268439552 ≤ anchor) (Hhi : anchor + 268439552 < 18446744073709551616).
Notation page i := (anchor + PAGE_SIZE * i).

Lemma extend_down_spec fuel i :
  0 ≤ i ≤ 65536 → 65536 - i < Z.of_nat fuel → (∀ j, - i ≤ j ≤ 0 → kg_va_is_rx (page j) = true) →
  ∃ k, i ≤ k ≤ 65536 ∧ extend_down fuel anchor (page (- i)) = Some (page (- k))
  ∧ (∀ j, - k ≤ j ≤ 0 → kg_va_is_rx (page j) = true)
  ∧ (k = 65536 ∨ kg_va_is_rx (page (- k - 1)) = false).
Proof.
  unfold PAGE_SIZE. revert i. induction fuel as [|fuel IH]; intros i Hi Hf Hrx; [lia|].
  cbn [extend_down]. unfold PAGE_SIZE.
  replace (anchor - (anchor + 4096 * - i)) with (4096 * i) by lia.
  rewrite (u64_id (4096 * i)) by (unfold is_u64; lia).
  rewrite (u64_id (anchor + 4096 * - i - 4096)) by (unfold is_u64; lia).
  replace (anchor + 4096 * - i - 4096) with (anchor + 4096 * - (i + 1)) by lia.
  change text_limit with 268435456.
  destruct (Z.ltb_spec (4096 * i) 268435456) as [Hlt|Hge]; cbn [andb].
  2:{ exists i. split_and!; [lia..|done|done|left; lia]. }
  destruct (kg_va_is_rx (anchor + 4096 * - (i + 1))) eqn:Erx.
  - destruct (IH (i + 1)) as (k & Hk & He & Hr & Hend); [lia..| |].
    { intros j Hj. destruct (decide (j = - (i + 1))) as [->|]; [done|apply Hrx; lia]. }
    exists k. split_and!; [lia..|done|done|done].
  - exists i. split_and!; [lia..|done|done|right]. by replace (- i - 1) with (- (i + 1)) by lia.
Qed.

Lemma extend_up_spec fuel i :
  1 ≤ i ≤ 65536 → 65536 - i < Z.of_nat fuel → (∀ j, 0 ≤ j < i → kg_va_is_rx (page j) = true) →
  ∃ k, i ≤ k ≤ 65536 ∧ extend_up fuel anchor (page i) = Some (page k)
  ∧ (∀ j, 0 ≤ j < k → kg_va_is_rx (page j) = true)
  ∧ (k = 65536 ∨ kg_va_is_rx (page k) = false).
Proof.
  unfold PAGE_SIZE. revert i. induction fuel as [|fuel IH]; intros i Hi Hf Hrx; [lia|].
  cbn [extend_up]. unfold PAGE_SIZE.
  replace (anchor + 4096 * i - anchor) with (4096 * i) by lia.
  rewrite (u64_id (4096 * i)) by (unfold is_u64; lia).
  rewrite (u64_id (anchor + 4096 * i + 4096)) by (unfold is_u64; lia).
  replace (anchor + 4096 * i + 4096) with (anchor + 4096 * (i + 1)) by lia.
  change text_limit with 268435456.
  destruct (Z.ltb_spec (4096 * i) 268435456) as [Hlt|Hge]; cbn [andb].
  2:{ exists i. split_and!; [lia..|done|done|left; lia]. }
  destruct (kg_va_is_rx (anchor + 4096 * i)) eqn:Erx.
  - destruct (IH (i + 1)) as (k & Hk & He & Hr & Hend); [lia..| |].
    { intros j Hj. destruct (decide (j = i)) as [->|]; [done|apply Hrx; lia]. }
    exists k. split_and!; [lia..|done|done|done].
  - exists i. split_and!; [lia..|done|done|by right].
Qed.
End text_bounds.

(** The search for the kernel's text ends, and what it accepts is the whole run: every
    page of it is present, executable and read-only, it holds the anchor, the pages on
    both sides of it are not, and its size is between 1 and 256 MiB.  Otherwise nothing is
    recorded. *)
Theorem text_bounds_maximal `{TextEnv} t :
  let anchor := Z.ldiff printk_addr (PAGE_SIZE - 1) in
  268439552 ≤ anchor → anchor + 268439552 < 18446744073709551616 →
  ∃ res t', kg_find_text_bounds t = Some (res, t') ∧
  match res with
  | None => ∃ lo hi, t' = set_bounds lo hi t ∧ lo ≤ anchor < hi
      ∧ 1048576 ≤ hi - lo < 268435456
      ∧ (∀ j, 0 ≤ j → lo + PAGE_SIZE * j < hi → kg_va_is_rx (lo + PAGE_SIZE * j) = true)
      ∧ kg_va_is_rx (lo - PAGE_SIZE) = false ∧ kg_va_is_rx hi = false
  | Some e => t' = t ∧ (e = ENODATA ∧ kg_va_is_rx anchor = false
                        ∨ e = ERANGE ∧ kg_va_is_rx anchor = true)
  end.
Proof.
  intros anchor Hlo Hhi. unfold kg_find_text_bounds. fold anchor.
  destruct (kg_va_is_rx anchor) eqn:Erx; cbn [negb].
  2:{ eexists _, t. split; [done|]. split; [done|by left]. }
  assert (Ha0 : ∀ j, 0 ≤ j ≤ 0 → kg_va_is_rx (anchor + PAGE_SIZE * j) = true).
  { intros j Hj. replace (anchor + PAGE_SIZE * j) with anchor by (unfold PAGE_SIZE; lia). done. }
  destruct (extend_down_spec anchor Hlo Hhi (Z.to_nat 65538) 0) as (d & Hd & Hde & Hdr & Hdend);
    [lia|lia|intros j Hj; apply Ha0; lia|].
  destruct (extend_up_spec anchor Hlo Hhi (Z.to_nat 65538) 1) as (u & Hu & Hue & Hur & Huend);
    [lia|lia|intros j Hj; apply Ha0; lia|].
  replace (anchor + PAGE_SIZE * - 0) with anchor in Hde by (unfold PAGE_SIZE; lia).
  replace (anchor + PAGE_SIZE * 1) with (anchor + PAGE_SIZE) in Hue by (unfold PAGE_SIZE; lia).
  rewrite Hde. bind_simpl. rewrite (u64_id (anchor + PAGE_SIZE)) by (unfold is_u64, PAGE_SIZE; lia).
  rewrite Hue. bind_simpl. unfold PAGE_SIZE in *.
  rewrite u64_id by (unfold is_u64; lia). change text_limit with 268435456.
  change (Z.shiftl 1 20) with 1048576.
  destruct (_ || _) eqn:E.
  { eexists _, t. split; [done|]. split; [done|by right]. }
  apply orb_false_iff in E as [Ea%Z.ltb_ge Eb%Z.leb_gt].
  eexists _, _. split; [done|]. exists (anchor + 4096 * - d), (anchor + 4096 * u).
  split_and!; [done|lia|lia|lia|lia| | |].
  - intros j Hj Hju. replace (anchor + 4096 * - d + 4096 * j) with (anchor + 4096 * (j - d)) by lia.
    destruct (decide (j - d ≤ 0)); [apply Hdr|apply Hur]; lia.
  - replace (anchor + 4096 * - d - 4096) with (anchor + 4096 * (- d - 1)) by lia.
    destruct Hdend as [->|Hx]; [lia|done].
  - destruct Huend as [->|Hx]; [lia|done].
Qed.

(** A text of 2 MiB around the anchor. *)
Definition bounds_env : TextEnv := {|
  live _ _ := 0x90;
  lookup_address a := if (0x20000000 <=? a) && (a <? 0x20200000) then Some (Pte true true false) else None;
  printk_addr := 0x20100123; MODULES_VADDR := 0; MODULES_END := 0
|}.
Lemma text_bounds_maximal_witness :
  ∃ lo hi, @kg_find_text_bounds bounds_env sample_text = Some (None, set_bounds lo hi sample_text)
  ∧ @kg_va_is_rx bounds_env (lo - PAGE_SIZE) = false ∧ @kg_va_is_rx bounds_env hi = false.
Proof.
  pose proof (@text_bounds_maximal bounds_env sample_text ltac:(by compute) ltac:(by compute))
    as (res & t' & Hf & Hm).
  destruct res as [e|].
  - exfalso. apply (f_equal (fmap fst)) in Hf. vm_compute in Hf. discriminate Hf.
  - destruct Hm as (lo & hi & -> & _ & _ & _ & Hl & Hh). exists lo, hi. split_and!; [exact Hf|exact Hl|exact Hh].
Defined.
