(* ===== verification/Integrity.v ===== *)
(** * Module 3: CPU control state, module lifecycle and the integrity worker
      (linux/module/kg_integrity.c, from kg_cpust_collect on)

    The registers of every CPU and the interrupt descriptor table are compared with
    a baseline taken at load time; module loads and unloads keep the text regions of
    TextCheck.v up to date; the worker runs both checks and then verifies the module's
    own policy state. *)
From S2P Require Import Prelude Uapi Kernel Machine Guard Comms Posture Sched Advance Modgate TextCheck.
Local Open Scope Z_scope.

(** ** CPU control state *)
Definition MSR_IA32_SPEC_CTRL : Z := 0x48.
Definition MSR_IA32_SYSENTER_EIP : Z := 0x176.
Definition MSR_STAR : Z := 0xc0000081.
Definition MSR_LSTAR : Z := 0xc0000082.
Definition MSR_CSTAR : Z := 0xc0000083.
Definition MSR_SYSCALL_MASK : Z := 0xc0000084.
Definition SPEC_CTRL_IBRS : Z := 1.
Definition X86_CR0_WP : Z := Z.shiftl 1 16.
Definition X86_CR4_UMIP : Z := Z.shiftl 1 11.
Definition X86_CR4_FSGSBASE : Z := Z.shiftl 1 16.
Definition X86_CR4_SMEP : Z := Z.shiftl 1 20.
Definition X86_CR4_SMAP : Z := Z.shiftl 1 21.
Definition KG_CR4_PINS : Z :=
  Z.lor (Z.lor (Z.lor X86_CR4_SMEP X86_CR4_SMAP) X86_CR4_UMIP) X86_CR4_FSGSBASE.
Definition KG_REG_CR0 : Z := 0x10000000.
Definition KG_REG_CR4 : Z := 0x10000004.

Record kg_cpust := Cpust {
  c_valid : bool; c_idt_limit : Z; c_idt_base : Z;
  c_lstar : Z; c_cstar : Z; c_star : Z; c_smask : Z; c_sysenter : Z;
  c_cr0 : Z; c_cr4 : Z; c_ibrs : Z
}.
Definition zero_cpust : kg_cpust := Cpust false 0 0 0 0 0 0 0 0 0 0.
#[export] Instance kg_cpust_inhabited : Inhabited kg_cpust := populate zero_cpust.

(** A gate of the IDT: 16 bytes, in the processor's format. *)
Definition gate_desc : Type := list Z.
Definition gate_offset (g : gate_desc) : Z :=
  Z.lor (Z.lor (pack8 (take 2 g)) (Z.shiftl (pack8 (take 2 (drop 6 g))) 16))
        (Z.shiftl (pack8 (take 4 (drop 8 g))) 32).
Definition gate_present (g : gate_desc) : bool := Z.testbit (g !!! 5%nat) 7.

(** What the processors answer: collection [n] on CPU [c], and the table at an address
    as its [n]-th reading finds it. *)
Class CpuEnv := {
  store_idt : nat → Z → Z * Z;                   (* limit, base *)
  rdmsr_safe : nat → Z → Z → bool * Z;           (* whether it faulted, what it stored *)
  read_cr0 : nat → Z → Z;
  read_cr4 : nat → Z → Z;
  feature_sep : bool;
  feature_ibrs_enhanced : bool;
  feature_fred : bool;
  idt_gate : nat → Z → nat → gate_desc
}.

Record kg_integ := Integ {
  ig_text : kg_text;
  ig_base : option (list kg_cpust);      (* kg_cpu_base *)
  ig_idt : list gate_desc;               (* kg_idt_base; [] for NULL *)
  ig_idt_enabled : bool;
  ig_baseline_done : bool;
  ig_nb_registered : bool;
  ig_corrupt_reported : bool;
  ig_reads : nat                         (* collections and table readings so far *)
}.
Definition with_text (t : kg_text) (s : kg_integ) : kg_integ :=
  Integ t (ig_base s) (ig_idt s) (ig_idt_enabled s) (ig_baseline_done s) (ig_nb_registered s)
        (ig_corrupt_reported s) (ig_reads s).
Definition with_cpus (b : option (list kg_cpust)) (idt : list gate_desc) (en : bool) (n : nat)
  (s : kg_integ) : kg_integ :=
  Integ (ig_text s) b idt en (ig_baseline_done s) (ig_nb_registered s) (ig_corrupt_reported s) n.
Definition with_flags (base_done nb corrupt : bool) (s : kg_integ) : kg_integ :=
  Integ (ig_text s) (ig_base s) (ig_idt s) (ig_idt_enabled s) base_done nb corrupt (ig_reads s).

Section cpu_state.
Context `{Crypto} `{Platform} `{CpuEnv}.

Definition kg_cpust_collect (n : nat) (c : Z) : kg_cpust :=
  let '(limit, base) := store_idt n c in
  let msr m := (rdmsr_safe n c m).2 in
  Cpust true limit base (msr MSR_LSTAR) (msr MSR_CSTAR) (msr MSR_STAR) (msr MSR_SYSCALL_MASK)
        (if feature_sep then msr MSR_IA32_SYSENTER_EIP else 0)
        (read_cr0 n c) (read_cr4 n c)
        (if feature_ibrs_enhanced && negb (rdmsr_safe n c MSR_IA32_SPEC_CTRL).1
         then Z.land (msr MSR_IA32_SPEC_CTRL) SPEC_CTRL_IBRS else 0).

(** [on_each_cpu(kg_cpust_collect, now, 1)] on a zeroed table. *)
Definition collect_all (n : nat) : list kg_cpust :=
  (λ c, if cpu_online (Z.of_nat c) then kg_cpust_collect n (Z.of_nat c) else zero_cpust)
  <$> seq 0 (Z.to_nat nr_cpu_ids).

Definition kg_reg_alert (c reg newv : Z) (w : world) : option world :=
  report KG_ALERT_CTRL_REG_TAMPER KG_LEVEL_CRITICAL (Z.lor (Z.shiftl c 32) reg) newv
         (kg_stat_inc idt_hook_detected w).

(** CHECK_MSR, and the checks of CR0 and CR4 under a mask: the value the baseline keeps. *)
Definition check_msr (c reg old new : Z) (w : world) : option (Z * world) :=
  if old =? new then Some (old, w) else w ← kg_reg_alert c reg new w; Some (new, w).
Definition check_bits (c reg mask old new : Z) (w : world) : option (Z * world) :=
  if Z.land old mask =? Z.land new mask then Some (old, w)
  else w ← kg_reg_alert c reg new w; Some (new, w).

Definition kg_cpust_compare (idt_enabled : bool) (c : Z) (b n : kg_cpust) (w : world)
  : option (kg_cpust * world) :=
  '(lstar, w) ← check_msr c MSR_LSTAR (c_lstar b) (c_lstar n) w;
  '(cstar, w) ← check_msr c MSR_CSTAR (c_cstar b) (c_cstar n) w;
  '(star, w) ← check_msr c MSR_STAR (c_star b) (c_star n) w;
  '(smask, w) ← check_msr c MSR_SYSCALL_MASK (c_smask b) (c_smask n) w;
  '(sysenter, w) ← check_msr c MSR_IA32_SYSENTER_EIP (c_sysenter b) (c_sysenter n) w;
  '(ibrs, w) ← check_msr c MSR_IA32_SPEC_CTRL (c_ibrs b) (c_ibrs n) w;
  '(cr0, w) ← check_bits c KG_REG_CR0 X86_CR0_WP (c_cr0 b) (c_cr0 n) w;
  '(cr4, w) ← check_bits c KG_REG_CR4 KG_CR4_PINS (c_cr4 b) (c_cr4 n) w;
  '(base, w) ← (if idt_enabled && negb (c_idt_base b =? c_idt_base n) then
                  w ← report KG_ALERT_IDT_HOOK KG_LEVEL_CRITICAL (c_idt_base n) 0x100
                             (kg_stat_inc idt_hook_detected w);
                  Some (c_idt_base n, w)
                else Some (c_idt_base b, w));
  Some (Cpust (c_valid b) (c_idt_limit b) base lstar cstar star smask sysenter cr0 cr4 ibrs, w).

(** The vectors [v .. v + n) of the table at [base], against the baseline copy. *)
Fixpoint idt_loop (text : kg_text) (baseline_pass : bool) (k : nat) (base : Z) (n v : nat)
  (idt : list gate_desc) (w : world) : option (list gate_desc * world) :=
  match n with
  | O => Some (idt, w)
  | S n =>
    let cur := idt_gate k base v in
    let handler := gate_offset cur in
    let changed := negb baseline_pass && negb (bool_decide (cur = idt !!! v)) in
    if negb (gate_present cur) && negb changed then
      idt_loop text baseline_pass k base n (S v) idt w
    else if changed || (baseline_pass && negb (t_end text =? 0)
                        && negb (kg_addr_in_kernel_text text handler)) then
      w ← report KG_ALERT_IDT_HOOK KG_LEVEL_CRITICAL handler (Z.of_nat v)
                 (kg_stat_inc idt_hook_detected w);
      idt_loop text baseline_pass k base n (S v) (<[v := cur]> idt) w
    else idt_loop text baseline_pass k base n (S v) idt w
  end.

Definition idt_entries (c : kg_cpust) : nat := Z.to_nat (Z.min 256 ((c_idt_limit c + 1) / 16)).

Definition kg_idt_verify (c : kg_cpust) (baseline_pass : bool) (s : kg_integ) (w : world)
  : option (kg_integ * world) :=
  '(idt, w) ← idt_loop (ig_text s) baseline_pass (ig_reads s) (c_idt_base c) (idt_entries c) 0
                       (ig_idt s) w;
  Some (with_cpus (ig_base s) idt (ig_idt_enabled s) (S (ig_reads s)) s, w).

(** One online CPU of the check; the last component is the first CPU compared. *)
Definition check_cpu (idt_enabled : bool) (now : list kg_cpust)
  (acc : list kg_cpust * option Z * world) (c : Z) : option (list kg_cpust * option Z * world) :=
  let '(base, first, w) := acc in
  let n := now !!! Z.to_nat c in
  if negb (c_valid n) then Some (base, first, w)
  else if negb (c_valid (base !!! Z.to_nat c)) then Some (<[Z.to_nat c := n]> base, first, w)
  else
    '(b, w) ← kg_cpust_compare idt_enabled c (base !!! Z.to_nat c) n w;
    Some (<[Z.to_nat c := b]> base, match first with Some f => Some f | None => Some c end, w).

Fixpoint check_cpus (idt_enabled : bool) (now : list kg_cpust) (cs : list Z)
  (acc : list kg_cpust * option Z * world) : option (list kg_cpust * option Z * world) :=
  match cs with
  | [] => Some acc
  | c :: cs => acc ← check_cpu idt_enabled now acc c; check_cpus idt_enabled now cs acc
  end.

(** [alloc_ok]: kcalloc succeeds. *)
Definition kg_cpu_state_check (alloc_ok : bool) (s : kg_integ) (w : world)
  : option (kg_integ * world) :=
  match ig_base s with
  | None => Some (s, w)
  | Some base =>
    if negb alloc_ok then Some (s, w)
    else
      let now := collect_all (ig_reads s) in
      '(base, first, w) ← check_cpus (ig_idt_enabled s) now online_cpus (base, None, w);
      let s := with_cpus (Some base) (ig_idt s) (ig_idt_enabled s) (S (ig_reads s)) s in
      match first with
      | Some f => if ig_idt_enabled s then kg_idt_verify (now !!! Z.to_nat f) false s w else Some (s, w)
      | None => Some (s, w)
      end
  end.

(** [base_ok], [now_ok], [dup_ok]: the three allocations. *)
Definition kg_cpu_state_baseline (base_ok now_ok dup_ok : bool) (s : kg_integ) (w : world)
  : option (option errno * kg_integ * world) :=
  if negb base_ok || negb now_ok then
    Some (Some ENOMEM, with_cpus None (ig_idt s) (ig_idt_enabled s) (ig_reads s) s, w)
  else
    let now := collect_all (ig_reads s) in
    let enabled := negb feature_fred in
    let s := with_cpus (Some now) (ig_idt s) enabled (S (ig_reads s)) s in
    match find (λ c, c_valid (now !!! Z.to_nat c)) online_cpus with
    | Some f =>
      if negb enabled then Some (None, s, w)
      else if dup_ok then
        let idt := idt_gate (ig_reads s) (c_idt_base (now !!! Z.to_nat f)) <$> seq 0 256 in
        '(s, w) ← kg_idt_verify (now !!! Z.to_nat f) true
                    (with_cpus (Some now) idt enabled (S (ig_reads s)) s) w;
        Some (None, s, w)
      else Some (None, with_cpus (Some now) [] false (ig_reads s) s, w)
    | None => Some (None, s, w)
    end.
End cpu_state.

(** ** Module lifecycle *)
Definition TAINT_FORCED_MODULE : Z := 1.
Definition TAINT_UNSIGNED_MODULE : Z := 13.
Definition KG_TAINT_SUSPECT : Z :=
  Z.lor (Z.shiftl 1 TAINT_UNSIGNED_MODULE) (Z.shiftl 1 TAINT_FORCED_MODULE).

(** [struct module], as this monitor looks at it; [md_id] is the pointer. *)
Record text_module := TextModule {
  md_id : Z; md_name : list Z; md_base : Z; md_size : nat; md_sig_ok : bool; md_taints : Z
}.
Inductive mod_action := MODULE_STATE_LIVE | MODULE_STATE_GOING | MODULE_STATE_OTHER.

Section lifecycle.
Context `{Crypto} `{Platform} `{TextEnv}.
Context (par : text_params) (self : Z).       (* THIS_MODULE *)

Definition kg_module_add (rec_ok copy_ok : bool) (m : text_module) (t : kg_text) : kg_text :=
  if negb (t_enabled t) || (md_size m =? 0)%nat then t
  else if negb (p_text_modules par) && negb (md_id m =? self) then t
  else (kg_region_add (p_text_max_mb par) rec_ok copy_ok (md_name m) (md_base m) (md_size m)
                      false (md_id m) t).2.

Definition kg_module_remove (id : Z) (t : kg_text) : kg_text :=
  match list_find (λ r, r_mod r = id) (t_regions t) with
  | Some (i, _) => kg_region_del i t
  | None => t
  end.

Definition kg_module_notify (act : mod_action) (rec_ok copy_ok : bool) (m : text_module)
  (s : kg_integ) (w : world) : option (kg_integ * world) :=
  if md_id m =? self then Some (s, w)
  else match act with
  | MODULE_STATE_LIVE =>
    let s := with_text (kg_module_add rec_ok copy_ok m (ig_text s)) s in
    if ig_baseline_done s then
      let suspect := negb (md_sig_ok m) || negb (Z.land (md_taints m) KG_TAINT_SUSPECT =? 0) in
      let '(np0, np1) := kg_pack_name (md_name m) in
      w ← report KG_ALERT_MODULE_LOADED (if suspect then KG_LEVEL_WATCH else KG_LEVEL_INFO) np0 np1 w;
      Some (s, w)
    else Some (s, w)
  | MODULE_STATE_GOING => Some (with_text (kg_module_remove (md_id m) (ig_text s)) s, w)
  | MODULE_STATE_OTHER => Some (s, w)
  end.

(** [alloc]: the two allocations made for a module. *)
Definition kg_enumerate_modules (alloc : Z → bool * bool) (live_mods : errno + list text_module)
  (t : kg_text) : kg_text :=
  match live_mods with
  | inl _ => t
  | inr l => foldl (λ t m, let '(a, b) := alloc (md_id m) in kg_module_add a b m t) t l
  end.
End lifecycle.

(** ** The worker *)
Definition set_integ_stop (b : bool) (w : world) : world :=
  let m := wmon w in set_mon (Monitors (kg_input_running m) (kg_input_stop m) (kg_hw_stop m) b) w.

Section worker.
Context `{Crypto} `{Platform} `{TextEnv} `{CpuEnv}.

Definition requeue_integ (w : world) : world :=
  queue_delayed_work IntegWork (msecs (kg_scan_ms (kg_integ_interval_ms (wpar w)) w)) w.

(** The verification of the module's own policy state. *)
Definition check_policy (s : kg_integ) (w : world) : option (kg_integ * world) :=
  if kg_guard_verify w then
    Some (with_flags (ig_baseline_done s) (ig_nb_registered s) false s, w)
  else if negb (ig_corrupt_reported s) then
    w ← report KG_ALERT_SHARED_STATE_CORRUPT KG_LEVEL_CRITICAL 0 0 w;
    Some (with_flags (ig_baseline_done s) (ig_nb_registered s) true s, w)
  else Some (s, w).

Definition kg_integ_workfn (alloc_ok : bool) (s : kg_integ) (w : world) : option (kg_integ * world) :=
  '(s, w) ← kg_cpu_state_check alloc_ok s w;
  '(t, w) ← kg_text_verify_all (ig_text s) w;
  let s := with_text t s in
  '(s, w) ← check_policy s w;
  Some (s, if negb (kg_integ_stop (wmon w)) then requeue_integ w else w).

(** ** init / exit *)
Record integ_allocs := IntegAllocs {
  ia_base : bool; ia_now : bool; ia_dup : bool;    (* kg_cpu_state_baseline *)
  ia_tmp : bool;                                   (* kg_tmp *)
  ia_vmlinux : bool * bool; ia_self : bool * bool; ia_mods : Z → bool * bool
}.

(** The baseline of the kernel's own text. *)
Definition baseline_text (par : text_params) (a : integ_allocs) (t : kg_text) : option kg_text :=
  if p_text par then
    '(e, t) ← kg_find_text_bounds t;
    match e with
    | Some _ => Some t
    | None =>
      if negb (ia_tmp a) then Some t
      else
        let t := set_tmp true t in
        let '(e, t) := kg_region_add (p_text_max_mb par) (ia_vmlinux a).1 (ia_vmlinux a).2
                         (bytes_of "vmlinux") (t_start t) (Z.to_nat (u64 (t_end t - t_start t)))
                         true 0 t in
        Some (match e with None => set_text_enabled true t | Some _ => t end)
    end
  else Some t.

Definition kg_integrity_init (par : text_params) (self : text_module) (a : integ_allocs)
  (live_mods : errno + list text_module) (register_ok : bool) (s : kg_integ) (w : world)
  : option (option errno * kg_integ * world) :=
  '(e, s, w) ← kg_cpu_state_baseline (ia_base a) (ia_now a) (ia_dup a) s w;
  match e with
  | Some e => Some (Some e, s, w)
  | None =>
    t ← baseline_text par a (ig_text s);
    let t := if t_enabled t then
               kg_enumerate_modules par (md_id self) (ia_mods a) live_mods
                 (kg_module_add par (md_id self) (ia_self a).1 (ia_self a).2 self t)
             else t in
    let s := with_flags true (ig_nb_registered s || register_ok) (ig_corrupt_reported s) (with_text t s) in
    Some (None, s, requeue_integ (set_integ_stop false w))
  end.

Definition del_all (t : kg_text) : kg_text :=
  foldl (λ t _, kg_region_del 0 t) t (t_regions t).

Definition kg_integrity_exit (s : kg_integ) (w : world) : kg_integ * world :=
  match ig_base s with
  | None => (s, w)
  | Some _ =>
    let w := cancel_work IntegWork (set_integ_stop true w) in
    let t := set_text_enabled false (set_tmp false (del_all (ig_text s))) in
    (with_cpus None [] (ig_idt_enabled s) (ig_reads s) (with_text t s), w)
  end.
End worker.

(** ** Registers: every watched change is reported, once *)

(** The watched parts of two samples agree. *)
Definition same_watched (idt_enabled : bool) (b n : kg_cpust) : Prop :=
  c_lstar b = c_lstar n ∧ c_cstar b = c_cstar n ∧ c_star b = c_star n ∧ c_smask b = c_smask n
  ∧ c_sysenter b = c_sysenter n ∧ c_ibrs b = c_ibrs n
  ∧ Z.land (c_cr0 b) X86_CR0_WP = Z.land (c_cr0 n) X86_CR0_WP
  ∧ Z.land (c_cr4 b) KG_CR4_PINS = Z.land (c_cr4 n) KG_CR4_PINS
  ∧ (idt_enabled = true → c_idt_base b = c_idt_base n).

Definition at_least (p : Z) (w w' : world) : Prop :=
  pos_ready (wpos w) = true → Z.min p (posture_cap w) ≤ kg_posture w'.

Section registers.
Context `{CryptoLaws} `{Platform}.

(** One check of the sequence: it completes, keeps the value that was seen, and leaves
    everything alone exactly when nothing changed. *)
Lemma at_least_l p w w1 w' : advances w w1 → at_least p w1 w' → at_least p w w'.
Proof.
  intros Ha Hl Hr. rewrite <- (advances_cap _ _ Ha). apply Hl. by rewrite (ad_ready _ _ Ha).
Qed.
Lemma at_least_r p w w1 w' : at_least p w w1 → advances w1 w' → at_least p w w'.
Proof. intros Hl [_ _ _ Hp _] Hr. specialize (Hl Hr). lia. Qed.

(** A check that does nothing when [same] holds and otherwise raises the ladder to [p]. *)
Record checked (p : Z) (same : Prop) (w w' : world) : Prop := Checked {
  ck_adv : advances w w';
  ck_same : same → w' = w;
  ck_diff : ¬ same → at_least p w w'
}.

Lemma checked_refl p (same : Prop) w : sound w → same → checked p same w w.
Proof. intros Hw Hs. constructor; [by apply advances_refl|done|done]. Qed.

Lemma checked_trans p (P Q : Prop) `{!Decision P} w w1 w2 :
  checked p P w w1 → checked p Q w1 w2 → checked p (P ∧ Q) w w2.
Proof.
  intros [Ha Hs Hd] [Ha2 Hs2 Hd2]. constructor; [by etrans|intros [HP HQ]; by rewrite Hs2, Hs|].
  intros Hn. destruct (decide P) as [HP|HP].
  - eapply at_least_l; [done|]. apply Hd2. tauto.
  - eapply at_least_r; [by apply Hd|done].
Qed.

Lemma checked_iff p (P Q : Prop) w w' : (P ↔ Q) → checked p P w w' → checked p Q w w'.
Proof. intros Hpq [Ha Hs Hd]. constructor; [done|tauto|tauto]. Qed.

Lemma report_checked f ty p1 p2 w :
  sound w → ∃ w', report ty KG_LEVEL_CRITICAL p1 p2 (kg_stat_inc f w) = Some w'
  ∧ checked (alert_target ty KG_LEVEL_CRITICAL) False w w'.
Proof.
  intros Hw. destruct (stat_report_advances f ty KG_LEVEL_CRITICAL p1 p2 w Hw) as (w' & Hr & Ha & Ht).
  exists w'. split; [done|]. by constructor.
Qed.

Lemma check_msr_spec c reg old new w :
  sound w → ∃ w', check_msr c reg old new w = Some (new, w')
  ∧ checked KG_POSTURE_HIGH (old = new) w w'.
Proof.
  intros Hw. unfold check_msr, kg_reg_alert. destruct (Z.eqb_spec old new) as [->|Hne].
  - exists w. split; [done|by apply checked_refl].
  - destruct (report_checked idt_hook_detected KG_ALERT_CTRL_REG_TAMPER (Z.lor (Z.shiftl c 32) reg) new w Hw)
      as (w' & -> & Hc). bind_simpl.
    exists w'. split; [done|]. eapply checked_iff; [|exact Hc]. tauto.
Qed.

Lemma check_bits_spec c reg mask old new w :
  sound w → ∃ v w', check_bits c reg mask old new w = Some (v, w')
  ∧ Z.land v mask = Z.land new mask ∧ (Z.land old mask = Z.land new mask → v = old)
  ∧ checked KG_POSTURE_HIGH (Z.land old mask = Z.land new mask) w w'.
Proof.
  intros Hw. unfold check_bits, kg_reg_alert.
  destruct (Z.eqb_spec (Z.land old mask) (Z.land new mask)) as [He|Hne].
  - exists old, w. split_and!; [done|done|done|by apply checked_refl].
  - destruct (report_checked idt_hook_detected KG_ALERT_CTRL_REG_TAMPER (Z.lor (Z.shiftl c 32) reg) new w Hw)
      as (w' & -> & Hc). bind_simpl.
    exists new, w'. split_and!; [done|done|tauto|]. eapply checked_iff; [|exact Hc]. tauto.
Qed.

Lemma checked_sound p same w w' : sound w → checked p same w w' → sound w'.
Proof. intros Hw [Ha _ _]. by eapply advances_sound. Qed.

Lemma compare_spec en c b n w :
  sound w →
  ∃ b' w', kg_cpust_compare en c b n w = Some (b', w')
  ∧ checked KG_POSTURE_HIGH (same_watched en b n) w w'
  ∧ same_watched en b' n ∧ (same_watched en b n → b' = b) ∧ c_valid b' = c_valid b.
Proof.
  intros Hw. unfold kg_cpust_compare.
  destruct (check_msr_spec c MSR_LSTAR (c_lstar b) (c_lstar n) w Hw) as (w1 & -> & C1).
  bind_simpl. apply checked_sound in C1 as S1; [|done].
  destruct (check_msr_spec c MSR_CSTAR (c_cstar b) (c_cstar n) w1 S1) as (w2 & -> & C2).
  bind_simpl. apply checked_sound in C2 as S2; [|done].
  destruct (check_msr_spec c MSR_STAR (c_star b) (c_star n) w2 S2) as (w3 & -> & C3).
  bind_simpl. apply checked_sound in C3 as S3; [|done].
  destruct (check_msr_spec c MSR_SYSCALL_MASK (c_smask b) (c_smask n) w3 S3) as (w4 & -> & C4).
  bind_simpl. apply checked_sound in C4 as S4; [|done].
  destruct (check_msr_spec c MSR_IA32_SYSENTER_EIP (c_sysenter b) (c_sysenter n) w4 S4) as (w5 & -> & C5).
  bind_simpl. apply checked_sound in C5 as S5; [|done].
  destruct (check_msr_spec c MSR_IA32_SPEC_CTRL (c_ibrs b) (c_ibrs n) w5 S5) as (w6 & -> & C6).
  bind_simpl. apply checked_sound in C6 as S6; [|done].
  destruct (check_bits_spec c KG_REG_CR0 X86_CR0_WP (c_cr0 b) (c_cr0 n) w6 S6)
    as (cr0 & w7 & -> & V7 & K7 & C7).
  bind_simpl. apply checked_sound in C7 as S7; [|done].
  destruct (check_bits_spec c KG_REG_CR4 KG_CR4_PINS (c_cr4 b) (c_cr4 n) w7 S7)
    as (cr4 & w8 & -> & V8 & K8 & C8).
  bind_simpl. apply checked_sound in C8 as S8; [|done].
  pose proof (checked_trans _ _ _ _ _ _ C1 (checked_trans _ _ _ _ _ _ C2
    (checked_trans _ _ _ _ _ _ C3 (checked_trans _ _ _ _ _ _ C4 (checked_trans _ _ _ _ _ _ C5
    (checked_trans _ _ _ _ _ _ C6 (checked_trans _ _ _ _ _ _ C7 C8))))))) as C.
  assert (Hidt : ∃ base w9, (if en && negb (c_idt_base b =? c_idt_base n) then
      w ← report KG_ALERT_IDT_HOOK KG_LEVEL_CRITICAL (c_idt_base n) 0x100 (kg_stat_inc idt_hook_detected w8);
      Some (c_idt_base n, w) else Some (c_idt_base b, w8)) = Some (base, w9)
    ∧ checked KG_POSTURE_HIGH (en = true → c_idt_base b = c_idt_base n) w8 w9
    ∧ (en = true → base = c_idt_base n)
    ∧ ((en = true → c_idt_base b = c_idt_base n) → base = c_idt_base b)).
  { destruct en; cbn [andb].
    2:{ exists (c_idt_base b), w8. split_and!; [done| |done|done]. by apply checked_refl. }
    destruct (Z.eqb_spec (c_idt_base b) (c_idt_base n)) as [He|Hne]; cbn [negb].
    - exists (c_idt_base b), w8. split_and!; [done| |done|done]. by apply checked_refl.
    - destruct (report_checked idt_hook_detected KG_ALERT_IDT_HOOK (c_idt_base n) 0x100 w8 S8)
        as (w9 & -> & Hc). bind_simpl. exists (c_idt_base n), w9.
      split_and!; [done| |done|naive_solver]. eapply checked_iff; [|exact Hc]. naive_solver. }
  destruct Hidt as (base & w9 & -> & C9 & V9 & K9). bind_simpl.
  eexists _, w9. split; [done|]. split_and!; try done.
  - eapply checked_iff; [|exact (checked_trans _ _ _ _ _ _ C C9)]. unfold same_watched. tauto.
  - intros (E1 & E2 & E3 & E4 & E5 & E6 & E7 & E8 & E9).
    rewrite K7, K8, K9 by done. destruct b. cbn in *. by subst.
Qed.
End registers.

(** A register check reports exactly the tampering: if a watched register of a CPU
    differs from the baseline the ladder is driven to HIGH (or the cap); if none does,
    nothing at all happens; and the value seen becomes the baseline, so that the same
    state is not reported again. *)
Theorem register_tamper_once `{CryptoLaws} `{Platform} en c b n w :
  sound w →
  ∃ b' w', kg_cpust_compare en c b n w = Some (b', w') ∧ advances w w'
  ∧ (same_watched en b n → b' = b ∧ w' = w)
  ∧ (¬ same_watched en b n → pos_ready (wpos w) = true →
     Z.min KG_POSTURE_HIGH (posture_cap w) ≤ kg_posture w')
  ∧ kg_cpust_compare en c b' n w' = Some (b', w').
Proof.
  intros Hw. destruct (compare_spec en c b n w Hw) as (b' & w' & Hc & [Ha Hs Hd] & Hb & Hbb & _).
  exists b', w'. split_and!; [done|done| |exact Hd|].
  - intros Hsame. auto.
  - destruct (compare_spec en c b' n w') as (b2 & w2 & -> & [_ Hs2 _] & _ & Hbb2 & _);
      [by eapply advances_sound|]. by rewrite Hs2, Hbb2.
Qed.

(** CR0.WP was cleared behind the module's back. *)
Definition sample_cpust (cr0 : Z) : kg_cpust :=
  Cpust true 4095 0xfffffe0000000000 1 2 3 4 5 cr0 KG_CR4_PINS 1.
Lemma register_tamper_once_witness :
  ∃ b' w', @kg_cpust_compare sha_api two_cpus true 0 (sample_cpust X86_CR0_WP) (sample_cpust 0) ready_world
           = Some (b', w')
  ∧ KG_POSTURE_HIGH ≤ kg_posture w'
  ∧ @kg_cpust_compare sha_api two_cpus true 0 b' (sample_cpust 0) w' = Some (b', w').
Proof.
  destruct (@register_tamper_once sha_api sha_api_laws two_cpus true 0 (sample_cpust X86_CR0_WP)
              (sample_cpust 0) ready_world ready_world_sound)
    as (b' & w' & Hc & _ & _ & Hp & Hn).
  exists b', w'. split_and!; [exact Hc| |exact Hn]. apply Hp; [|reflexivity].
  intros (_ & _ & _ & _ & _ & _ & Hcr & _). vm_compute in Hcr. discriminate Hcr.
Defined.

(** ** The interrupt descriptor table *)
Section idt.
Context `{CryptoLaws} `{Platform} `{CpuEnv}.

Lemma idt_loop_checks text k base n v idt w :
  sound w → (v + n ≤ length idt)%nat →
  ∃ idt' w', idt_loop text false k base n v idt w = Some (idt', w')
  ∧ checked KG_POSTURE_HIGH (∀ i, (v ≤ i < v + n)%nat → idt_gate k base i = idt !!! i) w w'
  ∧ length idt' = length idt
  ∧ (∀ i, idt' !!! i = if decide (v ≤ i < v + n)%nat then idt_gate k base i else idt !!! i).
Proof.
  revert v idt w. induction n as [|n IH]; intros v idt w Hw Hlen.
  { exists idt, w. split_and!; [done| |done|].
    - apply checked_refl; [done|]. lia.
    - intros i. rewrite decide_False by lia. done. }
  cbn [idt_loop negb andb]. set (cur := idt_gate k base v).
  destruct (bool_decide_reflect (cur = idt !!! v)) as [Heq|Hne]; cbn [negb].
  - rewrite andb_true_r. cbn [orb]. destruct (IH (S v) idt w Hw ltac:(lia)) as (idt' & w' & Hr & Hc & Hl & Hi).
    assert (Hgo : (if negb (gate_present cur) then idt_loop text false k base n (S v) idt w
                   else idt_loop text false k base n (S v) idt w) = Some (idt', w'))
      by (by destruct (negb _)).
    exists idt', w'. split_and!; [exact Hgo| |done|].
    + eapply checked_iff; [|exact Hc]. split.
      * intros Hs i Hr'. destruct (decide (i = v)) as [->|]; [done|apply Hs; lia].
      * intros Hs i Hr'. apply Hs. lia.
    + intros i. rewrite Hi. destruct (decide (i = v)) as [->|].
      * rewrite decide_False, decide_True by lia. done.
      * destruct (decide (S v ≤ i < S v + n)%nat); [rewrite decide_True by lia|rewrite decide_False by lia]; done.
  - rewrite andb_false_r. cbn [orb].
    destruct (report_checked idt_hook_detected KG_ALERT_IDT_HOOK (gate_offset cur) (Z.of_nat v) w Hw)
      as (w1 & -> & Hc1). bind_simpl. apply checked_sound in Hc1 as Hw1; [|done].
    destruct (IH (S v) (<[v := cur]> idt) w1 Hw1) as (idt' & w' & -> & Hc & Hl & Hi);
      [rewrite length_insert; lia|].
    exists idt', w'. rewrite length_insert in Hl. split_and!; [done| |done|].
    + eapply checked_iff; [|exact (checked_trans _ _ _ _ _ _ Hc1 Hc)]. split; [tauto|].
      intros Hs. destruct Hne. apply Hs. lia.
    + intros i. rewrite Hi. destruct (decide (i = v)) as [->|].
      * rewrite decide_False, decide_True by lia.
        rewrite list_lookup_total_insert_eq by lia. done.
      * rewrite list_lookup_total_insert_ne by done.
        destruct (decide (S v ≤ i < S v + n)%nat); [rewrite decide_True by lia|rewrite decide_False by lia]; done.
Qed.

(** Without bounds of the kernel's text the baseline pass looks at nothing. *)
Lemma idt_loop_baseline text k base n v idt w :
  t_end text = 0 → idt_loop text true k base n v idt w = Some (idt, w).
Proof.
  intros Ht. revert v. induction n as [|n IH]; intros v; [done|].
  cbn [idt_loop negb andb orb]. rewrite Ht. cbn [Z.eqb negb andb]. rewrite IH. by destruct (_ && _).
Qed.

Lemma idt_loop_advances text bp k base n v idt w :
  sound w → ∃ idt' w', idt_loop text bp k base n v idt w = Some (idt', w') ∧ advances w w'
                       ∧ length idt' = length idt.
Proof.
  revert v idt w. induction n as [|n IH]; intros v idt w Hw.
  { exists idt, w. split_and!; [done|by apply advances_refl|done]. }
  cbn [idt_loop]. destruct (_ && _); [by apply IH|]. destruct (_ || _); [|by apply IH].
  destruct (report_checked idt_hook_detected KG_ALERT_IDT_HOOK (gate_offset (idt_gate k base v))
              (Z.of_nat v) w Hw) as (w1 & -> & [Ha _ _]). bind_simpl.
  destruct (IH (S v) (<[v := idt_gate k base v]> idt) w1) as (idt' & w' & -> & Ha' & Hl);
    [by eapply advances_sound|].
  exists idt', w'. rewrite length_insert in Hl. split_and!; [done|by etrans|done].
Qed.

(** *** The check of every CPU *)
Lemma check_cpus_advances en now cs base first w :
  sound w → ∃ base' first' w',
    check_cpus en now cs (base, first, w) = Some (base', first', w') ∧ advances w w'
    ∧ length base' = length base.
Proof.
  revert base first w. induction cs as [|c cs IH]; intros base first w Hw.
  { exists base, first, w. split_and!; [done|by apply advances_refl|done]. }
  cbn [check_cpus check_cpu]. destruct (negb (c_valid (now !!! Z.to_nat c))); [by apply IH|].
  destruct (negb _).
  { bind_simpl. destruct (IH (<[Z.to_nat c := now !!! Z.to_nat c]> base) first w Hw)
      as (b & f & w' & -> & Ha & Hl). exists b, f, w'. rewrite length_insert in Hl. done. }
  destruct (compare_spec en c (base !!! Z.to_nat c) (now !!! Z.to_nat c) w Hw)
    as (b1 & w1 & -> & [Ha _ _] & _). bind_simpl.
  set (f1 := match first with Some f => Some f | None => Some c end).
  destruct (IH (<[Z.to_nat c := b1]> base) f1 w1) as (b & f & w' & -> & Ha' & Hl);
    [by eapply advances_sound|].
  exists b, f, w'. rewrite length_insert in Hl. split_and!; [done|by etrans|done].
Qed.

Lemma cpu_state_check_advances ok s w :
  sound w → ∃ s' w', kg_cpu_state_check ok s w = Some (s', w') ∧ advances w w'
    ∧ ig_text s' = ig_text s ∧ ig_corrupt_reported s' = ig_corrupt_reported s
    ∧ (ig_base s' = None ↔ ig_base s = None).
Proof.
  intros Hw. unfold kg_cpu_state_check.
  assert (Hstay : ∃ s' w', Some (s, w) = Some (s', w') ∧ advances w w'
    ∧ ig_text s' = ig_text s ∧ ig_corrupt_reported s' = ig_corrupt_reported s
    ∧ (ig_base s' = None ↔ ig_base s = None)).
  { exists s, w. split_and!; [done|by apply advances_refl|done|done|done]. }
  destruct (ig_base s) as [base|] eqn:Hb; [|exact Hstay]. destruct ok; cbn [negb]; [|exact Hstay].
  clear Hstay.
  destruct (check_cpus_advances (ig_idt_enabled s) (collect_all (ig_reads s)) online_cpus base None w Hw)
    as (base' & first & w1 & -> & Ha & _). bind_simpl.
  set (s1 := with_cpus _ _ _ _ s). destruct first as [f|].
  2:{ by exists s1, w1. }
  destruct (ig_idt_enabled s1); [|by exists s1, w1].
  unfold kg_idt_verify.
  destruct (idt_loop_advances (ig_text s1) false (ig_reads s1) (c_idt_base (collect_all (ig_reads s) !!! Z.to_nat f))
              (idt_entries (collect_all (ig_reads s) !!! Z.to_nat f)) 0 (ig_idt s1) w1)
    as (idt & w2 & -> & Ha2 & _); [by eapply advances_sound|]. bind_simpl.
  eexists _, w2. split; [done|]. split_and!; [by etrans|done|done|done].
Qed.
End idt.

(** One pass over the table: it completes, a vector that differs from the baseline drives
    the ladder to HIGH (or the cap), nothing happens when none does, and the table seen
    becomes the baseline. *)
Theorem idt_hook_reported `{CryptoLaws} `{Platform} `{CpuEnv} c s w :
  sound w → length (ig_idt s) = 256%nat →
  ∃ s' w', kg_idt_verify c false s w = Some (s', w') ∧ advances w w'
  ∧ (∀ v, (v < idt_entries c)%nat → ig_idt s' !!! v = idt_gate (ig_reads s) (c_idt_base c) v)
  ∧ ((∀ v, (v < idt_entries c)%nat → idt_gate (ig_reads s) (c_idt_base c) v = ig_idt s !!! v) → w' = w)
  ∧ (∀ v, (v < idt_entries c)%nat → idt_gate (ig_reads s) (c_idt_base c) v ≠ ig_idt s !!! v →
     pos_ready (wpos w) = true → Z.min KG_POSTURE_HIGH (posture_cap w) ≤ kg_posture w').
Proof.
  intros Hw Hlen. unfold kg_idt_verify.
  destruct (idt_loop_checks (ig_text s) (ig_reads s) (c_idt_base c) (idt_entries c) 0 (ig_idt s) w Hw)
    as (idt & w' & -> & [Ha Hs Hd] & Hl & Hi).
  { rewrite Hlen. unfold idt_entries. lia. }
  bind_simpl. eexists _, w'. split; [done|]. split_and!; [done|..].
  - intros v Hv. cbn [ig_idt with_cpus]. rewrite Hi, decide_True by lia. done.
  - intros Hsame. apply Hs. intros i Hi'. apply Hsame. lia.
  - intros v Hv Hne. apply Hd. intros Hsame. apply Hne, Hsame. lia.
Qed.

(** Vector 3 was redirected. *)
Definition sample_gate_desc (h : Z) : gate_desc := [h; 0; 16; 0; 0; 0x8e; 0; 0; 0; 0; 0; 0; 0; 0; 0; 0].
Definition hooked_cpus : CpuEnv := {|
  store_idt _ _ := (4095, 0x5000); rdmsr_safe _ _ _ := (false, 0); read_cr0 _ _ := 0; read_cr4 _ _ := 0;
  feature_sep := true; feature_ibrs_enhanced := false; feature_fred := false;
  idt_gate _ _ v := sample_gate_desc (if (v =? 3)%nat then 66 else 65)
|}.
Definition sample_integ : kg_integ :=
  Integ (KgText 0 0 [] 0 0 false false 0) None (replicate 256 (sample_gate_desc 65)) true true true false 0.
Lemma idt_hook_reported_witness :
  ∃ s' w', @kg_idt_verify sha_api two_cpus hooked_cpus (sample_cpust 0) false sample_integ ready_world
           = Some (s', w')
  ∧ ig_idt s' !!! 3%nat = sample_gate_desc 66 ∧ KG_POSTURE_HIGH ≤ kg_posture w'.
Proof.
  destruct (@idt_hook_reported sha_api sha_api_laws two_cpus hooked_cpus (sample_cpust 0) sample_integ
              ready_world ready_world_sound eq_refl) as (s' & w' & Hv & _ & Hi & _ & Hd).
  assert (H3 : (3 < idt_entries (sample_cpust 0))%nat) by (by apply Nat.ltb_lt).
  exists s', w'. split_and!; [exact Hv|exact (Hi 3%nat H3)|]. apply (Hd 3%nat H3); [by compute|reflexivity].
Defined.

(** ** The module's own policy state *)
Section worker_facts.
Context `{CryptoLaws} `{Platform} `{TextEnv} `{CpuEnv}.

Lemma requeue_integ_policy w : same_policy w (requeue_integ w).
Proof. unfold requeue_integ, queue_delayed_work. by destruct (wwork w IntegWork). Qed.
Lemma requeue_integ_advances w :
  sound w → kg_integ_stop (wmon w) = false → advances w (requeue_integ w).
Proof.
  intros Hw Hs. apply same_policy_advances; [done|apply requeue_integ_policy|]. by apply queue_sched.
Qed.

(** A pass of the worker over a sealed state. *)
Lemma integ_workfn_advances max_mb ok s w :
  sound w → text_inv max_mb (ig_text s) →
  ∃ s' w', kg_integ_workfn ok s w = Some (s', w') ∧ advances w w'
  ∧ text_inv max_mb (ig_text s') ∧ ig_corrupt_reported s' = false
  ∧ (ig_base s' = None ↔ ig_base s = None).
Proof.
  intros Hw Ht. unfold kg_integ_workfn.
  destruct (cpu_state_check_advances ok s w Hw) as (s1 & w1 & -> & Ha1 & Ht1 & _ & Hb1). bind_simpl.
  assert (Hw1 : sound w1) by (by eapply advances_sound).
  destruct (text_verify_all_advances max_mb (ig_text s1) w1 Hw1) as (t2 & w2 & -> & Ht2 & Ha2 & _).
  { by rewrite Ht1. }
  bind_simpl. assert (Hw2 : sound w2) by (by eapply advances_sound).
  unfold check_policy. rewrite sealed_verify by apply Hw2. bind_simpl.
  eexists _, _. split; [done|]. split_and!; [|done|done|done].
  etrans; [exact Ha1|]. etrans; [exact Ha2|].
  destruct (kg_integ_stop _) eqn:Hstop; [by apply advances_refl|by apply requeue_integ_advances].
Qed.
End worker_facts.

Section corruption.
Context `{CryptoLaws} `{Platform}.

Lemma notify_guard ty lv p1 p2 w :
  wguard (kg_comms_notify ty lv p1 p2 w).2 = wguard w
  ∧ wpos (kg_comms_notify ty lv p1 p2 w).2 = wpos w
  ∧ wpar (kg_comms_notify ty lv p1 p2 w).2 = wpar w.
Proof. apply notify_frame. Qed.

Lemma corrupt_report_raises w :
  report KG_ALERT_SHARED_STATE_CORRUPT KG_LEVEL_CRITICAL 0 0 w
  = kg_posture_raise (kg_report 1) KG_POSTURE_FAILSAFE KG_ALERT_SHARED_STATE_CORRUPT
      (kg_comms_notify KG_ALERT_SHARED_STATE_CORRUPT KG_LEVEL_CRITICAL 0 0 w).2.
Proof. done. Qed.

(** The report of a corrupted policy state, whatever is stored in it. *)
Lemma corrupt_report_heals w tab :
  pos_ready (wpos w) = true → KG_POSTURE_FAILSAFE ≤ kg_max_posture (wpar w) →
  cpu (wguard w) = Some tab → Z.of_nat (length tab) = ncpu (hdr (wguard w)) →
  Forall (λ m, 0 ≤ base_strategy m ≤ KG_STRAT_FULL) tab → kg_posture w < KG_POSTURE_FAILSAFE →
  ∃ w', report KG_ALERT_SHARED_STATE_CORRUPT KG_LEVEL_CRITICAL 0 0 w = Some w'
  ∧ guard_inv w' ∧ kg_posture w' = KG_POSTURE_FAILSAFE ∧ pos_untrusted (wpos w') = true.
Proof.
  intros Hready Hmax Ht Hlen Hb Hp. rewrite corrupt_report_raises.
  pose proof (notify_guard KG_ALERT_SHARED_STATE_CORRUPT KG_LEVEL_CRITICAL 0 0 w) as (Ng & Np & Npar).
  set (w0 := (kg_comms_notify _ _ 0 0 w).2) in *. clearbody w0.
  rewrite <- Np in Hready. unfold kg_posture_raise. unfold posture_cap. rewrite Npar, Hready. cbn [negb].
  replace (Z.min KG_POSTURE_FAILSAFE (Z.min (kg_max_posture (wpar w)) KG_POSTURE_FAILSAFE))
    with KG_POSTURE_FAILSAFE by lia.
  rewrite Z.eqb_refl. change (KG_POSTURE_ELEVATED <=? KG_POSTURE_FAILSAFE) with true.
  cbn [ktime_get_real_ns ktime_get_ns].
  assert (Hw0 : kg_posture (set_pos (set_untrusted (wpos w0)) w0) <? KG_POSTURE_FAILSAFE = true).
  { apply Z.ltb_lt. unfold kg_posture. simpl. by rewrite Ng. }
  rewrite Hw0. set (w1 := set_pos _ (tick_mono _)).
  assert (Hg1 : wguard w1 = wguard w) by exact Ng.
  assert (Hi2 : guard_inv (kg_pos_apply_locked KG_POSTURE_FAILSAFE w1)).
  { apply (set_failsafe_rebuilds w1 tab); [by rewrite Hg1|by rewrite Hg1|done]. }
  assert (Hp2 : kg_posture (kg_pos_apply_locked KG_POSTURE_FAILSAFE w1) = KG_POSTURE_FAILSAFE).
  { unfold kg_posture, kg_pos_apply_locked. simpl. by rewrite update_locked_hdr. }
  assert (Hu2 : pos_untrusted (wpos (kg_pos_apply_locked KG_POSTURE_FAILSAFE w1)) = true) by done.
  set (w2 := kg_pos_apply_locked KG_POSTURE_FAILSAFE w1) in *. clearbody w2.
  pose proof (arm_decay_quiet w2) as Q3.
  destruct (after_up_spec (kg_report 1) KG_POSTURE_FAILSAFE (kg_pos_arm_decay_locked w2)
              (report_failsafe_quiet 0)) as (w' & Hw' & Q4).
  exists w'. split; [exact Hw'|]. destruct (transitivity Q3 Q4) as [_ Qb Qc Qd].
  rewrite Qb, Qc. auto.
Qed.

Lemma corrupt_report_at_top w :
  KG_POSTURE_FAILSAFE ≤ kg_posture w →
  ∃ w', report KG_ALERT_SHARED_STATE_CORRUPT KG_LEVEL_CRITICAL 0 0 w = Some w' ∧ wguard w' = wguard w.
Proof.
  intros Hp. rewrite corrupt_report_raises.
  pose proof (notify_guard KG_ALERT_SHARED_STATE_CORRUPT KG_LEVEL_CRITICAL 0 0 w) as (Ng & _).
  set (w0 := (kg_comms_notify _ _ 0 0 w).2) in *. clearbody w0.
  unfold kg_posture_raise. destruct (negb _); [by exists w0|].
  rewrite Z.eqb_refl.
  assert (Hup : kg_posture (set_pos (set_untrusted (wpos w0)) w0)
                <? Z.min KG_POSTURE_FAILSAFE (posture_cap w0) = false).
  { apply Z.ltb_ge. unfold kg_posture in *. simpl. rewrite Ng. lia. }
  rewrite Hup. eexists. split; [done|].
  assert (Harm : ∀ v, wguard (kg_pos_arm_decay_locked v) = wguard v).
  { intros v. unfold kg_pos_arm_decay_locked. by destruct (_ && _). }
  rewrite Harm. by destruct (KG_POSTURE_ELEVATED <=? _).
Qed.
End corruption.


(** Somebody cleared CPU 1's strategy while the module was at ELEVATED. *)
Definition tampered (p : Z) : world :=
  let w := world_at p in
  set_guard (with_cpu (alter (set_strategy KG_STRAT_NONE) 1%nat) (wguard w)) w.

(** ... but not at the top: when the stored posture is already FAILSAFE (or claims more),
    the report changes nothing, the table is neither repaired nor sealed again, and no later
    corruption is reported while the check keeps failing. *)
Theorem corruption_at_top_ignored `{CryptoLaws} `{Platform} s w :
  kg_guard_verify w = false → ig_corrupt_reported s = false → KG_POSTURE_FAILSAFE ≤ kg_posture w →
  ∃ s' w', check_policy s w = Some (s', w') ∧ wguard w' = wguard w ∧ kg_guard_verify w' = false
  ∧ (∀ w2, kg_guard_verify w2 = false → check_policy s' w2 = Some (s', w2)).
Proof.
  intros Hv Hr Hp. unfold check_policy at 1. rewrite Hv, Hr. cbn [negb].
  destruct (corrupt_report_at_top w Hp) as (w' & -> & Hg). bind_simpl.
  eexists _, w'. split; [done|]. split_and!; [done| |].
  - unfold kg_guard_verify in *. by rewrite Hg.
  - intros w2 H2. unfold check_policy. by rewrite H2.
Qed.
Lemma corruption_at_top_ignored_witness :
  ∃ s' w', @check_policy sha_api two_cpus sample_integ (tampered KG_POSTURE_FAILSAFE) = Some (s', w')
  ∧ wguard w' = wguard (tampered KG_POSTURE_FAILSAFE)
  ∧ strategy (cpu_mit_at w' 1) = KG_STRAT_NONE.
Proof.
  destruct (@corruption_at_top_ignored sha_api sha_api_laws two_cpus sample_integ (tampered KG_POSTURE_FAILSAFE))
    as (s' & w' & Hc & Hg & _); [vm_compute; reflexivity|reflexivity|vm_compute; discriminate|].
  exists s', w'. split_and!; [exact Hc|exact Hg|]. unfold cpu_mit_at. rewrite Hg. vm_compute. reflexivity.
Defined.

(** ** Module lifecycle and the region table *)
Class TextLaws `{TextEnv} := {
  anchor_low : 268439552 ≤ Z.ldiff printk_addr (PAGE_SIZE - 1);
  anchor_high : Z.ldiff printk_addr (PAGE_SIZE - 1) + 268439552 < 18446744073709551616
}.
Lemma bounds_env_laws : @TextLaws bounds_env.
Proof. by split. Qed.

Section lifecycle_facts.
Context `{TextEnv} (par : text_params) (self : Z) (Hmb : is_u32 (p_text_max_mb par)).
Notation inv := (text_inv (p_text_max_mb par)).

Definition sized (m : text_module) : Prop := Z.of_nat (md_size m) < 9223372036854775808.

Lemma module_add_inv a b m t : sized m → inv t → inv (kg_module_add par self a b m t).
Proof.
  intros Hs Ht. unfold kg_module_add. destruct (_ || _); [done|]. destruct (_ && _); [done|].
  by apply region_add_inv.
Qed.

Lemma module_remove_inv id t : inv t → inv (kg_module_remove id t).
Proof.
  intros Ht. unfold kg_module_remove. destruct (list_find _ _) as [[i r]|]; [|done].
  by apply region_del_inv.
Qed.

Lemma enumerate_inv alloc mods t :
  match mods with inr l => Forall sized l | inl _ => True end →
  inv t → inv (kg_enumerate_modules par self alloc mods t).
Proof.
  destruct mods as [e|l]; [done|]. cbn [kg_enumerate_modules]. intros Hl. revert t.
  induction Hl as [|m l Hm Hl IH]; intros t Ht; [done|]. cbn [foldl].
  destruct (alloc (md_id m)) as [x y]. apply IH. by apply module_add_inv.
Qed.

Lemma module_notify_advances `{CryptoLaws} `{Platform} act a b m s w :
  sound w → sized m → inv (ig_text s) →
  ∃ s' w', kg_module_notify par self act a b m s w = Some (s', w')
  ∧ advances w w' ∧ inv (ig_text s') ∧ (ig_base s' = None ↔ ig_base s = None).
Proof.
  intros Hw Hm Ht. unfold kg_module_notify.
  assert (Hstay : ∀ s1, inv (ig_text s1) → (ig_base s1 = None ↔ ig_base s = None) →
    ∃ s' w', Some (s1, w) = Some (s', w') ∧ advances w w' ∧ inv (ig_text s')
    ∧ (ig_base s' = None ↔ ig_base s = None)).
  { intros s1 Hi1 Hb1. exists s1, w. split_and!; [done|by apply advances_refl|done|done]. }
  destruct (_ =? self); [by apply Hstay|]. destruct act.
  - pose proof (module_add_inv a b m (ig_text s) Hm Ht).
    destruct (ig_baseline_done _); [|by apply Hstay].
    destruct (kg_pack_name (md_name m)) as [np0 np1].
    set (lv := if (_ : bool) then KG_LEVEL_WATCH else KG_LEVEL_INFO).
    destruct (report_advances KG_ALERT_MODULE_LOADED lv np0 np1 w Hw) as (w' & -> & Ha & _).
    bind_simpl. eexists _, w'. by split_and!.
  - apply Hstay; [|done]. by apply module_remove_inv.
  - by apply Hstay.
Qed.
End lifecycle_facts.

(** ** Start and stop *)
Section start_stop.
Context `{CryptoLaws} `{Platform} `{TextEnv} `{CpuEnv}.

Lemma cpu_state_baseline_silent b n d s w :
  t_end (ig_text s) = 0 →
  ∃ e s', kg_cpu_state_baseline b n d s w = Some (e, s', w) ∧ ig_text s' = ig_text s
  ∧ (e = None ∧ is_Some (ig_base s') ∨ e = Some ENOMEM ∧ ig_base s' = None)
  ∧ ig_corrupt_reported s' = ig_corrupt_reported s.
Proof.
  intros Ht. unfold kg_cpu_state_baseline. destruct (_ || _).
  { eexists _, _. split; [done|]. split_and!; [done|by right|done]. }
  destruct (find _ _) as [f|].
  2:{ eexists _, _. split; [done|]. split_and!; [done|left; split; [done|by eexists]|done]. }
  destruct (negb (negb feature_fred)).
  { eexists _, _. split; [done|]. split_and!; [done|left; split; [done|by eexists]|done]. }
  destruct d.
  2:{ eexists _, _. split; [done|]. split_and!; [done|left; split; [done|by eexists]|done]. }
  unfold kg_idt_verify. rewrite idt_loop_baseline by done. bind_simpl.
  eexists _, _. split; [done|]. split_and!; [done|left; split; [done|by eexists]|done].
Qed.

Lemma find_bounds_inv `{!TextLaws} mb t :
  text_inv mb t → ∃ e t', kg_find_text_bounds t = Some (e, t') ∧ text_inv mb t'
  ∧ (e = None → Z.of_nat (Z.to_nat (u64 (t_end t' - t_start t'))) < 9223372036854775808).
Proof.
  intros Ht. destruct (text_bounds_maximal t anchor_low anchor_high) as (e & t' & Hf & Hm).
  exists e, t'. split; [done|]. destruct e as [e|].
  - destruct Hm as [-> _]. done.
  - destruct Hm as (lo & hi & -> & _ & Hs & _). destruct Ht as [????]. split; [by constructor|].
    intros _. cbn [t_start t_end set_bounds]. unfold u64. rewrite Z.mod_small by lia. lia.
Qed.

Lemma baseline_text_inv `{!TextLaws} par a t :
  is_u32 (p_text_max_mb par) → text_inv (p_text_max_mb par) t →
  ∃ t', baseline_text par a t = Some t' ∧ text_inv (p_text_max_mb par) t'.
Proof.
  intros Hmb Ht. unfold baseline_text. destruct (p_text par); [|by exists t].
  destruct (find_bounds_inv _ _ Ht) as (e & t1 & -> & Hti & Hsz). bind_simpl.
  destruct e as [e|]; [by exists t1|]. destruct (negb _); [by exists t1|]. cbv zeta.
  assert (Hti2 : text_inv (p_text_max_mb par) (set_tmp true t1)) by (destruct Hti; by constructor).
  pose proof (region_add_inv (p_text_max_mb par) Hmb (ia_vmlinux a).1 (ia_vmlinux a).2 (bytes_of "vmlinux")
                (t_start (set_tmp true t1))
                (Z.to_nat (u64 (t_end (set_tmp true t1) - t_start (set_tmp true t1)))) true 0 _ Hti2
                (Hsz eq_refl)) as Hadd.
  destruct (kg_region_add _ _ _ _ _ _ _ _ _) as [e2 t2]. cbn [snd] in Hadd.
  eexists. split; [done|]. destruct e2; [done|]. destruct Hadd. by constructor.
Qed.

(** Loading the monitor: it completes, leaves a consistent region table, starts the
    worker and reports nothing. *)
Lemma integrity_init_spec `{!TextLaws} par self a mods reg s w :
  is_u32 (p_text_max_mb par) → sized self → match mods with inr l => Forall sized l | inl _ => True end →
  t_end (ig_text s) = 0 → text_inv (p_text_max_mb par) (ig_text s) →
  ∃ e s' w', kg_integrity_init par self a mods reg s w = Some (e, s', w')
  ∧ text_inv (p_text_max_mb par) (ig_text s')
  ∧ (e = None ∧ is_Some (ig_base s') ∧ w' = requeue_integ (set_integ_stop false w)
     ∨ e = Some ENOMEM ∧ ig_base s' = None ∧ w' = w ∧ ig_text s' = ig_text s).
Proof.
  intros Hmb Hself Hmods Hend Ht. unfold kg_integrity_init.
  destruct (cpu_state_baseline_silent (ia_base a) (ia_now a) (ia_dup a) s w Hend)
    as (e & s1 & -> & Ht1 & He & _). bind_simpl. pose proof Ht1 as Hts. rewrite <- Ht1 in Ht.
  destruct He as [[-> Hb]|[-> Hb]].
  2:{ eexists _, s1, w. split; [done|]. split; [done|by right]. }
  destruct (baseline_text_inv par a (ig_text s1) Hmb Ht) as (t & -> & Hti). bind_simpl.
  eexists _, _, _. split; [done|]. split.
  - cbn [ig_text with_flags with_text]. destruct (t_enabled t); [|done].
    apply enumerate_inv; [done|done|]. by apply module_add_inv.
  - left. split_and!; [done|done|done].
Qed.

Lemma del_all_empties mb t :
  is_u32 mb → text_inv mb t →
  t_regions (del_all t) = [] ∧ t_copy_bytes (del_all t) = 0 ∧ t_nregions (del_all t) = 0.
Proof.
  intros Hmb Ht. unfold del_all.
  assert (Hgo : ∀ l t, t_regions t = l → text_inv mb t →
    text_inv mb (foldl (λ t _, kg_region_del 0 t) t l)
    ∧ t_regions (foldl (λ t _, kg_region_del 0 t) t l) = []).
  { clear -Hmb. induction l as [|r l IH]; intros t Hl Ht; [done|]. cbn [foldl]. apply IH.
    - unfold kg_region_del. rewrite Hl. done.
    - by apply region_del_inv. }
  destruct (Hgo _ t eq_refl Ht) as [[_ Hb Hn _] Hr]. rewrite Hr in *. done.
Qed.
End start_stop.

(** Loading the monitor completes and never reports: the text's bounds are looked for only
    after the interrupt descriptor table has been taken as the baseline, so the check that
    its handlers lie in the kernel's text finds no bounds and passes over every vector,
    hooked or not. *)
Theorem hooked_idt_adopted `{CryptoLaws} `{Platform} `{TextEnv} `{!TextLaws} `{CpuEnv}
    par self a mods reg s w :
  is_u32 (p_text_max_mb par) → sized self → match mods with inr l => Forall sized l | inl _ => True end →
  t_end (ig_text s) = 0 → text_inv (p_text_max_mb par) (ig_text s) →
  ∃ e s' w', kg_integrity_init par self a mods reg s w = Some (e, s', w')
  ∧ wstats w' idt_hook_detected = wstats w idt_hook_detected ∧ wcomms w' = wcomms w
  ∧ kg_posture w' = kg_posture w.
Proof.
  intros Hmb Hself Hmods Hend Ht.
  destruct (integrity_init_spec par self a mods reg s w Hmb Hself Hmods Hend Ht)
    as (e & s' & w' & Hi & _ & Hw).
  exists e, s', w'. split; [done|]. destruct Hw as [(_ & _ & ->)|(_ & _ & -> & _)]; [|done].
  unfold requeue_integ, queue_delayed_work. by destruct (wwork _ IntegWork).
Qed.
Definition boot_integ : kg_integ :=
  Integ (KgText 0 0 [] 0 0 false false 0) None [] false false false false 0.
Definition good_allocs : integ_allocs :=
  IntegAllocs true true true true (true, true) (true, true) (λ _, (true, true)).
Lemma hooked_idt_adopted_witness :
  ∃ e s' w', @kg_integrity_init sha_api two_cpus bounds_env hooked_cpus (TextParams false true 128)
               (TextModule 1 [] 0 0 true 0) good_allocs (inr []) true boot_integ ready_world
             = Some (e, s', w')
  ∧ kg_posture w' = KG_POSTURE_NORMAL.
Proof.
  destruct (@hooked_idt_adopted sha_api sha_api_laws two_cpus bounds_env bounds_env_laws hooked_cpus
              (TextParams false true 128) (TextModule 1 [] 0 0 true 0) good_allocs (inr []) true boot_integ
              ready_world) as (e & s' & w' & Hi & _ & _ & Hp);
    [by compute|by compute|apply Forall_nil_2|reflexivity|by constructor; compute|].
  exists e, s', w'. split; [exact Hi|]. rewrite Hp. reflexivity.
Defined.

(** Unloading it releases everything: no region and no byte is accounted for, the worker is
    neither queued nor allowed to be, and the text check is off. *)
Theorem integrity_exit_releases `{Crypto} `{TextEnv} mb s w :
  is_u32 mb → text_inv mb (ig_text s) → is_Some (ig_base s) →
  let '(s', w') := kg_integrity_exit s w in
  t_regions (ig_text s') = [] ∧ kg_text_stats (ig_text s') = (0, 0) ∧ t_enabled (ig_text s') = false
  ∧ ig_base s' = None ∧ wwork w' IntegWork = None ∧ kg_integ_stop (wmon w') = true
  ∧ wguard w' = wguard w.
Proof.
  intros Hmb Ht [base Hb]. unfold kg_integrity_exit. rewrite Hb.
  destruct (del_all_empties mb (ig_text s) Hmb Ht) as (Hr & Hc & Hn).
  unfold kg_text_stats. cbn. rewrite Hr, Hc, Hn. split_and!; done.
Qed.
Lemma integrity_exit_releases_witness :
  let s := with_cpus (Some []) [] true 0 (with_text sample_text sample_integ) in
  let '(s', w') := kg_integrity_exit s ready_world in
  t_regions (ig_text s') = [] ∧ kg_text_stats (ig_text s') = (0, 0) ∧ t_enabled (ig_text s') = false
  ∧ ig_base s' = None ∧ wwork w' IntegWork = None ∧ kg_integ_stop (wmon w') = true
  ∧ wguard w' = wguard ready_world.
Proof.
  apply (@integrity_exit_releases sha_api sample_env 128); [by compute| |by eexists].
  constructor; [|reflexivity|reflexivity|by compute].
  apply Forall_singleton. split; [reflexivity|cbn; lia].
Defined.
