(* ===== verification/Main.v ===== *)
(** * The module as a whole: device node, entry and exit
      (linux/module/kg_main.c, kg_state_init and kg_state_exit of kg_state.c)

    [kernelguard] puts the states of all components side by side.  Loading initialises them
    in the source's order and unwinds what it has done when a core part fails; unloading
    stops the monitors before it takes away what they use.  [sys_step] is the loaded module:
    every handler of every component, interleaved in any order. *)
From S2P Require Import Prelude Uapi Kernel Machine Guard Registry Comms Posture Sched Advance Pmu Run Modgate TextCheck Integrity PciScan Hw Input.
Local Open Scope Z_scope.

Record kernelguard := KernelGuard {
  k_world : world;
  k_gate : kg_gate;
  k_integ : kg_integ;
  k_hw : kg_hw;
  k_input : kg_input;
  k_pmu : kg_pmu;
  k_wq : bool;             (* kg_wq *)
  k_sha_tfm : bool;        (* kg_sha_tfm *)
  k_misc : bool            (* the device node is registered *)
}.
Definition with_world (w : world) (k : kernelguard) : kernelguard :=
  KernelGuard w (k_gate k) (k_integ k) (k_hw k) (k_input k) (k_pmu k) (k_wq k) (k_sha_tfm k) (k_misc k).
Definition with_gate (g : kg_gate) (w : world) (k : kernelguard) : kernelguard :=
  KernelGuard w g (k_integ k) (k_hw k) (k_input k) (k_pmu k) (k_wq k) (k_sha_tfm k) (k_misc k).
Definition with_integ (s : kg_integ) (w : world) (k : kernelguard) : kernelguard :=
  KernelGuard w (k_gate k) s (k_hw k) (k_input k) (k_pmu k) (k_wq k) (k_sha_tfm k) (k_misc k).
Definition with_hw (h : kg_hw) (w : world) (k : kernelguard) : kernelguard :=
  KernelGuard w (k_gate k) (k_integ k) h (k_input k) (k_pmu k) (k_wq k) (k_sha_tfm k) (k_misc k).
Definition with_input (s : kg_input) (w : world) (k : kernelguard) : kernelguard :=
  KernelGuard w (k_gate k) (k_integ k) (k_hw k) s (k_pmu k) (k_wq k) (k_sha_tfm k) (k_misc k).
Definition with_pmu (s : kg_pmu) (w : world) (k : kernelguard) : kernelguard :=
  KernelGuard w (k_gate k) (k_integ k) (k_hw k) (k_input k) s (k_wq k) (k_sha_tfm k) (k_misc k).
Definition with_core (wq tfm misc : bool) (k : kernelguard) : kernelguard :=
  KernelGuard (k_world k) (k_gate k) (k_integ k) (k_hw k) (k_input k) (k_pmu k) wq tfm misc.

(** ** KG_IOC_GET_INFO *)
Definition KG_INFO_ENFORCE : Z := 1.
Definition KG_INFO_FAIL_SAFE : Z := 2.
Definition KG_INFO_INTEGRITY_OK : Z := 4.
Definition KG_INFO_PMU_ACTIVE : Z := 8.
Definition KG_INFO_ECAM_ACTIVE : Z := 16.
Definition KG_INFO_TEXT_ACTIVE : Z := 32.
Definition KG_INFO_INPUT_ACTIVE : Z := 64.
Definition KG_INFO_CAT_L3 : Z := 128.
Definition KG_INFO_SMT : Z := 256.
Definition SIZEOF_KG_INFO : Z := 200.
Definition KG_VERSION : list Z := bytes_of "1.0.0-linux".

Record kg_info := Info {
  if_abi_version : Z; if_struct_size : Z; if_ring_slots : Z; if_nr_cpus : Z; if_flags : Z;
  if_text_regions : Z; if_text_kib : Z; if_pci_devices : Z; if_kbd_devices : Z;
  if_stats : stat → Z; if_version : list Z
}.

Section device.
Context `{Crypto} `{Platform}.

(** [cpumask_first(cpu_online_mask)] *)
Definition first_online : Z := hd nr_cpu_ids online_cpus.

Definition kg_fill_info (k : kernelguard) : kg_info :=
  let w := k_world k in
  let m0 := cpu_mit_at w first_online in
  let smt := existsb (λ c, has (features (cpu_mit_at w c)) KG_FEAT_SMT) online_cpus in
  let flags := foldl Z.lor 0
    [flag_if (kg_enforce (wpar w)) KG_INFO_ENFORCE; flag_if (kg_in_failsafe w) KG_INFO_FAIL_SAFE;
     flag_if (kg_guard_verify w) KG_INFO_INTEGRITY_OK; flag_if (kg_pmu_active (k_pmu k)) KG_INFO_PMU_ACTIVE;
     flag_if (kg_hw_ecam_active (k_hw k)) KG_INFO_ECAM_ACTIVE;
     flag_if (kg_text_active (ig_text (k_integ k))) KG_INFO_TEXT_ACTIVE;
     flag_if (kg_input_active w) KG_INFO_INPUT_ACTIVE; flag_if (has (features m0) KG_FEAT_CAT_L3) KG_INFO_CAT_L3;
     flag_if smt KG_INFO_SMT] in
  let '(regions, kib) := kg_text_stats (ig_text (k_integ k)) in
  Info KG_ABI_VERSION SIZEOF_KG_INFO KG_NOTIFY_SLOTS (ncpu (hdr (wguard w))) flags regions kib
       (kg_hw_device_count (k_hw k)) (kg_input_device_count (k_input k)) (wstats w) (strscpy KG_VERSION 32).

(** ** ioctl *)
Inductive ioctl_cmd :=
  | KG_IOC_GET_HMAC_KEY | KG_IOC_GET_INFO | KG_IOC_GET_CPU_INFO | KG_IOC_GET_POSTURE | KG_IOC_SET_POSTURE
  | KG_IOC_GET_MODGATE | KG_IOC_UNKNOWN (cmd : Z).
(** The caller: its capability, what copy_from_user brings in (None when it faults), whether
    copy_to_user succeeds, whether the kernel finds memory for the reply. *)
Record caller := Caller {
  c_cap_sys_admin : bool; c_cpu_arg : option Z; c_req_arg : option (Z * Z); c_copy_out : bool; c_alloc : bool
}.
Inductive reply :=
  | ReplyNone | ReplyKey (k : list Z) | ReplyInfo (i : kg_info) | ReplyCpu (c : kg_cpu_info)
  | ReplyPosture (p : kg_posture_info_t) | ReplyModgate (m : kg_modgate_info_t).

(** What reaches the caller. *)
Definition copy_to_user (ok : bool) (r : reply) : option errno * reply :=
  if ok then (None, r) else (Some EFAULT, ReplyNone).

Definition kg_ioctl (cmd : ioctl_cmd) (u : caller) (k : kernelguard) : option (option errno * reply * kernelguard) :=
  let w := k_world k in
  match cmd with
  | KG_IOC_GET_HMAC_KEY =>
    Some (match kg_comms_get_key (c_cap_sys_admin u) w with
          | inl e => (Some e, ReplyNone)
          | inr key => copy_to_user (c_copy_out u) (ReplyKey key)
          end, k)
  | KG_IOC_GET_INFO =>
    if negb (c_alloc u) then Some (Some ENOMEM, ReplyNone, k)
    else Some (copy_to_user (c_copy_out u) (ReplyInfo (kg_fill_info k)), k)
  | KG_IOC_GET_CPU_INFO =>
    match c_cpu_arg u with
    | None => Some (Some EFAULT, ReplyNone, k)
    | Some c =>
      Some (match kg_mit_cpu_info c w with
            | inl e => (Some e, ReplyNone)
            | inr ci => copy_to_user (c_copy_out u) (ReplyCpu ci)
            end, k)
    end
  | KG_IOC_GET_POSTURE => Some (copy_to_user (c_copy_out u) (ReplyPosture (kg_posture_info w)), k)
  | KG_IOC_SET_POSTURE =>
    if negb (c_cap_sys_admin u) then Some (Some EPERM, ReplyNone, k)
    else match c_req_arg u with
         | None => Some (Some EFAULT, ReplyNone, k)
         | Some (target, flags) =>
           if negb (flags =? 0) then Some (Some EINVAL, ReplyNone, k)
           else '(r, w) ← kg_posture_set target w; Some (r, ReplyNone, with_world w k)
         end
  | KG_IOC_GET_MODGATE => Some (copy_to_user (c_copy_out u) (ReplyModgate (kg_modgate_info (k_gate k) w)), k)
  | KG_IOC_UNKNOWN _ => Some (Some ENOTTY, ReplyNone, k)
  end.

(** ** open: the position the new descriptor has read up to *)
Definition kg_open (alloc_ok : bool) (k : kernelguard) : errno + Z :=
  if alloc_ok then inr (kg_comms_open (k_world k)) else inl ENOMEM.
End device.

(** ** State: zeroed statistics and guard, the transform *)
Definition kg_state_init (tfm : option errno) (k : kernelguard) : option errno * kernelguard :=
  let w := set_guard (Guard (Hdr 0 0 0 0 0) None (replicate 32 0) false) (set_stats (λ _, 0) (k_world k)) in
  let k := with_world w k in
  match tfm with
  | Some e => (Some e, with_core (k_wq k) false (k_misc k) k)
  | None => (None, with_core (k_wq k) true (k_misc k) k)
  end.
Definition kg_state_exit (k : kernelguard) : kernelguard := with_core (k_wq k) false (k_misc k) k.

(** ** Entry.  What every call of the kernel returns while the module loads. *)
Record load_env := LoadEnv {
  le_wq : bool;
  le_tfm : option errno;
  le_comms : bool * bool * option errno * option errno * list Z;
  le_mit : bool * Z * list Z * (Z → cpu_caps);
  le_gate : bool * list Z * list Z * bool * (errno + list kmod) * option errno * (errno + list kmod) * load_policy;
  p_integrity : bool;
  le_integ : text_params * text_module * integ_allocs * (errno + list text_module) * bool;
  p_hw : bool;
  le_hw : bool * bool * bool;
  p_input : bool;
  le_input : errno + list (bool * Z * Z);
  p_pmu : bool;
  le_pmu : bool * Z * (Z → kind → bool);
  le_misc : option errno
}.

Section entry.
Context `{Crypto} `{Platform} `{TextEnv} `{CpuEnv} `{PciEnv} `{InputEnv}.
Context (kg_dma_allow kg_kbd_allow : list Z).

Definition destroy_workqueue (k : kernelguard) : kernelguard := with_core false (k_sha_tfm k) (k_misc k) k.
Definition err_wq (k : kernelguard) : kernelguard := destroy_workqueue k.
Definition err_state (k : kernelguard) : kernelguard := err_wq (kg_state_exit k).
Definition err_comms (k : kernelguard) : kernelguard := err_state (with_world (kg_comms_exit (k_world k)) k).

Definition pmu_exit (k : kernelguard) : kernelguard :=
  let '(s, w) := kg_pmu_exit (k_pmu k) (k_world k) in with_pmu s w k.
Definition input_exit (k : kernelguard) : kernelguard :=
  let '(s, w) := kg_input_exit (k_input k) (k_world k) in with_input s w k.
Definition hw_exit (k : kernelguard) : kernelguard :=
  let '(s, w) := kg_hw_exit (k_hw k) (k_world k) in with_hw s w k.
Definition integrity_exit (k : kernelguard) : kernelguard :=
  let '(s, w) := kg_integrity_exit (k_integ k) (k_world k) in with_integ s w k.
Definition modgate_exit (k : kernelguard) : kernelguard := with_gate (kg_modgate_exit (k_gate k)) (k_world k) k.
Definition posture_exit (k : kernelguard) : kernelguard := with_world (kg_posture_exit (k_world k)) k.
Definition mit_exit (k : kernelguard) : kernelguard := with_world (kg_mit_exit (k_world k)) k.

Definition err_monitors (k : kernelguard) : kernelguard :=
  err_comms (mit_exit (posture_exit (modgate_exit (integrity_exit (hw_exit (input_exit (pmu_exit k))))))).

(** The four monitors: a failure is logged and the load goes on. *)
Definition load_gate (l : load_env) (k : kernelguard) : option kernelguard :=
  let '(p_gate, p_deny, p_allow, snap_ok, live, reg, walk, pol) := le_gate l in
  '(_, g, w) ← kg_modgate_init p_gate p_deny p_allow snap_ok live reg walk pol (k_gate k) (k_world k);
  Some (with_gate g w k).
Definition load_integrity (l : load_env) (k : kernelguard) : option kernelguard :=
  if p_integrity l then
    let '(par, self, a, mods, reg) := le_integ l in
    '(_, s, w) ← kg_integrity_init par self a mods reg (k_integ k) (k_world k);
    Some (with_integ s w k)
  else Some k.
Definition load_hw (l : load_env) (k : kernelguard) : kernelguard :=
  if p_hw l then
    let '(cur_ok, base_ok, nb_ok) := le_hw l in
    let '(_, h, w) := kg_hw_init cur_ok base_ok nb_ok (k_hw k) (k_world k) in with_hw h w k
  else k.
Definition load_input (l : load_env) (k : kernelguard) : option kernelguard :=
  if p_input l then
    '(_, s, w) ← kg_input_init kg_kbd_allow (le_input l) (k_input k) (k_world k);
    Some (with_input s w k)
  else Some k.
Definition load_pmu (l : load_env) (k : kernelguard) : kernelguard :=
  if p_pmu l then
    let '(has_pmu, hp, avail) := le_pmu l in
    let '(_, s, w) := kg_pmu_init has_pmu hp avail (k_pmu k) (k_world k) in with_pmu s w k
  else k.

(** The core parts: a failure takes the error path that matches what has been set up. *)
Definition load_core (l : load_env) (k : kernelguard) : errno * kernelguard + kernelguard :=
  if negb (le_wq l) then inl (ENOMEM, k)
  else
    let '(e, k) := kg_state_init (le_tfm l) (with_core true (k_sha_tfm k) (k_misc k) k) in
    match e with
    | Some e => inl (e, err_wq k)
    | None =>
      let '(alloc_ok, page_ok, tfm_err, setkey_err, key) := le_comms l in
      let '(e, w) := kg_comms_init alloc_ok page_ok tfm_err setkey_err key (k_world k) in
      let k := with_world w k in
      match e with
      | Some e => inl (e, err_state k)
      | None =>
        let '(alloc_ok, hp, ran, caps) := le_mit l in
        let '(e, w) := kg_mit_init alloc_ok hp ran caps (k_world k) in
        let k := with_world w k in
        match e with
        | Some e => inl (e, err_comms k)
        | None => inr (with_world (kg_posture_init (k_world k)) k)
        end
      end
    end.

Definition kg_init (l : load_env) (k : kernelguard) : option (option errno * kernelguard) :=
  match load_core l k with
  | inl (e, k) => Some (Some e, k)
  | inr k =>
    k ← load_gate l k;
    k ← load_integrity l k;
    let k := load_hw l k in
    k ← load_input l k;
    let k := load_pmu l k in
    match le_misc l with
    | Some e => Some (Some e, err_monitors k)
    | None =>
      let k := with_core (k_wq k) (k_sha_tfm k) true (with_world (kg_comms_set_device true (k_world k)) k) in
      Some (None, with_world (kg_guard_update (k_world k)) k)
    end
  end.

(** ** Exit *)
Definition kg_exit (k : kernelguard) : kernelguard :=
  let k := with_world (kg_comms_set_device false (k_world k)) k in
  let k := with_core (k_wq k) (k_sha_tfm k) false k in
  err_comms (mit_exit (posture_exit (integrity_exit (hw_exit (input_exit (pmu_exit (modgate_exit k))))))).
End entry.

(** ** Work items at rest *)

(** An item whose owner does not run is not queued. *)
Record idle (w : world) : Prop := Idle {
  id_hw : kg_hw_stop (wmon w) = true → wwork w HwWork = None;
  id_integ : kg_integ_stop (wmon w) = true → wwork w IntegWork = None;
  id_input : accepts_input (wmon w) = false → wwork w InputWork = None;
  id_decay : pos_ready (wpos w) = false → wwork w DecayWork = None;
  id_uevent : wcomms w = None → wwork w UeventWork = None
}.
Lemma idle_sched w w' : sched w w' → idle w → idle w'.
Proof.
  intros [Hm Hc Hp Hh Hi Hn Hd Hu Hr _] [Ih Ii In Id Iu]. rewrite <- Hm, <- Hr in *.
  constructor; intros Hs.
  - rewrite Hh by congruence. by apply Ih.
  - rewrite Hi by congruence. by apply Ii.
  - rewrite Hn by congruence. by apply In.
  - rewrite Hd by congruence. by apply Id.
  - rewrite Hu by (by apply Hc). by apply Iu, Hc.
Qed.

(** What the loaded module keeps true, whatever happens. *)
Record sys_inv `{Crypto} (mb : Z) (k : kernelguard) : Prop := SysInv {
  sy_sound : sound (k_world k);
  sy_idle : idle (k_world k);
  sy_text : text_inv mb (ig_text (k_integ k));
  sy_hw : hw_inv (k_hw k);
  sy_input : input_inv (k_input k);
  sy_mode : in_baselining (k_input k) = false;
  sy_hw_link : h_running (k_hw k) = false → kg_hw_stop (wmon (k_world k)) = true;
  sy_integ_link : ig_base (k_integ k) = None → kg_integ_stop (wmon (k_world k)) = true
                  ∧ t_regions (ig_text (k_integ k)) = [];
  sy_input_link : kg_input_running (wmon (k_world k)) = false → in_kbds (k_input k) = [];
  sy_pmu_link : kg_pmu_running (k_pmu k) = false → wwork (k_world k) PmuWork = None;
  sy_hw_cur : h_running (k_hw k) = false → h_cur (k_hw k) = None;
  sy_up : wcomms (k_world k) ≠ None ∧ pos_ready (wpos (k_world k)) = true;
  sy_core : k_wq k = true ∧ k_sha_tfm k = true;
  sy_typed : chan_typed (k_world k)
}.

Lemma queue_keeps i d w :
  wmon (queue_delayed_work i d w) = wmon w ∧ wcomms (queue_delayed_work i d w) = wcomms w
  ∧ wpos (queue_delayed_work i d w) = wpos w.
Proof. unfold queue_delayed_work. by case_goal. Qed.

(** A handler that only touches the world as a monitor may. *)
Lemma sys_inv_world `{CryptoLaws} mb k w' :
  sys_inv mb k → sound w' → sched (k_world k) w' → sys_inv mb (with_world w' k).
Proof.
  intros [Hs Hi Ht Hh Hin Hmo Hhl Hil Hinl Hpl Hhc Hup Hco Hty] Hs' Hq.
  constructor; cbn; try done; rewrite ?(sc_mon _ _ Hq); try done.
  - by eapply idle_sched.
  - intros Hr. rewrite (sc_pmu _ _ Hq). by apply Hpl.
  - by rewrite (sc_chan _ _ Hq), (sc_ready _ _ Hq).
  - by apply Hq.
Qed.

(** ** Taking the module down *)

(** What is left when nothing is. *)
Record torn_down (k : kernelguard) : Prop := TornDown {
  td_work : ∀ i, wwork (k_world k) i = None;
  td_chan : wcomms (k_world k) = None;
  td_table : cpu (wguard (k_world k)) = None;
  td_ready : pos_ready (wpos (k_world k)) = false;
  td_hw : h_cur (k_hw k) = None ∧ kg_hw_stop (wmon (k_world k)) = true;
  td_integ : ig_base (k_integ k) = None ∧ t_regions (ig_text (k_integ k)) = []
             ∧ kg_integ_stop (wmon (k_world k)) = true;
  td_input : in_kbds (k_input k) = [] ∧ kg_input_running (wmon (k_world k)) = false;
  td_pmu : kg_pmu_running (k_pmu k) = false;
  td_core : k_wq k = false ∧ k_sha_tfm k = false
}.

(** Only [i] is cancelled, and the monitors' flags become [m]. *)
Definition cancels (i : work) (m : monitors) (w w' : world) : Prop :=
  (∀ j, wwork w' j = if decide (j = i) then None else wwork w j) ∧ wmon w' = m
  ∧ wcomms w' = wcomms w ∧ wguard w' = wguard w ∧ wpos w' = wpos w.

Lemma cancel_cancels i m w :
  wwork w i = None ∧ wmon w = m → cancels i m w w.
Proof. intros [Hw Hm]. split_and!; try done. intros j. by destruct (decide (j = i)) as [->|]. Qed.
Lemma cancel_work_cancels i m w w' :
  wwork w' = wwork w → wmon w' = m → wcomms w' = wcomms w → wguard w' = wguard w → wpos w' = wpos w →
  cancels i m w (cancel_work i w').
Proof.
  intros Hq Hm Hc Hg Hp. split_and!; try done. intros j. cbn. destruct (decide (j = i)) as [->|Hne].
  - by rewrite fn_lookup_insert.
  - by rewrite fn_lookup_insert_ne, Hq.
Qed.

Section teardown.
Context `{Crypto} `{Platform} `{TextEnv}.

Lemma offline_all_stopped cs : ∀ s w,
  kg_pmu_stop s = true →
  let '(s', w') := offline_all cs s w in w' = w ∧ kg_pmu_stop s' = true.
Proof.
  unfold offline_all. induction cs as [|c cs IH]; intros s w Hs; [done|]. cbn [foldl].
  assert (Hone : ∃ s1, kg_pmu_cpu_offline c s w = (s1, w) ∧ kg_pmu_stop s1 = true).
  { unfold kg_pmu_cpu_offline, kg_pmu_irq_work. destruct (iw _); [|by eexists]. cbn [kg_pmu_stop add_events on_cpu].
    destruct s; cbn in *. rewrite Hs. cbn. by eexists. }
  destruct Hone as (s1 & He & Hs1). cbn [fst snd]. rewrite He. by apply IH.
Qed.

Lemma pmu_exit_spec s w :
  (kg_pmu_running s = false → wwork w PmuWork = None) →
  let '(s', w') := kg_pmu_exit s w in kg_pmu_running s' = false ∧ cancels PmuWork (wmon w) w w'.
Proof.
  intros Hl. unfold kg_pmu_exit. destruct (kg_pmu_running s) eqn:Hr; cbn [negb].
  - pose proof (offline_all_stopped online_cpus (set_pmu_stop true s) w) as Ho.
    destruct (offline_all _ _ _) as [s1 w1]. destruct Ho as [-> _]; [done|]. split; [done|]. by apply cancel_work_cancels.
  - split; [done|]. apply cancel_cancels. split; [by apply Hl|done].
Qed.

Lemma hw_exit_spec h w :
  (h_running h = false → kg_hw_stop (wmon w) = true) → (h_running h = false → h_cur h = None) → idle w →
  let '(h', w') := kg_hw_exit h w in
  h_cur h' = None ∧ kg_hw_stop (wmon w') = true
  ∧ ∃ m, cancels HwWork m w w' ∧ kg_input_running m = kg_input_running (wmon w)
    ∧ kg_integ_stop m = kg_integ_stop (wmon w).
Proof.
  intros Hl Hc Hi. unfold kg_hw_exit. destruct (h_running h) eqn:Hr; cbn [negb].
  - split_and!; [done|done|]. eexists. split; [by apply cancel_work_cancels|done].
  - split_and!; [by apply Hc|by apply Hl|]. exists (wmon w). split; [|done]. apply cancel_cancels.
    split; [|done]. by apply Hi, Hl.
Qed.

Lemma integ_exit_spec mb s w :
  is_u32 mb → text_inv mb (ig_text s) →
  (ig_base s = None → kg_integ_stop (wmon w) = true ∧ t_regions (ig_text s) = []) → idle w →
  let '(s', w') := kg_integrity_exit s w in
  ig_base s' = None ∧ t_regions (ig_text s') = [] ∧ kg_integ_stop (wmon w') = true
  ∧ ∃ m, cancels IntegWork m w w' ∧ kg_input_running m = kg_input_running (wmon w)
    ∧ kg_hw_stop m = kg_hw_stop (wmon w).
Proof.
  intros Hmb Ht Hl Hi. unfold kg_integrity_exit. destruct (ig_base s) as [b|] eqn:Hb.
  - destruct (del_all_empties mb (ig_text s) Hmb Ht) as (Hr & _ & _). split_and!; [done|done|done|].
    eexists. split; [by apply cancel_work_cancels|done].
  - destruct Hl as [Hs Hr]; [done|]. split_and!; [done|done|done|]. exists (wmon w). split; [|done].
    apply cancel_cancels. split; [|done]. by apply Hi.
Qed.

Lemma input_exit_spec `{InputEnv} s w :
  input_inv s → (kg_input_running (wmon w) = false → in_kbds s = []) → idle w →
  let '(s', w') := kg_input_exit s w in
  in_kbds s' = [] ∧ kg_input_running (wmon w') = false
  ∧ ∃ m, cancels InputWork m w w' ∧ kg_hw_stop m = kg_hw_stop (wmon w)
    ∧ kg_integ_stop m = kg_integ_stop (wmon w).
Proof.
  intros Hv Hl Hi. unfold kg_input_exit. destruct (kg_input_running (wmon w)) eqn:Hr; cbn [negb].
  - destruct (exit_empties s Hv) as [Hk _]. split_and!; [exact Hk|done|].
    exists (Monitors false true (kg_hw_stop (wmon w)) (kg_integ_stop (wmon w))). split; [|done]. split_and!; try done. intros j. cbn. destruct (decide (j = InputWork)) as [->|Hne].
    + by rewrite fn_lookup_insert.
    + by rewrite fn_lookup_insert_ne.
  - split_and!; [by apply Hl|done|]. exists (wmon w). split; [|done]. apply cancel_cancels.
    split; [|done]. apply Hi. unfold accepts_input. by rewrite Hr.
Qed.
End teardown.

Lemma idle_cancels i m w w' :
  cancels i m w w' → kg_hw_stop m = kg_hw_stop (wmon w) ∨ i = HwWork →
  kg_integ_stop m = kg_integ_stop (wmon w) ∨ i = IntegWork →
  accepts_input m = accepts_input (wmon w) ∨ i = InputWork → idle w → idle w'.
Proof.
  intros (Hq & Hm & Hc & Hg & Hp) Hh Hi Hn [Ih Ii In Id Iu].
  constructor; rewrite ?Hm, ?Hc, ?Hp; intros Hs; rewrite Hq; destruct (decide _); try done.
  - apply Ih. destruct Hh; congruence.
  - apply Ii. destruct Hi; congruence.
  - apply In. destruct Hn; congruence.
  - by apply Id.
  - by apply Iu.
Qed.

Section unload.
Context `{CryptoLaws} `{Platform} `{TextEnv} `{InputEnv}.

Definition stop_monitors (k : kernelguard) : kernelguard := integrity_exit (hw_exit (input_exit (pmu_exit k))).

Record stopped (k : kernelguard) : Prop := Stopped {
  st_work : ∀ i, i ≠ DecayWork → i ≠ UeventWork → wwork (k_world k) i = None;
  st_uevent : wcomms (k_world k) = None → wwork (k_world k) UeventWork = None;
  st_hw : h_cur (k_hw k) = None ∧ kg_hw_stop (wmon (k_world k)) = true;
  st_integ : ig_base (k_integ k) = None ∧ t_regions (ig_text (k_integ k)) = []
             ∧ kg_integ_stop (wmon (k_world k)) = true;
  st_input : in_kbds (k_input k) = [] ∧ kg_input_running (wmon (k_world k)) = false;
  st_pmu : kg_pmu_running (k_pmu k) = false
}.

Lemma stop_monitors_spec mb k : is_u32 mb → sys_inv mb k → stopped (stop_monitors k).
Proof.
  intros Hmb [Hs Hi Ht Hh Hin Hmo Hhl Hil Hinl Hpl Hhc Hup Hco Hty]. unfold stop_monitors, pmu_exit.
  pose proof (pmu_exit_spec (k_pmu k) (k_world k) Hpl) as Hp.
  destruct (kg_pmu_exit (k_pmu k) (k_world k)) as [ps w1]. destruct Hp as [Hprun Hc1].
  assert (Hi1 : idle w1) by (eapply idle_cancels; [exact Hc1|by left..|done]).
  destruct Hc1 as (Hq1 & Hm1 & Hcm1 & _ & _). unfold input_exit. cbn [k_input k_world with_pmu].
  pose proof (input_exit_spec (k_input k) w1 Hin) as Hn. rewrite Hm1 in Hn. specialize (Hn Hinl Hi1).
  destruct (kg_input_exit (k_input k) w1) as [ins w2]. destruct Hn as (Hkb & Hirun & m2 & Hc2 & Hm2h & Hm2i).
  assert (Hi2 : idle w2) by (eapply idle_cancels; [exact Hc2|left; congruence|left; congruence|by right|done]).
  destruct Hc2 as (Hq2 & Hm2 & Hcm2 & _ & _). unfold hw_exit. cbn [k_hw k_world with_input with_pmu].
  pose proof (hw_exit_spec (k_hw k) w2) as Hx. rewrite Hm2, Hm2h in Hx. specialize (Hx Hhl Hhc Hi2).
  destruct (kg_hw_exit (k_hw k) w2) as [hs w3]. destruct Hx as (Hcur & Hstop & m3 & Hc3 & Hm3r & Hm3i).
  assert (Hi3 : idle w3).
  { eapply idle_cancels; [exact Hc3|by right|left; congruence| |done]. left. unfold accepts_input.
    rewrite Hm3r. rewrite Hm2 in Hirun |- *. by rewrite Hirun. }
  destruct Hc3 as (Hq3 & Hm3 & Hcm3 & _ & _). unfold integrity_exit. cbn [k_integ k_world with_hw with_input with_pmu].
  pose proof (integ_exit_spec mb (k_integ k) w3 Hmb Ht) as Hy. rewrite Hm3, Hm3i, Hm2i in Hy. specialize (Hy Hil Hi3).
  destruct (kg_integrity_exit (k_integ k) w3) as [gs w4]. destruct Hy as (Hb & Hr & Hst & m4 & (Hq4 & Hm4 & Hcm4 & _ & _) & Hm4r & Hm4h).
  constructor; cbn.
  - intros i Hd Hu. rewrite Hq4, Hq3, Hq2, Hq1. by destruct i.
  - intros Hn. rewrite Hq4, Hq3, Hq2, Hq1. cbn. apply Hi. congruence.
  - split; [done|]. rewrite Hm4, Hm4h, <- Hm3. done.
  - done.
  - split; [done|]. rewrite Hm4, Hm4r. rewrite Hm3r. by rewrite <- Hm2.
  - done.
Qed.

Lemma finish_spec k : stopped k → torn_down (err_comms (mit_exit (posture_exit k))).
Proof.
  intros [Hq Hu [Hc Hhs] (Hb & Hr & His) [Hk Hir] Hp].
  unfold err_comms, err_state, err_wq, destroy_workqueue, kg_state_exit, mit_exit, posture_exit, kg_posture_exit, kg_mit_exit, kg_comms_exit, kg_comms_set_device.
  destruct (cpu (wguard (k_world k))) eqn:Hcpu; destruct (wcomms (k_world k)) eqn:Hcm;
    constructor; cbn; rewrite ?Hcpu, ?Hcm; cbn; rewrite ?Hcm; cbn; try done;
    intros i; destruct i; cbn; rewrite ?Hcpu, ?Hcm; cbn; rewrite ?Hcm; cbn;
    rewrite ?fn_lookup_insert, ?fn_lookup_insert_ne by done; try done; try (by apply Hq); by apply Hu.
Qed.
End unload.

(** ** Loading *)
Record booted (mb : Z) (k : kernelguard) : Prop := Booted {
  bo_work : ∀ i, wwork (k_world k) i = None;
  bo_chan : wcomms (k_world k) = None;
  bo_ready : pos_ready (wpos (k_world k)) = false;
  bo_cap : 0 ≤ kg_max_posture (wpar (k_world k));
  bo_mon : kg_input_running (wmon (k_world k)) = false ∧ kg_hw_stop (wmon (k_world k)) = true
           ∧ kg_integ_stop (wmon (k_world k)) = true;
  bo_table : cpu (wguard (k_world k)) = None;
  bo_integ : ig_base (k_integ k) = None ∧ t_end (ig_text (k_integ k)) = 0
             ∧ t_regions (ig_text (k_integ k)) = [] ∧ text_inv mb (ig_text (k_integ k));
  bo_hw : h_ecam (k_hw k) = [] ∧ h_running (k_hw k) = false ∧ h_cur (k_hw k) = None ∧ hw_inv (k_hw k);
  bo_input : in_kbds (k_input k) = [] ∧ in_baselining (k_input k) = false ∧ input_inv (k_input k);
  bo_pmu : kg_pmu_running (k_pmu k) = false;
  bo_core : k_wq k = false ∧ k_sha_tfm k = false
}.

(** What a load is given: sizes as the kernel has them. *)
Record load_ok `{Platform} (mb : Z) (l : load_env) : Prop := LoadOk {
  lo_cpus : 0 ≤ nr_cpu_ids;
  lo_mb : is_u32 mb ∧ p_text_max_mb (le_integ l).1.1.1.1 = mb;
  lo_self : sized (le_integ l).1.1.1.2;
  lo_mods : match (le_integ l).1.2 with inr ms => Forall sized ms | inl _ => True end
}.

Section load.
Context `{CryptoLaws} `{Platform} `{TextEnv} `{!TextLaws} `{CpuEnv} `{PciEnv} `{InputEnv}.

Lemma mit_init_unscheduled a hp ran caps w : unscheduled w (kg_mit_init a hp ran caps w).2.
Proof.
  unfold kg_mit_init. destruct a; [|done].
  assert (Hf : ∀ l w, unscheduled w (foldl (λ w c, kg_mit_cpu_online c (caps c) w) w l)).
  { intros l v. apply foldl_unscheduled. by intros. }
  destruct (hp <? 0); cbn [snd]; [|]; (etrans; [|by unfold unscheduled]); [|].
  - etrans; [|apply Hf]. done.
  - etrans; [|apply Hf]. done.
Qed.

Lemma gate_parse_total csv d g : ∃ g', kg_gate_parse csv d g = Some g'.
Proof. unfold kg_gate_parse. rewrite parse_is_fold by lia. by eexists. Qed.

Lemma gate_walk_advances ms : ∀ g w,
  sound w → ∃ g' w', gate_walk ms g w = Some (g', w') ∧ advances w w'.
Proof.
  induction ms as [|m ms IH]; intros g w Hw; cbn [gate_walk].
  { exists g, w. split; [done|by apply advances_refl]. }
  unfold kg_gate_walk_cb. destruct (negb _); [bind_simpl; by apply IH|].
  destruct (kg_pack_name (m_name m)) as [np0 np1].
  destruct (report_advances KG_ALERT_VULN_DRIVER KG_LEVEL_WATCH np0 np1 w Hw) as (w1 & -> & Ha & _). bind_simpl.
  destruct (IH (count_hit true g) w1) as (g' & w' & -> & Ha'); [by eapply advances_sound|].
  exists g', w'. split; [done|by etrans].
Qed.

Lemma modgate_init_advances pg pd pa sn lv rg wk pol g w :
  sound w →
  ∃ e g' w', kg_modgate_init pg pd pa sn lv rg wk pol g w = Some (e, g', w') ∧ advances w w'.
Proof.
  intros Hw. unfold kg_modgate_init. destruct (negb pg).
  { eexists _, g, w. split; [done|by apply advances_refl]. }
  destruct (gate_parse_total pd true g) as (g1 & ->). bind_simpl.
  destruct (gate_parse_total pa false g1) as (g2 & ->). bind_simpl. cbv zeta.
  destruct rg as [e|]; [eexists _, _, w; split; [done|by apply advances_refl]|].
  set (g3 := set_registered true _).
  assert (Hwalk : ∃ g4 w4, (if zlen (g_deny g3) =? 0 then Some (g3, w)
    else match wk with inr l => gate_walk l g3 w | inl _ => Some (g3, w) end) = Some (g4, w4) ∧ advances w w4).
  { destruct (_ =? 0); [exists g3, w; split; [done|by apply advances_refl]|].
    destruct wk as [?|l]; [exists g3, w; split; [done|by apply advances_refl]|]. by apply gate_walk_advances. }
  destruct Hwalk as (g4 & w4 & -> & Ha4). bind_simpl. unfold kg_gate_audit. cbv zeta.
  destruct (report_advances KG_ALERT_LOAD_POLICY (if audit_weak pol =? 0 then KG_LEVEL_INFO else KG_LEVEL_WATCH)
              (audit_weak pol) (audit_raw pol) w4) as (w5 & -> & Ha5 & _); [by eapply advances_sound|].
  bind_simpl. eexists _, _, w5. split; [done|by etrans].
Qed.

Lemma load_gate_inv mb l k :
  sys_inv mb k → ∃ k', load_gate l k = Some k' ∧ sys_inv mb k'
  ∧ k_integ k' = k_integ k ∧ k_hw k' = k_hw k ∧ k_input k' = k_input k ∧ k_pmu k' = k_pmu k
  ∧ sched (k_world k) (k_world k').
Proof.
  intros Hk. unfold load_gate. destruct (le_gate l) as [[[[[[[pg pd] pa] sn] lv] rg] wk] pol].
  destruct (modgate_init_advances pg pd pa sn lv rg wk pol (k_gate k) (k_world k) (sy_sound _ _ Hk))
    as (e & g & w & -> & Ha). bind_simpl. eexists. split; [done|]. split_and!; try done; [|apply Ha].
  assert (Hw : sys_inv mb (with_world w k)).
  { apply sys_inv_world; [done|by eapply advances_sound, Ha; apply Hk|apply Ha]. }
  by destruct Hw; constructor.
Qed.

(** A monitor that comes up clears its stop flag and queues its first pass. *)
Lemma idle_starts i d w w0 :
  idle w → wwork w0 = wwork w → wcomms w0 = wcomms w → wpos w0 = wpos w →
  (i = HwWork → kg_hw_stop (wmon w0) = false) → (i = IntegWork → kg_integ_stop (wmon w0) = false) →
  (i = InputWork → accepts_input (wmon w0) = true) →
  (i ≠ HwWork → kg_hw_stop (wmon w0) = kg_hw_stop (wmon w)) →
  (i ≠ IntegWork → kg_integ_stop (wmon w0) = kg_integ_stop (wmon w)) →
  (i ≠ InputWork → accepts_input (wmon w0) = accepts_input (wmon w)) →
  i ≠ DecayWork → i ≠ UeventWork → idle (queue_delayed_work i d w0).
Proof.
  intros [Ih Ii In Id Iu] Hq Hc Hp Sh Si Sn Kh Ki Kn Nd Nu. unfold queue_delayed_work.
  assert (Hid : ∀ q, (∀ j, j ≠ i → q j = wwork w j) → idle (set_work q w0)).
  { intros q Hqq. constructor; cbn [wmon wwork wcomms wpos set_work]; rewrite ?Hc, ?Hp; intros Hs.
    - destruct (decide (i = HwWork)) as [->|Hne]; [rewrite Sh in Hs by done; done|].
      rewrite Hqq by done. apply Ih. by rewrite <- Kh.
    - destruct (decide (i = IntegWork)) as [->|Hne]; [rewrite Si in Hs by done; done|].
      rewrite Hqq by done. apply Ii. by rewrite <- Ki.
    - destruct (decide (i = InputWork)) as [->|Hne]; [rewrite Sn in Hs by done; done|].
      rewrite Hqq by done. apply In. by rewrite <- Kn.
    - rewrite Hqq by done. by apply Id.
    - rewrite Hqq by done. by apply Iu. }
  destruct (wwork w0 i) eqn:E.
  - replace w0 with (set_work (wwork w0) w0) by (by destruct w0). apply Hid. by rewrite Hq.
  - apply Hid. intros j Hj. rewrite fn_lookup_insert_ne by done. by rewrite Hq.
Qed.

Lemma load_integrity_inv mb l k :
  load_ok mb l → sys_inv mb k → ig_base (k_integ k) = None → t_end (ig_text (k_integ k)) = 0 →
  ∃ k', load_integrity l k = Some k' ∧ sys_inv mb k' ∧ k_hw k' = k_hw k ∧ k_input k' = k_input k ∧ k_pmu k' = k_pmu k
  ∧ kg_input_running (wmon (k_world k')) = kg_input_running (wmon (k_world k)).
Proof.
  intros [_ [Hmb Hmbe] Hself Hmods] Hk Hb He. unfold load_integrity. destruct (p_integrity l); [|by exists k].
  destruct (le_integ l) as [[[[par self] a] mods] reg]. cbn [fst snd] in *. subst mb.
  destruct Hk as [Hs Hi Ht Hh Hin Hmo Hhl Hil Hinl Hpl Hhc Hup Hco Hty].
  destruct (integrity_init_spec par self a mods reg (k_integ k) (k_world k) Hmb Hself Hmods He Ht)
    as (e & s' & w' & -> & Ht' & Hcase). bind_simpl. eexists. split; [done|].
  assert (Hq : ∀ w, wmon (requeue_integ w) = wmon w ∧ wcomms (requeue_integ w) = wcomms w ∧ wpos (requeue_integ w) = wpos w)
    by (intros w; apply queue_keeps).
  destruct Hcase as [(_ & [b Hb'] & ->)|(_ & Hb' & -> & Htx)]; (split; [|cbn; by rewrite ?(proj1 (Hq _))]).
  - constructor; cbn; try done; unfold chan_typed; rewrite ?(proj1 (Hq _)), ?(proj1 (proj2 (Hq _))), ?(proj2 (proj2 (Hq _))); cbn; try done.
    + eapply same_policy_sound; [exact Hs|]. trans (set_integ_stop false (k_world k)); [done|apply requeue_integ_policy].
    + by eapply idle_starts.
    + congruence.
    + intros Hr. unfold requeue_integ, queue_delayed_work. case_goal; cbn; [by apply Hpl|].
      rewrite fn_lookup_insert_ne by done. by apply Hpl.
  - constructor; cbn; try done. intros _. rewrite Htx. by apply Hil.
Qed.

Lemma load_hw_inv mb l k :
  sys_inv mb k → h_ecam (k_hw k) = [] → h_running (k_hw k) = false →
  sys_inv mb (load_hw l k) ∧ k_input (load_hw l k) = k_input k ∧ k_pmu (load_hw l k) = k_pmu k
  ∧ kg_input_running (wmon (k_world (load_hw l k))) = kg_input_running (wmon (k_world k)).
Proof.
  intros Hk He Hr. unfold load_hw. destruct (p_hw l); [|done]. destruct (le_hw l) as [[cur_ok base_ok] nb_ok].
  destruct Hk as [Hs Hi Ht Hh Hin Hmo Hhl Hil Hinl Hpl Hhc Hup Hco Hty].
  destruct (hw_init_spec cur_ok base_ok nb_ok (k_hw k) (k_world k) He (hi_susp _ Hh) (hi_recs _ Hh))
    as (e & h' & w' & -> & Hh' & Hpol & Hcase).
  assert (Hq : ∀ w, wmon (requeue_hw w) = wmon w ∧ wcomms (requeue_hw w) = wcomms w ∧ wpos (requeue_hw w) = wpos w)
    by (intros w; apply queue_keeps).
  destruct Hcase as [(_ & Hcur & -> & Hrun)|(_ & -> & Hrun & _)]; (split; [|cbn; by rewrite ?(proj1 (Hq _))]).
  - constructor; cbn; try done. intros _. by apply Hhl.
  - constructor; cbn; try done; unfold chan_typed; rewrite ?(proj1 (Hq _)), ?(proj1 (proj2 (Hq _))), ?(proj2 (proj2 (Hq _))); cbn; try done.
    + by eapply same_policy_sound.
    + by eapply idle_starts.
    + congruence.
    + intros Hp. unfold requeue_hw, queue_delayed_work. case_goal; cbn; [by apply Hpl|].
      rewrite fn_lookup_insert_ne by done. by apply Hpl.
    + congruence.
Qed.

Lemma load_input_inv allow mb l k :
  sys_inv mb k → kg_input_running (wmon (k_world k)) = false →
  ∃ k', load_input allow l k = Some k' ∧ sys_inv mb k' ∧ k_pmu k' = k_pmu k.
Proof.
  intros Hk Hrun. unfold load_input. destruct (p_input l); [|by exists k].
  destruct Hk as [Hs Hi Ht Hh Hin Hmo Hhl Hil Hinl Hpl Hhc Hup Hco Hty].
  destruct (input_init_spec allow (le_input l) (k_input k) (k_world k) Hs Hin Hmo)
    as (e & s' & w1 & w' & Hrunq & Ha & Hin' & Hmo' & _ & Hcase). rewrite Hrun in *.
  rewrite Hrunq. bind_simpl. eexists. split; [done|]. split; [|done].
  set (w0 := set_input_mon false false (k_world k)) in *.
  assert (Hi0 : idle w0).
  { destruct Hi as [Ih Ii In Id Iu]. constructor; cbn; try done. intros _. apply In. unfold accepts_input. by rewrite Hrun. }
  destruct (le_input l) as [e'|lst].
  - destruct Hcase as (-> & -> & _). unfold kg_input_init in Hrunq. cbv zeta in Hrunq. injection Hrunq as <-.
    constructor; cbn; try done.
  - destruct Hcase as (-> & ->). pose proof (ad_sched _ _ Ha) as Hsc.
    assert (Hi1 : idle w1) by (by eapply idle_sched).
    assert (Hq : ∀ w, wmon (requeue_input w) = wmon w ∧ wcomms (requeue_input w) = wcomms w ∧ wpos (requeue_input w) = wpos w)
    by (intros w; apply queue_keeps).
    constructor; cbn; try done; unfold chan_typed; rewrite ?(proj1 (Hq _)), ?(proj1 (proj2 (Hq _))), ?(proj2 (proj2 (Hq _))); cbn; rewrite ?(sc_mon _ _ Hsc), ?(sc_chan _ _ Hsc), ?(sc_ready _ _ Hsc); cbn; try done.
    + eapply same_policy_sound; [eapply advances_sound; [|exact Ha]; by eapply same_policy_sound|].
      trans (set_input_mon true false w1); [done|apply requeue_input_policy].
    + by eapply (idle_starts InputWork _ w1).
    + intros Hp. assert (wwork w1 PmuWork = None) as Hw1 by (rewrite (sc_pmu _ _ Hsc); by apply Hpl).
      unfold requeue_input, queue_delayed_work. case_goal; cbn; [done|]. by rewrite fn_lookup_insert_ne.
    + intros c Hc. by apply (sc_typed _ _ Hsc Hty).
Qed.

Lemma offline_all_calm cs : ∀ s w,
  (∀ c, c ∈ cs → iw (pmu_cpu s c) = false) →
  let '(s', w') := offline_all cs s w in w' = w ∧ kg_pmu_running s' = kg_pmu_running s.
Proof.
  unfold offline_all. induction cs as [|c cs IH]; intros s w Hs; [done|]. cbn [foldl].
  assert (Hone : ∃ s1, kg_pmu_cpu_offline c s w = (s1, w) ∧ kg_pmu_running s1 = kg_pmu_running s
    ∧ ∀ x, iw (pmu_cpu s x) = false → iw (pmu_cpu s1 x) = false).
  { unfold kg_pmu_cpu_offline, kg_pmu_irq_work.
    assert (Hc : iw (pmu_cpu s c) = false) by (apply Hs; by left).
    destruct s as [pc r st ev last par]. cbn in *. rewrite fn_lookup_insert. cbn. rewrite Hc. eexists. split; [done|].
    split; [done|]. intros x Hx. cbn. destruct (decide (x = c)) as [->|Hne].
    - rewrite !fn_lookup_insert. done.
    - by rewrite !fn_lookup_insert_ne. }
  destruct Hone as (s1 & He & Hr1 & Hiw). cbn [fst snd]. rewrite He. specialize (IH s1 w).
  destruct (foldl _ (s1, w) cs) as [s2 w2]. rewrite <- Hr1. apply IH. intros x Hx. apply Hiw, Hs. by right.
Qed.
Lemma online_all_calm avail cs : ∀ s,
  let s' := foldl (λ s c, kg_pmu_cpu_online (avail c) c s) s cs in
  kg_pmu_running s' = kg_pmu_running s
  ∧ ∀ c, c ∈ cs ∨ iw (pmu_cpu s c) = false → iw (pmu_cpu s' c) = false.
Proof.
  induction cs as [|c cs IH]; intros s; cbv zeta; cbn [foldl].
  { split; [done|]. intros c [Hc|Hc]; [by apply not_elem_of_nil in Hc|done]. }
  destruct (IH (kg_pmu_cpu_online (avail c) c s)) as [Hr Hiw]. split; [by rewrite Hr|].
  assert (Hone : ∀ x, x = c ∨ iw (pmu_cpu s x) = false → iw (pmu_cpu (kg_pmu_cpu_online (avail c) c s) x) = false).
  { intros x Hx. cbn. destruct (decide (x = c)) as [->|Hne]; [by rewrite fn_lookup_insert|].
    rewrite fn_lookup_insert_ne by done. by destruct Hx. }
  intros x [Hx|Hx]; apply Hiw; [|by right; apply Hone; right].
  apply elem_of_cons in Hx as [->|Hx]; [right; apply Hone; by left|by left].
Qed.

Lemma load_pmu_inv mb l k :
  sys_inv mb k → kg_pmu_running (k_pmu k) = false → sys_inv mb (load_pmu l k).
Proof.
  intros Hk Hr. unfold load_pmu. destruct (p_pmu l); [|done]. destruct (le_pmu l) as [[has_pmu hp] avail].
  destruct Hk as [Hs Hi Ht Hh Hin Hmo Hhl Hil Hinl Hpl Hhc Hup Hco Hty].
  unfold kg_pmu_init. destruct has_pmu; cbn [negb]; [|by constructor]. cbn [ktime_get_ns].
  assert (Hi' : idle (tick_mono (k_world k))) by (by eapply idle_sched, Hi; apply unscheduled_sched).
  destruct (hp <? 0); [constructor; cbn; try done; intros _; by apply Hpl|].
  set (s0 := set_last_ns _ _). destruct (online_all_calm avail online_cpus s0) as [Hrun Hiw].
  set (s1 := foldl _ s0 _) in *. destruct (_ =? 0).
  - pose proof (offline_all_calm online_cpus s1 (tick_mono (k_world k))) as Ho.
    destruct (offline_all _ _ _) as [s2 w2]. destruct Ho as [-> Hrun2]; [intros c Hc; apply Hiw; by left|].
    constructor; cbn; try done. intros _. by apply Hpl.
  - set (w1 := queue_delayed_work _ _ _). destruct (queue_keeps PmuWork (msecs (window_ms s1)) (tick_mono (k_world k))) as (Hm & Hc & Hp).
    fold w1 in Hm, Hc, Hp. constructor; cbn; unfold chan_typed; rewrite ?Hm, ?Hc, ?Hp; try done.
    + eapply same_policy_sound; [exact Hs|]. etrans; [|apply queue_work_frame]. done.
    + by eapply idle_starts.
Qed.

(** The result of a load, from what the kernel's calls return: only the core parts count. *)
Definition load_result (l : load_env) : option errno :=
  if negb (le_wq l) then Some ENOMEM
  else match le_tfm l with
  | Some e => Some e
  | None =>
    let '(alloc_ok, page_ok, tfm_err, setkey_err, _) := le_comms l in
    if negb alloc_ok || negb page_ok then Some ENOMEM
    else match tfm_err, setkey_err with
    | Some e, _ | None, Some e => Some e
    | None, None =>
      let '(alloc_ok, hp, _, _) := le_mit l in
      if negb alloc_ok then Some ENOMEM else if hp <? 0 then Some (EOTHER hp) else le_misc l
    end
  end.

(** A failed load: the monitors have not been started, the rest is undone. *)
Lemma booted_torn mb k k' :
  booted mb k → wmon (k_world k') = wmon (k_world k) → (∀ i, wwork (k_world k') i = None) →
  wcomms (k_world k') = None → pos_ready (wpos (k_world k')) = false → cpu (wguard (k_world k')) = None →
  k_integ k' = k_integ k → k_hw k' = k_hw k → k_input k' = k_input k → k_pmu k' = k_pmu k →
  k_wq k' = false → k_sha_tfm k' = false → torn_down k'.
Proof.
  intros [Bw Bc Br Bcap (Bi & Bh & Bg) Bt (Bg1 & Bg2 & Bg3 & Bg4) (Bh1 & Bh2 & Bh3 & _) (Bi1 & _) Bp _]
    Hm Hq Hc Hr Ht Hgi Hhw Hin Hpm Hwq Htf.
  constructor; rewrite ?Hm, ?Hgi, ?Hhw, ?Hin, ?Hpm; by try split_and!.
Qed.

(** What the core leaves for the monitors. *)
Record core_up (mb : Z) (k k' : kernelguard) : Prop := CoreUp {
  cu_inv : sys_inv mb k';
  cu_parts : k_integ k' = k_integ k ∧ k_hw k' = k_hw k ∧ k_input k' = k_input k ∧ k_pmu k' = k_pmu k;
  cu_mon : wmon (k_world k') = wmon (k_world k)
}.

Lemma core_up_inv mb k w :
  booted mb k → sound w → wmon w = wmon (k_world k) → wwork w = wwork (k_world k) →
  is_Some (wcomms w) → chan_typed w → pos_ready (wpos w) = true →
  core_up mb k (with_world w (with_core true true (k_misc k) k)).
Proof.
  intros [Bw Bc Br Bcap (Bi & Bh & Bg) Bt (Bg1 & Bg2 & Bg3 & Bg4) (Bh1 & Bh2 & Bh3 & Bh4) (Bi1 & Bi2 & Bi3) Bp _]
    Hs Hm Hq Hc Hty Hr.
  constructor; try done. constructor; cbn; rewrite ?Hm, ?Hq; try done.
  - constructor; rewrite ?Hm, ?Hq; by intros.
  - split; [|done]. destruct Hc as [c ->]. done.
Qed.

Lemma comms_init_spec a p t sk key w :
  let '(e, w') := kg_comms_init a p t sk key w in
  same_policy w w' ∧ wmon w' = wmon w ∧ wwork w' = wwork w
  ∧ (wcomms w' = None ↔ e ≠ None) ∧ chan_typed w'
  ∧ e = (if negb a || negb p then Some ENOMEM else match t, sk with Some e, _ | None, Some e => Some e | None, None => None end).
Proof.
  unfold kg_comms_init. destruct a, p, t, sk; cbn; split_and!; try done; try (by naive_solver).
  by intros c [= <-].
Qed.

Lemma load_core_spec mb l k :
  load_ok mb l → booted mb k →
  match load_core l k with
  | inl (e, k') => torn_down k' ∧ load_result l = Some e
  | inr k' => core_up mb k k' ∧ load_result l = le_misc l
  end.
Proof.
  intros Hl Hb. unfold load_core, load_result. destruct (le_wq l); cbn [negb].
  2:{ split; [|done]. eapply booted_torn; try done; apply Hb. }
  unfold kg_state_init. set (w0 := set_guard _ _). destruct (le_tfm l) as [e|].
  { split; [|done]. eapply booted_torn; try done; apply Hb. }
  destruct (le_comms l) as [[[[a p] t] sk] key]. cbn [k_world with_core with_world].
  pose proof (comms_init_spec a p t sk key w0) as Hc. destruct (kg_comms_init _ _ _ _ _ w0) as [e w1].
  destruct Hc as (Hpol & Hm1 & Hq1 & Hc1 & Hty1 & He). destruct e as [e|].
  { split; [|rewrite He; by destruct a, p, t, sk]. assert (wcomms w1 = None) by (by apply Hc1). destruct Hpol as (Hg & Hp & _).
    eapply booted_torn; try done; cbn; rewrite ?Hq1, ?Hp, ?Hg; try done; apply Hb. }
  assert (Hchan : is_Some (wcomms w1)) by (destruct (wcomms w1); [by eexists|]; by destruct (proj1 Hc1 eq_refl)).
  destruct (le_mit l) as [[[ma hp] ran] caps]. cbn [k_world with_world].
  pose proof (mit_init_unscheduled ma hp ran caps w1) as (Hm2 & Hc2 & Hq2 & Hr2).
  pose proof (mit_init_establishes ma hp ran caps w1 (lo_cpus _ _ Hl)) as Hest.
  assert (Hmr : (kg_mit_init ma hp ran caps w1).1 = (if negb ma then Some ENOMEM else if hp <? 0 then Some (EOTHER hp) else None)
                ∧ wpar (kg_mit_init ma hp ran caps w1).2 = wpar w1).
  { destruct ma; [|done]. destruct (hp <? 0) eqn:Hhp; bool_props.
    - unfold kg_mit_init. rewrite (proj2 (Z.ltb_lt _ _)) by done. split; [done|]. exact (proj2 (foldl_online_hdr caps ran _)).
    - pose proof (mit_init_ok hp ran caps w1 (lo_cpus _ _ Hl) Hhp) as Hok.
      destruct (kg_mit_init true hp ran caps w1). destruct Hok as (-> & _ & _ & Hpar). done. }
  destruct (kg_mit_init ma hp ran caps w1) as [e w2]. cbn [fst snd] in *. destruct Hmr as [Hmr Hpar].
  destruct e as [e|].
  - split; [|destruct a, p, t, sk; try done; destruct ma; cbn in *; destruct (hp <? 0); congruence].
    destruct Hest as [Hcpu _]. destruct Hchan as [c Hch]. destruct Hpol as (Hg & Hp & _).
    unfold err_comms, kg_comms_exit, kg_comms_set_device. rewrite <- Hc2 in Hch. cbn [k_world with_world]. rewrite Hch.
    eapply booted_torn; try done; cbn; rewrite ?Hch; cbn; rewrite ?Hm2, ?Hr2, ?Hp; try done.
    + intros i. rewrite Hq2, Hq1. destruct i; cbn; rewrite ?fn_lookup_insert, ?fn_lookup_insert_ne by done; try done; apply Hb.
    + apply Hb.
  - split; [|destruct a, p, t, sk; try done; destruct ma; cbn in *; destruct (hp <? 0); congruence].
    destruct Hest as (Hinv & _ & _). destruct Hpol as (_ & _ & Hpar1).
    apply (core_up_inv mb k (kg_posture_init w2)); cbn; try done; try congruence.
    + split; [done|]. cbn. rewrite Hpar, Hpar1. apply Hb.
    + by rewrite Hm2, Hm1.
    + by rewrite Hq2, Hq1.
    + intros c Hc. apply Hty1. by rewrite <- Hc2.
Qed.

Lemma load_monitors_spec allow mb l k k0 :
  load_ok mb l → booted mb k0 → core_up mb k0 k →
  ∃ k1 k2 k4, load_gate l k = Some k1 ∧ load_integrity l k1 = Some k2
  ∧ load_input allow l (load_hw l k2) = Some k4 ∧ sys_inv mb (load_pmu l k4).
Proof.
  intros Hl [Bw Bc Br Bcap (Bi & Bh & Bg) Bt (Bg1 & Bg2 & Bg3 & Bg4) (Bh1 & Bh2 & Bh3 & Bh4) (Bi1 & Bi2 & Bi3) Bp _]
    [Hk (Ki & Kh & Kn & Kp) Km].
  destruct (load_gate_inv mb l k Hk) as (k1 & -> & Hk1 & Ki1 & Kh1 & Kn1 & Kp1 & Hsc).
  destruct (load_integrity_inv mb l k1 Hl Hk1) as (k2 & Hl2 & Hk2 & Kh2 & Kn2 & Kp2 & Hr2); [congruence..|].
  destruct (load_hw_inv mb l k2 Hk2) as (Hk3 & Kn3 & Kp3 & Hr3); [congruence..|].
  destruct (load_input_inv allow mb l (load_hw l k2) Hk3) as (k4 & Hl4 & Hk4 & Kp4).
  { rewrite Hr3, Hr2, (sc_mon _ _ Hsc). congruence. }
  exists k1, k2, k4. split_and!; try done. apply load_pmu_inv; [done|congruence].
Qed.
End load.

Section lifecycle_theorems.
Context `{CryptoLaws} `{Platform}.

Lemma set_device_spec d w :
  wcomms w ≠ None →
  same_policy w (kg_comms_set_device d w) ∧ sched w (kg_comms_set_device d w)
  ∧ ∃ c, wcomms (kg_comms_set_device d w) = Some c ∧ dev c = d.
Proof.
  intros Hc. unfold kg_comms_set_device. destruct (wcomms w) as [c|] eqn:E; [|done]. cbv zeta.
  set (w1 := set_comms _ w).
  assert (Hset : sched w w1).
  { constructor; cbn; rewrite ?E; try done. intros Ht x [= <-]. by destruct (Ht c E). }
  destruct d.
  - destruct (queue_keeps UeventWork (msecs 0) w1) as (_ & Hc1 & _). split_and!.
    + trans w1; [done|apply queue_work_frame].
    + etrans; [exact Hset|]. apply queue_sched; by intros.
    + exists (set_dev true c). by rewrite Hc1.
  - split_and!; [done| |by exists (set_dev false c)]. etrans; [exact Hset|].
    constructor; cbn; try done; intros; by rewrite fn_lookup_insert_ne.
Qed.

Lemma guard_update_sound w : sound w → sound (kg_guard_update w) ∧ unscheduled w (kg_guard_update w).
Proof. intros [[Hi _] Hm]. split; [|done]. split; [|done]. by apply (guarded_inv id). Qed.
End lifecycle_theorems.


(** Unloading from any state of the loaded system leaves nothing behind: every monitor is
    stopped before what its work uses is taken away, and nothing that runs meanwhile puts a
    cancelled item back. *)
Lemma exit_spec `{CryptoLaws} `{Platform} `{InputEnv} mb k :
  is_u32 mb → sys_inv mb k → torn_down (kg_exit k) ∧ k_misc (kg_exit k) = false.
Proof.
  intros Hmb Hk. unfold kg_exit.
  destruct (set_device_spec false (k_world k)) as (Hpol & Hsc & _); [apply Hk|].
  set (k1 := modgate_exit _).
  assert (Hk1 : sys_inv mb k1).
  { assert (Hinv : sys_inv mb (with_world (kg_comms_set_device false (k_world k)) k)).
    { apply sys_inv_world; [done| |done]. eapply same_policy_sound, Hpol. apply Hk. }
    by destruct Hinv; constructor. }
  split; [by apply finish_spec, (stop_monitors_spec mb)|].
  unfold integrity_exit, hw_exit, input_exit, pmu_exit. by repeat case_goal.
Qed.

(** ** The ioctl contract *)
Lemma posture_set_total `{CryptoLaws} `{Platform} t w : ∃ r w', kg_posture_set t w = Some (r, w').
Proof.
  unfold kg_posture_set. do 4 (destruct (_ : bool); [by eexists _, w|]). cbn [ktime_get_ns].
  set (w1 := kg_pos_arm_decay_locked _).
  assert (Hup : ∃ w2, (if kg_posture w <? t then kg_pos_after_up report t w1 else Some w1) = Some w2).
  { destruct (_ <? t); [|by eexists]. destruct (after_up_spec report t w1) as (w2 & ? & _); [|by exists w2].
    apply (report_failsafe_quiet 1). }
  destruct Hup as (w2 & ->). bind_simpl.
  destruct (announce_quiet (kg_posture w) t KG_POSTURE_WHY_OPERATOR (pos_trigger (wpos w)) w2) as (w3 & -> & _).
  bind_simpl. by eexists _, w3.
Qed.

(** What a reply may carry. *)
Definition reply_ok `{Crypto} `{Platform} (u : caller) (k : kernelguard) (rep : reply) : Prop :=
  match rep with
  | ReplyNone => True
  | ReplyKey key => c_cap_sys_admin u = true ∧ ∃ c, wcomms (k_world k) = Some c ∧ key = take 32 (Kernel.key c)
  | ReplyInfo i => i = kg_fill_info k
  | ReplyCpu ci => ∃ c, c_cpu_arg u = Some c ∧ kg_mit_cpu_info c (k_world k) = inr ci
  | ReplyPosture p => p = kg_posture_info (k_world k)
  | ReplyModgate m => m = kg_modgate_info (k_gate k) (k_world k)
  end.

(** Every ioctl completes.  A caller gets the key only with CAP_SYS_ADMIN, and whatever it
    gets is the current value, with success; an error carries no data.  Nothing but
    SET_POSTURE with CAP_SYS_ADMIN and no flags changes the module, and without the
    capability it is EPERM whatever the arguments; a command that is not one of the six is
    ENOTTY. *)
Theorem ioctl_contract `{CryptoLaws} `{Platform} cmd u k :
  ∃ r rep k', kg_ioctl cmd u k = Some (r, rep, k')
  ∧ reply_ok u k rep ∧ (r ≠ None → rep = ReplyNone)
  ∧ (k' = k ∨ cmd = KG_IOC_SET_POSTURE ∧ c_cap_sys_admin u = true ∧ ∃ t, c_req_arg u = Some (t, 0))
  ∧ (cmd = KG_IOC_SET_POSTURE → c_cap_sys_admin u = false → r = Some EPERM)
  ∧ (∀ c, cmd = KG_IOC_UNKNOWN c → r = Some ENOTTY).
Proof.
  destruct cmd; cbn [kg_ioctl].
  - unfold kg_comms_get_key. destruct (wcomms (k_world k)) as [c|] eqn:E; [|by eexists _, _, k; split_and!; eauto].
    destruct (c_cap_sys_admin u) eqn:Ec; [|by eexists _, _, k; split_and!; eauto].
    destruct (c_copy_out u); eexists _, _, k; split_and!; eauto; cbn; rewrite ?Ec; by eauto.
  - destruct (c_alloc u), (c_copy_out u); eexists _, _, k; by split_and!; eauto.
  - destruct (c_cpu_arg u) as [c|] eqn:Ea; [|by eexists _, _, k; split_and!; eauto].
    destruct (kg_mit_cpu_info c (k_world k)) as [e|ci] eqn:Ei; [by eexists _, _, k; split_and!; eauto|].
    destruct (c_copy_out u); eexists _, _, k; split_and!; eauto; cbn; by eauto.
  - destruct (c_copy_out u); eexists _, _, k; by split_and!; eauto.
  - destruct (c_cap_sys_admin u) eqn:Ec; cbn [negb]; [|by eexists _, _, k; split_and!; eauto].
    destruct (c_req_arg u) as [[t f]|] eqn:Ea; [|by eexists _, _, k; split_and!; eauto].
    destruct (f =? 0) eqn:Ef; cbn [negb]; [|by eexists _, _, k; split_and!; eauto].
    destruct (posture_set_total t (k_world k)) as (r & w' & ->). bind_simpl. apply Z.eqb_eq in Ef as ->.
    eexists _, _, _. by split_and!; eauto.
  - destruct (c_copy_out u); eexists _, _, k; by split_and!; eauto.
  - eexists _, _, k. by split_and!; eauto.
Qed.

(** ** A concrete load: every part configured, on the machine of Machine.v *)
Definition boot_pmu : kg_pmu := set_running false (set_pmu_stop true sample_pmu).
Definition boot_k : kernelguard :=
  KernelGuard boot_world (Gate [] [] 0 [] false false false false 0 0 0 0 0) boot_integ boot_hw
              (Input [] 0 [] [] false kbd_store 0) boot_pmu false false false.
Lemma boot_k_booted : booted 128 boot_k.
Proof.
  constructor; try done.
  - split_and!; try done. constructor; cbn; try (done || lia). apply boot_hw_wf.
  - split_and!; try done. constructor; cbn; [done|lia|lia].
Qed.

Definition sample_load (misc : option errno) : load_env := {|
  le_wq := true; le_tfm := None;
  le_comms := (true, true, None, None, replicate 32 0x0b);
  le_mit := (true, 0, [], λ _, sample_caps);
  le_gate := (true, bytes_of "rtcore64", [], true, inr [sample_mod], None, inr [sample_mod], LoadPolicy true true true true);
  p_integrity := true;
  le_integ := (TextParams true true 128, TextModule 1 (bytes_of "kernelguard") 0xffffffffc0000000 4096 true 0,
               IntegAllocs true true true true (true, true) (true, true) (λ _, (true, true)), inr [], true);
  p_hw := true; le_hw := (true, true, true);
  p_input := true; le_input := inr [];
  p_pmu := true; le_pmu := (true, 0, λ _ _, true);
  le_misc := misc
|}.
Lemma sample_load_ok misc : @load_ok two_cpus 128 (sample_load misc).
Proof.
  constructor; [done|by split|exact (eq_refl Lt)|constructor].
Qed.


Lemma ioctl_contract_witness :
  ∃ r rep k', @kg_ioctl sha_api two_cpus KG_IOC_SET_POSTURE (Caller false None (Some (KG_POSTURE_NORMAL, 0)) true true) boot_k
              = Some (r, rep, k') ∧ r = Some EPERM ∧ rep = ReplyNone.
Proof.
  destruct (@ioctl_contract sha_api sha_api_laws two_cpus KG_IOC_SET_POSTURE
              (Caller false None (Some (KG_POSTURE_NORMAL, 0)) true true) boot_k) as (r & rep & k' & Hi & _ & He & _ & Hp & _).
  exists r, rep, k'. specialize (Hp eq_refl eq_refl). split_and!; [exact Hi|exact Hp|]. apply He. by rewrite Hp.
Defined.
