(* ===== verification/System.v ===== *)
(** * The loaded module in operation: every handler of every component, interleaved

    [sys_step] is one step of the module between a successful load and the unload: an ioctl,
    a work item that is due, a notifier, an interrupt, a keyboard that comes or goes.
    Each step sees a kernel of its own (its CPUs, clocks, buses and tables).  The invariant
    [sys_inv] of Main.v holds in every state a run reaches, every work item that is queued can
    run to its end, and from every such state the module unloads without leaving anything. *)
From S2P Require Import Prelude Uapi Kernel Machine Guard Registry Comms Posture Sched Advance Pmu Run Modgate TextCheck Integrity PciScan Hw Input Main.
Local Open Scope Z_scope.

Inductive sys_event :=
  | SysIoctl (cmd : ioctl_cmd) (u : caller)
  | SysWork (i : work)                       (* the work item is due *)
  | SysCpuOnline (c : Z)                     (* the hotplug callbacks *)
  | SysCpuOffline (c : Z)
  | SysOverflow (c : Z)                      (* a counter overflows *)
  | SysIrqWork (c : Z)
  | SysModule                                (* a module changes state *)
  | SysGate                                  (* the gate is asked about a module *)
  | SysLock                                  (* mod_lock is written *)
  | SysBus (a : bus_action)
  | SysConnect | SysDisconnect | SysDevices  (* keyboards, and other handlers on them *)
  | SysParams (p : params).

(** A due work item is taken off the queue, then its function runs. *)
Section work_items.
Context `{Crypto} `{Platform} `{TextEnv} `{CpuEnv} `{PciEnv} `{InputEnv}.

Definition run_work (dma_allow kbd_allow : list Z) (alloc_ok : bool) (i : work) (k : kernelguard)
  : option kernelguard :=
  let w := cancel_work i (k_world k) in
  match i with
  | DecayWork => w ← kg_pos_decay_fn w; Some (with_world w k)
  | UeventWork => '(_, w) ← kg_uevent_workfn w; Some (with_world w k)
  | IntegWork => '(s, w) ← kg_integ_workfn alloc_ok (k_integ k) w; Some (with_integ s w k)
  | HwWork => '(h, w) ← kg_hw_workfn dma_allow (k_hw k) w; Some (with_hw h w k)
  | InputWork => '(s, w) ← kg_input_workfn kbd_allow (k_input k) w; Some (with_input s w k)
  | PmuWork => '(s, w) ← kg_pmu_sample (k_pmu k) w; Some (with_pmu s w k)
  end.
End work_items.

(** The offline callback of a CPU; the PMU keeps its counters only while it runs. *)
Definition pmu_offline (c : Z) (k : kernelguard) : kernelguard :=
  let '(s, w) := kg_pmu_cpu_offline c (k_pmu k) (k_world k) in with_pmu s w k.
Definition pmu_online (avail : kind → bool) (c : Z) (k : kernelguard) : kernelguard :=
  if kg_pmu_running (k_pmu k) then with_pmu (kg_pmu_cpu_online avail c (k_pmu k)) (k_world k) k else k.

Inductive sys_step `{Crypto} (mb : Z) : kernelguard → sys_event → kernelguard → Prop :=
  | sys_ioctl (P : Platform) cmd u r rep k k' :
      match c_req_arg u with Some (t, f) => 0 ≤ t | None => True end →
      kg_ioctl cmd u k = Some (r, rep, k') → sys_step mb k (SysIoctl cmd u) k'
  | sys_work (P : Platform) (T : TextEnv) (C : CpuEnv) (B : PciEnv) (I : InputEnv) da ka ok i d k k' :
      wwork (k_world k) i = Some d → run_work da ka ok i k = Some k' → sys_step mb k (SysWork i) k'
  | sys_online c caps avail k :
      sys_step mb k (SysCpuOnline c)
        (pmu_online avail c (with_world (kg_mit_cpu_online c caps (k_world k)) k))
  | sys_offline c k :
      kg_pmu_running (k_pmu k) = true → sys_step mb k (SysCpuOffline c) (pmu_offline c k)
  | sys_overflow c ctx busy user k :
      kg_pmu_running (k_pmu k) = true →
      sys_step mb k (SysOverflow c)
        (let '(s, w) := kg_pmu_overflow c ctx busy user (k_pmu k) (k_world k) in with_pmu s w k)
  | sys_irq_work c k :
      kg_pmu_running (k_pmu k) = true →
      sys_step mb k (SysIrqWork c)
        (let '(s, w) := kg_pmu_irq_work c (k_pmu k) (k_world k) in with_pmu s w k)
  | sys_module (P : Platform) (T : TextEnv) par self act a b m k s w :
      p_text_max_mb par = mb → sized m → is_Some (ig_base (k_integ k)) →
      kg_module_notify par self act a b m (k_integ k) (k_world k) = Some (s, w) →
      sys_step mb k SysModule (with_integ s w k)
  | sys_gate (P : Platform) coming self m r g w k :
      kg_gate_notify coming self m (k_gate k) (k_world k) = Some (r, g, w) →
      sys_step mb k SysGate (with_gate g w k)
  | sys_lock val ok live k :
      sys_step mb k SysLock (with_gate (kg_gate_cfg_set_lock val ok live (k_gate k)).2 (k_world k) k)
  | sys_bus a k : sys_step mb k (SysBus a) (with_world (kg_pci_notify a (k_world k)) k)
  | sys_connect (I : InputEnv) ok handle dev k :
      kg_input_running (wmon (k_world k)) = true →
      sys_step mb k SysConnect
        (let '(_, s, w) := kg_input_connect ok handle dev (k_input k) (k_world k) in with_input s w k)
  | sys_disconnect (I : InputEnv) kb k :
      kg_input_running (wmon (k_world k)) = true → kb ∈ in_kbds (k_input k) →
      sys_step mb k SysDisconnect (with_input (kg_input_disconnect kb (k_input k)) (k_world k) k)
  | sys_devices devs k :
      sys_step mb k SysDevices (with_input (with_devs devs (in_time (k_input k)) (k_input k)) (k_world k) k)
  | sys_params p k :
      0 ≤ kg_max_posture p → sys_step mb k (SysParams p) (with_world (set_par p (k_world k)) k).

Inductive sys_run `{Crypto} (mb : Z) : kernelguard → list sys_event → kernelguard → Prop :=
  | sys_run_nil k : sys_run mb k [] k
  | sys_run_cons k1 e k2 es k3 : sys_step mb k1 e k2 → sys_run mb k2 es k3 → sys_run mb k1 (e :: es) k3.

(** How a step may move the ladder down. *)
Definition may_lower (e : sys_event) (w w' : world) : Prop :=
  (∃ u, e = SysIoctl KG_IOC_SET_POSTURE u ∧ c_cap_sys_admin u = true ∧ c_req_arg u = Some (kg_posture w', 0)
        ∧ (KG_POSTURE_HIGH ≤ kg_posture w → pos_untrusted (wpos w) = false))
  ∨ (e = SysWork DecayWork ∧ kg_posture w = KG_POSTURE_ELEVATED ∧ kg_posture w' = KG_POSTURE_NORMAL).

Record sys_ok `{Crypto} (mb : Z) (e : sys_event) (k k' : kernelguard) : Prop := SysOk {
  so_inv : sys_inv mb k';
  so_posture : kg_posture (k_world k) ≤ kg_posture (k_world k') ∨ may_lower e (k_world k) (k_world k');
  so_untrusted : pos_untrusted (wpos (k_world k)) = true → pos_untrusted (wpos (k_world k')) = true
}.

(** ** The sampler advances the world, but for its own work item *)
Section sampler_advances.
Context `{CryptoLaws} `{Platform}.

Lemma sample_kind_advances now denom warn crit c k s w :
  sound w →
  ∃ s' w', sample_kind now denom warn crit c k s w = Some (s', w') ∧ advances w w'
  ∧ kg_pmu_running s' = kg_pmu_running s.
Proof.
  intros Hs. unfold sample_kind. destruct (negb _); [by exists s, w; split_and!; [|apply advances_refl|]|].
  destruct (sample_ev _ _ _) as [e' []].
  - set (lvl := pmu_level _ _ _). set (p1 := if 0 <? _ then _ else _). set (p2 := Z.lor _ _).
    destruct (report_advances (match k with KG_EV_L1D => KG_ALERT_PMU_L1D_ANOMALY | KG_EV_LLC => KG_ALERT_PMU_L2_ANOMALY end)
                lvl p1 p2 w Hs) as (w' & -> & Ha & _). bind_simpl. by eexists _, w'.
  - eexists _, w. split_and!; [done|by apply advances_refl|done].
Qed.

Lemma sample_cpus_advances now denom warn crit cs : ∀ s w m,
  sound w →
  ∃ s' w' m', sample_cpus now denom warn crit cs (s, w, m) = Some (s', w', m') ∧ advances w w'
  ∧ kg_pmu_running s' = kg_pmu_running s.
Proof.
  induction cs as [|c cs IH]; intros s w m Hs; cbn [sample_cpus].
  { exists s, w, m. split_and!; [done|by apply advances_refl|done]. }
  unfold sample_cpu.
  destruct (sample_kind_advances now denom warn crit c KG_EV_L1D s w Hs) as (s1 & w1 & -> & Ha1 & Hr1). bind_simpl.
  destruct (sample_kind_advances now denom warn crit c KG_EV_LLC s1 w1) as (s2 & w2 & -> & Ha2 & Hr2);
    [eauto with adv|]. bind_simpl.
  destruct (IH (on_cpu c (set_crit (any_crit (pmu_cpu s2 c))) s2) w2
              (Z.max (Z.max m (active_level (pmu_cpu s2 c) KG_EV_L1D)) (active_level (pmu_cpu s2 c) KG_EV_LLC)))
    as (s3 & w3 & m3 & -> & Ha3 & Hr3); [eauto with adv|].
  exists s3, w3, m3. split_and!; [done|by do 2 (etrans; [eassumption|])|by rewrite Hr3, <- Hr1, <- Hr2].
Qed.

Lemma relax_all_advances s cs w : sound w → advances w (foldl (relax_calm s) w cs).
Proof.
  revert w. induction cs as [|c cs IH]; intros w Hs; [by apply advances_refl|]. cbn [foldl].
  assert (Ha : advances w (relax_calm s w c)).
  { unfold relax_calm. case_goal; [|by apply advances_refl].
    apply quiet_advances; [done|apply relax_quiet|apply unscheduled_sched, relax_unscheduled]. }
  etrans; [exact Ha|]. apply IH. eauto with adv.
Qed.

Lemma pmu_sample_advances s w :
  sound w →
  ∃ s' w1, kg_pmu_sample s w
    = Some (s', if negb (kg_pmu_stop s') then queue_delayed_work PmuWork (msecs (window_ms s')) w1 else w1)
  ∧ advances w w1 ∧ kg_pmu_running s' = kg_pmu_running s.
Proof.
  intros Hs. unfold kg_pmu_sample. cbn [ktime_get_ns]. destruct (kg_pmu_thresholds (pmu_par s)) as [warn crit].
  assert (Ha0 : advances w (tick_mono w)) by (by apply same_policy_advances, unscheduled_sched).
  set (now := ktime_get_ns_at _). set (denom := Z.max _ _).
  destruct (sample_cpus_advances now denom warn crit online_cpus (set_last_ns now s) (tick_mono w) 0)
    as (s' & w1 & m & -> & Ha1 & Hr); [eauto with adv|]. bind_simpl.
  eexists s', _. split; [done|]. split; [|done].
  etrans; [exact Ha0|]. etrans; [exact Ha1|].
  assert (Hst : advances w1 (kg_stat_set pmu_alert_level m w1)).
  { apply same_policy_advances; [eauto with adv|done|by apply unscheduled_sched]. }
  etrans; [exact Hst|]. apply relax_all_advances. eauto with adv.
Qed.
End sampler_advances.

(** ** The invariant, one component at a time *)
Section components.
Context `{CryptoLaws}.

Lemma sys_advances mb k w : sys_inv mb k → advances (k_world k) w → sys_inv mb (with_world w k).
Proof. intros Hk Ha. apply sys_inv_world; [done|by eapply advances_sound, Ha; apply Hk|apply Ha]. Qed.

(** A work item is taken off the queue. *)
Lemma take_inv mb i k : sys_inv mb k → sys_inv mb (with_world (cancel_work i (k_world k)) k).
Proof.
  intros [Hs Hi Ht Hh Hin Hmo Hhl Hil Hinl Hpl Hhc Hup Hco Hty]. constructor; cbn; try done.
  - eapply idle_cancels; [by eapply (cancel_work_cancels i (wmon (k_world k)))|by left..|done].
  - intros Hr. destruct (decide (i = PmuWork)) as [->|Hne]; [by rewrite fn_lookup_insert|].
    rewrite fn_lookup_insert_ne by done. by apply Hpl.
Qed.

Lemma with_gate_inv mb g k : sys_inv mb k → sys_inv mb (with_gate g (k_world k) k).
Proof. by intros []; constructor. Qed.
Lemma with_integ_inv mb s k :
  sys_inv mb k → text_inv mb (ig_text s) → is_Some (ig_base s) → sys_inv mb (with_integ s (k_world k) k).
Proof. intros [] Ht [b Hb]. constructor; cbn; try done. congruence. Qed.
Lemma with_hw_inv mb h k :
  sys_inv mb k → hw_inv h → h_running h = true → sys_inv mb (with_hw h (k_world k) k).
Proof. intros [] Hh Hr. constructor; cbn; try done; congruence. Qed.
Lemma with_input_inv mb s k :
  sys_inv mb k → input_inv s → in_baselining s = false → kg_input_running (wmon (k_world k)) = true →
  sys_inv mb (with_input s (k_world k) k).
Proof. intros [] Hi Hb Hr. constructor; cbn; try done. congruence. Qed.
(** While the sampler runs, its own item may be queued or not. *)
Lemma with_pmu_inv mb s k :
  sys_inv mb k → kg_pmu_running s = true → sys_inv mb (with_pmu s (k_world k) k).
Proof. intros [] Hr. constructor; cbn; try done. congruence. Qed.
Lemma pmu_queued_inv mb s q k :
  sys_inv mb k → kg_pmu_running s = true → (∀ i, i ≠ PmuWork → q i = wwork (k_world k) i) →
  sys_inv mb (with_pmu s (set_work q (k_world k)) k).
Proof.
  intros [Hs [Ih Ii In Id Iu] Ht Hh Hin Hmo Hhl Hil Hinl Hpl Hhc Hup Hco Hty] Hr Hq. constructor; cbn; try done; [|congruence].
  constructor; cbn; intros; rewrite Hq by done; auto.
Qed.
Lemma pmu_kick_inv mb s d k :
  sys_inv mb k → kg_pmu_running s = true →
  sys_inv mb (with_pmu s (mod_delayed_work PmuWork d (k_world k)) k)
  ∧ sys_inv mb (with_pmu s (queue_delayed_work PmuWork d (k_world k)) k).
Proof.
  intros Hk Hr. split; [|unfold queue_delayed_work; case_goal; [by apply with_pmu_inv|]];
    (apply pmu_queued_inv; [done..|]; intros i Hi; by rewrite fn_lookup_insert_ne).
Qed.

(** The item of a monitor is queued only while the monitor is up. *)
Lemma queued_running mb k d :
  sys_inv mb k →
  (wwork (k_world k) IntegWork = Some d → is_Some (ig_base (k_integ k)))
  ∧ (wwork (k_world k) HwWork = Some d → h_running (k_hw k) = true)
  ∧ (wwork (k_world k) InputWork = Some d → kg_input_running (wmon (k_world k)) = true)
  ∧ (wwork (k_world k) PmuWork = Some d → kg_pmu_running (k_pmu k) = true).
Proof.
  intros Hk. split_and!; intros Hq.
  - destruct (ig_base (k_integ k)) eqn:E; [by eexists|]. destruct (sy_integ_link _ _ Hk E) as [Hs _].
    rewrite (id_integ _ (sy_idle _ _ Hk) Hs) in Hq. done.
  - apply not_false_iff_true. intros E. rewrite (id_hw _ (sy_idle _ _ Hk) (sy_hw_link _ _ Hk E)) in Hq. done.
  - apply not_false_iff_true. intros E.
    rewrite (id_input _ (sy_idle _ _ Hk)) in Hq; [done|]. unfold accepts_input. by rewrite E.
  - apply not_false_iff_true. intros E. rewrite (sy_pmu_link _ _ Hk E) in Hq. done.
Qed.
End components.

(** ** Every queued item runs to its end *)
Section work_spec.
Context `{CryptoLaws} `{Platform} `{TextEnv} `{CpuEnv} `{PciEnv} `{InputEnv}.

Lemma advances_ok mb e k w :
  sys_inv mb k → advances (k_world k) w → sys_ok mb e k (with_world w k).
Proof.
  intros Hk Ha. split; [by apply sys_advances|left; apply Ha|apply Ha].
Qed.

Lemma decay_fn_total w : ∃ w', kg_pos_decay_fn w = Some w'.
Proof.
  unfold kg_pos_decay_fn. destruct (_ && _ && _); [|by eexists]. cbn [ktime_get_ns]. destruct (_ <=? _); [|by eexists].
  destruct (announce_quiet KG_POSTURE_ELEVATED KG_POSTURE_NORMAL KG_POSTURE_WHY_DECAY (pos_trigger (wpos (tick_mono w)))
              (kg_pos_apply_locked KG_POSTURE_NORMAL (tick_mono w))) as (w' & -> & _). by eexists.
Qed.

Lemma run_work_ok mb da ka ok i d k :
  sys_inv mb k → wwork (k_world k) i = Some d →
  ∃ k', run_work da ka ok i k = Some k' ∧ sys_ok mb (SysWork i) k k'.
Proof.
  intros Hk Hd. pose proof (take_inv mb i k Hk) as Hk0. destruct (queued_running mb k d Hk) as (Qg & Qh & Qn & Qp).
  set (w0 := cancel_work i (k_world k)) in *. assert (Hs0 : sound w0) by apply (sy_sound _ _ Hk0).
  assert (Hend : ∀ k', kg_posture w0 ≤ kg_posture (k_world k') →
    (pos_untrusted (wpos w0) = true → pos_untrusted (wpos (k_world k')) = true) → sys_inv mb k' →
    sys_ok mb (SysWork i) k k') by (intros; constructor; [done|by left|done]).
  destruct i; unfold run_work; fold w0.
  - destruct (decay_fn_total w0) as (w' & Hdec). rewrite Hdec. bind_simpl. eexists. split; [done|].
    destruct (decay_step_ok w0 w' Hdec Hs0) as (Hinv & Hp & Hu). constructor; [| |done].
    + apply (sys_inv_world mb (with_world w0 k)); [done|exact Hinv|by apply decay_sched_fn].
    + destruct Hp as [Hp|Hp]; [left; cbn; by rewrite Hp|by right; right].
  - destruct (input_workfn_advances ka (k_input k) w0 Hs0 (sy_input _ _ Hk)) as (s' & w' & -> & Ha & Hsc); [by apply Qn|].
    bind_simpl. eexists. split; [done|]. apply Hend; [apply Ha|apply Ha|].
    apply (with_input_inv mb s' (with_world w' (with_world w0 k))).
    + by apply sys_advances.
    + by apply Hsc.
    + rewrite (sd_mode _ _ Hsc). apply Hk.
    + cbn. rewrite (sc_mon _ _ (ad_sched _ _ Ha)). by apply Qn.
  - destruct (hw_workfn_advances da (k_hw k) w0 Hs0 (sy_hw _ _ Hk)) as (h' & w' & -> & Ha & Hh & Hr).
    bind_simpl. eexists. split; [done|]. apply Hend; [apply Ha|apply Ha|].
    apply (with_hw_inv mb h' (with_world w' (with_world w0 k))); [by apply sys_advances|done|]. rewrite Hr. by apply Qh.
  - destruct (integ_workfn_advances mb ok (k_integ k) w0 Hs0 (sy_text _ _ Hk)) as (s' & w' & -> & Ha & Ht & _ & Hb).
    bind_simpl. eexists. split; [done|]. apply Hend; [apply Ha|apply Ha|].
    apply (with_integ_inv mb s' (with_world w' (with_world w0 k))); [by apply sys_advances|done|].
    destruct (ig_base s') eqn:E; [by eexists|]. destruct (Qg Hd) as [b Hb']. by rewrite (proj1 Hb eq_refl) in Hb'.
  - destruct (pmu_sample_advances (k_pmu k) w0 Hs0) as (s' & w1 & -> & Ha & Hr). bind_simpl. eexists. split; [done|].
    assert (Hk1 : sys_inv mb (with_world w1 (with_world w0 k))) by (by apply sys_advances).
    assert (Hrun : kg_pmu_running s' = true) by (rewrite Hr; by apply Qp).
    destruct (kg_pmu_stop s'); cbn [negb].
    + apply Hend; [apply Ha|apply Ha|]. by apply (with_pmu_inv mb s' (with_world w1 k)).
    + destruct (queue_work_frame PmuWork (msecs (window_ms s')) w1) as (Hg & Hp & _).
      apply Hend; cbn [k_world with_pmu]; unfold kg_posture; rewrite ?Hg, ?Hp; [apply Ha|apply Ha|].
      by apply (pmu_kick_inv mb s' _ (with_world w1 k)).
  - destruct (uevent_workfn_total w0 (sy_typed _ _ Hk0)) as (l & w' & Hu & Hsc). rewrite Hu. bind_simpl.
    eexists. split; [done|]. pose proof (uevents_quiet _ _ _ Hu) as Hq.
    assert (Ha : advances w0 w') by (by apply quiet_advances).
    apply Hend; [apply Ha|apply Ha|]. by apply (sys_advances mb (with_world w0 k)).
Qed.
End work_spec.

(** ** Every step *)
Section steps.
Context `{CryptoLaws}.

Lemma same_policy_ok mb e k k' :
  sys_inv mb k' → same_policy (k_world k) (k_world k') → sys_ok mb e k k'.
Proof.
  intros Hk (Hg & Hp & _). constructor; [done|left; unfold kg_posture; by rewrite Hg|by rewrite Hp].
Qed.

Lemma overflow_frame c ctx busy user s w :
  let '(s', w') := kg_pmu_overflow c ctx busy user s w in
  same_policy w w' ∧ unscheduled w w' ∧ kg_pmu_running s' = kg_pmu_running s.
Proof.
  unfold kg_pmu_overflow. destruct (kind_of ctx) as [kd|]; [|done]. destruct (_ || _); [done|].
  destruct (kg_pmu_thresholds _) as [warn crit].
  assert (Hf : ∀ w1, same_policy w1 (kg_boundary_flush_forced c w1) ∧ unscheduled w1 (kg_boundary_flush_forced c w1)).
  { intros w1. unfold kg_boundary_flush_forced, kg_l1d_flush. by case_goal. }
  destruct (crit <=? _); [|by destruct user]. destruct (Hf (kg_stat_inc (match kd with KG_EV_L1D => pmu_l1d_overflows
    | KG_EV_LLC => pmu_llc_overflows end) w)) as [Hp Hu].
  split_and!; [by etrans; [|exact Hp]|by etrans; [|exact Hu]|]. by case_goal; destruct user.
Qed.

Lemma pmu_irq_inv mb c s k :
  sys_inv mb k → kg_pmu_running s = true →
  let '(s', w') := kg_pmu_irq_work c s (k_world k) in
  sys_inv mb (with_pmu s' w' k) ∧ same_policy (k_world k) w' ∧ kg_pmu_running s' = true.
Proof.
  intros Hk Hr. unfold kg_pmu_irq_work. destruct (iw _); [|by split_and!; [apply with_pmu_inv|..]].
  destruct (kg_pmu_stop s); cbn [negb]; (split_and!; [|done|done]); [by apply with_pmu_inv|].
  by apply (pmu_kick_inv mb (on_cpu c (set_iw false) s) (msecs 0) k).
Qed.

Lemma gate_notify_advances `{Platform} coming self m g w :
  sound w → ∃ r g' w', kg_gate_notify coming self m g w = Some (r, g', w') ∧ advances w w'.
Proof.
  intros Hw. unfold kg_gate_notify. destruct (_ || _); [by eexists _, _, w; split; [|apply advances_refl]|].
  destruct (_ && _); [by eexists _, _, w; split; [|apply advances_refl]|].
  destruct (kg_pack_name (m_name m)) as [np0 np1].
  assert (Hrep : ∀ ty lv, ∃ w', report ty lv np0 np1 w = Some w' ∧ advances w w').
  { intros ty lv. destruct (report_advances ty lv np0 np1 w Hw) as (w' & ? & ? & _). by exists w'. }
  destruct (kg_enforcing w); [|destruct (kg_gate_denied g m)].
  - destruct (Hrep KG_ALERT_DRIVER_BLOCKED (if kg_gate_denied g m then KG_LEVEL_CRITICAL else KG_LEVEL_WATCH)) as (w' & -> & Ha).
    bind_simpl. by eexists _, _, w'.
  - destruct (Hrep KG_ALERT_VULN_DRIVER KG_LEVEL_CRITICAL) as (w' & -> & Ha). bind_simpl. by eexists _, _, w'.
  - destruct (Hrep KG_ALERT_MODULE_LOADED KG_LEVEL_WATCH) as (w' & -> & Ha). bind_simpl. by eexists _, _, w'.
Qed.

Lemma ioctl_ok `{Platform} mb cmd u r rep k k' :
  match c_req_arg u with Some (t, f) => 0 ≤ t | None => True end →
  kg_ioctl cmd u k = Some (r, rep, k') → sys_inv mb k → sys_ok mb (SysIoctl cmd u) k k'.
Proof.
  intros Ht Hi Hk.
  assert (Hsame : k' = k → sys_ok mb (SysIoctl cmd u) k k') by (intros ->; by apply same_policy_ok).
  destruct cmd; cbn [kg_ioctl] in Hi.
  5:{ destruct (c_cap_sys_admin u) eqn:Ecap; cbn [negb] in Hi; [|by apply Hsame; simplify_eq].
      destruct (c_req_arg u) as [[t f]|] eqn:Earg; [|by apply Hsame; simplify_eq].
      destruct (f =? 0) eqn:Ef; cbn [negb] in Hi; [|by apply Hsame; simplify_eq].
      destruct (kg_posture_set t (k_world k)) as [[r' w']|] eqn:Eset; [|done].
      cbn in Hi. injection Hi as <- <- <-. apply Z.eqb_eq in Ef as ->.
      destruct (operator_step_ok t r' (k_world k) w' Ht Eset (sy_sound _ _ Hk)) as (Hinv & Hp & Hu).
      constructor; [apply sys_inv_world; [done|exact Hinv|by eapply posture_set_sched]| |exact Hu]. cbn in Hp |- *.
      destruct Hp as [Hp|[Hp Hno]]; [left; by rewrite Hp|].
      destruct (decide (kg_posture (k_world k) ≤ kg_posture w')) as [Hle|Hgt]; [by left|]. right. left.
      exists u. split_and!; [done|done|by rewrite Hp|]. intros Hh. apply not_true_is_false. intros Hun. apply Hno.
      split_and!; [lia|done|done]. }
  all: apply Hsame; repeat match type of Hi with context [match ?b with _ => _ end] => destruct b end; by simplify_eq.
Qed.

Lemma pci_notify_advances a w : sound w → advances w (kg_pci_notify a w).
Proof.
  intros Hs. unfold kg_pci_notify.
  destruct a; try (by apply advances_refl); (case_goal as Es; [|by apply advances_refl]);
    (apply same_policy_advances; [done|done|]); apply negb_true_iff in Es; by apply queue_sched.
Qed.

Lemma online_ok mb c caps avail k :
  sys_inv mb k →
  sys_ok mb (SysCpuOnline c) k (pmu_online avail c (with_world (kg_mit_cpu_online c caps (k_world k)) k)).
Proof.
  intros Hk. set (w := kg_mit_cpu_online c caps (k_world k)).
  assert (Ha : advances (k_world k) w).
  { apply quiet_advances; [apply Hk|apply cpu_online_quiet|by apply unscheduled_sched]. }
  pose proof (sys_advances mb k w Hk Ha) as Hk1. unfold pmu_online. case_goal as Er.
  - constructor; [|left; apply Ha|apply Ha]. by apply (with_pmu_inv mb _ (with_world w k)).
  - by apply advances_ok.
Qed.

Lemma offline_ok mb c k :
  sys_inv mb k → kg_pmu_running (k_pmu k) = true → sys_ok mb (SysCpuOffline c) k (pmu_offline c k).
Proof.
  intros Hk Hr. unfold pmu_offline, kg_pmu_cpu_offline. set (s := add_events _ _).
  assert (Hs : kg_pmu_running s = true) by exact Hr.
  pose proof (pmu_irq_inv mb c s k Hk Hs) as Hirq. destruct (kg_pmu_irq_work c s (k_world k)) as [s1 w1].
  destruct Hirq as (Hk1 & Hp & Hr1). apply same_policy_ok; [|done]. by apply (with_pmu_inv mb _ (with_pmu s1 w1 k)).
Qed.

Lemma sys_step_ok mb k e k' : is_u32 mb → sys_step mb k e k' → sys_inv mb k → sys_ok mb e k k'.
Proof.
  intros Hmb Hstep Hk. destruct Hstep as
    [P cmd u r rep k k' Ht Hi|P T C B I da ka ok i d k k' Hd Hr|c caps avail k|c k Hr|c ctx busy user k Hr|c k Hr
    |P T par self act a b m k s w Hpar Hm Hbase Hn|P coming self m r g w k Hn|val ok live k|a k
    |I ok handle dv k Hr|I kb k Hr Hkb|devs k|p k Hp].
  - by eapply ioctl_ok.
  - destruct (run_work_ok mb da ka ok i d k Hk Hd) as (k1 & Hk1 & Hok). congruence.
  - by apply online_ok.
  - by apply offline_ok.
  - pose proof (overflow_frame c ctx busy user (k_pmu k) (k_world k)) as Ho.
    destruct (kg_pmu_overflow _ _ _ _ _ _) as [s w]. destruct Ho as (Hp & Hu & Hrun). apply same_policy_ok; [|done].
    apply (with_pmu_inv mb s (with_world w k)); [|by rewrite Hrun].
    apply sys_inv_world; [done|by eapply same_policy_sound, Hp; apply Hk|by apply unscheduled_sched].
  - pose proof (pmu_irq_inv mb c (k_pmu k) k Hk Hr) as Hirq. destruct (kg_pmu_irq_work _ _ _) as [s w].
    destruct Hirq as (Hk1 & Hp & _). by apply same_policy_ok.
  - subst mb. destruct (module_notify_advances par self Hmb act a b m (k_integ k) (k_world k)) as (s' & w' & Hn' & Ha & Ht & Hb);
      [apply Hk|done|apply Hk|]. rewrite Hn in Hn'. injection Hn' as <- <-.
    constructor; [|left; apply Ha|apply Ha].
    apply (with_integ_inv _ s (with_world w k)); [by apply sys_advances|done|].
    destruct (ig_base s); [by eexists|]. destruct Hbase as [x Hx]. by rewrite (proj1 Hb eq_refl) in Hx.
  - destruct (gate_notify_advances coming self m (k_gate k) (k_world k)) as (r' & g' & w' & Hn' & Ha); [apply Hk|].
    rewrite Hn in Hn'. injection Hn' as <- <- <-. constructor; [|left; apply Ha|apply Ha].
    by apply (with_gate_inv mb g (with_world w k)), sys_advances.
  - apply same_policy_ok; [|done]. by apply with_gate_inv.
  - apply advances_ok; [done|]. by apply pci_notify_advances, Hk.
  - pose proof (connect_inv ok handle dv (k_input k) (k_world k) (sy_input _ _ Hk)) as Hc.
    destruct (kg_input_connect _ _ _ _ _) as [[e' s] w]. destruct Hc as (Hi & _ & Hb & Hp & Hsc).
    apply same_policy_ok; [|done]. apply (with_input_inv mb s (with_world w k)); [|done| |].
    + apply sys_inv_world; [done|by eapply same_policy_sound, Hp; apply Hk|done].
    + rewrite Hb. apply Hk.
    + cbn. by rewrite (sc_mon _ _ Hsc).
  - apply same_policy_ok; [|done]. apply with_input_inv; [done| |apply Hk|done]. apply disconnect_inv; [done|apply Hk].
  - apply same_policy_ok; [|done]. destruct Hk as [? ? ? ? Hin]. constructor; cbn; try done. by destruct Hin.
  - constructor; [|by left|done]. apply sys_inv_world; [done| |by apply unscheduled_sched].
    destruct (sy_sound _ _ Hk) as [Hinv _]. by split.
Qed.

Lemma sys_run_inv mb k es k' : is_u32 mb → sys_run mb k es k' → sys_inv mb k → sys_inv mb k'.
Proof.
  intros Hmb. induction 1 as [|k1 e k2 es k3 Hs Hr IH]; [done|]. intros Hk. apply IH.
  by destruct (sys_step_ok mb k1 e k2 Hmb Hs Hk).
Qed.
End steps.

(** C3 — in every state the module can reach after a successful load, by any interleaving of
    its ioctls, work items, notifiers, hotplug callbacks, counter interrupts and parameter
    writes, the guarded state verifies, the posture is in range and is FAILSAFE exactly when
    the flag says so, the text copies, tables and suspects of the monitors are within their
    bounds, and unloading there leaves nothing behind. *)
Theorem loaded_runs_sound `{CryptoLaws} `{Platform} `{InputEnv} mb k es k' :
  is_u32 mb → sys_inv mb k → sys_run mb k es k' →
  kg_guard_verify (k_world k') = true
  ∧ 0 ≤ kg_posture (k_world k') < KG_POSTURE_COUNT
  ∧ kg_in_failsafe (k_world k') = (kg_posture (k_world k') =? KG_POSTURE_FAILSAFE)
  ∧ text_inv mb (ig_text (k_integ k')) ∧ hw_inv (k_hw k') ∧ input_inv (k_input k')
  ∧ torn_down (kg_exit k') ∧ k_misc (kg_exit k') = false.
Proof.
  intros Hmb Hk Hrun. pose proof (sys_run_inv mb k es k' Hmb Hrun Hk) as Hk'.
  destruct (sy_sound _ _ Hk') as [[[Hpo Hfs _] Hs] _].
  split_and!; [by apply sealed_verify|apply Hpo|apply Hpo| |apply Hk'..| |].
  - unfold kg_in_failsafe, kg_posture. rewrite Hfs. by destruct (_ =? _).
  - by apply (exit_spec mb).
  - by apply (exit_spec mb).
Qed.

(** C20 — whatever the module does, its posture goes down in two ways only: an ioctl
    SET_POSTURE from a caller with CAP_SYS_ADMIN and no flags, to the level it asks for and
    never from HIGH or above once the state was found corrupted; or decay, from ELEVATED to
    NORMAL.  No monitor, notifier or interrupt relaxes the machine. *)
Theorem system_lowered_only_by `{CryptoLaws} mb k e k' :
  is_u32 mb → sys_inv mb k → sys_step mb k e k' → kg_posture (k_world k') < kg_posture (k_world k) →
  may_lower e (k_world k) (k_world k').
Proof.
  intros Hmb Hk Hs Hlt. destruct (sys_step_ok mb k e k' Hmb Hs Hk) as [_ [Hle|Hm] _]; [lia|done].
Qed.

(** C21 — no work item can get stuck: whenever one is queued in the loaded module its function,
    on whatever kernel it then finds, runs to its end and keeps the invariant. *)
Theorem queued_work_completes `{CryptoLaws} `{Platform} `{TextEnv} `{CpuEnv} `{PciEnv} `{InputEnv} mb da ka ok i d k :
  sys_inv mb k → wwork (k_world k) i = Some d →
  ∃ k', run_work da ka ok i k = Some k' ∧ sys_inv mb k'.
Proof.
  intros Hk Hd. destruct (run_work_ok mb da ka ok i d k Hk Hd) as (k' & Hr & Hok). exists k'. split; [done|apply Hok].
Qed.

(** ** A concrete module: the core up at a posture, every monitor configured away *)
Definition core_world (p : Z) : world := set_comms (Some sample_comms) (world_at p).
Definition core_k (p : Z) : kernelguard :=
  with_world (kg_comms_set_device true (core_world p)) (with_core true true false boot_k).
Lemma core_k_inv p : 0 ≤ p < KG_POSTURE_COUNT → @sys_inv sha_api 128 (core_k p).
Proof.
  intros Hp. destruct (@apply_locked_unscheduled sha_api two_cpus p ready_world) as (Hm & _ & Hq & Hr).
  assert (Hs : @sound sha_api (core_world p)) by exact (world_at_sound p Hp).
  assert (Hk : @sys_inv sha_api 128 (with_world (core_world p) (with_core true true false boot_k))).
  { apply (@core_up_inv sha_api 128 boot_k (core_world p) boot_k_booted Hs Hm Hq); [by eexists| |exact Hr].
    by intros c [= <-]. }
  destruct (@set_device_spec true (core_world p)) as (Hpol & Hsc & _); [done|].
  apply (@sys_inv_world sha_api sha_api_laws 128 _ (kg_comms_set_device true (core_world p)) Hk); [|exact Hsc].
  by eapply same_policy_sound.
Qed.

Lemma core_k_policy p :
  0 ≤ p < KG_POSTURE_COUNT →
  kg_posture (k_world (core_k p)) = p ∧ pos_ready (wpos (k_world (core_k p))) = true
  ∧ pos_untrusted (wpos (k_world (core_k p))) = false.
Proof.
  intros Hp. destruct (@apply_locked_spec sha_api sha_api_laws two_cpus p ready_world Hp ready_world_inv)
    as (_ & Hpost & _ & Hr & Hu & _).
  destruct (@set_device_spec true (core_world p)) as ((Hg & Hpos & _) & _); [done|].
  change (k_world (core_k p)) with (kg_comms_set_device true (core_world p)).
  unfold kg_posture. rewrite Hg, Hpos. done.
Qed.

Definition admin (t : Z) : caller := Caller true None (Some (t, 0)) true true.
Lemma admin_steps p t :
  0 ≤ p < KG_POSTURE_COUNT → 0 ≤ t < KG_POSTURE_COUNT → t ≠ p →
  ∃ k', @sys_step sha_api 128 (core_k p) (SysIoctl KG_IOC_SET_POSTURE (admin t)) k' ∧ kg_posture (k_world k') = t.
Proof.
  intros Hp Ht Hne. destruct (core_k_policy p Hp) as (Hpost & Hr & Hu).
  destruct (@kg_posture_set_moves sha_api sha_api_laws two_cpus t (k_world (core_k p))) as (w' & Hset & _ & Hpt & _).
  - apply (sy_sound _ _ (core_k_inv p Hp)).
  - exact Ht.
  - exact Hr.
  - by rewrite Hpost.
  - by intros _ _.
  - exists (with_world w' (core_k p)). split; [|exact Hpt].
    eapply (sys_ioctl 128 two_cpus KG_IOC_SET_POSTURE (admin t) None ReplyNone); [cbn; lia|].
    cbn [kg_ioctl admin c_cap_sys_admin c_req_arg negb Z.eqb]. rewrite Hset. by bind_simpl.
Qed.

Lemma loaded_runs_sound_witness :
  ∃ k', @sys_run sha_api 128 (core_k KG_POSTURE_NORMAL) [SysIoctl KG_IOC_SET_POSTURE (admin KG_POSTURE_HIGH)] k'
  ∧ @kg_guard_verify sha_api (k_world k') = true ∧ torn_down (@kg_exit two_cpus kbd_env k').
Proof.
  destruct (admin_steps KG_POSTURE_NORMAL KG_POSTURE_HIGH) as (k' & Hs & _); [by compute..|done|].
  assert (Hrun : @sys_run sha_api 128 (core_k KG_POSTURE_NORMAL) [SysIoctl KG_IOC_SET_POSTURE (admin KG_POSTURE_HIGH)] k').
  { eapply sys_run_cons; [exact Hs|apply sys_run_nil]. }
  exists k'. split; [exact Hrun|].
  destruct (@loaded_runs_sound sha_api sha_api_laws two_cpus kbd_env 128 _ _ k' ltac:(by compute)
              (core_k_inv KG_POSTURE_NORMAL ltac:(by compute)) Hrun) as (Hv & _ & _ & _ & _ & _ & Ht & _).
  split; [exact Hv|exact Ht].
Defined.

Lemma system_lowered_only_by_witness :
  ∃ k', @sys_step sha_api 128 (core_k KG_POSTURE_HIGH) (SysIoctl KG_IOC_SET_POSTURE (admin KG_POSTURE_NORMAL)) k'
  ∧ may_lower (SysIoctl KG_IOC_SET_POSTURE (admin KG_POSTURE_NORMAL)) (k_world (core_k KG_POSTURE_HIGH)) (k_world k').
Proof.
  destruct (admin_steps KG_POSTURE_HIGH KG_POSTURE_NORMAL) as (k' & Hs & Hp); [by compute..|done|].
  exists k'. split; [exact Hs|].
  apply (@system_lowered_only_by sha_api sha_api_laws 128 _ _ k' ltac:(by compute)
           (core_k_inv KG_POSTURE_HIGH ltac:(by compute)) Hs).
  rewrite Hp, (proj1 (core_k_policy KG_POSTURE_HIGH ltac:(by compute))). reflexivity.
Defined.

Lemma queued_work_completes_witness :
  ∃ k', @run_work sha_api two_cpus sample_env hooked_cpus (sample_pci []) kbd_env [] [] true UeventWork
          (core_k KG_POSTURE_NORMAL) = Some k' ∧ @sys_inv sha_api 128 k'.
Proof.
  apply (@queued_work_completes sha_api sha_api_laws two_cpus sample_env hooked_cpus (sample_pci []) kbd_env 128 [] [] true
           UeventWork (msecs 0) (core_k KG_POSTURE_NORMAL) (core_k_inv KG_POSTURE_NORMAL ltac:(by compute))).
  reflexivity.
Defined.
