(* ===== verification/PolicyParse.v ===== *)
(** * Escalation policy: names and parser (linux/monitor/kg_policy.c, kg_policy.h)

    The policy file is text: [action NAME [timeout=SEC] /path ARG...] and
    [rule NAME key=value...].  C strings are [string]s (no NUL inside); every
    [set_err] call of the source is a constructor of [parse_error]; strdup is
    taken to succeed.  The file system that [check_program] and
    [kgp_load_file] look at is the class [Files]. *)
From Stdlib Require Import Ascii.
From S2P Require Import Prelude Uapi.
Local Open Scope string_scope.
Local Open Scope list_scope.
Local Open Scope Z_scope.

Definition KGP_MAX_ACTIONS : Z := 16.
Definition KGP_MAX_RULES : Z := 32.
Definition KGP_MAX_CODES : Z := 16.
Definition KGP_MAX_ARGS : Z := 16.
Definition KGP_MAX_REPEAT : Z := 16.
Definition KGP_NAME_LEN : Z := 32.

Definition KGP_INFO : Z := 0.
Definition KGP_WARNING : Z := 1.
Definition KGP_CRITICAL : Z := 2.
Definition KGP_FORGED : Z := 3.

Definition KGP_ALERT_FORGED : Z := 0x10001.
Definition KGP_ALERT_OVERRUN : Z := 0x10002.
Definition KGP_ALERT_TAMPER : Z := 0x10003.

(** ** Data *)
Record kgp_action := Action {
  a_name : string;
  a_argv : list string;
  a_timeout_s : Z
}.

Record kgp_rule := Rule {
  r_name : string;
  r_codes : list Z;              (* [] = any alert *)
  r_min_level : Z;
  r_throttle_s : Z;
  r_do_mask : Z;
  r_repeat_n : Z;
  r_repeat_window_s : Z;
  r_unacked_s : Z;
  r_then_mask : Z;
  r_reset_s : Z
}.

Record kgp_policy := Policy { p_actions : list kgp_action; p_rules : list kgp_rule }.
Definition empty_policy : kgp_policy := Policy [] [].

(** ** Characters and the string functions of libc *)

Definition chr (c : ascii) : Z := Z.of_nat (Ascii.nat_of_ascii c).
Definition in_range (lo hi : ascii) (c : ascii) : bool := (chr lo <=? chr c) && (chr c <=? chr hi).
Definition is_digit : ascii → bool := in_range "0"%char "9"%char.
Definition is_upper : ascii → bool := in_range "A"%char "Z"%char.
Definition is_lower : ascii → bool := in_range "a"%char "z"%char.
Definition isalnum (c : ascii) : bool := is_digit c || is_upper c || is_lower c.
Definition tolower (c : ascii) : ascii :=
  if is_upper c then Ascii.ascii_of_nat (Ascii.nat_of_ascii c + 32) else c.
Definition isspace (c : ascii) : bool := (chr c =? 32) || ((9 <=? chr c) && (chr c <=? 13)).

Definition ascii_eqb : ascii → ascii → bool := Ascii.eqb.

Fixpoint strcasecmp_eq (s t : string) : bool :=
  match s, t with
  | "", "" => true
  | String a s, String b t => ascii_eqb (tolower a) (tolower b) && strcasecmp_eq s t
  | _, _ => false
  end.

(** [strchr(s, c)]: the text before and after the first [c]. *)
Fixpoint strchr (c : ascii) (s : string) : option (string * string) :=
  match s with
  | "" => None
  | String a s =>
    if ascii_eqb a c then Some ("", s)
    else '(l, r) ← strchr c s; Some (String a l, r)
  end.

(** The tokens [strtok_r] yields with the one delimiter [c]: empty ones are skipped. *)
Fixpoint strtok_from (c : ascii) (s cur : string) : list string :=
  match s with
  | "" => if bool_decide (cur = "") then [] else [cur]
  | String a s =>
    if ascii_eqb a c then (if bool_decide (cur = "") then [] else [cur]) ++ strtok_from c s ""
    else strtok_from c s (cur +:+ String a "")
  end.
Definition strtok (c : ascii) (s : string) : list string := strtok_from c s "".

Definition digit_val (base : Z) (c : ascii) : option Z :=
  let v := if is_digit c then chr c - 48
           else if is_lower c then chr c - 87
           else if is_upper c then chr c - 55 else 99 in
  if v <? base then Some v else None.

Fixpoint skip_space (s : string) : string :=
  match s with
  | String c s' => if isspace c then skip_space s' else s
  | "" => ""
  end.

(** Number of digits read, value, rest. *)
Fixpoint strto_digits (base : Z) (s : string) (n : nat) (v : Z) : nat * Z * string :=
  match s with
  | String c s' =>
    match digit_val base c with
    | Some d => strto_digits base s' (S n) (v * base + d)
    | None => (n, v, s)
    end
  | "" => (n, v, "")
  end.

Definition ULONG_MAX : Z := 18446744073709551615.

(** Value, end pointer, whether errno was set to ERANGE. *)
Definition strtoul (base : Z) (s : string) : Z * string * bool :=
  let s1 := skip_space s in
  let '(neg, s2) := match s1 with
                    | String c r => if ascii_eqb c "-"%char then (true, r)
                                    else if ascii_eqb c "+"%char then (false, r) else (false, s1)
                    | "" => (false, "") end in
  let s3 := match s2 with
            | String "0" (String x (String d r)) =>
              if (base =? 16) && (ascii_eqb x "x"%char || ascii_eqb x "X"%char)
                 && bool_decide (is_Some (digit_val 16 d)) then String d r else s2
            | _ => s2 end in
  let '(n, v, rest) := strto_digits base s3 O 0 in
  match n with
  | O => (0, s, false)
  | S _ => if ULONG_MAX <? v then (ULONG_MAX, rest, true)
           else ((if neg then u64 (- v) else v), rest, false)
  end.

(** ** Names *)
Definition kgp_names : list (Z * string) :=
  [(KG_ALERT_PMU_L1D_ANOMALY, "PMU_L1D_ANOMALY"); (KG_ALERT_PMU_L2_ANOMALY, "PMU_L2_ANOMALY");
   (KG_ALERT_PMU_RDTSC_RATE, "PMU_RDTSC_RATE");
   (KG_ALERT_UNAUTHORIZED_KBD_FILTER, "UNAUTHORIZED_KBD_FILTER");
   (KG_ALERT_UNAUTHORIZED_DMA, "UNAUTHORIZED_DMA"); (KG_ALERT_PCI_DISCREPANCY, "PCI_DISCREPANCY");
   (KG_ALERT_KBD_FILTER_NEUTRALIZED, "KBD_FILTER_NEUTRALIZED");
   (KG_ALERT_DMA_BLOCKED_IOMMU, "DMA_BLOCKED_IOMMU");
   (KG_ALERT_DEVICE_BME_DISABLED, "DEVICE_BME_DISABLED"); (KG_ALERT_IDT_HOOK, "IDT_HOOK");
   (KG_ALERT_DISPATCH_HOOK, "DISPATCH_HOOK"); (KG_ALERT_TEXT_PATCH, "TEXT_PATCH");
   (KG_ALERT_CTRL_REG_TAMPER, "CTRL_REG_TAMPER"); (KG_ALERT_MODULE_LOADED, "MODULE_LOADED");
   (KG_ALERT_VULN_DRIVER, "VULN_DRIVER"); (KG_ALERT_DRIVER_BLOCKED, "DRIVER_BLOCKED");
   (KG_ALERT_LOAD_POLICY, "LOAD_POLICY");
   (KG_ALERT_SHARED_STATE_CORRUPT, "SHARED_STATE_CORRUPT");
   (KG_ALERT_FAIL_SAFE_ENTERED, "FAIL_SAFE_ENTERED"); (KG_ALERT_POSTURE_CHANGED, "POSTURE_CHANGED");
   (KGP_ALERT_FORGED, "FORGED"); (KGP_ALERT_OVERRUN, "OVERRUN"); (KGP_ALERT_TAMPER, "TAMPER")].

Fixpoint find_first {A B} (f : A → option B) (l : list A) : option B :=
  match l with
  | [] => None
  | x :: l => match f x with Some y => Some y | None => find_first f l end
  end.

Definition kgp_code_name (code : Z) : option string :=
  find_first (λ p, if p.1 =? code then Some p.2 else None) kgp_names.

Definition kgp_code_from_name (name : string) : option Z :=
  match find_first (λ p, if strcasecmp_eq p.2 name then Some p.1 else None) kgp_names with
  | Some c => Some c
  | None =>
    match name with
    | String "0" (String x (String _ _)) =>
      if ascii_eqb x "x"%char || ascii_eqb x "X"%char then
        let '(v, rest, _) := strtoul 16 name in
        if bool_decide (rest = "") && (v <=? 0xffff) then Some v else None
      else None
    | _ => None
    end
  end.

Definition kgp_level_name (l : Z) : string :=
  if l =? KGP_INFO then "info" else if l =? KGP_WARNING then "warning"
  else if l =? KGP_CRITICAL then "critical" else if l =? KGP_FORGED then "forged" else "?".

Definition level_from_name (s : string) : option Z :=
  find_first (λ l, if strcasecmp_eq s (kgp_level_name l) then Some l else None)
             [KGP_INFO; KGP_WARNING; KGP_CRITICAL; KGP_FORGED].

(** ** Tokens *)
Definition is_blank (c : ascii) : bool :=
  (chr c =? 32) || (chr c =? 9) || (chr c =? 13) || (chr c =? 10).
Definition dquote : ascii := Ascii.ascii_of_nat 34.
Definition backslash : ascii := Ascii.ascii_of_nat 92.

(** The rest of one word, inside ([q]) or outside quotes: the characters kept and
    the text from the blank (or the end) that stopped it; [None]: unterminated quote. *)
Fixpoint scan_word (q : bool) (s : string) : option (string * string) :=
  match s with
  | "" => if q then None else Some ("", "")
  | String c s' =>
    if q then
      if ascii_eqb c dquote then scan_word false s'
      else if ascii_eqb c backslash then
        match s' with
        | String d s'' =>
          if ascii_eqb d dquote then '(w, r) ← scan_word true s''; Some (String d w, r)
          else '(w, r) ← scan_word true s'; Some (String c w, r)
        | "" => None
        end
      else '(w, r) ← scan_word true s'; Some (String c w, r)
    else if is_blank c then Some ("", s)
    else if ascii_eqb c dquote then scan_word true s'
    else '(w, r) ← scan_word false s'; Some (String c w, r)
  end.

Fixpoint skip_blank (s : string) : string :=
  match s with
  | String c s' => if is_blank c then skip_blank s' else s
  | "" => ""
  end.

(** The outer loop: [n] tokens so far, at most [max]; [None] is the source's -1. *)
Fixpoint tokenize_loop (fuel : nat) (s : string) (n max : Z) : option (list string) :=
  match fuel with
  | O => Some []
  | S fuel =>
    match skip_blank s with
    | "" => Some []
    | String c r =>
      if ascii_eqb c "#"%char then Some []
      else if max <=? n then None
      else
        '(w, rest) ← scan_word false (String c r);
        let rest := match rest with String _ rest => rest | "" => "" end in
        ws ← tokenize_loop fuel rest (n + 1) max;
        Some (w :: ws)
    end
  end.

(** Every round consumes a character, so the length of the line is enough. *)
Definition tokenize (line : string) (max : Z) : option (list string) :=
  tokenize_loop (S (String.length line)) line 0 max.

(** ** Errors: one constructor per [set_err] *)
Inductive parse_error :=
  | UsageAction | TooManyActions | BadActionName (s : string) | ActionTwice (s : string)
  | BadTimeout (s : string) | UnknownActionOption (s : string) | NoProgram (s : string)
  | TooManyArguments (s : string) | NotAbsolute (s : string) | CannotStat (s : string)
  | NotExecutable (s : string) | WritableByOthers (s : string) | NotOwned (s : string)
  | UsageRule | TooManyRules | BadRuleName (s : string) | RuleTwice (s : string)
  | NotKeyValue (s : string) | TooManyAlertTypes | UnknownAlertType (s : string)
  | UnknownLevel (s : string) | BadThrottle (s : string) | BadReset (s : string)
  | BadUnacked (s : string) | RepeatNeedsSlash (s : string) | BadRepeat
  | UnknownAction (s : string) | EmptyActionList | UnknownRuleOption (s : string)
  | NoDo (s : string) | ThenNeedsTrigger (s : string) | TriggerNeedsThen (s : string)
  | BadQuoteOrTooManyWords | UnknownDirective (s : string)
  | CannotOpen | NotRegular | PolicyWritableByOthers | PolicyNotOwned | TooLarge | CannotRead.

(** ** What the parser asks the file system *)
Record file_stat := FileStat {
  st_isreg : bool; st_ixusr : bool; st_iwgrp : bool; st_iwoth : bool;
  st_uid : Z; st_size : Z
}.
Class Files := {
  stat : string → option file_stat;
  open_nofollow : string → option (option file_stat);   (* None: open fails; fstat of the descriptor *)
  read_all : string → option string;                    (* the contents read *)
  geteuid : Z
}.

(** A host with no files at all. *)
Definition no_files : Files :=
  {| stat _ := None; open_nofollow _ := None; read_all _ := None; geteuid := 0 |}.

(** ** Pieces *)
Definition action_index (pol : kgp_policy) (name : string) : option nat :=
  fst <$> list_find (λ a, a_name a = name) (p_actions pol).

Fixpoint all_chars (f : ascii → bool) (s : string) : bool :=
  match s with "" => true | String c s => f c && all_chars f s end.

Definition name_char (c : ascii) : bool :=
  isalnum c || ascii_eqb c "_"%char || ascii_eqb c "-"%char || ascii_eqb c "."%char.

Definition valid_name (s : string) : bool :=
  negb (bool_decide (s = "")) && (Z.of_nat (String.length s) <? KGP_NAME_LEN)
  && all_chars name_char s.

Definition parse_uint (s : string) (lo hi : Z) : option Z :=
  match s with
  | "" => None
  | String c _ =>
    if ascii_eqb c "-"%char then None
    else
      let '(v, rest, erange) := strtoul 10 s in
      if negb (bool_decide (rest = "")) || erange || (v <? lo) || (hi <? v) then None else Some v
  end.

Definition parse_uint_or (e : parse_error) (s : string) (lo hi : Z) : parse_error + Z :=
  match parse_uint s lo hi with Some v => inr v | None => inl e end.

Fixpoint action_mask (pol : kgp_policy) (names : list string) (mask : Z) : parse_error + Z :=
  match names with
  | [] => inr mask
  | t :: names =>
    match action_index pol t with
    | None => inl (UnknownAction t)
    | Some i => action_mask pol names (Z.lor mask (Z.shiftl 1 (Z.of_nat i)))
    end
  end.

Definition parse_action_list (pol : kgp_policy) (l : string) : parse_error + Z :=
  mask ← action_mask pol (strtok ","%char l) 0;
  if mask =? 0 then inl EmptyActionList else inr mask.

Definition is_absolute (path : string) : bool :=
  match path with String c _ => ascii_eqb c "/"%char | "" => false end.

Definition check_program `{Files} (path : string) : parse_error + unit :=
  if negb (is_absolute path) then inl (NotAbsolute path)
  else match stat path with
  | None => inl (CannotStat path)
  | Some st =>
    if negb (st_isreg st) || negb (st_ixusr st) then inl (NotExecutable path)
    else if st_iwgrp st || st_iwoth st then inl (WritableByOthers path)
    else if negb (st_uid st =? 0) && negb (st_uid st =? geteuid) then inl (NotOwned path)
    else inr tt
  end.

(** ** action NAME [timeout=SEC] /path ARG... *)

(** The option loop: the timeout and the words that follow the options. *)
Fixpoint action_options (toks : list string) (timeout : Z) : parse_error + (Z * list string) :=
  match toks with
  | [] => inr (timeout, [])
  | t :: rest =>
    if negb (is_absolute t) && bool_decide (is_Some (strchr "="%char t)) then
      if String.prefix "timeout=" t then
        let v := String.substring 8 (String.length t - 8) t in
        timeout ← parse_uint_or (BadTimeout v) v 1 3600;
        action_options rest timeout
      else inl (UnknownActionOption t)
    else inr (timeout, toks)
  end.

Definition parse_action `{Files} (pol : kgp_policy) (tok : list string) (check_fs : bool)
  : parse_error + kgp_policy :=
  match tok with
  | _ :: name :: opts =>
    if zlen tok <? 3 then inl UsageAction
    else if KGP_MAX_ACTIONS <=? zlen (p_actions pol) then inl TooManyActions
    else if negb (valid_name name) then inl (BadActionName name)
    else if bool_decide (is_Some (action_index pol name)) then inl (ActionTwice name)
    else
      '(timeout, argv) ← action_options opts 10;
      match argv with
      | [] => inl (NoProgram name)
      | prog :: _ =>
        if KGP_MAX_ARGS <? zlen argv then inl (TooManyArguments name)
        else
          _ ← (if check_fs then check_program prog else inr tt);
          if negb (is_absolute prog) then inl (NotAbsolute prog)
          else inr (Policy (p_actions pol ++ [Action name argv timeout]) (p_rules pol))
      end
  | _ => inl UsageAction
  end.

(** ** rule NAME key=value... *)
Record rule_draft := Draft { d_rule : kgp_rule; d_have_do : bool; d_then : option string }.

Definition with_codes (c : list Z) (r : kgp_rule) : kgp_rule :=
  Rule (r_name r) c (r_min_level r) (r_throttle_s r) (r_do_mask r) (r_repeat_n r)
       (r_repeat_window_s r) (r_unacked_s r) (r_then_mask r) (r_reset_s r).
Definition with_level (l : Z) (r : kgp_rule) : kgp_rule :=
  Rule (r_name r) (r_codes r) l (r_throttle_s r) (r_do_mask r) (r_repeat_n r)
       (r_repeat_window_s r) (r_unacked_s r) (r_then_mask r) (r_reset_s r).
Definition with_throttle (t : Z) (r : kgp_rule) : kgp_rule :=
  Rule (r_name r) (r_codes r) (r_min_level r) t (r_do_mask r) (r_repeat_n r)
       (r_repeat_window_s r) (r_unacked_s r) (r_then_mask r) (r_reset_s r).
Definition with_reset (t : Z) (r : kgp_rule) : kgp_rule :=
  Rule (r_name r) (r_codes r) (r_min_level r) (r_throttle_s r) (r_do_mask r) (r_repeat_n r)
       (r_repeat_window_s r) (r_unacked_s r) (r_then_mask r) t.
Definition with_unacked (t : Z) (r : kgp_rule) : kgp_rule :=
  Rule (r_name r) (r_codes r) (r_min_level r) (r_throttle_s r) (r_do_mask r) (r_repeat_n r)
       (r_repeat_window_s r) t (r_then_mask r) (r_reset_s r).
Definition with_repeat (n t : Z) (r : kgp_rule) : kgp_rule :=
  Rule (r_name r) (r_codes r) (r_min_level r) (r_throttle_s r) (r_do_mask r) n
       t (r_unacked_s r) (r_then_mask r) (r_reset_s r).
Definition with_do (m : Z) (r : kgp_rule) : kgp_rule :=
  Rule (r_name r) (r_codes r) (r_min_level r) (r_throttle_s r) m (r_repeat_n r)
       (r_repeat_window_s r) (r_unacked_s r) (r_then_mask r) (r_reset_s r).
Definition with_then (m : Z) (r : kgp_rule) : kgp_rule :=
  Rule (r_name r) (r_codes r) (r_min_level r) (r_throttle_s r) (r_do_mask r) (r_repeat_n r)
       (r_repeat_window_s r) (r_unacked_s r) m (r_reset_s r).

(** The [alert=] list; a star anywhere in it means any alert. *)
Fixpoint alert_codes (toks : list string) (codes : list Z) : parse_error + list Z :=
  match toks with
  | [] => inr codes
  | t :: toks =>
    if bool_decide (t = "*") then inr []
    else if KGP_MAX_CODES <=? zlen codes then inl TooManyAlertTypes
    else match kgp_code_from_name t with
         | None => inl (UnknownAlertType t)
         | Some c => alert_codes toks (codes ++ [c])
         end
  end.

Definition on_rule (f : kgp_rule → kgp_rule) (d : rule_draft) : rule_draft :=
  Draft (f (d_rule d)) (d_have_do d) (d_then d).

Definition rule_option (pol : kgp_policy) (t : string) (d : rule_draft) : parse_error + rule_draft :=
  match strchr "="%char t with
  | None => inl (NotKeyValue t)
  | Some (k, v) =>
    if bool_decide (k = "alert") then
      codes ← alert_codes (strtok ","%char v) []; inr (on_rule (with_codes codes) d)
    else if bool_decide (k = "level") then
      match level_from_name v with
      | None => inl (UnknownLevel v)
      | Some l => inr (on_rule (with_level l) d)
      end
    else if bool_decide (k = "throttle") then
      n ← parse_uint_or (BadThrottle v) v 0 86400; inr (on_rule (with_throttle n) d)
    else if bool_decide (k = "reset") then
      n ← parse_uint_or (BadReset v) v 1 2592000; inr (on_rule (with_reset n) d)
    else if bool_decide (k = "unacked") then
      n ← parse_uint_or (BadUnacked v) v 1 2592000; inr (on_rule (with_unacked n) d)
    else if bool_decide (k = "repeat") then
      match strchr "/"%char v with
      | None => inl (RepeatNeedsSlash v)
      | Some (a, b) =>
        n ← parse_uint_or BadRepeat a 2 KGP_MAX_REPEAT;
        s ← parse_uint_or BadRepeat b 1 86400;
        inr (on_rule (with_repeat n s) d)
      end
    else if bool_decide (k = "do") then
      m ← parse_action_list pol v; inr (Draft (with_do m (d_rule d)) true (d_then d))
    else if bool_decide (k = "then") then inr (Draft (d_rule d) (d_have_do d) (Some v))
    else inl (UnknownRuleOption k)
  end.

Fixpoint rule_options (pol : kgp_policy) (toks : list string) (d : rule_draft)
  : parse_error + rule_draft :=
  match toks with
  | [] => inr d
  | t :: toks => d ← rule_option pol t d; rule_options pol toks d
  end.

Definition finish_rule (pol : kgp_policy) (d : rule_draft) : parse_error + kgp_rule :=
  let r := d_rule d in
  if negb (d_have_do d) then inl (NoDo (r_name r))
  else
    r ← (match d_then d with
         | None => inr r
         | Some l => m ← parse_action_list pol l; inr (with_then m r)
         end);
    let trigger := negb (r_repeat_n r =? 0) || negb (r_unacked_s r =? 0) in
    let have_then := bool_decide (is_Some (d_then d)) in
    if have_then && negb trigger then inl (ThenNeedsTrigger (r_name r))
    else if negb have_then && trigger then inl (TriggerNeedsThen (r_name r))
    else inr r.

Definition new_rule (name : string) : kgp_rule := Rule name [] 0 60 0 0 0 0 0 3600.

Definition parse_rule (pol : kgp_policy) (tok : list string) : parse_error + kgp_policy :=
  match tok with
  | _ :: name :: opts =>
    if zlen tok <? 3 then inl UsageRule
    else if KGP_MAX_RULES <=? zlen (p_rules pol) then inl TooManyRules
    else if negb (valid_name name) then inl (BadRuleName name)
    else if bool_decide (Exists (λ r, r_name r = name) (p_rules pol)) then inl (RuleTwice name)
    else
      d ← rule_options pol opts (Draft (new_rule name) false None);
      r ← finish_rule pol d;
      inr (Policy (p_actions pol) (p_rules pol ++ [r]))
  | _ => inl UsageRule
  end.

(** ** The file *)
Definition newline : ascii := Ascii.ascii_of_nat 10.

Definition parse_line `{Files} (check_fs : bool) (pol : kgp_policy) (line : string)
  : parse_error + kgp_policy :=
  match tokenize line (KGP_MAX_ARGS + 4) with
  | None => inl BadQuoteOrTooManyWords
  | Some [] => inr pol
  | Some ((d :: _) as tok) =>
    if bool_decide (d = "action") then parse_action pol tok check_fs
    else if bool_decide (d = "rule") then parse_rule pol tok
    else inl (UnknownDirective d)
  end.

(** The line loop: the policy, or the 1-based number of the line in error with the error. *)
Fixpoint parse_lines `{Files} (check_fs : bool) (fuel : nat) (text : string) (lineno : Z)
  (pol : kgp_policy) : (Z * parse_error) + kgp_policy :=
  match fuel, text with
  | O, _ | _, "" => inr pol
  | S fuel, _ =>
    let '(line, rest) := match strchr newline text with
                         | Some (l, r) => (l, r)
                         | None => (text, "") end in
    match parse_line check_fs pol line with
    | inl e => inl (lineno + 1, e)
    | inr pol => parse_lines check_fs fuel rest (lineno + 1) pol
    end
  end.

(** A failed parse frees what was read and leaves the empty policy. *)
Definition kgp_parse `{Files} (text : string) (check_fs : bool)
  : option (Z * parse_error) * kgp_policy :=
  match parse_lines check_fs (String.length text) text 0 empty_policy with
  | inl e => (Some e, empty_policy)
  | inr pol => (None, pol)
  end.

(** The policy or the error, with the line of a parse error. *)
Definition kgp_load_file `{Files} (path : string) : (option Z * parse_error) + kgp_policy :=
  match open_nofollow path with
  | None => inl (None, CannotOpen)
  | Some None => inl (None, NotRegular)
  | Some (Some st) =>
    if negb (st_isreg st) then inl (None, NotRegular)
    else if st_iwgrp st || st_iwoth st then inl (None, PolicyWritableByOthers)
    else if negb (st_uid st =? 0) && negb (st_uid st =? geteuid) then inl (None, PolicyNotOwned)
    else if 256 * 1024 <? st_size st then inl (None, TooLarge)
    else match read_all path with
    | None => inl (None, CannotRead)
    | Some buf =>
      match kgp_parse buf true with
      | (Some (line, e), _) => inl (Some line, e)
      | (None, pol) => inr pol
      end
    end
  end.

(** ** What an accepted policy satisfies *)
Definition mask_ok (n : nat) (mask : Z) : Prop := 0 < mask < 2 ^ Z.of_nat n.

Record action_ok `{Files} (check_fs : bool) (a : kgp_action) : Prop := ActionOk {
  ao_name : valid_name (a_name a) = true;
  ao_timeout : 1 ≤ a_timeout_s a ≤ 3600;
  ao_args : zlen (a_argv a) ≤ KGP_MAX_ARGS;
  ao_prog : ∃ prog args, a_argv a = prog :: args ∧ is_absolute prog = true
            ∧ (check_fs = true → check_program prog = inr tt)
}.

Record rule_ok (n : nat) (r : kgp_rule) : Prop := RuleOk {
  ro_name : valid_name (r_name r) = true;
  ro_codes : zlen (r_codes r) ≤ KGP_MAX_CODES;
  ro_level : KGP_INFO ≤ r_min_level r ≤ KGP_FORGED;
  ro_throttle : 0 ≤ r_throttle_s r ≤ 86400;
  ro_repeat : r_repeat_n r = 0 ∨ 2 ≤ r_repeat_n r ≤ KGP_MAX_REPEAT;
  ro_unacked : 0 ≤ r_unacked_s r ≤ 2592000;
  ro_reset : 1 ≤ r_reset_s r ≤ 2592000;
  ro_do : mask_ok n (r_do_mask r);
  ro_then : (r_then_mask r = 0 ∧ r_repeat_n r = 0 ∧ r_unacked_s r = 0)
            ∨ (mask_ok n (r_then_mask r) ∧ (r_repeat_n r ≠ 0 ∨ r_unacked_s r ≠ 0))
}.

Record policy_ok `{Files} (check_fs : bool) (p : kgp_policy) : Prop := PolicyOk {
  po_actions : zlen (p_actions p) ≤ KGP_MAX_ACTIONS;
  po_rules : zlen (p_rules p) ≤ KGP_MAX_RULES;
  po_action_ok : Forall (action_ok check_fs) (p_actions p);
  po_rule_ok : Forall (rule_ok (length (p_actions p))) (p_rules p);
  po_action_names : NoDup (a_name <$> p_actions p);
  po_rule_names : NoDup (r_name <$> p_rules p)
}.

Lemma mask_ok_le n n' m : (n ≤ n')%nat → mask_ok n m → mask_ok n' m.
Proof.
  intros Hn [H0 H1]. split; [done|]. eapply Z.lt_le_trans; [exact H1|].
  apply Z.pow_le_mono_r; lia.
Qed.

Lemma rule_ok_le n n' r : (n ≤ n')%nat → rule_ok n r → rule_ok n' r.
Proof.
  intros Hn [? ? ? ? ? ? ? ? Ht]. constructor; try done; [by eapply mask_ok_le|].
  destruct Ht as [?|[??]]; [by left|right]. split; [by eapply mask_ok_le|done].
Qed.

Lemma parse_uint_or_range e s lo hi v : parse_uint_or e s lo hi = inr v → lo ≤ v ≤ hi.
Proof.
  unfold parse_uint_or, parse_uint. destruct s as [|c s]; [done|].
  destruct (ascii_eqb c _); [done|]. destruct (strtoul 10 _) as [[n rest] er].
  destruct (_ || _) eqn:E; [done|]. intros [= <-]. bool_props. lia.
Qed.

Lemma action_index_lt pol name i : action_index pol name = Some i → (i < length (p_actions pol))%nat.
Proof.
  unfold action_index. intros ([j a] & Hf & Hij)%fmap_Some.
  apply list_find_Some in Hf as (Hl & _). simpl in Hij. subst.
  by eapply lookup_lt_Some.
Qed.

Lemma action_index_none pol name :
  action_index pol name = None → name ∉ a_name <$> p_actions pol.
Proof.
  unfold action_index. intros Hn%fmap_None. apply list_find_None in Hn.
  intros (a & -> & Ha)%list_elem_of_fmap. rewrite Forall_forall in Hn. by apply (Hn a).
Qed.

Lemma action_mask_bound pol names mask m :
  action_mask pol names mask = inr m → 0 ≤ mask < 2 ^ zlen (p_actions pol) →
  0 ≤ m < 2 ^ zlen (p_actions pol).
Proof.
  revert mask. induction names as [|t names IH]; intros mask; cbn [action_mask].
  - by intros [= ->].
  - destruct (action_index pol t) as [i|] eqn:Ei; [|done]. intros Hm Hb.
    apply action_index_lt in Ei. apply (IH _ Hm). unfold zlen in *.
    apply lor_bound; [lia|done|]. rewrite Z.shiftl_1_l.
    split; [apply Z.pow_nonneg; lia|]. apply Z.pow_lt_mono_r; lia.
Qed.

Lemma parse_action_list_ok pol l m :
  parse_action_list pol l = inr m → mask_ok (length (p_actions pol)) m.
Proof.
  unfold parse_action_list. intros (m' & Hm & Hif)%bind_inr.
  destruct (m' =? 0) eqn:E; [done|]. simplify_eq. bool_props.
  apply action_mask_bound in Hm; [unfold mask_ok, zlen in *; lia|].
  split; [lia|]. apply Z.pow_pos_nonneg; unfold zlen; lia.
Qed.

Lemma alert_codes_bound toks codes c :
  alert_codes toks codes = inr c → zlen codes ≤ KGP_MAX_CODES → zlen c ≤ KGP_MAX_CODES.
Proof.
  revert codes. induction toks as [|t toks IH]; intros codes; cbn [alert_codes].
  - by intros [= ->].
  - destruct (bool_decide _); [by intros [= <-]|]. destruct (_ <=? _) eqn:E; [done|].
    destruct (kgp_code_from_name t); [|done]. intros Hc _. apply (IH _ Hc).
    bool_props. unfold zlen, KGP_MAX_CODES in *. rewrite length_app. simpl. lia.
Qed.

Lemma level_from_name_range s l : level_from_name s = Some l → KGP_INFO ≤ l ≤ KGP_FORGED.
Proof.
  unfold level_from_name. cbn [find_first].
  repeat (destruct (strcasecmp_eq s _); [intros [= <-]; by compute|]). done.
Qed.

(** A rule under construction: everything but its masks is in range already. *)
Record draft_ok (n : nat) (d : rule_draft) : Prop := DraftOk {
  do_name : valid_name (r_name (d_rule d)) = true;
  do_codes : zlen (r_codes (d_rule d)) ≤ KGP_MAX_CODES;
  do_level : KGP_INFO ≤ r_min_level (d_rule d) ≤ KGP_FORGED;
  do_throttle : 0 ≤ r_throttle_s (d_rule d) ≤ 86400;
  do_repeat : r_repeat_n (d_rule d) = 0 ∨ 2 ≤ r_repeat_n (d_rule d) ≤ KGP_MAX_REPEAT;
  do_unacked : 0 ≤ r_unacked_s (d_rule d) ≤ 2592000;
  do_reset : 1 ≤ r_reset_s (d_rule d) ≤ 2592000;
  do_do : d_have_do d = true → mask_ok n (r_do_mask (d_rule d));
  do_then : r_then_mask (d_rule d) = 0
}.

Lemma rule_option_ok pol t d d' :
  rule_option pol t d = inr d' → draft_ok (length (p_actions pol)) d →
  draft_ok (length (p_actions pol)) d' ∧ r_name (d_rule d') = r_name (d_rule d).
Proof.
  unfold rule_option. destruct (strchr _ t) as [[k v]|]; [|done]. intros Ho [].
  repeat match type of Ho with
  | (if bool_decide ?b then _ else _) = _ => destruct (bool_decide b)
  | (match ?x with _ => _ end) = _ => destruct x eqn:?
  | mbind _ _ = _ => apply bind_inr in Ho as (? & ? & Ho)
  end; try discriminate Ho; simplify_eq; (split; [|done]); constructor; simpl; try done.
  - by eapply alert_codes_bound.
  - by eapply level_from_name_range.
  - by eapply parse_uint_or_range.
  - by eapply parse_uint_or_range.
  - eapply parse_uint_or_range in H. lia.
  - right. by eapply parse_uint_or_range.
  - intros _. by eapply parse_action_list_ok.
Qed.

Lemma rule_options_ok pol toks d d' :
  rule_options pol toks d = inr d' → draft_ok (length (p_actions pol)) d →
  draft_ok (length (p_actions pol)) d' ∧ r_name (d_rule d') = r_name (d_rule d).
Proof.
  revert d. induction toks as [|t toks IH]; intros d; cbn [rule_options].
  - by intros [= ->].
  - intros (d1 & H1 & H2)%bind_inr Hd. destruct (rule_option_ok _ _ _ _ H1 Hd) as [Hd1 Hn1].
    destruct (IH _ H2 Hd1) as [? Hn]. split; [done|]. by rewrite Hn.
Qed.

Lemma finish_rule_ok pol d r :
  finish_rule pol d = inr r → draft_ok (length (p_actions pol)) d →
  rule_ok (length (p_actions pol)) r ∧ r_name r = r_name (d_rule d).
Proof.
  unfold finish_rule. destruct (d_have_do d) eqn:Hdo; [|done]. cbn [negb].
  intros (r' & Hr' & Hf)%bind_inr []. destruct (d_then d) as [l|].
  - apply bind_inr in Hr' as (m & Hm & [= <-]). cbn [r_repeat_n r_unacked_s with_then] in Hf.
    rewrite bool_decide_true in Hf by done. cbn [andb negb] in Hf.
    destruct (negb (negb _ || _)) eqn:E; [done|]. simplify_eq. split; [|done].
    constructor; simpl; auto. right. split; [by eapply parse_action_list_ok|].
    bool_props. destruct E as [E|E]; bool_props; auto.
  - simplify_eq. rewrite bool_decide_false in Hf by (by intros []). cbn [andb negb] in Hf.
    destruct (negb _ || _) eqn:E; [done|]. simplify_eq. split; [|done].
    bool_props. constructor; auto.
Qed.

Section parse_ok.
Context `{Files}.

Lemma action_options_ok toks t0 t argv :
  action_options toks t0 = inr (t, argv) → 1 ≤ t0 ≤ 3600 → 1 ≤ t ≤ 3600.
Proof.
  revert t0. induction toks as [|w toks IH]; intros t0; cbn [action_options].
  - by intros [= <- _].
  - destruct (_ && _); [|by intros [= <- _]]. destruct (String.prefix _ w); [|done].
    intros (v & Hv & Hrest)%bind_inr _. apply parse_uint_or_range in Hv. by apply (IH v).
Qed.

Lemma parse_action_ok pol tok chk pol' :
  parse_action pol tok chk = inr pol' → policy_ok chk pol → policy_ok chk pol'.
Proof.
  unfold parse_action. destruct tok as [|d [|name opts]]; try done.
  destruct (_ <? 3); [done|]. destruct (KGP_MAX_ACTIONS <=? _) eqn:Emax; [done|].
  destruct (valid_name name) eqn:Ename; [|done]. cbn [negb].
  destruct (bool_decide (is_Some (action_index pol name))) eqn:Eidx; [done|].
  intros ([timeout argv] & Hopt & Hp)%bind_inr [Ha Hr Hao Hro Hna Hnr].
  destruct argv as [|prog args] eqn:Eargv; [done|]. rewrite <- Eargv in *.
  destruct (_ <? zlen argv) eqn:Eargs; [done|].
  apply bind_inr in Hp as ([] & Hfs & Hp).
  destruct (is_absolute prog) eqn:Eabs; [|done]. injection Hp as <-. bool_props.
  apply eq_None_not_Some, action_index_none in Eidx.
  constructor; simpl; try done.
  - unfold zlen, KGP_MAX_ACTIONS in *. rewrite length_app. simpl. lia.
  - rewrite Forall_app. split; [done|]. constructor; [|done]. constructor; try done.
    + eapply action_options_ok; [done|lia].
    + eexists _, _. split_and!; [done|done|]. by intros ->.
  - eapply Forall_impl; [done|]. intros r. apply rule_ok_le. rewrite length_app. lia.
  - rewrite fmap_app. apply NoDup_app. split_and!; [done| |by apply NoDup_singleton].
    intros x Hx ->%list_elem_of_singleton. done.
Qed.

Lemma parse_rule_ok pol tok chk pol' :
  parse_rule pol tok = inr pol' → policy_ok chk pol → policy_ok chk pol'.
Proof.
  unfold parse_rule. destruct tok as [|d [|name opts]]; try done.
  destruct (_ <? 3); [done|]. destruct (KGP_MAX_RULES <=? _) eqn:Emax; [done|].
  destruct (valid_name name) eqn:Ename; [|done]. cbn [negb].
  destruct (bool_decide (Exists _ _)) eqn:Edup; [done|].
  intros (dr & Hopt & (r & Hfin & [= <-])%bind_inr)%bind_inr [Ha Hr Hao Hro Hna Hnr].
  bool_props.
  destruct (rule_options_ok _ _ _ _ Hopt) as [Hd Hn1]; [constructor; simpl; try done; lia|].
  destruct (finish_rule_ok _ _ _ Hfin Hd) as [Hrok Hn2].
  constructor; simpl; try done.
  - unfold zlen, KGP_MAX_RULES in *. rewrite length_app. simpl. lia.
  - rewrite Forall_app. auto.
  - rewrite fmap_app. apply NoDup_app. split_and!; [done| |by apply NoDup_singleton].
    intros x Hx ->%list_elem_of_singleton. apply Edup, Exists_exists.
    apply list_elem_of_fmap in Hx as (r' & Hx & Hin). exists r'. split; [done|].
    rewrite <- Hx, Hn2, Hn1. done.
Qed.

Lemma parse_lines_ok chk fuel text lineno pol pol' :
  parse_lines chk fuel text lineno pol = inr pol' → policy_ok chk pol → policy_ok chk pol'.
Proof.
  revert text lineno pol. induction fuel as [|fuel IH]; intros text lineno pol; [by intros [= ->]|].
  destruct text as [|c text]; cbn [parse_lines]; [by intros [= ->]|].
  set (split := match strchr newline _ with Some _ => _ | None => _ end).
  destruct split as [line rest]. unfold parse_line.
  destruct (tokenize line _) as [[|d tok]|]; [by apply IH| |done].
  destruct (bool_decide (d = "action")).
  { destruct (parse_action pol (d :: tok) chk) as [|p1] eqn:Hp; [done|].
    intros Hl Hok. eapply IH; [exact Hl|]. by eapply parse_action_ok. }
  destruct (bool_decide (d = "rule")); [|done].
  destruct (parse_rule pol (d :: tok)) as [|p1] eqn:Hp; [done|].
  intros Hl Hok. eapply IH; [exact Hl|]. by eapply parse_rule_ok.
Qed.

Lemma empty_policy_ok chk : policy_ok chk empty_policy.
Proof. constructor; simpl; try done; constructor. Qed.
End parse_ok.



(** *** The two loops finish: beyond the length of the text, more rounds change nothing *)
Lemma strchr_rest_short c s l r : strchr c s = Some (l, r) → (String.length r < String.length s)%nat.
Proof.
  revert l. induction s as [|a s IH]; intros l; cbn [strchr]; [done|].
  destruct (ascii_eqb a c); [intros [= _ ->]; simpl; lia|].
  destruct (strchr c s) as [[l' r']|] eqn:E; [|done]. cbn. intros [= _ ->].
  specialize (IH _ eq_refl). lia.
Qed.

Lemma scan_word_short q s w r : scan_word q s = Some (w, r) → (String.length r ≤ String.length s)%nat.
Proof.
  remember (String.length s) as n eqn:Hn. revert q s w r Hn.
  induction n as [n IH] using (well_founded_induction lt_wf). intros q s w r -> H.
  assert (IH' : ∀ q s' w r, (String.length s' < String.length s)%nat →
    scan_word q s' = Some (w, r) → (String.length r < String.length s)%nat).
  { intros q' s' w' r' Hs H'. by eapply Nat.le_lt_trans; [eapply (IH _ Hs)|]. }
  clear IH. destruct s as [|c s]; cbn [scan_word] in H.
  { destruct q; simplify_eq. simpl. lia. }
  repeat match goal with
  | H : context [if ?b then _ else _] |- _ => destruct b
  | H : context [match ?s with "" => _ | String _ _ => _ end] |- _ =>
      is_var s; destruct s as [|? ?]
  | H : (scan_word ?b ?t ≫= _) = Some _ |- _ =>
      destruct (scan_word b t) as [[? ?]|] eqn:?; [|discriminate H]; cbn in H; simplify_eq
  end; simplify_eq; cbn [String.length] in *; try lia;
  apply Nat.lt_le_incl; (eapply IH'; [|eassumption]); cbn [String.length]; lia.
Qed.

Lemma skip_blank_short s : (String.length (skip_blank s) ≤ String.length s)%nat.
Proof. induction s as [|c s IH]; simpl; [lia|]. destruct (is_blank c); simpl; lia. Qed.

Lemma tokenize_fuel fuel line n max :
  (String.length line < fuel)%nat →
  tokenize_loop fuel line n max = tokenize_loop (S (String.length line)) line n max.
Proof.
  assert (Hgo : ∀ f g s n, (String.length s < f)%nat → (String.length s < g)%nat →
    tokenize_loop f s n max = tokenize_loop g s n max).
  { clear. induction f as [|f IH]; intros [|g] s n Hf Hg; [lia..|]. cbn [tokenize_loop].
    pose proof (skip_blank_short s) as Hs. destruct (skip_blank s) as [|c r]; [done|].
    case_match; [done|]. case_match; [done|].
    destruct (scan_word false (String c r)) as [[w rest]|] eqn:E; [|done]. cbn.
    apply scan_word_short in E. simpl in *.
    rewrite (IH g); [done|..]; destruct rest; simpl in *; lia. }
  intros H. apply Hgo; lia.
Qed.

Lemma parse_lines_fuel `{Files} chk fuel text lineno pol :
  (String.length text ≤ fuel)%nat →
  parse_lines chk fuel text lineno pol = parse_lines chk (String.length text) text lineno pol.
Proof.
  assert (Hgo : ∀ f g s ln pol, (String.length s ≤ f)%nat → (String.length s ≤ g)%nat →
    parse_lines chk f s ln pol = parse_lines chk g s ln pol).
  { clear. induction f as [|f IH]; intros [|g] [|c s] ln pol Hf Hg; simpl in Hf, Hg; try done; try lia.
    cbn [parse_lines]. destruct (strchr newline (String c s)) as [[l r]|] eqn:E.
    - apply strchr_rest_short in E. simpl in E. destruct (parse_line _ _ _); [done|]. apply IH; lia.
    - destruct (parse_line _ _ _); [done|]. apply IH; simpl; lia. }
  intros Hf. by apply Hgo.
Qed.

(** Number of lines: one more than the newlines, less an empty last line. *)
Fixpoint line_count (fuel : nat) (text : string) : Z :=
  match fuel, text with
  | O, _ | _, "" => 0
  | S fuel, _ => 1 + line_count fuel (match strchr newline text with Some (_, r) => r | None => "" end)
  end.

Lemma line_count_nonneg fuel text : 0 ≤ line_count fuel text.
Proof.
  revert text. induction fuel as [|fuel IH]; intros [|c text]; cbn [line_count]; try lia.
  match goal with |- context [line_count fuel ?t] => specialize (IH t) end. lia.
Qed.

Lemma parse_lines_line `{Files} chk fuel text lineno pol l e :
  parse_lines chk fuel text lineno pol = inl (l, e) →
  lineno < l ≤ lineno + line_count fuel text.
Proof.
  revert text lineno pol. induction fuel as [|fuel IH]; intros text lineno pol; [done|].
  destruct text as [|c text]; cbn [parse_lines line_count]; [done|].
  destruct (strchr newline (String c text)) as [[a b]|].
  - pose proof (line_count_nonneg fuel b).
    destruct (parse_line chk pol a); [intros [= <- <-]; lia|]. intros Hl%IH. lia.
  - pose proof (line_count_nonneg fuel "").
    destruct (parse_line chk pol _); [intros [= <- <-]; lia|]. intros Hl%IH. lia.
Qed.

(** A rejected policy leaves nothing behind, and the line it is blamed on is a line
    of the text. *)
Theorem kgp_parse_error `{Files} text check_fs l e pol :
  kgp_parse text check_fs = (Some (l, e), pol) →
  pol = empty_policy ∧ 1 ≤ l ≤ line_count (String.length text) text.
Proof.
  unfold kgp_parse. destruct (parse_lines _ _ _ _ _) as [[l' e']|p] eqn:E; [|done].
  intros [= <- <- <-]. apply parse_lines_line in E. split; [done|lia].
Qed.

Lemma kgp_parse_error_witness :
  ∃ l e pol, @kgp_parse no_files "action log relative/path" false = (Some (l, e), pol)
  ∧ pol = empty_policy ∧ 1 ≤ l ≤ 1.
Proof.
  assert (Hp : is_Some (@kgp_parse no_files "action log relative/path" false).1)
    by (vm_compute; eexists; reflexivity).
  destruct (kgp_parse _ _) as [[[l e]|] pol] eqn:E; [|destruct Hp; discriminate].
  exists l, e, pol. split; [done|]. exact (@kgp_parse_error no_files _ _ _ _ _ E).
Defined.

(** ** Quoting round trip *)

(** A word as it would be written inside quotes. *)
Fixpoint escape (w : string) : string :=
  match w with
  | "" => ""
  | String c w => if ascii_eqb c dquote then String backslash (String c (escape w))
                  else String c (escape w)
  end.
Definition quote (w : string) : string := String dquote (escape w +:+ String dquote "").
Definition join_words (ws : list string) : string :=
  foldr (λ w s, quote w +:+ String " "%char s) "" ws.

(** A word that ends in a backslash cannot be written inside quotes. *)
Fixpoint ends_backslash (w : string) : bool :=
  match w with
  | "" => false
  | String c "" => ascii_eqb c backslash
  | String _ w => ends_backslash w
  end.

Lemma string_app_cons x (a b : string) : String x a +:+ b = String x (a +:+ b).
Proof. done. Qed.

Lemma string_app_nil_r (a : string) : a +:+ "" = a.
Proof. induction a as [|x a IH]; [done|]. by rewrite string_app_cons, IH. Qed.

Lemma string_app_assoc (a b c : string) : (a +:+ b) +:+ c = a +:+ (b +:+ c).
Proof. induction a as [|x a IH]; [done|]. by rewrite !string_app_cons, IH. Qed.

Lemma scan_escaped w rest :
  ends_backslash w = false →
  scan_word true (escape w +:+ String dquote rest)
  = ('(u, r) ← scan_word false rest; Some (w +:+ u, r)).
Proof.
  induction w as [|c w IH]; intros Hw.
  - simpl. destruct (scan_word false rest) as [[u r]|]; done.
  - assert (Hw' : ends_backslash w = false) by (destruct w; [done|exact Hw]).
    specialize (IH Hw'). cbn [escape].
    destruct (ascii_eqb c dquote) eqn:Ec.
    + rewrite !string_app_cons. cbn [scan_word].
      change (ascii_eqb backslash dquote) with false. change (ascii_eqb backslash backslash) with true.
      cbv iota. rewrite Ec. rewrite IH.
      destruct (scan_word false rest) as [[u r]|]; done.
    + rewrite string_app_cons. cbn [scan_word]. rewrite Ec.
      destruct (ascii_eqb c backslash) eqn:Eb.
      * destruct w as [|d w]; [cbn in Hw; congruence|].
        assert (Hne : ∀ s, escape (String d w) +:+ s ≠ "")
          by (intros s; cbn [escape]; destruct (ascii_eqb d dquote); by rewrite string_app_cons).
        destruct (escape (String d w) +:+ String dquote rest) as [|x t] eqn:Et; [by destruct (Hne _ Et)|].
        assert (Hx : ascii_eqb x dquote = false).
        { cbn [escape] in Et. destruct (ascii_eqb d dquote) eqn:Ed;
            rewrite string_app_cons in Et; injection Et as <- _; done. }
        rewrite Hx, IH. destruct (scan_word false rest) as [[u r]|]; done.
      * rewrite IH. destruct (scan_word false rest) as [[u r]|]; done.
Qed.

Lemma scan_quoted w s :
  ends_backslash w = false →
  scan_word false (quote w +:+ String " "%char s) = Some (w, String " "%char s).
Proof.
  intros Hw. unfold quote. rewrite string_app_cons. cbn [scan_word].
  change (is_blank dquote) with false. change (ascii_eqb dquote dquote) with true. cbv iota.
  rewrite string_app_assoc, string_app_cons. rewrite scan_escaped by done.
  cbn [scan_word]. change (is_blank " "%char) with true. cbv iota. simpl.
  by rewrite string_app_nil_r.
Qed.

Lemma quote_tokens ws fuel n max :
  Forall (λ w, ends_backslash w = false) ws → n + zlen ws ≤ max → (length ws < fuel)%nat →
  tokenize_loop fuel (join_words ws) n max = Some ws.
Proof.
  intros Hws. revert fuel n. induction Hws as [|w ws Hw Hws IH]; intros fuel n Hn Hf;
    (destruct fuel as [|fuel]; [simpl in *; lia|]); [done|].
  cbn [tokenize_loop join_words foldr]. fold (join_words ws).
  assert (Hq : ∀ s, skip_blank (quote w +:+ s) = quote w +:+ s) by done.
  rewrite Hq. pose proof (scan_quoted w (join_words ws) Hw) as Hs.
  unfold quote at 1. rewrite string_app_cons.
  change (ascii_eqb dquote "#"%char) with false. cbv iota.
  rewrite (proj2 (Z.leb_gt max n)) by (unfold zlen in *; simpl in *; lia).
  unfold quote in Hs at 1. rewrite string_app_cons in Hs. rewrite Hs. bind_simpl.
  rewrite IH; [done|unfold zlen in *; simpl in *; lia|simpl in *; lia].
Qed.

(** Quoting round trip: any words (with blanks, quotes and hash signs inside) that
    do not end in a backslash survive being written between quotes and tokenized. *)
Theorem tokenize_quote_roundtrip ws max :
  Forall (λ w, ends_backslash w = false) ws → zlen ws ≤ max →
  tokenize (join_words ws) max = Some ws.
Proof.
  intros Hws Hmax. unfold tokenize. apply quote_tokens; [done|lia|].
  clear. induction ws as [|w ws IH]; cbn [length]; [simpl; lia|].
  assert (∀ a b, String.length (a +:+ b) = (String.length a + String.length b)%nat) as Hlen
    by (intros a b; induction a as [|x a IHa]; [done|]; rewrite string_app_cons; simpl; by rewrite IHa).
  change (join_words (w :: ws)) with (quote w +:+ String " "%char (join_words ws)).
  rewrite Hlen. cbn [String.length]. lia.
Qed.

Lemma tokenize_quote_roundtrip_witness :
  tokenize (join_words ["mail"; "to the # admin"; ""]) 3 = Some ["mail"; "to the # admin"; ""].
Proof.
  apply tokenize_quote_roundtrip; [repeat constructor|by compute].
Defined.
