(* ===== verification/Policy.v ===== *)
(** * Escalation engine (linux/monitor/kg_policy.c: kgp_init .. kgp_selftest)

    The engine keeps 64 incident slots.  [kgp_alert], [kgp_tick] and [kgp_ack]
    return the engine together with the calls of the [kgp_run_fn] callback they
    make, in order. *)
From S2P Require Import Prelude Uapi PolicyParse.
Local Open Scope string_scope.
Local Open Scope list_scope.
Local Open Scope Z_scope.

Definition KGP_MAX_INCIDENTS : Z := 64.

Record kgp_alert_t := Alert {
  al_code : Z; al_level : Z; al_seq : Z; al_param1 : Z; al_param2 : Z; al_time_ns : Z;
  al_details : string
}.
Definition zero_alert : kgp_alert_t := Alert 0 0 0 0 0 0 "".

Record kgp_incident := Incident {
  in_used : bool;
  in_rule : nat;
  in_code : Z;
  in_p1 : Z;
  in_first_s : Z; in_last_s : Z; in_last_run_s : Z;
  in_last_seq : Z;
  in_count : Z;
  in_recent : list Z;
  in_escalated : bool; in_acked : bool;
  in_last : kgp_alert_t
}.
Definition zero_incident : kgp_incident :=
  Incident false 0 0 0 0 0 0 0 0 (replicate 16 0) false false zero_alert.
#[export] Instance incident_inhabited : Inhabited kgp_incident := populate zero_incident.

Record kgp_engine := Engine { e_pol : kgp_policy; e_inc : list kgp_incident }.

(** One call of the callback. *)
Record run_call := Run {
  rc_action : kgp_action; rc_rule : kgp_rule; rc_alert : kgp_alert_t;
  rc_tier : Z; rc_count : Z; rc_first_s : Z
}.

Definition kgp_init (pol : kgp_policy) : kgp_engine :=
  Engine pol (replicate (Z.to_nat KGP_MAX_INCIDENTS) zero_incident).

Definition rule_matches (r : kgp_rule) (al : kgp_alert_t) : bool :=
  if al_level al <? r_min_level r then false
  else match r_codes r with
       | [] => true
       | codes => bool_decide (al_code al ∈ codes)
       end.

Definition run_mask (pol : kgp_policy) (mask : Z) (r : kgp_rule) (inc : kgp_incident) (tier : Z)
  : list run_call :=
  mjoin (imap (λ i a, if Z.testbit mask (Z.of_nat i)
                      then [Run a r (in_last inc) tier (in_count inc) (in_first_s inc)] else [])
              (p_actions pol)).

Definition is_incident (rule : nat) (code p1 : Z) (i : kgp_incident) : bool :=
  in_used i && bool_decide (in_rule i = rule) && (in_code i =? code) && (in_p1 i =? p1).

(** The scan of the table: the slot found (not fresh), the first free slot, the
    least recently used one, as indices. *)
Fixpoint slot_scan (rule : nat) (code p1 : Z) (l : list kgp_incident) (i : nat)
  (free : option nat) (oldest : option (nat * Z)) : nat * bool :=
  match l with
  | [] => (match free, oldest with
           | Some f, _ => f
           | None, Some (o, _) => o
           | None, None => O
           end, true)
  | inc :: l =>
    if is_incident rule code p1 inc then (i, false)
    else
      let free := match free with Some f => Some f
                  | None => if in_used inc then None else Some i end in
      let oldest := if in_used inc && match oldest with
                                      | None => true
                                      | Some (_, t) => in_last_s inc <? t end
                    then Some (i, in_last_s inc) else oldest in
      slot_scan rule code p1 l (S i) free oldest
  end.

Definition incident_slot (e : kgp_engine) (rule : nat) (code p1 : Z) : nat * bool :=
  slot_scan rule code p1 (e_inc e) 0 None None.

(** The incident after one more arrival, before any action ran. *)
Definition arrival (now : Z) (al : kgp_alert_t) (i : kgp_incident) : kgp_incident :=
  Incident (in_used i) (in_rule i) (in_code i) (in_p1 i) (in_first_s i) now (in_last_run_s i)
           (al_seq al) (u32 (in_count i + 1))
           (<[Z.to_nat (in_count i mod KGP_MAX_REPEAT) := now]> (in_recent i))
           (in_escalated i) (in_acked i) al.
Definition set_last_run (now : Z) (i : kgp_incident) : kgp_incident :=
  Incident (in_used i) (in_rule i) (in_code i) (in_p1 i) (in_first_s i) (in_last_s i) now
           (in_last_seq i) (in_count i) (in_recent i) (in_escalated i) (in_acked i) (in_last i).
Definition set_escalated (i : kgp_incident) : kgp_incident :=
  Incident (in_used i) (in_rule i) (in_code i) (in_p1 i) (in_first_s i) (in_last_s i)
           (in_last_run_s i) (in_last_seq i) (in_count i) (in_recent i) true (in_acked i)
           (in_last i).
Definition set_acked (i : kgp_incident) : kgp_incident :=
  Incident (in_used i) (in_rule i) (in_code i) (in_p1 i) (in_first_s i) (in_last_s i)
           (in_last_run_s i) (in_last_seq i) (in_count i) (in_recent i) (in_escalated i) true
           (in_last i).
Definition fresh_incident (ri : nat) (al : kgp_alert_t) (now : Z) : kgp_incident :=
  Incident true ri (al_code al) (al_param1 al) now 0 0 0 0 (replicate 16 0) false false zero_alert.

(** [repeat=N/SEC] is met: the N-th most recent arrival is inside the window. *)
Definition repeat_met (r : kgp_rule) (now : Z) (i : kgp_incident) : bool :=
  let nth := in_recent i !!! Z.to_nat (u32 (in_count i - r_repeat_n r) mod KGP_MAX_REPEAT) in
  u64 (now - nth) <=? r_repeat_window_s r.

(** What one matching alert does to its incident: the incident and the calls. *)
Definition incident_step (pol : kgp_policy) (r : kgp_rule) (now : Z) (al : kgp_alert_t)
  (fresh : bool) (i : kgp_incident) : kgp_incident * list run_call :=
  let i := arrival now al i in
  let run_base := fresh || (r_throttle_s r <=? u64 (now - in_last_run_s i)) in
  let i := if run_base then set_last_run now i else i in
  let base := if run_base then run_mask pol (r_do_mask r) r i 0 else [] in
  if negb (r_repeat_n r =? 0) && negb (in_escalated i) && (r_repeat_n r <=? in_count i)
     && repeat_met r now i
  then let i := set_escalated i in (i, base ++ run_mask pol (r_then_mask r) r i 1)
  else (i, base).

Definition alert_rule (now : Z) (al : kgp_alert_t) (ri : nat) (r : kgp_rule) (e : kgp_engine)
  : kgp_engine * list run_call :=
  if negb (rule_matches r al) then (e, [])
  else
    let '(k, fresh) := incident_slot e ri (al_code al) (al_param1 al) in
    let old := e_inc e !!! k in
    let fresh := fresh || in_acked old in
    let i := if fresh then fresh_incident ri al now else old in
    let '(i, calls) := incident_step (e_pol e) r now al fresh i in
    (Engine (e_pol e) (<[k := i]> (e_inc e)), calls).

Fixpoint alert_rules (now : Z) (al : kgp_alert_t) (ri : nat) (rules : list kgp_rule)
  (e : kgp_engine) : kgp_engine * list run_call :=
  match rules with
  | [] => (e, [])
  | r :: rules =>
    let '(e, c1) := alert_rule now al ri r e in
    let '(e, c2) := alert_rules now al (S ri) rules e in
    (e, c1 ++ c2)
  end.

Definition kgp_alert (e : kgp_engine) (now : Z) (al : kgp_alert_t) : kgp_engine * list run_call :=
  alert_rules now al 0 (p_rules (e_pol e)) e.

(** One slot of [kgp_tick]. *)
Definition tick_slot (pol : kgp_policy) (now : Z) (i : kgp_incident)
  : kgp_incident * list run_call :=
  match in_used i, p_rules pol !! in_rule i with
  | true, Some r =>
    if r_reset_s r <=? u64 (now - in_last_s i) then (zero_incident, [])
    else if negb (r_unacked_s r =? 0) && negb (in_acked i) && negb (in_escalated i)
            && (r_unacked_s r <=? u64 (now - in_first_s i))
    then let i := set_escalated i in (i, run_mask pol (r_then_mask r) r i 1)
    else (i, [])
  | _, _ => (i, [])
  end.

Definition kgp_tick (e : kgp_engine) (now : Z) : kgp_engine * list run_call :=
  let res := tick_slot (e_pol e) now <$> e_inc e in
  (Engine (e_pol e) (fst <$> res), mjoin (snd <$> res)).

Definition kgp_ack (e : kgp_engine) (up_to_seq : Z) : kgp_engine :=
  Engine (e_pol e)
    ((λ i, if in_used i && (0 <=? s32 (up_to_seq - in_last_seq i)) then set_acked i else i)
       <$> e_inc e).

Definition kgp_open_incidents (e : kgp_engine) : Z :=
  foldr (λ i n, (if in_used i && negb (in_acked i) then 1 else 0) + n) 0 (e_inc e).

(** ** Self-test: the source's own scenarios, with [st_run] counting calls *)
Record st_log := StLog { base : Z; esc : Z; last_action : string; last_count : Z }.
Definition st_zero : st_log := StLog 0 0 "" 0.
Definition st_run (l : st_log) (c : run_call) : st_log :=
  if rc_tier c =? 0 then StLog (base l + 1) (esc l) (a_name (rc_action c)) (rc_count c)
  else StLog (base l) (esc l + 1) (a_name (rc_action c)) (rc_count c).
Definition st_alert (code level seq p1 : Z) : kgp_alert_t := Alert code level seq p1 0 0 "".
Definition st_feed (now : Z) (a : kgp_alert_t) (s : kgp_engine * st_log) : kgp_engine * st_log :=
  let '(e, calls) := kgp_alert s.1 now a in (e, foldl st_run s.2 calls).
Definition st_tick (now : Z) (s : kgp_engine * st_log) : kgp_engine * st_log :=
  let '(e, calls) := kgp_tick s.1 now in (e, foldl st_run s.2 calls).
Definition st_ack (seq : Z) (s : kgp_engine * st_log) : kgp_engine * st_log :=
  (kgp_ack s.1 seq, s.2).

Definition nl : string := String newline "".
Definition dq : string := String dquote "".
Definition lines (l : list string) : string := foldr (λ a b, a +:+ nl +:+ b) "" l.

Definition st_good : string := lines
  ["# a comment"; "";
   "action page   /bin/true";
   "action ticket timeout=5 /bin/true " +:+ dq +:+ "an arg" +:+ dq +:+ " --x=1";
   "rule kbd    alert=UNAUTHORIZED_KBD_FILTER,0x0013 level=warning throttle=30 do=ticket repeat=3/60 then=page";
   "rule kernel alert=TEXT_PATCH,IDT_HOOK level=critical do=page,ticket";
   "rule slow   alert=PCI_DISCREPANCY do=ticket unacked=100 then=page";
   "rule forged alert=FORGED,OVERRUN,TAMPER level=forged throttle=0 do=page"].

Definition st_bad : list (string * Z) :=
  [(lines ["rule r do=nothing"], 1);
   (lines ["action a /bin/true"; "rule r alert=NOPE do=a"], 2);
   (lines ["action a /bin/true"; "rule r level=loud do=a"], 2);
   (lines ["action a /bin/true"; "rule r alert=IDT_HOOK"], 2);
   (lines ["action a /bin/true"; "rule r do=a repeat=3/60"], 2);
   (lines ["action a /bin/true"; "rule r do=a then=a"], 2);
   (lines ["action a relative/path"], 1);
   (lines ["action a"], 1);
   (lines ["action a /bin/true"; "action a /bin/true"], 2);
   (lines [""; ""; "bogus line"], 3);
   (lines ["action a /bin/true " +:+ dq +:+ "unterminated"], 1);
   (lines ["action a /bin/true"; "rule r do=a repeat=1/60 then=a"], 2)].

Definition kgp_selftest `{Files} : Z :=
  let '(line, pol) := kgp_parse st_good false in
  match line with
  | Some _ => 1
  | None =>
    let fails (l : list bool) : Z := zlen (filter (λ b, b = false) l) in
    let rule0 := default (new_rule "") (p_rules pol !! 0%nat) in
    let act1 := default (Action "" [] 0) (p_actions pol !! 1%nat) in
    let start := (kgp_init pol, st_zero) in
    let a c l s p := st_alert c l s p in
    let t1 := st_feed 1000 (a KG_ALERT_UNAUTHORIZED_KBD_FILTER KGP_INFO 1 7) start in
    let t2 := st_feed 1000 (a KG_ALERT_TEXT_PATCH KGP_WARNING 2 0) t1 in
    let t3 := st_feed 1000 (a KG_ALERT_TEXT_PATCH KGP_CRITICAL 3 0) t2 in
    let kbd seq := a KG_ALERT_UNAUTHORIZED_KBD_FILTER KGP_WARNING seq 0xabc in
    let u1 := st_feed 2000 (kbd 10) start in
    let u2 := st_feed 2010 (kbd 11) u1 in
    let u3 := st_feed 2020 (kbd 12) u2 in
    let u4 := st_feed 2026 (kbd 13) (st_feed 2025 (kbd 13) u3) in
    let u5 := st_feed 2040 (kbd 14) u4 in
    let u6 := st_feed 2041 (a KG_ALERT_UNAUTHORIZED_KBD_FILTER KGP_WARNING 20 0xdef) (u5.1, st_zero) in
    let k30 := a KG_ALERT_UNAUTHORIZED_KBD_FILTER KGP_WARNING 30 1 in
    let v1 := st_feed 3200 k30 (st_feed 3100 k30 (st_feed 3000 k30 start)) in
    let k80 := a KG_ALERT_UNAUTHORIZED_KBD_FILTER KGP_WARNING 80 2 in
    let v2 := st_feed 3560 k80 (st_feed 3530 k80 (st_feed 3500 k80 start)) in
    let v3 := st_feed 3561 k80 (st_feed 3530 k80 (st_feed 3500 k80 start)) in
    let pci seq p := a KG_ALERT_PCI_DISCREPANCY KGP_WARNING seq p in
    let x1 := st_tick 4050 (st_feed 4000 (pci 40 5) start) in
    let x2 := st_tick 4100 x1 in
    let x3 := st_tick 4200 x2 in
    let y1 := st_feed 5000 (pci 50 5) start in
    let y2 := st_ack 50 y1 in
    let y3 := st_tick 5500 y2 in
    let y4 := st_feed 5600 (pci 51 5) y3 in
    let y5 := st_ack 49 y4 in
    let y6 := st_tick 5700 y5 in
    let f60 := a KGP_ALERT_FORGED KGP_FORGED 60 0 in
    let z1 := st_feed 6000 f60 (st_feed 6000 f60 start) in
    let z2 := st_feed 6001 (a KGP_ALERT_FORGED KGP_CRITICAL 61 0) (z1.1, st_zero) in
    let w1 := st_ack 2 (st_feed 7000 (pci 0xfffffffe 9) start) in
    let w2 := st_tick (8000 + 3600) (st_feed 8000 (pci 70 9) start) in
    let full := foldl (λ s i, st_feed (9000 + Z.of_nat i) (pci (100 + Z.of_nat i) (Z.of_nat i)) s)
                      start (seq 0 74) in
    fails ([bool_decide (length (p_actions pol) = 2%nat ∧ length (p_rules pol) = 4%nat);
            bool_decide (length (a_argv act1) = 3%nat ∧ a_argv act1 !! 1%nat = Some "an arg");
            a_timeout_s act1 =? 5;
            bool_decide (r_codes rule0 !! 1%nat = Some 0x13 ∧ length (r_codes rule0) = 2%nat);
            (r_repeat_n rule0 =? 3) && (r_repeat_window_s rule0 =? 60)]
      ++ ((λ b, bool_decide (fst <$> (kgp_parse b.1 false).1 = Some b.2)) <$> st_bad)
      ++ [base t1.2 =? 0; base t2.2 =? 0; base t3.2 =? 2;
          (base u1.2 =? 1) && (esc u1.2 =? 0); base u2.2 =? 1;
          (esc u3.2 =? 1) && bool_decide (last_action u3.2 = "page") && (last_count u3.2 =? 3);
          esc u4.2 =? 1; base u5.2 =? 2; base u6.2 =? 1;
          esc v1.2 =? 0; esc v2.2 =? 1; esc v3.2 =? 0;
          esc x1.2 =? 0; (esc x2.2 =? 1) && bool_decide (last_action x2.2 = "page"); esc x3.2 =? 1;
          kgp_open_incidents y1.1 =? 1; kgp_open_incidents y2.1 =? 0; esc y3.2 =? 0;
          (base y4.2 =? 2) && (kgp_open_incidents y4.1 =? 1); kgp_open_incidents y5.1 =? 1;
          esc y6.2 =? 1; base z1.2 =? 2; base z2.2 =? 0;
          kgp_open_incidents w1.1 =? 0; kgp_open_incidents w2.1 =? 0;
          kgp_open_incidents full.1 =? KGP_MAX_INCIDENTS])
  end.

(** The parser and the engine pass every check of the program's own self-test. *)
Theorem kgp_selftest_passes `{Files} : kgp_selftest = 0.
Proof. destruct H as [st op rd eu]. vm_compute. reflexivity. Qed.

(** ** The incident table *)

(** What [incident_slot] promises: the incident of the key if there is one; else the
    first free slot; else, with the table full, the least recently used one. *)
Inductive slot_choice (rule : nat) (code p1 : Z) (l : list kgp_incident) : nat → bool → Prop :=
  | SlotFound k i :
      l !! k = Some i → is_incident rule code p1 i = true → slot_choice rule code p1 l k false
  | SlotFree k i :
      Forall (λ i, is_incident rule code p1 i = false) l →
      l !! k = Some i → in_used i = false → slot_choice rule code p1 l k true
  | SlotEvict k i :
      Forall (λ i, is_incident rule code p1 i = false) l →
      Forall (λ j, in_used j = true ∧ in_last_s i ≤ in_last_s j) l →
      l !! k = Some i → slot_choice rule code p1 l k true.

(** The accumulators of the scan after the slots [pre]. *)
Record scan_acc (rule : nat) (code p1 : Z) (pre : list kgp_incident)
  (free : option nat) (oldest : option (nat * Z)) : Prop := ScanAcc {
  sa_none : Forall (λ i, is_incident rule code p1 i = false) pre;
  sa_free : match free with
            | Some f => ∃ i, pre !! f = Some i ∧ in_used i = false
            | None => Forall (λ i, in_used i = true) pre
            end;
  sa_oldest : match oldest with
              | Some (o, t) => ∃ i, pre !! o = Some i ∧ in_used i = true ∧ in_last_s i = t
                  ∧ Forall (λ j, in_used j = true → t ≤ in_last_s j) pre
              | None => Forall (λ i, in_used i = false) pre
              end
}.

Lemma scan_acc_next rule code p1 pre free oldest inc :
  scan_acc rule code p1 pre free oldest → is_incident rule code p1 inc = false →
  scan_acc rule code p1 (pre ++ [inc])
    (match free with Some f => Some f
     | None => if in_used inc then None else Some (length pre) end)
    (if in_used inc && match oldest with None => true | Some (_, t) => in_last_s inc <? t end
     then Some (length pre, in_last_s inc) else oldest).
Proof.
  intros [Hn Hf Ho] Hi.
  assert (Hend : (pre ++ [inc]) !! length pre = Some inc) by by apply list_lookup_middle.
  constructor.
  - rewrite Forall_app. auto.
  - destruct free as [f|].
    + destruct Hf as (i & Hl & Hu). exists i. split; [by apply lookup_app_l_Some|done].
    + destruct (in_used inc) eqn:Hu; [rewrite Forall_app; auto|by exists inc].
  - destruct (in_used inc) eqn:Hu; cbn [andb].
    2:{ destruct oldest as [[o t]|]; [|rewrite Forall_app; auto].
        destruct Ho as (i & Hl & Hiu & Ht & Hall). exists i.
        split_and!; [by apply lookup_app_l_Some|done..|].
        rewrite Forall_app. split; [done|]. constructor; [congruence|done]. }
    destruct oldest as [[o t]|].
    + destruct Ho as (i & Hl & Hiu & Ht & Hall). destruct (_ <? _) eqn:E; bool_props.
      * exists inc. split_and!; try done. rewrite Forall_app. split; [|by repeat constructor].
        eapply Forall_impl; [done|]. simpl. intros j Hj Hju. specialize (Hj Hju). lia.
      * exists i. split_and!; [by apply lookup_app_l_Some|done..|].
        rewrite Forall_app. split; [done|]. by repeat constructor.
    + exists inc. split_and!; try done. rewrite Forall_app. split; [|by repeat constructor].
      eapply Forall_impl; [done|]. simpl. congruence.
Qed.

Lemma slot_scan_choice rule code p1 l pre free oldest :
  scan_acc rule code p1 pre free oldest → pre ++ l ≠ [] →
  let '(k, fresh) := slot_scan rule code p1 l (length pre) free oldest in
  slot_choice rule code p1 (pre ++ l) k fresh.
Proof.
  revert pre free oldest. induction l as [|inc l IH]; intros pre free oldest Hacc Hne; simpl.
  - rewrite app_nil_r in *. destruct Hacc as [Hn Hf Ho]. destruct free as [f|].
    + destruct Hf as (i & ? & ?). by eapply SlotFree.
    + destruct oldest as [[o t]|].
      * destruct Ho as (i & ? & ? & <- & Hall). eapply SlotEvict; [done| |done].
        apply Forall_forall. intros j Hj. rewrite Forall_forall in Hf, Hall. auto.
      * destruct pre as [|x pre]; [done|]. inversion_clear Hf. inversion_clear Ho. congruence.
  - destruct (is_incident rule code p1 inc) eqn:Hi.
    + eapply SlotFound; [|done]. by apply list_lookup_middle.
    + specialize (IH (pre ++ [inc])) with (1 := scan_acc_next _ _ _ _ _ _ _ Hacc Hi).
      rewrite length_app, <- app_assoc in IH. simpl in IH. rewrite Nat.add_1_r in IH.
      apply IH. by destruct pre.
Qed.

Lemma incident_slot_choice e rule code p1 :
  e_inc e ≠ [] →
  slot_choice rule code p1 (e_inc e) (incident_slot e rule code p1).1
                                     (incident_slot e rule code p1).2.
Proof.
  intros Hne. unfold incident_slot.
  pose proof (slot_scan_choice rule code p1 (e_inc e) [] None None) as Hs. simpl in Hs.
  destruct (slot_scan _ _ _ _ _ _ _). apply Hs; [by constructor|done].
Qed.

Lemma slot_choice_lt rule code p1 l k fresh :
  slot_choice rule code p1 l k fresh → (k < length l)%nat.
Proof. intros []; by eapply lookup_lt_Some. Qed.

(** ** The table's invariant *)
Definition in_key (i : kgp_incident) : nat * Z * Z := (in_rule i, in_code i, in_p1 i).

Definition incident_ok (pol : kgp_policy) (i : kgp_incident) : Prop :=
  length (in_recent i) = 16%nat ∧ (in_used i = true → (in_rule i < length (p_rules pol))%nat).

Record engine_inv (e : kgp_engine) : Prop := EngineInv {
  ei_len : length (e_inc e) = 64%nat;
  ei_ok : Forall (incident_ok (e_pol e)) (e_inc e);
  ei_unique : ∀ k1 k2 i1 i2, e_inc e !! k1 = Some i1 → e_inc e !! k2 = Some i2 →
    in_used i1 = true → in_used i2 = true → in_key i1 = in_key i2 → k1 = k2
}.

Lemma is_incident_key rule code p1 i :
  is_incident rule code p1 i = true ↔ in_used i = true ∧ in_key i = (rule, code, p1).
Proof.
  unfold is_incident, in_key. rewrite !andb_true_iff, bool_decide_eq_true, !Z.eqb_eq.
  naive_solver.
Qed.

(** One step of an incident keeps its key, its table entry and its buffer's size. *)
Lemma incident_step_key pol r now al fresh i :
  let i' := (incident_step pol r now al fresh i).1 in
  in_used i' = in_used i ∧ in_key i' = in_key i ∧ length (in_recent i') = length (in_recent i)
  ∧ in_acked i' = in_acked i ∧ in_first_s i' = in_first_s i ∧ in_last_s i' = now
  ∧ in_recent i' = in_recent (arrival now al i) ∧ in_count i' = u32 (in_count i + 1).
Proof.
  unfold incident_step. destruct (fresh || _); destruct (_ && _); simpl;
    rewrite length_insert; done.
Qed.

(** Writing an incident with the key the slot was chosen for keeps keys unique. *)
Lemma engine_inv_insert e ri code p1 k fresh i :
  engine_inv e → slot_choice ri code p1 (e_inc e) k fresh →
  incident_ok (e_pol e) i → in_used i = true → in_key i = (ri, code, p1) →
  engine_inv (Engine (e_pol e) (<[k := i]> (e_inc e))).
Proof.
  intros [Hlen Hok Huniq] Hch Hi Hu Hkey.
  assert (Hother : ∀ j o, e_inc e !! j = Some o → in_used o = true → in_key o = (ri, code, p1) →
            j = k).
  { intros j o Hj Hou Hok'. destruct Hch as [k c Hk Hc|k c Hall Hk Hc|k c Hall Hold Hk].
    - apply is_incident_key in Hc as [Hcu Hck]. eapply Huniq; eauto. congruence.
    - exfalso. rewrite Forall_lookup in Hall. specialize (Hall _ _ Hj).
      by rewrite (proj2 (is_incident_key ri code p1 o)) in Hall.
    - exfalso. rewrite Forall_lookup in Hall. specialize (Hall _ _ Hj).
      by rewrite (proj2 (is_incident_key ri code p1 o)) in Hall. }
  constructor; simpl.
  - by rewrite length_insert.
  - by apply Forall_insert.
  - intros k1 k2 i1 i2 H1 H2 Hu1 Hu2 Hk12.
    apply list_lookup_insert_Some in H1 as [(<- & <- & _)|[Hne1 H1]];
      apply list_lookup_insert_Some in H2 as [(<- & <- & _)|[Hne2 H2]]; try done.
    + symmetry. eapply Hother; eauto. congruence.
    + eapply Hother; eauto. congruence.
    + eapply Huniq; eauto.
Qed.

Lemma alert_rule_inv now al ri r e :
  engine_inv e → (ri < length (p_rules (e_pol e)))%nat →
  engine_inv (alert_rule now al ri r e).1 ∧ e_pol (alert_rule now al ri r e).1 = e_pol e.
Proof.
  intros Hi Hri. unfold alert_rule. destruct (rule_matches r al); [|done]. cbn [negb].
  assert (Hne : e_inc e ≠ []) by (intros Hnil; pose proof (ei_len _ Hi); by rewrite Hnil in *).
  pose proof (incident_slot_choice e ri (al_code al) (al_param1 al) Hne) as Hch.
  destruct (incident_slot e ri (al_code al) (al_param1 al)) as [k fresh]. simpl in Hch.
  set (old := e_inc e !!! k). set (f := fresh || in_acked old).
  set (i0 := if f then _ else old).
  assert (H0 : in_used i0 = true ∧ in_key i0 = (ri, al_code al, al_param1 al)
               ∧ length (in_recent i0) = 16%nat).
  { subst i0. destruct f eqn:Ef; [done|]. subst f. apply orb_false_iff in Ef as [-> _].
    inversion Hch as [k' c Hk Hc| |]; subst. subst old.
    rewrite list_lookup_total_alt, Hk. simpl. apply is_incident_key in Hc as [? ?].
    pose proof (ei_ok _ Hi) as Hok. rewrite Forall_lookup in Hok.
    destruct (Hok _ _ Hk). done. }
  destruct H0 as (Hu0 & Hk0 & Hr0).
  pose proof (incident_step_key (e_pol e) r now al f i0) as (Hu1 & Hk1 & Hr1 & _).
  destruct (incident_step (e_pol e) r now al f i0) as [i1 calls]. simpl in *.
  split; [|done]. eapply engine_inv_insert; try done; [|congruence..].
  split; [congruence|]. intros _. assert (in_rule i1 = ri) as -> by (unfold in_key in *; congruence).
  done.
Qed.

Lemma alert_rules_inv now al rules ri e :
  engine_inv e → (ri + length rules ≤ length (p_rules (e_pol e)))%nat →
  engine_inv (alert_rules now al ri rules e).1 ∧ e_pol (alert_rules now al ri rules e).1 = e_pol e.
Proof.
  revert ri e. induction rules as [|r rules IH]; intros ri e Hi Hle; [done|]. simpl in *.
  destruct (alert_rule_inv now al ri r e Hi ltac:(lia)) as [Hi1 Hp1].
  destruct (alert_rule now al ri r e) as [e1 c1]. simpl in *.
  destruct (IH (S ri) e1 Hi1 ltac:(rewrite Hp1; lia)) as [Hi2 Hp2].
  destruct (alert_rules now al (S ri) rules e1) as [e2 c2]. simpl in *. split; congruence.
Qed.

(** Slot-wise operations that free incidents or change them in place. *)
Lemma engine_inv_fmap (f : kgp_incident → kgp_incident) e :
  (∀ i, incident_ok (e_pol e) i → incident_ok (e_pol e) (f i)) →
  (∀ i, in_used (f i) = true → in_used i = true ∧ in_key (f i) = in_key i) →
  engine_inv e → engine_inv (Engine (e_pol e) (f <$> e_inc e)).
Proof.
  intros Hf Hk [Hlen Hok Huniq]. constructor; simpl.
  - by rewrite length_fmap.
  - rewrite Forall_fmap. eapply Forall_impl; [done|]. intros i. apply Hf.
  - intros k1 k2 i1 i2. rewrite !list_lookup_fmap.
    intros (o1 & H1 & ->)%fmap_Some (o2 & H2 & ->)%fmap_Some Hu1 Hu2 Hkey.
    destruct (Hk _ Hu1) as [? K1], (Hk _ Hu2) as [? K2].
    eapply Huniq; eauto. congruence.
Qed.

Lemma tick_slot_cases pol now i :
  (tick_slot pol now i).1 = zero_incident ∨ (tick_slot pol now i).1 = i
  ∨ (tick_slot pol now i).1 = set_escalated i.
Proof.
  unfold tick_slot. destruct (in_used i); [|auto]. destruct (p_rules pol !! in_rule i); [|auto].
  destruct (_ <=? _); [auto|]. destruct (_ && _); auto.
Qed.

Lemma engine_inv_init pol : engine_inv (kgp_init pol).
Proof.
  constructor; simpl; [done|by repeat constructor|].
  intros k1 k2 i1 i2 H1 _ Hu.
  change (replicate 64 zero_incident !! k1 = Some i1) in H1.
  apply lookup_replicate in H1 as [-> _]. done.
Qed.

(** Two actions and one rule: [do=a throttle=60 repeat=2/60 then=b]. *)
Definition sample_rule : kgp_rule := Rule "r" [] 0 60 1 2 60 0 2 3600.
Definition sample_policy : kgp_policy :=
  Policy [Action "a" ["/bin/a"] 30; Action "b" ["/bin/b"] 30] [sample_rule].

(** The incident table stays a bounded map: 64 slots, at most one open incident
    per rule, alert code and offender, each pointing at a rule that exists, under
    every alert, tick and acknowledgement. *)
Theorem engine_operations_keep_table e now al seq :
  engine_inv e →
  engine_inv (kgp_alert e now al).1 ∧ engine_inv (kgp_tick e now).1 ∧ engine_inv (kgp_ack e seq)
  ∧ engine_inv (kgp_init (e_pol e)).
Proof.
  intros Hi. split_and!.
  - by apply alert_rules_inv.
  - unfold kgp_tick. cbn [fst]. rewrite <- list_fmap_compose. apply engine_inv_fmap; [| |done].
    + intros i Ho. unfold compose.
      destruct (tick_slot_cases (e_pol e) now i) as [->|[->| ->]]; [by split|done|done].
    + intros i. unfold compose.
      destruct (tick_slot_cases (e_pol e) now i) as [->|[->| ->]]; done.
  - unfold kgp_ack. apply engine_inv_fmap; [| |done]; intros i; by destruct (_ && _).
  - apply engine_inv_init.
Qed.

Lemma engine_operations_keep_table_witness :
  engine_inv (kgp_alert (kgp_init sample_policy) 5 (st_alert 0x22 KGP_CRITICAL 1 7)).1
  ∧ kgp_open_incidents (kgp_alert (kgp_init sample_policy) 5 (st_alert 0x22 KGP_CRITICAL 1 7)).1 = 1.
Proof.
  split; [|vm_compute; reflexivity].
  apply (engine_operations_keep_table (kgp_init sample_policy) 5 (st_alert 0x22 KGP_CRITICAL 1 7) 0).
  apply engine_inv_init.
Defined.

(** ** Episodes: the arrivals of one incident between two acknowledgements *)

(** The circular buffer holds the arrival history, newest first. *)
Record tracks (i : kgp_incident) (hist : list Z) : Prop := Tracks {
  tr_count : in_count i = zlen hist;
  tr_len : length (in_recent i) = 16%nat;
  tr_recent : ∀ j t, hist !! j = Some t → (j < 16)%nat →
              in_recent i !! ((length hist - 1 - j) mod 16)%nat = Some t
}.

Lemma count_slot (hist : list Z) : Z.to_nat (zlen hist mod KGP_MAX_REPEAT) = (length hist mod 16)%nat.
Proof.
  unfold zlen, KGP_MAX_REPEAT. rewrite <- (Nat2Z.id (length hist mod 16)), Nat2Z.inj_mod. done.
Qed.

Lemma mod16_distinct a d : (0 < d < 16)%nat → (d ≤ a)%nat → (a mod 16 ≠ (a - d) mod 16)%nat.
Proof.
  intros Hd Ha Heq. pose proof (Nat.div_mod_eq a 16). pose proof (Nat.div_mod_eq (a - d) 16). lia.
Qed.

Lemma arrival_tracks now al i hist :
  tracks i hist → zlen hist + 1 < 4294967296 → tracks (arrival now al i) (now :: hist).
Proof.
  intros [Hc Hl Hr] Hsm. constructor; simpl.
  - rewrite Hc, u32_id; unfold is_u32, zlen in *; simpl; lia.
  - by rewrite length_insert.
  - intros j t Hj Hj16. rewrite Hc, count_slot.
    destruct j as [|j]; simpl in Hj.
    + simplify_eq. rewrite !Nat.sub_0_r. apply list_lookup_insert_eq.
      rewrite Hl. apply Nat.mod_upper_bound. lia.
    + assert (j < length hist)%nat by by eapply lookup_lt_Some.
      replace (length hist - 0 - S j)%nat with (length hist - (j + 1))%nat by lia.
      rewrite list_lookup_insert_ne by (apply mod16_distinct; lia).
      specialize (Hr j t Hj ltac:(lia)).
      by replace (length hist - 1 - j)%nat with (length hist - (j + 1))%nat in Hr by lia.
Qed.

Lemma fresh_tracks ri al now : tracks (fresh_incident ri al now) [].
Proof. by constructor. Qed.

(** Base runs and escalation do not touch the history. *)
Lemma tracks_same i i' hist :
  in_count i' = in_count i → in_recent i' = in_recent i → tracks i hist → tracks i' hist.
Proof. intros Hc Hr [H1 H2 H3]. constructor; rewrite ?Hc, ?Hr; done. Qed.

Definition nth_within (n : nat) (win now : Z) (hist : list Z) : bool :=
  match hist !! (n - 1)%nat with Some t => u64 (now - t) <=? win | None => false end.

Lemma repeat_met_spec r now i hist n :
  tracks i hist → r_repeat_n r = Z.of_nat n → (1 ≤ n ≤ 16)%nat → zlen hist < 4294967296 →
  (r_repeat_n r <=? in_count i) && repeat_met r now i
  = nth_within n (r_repeat_window_s r) now hist.
Proof.
  intros [Hc Hl Hr] Hn Hn16 Hsm. unfold nth_within, repeat_met. rewrite Hc, Hn.
  destruct (hist !! (n - 1)%nat) as [t|] eqn:Ht.
  - assert (n - 1 < length hist)%nat by by eapply lookup_lt_Some.
    rewrite (proj2 (Z.leb_le _ _)) by (unfold zlen; lia). simpl.
    specialize (Hr _ _ Ht ltac:(lia)).
    replace (length hist - 1 - (n - 1))%nat with (length hist - n)%nat in Hr by lia.
    assert (Hidx : Z.to_nat (u32 (zlen hist - Z.of_nat n) mod KGP_MAX_REPEAT)
                   = ((length hist - n) mod 16)%nat).
    { rewrite u32_id by (unfold is_u32, zlen in *; lia).
      replace (zlen hist - Z.of_nat n) with (zlen (replicate (length hist - n)%nat 0))
        by (unfold zlen; rewrite length_replicate; lia).
      by rewrite count_slot, length_replicate. }
    by rewrite Hidx, list_lookup_total_alt, Hr.
  - apply lookup_ge_None in Ht. rewrite (proj2 (Z.leb_gt _ _)) by (unfold zlen; lia). done.
Qed.

(** *** A reference for one episode *)

(** Some [n] consecutive arrivals (newest first) lie within [win] seconds. *)
Fixpoint burst (n : nat) (win : Z) (hist : list Z) : bool :=
  match hist with
  | [] => false
  | t :: older => nth_within n win t hist || burst n win older
  end.

Lemma burst_mono n win newer older : burst n win older = true → burst n win (newer ++ older) = true.
Proof. intros Hb. induction newer as [|t newer IH]; [done|]. simpl. by rewrite IH, orb_true_r. Qed.

Definition mask_actions (pol : kgp_policy) (mask : Z) : list kgp_action :=
  mjoin (imap (λ i a, if Z.testbit mask (Z.of_nat i) then [a] else []) (p_actions pol)).

Definition actions_at (tier : Z) (calls : list run_call) : list kgp_action :=
  rc_action <$> filter (λ c, rc_tier c = tier) calls.

(** The arrivals [ts] after the first, of one incident: final incident and the calls
    each arrival made. *)
Fixpoint arrivals (pol : kgp_policy) (r : kgp_rule) (ts : list (Z * kgp_alert_t))
  (i : kgp_incident) : kgp_incident * list (Z * list run_call) :=
  match ts with
  | [] => (i, [])
  | (t, al) :: ts =>
    let '(i, c) := incident_step pol r t al false i in
    let '(i, cs) := arrivals pol r ts i in
    (i, (t, c) :: cs)
  end.

Definition episode (pol : kgp_policy) (r : kgp_rule) (ri : nat) (t0 : Z) (a0 : kgp_alert_t)
  (ts : list (Z * kgp_alert_t)) : kgp_incident * list (Z * list run_call) :=
  let '(i, c) := incident_step pol r t0 a0 true (fresh_incident ri a0 t0) in
  let '(i, cs) := arrivals pol r ts i in
  (i, (t0, c) :: cs).

Lemma actions_at_app t l k : actions_at t (l ++ k) = actions_at t l ++ actions_at t k.
Proof. unfold actions_at. by rewrite filter_app, fmap_app. Qed.

Lemma actions_at_imap t (f : nat → kgp_action → list run_call) g l :
  (∀ i a, actions_at t (f i a) = g i a) → actions_at t (mjoin (imap f l)) = mjoin (imap g l).
Proof.
  revert f g. induction l as [|a l IH]; intros f g Hfg; [done|].
  rewrite !imap_cons. cbn [mjoin list_join]. rewrite actions_at_app, Hfg. f_equal.
  apply (IH (f ∘ S) (g ∘ S)). intros. apply Hfg.
Qed.

Lemma imap_nil_join {A B} (l : list A) : mjoin (imap (λ _ _, []) l) = ([] : list B).
Proof. induction l as [|a l IH]; [done|]. rewrite imap_cons. exact IH. Qed.

Lemma actions_run_mask pol mask r i tier tier' :
  actions_at tier' (run_mask pol mask r i tier)
  = if decide (tier = tier') then mask_actions pol mask else [].
Proof.
  unfold run_mask, mask_actions. destruct (decide (tier = tier')) as [<-|Hne].
  - apply actions_at_imap. intros k a. case_goal; [|done].
    unfold actions_at. rewrite filter_cons, decide_True by done. done.
  - trans (mjoin (imap (λ _ _, [] : list kgp_action) (p_actions pol))); [|apply imap_nil_join].
    apply actions_at_imap. intros k a.
    case_goal; [|done]. unfold actions_at. by rewrite filter_cons, decide_False by done.
Qed.

(** *** One arrival against the reference *)
Definition escalates (n : nat) (r : kgp_rule) (now : Z) (hist : list Z) (i : kgp_incident) : bool :=
  negb (in_escalated i) && nth_within n (r_repeat_window_s r) now (now :: hist).

Lemma incident_step_base pol r now al fresh i :
  let '(i', calls) := incident_step pol r now al fresh i in
  let run_base := fresh || (r_throttle_s r <=? u64 (now - in_last_run_s i)) in
  in_last_run_s i' = (if run_base then now else in_last_run_s i)
  ∧ actions_at 0 calls = (if run_base then mask_actions pol (r_do_mask r) else []).
Proof.
  unfold incident_step. cbn [arrival in_last_run_s].
  destruct (fresh || _), (negb (r_repeat_n r =? 0) && _ && _ && _); simpl;
    rewrite ?actions_at_app, ?actions_run_mask; simpl; rewrite ?app_nil_r; done.
Qed.

Lemma incident_step_spec pol r n now al fresh i hist :
  tracks i hist → r_repeat_n r = Z.of_nat n → (1 ≤ n ≤ 16)%nat → zlen hist + 1 < 4294967296 →
  let '(i', calls) := incident_step pol r now al fresh i in
  tracks i' (now :: hist)
  ∧ in_escalated i' = in_escalated i || nth_within n (r_repeat_window_s r) now (now :: hist)
  ∧ actions_at 1 calls = (if escalates n r now hist i
                          then mask_actions pol (r_then_mask r) else []).
Proof.
  intros Htr Hn Hn16 Hsm. unfold incident_step, escalates.
  pose proof (arrival_tracks now al i hist Htr Hsm) as Ha.
  set (run_base := fresh || _).
  set (i1 := if run_base then set_last_run now (arrival now al i) else arrival now al i).
  assert (H1 : tracks i1 (now :: hist))
    by (subst i1; destruct run_base; [by apply (tracks_same (arrival now al i))|done]).
  assert (He1 : in_escalated i1 = in_escalated i) by (subst i1; by destruct run_base).
  pose proof (repeat_met_spec r now i1 (now :: hist) n H1 Hn Hn16
                ltac:(unfold zlen in *; simpl; lia)) as Hmet.
  rewrite (proj2 (Z.eqb_neq _ _)) by lia. cbn [negb andb].
  rewrite He1, <- andb_assoc, Hmet.
  assert (Hb1 : ∀ m, actions_at 1 (if run_base then run_mask pol m r i1 0 else []) = [])
    by (intros; case_goal; [by rewrite actions_run_mask|done]).
  destruct (in_escalated i); cbn [negb andb orb]; [by split_and!|].
  destruct (nth_within n (r_repeat_window_s r) now (now :: hist)); [|by split_and!].
  split_and!; [by apply (tracks_same i1)|done|].
  rewrite actions_at_app, actions_run_mask, Hb1. done.
Qed.

Definition all_actions (tier : Z) (cs : list (Z * list run_call)) : list kgp_action :=
  mjoin ((λ c, actions_at tier c.2) <$> cs).

Lemma all_actions_cons tier c cs :
  all_actions tier (c :: cs) = actions_at tier c.2 ++ all_actions tier cs.
Proof. done. Qed.

Lemma arrivals_burst pol r n ts i hist :
  tracks i hist → r_repeat_n r = Z.of_nat n → (1 ≤ n ≤ 16)%nat →
  zlen hist + zlen ts < 4294967296 → in_escalated i = burst n (r_repeat_window_s r) hist →
  let '(i', cs) := arrivals pol r ts i in
  let b := burst n (r_repeat_window_s r) (rev (fst <$> ts) ++ hist) in
  in_escalated i' = b
  ∧ all_actions 1 cs = (if b && negb (in_escalated i) then mask_actions pol (r_then_mask r) else []).
Proof.
  intros Htr Hn Hn16 Hsm He. revert i hist Htr Hsm He.
  induction ts as [|[t al] ts IH]; intros i hist Htr Hsm He; cbn [arrivals].
  - simpl. rewrite He. split; [done|]. by destruct (burst _ _ _).
  - pose proof (incident_step_spec pol r n t al false i hist Htr Hn Hn16
                  ltac:(unfold zlen in *; simpl in *; lia)) as Hstep.
    destruct (incident_step pol r t al false i) as [i1 c1].
    destruct Hstep as (Htr1 & He1 & Ha1).
    specialize (IH i1 (t :: hist) Htr1 ltac:(unfold zlen in *; simpl in *; lia)).
    assert (He1' : in_escalated i1 = burst n (r_repeat_window_s r) (t :: hist))
      by (rewrite He1, He; cbn [burst]; apply orb_comm).
    specialize (IH He1'). destruct (arrivals pol r ts i1) as [i2 cs].
    destruct IH as [IHe IHa]. rewrite fmap_cons. cbn [rev fst].
    replace ((rev (fst <$> ts) ++ [t]) ++ hist) with (rev (fst <$> ts) ++ t :: hist)
      by (rewrite <- app_assoc; done).
    split; [done|]. rewrite all_actions_cons, IHa. cbn [snd]. rewrite Ha1. unfold escalates.
    destruct (in_escalated i) eqn:Ei; cbn [negb andb orb] in *.
    + rewrite He1. cbn [negb]. by rewrite !andb_false_r.
    + rewrite He1. rewrite !andb_true_r.
      destruct (nth_within n (r_repeat_window_s r) t (t :: hist)) eqn:Ew; cbn [negb].
      * rewrite andb_false_r, app_nil_r. rewrite (burst_mono n (r_repeat_window_s r)); [done|].
        by rewrite <- He1'.
      * by rewrite andb_true_r.
Qed.



(** *** Throttling *)
Definition base_times (cs : list (Z * list run_call)) : list Z :=
  fst <$> filter (λ c, actions_at 0 c.2 ≠ []) cs.

(** Consecutive base runs are at least [thr] apart, and an arrival that ran nothing came
    less than [thr] after one that did. *)
Record throttled (thr : Z) (bt arr : list Z) : Prop := Throttled {
  th_gap : Sorted (λ a b, a + thr ≤ b) bt;
  th_cover : ∀ t, t ∈ arr → ∃ b, b ∈ bt ∧ b ≤ t ∧ (t = b ∨ t < b + thr)
}.

Lemma arrivals_throttle pol r ts i :
  mask_actions pol (r_do_mask r) ≠ [] → Forall is_u64 (fst <$> ts) → 0 ≤ in_last_run_s i →
  Sorted Z.le (in_last_run_s i :: (fst <$> ts)) →
  throttled (r_throttle_s r) (in_last_run_s i :: base_times (arrivals pol r ts i).2) (fst <$> ts).
Proof.
  intros Hdo. revert i. induction ts as [|[t al] ts IH]; intros i Hts H0 Hs; cbn [arrivals].
  - constructor; [by repeat constructor|]. by intros t ?%elem_of_nil.
  - rewrite fmap_cons in *. cbn [fst] in *.
    inversion_clear Hts as [|?? Htu Hts']. apply Sorted_inv in Hs as [Hs1 Hhd].
    apply HdRel_inv in Hhd as Hle.
    pose proof (incident_step_base pol r t al false i) as Hb.
    destruct (incident_step pol r t al false i) as [i1 c1]. destruct Hb as [Hl1 Ha1].
    cbn [orb] in *. rewrite u64_id in Hl1, Ha1 by (unfold is_u64 in *; lia).
    specialize (IH i1 Hts').
    destruct (arrivals pol r ts i1) as [i2 cs]. cbn [snd] in *.
    destruct (r_throttle_s r <=? t - in_last_run_s i) eqn:E; bool_props.
    + rewrite Hl1 in IH. destruct IH as [Hg Hc]; [unfold is_u64 in Htu; lia|done|].
      assert (Hbt : base_times ((t, c1) :: cs) = t :: base_times cs).
      { unfold base_times. rewrite filter_cons, decide_True by (simpl; by rewrite Ha1). done. }
      rewrite Hbt. constructor.
      * constructor; [done|]. constructor. lia.
      * intros u [->|Hu]%elem_of_cons; [exists t; set_solver by lia|].
        destruct (Hc u Hu) as (b & Hb & ?). exists b. set_solver.
    + rewrite Hl1 in IH. destruct IH as [Hg Hc]; [done|..].
      { apply Sorted_inv in Hs1 as [Hs1 Hhd1]. constructor; [done|].
        destruct Hhd1; constructor. lia. }
      assert (Hbt : base_times ((t, c1) :: cs) = base_times cs).
      { unfold base_times. rewrite filter_cons, decide_False by (simpl; rewrite Ha1; tauto). done. }
      rewrite Hbt. constructor; [done|].
      intros u [->|Hu]%elem_of_cons; [|by apply Hc].
      exists (in_last_run_s i). split; [by left|]. split; [done|right; lia].
Qed.

(** Throttling: in one episode the base actions run on the first arrival, two
    consecutive runs are at least [throttle=] seconds apart, and an arrival is passed
    over only when a run happened less than that before it. *)
Theorem base_actions_throttled pol r ri t0 a0 ts :
  mask_actions pol (r_do_mask r) ≠ [] → Forall is_u64 (t0 :: (fst <$> ts)) →
  Sorted Z.le (t0 :: (fst <$> ts)) →
  let bt := base_times (episode pol r ri t0 a0 ts).2 in
  hd_error bt = Some t0 ∧ throttled (r_throttle_s r) bt (t0 :: (fst <$> ts)).
Proof.
  intros Hdo Hu Hs. inversion_clear Hu as [|?? Hu0 Hts]. unfold episode.
  pose proof (incident_step_base pol r t0 a0 true (fresh_incident ri a0 t0)) as Hb.
  destruct (incident_step pol r t0 a0 true _) as [i1 c1]. destruct Hb as [Hl1 Ha1].
  cbn [orb] in *.
  pose proof (arrivals_throttle pol r ts i1 Hdo Hts) as Hth. rewrite Hl1 in Hth.
  specialize (Hth ltac:(unfold is_u64 in Hu0; lia) Hs).
  destruct (arrivals pol r ts i1) as [i2 cs]. cbn [snd] in *.
  assert (Hbt : base_times ((t0, c1) :: cs) = t0 :: base_times cs).
  { unfold base_times. rewrite filter_cons, decide_True by (simpl; by rewrite Ha1). done. }
  rewrite Hbt. split; [done|]. destruct Hth as [Hg Hc]. constructor; [done|].
  intros u [->|Hu]%elem_of_cons; [|by apply Hc].
  exists t0. split; [by left|]. split; [done|by left].
Qed.

Lemma base_actions_throttled_witness :
  let bt := base_times (episode sample_policy sample_rule 0 100 (st_alert 0x22 2 1 7)
                          [(150, st_alert 0x22 2 2 7); (190, st_alert 0x22 2 3 7)]).2 in
  hd_error bt = Some 100 ∧ throttled 60 bt [100; 150; 190] ∧ bt = [100; 190].
Proof.
  intros bt.
  destruct (base_actions_throttled sample_policy sample_rule 0 100 (st_alert 0x22 2 1 7)
              [(150, st_alert 0x22 2 2 7); (190, st_alert 0x22 2 3 7)]) as [Hh Ht].
  - vm_compute. discriminate.
  - repeat constructor; simpl; lia.
  - repeat constructor; simpl; lia.
  - split_and!; [exact Hh|exact Ht|vm_compute; reflexivity].
Defined.

(** The table forgets only under pressure: an alert makes an open incident
    disappear from its slot only if every slot is in use and that incident is a least
    recently used one. *)
Theorem eviction_is_lru now al ri r e j o :
  engine_inv e → e_inc e !! j = Some o → in_used o = true →
  (∃ o', e_inc (alert_rule now al ri r e).1 !! j = Some o'
         ∧ in_used o' = true ∧ in_key o' = in_key o)
  ∨ Forall (λ p, in_used p = true ∧ in_last_s o ≤ in_last_s p) (e_inc e).
Proof.
  intros Hi Hj Ho. unfold alert_rule. destruct (rule_matches r al); [|left; eauto]. cbn [negb].
  assert (Hne : e_inc e ≠ []) by (intros Hnil; by rewrite Hnil in Hj).
  pose proof (incident_slot_choice e ri (al_code al) (al_param1 al) Hne) as Hch.
  destruct (incident_slot e ri (al_code al) (al_param1 al)) as [k fresh]. simpl in Hch.
  set (f := fresh || in_acked (e_inc e !!! k)).
  set (i0 := if f then _ else _).
  pose proof (incident_step_key (e_pol e) r now al f i0) as (Hu1 & Hk1 & _).
  destruct (incident_step (e_pol e) r now al f i0) as [i1 calls]. cbn [fst snd e_inc] in *.
  destruct (decide (k = j)) as [->|Hkj].
  2:{ left. exists o. by rewrite list_lookup_insert_ne. }
  pose proof (slot_choice_lt _ _ _ _ _ _ Hch) as Hlt.
  inversion Hch as [? c Hc Hinc|? c Hall Hc Hfree|? c Hall Hold Hc]; subst;
    (assert (c = o) as -> by congruence); [|congruence|].
  - left. exists i1. rewrite list_lookup_insert_eq by done.
    apply is_incident_key in Hinc as [_ Hkey].
    rewrite Hu1, Hk1. subst i0. rewrite (list_lookup_total_correct _ _ _ Hj).
    by destruct f.
  - by right.
Qed.

Lemma eviction_is_lru_witness :
  let e := (kgp_alert (kgp_init sample_policy) 5 (st_alert 0x22 2 1 7)).1 in
  let o := e_inc e !!! 0%nat in
  (∃ o', e_inc (alert_rule 6 (st_alert 0x22 2 2 8) 0 sample_rule e).1 !! 0%nat = Some o'
         ∧ in_used o' = true ∧ in_key o' = in_key o)
  ∨ Forall (λ p, in_used p = true ∧ in_last_s o ≤ in_last_s p) (e_inc e).
Proof.
  intros e o. apply (eviction_is_lru 6 (st_alert 0x22 2 2 8) 0 sample_rule e 0 o).
  - apply alert_rules_inv; [apply engine_inv_init|reflexivity].
  - vm_compute. reflexivity.
  - vm_compute. reflexivity.
Defined.

(** Acknowledging up to sequence number [s] covers exactly the open incidents whose
    last alert is at or before [s] in the wrapped order (so it survives the wrap of the
    counter); a covered incident makes no tick run anything, and the next alert of the
    same key opens a new episode. *)
Theorem ack_covers_wrapped e s k i now ri r al :
  e_inc e !! k = Some i → in_used i = true → is_u32 s → is_u32 (in_last_seq i) →
  let i' := e_inc (kgp_ack e s) !!! k in
  in_acked i' = in_acked i || (u32 (s - in_last_seq i) <? 2147483648)
  ∧ (in_acked i' = true →
     (tick_slot (e_pol e) now i').2 = []
     ∧ (incident_slot (kgp_ack e s) ri (al_code al) (al_param1 al) = (k, false) →
        rule_matches r al = true →
        in_first_s (e_inc (alert_rule now al ri r (kgp_ack e s)).1 !!! k) = now
        ∧ in_count (e_inc (alert_rule now al ri r (kgp_ack e s)).1 !!! k) = 1)).
Proof.
  intros Hk Hu Hs Hl. cbv zeta.
  assert (Hlt : (k < length (e_inc e))%nat) by by eapply lookup_lt_Some.
  assert (Hi' : e_inc (kgp_ack e s) !!! k
                = if 0 <=? s32 (s - in_last_seq i) then set_acked i else i).
  { apply list_lookup_total_correct. cbn [kgp_ack e_inc]. by rewrite list_lookup_fmap, Hk; simpl; rewrite Hu. }
  split.
  - rewrite Hi'. unfold s32. set (d := u32 (s - in_last_seq i)).
    pose proof (u32_range (s - in_last_seq i)) as Hd. fold d in Hd. unfold is_u32 in Hd.
    destruct (d <? 2147483648) eqn:E; bool_props.
    + rewrite (proj2 (Z.leb_le _ _)) by lia. simpl. by rewrite orb_true_r.
    + rewrite (proj2 (Z.leb_gt _ _)) by lia. by rewrite orb_false_r.
  - intros Hack. split.
    + set (i' := e_inc (kgp_ack e s) !!! k) in *. unfold tick_slot.
      destruct (in_used i'), (p_rules (e_pol e) !! in_rule i') as [r'|]; try done.
      destruct (r_reset_s r' <=? _); [done|]. rewrite Hack. cbn [negb]. by rewrite andb_false_r.
    + intros Hslot Hm. unfold alert_rule. rewrite Hm, Hslot. cbn [negb orb]. rewrite Hack.
      pose proof (incident_step_key (e_pol (kgp_ack e s)) r now al true
                    (fresh_incident ri al now)) as (_ & _ & _ & _ & Hf & _ & _ & Hc).
      destruct (incident_step _ r now al true _) as [i1 calls]. simpl in *.
      rewrite list_lookup_total_insert_eq by (rewrite length_fmap; done). done.
Qed.

(** An acknowledgement of 5 covers an incident last seen at 4294967290. *)
Lemma ack_covers_wrapped_witness :
  let e := (kgp_alert (kgp_init sample_policy) 5 (st_alert 0x22 2 4294967290 7)).1 in
  let i' := e_inc (kgp_ack e 5) !!! 0%nat in
  in_acked i' = true ∧ (tick_slot (e_pol e) 500 i').2 = [].
Proof.
  intros e i'.
  destruct (ack_covers_wrapped e 5 0 (e_inc e !!! 0%nat) 500 0 sample_rule (st_alert 0x22 2 6 7))
    as [Ha Hq]; [vm_compute; reflexivity..|by compute|by vm_compute|].
  assert (Hac : in_acked i' = true) by (vm_compute; reflexivity).
  split; [exact Hac|]. by apply Hq.
Defined.

(** ** What a call of the callback carries *)
Definition call_for (pol : kgp_policy) (al : kgp_alert_t) (c : run_call) : Prop :=
  rc_alert c = al ∧ rule_matches (rc_rule c) al = true ∧ rc_action c ∈ p_actions pol.

Lemma run_mask_calls pol mask r i tier :
  Forall (λ c, rc_alert c = in_last i ∧ rc_rule c = r ∧ rc_action c ∈ p_actions pol)
         (run_mask pol mask r i tier).
Proof.
  unfold run_mask. apply Forall_forall.
  intros c (l & Hc & (k & a & -> & Ha)%elem_of_lookup_imap)%list_elem_of_join.
  destruct (Z.testbit _ _); [|by apply elem_of_nil in Hc].
  apply list_elem_of_singleton in Hc as ->. simpl.
  split_and!; [done..|]. by eapply list_elem_of_lookup_2.
Qed.

Lemma incident_step_calls pol r now al fresh i :
  rule_matches r al = true → Forall (call_for pol al) (incident_step pol r now al fresh i).2.
Proof.
  intros Hm.
  assert (Hrun : ∀ mask i' tier, in_last i' = al → Forall (call_for pol al) (run_mask pol mask r i' tier)).
  { intros mask i' tier Hl. eapply Forall_impl; [apply run_mask_calls|].
    intros c (Ha & Hr & ?). unfold call_for. by rewrite Ha, Hr. }
  unfold incident_step. destruct (fresh || _), (negb (r_repeat_n r =? 0) && _ && _ && _); simpl;
    rewrite ?Forall_app; auto.
Qed.

Lemma alert_rules_calls now al rules ri e :
  Forall (call_for (e_pol e) al) (alert_rules now al ri rules e).2.
Proof.
  revert ri e. induction rules as [|r rules IH]; intros ri e; [constructor|]. cbn [alert_rules].
  assert (H1 : Forall (call_for (e_pol e) al) (alert_rule now al ri r e).2
               ∧ e_pol (alert_rule now al ri r e).1 = e_pol e).
  { unfold alert_rule. destruct (rule_matches r al) eqn:Hm; [|done]. cbn [negb].
    destruct (incident_slot _ _ _ _) as [k fresh].
    match goal with |- context [incident_step ?p ?r ?n ?a ?f ?i] =>
      pose proof (incident_step_calls p r n a f i Hm) as Hc;
      destruct (incident_step p r n a f i) as [i1 calls] end. done. }
  destruct (alert_rule now al ri r e) as [e1 c1]. destruct H1 as [Hc1 Hp1]. simpl in *.
  specialize (IH (S ri) e1). destruct (alert_rules now al (S ri) rules e1) as [e2 c2].
  simpl in *. rewrite Forall_app, Hp1 in *. done.
Qed.
