(* ===== verification/KgmonText.v ===== *)
(** * What kgmon writes about an alert (linux/monitor/kgmon.c, 102-315)

    The names of levels, strategies, postures and alerts, the description of an alert's
    parameters, time stamps, and the line of the CSV log.  A reader of RFC 4180 files
    ([csv_read]) is the reference the log is stated against. *)
From S2P Require Import Prelude Text Sha256 Uapi PolicyParse.
Local Open Scope string_scope.
Local Open Scope list_scope.
Local Open Scope Z_scope.

(** ** What the process asks of the system it runs on *)
Record tm := Tm { tm_year : Z; tm_mon : Z; tm_mday : Z; tm_hour : Z; tm_min : Z; tm_sec : Z }.
Record passwd := Passwd { pw_name : string; pw_uid : Z; pw_gid : Z }.
(** waitpid with WNOHANG: nothing yet, a status, no such child, another error. *)
Inductive wait_result :=
  | WRunning | WExited (status : Z) | WSignaled (sig : Z) | WNoChild | WError.

(** Answers that may change are numbered by the calls made so far. *)
Class Host := {
  mono_s : nat → Z;                        (* CLOCK_MONOTONIC, seconds *)
  realtime_ns : nat → Z;                   (* CLOCK_REALTIME, nanoseconds *)
  localtime : Z → tm;
  gmtime : Z → tm;
  fork_at : nat → Z;                       (* what the parent sees: a pid, or minus an errno *)
  child_mono_s : nat → Z;                  (* CLOCK_MONOTONIC as the child of that fork reads it *)
  waitpid_at : nat → Z → wait_result;
  hostname : list Z;
  host_euid : Z;
  strerror : Z → list Z;
  getpwnam : string → option passwd;
  getpwuid : Z → option passwd;
  become : passwd → bool                   (* initgroups, setgid and setuid all succeed *)
}.
(** The parent never sees pid 0, and a calendar date has no negative parts. *)
Class HostLaws `{Host} := {
  fork_parent : ∀ t, fork_at t ≠ 0;
  localtime_nonneg : ∀ s, 0 ≤ s → let d := localtime s in
    0 ≤ tm_year d ∧ 0 ≤ tm_mon d ∧ 0 ≤ tm_mday d ∧ 0 ≤ tm_hour d ∧ 0 ≤ tm_min d ∧ 0 ≤ tm_sec d
}.

(** ** Names *)
Definition level_text (l : Z) : list Z :=
  if l =? KG_LEVEL_INFO then bytes_of "Info"
  else if l =? KG_LEVEL_WATCH then bytes_of "Warning" else bytes_of "CRITICAL".

(** [i < n ? table[i] : "?"] *)
Definition entry_or_mark (table : list string) (i : Z) : list Z :=
  if i <? zlen table then bytes_of (default "?" (table !! Z.to_nat i)) else bytes_of "?".
Definition strategy_text : Z → list Z :=
  entry_or_mark ["none"; "verw"; "l1d-flush"; "verw+l1d"; "full-spectrum"].
Definition posture_text : Z → list Z := entry_or_mark ["NORMAL"; "ELEVATED"; "HIGH"; "FAIL-SAFE"].

Definition lower_byte (b : Z) : Z := if (65 <=? b) && (b <=? 90) then b + 32 else b.
Definition strcasecmp (s t : list Z) : bool := bool_decide (lower_byte <$> s = lower_byte <$> t).
Definition posture_names : list (string * Z) :=
  [("normal", KG_POSTURE_NORMAL); ("elevated", KG_POSTURE_ELEVATED); ("high", KG_POSTURE_HIGH);
   ("failsafe", KG_POSTURE_FAILSAFE); ("fail-safe", KG_POSTURE_FAILSAFE)].
Definition parse_posture (s : list Z) : Z :=
  match find_first (λ p, if strcasecmp s (bytes_of p.1) then Some p.2 else None) posture_names with
  | Some v => v
  | None => match s with
            | [c] => if (48 <=? c) && (c <? 48 + KG_POSTURE_COUNT) then c - 48 else -1
            | _ => -1
            end
  end.

(** ** Parameters *)
Definition printable_or_mark (b : Z) : Z :=
  if negb (b =? 0) && ((b <? 0x20) || (0x7e <? b)) then 63 else b.
Definition unpack_name (p1 p2 : Z) : list Z :=
  (printable_or_mark <$> le_bytes 8 p1 ++ le_bytes 8 p2) ++ [0].

Definition alert_texts : list (Z * string) :=
  [(KG_ALERT_PMU_L1D_ANOMALY, "L1D Cache Attack Pattern"); (KG_ALERT_PMU_L2_ANOMALY, "LLC Cache Attack Pattern");
   (KG_ALERT_PMU_RDTSC_RATE, "Timing Reconnaissance (RDTSC)");
   (KG_ALERT_UNAUTHORIZED_KBD_FILTER, "Unauthorized Keyboard Filter");
   (KG_ALERT_UNAUTHORIZED_DMA, "Unauthorized DMA Access"); (KG_ALERT_PCI_DISCREPANCY, "PCIe Device Discrepancy");
   (KG_ALERT_KBD_FILTER_NEUTRALIZED, "Keyboard Filter Neutralized");
   (KG_ALERT_DMA_BLOCKED_IOMMU, "DMA Blocked (IOMMU)"); (KG_ALERT_DEVICE_BME_DISABLED, "PCIe Bus Master Disabled");
   (KG_ALERT_IDT_HOOK, "IDT Hook Detected"); (KG_ALERT_DISPATCH_HOOK, "Input Callback Hook");
   (KG_ALERT_TEXT_PATCH, "Kernel .text Patched"); (KG_ALERT_CTRL_REG_TAMPER, "CPU Control State Tampered");
   (KG_ALERT_MODULE_LOADED, "Kernel Module Loaded"); (KG_ALERT_VULN_DRIVER, "Vulnerable Driver Loaded");
   (KG_ALERT_DRIVER_BLOCKED, "Driver Load Blocked"); (KG_ALERT_LOAD_POLICY, "Driver Load Policy");
   (KG_ALERT_SHARED_STATE_CORRUPT, "Driver State Corrupted"); (KG_ALERT_FAIL_SAFE_ENTERED, "CRITICAL: Fail-Safe Mode");
   (KG_ALERT_POSTURE_CHANGED, "Response Posture Changed"); (KGP_ALERT_FORGED, "Forged Notification");
   (KGP_ALERT_OVERRUN, "Notifications Lost"); (KGP_ALERT_TAMPER, "Ring Tamper Suspected")].
Definition alert_text (t : Z) : list Z :=
  bytes_of (default "Unknown Alert" (find_first (λ p, if p.1 =? t then Some p.2 else None) alert_texts)).
Definition alert_title (code : Z) : list Z := alert_text code.

Definition when (b : bool) (s : string) : list Z := if b then bytes_of s else [].
Definition has_bit (w mask : Z) : bool := negb (Z.land w mask =? 0).
Definition yes_no (b : bool) : list Z := bytes_of (if b then "yes" else "no").

Definition load_policy_text (weak raw : Z) (len : nat) : list Z :=
  truncate len (bytes_of "sig_enforce=" ++ yes_no (has_bit raw KG_LP_RAW_SIG_ENFORCE)
    ++ bytes_of " lockdown=" ++ yes_no (has_bit raw KG_LP_RAW_LOCKDOWN)
    ++ bytes_of " secure_boot=" ++ yes_no (has_bit raw KG_LP_RAW_SECUREBOOT) ++ bytes_of "  "
    ++ bytes_of (if has_bit weak 0xff then "weak:" else "all on")
    ++ when (has_bit weak KG_LP_NO_SIG_ENFORCE) " sig_enforce" ++ when (has_bit weak KG_LP_NO_LOCKDOWN) " lockdown"
    ++ when (has_bit weak KG_LP_NO_SECUREBOOT) " secure_boot").

(** The low and the high half of a parameter; a byte of it. *)
Definition lo32 (p : Z) : Z := Z.land p 0xffffffff.
Definition hi32 (p : Z) : Z := u32 (Z.shiftr p 32).
Definition bits (p sh mask : Z) : Z := Z.land (u32 (Z.shiftr p sh)) mask.
(** %04x:%02x:%02x.%x and %04x:%04x of a PCI function. *)
Definition pci_address (p1 : Z) : list Z :=
  fmt_x 4 (bits p1 24 0xffff) ++ [58] ++ fmt_x 2 (bits p1 16 0xff) ++ [58] ++ fmt_x 2 (bits p1 8 0xff)
  ++ [46] ++ fmt_x 1 (bits p1 0 0xf).
Definition pci_id (p2 : Z) : list Z := fmt_x 4 (bits p2 16 0xffff) ++ [58] ++ fmt_x 4 (bits p2 0 0xffff).

Definition details_of (t p1 p2 : Z) : list Z :=
  if (t =? KG_ALERT_PMU_L1D_ANOMALY) || (t =? KG_ALERT_PMU_L2_ANOMALY) then
    bytes_of "offender tgid: " ++ fmt_u p1 ++ bytes_of "  cpu: " ++ fmt_u (hi32 p2)
    ++ bytes_of "  overflows/s: " ++ fmt_u (lo32 p2)
  else if (t =? KG_ALERT_UNAUTHORIZED_KBD_FILTER) || (t =? KG_ALERT_KBD_FILTER_NEUTRALIZED)
       || (t =? KG_ALERT_MODULE_LOADED) || (t =? KG_ALERT_VULN_DRIVER) || (t =? KG_ALERT_DRIVER_BLOCKED) then
    bytes_of "name: " ++ [34] ++ c_string (unpack_name p1 p2) ++ [34]
  else if t =? KG_ALERT_LOAD_POLICY then load_policy_text p1 p2 192
  else if (t =? KG_ALERT_UNAUTHORIZED_DMA) || (t =? KG_ALERT_DEVICE_BME_DISABLED) then
    pci_address p1 ++ bytes_of "  id " ++ pci_id p2
  else if t =? KG_ALERT_PCI_DISCREPANCY then
    pci_address p1 ++ bytes_of "  "
    ++ entry_or_mark ["?"; "hidden from OS"; "missing in hardware"; "identity mismatch"] (hi32 p2)
    ++ bytes_of "  id " ++ pci_id p2
  else if t =? KG_ALERT_IDT_HOOK then
    bytes_of "Handler: 0x" ++ fmt_x 16 p1 ++ bytes_of "  vector: " ++ fmt_u p2
  else if t =? KG_ALERT_DISPATCH_HOOK then
    bytes_of "Callback: 0x" ++ fmt_x 16 p1 ++ bytes_of "  kind: " ++ fmt_u (Z.shiftr p2 32)
  else if t =? KG_ALERT_TEXT_PATCH then
    bytes_of "Addr: 0x" ++ fmt_x 16 p1 ++ bytes_of "  Len: " ++ fmt_u (lo32 p2)
    ++ bytes_of (if has_bit (Z.shiftr p2 32) KG_TEXTF_KERNEL then "  [kernel]" else "  [module]")
    ++ when (has_bit (Z.shiftr p2 32) KG_TEXTF_UNKNOWN_TARGET) " [unknown branch target]"
    ++ when (has_bit (Z.shiftr p2 32) KG_TEXTF_BREAKPOINT) " [int3]"
  else if t =? KG_ALERT_CTRL_REG_TAMPER then
    bytes_of "cpu " ++ fmt_u (hi32 p1) ++ bytes_of "  reg 0x" ++ fmt_x 1 (lo32 p1)
    ++ bytes_of "  new 0x" ++ fmt_x 1 p2
  else if t =? KG_ALERT_POSTURE_CHANGED then
    posture_text (hi32 p1) ++ bytes_of " -> " ++ posture_text (lo32 p1) ++ bytes_of "  ("
    ++ bytes_of (if Z.shiftr p2 32 =? KG_POSTURE_WHY_DECAY then "quiet period elapsed" else "operator request")
    ++ bytes_of ")"
  else bytes_of "Param1: 0x" ++ fmt_x 1 p1 ++ bytes_of "  Param2: 0x" ++ fmt_x 1 p2.

(** Into [details[192]] of emit. *)
Definition format_details (n : kg_notification) : list Z :=
  truncate 192 (details_of (alert_type n) (param1 n) (param2 n)).

(** ** Time stamps and the CSV log *)
Definition date_time (sep : Z) (d : tm) : list Z :=
  fmt_0u 4 (tm_year d) ++ [45] ++ fmt_0u 2 (tm_mon d) ++ [45] ++ fmt_0u 2 (tm_mday d) ++ [sep]
  ++ fmt_0u 2 (tm_hour d) ++ [58] ++ fmt_0u 2 (tm_min d) ++ [58] ++ fmt_0u 2 (tm_sec d).
Definition ts_string `{Host} (ns : Z) : list Z :=
  truncate 48 (date_time 32 (localtime (ns / 1000000000)) ++ [46]
               ++ fmt_0u 3 ((ns mod 1000000000) / 1000000)).

Fixpoint csv_escape (s : list Z) : list Z :=
  match s with [] => [] | b :: s => (if b =? 34 then [34; b] else [b]) ++ csv_escape s end.
Definition csv_field (s : list Z) : list Z := [34] ++ csv_escape s ++ [34].

Definition hmac_text (ok : bool) : list Z := bytes_of (if ok then "OK" else "FAIL").
Definition csv_header : list Z := bytes_of "Time,Level,AlertType,HMAC,Seq,Param1,Param2,Details" ++ [10].
(** What emit appends to the log file. *)
Definition log_line `{Host} (n : kg_notification) (hmac_ok : bool) : list Z :=
  ts_string (timestamp n) ++ [44] ++ level_text (alert_level n) ++ [44] ++ csv_field (alert_text (alert_type n))
  ++ [44] ++ hmac_text hmac_ok ++ [44] ++ fmt_u (sequence n) ++ [44] ++ bytes_of "0x" ++ fmt_x 16 (param1 n)
  ++ [44] ++ bytes_of "0x" ++ fmt_x 16 (param2 n) ++ [44] ++ csv_field (format_details n) ++ [10].
(** What it prints. *)
Definition screen_line `{Host} (n : kg_notification) (hmac_ok : bool) : list Z :=
  truncate 512 (ts_string (timestamp n) ++ bytes_of " [" ++ pad_right 8 (level_text (alert_level n)) ++ bytes_of "] "
    ++ pad_right 32 (alert_text (alert_type n)) ++ bytes_of " HMAC=" ++ hmac_text hmac_ok ++ bytes_of " seq="
    ++ fmt_u (sequence n) ++ bytes_of "  " ++ format_details n).

(** ** Reading the log back *)

(** A reader of RFC 4180 files, one character at a time: fields are plain or quoted, a quote
    inside a quoted field is doubled, rows end at a newline outside quotes. *)
Inductive csv_state := CsvPlain | CsvQuoted | CsvQuote.
Record csv_reader := CsvReader {
  cr_state : csv_state; cr_field : list Z; cr_row : list (list Z); cr_rows : list (list (list Z))
}.
Definition end_field (r : csv_reader) : csv_reader :=
  CsvReader CsvPlain [] (cr_row r ++ [cr_field r]) (cr_rows r).
Definition end_row (r : csv_reader) : csv_reader :=
  CsvReader CsvPlain [] [] (cr_rows r ++ [cr_row r ++ [cr_field r]]).
Definition take_char (st : csv_state) (b : Z) (r : csv_reader) : csv_reader :=
  CsvReader st (cr_field r ++ [b]) (cr_row r) (cr_rows r).
Definition in_state (st : csv_state) (r : csv_reader) : csv_reader :=
  CsvReader st (cr_field r) (cr_row r) (cr_rows r).
Definition csv_char (b : Z) (r : csv_reader) : option csv_reader :=
  match cr_state r with
  | CsvPlain =>
    if b =? 34 then match cr_field r with [] => Some (in_state CsvQuoted r) | _ => None end
    else if b =? 44 then Some (end_field r) else if b =? 10 then Some (end_row r)
    else Some (take_char CsvPlain b r)
  | CsvQuoted => if b =? 34 then Some (in_state CsvQuote r) else Some (take_char CsvQuoted b r)
  | CsvQuote =>
    if b =? 34 then Some (take_char CsvQuoted b r)
    else if b =? 44 then Some (end_field r) else if b =? 10 then Some (end_row r) else None
  end.
Fixpoint csv_chars (l : list Z) (r : csv_reader) : option csv_reader :=
  match l with [] => Some r | b :: l => csv_char b r ≫= csv_chars l end.
(** The rows of a file whose last line is complete. *)
Definition csv_read (l : list Z) : option (list (list (list Z))) :=
  match csv_chars l (CsvReader CsvPlain [] [] []) with
  | Some (CsvReader CsvPlain [] [] rows) => Some rows
  | _ => None
  end.

Lemma csv_chars_app l1 l2 r : csv_chars (l1 ++ l2) r = csv_chars l1 r ≫= csv_chars l2.
Proof. revert r. induction l1 as [|b l1 IH]; intros r; [done|]. simpl. destruct (csv_char b r); [apply IH|done]. Qed.

(** Characters a field can hold unquoted. *)
Definition plain (b : Z) : Prop := printable b ∧ b ≠ 34 ∧ b ≠ 44.
#[export] Instance plain_dec b : Decision (plain b).
Proof. unfold plain. apply _. Defined.
Lemma alnum_plain b : alnum b → plain b.
Proof. unfold alnum, plain, printable. lia. Qed.

Lemma csv_plain_field s f row rows :
  Forall plain s →
  csv_chars s (CsvReader CsvPlain f row rows) = Some (CsvReader CsvPlain (f ++ s) row rows).
Proof.
  intros Hs. revert f. induction Hs as [|b s [Hp [Hq Hc]] _ IH]; intros f; [by rewrite app_nil_r|].
  unfold printable in Hp. cbn [csv_chars]. unfold csv_char. cbn [cr_state].
  rewrite !(proj2 (Z.eqb_neq b _)) by lia. cbn [mbind option_bind take_char cr_field cr_row cr_rows].
  unfold take_char. cbn [cr_field cr_row cr_rows]. by rewrite IH, <- app_assoc.
Qed.

Lemma csv_quoted_body s f row rows :
  csv_chars (csv_escape s) (CsvReader CsvQuoted f row rows)
  = Some (CsvReader CsvQuoted (f ++ s) row rows).
Proof.
  revert f. induction s as [|b s IH]; intros f; [by rewrite app_nil_r|].
  cbn [csv_escape]. rewrite csv_chars_app. destruct (b =? 34) eqn:E; bool_props; subst.
  - change (csv_chars (csv_escape s) (CsvReader CsvQuoted (f ++ [34]) row rows)
            = Some (CsvReader CsvQuoted (f ++ 34 :: s) row rows)). by rewrite IH, <- app_assoc.
  - cbn [csv_chars]. unfold csv_char. cbn [cr_state]. rewrite (proj2 (Z.eqb_neq _ _)) by done.
    bind_simpl. unfold take_char. cbn [cr_field cr_row cr_rows]. by rewrite IH, <- app_assoc.
Qed.

Lemma csv_quoted_field s row rows :
  csv_chars (csv_field s) (CsvReader CsvPlain [] row rows) = Some (CsvReader CsvQuote s row rows).
Proof.
  unfold csv_field. rewrite csv_chars_app.
  change (csv_chars (csv_escape s ++ [34]) (CsvReader CsvQuoted [] row rows) = Some (CsvReader CsvQuote s row rows)).
  by rewrite csv_chars_app, csv_quoted_body.
Qed.

(** A separator after a field that was read completely. *)
Lemma csv_comma st f row rows :
  st ≠ CsvQuoted → csv_chars [44] (CsvReader st f row rows) = Some (CsvReader CsvPlain [] (row ++ [f]) rows).
Proof. by destruct st. Qed.
Lemma csv_newline st f row rows :
  st ≠ CsvQuoted → csv_chars [10] (CsvReader st f row rows) = Some (CsvReader CsvPlain [] [] (rows ++ [row ++ [f]])).
Proof. by destruct st. Qed.

(** *** The pieces of a line *)
Lemma Forall_plain_alnum l : Forall alnum l → Forall plain l.
Proof. intros Hl. eapply Forall_impl; [exact Hl|apply alnum_plain]. Qed.
Lemma Forall_plain_printable l : Forall plain l → Forall printable l.
Proof. intros Hl. eapply Forall_impl; [exact Hl|by intros ? []]. Qed.
#[export] Hint Resolve Forall_plain_alnum : text.

Lemma level_text_plain l : Forall plain (level_text l).
Proof. unfold level_text. repeat case_match; printable_literal. Qed.
Lemma hmac_text_plain ok : Forall plain (hmac_text ok).
Proof. destruct ok; printable_literal. Qed.
Lemma ts_string_plain `{HostLaws} ns : 0 ≤ ns → Forall plain (ts_string ns).
Proof.
  intros Hns. destruct (localtime_nonneg (ns / 1000000000) ltac:(by apply Z.div_pos)) as (? & ? & ? & ? & ? & ?).
  assert (0 ≤ ns mod 1000000000 / 1000000)
    by (apply Z.div_pos; [apply Z.mod_pos_bound|]; lia).
  unfold ts_string, date_time. apply Forall_truncate. rewrite !Forall_app.
  repeat split; auto with text; by apply Forall_singleton.
Qed.

Lemma entry_or_mark_printable table i :
  forallb (λ s, bool_decide (Forall printable (bytes_of s))) table = true → Forall printable (entry_or_mark table i).
Proof.
  intros Ht. unfold entry_or_mark. case_match; [|printable_literal].
  destruct (table !! Z.to_nat i) as [s|] eqn:Hs; [|printable_literal].
  rewrite forallb_forall in Ht. apply (bool_decide_unpack _), Is_true_true, Ht.
  by apply list_elem_of_In, (list_elem_of_lookup_2 _ (Z.to_nat i)).
Qed.
Lemma posture_text_printable p : Forall printable (posture_text p).
Proof. by apply entry_or_mark_printable. Qed.
Lemma find_first_Some {A B} (f : A → option B) l y : find_first f l = Some y → ∃ x, x ∈ l ∧ f x = Some y.
Proof.
  induction l as [|x l IH]; simpl; [done|]. destruct (f x) eqn:E.
  - intros [= ->]. exists x. split; [apply list_elem_of_here|done].
  - intros (x' & Hx & Hf)%IH. exists x'. split; [by apply list_elem_of_further|done].
Qed.
(** What a table search finds has every property of all the table's entries. *)
Lemma table_search {A B} (Q : B → Prop) (test : A * B → bool) l y :
  Forall (λ p, Q p.2) l → find_first (λ p, if test p then Some p.2 else None) l = Some y → Q y.
Proof.
  intros Hall (p & Hin & Hp)%find_first_Some. rewrite Forall_forall in Hall.
  destruct (test p); [|done]. injection Hp as <-. by apply Hall.
Qed.
Lemma alert_text_printable t : Forall printable (alert_text t).
Proof.
  unfold alert_text. destruct (find_first _ alert_texts) as [s|] eqn:E; [|printable_literal].
  revert E. apply (table_search (λ s, Forall printable (bytes_of s))). printable_literal.
Qed.
Lemma when_printable b s : Forall printable (bytes_of s) → Forall printable (when b s).
Proof. by destruct b. Qed.
Lemma yes_no_printable b : Forall printable (yes_no b).
Proof. destruct b; printable_literal. Qed.

Lemma unpack_name_printable p1 p2 : Forall printable (c_string (unpack_name p1 p2)).
Proof.
  assert (Hall : Forall (λ b, b = 0 ∨ printable b) (unpack_name p1 p2)).
  { unfold unpack_name. apply Forall_app. split; [|by apply Forall_singleton; left].
    apply Forall_fmap, Forall_true. intros b. simpl. unfold printable_or_mark, printable.
    destruct (negb (b =? 0) && _) eqn:E; [right; lia|].
    destruct (b =? 0) eqn:Eb; [left; by apply Z.eqb_eq|]. right.
    cbn [negb andb] in E. bool_props. lia. }
  pose proof (c_string_wf _ Hall) as H1. pose proof (c_string_nonzero (unpack_name p1 p2)) as H2.
  rewrite Forall_forall in *. intros b Hb. destruct (H1 b Hb) as [E|?]; [by destruct (H2 b Hb)|done].
Qed.

Lemma lo32_nonneg p : 0 ≤ p → 0 ≤ lo32 p.
Proof. intros. by apply Z.land_nonneg; left. Qed.
Lemma hi32_nonneg p : 0 ≤ hi32 p.
Proof. apply u32_range. Qed.
Lemma bits_nonneg p sh mask : 0 ≤ bits p sh mask.
Proof. apply Z.land_nonneg. left. apply u32_range. Qed.
Lemma shiftr32_nonneg p : 0 ≤ p → 0 ≤ Z.shiftr p 32.
Proof. by apply Z.shiftr_nonneg. Qed.
#[export] Hint Resolve lo32_nonneg hi32_nonneg bits_nonneg shiftr32_nonneg posture_text_printable
  yes_no_printable unpack_name_printable : text.

Lemma pci_address_printable p : Forall printable (pci_address p).
Proof. unfold pci_address. rewrite !Forall_app. repeat split; auto with text; printable_literal. Qed.
Lemma pci_id_printable p : Forall printable (pci_id p).
Proof. unfold pci_id. rewrite !Forall_app. repeat split; auto with text; printable_literal. Qed.
Lemma load_policy_printable weak raw len : Forall printable (load_policy_text weak raw len).
Proof.
  unfold load_policy_text. apply Forall_truncate. rewrite !Forall_app.
  repeat split; auto with text; try (apply when_printable); try case_match; printable_literal.
Qed.
#[export] Hint Resolve pci_address_printable pci_id_printable load_policy_printable : text.

(** Whatever the parameters, the description is one line of printable characters. *)
Lemma details_printable t p1 p2 : 0 ≤ p1 → 0 ≤ p2 → Forall printable (details_of t p1 p2).
Proof.
  intros H1 H2. unfold details_of.
  repeat match goal with |- context [if ?c then _ else bytes_of "Param1: 0x" ++ _] => destruct c end.
  all: repeat match goal with |- Forall printable (if ?c then _ else _) => destruct c end.
  all: rewrite ?Forall_app; repeat split; auto with text; try (by apply entry_or_mark_printable);
    try (apply when_printable); try case_match; printable_literal.
Qed.

(** *** A line of the log *)
Definition log_row `{Host} (n : kg_notification) (hmac_ok : bool) : list (list Z) :=
  [ts_string (timestamp n); level_text (alert_level n); alert_text (alert_type n); hmac_text hmac_ok;
   fmt_u (sequence n); bytes_of "0x" ++ fmt_x 16 (param1 n); bytes_of "0x" ++ fmt_x 16 (param2 n);
   format_details n].
Definition header_row : list (list Z) :=
  bytes_of <$> ["Time"; "Level"; "AlertType"; "HMAC"; "Seq"; "Param1"; "Param2"; "Details"].

Lemma csv_plain_column s row rows :
  Forall plain s →
  csv_chars (s ++ [44]) (CsvReader CsvPlain [] row rows) = Some (CsvReader CsvPlain [] (row ++ [s]) rows).
Proof. intros Hs. by rewrite csv_chars_app, csv_plain_field. Qed.
Lemma csv_quoted_column s row rows :
  csv_chars (csv_field s ++ [44]) (CsvReader CsvPlain [] row rows) = Some (CsvReader CsvPlain [] (row ++ [s]) rows).
Proof. by rewrite csv_chars_app, csv_quoted_field. Qed.

Lemma hex_plain n : 0 ≤ n → Forall plain (bytes_of "0x" ++ fmt_x 16 n).
Proof. intros. apply Forall_app. split; [printable_literal|auto with text]. Qed.

Lemma log_line_read `{HostLaws} n ok rows :
  notif_typed n →
  csv_chars (log_line n ok) (CsvReader CsvPlain [] [] rows)
  = Some (CsvReader CsvPlain [] [] (rows ++ [log_row n ok])).
Proof.
  intros (_ & [Hs _] & _ & _ & [Ht _] & [H1 _] & [H2 _] & _).
  assert (Hline : log_line n ok = (ts_string (timestamp n) ++ [44]) ++ (level_text (alert_level n) ++ [44])
    ++ (csv_field (alert_text (alert_type n)) ++ [44]) ++ (hmac_text ok ++ [44]) ++ (fmt_u (sequence n) ++ [44])
    ++ ((bytes_of "0x" ++ fmt_x 16 (param1 n)) ++ [44]) ++ ((bytes_of "0x" ++ fmt_x 16 (param2 n)) ++ [44])
    ++ csv_field (format_details n) ++ [10]) by (unfold log_line; by rewrite <- !app_assoc).
  rewrite Hline. clear Hline.
  do 2 (rewrite csv_chars_app, csv_plain_column by auto using ts_string_plain, level_text_plain; bind_simpl).
  rewrite csv_chars_app, csv_quoted_column. bind_simpl.
  do 4 (rewrite csv_chars_app, csv_plain_column by auto using hmac_text_plain, hex_plain with text; bind_simpl).
  by rewrite csv_chars_app, csv_quoted_field.
Qed.

(** What a reader of the log learns of an alert from its columns. *)
Definition row_values (row : list (list Z)) : option (Z * Z * Z * bool) :=
  match row with
  | [_; _; _; v; seq; p1; p2; _] =>
    Some (value10 seq, value16 (drop 2 p1), value16 (drop 2 p2), bool_decide (v = bytes_of "OK"))
  | _ => None
  end.

Definition log_text `{Host} (alerts : list (kg_notification * bool)) : list Z :=
  csv_header ++ mjoin ((λ a, log_line a.1 a.2) <$> alerts).

Lemma log_lines_read `{HostLaws} alerts rows :
  Forall (λ a, notif_typed a.1) alerts →
  csv_chars (mjoin ((λ a, log_line a.1 a.2) <$> alerts)) (CsvReader CsvPlain [] [] rows)
  = Some (CsvReader CsvPlain [] [] (rows ++ ((λ a, log_row a.1 a.2) <$> alerts))).
Proof.
  intros Ha. revert rows. induction Ha as [|[n ok] alerts Hn _ IH]; intros rows; [by rewrite app_nil_r|].
  rewrite join_fmap_cons, csv_chars_app, log_line_read by done. bind_simpl. by rewrite IH, <- app_assoc.
Qed.

(** C22 — The log is a CSV file that any reader of such files takes apart into exactly one row of
    eight columns per alert after the header, in the order the alerts came, whatever the
    parameters and the names in them are (quotes and commas included): the sequence number,
    both parameters and the HMAC verdict come back exactly. *)
Theorem log_reads_back `{HostLaws} alerts :
  Forall (λ a, notif_typed a.1) alerts →
  ∃ rows, csv_read (log_text alerts) = Some (header_row :: rows)
  ∧ rows = (λ a, log_row a.1 a.2) <$> alerts
  ∧ row_values <$> rows = (λ a, Some (sequence a.1, param1 a.1, param2 a.1, a.2)) <$> alerts.
Proof.
  intros Ha. eexists. split; [|split; [reflexivity|]].
  - unfold csv_read, log_text. rewrite csv_chars_app.
    replace (csv_chars csv_header _) with (Some (CsvReader CsvPlain [] [] [header_row])) by by vm_compute.
    bind_simpl. by rewrite log_lines_read.
  - rewrite <- list_fmap_compose. apply list_fmap_ext. intros i [n ok] Hi.
    rewrite Forall_lookup in Ha. destruct (Ha _ _ Hi) as (_ & Hs & _ & _ & _ & H1 & H2 & _). simpl in *.
    assert (is_u64 (sequence n)) by (unfold is_u32, is_u64 in *; lia).
    rewrite fmt_u_value, !drop_0, !fmt_x_value by done. by destruct ok.
Qed.

(** A host for the examples, on which nothing fails. *)
Definition sample_host : Host := {|
  mono_s t := Z.of_nat t; realtime_ns t := Z.of_nat t;
  localtime s := Tm 2026 1 2 (s / 3600 mod 24) (s / 60 mod 60) (s mod 60);
  gmtime s := Tm 2026 1 2 (s / 3600 mod 24) (s / 60 mod 60) (s mod 60);
  fork_at t := 100 + Z.of_nat t; child_mono_s t := Z.of_nat t; waitpid_at _ _ := WRunning;
  hostname := bytes_of "host"; host_euid := 0; strerror _ := bytes_of "error";
  getpwnam u := Some (Passwd u 1000 1000); getpwuid _ := None; become _ := true
|}.
Lemma sample_host_laws : @HostLaws sample_host.
Proof.
  split; [intros t; simpl; lia|]. intros s Hs. cbn.
  split_and!; try lia; apply Z.mod_pos_bound; lia.
Qed.

(** A module whose name holds a quote and a comma, and an unauthentic report. *)
Lemma log_reads_back_witness :
  let alerts := [(Notif KG_NOTIFY_MAGIC 3 KG_ALERT_MODULE_LOADED KG_LEVEL_WATCH 1500000000 0x622c2261 0 (replicate 32 0), true);
                 (Notif KG_NOTIFY_MAGIC 4 KG_ALERT_TEXT_PATCH KG_LEVEL_CRITICAL 2000000000 0xffffffff81000000 0x100000005
                    (replicate 32 0), false)] in
  ∃ rows, csv_read (@log_text sample_host alerts) = Some (header_row :: rows)
  ∧ rows = (λ a, @log_row sample_host a.1 a.2) <$> alerts
  ∧ row_values <$> rows = (λ a, Some (sequence a.1, param1 a.1, param2 a.1, a.2)) <$> alerts.
Proof.
  intros alerts. apply (@log_reads_back sample_host sample_host_laws alerts).
  unfold alerts. repeat apply Forall_cons_2; [..|apply Forall_nil_2];
    unfold notif_typed, is_u32, is_u64; split_and!; by compute.
Defined.

(** ** Posture names *)
Lemma posture_text_parses p : 0 ≤ p < KG_POSTURE_COUNT →
  parse_posture (posture_text p) = p ∧ parse_posture (fmt_u p) = p.
Proof.
  intros Hp. unfold KG_POSTURE_COUNT in Hp.
  assert (Hc : p = 0 ∨ p = 1 ∨ p = 2 ∨ p = 3) by lia. destruct_or! Hc; subst p; by vm_compute.
Qed.
Lemma parse_posture_range s : -1 ≤ parse_posture s < KG_POSTURE_COUNT.
Proof.
  unfold parse_posture. destruct (find_first _ posture_names) as [v|] eqn:E.
  - revert E. apply (table_search (λ v, -1 ≤ v < KG_POSTURE_COUNT)). by apply (bool_decide_unpack _).
  - unfold KG_POSTURE_COUNT. destruct s as [|c [|]]; try lia. case_match; bool_props; lia.
Qed.
