(* ===== verification/KgmonChild.v ===== *)
(** * Helper processes of kgmon (linux/monitor/kgmon.c, 317-576)

    Desktop notifications and policy actions run as child processes in a table of 32 slots.
    [proc] is the state of the monitor process around that table: the table itself, the
    children it has started with what each of them executes, those it has taken out of the
    table, the signals it has sent and what it wrote to the standard error and to syslog.
    Answers of the system are numbered by the calls made so far ([pr_ticks]). *)
From S2P Require Import Prelude Text Uapi PolicyParse Policy KgmonText.
Local Open Scope string_scope.
Local Open Scope list_scope.
Local Open Scope Z_scope.

Definition MAX_CHILDREN : nat := 32.
Definition NOTIFY_TIMEOUT_S : Z := 10.
Definition DETAILS_LEN : nat := 192.       (* KGP_DETAILS_LEN *)
Definition SIGKILL : Z := 9.
Definition LOG_CRIT : Z := 2.
Definition LOG_ERR : Z := 3.
Definition LOG_WARNING : Z := 4.
Definition LOG_NOTICE : Z := 5.
Definition LOG_INFO : Z := 6.

Record opts := Opts {
  o_device : string;
  o_logfile : option string;
  o_notify_user : option string;
  o_policy_file : option string;
  o_ack_file : option string;
  o_no_policy : bool;
  o_use_syslog : bool;
  o_use_notify : bool;
  o_once : bool;
  o_new_only : bool;
  o_quiet : bool;
  o_max_alerts : Z
}.

(** What main starts from. *)
Definition default_opts : opts :=
  Opts "/dev/kernelguard" None None None None false false false false false false 0.

Record child := Child { c_pid : Z; c_deadline : Z; c_name : list Z }.   (* pid 0: free *)
#[export] Instance child_inhabited : Inhabited child := populate (Child 0 0 []).

(** ** Reports on the standard error, one constructor per message *)
Inductive report :=
  | ChildExited (name : list Z) (status : Z) | ChildSignaled (name : list Z) (sig : Z)
  | ChildTimedOut (name : list Z)
  | NotifyDropped | ActionDropped (act rule : string) | ForkFailed (err : Z)
  | RingLapped (cursor lost : Z) | Overwritten (cursor : Z) | TamperSuspected (cursor : Z)
  | AckIgnored (path : string) | Acked (seq : Z)
  | PolicyLoaded (path : string) (actions rules : Z) | Monitoring (device : string) (once : bool).

#[export] Instance report_eq_dec : EqDecision report.
Proof. solve_decision. Defined.

(** What the child of a fork goes on to do. *)
Inductive program :=
  | Exits (status : Z)
  | NotifySend (user : option passwd) (env : list (list Z)) (title body : list Z)
  | RunsAction (argv : list string) (env : list (list Z)).

Record proc := Proc {
  pr_children : list child;
  pr_ticks : nat;
  pr_spawned : list (Z * program);
  pr_gone : list Z;
  pr_kills : list Z;
  pr_err : list report;
  pr_syslog : list (Z * list Z)
}.
Definition new_proc : proc := Proc (replicate MAX_CHILDREN (Child 0 0 [])) 0 [] [] [] [] [].

Definition tick (p : proc) : proc :=
  Proc (pr_children p) (S (pr_ticks p)) (pr_spawned p) (pr_gone p) (pr_kills p) (pr_err p) (pr_syslog p).
Definition set_child (i : nat) (c : child) (p : proc) : proc :=
  Proc (<[i := c]> (pr_children p)) (pr_ticks p) (pr_spawned p) (pr_gone p) (pr_kills p) (pr_err p) (pr_syslog p).
Definition spawned (pid : Z) (g : program) (p : proc) : proc :=
  Proc (pr_children p) (pr_ticks p) (pr_spawned p ++ [(pid, g)]) (pr_gone p) (pr_kills p) (pr_err p) (pr_syslog p).
Definition gone (pid : Z) (p : proc) : proc :=
  Proc (pr_children p) (pr_ticks p) (pr_spawned p) (pr_gone p ++ [pid]) (pr_kills p) (pr_err p) (pr_syslog p).
Definition kill (target : Z) (p : proc) : proc :=
  Proc (pr_children p) (pr_ticks p) (pr_spawned p) (pr_gone p) (pr_kills p ++ [target]) (pr_err p) (pr_syslog p).
Definition complain (r : report) (p : proc) : proc :=
  Proc (pr_children p) (pr_ticks p) (pr_spawned p) (pr_gone p) (pr_kills p) (pr_err p ++ [r]) (pr_syslog p).
Definition syslog_if (use : bool) (pri : Z) (text : list Z) (p : proc) : proc :=
  if use then
    Proc (pr_children p) (pr_ticks p) (pr_spawned p) (pr_gone p) (pr_kills p) (pr_err p) (pr_syslog p ++ [(pri, text)])
  else p.

Section helpers.
Context `{Host}.

Definition report_text (r : report) : list Z :=
  match r with
  | Monitoring dev once =>
    bytes_of ("kgmon 1.0.0-linux: monitoring " +:+ dev +:+ (if once then " (backlog only)" else " (Ctrl-C to stop)"))
  | _ => bytes_of "kgmon: "
  end ++
  match r with
  | ChildExited n st => n ++ bytes_of " exited with status " ++ fmt_d st
  | ChildSignaled n sig => n ++ bytes_of " killed by signal " ++ fmt_d sig
  | ChildTimedOut n => n ++ bytes_of " timed out, killing it"
  | NotifyDropped => bytes_of "too many helper processes running, dropped a desktop notification"
  | ActionDropped a r => bytes_of ("too many actions running, dropped " +:+ a +:+ " for rule " +:+ r)
  | ForkFailed e => bytes_of "fork: " ++ strerror e
  | RingLapped _ lost => bytes_of "ring overrun - " ++ fmt_u lost ++ bytes_of " notification(s) lost"
  | Overwritten c => bytes_of "notification " ++ fmt_u c ++ bytes_of " overwritten before it could be read"
  | TamperSuspected c =>
    bytes_of "TAMPER? slot for notification " ++ fmt_u c ++ bytes_of " is unreadable or has a wrong sequence number"
  | AckIgnored path =>
    bytes_of ("ignoring " +:+ path +:+ " (must be a regular file owned by root, not writable by others)")
  | Acked seq => bytes_of "alerts up to sequence " ++ fmt_u seq ++ bytes_of " acknowledged"
  | PolicyLoaded path a r =>
    bytes_of ("policy " +:+ path +:+ ": ") ++ fmt_d a ++ bytes_of " action(s), " ++ fmt_d r ++ bytes_of " rule(s)"
  | Monitoring _ _ => []
  end.

(** ** The slot table *)
Definition read_clock (p : proc) : Z * proc := (mono_s (pr_ticks p), tick p).

Definition child_free_slot (p : proc) : option nat :=
  fst <$> list_find (λ c, c_pid c = 0) (pr_children p).

Definition child_track (i : nat) (pid timeout_s : Z) (name : list Z) (p : proc) : proc :=
  let '(now, p) := read_clock p in
  set_child i (Child pid (now + timeout_s) (truncate (Z.to_nat KGP_NAME_LEN) name)) p.

(** [c->pid = 0] *)
Definition free_child (i : nat) (c : child) (p : proc) : proc :=
  gone (c_pid c) (set_child i (Child 0 (c_deadline c) (c_name c)) p).

(** One slot of children_reap. *)
Definition reap_slot (use_syslog : bool) (p : proc) (i : nat) : proc :=
  match pr_children p !! i with
  | None => p
  | Some c =>
    if c_pid c =? 0 then p
    else match waitpid_at (pr_ticks p) (c_pid c) with
    | WExited st =>
      let p := tick p in
      let p := if st =? 0 then p
               else syslog_if use_syslog LOG_WARNING (c_name c ++ bytes_of " exited with status " ++ fmt_d st)
                      (complain (ChildExited (c_name c) st) p) in
      free_child i c p
    | WSignaled sig =>
      let p := tick p in
      free_child i c (if sig =? SIGKILL then p else complain (ChildSignaled (c_name c) sig) p)
    | WNoChild => free_child i c (tick p)
    | WRunning | WError =>
      let '(now, p) := read_clock (tick p) in
      if now <? c_deadline c then p
      else
        let p := syslog_if use_syslog LOG_WARNING (c_name c ++ bytes_of " timed out and was killed")
                   (complain (ChildTimedOut (c_name c)) p) in
        let p := kill (c_pid c) (kill (- c_pid c) p) in
        let '(now, p) := read_clock p in
        set_child i (Child (c_pid c) (now + 5) (c_name c)) p
    end
  end.
Definition children_reap (use_syslog : bool) (p : proc) : proc :=
  foldl (reap_slot use_syslog) p (seq 0 MAX_CHILDREN).

(** ** Desktop notifications *)

(** In the child: as root, the session of the user asked for. *)
Definition notify_child (o : opts) (title body : list Z) : program :=
  match o_notify_user o with
  | Some user =>
    if host_euid =? 0 then
      let pw := match getpwnam user with
                | Some pw => Some pw
                | None => let '(uid, rest, _) := strtoul 10 user in
                          if bool_decide (rest = "") then getpwuid (u32 uid) else None
                end in
      match pw with
      | None => Exits 2
      | Some pw =>
        let run := truncate 64 (bytes_of "/run/user/" ++ fmt_u (pw_uid pw)) in
        let bus := truncate 128 (bytes_of "unix:path=" ++ run ++ bytes_of "/bus") in
        if become pw then
          NotifySend (Some pw) [bytes_of "XDG_RUNTIME_DIR=" ++ run; bytes_of "DBUS_SESSION_BUS_ADDRESS=" ++ bus]
                     title body
        else Exits 3
      end
    else NotifySend None [] title body
  | None => NotifySend None [] title body
  end.

Definition notify_desktop (o : opts) (title body : list Z) (p : proc) : proc :=
  match child_free_slot p with
  | None => complain NotifyDropped p
  | Some i =>
    let pid := fork_at (pr_ticks p) in
    let p := tick p in
    if pid <? 0 then p
    else child_track i pid NOTIFY_TIMEOUT_S (bytes_of "notify-send") (spawned pid (notify_child o title body) p)
  end.

(** ** Policy actions *)
Definition iso_utc (ns : Z) : list Z := truncate 40 (date_time 84 (gmtime (ns / 1000000000)) ++ [90]).

(** The environment of an action: every variable, then as it fits [buf[24][KGP_DETAILS_LEN + 32]]. *)
Definition action_vars (act : kgp_action) (rule : kgp_rule) (al : kgp_alert_t) (tier count age_s : Z) : list (list Z) :=
  [bytes_of "PATH=/usr/sbin:/usr/bin:/sbin:/bin";
   bytes_of "KG_HOST=" ++ truncate 128 hostname;
   bytes_of "KG_RULE=" ++ bytes_of (r_name rule);
   bytes_of "KG_ACTION=" ++ bytes_of (a_name act);
   bytes_of "KG_TIER=" ++ fmt_d tier;
   bytes_of "KG_COUNT=" ++ fmt_u count;
   bytes_of "KG_AGE_S=" ++ fmt_d age_s;
   bytes_of "KG_ALERT=" ++ bytes_of (default "UNKNOWN" (kgp_code_name (al_code al)));
   bytes_of "KG_ALERT_CODE=0x" ++ fmt_x 4 (al_code al);
   bytes_of "KG_TITLE=" ++ alert_title (al_code al);
   bytes_of "KG_LEVEL=" ++ bytes_of (kgp_level_name (al_level al));
   bytes_of "KG_LEVEL_NUM=" ++ fmt_d (al_level al);
   bytes_of "KG_SEQ=" ++ fmt_u (al_seq al);
   bytes_of "KG_TIME=" ++ iso_utc (al_time_ns al);
   bytes_of "KG_PARAM1=0x" ++ fmt_x 16 (al_param1 al);
   bytes_of "KG_PARAM2=0x" ++ fmt_x 16 (al_param2 al);
   bytes_of "KG_DETAILS=" ++ bytes_of (al_details al)].
Definition exec_action (act : kgp_action) (rule : kgp_rule) (al : kgp_alert_t) (tier count age_s : Z) : program :=
  RunsAction (a_argv act) (truncate (DETAILS_LEN + 32) <$> action_vars act rule al tier count age_s).

Definition run_action (use_syslog : bool) (c : run_call) (p : proc) : proc :=
  let act := rc_action c in
  let rule := rc_rule c in
  match child_free_slot p with
  | None =>
    syslog_if use_syslog LOG_ERR
      (bytes_of ("too many actions running, dropped " +:+ a_name act +:+ " for rule " +:+ r_name rule))
      (complain (ActionDropped (a_name act) (r_name rule)) p)
  | Some i =>
    let p := syslog_if use_syslog LOG_NOTICE
               (bytes_of (r_name rule +:+ ": running action " +:+ a_name act +:+ " for "
                          +:+ default "alert" (kgp_code_name (al_code (rc_alert c))) +:+ " (tier ")
                ++ fmt_d (rc_tier c) ++ bytes_of ", " ++ fmt_u (rc_count c) ++ bytes_of " occurrence(s))") p in
    let pid := fork_at (pr_ticks p) in
    let age := child_mono_s (pr_ticks p) - rc_first_s c in
    let p := tick p in
    if pid <? 0 then complain (ForkFailed (- pid)) p
    else child_track i pid (a_timeout_s act) (bytes_of (a_name act))
           (spawned pid (exec_action act rule (rc_alert c) (rc_tier c) (rc_count c) age) p)
  end.
End helpers.

(** ** Every child is accounted for *)

(** The processes in the table. *)
Definition occupant (c : child) : list Z := if c_pid c =? 0 then [] else [c_pid c].
Definition live (l : list child) : list Z := l ≫= occupant.
Definition started (p : proc) : list Z := (pr_spawned p).*1.

Record helpers_inv (p : proc) : Prop := HelpersInv {
  hi_slots : length (pr_children p) = MAX_CHILDREN;
  hi_pids : Forall (λ z, 0 < z) (started p);
  hi_account : started p ≡ₚ pr_gone p ++ live (pr_children p);
  hi_kills : Forall (λ k, Z.abs k ∈ started p) (pr_kills p)
}.

Lemma live_insert l i c c' :
  l !! i = Some c →
  live (<[i := c']> l) ≡ₚ occupant c' ++ live (take i l ++ drop (S i) l).
Proof.
  intros Hi. assert (i < length l)%nat by by eapply lookup_lt_Some.
  unfold live. rewrite insert_take_drop by done. rewrite !bind_app, bind_cons. solve_Permutation.
Qed.
Lemma live_lookup l i c :
  l !! i = Some c → live l ≡ₚ occupant c ++ live (take i l ++ drop (S i) l).
Proof. intros Hi. rewrite <- (list_insert_id l i c Hi) at 1. by apply (live_insert l i c). Qed.

Lemma live_bound l : (length (live l) ≤ length l)%nat.
Proof.
  induction l as [|c l IH]; [done|]. unfold live in *. rewrite bind_cons, length_app.
  unfold occupant at 1. case_match; simpl; lia.
Qed.

(** What an operation may do to the invariant's parts. *)
Lemma inv_mono p p' :
  helpers_inv p → length (pr_children p') = length (pr_children p) →
  started p' = started p → pr_gone p' ++ live (pr_children p') ≡ₚ pr_gone p ++ live (pr_children p) →
  (∀ k, k ∈ pr_kills p' → k ∈ pr_kills p ∨ Z.abs k ∈ started p) → helpers_inv p'.
Proof.
  intros [H1 H2 H3 H4] Hl Hs Hg Hk. split; rewrite ?Hs; [congruence|done|by rewrite Hg|].
  rewrite Forall_forall in *. intros k [Hin|Hin]%Hk; auto.
Qed.

Lemma in_table_started p i c :
  helpers_inv p → pr_children p !! i = Some c → c_pid c ≠ 0 → c_pid c ∈ started p.
Proof.
  intros Hi Hc Hne. rewrite (hi_account _ Hi), elem_of_app, (live_lookup _ _ _ Hc). right.
  apply elem_of_app. left. unfold occupant. rewrite (proj2 (Z.eqb_neq _ _)) by done. apply list_elem_of_here.
Qed.

Lemma syslog_if_inv use pri text p : helpers_inv p → helpers_inv (syslog_if use pri text p).
Proof. destruct use; [|done]. by intros []. Qed.
Lemma complain_inv r p : helpers_inv p → helpers_inv (complain r p).
Proof. by intros []. Qed.
Lemma tick_inv p : helpers_inv p → helpers_inv (tick p).
Proof. by intros []. Qed.
Lemma kill_inv k p : helpers_inv p → Z.abs k ∈ started p → helpers_inv (kill k p).
Proof. intros [] Hk. split; try done. cbn. rewrite Forall_app. split; [done|]. by apply Forall_singleton. Qed.
Create HintDb helpers.
#[export] Hint Resolve syslog_if_inv complain_inv tick_inv kill_inv : helpers.

Lemma syslog_if_children use pri text p : pr_children (syslog_if use pri text p) = pr_children p.
Proof. by destruct use. Qed.

Lemma free_child_inv i c p :
  helpers_inv p → pr_children p !! i = Some c → c_pid c ≠ 0 → helpers_inv (free_child i c p).
Proof.
  intros Hi Hc Hne. apply (inv_mono p); [done|apply length_insert|done| |by left].
  cbn. rewrite (live_insert _ _ _ _ Hc), (live_lookup _ _ _ Hc). unfold occupant at 2.
  rewrite (proj2 (Z.eqb_neq _ _)) by done. cbn. solve_Permutation.
Qed.

Lemma extend_child_inv i c d p :
  helpers_inv p → pr_children p !! i = Some c → helpers_inv (set_child i (Child (c_pid c) d (c_name c)) p).
Proof.
  intros Hi Hc. apply (inv_mono p); [done|apply length_insert|done| |by left].
  cbn. by rewrite (live_insert _ _ _ _ Hc), (live_lookup _ _ _ Hc).
Qed.

Lemma reap_slot_inv `{Host} use p i : helpers_inv p → helpers_inv (reap_slot use p i).
Proof.
  intros Hi. unfold reap_slot. destruct (pr_children p !! i) as [c|] eqn:Hc; [|done].
  destruct (c_pid c =? 0) eqn:E; [done|]. bool_props.
  pose proof (in_table_started p i c Hi Hc E) as Hst.
  assert (Hpos : 0 < c_pid c) by (pose proof (hi_pids _ Hi) as Hp; rewrite Forall_forall in Hp; auto).
  assert (Htick : helpers_inv (tick p)) by auto with helpers.
  assert (Hslow : helpers_inv (let '(now, p) := read_clock (tick p) in
    if now <? c_deadline c then p
    else
      let p := syslog_if use LOG_WARNING (c_name c ++ bytes_of " timed out and was killed")
                 (complain (ChildTimedOut (c_name c)) p) in
      let p := kill (c_pid c) (kill (- c_pid c) p) in
      let '(now, p) := read_clock p in set_child i (Child (c_pid c) (now + 5) (c_name c)) p)).
  { unfold read_clock. case_match; [auto with helpers|]. apply extend_child_inv.
    - apply tick_inv, kill_inv; [apply kill_inv|]; [auto with helpers| |];
        rewrite ?Z.abs_opp, Z.abs_eq by lia; by destruct use.
    - cbn. by rewrite syslog_if_children. }
  destruct (waitpid_at _ _); try exact Hslow;
    apply free_child_inv; repeat case_match; auto with helpers; cbn; rewrite ?syslog_if_children; exact Hc.
Qed.
Lemma children_reap_inv `{Host} use p : helpers_inv p → helpers_inv (children_reap use p).
Proof.
  unfold children_reap. generalize (seq 0 MAX_CHILDREN). intros l. revert p.
  induction l as [|i l IH]; intros p Hp; [done|]. by apply IH, reap_slot_inv.
Qed.

Lemma free_slot_lookup `{Host} p i :
  child_free_slot p = Some i → ∃ c, pr_children p !! i = Some c ∧ c_pid c = 0.
Proof.
  unfold child_free_slot. intros ([j c] & Hf & [= <-])%fmap_Some.
  apply list_find_Some in Hf as (Hc & Hz & _). by exists c.
Qed.
Lemma free_slot_none `{Host} p :
  child_free_slot p = None ↔ length (live (pr_children p)) = length (pr_children p).
Proof.
  unfold child_free_slot. rewrite fmap_None, list_find_None. generalize (pr_children p). intros l. split.
  - induction 1 as [|c l Hc _ IH]; [done|]. unfold live in *. rewrite bind_cons, length_app, IH.
    unfold occupant. by rewrite (proj2 (Z.eqb_neq _ _)).
  - induction l as [|c l IH]; [constructor|]. pose proof (live_bound l) as Hb. unfold live in *.
    rewrite bind_cons, length_app. unfold occupant at 1. destruct (c_pid c =? 0) eqn:E; simpl; [lia|].
    intros Hl. constructor; [by apply Z.eqb_neq|]. apply IH. lia.
Qed.

(** A fork that succeeds, tracked in a free slot. *)
Lemma start_child_inv `{Host} i pid g timeout name p :
  helpers_inv p → child_free_slot p = Some i → 0 < pid →
  helpers_inv (child_track i pid timeout name (spawned pid g p)).
Proof.
  intros [H1 H2 H3 H4] (c & Hc & Hz)%free_slot_lookup Hpid.
  set (p' := child_track _ _ _ _ _).
  assert (Hst : started p' = started p ++ [pid]) by (unfold started; cbn; by rewrite fmap_app).
  split; rewrite ?Hst; [cbn; by rewrite length_insert|rewrite Forall_app; auto|rewrite H3; cbn|].
  - rewrite (live_insert _ _ _ _ Hc), (live_lookup _ _ _ Hc). unfold occupant. cbn.
    rewrite Hz, (proj2 (Z.eqb_neq pid 0)) by lia. cbn. solve_Permutation.
  - eapply Forall_impl; [exact H4|]. intros k Hk. apply elem_of_app. by left.
Qed.

Lemma notify_inv `{HostLaws} o title body p : helpers_inv p → helpers_inv (notify_desktop o title body p).
Proof.
  intros Hi. unfold notify_desktop. destruct (child_free_slot p) as [i|] eqn:Hf; [|auto with helpers].
  destruct (_ <? 0) eqn:E; [auto with helpers|]. bool_props.
  pose proof (fork_parent (pr_ticks p)). apply start_child_inv; [auto with helpers|done|lia].
Qed.
Lemma run_action_inv `{HostLaws} use c p : helpers_inv p → helpers_inv (run_action use c p).
Proof.
  intros Hi. unfold run_action. destruct (child_free_slot p) as [i|] eqn:Hf; [|auto with helpers].
  destruct (_ <? 0) eqn:E; [auto with helpers|]. bool_props.
  match goal with |- context [fork_at ?t] => pose proof (fork_parent t) end.
  apply start_child_inv; [auto with helpers| |lia].
  unfold child_free_slot in *. cbn. by rewrite syslog_if_children.
Qed.
Lemma new_proc_inv : helpers_inv new_proc.
Proof. by split. Qed.

(** ** What a history of helper operations leaves *)
Inductive helper_op :=
  | OpNotify (o : opts) (title body : list Z)
  | OpAction (use_syslog : bool) (c : run_call)
  | OpReap (use_syslog : bool).
Definition helper_step `{Host} (p : proc) (op : helper_op) : proc :=
  match op with
  | OpNotify o title body => notify_desktop o title body p
  | OpAction use c => run_action use c p
  | OpReap use => children_reap use p
  end.

Lemma helper_steps_inv `{HostLaws} ops p : helpers_inv p → helpers_inv (foldl helper_step p ops).
Proof.
  revert p. induction ops as [|op ops IH]; intros p Hp; [done|]. apply IH.
  destruct op; cbn; [by apply notify_inv|by apply run_action_inv|by apply children_reap_inv].
Qed.

(** C23 — However notifications, actions and reaping passes follow each other and whatever fork and
    waitpid answer, every process ever started is either still in the table or was taken out of
    it, and not both; at most 32 are in the table; a helper is refused only when 32 are; and no
    signal is sent to a process (or a process group) the monitor did not start. *)
Theorem helpers_accounted `{HostLaws} ops :
  let p := foldl helper_step new_proc ops in
  started p ≡ₚ pr_gone p ++ live (pr_children p)
  ∧ (length (live (pr_children p)) ≤ MAX_CHILDREN)%nat
  ∧ (child_free_slot p = None ↔ length (live (pr_children p)) = MAX_CHILDREN)
  ∧ Forall (λ k, k ≠ 0 ∧ Z.abs k ∈ started p) (pr_kills p).
Proof.
  intros p. destruct (helper_steps_inv ops new_proc new_proc_inv) as [H1 H2 H3 H4]. fold p in H1, H2, H3, H4.
  split_and!; [done|rewrite <- H1; apply live_bound|by rewrite free_slot_none, H1|].
  rewrite Forall_forall in *. intros k Hk. specialize (H4 k Hk). split; [|done].
  specialize (H2 _ H4). lia.
Qed.

(** ** One reaping pass *)
Record reap_frame (p p' : proc) : Prop := ReapFrame {
  rf_ticks : (pr_ticks p ≤ pr_ticks p')%nat;
  rf_kills : ∀ k, k ∈ pr_kills p → k ∈ pr_kills p';
  rf_gone : ∀ k, k ∈ pr_gone p → k ∈ pr_gone p'
}.
#[export] Instance reap_frame_preorder : PreOrder reap_frame.
Proof. split; [by split|]. intros p1 p2 p3 [] []. split; eauto. lia. Qed.

Definition finished (r : wait_result) : bool :=
  match r with WExited _ | WSignaled _ | WNoChild => true | WRunning | WError => false end.

(** What a pass does to the child [c] of slot [i] it finds at clock reading [t]. *)
Definition reaped `{Host} (i : nat) (c : child) (t : nat) (p' : proc) : Prop :=
  if finished (waitpid_at t (c_pid c)) then
    pr_children p' !! i = Some (Child 0 (c_deadline c) (c_name c)) ∧ c_pid c ∈ pr_gone p'
  else if mono_s (S t) <? c_deadline c then pr_children p' !! i = Some c
  else pr_children p' !! i = Some (Child (c_pid c) (mono_s (S (S t)) + 5) (c_name c))
       ∧ c_pid c ∈ pr_kills p' ∧ - c_pid c ∈ pr_kills p'.

Lemma syslog_if_frame use pri text p :
  pr_children (syslog_if use pri text p) = pr_children p ∧ pr_ticks (syslog_if use pri text p) = pr_ticks p
  ∧ pr_kills (syslog_if use pri text p) = pr_kills p ∧ pr_gone (syslog_if use pri text p) = pr_gone p.
Proof. by destruct use. Qed.

Lemma reap_slot_frame `{Host} use p i :
  reap_frame p (reap_slot use p i) ∧ ∀ j, i ≠ j → pr_children (reap_slot use p i) !! j = pr_children p !! j.
Proof.
  unfold reap_slot, read_clock, free_child. destruct (pr_children p !! i) as [c|]; [|done].
  destruct (c_pid c =? 0); [done|].
  split; [split; intros|intros j Hj]; destruct (waitpid_at _ _), use; repeat case_match;
    cbn; rewrite ?list_lookup_insert_ne by done; rewrite ?elem_of_app; auto with lia.
Qed.
Lemma reap_slots_frame `{Host} use l p :
  reap_frame p (foldl (reap_slot use) p l)
  ∧ ∀ j, j ∉ l → pr_children (foldl (reap_slot use) p l) !! j = pr_children p !! j.
Proof.
  revert p. induction l as [|i l IH]; intros p; [done|]. destruct (IH (reap_slot use p i)) as [Hf Hc].
  destruct (reap_slot_frame use p i) as [Hf1 Hc1]. cbn. split; [by etrans|].
  intros j [Hj Hl]%not_elem_of_cons. by rewrite Hc, Hc1.
Qed.

Lemma reap_slot_at `{Host} use p i c :
  pr_children p !! i = Some c → c_pid c ≠ 0 → reaped i c (pr_ticks p) (reap_slot use p i).
Proof.
  intros Hc Hne. assert (Hi : (i < length (pr_children p))%nat) by by eapply lookup_lt_Some.
  unfold reaped, reap_slot, read_clock, free_child. rewrite Hc, (proj2 (Z.eqb_neq _ _)) by done.
  destruct (waitpid_at _ _), use; cbn [finished tick pr_ticks]; repeat case_match; cbn;
    rewrite ?list_lookup_insert_eq by done; try done; split_and?; try done; set_solver.
Qed.

(** One pass asks about every process in the table; one that has finished leaves it, one that
    has not reached its deadline stays as it is, and one past it is sent SIGKILL together with
    the group it leads and stays in the table until a later pass finds it gone. *)
Theorem reap_pass `{Host} use p i c :
  length (pr_children p) = MAX_CHILDREN → pr_children p !! i = Some c → c_pid c ≠ 0 →
  ∃ t, (pr_ticks p ≤ t)%nat ∧ reaped i c t (children_reap use p).
Proof.
  intros Hl Hc Hne. assert (Hi : (i < MAX_CHILDREN)%nat) by (rewrite <- Hl; by eapply lookup_lt_Some).
  unfold children_reap. replace MAX_CHILDREN with (i + S (MAX_CHILDREN - S i))%nat by lia.
  rewrite seq_app, foldl_app. cbn [seq foldl Nat.add].
  destruct (reap_slots_frame use (seq 0 i) p) as [[Ht _ _] Hs].
  set (p1 := foldl _ p _) in *. exists (pr_ticks p1). split; [done|].
  assert (Hc1 : pr_children p1 !! i = Some c) by (rewrite Hs; [done|rewrite elem_of_seq; lia]).
  pose proof (reap_slot_at use p1 i c Hc1 Hne) as Hr.
  destruct (reap_slots_frame use (seq (S i) (MAX_CHILDREN - S i)) (reap_slot use p1 i)) as [[_ Hk Hg] Hs2].
  unfold reaped in *. rewrite Hs2 by (rewrite elem_of_seq; lia).
  repeat case_match; naive_solver.
Qed.

(** ** The environment of an action fits *)
Lemma bytes_of_length s : length (bytes_of s) = String.length s.
Proof. unfold bytes_of. rewrite length_fmap. induction s as [|c s IH]; simpl; congruence. Qed.
Lemma fmt_u_length n : (length (fmt_u n) ≤ 20)%nat.
Proof. apply digits_length. Qed.
Lemma fmt_d_length n : (length (fmt_d n) ≤ 21)%nat.
Proof. unfold fmt_d. pose proof (fmt_u_length n). pose proof (fmt_u_length (- n)). case_match; simpl; lia. Qed.
Lemma fmt_x_length w n : (w ≤ 16)%nat → (length (fmt_x w n) ≤ 16)%nat.
Proof.
  intros Hw. unfold fmt_x, pad_zero. rewrite length_app, length_replicate.
  pose proof (digits_length false 16 16 n). lia.
Qed.
Lemma alert_text_length t : (length (alert_text t) ≤ 32)%nat.
Proof.
  unfold alert_text. rewrite bytes_of_length. destruct (find_first _ alert_texts) as [s|] eqn:E; [|simpl; lia].
  revert E. apply (table_search (λ s, (String.length s ≤ 32)%nat)). printable_literal.
Qed.
Lemma code_name_length c : (String.length (default "UNKNOWN" (kgp_code_name c)) ≤ 32)%nat.
Proof.
  unfold kgp_code_name. destruct (find_first _ kgp_names) as [s|] eqn:E; [|simpl; lia].
  revert E. apply (table_search (λ s, (String.length s ≤ 32)%nat)). printable_literal.
Qed.
Lemma level_name_length l : (String.length (kgp_level_name l) ≤ 8)%nat.
Proof. unfold kgp_level_name. repeat case_match; simpl; lia. Qed.
Lemma valid_name_length s : valid_name s = true → (String.length s < 32)%nat.
Proof. unfold valid_name, KGP_NAME_LEN. intros. bool_props. lia. Qed.

Lemma action_vars_fit `{Host} act rule al tier count age_s :
  valid_name (r_name rule) = true → valid_name (a_name act) = true →
  (String.length (al_details al) < DETAILS_LEN)%nat →
  Forall (λ v, (length v < DETAILS_LEN + 32)%nat) (action_vars act rule al tier count age_s).
Proof.
  intros Hr Ha Hd. apply valid_name_length in Hr, Ha. unfold action_vars, DETAILS_LEN, alert_title in *.
  repeat apply Forall_cons_2; [..|apply Forall_nil_2]; rewrite ?length_app, ?(bytes_of_length (r_name rule)),
    ?(bytes_of_length (a_name act)), ?(bytes_of_length (default _ _)), ?(bytes_of_length (kgp_level_name _)),
    ?(bytes_of_length (al_details al)).
  1: by vm_compute; lia.
  all: match goal with |- context [length (bytes_of ?s)] => let n := eval vm_compute in (length (bytes_of s)) in
         change (length (bytes_of s)) with n end.
  1: pose proof (truncate_length 128 hostname ltac:(lia)); lia.
  all: pose proof (alert_text_length (al_code al)); pose proof (code_name_length (al_code al));
    pose proof (level_name_length (al_level al)); pose proof (truncate_length 40 (date_time 84 (gmtime (al_time_ns al / 1000000000)) ++ [90]) ltac:(lia));
    unfold iso_utc; try lia.
  all: try (match goal with |- context [fmt_u ?n] => pose proof (fmt_u_length n); lia end).
  all: try (match goal with |- context [fmt_d ?n] => pose proof (fmt_d_length n); lia end).
  all: match goal with |- context [fmt_x ?w ?n] => pose proof (fmt_x_length w n ltac:(lia)); lia end.
Qed.

(** The action of a valid policy gets its environment complete: no variable, the longest
    description and host name included, reaches the size of its buffer, and the 17 variables
    leave room for the terminator in [env[24]]. *)
Theorem action_env_complete `{Host} act rule al tier count age_s :
  valid_name (r_name rule) = true → valid_name (a_name act) = true →
  (String.length (al_details al) < DETAILS_LEN)%nat →
  exec_action act rule al tier count age_s = RunsAction (a_argv act) (action_vars act rule al tier count age_s)
  ∧ (length (action_vars act rule al tier count age_s) < 24)%nat.
Proof.
  intros Hr Ha Hd. split; [|simpl; lia]. unfold exec_action. f_equal.
  pose proof (action_vars_fit act rule al tier count age_s Hr Ha Hd) as Hf.
  induction Hf as [|v l Hv _ IH]; [done|]. by rewrite fmap_cons, IH, truncate_id.
Qed.

(** An empty user name is not refused: as root the notification goes to the session of uid 0. *)
Theorem empty_user_is_root `{Host} o title body pw :
  o_notify_user o = Some "" → host_euid = 0 → getpwnam "" = None → getpwuid 0 = Some pw → become pw = true →
  ∃ env, notify_child o title body = NotifySend (Some pw) env title body.
Proof.
  intros Hu He Hn Hp Hb. unfold notify_child. rewrite Hu, He, Hn. cbn.
  change (u32 0) with 0. rewrite Hp, bool_decide_true by done. cbv beta iota zeta. rewrite Hb. by eexists.
Qed.

(** ** Examples *)

(** Thirty-four notifications at once: two are refused, and a pass kills those overdue. *)
Definition flood : list helper_op :=
  replicate 34 (OpNotify default_opts (bytes_of "t") (bytes_of "b")) ++ [OpReap true].
Lemma helpers_accounted_witness :
  let p := foldl (@helper_step sample_host) new_proc flood in
  (length (started p) = 32%nat ∧ filter (λ r, r = NotifyDropped) (pr_err p) = [NotifyDropped; NotifyDropped])
  ∧ started p ≡ₚ pr_gone p ++ live (pr_children p)
  ∧ (length (live (pr_children p)) ≤ MAX_CHILDREN)%nat
  ∧ (child_free_slot p = None ↔ length (live (pr_children p)) = MAX_CHILDREN)
  ∧ Forall (λ k, k ≠ 0 ∧ Z.abs k ∈ started p) (pr_kills p).
Proof.
  intros p. split; [vm_compute; split; reflexivity|]. apply (@helpers_accounted sample_host sample_host_laws flood).
Defined.

Lemma reap_pass_witness :
  let p := foldl (@helper_step sample_host) new_proc (take 12 flood) in
  ∃ t, (pr_ticks p ≤ t)%nat
  ∧ @reaped sample_host 0 (pr_children p !!! 0%nat) t (@children_reap sample_host true p).
Proof.
  intros p. apply (@reap_pass sample_host true p 0 (pr_children p !!! 0%nat));
    [reflexivity|vm_compute; reflexivity|vm_compute; discriminate].
Defined.

Lemma action_env_complete_witness :
  let act := Action "page" ["/usr/bin/page"; "-x"] 30 in
  let al := Alert KG_ALERT_IDT_HOOK KGP_CRITICAL 7 1 2 0 "Handler: 0x1" in
  @exec_action sample_host act (new_rule "idt") al 1 3 (-2)
  = RunsAction ["/usr/bin/page"; "-x"] (@action_vars sample_host act (new_rule "idt") al 1 3 (-2))
  ∧ (length (@action_vars sample_host act (new_rule "idt") al 1 3 (-2)) < 24)%nat.
Proof.
  intros act al. apply (@action_env_complete sample_host act (new_rule "idt") al 1 3 (-2)); [reflexivity..|].
  apply Nat.ltb_lt. reflexivity.
Defined.
