(* ===== verification/Monitor.v ===== *)
(** * The user-space reader (linux/monitor/kgmon.c: read_slot, drain, emit, policy_feed)

    Every load the reader makes from the mapped page sees the slot at its own
    instant, so a read is described by the slot contents each of its loads met
    ([loads]).  The first half interleaves [read_slot] with the writer's stores of
    Comms.v; the second runs [drain] and the policy engine behind it. *)
From S2P Require Import Prelude Text Sha256 Uapi Kernel Machine Guard Comms PolicyParse Policy KgmonText KgmonChild.
Local Open Scope string_scope.
Local Open Scope list_scope.
Local Open Scope Z_scope.

(** ** read_slot *)
Inductive slot_result := SLOT_OK (n : kg_notification) | SLOT_RETRY | SLOT_BAD.

(** The slot as met by the first load of [magic], by the copy of each field (0-6 the
    scalars in order, [7 + i] byte [i] of the HMAC) and by the last load of [magic]. *)
Record loads := Loads {
  ld_m1 : kg_notification;
  ld_copy : nat → kg_notification;
  ld_m2 : kg_notification
}.

(** [memcpy(out, s, sizeof *out)] *)
Definition copy_slot (v : nat → kg_notification) : kg_notification :=
  Notif (magic (v 0%nat)) (sequence (v 1%nat)) (alert_type (v 2%nat)) (alert_level (v 3%nat))
        (timestamp (v 4%nat)) (param1 (v 5%nat)) (param2 (v 6%nat))
        ((λ i, hmac (v (7 + i)%nat) !!! i) <$> seq 0 32).

Definition read_slot (l : loads) (seq : Z) : slot_result :=
  if negb (magic (ld_m1 l) =? KG_NOTIFY_MAGIC) then SLOT_RETRY
  else
    let out := copy_slot (ld_copy l) in
    if negb (magic (ld_m2 l) =? KG_NOTIFY_MAGIC) then SLOT_RETRY
    else if sequence out =? seq then SLOT_OK out else SLOT_BAD.

(** ** The writer's stores over time *)

(** What [kg_comms_notify] stores to the page for one notification. *)
Definition notify_stores (n : kg_notification) : list store :=
  SetNonce (u32 (sequence n + 1)) :: publish n.

Definition slot_at (k : nat) (l : list store) (t : nat) : kg_notification :=
  notifications (foldl do_store empty_ring (take t l)) !!! k.

(** When each load of a read happens, in numbers of stores the writer has made. *)
Record load_times := LoadTimes { t_m1 : nat; t_copy : nat → nat; t_m2 : nat }.

Definition ordered (tm : load_times) : Prop :=
  (t_m1 tm ≤ t_m2 tm)%nat ∧ ∀ j, (t_m1 tm ≤ t_copy tm j ≤ t_m2 tm)%nat.

Definition loads_at (k : nat) (l : list store) (tm : load_times) : loads :=
  Loads (slot_at k l (t_m1 tm)) (λ j, slot_at k l (t_copy tm j)) (slot_at k l (t_m2 tm)).

(** *** The stores one slot sees *)
Definition slot_stores (k : nat) (l : list store) : list store :=
  filter (λ s, store_slot s = Some k) l.

Lemma slot_after k l r :
  (k < length (notifications r))%nat →
  notifications (foldl do_store r l) !!! k = put_fields (notifications r !!! k) (slot_stores k l).
Proof.
  revert r. induction l as [|s l IH]; intros r Hk; [done|]. cbn [foldl].
  unfold slot_stores. rewrite filter_cons.
  destruct (store_slot s) as [k'|] eqn:Es.
  - rewrite (do_store_slot r s k' Es). rewrite IH by (simpl; by rewrite length_alter).
    cbn [notifications]. destruct (decide (Some k' = Some k)) as [[= ->]|Hne].
    + cbn [put_fields foldl]. f_equal.
      destruct (lookup_lt_is_Some_2 _ _ Hk) as [x Hx].
      by rewrite !list_lookup_total_alt, list_lookup_alter_eq, Hx.
    + f_equal. rewrite !list_lookup_total_alt, list_lookup_alter_ne; [done|congruence].
  - rewrite decide_False by done. rewrite IH; destruct s; done.
Qed.

Lemma slot_stores_take_le k l t1 t2 :
  (t1 ≤ t2)%nat →
  slot_stores k (take t2 l) = slot_stores k (take t1 l) ++ slot_stores k (drop t1 (take t2 l)).
Proof.
  intros Ht. unfold slot_stores. rewrite <- filter_app. f_equal.
  rewrite <- (take_drop t1 (take t2 l)) at 1. f_equal. by rewrite take_take, Nat.min_l.
Qed.

Lemma slot_stores_prefix k l t : slot_stores k (take t l) `prefix_of` slot_stores k l.
Proof.
  exists (slot_stores k (drop t l)). unfold slot_stores. by rewrite <- filter_app, take_drop.
Qed.

(** No store to the slot in a window: the slot's history is the same all through it. *)
Lemma quiet_window k l t1 t t2 :
  (t1 ≤ t ≤ t2)%nat → slot_stores k (drop t1 (take t2 l)) = [] →
  slot_stores k (take t l) = slot_stores k (take t1 l).
Proof.
  intros Ht Hend. rewrite (slot_stores_take_le k l t1 t) by lia.
  assert (Hpf : slot_stores k (drop t1 (take t l)) `prefix_of` []).
  { rewrite <- Hend.
    replace (drop t1 (take t l)) with (take (t - t1) (drop t1 (take t2 l))).
    - apply slot_stores_prefix.
    - rewrite take_drop_commute. replace (t1 + (t - t1))%nat with t by lia.
      by rewrite take_take, Nat.min_l by lia. }
  apply prefix_nil_inv in Hpf. by rewrite Hpf, app_nil_r.
Qed.

Definition to_slot (k : nat) (log : list kg_notification) : list kg_notification :=
  filter (λ n, slot_of (sequence n) = k) log.

Lemma slot_stores_notify k n :
  slot_stores k (notify_stores n)
  = if decide (slot_of (sequence n) = k) then publish_slot k n else [].
Proof.
  unfold slot_stores, notify_stores, publish. rewrite filter_cons, decide_False by done.
  rewrite filter_app. rewrite (filter_none _ [SetWriteIndex _]) by (by repeat constructor).
  rewrite app_nil_r. pose proof (publish_slot_on (slot_of (sequence n)) n) as Hp.
  destruct (decide (slot_of (sequence n) = k)) as [<-|Hne].
  - by apply filter_all.
  - apply filter_none. eapply Forall_impl; [exact Hp|]. simpl. intros s -> [=]. done.
Qed.

Lemma slot_stores_log k log :
  slot_stores k (mjoin (notify_stores <$> log)) = mjoin (publish_slot k <$> to_slot k log).
Proof.
  induction log as [|n log IH]; [done|]. rewrite join_fmap_cons.
  unfold slot_stores in *. rewrite filter_app, IH.
  pose proof (slot_stores_notify k n) as Hn. unfold slot_stores in Hn. rewrite Hn.
  unfold to_slot. rewrite filter_cons. destruct (decide _); by rewrite ?join_fmap_cons.
Qed.

(** *** Prefixes of a sequence of publications of one slot *)
Definition published (n : kg_notification) : Prop :=
  magic n = KG_NOTIFY_MAGIC ∧ length (hmac n) = 32%nat.

Lemma put_payload_magic k n x l :
  l `prefix_of` ([SetSequence k (sequence n); SetAlertType k (alert_type n);
     SetAlertLevel k (alert_level n); SetTimestamp k (timestamp n);
     SetParam1 k (param1 n); SetParam2 k (param2 n)] ++ imap (λ i b, SetHmacByte k i b) (hmac n)) →
  magic (put_fields x l) = magic x.
Proof.
  intros Hl. assert (Hall : Forall (λ s, match s with SetMagic _ _ => False | _ => True end) l).
  { destruct Hl as [rest Hl].
    assert (Hf : Forall (λ s, match s with SetMagic _ _ => False | _ => True end) (l ++ rest)).
    { rewrite <- Hl, Forall_app. split; [by repeat constructor|].
      apply Forall_forall. intros s (i & b & -> & _)%elem_of_lookup_imap. done. }
    by apply Forall_app in Hf as [? _]. }
  clear Hl. revert x. induction Hall as [|s l Hs Hl IH]; intros x; [done|].
  cbn [put_fields foldl]. unfold put_fields in IH. rewrite IH. by destruct s.
Qed.

(** The stores of one slot's publication, first and last apart. *)
Lemma publish_slot_split k n : ∃ body,
  publish_slot k n = SetMagic k 0 :: body ++ [SetMagic k KG_NOTIFY_MAGIC]
  ∧ ∀ l x, l `prefix_of` body → magic (put_fields x l) = magic x.
Proof.
  eexists. split; [unfold publish_slot; rewrite app_comm_cons, app_assoc; reflexivity|].
  intros l x Hl. eapply put_payload_magic. exact Hl.
Qed.

(** How far a prefix of the publications of one slot reaches: nothing yet, inside the
    first publication (and then the slot is marked invalid), or past it. *)
Lemma publications_prefix k ns d :
  d `prefix_of` mjoin (publish_slot k <$> ns) →
  d = [] ∨ (∀ x, magic (put_fields x d) = 0)
  ∨ ∃ n ns' d', ns = n :: ns' ∧ d = publish_slot k n ++ d'
                ∧ d' `prefix_of` mjoin (publish_slot k <$> ns').
Proof.
  destruct ns as [|n ns]; [intros ?%prefix_nil_inv; by left|].
  rewrite join_fmap_cons. intros [[d' Hd]|(d' & -> & Hd')]%prefix_of_app_cases.
  - destruct (publish_slot_split k n) as (body & Hp & Hbody). rewrite Hp in Hd.
    destruct d as [|s d]; [by left|]. rewrite <- app_comm_cons in Hd. injection Hd as <- Hd.
    destruct d' as [|s d' _] using rev_ind.
    + right; right. exists n, ns, []. rewrite app_nil_r in *.
      split_and!; [done|by rewrite Hp, Hd|apply prefix_nil].
    + rewrite app_assoc in Hd. apply app_inj_tail in Hd as [-> _].
      right; left. intros x.
      etrans; [apply (Hbody d (put_field (SetMagic k 0) x)); by exists d'|done].
  - right; right. eauto 10.
Qed.

Lemma put_fields_app x a b : put_fields x (a ++ b) = put_fields (put_fields x a) b.
Proof. apply foldl_app. Qed.

(** A slot whose magic is set holds a complete notification. *)
Lemma valid_slot_complete k ns z p :
  p `prefix_of` mjoin (publish_slot k <$> ns) → Forall published ns → length (hmac z) = 32%nat →
  magic (put_fields z p) = KG_NOTIFY_MAGIC →
  p = [] ∨ ∃ m n, p = mjoin (publish_slot k <$> take (S m) ns) ∧ ns !! m = Some n
                  ∧ put_fields z p = n.
Proof.
  intros Hp Hns. revert z p Hp. induction Hns as [|n ns [Hm Hl] Hns IH]; intros z p Hp Hz Hmag.
  { left. by apply prefix_nil_inv in Hp. }
  destruct (publications_prefix k (n :: ns) p Hp) as [->|[H0|(n' & ns' & d' & [= <- <-] & -> & Hd')]].
  - by left.
  - by rewrite H0 in Hmag.
  - right. rewrite put_fields_app, publish_slot_result in * by (done || congruence).
    destruct (IH n d' Hd' Hl Hmag) as [->|(m & n2 & -> & Hn2 & Heq)].
    + exists 0%nat, n. split_and!; done.
    + exists (S m), n2. split_and!; done.
Qed.

(** Two valid sightings of a slot with no completed rewrite between them: nothing was
    stored to it in between. *)
Lemma no_rewrite_between k ns p d z :
  p ++ d `prefix_of` mjoin (publish_slot k <$> ns) → Forall published ns →
  length (hmac z) = 32%nat → magic z ≠ KG_NOTIFY_MAGIC →
  magic (put_fields z p) = KG_NOTIFY_MAGIC → magic (put_fields z (p ++ d)) = KG_NOTIFY_MAGIC →
  SetMagic k KG_NOTIFY_MAGIC ∉ d → d = [].
Proof.
  intros Hpd Hns Hz Hz0 H1 H2 Hd.
  assert (Hp : p `prefix_of` mjoin (publish_slot k <$> ns))
    by (etrans; [|exact Hpd]; by apply prefix_app_r).
  destruct (valid_slot_complete k ns z p Hp Hns Hz H1) as [->|(m & n & -> & Hn & _)]; [done|].
  assert (Hd' : d `prefix_of` mjoin (publish_slot k <$> drop (S m) ns)).
  { rewrite <- (take_drop (S m) ns) in Hpd at 2. rewrite fmap_app, join_app in Hpd.
    by apply prefix_app_inv in Hpd. }
  destruct (publications_prefix k _ d Hd') as [->|[H0|(n' & ns' & d' & Heq & -> & _)]]; [done|..].
  - rewrite put_fields_app, H0 in H2. done.
  - destruct Hd. destruct (publish_slot_split k n') as (body & -> & _). set_solver.
Qed.

Lemma copy_slot_const (v : nat → kg_notification) n :
  (∀ j, v j = n) → length (hmac n) = 32%nat → copy_slot v = n.
Proof.
  intros Hv Hl.
  assert (Hh : (λ i, hmac (v (7 + i)%nat) !!! i) <$> seq 0 32 = hmac n).
  { apply list_eq. intros i. rewrite list_lookup_fmap.
    destruct (decide (i < 32)%nat) as [Hi|Hi].
    - rewrite lookup_seq_lt by done. cbn [fmap option_fmap option_map]. rewrite Hv.
      destruct (lookup_lt_is_Some_2 (hmac n) i ltac:(lia)) as [x Hx].
      rewrite Hx. f_equal. by apply list_lookup_total_correct.
    - rewrite (lookup_ge_None_2 (seq 0 32)) by (rewrite length_seq; lia).
      by rewrite (lookup_ge_None_2 (hmac n)) by lia. }
  unfold copy_slot. rewrite Hh, !Hv. by destruct n.
Qed.

(** ** Sample notifications *)
Definition authentic (key : list Z) (n : kg_notification) : Prop :=
  hmac n = hmac_spec key (auth_bytes n).

Definition sample_key : list Z := replicate 32 0x0b.
Definition signed (key : list Z) (n : kg_notification) : kg_notification :=
  Notif (magic n) (sequence n) (alert_type n) (alert_level n) (timestamp n) (param1 n) (param2 n)
        (hmac_spec key (auth_bytes n)).
Lemma signed_facts key n :
  magic (signed key n) = magic n ∧ sequence (signed key n) = sequence n
  ∧ length (hmac (signed key n)) = 32%nat.
Proof. split_and!; [done..|apply hmac_spec_wf]. Qed.

Definition sample_notif (i : nat) : kg_notification :=
  signed sample_key (Notif KG_NOTIFY_MAGIC (Z.of_nat i) KG_ALERT_IDT_HOOK KG_LEVEL_CRITICAL
                           (1000 + Z.of_nat i) (Z.of_nat i) 0 []).
Lemma sample_notif_facts i :
  magic (sample_notif i) = KG_NOTIFY_MAGIC ∧ sequence (sample_notif i) = Z.of_nat i
  ∧ length (hmac (sample_notif i)) = 32%nat.
Proof. apply signed_facts. Qed.

Definition sample_log : list kg_notification := sample_notif <$> seq 0 17.

Lemma sample_log_ok :
  forallb (λ n, (magic n =? KG_NOTIFY_MAGIC) && (length (hmac n) =? 32)%nat
                && bool_decide (hmac n = hmac_spec sample_key (auth_bytes n))) sample_log = true.
Proof. by vm_compute. Qed.

Lemma sample_log_facts : Forall published sample_log ∧ Forall (authentic sample_key) sample_log.
Proof.
  pose proof sample_log_ok as Hok. rewrite forallb_forall in Hok.
  split; apply Forall_forall; intros n Hn%list_elem_of_In; specialize (Hok n Hn); bool_props; [|done].
  split; [done|]. by apply Nat.eqb_eq.
Qed.

(** The ring after the first [k] of them. *)
Definition sample_ring (k : nat) : kg_shared_region :=
  foldl (λ r n, foldl do_store r (notify_stores n)) empty_ring (sample_notif <$> seq 0 k).
Lemma foldl_notify_stores r n :
  foldl do_store r (notify_stores n)
  = foldl do_store (do_store r (SetNonce (u32 (sequence n + 1)))) (publish n).
Proof. reflexivity. Qed.
Lemma sample_ring_holds k :
  Z.of_nat k < 4294967296 → ring_holds (sample_ring k) (sample_notif <$> seq 0 k).
Proof.
  induction k as [|k IH]; intros Hk; [apply empty_ring_holds|].
  unfold sample_ring in *. rewrite seq_S, fmap_app, foldl_app.
  rewrite Nat.add_0_l, list_fmap_singleton. cbn [foldl]. specialize (IH ltac:(lia)).
  assert (Hl : length (sample_notif <$> seq 0 k) = k) by (by rewrite length_fmap, length_seq).
  destruct (sample_notif_facts k) as (Hm & Hs & Hh).
  generalize dependent (sample_notif k). intros n Hm Hs Hh.
  rewrite <- (u32_id (Z.of_nat k)) in Hs by (unfold is_u32; lia).
  rewrite foldl_notify_stores. apply ring_holds_append; [exact IH|done|done|by rewrite Hl].
Qed.

(** C7 — a read that succeeds is not torn: if the writer completes no rewrite of the
    slot between the reader's two looks at [magic], what [read_slot] accepts is exactly
    one of the notifications the writer published, with the sequence number asked for,
    whatever the interleaving of the copy with the writer's stores. *)
Theorem read_slot_atomic log tm seq n :
  Forall published log → ordered tm →
  let k := slot_of seq in
  let stores := mjoin (notify_stores <$> log) in
  SetMagic k KG_NOTIFY_MAGIC ∉ drop (t_m1 tm) (take (t_m2 tm) stores) →
  read_slot (loads_at k stores tm) seq = SLOT_OK n →
  n ∈ log ∧ sequence n = seq.
Proof.
  intros Hlog [Ht12 Htc] k stores Hno Hread.
  assert (Hk : (k < length (notifications empty_ring))%nat).
  { unfold k, slot_of, array_index_nospec, KG_NOTIFY_SLOTS. simpl.
    pose proof (Z.mod_pos_bound seq 16 ltac:(lia)). case_goal; lia. }
  assert (Hz : notifications empty_ring !!! k = zero_notification).
  { apply list_lookup_total_correct. by apply lookup_replicate_2. }
  assert (Hslot : ∀ t, slot_at k stores t
                       = put_fields zero_notification (slot_stores k (take t stores))).
  { intros t. unfold slot_at. by rewrite slot_after, Hz by done. }
  pose (p t := slot_stores k (take t stores)). change (∀ t, slot_at k stores t
    = put_fields zero_notification (p t)) in Hslot.
  assert (Hns : Forall published (to_slot k log)) 
    by (rewrite Forall_forall in *; intros x [_ ?]%list_elem_of_filter; auto).
  assert (Hpre : ∀ t, p t `prefix_of` mjoin (publish_slot k <$> to_slot k log))
    by (intros t; rewrite <- slot_stores_log; apply slot_stores_prefix).
  unfold read_slot, loads_at in Hread. cbn [ld_m1 ld_m2 ld_copy] in Hread.
  rewrite !Hslot in Hread.
  destruct (_ =? _) eqn:E1 in Hread; [|done]. cbn [negb] in Hread.
  destruct (magic (put_fields zero_notification (p (t_m2 tm))) =? _) eqn:E2 in Hread; [|done].
  cbn [negb] in Hread.
  bool_props.
  assert (Hsame : ∀ t, (t_m1 tm ≤ t ≤ t_m2 tm)%nat → p t = p (t_m1 tm)).
  { assert (Hend : slot_stores k (drop (t_m1 tm) (take (t_m2 tm) stores)) = []).
    { eapply (no_rewrite_between k (to_slot k log) (p (t_m1 tm)) _ zero_notification); try done.
      - unfold p. rewrite <- slot_stores_take_le by done. apply Hpre.
      - unfold p. by rewrite <- slot_stores_take_le.
      - unfold slot_stores. rewrite list_elem_of_filter. tauto. }
    intros t Ht. by apply (quiet_window k stores (t_m1 tm) t (t_m2 tm)). }
  destruct (valid_slot_complete k _ zero_notification (p (t_m1 tm)) (Hpre _) Hns eq_refl E1)
    as [Hnil|(m & n0 & _ & Hm & Hput)]; [by rewrite Hnil in E1|].
  assert (Hn0 : n0 ∈ log).
  { apply list_elem_of_lookup_2 in Hm. by apply list_elem_of_filter in Hm as [_ ?]. }
  rewrite (copy_slot_const _ n0) in Hread.
  - destruct (sequence n0 =? seq) eqn:E3; [|done]. bool_props. by simplify_eq.
  - intros j. by rewrite Hslot, Hsame.
  - rewrite Forall_forall in Hlog. by apply Hlog.
Qed.

(** The copy of slot 0 starts before the writer reaches the slot again. *)
Lemma read_slot_atomic_witness :
  ∃ n, read_slot (loads_at 0 (mjoin (notify_stores <$> sample_log)) (LoadTimes 41 (λ _, 45%nat) 50)) 0
       = SLOT_OK n ∧ n ∈ sample_log ∧ sequence n = 0.
Proof.
  destruct (read_slot (loads_at 0 (mjoin (notify_stores <$> sample_log))
              (LoadTimes 41 (λ _, 45%nat) 50)) 0) as [n| |] eqn:E;
    [|exfalso; vm_compute in E; discriminate E..].
  exists n. split; [reflexivity|].
  apply (read_slot_atomic sample_log (LoadTimes 41 (λ _, 45%nat) 50) 0 n);
    [apply sample_log_facts|split; simpl; intros; lia| |exact E].
  refine (bool_decide_unpack _ _). vm_compute. exact I.
Defined.

(** ** What the second look at [magic] cannot see *)

(** The reader copies the first fields of notification 0, is preempted while the writer
    publishes notification 16 into the same slot (its 17th: stores 672 to 713), and
    copies the rest. *)
Definition torn_times : load_times :=
  LoadTimes 672 (λ j, if (j <=? 3)%nat then 672%nat else 714%nat) 714.

(** The limit of [read_slot]: it re-reads [magic] but not [sequence], so a slot that
    is rewritten completely between its two looks is accepted although the copy mixes
    two authentic notifications; the mix then fails authentication, and the monitor
    reports a forgery that nobody committed. *)
Theorem torn_read_reported_forged :
  ∃ key log tm n mac,
    Forall published log ∧ Forall (authentic key) log ∧ ordered tm
    ∧ read_slot (loads_at 0 (mjoin (notify_stores <$> log)) tm) 0 = SLOT_OK n
    ∧ (n ∉ log)
    ∧ kg_hmac_sha256 key (auth_bytes n) = Some mac ∧ kg_ct_equal mac (hmac n) 32 = false.
Proof.
  eexists sample_key, sample_log, torn_times, _, _.
  split; [|split; [|split; [|split; [vm_compute; reflexivity|split; [|split]]]]];
    [apply sample_log_facts..| | | |].
  - split; simpl; [lia|]. intros j. case_goal; lia.
  - apply (bool_decide_eq_false _). vm_compute. reflexivity.
  - vm_compute. reflexivity.
  - vm_compute. reflexivity.
Qed.

(** ** Sinks and the policy behind them *)
Record sinks := Sinks {
  s_o : opts;
  s_log : option (list Z);                       (* what the log file holds; None: no log *)
  s_out : list (list Z);                         (* lines on the standard output *)
  s_shown : Z;
  s_eng : option kgp_engine;                     (* None: no policy loaded *)
  s_ack_seen : Z * Z * Z;                        (* inode and mtime of the ack file when last read *)
  s_calls : list run_call;                       (* actions asked for *)
  s_emitted : list (kg_notification * bool);     (* notifications emitted, with the HMAC verdict *)
  s_stop : bool;                                 (* g_stop *)
  s_proc : proc                                  (* helpers, standard error, syslog *)
}.
Definition s_max_alerts (s : sinks) : Z := o_max_alerts (s_o s).

Definition with_proc (p : proc) (s : sinks) : sinks :=
  Sinks (s_o s) (s_log s) (s_out s) (s_shown s) (s_eng s) (s_ack_seen s) (s_calls s) (s_emitted s) (s_stop s) p.
Definition with_engine (e : kgp_engine) (calls : list run_call) (s : sinks) : sinks :=
  Sinks (s_o s) (s_log s) (s_out s) (s_shown s) (Some e) (s_ack_seen s) (s_calls s ++ calls) (s_emitted s)
        (s_stop s) (s_proc s).
Definition set_stop (b : bool) (s : sinks) : sinks :=
  Sinks (s_o s) (s_log s) (s_out s) (s_shown s) (s_eng s) (s_ack_seen s) (s_calls s) (s_emitted s) b (s_proc s).
Definition complain_s (r : report) (s : sinks) : sinks := with_proc (complain r (s_proc s)) s.

(** The cursors reported as lost, and as tampered with. *)
Definition overrun_cursor (r : report) : option Z :=
  match r with RingLapped c _ | Overwritten c => Some c | _ => None end.
Definition tamper_cursor (r : report) : option Z := match r with TamperSuspected c => Some c | _ => None end.
Definition s_ovr (s : sinks) : list Z := omap overrun_cursor (pr_err (s_proc s)).
Definition s_tamper (s : sinks) : list Z := omap tamper_cursor (pr_err (s_proc s)).

Definition level_to_policy (l : Z) : Z :=
  if KG_LEVEL_CRITICAL <=? l then KGP_CRITICAL
  else if l =? KG_LEVEL_WATCH then KGP_WARNING else KGP_INFO.

Definition sinks_of (o : opts) (log : option (list Z)) (e : option kgp_engine) : sinks :=
  Sinks o log [] 0 e (0, 0, 0) [] [] false new_proc.
Definition no_sinks : sinks := sinks_of default_opts None None.
Definition policy_sinks : sinks := sinks_of default_opts None (Some (kgp_init sample_policy)).

(** [vsnprintf(a.details, sizeof(a.details), ..)] *)
Definition details_text (l : list Z) : string := string_of (truncate DETAILS_LEN l).

Section monitor.
Context `{Host}.

(** The engine is given the alert and the actions it asks for are run. *)
Definition run_actions (calls : list run_call) (s : sinks) : sinks :=
  with_proc (foldl (λ p c, run_action (o_use_syslog (s_o s)) c p) (s_proc s) calls) s.
Definition feed_engine (e : kgp_engine) (now : Z) (a : kgp_alert_t) (s : sinks) : sinks :=
  let '(e, calls) := kgp_alert e now a in run_actions calls (with_engine e calls s).

Definition policy_pseudo (code level seq : Z) (details : list Z) (s : sinks) : sinks :=
  match s_eng s with
  | None => s
  | Some e =>
    let t := pr_ticks (s_proc s) in
    feed_engine e (mono_s (S t)) (Alert code level seq 0 0 (realtime_ns t) (details_text details))
      (with_proc (tick (tick (s_proc s))) s)
  end.

Definition policy_feed (n : kg_notification) (hmac_ok : bool) (s : sinks) : sinks :=
  match s_eng s with
  | None => s
  | Some e =>
    if hmac_ok then
      feed_engine e (mono_s (pr_ticks (s_proc s)))
        (Alert (alert_type n) (level_to_policy (alert_level n)) (sequence n) (param1 n) (param2 n)
               (timestamp n) (details_text (format_details n)))
        (with_proc (tick (s_proc s)) s)
    else policy_pseudo KGP_ALERT_FORGED KGP_FORGED (sequence n)
           (bytes_of "notification " ++ fmt_u (sequence n) ++ bytes_of " failed HMAC verification") s
  end.

(** *** emit, sink by sink *)
Definition emit_lines (n : kg_notification) (hmac_ok : bool) (s : sinks) : sinks :=
  Sinks (s_o s) ((λ l, l ++ log_line n hmac_ok) <$> s_log s)
        (s_out s ++ (if o_quiet (s_o s) then [] else [screen_line n hmac_ok])) (s_shown s) (s_eng s)
        (s_ack_seen s) (s_calls s) (s_emitted s ++ [(n, hmac_ok)]) (s_stop s) (s_proc s).

Definition syslog_priority (level : Z) : Z :=
  if KG_LEVEL_CRITICAL <=? level then LOG_CRIT else if level =? KG_LEVEL_WATCH then LOG_WARNING else LOG_INFO.
Definition syslog_text (n : kg_notification) (hmac_ok : bool) : list Z :=
  alert_text (alert_type n) ++ bytes_of ": " ++ format_details n ++ bytes_of " (hmac "
  ++ bytes_of (if hmac_ok then "ok" else "FAILED") ++ bytes_of ", seq " ++ fmt_u (sequence n) ++ bytes_of ")".

Definition emit_notify (o : opts) (n : kg_notification) (hmac_ok : bool) (p : proc) : proc :=
  let p := if o_use_notify o && (KG_LEVEL_WATCH <=? alert_level n)
           then notify_desktop o (bytes_of (if KG_LEVEL_CRITICAL <=? alert_level n
                                            then "Critical Security Alert" else "Security Warning"))
                  (truncate 256 (alert_text (alert_type n) ++ [10] ++ format_details n)) p
           else p in
  if o_use_notify o && negb hmac_ok
  then notify_desktop o (bytes_of "Notification Integrity Warning")
         (bytes_of "Alert HMAC validation failed - notification may be forged.") p
  else p.

Definition shown_more (s : sinks) : sinks :=
  Sinks (s_o s) (s_log s) (s_out s) (s_shown s + 1) (s_eng s) (s_ack_seen s) (s_calls s) (s_emitted s)
        (s_stop s) (s_proc s).
Definition emit (n : kg_notification) (hmac_ok : bool) (s : sinks) : sinks :=
  let s := emit_lines n hmac_ok s in
  let p := syslog_if (o_use_syslog (s_o s)) (syslog_priority (alert_level n)) (syslog_text n hmac_ok) (s_proc s) in
  let s := with_proc (emit_notify (s_o s) n hmac_ok p) s in
  shown_more (policy_feed n hmac_ok s).

(** ** drain *)

(** What the loads of one drain meet: [write_index] first; for each cursor value the
    loads of every attempt, [write_index] again, and whether a signal has come. *)
Record env := Env {
  env_w : Z;
  env_loads : Z → nat → loads;
  env_w2 : Z → Z;
  env_sig : Z → bool
}.

Fixpoint read_tries (e : env) (seq : Z) (tries k : nat) : slot_result :=
  match tries with
  | O => SLOT_RETRY
  | S tries =>
    match read_slot (env_loads e seq k) seq with
    | SLOT_RETRY => read_tries e seq tries (S k)
    | r => r
    end
  end.

Definition drain_one (e : env) (key : list Z) (cursor : Z) (s : sinks) : option sinks :=
  s ← match read_tries e cursor 50 0 with
      | SLOT_OK n =>
        mac ← kg_hmac_sha256 (take 32 key) (auth_bytes n);
        Some (emit n (kg_ct_equal mac (hmac n) 32) s)
      | _ =>
        Some (if KG_NOTIFY_SLOTS - 1 <? u32 (env_w2 e cursor - cursor) then
                policy_pseudo KGP_ALERT_OVERRUN KGP_CRITICAL cursor
                  (bytes_of "notification " ++ fmt_u cursor ++ bytes_of " was overwritten before it could be read")
                  (complain_s (Overwritten cursor) s)
              else
                policy_pseudo KGP_ALERT_TAMPER KGP_FORGED cursor
                  (bytes_of "slot for notification " ++ fmt_u cursor
                   ++ bytes_of " is unreadable or has a wrong sequence number")
                  (complain_s (TamperSuspected cursor) s))
      end;
  Some (if negb (s_max_alerts s =? 0) && (s_max_alerts s <=? s_shown s)
        then set_stop true s else s).

Fixpoint drain_loop (fuel : nat) (e : env) (key : list Z) (w cursor : Z) (s : sinks)
  : option (Z * sinks) :=
  match fuel with
  | O => None
  | S fuel =>
    if (cursor =? w) || s_stop s then Some (cursor, s)
    else if env_sig e cursor then Some (cursor, set_stop true s)
    else s ← drain_one e key cursor s; drain_loop fuel e key w (u32 (cursor + 1)) s
  end.

(** At most one round per slot after the overrun test, plus the last test. *)
Definition drain (e : env) (key : list Z) (cursor : Z) (s : sinks) : option (Z * sinks) :=
  let w := env_w e in
  let lost := u32 (w - cursor) - KG_NOTIFY_SLOTS in
  let '(cursor, s) :=
    if 0 <? lost then
      (u32 (w - KG_NOTIFY_SLOTS),
       policy_pseudo KGP_ALERT_OVERRUN KGP_CRITICAL cursor
         (fmt_u lost ++ bytes_of " notification(s) lost: the ring was lapped")
         (complain_s (RingLapped cursor lost) s))
    else (cursor, s) in
  drain_loop 17 e key w cursor s.

(** Where [cmd_monitor] starts reading. *)
Definition start_cursor (new_only : bool) (w : Z) : Z :=
  if new_only then w else if KG_NOTIFY_SLOTS <? w then w - KG_NOTIFY_SLOTS else 0.
End monitor.

(** ** Termination against any writer *)
Section drain_facts.
Context `{Host}.

Lemma drain_one_total e key cursor s : is_Some (drain_one e key cursor s).
Proof.
  unfold drain_one. destruct (read_tries e cursor 50 0) as [n| |].
  - rewrite hmac_sha256_eq. bind_simpl. eauto.
  - bind_simpl. eauto.
  - bind_simpl. eauto.
Qed.

Lemma drain_loop_total fuel e key w cursor s :
  is_u32 w → is_u32 cursor → u32 (w - cursor) < Z.of_nat fuel →
  is_Some (drain_loop fuel e key w cursor s).
Proof.
  revert cursor s. induction fuel as [|fuel IH]; intros cursor s Hw Hc Hd.
  { pose proof (u32_range (w - cursor)) as Hr. unfold is_u32 in Hr. lia. }
  cbn [drain_loop]. destruct (cursor =? w) eqn:E; [eauto|]. cbn [orb].
  destruct (s_stop s); [eauto|]. destruct (env_sig e cursor); [eauto|].
  destruct (drain_one_total e key cursor s) as [s1 Hs1]. rewrite Hs1. bind_simpl.
  apply IH; [done|apply u32_range|]. bool_props. rewrite Nat2Z.inj_succ in Hd. word_lia.
Qed.

(** ** What emit and the policy leave alone *)

(** A state whose ring reports, options and stop flag are those of [s]. *)
Record same_reader (s s' : sinks) : Prop := SameReader {
  sr_o : s_o s' = s_o s;
  sr_ovr : s_ovr s' = s_ovr s;
  sr_tamper : s_tamper s' = s_tamper s;
  sr_stop : s_stop s' = s_stop s
}.
#[export] Instance same_reader_preorder : PreOrder same_reader.
Proof. split; [by split|]. intros s1 s2 s3 [] []. split; congruence. Qed.

(** The helpers never report anything about the ring. *)
Definition ring_reports (p : proc) : list Z * list Z := (omap overrun_cursor (pr_err p), omap tamper_cursor (pr_err p)).
Lemma syslog_if_reports use pri text p : ring_reports (syslog_if use pri text p) = ring_reports p.
Proof. by destruct use. Qed.
Lemma complain_reports r p :
  overrun_cursor r = None → tamper_cursor r = None → ring_reports (complain r p) = ring_reports p.
Proof. intros Ho Ht. unfold ring_reports. cbn. rewrite !omap_app. cbn. by rewrite Ho, Ht, !app_nil_r. Qed.
Lemma notify_reports o title body p : ring_reports (notify_desktop o title body p) = ring_reports p.
Proof.
  unfold notify_desktop. destruct (child_free_slot p); [|by apply complain_reports]. by case_match.
Qed.
Lemma run_action_reports use c p : ring_reports (run_action use c p) = ring_reports p.
Proof.
  unfold run_action. destruct (child_free_slot p); [|by rewrite syslog_if_reports, complain_reports].
  case_match; [by rewrite complain_reports; [apply syslog_if_reports|..]|]. apply syslog_if_reports.
Qed.
Lemma run_calls_reports use calls p :
  ring_reports (foldl (λ p c, run_action use c p) p calls) = ring_reports p.
Proof. revert p. induction calls as [|c calls IH]; intros p; [done|]. cbn. by rewrite IH, run_action_reports. Qed.

Lemma with_proc_same p s : ring_reports p = ring_reports (s_proc s) → same_reader s (with_proc p s).
Proof. intros [= H1 H2]. by split. Qed.
Lemma feed_engine_same e now a s : same_reader s (feed_engine e now a s) ∧ s_emitted (feed_engine e now a s) = s_emitted s.
Proof.
  unfold feed_engine. destruct (kgp_alert e now a) as [e' calls]. split; [|done].
  etrans; [|apply with_proc_same, run_calls_reports]. by split.
Qed.
Lemma pseudo_same code level seq d s :
  same_reader s (policy_pseudo code level seq d s) ∧ s_emitted (policy_pseudo code level seq d s) = s_emitted s.
Proof.
  unfold policy_pseudo. destruct (s_eng s) as [e|]; [|done].
  destruct (feed_engine_same e (mono_s (S (pr_ticks (s_proc s))))
    (Alert code level seq 0 0 (realtime_ns (pr_ticks (s_proc s))) (details_text d))
    (with_proc (tick (tick (s_proc s))) s)) as [Hs He]. split; [|done]. etrans; [|exact Hs]. by split.
Qed.
Lemma policy_feed_same n ok s :
  same_reader s (policy_feed n ok s) ∧ s_emitted (policy_feed n ok s) = s_emitted s.
Proof.
  unfold policy_feed. destruct (s_eng s) as [e|]; [|done]. destruct ok; [|apply pseudo_same].
  match goal with |- context [feed_engine e ?t ?a ?s1] => destruct (feed_engine_same e t a s1) as [Hs He] end.
  split; [|done]. etrans; [|exact Hs]. by split.
Qed.
Lemma emit_notify_reports o n ok p : ring_reports (emit_notify o n ok p) = ring_reports p.
Proof. unfold emit_notify. by repeat case_match; rewrite ?notify_reports. Qed.

Lemma emit_same n ok s :
  same_reader s (emit n ok s) ∧ s_emitted (emit n ok s) = s_emitted s ++ [(n, ok)].
Proof.
  unfold emit. match goal with |- context [policy_feed n ok ?s1] => set (s' := s1);
    destruct (policy_feed_same n ok s') as [Hs He] end. split; [|exact He].
  etrans; [|etrans; [exact Hs|by split]].
  split; [done|..|done]; unfold s', s_ovr, s_tamper; cbn [with_proc s_proc];
    match goal with |- omap _ (pr_err ?p) = _ =>
      assert (Hr : ring_reports p = ring_reports (s_proc s)) by (by rewrite emit_notify_reports, syslog_if_reports) end;
    by injection Hr.
Qed.
End drain_facts.

(** One drain always returns, whatever the shared page contains and however it
    changes under the reader: at most 16 slots are visited, each tried at most 50 times. *)
Lemma drain_total `{Host} e key cursor s :
  is_u32 (env_w e) → is_u32 cursor → is_Some (drain e key cursor s).
Proof.
  intros Hw Hc. unfold drain. destruct (0 <? _) eqn:E; bool_props; apply drain_loop_total; try done.
  - apply u32_range.
  - unfold KG_NOTIFY_SLOTS in *. word_lia.
  - unfold KG_NOTIFY_SLOTS in *. lia.
Qed.

(** Nothing in a notification that failed authentication steers an action: what the
    policy engine does with it depends on its sequence number alone, and every action it
    starts belongs to a rule that matches the pseudo alert FORGED, whose parameters the
    sender did not choose. *)
Theorem forged_content_ignored `{Host} n m s :
  sequence n = sequence m →
  policy_feed n false s = policy_feed m false s
  ∧ ∃ calls, s_calls (policy_feed n false s) = s_calls s ++ calls
    ∧ Forall (λ c, al_code (rc_alert c) = KGP_ALERT_FORGED ∧ al_level (rc_alert c) = KGP_FORGED
                   ∧ al_param1 (rc_alert c) = 0 ∧ al_param2 (rc_alert c) = 0
                   ∧ rule_matches (rc_rule c) (rc_alert c) = true) calls.
Proof.
  intros Hseq. split; [unfold policy_feed; by rewrite Hseq|].
  unfold policy_feed. destruct (s_eng s) as [e|] eqn:He; [|exists []; by rewrite app_nil_r].
  unfold policy_pseudo, feed_engine. rewrite He.
  set (al := Alert _ _ _ _ _ _ _). set (now := mono_s _).
  pose proof (alert_rules_calls now al (p_rules (e_pol e)) 0 e) as Hc.
  unfold kgp_alert. destruct (alert_rules _ al 0 _ e) as [e' calls]. simpl in *.
  exists calls. split; [done|]. eapply Forall_impl; [exact Hc|]. by intros c (-> & ? & _).
Qed.

Lemma forged_content_ignored_witness :
  let m := Notif KG_NOTIFY_MAGIC 3 KG_ALERT_IDT_HOOK 2 0 1 2 [] in
  @policy_feed sample_host (sample_notif 3) false policy_sinks = @policy_feed sample_host m false policy_sinks
  ∧ ∃ calls, s_calls (@policy_feed sample_host (sample_notif 3) false policy_sinks) = [] ++ calls
    ∧ Forall (λ c, al_code (rc_alert c) = KGP_ALERT_FORGED ∧ al_level (rc_alert c) = KGP_FORGED
                   ∧ al_param1 (rc_alert c) = 0 ∧ al_param2 (rc_alert c) = 0
                   ∧ rule_matches (rc_rule c) (rc_alert c) = true) calls.
Proof.
  intros m. by apply (@forged_content_ignored sample_host (sample_notif 3) m policy_sinks).
Defined.

(** ** Delivery from a ring at rest *)

(** The page does not change during the drain and no signal comes. *)
Definition quiet_env (r : kg_shared_region) : env :=
  Env (write_index r)
      (λ seq _, let n := notifications r !!! slot_of seq in Loads n (λ _, n) n)
      (λ _, write_index r) (λ _, false).

Section delivery.
Context `{Host}.
Context (r : kg_shared_region) (log : list kg_notification) (key : list Z).
Context (Hring : ring_holds r log) (Hsmall : Z.of_nat (length log) < 4294967296).
Context (Hkey : length key = 32%nat) (Hauth : Forall (authentic key) log).
Context (Hlen : Forall (λ n, length (hmac n) = 32%nat) log).

Lemma read_at_rest i n :
  (length log ≤ i + 16)%nat → log !! i = Some n →
  read_tries (quiet_env r) (Z.of_nat i) 50 0 = SLOT_OK n.
Proof.
  intros Hi Hn. cbn [read_tries].
  assert (Hlt : (i < length log)%nat) by by eapply lookup_lt_Some.
  destruct (rh_seq _ _ Hring i n Hn) as [Hseq Hmag].
  pose proof (rh_slots _ _ Hring i n Hi Hn) as Hslot.
  assert (Hat : notifications r !!! slot_of (Z.of_nat i) = n).
  { apply list_lookup_total_correct. rewrite <- (u32_id (Z.of_nat i)), slot_of_index; [done|].
    unfold is_u32. lia. }
  unfold read_slot, quiet_env. cbn [env_loads ld_m1 ld_m2 ld_copy].
  rewrite Hat, Hmag, Z.eqb_refl. cbn [negb].
  rewrite (copy_slot_const _ n) by (done || (rewrite Forall_lookup in Hlen; by eapply Hlen)).
  rewrite Hseq, u32_id, Z.eqb_refl by (unfold is_u32; lia). done.
Qed.

Lemma drain_one_at_rest i n s :
  (length log ≤ i + 16)%nat → log !! i = Some n → s_max_alerts s = 0 →
  drain_one (quiet_env r) key (Z.of_nat i) s = Some (emit n true s).
Proof.
  intros Hi Hn Hmax. unfold drain_one. rewrite (read_at_rest i n) by done.
  rewrite hmac_sha256_eq. bind_simpl. rewrite take_ge by lia.
  rewrite Forall_lookup in Hauth, Hlen. specialize (Hauth _ _ Hn). specialize (Hlen _ _ Hn).
  assert (Hct : kg_ct_equal (hmac_spec key (auth_bytes n)) (hmac n) 32 = true).
  { rewrite <- Hauth. apply ct_equal_iff; rewrite ?Hlen; done || lia. }
  rewrite Hct. unfold s_max_alerts in *. destruct (emit_same n true s) as [[-> _ _ _] _].
  by rewrite Hmax.
Qed.

Lemma drain_loop_at_rest m fuel i s :
  (i + m = length log)%nat → (m ≤ 16)%nat → (m < fuel)%nat →
  s_max_alerts s = 0 → s_stop s = false →
  ∃ s', drain_loop fuel (quiet_env r) key (write_index r) (Z.of_nat i) s
        = Some (write_index r, s')
  ∧ s_emitted s' = s_emitted s ++ ((λ n, (n, true)) <$> drop i log)
  ∧ same_reader s s'.
Proof.
  assert (Hw : write_index r = Z.of_nat (length log))
    by (rewrite (rh_widx _ _ Hring); apply u32_id; unfold is_u32; lia).
  revert fuel i s. induction m as [|m IH]; intros fuel i s Him Hm Hf Hmax Hstop;
    (destruct fuel as [|fuel]; [lia|]); cbn [drain_loop]; rewrite Hstop.
  - rewrite (proj2 (Z.eqb_eq _ _)) by lia. cbn [orb].
    exists s. rewrite drop_ge, app_nil_r by lia. split_and!; [do 2 f_equal; lia|done..].
  - rewrite (proj2 (Z.eqb_neq _ _)) by lia. cbn [orb env_sig quiet_env].
    destruct (lookup_lt_is_Some_2 log i ltac:(lia)) as [n Hn].
    fold (quiet_env r). rewrite (drain_one_at_rest i n) by (done || lia). bind_simpl.
    rewrite u32_id by (unfold is_u32; lia).
    replace (Z.of_nat i + 1) with (Z.of_nat (S i)) by lia.
    destruct (emit_same n true s) as [Hsame He]. pose proof Hsame as [Hop _ _ Hst].
    destruct (IH fuel (S i) (emit n true s)) as (s' & Hs' & He' & Hsame');
      [lia|lia|lia|unfold s_max_alerts in *; congruence|congruence|].
    exists s'. split; [done|]. rewrite He', He, (drop_S log n i Hn), <- app_assoc. split; [done|by etrans].
Qed.
End delivery.

Lemma drain_at_rest' `{Host} r log key k s :
  ring_holds r log → Z.of_nat (length log) < 4294967296 → length key = 32%nat →
  Forall (authentic key) log → Forall (λ n, length (hmac n) = 32%nat) log →
  (k ≤ length log)%nat → s_max_alerts s = 0 → s_stop s = false →
  ∃ s', drain (quiet_env r) key (Z.of_nat k) s = Some (write_index r, s')
  ∧ s_emitted s' = s_emitted s ++ ((λ n, (n, true)) <$> drop (Nat.max k (length log - 16)) log)
  ∧ s_tamper s' = s_tamper s
  ∧ s_ovr s' = s_ovr s ++ (if decide (k + 16 < length log)%nat then [Z.of_nat k] else [])
  ∧ s_o s' = s_o s ∧ s_stop s' = s_stop s.
Proof.
  intros Hr Hsm Hk Ha Hl Hle Hmax Hstop. unfold drain. cbn [env_w quiet_env]. fold (quiet_env r).
  assert (Hw : write_index r = Z.of_nat (length log))
    by (rewrite (rh_widx _ _ Hr); apply u32_id; unfold is_u32; lia).
  assert (Hd : u32 (write_index r - Z.of_nat k) = Z.of_nat (length log) - Z.of_nat k)
    by (rewrite Hw; apply u32_id; unfold is_u32; lia).
  cbv zeta. rewrite Hd. unfold KG_NOTIFY_SLOTS. destruct (decide (k + 16 < length log)%nat) as [Hlap|Hin].
  - rewrite (proj2 (Z.ltb_lt _ _)) by lia.
    assert (Hc : u32 (write_index r - 16) = Z.of_nat (length log - 16))
      by (rewrite Hw, u32_id; [|unfold is_u32]; lia).
    rewrite Hc.
    match goal with |- context [policy_pseudo ?c ?l ?q ?d ?s0] =>
      destruct (pseudo_same c l q d s0) as [[E4 E2 E3 E5] E1];
      set (s1 := policy_pseudo c l q d s0) in * end.
    unfold complain_s, s_ovr, s_tamper in E2, E3. cbn [with_proc s_proc complain pr_err] in E2, E3.
    rewrite omap_app in E2, E3. fold (s_ovr s) in E2. fold (s_tamper s) in E3.
    destruct (drain_loop_at_rest r log key Hr Hsm Hk Ha Hl 16 17 (length log - 16) s1)
      as (s' & Hs' & He & [Ho2 Ho Ht Hst]); [lia|lia|lia|unfold s_max_alerts in *; rewrite E4; done|rewrite E5; done|].
    exists s'. rewrite Nat.max_r by lia. rewrite Ht, Ho, He, E1, Ho2, Hst.
    split_and!; [done..|etrans; [exact E3|apply app_nil_r]|exact E2|exact E4|exact E5].
  - rewrite (proj2 (Z.ltb_ge _ _)) by lia.
    destruct (drain_loop_at_rest r log key Hr Hsm Hk Ha Hl (length log - k) 17 k s)
      as (s' & Hs' & He & [Ho2 Ho Ht Hst]); [lia|lia|lia|done|done|].
    exists s'. rewrite Nat.max_l, app_nil_r by lia. done.
Qed.

Lemma drain_at_rest `{Host} r log key k s :
  ring_holds r log → Z.of_nat (length log) < 4294967296 → length key = 32%nat →
  Forall (authentic key) log → Forall (λ n, length (hmac n) = 32%nat) log →
  (k ≤ length log)%nat → s_max_alerts s = 0 → s_stop s = false →
  ∃ s', drain (quiet_env r) key (Z.of_nat k) s = Some (write_index r, s')
  ∧ s_emitted s' = s_emitted s ++ ((λ n, (n, true)) <$> drop (Nat.max k (length log - 16)) log)
  ∧ s_tamper s' = s_tamper s
  ∧ s_ovr s' = s_ovr s ++ (if decide (k + 16 < length log)%nat then [Z.of_nat k] else []).
Proof.
  intros Hr Hsm Hk Ha Hl Hle Hmax Hstop.
  destruct (drain_at_rest' r log key k s) as (s' & ? & ? & ? & ? & _); try done. by exists s'.
Qed.



(** ** End to end *)



(** ** What every state of the monitor satisfies *)

(** The log file holds what it held at the start and one line per emitted notification, the
    screen shows one line per notification, and the helpers are accounted for. *)
Record sinks_inv `{Host} (base : list Z) (s : sinks) : Prop := SinksInv {
  si_log : ∀ l, s_log s = Some l → l = base ++ mjoin ((λ a, log_line a.1 a.2) <$> s_emitted s);
  si_out : s_out s = if o_quiet (s_o s) then [] else (λ a, screen_line a.1 a.2) <$> s_emitted s;
  si_shown : s_shown s = zlen (s_emitted s);
  si_helpers : helpers_inv (s_proc s)
}.

(** The policy engine writes no line, shows nothing and keeps the options. *)
Record same_lines (s s' : sinks) : Prop := SameLines {
  sl_log : s_log s' = s_log s;
  sl_out : s_out s' = s_out s;
  sl_shown : s_shown s' = s_shown s;
  sl_o : s_o s' = s_o s;
  sl_emitted : s_emitted s' = s_emitted s
}.

Section invariant.
Context `{HostLaws}.

Lemma run_actions_helpers calls s : helpers_inv (s_proc s) → helpers_inv (s_proc (run_actions calls s)).
Proof.
  unfold run_actions. cbn. generalize (s_proc s).
  induction calls as [|c calls IH]; intros p Hp; [done|]. by apply IH, run_action_inv.
Qed.
Lemma feed_engine_keeps e now a s :
  same_lines s (feed_engine e now a s) ∧ (helpers_inv (s_proc s) → helpers_inv (s_proc (feed_engine e now a s))).
Proof.
  unfold feed_engine. destruct (kgp_alert e now a) as [e' calls]. split; [done|]. intros Hp.
  by apply run_actions_helpers.
Qed.
Lemma policy_pseudo_keeps code level seq d s :
  let s' := policy_pseudo code level seq d s in
  same_lines s s' ∧ (helpers_inv (s_proc s) → helpers_inv (s_proc s')).
Proof.
  unfold policy_pseudo. destruct (s_eng s); [|done]. cbv zeta.
  match goal with |- context [feed_engine ?e ?t ?a ?s1] => destruct (feed_engine_keeps e t a s1) as [[] Hh] end.
  split; [by split|]. intros Hp. by apply Hh, tick_inv, tick_inv.
Qed.
Lemma policy_feed_keeps n ok s :
  let s' := policy_feed n ok s in
  same_lines s s' ∧ (helpers_inv (s_proc s) → helpers_inv (s_proc s')).
Proof.
  unfold policy_feed. destruct (s_eng s); [|done]. destruct ok; [|apply policy_pseudo_keeps].
  match goal with |- context [feed_engine ?e ?t ?a ?s1] => destruct (feed_engine_keeps e t a s1) as [[] Hh] end.
  split; [by split|]. intros Hp. by apply Hh, tick_inv.
Qed.
Lemma emit_notify_inv o n ok p : helpers_inv p → helpers_inv (emit_notify o n ok p).
Proof. intros Hp. unfold emit_notify. repeat case_match; repeat apply notify_inv; done. Qed.

Context (base : list Z).
Notation inv := (sinks_inv base).

Lemma inv_same_lines s s' : inv s → same_lines s s' → helpers_inv (s_proc s') → inv s'.
Proof.
  intros [Hl Ho Hs _] [E1 E2 E3 E4 E5] Hp. split; rewrite ?E1, ?E2, ?E3, ?E4, ?E5; done.
Qed.
Lemma with_proc_inv p s : inv s → helpers_inv p → inv (with_proc p s).
Proof. intros Hs Hp. by apply (inv_same_lines s). Qed.
Lemma policy_pseudo_inv code level seq d s : inv s → inv (policy_pseudo code level seq d s).
Proof.
  intros Hs. destruct (policy_pseudo_keeps code level seq d s) as [Hl Hp].
  apply (inv_same_lines s); [done..|apply Hp, Hs].
Qed.
Lemma complain_s_inv r s : inv s → inv (complain_s r s).
Proof. intros Hs. apply with_proc_inv; [done|]. apply complain_inv, Hs. Qed.

Lemma emit_inv n ok s : inv s → inv (emit n ok s).
Proof.
  intros [Hl Ho Hs Hp]. unfold emit. set (s1 := with_proc _ _).
  destruct (policy_feed_keeps n ok s1) as [[E1 E2 E3 E4 E5] Hh].
  split; cbn [shown_more s_log s_out s_shown s_o s_emitted s_proc]; rewrite ?E1, ?E2, ?E3, ?E4, ?E5; cbn.
  - intros l (l0 & Hl0 & ->)%fmap_Some. rewrite (Hl _ Hl0), fmap_app, join_app, <- app_assoc. cbn. by rewrite app_nil_r.
  - rewrite Ho. destruct (o_quiet (s_o s)); [done|]. by rewrite fmap_app.
  - rewrite Hs. unfold zlen. rewrite length_app. simpl. lia.
  - apply Hh, emit_notify_inv, syslog_if_inv, Hp.
Qed.

Lemma drain_one_inv e key cursor s s' : inv s → drain_one e key cursor s = Some s' → inv s'.
Proof.
  intros Hs. unfold drain_one. intros (s1 & Hs1 & Hs')%bind_Some.
  assert (Hi : inv s1).
  { destruct (read_tries e cursor 50 0).
    - apply bind_Some in Hs1 as (mac & _ & [= <-]). by apply emit_inv.
    - injection Hs1 as <-. destruct (_ <? u32 _); by apply policy_pseudo_inv, complain_s_inv.
    - injection Hs1 as <-. destruct (_ <? u32 _); by apply policy_pseudo_inv, complain_s_inv. }
  injection Hs' as <-. destruct (negb _ && _); [|done]. by destruct Hi.
Qed.
Lemma drain_loop_inv fuel e key w cursor s c' s' :
  inv s → drain_loop fuel e key w cursor s = Some (c', s') → inv s'.
Proof.
  revert cursor s. induction fuel as [|fuel IH]; intros cursor s Hs; [done|]. cbn [drain_loop].
  destruct (_ || _); [by intros [= _ <-]|]. destruct (env_sig e cursor); [intros [= _ <-]; by destruct Hs|].
  intros (s1 & Hs1 & Hl)%bind_Some. eapply IH; [|exact Hl]. by eapply drain_one_inv.
Qed.
Lemma drain_inv e key cursor s c' s' : inv s → drain e key cursor s = Some (c', s') → inv s'.
Proof.
  intros Hs. unfold drain. destruct (0 <? _); apply drain_loop_inv; [|done].
  by apply policy_pseudo_inv, complain_s_inv.
Qed.
End invariant.
