(* ===== verification/DigestTable.v ===== *)
(** * Digest tables (windows/src/digest_table.c)

    Hexadecimal digests and their lookup in the driver deny list: the binary
    search is proved equal to the scan, on every table the caller's check
    accepts. *)
From S2P Require Import Prelude.
Local Open Scope Z_scope.

(** -1 for a character that is not a hexadecimal digit. *)
Definition HexVal (c : Z) : Z :=
  if (48 <=? c) && (c <=? 57) then c - 48
  else if (97 <=? c) && (c <=? 102) then c - 97 + 10
  else if (65 <=? c) && (c <=? 70) then c - 65 + 10
  else -1.

(** One digit pair per byte; [None] is the source's 0.  [Text] is the sequence of
    characters, of either width. *)
Fixpoint parse_pairs (Text : list Z) : option (list Z) :=
  match Text with
  | [] => Some []
  | [_] => None
  | c0 :: c1 :: Text =>
    let h := HexVal c0 in
    let l := HexVal c1 in
    if (h <? 0) || (l <? 0) then None
    else rest ← parse_pairs Text; Some (u8 (Z.lor (Z.shiftl h 4) l) :: rest)
  end.

Definition DtParseHex64 (Text : list Z) (Chars : Z) : option (list Z) :=
  if negb (Chars =? 64) then None else parse_pairs (take 64 Text).

(** Bytewise, unsigned. *)
Fixpoint compare_bytes (n : nat) (A B : list Z) : Z :=
  match n, A, B with
  | S n, a :: A, b :: B => if a =? b then compare_bytes n A B else if a <? b then -1 else 1
  | _, _, _ => 0
  end.
Definition DtCompare : list Z → list Z → Z := compare_bytes 32.

Fixpoint DtIsAscending (Table : list (list Z)) : bool :=
  match Table with
  | a :: ((b :: _) as rest) => if 0 <=? DtCompare a b then false else DtIsAscending rest
  | _ => true
  end.

(** The binary search over the candidates [[lo, hi)]; [None] when the fuel runs out. *)
Fixpoint bsearch (fuel : nat) (Table : list (list Z)) (Digest : list Z) (lo hi : Z) : option Z :=
  match fuel with
  | O => None
  | S fuel =>
    if lo <? hi then
      let mid := lo + (hi - lo) / 2 in
      let c := DtCompare (Table !!! Z.to_nat mid) Digest in
      if c =? 0 then Some mid
      else if c <? 0 then bsearch fuel Table Digest (mid + 1) hi
      else bsearch fuel Table Digest lo mid
    else Some (-1)
  end.

Fixpoint scan (Table : list (list Z)) (Digest : list Z) (i : Z) : Z :=
  match Table with
  | [] => -1
  | d :: Table => if DtCompare d Digest =? 0 then i else scan Table Digest (i + 1)
  end.

Definition DtFind (Table : list (list Z)) (Sorted : bool) (Digest : list Z) : option Z :=
  match Table with
  | [] => Some (-1)
  | _ => if Sorted then bsearch (S (length Table)) Table Digest 0 (zlen Table)
         else Some (scan Table Digest 0)
  end.

(** ** The order *)
Definition is_digest (d : list Z) : Prop := length d = 32%nat.

Lemma compare_bytes_refl n A : compare_bytes n A A = 0.
Proof. revert A. induction n; intros [|a A]; simpl; rewrite ?Z.eqb_refl; auto. Qed.

Lemma compare_bytes_eq n A B :
  length A = n → length B = n → compare_bytes n A B = 0 → A = B.
Proof.
  revert A B. induction n as [|n IH]; intros [|a A] [|b B] HA HB; simpl in *; try done.
  destruct (a =? b) eqn:E; bool_props; [|by destruct (a <? b)].
  intros Hc. subst. f_equal. apply IH; auto.
Qed.

Lemma compare_bytes_antisym n A B : compare_bytes n B A = - compare_bytes n A B.
Proof.
  revert A B. induction n as [|n IH]; intros [|a A] [|b B]; simpl; try done.
  rewrite Z.eqb_sym. destruct (a =? b) eqn:E; bool_props; [apply IH|].
  destruct (a <? b) eqn:E1, (b <? a) eqn:E2; bool_props; lia.
Qed.

Lemma compare_bytes_trans n A B C :
  length A = n → length B = n → length C = n →
  compare_bytes n A B < 0 → compare_bytes n B C < 0 → compare_bytes n A C < 0.
Proof.
  revert A B C. induction n as [|n IH]; intros [|a A] [|b B] [|c C] HA HB HC; simpl in *; try done.
  destruct (Z.eqb_spec a b) as [->|Hab], (Z.eqb_spec b c) as [->|Hbc]; simpl.
  - apply IH; auto.
  - by destruct (Z.eqb_spec b c).
  - destruct (Z.eqb_spec a c); [done|]. done.
  - destruct (a <? b) eqn:E1, (b <? c) eqn:E2; try done. bool_props. intros _ _.
    destruct (Z.eqb_spec a c); [lia|]. by rewrite (proj2 (Z.ltb_lt a c)) by lia.
Qed.

(** Strictly ascending as a relation between any two positions. *)
Definition ascending (Table : list (list Z)) : Prop :=
  ∀ i j a b, (i < j)%nat → Table !! i = Some a → Table !! j = Some b → DtCompare a b < 0.

Lemma DtIsAscending_all Table :
  Forall is_digest Table → DtIsAscending Table = true → ascending Table.
Proof.
  induction Table as [|a [|b Table] IH]; intros Hd Ha.
  { by intros i j x y _ ?. }
  { intros [|i] [|j] ? ? Hij Hi Hj; simpl in *; try done; lia. }
  inversion_clear Hd as [|?? Hda Hd']. cbn [DtIsAscending] in Ha.
  destruct (0 <=? DtCompare a b) eqn:E; [done|]. bool_props.
  specialize (IH Hd' Ha). intros [|i] [|j] x y Hij Hi Hj; [lia| |lia|]; simpl in Hi, Hj.
  - simplify_eq. destruct j as [|j]; simpl in Hj; [by simplify_eq|].
    inversion_clear Hd'. rewrite Forall_lookup in *.
    eapply (compare_bytes_trans 32 x b y); try done; [by eapply H0|].
    by apply (IH 0%nat (S j) b y); [lia|..].
  - eapply (IH i j); [lia|done..].
Qed.

(** ** Binary search *)
Lemma bsearch_spec fuel Table Digest lo hi :
  ascending Table → Forall is_digest Table → is_digest Digest →
  0 ≤ lo ≤ hi → hi ≤ zlen Table → hi - lo < Z.of_nat fuel →
  (∀ i a, Table !! i = Some a → Z.of_nat i < lo → DtCompare a Digest < 0) →
  (∀ i a, Table !! i = Some a → hi ≤ Z.of_nat i → 0 < DtCompare a Digest) →
  ∃ k, bsearch fuel Table Digest lo hi = Some k
  ∧ ((k = -1 ∧ Digest ∉ Table) ∨ (0 ≤ k ∧ Table !! Z.to_nat k = Some Digest)).
Proof.
  intros Hasc Hdig HD. revert lo hi.
  induction fuel as [|fuel IH]; intros lo hi Hlh Hhi Hfuel Hlo Hup; [lia|]. cbn [bsearch].
  destruct (lo <? hi) eqn:E; bool_props.
  2:{ exists (-1). split; [done|]. left. split; [done|]. intros (i & Hi)%list_elem_of_lookup_1.
      assert (DtCompare Digest Digest = 0) by apply compare_bytes_refl.
      destruct (decide (Z.of_nat i < lo)); [specialize (Hlo _ _ Hi)|specialize (Hup _ _ Hi)]; lia. }
  set (mid := lo + (hi - lo) / 2).
  assert (Hmid : lo ≤ mid < hi) by (unfold mid; Z.div_mod_to_equations; lia).
  destruct (lookup_lt_is_Some_2 Table (Z.to_nat mid)) as [m Hm]; [unfold zlen in *; lia|].
  rewrite (list_lookup_total_correct _ _ _ Hm).
  destruct (DtCompare m Digest =? 0) eqn:E0; bool_props.
  { exists mid. split; [done|]. right. split; [lia|]. rewrite Hm. f_equal.
    rewrite Forall_lookup in Hdig. by eapply compare_bytes_eq; [eapply Hdig| |]. }
  rewrite Forall_lookup in Hdig.
  destruct (DtCompare m Digest <? 0) eqn:E1; bool_props.
  - apply IH; [lia|lia|lia| |done]. intros i a Hi Hlt.
    destruct (decide (Z.of_nat i < lo)); [by eapply Hlo|].
    destruct (decide (Z.of_nat i = mid)) as [Heq|Hne].
    + assert (i = Z.to_nat mid) as -> by lia. by simplify_eq.
    + eapply (compare_bytes_trans 32 a m Digest); [by eapply Hdig|by eapply Hdig|done| |done].
      eapply (Hasc i (Z.to_nat mid)); [lia|done..].
  - apply IH; [lia|lia|lia|done|]. intros i a Hi Hle.
    destruct (decide (hi ≤ Z.of_nat i)); [by eapply Hup|].
    destruct (decide (Z.of_nat i = mid)) as [Heq|Hne].
    + assert (i = Z.to_nat mid) as -> by lia. simplify_eq. lia.
    + assert (Hlt : DtCompare m a < 0) by (eapply (Hasc (Z.to_nat mid) i); [lia|done..]).
      assert (Hdm : DtCompare Digest m < 0)
        by (pose proof (compare_bytes_antisym 32 m Digest); unfold DtCompare in *; lia).
      pose proof (compare_bytes_trans 32 Digest m a HD ltac:(by eapply Hdig) ltac:(by eapply Hdig)
                    Hdm Hlt).
      pose proof (compare_bytes_antisym 32 a Digest). unfold DtCompare in *. lia.
Qed.

Lemma scan_spec Table Digest i :
  Forall is_digest Table → is_digest Digest →
  let k := scan Table Digest i in
  (k = -1 ∧ (Digest ∉ Table)) ∨ (i ≤ k ∧ Table !! Z.to_nat (k - i) = Some Digest).
Proof.
  intros Hd HD. revert i. induction Hd as [|d Table Hdd Hd IH]; intros i; cbn [scan].
  - left. split; [done|]. apply not_elem_of_nil.
  - destruct (DtCompare d Digest =? 0) eqn:E; bool_props.
    + right. split; [lia|]. rewrite Z.sub_diag. simpl. f_equal. by apply (compare_bytes_eq 32).
    + destruct (IH (i + 1)) as [[-> Hn]|[Hle Hl]].
      * left. split; [done|]. apply not_elem_of_cons. split; [|done].
        intros ->. apply E. apply compare_bytes_refl.
      * right. split; [lia|]. replace (Z.to_nat (scan Table Digest (i + 1) - i))
          with (S (Z.to_nat (scan Table Digest (i + 1) - (i + 1)))) by lia. done.
Qed.

(** The lookup always answers, and answers correctly: on a table that
    [DtIsAscending] accepts the binary search, and on any table the scan, returns -1
    exactly when the digest is not in the table and otherwise an index that holds it;
    a wrongly ordered table is searched slowly, never blindly. *)
Theorem DtFind_correct Table Sorted Digest :
  Forall is_digest Table → is_digest Digest → (Sorted = true → DtIsAscending Table = true) →
  ∃ k, DtFind Table Sorted Digest = Some k
  ∧ (k = -1 ↔ Digest ∉ Table) ∧ (k ≠ -1 → 0 ≤ k ∧ Table !! Z.to_nat k = Some Digest).
Proof.
  intros Hd HD Hs.
  assert (Hcases : ∃ k, DtFind Table Sorted Digest = Some k
    ∧ ((k = -1 ∧ (Digest ∉ Table)) ∨ (0 ≤ k ∧ Table !! Z.to_nat k = Some Digest))).
  { destruct Table as [|t T'] eqn:Et.
    { exists (-1). split; [done|]. left. split; [done|]. apply not_elem_of_nil. }
    rewrite <- Et in *. replace (DtFind Table Sorted Digest)
      with (if Sorted then bsearch (S (length Table)) Table Digest 0 (zlen Table)
            else Some (scan Table Digest 0)) by (by rewrite Et).
    destruct Sorted.
    - apply bsearch_spec; try done; [by apply DtIsAscending_all, Hs|unfold zlen; lia..| |].
      + intros. lia.
      + intros i a Hi Hle. apply lookup_lt_Some in Hi. unfold zlen in Hle. lia.
    - eexists. split; [done|]. destruct (scan_spec Table Digest 0 Hd HD) as [?|[? Hl]]; [by left|].
      right. rewrite Z.sub_0_r in Hl. done. }
  destruct Hcases as (k & Hk & Hc). exists k. split; [done|].
  destruct Hc as [[-> Hn]|[Hk0 Hl]]; [done|].
  split; [|done]. split; [lia|]. intros Hn. destruct Hn. by eapply list_elem_of_lookup_2.
Qed.

Lemma DtFind_correct_witness :
  ∃ k, DtFind (replicate 32 <$> [1; 5; 9]) true (replicate 32 5) = Some k
  ∧ (k = -1 ↔ replicate 32 5 ∉ (replicate 32 <$> [1; 5; 9]))
  ∧ (k ≠ -1 → 0 ≤ k ∧ (replicate 32 <$> [1; 5; 9]) !! Z.to_nat k = Some (replicate 32 5)).
Proof.
  apply (DtFind_correct (replicate 32 <$> [1; 5; 9]) true (replicate 32 5));
    [repeat constructor|reflexivity|intros _; vm_compute; reflexivity].
Defined.

(** ** Hexadecimal text *)
Definition hex_digit (upper : bool) (v : Z) : Z :=
  if v <? 10 then 48 + v else (if upper then 55 else 87) + v.
Definition to_hex (upper : bool) (d : list Z) : list Z :=
  mjoin ((λ b, [hex_digit upper (b / 16); hex_digit upper (b mod 16)]) <$> d).

Lemma to_hex_length upper d : length (to_hex upper d) = (2 * length d)%nat.
Proof.
  induction d as [|b d IH]; [done|]. unfold to_hex in *. rewrite join_fmap_cons, length_app, IH.
  simpl. lia.
Qed.

Lemma HexVal_digit upper v : 0 ≤ v < 16 → HexVal (hex_digit upper v) = v.
Proof.
  intros Hv. unfold HexVal, hex_digit.
  destruct (v <? 10) eqn:E; bool_props.
  - by rewrite !(proj2 (Z.leb_le _ _)) by lia; simpl; lia.
  - destruct upper.
    + rewrite (proj2 (Z.leb_gt (55 + v) 57)), (proj2 (Z.leb_gt 97 (55 + v))), andb_false_r by lia.
      simpl. rewrite !(proj2 (Z.leb_le _ _)) by lia. simpl. lia.
    + rewrite (proj2 (Z.leb_gt (87 + v) 57)), andb_false_r by lia.
      simpl. rewrite !(proj2 (Z.leb_le _ _)) by lia. simpl. lia.
Qed.

Lemma HexVal_range c : -1 ≤ HexVal c < 16.
Proof.
  unfold HexVal. destruct (_ && _) eqn:E1; [bool_props; lia|].
  destruct ((97 <=? c) && _) eqn:E2; [bool_props; lia|].
  destruct ((65 <=? c) && _) eqn:E3; bool_props; lia.
Qed.

Lemma nibbles h l : 0 ≤ h < 16 → 0 ≤ l < 16 → u8 (Z.lor (Z.shiftl h 4) l) = 16 * h + l.
Proof.
  intros Hh Hl. rewrite Z.lor_comm.
  assert (Hz : Z.land l (Z.shiftl h 4) = 0).
  { apply Z.bits_inj'. intros n Hn. rewrite Z.land_spec, Z.bits_0.
    destruct (decide (n < 4)).
    - by rewrite Z.shiftl_spec_low, andb_false_r.
    - rewrite (Z.bits_above_log2 l n); [done|lia|].
      destruct (decide (l = 0)) as [->|]; [simpl; lia|].
      apply Z.log2_lt_pow2; [lia|]. eapply Z.lt_le_trans; [|apply (Z.pow_le_mono_r 2 4); lia].
      simpl. lia. }
  pose proof (Z.add_lor_land l (Z.shiftl h 4)) as Hadd. rewrite Hz in Hadd.
  rewrite Z.shiftl_mul_pow2 in * by lia. rewrite u8_id; unfold is_u8; lia.
Qed.

Lemma parse_pairs_to_hex upper d : Forall is_u8 d → parse_pairs (to_hex upper d) = Some d.
Proof.
  intros Hd. induction Hd as [|b d Hb Hd IH]; [done|]. unfold to_hex in *.
  rewrite join_fmap_cons. cbn [app parse_pairs]. unfold is_u8 in Hb.
  rewrite !HexVal_digit by (Z.div_mod_to_equations; lia).
  rewrite !(proj2 (Z.ltb_ge _ _)) by (Z.div_mod_to_equations; lia). cbn [orb].
  rewrite IH. bind_simpl. rewrite nibbles by (Z.div_mod_to_equations; lia).
  do 2 f_equal. Z.div_mod_to_equations. lia.
Qed.

Lemma parse_pairs_sound upper n Text d :
  (length Text ≤ n)%nat → parse_pairs Text = Some d →
  Forall is_u8 d ∧ HexVal <$> to_hex upper d = HexVal <$> Text
  ∧ length Text = (2 * length d)%nat.
Proof.
  revert Text d. induction n as [|n IH]; intros [|c0 [|c1 Text]] d Hn; cbn [parse_pairs];
    try (by intros [= <-]); [simpl in Hn; lia|].
  destruct (_ || _) eqn:E; [done|]. intros (rest & Hr & [= <-])%bind_Some. bool_props.
  destruct (IH Text rest ltac:(simpl in Hn; lia) Hr) as (IHu & IHh & IHl).
  pose proof (HexVal_range c0). pose proof (HexVal_range c1).
  rewrite nibbles by lia. split_and!.
  - constructor; [unfold is_u8; lia|done].
  - unfold to_hex in *. rewrite join_fmap_cons, fmap_app, IHh. cbn [fmap list_fmap app].
    rewrite !HexVal_digit by (Z.div_mod_to_equations; lia).
    replace ((16 * HexVal c0 + HexVal c1) / 16) with (HexVal c0) by (Z.div_mod_to_equations; lia).
    by replace ((16 * HexVal c0 + HexVal c1) mod 16) with (HexVal c1) by (Z.div_mod_to_equations; lia).
  - simpl. lia.
Qed.

(** Hexadecimal round trip: the digits of any 32-byte digest, in either case, parse
    back to it; and only a text of exactly 64 hexadecimal digits is accepted, giving the
    digest those digits denote. *)
Theorem DtParseHex64_roundtrip upper d Text d' :
  is_digest d → Forall is_u8 d → length Text = 64%nat → DtParseHex64 Text 64 = Some d' →
  DtParseHex64 (to_hex upper d) 64 = Some d
  ∧ is_digest d' ∧ Forall is_u8 d' ∧ HexVal <$> to_hex upper d' = HexVal <$> Text
  ∧ (∀ n, n ≠ 64 → DtParseHex64 Text n = None).
Proof.
  unfold DtParseHex64, is_digest. intros Hl Hu Ht Hp. cbn [Z.eqb Pos.eqb negb] in *.
  rewrite take_ge in Hp by lia.
  destruct (parse_pairs_sound upper 64 Text d' ltac:(lia) Hp) as (? & ? & Hlen).
  split_and!; try done; [|lia|].
  - rewrite take_ge by (rewrite to_hex_length; lia). by apply parse_pairs_to_hex.
  - intros n Hn. by rewrite (proj2 (Z.eqb_neq _ _)).
Qed.

Lemma DtParseHex64_roundtrip_witness :
  let d := replicate 32 0xab in
  DtParseHex64 (to_hex true d) 64 = Some d ∧ HexVal <$> to_hex true d = HexVal <$> to_hex false d.
Proof.
  intros d. destruct (DtParseHex64_roundtrip true d (to_hex false d) d) as (H1 & _ & _ & H2 & _);
    [reflexivity|repeat constructor; by compute|reflexivity|vm_compute; reflexivity|].
  split; [exact H1|exact H2].
Defined.
