(* ===== verification/Bytes.v ===== *)
(** * Reading hostile files

    The two parsers of untrusted images (PE on Windows, ELF on Linux) load
    little-endian words at offsets they computed from the file itself.  Here a load
    outside the file is an outcome of its own, the class [Faults] marks the outcomes
    of an error type that C code must never have, and [safe] is the judgement that a
    computation avoids them. *)
From S2P Require Import Prelude.
Local Open Scope Z_scope.

Class Faults (E : Type) := { out_of_bounds : E; is_fault : E → bool }.

Section bytes.
Context `{Faults E} (img : list Z).

Definition rd8 (o : Z) : E + Z :=
  if (0 <=? o) && (o <? zlen img) then inr (img !!! Z.to_nat o) else inl out_of_bounds.

Definition rd16 (o : Z) : E + Z :=
  b0 ← rd8 o; b1 ← rd8 (o + 1); inr (u16 (Z.lor b0 (Z.shiftl b1 8))).

Definition rd32 (o : Z) : E + Z :=
  b0 ← rd8 o; b1 ← rd8 (o + 1); b2 ← rd8 (o + 2); b3 ← rd8 (o + 3);
  inr (u32 (Z.lor (Z.lor (Z.lor b0 (Z.shiftl b1 8)) (Z.shiftl b2 16)) (Z.shiftl b3 24))).

Definition rd64 (o : Z) : E + Z :=
  lo ← rd32 o; hi ← rd32 (o + 4); inr (u64 (Z.lor lo (Z.shiftl hi 32))).
End bytes.

(** A bounds-checked block of the file. *)
Definition block `{Faults E} (img : list Z) (off len : Z) : E + list Z :=
  if (0 <=? off) && (0 <=? len) && (off + len <=? zlen img)
  then inr (take (Z.to_nat len) (drop (Z.to_nat off) img)) else inl out_of_bounds.

Definition safe `{Faults E} {A} (m : E + A) (P : A → Prop) : Prop :=
  match m with inr x => P x | inl e => is_fault e = false end.

Section safe.
Context `{Faults E}.

Lemma safe_bind {A B} (m : E + A) (f : A → E + B) (P : A → Prop) Q :
  safe m P → (∀ x, P x → safe (f x) Q) → safe (m ≫= f) Q.
Proof. destruct m as [e|x]; simpl; auto. Qed.

Lemma safe_weaken {A} (m : E + A) (P Q : A → Prop) :
  safe m P → (∀ x, P x → Q x) → safe m Q.
Proof. destruct m as [e|x]; simpl; auto. Qed.

Context (img : list Z).

Lemma safe_rd8 o : 0 ≤ o < zlen img → safe (rd8 img o) (λ _, True).
Proof.
  intros Ho. unfold rd8. by rewrite (proj2 (Z.leb_le _ _)), (proj2 (Z.ltb_lt _ _)) by lia.
Qed.

Lemma safe_rd16 o : 0 ≤ o → o + 2 ≤ zlen img → safe (rd16 img o) is_u16.
Proof.
  intros H0 H1. unfold rd16. repeat (eapply safe_bind; [apply safe_rd8; lia|intros ? _]).
  apply u16_range.
Qed.

Lemma safe_rd32 o : 0 ≤ o → o + 4 ≤ zlen img → safe (rd32 img o) is_u32.
Proof.
  intros H0 H1. unfold rd32. repeat (eapply safe_bind; [apply safe_rd8; lia|intros ? _]).
  apply u32_range.
Qed.

Lemma safe_rd64 o : 0 ≤ o → o + 8 ≤ zlen img → safe (rd64 img o) is_u64.
Proof.
  intros H0 H1. unfold rd64. repeat (eapply safe_bind; [apply safe_rd32; lia|intros ? _]).
  apply u64_range.
Qed.

Lemma safe_block off len :
  0 ≤ off → 0 ≤ len → off + len ≤ zlen img → safe (block img off len) (λ b, zlen b = len).
Proof.
  intros H0 H1 H2. unfold block. rewrite !(proj2 (Z.leb_le _ _)) by lia. simpl.
  unfold zlen in *. rewrite length_take, length_drop. lia.
Qed.
End safe.
