(* ===== verification/Modid.v ===== *)
(** * A kernel module's identity from its ELF file (linux/monitor/kg_modid.c)

    Another parser of hostile input (see Bytes.v), whose result is printed as a
    mod_deny= entry for the gate of Modgate.v; the last theorem ties the two ends
    together. *)
From S2P Require Import Prelude Sha256 Uapi Modgate Bytes.
Local Open Scope Z_scope.

Definition SHDR_SIZE : Z := 64.
Definition SHT_STRTAB : Z := 3.
Definition SHT_NOBITS : Z := 8.
Definition ET_REL : Z := 1.
Definition KG_MODID_NAME_MAX : Z := 56.
Definition KG_MODID_SRCVER_MAX : Z := 32.
Definition KG_MODID_STR_MAX : Z := 128.

(** The last two are outcomes of the model only. *)
Inductive modid_error :=
  | KG_MODID_E_COMPRESSED | KG_MODID_E_NOT_ELF | KG_MODID_E_UNSUPPORTED | KG_MODID_E_BAD_ELF
  | KG_MODID_E_NO_MODINFO | KG_MODID_E_NO_NAME | KG_MODID_E_BAD_FIELD
  | ReadOutside | LoopUnfinished.
#[export] Instance modid_error_eq_dec : EqDecision modid_error.
Proof. solve_decision. Defined.
#[export] Instance modid_faults : Faults modid_error :=
  {| out_of_bounds := ReadOutside;
     is_fault e := match e with ReadOutside | LoopUnfinished => true | _ => false end |}.

Record kg_modid := Modid {
  id_name : list Z; id_srcversion : list Z; id_version : list Z; id_vermagic : list Z;
  id_sig_marker : bool; id_sha256 : list Z
}.

Definition kg_sig_marker : list Z := bytes_of "~Module signature appended~" ++ [10].

(** ** Sections *)
Record sec := Sec { s_name : Z; s_type : Z; s_off : Z; s_size : Z }.

Definition read_sec (img : list Z) (shoff idx : Z) : modid_error + sec :=
  let h := shoff + idx * SHDR_SIZE in
  n ← rd32 img h; t ← rd32 img (h + 4); o ← rd64 img (h + 24); z ← rd64 img (h + 32);
  inr (Sec n t o z).

Definition sec_in_file (s : sec) (len : Z) : bool :=
  negb (s_type s =? SHT_NOBITS) && (s_off s <=? len) && (s_size s <=? len - s_off s).

(** ** .modinfo *)
Definition ascii_alnum (c : Z) : bool := in_rng 48 57 c || in_rng 97 122 c || in_rng 65 90 c.
Definition name_chars_ok (s : list Z) : bool :=
  match s with
  | [] => false
  | _ => forallb (λ c, ascii_alnum c || (c =? 95) || (c =? 45) || (c =? 46)) s
  end.
Definition hex_chars_ok (s : list Z) : bool :=
  match s with
  | [] => false
  | _ => forallb (λ c, in_rng 48 57 c || in_rng 97 102 c || in_rng 65 70 c) s
  end.

(** The fields wanted, [None] until seen. *)
Record modinfo := Info {
  f_name : option (list Z); f_srcversion : option (list Z);
  f_version : option (list Z); f_vermagic : option (list Z)
}.

(** One iteration of the loop over the wanted keys, for the string [s]. *)
Definition take_field (key : list Z) (cap : Z) (s : list Z) (f : option (list Z))
  : modid_error + option (list Z) :=
  match f with
  | Some _ => inr f
  | None =>
    let kl := length key in
    if (length s <=? kl + 1)%nat || negb (bool_decide (take kl s = key))
       || negb (bool_decide (s !! kl = Some 61)) then inr None
    else
      let v := drop (kl + 1) s in
      if cap <=? zlen v then inl KG_MODID_E_BAD_FIELD else inr (Some v)
  end.

Definition take_fields (s : list Z) (i : modinfo) : modid_error + modinfo :=
  n ← take_field (bytes_of "name") KG_MODID_NAME_MAX s (f_name i);
  v ← take_field (bytes_of "srcversion") KG_MODID_SRCVER_MAX s (f_srcversion i);
  r ← take_field (bytes_of "version") KG_MODID_STR_MAX s (f_version i);
  g ← take_field (bytes_of "vermagic") KG_MODID_STR_MAX s (f_vermagic i);
  inr (Info n v r g).

(** The string before the NUL, or all that is left. *)
Fixpoint cstr (p : list Z) : list Z :=
  match p with [] => [] | c :: p => if c =? 0 then [] else c :: cstr p end.

Fixpoint modinfo_loop (fuel : nat) (p : list Z) (i : modinfo) : modid_error + modinfo :=
  match fuel, p with
  | _, [] => inr i
  | O, _ => inl LoopUnfinished
  | S fuel, _ => let s := cstr p in i ← take_fields s i; modinfo_loop fuel (drop (length s + 1) p) i
  end.

Definition parse_modinfo (p : list Z) : modid_error + modinfo :=
  i ← modinfo_loop (length p) p (Info None None None None);
  match f_name i with
  | None => inl KG_MODID_E_NO_NAME
  | Some n =>
    if negb (name_chars_ok n)
       || match f_srcversion i with Some v => negb (hex_chars_ok v) | None => false end
    then inl KG_MODID_E_BAD_FIELD else inr i
  end.

(** ** The parser *)
Definition has_prefix (m img : list Z) : bool := bool_decide (take (length m) img = m).

Definition is_compressed (img : list Z) : bool :=
  has_prefix [0x1f; 0x8b] img || has_prefix [0x28; 0xb5; 0x2f; 0xfd] img
  || has_prefix [0xfd; 55; 122; 88; 90; 0] img.

Definition modid_check (b : bool) (e : modid_error) : modid_error + unit :=
  if b then inr tt else inl e.

Definition modinfo_name : list Z := bytes_of ".modinfo" ++ [0].

(** The search for the section; [strs] is the section-name table. *)
Fixpoint find_modinfo (img : list Z) (shoff : Z) (strs : sec) (n : nat) (i : Z)
  : modid_error + modinfo :=
  match n with
  | O => inl KG_MODID_E_NO_MODINFO
  | S n =>
    s ← read_sec img shoff i;
    if (s_size strs <=? s_name s) || (s_size strs - s_name s <? zlen modinfo_name)
    then find_modinfo img shoff strs n (i + 1)
    else
      nm ← block img (s_off strs + s_name s) (zlen modinfo_name);
      if negb (bool_decide (nm = modinfo_name)) then find_modinfo img shoff strs n (i + 1)
      else if negb (sec_in_file s (zlen img)) then inl KG_MODID_E_BAD_ELF
      else p ← block img (s_off s) (s_size s); parse_modinfo p
  end.

Definition sha256_of (img : list Z) : modid_error + list Z :=
  match (c ← kg_sha256_update (kg_sha256_init ctx0) img; kg_sha256_final c) with
  | Some d => inr d
  | None => inl LoopUnfinished
  end.

Definition kg_modid_parse (img : list Z) : modid_error + kg_modid :=
  let len := zlen img in
  _ ← modid_check (negb (is_compressed img)) KG_MODID_E_COMPRESSED;
  _ ← modid_check (negb ((len <? 64) || negb (has_prefix [0x7f; 69; 76; 70] img))) KG_MODID_E_NOT_ELF;
  cls ← rd8 img 4; dat ← rd8 img 5; ety ← rd16 img 16;
  _ ← modid_check (negb (negb (cls =? 2) || negb (dat =? 1) || negb (ety =? ET_REL)))
        KG_MODID_E_UNSUPPORTED;
  shoff ← rd64 img 0x28; shnum ← rd16 img 0x3c; shstrndx ← rd16 img 0x3e; shentsize ← rd16 img 0x3a;
  _ ← modid_check (negb (negb (shentsize =? SHDR_SIZE) || (shnum =? 0) || (shnum <=? shstrndx)))
        KG_MODID_E_BAD_ELF;
  _ ← modid_check (negb ((len <? shoff) || (len - shoff <? shnum * SHDR_SIZE))) KG_MODID_E_BAD_ELF;
  strs ← read_sec img shoff shstrndx;
  _ ← modid_check (negb (negb (s_type strs =? SHT_STRTAB) || negb (sec_in_file strs len)
                         || (s_size strs =? 0))) KG_MODID_E_BAD_ELF;
  i ← find_modinfo img shoff strs (Z.to_nat shnum) 0;
  d ← sha256_of img;
  let marker := (zlen kg_sig_marker <=? len)
                && bool_decide (drop (length img - length kg_sig_marker) img = kg_sig_marker) in
  inr (Modid (default [] (f_name i)) (default [] (f_srcversion i)) (default [] (f_version i))
             (default [] (f_vermagic i)) marker d).

(** The mod_deny= entry. *)
Definition kg_modid_entry (m : kg_modid) : list Z :=
  match id_srcversion m with
  | [] => id_name m
  | v => id_name m ++ [64] ++ v
  end.

(** ** Memory safety *)
Section safety.
Context (img : list Z).

Lemma safe_modid_check b e : is_fault e = false → safe (modid_check b e) (λ _, b = true).
Proof. by destruct b. Qed.

Lemma read_sec_safe shoff idx :
  0 ≤ shoff → 0 ≤ idx → shoff + (idx + 1) * 64 ≤ zlen img →
  safe (read_sec img shoff idx)
       (λ s, is_u32 (s_name s) ∧ is_u64 (s_off s) ∧ is_u64 (s_size s)).
Proof.
  intros H0 Hi Hl. unfold read_sec, SHDR_SIZE.
  eapply safe_bind; [apply safe_rd32; lia|intros n Hn].
  eapply safe_bind; [apply safe_rd32; lia|intros t Ht].
  eapply safe_bind; [apply safe_rd64; lia|intros o Ho].
  eapply safe_bind; [apply safe_rd64; lia|intros z Hz]. done.
Qed.

Lemma take_field_safe key cap s f : safe (take_field key cap s f) (λ _, True).
Proof. unfold take_field. destruct f; [done|]. case_goal; [done|]. by case_goal. Qed.

Lemma modinfo_loop_safe fuel p i : (length p ≤ fuel)%nat → safe (modinfo_loop fuel p i) (λ _, True).
Proof.
  revert p i. induction fuel as [|fuel IH]; intros [|c p] i Hf; simpl in Hf; try done; [lia|].
  cbn [modinfo_loop]. eapply (safe_bind _ _ (λ _, True)).
  - unfold take_fields. repeat (eapply safe_bind; [apply take_field_safe|intros ? _]). done.
  - intros i' _. apply IH. rewrite length_drop. cbn [length]. lia.
Qed.

Lemma parse_modinfo_safe p : safe (parse_modinfo p) (λ _, True).
Proof.
  unfold parse_modinfo. eapply safe_bind; [by apply modinfo_loop_safe|]. intros i _.
  destruct (f_name i); [|done]. by destruct (_ || _).
Qed.

Lemma sec_in_file_bound s : is_u64 (s_off s) → is_u64 (s_size s) →
  sec_in_file s (zlen img) = true →
  0 ≤ s_off s ∧ 0 ≤ s_size s ∧ s_off s + s_size s ≤ zlen img.
Proof. unfold sec_in_file, is_u64. intros ?? Hs. bool_props. lia. Qed.

Lemma find_modinfo_safe shoff strs n i :
  0 ≤ shoff → 0 ≤ i → shoff + (i + Z.of_nat n) * 64 ≤ zlen img →
  0 ≤ s_off strs → s_off strs + s_size strs ≤ zlen img →
  safe (find_modinfo img shoff strs n i) (λ _, True).
Proof.
  revert i. induction n as [|n IH]; intros i H0 Hi Hl Hso Hss; [done|]. cbn [find_modinfo].
  eapply safe_bind; [apply read_sec_safe; lia|]. intros s (Hn & Ho & Hz).
  assert (Hnext : safe (find_modinfo img shoff strs n (i + 1)) (λ _, True)) by (apply IH; lia).
  destruct (_ || _) eqn:E; [done|]. bool_props. unfold is_u32 in Hn.
  eapply safe_bind; [apply safe_block; [lia|unfold zlen; lia|lia]|]. intros nm _.
  destruct (bool_decide (nm = modinfo_name)); [|done]. cbn [negb].
  destruct (sec_in_file s (zlen img)) eqn:Es; [|done]. cbn [negb].
  destruct (sec_in_file_bound s Ho Hz Es) as (? & ? & ?).
  eapply safe_bind; [by apply safe_block|]. intros p _. apply parse_modinfo_safe.
Qed.
End safety.

Lemma sha256_of_eq img : sha256_of img = inr (sha256_spec img).
Proof. unfold sha256_of. by rewrite (sha256_oneshot ctx0 img). Qed.

(** Memory safety on hostile input: for every byte string the parser ends, with an
    identity or one of its documented errors, and never reads outside the buffer. *)
Theorem modid_memory_safe img :
  match kg_modid_parse img with
  | inl ReadOutside | inl LoopUnfinished => False
  | _ => True
  end.
Proof.
  enough (safe (kg_modid_parse img) (λ _, True)) as Hs
    by (destruct (kg_modid_parse img) as [[]|]; done).
  unfold kg_modid_parse.
  do 2 (eapply safe_bind; [by apply safe_modid_check|intros [] ?]; bool_props).
  do 2 (eapply safe_bind; [apply safe_rd8; lia|intros ? _]).
  eapply safe_bind; [apply safe_rd16; lia|intros ? _].
  eapply safe_bind; [by apply safe_modid_check|intros [] ?].
  eapply safe_bind; [apply safe_rd64; lia|intros shoff Hso].
  do 3 (eapply safe_bind; [apply safe_rd16; lia|intros ? ?]).
  do 2 (eapply safe_bind; [by apply safe_modid_check|intros [] ?]; bool_props).
  unfold is_u16, is_u64, SHDR_SIZE in *.
  eapply safe_bind; [apply read_sec_safe; lia|]. intros strs (_ & Ho & Hz).
  eapply safe_bind; [by apply safe_modid_check|intros [] ?; bool_props].
  destruct (sec_in_file_bound img strs Ho Hz ltac:(done)) as (? & ? & ?).
  eapply safe_bind; [apply find_modinfo_safe; lia|]. intros i _.
  rewrite sha256_of_eq. done.
Qed.

(** ** What a parsed identity satisfies *)
Definition field_ok (cap : Z) (f : option (list Z)) : Prop :=
  match f with Some v => zlen v < cap | None => True end.

Lemma take_field_ok key cap s f f' :
  take_field key cap s f = inr f' → field_ok cap f → field_ok cap f'.
Proof.
  unfold take_field. destruct f as [v|]; [by intros [= <-]|].
  destruct (_ || _ || _); [by intros [= <-]|]. destruct (_ <=? _) eqn:E; [done|].
  intros [= <-] _. by bool_props.
Qed.

Lemma modinfo_loop_ok fuel p i i' :
  modinfo_loop fuel p i = inr i' →
  field_ok KG_MODID_NAME_MAX (f_name i) → field_ok KG_MODID_SRCVER_MAX (f_srcversion i) →
  field_ok KG_MODID_NAME_MAX (f_name i') ∧ field_ok KG_MODID_SRCVER_MAX (f_srcversion i').
Proof.
  revert p i. induction fuel as [|fuel IH]; intros [|c p] i; cbn [modinfo_loop];
    [by intros [= <-]|done|by intros [= <-]|].
  intros (i1 & Hf & Hl)%bind_inr Hn Hv. apply (IH _ _ Hl); clear IH Hl; unfold take_fields in Hf;
    apply bind_inr in Hf as (n & H1 & Hf); apply bind_inr in Hf as (v & H2 & Hf);
    apply bind_inr in Hf as (r & _ & Hf); apply bind_inr in Hf as (g & _ & [= <-]);
    by eapply take_field_ok.
Qed.

Record modid_ok (m : kg_modid) : Prop := ModidOk {
  mo_name : name_chars_ok (id_name m) = true ∧ zlen (id_name m) < KG_MODID_NAME_MAX;
  mo_src : id_srcversion m = []
           ∨ (hex_chars_ok (id_srcversion m) = true ∧ zlen (id_srcversion m) < KG_MODID_SRCVER_MAX)
}.

Lemma parse_modinfo_ok p i :
  parse_modinfo p = inr i →
  ∃ n, f_name i = Some n ∧ name_chars_ok n = true ∧ zlen n < KG_MODID_NAME_MAX
  ∧ match f_srcversion i with
    | Some v => hex_chars_ok v = true ∧ zlen v < KG_MODID_SRCVER_MAX
    | None => True
    end.
Proof.
  unfold parse_modinfo. intros (i' & Hl & Hp)%bind_inr.
  apply modinfo_loop_ok in Hl as [Hn Hv]; [|done..].
  destruct (f_name i') as [n|] eqn:En; [|done].
  destruct (_ || _) eqn:E; [done|]. injection Hp as <-. bool_props.
  exists n. split_and!; try done. destruct (f_srcversion i'); bool_props; done.
Qed.

Lemma find_modinfo_ok img shoff strs n k i :
  find_modinfo img shoff strs n k = inr i → ∃ p, parse_modinfo p = inr i.
Proof.
  revert k. induction n as [|n IH]; intros k; cbn [find_modinfo]; [done|].
  intros (s & _ & Hs)%bind_inr. destruct (_ || _); [eauto|].
  apply bind_inr in Hs as (nm & _ & Hs). destruct (bool_decide _); cbn [negb] in Hs; [|eauto].
  destruct (sec_in_file s (zlen img)); [|done]. apply bind_inr in Hs as (p & _ & Hs). eauto.
Qed.

Lemma kg_modid_parse_ok img m : kg_modid_parse img = inr m → modid_ok m ∧ id_sha256 m = sha256_spec img.
Proof.
  unfold kg_modid_parse. intros Hp.
  repeat (apply bind_inr in Hp as (? & ? & Hp)).
  match goal with H : find_modinfo _ _ _ _ _ = inr ?i |- _ =>
    apply find_modinfo_ok in H as (p & Hi); apply parse_modinfo_ok in Hi as (n & Hn & Hc & Hl & Hs) end.
  match goal with H : sha256_of _ = _ |- _ => rewrite sha256_of_eq in H; injection H as <- end.
  injection Hp as <-. split; [|done]. rewrite Hn. constructor; simpl; [done|].
  destruct (f_srcversion _) as [v|]; [right; done|by left].
Qed.

(** ** From an identity to a deny entry *)
Lemma no_sep_entries s : s ≠ [] → Forall (λ c, kg_gate_sep c = false) s → entries s = [s].
Proof.
  intros Hne Hs. assert (Hlen : entry_len s = length s).
  { clear Hne. induction Hs as [|c s Hc Hs IH]; simpl; [done|]. by rewrite Hc, IH. }
  unfold entries. rewrite split_sep_run, Hlen, take_ge, drop_ge by done. simpl. by destruct s.
Qed.

Lemma split_at_none s : Forall (λ c, c ≠ 64) s → split_at s = (s, None).
Proof.
  induction 1 as [|c s Hc Hs IH]; simpl; [done|]. rewrite (proj2 (Z.eqb_neq _ _)) by done.
  by rewrite IH.
Qed.
Lemma split_at_some s v : Forall (λ c, c ≠ 64) s → split_at (s ++ 64 :: v) = (s, Some v).
Proof.
  induction 1 as [|c s Hc Hs IH]; simpl; [done|]. rewrite (proj2 (Z.eqb_neq _ _)) by done.
  by rewrite IH.
Qed.

(** The characters of a name and of a version, against the gate's tests. *)
Lemma name_char_facts c :
  ascii_alnum c || (c =? 95) || (c =? 45) || (c =? 46) = true →
  kg_gate_sep c = false ∧ c ≠ 64 ∧ name_char c = true.
Proof.
  unfold kg_gate_sep, name_char, isalnum, isdigit, isupper, islower, ascii_alnum, in_rng.
  intros Hc. rewrite !orb_true_iff, !andb_true_iff, !Z.leb_le, !Z.eqb_eq in Hc.
  rewrite !orb_false_iff, !Z.eqb_neq, !orb_true_iff, !andb_true_iff, !Z.leb_le, !Z.eqb_eq.
  split_and!; try lia.
Qed.

Lemma hex_char_facts c :
  in_rng 48 57 c || in_rng 97 102 c || in_rng 65 70 c = true →
  kg_gate_sep c = false ∧ isxdigit c = true ∧ tolower (toupper c) = tolower c.
Proof.
  intros Hc.
  assert (Hr : 48 ≤ c ≤ 57 ∨ 97 ≤ c ≤ 102 ∨ 65 ≤ c ≤ 70).
  { unfold in_rng in Hc. rewrite !orb_true_iff, !andb_true_iff, !Z.leb_le in Hc. lia. }
  assert (Hall : forallb (λ k : nat, let c := Z.of_nat k in
     negb (in_rng 48 57 c || in_rng 97 102 c || in_rng 65 70 c)
     || (negb (kg_gate_sep c) && isxdigit c && (tolower (toupper c) =? tolower c))) (seq 0 128) = true)
    by by vm_compute.
  rewrite forallb_forall in Hall. specialize (Hall (Z.to_nat c)). cbv beta zeta in Hall.
  rewrite in_seq, Z2Nat.id, Hc in Hall by lia. specialize (Hall ltac:(lia)). cbn [negb orb] in Hall.
  bool_props. done.
Qed.

Lemma forallb_Forall {A} (f : A → bool) (P : A → Prop) l :
  (∀ c, f c = true → P c) → forallb f l = true → Forall P l.
Proof. intros Hf Hl. rewrite forallb_forall in Hl. apply Forall_forall. intros c Hc. by apply Hf, Hl, list_elem_of_In. Qed.
Lemma forallb_impl {A} (f g : A → bool) l :
  (∀ c, f c = true → g c = true) → forallb f l = true → forallb g l = true.
Proof. intros Hf. rewrite !forallb_forall. auto. Qed.

Lemma entry_deny_of m :
  modid_ok m →
  entries (kg_modid_entry m) = [kg_modid_entry m]
  ∧ deny_of (kg_modid_entry m) = Some (norm_name (id_name m), toupper <$> id_srcversion m).
Proof.
  intros [[Hn Hl] Hs]. unfold name_chars_ok in Hn.
  destruct (id_name m) as [|c0 n0] eqn:En; [done|]. rewrite <- En in *.
  assert (Hsep : Forall (λ c, kg_gate_sep c = false) (id_name m))
    by (eapply forallb_Forall; [|exact Hn]; intros c Hc; by apply name_char_facts in Hc as (? & ? & ?)).
  assert (Hat : Forall (λ c, c ≠ 64) (id_name m))
    by (eapply forallb_Forall; [|exact Hn]; intros c Hc; by apply name_char_facts in Hc as (? & ? & ?)).
  assert (Hok : kg_gate_name_ok (id_name m) = true).
  { unfold kg_gate_name_ok. rewrite (proj2 (Z.ltb_lt _ _)) by done.
    rewrite (proj2 (Z.eqb_neq _ _)) by (rewrite En; unfold zlen; simpl; lia). simpl.
    eapply forallb_impl; [|exact Hn]. intros c Hc. by apply name_char_facts in Hc as (? & ? & ?). }
  unfold kg_modid_entry, deny_of. destruct (id_srcversion m) as [|v0 v1] eqn:Ev.
  - rewrite (split_at_none (id_name m)), Hok by done. split; [|done].
    apply no_sep_entries; [by rewrite En|done].
  - rewrite <- Ev in *. destruct Hs as [Hs|[Hh Hvl]]; [congruence|].
    unfold hex_chars_ok in Hh. rewrite Ev in Hh at 1.
    change ([64] ++ id_srcversion m) with (64 :: id_srcversion m).
    rewrite (split_at_some (id_name m)), Hok by done.
    assert (Hhex : kg_gate_hex_ok (id_srcversion m) = true).
    { unfold kg_gate_hex_ok. rewrite (proj2 (Z.ltb_lt _ _)) by done.
      rewrite (proj2 (Z.eqb_neq _ _)) by (rewrite Ev; unfold zlen; simpl; lia). simpl.
      eapply forallb_impl; [|exact Hh]. intros c Hc. by apply hex_char_facts in Hc as (? & ? & ?). }
    rewrite Hhex. split; [|done].
    apply no_sep_entries; [by rewrite En|]. rewrite Forall_app. split; [done|]. constructor; [done|].
    eapply forallb_Forall; [|exact Hh]. intros c Hc. by apply hex_char_facts in Hc as (? & ? & ?).
Qed.

Lemma strcaseeq_toupper v :
  hex_chars_ok v = true → strcaseeq (toupper <$> v) v = true.
Proof.
  unfold hex_chars_ok, strcaseeq. destruct v as [|c0 v0] eqn:Ev; [done|]. rewrite <- Ev.
  intros Hh. apply bool_decide_eq_true. rewrite <- list_fmap_compose. apply list_fmap_ext.
  intros i c Hc. rewrite forallb_forall in Hh. unfold compose.
  apply list_elem_of_lookup_2, list_elem_of_In in Hc. by apply Hh, hex_char_facts in Hc as (? & ? & ?).
Qed.

(** C15 — what `kgmon modid` prints is what the gate needs: the entry of any file the parser
    accepts, used as mod_deny, makes the gate deny exactly the modules of that name (with
    underscores) and, when the file has a srcversion, of that version only; and the digest
    it prints is the SHA-256 of the whole file. *)
Theorem modid_entry_denies img m g kname kver :
  kg_modid_parse img = inr m → g_deny g = [] →
  id_sha256 m = sha256_spec img
  ∧ ∃ g', kg_gate_parse (kg_modid_entry m) true g = Some g'
  ∧ (kg_gate_denied g' (Kmod kname kver) = true ↔
     kname = norm_name (id_name m)
     ∧ (id_srcversion m = []
        ∨ ∃ v, kver = Some v ∧ tolower <$> v = tolower <$> id_srcversion m)).
Proof.
  intros Hp Hg. destruct (kg_modid_parse_ok img m Hp) as [Hok Hsha]. split; [done|].
  destruct (entry_deny_of m Hok) as [He Hd].
  destruct (parse_deny_spec (kg_modid_entry m) g Hg) as (g' & Hgp & Hgd). exists g'. split; [done|].
  rewrite He in Hgd. cbn [omap list_omap] in Hgd. rewrite Hd in Hgd. cbn [take] in Hgd.
  unfold kg_gate_denied. rewrite Hgd. cbn [existsb m_name m_srcversion fst snd].
  rewrite orb_false_r, andb_true_iff, bool_decide_eq_true, orb_true_iff, bool_decide_eq_true.
  assert (Hnil : toupper <$> id_srcversion m = [] ↔ id_srcversion m = [])
    by (split; [apply fmap_nil_inv|by intros ->]).
  rewrite Hnil. destruct Hok as [_ Hs].
  assert (Hver : id_srcversion m ≠ [] →
            match kver with Some v => strcaseeq (toupper <$> id_srcversion m) v | None => false end = true
            ↔ ∃ v, kver = Some v ∧ tolower <$> v = tolower <$> id_srcversion m).
  { intros Hne. destruct Hs as [?|[Hh _]]; [done|].
    pose proof (strcaseeq_toupper _ Hh) as Hc. unfold strcaseeq in *. apply bool_decide_eq_true in Hc.
    rewrite Hc. destruct kver as [v|]; [|naive_solver]. rewrite bool_decide_eq_true. naive_solver. }
  destruct (decide (id_srcversion m = [])) as [Hz|Hz]; [|rewrite Hver by done]; naive_solver.
Qed.


(** ** Self-test: synthesised modules, including hostile ones *)
Definition put16 (b : list Z) (o : nat) (v : Z) : list Z := memcpy b o (le_bytes 2 v).
Definition put32 (b : list Z) (o : nat) (v : Z) : list Z := memcpy b o (le_bytes 4 v).
Definition put64 (b : list Z) (o : nat) (v : Z) : list Z := memcpy b o (le_bytes 8 v).

Record st_elf := StElf { st_type : Z; st_secname : list Z; st_claim_size : Z; st_shstrndx_delta : Z }.

(** [ehdr][modinfo][shstrtab][3 section headers: null, modinfo, shstrtab] *)
Definition st_build (mi : list Z) (o : st_elf) : list Z :=
  let milen := length mi in
  let b := replicate (512 + milen) 0 in
  let b := memcpy b 0 [0x7f; 69; 76; 70] in
  let b := memcpy b 4 [2; 1; 1] in
  let b := put16 b 16 (st_type o) in
  let b := put16 b 18 62 in
  let b := put32 b 20 1 in
  let b := memcpy b 64 mi in
  let pos := (64 + milen)%nat in
  let nm_strtab := (1 + length (st_secname o) + 1)%nat in
  let strtab := [0] ++ st_secname o ++ [0] ++ bytes_of ".shstrtab" ++ [0] in
  let stlen := length strtab in
  let b := memcpy b pos strtab in
  let shoff := (pos + stlen)%nat in
  let b := put64 b 0x28 (Z.of_nat shoff) in
  let b := put16 b 0x34 64 in
  let b := put16 b 0x3a SHDR_SIZE in
  let b := put16 b 0x3c 3 in
  let b := put16 b 0x3e (u16 (2 + st_shstrndx_delta o)) in
  let b := put32 b (shoff + 64) 1 in
  let b := put32 b (shoff + 64 + 4) 1 in
  let b := put64 b (shoff + 64 + 24) 64 in
  let b := put64 b (shoff + 64 + 32)
                 (if st_claim_size o =? 0 then Z.of_nat milen else st_claim_size o) in
  let b := put32 b (shoff + 128) (Z.of_nat nm_strtab) in
  let b := put32 b (shoff + 128 + 4) SHT_STRTAB in
  let b := put64 b (shoff + 128 + 24) (Z.of_nat pos) in
  let b := put64 b (shoff + 128 + 32) (Z.of_nat stlen) in
  take (shoff + 3 * 64) b.

Definition zstr (s : string) : list Z := bytes_of s ++ [0].
Definition st_good : st_elf := StElf 1 (bytes_of ".modinfo") 0 0.
Definition st_mi : list Z :=
  zstr "license=GPL" ++ zstr "name=evil_mod" ++ zstr "srcversion=ABCDEF0123456789ABCDEF0"
  ++ zstr "version=2.1" ++ zstr "name=second" ++ zstr "vermagic=7.0.0 SMP preempt".

Definition rejected (e : modid_error) (img : list Z) : bool :=
  match kg_modid_parse img with inl e' => bool_decide (e = e') | inr _ => false end.
Definition parsed (img : list Z) (f : kg_modid → bool) : bool :=
  match kg_modid_parse img with inr m => f m | inl _ => false end.
Definition eqs (l : list Z) (s : string) : bool := bool_decide (l = bytes_of s).

(** The number of failed checks. *)
Definition kg_modid_selftest : Z :=
  let buf := st_build st_mi st_good in
  let signd := buf ++ bytes_of "sigbytes" ++ kg_sig_marker in
  zlen (filter (λ b, b = false)
   [parsed buf (λ m, eqs (id_name m) "evil_mod" && eqs (id_srcversion m) "ABCDEF0123456789ABCDEF0"
                     && eqs (id_version m) "2.1" && eqs (id_vermagic m) "7.0.0 SMP preempt"
                     && negb (id_sig_marker m)
                     && eqs (kg_modid_entry m) "evil_mod@ABCDEF0123456789ABCDEF0");
    parsed signd (λ m, id_sig_marker m
                       && bool_decide (sha256_of signd = inr (id_sha256 m)));
    parsed (st_build (zstr "name=plain-mod" ++ zstr "vermagic=6.8.0 SMP") st_good)
           (λ m, eqs (id_srcversion m) "" && eqs (kg_modid_entry m) "plain-mod");
    rejected KG_MODID_E_NO_NAME
             (st_build (zstr "license=GPL" ++ zstr "vermagic=6.8.0 SMP") st_good);
    rejected KG_MODID_E_NO_MODINFO (st_build st_mi (StElf 1 (bytes_of ".comment") 0 0));
    rejected KG_MODID_E_UNSUPPORTED (st_build st_mi (StElf 2 (bytes_of ".modinfo") 0 0));
    rejected KG_MODID_E_BAD_ELF (st_build st_mi (StElf 1 (bytes_of ".modinfo") 0x7fffffffffffffff 0));
    rejected KG_MODID_E_BAD_ELF (st_build st_mi (StElf 1 (bytes_of ".modinfo") 0 9));
    rejected KG_MODID_E_BAD_ELF (take (length buf - 1) buf);
    rejected KG_MODID_E_NOT_ELF (take 63 buf);
    rejected KG_MODID_E_NOT_ELF [];
    rejected KG_MODID_E_NOT_ELF (<[1%nat := 88]> (take 64 buf));
    rejected KG_MODID_E_COMPRESSED [0x28; 0xb5; 0x2f; 0xfd; 0; 0; 0; 0];
    rejected KG_MODID_E_COMPRESSED [0xfd; 55; 122; 88; 90; 0; 0; 0];
    rejected KG_MODID_E_COMPRESSED [0x1f; 0x8b; 8; 0; 0; 0; 0; 0];
    rejected KG_MODID_E_BAD_FIELD (st_build (bytes_of "name=" ++ replicate 70 97 ++ [0]) st_good);
    rejected KG_MODID_E_BAD_FIELD (st_build (zstr "name=ok" ++ zstr "srcversion=NOT-HEX") st_good);
    parsed (st_build (zstr "name=abc" ++ [0; 0] ++ bytes_of "srcversion=1234") st_good)
           (λ m, eqs (id_name m) "abc" && eqs (id_srcversion m) "1234")]).

Lemma modid_entry_denies_witness :
  ∃ m g', kg_modid_parse (st_build st_mi st_good) = inr m
  ∧ kg_gate_parse (kg_modid_entry m) true empty_gate = Some g'
  ∧ kg_gate_denied g' (Kmod (norm_name (id_name m)) (Some (id_srcversion m))) = true.
Proof.
  destruct (kg_modid_parse (st_build st_mi st_good)) as [e|m] eqn:E.
  { exfalso. vm_compute in E. discriminate E. }
  destruct (modid_entry_denies (st_build st_mi st_good) m empty_gate (norm_name (id_name m))
              (Some (id_srcversion m)) E eq_refl) as (_ & g' & Hp & Hd).
  exists m, g'. split_and!; [reflexivity|exact Hp|]. apply Hd. split; [reflexivity|]. right. eauto.
Defined.

(** The identity parser passes every check of the program's own self-test, hostile
    headers included. *)
Theorem kg_modid_selftest_passes : kg_modid_selftest = 0.
Proof. vm_compute. reflexivity. Qed.
