(* ===== verification/Kgmon.v ===== *)
(** * The watching monitor (linux/monitor/kgmon.c: conn_open, cmd_monitor and what its loop calls)

    A command runs against a device (class [Device]); it ends with a value or by [die].  The
    loop of [cmd_monitor] is given one [round] per turn: whether a signal came, what poll
    returned, and what the loads of the drain met; it is over a list of rounds because the
    program itself runs until it is stopped.  The service manager and the acknowledgement
    file are what the process finds in its environment (classes [Manager], [AckFile]). *)
From S2P Require Import Prelude Text Sha256 Uapi Kernel Machine Guard Comms Posture Modgate Main PolicyParse Policy KgmonText KgmonChild Monitor.
Local Open Scope string_scope.
Local Open Scope list_scope.
Local Open Scope Z_scope.

Definition DEF_POLICY : string := "/etc/kernelguard/policy.conf".
Definition DEF_ACK_FILE : string := "/run/kernelguard/ack".
Definition EINTR : Z := 4.

(** ** How a command ends: one constructor per call of [die] *)
Inductive death :=
  | AlreadyRunning | PolicyRejected (line : option Z) (e : parse_error) | LogUnopened (path : string)
  | NoDevice (dev : string) | OpenFailed (dev : string) (e : errno) | KeyRefused (e : errno) | MapFailed (e : errno)
  | PollFailed (e : Z) | DeviceError
  | InfoFailed (e : errno) | PostureUsage | PostureSetUsage | UnknownPosture (s : string)
  | PostureUntrusted | PostureRefused (e : errno) | PostureUnread (e : errno)
  | AckUnwritten (path : string) | AckNotUpdated (path : string)
  | PolicyUsage | ModidUsage | ModidRejected (shown why : list Z)
  | FileFailed (path : string) (e : Z) | OutOfMemory | FileTooLarge (path : string)
  | RunUsage | ExecFailed (prog : string).

(** ** The device node: open, mmap and one method per ioctl kgmon makes *)
Class Device (D : Type) := {
  dev_open : string → D → errno + unit;                 (* open(dev, O_RDONLY | O_CLOEXEC) *)
  dev_mmap : D → errno + kg_shared_region;              (* what the mapping shows now *)
  get_hmac_key : D → errno + list Z;
  get_info : D → errno + kg_info;
  get_cpu_info : Z → D → errno + kg_cpu_info;
  get_posture : D → errno + kg_posture_info_t;
  get_modgate : D → errno + kg_modgate_info_t;
  set_posture : Z → D → option (option errno * D)
}.

(** The node of the loaded module, for a caller with or without CAP_SYS_ADMIN. *)
Definition ioctl_reply `{Crypto} `{Platform} {A} (pick : reply → option A) (c : ioctl_cmd) (u : caller) (k : kernelguard)
  : errno + A :=
  match kg_ioctl c u k with
  | Some (Some e, _, _) => inl e
  | Some (None, rep, _) => match pick rep with Some a => inr a | None => inl (EOTHER 0) end
  | None => inl (EOTHER 0)
  end.
Definition module_device `{Crypto} `{Platform} (cap alloc : bool) : Device kernelguard := {|
  dev_open path k :=
    if bool_decide (path = "/dev/kernelguard") then
      match kg_open alloc k with inl e => inl e | inr _ => inr tt end
    else inl ENOENT;
  dev_mmap k := match wcomms (k_world k) with Some c => inr (ring c) | None => inl ENODEV end;
  get_hmac_key := ioctl_reply (λ r, match r with ReplyKey k => Some k | _ => None end)
                    KG_IOC_GET_HMAC_KEY (Caller cap None None true alloc);
  get_info := ioctl_reply (λ r, match r with ReplyInfo i => Some i | _ => None end)
                KG_IOC_GET_INFO (Caller cap None None true alloc);
  get_cpu_info cpu := ioctl_reply (λ r, match r with ReplyCpu i => Some i | _ => None end)
                        KG_IOC_GET_CPU_INFO (Caller cap (Some cpu) None true alloc);
  get_posture := ioctl_reply (λ r, match r with ReplyPosture i => Some i | _ => None end)
                   KG_IOC_GET_POSTURE (Caller cap None None true alloc);
  get_modgate := ioctl_reply (λ r, match r with ReplyModgate i => Some i | _ => None end)
                   KG_IOC_GET_MODGATE (Caller cap None None true alloc);
  set_posture target k :=
    '(r, _, k) ← kg_ioctl KG_IOC_SET_POSTURE (Caller cap None (Some (target, 0)) true alloc) k; Some (r, k)
|}.

(** ** Commands: state of the device, lines printed, and an end *)
Definition cmd (D A : Type) : Type := D → option (list (list Z) * (death + A) * D).
Section cmd.
Context {D : Type}.
Definition cret {A} (a : A) : cmd D A := λ d, Some ([], inr a, d).
Definition cbind {A B} (m : cmd D A) (f : A → cmd D B) : cmd D B := λ d,
  '(o1, r, d1) ← m d;
  match r with
  | inl e => Some (o1, inl e, d1)
  | inr a => '(o2, r2, d2) ← f a d1; Some (o1 ++ o2, r2, d2)
  end.
Definition die {A} (e : death) : cmd D A := λ d, Some ([], inl e, d).
Definition print (line : list Z) : cmd D () := λ d, Some ([line], inr tt, d).
Fixpoint prints (lines : list (list Z)) : cmd D () :=
  match lines with [] => cret tt | l :: lines => cbind (print l) (λ _, prints lines) end.

Definition ask {A} (f : D → A) : cmd D A := λ d, Some ([], inr (f d), d).
End cmd.
Notation "'let!' x := m 'in' f" := (cbind m (λ x, f)) (at level 200, x pattern, m at level 100, f at level 200).
Notation "m ';;!' f" := (cbind m (λ _, f)) (at level 200, right associativity).

(** The key and the mapped ring. *)
Record conn := Conn { c_key : list Z; c_ring : kg_shared_region }.

(** A result of the kernel, or the end. *)
Definition or_die {D A} (f : errno → death) (r : errno + A) : cmd D A :=
  match r with inl e => die (f e) | inr a => cret a end.

Definition conn_open {D} `{Device D} (dev : string) : cmd D conn :=
  let! r := ask (dev_open dev) in
  or_die (λ e, if bool_decide (e = ENOENT) then NoDevice dev else OpenFailed dev e) r ;;!
  let! k := ask get_hmac_key in
  let! key := or_die KeyRefused k in
  let! m := ask dev_mmap in
  let! ring := or_die MapFailed m in
  cret (Conn (take 32 key) ring).

(** ** The service manager *)
Class Manager := {
  getenv : string → option string;
  sd_socket : nat → bool                    (* socket() succeeds *)
}.
(** When the next ping is due; datagrams sent, with their address. *)
Record service := Service { sv_next : Z; sv_sent : list (list Z * list Z) }.
Definition SUN_PATH_LEN : Z := 108.

Definition sd_notify_msg `{Manager} (msg : list Z) (t : nat) (v : service) : service :=
  match getenv "NOTIFY_SOCKET" with
  | None => v
  | Some path =>
    let addr := bytes_of path in
    if bool_decide (path = "") || (SUN_PATH_LEN <=? zlen addr) then v
    else if negb (sd_socket t) then v
    else Service (sv_next v)
           (sv_sent v ++ [(match addr with c :: rest => (if c =? 64 then 0 else c) :: rest | [] => [] end, msg)])
  end.

(** [strtol(s, NULL, 10)] *)
Definition strtol (s : string) : Z :=
  let s1 := skip_space s in
  let '(neg, s2) := match s1 with
                    | String c r => if ascii_eqb c (Ascii.ascii_of_nat 45) then (true, r)
                                    else if ascii_eqb c (Ascii.ascii_of_nat 43) then (false, r) else (false, s1)
                    | "" => (false, "") end in
  let '(_, v, _) := strto_digits 10 s2 O 0 in
  if neg then Z.max (- 2 ^ 63) (- v) else Z.min (2 ^ 63 - 1) v.

Definition watchdog_tick `{Host} `{Manager} (pv : proc * service) : proc * service :=
  let '(p, v) := pv in
  match getenv "WATCHDOG_USEC" with
  | None => (p, v)
  | Some usec =>
    let half_ms := Z.quot (strtol usec) 2000 in
    if half_ms <=? 0 then (p, v)
    else
      let '(now, p) := read_clock p in
      if sv_next v <=? now then
        let v := sd_notify_msg (bytes_of "WATCHDOG=1") (pr_ticks p) v in
        let '(now, p) := read_clock p in
        (p, Service (now + Z.quot (half_ms + 999) 1000) (sv_sent v))
      else (p, v)
  end.

(** Half the interval is rounded up to whole seconds: with a watchdog of one second the next ping
    is due only when that second is over. *)
Theorem watchdog_one_second `{Host} `{Manager} p v :
  getenv "WATCHDOG_USEC" = Some "1000000" → sv_next v ≤ mono_s (pr_ticks p) →
  sv_next (watchdog_tick (p, v)).2 = mono_s (S (pr_ticks p)) + 1.
Proof.
  intros He Hn. unfold watchdog_tick, read_clock. rewrite He. apply Z.leb_le in Hn.
  change (Z.quot (strtol "1000000") 2000) with 500. cbn [Z.leb Z.compare Pos.compare]. rewrite Hn. done.
Qed.

(** ** Acknowledgements *)
Class AckFile := {
  ack_stat : nat → string → option (Z * Z * Z * file_stat);   (* inode and mtime first *)
  ack_read : nat → string → option string                     (* None: fopen fails *)
}.
Definition set_ack_seen (id : Z * Z * Z) (s : sinks) : sinks :=
  Sinks (s_o s) (s_log s) (s_out s) (s_shown s) (s_eng s) id (s_calls s) (s_emitted s) (s_stop s) (s_proc s).

(** [fscanf(f, "%lu", &seq) == 1] *)
Definition scan_lu (text : string) : option Z :=
  let '(v, rest, _) := strtoul 10 text in if bool_decide (rest = text) then None else Some v.

Definition policy_check_ack `{Host} `{AckFile} (e : kgp_engine) (s : sinks) : sinks :=
  let path := default DEF_ACK_FILE (o_ack_file (s_o s)) in
  let t := pr_ticks (s_proc s) in
  let s := with_proc (tick (tick (s_proc s))) s in
  match ack_stat t path with
  | None => s
  | Some (id, st) =>
    if bool_decide (id = s_ack_seen s) then s
    else
      let s := set_ack_seen id s in
      if negb (st_isreg st) || negb (st_uid st =? 0) && negb (st_uid st =? host_euid) || (st_iwgrp st || st_iwoth st)
      then complain_s (AckIgnored path) s
      else match ack_read (S t) path with
      | None => s
      | Some text =>
        match scan_lu text with
        | None => s
        | Some seq =>
          let s := with_engine (kgp_ack e (u32 seq)) [] s in
          with_proc (syslog_if (o_use_syslog (s_o s)) LOG_NOTICE
                       (bytes_of "alerts up to sequence " ++ fmt_u seq ++ bytes_of " acknowledged")
                       (complain (Acked seq) (s_proc s))) s
        end
      end
  end.

(** ** The loop *)
Inductive poll_outcome := PollTimeout | PollReady (err_hup_nval : bool) | PollErrno (e : Z).
Record round := Round { rd_sig : bool; rd_poll : poll_outcome; rd_env : env }.
Record mon := Mon { m_cursor : Z; m_sinks : sinks; m_service : service }.

(** The policy's turn: acknowledgements, then what is due by now. *)
Definition policy_turn `{Host} `{AckFile} (s : sinks) : sinks :=
  match s_eng s with
  | None => s
  | Some e =>
    let s := policy_check_ack e s in
    match s_eng s with
    | None => s
    | Some e =>
      let '(now, p) := read_clock (s_proc s) in
      let '(e, calls) := kgp_tick e now in
      run_actions calls (with_engine e calls (with_proc p s))
    end
  end.

Definition poll_death (p : poll_outcome) : option death :=
  match p with
  | PollErrno e => if e =? EINTR then None else Some (PollFailed e)
  | PollReady true => Some DeviceError
  | _ => None
  end.

Section watch.
Context `{Host} `{Manager} `{AckFile}.

Definition monitor_round (key : list Z) (r : round) (m : mon) : option (death + mon) :=
  match poll_death (rd_poll r) with
  | Some e => Some (inl e)
  | None =>
    '(cursor, s) ← drain (rd_env r) key (m_cursor m) (m_sinks m);
    let s := with_proc (children_reap (o_use_syslog (s_o s)) (s_proc s)) s in
    let s := policy_turn s in
    let '(p, v) := watchdog_tick (s_proc s, m_service m) in
    Some (inr (Mon cursor (with_proc p s) v))
  end.

Definition on_signal (m : mon) : mon := Mon (m_cursor m) (set_stop true (m_sinks m)) (m_service m).

(** [while (!g_stop && !o->once)]: whether it was left, and the state. *)
Fixpoint monitor_loop (key : list Z) (rounds : list round) (m : mon) : option (death + (bool * mon)) :=
  if s_stop (m_sinks m) then Some (inr (true, m))
  else match rounds with
  | [] => Some (inr (false, m))
  | r :: rounds =>
    if rd_sig r then Some (inr (true, on_signal m))
    else
      res ← monitor_round key r m;
      match res with
      | inl e => Some (inl e)
      | inr m => monitor_loop key rounds m
      end
  end.

(** ** Start *)

(** The policy asked for must load; the default one only if it is there. *)
Definition load_policy `{Files} (o : opts) : death + option (string * kgp_policy) :=
  if o_once o || o_no_policy o then inr None
  else
    let pf := match o_policy_file o with
              | Some f => Some f
              | None => if bool_decide (is_Some (stat DEF_POLICY)) then Some DEF_POLICY else None
              end in
    match pf with
    | None => inr None
    | Some f =>
      match kgp_load_file f with
      | inl (line, e) => inl (PolicyRejected line e)
      | inr pol => inr (Some (f, pol))
      end
    end.

(** [open_log]: what the file holds once fopen in append mode succeeds. *)
Definition monitor_setup `{Files} (open_log : string → option (list Z)) (o : opts) : death + sinks :=
  match load_policy o with
  | inl e => inl e
  | inr pol =>
    let s := match pol with
             | None => sinks_of o None None
             | Some (f, pol) =>
               complain_s (PolicyLoaded f (zlen (p_actions pol)) (zlen (p_rules pol)))
                 (sinks_of o None (Some (kgp_init pol)))
             end in
    match o_logfile o with
    | None => inr s
    | Some f =>
      match open_log f with
      | None => inl (LogUnopened f)
      | Some old =>
        inr (Sinks (s_o s) (Some (match old with [] => csv_header | _ => old end)) (s_out s) (s_shown s) (s_eng s)
                   (s_ack_seen s) (s_calls s) (s_emitted s) (s_stop s) (s_proc s))
      end
    end
  end.

Definition told (msg : string) (m : mon) : mon :=
  Mon (m_cursor m) (m_sinks m) (sd_notify_msg (bytes_of msg) (pr_ticks (s_proc (m_sinks m))) (m_service m)).
Definition ready_msg : string := "READY=1" +:+ String (Ascii.ascii_of_nat 10) "STATUS=watching for alerts".

(** From the open connection on: [first] is what the first drain meets. *)
Definition watch (o : opts) (c : conn) (first : env) (rounds : list round) (s : sinks) : option (death + (bool * mon)) :=
  let cursor := start_cursor (o_new_only o) (write_index (c_ring c)) in
  let s := if o_quiet o then s else complain_s (Monitoring (o_device o) (o_once o)) s in
  '(cursor, s) ← drain first (c_key c) cursor s;
  let m := Mon cursor s (Service 0 []) in
  if o_once o then Some (inr (true, m))
  else
    res ← monitor_loop (c_key c) rounds (told ready_msg m);
    Some (match res with
          | inr (true, m) => inr (true, told "STOPPING=1" m)
          | res => res
          end).

Definition cmd_monitor {D} `{Device D} `{Files} (lock_busy : bool) (open_log : string → option (list Z))
    (first : env) (rounds : list round) (o : opts) : cmd D (bool * mon) :=
  if lock_busy then die AlreadyRunning
  else match monitor_setup open_log o with
  | inl e => die e
  | inr s =>
    let! c := conn_open (o_device o) in
    λ d, r ← watch o c first rounds s;
         Some (match r with inl _ => [] | inr (_, m) => s_out (m_sinks m) end, r, d)
  end.
End watch.

(** ** What the policy, the helpers and the service manager leave alone *)
Section keeps.
Context `{Host} `{Manager} `{AckFile}.

Lemma reap_slot_reports use p i : ring_reports (reap_slot use p i) = ring_reports p.
Proof.
  unfold reap_slot, read_clock, free_child. destruct (pr_children p !! i) as [c|]; [|done].
  destruct (c_pid c =? 0); [done|].
  destruct (waitpid_at _ _), use; repeat case_match; unfold ring_reports; cbn; by rewrite ?omap_app, ?app_nil_r.
Qed.
Lemma children_reap_reports use p : ring_reports (children_reap use p) = ring_reports p.
Proof.
  unfold children_reap. generalize (seq 0 MAX_CHILDREN). intros l. revert p.
  induction l as [|i l IH]; intros p; [done|]. cbn. by rewrite IH, reap_slot_reports.
Qed.

Lemma check_ack_same e s :
  same_reader s (policy_check_ack e s) ∧ same_lines s (policy_check_ack e s).
Proof.
  unfold policy_check_ack. destruct (ack_stat _ _) as [[id st]|]; [|by split].
  case_bool_decide; [by split|]. destruct (_ || _).
  { split; [|done]. split; [done|..|done]; unfold s_ovr, s_tamper; cbn; by rewrite omap_app, app_nil_r. }
  destruct (ack_read _ _) as [text|]; [|by split]. destruct (scan_lu text) as [seq|]; [|by split].
  split; [|done]. split; [done|..|done]; unfold s_ovr, s_tamper; cbn;
    destruct (o_use_syslog _); cbn; by rewrite omap_app, app_nil_r.
Qed.
Lemma policy_turn_same s : same_reader s (policy_turn s) ∧ same_lines s (policy_turn s).
Proof.
  unfold policy_turn. destruct (s_eng s) as [e|]; [|done].
  destruct (check_ack_same e s) as [Hr Hl]. set (s1 := policy_check_ack e s) in *. destruct (s_eng s1) as [e1|]; [|done].
  unfold read_clock. cbv beta iota. destruct (kgp_tick e1 _) as [e2 calls]. split; [|by destruct Hl].
  etrans; [exact Hr|]. etrans; [|apply with_proc_same, run_calls_reports]. by split.
Qed.
Lemma watchdog_same p v : ring_reports (watchdog_tick (p, v)).1 = ring_reports p.
Proof. unfold watchdog_tick, read_clock. by repeat case_match. Qed.
End keeps.

Section keeps_helpers.
Context `{HostLaws} `{Manager} `{AckFile}.
Lemma policy_turn_helpers s : helpers_inv (s_proc s) → helpers_inv (s_proc (policy_turn s)).
Proof.
  intros Hp. unfold policy_turn. destruct (s_eng s) as [e|]; [|done].
  assert (Hc : helpers_inv (s_proc (policy_check_ack e s))).
  { unfold policy_check_ack. repeat case_match; cbn; auto with helpers. }
  destruct (s_eng (policy_check_ack e s)) as [e1|]; [|done].
  unfold read_clock. cbv beta iota. destruct (kgp_tick e1 _).
  by apply run_actions_helpers, tick_inv.
Qed.
Lemma watchdog_helpers p v : helpers_inv p → helpers_inv (watchdog_tick (p, v)).1.
Proof. intros Hp. unfold watchdog_tick, read_clock. repeat case_match; cbn; auto with helpers. Qed.
End keeps_helpers.

(** ** Any run *)
Section any_run.
Context `{HostLaws} `{Manager} `{AckFile}.

Lemma drain_loop_cursor fuel e key w cursor s c' s' :
  is_u32 cursor → drain_loop fuel e key w cursor s = Some (c', s') → is_u32 c'.
Proof.
  revert cursor s. induction fuel as [|fuel IH]; intros cursor s Hc; [done|]. cbn [drain_loop].
  destruct (_ || _); [by intros [= <- _]|]. destruct (env_sig e cursor); [by intros [= <- _]|].
  intros (s1 & _ & Hl)%bind_Some. eapply IH; [|exact Hl]. apply u32_range.
Qed.
Lemma drain_cursor e key cursor s c' s' :
  is_u32 cursor → drain e key cursor s = Some (c', s') → is_u32 c'.
Proof. intros Hc. unfold drain. destruct (0 <? _); apply drain_loop_cursor; [apply u32_range|done]. Qed.

(** A drain ends, with the invariant and a 32-bit cursor. *)
Lemma drain_ok base e key cursor s :
  is_u32 (env_w e) → is_u32 cursor → sinks_inv base s →
  ∃ c' s', drain e key cursor s = Some (c', s') ∧ is_u32 c' ∧ sinks_inv base s'.
Proof.
  intros Hw Hc Hs. destruct (drain_total e key cursor s Hw Hc) as [[c' s'] Hd].
  exists c', s'. split_and!; [done|by eapply drain_cursor|by eapply drain_inv].
Qed.

Lemma monitor_round_ok base key r m :
  is_u32 (env_w (rd_env r)) → is_u32 (m_cursor m) → sinks_inv base (m_sinks m) →
  ∃ res, monitor_round key r m = Some res
  ∧ match res with
    | inl e => poll_death (rd_poll r) = Some e
    | inr m' => is_u32 (m_cursor m') ∧ sinks_inv base (m_sinks m')
    end.
Proof.
  intros Hw Hc Hs. unfold monitor_round. destruct (poll_death _) as [e|]; [by eexists|].
  destruct (drain_ok base (rd_env r) key _ _ Hw Hc Hs) as (c' & s' & -> & Hc' & Hs'). bind_simpl.
  set (s2 := with_proc _ s'). destruct (watchdog_tick _) as [p v] eqn:Ew.
  eexists. split; [done|]. split; [done|].
  assert (Hs2 : sinks_inv base s2) by (apply with_proc_inv; [done|]; apply children_reap_inv, Hs').
  assert (Hp2 : helpers_inv (s_proc (policy_turn s2))) by apply policy_turn_helpers, Hs2.
  apply with_proc_inv.
  - apply (inv_same_lines base s2); [done|apply policy_turn_same|done].
  - pose proof (watchdog_helpers (s_proc (policy_turn s2)) (m_service m) Hp2) as Hw2. by rewrite Ew in Hw2.
Qed.

Lemma monitor_loop_ok base key rounds m :
  Forall (λ r, is_u32 (env_w (rd_env r))) rounds → is_u32 (m_cursor m) → sinks_inv base (m_sinks m) →
  ∃ res, monitor_loop key rounds m = Some res
  ∧ match res with
    | inl e => ∃ r, r ∈ rounds ∧ poll_death (rd_poll r) = Some e
    | inr (_, m') => sinks_inv base (m_sinks m')
    end.
Proof.
  intros Hr. revert m. induction Hr as [|r rounds Hr _ IH]; intros m Hc Hs; cbn [monitor_loop].
  - destruct (s_stop _); by eexists.
  - destruct (s_stop _); [by eexists|]. destruct (rd_sig r); [eexists; split; [done|]; by destruct Hs|].
    destruct (monitor_round_ok base key r m Hr Hc Hs) as ([e|m'] & -> & Hres); bind_simpl.
    + eexists. split; [done|]. exists r. split; [apply list_elem_of_here|done].
    + destruct Hres as [Hc' Hs']. destruct (IH m' Hc' Hs') as (res & -> & Hres). eexists. split; [done|].
      destruct res as [e|[b m2]]; [|done]. destruct Hres as (r' & Hin & He). exists r'.
      split; [by apply list_elem_of_further|done].
Qed.

(** What the setup leaves: the log as found, or the header in an empty file. *)
Definition log_base (old : list Z) : list Z := match old with [] => csv_header | _ => old end.
Lemma setup_inv `{Files} open_log o s :
  monitor_setup open_log o = inr s →
  ∃ base, sinks_inv base s ∧ s_o s = o ∧ s_emitted s = [] ∧ s_stop s = false ∧ s_ovr s = [] ∧ s_tamper s = []
  ∧ (∀ l, s_log s = Some l → l = base ∧ ∃ f old, o_logfile o = Some f ∧ open_log f = Some old ∧ base = log_base old).
Proof.
  unfold monitor_setup. destruct (load_policy o) as [e|pol]; [done|].
  set (s0 := match pol with None => _ | Some _ => _ end).
  assert (H0s : ∀ base, sinks_inv base s0 ∧ s_o s0 = o ∧ s_emitted s0 = [] ∧ s_stop s0 = false ∧ s_log s0 = None
                ∧ s_ovr s0 = [] ∧ s_tamper s0 = []).
  { intros base. destruct pol as [[f p]|]; split; try done; (split; [done|by cbn; case_match|done|]);
      try apply complain_inv; apply new_proc_inv. }
  destruct (o_logfile o) as [f|].
  - destruct (open_log f) as [old|] eqn:Eo; [|done]. intros [= <-]. exists (log_base old).
    destruct (H0s (log_base old)) as ([Hl Ho Hs Hp] & E1 & E2 & E3 & E4 & E5 & E6).
    split; [|split_and!; try done; intros l [= <-]; split; [done|by exists f, old]].
    split; try done. cbn. rewrite E2. cbn. intros l [= <-]. by rewrite app_nil_r.
  - intros [= <-]. exists []. destruct (H0s []) as (Hi & E1 & E2 & E3 & E4 & E5 & E6). rewrite E4. by split_and!.
Qed.
End any_run.

(** C10 — The watching monitor, from any setup, on any ring contents (forged, torn, overrun or made up
    by anyone) and whatever fork, waitpid, poll, the clocks and the acknowledgement file answer,
    always gets through any number of rounds, ends otherwise only where poll failed or the device
    reported an error, and in every state has written exactly one CSV line and one screen line
    per emitted alert, in order, after what the log file held, with every helper process
    accounted for. *)
Theorem monitor_accounts `{HostLaws} `{Manager} `{AckFile} `{Files} open_log o c first rounds s :
  monitor_setup open_log o = inr s →
  is_u32 (write_index (c_ring c)) → is_u32 (env_w first) → Forall (λ r, is_u32 (env_w (rd_env r))) rounds →
  ∃ res, watch o c first rounds s = Some res
  ∧ match res with
    | inl e => ∃ r, r ∈ rounds ∧ poll_death (rd_poll r) = Some e
    | inr (_, m) => ∃ base, sinks_inv base (m_sinks m)
    end.
Proof.
  intros Hset Hw0 Hw Hr. destruct (setup_inv open_log o s Hset) as (base & Hs & Ho & _).
  unfold watch. set (s1 := if o_quiet o then s else _).
  assert (Hs1 : sinks_inv base s1) by (unfold s1; case_match; [done|by apply complain_s_inv]).
  assert (Hc0 : is_u32 (start_cursor (o_new_only o) (write_index (c_ring c)))).
  { unfold start_cursor, KG_NOTIFY_SLOTS, is_u32 in *. repeat case_match; bool_props; lia. }
  destruct (drain_ok base first (c_key c) _ s1 Hw Hc0 Hs1) as (c1 & s2 & -> & Hc1 & Hs2). bind_simpl.
  destruct (o_once o); [eexists; split; [done|]; by exists base|].
  destruct (monitor_loop_ok base (c_key c) rounds (told ready_msg (Mon c1 s2 (Service 0 []))) Hr Hc1 Hs2)
    as (res & -> & Hres). bind_simpl. eexists. split; [done|].
  destruct res as [e|[[] m]]; [done|by exists base|by exists base].
Qed.

(** ** Delivery over a run *)

(** The ring at each wake-up, with the log it then holds: at most 16 new notifications each time. *)
Fixpoint grows (log : list kg_notification) (steps : list (kg_shared_region * list kg_notification)) : Prop :=
  match steps with
  | [] => True
  | (r, log') :: steps =>
    ring_holds r log' ∧ log `prefix_of` log' ∧ (length log' ≤ length log + 16)%nat ∧ grows log' steps
  end.
Fixpoint final_log (log : list kg_notification) (steps : list (kg_shared_region * list kg_notification))
  : list kg_notification :=
  match steps with [] => log | (_, log') :: steps => final_log log' steps end.
Definition quiet_round (step : kg_shared_region * list kg_notification) : round :=
  Round false (PollReady false) (quiet_env step.1).

Lemma final_log_prefix log steps : grows log steps → log `prefix_of` final_log log steps.
Proof.
  revert log. induction steps as [|[r log'] steps IH]; intros log; [done|].
  intros (_ & Hp & _ & Hg). cbn. etrans; [exact Hp|by apply IH].
Qed.
Lemma drop_prefix {A} (l l' : list A) k :
  l `prefix_of` l' → (k ≤ length l)%nat → drop k l' = drop k l ++ drop (length l) l'.
Proof.
  intros [r ->] Hk. by rewrite drop_app_le, drop_app_length.
Qed.

Section delivery.
Context `{Host} `{Manager} `{AckFile}.

(** The reader's part of the state after more alerts. *)
Record delivered (s s' : sinks) (ns : list kg_notification) : Prop := Delivered {
  de_emitted : s_emitted s' = s_emitted s ++ ((λ n, (n, true)) <$> ns);
  de_ovr : s_ovr s' = s_ovr s;
  de_tamper : s_tamper s' = s_tamper s;
  de_o : s_o s' = s_o s;
  de_stop : s_stop s' = s_stop s
}.
Lemma delivered_trans s1 s2 s3 l1 l2 : delivered s1 s2 l1 → delivered s2 s3 l2 → delivered s1 s3 (l1 ++ l2).
Proof. intros [] []. split; try congruence. rewrite fmap_app, app_assoc. congruence. Qed.
Lemma delivered_nothing s s' : same_reader s s' → s_emitted s' = s_emitted s → delivered s s' [].
Proof. intros [] He. split; try done. by rewrite app_nil_r. Qed.

Lemma round_delivers key r log k m :
  ring_holds r log → Z.of_nat (length log) < 4294967296 → length key = 32%nat →
  Forall (authentic key) log → Forall (λ n, length (hmac n) = 32%nat) log →
  (k ≤ length log)%nat → (length log ≤ k + 16)%nat → m_cursor m = Z.of_nat k →
  s_max_alerts (m_sinks m) = 0 → s_stop (m_sinks m) = false →
  ∃ m', monitor_round key (quiet_round (r, log)) m = Some (inr m')
  ∧ m_cursor m' = Z.of_nat (length log) ∧ delivered (m_sinks m) (m_sinks m') (drop k log).
Proof.
  intros Hr Hsm Hk Ha Hl Hle Hgap Hc Hmax Hstop. unfold monitor_round, quiet_round. cbn [rd_poll rd_env poll_death fst].
  destruct (drain_at_rest' r log key k (m_sinks m)) as (s1 & Hd & He & Ht & Ho & Hop & Hst); [done..|].
  rewrite Hc, Hd. bind_simpl.
  assert (Hw : write_index r = Z.of_nat (length log))
    by (rewrite (rh_widx _ _ Hr); apply u32_id; unfold is_u32; lia).
  set (s2 := with_proc _ s1). destruct (watchdog_tick _) as [p v] eqn:Ew.
  eexists. split; [done|]. split; [done|]. cbn [m_sinks].
  rewrite <- (app_nil_r (drop k log)). eapply (delivered_trans _ s1).
  - split; [|rewrite Ho, decide_False by lia; apply app_nil_r|done..]. by rewrite He, Nat.max_l by lia.
  - apply delivered_nothing; [|exact (sl_emitted _ _ (proj2 (policy_turn_same s2)))].
    etrans; [apply with_proc_same, (children_reap_reports (o_use_syslog (s_o s1)))|].
    etrans; [apply (proj1 (policy_turn_same s2))|]. apply with_proc_same.
    pose proof (watchdog_same (s_proc (policy_turn s2)) (m_service m)) as Hw2. by rewrite Ew in Hw2.
Qed.

Lemma loop_delivers key steps log m :
  grows log steps → let all := final_log log steps in
  Z.of_nat (length all) < 4294967296 → length key = 32%nat →
  Forall (authentic key) all → Forall (λ n, length (hmac n) = 32%nat) all →
  m_cursor m = Z.of_nat (length log) → s_max_alerts (m_sinks m) = 0 → s_stop (m_sinks m) = false →
  ∃ m', monitor_loop key (quiet_round <$> steps) m = Some (inr (false, m'))
  ∧ delivered (m_sinks m) (m_sinks m') (drop (length log) all).
Proof.
  revert log m. induction steps as [|[r log'] steps IH]; intros log m Hg all Hsm Hk Ha Hl Hc Hmax Hstop.
  - cbn. rewrite Hstop. exists m. split; [done|]. unfold all. cbn. rewrite drop_all.
    by apply delivered_nothing.
  - destruct Hg as (Hr & Hp & Hgap & Hg). pose proof (final_log_prefix log' steps Hg) as Hp'.
    change (final_log log' steps) with all in Hp'. pose proof (prefix_length _ _ Hp).
    pose proof (prefix_length _ _ Hp'). destruct Hp' as [rest Hall]. rewrite Hall in Ha, Hl.
    apply Forall_app in Ha as [Ha' Harest], Hl as [Hl' Hlrest].
    destruct (round_delivers key r log' (length log) m) as (m1 & Hm1 & Hc1 & Hd1); [done|lia|done..|].
    destruct (IH log' m1 Hg) as (m2 & Hm2 & Hd2);
      [change (final_log log' steps) with all; lia|done
      |change (final_log log' steps) with all; rewrite Hall, Forall_app; done
      |change (final_log log' steps) with all; rewrite Hall, Forall_app; done|done
      |unfold s_max_alerts in *; by rewrite (de_o _ _ _ Hd1)|by rewrite (de_stop _ _ _ Hd1)|].
    exists m2. rewrite fmap_cons. cbn [monitor_loop]. rewrite Hstop. cbn [rd_sig quiet_round]. fold (quiet_round (r, log')).
    rewrite Hm1. bind_simpl. split; [exact Hm2|].
    rewrite (drop_prefix log' all (length log)) by (by exists rest || lia). by eapply delivered_trans.
Qed.
End delivery.


(** ** Examples *)
Definition sample_manager : Manager :=
  {| getenv v := if bool_decide (v = "NOTIFY_SOCKET") then Some "@sd" else if bool_decide (v = "WATCHDOG_USEC")
                 then Some "30000000" else None; sd_socket _ := true |}.
Definition no_ack : AckFile := {| ack_stat _ _ := None; ack_read _ _ := None |}.
Definition log_opts : opts :=
  Opts "/dev/kernelguard" (Some "/var/log/kg.csv") None None None false true true false false false 0.
Definition log_sinks : sinks := Sinks log_opts (Some csv_header) [] 0 None (0, 0, 0) [] [] false new_proc.

(** A page on which no slot is ever readable, then a device that reports an error. *)
Definition unreadable : env :=
  Env 20 (λ _ _, Loads zero_notification (λ _, zero_notification) zero_notification) (λ _, 20) (λ _, false).
Lemma monitor_accounts_witness :
  ∃ res, @watch sample_host sample_manager no_ack log_opts (Conn sample_key empty_ring) unreadable
           [Round false PollTimeout unreadable; Round false (PollReady true) unreadable] log_sinks = Some res
  ∧ match res with
    | inl e => ∃ r, r ∈ [Round false PollTimeout unreadable; Round false (PollReady true) unreadable]
                    ∧ poll_death (rd_poll r) = Some e
    | inr (_, m) => ∃ base, @sinks_inv sample_host base (m_sinks m)
    end.
Proof.
  apply (@monitor_accounts sample_host sample_host_laws sample_manager no_ack no_files (λ _, Some []) log_opts);
    [reflexivity|by compute|by compute|repeat apply Forall_cons_2; [..|apply Forall_nil_2]; by compute].
Defined.

Definition sample_conn : conn := Conn sample_key (sample_ring 3).
