(* ===== verification/KgmonCmd.v ===== *)
(** * The other commands of kgmon (linux/monitor/kgmon.c, 905-1285)

    [status], [posture], [ack], [policy check], [modid], [selftest] and [run].  Commands run in
    the monad of Kgmon.v; what they do to the file system or to the process (the
    acknowledgement file, prctl, exec) is returned as the sequence of calls. *)
From stdpp Require Import gmap.
From S2P Require Import Prelude Text Sha256 Uapi Kernel Machine Guard Comms Posture Modgate Main System PolicyParse Policy Bytes Modid KgmonText KgmonChild Monitor Kgmon.
Local Open Scope string_scope.
Local Open Scope list_scope.
Local Open Scope Z_scope.

(** ** kgmon status *)
Definition on_off (b : bool) : list Z := bytes_of (if b then "on" else "off").

Definition gate_lines (mg : kg_modgate_info_t) : list (list Z) :=
  (if has_bit (mi_flags mg) 1 then
     [bytes_of "  module gate     : " ++ bytes_of (if has_bit (mi_flags mg) 4 then "refusing" else "detect-only")
      ++ bytes_of ", deny " ++ fmt_u (mi_n_deny mg) ++ bytes_of ", allow " ++ fmt_u (mi_n_allow mg)
      ++ bytes_of ", lock " ++ on_off (has_bit (mi_flags mg) 2) ++ bytes_of " (baseline " ++ fmt_u (mi_n_baseline mg)
      ++ bytes_of ")";
      bytes_of "  gate counters   : denied " ++ fmt_u (mi_deny_hits mg) ++ bytes_of ", refused " ++ fmt_u (mi_blocked mg)
      ++ bytes_of ", lock hits " ++ fmt_u (mi_lock_hits mg) ++ bytes_of ", ignored entries " ++ fmt_u (mi_ignored mg)]
   else [bytes_of "  module gate     : off (modgate=0)"])
  ++ (if has_bit (mi_flags mg) 8
      then [bytes_of "  load policy     : " ++ load_policy_text (mi_lp_mask mg) (mi_lp_raw mg) 128] else []).

Definition info_lines (i : kg_info) : list (list Z) :=
  let f := has_bit (if_flags i) in
  [bytes_of "  modules         : pmu=" ++ on_off (f KG_INFO_PMU_ACTIVE) ++ bytes_of "  pci-ecam="
   ++ on_off (f KG_INFO_ECAM_ACTIVE) ++ bytes_of "  text=" ++ on_off (f KG_INFO_TEXT_ACTIVE) ++ bytes_of "  input="
   ++ on_off (f KG_INFO_INPUT_ACTIVE);
   bytes_of "  monitored       : " ++ fmt_u (if_text_regions i) ++ bytes_of " text region(s) / "
   ++ fmt_u (if_text_kib i) ++ bytes_of " KiB baseline, " ++ fmt_u (if_pci_devices i) ++ bytes_of " PCI device(s), "
   ++ fmt_u (if_kbd_devices i) ++ bytes_of " keyboard(s)";
   bytes_of "  hardware        : SMT=" ++ yes_no (f KG_INFO_SMT) ++ bytes_of "  L3-CAT="
   ++ bytes_of (if f KG_INFO_CAT_L3 then "yes (manage via resctrl)" else "no")].

Definition cpu_line (cpu : Z) (ci : kg_cpu_info) : list Z :=
  let f := has_bit (ci_features ci) in
  bytes_of "  " ++ pad_right 4 (fmt_u cpu) ++ bytes_of " " ++ pad_right 7 (bytes_of "yes") ++ bytes_of " "
  ++ pad_right 13 (strategy_text (ci_strategy ci)) ++ bytes_of "("
  ++ pad_right 13 (strategy_text (ci_base_strategy ci)) ++ bytes_of ") " ++ pad_left 4 (fmt_u (ci_flush_cost_ns ci))
  ++ bytes_of "ns  0x" ++ fmt_x 4 (ci_features ci)
  ++ when (f KG_FEAT_VERW_FLUSH) " md_clear" ++ when (f KG_FEAT_L1D_FLUSH) " l1d_flush"
  ++ when (f KG_FEAT_IBPB) " ibpb" ++ when (f KG_FEAT_MDS_NO) " mds_no" ++ when (f KG_FEAT_RDCL_NO) " rdcl_no".

Definition counter_names : list (Kernel.stat * string) :=
  [(pmu_alert_level, "pmu_alert_level"); (pmu_l1d_overflows, "pmu_l1d_overflows");
   (pmu_llc_overflows, "pmu_llc_overflows"); (hw_discrepancy_count, "hw_discrepancy_count");
   (hw_dma_violation_count, "hw_dma_violation_count"); (idt_hook_detected, "idt_hook_detected");
   (dispatch_hook_detected, "dispatch_hook_detected"); (text_patch_detected, "text_patch_detected");
   (text_dynamic_patches, "text_dynamic_patches"); (failed_module_hash_count, "failed_module_hash_count");
   (total_flush_count, "total_flush_count"); (active_mitigation_flags, "active_mitigation_flags");
   (notifications_sent, "notifications_sent"); (notifications_dropped, "notifications_dropped");
   (fallback_signals_sent, "fallback_signals_sent"); (sens_page_count, "sens_page_count")].
Definition counter_line (i : kg_info) (c : Kernel.stat * string) : list Z :=
  bytes_of "    " ++ pad_right 26 (bytes_of c.2) ++ bytes_of " " ++ fmt_u (if_stats i c.1).

Section status.
Context {D : Type} `{Device D}.

(** The first online CPU with a plan; an ioctl that fails ends the search. *)
Fixpoint cat_plan (cpus : list Z) : cmd D unit :=
  match cpus with
  | [] => cret tt
  | cpu :: cpus =>
    let! r := ask (get_cpu_info cpu) in
    match r with
    | inl _ => cret tt
    | inr ci =>
      if ci_online ci && negb (ci_cat_ways ci =? 0) then
        print (bytes_of "  L3 CAT plan     : " ++ fmt_u (ci_cat_ways ci) ++ bytes_of " ways; sensitive mask 0x"
               ++ fmt_x 1 (ci_cat_sensitive_cbm ci) ++ bytes_of ", default mask 0x" ++ fmt_x 1 (ci_cat_default_cbm ci)
               ++ bytes_of " (apply with resctrl)")
      else cat_plan cpus
    end
  end.
Fixpoint cpu_table (cpus : list Z) : cmd D unit :=
  match cpus with
  | [] => cret tt
  | cpu :: cpus =>
    let! r := ask (get_cpu_info cpu) in
    match r with
    | inl _ => cret tt
    | inr ci => (if ci_online ci then print (cpu_line cpu ci) else cret tt) ;;! cpu_table cpus
    end
  end.

Definition cmd_status (o : opts) : cmd D Z :=
  let! c := conn_open (o_device o) in
  let! r := ask get_info in
  let! i := or_die InfoFailed r in
  let f := has_bit (if_flags i) in
  let cpus := Z.of_nat <$> seq 0 (Z.to_nat (if_nr_cpus i)) in
  prints [bytes_of "KernelGuard " ++ c_string (if_version i) ++ bytes_of " (ABI " ++ fmt_u (if_abi_version i) ++ bytes_of ")";
          bytes_of "  mode            : " ++ bytes_of (if f KG_INFO_ENFORCE then "ENFORCE" else "detect-only")
          ++ when (f KG_INFO_FAIL_SAFE) "  *** FAIL-SAFE ***";
          bytes_of "  state integrity : " ++ bytes_of (if f KG_INFO_INTEGRITY_OK then "ok" else "CORRUPT")] ;;!
  let! p := ask get_posture in
  (match p with
   | inl _ => cret tt
   | inr pi => print (bytes_of "  posture         : " ++ posture_text (pi_cur pi) ++ bytes_of "  (details: kgmon posture)")
   end) ;;!
  let! g := ask get_modgate in
  prints (match g with inl _ => [] | inr mg => gate_lines mg end) ;;!
  prints (info_lines i) ;;!
  (if f KG_INFO_CAT_L3 then cat_plan cpus else cret tt) ;;!
  prints [[]; bytes_of "  cpu  online  strategy(base)          cost   features"] ;;!
  cpu_table cpus ;;!
  prints ([] :: bytes_of "  counters" :: (counter_line i <$> counter_names)) ;;!
  cret 0.
End status.

(** ** kgmon posture *)
Section posture_cmd.
Context `{Host}.

Definition posture_line (pi : kg_posture_info_t) : list Z :=
  bytes_of "posture          : " ++ posture_text (pi_cur pi) ++ bytes_of "  (since " ++ ts_string (pi_since_ns pi)
  ++ bytes_of ", entered "
  ++ fmt_u (pi_entered pi !!! Z.to_nat (if pi_cur pi <? KG_POSTURE_COUNT then pi_cur pi else 0)) ++ bytes_of "x)".
Definition posture_lines (pi : kg_posture_info_t) : list (list Z) :=
  [posture_line pi;
   bytes_of "last trigger     : "
   ++ (if pi_last_trigger_ns pi =? 0 then bytes_of "none"
       else alert_text (pi_last_trigger_alert pi) ++ bytes_of "  at " ++ ts_string (pi_last_trigger_ns pi));
   bytes_of "automatic raises : up to " ++ posture_text (pi_max pi)
   ++ (if pi_decay_s pi =? 0 then bytes_of "; ELEVATED never decays by itself"
       else bytes_of "; ELEVATED falls back to NORMAL after " ++ fmt_u (pi_decay_s pi)
            ++ bytes_of " s without a trigger");
   bytes_of "enforcement      : " ++ bytes_of (if has_bit (pi_flags pi) KG_POSTURE_F_ENFORCING then "ACTIVE" else "detect-only")
   ++ when (has_bit (pi_flags pi) KG_POSTURE_F_AUTO_ENFORCE) " (auto_enforce: switches on at HIGH)";
   bytes_of "scan intervals   : PCI/input " ++ fmt_u (pi_hw_interval_ms pi) ++ bytes_of " ms, integrity "
   ++ fmt_u (pi_integ_interval_ms pi) ++ bytes_of " ms"]
  ++ (if has_bit (pi_flags pi) KG_POSTURE_F_UNTRUSTED
      then [bytes_of "WARNING          : the policy state was corrupted; the posture cannot be lowered, reload the module"]
      else [])
  ++ [bytes_of "entered          : normal " ++ fmt_u (pi_entered pi !!! 0%nat) ++ bytes_of "  elevated "
      ++ fmt_u (pi_entered pi !!! 1%nat) ++ bytes_of "  high " ++ fmt_u (pi_entered pi !!! 2%nat)
      ++ bytes_of "  fail-safe " ++ fmt_u (pi_entered pi !!! 3%nat)].

(** The SET_POSTURE ioctl. *)
Definition request_posture {D} `{Device D} (target : Z) : cmd D (option errno) := λ d,
  '(r, d) ← set_posture target d; Some ([], inr r, d).

Definition request_level {D} `{Device D} (level : string) : cmd D unit :=
  let want := parse_posture (bytes_of level) in
  if want <? 0 then die (UnknownPosture level)
  else
    let! r := request_posture want in
    match r with
    | None => cret tt
    | Some e => die (if bool_decide (e = EUCLEAN) then PostureUntrusted else PostureRefused e)
    end.
Definition show_posture {D} `{Device D} : cmd D Z :=
  let! p := ask get_posture in
  let! pi := or_die PostureUnread p in
  prints (posture_lines pi) ;;!
  cret 0.

Definition cmd_posture {D} `{Device D} (o : opts) (args : list string) : cmd D Z :=
  match args with
  | a :: rest =>
    if negb (bool_decide (a = "set")) then die PostureUsage
    else match rest with [_] => cret tt | _ => die PostureSetUsage end
  | [] => cret tt
  end ;;!
  let! c := conn_open (o_device o) in
  match args with [_; level] => request_level level | _ => cret tt end ;;!
  show_posture.
End posture_cmd.

(** *** Against the loaded module *)
Section against_module.
Context `{CryptoLaws} `{Platform}.

Lemma cbind_ret {D A B} (m : cmd D A) (f : A → cmd D B) d a d1 :
  m d = Some ([], inr a, d1) → cbind m f d = f a d1.
Proof. intros Hm. unfold cbind. rewrite Hm. bind_simpl. by destruct (f a d1) as [[[o r] d2]|]. Qed.
Lemma cbind_die {D A B} (m : cmd D A) (f : A → cmd D B) d o e d1 :
  m d = Some (o, inl e, d1) → cbind m f d = Some (o, inl e, d1).
Proof. intros Hm. unfold cbind. by rewrite Hm. Qed.

Lemma module_key cap k c :
  wcomms (k_world k) = Some c →
  @get_hmac_key _ (module_device cap true) k = if cap then inr (take 32 (key c)) else inl EPERM.
Proof.
  intros Hc. cbn [get_hmac_key module_device]. unfold ioctl_reply. cbn [kg_ioctl]. unfold kg_comms_get_key.
  rewrite Hc. by destruct cap.
Qed.
Lemma conn_open_module cap k c :
  wcomms (k_world k) = Some c →
  @conn_open _ (module_device cap true) "/dev/kernelguard" k
  = Some ([], if cap then inr (Conn (take 32 (take 32 (key c))) (ring c)) else inl (KeyRefused EPERM), k).
Proof.
  intros Hc. unfold conn_open. erewrite cbind_ret by reflexivity. erewrite cbind_ret by reflexivity.
  erewrite cbind_ret by reflexivity. rewrite (module_key cap k c Hc). destruct cap; [|done].
  erewrite cbind_ret by reflexivity. erewrite cbind_ret by reflexivity. cbn [dev_mmap module_device]. rewrite Hc. done.
Qed.
Lemma prints_all {D} lines (d : D) : prints lines d = Some (lines, inr tt, d).
Proof. induction lines as [|l lines IH]; [done|]. cbn. unfold cbind. cbn. by rewrite IH. Qed.

Lemma show_posture_module `{Host} cap k :
  @show_posture _ _ (module_device cap true) k = Some (posture_lines (kg_posture_info (k_world k)), inr 0, k).
Proof.
  unfold show_posture. erewrite cbind_ret by reflexivity. cbn [get_posture module_device]. unfold ioctl_reply.
  cbn [kg_ioctl copy_to_user c_copy_out]. erewrite cbind_ret by reflexivity.
  unfold cbind at 1. rewrite prints_all. cbn [mbind option_bind cret]. by rewrite app_nil_r.
Qed.

(** The step itself, as root. *)
Lemma request_level_module `{Host} mb k level :
  sys_inv mb k →
  let w := k_world k in
  let want := parse_posture (bytes_of level) in
  ∃ res k', @request_level _ (module_device true true) level k = Some ([], res, k')
  ∧ if want <? 0 then res = inl (UnknownPosture level) ∧ k' = k
    else if (want <? kg_posture w) && (KG_POSTURE_HIGH <=? kg_posture w) && pos_untrusted (wpos w)
    then res = inl PostureUntrusted ∧ k' = k
    else res = inr tt ∧ kg_posture (k_world k') = want.
Proof.
  intros Hk w want. destruct (sy_up _ _ Hk) as [_ Hready].
  unfold request_level. fold want. destruct (want <? 0) eqn:Ew; [by eexists _, k|].
  pose proof (parse_posture_range (bytes_of level)) as Hrange. fold want in Hrange. apply Z.ltb_ge in Ew.
  destruct (posture_set_table want w) as (r & w' & Hset & _ & Htab); [apply (sy_sound _ _ Hk)|done|].
  assert (Hreq : @request_posture _ (module_device true true) want k = Some ([], inr r, with_world w' k)).
  { unfold request_posture. cbn [set_posture module_device kg_ioctl c_cap_sys_admin c_req_arg negb Z.eqb].
    fold w. rewrite Hset. by bind_simpl. }
  erewrite cbind_ret by exact Hreq.
  rewrite (proj2 (Z.leb_gt _ _)) in Htab by lia. unfold w in Htab at 1. rewrite Hready in Htab. cbn [negb] in Htab.
  destruct (want =? kg_posture w) eqn:Eq; [|destruct (_ && _)]; destruct Htab as [-> Hw].
  - apply Z.eqb_eq in Eq. rewrite Hw, (proj2 (Z.ltb_ge _ _)) by lia. by eexists _, _.
  - subst w'. rewrite bool_decide_true by done. eexists _, _. split; [done|]. split; [done|]. by destruct k.
  - by eexists _, _.
Qed.
End against_module.

(** C25 — [kgmon posture set LEVEL] against the loaded module: without CAP_SYS_ADMIN it ends at the key,
    an unknown level changes nothing, a module whose policy state was found corrupted refuses to
    be lowered from HIGH or above and kgmon says so, and otherwise the module stands at exactly
    the level asked for and the command prints that posture. *)
Theorem posture_set_command `{CryptoLaws} `{Platform} `{Host} mb cap k level :
  sys_inv mb k →
  let w := k_world k in
  let want := parse_posture (bytes_of level) in
  ∃ out res k', @cmd_posture _ _ (module_device cap true) default_opts ["set"; level] k = Some (out, res, k')
  ∧ if negb cap then res = inl (KeyRefused EPERM) ∧ k' = k
    else if want <? 0 then res = inl (UnknownPosture level) ∧ k' = k
    else if (want <? kg_posture w) && (KG_POSTURE_HIGH <=? kg_posture w) && pos_untrusted (wpos w)
    then res = inl PostureUntrusted ∧ k' = k
    else res = inr 0 ∧ kg_posture (k_world k') = want ∧ out = posture_lines (kg_posture_info (k_world k')).
Proof.
  intros Hk w want. destruct (sy_up _ _ Hk) as [Hup _]. destruct (wcomms (k_world k)) as [c|] eqn:Hc; [|done].
  unfold cmd_posture. erewrite cbind_ret by reflexivity. destruct cap; cbn [negb].
  2:{ erewrite cbind_die by apply (conn_open_module false k c Hc). by eexists _, _, k. }
  erewrite cbind_ret by apply (conn_open_module true k c Hc).
  destruct (request_level_module mb k level Hk) as (res & k' & Hs & Hres). fold w want in Hres.
  destruct res as [e|[]].
  - erewrite cbind_die by exact Hs. eexists _, _, k'. split; [done|].
    destruct (want <? 0); [destruct Hres; split; congruence|]. destruct (_ && _); [destruct Hres; split; congruence|naive_solver].
  - erewrite cbind_ret by exact Hs. rewrite show_posture_module. eexists _, _, k'. split; [done|].
    destruct (want <? 0); [naive_solver|]. destruct (_ && _); naive_solver.
Qed.

Lemma posture_set_command_witness :
  ∃ out res k', @cmd_posture sample_host _ (@module_device sha_api two_cpus true true) default_opts ["set"; "high"]
                  (core_k KG_POSTURE_NORMAL) = Some (out, res, k')
  ∧ res = inr 0 ∧ kg_posture (k_world k') = KG_POSTURE_HIGH ∧ out = @posture_lines sample_host (kg_posture_info (k_world k')).
Proof.
  destruct (core_k_policy KG_POSTURE_NORMAL) as (Hp & _ & Hu); [by compute|].
  destruct (@posture_set_command sha_api sha_api_laws two_cpus sample_host 128 true (core_k KG_POSTURE_NORMAL) "high")
    as (out & res & k' & Hrun & Hres); [apply core_k_inv; by compute|].
  exists out, res, k'. split; [exact Hrun|]. rewrite Hp, Hu, andb_false_r in Hres. exact Hres.
Defined.

(** ** kgmon ack *)

(** What the command does to the file system, in order; [fop_ok] says which calls succeed. *)
Inductive file_op :=
  | Mkdir (path : list Z) | CreateTrunc (path : list Z) | Chmod600 (path : list Z)
  | Append (path : list Z) (text : list Z) | Rename (from to : list Z).

(** The part before the last slash, if there is one that is not the first character. *)
Fixpoint before_last (c : Z) (l : list Z) : option (list Z) :=
  match l with
  | [] => None
  | b :: l => match before_last c l with
              | Some p => Some (b :: p)
              | None => if b =? c then Some [] else None
              end
  end.
Definition ack_ops (path : string) (w : Z) : list file_op :=
  let tmp := truncate 256 (bytes_of path ++ bytes_of ".tmp") in
  match before_last 47 tmp with Some (b :: d) => [Mkdir (b :: d)] | _ => [] end
  ++ [CreateTrunc tmp; Chmod600 tmp; Append tmp (fmt_u (w - 1) ++ [10]); Rename tmp (bytes_of path)].

Definition cmd_ack {D} `{Device D} (fop_ok : file_op → bool) (o : opts) : cmd D (list file_op) :=
  let path := default DEF_ACK_FILE (o_ack_file o) in
  let! c := conn_open (o_device o) in
  let w := write_index (c_ring c) in
  if w =? 0 then print (bytes_of "nothing to acknowledge: the driver has raised no alerts yet") ;;! cret []
  else
    let ops := ack_ops path w in
    if negb (forallb (λ op, match op with CreateTrunc _ => fop_ok op | _ => true end) ops) then die (AckUnwritten path)
    else if negb (forallb (λ op, match op with Append _ _ | Rename _ _ => fop_ok op | _ => true end) ops)
    then die (AckNotUpdated path)
    else print (bytes_of "acknowledged alerts up to sequence " ++ fmt_u (w - 1)) ;;! cret ops.

(** Files by path, for what the calls leave. *)
Definition do_file_op (fs : gmap (list Z) (list Z)) (op : file_op) : gmap (list Z) (list Z) :=
  match op with
  | Mkdir _ | Chmod600 _ => fs
  | CreateTrunc p => <[p := []]> fs
  | Append p t => <[p := default [] (fs !! p) ++ t]> fs
  | Rename a b => match fs !! a with Some t => <[b := t]> (delete a fs) | None => fs end
  end.

(** *** The monitor reads what the command wrote *)
Lemma digit_chars (Q : Ascii.ascii → Z → Prop) :
  (∀ n, (n < 10)%nat → Q (Ascii.ascii_of_nat (48 + n)) (48 + Z.of_nat n)) →
  ∀ b, 48 ≤ b ≤ 57 → Q (Ascii.ascii_of_nat (Z.to_nat b)) b.
Proof.
  intros HQ b Hb. replace b with (48 + Z.of_nat (Z.to_nat (b - 48))) by lia.
  replace (Z.to_nat (48 + Z.of_nat (Z.to_nat (b - 48)))) with (48 + Z.to_nat (b - 48))%nat by lia. apply HQ. lia.
Qed.
Ltac each_digit := intros n Hn; do 10 (destruct n as [|n]; [by vm_compute|]); lia.
Lemma digit_char b : 48 ≤ b ≤ 57 → digit_val 10 (Ascii.ascii_of_nat (Z.to_nat b)) = Some (b - 48).
Proof. apply (digit_chars (λ c b, digit_val 10 c = Some (b - 48))). each_digit. Qed.
(** A digit is neither space nor sign. *)
Lemma digit_start b : 48 ≤ b ≤ 57 → let c := Ascii.ascii_of_nat (Z.to_nat b) in
  isspace c = false ∧ ascii_eqb c (Ascii.ascii_of_nat 45) = false ∧ ascii_eqb c (Ascii.ascii_of_nat 43) = false.
Proof.
  apply (digit_chars (λ c b, isspace c = false ∧ ascii_eqb c (Ascii.ascii_of_nat 45) = false
                             ∧ ascii_eqb c (Ascii.ascii_of_nat 43) = false)). each_digit.
Qed.
Lemma strto_digits_read l rest n v :
  Forall (λ b, 48 ≤ b ≤ 57) l → (∀ c r, rest = String c r → digit_val 10 c = None) →
  strto_digits 10 (string_of l +:+ rest) n v
  = ((n + length l)%nat, foldl (λ v b, v * 10 + (b - 48)) v l, rest).
Proof.
  intros Hl Hr. revert n v. induction Hl as [|b l Hb _ IH]; intros n v.
  - rewrite Nat.add_0_r. destruct rest as [|c r]; [done|].
    change (strto_digits 10 (String c r) n v = (n, v, String c r)). cbn [strto_digits]. by rewrite (Hr c r).
  - change (string_of (b :: l) +:+ rest) with (String (Ascii.ascii_of_nat (Z.to_nat b)) (string_of l +:+ rest)).
    cbn [strto_digits]. rewrite digit_char, IH by done. cbn [length foldl]. do 2 f_equal. lia.
Qed.

Lemma strtoul_decimal l rest :
  Forall (λ b, 48 ≤ b ≤ 57) l → l ≠ [] → value10 l ≤ ULONG_MAX →
  (∀ c r, rest = String c r → digit_val 10 c = None) →
  strtoul 10 (string_of l +:+ rest) = (value10 l, rest, false).
Proof.
  intros Hl Hne Hv Hr. destruct l as [|b l]; [done|].
  destruct (digit_start b) as (Hsp & Hm & Hp); [by inversion Hl|].
  pose proof (strto_digits_read (b :: l) rest O 0 Hl Hr) as Hd.
  change (string_of (b :: l) +:+ rest) with (String (Ascii.ascii_of_nat (Z.to_nat b)) (string_of l +:+ rest)) in *.
  revert Hd Hsp Hm Hp. generalize (Ascii.ascii_of_nat (Z.to_nat b)). intros c Hd Hsp Hm Hp.
  unfold strtoul. cbn [skip_space]. rewrite Hsp.
  change (ascii_eqb c (Ascii.Ascii true false true true false true false false)) with (ascii_eqb c (Ascii.ascii_of_nat 45)).
  change (ascii_eqb c (Ascii.Ascii true true false true false true false false)) with (ascii_eqb c (Ascii.ascii_of_nat 43)).
  rewrite Hm, Hp.
  match goal with |- context [strto_digits 10 ?s3 O 0] =>
    replace s3 with (String c (string_of l +:+ rest)) end.
  - rewrite Hd. cbn [length Nat.add]. change (foldl _ 0 (b :: l)) with (value10 (b :: l)).
    by rewrite (proj2 (Z.ltb_ge _ _)).
  - generalize (string_of l +:+ rest). intros t. destruct c as [[] [] [] [] [] [] [] []]; try reflexivity.
    by destruct t as [|x [|d r]].
Qed.

Lemma string_of_app l1 l2 : string_of (l1 ++ l2) = string_of l1 +:+ string_of l2.
Proof. unfold string_of. rewrite fmap_app. induction l1 as [|b l1 IH]; [done|]. cbn. by rewrite IH. Qed.
Lemma ack_text_scans n : is_u64 n → scan_lu (string_of (fmt_u n ++ [10])) = Some n.
Proof.
  intros Hn. assert (Hd : Forall (λ b, 48 ≤ b ≤ 57) (fmt_u n)) by (apply digits_decimal; unfold is_u64 in Hn; lia).
  assert (Hne : fmt_u n ≠ []) by apply digits_nonempty.
  unfold scan_lu. rewrite string_of_app, strtoul_decimal; [|done..| |].
  - rewrite fmt_u_value by done. rewrite bool_decide_false; [done|].
    destruct (fmt_u n) as [|b l]; [done|]. intros Heq.
    change (String (Ascii.ascii_of_nat 10) "" = String (Ascii.ascii_of_nat (Z.to_nat b)) (string_of l +:+ string_of [10])) in Heq.
    injection Heq as Hc _. inversion Hd as [|?? Hb _]. pose proof (digit_char b Hb) as Hv. by rewrite <- Hc in Hv.
  - rewrite fmt_u_value by done. unfold is_u64, ULONG_MAX in *. lia.
  - intros c r [= <- <-]. by vm_compute.
Qed.

Lemma ack_ops_leave path w fs :
  foldl do_file_op fs (ack_ops path w) !! bytes_of path = Some (fmt_u (w - 1) ++ [10]).
Proof.
  unfold ack_ops. rewrite foldl_app. set (tmp := truncate 256 _). set (fs1 := foldl _ fs _). cbn [foldl do_file_op].
  rewrite !lookup_insert_eq. done.
Qed.

Lemma kgp_ack_covers e seq i :
  i ∈ e_inc (kgp_ack e seq) → in_used i = true → 0 ≤ s32 (seq - in_last_seq i) → in_acked i = true.
Proof.
  unfold kgp_ack. cbn. intros (j & -> & _)%list_elem_of_fmap. destruct (in_used j && _) eqn:E; [done|].
  intros Hu Hs. rewrite Hu, (proj2 (Z.leb_le _ _)) in E by done. done.
Qed.


(** A device with three notifications in its ring, and the file as the command leaves it. *)
Definition three_alerts : kg_shared_region := Region 3 0 3 0 (replicate 16 zero_notification).
Definition sample_device : Device unit := {|
  dev_open _ _ := inr tt; dev_mmap _ := inr three_alerts; get_hmac_key _ := inr sample_key;
  get_info _ := inl ENODEV; get_cpu_info _ _ := inl ENODEV; get_posture _ := inl ENODEV; get_modgate _ := inl ENODEV;
  set_posture _ _ := None
|}.
Definition acked_file : AckFile := {|
  ack_stat _ _ := Some (7, 8, 9, FileStat true false false false 0 2);
  ack_read _ _ := Some (string_of (fmt_u 2 ++ [10]))
|}.

(** ** kgmon policy check *)
Definition rule_line (r : kgp_rule) : list Z :=
  bytes_of "  rule " ++ pad_right 16 (bytes_of (r_name r)) ++ bytes_of " level>="
  ++ pad_right 8 (bytes_of (kgp_level_name (r_min_level r))) ++ bytes_of " "
  ++ when (negb (r_repeat_n r =? 0)) "repeat " ++ when (negb (r_unacked_s r =? 0)) "unacked".

(** The error is written to the standard error and is the value here. *)
Definition cmd_policy {D} `{Files} (o : opts) (args : list string) : cmd D ((option Z * parse_error) + kgp_policy) :=
  match args with
  | [] => die PolicyUsage
  | a :: rest =>
    if negb (bool_decide (a = "check")) || (1 <? zlen rest) then die PolicyUsage
    else
      let path := match rest with f :: _ => f | [] => default DEF_POLICY (o_policy_file o) end in
      match kgp_load_file path with
      | inl e => cret (inl e)
      | inr pol =>
        prints ((bytes_of (path +:+ ": ok, ") ++ fmt_d (zlen (p_actions pol)) ++ bytes_of " action(s), "
                 ++ fmt_d (zlen (p_rules pol)) ++ bytes_of " rule(s)") :: (rule_line <$> p_rules pol)) ;;!
        cret (inr pol)
      end
  end.

(** ** kgmon modid *)
Definition MODID_MAX_BYTES : Z := 268435456.

(** What the next call of read does: an error, or up to [n] bytes. *)
Inductive read_step := ReadErr (e : Z) | ReadUpTo (n : Z).

(** One call with room for [room] bytes of a file of which [rest] is still to come; after the
    script the calls return all that fits. *)
Definition read_call (script : list read_step) (room : Z) (rest : list Z) : Z + Z :=
  match script with
  | ReadErr e :: _ => inl e
  | ReadUpTo n :: _ => inr (Z.min (Z.min n room) (zlen rest))
  | [] => inr (Z.min room (zlen rest))
  end.

(** The loop, with [len] bytes in a buffer of [cap]; the result is the number of bytes read. *)
Fixpoint read_loop (fuel : nat) (alloc_ok : Z → bool) (path : string) (script : list read_step) (cap len : Z) (rest : list Z)
  : option (death + Z) :=
  match fuel with
  | O => None
  | S fuel =>
    if (len =? cap) && (MODID_MAX_BYTES <=? cap) then Some (inl (FileTooLarge path))
    else
      let cap' := if len =? cap then cap * 2 else cap in
      if (len =? cap) && negb (alloc_ok cap') then Some (inl OutOfMemory)
      else match read_call script (cap' - len) rest with
      | inl e =>
        if e =? EINTR then read_loop fuel alloc_ok path (tail script) cap' len rest else Some (inl (FileFailed path e))
      | inr n =>
        if n =? 0 then Some (inr len)
        else read_loop fuel alloc_ok path (tail script) cap' (len + n) (drop (Z.to_nat n) rest)
      end
  end.

(** [open_file]: the errno of open, or the contents; "-" is the standard input. *)
Definition read_module_file (open_file : string → Z + list Z) (alloc_ok : Z → bool) (script : list read_step)
    (path : string) : option (death + list Z) :=
  match open_file path with
  | inl e => Some (inl (FileFailed path e))
  | inr data =>
    if negb (alloc_ok 1048576) then Some (inl OutOfMemory)
    else
      r ← read_loop (length script + 11) alloc_ok path script 1048576 0 data;
      Some (match r with inl e => inl e | inr len => inr (take (Z.to_nat len) data) end)
  end.

Definition kg_modid_strerror (e : modid_error) : list Z :=
  bytes_of match e with
  | KG_MODID_E_COMPRESSED => "compressed module: decompress it first (for example `zstd -dc x.ko.zst | kgmon modid -`)"
  | KG_MODID_E_NOT_ELF => "not an ELF file"
  | KG_MODID_E_UNSUPPORTED => "not a 64-bit little-endian relocatable object (.ko)"
  | KG_MODID_E_BAD_ELF => "damaged ELF: a header or section points outside the file"
  | KG_MODID_E_NO_MODINFO => "no .modinfo section: not a kernel module"
  | KG_MODID_E_NO_NAME => ".modinfo has no name= entry"
  | KG_MODID_E_BAD_FIELD => "a .modinfo field is too long or has characters the gate would not accept"
  | _ => "unknown error"
  end.

Definition or_text (s : list Z) (none : string) : list Z := match s with [] => bytes_of none | _ => s end.
Definition modid_lines (m : kg_modid) (entry : list Z) : list (list Z) :=
  [bytes_of "module      : " ++ id_name m;
   bytes_of "srcversion  : " ++ or_text (id_srcversion m) "(none: an entry matches every version)";
   bytes_of "version     : " ++ or_text (id_version m) "(none)";
   bytes_of "vermagic    : " ++ or_text (id_vermagic m) "(none)";
   bytes_of "signature   : " ++ bytes_of (if id_sig_marker m then "appended (the kernel checks it at load)"
                                          else "not appended (refused when the kernel enforces signatures)");
   bytes_of "sha256      : " ++ mjoin (fmt_x 2 <$> id_sha256 m);
   bytes_of "mod_deny    : " ++ entry].

Definition modid_args (args : list string) : bool * list string :=
  match args with
  | a :: rest => if bool_decide (a = "--entry") then (true, rest) else (false, args)
  | [] => (false, [])
  end.
Definition cmd_modid {D} (open_file : string → Z + list Z) (alloc_ok : Z → bool) (script : list read_step)
    (args : list string) : cmd D Z :=
  let '(entry_only, args) := modid_args args in
  match args with
  | [file] => λ d,
    r ← read_module_file open_file alloc_ok script file;
    match r with
    | inl e => die e d
    | inr img =>
      match kg_modid_parse img with
      | inl e => die (ModidRejected (if bool_decide (file = "-") then bytes_of "(stdin)" else bytes_of file)
                                    (kg_modid_strerror e)) d
      | inr m =>
        let entry := truncate 96 (kg_modid_entry m) in
        (prints (if entry_only then [entry] else modid_lines m entry) ;;! cret 0) d
      end
    end
  | _ => die ModidUsage
  end.

(** *** The file is read whole *)
Definition harmless (r : read_step) : Prop :=
  match r with ReadErr e => e = EINTR | ReadUpTo n => 1 ≤ n end.
(** Doublings left, whether the buffer has room, whether there is more to come, and the last look. *)
Definition read_left (j : nat) (len : Z) (rest : list Z) : nat :=
  (28 - j) + (if len =? 2 ^ Z.of_nat j then 0 else 1) + (match rest with [] => 0 | _ => 1 end) + 1.

Lemma read_left_grow j len rest :
  (j < 28)%nat → len = 2 ^ Z.of_nat j → (read_left (S j) len rest ≤ read_left j len rest)%nat.
Proof.
  intros Hj ->. unfold read_left. rewrite Z.eqb_refl. case_match; lia.
Qed.
(** A read into a buffer with room. *)
Lemma read_left_step j len rest n :
  (20 ≤ j ≤ 28)%nat → 0 ≤ len < 2 ^ Z.of_nat j → rest ≠ [] → 1 ≤ n ≤ zlen rest → n ≤ 2 ^ Z.of_nat j - len →
  (read_left j (len + n) (drop (Z.to_nat n) rest) ≤ read_left j len rest)%nat
  ∧ (n = Z.min (2 ^ Z.of_nat j - len) (zlen rest) →
     (read_left j (len + n) (drop (Z.to_nat n) rest) < read_left j len rest)%nat).
Proof.
  intros Hj Hlen Hne Hn Hcap. unfold read_left. rewrite (proj2 (Z.eqb_neq len _)) by lia.
  destruct rest as [|b rest]; [done|]. destruct (len + n =? 2 ^ Z.of_nat j) eqn:E; bool_props.
  - split; [|intros _]; case_match; lia.
  - destruct (drop (Z.to_nat n) (b :: rest)) as [|b' r'] eqn:Ed; [split; lia|]. split; [lia|].
    intros Hmin. exfalso. assert (Hn' : n = zlen (b :: rest)) by lia.
    rewrite Hn' in Ed. unfold zlen in Ed. by rewrite Nat2Z.id, drop_all in Ed.
Qed.

(** What a harmless call returns. *)
Lemma read_call_cases script room rest :
  Forall harmless script → 1 ≤ room →
  (script ≠ [] ∧ read_call script room rest = inl EINTR)
  ∨ (rest = [] ∧ read_call script room rest = inr 0)
  ∨ ∃ n, read_call script room rest = inr n ∧ rest ≠ [] ∧ 1 ≤ n ≤ zlen rest ∧ n ≤ room
         ∧ (script = [] → n = Z.min room (zlen rest)).
Proof.
  intros Hs Hroom. assert (Hrest : rest = [] ∧ zlen rest = 0 ∨ rest ≠ [] ∧ 1 ≤ zlen rest).
  { destruct rest; [by left|right]. unfold zlen. simpl. split; [done|lia]. }
  destruct script as [|[e|n] script]; cbn [read_call].
  - destruct Hrest as [[-> Hz]|[Hne Hz]]; right; [left; split; [done|f_equal; lia]|right].
    eexists. split_and!; [done|done|lia..|done].
  - apply Forall_cons in Hs as [-> _]. by left.
  - apply Forall_cons in Hs as [Hn _]. cbn in Hn.
    destruct Hrest as [[-> Hz]|[Hne Hz]]; right; [left; split; [done|f_equal; lia]|right].
    eexists. split_and!; [done|done|lia..|done].
Qed.

Section reading.
Context (alloc_ok : Z → bool) (path : string) (Ha : ∀ c, alloc_ok c = true).

(** One turn of the loop with room in the buffer, given the rest of the loop. *)
Lemma read_turn fuel script j len rest :
  (∀ script j len rest, (20 ≤ j ≤ 28)%nat → 0 ≤ len ≤ 2 ^ Z.of_nat j → Forall harmless script →
     (length script + read_left j len rest ≤ fuel)%nat →
     read_loop fuel alloc_ok path script (2 ^ Z.of_nat j) len rest
     = Some (if len + zlen rest <? MODID_MAX_BYTES then inr (len + zlen rest) else inl (FileTooLarge path))) →
  (20 ≤ j ≤ 28)%nat → 0 ≤ len < 2 ^ Z.of_nat j → Forall harmless script →
  (length script + read_left j len rest ≤ S fuel)%nat →
  match read_call script (2 ^ Z.of_nat j - len) rest with
  | inl e =>
    if e =? EINTR then read_loop fuel alloc_ok path (tail script) (2 ^ Z.of_nat j) len rest
    else Some (inl (FileFailed path e))
  | inr n =>
    if n =? 0 then Some (inr len)
    else read_loop fuel alloc_ok path (tail script) (2 ^ Z.of_nat j) (len + n) (drop (Z.to_nat n) rest)
  end = Some (if len + zlen rest <? MODID_MAX_BYTES then inr (len + zlen rest) else inl (FileTooLarge path)).
Proof.
  intros IH Hj Hlen Hs Hf.
  assert (Hpow : 2 ^ Z.of_nat j ≤ MODID_MAX_BYTES)
    by (change MODID_MAX_BYTES with (2 ^ Z.of_nat 28); apply Z.pow_le_mono_r; lia).
  destruct (read_call_cases script (2 ^ Z.of_nat j - len) rest Hs ltac:(lia))
    as [[Hne ->]|[[-> ->]|(n & -> & Hne & Hn & Hroom & Hmin)]].
  - rewrite Z.eqb_refl. destruct script as [|r script]; [done|]. apply IH; [done|lia|by inversion Hs|simpl in *; lia].
  - cbn [Z.eqb]. unfold zlen. simpl. rewrite Z.add_0_r, (proj2 (Z.ltb_lt _ _)) by lia. done.
  - rewrite (proj2 (Z.eqb_neq _ _)) by lia.
    destruct (read_left_step j len rest n Hj Hlen Hne Hn Hroom) as [Hle Hlt].
    rewrite IH; [|done|lia|by destruct Hs|].
    + replace (len + n + zlen (drop (Z.to_nat n) rest)) with (len + zlen rest); [done|].
      unfold zlen in *. rewrite length_drop. lia.
    + destruct script as [|r script]; simpl in *; [specialize (Hlt (Hmin eq_refl))|]; lia.
Qed.

Lemma read_loop_ends fuel script j len rest :
  (20 ≤ j ≤ 28)%nat → 0 ≤ len ≤ 2 ^ Z.of_nat j → Forall harmless script →
  (length script + read_left j len rest ≤ fuel)%nat →
  read_loop fuel alloc_ok path script (2 ^ Z.of_nat j) len rest
  = Some (if len + zlen rest <? MODID_MAX_BYTES then inr (len + zlen rest) else inl (FileTooLarge path)).
Proof.
  revert script j len rest. induction fuel as [|fuel IH]; intros script j len rest Hj Hlen Hs Hf.
  { exfalso. unfold read_left in Hf. lia. }
  cbn [read_loop]. destruct (len =? 2 ^ Z.of_nat j) eqn:E; bool_props; cbn [andb].
  - destruct (MODID_MAX_BYTES <=? 2 ^ Z.of_nat j) eqn:Em; bool_props.
    + assert (0 ≤ zlen rest) by (unfold zlen; lia). rewrite (proj2 (Z.ltb_ge _ _)) by lia. done.
    + assert (Hj28 : (j < 28)%nat).
      { destruct (decide (j = 28)%nat) as [->|]; [|lia]. exfalso. revert Em. by compute. }
      rewrite Ha. cbn [negb]. replace (2 ^ Z.of_nat j * 2) with (2 ^ Z.of_nat (S j))
        by (rewrite Nat2Z.inj_succ, Z.pow_succ_r by lia; lia).
      pose proof (read_left_grow j len rest Hj28 E).
      apply read_turn; [done|lia| |done|lia].
      rewrite Nat2Z.inj_succ, Z.pow_succ_r by lia. pose proof (Z.pow_pos_nonneg 2 (Z.of_nat j)). lia.
  - apply read_turn; [done..|lia|done|done].
Qed.
End reading.

(** However the reads of a module file are cut and interrupted, the file is read to its end and
    completely if it has fewer than 256 MiB, and refused if it has more or exactly that many. *)
Lemma module_file_read open_file alloc_ok script path data :
  open_file path = inr data → (∀ c, alloc_ok c = true) → Forall harmless script →
  read_module_file open_file alloc_ok script path
  = Some (if zlen data <? MODID_MAX_BYTES then inr data else inl (FileTooLarge path)).
Proof.
  intros Ho Ha Hs. unfold read_module_file. rewrite Ho, Ha. cbn [negb].
  change 1048576 with (2 ^ Z.of_nat 20).
  rewrite (read_loop_ends alloc_ok path Ha); [|lia|split; [lia|by apply Z.pow_nonneg]|done|].
  - bind_simpl. rewrite Z.add_0_l. destruct (zlen data <? MODID_MAX_BYTES); [|done].
    unfold zlen. by rewrite Nat2Z.id, take_ge.
  - unfold read_left. repeat case_match; lia.
Qed.

Lemma modid_entry_fits m : modid_ok m → (length (kg_modid_entry m) < 96)%nat.
Proof.
  intros [[_ Hn] Hs]. unfold KG_MODID_NAME_MAX, KG_MODID_SRCVER_MAX, zlen in *. unfold kg_modid_entry.
  destruct Hs as [->|[_ Hv]]; [lia|]. destruct (id_srcversion m); [lia|]. rewrite !length_app. simpl in *. lia.
Qed.

(** C39 — [kgmon modid --entry FILE], however the reads of the file are cut and interrupted: a file of
    256 MiB or more is refused; below that the whole file is parsed, and what is printed is
    exactly the entry, nothing of it cut off, or the parser's reason. *)
Theorem modid_command {D} open_file alloc_ok script file data (d : D) :
  open_file file = inr data → (∀ c, alloc_ok c = true) → Forall harmless script →
  cmd_modid open_file alloc_ok script ["--entry"; file] d
  = Some (if zlen data <? MODID_MAX_BYTES then
            match kg_modid_parse data with
            | inr m => ([kg_modid_entry m], inr 0)
            | inl e => ([], inl (ModidRejected (if bool_decide (file = "-") then bytes_of "(stdin)" else bytes_of file)
                                               (kg_modid_strerror e)))
            end
          else ([], inl (FileTooLarge file)), d).
Proof.
  intros Ho Ha Hs. unfold cmd_modid. cbn [modid_args]. rewrite bool_decide_true by done.
  rewrite (module_file_read open_file alloc_ok script file data) by done. bind_simpl.
  destruct (zlen data <? MODID_MAX_BYTES); [|done].
  destruct (kg_modid_parse data) as [e|m] eqn:Ep; [done|].
  destruct (kg_modid_parse_ok data m Ep) as [Hok _].
  rewrite truncate_id by (by apply modid_entry_fits). done.
Qed.

(** The module of the parser's self-test, read in pieces with interruptions between them. *)
Lemma modid_command_witness :
  let data := st_build st_mi Modid.st_good in
  cmd_modid (λ _, inr data) (λ _, true) [ReadErr EINTR; ReadUpTo 100; ReadErr EINTR; ReadUpTo 1] ["--entry"; "x.ko"] tt
  = Some ([bytes_of "evil_mod@ABCDEF0123456789ABCDEF0"], inr 0, tt).
Proof.
  intros data. rewrite (modid_command (λ _, inr data) (λ _, true)
    [ReadErr EINTR; ReadUpTo 100; ReadErr EINTR; ReadUpTo 1] "x.ko" data tt); [|reflexivity|reflexivity|].
  - vm_compute. reflexivity.
  - repeat apply Forall_cons_2; [..|apply Forall_nil_2]; cbn; lia.
Defined.

(** ** kgmon selftest *)

(** A million bytes in pieces of 999. *)
Fixpoint feed_pieces (fuel : nat) (c : kg_sha256) (msg : list Z) : option kg_sha256 :=
  match fuel, msg with
  | _, [] => Some c
  | O, _ => None
  | S fuel, _ => c ← kg_sha256_update c (take 999 msg); feed_pieces fuel c (drop 999 msg)
  end.
Definition million_case : bool :=
  match c ← feed_pieces 1002 (kg_sha256_init ctx0) (replicate 1000000 97); kg_sha256_final c with
  | Some d => hex_eq d "cdc76e5c9914fb9281a1c7e284d73e67f1809a48a497200e046d39ccc7112cd0"
  | None => false
  end.
Definition fail_if (ok : bool) : Z := if ok then 0 else 1.
(** The number of cases that failed; [have] is whether the million bytes could be allocated. *)
Definition kg_hmac_selftest (have : bool) : Z :=
  fail_if (sha_case [] "e3b0c44298fc1c149afbf4c8996fb92427ae41e4649b934ca495991b7852b855")
  + fail_if (sha_case (bytes_of "abc") "ba7816bf8f01cfea414140de5dae2223b00361a396177a9cb410ff61f20015ad")
  + fail_if (sha_case (bytes_of "abcdbcdecdefdefgefghfghighijhijkijkljklmklmnlmnomnopnopq")
               "248d6a61d20638b8e5c026930c3e6039a33ce45964ff2167f6ecedd419db06c1")
  + (if have then fail_if million_case else 1)
  + fail_if (hmac_case (replicate 20 0x0b) (bytes_of "Hi There")
               "b0344c61d8db38535ca8afceaf0bf12b881dc200c9833da726e9376c2e32cff7")
  + fail_if (hmac_case (bytes_of "Jefe") (bytes_of "what do ya want for nothing?")
               "5bdcc146bf60754e6a042426089575c75a003f089d2739839dec58b964ec3843")
  + fail_if (hmac_case (replicate 131 0xaa) (bytes_of "Test Using Larger Than Block-Size Key - Hash Key First")
               "60e431591ee0b67f0d8a26aacbf5b77f8e0bc6213728c5140546040f0ee37f54").

Definition passed (bad : Z) : list Z := bytes_of (if bad =? 0 then "passed" else "FAILED").
Definition cmd_selftest {D} `{Files} (have : bool) : cmd D Z :=
  let bad := kg_hmac_selftest have in
  let pbad := kgp_selftest in
  let mbad := kg_modid_selftest in
  prints [bytes_of "SHA-256 / HMAC-SHA256 known-answer tests: " ++ passed bad;
          bytes_of "escalation policy tests: " ++ passed pbad;
          bytes_of "module file parser tests: " ++ passed mbad] ;;!
  cret (if (bad =? 0) && (pbad =? 0) && (mbad =? 0) then 0 else 1).

(** ** kgmon run *)
Inductive prctl_call :=
  | PR_SPEC_L1D_FLUSH_ENABLE | PR_SPEC_INDIRECT_BRANCH_DISABLE | PR_SPEC_STORE_BYPASS_DISABLE
  | PR_SCHED_CORE_CREATE_TGID.
(** The command line after [run]: whether --sensitive was given, and the command. *)
Fixpoint run_args (sensitive : bool) (args : list string) : bool * list string :=
  match args with
  | [] => (sensitive, [])
  | a :: rest =>
    if bool_decide (a = "--sensitive") then run_args true rest
    else if bool_decide (a = "--") then (sensitive, rest) else (sensitive, args)
  end.
Definition try_prctl `{Host} (what : string) (err : Z) : list Z :=
  bytes_of "kgmon: " ++ pad_right 40 (bytes_of what)
  ++ (if err =? 0 then bytes_of " enabled" else bytes_of " unavailable (" ++ strerror err ++ bytes_of ")").
Definition run_calls : list (prctl_call * string) :=
  [(PR_SPEC_L1D_FLUSH_ENABLE, "L1D flush on context switch");
   (PR_SPEC_INDIRECT_BRANCH_DISABLE, "indirect-branch mitigation (IBPB/STIBP)");
   (PR_SPEC_STORE_BYPASS_DISABLE, "speculative-store-bypass disable");
   (PR_SCHED_CORE_CREATE_TGID, "core scheduling (SMT isolation)")].

(** The calls made, with what is said about each, and the command executed instead of kgmon;
    [prctl] is the errno of each call, 0 where it succeeds, [exec_ok] whether execvp does. *)
Definition cmd_run `{Host} (prctl : prctl_call → Z) (exec_ok : string → bool) (args : list string)
  : list (prctl_call * list Z) * (death + list string) :=
  match run_args false args with
  | (_, []) => ([], inl RunUsage)
  | (sensitive, prog :: argv) =>
    (if sensitive then (λ c, (c.1, try_prctl c.2 (prctl c.1))) <$> run_calls else [],
     if exec_ok prog then inr (prog :: argv) else inl (ExecFailed prog))
  end.

(** The command is executed with its arguments as given, those that look like options of kgmon
    included, after all four controls were asked for when --sensitive was given and none when it
    was not, whatever of them the kernel refuses. *)
Theorem run_verbatim `{Host} prctl exec_ok (n : nat) (prog : string) (argv : list string) :
  exec_ok prog = true →
  cmd_run prctl exec_ok (replicate n "--sensitive" ++ "--" :: prog :: argv)
  = (if decide (n = 0%nat) then [] else (λ c, (c.1, try_prctl c.2 (prctl c.1))) <$> run_calls, inr (prog :: argv)).
Proof.
  intros Hex.
  assert (Hargs : ∀ b, run_args b (replicate n "--sensitive" ++ "--" :: prog :: argv) = (b || negb (n =? 0)%nat, prog :: argv)).
  { induction n as [|n IH]; intros b; cbn [replicate app run_args].
    - rewrite bool_decide_false, bool_decide_true by done. by destruct b.
    - rewrite bool_decide_true, IH by done. by destruct b. }
  unfold cmd_run. rewrite Hargs, Hex.
  destruct n as [|n]; [by rewrite decide_True|by rewrite decide_False].
Qed.
Lemma run_verbatim_witness :
  @cmd_run sample_host (λ _, 0) (λ _, true) (replicate 1 "--sensitive" ++ "--" :: "ssh-agent" :: ["--"; "--sensitive"])
  = ((λ c, (c.1, @try_prctl sample_host c.2 0)) <$> run_calls, inr ["ssh-agent"; "--"; "--sensitive"]).
Proof. rewrite (@run_verbatim sample_host (λ _, 0) (λ _, true) 1 "ssh-agent" ["--"; "--sensitive"]); reflexivity. Defined.
