(* ===== verification/KgmonMain.v ===== *)
(** * The command line of kgmon (linux/monitor/kgmon.c: main)

    getopt_long with the option tables of [main], the loop over the options and the choice of
    the command.  [options_roundtrip] states them against a writer of command lines. *)
From S2P Require Import Prelude Text Uapi PolicyParse Policy KgmonText KgmonChild Monitor Kgmon KgmonCmd.
Local Open Scope string_scope.
Local Open Scope list_scope.
Local Open Scope Z_scope.

(** ** The command line *)
Inductive arg_kind := NoArgument | RequiredArgument | OptionalArgument.
Definition ascii_of (c : Z) : Ascii.ascii := Ascii.ascii_of_nat (Z.to_nat c).

(** Options by their value, as in [lo] and in the string of short ones. *)
Definition long_options : list (string * arg_kind * Z) :=
  [("device", RequiredArgument, 100); ("log", RequiredArgument, 108); ("syslog", NoArgument, 115);
   ("notify", OptionalArgument, 78); ("once", NoArgument, 49); ("new-only", NoArgument, 1000);
   ("max", RequiredArgument, 109); ("policy", RequiredArgument, 112); ("no-policy", NoArgument, 1001);
   ("ack-file", RequiredArgument, 1002); ("quiet", NoArgument, 113); ("version", NoArgument, 86); ("help", NoArgument, 104)].
Definition short_options : list (Z * arg_kind) :=
  [(100, RequiredArgument); (108, RequiredArgument); (115, NoArgument); (78, OptionalArgument); (49, NoArgument);
   (109, RequiredArgument); (112, RequiredArgument); (113, NoArgument); (86, NoArgument); (104, NoArgument)].

(** What getopt_long returns: an option with its argument, or '?'. *)
Inductive got := Got (val : Z) (optarg : option string) | BadOption.

(** A word of short options; whether it took the next word. *)
Fixpoint short_word (w : string) (next : option string) : list got * bool :=
  match w with
  | "" => ([], false)
  | String c r =>
    match find_first (λ p, if ascii_eqb c (ascii_of p.1) then Some p else None) short_options with
    | None => ([BadOption], false)
    | Some (v, NoArgument) => let '(l, used) := short_word r next in (Got v None :: l, used)
    | Some (v, OptionalArgument) => ([Got v (if bool_decide (r = "") then None else Some r)], false)
    | Some (v, RequiredArgument) =>
      if negb (bool_decide (r = "")) then ([Got v (Some r)], false)
      else match next with Some a => ([Got v (Some a)], true) | None => ([BadOption], false) end
    end
  end.

(** The option of that name, or the only one it abbreviates. *)
Definition long_named (name : string) : option (arg_kind * Z) :=
  match find_first (λ p, if bool_decide (p.1.1 = name) then Some (p.1.2, p.2) else None) long_options with
  | Some r => Some r
  | None => match filter (λ p, String.prefix name p.1.1 = true) long_options with
            | [p] => Some (p.1.2, p.2)
            | _ => None
            end
  end.
Definition long_word (body : string) (next : option string) : got * bool :=
  let '(name, val) := match strchr (ascii_of 61) body with
                      | Some (n, v) => (n, Some v)
                      | None => (body, None)
                      end in
  match long_named name with
  | None => (BadOption, false)
  | Some (NoArgument, v) => (match val with None => Got v None | Some _ => BadOption end, false)
  | Some (OptionalArgument, v) => (Got v val, false)
  | Some (RequiredArgument, v) =>
    match val, next with
    | Some a, _ => (Got v (Some a), false)
    | None, Some a => (Got v (Some a), true)
    | None, None => (BadOption, false)
    end
  end.

(** How a word of the command line begins. *)
Inductive word := Operand | EndOfOptions | LongWord (body : string) | ShortWord (body : string).
Definition classify (a : string) : word :=
  match a with
  | String c (String c' r) =>
    if negb (ascii_eqb c (ascii_of 45)) then Operand
    else if negb (ascii_eqb c' (ascii_of 45)) then ShortWord (String c' r)
    else if bool_decide (r = "") then EndOfOptions else LongWord r
  | _ => Operand
  end.

(** With "+", options end at the first operand. *)
Fixpoint getopt_long (args : list string) : list got * list string :=
  match args with
  | [] => ([], [])
  | a :: rest =>
    match classify a with
    | Operand => ([], args)
    | EndOfOptions => ([], rest)
    | LongWord body =>
      let '(g, used) := long_word body (head rest) in
      let '(l, r) := match rest with
                     | _ :: rest' => if used then getopt_long rest' else getopt_long rest
                     | [] => ([], [])
                     end in (g :: l, r)
    | ShortWord body =>
      let '(gs, used) := short_word body (head rest) in
      let '(l, r) := match rest with
                     | _ :: rest' => if used then getopt_long rest' else getopt_long rest
                     | [] => ([], [])
                     end in (gs ++ l, r)
    end
  end.

(** The loop of main over the options. *)
Inductive parsed_opts := Parsed (o : opts) | ShowVersion | ShowHelp | UsageError.
Definition take_option (o : opts) (v : Z) (optarg : option string) : parsed_opts :=
  let '(Opts dev log user pol ack nopol sys notify once new quiet max) := o in
  let arg := default "" optarg in
  if v =? 100 then Parsed (Opts arg log user pol ack nopol sys notify once new quiet max)
  else if v =? 108 then Parsed (Opts dev optarg user pol ack nopol sys notify once new quiet max)
  else if v =? 115 then Parsed (Opts dev log user pol ack nopol true notify once new quiet max)
  else if v =? 78 then Parsed (Opts dev log optarg pol ack nopol sys true once new quiet max)
  else if v =? 49 then Parsed (Opts dev log user pol ack nopol sys notify true new quiet max)
  else if v =? 1000 then Parsed (Opts dev log user pol ack nopol sys notify once true quiet max)
  else if v =? 109 then Parsed (Opts dev log user pol ack nopol sys notify once new quiet (strtol arg))
  else if v =? 112 then Parsed (Opts dev log user optarg ack nopol sys notify once new quiet max)
  else if v =? 1001 then Parsed (Opts dev log user pol ack true sys notify once new quiet max)
  else if v =? 1002 then Parsed (Opts dev log user pol optarg nopol sys notify once new quiet max)
  else if v =? 113 then Parsed (Opts dev log user pol ack nopol sys notify once new true max)
  else if v =? 86 then ShowVersion
  else if v =? 104 then ShowHelp
  else UsageError.
Fixpoint take_options (gs : list got) (o : opts) : parsed_opts :=
  match gs with
  | [] => Parsed o
  | BadOption :: _ => UsageError
  | Got v a :: gs => match take_option o v a with Parsed o => take_options gs o | r => r end
  end.

(** What main calls. *)
Inductive invocation :=
  | DoRun (args : list string) | DoVersion | DoHelp | DoUsage | UnknownCommand (c : string)
  | DoStatus (o : opts) | DoPosture (o : opts) (args : list string) | DoSelftest | DoModid (args : list string)
  | DoAck (o : opts) | DoPolicy (o : opts) (args : list string) | DoWatch (o : opts).
Definition dispatch (o : opts) (rest : list string) : invocation :=
  match rest with
  | [] => DoWatch o
  | c :: args =>
    if bool_decide (c = "status") then DoStatus o
    else if bool_decide (c = "posture") then DoPosture o args
    else if bool_decide (c = "selftest") then DoSelftest
    else if bool_decide (c = "modid") then DoModid args
    else if bool_decide (c = "ack") then DoAck o
    else if bool_decide (c = "policy") then DoPolicy o args
    else if bool_decide (c = "watch") then DoWatch o else UnknownCommand c
  end.
Definition parse_options (args : list string) : invocation :=
  let '(gs, rest) := getopt_long args in
  match take_options gs default_opts with
  | Parsed o => dispatch o rest
  | ShowVersion => DoVersion
  | ShowHelp => DoHelp
  | UsageError => DoUsage
  end.
Definition main (args : list string) : invocation :=
  match args with
  | a :: rest => if bool_decide (a = "run") then DoRun rest else parse_options args
  | [] => parse_options []
  end.

(** *** Options written out and read back *)
Definition option_words (o : opts) : list (list string) :=
  [["--device=" +:+ o_device o];
   match o_logfile o with Some f => ["--log"; f] | None => [] end;
   (if o_use_syslog o then ["-s"] else []);
   (if o_use_notify o then [match o_notify_user o with Some u => "--notify=" +:+ u | None => "-N" end] else []);
   (if o_once o then ["--once"] else []);
   (if o_new_only o then ["--new-only"] else []);
   (if o_max_alerts o =? 0 then [] else ["-m"; string_of (fmt_u (o_max_alerts o))]);
   match o_policy_file o with Some f => ["-p"; f] | None => [] end;
   (if o_no_policy o then ["--no-policy"] else []);
   match o_ack_file o with Some f => ["--ack-file"; f] | None => [] end;
   (if o_quiet o then ["--quiet"] else [])].
Definition render_options (o : opts) : list string := mjoin (option_words o).
Definition operands (rest : list string) : Prop := match rest with [] => True | a :: _ => classify a = Operand end.

(** The options a group of words stands for, whatever follows it. *)
Definition reads_as (ws : list string) (gs : list got) : Prop :=
  ∀ l, getopt_long (ws ++ l) = (gs ++ (getopt_long l).1, (getopt_long l).2).
Lemma reads_nil : reads_as [] [].
Proof. intros l. cbn [app]. by rewrite <- surjective_pairing. Qed.
Lemma reads_app ws1 ws2 gs1 gs2 : reads_as ws1 gs1 → reads_as ws2 gs2 → reads_as (ws1 ++ ws2) (gs1 ++ gs2).
Proof. intros H1 H2 l. by rewrite <- app_assoc, H1, H2, <- app_assoc. Qed.

(** A long option in one word, and a long or a short one with its argument in the next. *)
Lemma reads_long w body g : classify w = LongWord body → (∀ next, long_word body next = (g, false)) → reads_as [w] [g].
Proof.
  intros Hc Hl l. cbn [app getopt_long]. rewrite Hc, Hl. destruct l as [|a l]; [done|]. rewrite (surjective_pairing (getopt_long (a :: l))) at 1. done.
Qed.
Lemma reads_long_arg w body a g :
  classify w = LongWord body → long_word body (Some a) = (g, true) → reads_as [w; a] [g].
Proof. intros Hc Hl l. cbn [app getopt_long head]. rewrite Hc, Hl. rewrite (surjective_pairing (getopt_long l)) at 1. done. Qed.
Lemma reads_short w body g : classify w = ShortWord body → (∀ next, short_word body next = ([g], false)) → reads_as [w] [g].
Proof.
  intros Hc Hl l. cbn [app getopt_long]. rewrite Hc, Hl. destruct l as [|a l]; [done|]. rewrite (surjective_pairing (getopt_long (a :: l))) at 1. done.
Qed.
Lemma reads_short_arg w body a g :
  classify w = ShortWord body → short_word body (Some a) = ([g], true) → reads_as [w; a] [g].
Proof. intros Hc Hl l. cbn [app getopt_long head]. rewrite Hc, Hl. rewrite (surjective_pairing (getopt_long l)) at 1. done. Qed.

Lemma take_options_app gs1 gs2 o :
  take_options (gs1 ++ gs2) o = match take_options gs1 o with Parsed o => take_options gs2 o | r => r end.
Proof.
  revert o. induction gs1 as [|[v a|] gs1 IH]; intros o; [done| |done]. cbn.
  destruct (take_option o v a); [apply IH|done..].
Qed.

Lemma strtol_decimal n : 0 ≤ n < 2 ^ 63 → strtol (string_of (fmt_u n)) = n.
Proof.
  intros Hn. assert (Hd : Forall (λ b, 48 ≤ b ≤ 57) (fmt_u n)) by (apply digits_decimal; lia).
  assert (Hv : value10 (fmt_u n) = n) by (apply fmt_u_value; unfold is_u64; lia).
  pose proof (strto_digits_read (fmt_u n) "" O 0 Hd ltac:(done)) as Hr.
  destruct (fmt_u n) as [|b l] eqn:E; [by destruct (digits_nonempty true 19 10 n)|].
  destruct (digit_start b) as (Hsp & Hm & Hp); [by inversion Hd|].
  assert (Happ : string_of (b :: l) +:+ "" = string_of (b :: l)).
  { clear. generalize (string_of (b :: l)). intros s. induction s as [|c s IH]; [done|].
    change (String c (s +:+ "") = String c s). by rewrite IH. }
  rewrite Happ in Hr. change (string_of (b :: l)) with (String (Ascii.ascii_of_nat (Z.to_nat b)) (string_of l)) in *.
  unfold strtol. cbn [skip_space]. rewrite Hsp, Hm, Hp, Hr.
  change (foldl _ 0 (b :: l)) with (value10 (b :: l)). rewrite Hv. lia.
Qed.

(** The options a set of words was written from. *)
Definition option_gots (o : opts) : list (list got) :=
  [[Got 100 (Some (o_device o))];
   match o_logfile o with Some f => [Got 108 (Some f)] | None => [] end;
   (if o_use_syslog o then [Got 115 None] else []);
   (if o_use_notify o then [Got 78 (o_notify_user o)] else []);
   (if o_once o then [Got 49 None] else []);
   (if o_new_only o then [Got 1000 None] else []);
   (if o_max_alerts o =? 0 then [] else [Got 109 (Some (string_of (fmt_u (o_max_alerts o))))]);
   match o_policy_file o with Some f => [Got 112 (Some f)] | None => [] end;
   (if o_no_policy o then [Got 1001 None] else []);
   match o_ack_file o with Some f => [Got 1002 (Some f)] | None => [] end;
   (if o_quiet o then [Got 113 None] else [])].
Lemma render_reads o : reads_as (render_options o) (mjoin (option_gots o)).
Proof.
  unfold render_options, option_words, option_gots. cbn [mjoin list_join].
  repeat apply reads_app; [..|apply reads_nil]; repeat case_match; try apply reads_nil;
    first [by eapply reads_long|by eapply reads_long_arg|by eapply reads_short|by eapply reads_short_arg].
Qed.

Lemma gots_restore o :
  0 ≤ o_max_alerts o < 2 ^ 63 → (o_use_notify o = false → o_notify_user o = None) →
  take_options (mjoin (option_gots o)) default_opts = Parsed o.
Proof.
  intros Hmax Huser. destruct o as [dev log user pol ack nopol sys notify once new quiet max].
  cbn [o_max_alerts o_use_notify o_notify_user] in *.
  assert (Hm : take_options (if max =? 0 then [] else [Got 109 (Some (string_of (fmt_u max)))])
                 (Opts dev log user None None false sys notify once new false 0)
               = Parsed (Opts dev log user None None false sys notify once new false max)).
  { destruct (max =? 0) eqn:E; [by apply Z.eqb_eq in E as ->|].
    change (Parsed (Opts dev log user None None false sys notify once new false (strtol (string_of (fmt_u max))))
            = Parsed (Opts dev log user None None false sys notify once new false max)).
    by rewrite strtol_decimal. }
  unfold option_gots.
  cbn [mjoin list_join o_device o_logfile o_use_syslog o_use_notify o_notify_user o_once o_new_only o_max_alerts o_policy_file o_no_policy o_ack_file o_quiet].
  rewrite (take_options_app [_]). cbn [take_options take_option default_opts Z.eqb Pos.eqb default].
  rewrite take_options_app; replace (take_options (match log with _ => _ end) _) with (Parsed (Opts dev log None None None false false false false false false 0)) by (by destruct log).
  rewrite take_options_app; replace (take_options (if sys then _ else _) _) with (Parsed (Opts dev log None None None false sys false false false false 0)) by (by destruct sys).
  rewrite take_options_app; replace (take_options (if notify then _ else _) _) with (Parsed (Opts dev log user None None false sys notify false false false 0)) by (destruct notify; [done|by rewrite Huser]).
  rewrite take_options_app; replace (take_options (if once then _ else _) _) with (Parsed (Opts dev log user None None false sys notify once false false 0)) by (by destruct once).
  rewrite take_options_app; replace (take_options (if new then _ else _) _) with (Parsed (Opts dev log user None None false sys notify once new false 0)) by (by destruct new).
  rewrite take_options_app, Hm.
  by destruct pol, ack, nopol, quiet.
Qed.

(** C40 — Every set of options main can produce can be written as a command line, and main reads that
    line back as exactly these options, whatever operands follow and whatever the file and user
    names are (dashes and equal signs included). *)
Theorem options_roundtrip o rest :
  0 ≤ o_max_alerts o < 2 ^ 63 → (o_use_notify o = false → o_notify_user o = None) → operands rest →
  main (render_options o ++ rest) = dispatch o rest.
Proof.
  intros Hmax Huser Hrest.
  assert (Hmain : ∀ d l, main (("--device=" +:+ d) :: l) = parse_options (("--device=" +:+ d) :: l)) by done.
  unfold render_options, option_words. cbn [mjoin list_join app]. rewrite Hmain.
  change (parse_options (render_options o ++ rest) = dispatch o rest).
  unfold parse_options. rewrite (render_reads o rest).
  assert (Hl : getopt_long rest = ([], rest)) by (destruct rest as [|a r]; [done|]; cbn; by rewrite Hrest).
  rewrite Hl, app_nil_r. cbn [fst snd]. by rewrite gots_restore.
Qed.
Lemma options_roundtrip_witness :
  let o := Opts "/dev/kg=0" (Some "--help") (Some "") (Some "-x") None true true true false true true 7 in
  main (render_options o ++ ["posture"; "set"; "--once"]) = DoPosture o ["set"; "--once"].
Proof.
  intros o. rewrite (options_roundtrip o ["posture"; "set"; "--once"]); [reflexivity|by compute|discriminate|reflexivity].
Defined.
