(* ===== verification/PeAuthenticode.v ===== *)
(** * Authenticode digest of a PE image (windows/src/pe_authenticode.c)

    The file is hostile input, so every load is a partial operation here:
    reading outside the file is the outcome [OutOfBounds], which the C code must
    never reach.  The hash is the caller's [Update] callback. *)
From stdpp Require Import sorting.
From S2P Require Import Prelude Bytes.
Local Open Scope Z_scope.

Definition PEA_CHUNK : Z := 0x100000.
Definition PEA_MAX_SECTIONS : Z := 96.

(** [OutOfBounds] and [OutOfFuel] are outcomes of the model only. *)
Inductive pea_error := PEA_E_FORMAT | PEA_E_HASH | OutOfBounds | OutOfFuel.
#[export] Instance pea_faults : Faults pea_error :=
  {| out_of_bounds := OutOfBounds;
     is_fault e := match e with OutOfBounds | OutOfFuel => true | _ => false end |}.

Section pea.
Context (File : list Z).

Definition Length : Z := zlen File.

Definition Rd16 (o : Z) : pea_error + Z := rd16 File o.
Definition Rd32 (o : Z) : pea_error + Z := rd32 File o.

Definition check (b : bool) : pea_error + unit := if b then inr tt else inl PEA_E_FORMAT.

(** ** HashRange *)
Section hash.
Context {C : Type} (Update : C → list Z → option C).

Definition bytes_at (off len : Z) : list Z := take (Z.to_nat len) (drop (Z.to_nat off) File).

Fixpoint hash_loop (fuel : nat) (off len : Z) (ctx : C) : pea_error + C :=
  match fuel with
  | O => inl OutOfFuel
  | S fuel =>
    if len =? 0 then inr ctx
    else
      let n := if PEA_CHUNK <? len then PEA_CHUNK else len in
      if (off <? 0) || (Length <? off + n) then inl OutOfBounds
      else match Update ctx (bytes_at off n) with
           | None => inl PEA_E_HASH
           | Some ctx => hash_loop fuel (off + n) (len - n) ctx
           end
  end.

(** One round per whole chunk, one for the rest, one for the final test. *)
Definition HashRange (off len : Z) (ctx : C) : pea_error + C :=
  hash_loop (Z.to_nat (len / PEA_CHUNK) + 2) off len ctx.
End hash.

(** ** Headers *)
Record pea_section := Section_ { Offset : Z; Size : Z }.

Record layout := Layout {
  checkOff : Z;
  certEntry : option Z;      (* the directory entry, when there is one *)
  certSize : Z;
  certOff : Z;
  sizeOfHeaders : Z;
  secTab : Z;
  nSections : Z
}.

Definition pea_headers : pea_error + layout :=
  _ ← check (0x40 <=? Length);
  m ← rd8 File 0; z ← rd8 File 1;
  _ ← check ((m =? 77) && (z =? 90));
  lfanew ← Rd32 0x3c;
  _ ← check (negb ((lfanew <? 0x40) || (Length <? lfanew) || (Length - lfanew <? 24)));
  p ← rd8 File lfanew; e ← rd8 File (lfanew + 1);
  z0 ← rd8 File (lfanew + 2); z1 ← rd8 File (lfanew + 3);
  _ ← check ((p =? 80) && (e =? 69) && (z0 =? 0) && (z1 =? 0));
  nsec ← Rd16 (lfanew + 6);
  optSize ← Rd16 (lfanew + 20);
  let opt := lfanew + 24 in
  _ ← check (negb ((PEA_MAX_SECTIONS <? nsec) || (Length <? opt) || (Length - opt <? optSize)
                   || (optSize <? 96)));
  magic ← Rd16 opt;
  '(ddOff, nDirs) ←
    (if magic =? 0x10b then n ← Rd32 (opt + 92); inr (opt + 96, n)
     else if magic =? 0x20b then
       _ ← check (negb (optSize <? 112)); n ← Rd32 (opt + 108); inr (opt + 112, n)
     else inl PEA_E_FORMAT);
  let checkOff := opt + 64 in
  soh ← Rd32 (opt + 60);
  _ ← check (negb ((opt + optSize <? checkOff + 4) || (Length <? soh)));
  '(entry, coff, csize) ←
    (if (4 <? nDirs) && (ddOff + 5 * 8 <=? opt + optSize) then
       let ce := ddOff + 4 * 8 in
       co ← Rd32 ce; cs ← Rd32 (ce + 4); inr (Some ce, co, cs)
     else inr (None, 0, 0));
  _ ← check (negb (soh <? checkOff + 4));
  _ ← check (match entry with
             | Some ce => negb ((ce <? checkOff + 4) || (soh <? ce + 8))
             | None => true end);
  let secTab := opt + optSize in
  _ ← check (negb ((Length <? secTab) || (Length - secTab <? nsec * 40)));
  inr (Layout checkOff entry csize coff soh secTab nsec).

(** ** Section table, insertion-sorted by file offset as it is read

    [sift] is the inner loop, on the sorted prefix seen from its end. *)
Fixpoint sift (cur : pea_section) (r : list pea_section) : list pea_section :=
  match r with
  | s :: r' => if Offset cur <? Offset s then s :: sift cur r' else cur :: r
  | [] => [cur]
  end.

Fixpoint read_sections (n : nat) (tab i : Z) (r : list pea_section)
  : pea_error + list pea_section :=
  match n with
  | O => inr (rev r)
  | S n =>
    let s := tab + i * 40 in
    size ← Rd32 (s + 16);
    offset ← Rd32 (s + 20);
    read_sections n tab (i + 1) (sift (Section_ offset size) r)
  end.

Section walk.
Context {C : Type} (Update : C → list Z → option C).

(** Step 4: the running total and the context. *)
Fixpoint hash_sections (l : list pea_section) (sum : Z) (ctx : C) : pea_error + (Z * C) :=
  match l with
  | [] => inr (sum, ctx)
  | s :: l =>
    if Size s =? 0 then hash_sections l sum ctx
    else
      _ ← check (negb ((Length <? Offset s + Size s) || (Length <? sum + Size s)));
      ctx ← HashRange Update (Offset s) (Size s) ctx;
      hash_sections l (sum + Size s) ctx
  end.

Definition PeaAuthenticodeHash (ctx : C) : pea_error + C :=
  h ← pea_headers;
  sec ← read_sections (Z.to_nat (nSections h)) (secTab h) 0 [];
  let past := checkOff h + 4 in
  ctx ← HashRange Update 0 (checkOff h) ctx;
  ctx ← (match certEntry h with
         | Some ce => ctx ← HashRange Update past (ce - past) ctx;
                      HashRange Update (ce + 8) (sizeOfHeaders h - (ce + 8)) ctx
         | None => HashRange Update past (sizeOfHeaders h - past) ctx
         end);
  '(sum, ctx) ← hash_sections sec (sizeOfHeaders h) ctx;
  if sum <? Length then
    let extra := Length - sum in
    _ ← check (negb (negb (certSize h =? 0)
                     && ((Length <? certOff h + certSize h) || (extra <? certSize h))));
    HashRange Update sum (extra - certSize h) ctx
  else inr ctx.
End walk.
End pea.

Section safety.
Context (File : list Z).
Local Abbreviation Length := (Length File).

Lemma safe_check b : safe (check b) (λ _, b = true).
Proof. by destruct b. Qed.

(** What the header checks establish. *)
Record layout_ok (h : layout) : Prop := LayoutOk {
  lo_check : 0 ≤ checkOff h;
  lo_headers : checkOff h + 4 ≤ sizeOfHeaders h ≤ Length;
  lo_entry : match certEntry h with
             | Some ce => checkOff h + 4 ≤ ce ∧ ce + 8 ≤ sizeOfHeaders h
             | None => certSize h = 0
             end;
  lo_cert : 0 ≤ certOff h ∧ 0 ≤ certSize h;
  lo_sections : 0 ≤ secTab h ∧ 0 ≤ nSections h ∧ secTab h + nSections h * 40 ≤ Length
}.

Ltac step tac := eapply safe_bind; [tac|].
Ltac pguard := step ltac:(apply safe_check); intros [] ?; bool_props.
Ltac byte := step ltac:(apply safe_rd8; unfold PeAuthenticode.Length in *; lia); intros ? _.

Lemma headers_safe : safe (pea_headers File) layout_ok.
Proof.
  unfold pea_headers. pguard. byte. byte. pguard.
  step ltac:(apply safe_rd32; unfold PeAuthenticode.Length in *; lia). intros lfanew Hlf. unfold is_u32 in Hlf.
  pguard. byte. byte. byte. byte. pguard.
  step ltac:(apply safe_rd16; unfold PeAuthenticode.Length in *; lia). intros nsec Hns. unfold is_u16 in Hns.
  step ltac:(apply safe_rd16; unfold PeAuthenticode.Length in *; lia). intros optSize Hos. unfold is_u16 in Hos.
  pguard.
  step ltac:(apply safe_rd16; unfold PeAuthenticode.Length in *; lia). intros mg Hmg.
  eapply (safe_bind _ _ (λ d, lfanew + 24 ≤ d.1)).
  { destruct (mg =? 0x10b).
    - step ltac:(apply safe_rd32; unfold PeAuthenticode.Length in *; lia). intros n Hn. simpl. lia.
    - destruct (mg =? 0x20b); [|done]. pguard.
      step ltac:(apply safe_rd32; unfold PeAuthenticode.Length in *; lia). intros n Hn. simpl. lia. }
  intros [ddOff nDirs] Hdd. simpl in Hdd.
  step ltac:(apply safe_rd32; unfold PeAuthenticode.Length in *; lia). intros soh Hsoh. unfold is_u32 in Hsoh.
  pguard.
  eapply (safe_bind _ _ (λ e, 0 ≤ e.1.2 ∧ 0 ≤ e.2 ∧ (e.1.1 = None → e.2 = 0))).
  { destruct (_ && _) eqn:E; [|done]. bool_props.
    step ltac:(apply safe_rd32; unfold PeAuthenticode.Length in *; lia). intros co Hco.
    step ltac:(apply safe_rd32; unfold PeAuthenticode.Length in *; lia). intros cs Hcs. unfold is_u32 in *. simpl.
    split_and!; [lia|lia|done]. }
  intros [[entry coff] csize] (Hco & Hcs & Hnone). simpl in *.
  pguard. pguard. pguard.
  constructor; simpl; try lia.
  destruct entry as [ce|]; [bool_props; lia|auto].
Qed.

Lemma sift_Forall (P : pea_section → Prop) cur r : P cur → Forall P r → Forall P (sift cur r).
Proof.
  intros Hc Hr. induction Hr as [|s r Hs Hr IH]; simpl; [by constructor|].
  destruct (Offset cur <? Offset s); [by constructor|constructor; [done|by constructor]].
Qed.

Lemma sections_safe n tab i r :
  0 ≤ tab → 0 ≤ i → tab + (i + Z.of_nat n) * 40 ≤ Length →
  Forall (λ s, 0 ≤ Offset s ∧ 0 ≤ Size s) r →
  safe (read_sections File n tab i r) (Forall (λ s, 0 ≤ Offset s ∧ 0 ≤ Size s)).
Proof.
  revert i r. induction n as [|n IH]; intros i r Ht Hi Hlen Hr; cbn [read_sections].
  - by apply Forall_rev.
  - step ltac:(apply safe_rd32; unfold PeAuthenticode.Length in *; lia). intros size Hs.
    step ltac:(apply safe_rd32; unfold PeAuthenticode.Length in *; lia). intros off Ho. unfold is_u32 in *.
    apply IH; [lia..|]. apply sift_Forall; [simpl; lia|done].
Qed.

Section walk.
Context {C : Type} (Update : C → list Z → option C).

Lemma hash_loop_safe fuel off len ctx :
  0 ≤ off → 0 ≤ len → off + len ≤ Length → len / PEA_CHUNK + 1 < Z.of_nat fuel →
  safe (hash_loop File Update fuel off len ctx) (λ _, True).
Proof.
  revert off len ctx. induction fuel as [|fuel IH]; intros off len ctx Ho Hl Hb Hf.
  { assert (0 ≤ len / PEA_CHUNK) by (apply Z.div_pos; [lia|done]). lia. }
  cbn [hash_loop]. destruct (len =? 0) eqn:E0; [done|]. bool_props.
  set (n := if PEA_CHUNK <? len then PEA_CHUNK else len).
  assert (Hn : 0 < n ≤ len) by (unfold n, PEA_CHUNK in *; case_goal; bool_props; lia).
  rewrite !(proj2 (Z.ltb_ge _ _)) by lia. cbn [orb].
  destruct (Update ctx _) as [ctx'|]; [|done].
  destruct fuel as [|fuel'].
  { assert (0 ≤ len / PEA_CHUNK) by (apply Z.div_pos; [lia|done]). lia. }
  destruct (decide (len = n)) as [He|Hne].
  { by replace (len - n) with 0 by lia. }
  apply IH; [lia..|]. unfold n, PEA_CHUNK in *.
  destruct (1048576 <? len) eqn:E; [|lia]. Z.div_mod_to_equations. lia.
Qed.

Lemma HashRange_safe off len ctx :
  0 ≤ off → 0 ≤ len → off + len ≤ Length → safe (HashRange File Update off len ctx) (λ _, True).
Proof.
  intros. apply hash_loop_safe; try done.
  assert (0 ≤ len / PEA_CHUNK) by (apply Z.div_pos; [lia|done]). lia.
Qed.

Lemma hash_sections_safe l sum ctx :
  Forall (λ s, 0 ≤ Offset s ∧ 0 ≤ Size s) l → 0 ≤ sum ≤ Length →
  safe (hash_sections File Update l sum ctx) (λ r, 0 ≤ r.1 ≤ Length).
Proof.
  intros Hl. revert sum ctx. induction Hl as [|s l [Ho Hs] Hl IH]; intros sum ctx Hsum; [done|].
  cbn [hash_sections]. destruct (Size s =? 0); [by apply IH|]. pguard.
  step ltac:(apply HashRange_safe; lia). intros ctx' _. apply IH. lia.
Qed.
End walk.
End safety.

(** C34 — memory safety on hostile input: for every file and every hash callback the walk
    ends with a digest, PEA_E_FORMAT or PEA_E_HASH; it never reads a byte outside the
    file and every loop ends within its bound. *)
Theorem pea_memory_safe {C} (Update : C → list Z → option C) File ctx :
  match PeaAuthenticodeHash File Update ctx with
  | inr _ | inl PEA_E_FORMAT | inl PEA_E_HASH => True
  | inl OutOfBounds | inl OutOfFuel => False
  end.
Proof.
  enough (safe (PeaAuthenticodeHash File Update ctx) (λ _, True)) as Hs
    by (destruct (PeaAuthenticodeHash File Update ctx) as [[]|]; done).
  unfold PeaAuthenticodeHash. eapply safe_bind; [apply headers_safe|]. intros h [Hc Hh He Hce Hse].
  eapply safe_bind; [apply sections_safe; [lia|lia|lia|constructor]|]. intros sec Hsec.
  eapply safe_bind; [apply HashRange_safe; lia|]. intros c1 _.
  eapply (safe_bind _ _ (λ _, True)).
  { destruct (certEntry h) as [ce|]; [|apply HashRange_safe; lia].
    eapply safe_bind; [apply HashRange_safe; lia|]. intros c2 _. apply HashRange_safe; lia. }
  intros c2 _. eapply safe_bind; [apply hash_sections_safe; [done|lia]|].
  intros [sum c3] Hsum. simpl in Hsum. destruct (sum <? Length File) eqn:E; [|done]. bool_props.
  eapply safe_bind; [apply safe_check|]. intros [] Hx. apply HashRange_safe; [lia| |lia].
  destruct (certSize h =? 0) eqn:Ez; bool_props; [lia|].
  destruct Hx as [?|Hx]; bool_props; [done|lia].
Qed.

(** ** The byte stream the digest covers *)

(** A hash that does not care how its input is cut into calls. *)
Class Streaming {C} (Update : C → list Z → option C) := {
  update_nil : ∀ c, Update c [] = Some c;
  update_app : ∀ c x y, Update c (x ++ y) = Update c x ≫= λ c, Update c y
}.

Definition hashed {C} (Update : C → list Z → option C) (ctx : C) (s : list Z) : pea_error + C :=
  match Update ctx s with Some c => inr c | None => inl PEA_E_HASH end.

(** The callback that collects its input. *)
Definition collect (acc x : list Z) : option (list Z) := Some (acc ++ x).
#[export] Instance collect_streaming : Streaming collect.
Proof.
  split; intros; unfold collect; simpl; [by rewrite app_nil_r|by rewrite app_assoc].
Qed.

Section stream.
Context (File : list Z).
Local Abbreviation Length := (Length File).

Lemma bytes_at_app off a b :
  0 ≤ off → 0 ≤ a → 0 ≤ b → off + a + b ≤ Length →
  bytes_at File off a ++ bytes_at File (off + a) b = bytes_at File off (a + b).
Proof.
  intros Ho Ha Hb Hl. unfold bytes_at. rewrite !Z2Nat.inj_add by lia.
  rewrite <- drop_drop. set (l := drop (Z.to_nat off) File).
  rewrite <- (take_drop (Z.to_nat a) (take (Z.to_nat a + Z.to_nat b) l)).
  rewrite take_take, Nat.min_l by lia. f_equal. by rewrite skipn_firstn_comm, Nat.add_sub_swap, Nat.sub_diag.
Qed.

Lemma bytes_at_nil off : bytes_at File off 0 = [].
Proof. done. Qed.

Context {C : Type} (Update : C → list Z → option C) `{!Streaming Update}.

Lemma hash_loop_stream fuel off len ctx :
  0 ≤ off → 0 ≤ len → off + len ≤ Length → len / PEA_CHUNK + 1 < Z.of_nat fuel →
  hash_loop File Update fuel off len ctx = hashed Update ctx (bytes_at File off len).
Proof.
  revert off len ctx. induction fuel as [|fuel IH]; intros off len ctx Ho Hl Hb Hf.
  { assert (0 ≤ len / PEA_CHUNK) by (apply Z.div_pos; [lia|done]). lia. }
  cbn [hash_loop]. destruct (len =? 0) eqn:E0; bool_props.
  { subst. unfold hashed. by rewrite bytes_at_nil, update_nil. }
  set (n := if PEA_CHUNK <? len then PEA_CHUNK else len).
  assert (Hn : 0 < n ≤ len) by (unfold n, PEA_CHUNK in *; case_goal; bool_props; lia).
  rewrite !(proj2 (Z.ltb_ge _ _)) by lia. cbn [orb].
  unfold hashed. replace (bytes_at File off len)
    with (bytes_at File off n ++ bytes_at File (off + n) (len - n))
    by (rewrite bytes_at_app by lia; f_equal; lia).
  rewrite update_app. destruct (Update ctx (bytes_at File off n)) as [c|]; [|done]. bind_simpl.
  destruct fuel as [|fuel'].
  { assert (0 ≤ len / PEA_CHUNK) by (apply Z.div_pos; [lia|done]). lia. }
  destruct (decide (len = n)) as [He|Hne].
  { replace (len - n) with 0 by lia. rewrite bytes_at_nil, update_nil. done. }
  apply IH; [lia..|]. unfold n, PEA_CHUNK in *.
  destruct (1048576 <? len) eqn:E; [|lia]. Z.div_mod_to_equations. lia.
Qed.

Lemma HashRange_stream off len ctx :
  0 ≤ off → 0 ≤ len → off + len ≤ Length →
  HashRange File Update off len ctx = hashed Update ctx (bytes_at File off len).
Proof.
  intros. apply hash_loop_stream; try done.
  assert (0 ≤ len / PEA_CHUNK) by (apply Z.div_pos; [lia|done]). lia.
Qed.

(** One more range: what was hashed before, followed by it. *)
Lemma hashed_bind ctx s (f : C → pea_error + C) t :
  (∀ c, f c = hashed Update c t) →
  hashed Update ctx s ≫= f = hashed Update ctx (s ++ t).
Proof.
  intros Hf. unfold hashed. rewrite update_app. destruct (Update ctx s); simpl; [apply Hf|done].
Qed.

(** Sections that follow each other from [pos] without gaps (empty ones aside). *)
Fixpoint tiles (l : list pea_section) (pos : Z) : option Z :=
  match l with
  | [] => Some pos
  | s :: l => if Size s =? 0 then tiles l pos
              else if Offset s =? pos then tiles l (pos + Size s) else None
  end.

Lemma tiles_le l pos e :
  Forall (λ s, 0 ≤ Offset s ∧ 0 ≤ Size s) l → tiles l pos = Some e → pos ≤ e.
Proof.
  intros Hl. revert pos. induction Hl as [|s l [Ho Hs] Hl IH]; intros pos; cbn [tiles].
  - intros [= ->]. lia.
  - destruct (Size s =? 0); [apply IH|]. destruct (_ =? pos); [|done]. intros Ht%IH. lia.
Qed.

Lemma hash_sections_stream l pos e ctx :
  Forall (λ s, 0 ≤ Offset s ∧ 0 ≤ Size s) l → 0 ≤ pos → tiles l pos = Some e → e ≤ Length →
  hash_sections File Update l pos ctx
  = (c ← hashed Update ctx (bytes_at File pos (e - pos)); inr (e, c)).
Proof.
  intros Hl. revert pos ctx. induction Hl as [|s l [Ho Hs] Hl IH]; intros pos ctx Hp Ht He;
    cbn [hash_sections tiles] in *.
  - simplify_eq. rewrite Z.sub_diag, bytes_at_nil. unfold hashed. by rewrite update_nil.
  - destruct (Size s =? 0) eqn:E0; [by apply IH|]. bool_props.
    destruct (Offset s =? pos) eqn:Eo; [|done]. bool_props. subst pos.
    pose proof (tiles_le _ _ _ Hl Ht) as Hle.
    rewrite !(proj2 (Z.ltb_ge _ _)) by lia. cbn [orb negb check].
    rewrite HashRange_stream by lia.
    change (inr () ≫= ?f) with (f ()). cbv beta.
    unfold hashed at 1.
    replace (bytes_at File (Offset s) (e - Offset s))
      with (bytes_at File (Offset s) (Size s) ++ bytes_at File (Offset s + Size s) (e - (Offset s + Size s)))
      by (rewrite bytes_at_app by lia; f_equal; lia).
    unfold hashed. rewrite update_app. destruct (Update ctx _) as [c|]; [|done].
    bind_simpl. change (inr c ≫= ?f) with (f c). cbv beta. by rewrite IH by (done || lia).
Qed.
End stream.

(** The file without CheckSum, certificate entry and certificate. *)
Definition signed_part (File : list Z) (h : layout) : list Z :=
  bytes_at File 0 (checkOff h)
  ++ match certEntry h with
     | Some ce => bytes_at File (checkOff h + 4) (ce - (checkOff h + 4))
                  ++ bytes_at File (ce + 8) (Length File - certSize h - (ce + 8))
     | None => bytes_at File (checkOff h + 4) (Length File - (checkOff h + 4))
     end.

(** An image laid out without gaps: sections from the end of the headers, and a
    certificate, if any, inside what follows them. *)
Record gapless (File : list Z) (h : layout) : Prop := Gapless {
  gl_headers : pea_headers File = inr h;
  gl_sections : ∃ sec e, read_sections File (Z.to_nat (nSections h)) (secTab h) 0 [] = inr sec
    ∧ tiles sec (sizeOfHeaders h) = Some e ∧ e + certSize h ≤ Length File
    ∧ (certSize h ≠ 0 → certOff h + certSize h ≤ Length File)
}.

Lemma gapless_ok File h : gapless File h → layout_ok File h.
Proof. intros [Hh _]. pose proof (headers_safe File) as Hs. by rewrite Hh in Hs. Qed.

(** Steps 4 and 5 together hash the rest of the file up to the certificate. *)
Lemma pea_tail_stream {C} (Update : C → list Z → option C) `{!Streaming Update} File h sec e c :
  layout_ok File h → Forall (λ s, 0 ≤ Offset s ∧ 0 ≤ Size s) sec →
  tiles sec (sizeOfHeaders h) = Some e → e + certSize h ≤ Length File →
  (certSize h ≠ 0 → certOff h + certSize h ≤ Length File) →
  ('(sum, ctx) ← hash_sections File Update sec (sizeOfHeaders h) c;
   if sum <? Length File then
     _ ← check (negb (negb (certSize h =? 0) && ((Length File <? certOff h + certSize h)
                      || (Length File - sum <? certSize h))));
     HashRange File Update sum (Length File - sum - certSize h) ctx
   else inr ctx)
  = hashed Update c (bytes_at File (sizeOfHeaders h)
                       (Length File - certSize h - sizeOfHeaders h)).
Proof.
  intros [Hc Hh He Hce Hse] Hss Ht Hend Hcert. pose proof (tiles_le _ _ _ Hss Ht) as Hle.
  rewrite (hash_sections_stream File Update sec (sizeOfHeaders h) e) by (done || lia).
  replace (bytes_at File (sizeOfHeaders h) (Length File - certSize h - sizeOfHeaders h))
    with (bytes_at File (sizeOfHeaders h) (e - sizeOfHeaders h)
          ++ bytes_at File e (Length File - e - certSize h)).
  2:{ replace e with (sizeOfHeaders h + (e - sizeOfHeaders h)) at 2 by lia.
      rewrite bytes_at_app by lia. f_equal. lia. }
  unfold hashed at 1 2. rewrite update_app.
  destruct (Update c _) as [c'|]; [|done]. bind_simpl.
  change (inr c' ≫= ?f) with (f c'). cbv beta. change (inr (e, c') ≫= ?f) with (f (e, c')).
  cbv beta iota. destruct (e <? Length File) eqn:E; bool_props.
  - assert (Hchk : negb (negb (certSize h =? 0) && ((Length File <? certOff h + certSize h)
                         || (Length File - e <? certSize h))) = true).
    { destruct (certSize h =? 0) eqn:Ez; [done|]. bool_props.
      by rewrite !(proj2 (Z.ltb_ge _ _)) by (specialize (Hcert Ez); lia). }
    rewrite Hchk. change (check true ≫= ?f) with (f ()). cbv beta.
    by rewrite HashRange_stream by (done || lia).
  - replace (Length File - e - certSize h) with 0 by lia. by rewrite bytes_at_nil, update_nil.
Qed.

Lemma pea_digest_stream {C} (Update : C → list Z → option C) `{!Streaming Update} File h ctx :
  gapless File h → PeaAuthenticodeHash File Update ctx = hashed Update ctx (signed_part File h).
Proof.
  intros Hg. pose proof (gapless_ok _ _ Hg) as Hok. pose proof Hok as [Hc Hh He Hce Hse].
  destruct Hg as [Hhd (sec & e & Hsec & Ht & Hend & Hcert)].
  pose proof (sections_safe File (Z.to_nat (nSections h)) (secTab h) 0 []
                ltac:(lia) ltac:(lia) ltac:(lia) ltac:(constructor)) as Hss.
  rewrite Hsec in Hss. simpl in Hss. pose proof (tiles_le _ _ _ Hss Ht) as Hle.
  unfold PeaAuthenticodeHash. rewrite Hhd. change (inr h ≫= ?f) with (f h). cbv beta.
  rewrite Hsec. change (inr sec ≫= ?f) with (f sec). cbv beta zeta.
  rewrite HashRange_stream by (done || lia).
  set (past := checkOff h + 4). set (soh := sizeOfHeaders h) in *.
  pose (hdr := match certEntry h with
               | Some ce => bytes_at File past (ce - past) ++ bytes_at File (ce + 8) (soh - (ce + 8))
               | None => bytes_at File past (soh - past)
               end).
  assert (Hhdr : ∀ c, match certEntry h with
      | Some ce => c ← HashRange File Update past (ce - past) c;
                   HashRange File Update (ce + 8) (soh - (ce + 8)) c
      | None => HashRange File Update past (soh - past) c
      end = hashed Update c hdr).
  { intros c. subst hdr. destruct (certEntry h) as [ce|].
    - rewrite HashRange_stream by (done || lia). apply hashed_bind; [done|]. intros c'.
      by apply HashRange_stream; (done || lia).
    - by apply HashRange_stream; (done || lia). }
  etrans.
  { apply (hashed_bind Update _ _ _ (hdr ++ bytes_at File soh (Length File - certSize h - soh))).
    intros c. rewrite Hhdr. apply hashed_bind; [done|]. intros c'. by apply pea_tail_stream with e. }
  f_equal. unfold signed_part. f_equal. subst hdr. destruct (certEntry h) as [ce|].
  - rewrite <- app_assoc. f_equal. replace soh with (ce + 8 + (soh - (ce + 8))) at 2 by lia.
    rewrite bytes_at_app by lia. f_equal. lia.
  - replace soh with (past + (soh - past)) at 2 by lia.
    rewrite bytes_at_app by lia. f_equal. lia.
Qed.

(** A PE32 image with two sections stored in reverse order, optionally signed. *)
Definition sample_pe (checksum : Z) (cert : list Z) : list Z :=
  let b := memcpy (replicate 304 0) 0 [77; 90] in
  let b := memcpy b 0x3c [0x40] in
  let b := memcpy b 0x40 [80; 69] in
  let b := memcpy b 0x46 [2] in
  let b := memcpy b 0x54 [136] in
  let b := memcpy b 88 [0x0b; 1] in
  let b := memcpy b 148 [48; 1] in
  let b := memcpy b 152 [checksum] in
  let b := memcpy b 180 [5] in
  let b := match cert with [] => b | _ => memcpy b 216 [64; 1; 0; 0; zlen cert] end in
  let b := memcpy b 240 [8; 0; 0; 0; 56; 1] in
  let b := memcpy b 280 [8; 0; 0; 0; 48; 1] in
  b ++ [1; 2; 3; 4; 5; 6; 7; 8] ++ [11; 12; 13; 14; 15; 16; 17; 18] ++ cert.
Definition sample_layout (n : Z) : layout :=
  Layout 152 (Some 216) n (if n =? 0 then 0 else 320) 304 224 2.
Lemma sample_gapless s cert :
  (s = 0 ∧ cert = []) ∨ (s = 7 ∧ cert = [9; 9; 9]) →
  gapless (sample_pe s cert) (sample_layout (zlen cert)).
Proof.
  intros [[-> ->]|[-> ->]]; (split; [vm_compute; reflexivity|]);
    exists [Section_ 304 8; Section_ 312 8], 320; by vm_compute.
Qed.

(** On an image without gaps the digest is the hash of the file with exactly the
    three pieces left out: the CheckSum field, the certificate directory entry and the
    certificate at the end of the file; however the reading is cut into chunks. *)
Theorem pea_digest_covers {C} (Update : C → list Z → option C) `{!Streaming Update} File h ctx :
  gapless File h → PeaAuthenticodeHash File Update ctx = hashed Update ctx (signed_part File h).
Proof. apply pea_digest_stream. done. Qed.

Lemma pea_digest_covers_witness :
  PeaAuthenticodeHash (sample_pe 7 [9; 9; 9]) collect []
  = hashed collect [] (signed_part (sample_pe 7 [9; 9; 9]) (sample_layout 3)).
Proof.
  apply (pea_digest_covers collect (sample_pe 7 [9; 9; 9]) (sample_layout 3) []), (sample_gapless 7 [9; 9; 9]).
  by right.
Defined.

Lemma bytes_at_agree F G off len :
  0 ≤ off → 0 ≤ len → off + len ≤ Length F → off + len ≤ Length G →
  (∀ i, off ≤ Z.of_nat i < off + len → F !! i = G !! i) →
  bytes_at F off len = bytes_at G off len.
Proof.
  intros Ho Hl HF HG Heq. unfold bytes_at. apply list_eq. intros i.
  destruct (decide (i < Z.to_nat len)%nat) as [Hi|Hi].
  - rewrite !lookup_take_lt, !lookup_drop by done. apply Heq. lia.
  - rewrite !lookup_take_ge by lia. done.
Qed.

(** C35 — signing does not change the digest: two gapless images that agree on every byte
    before their certificates, the CheckSum field and the certificate directory entry
    apart, have the same Authenticode digest, whatever certificates follow. *)
Theorem signing_keeps_digest {C} (Update : C → list Z → option C) `{!Streaming Update}
    F G hF hG ce body ctx :
  gapless F hF → gapless G hG →
  checkOff hF = checkOff hG → certEntry hF = Some ce → certEntry hG = Some ce →
  Length F = body + certSize hF → Length G = body + certSize hG → ce + 8 ≤ body →
  (∀ i, Z.of_nat i < body →
        ¬ (checkOff hF ≤ Z.of_nat i < checkOff hF + 4) → ¬ (ce ≤ Z.of_nat i < ce + 8) →
        F !! i = G !! i) →
  PeaAuthenticodeHash F Update ctx = PeaAuthenticodeHash G Update ctx.
Proof.
  intros HF HG Hck HcF HcG HlF HlG Hbody Hagree.
  rewrite (pea_digest_stream Update F hF), (pea_digest_stream Update G hG) by done.
  pose proof (gapless_ok _ _ HF) as [Hc Hh He Hce _]. pose proof (gapless_ok _ _ HG) as [_ _ _ HceG _].
  rewrite HcF in He.
  f_equal. unfold signed_part. rewrite HcF, HcG, <- Hck, HlF, HlG.
  replace (body + certSize hF - certSize hF) with body by lia.
  replace (body + certSize hG - certSize hG) with body by lia.
  f_equal; [|f_equal]; apply bytes_at_agree; try lia; intros i Hi; apply Hagree; lia.
Qed.

Lemma signing_keeps_digest_witness :
  PeaAuthenticodeHash (sample_pe 0 []) collect [] = PeaAuthenticodeHash (sample_pe 7 [9; 9; 9]) collect [].
Proof.
  apply (signing_keeps_digest collect (sample_pe 0 []) (sample_pe 7 [9; 9; 9])
           (sample_layout 0) (sample_layout 3) 216 320); try (by vm_compute).
  - apply (sample_gapless 0 []). by left.
  - apply (sample_gapless 7 [9; 9; 9]). by right.
  - assert (Hall : Forall (λ i : nat, (152 ≤ Z.of_nat i < 156) ∨ (216 ≤ Z.of_nat i < 224)
              ∨ sample_pe 0 [] !! i = sample_pe 7 [9; 9; 9] !! i) (seq 0 320)).
    { refine (bool_decide_unpack _ _). vm_compute. exact I. }
    intros i Hi H1 H2. rewrite Forall_forall in Hall.
    destruct (Hall i) as [|[|]]; [apply elem_of_seq; lia|done..].
Defined.

(** ** The section table is sorted as it is read *)
Fixpoint raw_sections (File : list Z) (n : nat) (tab i : Z) : pea_error + list pea_section :=
  match n with
  | O => inr []
  | S n =>
    size ← Rd32 File (tab + i * 40 + 16);
    offset ← Rd32 File (tab + i * 40 + 20);
    rest ← raw_sections File n tab (i + 1);
    inr (Section_ offset size :: rest)
  end.

Definition by_offset (a b : pea_section) : Prop := Offset a ≤ Offset b.
#[export] Instance by_offset_trans : Transitive by_offset.
Proof. intros a b c. unfold by_offset. lia. Qed.

Lemma sift_perm cur r : sift cur r ≡ₚ cur :: r.
Proof.
  induction r as [|s r IH]; simpl; [done|]. destruct (_ <? _); [|done]. rewrite IH. constructor.
Qed.

Lemma sift_descending cur r :
  StronglySorted (flip by_offset) r → StronglySorted (flip by_offset) (sift cur r).
Proof.
  induction 1 as [|s r Hr IH Hs]; simpl; [by repeat constructor|].
  destruct (Offset cur <? Offset s) eqn:E; bool_props.
  - constructor; [done|]. rewrite sift_perm. constructor; [unfold flip, by_offset; lia|done].
  - constructor; [by constructor|]. constructor; [unfold flip, by_offset; lia|].
    eapply Forall_impl; [done|]. unfold flip, by_offset. simpl. intros; lia.
Qed.

Lemma StronglySorted_rev (r : list pea_section) :
  StronglySorted (flip by_offset) r → StronglySorted by_offset (rev r).
Proof.
  induction 1 as [|s r Hr IH Hs]; simpl; [constructor|].
  apply StronglySorted_app_2; [|done|by repeat constructor].
  intros x y Hx ->%list_elem_of_singleton. rewrite Forall_forall in Hs. apply Hs.
  by rewrite list_elem_of_In, in_rev, <- list_elem_of_In.
Qed.

Lemma read_sections_perm File n tab i r l :
  read_sections File n tab i r = inr l → StronglySorted (flip by_offset) r →
  StronglySorted by_offset l
  ∧ ∃ raw, raw_sections File n tab i = inr raw ∧ length raw = n ∧ l ≡ₚ raw ++ r.
Proof.
  revert i r. induction n as [|n IH]; intros i r; cbn [read_sections raw_sections].
  - intros [= <-] Hr. split; [by apply StronglySorted_rev|].
    exists []. split_and!; [done..|]. simpl. symmetry. apply Permutation_rev.
  - intros (size & Hs & (off & Ho & Hl)%bind_inr)%bind_inr Hr.
    destruct (IH _ _ Hl (sift_descending _ _ Hr)) as (Hsort & raw & Hraw & Hlen & Hperm).
    split; [done|]. eexists. rewrite Hs, Ho, Hraw. split_and!; [done|simpl; by rewrite Hlen|].
    rewrite Hperm, sift_perm. simpl. by rewrite Permutation_middle.
Qed.

(** The in-place insertion sort: what is hashed is every entry of the section table,
    each once, in ascending order of file offset. *)
Theorem sections_sorted_permutation File n tab l :
  read_sections File n tab 0 [] = inr l →
  StronglySorted by_offset l
  ∧ ∃ raw, raw_sections File n tab 0 = inr raw ∧ length raw = n ∧ l ≡ₚ raw.
Proof.
  intros Hl. destruct (read_sections_perm _ _ _ _ _ _ Hl) as (Hs & raw & Hr & Hn & Hp);
    [constructor|]. rewrite app_nil_r in Hp. eauto.
Qed.

Lemma sections_sorted_permutation_witness :
  ∃ l, read_sections (sample_pe 0 []) 2 224 0 [] = inr l ∧ StronglySorted by_offset l
  ∧ l = [Section_ 304 8; Section_ 312 8].
Proof.
  exists [Section_ 304 8; Section_ 312 8].
  assert (Hr : read_sections (sample_pe 0 []) 2 224 0 [] = inr [Section_ 304 8; Section_ 312 8])
    by (vm_compute; reflexivity).
  split_and!; [exact Hr|by apply (sections_sorted_permutation _ _ _ _ Hr)|reflexivity].
Defined.
