(* ===== verification/WinState.v ===== *)
(** * The Windows driver's shared state (windows/src/KernelGuard.h, shared_state.c)

    Constants and records of the master header, the globals every module of the
    driver reaches ([core]), the machine it runs on ([WinEnv]), and the part of
    shared_state.c below the event router: the registry policy, the driver and
    DMA lists, the kernel image range, and the seal over the policy block.
    [ComputeSha256] of kernel_integrity.c is here because the seal uses it.

    Globals of the C code are fields; each call of the operating system is
    answered by the class at the time it is made ([clock], advanced by every
    such call), so the machine may answer differently each time.  An exception
    raised by a memory access is [None]. *)
From S2P Require Import Prelude Sha256 Uapi.
Local Open Scope Z_scope.

(** ** NTSTATUS *)
Definition NT_SUCCESS (st : Z) : bool := 0 <=? s32 st.
Definition STATUS_SUCCESS : Z := 0.
Definition STATUS_UNSUCCESSFUL : Z := 0xC0000001.
Definition STATUS_ACCESS_VIOLATION : Z := 0xC0000005.
Definition STATUS_INVALID_PARAMETER : Z := 0xC000000D.
Definition STATUS_END_OF_FILE : Z := 0xC0000011.
Definition STATUS_BUFFER_TOO_SMALL : Z := 0xC0000023.
Definition STATUS_DATA_ERROR : Z := 0xC000003E.
Definition STATUS_INSUFFICIENT_RESOURCES : Z := 0xC000009A.
Definition STATUS_DEVICE_DATA_ERROR : Z := 0xC000009C.
Definition STATUS_DEVICE_NOT_READY : Z := 0xC00000A3.
Definition STATUS_NOT_SUPPORTED : Z := 0xC00000BB.
Definition STATUS_NOT_FOUND : Z := 0xC0000225.
Definition STATUS_INVALID_IMAGE_FORMAT : Z := 0xC000007B.
Definition STATUS_FILE_TOO_LARGE : Z := 0xC0000904.
Definition STATUS_INVALID_DEVICE_REQUEST : Z := 0xC0000010.

(** ** Interrupt request levels *)
Definition PASSIVE_LEVEL : Z := 0.
Definition DISPATCH_LEVEL : Z := 2.

(** ** Model-specific registers *)
Definition MSR_IA32_ARCH_CAPABILITIES : Z := 0x10A.
Definition MSR_IA32_SPEC_CTRL : Z := 0x48.
Definition MSR_IA32_PRED_CMD : Z := 0x49.
Definition MSR_IA32_FLUSH_CMD : Z := 0x10B.
Definition MSR_IA32_PQR_ASSOC : Z := 0xC8F.
Definition MSR_IA32_L3_QOS_CFG : Z := 0xC81.
Definition MSR_IA32_L3_CBMBASE : Z := 0xC90.
Definition MSR_COVERT_SIGNAL : Z := 0x150.

(** ** CPU features *)
Definition CPU_FEAT_MDS_NO : Z := 0x0001.
Definition CPU_FEAT_L1TF_NO : Z := 0x0002.
Definition CPU_FEAT_RDCL_NO : Z := 0x0004.
Definition CPU_FEAT_IBRS_ALL : Z := 0x0008.
Definition CPU_FEAT_VERW_FLUSH : Z := 0x0010.
Definition CPU_FEAT_L1D_FLUSH : Z := 0x0020.
Definition CPU_FEAT_SSB_NO : Z := 0x0040.
Definition CPU_FEAT_IBPB : Z := 0x0080.
Definition CPU_FEAT_CAT_L3 : Z := 0x0100.
Definition CPU_FEAT_SMT : Z := 0x0200.
Definition CPU_FEAT_ARCH_CAP_MSR : Z := 0x0400.

(** ** Alert codes *)
Definition ALERT_PMU_L1D_ANOMALY : Z := 0x0001.
Definition ALERT_PMU_L2_ANOMALY : Z := 0x0002.
Definition ALERT_PMU_RDTSC_RATE : Z := 0x0003.
Definition ALERT_UNAUTHORIZED_KBD_FILTER : Z := 0x0010.
Definition ALERT_UNAUTHORIZED_DMA : Z := 0x0011.
Definition ALERT_PCI_DISCREPANCY : Z := 0x0012.
Definition ALERT_KBD_FILTER_NEUTRALIZED : Z := 0x0013.
Definition ALERT_DMA_BLOCKED_IOMMU : Z := 0x0014.
Definition ALERT_DEVICE_BME_DISABLED : Z := 0x0015.
Definition ALERT_IDT_HOOK : Z := 0x0020.
Definition ALERT_DISPATCH_HOOK : Z := 0x0021.
Definition ALERT_TEXT_PATCH : Z := 0x0022.
Definition ALERT_MODULE_LOADED : Z := 0x0024.
Definition ALERT_VULN_DRIVER : Z := 0x0025.
Definition ALERT_DRIVER_BLOCKED : Z := 0x0026.
Definition ALERT_LOAD_POLICY : Z := 0x0027.
Definition ALERT_SHARED_STATE_CORRUPT : Z := 0x0030.
Definition ALERT_FAIL_SAFE_ENTERED : Z := 0x0031.

Definition KG_LP_TESTSIGNING : Z := 0x0100.
Definition KG_LP_NO_HVCI : Z := 0x0200.
Definition KG_LP_NO_BLOCKLIST : Z := 0x0400.

Definition NOTIFICATION_SLOTS : Z := 16.
Definition HMAC_KEY_SIZE : nat := 32.
Definition NOTIFY_MAGIC : Z := 0xDEADC0DE.
Definition SIGNAL_MAGIC : Z := 0xCAFEBABE.
Definition KG_POLICY_VERSION : Z := 2.
Definition HASH_CHUNK_SIZE : Z := 64 * 1024.
Definition MAXULONG : Z := 0xFFFFFFFF.
(** [MAXIMUM_PROCESSORS] of the 64-bit WDK, the size of the per-CPU arrays. *)
Definition MAXIMUM_PROCESSORS : Z := 64.

(** ** Mitigation *)
Inductive MITIGATION_STRATEGY :=
  | MitigateNone | MitigateVerwOnly | MitigateL1dFlushOnly | MitigateVerwPlusL1d
  | MitigateFullSpectrum.
#[export] Instance MITIGATION_STRATEGY_eq_dec : EqDecision MITIGATION_STRATEGY.
Proof. solve_decision. Defined.

Record CPU_MITIGATIONS := CpuMitigations {
  Features : Z;
  Strategy : MITIGATION_STRATEGY;
  VerwSelector : Z;
  FlushCostNs : Z
}.
Definition zero_mitigations : CPU_MITIGATIONS := CpuMitigations 0 MitigateNone 0 0.

(** ** The shared memory of the secure channel *)
Record SECURE_NOTIFICATION := SecureNotification {
  Magic : Z;
  SequenceNumber : Z;
  AlertType : Z;
  AlertLevel : Z;
  Timestamp : Z;
  Param1 : Z;
  Param2 : Z;
  Hmac : list Z
}.
Definition zero_secure_notification : SECURE_NOTIFICATION :=
  SecureNotification 0 0 0 0 0 0 0 (replicate 32 0).
#[export] Instance SECURE_NOTIFICATION_inhabited : Inhabited SECURE_NOTIFICATION :=
  populate zero_secure_notification.
#[export] Instance SECURE_NOTIFICATION_eq_dec : EqDecision SECURE_NOTIFICATION.
Proof. solve_decision. Defined.

Record SHARED_MEM_REGION := SharedMemRegion {
  WriteIndex : Z;
  ReadIndex : Z;
  DriverNonce : Z;
  Notifications : list SECURE_NOTIFICATION
}.
Definition zero_region : SHARED_MEM_REGION :=
  SharedMemRegion 0 0 0 (replicate 16 zero_secure_notification).

(** ** The shared state: a policy block under a seal, and live statistics *)
Inductive wstat :=
  | PmuAlertLevel | PmuL1DOverflows | PmuL2Overflows | PmuRdtscFlaggedPid
  | HwDiscrepancyCount | HwDmaViolationCount
  | IdtHookDetected | DispatchHookDetected | TextPatchDetected | FailedModuleHashCount
  | VulnDriverDetected | DriverLockViolations | DriversHashed
  | SensPageCount | ActiveMitigationFlags | TotalFlushCount
  | NotificationsSent | MsrSignalsSent.
#[export] Instance wstat_eq_dec : EqDecision wstat.
Proof. solve_decision. Defined.

Record POLICY_BLOCK := PolicyBlock {
  PolicyVersion : Z;
  EnforceMode : Z;
  CurrentClos : Z;
  LockMode : Z
}.
#[export] Instance POLICY_BLOCK_eq_dec : EqDecision POLICY_BLOCK.
Proof. solve_decision. Defined.

Record DRIVER_SHARED_STATE := DriverSharedState {
  policy : POLICY_BLOCK;
  FailSafeMode : bool;
  IntegrityValid : bool;
  StateHash : list Z;
  wstats : wstat → Z
}.

(** ** Hardware effects, in program order *)
Inductive win_op :=
  | Verw                          (* PerformVerwFlush *)
  | Lfence                        (* SPECULATION_BARRIER *)
  | Wrmsr (msr value : Z)
  | Inb (port : Z).               (* __inbyte *)
#[export] Instance win_op_eq_dec : EqDecision win_op.
Proof. solve_decision. Defined.

(** ** What every module of the driver reaches *)
Record core := Core {
  g_SharedState : DRIVER_SHARED_STATE;
  g_CpuMit : Z → CPU_MITIGATIONS;
  g_SharedMemKernel : option SHARED_MEM_REGION;
  g_SharedMemMdl : bool;
  g_HmacKey : list Z;
  s_NtBase : Z;                   (* the caches of GetNtoskrnlBase and GetNtoskrnlSize *)
  s_NtSize : Z;
  ops : list win_op;
  clock : nat
}.

Definition set_shared (s : DRIVER_SHARED_STATE) (c : core) : core :=
  Core s (g_CpuMit c) (g_SharedMemKernel c) (g_SharedMemMdl c) (g_HmacKey c) (s_NtBase c)
       (s_NtSize c) (ops c) (clock c).
Definition set_cpumit (m : Z → CPU_MITIGATIONS) (c : core) : core :=
  Core (g_SharedState c) m (g_SharedMemKernel c) (g_SharedMemMdl c) (g_HmacKey c) (s_NtBase c)
       (s_NtSize c) (ops c) (clock c).
Definition set_region (r : option SHARED_MEM_REGION) (c : core) : core :=
  Core (g_SharedState c) (g_CpuMit c) r (g_SharedMemMdl c) (g_HmacKey c) (s_NtBase c)
       (s_NtSize c) (ops c) (clock c).
Definition set_mdl (b : bool) (c : core) : core :=
  Core (g_SharedState c) (g_CpuMit c) (g_SharedMemKernel c) b (g_HmacKey c) (s_NtBase c)
       (s_NtSize c) (ops c) (clock c).
Definition set_key (k : list Z) (c : core) : core :=
  Core (g_SharedState c) (g_CpuMit c) (g_SharedMemKernel c) (g_SharedMemMdl c) k (s_NtBase c)
       (s_NtSize c) (ops c) (clock c).
Definition set_nt (b s : Z) (c : core) : core :=
  Core (g_SharedState c) (g_CpuMit c) (g_SharedMemKernel c) (g_SharedMemMdl c) (g_HmacKey c) b s
       (ops c) (clock c).
Definition emit_op (o : win_op) (c : core) : core :=
  Core (g_SharedState c) (g_CpuMit c) (g_SharedMemKernel c) (g_SharedMemMdl c) (g_HmacKey c)
       (s_NtBase c) (s_NtSize c) (ops c ++ [o]) (clock c).
Definition tick (c : core) : core :=
  Core (g_SharedState c) (g_CpuMit c) (g_SharedMemKernel c) (g_SharedMemMdl c) (g_HmacKey c)
       (s_NtBase c) (s_NtSize c) (ops c) (S (clock c)).

Definition set_policy (p : POLICY_BLOCK) (s : DRIVER_SHARED_STATE) : DRIVER_SHARED_STATE :=
  DriverSharedState p (FailSafeMode s) (IntegrityValid s) (StateHash s) (wstats s).
Definition set_failsafe (b : bool) (s : DRIVER_SHARED_STATE) : DRIVER_SHARED_STATE :=
  DriverSharedState (policy s) b (IntegrityValid s) (StateHash s) (wstats s).
Definition set_integrity (b : bool) (s : DRIVER_SHARED_STATE) : DRIVER_SHARED_STATE :=
  DriverSharedState (policy s) (FailSafeMode s) b (StateHash s) (wstats s).
Definition set_hash (h : list Z) (s : DRIVER_SHARED_STATE) : DRIVER_SHARED_STATE :=
  DriverSharedState (policy s) (FailSafeMode s) (IntegrityValid s) h (wstats s).
Definition set_wstats (f : wstat → Z) (s : DRIVER_SHARED_STATE) : DRIVER_SHARED_STATE :=
  DriverSharedState (policy s) (FailSafeMode s) (IntegrityValid s) (StateHash s) f.

(** [InterlockedIncrement], [InterlockedDecrement] and [InterlockedExchange] of a [LONG]. *)
Definition InterlockedAdd (f : wstat) (n : Z) (c : core) : core :=
  let s := g_SharedState c in
  set_shared (set_wstats (<[f := s32 (wstats s f + n)]> (wstats s)) s) c.
Definition InterlockedIncrement (f : wstat) : core → core := InterlockedAdd f 1.
Definition InterlockedDecrement (f : wstat) : core → core := InterlockedAdd f (-1).
Definition InterlockedExchange (f : wstat) (v : Z) (c : core) : core :=
  let s := g_SharedState c in set_shared (set_wstats (<[f := v]> (wstats s)) s) c.

(** ** What the machine and the operating system answer *)
Inductive bcrypt_call := BcOpen | BcCreate | BcHashData | BcFinish | BcGenRandom.

(** A [REG_DWORD] value read with RTL_QUERY_REGISTRY_DIRECT and _TYPECHECK. *)
Inductive reg_value := RegAbsent | RegDword (v : Z) | RegMistyped | RegUnreadable.

(** One entry of AuxKlibQueryModuleInformation. *)
Record AUX_MODULE_EXTENDED_INFO := AuxModule {
  ImageBase : Z;
  ImageSize : Z;
  FullPathName : list Z
}.

Class WinEnv := {
  KeQueryMaximumProcessorCountEx : Z;
  cpu_at : nat → Z;                            (* KeGetCurrentProcessorIndex *)
  qpc_at : nat → Z;                            (* KeQueryPerformanceCounter *)
  cpuid_at : nat → Z → Z → (Z * Z * Z * Z);    (* __cpuidex: eax, ebx, ecx, edx *)
  rdmsr_at : nat → Z → Z;
  wrmsr_faults_at : nat → Z → bool;            (* a write raises #GP *)
  bcrypt_at : nat → bcrypt_call → Z;           (* the status of a CNG call *)
  bcrypt_sha256 : list Z → list Z;             (* the digest of the data hashed *)
  bcrypt_hmac : list Z → list Z → list Z;      (* key, data *)
  random_at : nat → list Z;
  pool_at : nat → Z → option Z;                (* ExAllocatePoolWithTag of a size *)
  contiguous_at : nat → bool;                  (* MmAllocateContiguousMemory succeeds *)
  mdl_at : nat → bool;                         (* IoAllocateMdl succeeds *)
  auxklib_at : nat → Z + list AUX_MODULE_EXTENDED_INFO;  (* a status, or the modules *)
  upcase : Z → Z                               (* RtlUpcaseUnicodeChar *)
}.

(** The machine has a current CPU inside the per-CPU arrays. *)
Class WinLaws `{WinEnv} := {
  cpu_count : 1 ≤ KeQueryMaximumProcessorCountEx ≤ MAXIMUM_PROCESSORS;
  cpu_current : ∀ n, 0 ≤ cpu_at n < KeQueryMaximumProcessorCountEx
}.
(** CNG does not fail, and a digest is 32 bytes. *)
Class BCryptWorks `{WinEnv} := {
  bcrypt_ok : ∀ n k, NT_SUCCESS (bcrypt_at n k) = true;
  bcrypt_sha256_bytes : ∀ m, length (bcrypt_sha256 m) = 32%nat ∧ Forall is_u8 (bcrypt_sha256 m);
  bcrypt_hmac_bytes : ∀ k m, length (bcrypt_hmac k m) = 32%nat
}.

(** Little-endian value of some bytes. *)
Fixpoint le_val (l : list Z) : Z := match l with [] => 0 | b :: l => b + 256 * le_val l end.

(** ** Helpers of the master header *)
Fixpoint ct_diff (len : nat) (a b : list Z) (diff : Z) : Z :=
  match len, a, b with
  | S len, x :: a, y :: b => ct_diff len a b (Z.lor diff (Z.lxor x y))
  | _, _, _ => diff
  end.
Definition ConstantTimeMemEq (a b : list Z) (len : nat) : bool := ct_diff len a b 0 =? 0.

Definition has (features bit : Z) : bool := negb (Z.land features bit =? 0).

Section driver.
Context `{WinEnv}.

Definition KeGetCurrentProcessorIndex (c : core) : Z * core := (cpu_at (clock c), tick c).
Definition bcrypt (k : bcrypt_call) (c : core) : Z * core := (bcrypt_at (clock c) k, tick c).

(** [__writemsr] outside a [__try]: a fault there stops the machine. *)
Definition wrmsr (msr v : Z) (c : core) : core := emit_op (Wrmsr msr v) c.

Definition flush_l1d (m : CPU_MITIGATIONS) (c : core) : core :=
  if has (Features m) CPU_FEAT_L1D_FLUSH then wrmsr MSR_IA32_FLUSH_CMD 1 c else c.

Definition ExecuteSecurityBoundaryFlush (CpuIndex : Z) (c : core) : core :=
  let mit := g_CpuMit c CpuIndex in
  let c := InterlockedIncrement TotalFlushCount c in
  match Strategy mit with
  | MitigateNone => c
  | MitigateVerwOnly => emit_op Verw c
  | MitigateL1dFlushOnly => flush_l1d mit c
  | MitigateVerwPlusL1d => flush_l1d mit (emit_op Verw c)
  | MitigateFullSpectrum => emit_op Lfence (flush_l1d mit (emit_op Verw c))
  end.

(** ** Enforcement policy *)
Definition KgHypervisorPresent (c : core) : bool * core :=
  let '(_, _, ecx, _) := cpuid_at (clock c) 1 0 in
  (negb (Z.land (u32 ecx) 0x80000000 =? 0), tick c).

(** [RtlQueryRegistryValues] of one DWORD: the value it stores, a missing one
    being the default, or [None] for an error status. *)
Definition RtlQueryRegistryDword (r : reg_value) (default : Z) : option Z :=
  match r with
  | RegAbsent => Some default
  | RegDword v => Some v
  | RegMistyped | RegUnreadable => None
  end.

(** [RtlStringCchPrintfW(keyPath, 320, L"%wZ\\Parameters", ...)] fits. *)
Definition key_path_fits (RegistryPath : list Z) : bool := zlen RegistryPath + 11 <? 320.

Definition query_enforce (r : reg_value) : Z :=
  match RtlQueryRegistryDword r 0xFFFFFFFF with Some v => v | None => 0xFFFFFFFF end.
Definition query_lock (r : reg_value) : Z :=
  match RtlQueryRegistryDword r 0 with Some v => if v =? 1 then 1 else 0 | None => 0 end.

(** [RegistryPath] is [None] for a null pointer or buffer; [reg] answers the two
    queries under the Parameters key. *)
Definition KgLoadPolicy (RegistryPath : option (list Z)) (reg_Enforce reg_LockMode : reg_value)
    (c : core) : core :=
  let '(hv, c) := KgHypervisorPresent c in
  let readable := match RegistryPath with Some p => key_path_fits p | None => false end in
  let enforce := if readable then query_enforce reg_Enforce else 0xFFFFFFFF in
  let lockMode := if readable then query_lock reg_LockMode else 0 in
  let mode := if enforce =? 0 then 0 else if enforce =? 1 then 1 else if hv then 0 else 1 in
  let s := g_SharedState c in
  set_shared (set_policy (PolicyBlock KG_POLICY_VERSION mode (CurrentClos (policy s)) lockMode) s) c.

Definition KgEnforcing (c : core) : bool := negb (EnforceMode (policy (g_SharedState c)) =? 0).
Definition KgLockMode (c : core) : bool := negb (LockMode (policy (g_SharedState c)) =? 0).

(** ** Known-good drivers and DMA masters *)
Definition g_WhitelistedDrivers : list (list Z) :=
  bytes_of <$> ["\Driver\Kbdclass"; "\Driver\Kbdhid"; "\Driver\i8042prt"; "\Driver\KernelGuard"]%string.

Definition RtlEqualUnicodeString (a b : list Z) : bool :=
  bool_decide (upcase <$> a = upcase <$> b).

Definition IsWhitelistedDriver (DriverName : option (list Z)) : bool :=
  match DriverName with
  | None => false
  | Some n => existsb (RtlEqualUnicodeString n) g_WhitelistedDrivers
  end.

Record DMA_AUTH_ENTRY := DmaAuth { dBus : Z; dDevice : Z; dFunction : Z }.
(** The list and its count are static and nothing fills them. *)
Definition g_AuthorizedDma : list DMA_AUTH_ENTRY := [].

Definition IsAuthorizedDmaDevice (Bus Device Function : Z) : bool :=
  existsb (λ e, (dBus e =? Bus) && (dDevice e =? Device) && (dFunction e =? Function))
          g_AuthorizedDma.

(** ** The range of ntoskrnl: the size query, the allocation, the query *)
Definition aux_bytes (r : Z + list AUX_MODULE_EXTENDED_INFO) : Z * Z :=
  match r with
  | inl st => (st, 0)
  | inr mods => (STATUS_BUFFER_TOO_SMALL, u32 (zlen mods * 272))
  end.

Definition aux_modules (bytes : Z) (c : core) : option (list AUX_MODULE_EXTENDED_INFO) * core :=
  match pool_at (clock c) bytes with
  | None => (None, tick c)
  | Some _ => (match auxklib_at (S (clock c)) with inr mods => Some mods | inl _ => None end,
               tick (tick c))
  end.

Definition GetNtoskrnlBase (c : core) : Z * core :=
  if negb (s_NtBase c =? 0) then (s_NtBase c, c) else
  let '(st, bytes) := aux_bytes (auxklib_at (clock c)) in
  let c := tick c in
  if negb (st =? STATUS_BUFFER_TOO_SMALL) || (bytes =? 0) then (0, c) else
  match aux_modules bytes c with
  | (Some (m :: _), c) => (ImageBase m, set_nt (ImageBase m) (s_NtSize c) c)
  | (_, c) => (0, c)
  end.

Definition GetNtoskrnlSize (c : core) : Z * core :=
  if negb (s_NtSize c =? 0) then (s_NtSize c, c) else
  let '(_, bytes) := aux_bytes (auxklib_at (clock c)) in
  let c := tick c in
  if bytes =? 0 then (0, c) else
  match aux_modules bytes c with
  | (Some (m :: _), c) => (ImageSize m, set_nt (s_NtBase c) (ImageSize m) c)
  | (_, c) => (0, c)
  end.

(** ** ComputeSha256 of kernel_integrity.c

    [read t address size] is the memory hashed, at the time of the access;
    [None] an exception, which the callers catch or do not. *)
Fixpoint hash_chunks (fuel : nat) (read : nat → Z → Z → option (list Z)) (ptr remaining : Z)
    (data : list Z) (c : core) : option (Z + list Z) * core :=
  match fuel with
  | O => (None, c)
  | S fuel =>
    if 0 <? remaining then
      let chunk := if remaining <? HASH_CHUNK_SIZE then remaining else HASH_CHUNK_SIZE in
      let '(st, c') := bcrypt BcHashData c in
      match read (clock c) ptr chunk with
      | None => (None, c')
      | Some bytes =>
        if NT_SUCCESS st then
          hash_chunks fuel read (ptr + chunk) (remaining - chunk) (data ++ bytes) c'
        else (Some (inl st), c')
      end
    else
      let '(st, c) := bcrypt BcFinish c in
      (Some (if NT_SUCCESS st then inr (bcrypt_sha256 data) else inl st), c)
  end.

(** Chunks of 64 KiB and the final call. *)
Definition sha_fuel (Size : Z) : nat := (Z.to_nat (Size / HASH_CHUNK_SIZE) + 2)%nat.

Definition ComputeSha256 (read : nat → Z → Z → option (list Z)) (Address Size : Z) (c : core) :
    option (Z + list Z) * core :=
  let '(st, c) := bcrypt BcOpen c in
  if negb (NT_SUCCESS st) then (Some (inl st), c) else
  let '(st, c) := bcrypt BcCreate c in
  if negb (NT_SUCCESS st) then (Some (inl st), c) else
  hash_chunks (sha_fuel Size) read Address Size [] c.

(** ** The seal over the policy block: the 16 bytes below StateLock *)
Definition policy_bytes (p : POLICY_BLOCK) : list Z :=
  le_bytes 4 (PolicyVersion p) ++ le_bytes 4 (u32 (EnforceMode p)) ++ le_bytes 4 (CurrentClos p)
  ++ le_bytes 4 (LockMode p).

Definition read_policy (p : POLICY_BLOCK) (_ : nat) (off len : Z) : option (list Z) :=
  Some (take (Z.to_nat len) (drop (Z.to_nat off) (policy_bytes p))).

Definition VerifySharedStateIntegrity (c : core) : bool * core :=
  let '(r, c) := ComputeSha256 (read_policy (policy (g_SharedState c))) 0 16 c in
  let ok := match r with
            | Some (inr computed) => ConstantTimeMemEq computed (StateHash (g_SharedState c)) 32
            | _ => false
            end in
  (ok, set_shared (set_integrity ok (g_SharedState c)) c).

(** On failure nothing is stored, and the status is not looked at. *)
Definition UpdateSharedStateHash (c : core) : core :=
  let '(r, c) := ComputeSha256 (read_policy (policy (g_SharedState c))) 0 16 c in
  match r with
  | Some (inr h) => set_shared (set_hash h (g_SharedState c)) c
  | _ => c
  end.
End driver.

(** ** Frames: what an operation may change *)
Definition at_time (n : nat) (c : core) : core :=
  Core (g_SharedState c) (g_CpuMit c) (g_SharedMemKernel c) (g_SharedMemMdl c) (g_HmacKey c)
       (s_NtBase c) (s_NtSize c) (ops c) n.

Lemma at_time_id c : at_time (clock c) c = c.
Proof. by destruct c. Qed.

(** ** The constant-time compare is equality *)
Lemma ct_diff_zero len a b d :
  length a = len → length b = len → (ct_diff len a b d = 0 ↔ d = 0 ∧ a = b).
Proof.
  revert a b d. induction len as [|len IH]; intros [|x a] [|y b] d Ha Hb; simpl in *; try done.
  { by split; [intros ->|intros [-> _]]. }
  rewrite IH, Z.lor_eq_0_iff, Z.lxor_eq_0_iff by lia.
  split; [by intros [[-> ->] ->]|by intros [-> [= -> ->]]].
Qed.

Lemma ConstantTimeMemEq_correct a b len :
  length a = len → length b = len → (ConstantTimeMemEq a b len = true ↔ a = b).
Proof.
  intros Ha Hb. unfold ConstantTimeMemEq. rewrite Z.eqb_eq, ct_diff_zero by done.
  by split; [intros [_ ?]|].
Qed.

Lemma policy_bytes_length p : length (policy_bytes p) = 16%nat.
Proof. unfold policy_bytes. by rewrite !length_app, !le_bytes_length. Qed.

(** The C types of the policy block; [EnforceMode] is a [LONG]. *)
Definition policy_typed (p : POLICY_BLOCK) : Prop :=
  is_u32 (PolicyVersion p) ∧ -2147483648 ≤ EnforceMode p < 2147483648
  ∧ is_u32 (CurrentClos p) ∧ is_u32 (LockMode p).

Lemma policy_bytes_inj p q :
  policy_typed p → policy_typed q → policy_bytes p = policy_bytes q → p = q.
Proof.
  intros (?&?&?&?) (?&?&?&?) Heq. unfold policy_bytes in Heq. le_peel Heq.
  destruct p, q; simpl in *. f_equal; auto using le_bytes_u32_inj.
  assert (u32 EnforceMode0 = u32 EnforceMode1) by eauto using le_bytes_u32_inj, u32_range.
  word_lia.
Qed.

Section seal.
Context `{WinEnv}.

(** A loop that hashes only reads the clock. *)
Lemma hash_chunks_clock fuel read ptr remaining data c :
  ∃ n, (hash_chunks fuel read ptr remaining data c).2 = at_time n c.
Proof.
  revert ptr remaining data c. induction fuel as [|fuel IH]; intros ptr remaining data c; simpl.
  { exists (clock c). by rewrite at_time_id. }
  destruct (0 <? remaining); [|by eexists].
  destruct (read _ _ _) as [bytes|]; [|by eexists].
  destruct (NT_SUCCESS _); [|by eexists].
  match goal with |- context [hash_chunks fuel read ?p ?r ?d ?c'] =>
    destruct (IH p r d c') as [n ->] end.
  by exists n.
Qed.

Lemma ComputeSha256_clock read a sz c :
  ∃ n, (ComputeSha256 read a sz c).2 = at_time n c.
Proof.
  unfold ComputeSha256. simpl. repeat case_goal; simpl; try (by eexists).
  destruct (hash_chunks_clock (sha_fuel sz) read a sz [] (tick (tick c))) as [n Hn].
  exists n. by rewrite Hn.
Qed.

(** [bytes], at [Address], as the loop sees them. *)
Definition reads (read : nat → Z → Z → option (list Z)) (Address : Z) (bytes : list Z) : Prop :=
  ∀ t a n, Address ≤ a → 0 ≤ n → a + n ≤ Address + zlen bytes →
  read t a n = Some (take (Z.to_nat n) (drop (Z.to_nat (a - Address)) bytes)).

Lemma read_policy_reads p : reads (read_policy p) 0 (policy_bytes p).
Proof. intros t a n Ha Hn Hb. unfold read_policy. by rewrite Z.sub_0_r. Qed.

Lemma hash_chunks_reads `{!BCryptWorks} fuel read Address bytes ptr remaining c :
  reads read Address bytes →
  Address ≤ ptr → 0 ≤ remaining → ptr + remaining = Address + zlen bytes →
  (remaining + HASH_CHUNK_SIZE - 1) / HASH_CHUNK_SIZE < Z.of_nat fuel →
  (hash_chunks fuel read ptr remaining (take (Z.to_nat (ptr - Address)) bytes) c).1
  = Some (inr (bcrypt_sha256 bytes)).
Proof.
  intros Hr. revert ptr remaining c.
  induction fuel as [|fuel IH]; intros ptr rem c Hp Hrem Hend Hfuel.
  { unfold HASH_CHUNK_SIZE in Hfuel. Z.div_mod_to_equations. lia. }
  simpl. unfold zlen in *. destruct (0 <? rem) eqn:E; bool_props.
  - set (chunk := if rem <? HASH_CHUNK_SIZE then rem else HASH_CHUNK_SIZE).
    assert (Hc : 0 < chunk ≤ rem).
    { unfold chunk, HASH_CHUNK_SIZE. destruct (rem <? 64 * 1024) eqn:E1; bool_props; lia. }
    rewrite (Hr (clock c) ptr chunk) by (unfold zlen; lia).
    rewrite bcrypt_ok, take_take_drop, <- Z2Nat.inj_add by lia.
    replace (ptr - Address + chunk) with (ptr + chunk - Address) by lia.
    apply IH; [lia..|]. unfold HASH_CHUNK_SIZE in *.
    assert (Hcase : chunk = rem ∨ chunk = 64 * 1024).
    { unfold chunk. destruct (rem <? 64 * 1024); auto. }
    clearbody chunk. Z.div_mod_to_equations. lia.
  - rewrite bcrypt_ok. simpl. rewrite take_ge by lia. done.
Qed.

(** Hashing by chunks of 64 KiB is hashing the range, whatever its size. *)
Lemma ComputeSha256_reads `{!BCryptWorks} read Address bytes c :
  reads read Address bytes →
  (ComputeSha256 read Address (zlen bytes) c).1 = Some (inr (bcrypt_sha256 bytes)).
Proof.
  intros Hr. unfold ComputeSha256. simpl. rewrite !bcrypt_ok. simpl.
  pose proof (hash_chunks_reads (sha_fuel (zlen bytes)) read Address bytes Address (zlen bytes)
                (tick (tick c)) Hr) as Hh.
  rewrite Z.sub_diag in Hh. apply Hh; [lia|unfold zlen; lia|lia|].
  unfold sha_fuel, HASH_CHUNK_SIZE, zlen. Z.div_mod_to_equations. lia.
Qed.

Lemma ComputeSha256_policy `{!BCryptWorks} c p :
  (ComputeSha256 (read_policy p) 0 16 c).1 = Some (inr (bcrypt_sha256 (policy_bytes p))).
Proof.
  rewrite <- (ComputeSha256_reads (read_policy p) 0 (policy_bytes p) c) by apply read_policy_reads.
  unfold zlen. by rewrite policy_bytes_length.
Qed.

Lemma VerifySharedStateIntegrity_works `{!BCryptWorks} c :
  (VerifySharedStateIntegrity c).1
  = ConstantTimeMemEq (bcrypt_sha256 (policy_bytes (policy (g_SharedState c))))
      (StateHash (g_SharedState c)) 32.
Proof.
  unfold VerifySharedStateIntegrity.
  pose proof (ComputeSha256_policy c (policy (g_SharedState c))) as H1.
  destruct (ComputeSha256_clock (read_policy (policy (g_SharedState c))) 0 16 c) as [n Hn].
  destruct (ComputeSha256 _ _ _ _) as [r c']. simpl in *. by subst.
Qed.

Lemma UpdateSharedStateHash_works `{!BCryptWorks} c :
  ∃ n, UpdateSharedStateHash c
       = at_time n (set_shared (set_hash (bcrypt_sha256 (policy_bytes (policy (g_SharedState c))))
                                         (g_SharedState c)) c).
Proof.
  unfold UpdateSharedStateHash.
  pose proof (ComputeSha256_policy c (policy (g_SharedState c))) as H1.
  destruct (ComputeSha256_clock (read_policy (policy (g_SharedState c))) 0 16 c) as [n Hn].
  destruct (ComputeSha256 _ _ _ _) as [r c']. simpl in *. subst. by exists n.
Qed.

(** C12 — The seal over the policy block: after UpdateSharedStateHash, a check at any later
    time, whatever happened to the rest of the state, succeeds exactly when the policy block
    has the sealed digest; so it succeeds while the policy is unchanged, and a changed
    policy that still passes is a SHA-256 collision between two 16-byte strings. *)
Theorem policy_seal `{!BCryptWorks} (c c' : core) :
  let p := policy (g_SharedState c) in
  let p' := policy (g_SharedState c') in
  policy_typed p → policy_typed p' →
  StateHash (g_SharedState c') = StateHash (g_SharedState (UpdateSharedStateHash c)) →
  (p' = p → (VerifySharedStateIntegrity c').1 = true)
  ∧ (p' ≠ p → (VerifySharedStateIntegrity c').1 = true →
     policy_bytes p' ≠ policy_bytes p
     ∧ length (policy_bytes p') = 16%nat ∧ length (policy_bytes p) = 16%nat
     ∧ bcrypt_sha256 (policy_bytes p') = bcrypt_sha256 (policy_bytes p)).
Proof.
  intros p p' Hp Hp' Hs. rewrite VerifySharedStateIntegrity_works, Hs.
  destruct (UpdateSharedStateHash_works c) as [n ->]. simpl.
  rewrite ConstantTimeMemEq_correct by apply bcrypt_sha256_bytes.
  fold p p'. split; [by intros ->|]. intros Hne Heq.
  split_and!; try done. intros Hb. by apply Hne, policy_bytes_inj.
Qed.
End seal.
