(* ===== verification/WinComms.v ===== *)
(** * The Windows driver's secure channel (windows/src/secure_comms.c)

    The shared-memory ring, its HMAC key, the notifications and the MSR signal,
    and what a reader of the ring may rely on.  Stores of a notification go
    straight into the live slot. *)
From S2P Require Import Prelude Sha256 Uapi WinState.
Local Open Scope Z_scope.

(** The 40 bytes before [Hmac]. *)
Definition notification_bytes (n : SECURE_NOTIFICATION) : list Z :=
  le_bytes 4 (Magic n) ++ le_bytes 4 (SequenceNumber n) ++ le_bytes 4 (AlertType n)
  ++ le_bytes 4 (AlertLevel n) ++ le_bytes 8 (Timestamp n) ++ le_bytes 8 (Param1 n)
  ++ le_bytes 8 (Param2 n).

Definition with_hmac (h : list Z) (n : SECURE_NOTIFICATION) : SECURE_NOTIFICATION :=
  SecureNotification (Magic n) (SequenceNumber n) (AlertType n) (AlertLevel n) (Timestamp n)
                     (Param1 n) (Param2 n) h.

(** [&Notifications[idx]] written in place. *)
Definition put_slot (idx : Z) (n : SECURE_NOTIFICATION) (r : SHARED_MEM_REGION) : SHARED_MEM_REGION :=
  SharedMemRegion (WriteIndex r) (ReadIndex r) (DriverNonce r)
                  (<[Z.to_nat idx := n]> (Notifications r)).
Definition set_nonce (v : Z) (r : SHARED_MEM_REGION) : SHARED_MEM_REGION :=
  SharedMemRegion (WriteIndex r) (ReadIndex r) v (Notifications r).
Definition set_write_index (v : Z) (r : SHARED_MEM_REGION) : SHARED_MEM_REGION :=
  SharedMemRegion v (ReadIndex r) (DriverNonce r) (Notifications r).

Section comms.
Context `{WinEnv}.

(** ** Start of the channel *)
Definition SecureCommInitialize (c : core) : Z * core :=
  let ok := contiguous_at (clock c) in
  let c := tick c in
  if negb ok then (STATUS_INSUFFICIENT_RESOURCES, set_region None c) else
  let c := set_region (Some zero_region) c in
  let mdl := mdl_at (clock c) in
  let c := set_mdl mdl (tick c) in
  if negb mdl then (STATUS_INSUFFICIENT_RESOURCES, set_region None c) else
  let key := random_at (clock c) in
  let '(rng, c) := bcrypt BcGenRandom c in
  if negb (NT_SUCCESS rng) then
    (rng, set_region None (set_mdl false (set_key (replicate HMAC_KEY_SIZE 0) c)))
  else (STATUS_SUCCESS, set_key key c).

(** [mapping] is what MmMapLockedPagesSpecifyCache returns (0 for a null
    pointer), or the code of the exception it raises. *)
Definition SecureCommMapToUserMode (mapping : Z + Z) (c : core) : Z * option Z :=
  if negb (g_SharedMemMdl c) then (STATUS_INVALID_PARAMETER, None) else
  match mapping with
  | inl code => (code, None)
  | inr va => if va =? 0 then (STATUS_INSUFFICIENT_RESOURCES, None) else (STATUS_SUCCESS, Some va)
  end.

(** The HMAC over the slot: four CNG calls, the last of which stores it.  The first failing
    status, or the code. *)
Definition notify_hmac (n : SECURE_NOTIFICATION) (c : core) : (Z + list Z) * core :=
  let '(st, c) := bcrypt BcOpen c in
  if negb (NT_SUCCESS st) then (inl st, c) else
  let '(st, c) := bcrypt BcCreate c in
  if negb (NT_SUCCESS st) then (inl st, c) else
  let '(st, c) := bcrypt BcHashData c in
  if negb (NT_SUCCESS st) then (inl st, c) else
  let '(st, c) := bcrypt BcFinish c in
  if negb (NT_SUCCESS st) then (inl st, c) else
  (inr (bcrypt_hmac (g_HmacKey c) (notification_bytes n)), c).

Definition SecureCommNotify (type level p1 p2 : Z) (c : core) : Z * core :=
  match g_SharedMemKernel c with
  | None => (STATUS_DEVICE_NOT_READY, c)
  | Some r =>
    let slotIdx := DriverNonce r in
    let idx := slotIdx mod NOTIFICATION_SLOTS in
    let n := SecureNotification NOTIFY_MAGIC slotIdx type level (u64 (qpc_at (clock c))) p1 p2
                                (replicate 32 0) in
    let r := put_slot idx n (set_nonce (u32 (slotIdx + 1)) r) in
    let c := set_region (Some r) (tick c) in
    match notify_hmac n c with
    | (inl st, c) => (st, c)
    | (inr h, c) =>
      let r := set_write_index (u32 (WriteIndex r + 1)) (put_slot idx (with_hmac h n) r) in
      (STATUS_SUCCESS, InterlockedIncrement NotificationsSent (set_region (Some r) c))
    end
  end.

(** ** The MSR signal; a #GP is caught *)
Definition SecureCommMsrSignal (type : Z) (c : core) : core :=
  let value := u64 (Z.lor (Z.shiftl type 32) SIGNAL_MAGIC) in
  if wrmsr_faults_at (clock c) MSR_COVERT_SIGNAL then tick c
  else InterlockedIncrement MsrSignalsSent (wrmsr MSR_COVERT_SIGNAL value (tick c)).

Definition SecureCommMsrClear (c : core) : core :=
  if wrmsr_faults_at (clock c) MSR_COVERT_SIGNAL then tick c
  else wrmsr MSR_COVERT_SIGNAL 0 (tick c).

Definition SecureCommUninitialize (c : core) : core :=
  let c := SecureCommMsrClear c in
  set_key (replicate HMAC_KEY_SIZE 0) (set_region None (set_mdl false c)).
End comms.

(** ** The ring as a log of everything written

    Entry [k] of the log lies in slot [k mod 16] until entry [k + 16] replaces it.
    [lag] counts the entries whose HMAC could not be computed: each of them
    advanced [DriverNonce] and not [WriteIndex]. *)
Record ring_log (r : SHARED_MEM_REGION) (log : list SECURE_NOTIFICATION) (lag : Z) : Prop := {
  rl_slots : length (Notifications r) = 16%nat;
  rl_nonce : DriverNonce r = u32 (zlen log);
  rl_index : WriteIndex r = u32 (zlen log - lag);
  rl_entry : ∀ k n, log !! k = Some n → zlen log - 16 ≤ Z.of_nat k →
             Notifications r !! Z.to_nat (Z.of_nat k mod 16) = Some n;
  rl_sequence : ∀ k n, log !! k = Some n → SequenceNumber n = u32 (Z.of_nat k) ∧ Magic n = NOTIFY_MAGIC
}.

Lemma u32_mod16 z : u32 z mod 16 = z mod 16.
Proof. unfold u32. apply Z.mod_mod_divide. by exists 268435456. Qed.

Lemma ring_log_zero : ring_log zero_region [] 0.
Proof. split; try done. Qed.

(** Storing the next entry, whether or not the index follows. *)
Lemma ring_log_store r log lag n (d : Z) :
  ring_log r log lag → SequenceNumber n = u32 (zlen log) → Magic n = NOTIFY_MAGIC →
  ring_log (SharedMemRegion (u32 (WriteIndex r + d)) (ReadIndex r) (u32 (DriverNonce r + 1))
              (<[Z.to_nat (DriverNonce r mod NOTIFICATION_SLOTS) := n]> (Notifications r)))
           (log ++ [n]) (lag + 1 - d).
Proof.
  intros [Hs Hn Hi He Hq] Hseq Hm. unfold NOTIFICATION_SLOTS.
  assert (Hlen : zlen (log ++ [n]) = zlen log + 1) by (unfold zlen; rewrite length_app; simpl; lia).
  rewrite Hn, Hi, u32_mod16, !u32_add_wrap. split; simpl.
  - by rewrite length_insert.
  - by rewrite Hlen.
  - f_equal. lia.
  - intros k m [[Hlt Hk]|[-> <-]]%lookup_snoc_Some Hrange; rewrite Hlen in Hrange.
    + unfold zlen in *.
      rewrite list_lookup_insert_ne; [apply He; [done|lia]|].
      intros Heq%(Z2Nat.inj _ _ (proj1 (Z.mod_pos_bound _ 16 ltac:(lia)))
                                (proj1 (Z.mod_pos_bound _ 16 ltac:(lia)))).
      Z.div_mod_to_equations. lia.
    + unfold zlen. apply list_lookup_insert_eq. rewrite Hs.
      pose proof (Z.mod_pos_bound (Z.of_nat (length log)) 16). lia.
  - by intros k m [[_ Hk]|[-> <-]]%lookup_snoc_Some; [apply Hq|].
Qed.

Section notify.
Context `{WinEnv}.

(** What a notification leaves alone: all but the ring, the clock and its counter. *)
Definition comms_frame (c c' : core) : Prop :=
  policy (g_SharedState c') = policy (g_SharedState c)
  ∧ StateHash (g_SharedState c') = StateHash (g_SharedState c)
  ∧ FailSafeMode (g_SharedState c') = FailSafeMode (g_SharedState c)
  ∧ g_CpuMit c' = g_CpuMit c ∧ g_HmacKey c' = g_HmacKey c ∧ g_SharedMemMdl c' = g_SharedMemMdl c.

#[export] Instance comms_frame_preorder : PreOrder comms_frame.
Proof.
  split; [by intros c|]. intros c1 c2 c3 (?&?&?&?&?&?) (?&?&?&?&?&?). repeat split; congruence.
Qed.

Lemma notify_hmac_cases n c :
  ∃ t, (notify_hmac n c).2 = at_time t c
  ∧ ((∃ st, (notify_hmac n c).1 = inl st ∧ NT_SUCCESS st = false)
     ∨ (notify_hmac n c).1 = inr (bcrypt_hmac (g_HmacKey c) (notification_bytes n))).
Proof.
  unfold notify_hmac. simpl.
  do 4 (match goal with |- context [NT_SUCCESS ?s] => destruct (NT_SUCCESS s) eqn:? end;
        simpl; [|by eauto 6]).
  by eauto.
Qed.

Lemma notify_hmac_works `{!BCryptWorks} n c :
  (notify_hmac n c).1 = inr (bcrypt_hmac (g_HmacKey c) (notification_bytes n)).
Proof. unfold notify_hmac. simpl. by rewrite !bcrypt_ok. Qed.

(** The entry a call to SecureCommNotify appends. *)
Definition notify_entry (log : list SECURE_NOTIFICATION) (type level p1 p2 : Z) (h : list Z) (c : core) :
    SECURE_NOTIFICATION :=
  SecureNotification NOTIFY_MAGIC (u32 (zlen log)) type level (u64 (qpc_at (clock c))) p1 p2 h.

Lemma notification_bytes_hmac h n : notification_bytes (with_hmac h n) = notification_bytes n.
Proof. done. Qed.

Lemma SecureCommNotify_frame type level p1 p2 c :
  comms_frame c (SecureCommNotify type level p1 p2 c).2
  ∧ ops (SecureCommNotify type level p1 p2 c).2 = ops c.
Proof.
  unfold SecureCommNotify. destruct (g_SharedMemKernel c) as [r|]; [|done].
  match goal with |- context [notify_hmac ?n ?c] =>
    destruct (notify_hmac_cases n c) as (t & Ht & _);
    destruct (notify_hmac n c) as [[st|h] c'] end; simpl in *; subst; done.
Qed.

(** SecureCommNotify against the log of everything written, for every outcome of the
    CNG calls: without shared memory it changes nothing and answers DEVICE_NOT_READY;
    otherwise it appends one entry with the next sequence number.  Exactly when it reports
    success the entry carries the HMAC of its 40 bytes under the key and the write index
    follows; a failure leaves the entry with a zero HMAC and the index one further behind. *)
Theorem notify_appends (type level p1 p2 : Z) (c : core) (log : list SECURE_NOTIFICATION) (lag : Z) :
  match g_SharedMemKernel c with
  | None => SecureCommNotify type level p1 p2 c = (STATUS_DEVICE_NOT_READY, c)
  | Some r =>
    ring_log r log lag →
    let '(st, c') := SecureCommNotify type level p1 p2 c in
    let n := notify_entry log type level p1 p2 in
    ∃ r', g_SharedMemKernel c' = Some r' ∧
    if NT_SUCCESS st then
      let h := bcrypt_hmac (g_HmacKey c) (notification_bytes (n [] c)) in
      ring_log r' (log ++ [n h c]) lag
      ∧ wstats (g_SharedState c') NotificationsSent
        = s32 (wstats (g_SharedState c) NotificationsSent + 1)
    else
      ring_log r' (log ++ [n (replicate 32 0) c]) (lag + 1)
      ∧ wstats (g_SharedState c') = wstats (g_SharedState c)
  end.
Proof.
  unfold SecureCommNotify. destruct (g_SharedMemKernel c) as [r|]; [|done]. intros Hr.
  match goal with |- context [notify_hmac ?n ?c] =>
    destruct (notify_hmac_cases n c) as (t & Ht & Hc);
    destruct (notify_hmac n c) as [x c'] end; simpl in Ht, Hc; subst c'.
  destruct Hc as [(st & -> & Hst)| ->].
  - rewrite Hst. eexists. split; [done|]. split; [|done].
    assert (Hsn : SequenceNumber (notify_entry log type level p1 p2 (replicate 32 0) c) = u32 (zlen log)) by done.
    pose proof (ring_log_store r log lag _ 0 Hr Hsn eq_refl) as Hs.
    rewrite Z.add_0_r, Z.sub_0_r in Hs. unfold notify_entry in Hs |- *.
    rewrite (rl_index _ _ _ Hr), (u32_id (u32 _)), <- (rl_index _ _ _ Hr) in Hs by apply u32_range.
    rewrite (rl_nonce _ _ _ Hr) in *. exact Hs.
  - eexists. split; [done|]. simpl. split; [|by rewrite fn_lookup_insert].
    match goal with |- context [with_hmac ?h _] =>
      assert (Hsn : SequenceNumber (notify_entry log type level p1 p2 h c) = u32 (zlen log)) by done;
      pose proof (ring_log_store r log lag _ 1 Hr Hsn eq_refl) as Hs end.
    rewrite Z.add_simpl_r in Hs. unfold notify_entry, notification_bytes in *. simpl in *.
    unfold put_slot, set_write_index, set_nonce. simpl. rewrite list_insert_insert_eq.
    rewrite (rl_nonce _ _ _ Hr) in *. exact Hs.
Qed.

End notify.
