(* ===== verification/WinMitigate.v ===== *)
(** * The Windows driver's mitigation engine (windows/src/cache_mitigation.c)

    Capability probe, index masking, sensitive pages, speculation controls, the
    keyboard interrupt, context switches, cache partitioning and sibling flushes. *)
From S2P Require Import Prelude Sha256 Uapi WinState.
Local Open Scope Z_scope.

Record SENS_PAGE_ENTRY := SensPage {
  PageFrameNumber : Z;
  SensitivityFlags : Z;
  OwningProcessId : Z
}.
Definition MAX_SENSITIVE_PAGES : Z := 65536.
Definition KBD_RING_SIZE : Z := 256.
Definition SENS_FLAG_KEYSTROKE : Z := 1.
Definition PAGE_SHIFT : Z := 12.
Definition PAGE_SIZE : Z := 4096.

Record CAT_CONFIG := CatConfig {
  Enabled : bool;
  TotalCacheWays : Z;
  SensitiveWays : Z;
  SensitiveClos : Z;
  DefaultClos : Z;
  SensitiveCbm : Z;
  DefaultCbm : Z
}.
Definition zero_cat : CAT_CONFIG := CatConfig false 0 0 0 0 0 0.

Record SMT_SIBLING := SmtSibling {
  LogicalProcessor : Z;
  SiblingProcessor : Z;
  IsSensitiveRunning : bool
}.

(** The module's globals; [g_SensPages] is the array up to its count, and [dpcs]
    the sibling flushes queued. *)
Record mit := Mit {
  g_SensPages : list SENS_PAGE_ENTRY;
  g_CatConfig : CAT_CONFIG;
  g_SmtMap : Z → SMT_SIBLING;
  g_KbdRingBuffer : option (Z * list Z);     (* its address and its bytes *)
  g_KbdWriteIdx : Z;
  dpcs : list Z
}.
Definition set_pages (l : list SENS_PAGE_ENTRY) (m : mit) : mit :=
  Mit l (g_CatConfig m) (g_SmtMap m) (g_KbdRingBuffer m) (g_KbdWriteIdx m) (dpcs m).
Definition set_cat (x : CAT_CONFIG) (m : mit) : mit :=
  Mit (g_SensPages m) x (g_SmtMap m) (g_KbdRingBuffer m) (g_KbdWriteIdx m) (dpcs m).
Definition set_smt (f : Z → SMT_SIBLING) (m : mit) : mit :=
  Mit (g_SensPages m) (g_CatConfig m) f (g_KbdRingBuffer m) (g_KbdWriteIdx m) (dpcs m).
Definition set_kbd (b : option (Z * list Z)) (i : Z) (m : mit) : mit :=
  Mit (g_SensPages m) (g_CatConfig m) (g_SmtMap m) b i (dpcs m).
Definition queue_dpc (cpu : Z) (m : mit) : mit :=
  Mit (g_SensPages m) (g_CatConfig m) (g_SmtMap m) (g_KbdRingBuffer m) (g_KbdWriteIdx m)
      (dpcs m ++ [cpu]).

(** ** CPUID and IA32_ARCH_CAPABILITIES bits *)
Definition CPUID_EDX_MD_CLEAR : Z := 2 ^ 10.
Definition CPUID_EDX_IBRS_IBPB : Z := 2 ^ 26.
Definition CPUID_EDX_L1D_FLUSH : Z := 2 ^ 28.
Definition CPUID_EDX_ARCH_CAP : Z := 2 ^ 29.
Definition ARCH_CAP_RDCL_NO : Z := 2 ^ 0.
Definition ARCH_CAP_IBRS_ALL : Z := 2 ^ 1.
Definition ARCH_CAP_SSB_NO : Z := 2 ^ 4.
Definition ARCH_CAP_MDS_NO : Z := 2 ^ 5.

(** [if (word & bit) features |= feat;] *)
Definition feature_if (word bit feat f : Z) : Z := if has word bit then Z.lor f feat else f.

Section mitigate.
Context `{WinEnv}.

Definition cpuid (leaf sub : Z) (c : core) : (Z * Z * Z * Z) * core :=
  (cpuid_at (clock c) leaf sub, tick c).
Definition rdmsr (msr : Z) (c : core) : Z * core := (rdmsr_at (clock c) msr, tick c).

(** ** Capability probe *)
Definition probe_features (c : core) : Z * core :=
  let '((_, _, _, edx7), c) := cpuid 7 0 c in
  let f := feature_if edx7 CPUID_EDX_IBRS_IBPB CPU_FEAT_IBRS_ALL 0 in
  let f := feature_if edx7 CPUID_EDX_MD_CLEAR CPU_FEAT_VERW_FLUSH f in
  let f := feature_if edx7 CPUID_EDX_L1D_FLUSH CPU_FEAT_L1D_FLUSH f in
  let f := feature_if edx7 CPUID_EDX_ARCH_CAP CPU_FEAT_ARCH_CAP_MSR f in
  let '(f, c) :=
    if has f CPU_FEAT_ARCH_CAP_MSR then
      let '(archCap, c) := rdmsr MSR_IA32_ARCH_CAPABILITIES c in
      let f := feature_if archCap ARCH_CAP_RDCL_NO CPU_FEAT_RDCL_NO f in
      let f := feature_if archCap ARCH_CAP_MDS_NO CPU_FEAT_MDS_NO f in
      let f := feature_if archCap ARCH_CAP_IBRS_ALL CPU_FEAT_IBRS_ALL f in
      let f := feature_if archCap ARCH_CAP_SSB_NO CPU_FEAT_SSB_NO f in
      (feature_if archCap ARCH_CAP_RDCL_NO CPU_FEAT_L1TF_NO f, c)
    else (f, c) in
  let '((_, ebx10, _, _), c) := cpuid 0x10 0 c in
  let f := feature_if ebx10 (2 ^ 1) CPU_FEAT_CAT_L3 f in
  let '((eax0b, _, _, _), c) := cpuid 0x0B 0 c in
  let smtShift := Z.land eax0b 0x1F in
  (if 0 <? smtShift then Z.lor f CPU_FEAT_SMT else f, c).

Definition select_strategy (f : Z) : MITIGATION_STRATEGY * Z :=
  let mdsVuln := negb (has f CPU_FEAT_MDS_NO) in
  let l1tfVuln := negb (has f CPU_FEAT_L1TF_NO) in
  if negb mdsVuln && negb l1tfVuln then (MitigateNone, 0)
  else if mdsVuln && negb l1tfVuln then (MitigateVerwOnly, 50)
  else if negb mdsVuln && l1tfVuln then (MitigateL1dFlushOnly, 200)
  else if has f CPU_FEAT_VERW_FLUSH then (MitigateVerwPlusL1d, 250)
  else (MitigateFullSpectrum, 500).

Definition ProbeCpuCapabilities (CpuIndex : Z) (c : core) : core :=
  let '(f, c) := probe_features c in
  let '(s, cost) := select_strategy f in
  set_cpumit (<[CpuIndex := CpuMitigations f s 0x2B cost]> (g_CpuMit c)) c.

(** ** Bounds masking *)
Definition SafeArrayIndex (Index ArraySize : Z) : Z :=
  let valid := if Index <? ArraySize then 1 else 0 in
  let mask := u32 (- valid) in
  Z.land Index mask.

(** [copy] is the user memory as ProbeForRead and the copy find it. *)
Definition SafeAccessUserPointer (MmHighestUserAddress UserPtr : Z) (copy : option (list Z))
    (IsSensitive : bool) (c : core) : (Z * option (list Z)) * core :=
  if MmHighestUserAddress <? UserPtr then ((STATUS_ACCESS_VIOLATION, None), c) else
  let c := if IsSensitive then emit_op Lfence c else c in
  match copy with
  | None => ((STATUS_ACCESS_VIOLATION, None), c)
  | Some bytes => ((STATUS_SUCCESS, Some bytes), c)
  end.

(** ** Sensitive pages *)
Fixpoint tag_pages (pfns : list Z) (Flags pid : Z) (l : list SENS_PAGE_ENTRY) (c : core) :
    list SENS_PAGE_ENTRY * core :=
  match pfns with
  | [] => (l, c)
  | pfn :: pfns =>
    if MAX_SENSITIVE_PAGES <=? zlen l then (l, c)
    else tag_pages pfns Flags pid (l ++ [SensPage pfn Flags pid]) (InterlockedIncrement SensPageCount c)
  end.

Definition start_pfn (ptr : Z) : Z := Z.shiftr ptr PAGE_SHIFT.
Definition end_pfn (ptr Size : Z) : Z := Z.shiftr (u64 (ptr + Size + PAGE_SIZE - 1)) PAGE_SHIFT.

Definition SensAllocatePool (Size Flags pid : Z) (m : mit) (c : core) : option Z * mit * core :=
  match pool_at (clock c) Size with
  | None => (None, m, tick c)
  | Some ptr =>
    let pfns := seqZ (start_pfn ptr) (end_pfn ptr Size - start_pfn ptr) in
    let '(l, c) := tag_pages pfns Flags pid (g_SensPages m) (tick c) in
    (Some ptr, set_pages l m, c)
  end.

(** The loop of SensFreePool: a match is replaced by the last entry, and [i] looked at again. *)
Fixpoint untag_loop (fuel : nat) (pfn : Z) (i : nat) (l : list SENS_PAGE_ENTRY) (c : core) :
    list SENS_PAGE_ENTRY * core :=
  match fuel with
  | O => (l, c)
  | S fuel =>
    match l !! i, last l with
    | Some e, Some z =>
      if PageFrameNumber e =? pfn then
        untag_loop fuel pfn i (take (length l - 1) (<[i := z]> l)) (InterlockedDecrement SensPageCount c)
      else untag_loop fuel pfn (S i) l c
    | _, _ => (l, c)
    end
  end.

Definition SensFreePool (Ptr : option Z) (m : mit) (c : core) : mit * core :=
  match Ptr with
  | None => (m, c)
  | Some ptr =>
    let '(l, c) := untag_loop (length (g_SensPages m)) (start_pfn ptr) 0 (g_SensPages m) c in
    (set_pages l m, c)
  end.

Definition SensIsPageTagged (pfn : Z) (m : mit) : bool :=
  existsb (λ e, PageFrameNumber e =? pfn) (g_SensPages m).
Definition IsProcessSensitive (ProcessId : Z) (m : mit) : bool :=
  existsb (λ e, OwningProcessId e =? u32 ProcessId) (g_SensPages m).

(** ** Speculation controls *)
Definition EnableSpeculationControls (CpuIndex : Z) (c : core) : core :=
  if negb (has (Features (g_CpuMit c CpuIndex)) CPU_FEAT_IBRS_ALL) then c else
  let '(specCtrl, c) := rdmsr MSR_IA32_SPEC_CTRL c in
  wrmsr MSR_IA32_SPEC_CTRL (Z.lor (Z.lor specCtrl (2 ^ 0)) (2 ^ 1)) c.

Definition DisableSpeculationControls (CpuIndex : Z) (c : core) : core :=
  if negb (has (Features (g_CpuMit c CpuIndex)) CPU_FEAT_IBRS_ALL) then c else
  let '(specCtrl, c) := rdmsr MSR_IA32_SPEC_CTRL c in
  let c := wrmsr MSR_IA32_SPEC_CTRL (Z.ldiff specCtrl (2 ^ 0)) c in
  if has (Features (g_CpuMit c CpuIndex)) CPU_FEAT_IBPB then wrmsr MSR_IA32_PRED_CMD 1 c else c.

(** ** The keyboard interrupt; [scanCode] is the byte at port 0x60 *)
Definition HardenedKeyboardIsr (scanCode : Z) (m : mit) (c : core) : mit * core :=
  let '(cpuIdx, c) := KeGetCurrentProcessorIndex c in
  let c := emit_op Lfence c in
  let c := ExecuteSecurityBoundaryFlush cpuIdx c in
  let c := emit_op (Inb 0x60) c in
  let m := match g_KbdRingBuffer m with
           | None => m
           | Some (ptr, bytes) =>
             let safeIdx := SafeArrayIndex (g_KbdWriteIdx m) KBD_RING_SIZE in
             set_kbd (Some (ptr, <[Z.to_nat safeIdx := scanCode]> bytes))
                     (u32 (g_KbdWriteIdx m + 1) mod KBD_RING_SIZE) m
           end in
  let c := ExecuteSecurityBoundaryFlush cpuIdx c in
  (m, emit_op Lfence c).

(** ** Cache partitioning *)
Fixpoint sensitive_cbm (n : nat) (cbmLen : Z) : Z :=
  match n with
  | O => 0
  | S n => Z.lor (sensitive_cbm n cbmLen) (Z.shiftl 1 (cbmLen - Z.of_nat n))
  end.

Definition disable_cat (x : CAT_CONFIG) : CAT_CONFIG :=
  CatConfig false (TotalCacheWays x) (SensitiveWays x) (SensitiveClos x) (DefaultClos x)
            (SensitiveCbm x) (DefaultCbm x).
Definition set_ways (w : Z) (x : CAT_CONFIG) : CAT_CONFIG :=
  CatConfig (Enabled x) w (SensitiveWays x) (SensitiveClos x) (DefaultClos x)
            (SensitiveCbm x) (DefaultCbm x).

Definition cat_partition (cbmLen : Z) : CAT_CONFIG :=
  let ways := cbmLen + 1 in
  let sensitiveWays := if 4 <=? ways then ways / 4 else 1 in
  let sens := sensitive_cbm (Z.to_nat sensitiveWays) cbmLen in
  CatConfig true ways sensitiveWays 1 0 sens (Z.ldiff (Z.shiftl 1 (cbmLen + 1) - 1) sens).

Definition CatInitialize (CpuIndex : Z) (m : mit) (c : core) : Z * mit * core :=
  if negb (has (Features (g_CpuMit c CpuIndex)) CPU_FEAT_CAT_L3) then
    (STATUS_NOT_SUPPORTED, set_cat (disable_cat (g_CatConfig m)) m, c) else
  let '((eax, _, _, edx), c) := cpuid 0x10 1 c in
  let cbmLen := Z.land eax 0x1F in
  let maxClos := Z.land edx 0xFFFF in
  if maxClos <? 1 then
    (STATUS_NOT_SUPPORTED, set_cat (disable_cat (set_ways (cbmLen + 1) (g_CatConfig m))) m, c) else
  let cat := cat_partition cbmLen in
  let c := wrmsr (MSR_IA32_L3_CBMBASE + 0) (DefaultCbm cat) c in
  let c := wrmsr (MSR_IA32_L3_CBMBASE + 1) (SensitiveCbm cat) c in
  let '(qosCfg, c) := rdmsr MSR_IA32_L3_QOS_CFG c in
  let c := wrmsr MSR_IA32_L3_QOS_CFG (Z.lor qosCfg (2 ^ 0)) c in
  (STATUS_SUCCESS, set_cat cat m, c).

Definition CatAssignClos (ClosId : Z) (m : mit) (c : core) : core :=
  if Enabled (g_CatConfig m) then wrmsr MSR_IA32_PQR_ASSOC (Z.land ClosId 0xFFFFFFFF) c else c.

(** ** Hyper-threads *)
Definition set_sibling (cpu s : Z) (f : Z → SMT_SIBLING) : Z → SMT_SIBLING :=
  <[cpu := SmtSibling (LogicalProcessor (f cpu)) s (IsSensitiveRunning (f cpu))]> f.
Definition set_logical (cpu : Z) (f : Z → SMT_SIBLING) : Z → SMT_SIBLING :=
  <[cpu := SmtSibling cpu (SiblingProcessor (f cpu)) (IsSensitiveRunning (f cpu))]> f.

(** An earlier CPU without a sibling on the same core. *)
Definition pairs_with (smtShift cpu : Z) (f : Z → SMT_SIBLING) (j : Z) : bool :=
  let smtMask := Z.shiftl 1 smtShift - 1 in
  (SiblingProcessor (f j) =? MAXULONG)
  && negb (Z.land j smtMask =? Z.land cpu smtMask)
  && (Z.shiftr j smtShift =? Z.shiftr cpu smtShift).

Definition smt_pair (cpu : Z) (f : Z → SMT_SIBLING) (c : core) : (Z → SMT_SIBLING) * core :=
  let '((eax, _, _, _), c) := cpuid 0x0B 0 c in
  let smtShift := Z.land eax 0x1F in
  let f := set_logical cpu f in
  match List.find (pairs_with smtShift cpu f) (seqZ 0 cpu) with
  | Some j => (set_sibling j cpu (set_sibling cpu j f), c)
  | None => (f, c)
  end.

Fixpoint smt_pairs (cpus : list Z) (f : Z → SMT_SIBLING) (c : core) : (Z → SMT_SIBLING) * core :=
  match cpus with
  | [] => (f, c)
  | cpu :: cpus => let '(f, c) := smt_pair cpu f c in smt_pairs cpus f c
  end.

Definition smt_reset (cpus : list Z) (f : Z → SMT_SIBLING) : Z → SMT_SIBLING :=
  foldl (λ f cpu, <[cpu := SmtSibling cpu MAXULONG false]> f) f cpus.

Definition SmtBuildTopology (m : mit) (c : core) : mit * core :=
  let cpus := seqZ 0 KeQueryMaximumProcessorCountEx in
  let '(f, c) := smt_pairs cpus (smt_reset cpus (g_SmtMap m)) c in
  (set_smt f m, c).

Definition SmtSiblingFlushDpc (targetCpu : Z) (c : core) : core :=
  let '(cpu, c) := KeGetCurrentProcessorIndex c in
  if cpu =? targetCpu then ExecuteSecurityBoundaryFlush targetCpu c else c.

Definition SmtIsolateSensitiveProcess (m : mit) (c : core) : mit * core :=
  let '(cpuIdx, c) := KeGetCurrentProcessorIndex c in
  let e := g_SmtMap m cpuIdx in
  let siblingCpu := SiblingProcessor e in
  let m := set_smt (<[cpuIdx := SmtSibling (LogicalProcessor e) siblingCpu true]> (g_SmtMap m)) m in
  if siblingCpu =? MAXULONG then (m, c) else (queue_dpc siblingCpu m, c).

(** ** Context switches, from process [oldPid] to [newPid] *)
Definition SensContextSwitchHook (oldPid newPid : Z) (m : mit) (c : core) : mit * core :=
  let oldSens := IsProcessSensitive oldPid m in
  let newSens := IsProcessSensitive newPid m in
  if oldSens || newSens then
    let '(cpuIdx, c) := KeGetCurrentProcessorIndex c in
    let c := ExecuteSecurityBoundaryFlush cpuIdx c in
    if newSens then SmtIsolateSensitiveProcess m (CatAssignClos (SensitiveClos (g_CatConfig m)) m c)
    else (m, CatAssignClos (DefaultClos (g_CatConfig m)) m c)
  else (m, c).

(** ** Start and stop *)
Fixpoint probe_cpus (cpus : list Z) (m : mit) (c : core) : mit * core :=
  match cpus with
  | [] => (m, c)
  | i :: cpus =>
    let c := ProbeCpuCapabilities i c in
    let '(_, m, c) := CatInitialize i m c in
    probe_cpus cpus m c
  end.

(** [raw] is what the fresh pool block of the keyboard ring holds. *)
Definition CacheMitigationInitialize (pid : Z) (raw : list Z) (m : mit) (c : core) : Z * mit * core :=
  let m := Mit [] zero_cat (λ _, SmtSibling 0 0 false) (g_KbdRingBuffer m) (g_KbdWriteIdx m) (dpcs m) in
  let c := set_cpumit (λ _, zero_mitigations) c in
  let '(m, c) := probe_cpus (seqZ 0 KeQueryMaximumProcessorCountEx) m c in
  let '(m, c) := SmtBuildTopology m c in
  let '(p, m, c) := SensAllocatePool KBD_RING_SIZE SENS_FLAG_KEYSTROKE pid m c in
  match p with
  | None => (STATUS_INSUFFICIENT_RESOURCES, set_kbd None (g_KbdWriteIdx m) m, c)
  | Some ptr => (STATUS_SUCCESS, set_kbd (Some (ptr, raw)) 0 m, c)
  end.

Definition CacheMitigationUninitialize (m : mit) (c : core) : mit * core :=
  let '(m, c) :=
    match g_KbdRingBuffer m with
    | None => (m, c)
    | Some (ptr, _) =>
      let '(m, c) := SensFreePool (Some ptr) m c in (set_kbd None (g_KbdWriteIdx m) m, c)
    end in
  (m, if Enabled (g_CatConfig m) then
        foldl (λ c _, wrmsr MSR_IA32_PQR_ASSOC 0 c) c (seqZ 0 KeQueryMaximumProcessorCountEx)
      else c).
End mitigate.

(** ** Feature bits *)
Lemma has_testbit f k : 0 ≤ k → has f (2 ^ k) = Z.testbit f k.
Proof.
  intros Hk. unfold has. destruct (Z.testbit f k) eqn:E.
  - apply negb_true_iff, Z.eqb_neq. intros Hl. apply (f_equal (λ z, Z.testbit z k)) in Hl.
    by rewrite Z.land_spec, Z.pow2_bits_true, E, Z.bits_0 in Hl.
  - apply negb_false_iff, Z.eqb_eq, Z.bits_inj'. intros j Hj.
    rewrite Z.land_spec, Z.bits_0. destruct (decide (k = j)) as [->|Hne]; [by rewrite E|].
    by rewrite Z.pow2_bits_false, andb_false_r.
Qed.

Lemma has_feature_if w b k j f :
  0 ≤ j → 0 ≤ k → has (feature_if w b (2 ^ k) f) (2 ^ j) = (k =? j) && has w b || has f (2 ^ j).
Proof.
  intros Hj Hk. rewrite !has_testbit by done. unfold feature_if.
  destruct (has w b); [|by rewrite andb_false_r].
  rewrite Z.lor_spec, andb_true_r. destruct (Z.eqb_spec k j) as [->|Hne].
  - by rewrite Z.pow2_bits_true, orb_true_r.
  - by rewrite Z.pow2_bits_false, orb_false_r.
Qed.

Lemma has_zero b : has 0 b = false.
Proof. done. Qed.

(** The feature constants as powers of two, and the tests on a probe's result. *)
Ltac has_simpl :=
  change CPU_FEAT_MDS_NO with (2 ^ 0) in *; change CPU_FEAT_L1TF_NO with (2 ^ 1) in *;
  change CPU_FEAT_RDCL_NO with (2 ^ 2) in *; change CPU_FEAT_IBRS_ALL with (2 ^ 3) in *;
  change CPU_FEAT_VERW_FLUSH with (2 ^ 4) in *; change CPU_FEAT_L1D_FLUSH with (2 ^ 5) in *;
  change CPU_FEAT_SSB_NO with (2 ^ 6) in *; change CPU_FEAT_IBPB with (2 ^ 7) in *;
  change CPU_FEAT_CAT_L3 with (2 ^ 8) in *; change CPU_FEAT_ARCH_CAP_MSR with (2 ^ 10) in *;
  change CPU_FEAT_SMT with (2 ^ 9) in *;
  repeat rewrite has_feature_if by lia; rewrite ?has_zero.

Lemma smt_feature s f : (if 0 <? s then Z.lor f CPU_FEAT_SMT else f)
  = feature_if (if 0 <? s then 1 else 0) 1 CPU_FEAT_SMT f.
Proof. unfold feature_if. by destruct (0 <? s). Qed.

(** The flush, as the operations it appends. *)
Definition boundary_ops (m : CPU_MITIGATIONS) : list win_op :=
  let l1d := if has (Features m) CPU_FEAT_L1D_FLUSH then [Wrmsr MSR_IA32_FLUSH_CMD 1] else [] in
  match Strategy m with
  | MitigateNone => []
  | MitigateVerwOnly => [Verw]
  | MitigateL1dFlushOnly => l1d
  | MitigateVerwPlusL1d => Verw :: l1d
  | MitigateFullSpectrum => Verw :: l1d ++ [Lfence]
  end.

Section mitigate_proofs.
Context `{WinEnv}.

Lemma flush_ops i c :
  ops (ExecuteSecurityBoundaryFlush i c) = ops c ++ boundary_ops (g_CpuMit c i)
  ∧ clock (ExecuteSecurityBoundaryFlush i c) = clock c
  ∧ g_CpuMit (ExecuteSecurityBoundaryFlush i c) = g_CpuMit c
  ∧ g_SharedMemKernel (ExecuteSecurityBoundaryFlush i c) = g_SharedMemKernel c
  ∧ g_HmacKey (ExecuteSecurityBoundaryFlush i c) = g_HmacKey c.
Proof.
  unfold ExecuteSecurityBoundaryFlush, boundary_ops, flush_l1d.
  destruct (Strategy (g_CpuMit c i)), (has (Features (g_CpuMit c i)) CPU_FEAT_L1D_FLUSH); simpl;
    rewrite ?app_nil_r, <- ?app_assoc; done.
Qed.

Lemma probe_features_clock c : ∃ n, (probe_features c).2 = at_time n c.
Proof.
  unfold probe_features. simpl. destruct (cpuid_at (clock c) 7 0) as [[[a7 b7] c7] d7]. simpl.
  match goal with |- context [if ?b then _ else (_, _)] => destruct b end; simpl;
    repeat match goal with |- context [cpuid_at ?n ?l ?s] =>
      destruct (cpuid_at n l s) as [[[? ?] ?] ?] end; by eexists.
Qed.

(** What the probe learnt of MDS, L1TF, the L1D flush command and IBPB. *)
Lemma probe_features_bits c :
  let '(_, _, _, edx7) := cpuid_at (clock c) 7 0 in
  let archCap := rdmsr_at (S (clock c)) MSR_IA32_ARCH_CAPABILITIES in
  let '(f, _) := probe_features c in
  has f CPU_FEAT_MDS_NO = has edx7 CPUID_EDX_ARCH_CAP && has archCap ARCH_CAP_MDS_NO
  ∧ has f CPU_FEAT_L1TF_NO = has edx7 CPUID_EDX_ARCH_CAP && has archCap ARCH_CAP_RDCL_NO
  ∧ has f CPU_FEAT_L1D_FLUSH = has edx7 CPUID_EDX_L1D_FLUSH
  ∧ has f CPU_FEAT_IBPB = false.
Proof.
  unfold probe_features. simpl.
  destruct (cpuid_at (clock c) 7 0) as [[[a7 b7] c7] d7]. simpl. has_simpl. simpl.
  destruct (has d7 CPUID_EDX_ARCH_CAP); simpl;
    repeat match goal with |- context [cpuid_at ?n ?l ?s] =>
      destruct (cpuid_at n l s) as [[[? ?] ?] ?] end; simpl; change (2 ^ 9) with CPU_FEAT_SMT;
    rewrite smt_feature; has_simpl; simpl; rewrite ?orb_false_r; done.
Qed.

(** The cheapest strategy is a safe one: on a CPU just probed, a boundary flush runs VERW
    exactly when the processor does not report immunity to MDS, and writes the L1D flush
    command exactly when it does not report immunity to L1TF (RDCL_NO) and has the command. *)
Theorem probed_flush_covers (i : Z) (c : core) :
  let '(_, _, _, edx7) := cpuid_at (clock c) 7 0 in
  let archCap := rdmsr_at (S (clock c)) MSR_IA32_ARCH_CAPABILITIES in
  let c1 := ProbeCpuCapabilities i c in
  ∃ o, ops (ExecuteSecurityBoundaryFlush i c1) = ops c ++ o
  ∧ (Verw ∈ o ↔ has edx7 CPUID_EDX_ARCH_CAP && has archCap ARCH_CAP_MDS_NO = false)
  ∧ (Wrmsr MSR_IA32_FLUSH_CMD 1 ∈ o
     ↔ has edx7 CPUID_EDX_ARCH_CAP && has archCap ARCH_CAP_RDCL_NO = false
       ∧ has edx7 CPUID_EDX_L1D_FLUSH = true).
Proof.
  pose proof (probe_features_bits c) as Hf. unfold ProbeCpuCapabilities.
  assert (Hops : ops (probe_features c).2 = ops c) by (by destruct (probe_features_clock c) as [n ->]).
  destruct (cpuid_at (clock c) 7 0) as [[[a7 b7] c7] d7].
  destruct (probe_features c) as [f c0]. destruct Hf as (Hm & Hl & Hd & _). simpl in Hops.
  rewrite <- Hm, <- Hl, <- Hd. unfold select_strategy.
  destruct (has f CPU_FEAT_MDS_NO), (has f CPU_FEAT_L1TF_NO), (has f CPU_FEAT_VERW_FLUSH),
    (has f CPU_FEAT_L1D_FLUSH) eqn:E; simpl; eexists;
    (split; [rewrite (proj1 (flush_ops _ _)); simpl; by rewrite Hops|]);
    rewrite fn_lookup_insert; unfold boundary_ops; simpl; rewrite ?E; simpl; set_solver.
Qed.

(** Nothing but the probe writes [Features], and it never sets IBPB. *)
Lemma probe_never_ibpb i c : has (Features (g_CpuMit (ProbeCpuCapabilities i c) i)) CPU_FEAT_IBPB = false.
Proof.
  pose proof (probe_features_bits c) as Hf. unfold ProbeCpuCapabilities.
  destruct (cpuid_at (clock c) 7 0) as [[[a7 b7] c7] d7].
  destruct (probe_features c) as [f c0]. destruct Hf as (_ & _ & _ & Hb).
  destruct (select_strategy f) as [st cost]. simpl. by rewrite fn_lookup_insert.
Qed.

(** The predictor barrier of DisableSpeculationControls is dead code: CPU_FEAT_IBPB is never
    set by the probe, so on a probed CPU no write of IA32_PRED_CMD is ever made. *)
Theorem ibpb_never_issued (i : Z) (c : core) :
  let c1 := ProbeCpuCapabilities i c in
  ∃ o, ops (DisableSpeculationControls i c1) = ops c1 ++ o ∧ ∀ v, Wrmsr MSR_IA32_PRED_CMD v ∉ o.
Proof.
  intros c1. unfold DisableSpeculationControls.
  destruct (negb _) eqn:E1; [exists []; rewrite app_nil_r; split; [done|set_solver]|].
  simpl. pose proof (probe_never_ibpb i c) as Hb. fold c1 in Hb. rewrite Hb.
  eexists. split; [done|]. intros v. rewrite list_elem_of_singleton. done.
Qed.
End mitigate_proofs.

(** ** Bounds masking *)
Lemma SafeArrayIndex_spec Index ArraySize :
  is_u32 Index → SafeArrayIndex Index ArraySize = if Index <? ArraySize then Index else 0.
Proof.
  intros Hi. unfold SafeArrayIndex. destruct (Index <? ArraySize).
  - change (u32 (Z.opp 1)) with (Z.ones 32). rewrite Z.land_ones by lia. by apply Z.mod_small.
  - apply Z.land_0_r.
Qed.

Section isr.
Context `{WinEnv}.

(** The keyboard ring: 256 bytes, and an index inside it. *)
Definition kbd_wf (m : mit) : Prop :=
  match g_KbdRingBuffer m with
  | None => True
  | Some (_, bytes) => length bytes = 256%nat ∧ 0 ≤ g_KbdWriteIdx m < KBD_RING_SIZE
  end.

(** The keyboard interrupt: the port is read between two boundary flushes of the current
    CPU, themselves inside speculation barriers, and the byte read goes to the write index of
    the ring, which stays inside its 256 bytes and advances by one modulo 256. *)
Theorem keyboard_isr_bracketed (scanCode : Z) (m : mit) (c : core) :
  kbd_wf m →
  let '(m', c') := HardenedKeyboardIsr scanCode m c in
  let flush := boundary_ops (g_CpuMit c (cpu_at (clock c))) in
  kbd_wf m'
  ∧ ops c' = ops c ++ [Lfence] ++ flush ++ [Inb 0x60] ++ flush ++ [Lfence]
  ∧ match g_KbdRingBuffer m with
    | None => m' = m
    | Some (ptr, bytes) =>
      g_KbdRingBuffer m' = Some (ptr, <[Z.to_nat (g_KbdWriteIdx m) := scanCode]> bytes)
      ∧ (Z.to_nat (g_KbdWriteIdx m) < length bytes)%nat
      ∧ g_KbdWriteIdx m' = (g_KbdWriteIdx m + 1) mod KBD_RING_SIZE
    end.
Proof.
  intros Hwf. unfold HardenedKeyboardIsr. simpl.
  split_and!; [| |].
  - unfold kbd_wf in *. destruct (g_KbdRingBuffer m) as [[ptr bytes]|] eqn:E; simpl; [|by rewrite E].
    destruct Hwf as [Hl Hi]. rewrite length_insert. split; [done|]. apply Z.mod_pos_bound. done.
  - rewrite (proj1 (flush_ops _ _)). simpl. rewrite (proj1 (flush_ops _ _)). simpl.
    rewrite (proj1 (proj2 (proj2 (flush_ops _ _)))). simpl. by rewrite <- !app_assoc.
  - unfold kbd_wf in *. destruct (g_KbdRingBuffer m) as [[ptr bytes]|] eqn:E; simpl; [|done].
    destruct Hwf as [Hl Hi]. unfold KBD_RING_SIZE in *.
    rewrite SafeArrayIndex_spec by (unfold is_u32; lia). rewrite (proj2 (Z.ltb_lt _ _)) by lia.
    rewrite u32_id by (unfold is_u32; lia). split_and!; [done|lia|done].
Qed.
End isr.

(** ** Cache partitioning: both masks are runs of ways, for every mask length *)
Definition cat_check (cbmLen : Z) : bool :=
  let x := cat_partition cbmLen in
  let ways := cbmLen + 1 in
  let k := SensitiveWays x in
  (1 <=? k) && (k <=? ways) && ((k <? ways) || (ways =? 1))
  && (SensitiveCbm x =? (2 ^ k - 1) * 2 ^ (ways - k)) && (DefaultCbm x =? 2 ^ (ways - k) - 1)
  && (Z.land (SensitiveCbm x) (DefaultCbm x) =? 0)
  && (Z.lor (SensitiveCbm x) (DefaultCbm x) =? 2 ^ ways - 1).

Lemma cat_check_all cbmLen : 0 ≤ cbmLen < 32 → cat_check cbmLen = true.
Proof.
  intros Hr. assert (Hall : forallb cat_check (seqZ 0 32) = true) by (by vm_compute).
  rewrite forallb_forall in Hall. apply Hall, list_elem_of_In, elem_of_seqZ. lia.
Qed.

Section cat.
Context `{WinEnv}.

(** Cache partitioning: when CatInitialize succeeds it has programmed two classes whose
    masks are adjacent runs of ways, share none and together cover every way, the sensitive
    one at the top and never empty; otherwise CAT is marked disabled and no register is
    written. *)
Theorem cat_masks_partition (i : Z) (m : mit) (c : core) :
  let '(st, m', c') := CatInitialize i m c in
  let x := g_CatConfig m' in
  let w := TotalCacheWays x in
  let k := SensitiveWays x in
  if NT_SUCCESS st then
    Enabled x = true ∧ 1 ≤ k ≤ w ∧ w ≤ 32 ∧ (k = w → w = 1)
    ∧ SensitiveCbm x = (2 ^ k - 1) * 2 ^ (w - k) ∧ DefaultCbm x = 2 ^ (w - k) - 1
    ∧ Z.land (SensitiveCbm x) (DefaultCbm x) = 0
    ∧ Z.lor (SensitiveCbm x) (DefaultCbm x) = 2 ^ w - 1
    ∧ ∃ qos, ops c' = ops c ++ [Wrmsr MSR_IA32_L3_CBMBASE (DefaultCbm x);
                                Wrmsr (MSR_IA32_L3_CBMBASE + 1) (SensitiveCbm x);
                                Wrmsr MSR_IA32_L3_QOS_CFG (Z.lor qos 1)]
  else Enabled x = false ∧ ops c' = ops c.
Proof.
  unfold CatInitialize. destruct (negb (has _ _)); [done|]. simpl.
  destruct (cpuid_at (clock c) 16 1) as [[[eax ebx] ecx] edx]. simpl.
  destruct (Z.land edx 65535 <? 1); [done|]. simpl.
  change 31 with (Z.ones 5). rewrite Z.land_ones by lia. change (2 ^ 5) with 32.
  pose proof (Z.mod_pos_bound eax 32 ltac:(lia)) as Hr. set (b := eax mod 32) in *.
  pose proof (cat_check_all b Hr) as Hc. unfold cat_check in Hc. bool_props.
  unfold cat_partition in *. simpl in *.
  split_and!; try done; try lia.
  eexists. by rewrite <- !app_assoc.
Qed.
End cat.

(** ** Hyper-thread pairs *)
Section smt.
Context `{WinEnv}.

(** CPUs below [n] are paired with each other or with none; the rest are untouched. *)
Definition smt_sym (n total : Z) (f : Z → SMT_SIBLING) : Prop :=
  (∀ i, 0 ≤ i < n → SiblingProcessor (f i) = MAXULONG
        ∨ (0 ≤ SiblingProcessor (f i) < n ∧ SiblingProcessor (f i) ≠ i
           ∧ SiblingProcessor (f (SiblingProcessor (f i))) = i))
  ∧ (∀ i, n ≤ i < total → SiblingProcessor (f i) = MAXULONG).

Lemma sibling_set_logical cpu f i : SiblingProcessor (set_logical cpu f i) = SiblingProcessor (f i).
Proof.
  unfold set_logical. destruct (decide (cpu = i)) as [->|Hne];
    [by rewrite fn_lookup_insert|by rewrite fn_lookup_insert_ne].
Qed.
Lemma sibling_set_eq cpu s f : SiblingProcessor (set_sibling cpu s f cpu) = s.
Proof. unfold set_sibling. by rewrite fn_lookup_insert. Qed.
Lemma sibling_set_ne cpu s f i :
  cpu ≠ i → SiblingProcessor (set_sibling cpu s f i) = SiblingProcessor (f i).
Proof. intros. unfold set_sibling. by rewrite fn_lookup_insert_ne. Qed.

Lemma smt_sym_pair n total f c :
  0 ≤ n < total → total ≤ MAXIMUM_PROCESSORS → smt_sym n total f →
  smt_sym (n + 1) total (smt_pair n f c).1.
Proof.
  intros Hn Ht [Hlo Hhi]. unfold smt_pair, MAXIMUM_PROCESSORS in *. simpl.
  destruct (cpuid_at (clock c) 11 0) as [[[eax ebx] ecx] edx]. simpl.
  destruct (List.find _ _) as [j|] eqn:E; simpl; split; intros i Hi; rewrite ?sibling_set_logical.
  - apply List.find_some in E as [Hj%list_elem_of_In%elem_of_seqZ Hp].
    unfold pairs_with in Hp. rewrite sibling_set_logical in Hp. bool_props.
    destruct (decide (i = j)) as [->|Hij].
    { right. rewrite sibling_set_eq. split_and!; [lia..|].
      rewrite sibling_set_ne by lia. apply sibling_set_eq. }
    rewrite sibling_set_ne by done. destruct (decide (i = n)) as [->|Hin].
    { right. rewrite sibling_set_eq. split_and!; [lia..|]. apply sibling_set_eq. }
    rewrite sibling_set_ne, sibling_set_logical by done.
    destruct (Hlo i) as [|(Hr & Hne & Hb)]; [lia|by left|]. right. split_and!; [lia..|].
    assert (SiblingProcessor (f i) ≠ j).
    { intros Hs. rewrite Hs in Hb. unfold MAXULONG in *. lia. }
    rewrite !sibling_set_ne, sibling_set_logical by lia. done.
  - apply List.find_some in E as [Hj%list_elem_of_In%elem_of_seqZ _].
    rewrite !sibling_set_ne, sibling_set_logical by lia. apply Hhi. lia.
  - destruct (decide (i = n)) as [->|Hin]; [left; apply Hhi; lia|].
    destruct (Hlo i) as [|(Hr & Hne & Hb)]; [lia|by left|]. right.
    split_and!; try lia; done.
  - apply Hhi. lia.
Qed.

Lemma smt_sym_pairs k n total f c :
  0 ≤ n → n + Z.of_nat k = total → total ≤ MAXIMUM_PROCESSORS → smt_sym n total f →
  smt_sym total total (smt_pairs (seqZ n (Z.of_nat k)) f c).1.
Proof.
  revert n f c. induction k as [|k IH]; intros n f c Hn Hk Ht Hf.
  { replace total with n at 1 by lia. done. }
  rewrite seqZ_cons by lia. cbn [smt_pairs].
  pose proof (smt_sym_pair n total f c ltac:(lia) Ht Hf) as Hs.
  destruct (smt_pair n f c) as [f' c']. simpl in Hs.
  replace (Z.pred (Z.of_nat (S k))) with (Z.of_nat k) by lia.
  apply IH; [lia..|done|done].
Qed.

Lemma smt_reset_all cpus f i : i ∈ cpus → SiblingProcessor (smt_reset cpus f i) = MAXULONG.
Proof.
  unfold smt_reset. revert f. induction cpus as [|j cpus IH] using rev_ind; intros f Hi; [by inversion Hi|].
  rewrite foldl_app. simpl. destruct (decide (j = i)) as [->|Hne]; [by rewrite fn_lookup_insert|].
  rewrite fn_lookup_insert_ne by done. apply IH. apply elem_of_app in Hi as [|Hi]; [done|].
  apply list_elem_of_singleton in Hi. congruence.
Qed.

(** The hyper-thread map is a pairing, whatever CPUID answers for each processor: a CPU's
    sibling is another existing CPU whose sibling it is, or the CPU has none. *)
Theorem smt_map_pairs `{!WinLaws} (m : mit) (c : core) (i : Z) :
  0 ≤ i < KeQueryMaximumProcessorCountEx →
  let s := g_SmtMap (SmtBuildTopology m c).1 in
  let j := SiblingProcessor (s i) in
  j = MAXULONG ∨ (0 ≤ j < KeQueryMaximumProcessorCountEx ∧ j ≠ i ∧ SiblingProcessor (s j) = i).
Proof.
  intros Hi. pose proof cpu_count as [Hc1 Hc2]. unfold SmtBuildTopology.
  set (N := KeQueryMaximumProcessorCountEx) in *.
  assert (Hr : smt_sym 0 N (smt_reset (seqZ 0 N) (g_SmtMap m))).
  { split; [lia|]. intros k Hk. apply smt_reset_all, elem_of_seqZ. lia. }
  pose proof (smt_sym_pairs (Z.to_nat N) 0 N _ c ltac:(lia) ltac:(lia) Hc2 Hr) as [Hs _].
  rewrite Z2Nat.id in Hs by lia. destruct (smt_pairs _ _ _) as [f c']. simpl in *. by apply Hs.
Qed.
End smt.

(** ** Sensitive pages *)
Lemma swap_remove {A} (l : list A) i e z :
  l !! i = Some e → last l = Some z → l ≡ₚ e :: take (length l - 1) (<[i := z]> l).
Proof.
  intros Hi [l0 ->]%last_Some. rewrite length_app. simpl.
  replace (length l0 + 1 - 1)%nat with (length l0) by lia.
  apply lookup_snoc_Some in Hi as [[Hlt Hi]|[-> <-]].
  - rewrite insert_app_l by done. rewrite take_app_length' by (by rewrite length_insert).
    rewrite <- (take_drop_middle l0 i e Hi) at 1. rewrite (insert_take_drop l0 i z Hlt).
    rewrite <- !app_assoc. simpl. rewrite (Permutation_app_comm _ [z]). simpl. solve_Permutation.
  - rewrite list_insert_id by (by apply list_lookup_middle).
    rewrite take_app_length. by rewrite Permutation_app_comm.
Qed.

Definition sens_inv (m : mit) (c : core) : Prop :=
  wstats (g_SharedState c) SensPageCount = s32 (zlen (g_SensPages m))
  ∧ zlen (g_SensPages m) ≤ MAX_SENSITIVE_PAGES.

Lemma tag_pages_spec pfns F pid l c :
  wstats (g_SharedState c) SensPageCount = s32 (zlen l) → zlen l ≤ MAX_SENSITIVE_PAGES →
  let '(l', c') := tag_pages pfns F pid l c in
  l' = l ++ ((λ pfn, SensPage pfn F pid) <$> take (Z.to_nat (MAX_SENSITIVE_PAGES - zlen l)) pfns)
  ∧ wstats (g_SharedState c') SensPageCount = s32 (zlen l') ∧ zlen l' ≤ MAX_SENSITIVE_PAGES.
Proof.
  revert l c. induction pfns as [|p pfns IH]; intros l c Hs Hl; simpl.
  { rewrite take_nil, app_nil_r. done. }
  destruct (MAX_SENSITIVE_PAGES <=? zlen l) eqn:E; bool_props.
  { replace (Z.to_nat (MAX_SENSITIVE_PAGES - zlen l)) with 0%nat by lia. by rewrite app_nil_r. }
  specialize (IH (l ++ [SensPage p F pid]) (InterlockedIncrement SensPageCount c)).
  assert (Hz : zlen (l ++ [SensPage p F pid]) = zlen l + 1) by (unfold zlen; rewrite length_app; simpl; lia).
  destruct (tag_pages pfns F pid _ _) as [l' c']. rewrite Hz in IH. destruct IH as (-> & H1 & H2).
  - simpl. rewrite fn_lookup_insert, Hs. unfold MAX_SENSITIVE_PAGES in *.
    by rewrite (s32_id (zlen l)) by (unfold zlen in *; lia).
  - lia.
  - split_and!; [|done..]. rewrite <- app_assoc. simpl.
    replace (Z.to_nat (MAX_SENSITIVE_PAGES - zlen l))
      with (S (Z.to_nat (MAX_SENSITIVE_PAGES - (zlen l + 1)))) by lia. done.
Qed.

Lemma untag_loop_spec fuel pfn i l c :
  (length l - i ≤ fuel)%nat → Forall (λ e, PageFrameNumber e ≠ pfn) (take i l) →
  zlen l ≤ MAX_SENSITIVE_PAGES → wstats (g_SharedState c) SensPageCount = s32 (zlen l) →
  let '(l', c') := untag_loop fuel pfn i l c in
  l' ≡ₚ filter (λ e, PageFrameNumber e ≠ pfn) l
  ∧ wstats (g_SharedState c') SensPageCount = s32 (zlen l').
Proof.
  revert i l c. induction fuel as [|fuel IH]; intros i l c Hf Hall Hm Hs; cbn [untag_loop].
  { rewrite take_ge in Hall by lia. by rewrite filter_all. }
  destruct (l !! i) as [e|] eqn:Hi.
  2:{ apply lookup_ge_None in Hi. rewrite take_ge in Hall by lia. by rewrite filter_all. }
  destruct (last l) as [z|] eqn:Hz; [|by apply last_None in Hz; subst].
  pose proof (lookup_lt_Some _ _ _ Hi) as Hlt.
  destruct (PageFrameNumber e =? pfn) eqn:E; bool_props.
  - pose proof (swap_remove l i e z Hi Hz) as Hperm. set (l1 := take (length l - 1) (<[i := z]> l)) in *.
    assert (Hl1 : length l1 = (length l - 1)%nat) by (unfold l1; rewrite length_take, length_insert; lia).
    specialize (IH i l1 (InterlockedDecrement SensPageCount c)).
    destruct (untag_loop _ _ _ _ _) as [l' c']. destruct IH as [H1 H2].
    + lia.
    + unfold l1. rewrite take_take, Nat.min_l, take_insert_ge by lia. done.
    + unfold zlen in *. lia.
    + simpl. rewrite fn_lookup_insert, Hs. unfold zlen, MAX_SENSITIVE_PAGES in *.
      rewrite (s32_id (Z.of_nat (length l))) by lia. f_equal. lia.
    + split; [|done]. rewrite H1, Hperm, filter_cons_False; [done|]. by intros ?.
  - apply IH; [lia| |done..]. rewrite (take_S_r _ _ _ Hi). by apply Forall_app; auto.
Qed.

Section sens.
Context `{WinEnv}.

(** Freeing a block: exactly the entries with the page of the pointer go, every other
    entry stays, and the published count is the number of entries. *)
Lemma SensFreePool_spec (ptr : Z) (m : mit) (c : core) :
  sens_inv m c →
  let '(m', c') := SensFreePool (Some ptr) m c in
  sens_inv m' c'
  ∧ g_SensPages m' ≡ₚ filter (λ e, PageFrameNumber e ≠ start_pfn ptr) (g_SensPages m).
Proof.
  intros [Hs Hl]. unfold SensFreePool.
  pose proof (untag_loop_spec (length (g_SensPages m)) (start_pfn ptr) 0 (g_SensPages m) c
                ltac:(lia) (Forall_nil_2 _) Hl Hs) as Hu.
  destruct (untag_loop _ _ _ _ _) as [l' c']. destruct Hu as [Hp Hc].
  split; [split|]; simpl; [done| |done].
  apply Permutation_length in Hp.
  pose proof (length_filter (λ e, PageFrameNumber e ≠ start_pfn ptr) (g_SensPages m)).
  unfold zlen in *. lia.
Qed.

(** Allocating one: its pages are appended as far as the table has room. *)
Lemma SensAllocatePool_spec (Size F pid : Z) (m : mit) (c : core) :
  sens_inv m c →
  let '(p, m', c') := SensAllocatePool Size F pid m c in
  sens_inv m' c'
  ∧ match p with
    | None => m' = m
    | Some ptr =>
      g_SensPages m' = g_SensPages m ++
        ((λ pfn, SensPage pfn F pid)
           <$> take (Z.to_nat (MAX_SENSITIVE_PAGES - zlen (g_SensPages m)))
                    (seqZ (start_pfn ptr) (end_pfn ptr Size - start_pfn ptr)))
    end.
Proof.
  intros [Hs Hl]. unfold SensAllocatePool. destruct (pool_at (clock c) Size) as [q|]; [|done].
  pose proof (tag_pages_spec (seqZ (start_pfn q) (end_pfn q Size - start_pfn q)) F pid
                (g_SensPages m) (tick c) Hs Hl) as Ht.
  destruct (tag_pages _ _ _ _ _) as [l c']. destruct Ht as (-> & Hs1 & Hl1). done.
Qed.

(** SensFreePool looks for the first page only: of a block of several pages every further
    page stays registered as sensitive after the block was freed. *)
Theorem freed_pages_stay_tagged (Size F pid ptr pfn : Z) (m m1 : mit) (c c1 : core) :
  sens_inv m c →
  SensAllocatePool Size F pid m c = (Some ptr, m1, c1) →
  zlen (g_SensPages m) + (end_pfn ptr Size - start_pfn ptr) ≤ MAX_SENSITIVE_PAGES →
  start_pfn ptr < pfn < end_pfn ptr Size →
  SensIsPageTagged pfn (SensFreePool (Some ptr) m1 c1).1 = true.
Proof.
  intros Hinv Ha Hroom Hp. pose proof (SensAllocatePool_spec Size F pid m c Hinv) as Hs.
  rewrite Ha in Hs. destruct Hs as [Hinv1 Hl1].
  pose proof (SensFreePool_spec ptr m1 c1 Hinv1) as Hf.
  destruct (SensFreePool _ _ _) as [m2 c2]. destruct Hf as [_ Hl2]. simpl.
  unfold SensIsPageTagged. apply existsb_exists. exists (SensPage pfn F pid).
  split; [|apply Z.eqb_refl]. apply list_elem_of_In. rewrite Hl2, Hl1.
  apply list_elem_of_filter. split; [simpl; lia|]. apply elem_of_app. right.
  apply list_elem_of_fmap. exists pfn. split; [done|].
  rewrite take_ge by (rewrite length_seqZ; lia). apply elem_of_seqZ. lia.
Qed.
End sens.
