(* ===== verification/WinRouter.v ===== *)
(** * The Windows driver's event router (windows/src/shared_state.c) and the
      dispatch-routine scan it triggers (windows/src/kernel_integrity.c)

    DispatchCrossModuleEvent and ScanKeyboardDrivers call each other.  The scan
    raises ALERT_DISPATCH_HOOK only, which does not scan again, so the router is
    first defined over any scan ([DispatchWith]), the scan over the router that
    does not scan, and the router over that scan; [scan_calls_router] shows that
    the knot is tied as in the source. *)
From S2P Require Import Prelude Sha256 Uapi WinState WinComms WinMitigate.
Local Open Scope Z_scope.

Definition set_strategy (i : Z) (s : MITIGATION_STRATEGY) (c : core) : core :=
  let m := g_CpuMit c i in
  set_cpumit (<[i := CpuMitigations (Features m) s (VerwSelector m) (FlushCostNs m)]> (g_CpuMit c)) c.

(** The parts of a DRIVER_OBJECT the scan reads. *)
Record DRIVER_OBJECT := DriverObject {
  DriverStart : Z;
  DriverSize : Z;
  MajorFunction : Z → Z
}.
Definition IRP_MJ_READ : Z := 0x03.
Definition IRP_MJ_DEVICE_CONTROL : Z := 0x0E.
Definition IRP_MJ_INTERNAL_DEVICE_CONTROL : Z := 0x0F.

(** Kernel memory and the object manager, at the time of the access. *)
Class WinKernel := {
  kread_at : nat → Z → Z → option (list Z);      (* address, size; [None] raises *)
  driver_named_at : nat → list Z → option DRIVER_OBJECT   (* ObReferenceObjectByName *)
}.

(** ** Known hook prologues *)
Record HOOK_SIGNATURE := HookSignature { Pattern : list Z; Mask : list Z }.
Definition g_HookSigs : list HOOK_SIGNATURE := [
  HookSignature [0xE9; 0; 0; 0; 0; 0; 0; 0] [0xFF; 0; 0; 0; 0; 0; 0; 0];
  HookSignature [0x68; 0; 0; 0; 0; 0xC3; 0; 0] [0xFF; 0; 0; 0; 0; 0xFF; 0; 0];
  HookSignature [0xFF; 0x25; 0; 0; 0; 0; 0; 0] [0xFF; 0xFF; 0; 0; 0; 0; 0; 0];
  HookSignature [0x48; 0xB8; 0; 0; 0; 0; 0; 0] [0xFF; 0xFF; 0; 0; 0; 0; 0; 0];
  HookSignature [0xCC; 0xCC; 0; 0; 0; 0; 0; 0] [0xFF; 0xFF; 0; 0; 0; 0; 0; 0];
  HookSignature [0xE8; 0; 0; 0; 0; 0; 0; 0] [0xFF; 0; 0; 0; 0; 0; 0; 0]
].

Fixpoint sig_match (Mask Pattern prologue : list Z) : bool :=
  match Mask, Pattern, prologue with
  | k :: Mask, p :: Pattern, b :: prologue =>
    if negb (k =? 0) && negb (b =? p) then false else sig_match Mask Pattern prologue
  | _, _, _ => true
  end.

(** The first signature that matches. *)
Fixpoint first_match (sigs : list HOOK_SIGNATURE) (i : Z) (prologue : list Z) : option Z :=
  match sigs with
  | [] => None
  | s :: sigs => if sig_match (Mask s) (Pattern s) prologue then Some i
                 else first_match sigs (i + 1) prologue
  end.

(** ** The drivers scanned and the routines looked at *)
Definition kTargets : list (list Z * list Z) := [
  (bytes_of "\Driver\Kbclass", [IRP_MJ_READ; IRP_MJ_DEVICE_CONTROL]);
  (bytes_of "\Driver\Kbdhid", [IRP_MJ_READ; IRP_MJ_INTERNAL_DEVICE_CONTROL]);
  (bytes_of "\Driver\i8042prt", [IRP_MJ_READ; IRP_MJ_INTERNAL_DEVICE_CONTROL])
].

Section router.
Context `{WinEnv, WinKernel}.

(** ** Fail-safe *)
Definition EnterFailSafeMode (irql : Z) (c : core) : core :=
  if FailSafeMode (g_SharedState c) then c else
  let c := set_shared (set_failsafe true (g_SharedState c)) c in
  let c := foldl (λ c i, set_strategy i MitigateFullSpectrum c) c
                 (seqZ 0 KeQueryMaximumProcessorCountEx) in
  let c := if irql =? PASSIVE_LEVEL then (SecureCommNotify ALERT_FAIL_SAFE_ENTERED 2 0 0 c).2 else c in
  SecureCommMsrSignal ALERT_FAIL_SAFE_ENTERED c.

(** The debug output is left out; the MSR signal stays. *)
Definition LogAlert (type : Z) (c : core) : core := SecureCommMsrSignal type c.

(** Publish at PASSIVE_LEVEL, signal above it. *)
Definition deliver (irql type level p1 p2 : Z) (c : core) : core :=
  if irql =? PASSIVE_LEVEL then (SecureCommNotify type level p1 p2 c).2
  else SecureCommMsrSignal type c.

(** ** The router, over what ALERT_PCI_DISCREPANCY runs at PASSIVE_LEVEL *)
Definition DispatchWith (scan : core → core) (irql type level p1 p2 : Z) (c : core) : core :=
  let '(cpuIdx, c) := KeGetCurrentProcessorIndex c in
  let '(notified, c) :=
    if (type =? ALERT_PMU_L1D_ANOMALY) || (type =? ALERT_PMU_L2_ANOMALY) then
      (false, if 2 <=? level then
                ExecuteSecurityBoundaryFlush cpuIdx (set_strategy cpuIdx MitigateFullSpectrum c)
              else c)
    else if type =? ALERT_PMU_RDTSC_RATE then (false, EnableSpeculationControls cpuIdx c)
    else if type =? ALERT_UNAUTHORIZED_DMA then (false, ExecuteSecurityBoundaryFlush cpuIdx c)
    else if type =? ALERT_PCI_DISCREPANCY then
      (false, if irql =? PASSIVE_LEVEL then scan c else c)
    else if type =? ALERT_IDT_HOOK then
      (false, ExecuteSecurityBoundaryFlush cpuIdx (set_strategy cpuIdx MitigateFullSpectrum c))
    else if (type =? ALERT_TEXT_PATCH) || (type =? ALERT_DISPATCH_HOOK) then
      (false, EnterFailSafeMode irql (SecureCommNotify type 2 p1 p2 c).2)
    else if type =? ALERT_SHARED_STATE_CORRUPT then (false, EnterFailSafeMode irql c)
    else if type =? ALERT_VULN_DRIVER then
      if 2 <=? level then (true, EnterFailSafeMode irql (deliver irql type level p1 p2 c))
      else (false, c)
    else (false, c) in
  if notified : bool then c else deliver irql type level p1 p2 c.

(** ** Inline hooks in the dispatch routines *)
Definition report_hook (addr arg : Z) (c : core) : core :=
  let c := LogAlert ALERT_DISPATCH_HOOK c in
  let c := DispatchWith (λ c, c) PASSIVE_LEVEL ALERT_DISPATCH_HOOK 2 addr arg c in
  InterlockedExchange DispatchHookDetected 1 c.

Definition CheckDispatchHook (DrvObj : DRIVER_OBJECT) (Major : Z) (c : core) : Z * core :=
  let dispAddr := MajorFunction DrvObj Major in
  if dispAddr =? 0 then (STATUS_SUCCESS, c) else
  let drvStart := DriverStart DrvObj in
  let drvEnd := u64 (drvStart + DriverSize DrvObj) in
  if (dispAddr <? drvStart) || (drvEnd <=? dispAddr) then
    (STATUS_DEVICE_DATA_ERROR, report_hook dispAddr drvStart c)
  else
    let r := kread_at (clock c) dispAddr 8 in
    let c := tick c in
    match r with
    | None => (STATUS_ACCESS_VIOLATION, c)
    | Some prologue =>
      match first_match g_HookSigs 0 prologue with
      | Some i => (STATUS_DEVICE_DATA_ERROR, report_hook dispAddr i c)
      | None => (STATUS_SUCCESS, c)
      end
    end.

Fixpoint check_majors (o : DRIVER_OBJECT) (majors : list Z) (c : core) : core :=
  match majors with
  | [] => c
  | m :: majors => check_majors o majors (CheckDispatchHook o m c).2
  end.

Fixpoint scan_targets (targets : list (list Z * list Z)) (c : core) : core :=
  match targets with
  | [] => c
  | (name, majors) :: targets =>
    let o := driver_named_at (clock c) name in
    let c := tick c in
    match o with
    | None => scan_targets targets c
    | Some o => scan_targets targets (check_majors o majors c)
    end
  end.

Definition ScanKeyboardDrivers (c : core) : core := scan_targets kTargets c.

Definition DispatchCrossModuleEvent : Z → Z → Z → Z → Z → core → core :=
  DispatchWith ScanKeyboardDrivers.

(** What the scan calls is the router. *)
Lemma DispatchWith_no_scan scan scan' irql type level p1 p2 c :
  type ≠ ALERT_PCI_DISCREPANCY →
  DispatchWith scan irql type level p1 p2 c = DispatchWith scan' irql type level p1 p2 c.
Proof.
  intros Ht. unfold DispatchWith. simpl.
  by rewrite (proj2 (Z.eqb_neq type ALERT_PCI_DISCREPANCY) Ht).
Qed.

Lemma scan_calls_router level p1 p2 c :
  DispatchWith (λ c, c) PASSIVE_LEVEL ALERT_DISPATCH_HOOK level p1 p2 c
  = DispatchCrossModuleEvent PASSIVE_LEVEL ALERT_DISPATCH_HOOK level p1 p2 c.
Proof. by apply DispatchWith_no_scan. Qed.
End router.

(** ** Effects: what an operation publishes, and what it keeps

    [effect c c' es]: the channel's log grows by authentic notifications with the
    contents [es]; the policy, its seal and the key stay; no CPU leaves the
    full-spectrum strategy, and fail-safe mode stays as it is or is entered with every
    CPU at full spectrum. *)
Definition content (n : SECURE_NOTIFICATION) : Z * Z * Z * Z :=
  (AlertType n, AlertLevel n, Param1 n, Param2 n).

Definition chan (c : core) (log : list SECURE_NOTIFICATION) (lag : Z) : Prop :=
  ∃ r, g_SharedMemKernel c = Some r ∧ ring_log r log lag.

Section effects.
Context `{WinEnv, WinKernel}.

Definition authentic (key : list Z) (n : SECURE_NOTIFICATION) : Prop :=
  Hmac n = bcrypt_hmac key (notification_bytes n).

Definition all_full (c : core) : Prop :=
  ∀ i, 0 ≤ i < KeQueryMaximumProcessorCountEx → Strategy (g_CpuMit c i) = MitigateFullSpectrum.

Record effect (c c' : core) (es : list (Z * Z * Z * Z)) : Prop := Effect {
  ef_log : ∀ log lag, chan c log lag → ∃ ns, chan c' (log ++ ns) lag
           ∧ content <$> ns = es ∧ Forall (authentic (g_HmacKey c)) ns;
  ef_closed : g_SharedMemKernel c = None → g_SharedMemKernel c' = None;
  ef_key : g_HmacKey c' = g_HmacKey c;
  ef_policy : policy (g_SharedState c') = policy (g_SharedState c);
  ef_hash : StateHash (g_SharedState c') = StateHash (g_SharedState c);
  ef_full : ∀ i, Strategy (g_CpuMit c i) = MitigateFullSpectrum →
            Strategy (g_CpuMit c' i) = MitigateFullSpectrum;
  ef_failsafe : FailSafeMode (g_SharedState c') = FailSafeMode (g_SharedState c)
                ∨ (FailSafeMode (g_SharedState c') = true ∧ all_full c')
}.

Lemma effect_trans c1 c2 c3 es fs : effect c1 c2 es → effect c2 c3 fs → effect c1 c3 (es ++ fs).
Proof.
  intros [L1 C1 K1 P1 H1 F1 S1] [L2 C2 K2 P2 H2 F2 S2].
  split; [|by auto|congruence|congruence|congruence|by auto|].
  2:{ destruct S2 as [->|?]; [|by right]. destruct S1 as [->|[? Ha]]; [by left|right].
      split; [done|]. intros i Hi. by apply F2, Ha. }
  intros log lag (ns1 & Hc1 & He1 & Ha1)%L1. apply L2 in Hc1 as (ns2 & Hc2 & He2 & Ha2).
  exists (ns1 ++ ns2). rewrite app_assoc, fmap_app, Forall_app, He1, He2. rewrite K1 in Ha2. done.
Qed.

(** An operation that leaves the channel, the policy and fail-safe mode alone. *)
Lemma effect_quiet c c' :
  g_SharedMemKernel c' = g_SharedMemKernel c → g_HmacKey c' = g_HmacKey c →
  policy (g_SharedState c') = policy (g_SharedState c) →
  StateHash (g_SharedState c') = StateHash (g_SharedState c) →
  FailSafeMode (g_SharedState c') = FailSafeMode (g_SharedState c) →
  (∀ i, Strategy (g_CpuMit c i) = MitigateFullSpectrum →
        Strategy (g_CpuMit c' i) = MitigateFullSpectrum) →
  effect c c' [].
Proof.
  intros Hr Hk Hp Hh Hf Hs. split; auto; try congruence.
  intros log lag (r & Hr' & Hl). exists []. rewrite app_nil_r. split_and!; [|done|done].
  exists r. by rewrite Hr.
Qed.

Lemma effect_refl c : effect c c [].
Proof. by apply effect_quiet. Qed.

Lemma effect_tick c : effect c (tick c) [].
Proof. by apply effect_quiet. Qed.

Lemma effect_stat f v c : effect c (InterlockedExchange f v c) [].
Proof. by apply effect_quiet. Qed.
Lemma effect_increment f n c : effect c (InterlockedAdd f n c) [].
Proof. by apply effect_quiet. Qed.

Lemma effect_flush i c : effect c (ExecuteSecurityBoundaryFlush i c) [].
Proof.
  apply effect_quiet; unfold ExecuteSecurityBoundaryFlush, flush_l1d;
    destruct (Strategy (g_CpuMit c i)), (has (Features (g_CpuMit c i)) CPU_FEAT_L1D_FLUSH); done.
Qed.

Lemma effect_speculation i c : effect c (EnableSpeculationControls i c) [].
Proof. apply effect_quiet; unfold EnableSpeculationControls; by destruct (negb _). Qed.

Lemma effect_signal t c : effect c (SecureCommMsrSignal t c) [].
Proof. apply effect_quiet; unfold SecureCommMsrSignal; by destruct (wrmsr_faults_at _ MSR_COVERT_SIGNAL). Qed.

Lemma strategy_set i s c j :
  Strategy (g_CpuMit (set_strategy i s c) j) = if decide (i = j) then s else Strategy (g_CpuMit c j).
Proof.
  unfold set_strategy. simpl. destruct (decide (i = j)) as [->|Hne];
    [by rewrite fn_lookup_insert|by rewrite fn_lookup_insert_ne].
Qed.

Lemma effect_set_full i c : effect c (set_strategy i MitigateFullSpectrum c) [].
Proof. apply effect_quiet; try done. intros j Hj. rewrite strategy_set. by case_decide. Qed.

Lemma effect_notify `{!BCryptWorks} t l p1 p2 c :
  effect c (SecureCommNotify t l p1 p2 c).2 [(t, l, p1, p2)].
Proof.
  destruct (SecureCommNotify_frame t l p1 p2 c) as [(Hp & Hh & Hf & Hm & Hk & _) _].
  split; [| |done..| |]; [| |by rewrite Hm|by left].
  2:{ unfold SecureCommNotify. intros Hn. by rewrite Hn. }
  intros log lag (r & Hr & Hl). unfold SecureCommNotify. rewrite Hr.
  match goal with |- context [notify_hmac ?n ?c] =>
    destruct (notify_hmac_cases n c) as (u & Ht & _); pose proof (notify_hmac_works n c) as Hw;
    destruct (notify_hmac n c) as [x c'] end. simpl in Ht, Hw. subst.
  set (h := bcrypt_hmac _ _). exists [notify_entry log t l p1 p2 h c]. split_and!; [|done|].
  - eexists. split; [done|].
    pose proof (ring_log_store r log lag (notify_entry log t l p1 p2 h c) 1 Hl eq_refl eq_refl) as Hs.
    rewrite Z.add_simpl_r in Hs. unfold put_slot, set_write_index, set_nonce. simpl.
    rewrite list_insert_insert_eq. unfold notify_entry, with_hmac in *. simpl in *.
    rewrite (rl_nonce _ _ _ Hl) in *. exact Hs.
  - apply Forall_singleton. unfold authentic, h, notify_entry, notification_bytes. simpl.
    by rewrite (rl_nonce _ _ _ Hl).
Qed.

Lemma all_full_fold cpus c i :
  i ∈ cpus ∨ Strategy (g_CpuMit c i) = MitigateFullSpectrum →
  Strategy (g_CpuMit (foldl (λ c i, set_strategy i MitigateFullSpectrum c) c cpus) i)
  = MitigateFullSpectrum.
Proof.
  revert c. induction cpus as [|j cpus IH]; intros c Hi; simpl; [destruct Hi as [Hi|]; [by inversion Hi|done]|].
  apply IH. rewrite strategy_set. destruct (decide (j = i)) as [->|Hne]; [by right|].
  destruct Hi as [[->|]%elem_of_cons|]; [done|by left|by right].
Qed.

Lemma fold_full_frame cpus c :
  let c' := foldl (λ c i, set_strategy i MitigateFullSpectrum c) c cpus in
  g_SharedMemKernel c' = g_SharedMemKernel c ∧ g_HmacKey c' = g_HmacKey c
  ∧ g_SharedState c' = g_SharedState c.
Proof. revert c. induction cpus as [|i cpus IH]; intros c; [done|].
  exact (IH (set_strategy i MitigateFullSpectrum c)). Qed.

(** Fail-safe mode up to its announcement. *)
Lemma effect_enter c :
  effect c (foldl (λ c i, set_strategy i MitigateFullSpectrum c)
              (set_shared (set_failsafe true (g_SharedState c)) c)
              (seqZ 0 KeQueryMaximumProcessorCountEx)) [].
Proof.
  set (c0 := set_shared _ c).
  destruct (fold_full_frame (seqZ 0 KeQueryMaximumProcessorCountEx) c0) as (Hr & Hk & Hs).
  split; rewrite ?Hk, ?Hr, ?Hs; try done.
  - intros log lag (r & Hc & Hl). exists []. rewrite app_nil_r. split; [|done].
    exists r. by rewrite Hr.
  - intros i Hi. apply all_full_fold. by right.
  - right. split; [done|]. intros i Hi. apply all_full_fold. left. apply elem_of_seqZ. lia.
Qed.

(** ** What fail-safe mode publishes *)
Definition failsafe_entries (fs : bool) : list (Z * Z * Z * Z) :=
  if fs then [] else [(ALERT_FAIL_SAFE_ENTERED, 2, 0, 0)].

Lemma effect_failsafe `{!BCryptWorks} c :
  effect c (EnterFailSafeMode PASSIVE_LEVEL c) (failsafe_entries (FailSafeMode (g_SharedState c))).
Proof.
  unfold EnterFailSafeMode. destruct (FailSafeMode (g_SharedState c)); [apply effect_refl|]. simpl.
  apply (effect_trans _ _ _ [] _ (effect_enter c)).
  eapply (effect_trans _ _ _ [_] [] (effect_notify _ _ _ _ _)), effect_signal.
Qed.
End effects.

(** ** The router's table *)
Definition is_tamper (type : Z) : bool := (type =? ALERT_TEXT_PATCH) || (type =? ALERT_DISPATCH_HOOK).

(** Whether an alert drives the driver into fail-safe mode. *)
Definition enters_failsafe (type level : Z) : bool :=
  is_tamper type || (type =? ALERT_SHARED_STATE_CORRUPT)
  || ((type =? ALERT_VULN_DRIVER) && (2 <=? level)).

(** What an alert publishes at PASSIVE_LEVEL; [es] is what its scan published. *)
Definition routed_entries (type level p1 p2 : Z) (fs : bool) (es : list (Z * Z * Z * Z)) :
    list (Z * Z * Z * Z) :=
  let e := (type, level, p1, p2) in
  if is_tamper type then (type, 2, p1, p2) :: failsafe_entries fs ++ [e]
  else if type =? ALERT_SHARED_STATE_CORRUPT then failsafe_entries fs ++ [e]
  else if (type =? ALERT_VULN_DRIVER) && (2 <=? level) then e :: failsafe_entries fs
  else if type =? ALERT_PCI_DISCREPANCY then es ++ [e]
  else [e].

Section table.
Context `{WinEnv, WinKernel}.

(** Case analysis on the alert code, as the switch does it. *)
Ltac alert_cases t :=
  destruct (Z.eqb_spec t ALERT_PMU_L1D_ANOMALY) as [->|]; [|
  destruct (Z.eqb_spec t ALERT_PMU_L2_ANOMALY) as [->|]; [|
  destruct (Z.eqb_spec t ALERT_PMU_RDTSC_RATE) as [->|]; [|
  destruct (Z.eqb_spec t ALERT_UNAUTHORIZED_DMA) as [->|]; [|
  destruct (Z.eqb_spec t ALERT_PCI_DISCREPANCY) as [->|]; [|
  destruct (Z.eqb_spec t ALERT_IDT_HOOK) as [->|]; [|
  destruct (Z.eqb_spec t ALERT_TEXT_PATCH) as [->|]; [|
  destruct (Z.eqb_spec t ALERT_DISPATCH_HOOK) as [->|]; [|
  destruct (Z.eqb_spec t ALERT_SHARED_STATE_CORRUPT) as [->|]; [|
  destruct (Z.eqb_spec t ALERT_VULN_DRIVER) as [->|]]]]]]]]]].

Lemma notify_failsafe t l p1 p2 c :
  FailSafeMode (g_SharedState (SecureCommNotify t l p1 p2 c).2) = FailSafeMode (g_SharedState c).
Proof. by destruct (SecureCommNotify_frame t l p1 p2 c) as [(_&_&?&_) _]. Qed.

Lemma effect_deliver `{!BCryptWorks} t l p1 p2 c :
  effect c (deliver PASSIVE_LEVEL t l p1 p2 c) [(t, l, p1, p2)].
Proof. apply effect_notify. Qed.

Lemma effect_deliver_after `{!BCryptWorks} c c' es t l p1 p2 :
  effect c c' es → effect c (deliver PASSIVE_LEVEL t l p1 p2 c') (es ++ [(t, l, p1, p2)]).
Proof. intros He. apply (effect_trans _ _ _ _ _ He), effect_deliver. Qed.

Lemma effect_dispatch_with `{!BCryptWorks} scan es t l p1 p2 c :
  (t = ALERT_PCI_DISCREPANCY → effect (tick c) (scan (tick c)) es) →
  effect c (DispatchWith scan PASSIVE_LEVEL t l p1 p2 c)
         (routed_entries t l p1 p2 (FailSafeMode (g_SharedState c)) es).
Proof.
  intros Hscan. apply (effect_trans _ (tick c) _ [] _ (effect_tick c)).
  unfold DispatchWith, KeGetCurrentProcessorIndex. set (cpu := cpu_at (clock c)).
  change (FailSafeMode (g_SharedState c)) with (FailSafeMode (g_SharedState (tick c))).
  revert Hscan. generalize (tick c). clearbody cpu. clear c. intros c Hscan.
  assert (Hfull : effect c (ExecuteSecurityBoundaryFlush cpu (set_strategy cpu MitigateFullSpectrum c)) [])
    by exact (effect_trans _ _ _ [] [] (effect_set_full cpu c) (effect_flush cpu _)).
  alert_cases t; simpl; unfold routed_entries; simpl.
  - destruct (2 <=? l); apply (effect_deliver_after _ _ []); auto using effect_refl.
  - destruct (2 <=? l); apply (effect_deliver_after _ _ []); auto using effect_refl.
  - apply (effect_deliver_after _ _ []), effect_speculation.
  - apply (effect_deliver_after _ _ []), effect_flush.
  - apply effect_deliver_after. by apply Hscan.
  - by apply (effect_deliver_after _ _ []).
  - apply (effect_deliver_after _ _ (_ :: _)). apply (effect_trans _ _ _ [_] _ (effect_notify _ _ _ _ _)).
    erewrite <- notify_failsafe. apply effect_failsafe.
  - apply (effect_deliver_after _ _ (_ :: _)). apply (effect_trans _ _ _ [_] _ (effect_notify _ _ _ _ _)).
    erewrite <- notify_failsafe. apply effect_failsafe.
  - apply effect_deliver_after, effect_failsafe.
  - destruct (2 <=? l); [|apply (effect_deliver_after _ _ []), effect_refl].
    apply (effect_trans _ _ _ [_] _ (effect_deliver _ _ _ _ _)).
    erewrite <- notify_failsafe. apply effect_failsafe.
  - unfold is_tamper. repeat (rewrite (proj2 (Z.eqb_neq t _)) by done). simpl.
    apply (effect_deliver_after _ _ []), effect_refl.
Qed.

(** ** The scan publishes hook alerts and, the first time, fail-safe mode *)
Definition hook_entries (fs : bool) (addr arg : Z) : list (Z * Z * Z * Z) :=
  routed_entries ALERT_DISPATCH_HOOK 2 addr arg fs [].

Lemma effect_report_hook `{!BCryptWorks} addr arg c :
  effect c (report_hook addr arg c) (hook_entries (FailSafeMode (g_SharedState c)) addr arg).
Proof.
  unfold report_hook, LogAlert.
  assert (Hf : FailSafeMode (g_SharedState c)
               = FailSafeMode (g_SharedState (SecureCommMsrSignal ALERT_DISPATCH_HOOK c))).
  { unfold SecureCommMsrSignal. by destruct (wrmsr_faults_at _ MSR_COVERT_SIGNAL). }
  rewrite Hf. apply (effect_trans _ _ _ [] _ (effect_signal ALERT_DISPATCH_HOOK c)).
  set (c1 := SecureCommMsrSignal ALERT_DISPATCH_HOOK c) in *.
  pose proof (effect_dispatch_with (λ c, c) [] ALERT_DISPATCH_HOOK 2 addr arg c1 ltac:(done)) as Hd.
  pose proof (effect_trans _ _ _ _ [] Hd (effect_stat DispatchHookDetected 1 _)) as Hr.
  by rewrite app_nil_r in Hr.
Qed.

Definition hook_content (e : Z * Z * Z * Z) : Prop :=
  e.1.1.1 = ALERT_DISPATCH_HOOK ∨ e = (ALERT_FAIL_SAFE_ENTERED, 2, 0, 0).

Lemma hook_entries_content fs addr arg : Forall hook_content (hook_entries fs addr arg).
Proof.
  unfold hook_entries, hook_content, routed_entries. destruct fs; simpl; rewrite ?Forall_cons, ?Forall_nil;
    simpl; auto 10.
Qed.

Lemma effect_check_hook `{!BCryptWorks} o m c :
  ∃ es, effect c (CheckDispatchHook o m c).2 es ∧ Forall hook_content es.
Proof.
  unfold CheckDispatchHook. destruct (_ =? 0); [eauto using effect_refl|].
  destruct (_ || _); [eauto using effect_report_hook, hook_entries_content|].
  destruct (kread_at _ _ _) as [pro|]; [|eauto using effect_tick].
  destruct (first_match g_HookSigs 0 pro) as [i|]; [|eauto using effect_tick]. simpl.
  eexists. split; [|apply hook_entries_content].
  apply (effect_trans _ _ _ [] _ (effect_tick c)), effect_report_hook.
Qed.

Lemma effect_check_majors `{!BCryptWorks} o majors c :
  ∃ es, effect c (check_majors o majors c) es ∧ Forall hook_content es.
Proof.
  revert c. induction majors as [|m majors IH]; intros c; simpl; [eauto using effect_refl|].
  destruct (effect_check_hook o m c) as (es1 & E1 & F1).
  destruct (IH (CheckDispatchHook o m c).2) as (es2 & E2 & F2).
  exists (es1 ++ es2). rewrite Forall_app. split; [by eapply effect_trans|done].
Qed.

Lemma effect_scan `{!BCryptWorks} targets c :
  ∃ es, effect c (scan_targets targets c) es ∧ Forall hook_content es.
Proof.
  revert c. induction targets as [|[name majors] targets IH]; intros c; simpl; [eauto using effect_refl|].
  destruct (driver_named_at (clock c) name) as [o|].
  - destruct (effect_check_majors o majors (tick c)) as (es1 & E1 & F1).
    destruct (IH (check_majors o majors (tick c))) as (es2 & E2 & F2).
    exists (es1 ++ es2). rewrite Forall_app. split; [|done].
    apply (effect_trans _ _ _ [] _ (effect_tick c)). by eapply effect_trans.
  - destruct (IH (tick c)) as (es & He & Hf). exists es. split; [|done].
    apply (effect_trans _ _ _ [] _ (effect_tick c)), He.
Qed.

Lemma effect_dispatch `{!BCryptWorks} t l p1 p2 c :
  ∃ es, effect c (DispatchCrossModuleEvent PASSIVE_LEVEL t l p1 p2 c)
          (routed_entries t l p1 p2 (FailSafeMode (g_SharedState c)) es)
  ∧ Forall hook_content es.
Proof.
  destruct (effect_scan kTargets (tick c)) as (es & He & Hf).
  exists es. split; [|done]. apply effect_dispatch_with. by intros _.
Qed.

Lemma signal_failsafe t c :
  FailSafeMode (g_SharedState (SecureCommMsrSignal t c)) = FailSafeMode (g_SharedState c).
Proof. unfold SecureCommMsrSignal. by destruct (wrmsr_faults_at _ MSR_COVERT_SIGNAL). Qed.

Lemma deliver_failsafe irql t l p1 p2 c :
  FailSafeMode (g_SharedState (deliver irql t l p1 p2 c)) = FailSafeMode (g_SharedState c).
Proof. unfold deliver. destruct (_ =? _); [apply notify_failsafe|apply signal_failsafe]. Qed.

Lemma EnterFailSafeMode_on irql c : FailSafeMode (g_SharedState (EnterFailSafeMode irql c)) = true.
Proof.
  unfold EnterFailSafeMode. destruct (FailSafeMode (g_SharedState c)) eqn:E; [done|].
  rewrite signal_failsafe. set (c0 := set_shared _ c).
  destruct (fold_full_frame (seqZ 0 KeQueryMaximumProcessorCountEx) c0) as (_ & _ & Hs).
  destruct (irql =? PASSIVE_LEVEL); rewrite ?notify_failsafe; by rewrite Hs.
Qed.

Lemma flush_failsafe i c :
  FailSafeMode (g_SharedState (ExecuteSecurityBoundaryFlush i c)) = FailSafeMode (g_SharedState c).
Proof.
  unfold ExecuteSecurityBoundaryFlush, flush_l1d.
  destruct (Strategy _), (has (Features (g_CpuMit c i)) CPU_FEAT_L1D_FLUSH); done.
Qed.

(** Fail-safe mode after the router, at any IRQL and over any scan. *)
Lemma dispatch_failsafe scan irql t l p1 p2 c :
  (enters_failsafe t l = true → FailSafeMode (g_SharedState (DispatchWith scan irql t l p1 p2 c)) = true)
  ∧ (enters_failsafe t l = false → t ≠ ALERT_PCI_DISCREPANCY →
     FailSafeMode (g_SharedState (DispatchWith scan irql t l p1 p2 c)) = FailSafeMode (g_SharedState c)).
Proof.
  unfold DispatchWith, KeGetCurrentProcessorIndex, enters_failsafe, is_tamper.
  alert_cases t; simpl; (split; [intros He|intros He Hn]); try discriminate He; try done;
    rewrite ?deliver_failsafe, ?EnterFailSafeMode_on; try done.
  - destruct (2 <=? l); [|done]. by rewrite flush_failsafe.
  - destruct (2 <=? l); [|done]. by rewrite flush_failsafe.
  - unfold EnableSpeculationControls. by destruct (negb _).
  - by rewrite flush_failsafe.
  - by rewrite flush_failsafe.
  - rewrite He. apply EnterFailSafeMode_on.
  - rewrite He. by rewrite deliver_failsafe.
Qed.


(** In fail-safe mode every CPU is at the full-spectrum strategy, and no alert changes that:
    the router keeps this for every alert, at every level, with or without a channel. *)
Theorem failsafe_keeps_full `{!BCryptWorks} (t l p1 p2 : Z) (c : core) :
  (FailSafeMode (g_SharedState c) = true → all_full c) →
  let c' := DispatchCrossModuleEvent PASSIVE_LEVEL t l p1 p2 c in
  FailSafeMode (g_SharedState c') = true → all_full c'.
Proof.
  intros Hinv c' Hf. destruct (effect_dispatch t l p1 p2 c) as (es & [_ _ _ _ _ Full F] & _).
  fold c' in Full, F. destruct F as [F|[_ F]]; [|done].
  rewrite F in Hf. intros i Hi. by apply Full, Hinv.
Qed.
End table.

(** ** What the hook scan recognises *)
Definition hook_prologue (b : list Z) : Prop :=
  ∃ b0 b1 b2 b3 b4 b5 r, b = b0 :: b1 :: b2 :: b3 :: b4 :: b5 :: r
  ∧ (b0 = 0xE9 ∨ b0 = 0xE8 ∨ (b0 = 0x68 ∧ b5 = 0xC3) ∨ (b0 = 0xFF ∧ b1 = 0x25)
     ∨ (b0 = 0x48 ∧ b1 = 0xB8) ∨ (b0 = 0xCC ∧ b1 = 0xCC)).

Lemma first_match_correct b :
  length b = 8%nat → (is_Some (first_match g_HookSigs 0 b) ↔ hook_prologue b).
Proof.
  intros Hl. destruct b as [|b0 [|b1 [|b2 [|b3 [|b4 [|b5 [|b6 [|b7 [|]]]]]]]]]; try done.
  assert (Hp : hook_prologue [b0; b1; b2; b3; b4; b5; b6; b7]
    ↔ (b0 = 0xE9 ∨ b0 = 0xE8 ∨ (b0 = 0x68 ∧ b5 = 0xC3) ∨ (b0 = 0xFF ∧ b1 = 0x25)
       ∨ (b0 = 0x48 ∧ b1 = 0xB8) ∨ (b0 = 0xCC ∧ b1 = 0xCC))).
  { split; [by intros (?&?&?&?&?&?&?&[=]&?); subst|intros ?]. by do 8 eexists. }
  rewrite Hp. clear Hp. unfold first_match, g_HookSigs, sig_match, Mask, Pattern. simpl.
  repeat (match goal with |- context [?x =? ?y] => destruct (Z.eqb_spec x y) end; simpl);
    (split; [intros [? ?]|intros ?]); try done; try (by eexists); intuition (subst; lia || auto).
Qed.

Section scan.
Context `{WinEnv, WinKernel}.

(** Dispatch-routine scan, every branch: a routine that is set is reported as hooked, by the
    alert, the flag and fail-safe mode, exactly when it lies outside its driver's image or
    starts with one of the six hook prologues; an unset or clean one changes nothing but the
    clock, and memory that cannot be read is answered with ACCESS_VIOLATION. *)
Theorem dispatch_hook_detected (o : DRIVER_OBJECT) (m : Z) (c : core) :
  (∀ t a, from_option (λ b, length b = 8%nat) True (kread_at t a 8)) →
  let a := MajorFunction o m in
  let '(st, c') := CheckDispatchHook o m c in
  let outside := a < DriverStart o ∨ u64 (DriverStart o + DriverSize o) ≤ a in
  let code := kread_at (clock c) a 8 in
  (st = STATUS_DEVICE_DATA_ERROR ↔ a ≠ 0 ∧ (outside ∨ ∃ b, code = Some b ∧ hook_prologue b))
  ∧ (st = STATUS_ACCESS_VIOLATION ↔ a ≠ 0 ∧ ¬ outside ∧ code = None)
  ∧ (st = STATUS_DEVICE_DATA_ERROR →
     wstats (g_SharedState c') DispatchHookDetected = 1 ∧ FailSafeMode (g_SharedState c') = true)
  ∧ (st ≠ STATUS_DEVICE_DATA_ERROR → ∃ n, c' = at_time n c).
Proof.
  intros Hmem. unfold CheckDispatchHook. cbv zeta.
  assert (Hrep : ∀ x y c0, wstats (g_SharedState (report_hook x y c0)) DispatchHookDetected = 1
                 ∧ FailSafeMode (g_SharedState (report_hook x y c0)) = true).
  { intros x y c0. unfold report_hook. simpl. rewrite fn_lookup_insert. split; [done|].
    by apply dispatch_failsafe. }
  destruct (MajorFunction o m =? 0) eqn:E0; bool_props.
  { split_and!; try done; [naive_solver..|]. intros _. exists (clock c). by rewrite at_time_id. }
  destruct (_ || _) eqn:E1.
  { assert (MajorFunction o m < DriverStart o ∨ u64 (DriverStart o + DriverSize o) ≤ MajorFunction o m)
      by (destruct (orb_prop _ _ E1); bool_props; auto).
    split_and!; [naive_solver|by split; [|intros (_&?&_)]|by intros _|done]. }
  bool_props. specialize (Hmem (clock c) (MajorFunction o m)).
  destruct (kread_at (clock c) (MajorFunction o m) 8) as [b|] eqn:Eb; simpl in Hmem.
  2:{ split_and!; [by split; [|intros (_&[?|(?&?&_)]); [lia|]]|split; [intros _; split_and!; [done|lia|done]|done]|done|].
      intros _. by exists (S (clock c)). }
  pose proof (first_match_correct b Hmem) as Hm.
  destruct (first_match g_HookSigs 0 b) as [i|] eqn:Ef.
  - split_and!; [split; [intros _; split; [done|right; exists b; split; [done|apply Hm; by eexists]]|done]
                |by split; [|intros (_&_&?)]|by intros _|done].
  - split_and!; [|by split; [|intros (_&_&?)]|done|intros _; by exists (S (clock c))].
    split; [done|]. intros (_ & [?|(b' & [= <-] & Hp)]); [lia|]. apply Hm in Hp as [? ?]. done.
Qed.
End scan.

(** The keyboard class driver is never scanned: kTargets names \Driver\Kbclass, so the scan's
    result does not depend on what the object manager holds under \Driver\Kbdclass. *)
Theorem class_driver_not_scanned `{WinEnv} (k1 k2 : WinKernel) (c : core) :
  (∀ t a n, @kread_at k1 t a n = @kread_at k2 t a n) →
  (∀ t name, name ≠ bytes_of "\Driver\Kbdclass" → @driver_named_at k1 t name = @driver_named_at k2 t name) →
  @ScanKeyboardDrivers _ k1 c = @ScanKeyboardDrivers _ k2 c.
Proof.
  intros Hread Hname. unfold ScanKeyboardDrivers.
  assert (Hcheck : ∀ majors o c, @check_majors _ k1 o majors c = @check_majors _ k2 o majors c).
  { induction majors as [|m majors IH]; intros o c0; simpl; [done|].
    unfold CheckDispatchHook. by rewrite Hread, IH. }
  assert (Htargets : Forall (λ t, t.1 ≠ bytes_of "\Driver\Kbdclass") kTargets) by (by repeat constructor).
  revert c. induction Htargets as [|[name majors] targets Hne _ IH]; intros c; simpl; [done|].
  rewrite (Hname _ _ Hne). destruct (@driver_named_at k2 _ _); [|by apply IH].
  by rewrite Hcheck, IH.
Qed.
