(* ===== verification/WinIntegrity.v ===== *)
(** * The Windows driver's integrity monitor (windows/src/kernel_integrity.c)

    IDT gates of the keyboard vectors, the baseline of .text digests, its
    round-robin verification, the worker thread, start and stop.  The dispatch
    scan is in WinRouter.v, ComputeSha256 in WinState.v.

    Code under [__try] is in the exception monad [exc]; an exception outside one
    stops the machine, [None]. *)
From S2P Require Import Prelude Sha256 Uapi WinState WinComms WinMitigate WinRouter.
Local Open Scope Z_scope.

(** ** Memory accesses that may raise *)
Definition exc (A : Type) : Type := core → option A * core.
#[export] Instance exc_ret : MRet exc := λ A x c, (Some x, c).
#[export] Instance exc_bind : MBind exc := λ A B f m c,
  match m c with (Some x, c) => f x c | (None, c) => (None, c) end.

(** ** Data *)
Record IDT_ENTRY_64 := IdtEntry {
  OffsetLow : Z;
  Selector : Z;
  GateType : Z;
  Dpl : Z;
  Present : bool;
  OffsetMid : Z;
  OffsetHigh : Z
}.

Definition MAX_BASELINE_ENTRIES : Z := 128.
Record BASELINE_ENTRY := BaselineEntry {
  ModuleName : list Z;
  TextSectionBase : Z;
  TextSectionSize : Z;
  Sha256Hash : list Z;
  Verified : bool;
  HashComputed : bool
}.
#[export] Instance BASELINE_ENTRY_inhabited : Inhabited BASELINE_ENTRY :=
  populate (BaselineEntry [] 0 0 [] false false).

(** The module's globals; [g_Baseline] is the array up to its count, [verifyIdx]
    the worker's variable, [thread] whether the worker runs. *)
Record integ := Integ { g_Baseline : list BASELINE_ENTRY; verifyIdx : Z; thread : bool }.

(** The gates of the IDT the current CPU uses, and whether a thread can be made. *)
Class WinCpu := {
  idt_at : nat → Z → IDT_ENTRY_64;
  PsCreateSystemThread_at : nat → Z
}.

Section integrity.
Context `{WinEnv, WinKernel, WinCpu}.

(** ** The IDT *)
Definition kbdVectors : list Z := [0x21; 0x24; 0x31].
Definition handler_of (e : IDT_ENTRY_64) : Z :=
  Z.lor (Z.lor (Z.shiftl (OffsetHigh e) 32) (Z.shiftl (OffsetMid e) 16)) (OffsetLow e).

Definition IdtVerifyVector (ntBase ntEnd v : Z) (c : core) : core :=
  let e := idt_at (clock c) v in
  let c := tick c in
  if negb (Present e) then c else
  let handler := handler_of e in
  if negb (GateType e =? 0xE) && negb (GateType e =? 0xF) then
    let c := DispatchCrossModuleEvent PASSIVE_LEVEL ALERT_IDT_HOOK 2 v handler (LogAlert ALERT_IDT_HOOK c) in
    InterlockedExchange IdtHookDetected 1 c
  else
    let c := if negb (Dpl e =? 0) then
               DispatchCrossModuleEvent PASSIVE_LEVEL ALERT_IDT_HOOK 1 v handler (LogAlert ALERT_IDT_HOOK c)
             else c in
    let c := if negb (Selector e =? 0x10) && negb (Selector e =? 0x08) then LogAlert ALERT_IDT_HOOK c
             else c in
    if negb (ntBase =? 0) && ((handler <? ntBase) || (ntEnd <=? handler)) then
      let c := DispatchCrossModuleEvent PASSIVE_LEVEL ALERT_IDT_HOOK 2 handler ntBase (LogAlert ALERT_IDT_HOOK c) in
      InterlockedExchange IdtHookDetected 1 c
    else c.

Definition IdtVerifyKeyboardHandler (c : core) : core :=
  let '(ntBase, c) := GetNtoskrnlBase c in
  let '(ntSize, c) := GetNtoskrnlSize c in
  let ntEnd := u64 (ntBase + ntSize) in
  foldl (λ c v, IdtVerifyVector ntBase ntEnd v c) c kbdVectors.

(** ** The baseline *)
Definition rd (a n : Z) : exc (list Z) := λ c, (kread_at (clock c) a n, tick c).
Definition rd16 (a : Z) : exc Z := b ← rd a 2; mret (le_val b).
Definition rd32 (a : Z) : exc Z := b ← rd a 4; mret (le_val b).

Definition sha_exc (a n : Z) : exc (Z + list Z) := ComputeSha256 kread_at a n.

(** The bytes of FullPathName taken as 16-bit characters, up to a zero, 63 at most. *)
Fixpoint wide_view (bytes : list Z) : list Z :=
  match bytes with
  | lo :: hi :: bytes => if lo + 256 * hi =? 0 then [] else lo + 256 * hi :: wide_view bytes
  | _ => []
  end.
Definition copy_module_name (FullPathName : list Z) : list Z := take 63 (wide_view FullPathName).

(** The first section whose name starts with ".text": its address and size. *)
Fixpoint find_text (n : nat) (base sec : Z) : exc (option (Z * Z)) :=
  match n with
  | O => mret None
  | S n =>
    name ← rd sec 8;
    if decide (take 5 name = bytes_of ".text") then
      size ← rd32 (sec + 8);
      va ← rd32 (sec + 12);
      mret (Some (base + va, size))
    else find_text n base (sec + 40)
  end.

Definition locate_text (base : Z) : exc (option (Z * Z)) :=
  e_magic ← rd16 base;
  if negb (e_magic =? 0x5A4D) then mret None else
  e_lfanew ← rd32 (base + 0x3C);
  let nt := base + s32 e_lfanew in
  sig ← rd32 nt;
  if negb (sig =? 0x4550) then mret None else
  nsec ← rd16 (nt + 6);
  opt ← rd16 (nt + 20);
  find_text (Z.to_nat nsec) base (nt + 24 + opt).

(** The body of the loop for one module, inside its [__try]. *)
Definition baseline_module (mo : AUX_MODULE_EXTENDED_INFO) : exc (option BASELINE_ENTRY) :=
  t ← locate_text (ImageBase mo);
  match t with
  | None => mret None
  | Some (a, n) =>
    h ← sha_exc a n;
    mret (match h with
          | inr d => Some (BaselineEntry (copy_module_name (FullPathName mo)) a n d false true)
          | inl _ => None
          end)
  end.

Fixpoint baseline_modules (mods : list AUX_MODULE_EXTENDED_INFO) (l : list BASELINE_ENTRY) (c : core) :
    list BASELINE_ENTRY * core :=
  match mods with
  | [] => (l, c)
  | mo :: mods =>
    if MAX_BASELINE_ENTRIES <=? zlen l then (l, c)
    else if ImageBase mo =? 0 then baseline_modules mods l c
    else match baseline_module mo c with
         | (Some (Some e), c) => baseline_modules mods (l ++ [e]) c
         | (_, c) => baseline_modules mods l c
         end
  end.

Definition BuildIntegrityBaseline (s : integ) (c : core) : Z * integ * core :=
  let '(st, bytes) := aux_bytes (auxklib_at (clock c)) in
  let c := tick c in
  if negb (st =? STATUS_BUFFER_TOO_SMALL) || (bytes =? 0) then (st, s, c) else
  match pool_at (clock c) bytes with
  | None => (STATUS_INSUFFICIENT_RESOURCES, s, tick c)
  | Some _ =>
    let r := auxklib_at (S (clock c)) in
    let c := tick (tick c) in
    match r with
    | inl st => (st, s, c)
    | inr mods =>
      let '(l, c) := baseline_modules mods [] c in
      (STATUS_SUCCESS, Integ l (verifyIdx s) (thread s), c)
    end
  end.

(** ** Verification; [None] when the text can no longer be read *)
Definition set_verified (b : bool) (e : BASELINE_ENTRY) : BASELINE_ENTRY :=
  BaselineEntry (ModuleName e) (TextSectionBase e) (TextSectionSize e) (Sha256Hash e) b (HashComputed e).

Definition VerifyModuleIntegrity (e : BASELINE_ENTRY) (c : core) : option (Z * BASELINE_ENTRY * core) :=
  if negb (HashComputed e) then Some (STATUS_UNSUCCESSFUL, e, c) else
  match sha_exc (TextSectionBase e) (TextSectionSize e) c with
  | (None, _) => None
  | (Some (inl st), c) => Some (st, e, c)
  | (Some (inr currentHash), c) =>
    if negb (ConstantTimeMemEq currentHash (Sha256Hash e) 32) then
      let c := LogAlert ALERT_TEXT_PATCH c in
      let c := DispatchCrossModuleEvent PASSIVE_LEVEL ALERT_TEXT_PATCH 2 (TextSectionBase e)
                                        (TextSectionSize e) c in
      let c := InterlockedExchange TextPatchDetected 1 c in
      let c := InterlockedIncrement FailedModuleHashCount c in
      Some (STATUS_DATA_ERROR, set_verified false e, c)
    else Some (STATUS_SUCCESS, set_verified true e, c)
  end.

(** ** The worker: one round after a timeout of its wait *)
Definition verify_next (s : integ) (c : core) : option (integ * core) :=
  match g_Baseline s with
  | [] => Some (s, c)
  | l =>
    let k := Z.to_nat (verifyIdx s mod zlen l) in
    '(_, e, c) ← VerifyModuleIntegrity (l !!! k) c;
    Some (Integ (<[k := e]> l) (u32 (verifyIdx s + 1)) (thread s), c)
  end.

Definition check_shared_state (c : core) : core :=
  let '(ok, c) := VerifySharedStateIntegrity c in
  if negb ok then
    DispatchCrossModuleEvent PASSIVE_LEVEL ALERT_SHARED_STATE_CORRUPT 2 0 0
                             (LogAlert ALERT_SHARED_STATE_CORRUPT c)
  else c.

Definition IntegrityWorkerRound (s : integ) (c : core) : option (integ * core) :=
  let '(_, c) := KeGetCurrentProcessorIndex c in
  let c := IdtVerifyKeyboardHandler c in
  let c := ScanKeyboardDrivers c in
  '(s, c) ← verify_next s c;
  Some (s, check_shared_state c).

(** ** Start and stop *)
Definition KernelIntegrityInitialize (s : integ) (c : core) : Z * integ * core :=
  let '(st, s, c) := BuildIntegrityBaseline s c in
  if negb (NT_SUCCESS st) then (st, s, c) else
  let '(_, c) := KeGetCurrentProcessorIndex c in
  let c := IdtVerifyKeyboardHandler c in
  let c := ScanKeyboardDrivers c in
  let st := PsCreateSystemThread_at (clock c) in
  let c := tick c in
  if negb (NT_SUCCESS st) then (st, s, c) else
  (STATUS_SUCCESS, Integ (g_Baseline s) 0 true, c).

Definition KernelIntegrityUninitialize (s : integ) : integ :=
  Integ (g_Baseline s) (verifyIdx s) false.
End integrity.

(** ** What the IDT check publishes *)
Definition idt_findings (ntBase ntEnd v : Z) (e : IDT_ENTRY_64) : list (Z * Z * Z * Z) :=
  if negb (Present e) then []
  else if negb (GateType e =? 0xE) && negb (GateType e =? 0xF) then [(ALERT_IDT_HOOK, 2, v, handler_of e)]
  else (if negb (Dpl e =? 0) then [(ALERT_IDT_HOOK, 1, v, handler_of e)] else [])
       ++ (if negb (ntBase =? 0) && ((handler_of e <? ntBase) || (ntEnd <=? handler_of e))
           then [(ALERT_IDT_HOOK, 2, handler_of e, ntBase)] else []).

Section integrity_proofs.
Context `{WinEnv, WinKernel, WinCpu}.

Lemma effect_at_time n c : effect c (at_time n c) [].
Proof. by apply effect_quiet. Qed.

Lemma effect_nt_base c : effect c (GetNtoskrnlBase c).2 [].
Proof.
  unfold GetNtoskrnlBase, aux_modules. destruct (negb _); [apply effect_refl|].
  destruct (aux_bytes _) as [st bytes]. destruct (_ || _); [apply effect_tick|].
  destruct (pool_at _ _); [|by apply effect_quiet].
  destruct (auxklib_at _) as [|[|]]; by apply effect_quiet.
Qed.

Lemma effect_nt_size c : effect c (GetNtoskrnlSize c).2 [].
Proof.
  unfold GetNtoskrnlSize, aux_modules. destruct (negb _); [apply effect_refl|].
  destruct (aux_bytes _) as [st bytes]. destruct (_ =? 0); [apply effect_tick|].
  destruct (pool_at _ _); [|by apply effect_quiet].
  destruct (auxklib_at _) as [|[|]]; by apply effect_quiet.
Qed.

(** An alert of the IDT check, with its log line. *)
Lemma effect_idt_alert `{!BCryptWorks} l p1 p2 c :
  effect c (DispatchCrossModuleEvent PASSIVE_LEVEL ALERT_IDT_HOOK l p1 p2 (LogAlert ALERT_IDT_HOOK c))
         [(ALERT_IDT_HOOK, l, p1, p2)].
Proof.
  apply (effect_trans _ _ _ [] _ (effect_signal ALERT_IDT_HOOK c)).
  exact (effect_dispatch_with ScanKeyboardDrivers [] ALERT_IDT_HOOK l p1 p2 _ ltac:(done)).
Qed.

Lemma effect_app_nil c c' es : effect c c' es → effect c c' (es ++ []).
Proof. by rewrite app_nil_r. Qed.

Lemma effect_idt_vector `{!BCryptWorks} b n v c :
  effect c (IdtVerifyVector b n v c) (idt_findings b n v (idt_at (clock c) v)).
Proof.
  unfold IdtVerifyVector, idt_findings. set (e := idt_at (clock c) v).
  apply (effect_trans _ _ _ [] _ (effect_tick c)). generalize (tick c). intros c0.
  destruct (negb (Present e)); [apply effect_refl|].
  destruct (negb (GateType e =? 14) && negb (GateType e =? 15)).
  { exact (effect_trans _ _ _ [_] [] (effect_idt_alert _ _ _ _) (effect_stat _ _ _)). }
  eapply effect_trans with (c2 := if negb (Dpl e =? 0) then _ else c0).
  { destruct (negb (Dpl e =? 0)); [apply effect_idt_alert|apply effect_refl]. }
  match goal with |- effect ?x _ _ => generalize x; intros c1 end.
  apply (effect_trans _ (if negb (Selector e =? 16) && negb (Selector e =? 8)
                         then LogAlert ALERT_IDT_HOOK c1 else c1) _ [] _).
  { destruct (_ && _); [apply effect_signal|apply effect_refl]. }
  match goal with |- effect ?x _ _ => generalize x; intros c2 end.
  destruct (_ && _); [|apply effect_refl].
  exact (effect_trans _ _ _ [_] [] (effect_idt_alert _ _ _ _) (effect_stat _ _ _)).
Qed.

Lemma effect_idt_vectors `{!BCryptWorks} b n vs tbl c :
  (∀ t v, idt_at t v = tbl v) →
  effect c (foldl (λ c v, IdtVerifyVector b n v c) c vs) (vs ≫= λ v, idt_findings b n v (tbl v)).
Proof.
  intros Hs. revert c. induction vs as [|v vs IH]; intros c; simpl; [apply effect_refl|].
  rewrite <- (Hs (clock c) v). eapply effect_trans; [apply effect_idt_vector|apply IH].
Qed.

Lemma effect_idt `{!BCryptWorks} c : ∃ es, effect c (IdtVerifyKeyboardHandler c) es.
Proof.
  unfold IdtVerifyKeyboardHandler.
  pose proof (effect_nt_base c) as Hb. destruct (GetNtoskrnlBase c) as [b c1].
  pose proof (effect_nt_size c1) as Hs. destruct (GetNtoskrnlSize c1) as [n c2]. simpl in Hb, Hs.
  assert (Hv : ∀ vs c, ∃ es, effect c (foldl (λ c v, IdtVerifyVector b (u64 (b + n)) v c) c vs) es).
  { induction vs as [|v vs IH]; intros c0; simpl; [eauto using effect_refl|].
    destruct (IH (IdtVerifyVector b (u64 (b + n)) v c0)) as [es He].
    eexists. eapply effect_trans; [apply effect_idt_vector|done]. }
  destruct (Hv kbdVectors c2) as [es He]. exists es.
  exact (effect_trans _ _ _ [] _ Hb (effect_trans _ _ _ [] _ Hs He)).
Qed.

(** The IDT check reports exactly what it finds: for gates that do not change during the
    check, the channel's log grows by one entry per present keyboard vector with a wrong gate
    type, and otherwise by one per non-zero privilege level and one per handler outside
    ntoskrnl, in vector order and nothing else. *)
Theorem idt_gates_reported `{!BCryptWorks} (tbl : Z → IDT_ENTRY_64) (c : core) log lag :
  (∀ t v, idt_at t v = tbl v) → chan c log lag →
  let '(ntBase, c1) := GetNtoskrnlBase c in
  let ntEnd := u64 (ntBase + (GetNtoskrnlSize c1).1) in
  ∃ ns, chan (IdtVerifyKeyboardHandler c) (log ++ ns) lag
  ∧ content <$> ns = (kbdVectors ≫= λ v, idt_findings ntBase ntEnd v (tbl v))
  ∧ Forall (authentic (g_HmacKey c)) ns.
Proof.
  intros Htbl Hc. unfold IdtVerifyKeyboardHandler.
  pose proof (effect_nt_base c) as Hb. destruct (GetNtoskrnlBase c) as [b c1].
  pose proof (effect_nt_size c1) as Hs. destruct (GetNtoskrnlSize c1) as [n c2]. simpl in Hb, Hs.
  pose proof (effect_idt_vectors b (u64 (b + n)) kbdVectors tbl c2 Htbl) as Hv.
  exact (ef_log _ _ _ (effect_trans _ _ _ [] _ Hb (effect_trans _ _ _ [] _ Hs Hv)) log lag Hc).
Qed.

(** ** The digest of a module's text *)
Lemma sha_exc_clock a n c : ∃ t, (sha_exc a n c).2 = at_time t c.
Proof. apply ComputeSha256_clock. Qed.

(** The same text section, whatever was last seen of it. *)
Definition same_text (e e' : BASELINE_ENTRY) : Prop :=
  TextSectionBase e' = TextSectionBase e ∧ TextSectionSize e' = TextSectionSize e
  ∧ Sha256Hash e' = Sha256Hash e ∧ HashComputed e' = HashComputed e.

(** An entry of the baseline over memory [bytes]. *)
Definition entry_reads (e : BASELINE_ENTRY) (bytes : list Z) : Prop :=
  HashComputed e = true ∧ length (Sha256Hash e) = 32%nat
  ∧ zlen bytes = TextSectionSize e ∧ reads kread_at (TextSectionBase e) bytes.

Definition patched (e : BASELINE_ENTRY) (bytes : list Z) : Prop := bcrypt_sha256 bytes ≠ Sha256Hash e.

Lemma VerifyModuleIntegrity_spec `{!BCryptWorks} e bytes c :
  entry_reads e bytes →
  ∃ st e' c' es, VerifyModuleIntegrity e c = Some (st, e', c') ∧ same_text e e' ∧ effect c c' es
  ∧ (¬ patched e bytes → st = STATUS_SUCCESS ∧ Verified e' = true ∧ ∃ n, c' = at_time n c)
  ∧ (patched e bytes →
     st = STATUS_DATA_ERROR ∧ Verified e' = false
     ∧ es = routed_entries ALERT_TEXT_PATCH 2 (TextSectionBase e) (TextSectionSize e)
                           (FailSafeMode (g_SharedState c)) []
     ∧ FailSafeMode (g_SharedState c') = true
     ∧ wstats (g_SharedState c') TextPatchDetected = 1).
Proof.
  intros (Hc & Hlen & Hz & Hr). unfold VerifyModuleIntegrity, patched. rewrite Hc. simpl.
  pose proof (ComputeSha256_reads kread_at (TextSectionBase e) bytes c Hr) as Hsha.
  destruct (sha_exc_clock (TextSectionBase e) (TextSectionSize e) c) as [t Ht].
  unfold sha_exc in *. rewrite Hz in Hsha.
  destruct (ComputeSha256 _ _ _ c) as [r c1]. simpl in Hsha, Ht. subst.
  pose proof (ConstantTimeMemEq_correct (bcrypt_sha256 bytes) (Sha256Hash e) 32
                (proj1 (bcrypt_sha256_bytes bytes)) Hlen) as Heq.
  destruct (ConstantTimeMemEq _ _ _); simpl.
  - eexists _, _, _, []. split; [done|]. split; [done|]. split; [apply effect_at_time|].
    split; [eauto|]. intros Hp. by destruct Hp; apply Heq.
  - set (c1 := LogAlert ALERT_TEXT_PATCH (at_time t c)).
    pose proof (effect_trans _ _ _ [] [] (effect_at_time t c) (effect_signal ALERT_TEXT_PATCH _)) as E1.
    assert (Hfs : FailSafeMode (g_SharedState c) = FailSafeMode (g_SharedState c1))
      by (unfold c1, LogAlert; by rewrite signal_failsafe).
    pose proof (effect_dispatch_with ScanKeyboardDrivers [] ALERT_TEXT_PATCH 2 (TextSectionBase e)
                  (TextSectionSize e) c1 ltac:(done)) as E2. rewrite <- Hfs in E2.
    pose proof (effect_trans _ _ _ [] _ E1 E2) as E3.
    pose proof (effect_trans _ _ _ _ [] E3 (effect_stat TextPatchDetected 1 _)) as E4.
    pose proof (effect_trans _ _ _ _ [] E4 (effect_increment FailedModuleHashCount 1 _)) as E5.
    rewrite !app_nil_r in E5.
    eexists _, _, _, _. split; [done|]. split; [done|]. split; [exact E5|].
    split; [by intros []; intros [=]%Heq|]. intros _. split_and!; try done.
    simpl. by apply dispatch_failsafe.
Qed.

(** ** Rounds of the worker *)
Fixpoint worker_rounds (n : nat) (s : integ) (c : core) : option (integ * core) :=
  match n with
  | O => Some (s, c)
  | S n => '(s, c) ← IntegrityWorkerRound s c; worker_rounds n s c
  end.

Lemma effect_failsafe_kept c c' es :
  effect c c' es → FailSafeMode (g_SharedState c) = true → FailSafeMode (g_SharedState c') = true.
Proof. intros He Hf. destruct (ef_failsafe _ _ _ He) as [->|[? _]]; done. Qed.

Lemma VerifyShared_frame c :
  effect c (VerifySharedStateIntegrity c).2 []
  ∧ FailSafeMode (g_SharedState (VerifySharedStateIntegrity c).2) = FailSafeMode (g_SharedState c).
Proof.
  unfold VerifySharedStateIntegrity.
  destruct (ComputeSha256_clock (read_policy (policy (g_SharedState c))) 0 16 c) as [n Hn].
  destruct (ComputeSha256 _ _ _ _) as [r c']. simpl in Hn. subst.
  split; [by apply effect_quiet|done].
Qed.

Lemma effect_check_shared `{!BCryptWorks} c : ∃ es, effect c (check_shared_state c) es.
Proof.
  unfold check_shared_state. destruct (VerifyShared_frame c) as [Hv _].
  destruct (VerifySharedStateIntegrity c) as [ok c1]. simpl in Hv.
  destruct (negb ok); [|eauto]. eexists.
  pose proof (effect_dispatch_with ScanKeyboardDrivers [] ALERT_SHARED_STATE_CORRUPT 2 0 0
                (LogAlert ALERT_SHARED_STATE_CORRUPT c1) ltac:(done)) as Hd.
  exact (effect_trans _ _ _ [] _ Hv
           (effect_trans _ _ _ [] _ (effect_signal ALERT_SHARED_STATE_CORRUPT c1) Hd)).
Qed.

(** The memory of every module of the baseline is readable and stays as it is. *)
Definition baseline_reads (s : integ) (mem : nat → list Z) : Prop :=
  ∀ k e, g_Baseline s !! k = Some e → entry_reads e (mem k).

Definition same_baseline (s s' : integ) : Prop := Forall2 same_text (g_Baseline s) (g_Baseline s').

Lemma same_text_refl e : same_text e e.
Proof. done. Qed.
#[local] Hint Resolve same_text_refl : core.

Lemma same_baseline_reads s s' mem : same_baseline s s' → baseline_reads s mem → baseline_reads s' mem.
Proof.
  intros Hb Hr k e' Hk. destruct (Forall2_lookup_r _ _ _ _ _ Hb Hk) as (e & He & (H3 & H4 & H5 & H6)).
  unfold entry_reads. rewrite H3, H4, H5, H6. by apply Hr.
Qed.

(** One round verifies one entry, and leaves the rest of the baseline as it is. *)
Lemma verify_next_spec `{!BCryptWorks} s c mem :
  baseline_reads s mem → g_Baseline s ≠ [] →
  let k := Z.to_nat (verifyIdx s mod zlen (g_Baseline s)) in
  ∃ s' c' es e, verify_next s c = Some (s', c') ∧ same_baseline s s' ∧ effect c c' es
  ∧ verifyIdx s' = u32 (verifyIdx s + 1) ∧ g_Baseline s !! k = Some e
  ∧ (patched e (mem k) → FailSafeMode (g_SharedState c') = true).
Proof.
  intros Hr Hne k. unfold verify_next. destruct (g_Baseline s) as [|e0 l0] eqn:El; [done|]. fold k.
  set (l := e0 :: l0) in *.
  assert (Hk : (k < length l)%nat).
  { unfold k, zlen. pose proof (Z.mod_pos_bound (verifyIdx s) (Z.of_nat (length l)) ltac:(simpl; lia)). lia. }
  destruct (lookup_lt_is_Some_2 l k Hk) as [e He]. rewrite (list_lookup_total_correct _ _ _ He).
  destruct (VerifyModuleIntegrity_spec e (mem k) c) as (st & e' & c' & es & Hv & Hsame & Hef & _ & Hp).
  { apply Hr. by rewrite El. }
  rewrite Hv. bind_simpl. eexists _, c', es, e. split_and!; try done.
  - unfold same_baseline. rewrite El. simpl. apply Forall2_same_length_lookup_2; [by rewrite length_insert|].
    intros i x y Hx Hy. destruct (decide (i = k)) as [->|Hik].
    + rewrite list_lookup_insert_eq in Hy by done. congruence.
    + rewrite list_lookup_insert_ne in Hy by done. rewrite Hx in Hy. by simplify_eq.
  - intros Hpat. by apply Hp.
Qed.

Lemma worker_round_spec `{!BCryptWorks} s c mem :
  baseline_reads s mem → g_Baseline s ≠ [] →
  let k := Z.to_nat (verifyIdx s mod zlen (g_Baseline s)) in
  ∃ s' c' es e, IntegrityWorkerRound s c = Some (s', c') ∧ same_baseline s s' ∧ effect c c' es
  ∧ verifyIdx s' = u32 (verifyIdx s + 1) ∧ g_Baseline s !! k = Some e
  ∧ (patched e (mem k) → FailSafeMode (g_SharedState c') = true).
Proof.
  intros Hr Hne k. unfold IntegrityWorkerRound. simpl.
  destruct (effect_idt (tick c)) as [es1 E1]. set (c1 := IdtVerifyKeyboardHandler (tick c)) in *.
  destruct (effect_scan kTargets c1) as (es2 & E2 & _). fold (ScanKeyboardDrivers c1) in E2.
  set (c2 := ScanKeyboardDrivers c1) in *.
  destruct (verify_next_spec s c2 mem Hr Hne) as (s' & c3 & es3 & e & Hv & Hs & E3 & Hi & He & Hp).
  rewrite Hv. bind_simpl. destruct (effect_check_shared c3) as [es4 E4].
  eexists s', _, _, e. split_and!; try done.
  - exact (effect_trans _ _ _ [] _ (effect_tick c)
             (effect_trans _ _ _ _ _ E1 (effect_trans _ _ _ _ _ E2 (effect_trans _ _ _ _ _ E3 E4)))).
  - intros Hpat. by apply (effect_failsafe_kept _ _ _ E4), Hp.
Qed.

Lemma same_baseline_length s s' : same_baseline s s' → length (g_Baseline s') = length (g_Baseline s).
Proof. intros Hb. symmetry. by eapply Forall2_length. Qed.

Lemma worker_rounds_spec `{!BCryptWorks} n s c mem :
  baseline_reads s mem → g_Baseline s ≠ [] → 0 ≤ verifyIdx s →
  verifyIdx s + Z.of_nat n < 4294967296 →
  ∃ s' c' es, worker_rounds n s c = Some (s', c') ∧ same_baseline s s' ∧ effect c c' es
  ∧ ∀ i e, 0 ≤ i < Z.of_nat n →
    let k := Z.to_nat ((verifyIdx s + i) mod zlen (g_Baseline s)) in
    g_Baseline s !! k = Some e → patched e (mem k) → FailSafeMode (g_SharedState c') = true.
Proof.
  revert s c. induction n as [|n IH]; intros s c Hr Hne H0i Hi; cbn [worker_rounds].
  { exists s, c, []. split_and!; [done| |apply effect_refl|lia].
    apply Forall2_same_length_lookup_2; [done|]. intros i x y Hx Hy. by simplify_eq. }
  destruct (worker_round_spec s c mem Hr Hne) as (s1 & c1 & es1 & e1 & Hv & Hs & E1 & Hi1 & He1 & Hp1).
  rewrite Hv. bind_simpl.
  pose proof (same_baseline_length s s1 Hs) as Hl. rewrite u32_id in Hi1 by (unfold is_u32; lia).
  destruct (IH s1 c1) as (s2 & c2 & es2 & Hv2 & Hs2 & E2 & Hp2); [by eapply same_baseline_reads| |lia..|].
  { intros Hnil. rewrite Hnil in Hl. by destruct (g_Baseline s). }
  exists s2, c2, (es1 ++ es2). split_and!; [done| |by eapply effect_trans|].
  - apply Forall2_same_length_lookup_2; [by rewrite (same_baseline_length _ _ Hs2)|].
    intros i x y Hx Hy. destruct (Forall2_lookup_l _ _ _ _ _ Hs Hx) as (z & Hz & (?&?&?&?)).
    destruct (Forall2_lookup_l _ _ _ _ _ Hs2 Hz) as (y' & Hy' & (?&?&?&?)).
    rewrite Hy in Hy'. simplify_eq. split_and!; congruence.
  - intros i e Hin. set (k := Z.to_nat _). intros Hk Hpat. destruct (decide (i = 0)) as [->|Hne0].
    + apply (effect_failsafe_kept _ _ _ E2), Hp1. unfold k in *. rewrite Z.add_0_r in *.
      rewrite He1 in Hk. by simplify_eq.
    + destruct (Forall2_lookup_l _ _ _ _ _ Hs Hk) as (e' & He' & (?&?&Hh&?)).
      assert (Hk' : k = Z.to_nat ((verifyIdx s1 + (i - 1)) mod zlen (g_Baseline s1))).
      { unfold k, zlen. rewrite Hl, Hi1. do 2 f_equal. lia. }
      rewrite Hk' in He', Hpat. apply (Hp2 (i - 1) e'); [lia|done|].
      unfold patched in *. by rewrite Hh.
Qed.


(** ** The seal, checked by the worker *)
Lemma check_shared_corrupt c :
  (VerifySharedStateIntegrity c).1 = false →
  FailSafeMode (g_SharedState (check_shared_state c)) = true.
Proof.
  intros Hv. unfold check_shared_state. destruct (VerifySharedStateIntegrity c) as [ok c1].
  simpl in Hv. subst. simpl. by apply dispatch_failsafe.
Qed.

(** The worker runs before the seal is set: until DriverEntry calls UpdateSharedStateHash the
    stored digest is zero, so a round that falls in that time (with nothing tampered with)
    reports a corrupt state and enters fail-safe mode, unless the policy's own SHA-256 is zero. *)
Theorem unsealed_round_failsafe `{!BCryptWorks} (c : core) :
  StateHash (g_SharedState c) = replicate 32 0 →
  bcrypt_sha256 (policy_bytes (policy (g_SharedState c))) ≠ replicate 32 0 →
  FailSafeMode (g_SharedState (check_shared_state c)) = true.
Proof.
  intros Hz Hne. apply check_shared_corrupt. rewrite VerifySharedStateIntegrity_works, Hz.
  apply not_true_is_false. by intros Heq%ConstantTimeMemEq_correct; [|apply bcrypt_sha256_bytes|].
Qed.
End integrity_proofs.
