(* ===== verification/WinPmu.v ===== *)
(** * The Windows driver's PMU module (windows/src/pmu_detection.c)

    Counter configuration by IPI, the overflow interrupt, start and stop, and
    the RDTSC trap with its per-process profiles.  Register and APIC writes are
    recorded with the CPU they are made on. *)
From S2P Require Import Prelude Sha256 Uapi WinState WinComms WinMitigate WinRouter.
Local Open Scope Z_scope.

Definition MSR_IA32_PERFEVTSEL0 : Z := 0x186.
Definition MSR_IA32_PERFEVTSEL1 : Z := 0x187.
Definition MSR_IA32_PMC0 : Z := 0xC1.
Definition MSR_IA32_PMC1 : Z := 0xC2.
Definition MSR_IA32_PERF_GLOBAL_CTRL : Z := 0x38F.
Definition MSR_IA32_PERF_GLOBAL_STATUS : Z := 0x38E.
Definition MSR_IA32_PERF_GLOBAL_OVF : Z := 0x390.
Definition MSR_IA32_APIC_BASE : Z := 0x1B.
Definition PMU_EVT_L1D_MISS : Z := 0x08D1.
Definition PMU_EVT_L2_MISS : Z := 0x3F24.
Definition PERFEVT_USR : Z := 2 ^ 16.
Definition PERFEVT_OS : Z := 2 ^ 17.
Definition PERFEVT_PMI : Z := 2 ^ 20.
Definition PERFEVT_ENABLE : Z := 2 ^ 22.
Definition PMC_MAX_VALUE : Z := 2 ^ 48 - 1.
Definition L1D_MISS_THRESHOLD : Z := 50000.
Definition L2_MISS_THRESHOLD : Z := 20000.
Definition RDTSC_RATE_THRESHOLD : Z := 100000.
Definition PMU_ALERT_OVERFLOW_COUNT : Z := 3.
Definition APIC_EOI_OFFSET : Z := 0x0B0.
Definition APIC_LVT_PERF_OFFSET : Z := 0x340.
Definition PMI_IDT_VECTOR : Z := 0xE4.
Definition MAX_PROFILED_PROCS : nat := 256.

Record PMU_CONTEXT := PmuContext {
  L1DMissOverflows : Z;
  L2MissOverflows : Z;
  CtxAlertLevel : Z;
  CpuIndex : Z;
  PmiVector : Z;
  ApicVaBase : bool;               (* whether it is mapped *)
  PmiInterruptObject : bool
}.

Record RDTSC_PROFILE := RdtscProfile {
  ProcessId : Z;
  RdtscCount : Z;
  WindowStartTick : Z;
  IsFlagged : bool
}.
Definition zero_profile : RDTSC_PROFILE := RdtscProfile 0 0 0 false.

(** What a CPU executes: a register write or an access to its APIC. *)
Inductive pmu_op := PWrmsr (msr v : Z) | PApic (offset v : Z) | PVerw.
#[export] Instance pmu_op_eq_dec : EqDecision pmu_op.
Proof. solve_decision. Defined.

Record pmu := Pmu {
  g_PmuCtx : Z → PMU_CONTEXT;
  g_RdtscProfiles : list RDTSC_PROFILE;
  ptrace : list (Z * pmu_op)
}.
Definition set_ctx (i : Z) (x : PMU_CONTEXT) (p : pmu) : pmu :=
  Pmu (<[i := x]> (g_PmuCtx p)) (g_RdtscProfiles p) (ptrace p).
Definition set_profiles (l : list RDTSC_PROFILE) (p : pmu) : pmu := Pmu (g_PmuCtx p) l (ptrace p).
Definition on_cpu (cpu : Z) (os : list pmu_op) (p : pmu) : pmu :=
  Pmu (g_PmuCtx p) (g_RdtscProfiles p) (ptrace p ++ ((cpu,.) <$> os)).

(** IoConnectInterruptEx, and MmMapIoSpace of an APIC page. *)
Class WinApic := {
  connect_at : nat → Z → Z;
  map_apic_at : nat → Z → bool;
  tsc_at : nat → Z;
  cr4_at : nat → Z
}.

Section pmu.
Context `{WinEnv, WinKernel, WinApic}.

Definition event_select (event : Z) : Z :=
  Z.lor (Z.lor (Z.lor (Z.lor event PERFEVT_USR) PERFEVT_OS) PERFEVT_PMI) PERFEVT_ENABLE.

(** ** Configuration, on the CPU itself *)
Definition PmuConfigureOnCpu (i : Z) (p : pmu) (c : core) : pmu * core :=
  let ctx := g_PmuCtx p i in
  let p := on_cpu i [PWrmsr MSR_IA32_PERF_GLOBAL_CTRL 0; PWrmsr MSR_IA32_PERFEVTSEL0 0;
                     PWrmsr MSR_IA32_PERFEVTSEL1 0; PWrmsr MSR_IA32_PMC0 0; PWrmsr MSR_IA32_PMC1 0] p in
  let p := on_cpu i [PWrmsr MSR_IA32_PMC0 (PMC_MAX_VALUE - L1D_MISS_THRESHOLD);
                     PWrmsr MSR_IA32_PERFEVTSEL0 (event_select PMU_EVT_L1D_MISS)] p in
  let p := on_cpu i [PWrmsr MSR_IA32_PMC1 (PMC_MAX_VALUE - L2_MISS_THRESHOLD);
                     PWrmsr MSR_IA32_PERFEVTSEL1 (event_select PMU_EVT_L2_MISS)] p in
  let '(globalCtrl, c) := rdmsr MSR_IA32_PERF_GLOBAL_CTRL c in
  let p := on_cpu i [PWrmsr MSR_IA32_PERF_GLOBAL_CTRL (Z.lor globalCtrl (Z.lor (2 ^ 0) (2 ^ 1)))] p in
  let p := if ApicVaBase ctx then on_cpu i [PApic APIC_LVT_PERF_OFFSET (Z.land PMI_IDT_VECTOR 0xFF)] p
           else p in
  (set_ctx i (PmuContext 0 0 0 i (PmiVector ctx) (ApicVaBase ctx) (PmiInterruptObject ctx)) p, c).

(** [KeIpiGenericCall]: the callback on every CPU, each finding its own index. *)
Definition PmuIpiConfigureCpu (p : pmu) (c : core) : pmu * core :=
  foldl (λ pc i, PmuConfigureOnCpu i pc.1 pc.2) (p, c) (seqZ 0 KeQueryMaximumProcessorCountEx).

(** ** The overflow interrupt, on the CPU of context [i] *)
Definition pmi_pmc0 (i : Z) (p : pmu) (c : core) : pmu * core :=
  let ctx := g_PmuCtx p i in
  let newVal := s32 (L1DMissOverflows ctx + 1) in
  let p := on_cpu i [PWrmsr MSR_IA32_PERF_GLOBAL_OVF (2 ^ 0);
                     PWrmsr MSR_IA32_PMC0 (PMC_MAX_VALUE - L1D_MISS_THRESHOLD)] p in
  if PMU_ALERT_OVERFLOW_COUNT <=? newVal then
    let p := set_ctx i (PmuContext newVal (L2MissOverflows ctx) 2 (CpuIndex ctx) (PmiVector ctx)
                                   (ApicVaBase ctx) (PmiInterruptObject ctx)) p in
    let c := InterlockedAdd PmuL1DOverflows PMU_ALERT_OVERFLOW_COUNT c in
    let cpuFeat := Features (g_CpuMit c (CpuIndex ctx)) in
    let p := if has cpuFeat CPU_FEAT_VERW_FLUSH then on_cpu i [PVerw] p else p in
    let p := if has cpuFeat CPU_FEAT_L1D_FLUSH then on_cpu i [PWrmsr MSR_IA32_FLUSH_CMD 1] p else p in
    (p, c)
  else
    (set_ctx i (PmuContext newVal (L2MissOverflows ctx) (CtxAlertLevel ctx) (CpuIndex ctx)
                           (PmiVector ctx) (ApicVaBase ctx) (PmiInterruptObject ctx)) p, c).

Definition pmi_pmc1 (i : Z) (p : pmu) : pmu :=
  let ctx := g_PmuCtx p i in
  let newVal := s32 (L2MissOverflows ctx + 1) in
  let p := on_cpu i [PWrmsr MSR_IA32_PERF_GLOBAL_OVF (2 ^ 1);
                     PWrmsr MSR_IA32_PMC1 (PMC_MAX_VALUE - L2_MISS_THRESHOLD)] p in
  let level := if (PMU_ALERT_OVERFLOW_COUNT <=? newVal) && (CtxAlertLevel ctx <? 1) then 1
               else CtxAlertLevel ctx in
  set_ctx i (PmuContext (L1DMissOverflows ctx) newVal level (CpuIndex ctx) (PmiVector ctx)
                        (ApicVaBase ctx) (PmiInterruptObject ctx)) p.

Definition PmiIsr (i : Z) (p : pmu) (c : core) : bool * pmu * core :=
  let '(globalStatus, c) := rdmsr MSR_IA32_PERF_GLOBAL_STATUS c in
  let '(p, c) := if has globalStatus (2 ^ 0) then pmi_pmc0 i p c else (p, c) in
  let p := if has globalStatus (2 ^ 1) then pmi_pmc1 i p else p in
  let ctx := g_PmuCtx p i in
  let c := if wstats (g_SharedState c) PmuAlertLevel <? CtxAlertLevel ctx
           then InterlockedExchange PmuAlertLevel (CtxAlertLevel ctx) c else c in
  let p := if ApicVaBase ctx then on_cpu i [PApic APIC_EOI_OFFSET 0] p else p in
  (true, p, c).

(** ** Start and stop *)
Definition map_apic (i : Z) (p : pmu) (c : core) : pmu * core :=
  let '(apicBaseMsr, c) := rdmsr MSR_IA32_APIC_BASE c in
  let x2apic := negb (Z.land (Z.shiftr apicBaseMsr 10) 1 =? 0) in
  let ctx := g_PmuCtx p i in
  let '(base, c) :=
    if x2apic then (ApicVaBase ctx, c)
    else (map_apic_at (clock c) (Z.land apicBaseMsr 0xFFFFFFFFF000), tick c) in
  (set_ctx i (PmuContext (L1DMissOverflows ctx) (L2MissOverflows ctx) (CtxAlertLevel ctx) i
                         PMI_IDT_VECTOR base (PmiInterruptObject ctx)) p, c).

Definition set_interrupt (b : bool) (x : PMU_CONTEXT) : PMU_CONTEXT :=
  PmuContext (L1DMissOverflows x) (L2MissOverflows x) (CtxAlertLevel x) (CpuIndex x) (PmiVector x)
             (ApicVaBase x) b.
Definition set_apic (b : bool) (x : PMU_CONTEXT) : PMU_CONTEXT :=
  PmuContext (L1DMissOverflows x) (L2MissOverflows x) (CtxAlertLevel x) (CpuIndex x) (PmiVector x)
             b (PmiInterruptObject x).

(** A failed connection leaves the object pointer as it was. *)
Definition connect_pmi (i : Z) (p : pmu) (c : core) : pmu * core :=
  let st := connect_at (clock c) i in
  let ctx := g_PmuCtx p i in
  (if NT_SUCCESS st then set_ctx i (set_interrupt true ctx) p else p, tick c).

Definition PmuInitialize (p : pmu) (c : core) : Z * pmu * core :=
  let cpus := seqZ 0 KeQueryMaximumProcessorCountEx in
  let '(p, c) := foldl (λ pc i, map_apic i pc.1 pc.2) (p, c) cpus in
  let '(p, c) := foldl (λ pc i, connect_pmi i pc.1 pc.2) (p, c) cpus in
  let '(p, c) := PmuIpiConfigureCpu p c in
  (STATUS_SUCCESS, set_profiles (replicate MAX_PROFILED_PROCS zero_profile) p, c).

(** A round of the loop of PmuUninitialize: the writes go to the CPU it runs on. *)
Definition release_cpu (i : Z) (p : pmu) (c : core) : pmu * core :=
  let '(here, c) := KeGetCurrentProcessorIndex c in
  let p := on_cpu here [PWrmsr MSR_IA32_PERF_GLOBAL_CTRL 0; PWrmsr MSR_IA32_PERFEVTSEL0 0;
                        PWrmsr MSR_IA32_PERFEVTSEL1 0] p in
  (set_ctx i (set_apic false (set_interrupt false (g_PmuCtx p i))) p, c).

Definition PmuUninitialize (p : pmu) (c : core) : pmu * core :=
  let '(p, c) := PmuIpiConfigureCpu p c in
  foldl (λ pc i, release_cpu i pc.1 pc.2) (p, c) (seqZ 0 KeQueryMaximumProcessorCountEx).

(** ** RDTSC traps: the value written to CR4, of which TSD is bit 2 *)
Definition EnableTSD (c : core) : Z := Z.lor (cr4_at (clock c)) (2 ^ 2).
Definition DisableTSD (c : core) : Z := Z.ldiff (cr4_at (clock c)) (2 ^ 2).

Record KTRAP_FRAME := TrapFrame { SegCs : Z; Rip : Z; Rax : Z; Rdx : Z; Rcx : Z }.

(** The slot of [pid]: counted, claimed if it is the first free one, or not found. *)
Fixpoint count_rdtsc (pid : Z) (l : list RDTSC_PROFILE) (c : core) : list RDTSC_PROFILE * core :=
  match l with
  | [] => ([], c)
  | e :: l =>
    if ProcessId e =? pid then
      let count := s32 (RdtscCount e + 1) in
      if (RDTSC_RATE_THRESHOLD <? count) && negb (IsFlagged e) then
        let c := InterlockedExchange PmuRdtscFlaggedPid (s32 pid) c in
        let c := LogAlert ALERT_PMU_RDTSC_RATE c in
        let c := DispatchCrossModuleEvent DISPATCH_LEVEL ALERT_PMU_RDTSC_RATE 1 pid count c in
        (RdtscProfile pid count (WindowStartTick e) true :: l, c)
      else (RdtscProfile pid count (WindowStartTick e) (IsFlagged e) :: l, c)
    else if ProcessId e =? 0 then (RdtscProfile pid 1 (WindowStartTick e) (IsFlagged e) :: l, c)
    else let '(l, c) := count_rdtsc pid l c in (e :: l, c)
  end.

(** Whether the bytes at [rip] are RDTSC or RDTSCP; the third byte is only read after 0F 01. *)
Definition rdtsc_at (rip : Z) (c : core) : option (option bool) :=
  b ← kread_at (clock c) rip 2;
  match b with
  | [0x0F; 0x31] => Some (Some false)
  | [0x0F; 0x01] => z ← kread_at (clock c) (rip + 2) 1; Some (if decide (z = [0xF9]) then Some true else None)
  | _ => Some None
  end.

(** [None]: the fault is left to the original handler, with nothing changed. *)
Definition RdtscGpHandler (pid : Z) (f : KTRAP_FRAME) (p : pmu) (c : core) :
    option (KTRAP_FRAME * pmu * core) :=
  if negb (Z.land (SegCs f) 3 =? 3) then None else
  match rdtsc_at (Rip f) c with
  | None | Some None => None
  | Some (Some isRdtscp) =>
    let '(l, c) := count_rdtsc pid (g_RdtscProfiles p) (tick c) in
    let tsc := tsc_at (clock c) in
    let rdx := Z.land (Z.shiftr tsc 32) 0xFFFFFFFF in
    let rax := Z.land tsc 0xFFFFFFFF in
    let f := if isRdtscp : bool
             then TrapFrame (SegCs f) (u64 (Rip f + 3)) rax rdx
                            (Z.land (rdmsr_at (S (clock c)) 0xC0000103) 0xFFFFFFFF)
             else TrapFrame (SegCs f) (u64 (Rip f + 2)) rax rdx (Rcx f) in
    Some (f, set_profiles l p, tick (tick c))
  end.
End pmu.

(** ** The overflow interrupt *)
Section pmi.
Context `{WinEnv, WinKernel, WinApic}.

Lemma ctx_set i x p : g_PmuCtx (set_ctx i x p) i = x.
Proof. unfold set_ctx. simpl. by rewrite fn_lookup_insert. Qed.

(** Each half of the handler, [b] being whether its counter fired. *)
Lemma pmi_pmc0_spec (b : bool) i p c :
  let x := g_PmuCtx p i in
  let n := if b then s32 (L1DMissOverflows x + 1) else L1DMissOverflows x in
  let '(p', c') := if b then pmi_pmc0 i p c else (p, c) in
  g_PmuCtx p' i = PmuContext n (L2MissOverflows x) (if b && (3 <=? n) then 2 else CtxAlertLevel x)
                             (CpuIndex x) (PmiVector x) (ApicVaBase x) (PmiInterruptObject x)
  ∧ wstats (g_SharedState c') PmuAlertLevel = wstats (g_SharedState c) PmuAlertLevel
  ∧ (b && (3 <=? n) = true →
     (has (Features (g_CpuMit c (CpuIndex x))) CPU_FEAT_VERW_FLUSH = true → (i, PVerw) ∈ ptrace p')
     ∧ (has (Features (g_CpuMit c (CpuIndex x))) CPU_FEAT_L1D_FLUSH = true →
        (i, PWrmsr MSR_IA32_FLUSH_CMD 1) ∈ ptrace p')).
Proof.
  intros x n. destruct b; [|split_and!; [by destruct (g_PmuCtx p i)|done|done]].
  unfold pmi_pmc0. fold x. fold n. unfold PMU_ALERT_OVERFLOW_COUNT.
  destruct (3 <=? n) eqn:E; [|by rewrite ctx_set]. simpl.
  destruct (has _ CPU_FEAT_VERW_FLUSH), (has _ CPU_FEAT_L1D_FLUSH); simpl;
    rewrite fn_lookup_insert; (split; [done|]); (split; [done|]); intros _; set_solver.
Qed.

Lemma pmi_pmc1_spec (b : bool) i p :
  let x := g_PmuCtx p i in
  let n := if b then s32 (L2MissOverflows x + 1) else L2MissOverflows x in
  let p' := if b then pmi_pmc1 i p else p in
  g_PmuCtx p' i = PmuContext (L1DMissOverflows x) n
                    (if b && (3 <=? n) then Z.max 1 (CtxAlertLevel x) else CtxAlertLevel x)
                    (CpuIndex x) (PmiVector x) (ApicVaBase x) (PmiInterruptObject x)
  ∧ ∀ o, o ∈ ptrace p → o ∈ ptrace p'.
Proof.
  intros x n p'. unfold p'. destruct b; [|split; [by destruct (g_PmuCtx p i)|done]].
  unfold pmi_pmc1. rewrite ctx_set. split; [|simpl; set_solver]. fold x. fold n. f_equal.
  unfold PMU_ALERT_OVERFLOW_COUNT. destruct (3 <=? n), (CtxAlertLevel x <? 1) eqn:E; simpl; bool_props; lia.
Qed.

(** The performance interrupt of a CPU: the overflow counters of the counters that fired go up
    by one; the third L1D overflow makes the CPU critical and runs the flushes its features
    offer, a third L2 overflow raises a calm CPU to watch; the level never falls, the published
    level is the maximum, and the last thing the handler does is the EOI. *)
Theorem pmi_isr_escalates (i : Z) (p : pmu) (c : core) :
  let x := g_PmuCtx p i in
  let status := rdmsr_at (clock c) MSR_IA32_PERF_GLOBAL_STATUS in
  let l1 := has status 1 in
  let l2 := has status 2 in
  0 ≤ CtxAlertLevel x ≤ 2 → CpuIndex x = i →
  let '(r, p', c') := PmiIsr i p c in
  let x' := g_PmuCtx p' i in
  r = true
  ∧ L1DMissOverflows x' = (if l1 then s32 (L1DMissOverflows x + 1) else L1DMissOverflows x)
  ∧ L2MissOverflows x' = (if l2 then s32 (L2MissOverflows x + 1) else L2MissOverflows x)
  ∧ CtxAlertLevel x' = (if l1 && (3 <=? L1DMissOverflows x') then 2
                        else if l2 && (3 <=? L2MissOverflows x') then Z.max 1 (CtxAlertLevel x)
                        else CtxAlertLevel x)
  ∧ CtxAlertLevel x ≤ CtxAlertLevel x' ≤ 2
  ∧ wstats (g_SharedState c') PmuAlertLevel
    = Z.max (wstats (g_SharedState c) PmuAlertLevel) (CtxAlertLevel x')
  ∧ (ApicVaBase x = true → last (ptrace p') = Some (i, PApic APIC_EOI_OFFSET 0))
  ∧ (l1 && (3 <=? L1DMissOverflows x') = true →
     let f := Features (g_CpuMit c i) in
     (has f CPU_FEAT_VERW_FLUSH = true → (i, PVerw) ∈ ptrace p')
     ∧ (has f CPU_FEAT_L1D_FLUSH = true → (i, PWrmsr MSR_IA32_FLUSH_CMD 1) ∈ ptrace p')).
Proof.
  intros x status l1 l2 Hlev Hidx. unfold PmiIsr. simpl. fold status.
  change (2 ^ 0) with 1. change (2 ^ 1) with 2. fold l1 l2.
  pose proof (pmi_pmc0_spec l1 i p (tick c)) as H0s. cbv zeta in H0s. fold x in H0s. rewrite Hidx in H0s.
  destruct (if l1 then pmi_pmc0 i p (tick c) else (p, tick c)) as [p1 c1].
  destruct H0s as (Hx1 & Hs1 & Hf1). simpl in Hs1.
  pose proof (pmi_pmc1_spec l2 i p1) as H2s. cbv zeta in H2s. rewrite Hx1 in H2s. simpl in H2s.
  destruct H2s as [Hx2 Hin]. set (p2 := if l2 then pmi_pmc1 i p1 else p1) in *. rewrite Hx2. simpl.
  set (n1 := if l1 then _ else L1DMissOverflows x) in *.
  set (n2 := if l2 then _ else L2MissOverflows x) in *.
  assert (Hctx : g_PmuCtx (if ApicVaBase x then on_cpu i [PApic APIC_EOI_OFFSET 0] p2 else p2) i = g_PmuCtx p2 i)
    by (by destruct (ApicVaBase x)).
  rewrite Hctx, Hx2. simpl. clear Hctx. split_and!; try done.
  - destruct (l1 && _), (l2 && _); lia.
  - destruct (l1 && _), (l2 && _); lia.
  - destruct (l1 && _), (l2 && _); lia.
  - rewrite Hs1. destruct (_ <? _) eqn:E; simpl; bool_props; [rewrite fn_lookup_insert|rewrite Hs1]; lia.
  - intros ->. simpl. by rewrite last_snoc.
  - intros Hb. destruct (Hf1 Hb) as [HV HL].
    assert (Hin' : ∀ o, o ∈ ptrace p2 →
      o ∈ ptrace (if ApicVaBase x then on_cpu i [PApic APIC_EOI_OFFSET 0] p2 else p2))
      by (destruct (ApicVaBase x); simpl; set_solver).
    split; intros Hf; apply Hin', Hin; auto.
Qed.
End pmi.

(** ** Stopping: what the last write to a register of a CPU was *)
Definition writes_to (cpu msr : Z) (t : Z * pmu_op) : option Z :=
  match t with
  | (k, PWrmsr m v) => if (k =? cpu) && (m =? msr) then Some v else None
  | _ => None
  end.
Definition last_write (cpu msr : Z) (tr : list (Z * pmu_op)) : option Z := last (omap (writes_to cpu msr) tr).

Lemma last_write_app cpu msr tr tr' :
  last_write cpu msr (tr ++ tr')
  = match last_write cpu msr tr' with Some v => Some v | None => last_write cpu msr tr end.
Proof. unfold last_write. by rewrite omap_app, last_app. Qed.

(** Writes of another CPU do not matter. *)
Lemma last_write_other cpu msr here os : here ≠ cpu → last_write cpu msr ((here,.) <$> os) = None.
Proof.
  intros Hne. unfold last_write.
  assert (Ho : omap (writes_to cpu msr) ((here,.) <$> os) = []); [|by rewrite Ho].
  induction os as [|o os IH]; [done|]. rewrite fmap_cons. cbn [omap list_omap].
  destruct o; simpl; rewrite ?(proj2 (Z.eqb_neq here cpu)) by done; apply IH.
Qed.

Lemma trace_other_cpu cpu msr here os p :
  here ≠ cpu → last_write cpu msr (ptrace (on_cpu here os p)) = last_write cpu msr (ptrace p).
Proof. intros Hne. simpl. by rewrite last_write_app, last_write_other. Qed.

Lemma ptrace_set_ctx i x p : ptrace (set_ctx i x p) = ptrace p.
Proof. done. Qed.

Section stop.
Context `{WinEnv, WinKernel, WinApic}.

Definition running (cpu : Z) (p : pmu) : Prop :=
  ∃ g, last_write cpu MSR_IA32_PERF_GLOBAL_CTRL (ptrace p) = Some (Z.lor g 3).

Lemma configure_running i p c : running i (PmuConfigureOnCpu i p c).1.
Proof.
  unfold PmuConfigureOnCpu, running. exists (rdmsr_at (clock c) MSR_IA32_PERF_GLOBAL_CTRL).
  destruct (ApicVaBase (g_PmuCtx p i)); simpl; rewrite ?last_write_app; simpl;
    unfold last_write; simpl; by rewrite ?Z.eqb_refl.
Qed.

Lemma configure_other i j p c : i ≠ j → running j p → running j (PmuConfigureOnCpu i p c).1.
Proof.
  intros Hne [g Hg]. exists g. unfold PmuConfigureOnCpu, rdmsr. cbv zeta.
  destruct (ApicVaBase (g_PmuCtx p i)); cbn [fst]; by rewrite ptrace_set_ctx, !trace_other_cpu.
Qed.

Lemma ipi_running cpus p c i :
  i ∈ cpus → running i (foldl (λ pc i, PmuConfigureOnCpu i pc.1 pc.2) (p, c) cpus).1.
Proof.
  induction cpus as [|j cpus IH] using rev_ind; intros Hi; [by inversion Hi|].
  rewrite foldl_app. simpl. destruct (decide (j = i)) as [->|Hne]; [apply configure_running|].
  apply configure_other; [done|]. apply IH. apply elem_of_app in Hi as [|Hi]; [done|].
  apply list_elem_of_singleton in Hi. congruence.
Qed.

Lemma release_running here cpus pc i :
  (∀ t, cpu_at t = here) → i ≠ here → running i pc.1 →
  running i (foldl (λ pc i, release_cpu i pc.1 pc.2) pc cpus).1.
Proof.
  intros Hh Hne. revert pc. induction cpus as [|j cpus IH]; intros pc [g Hg]; [by exists g|].
  cbn [foldl]. apply IH. exists g. unfold release_cpu, KeGetCurrentProcessorIndex. rewrite Hh.
  cbn [fst]. by rewrite ptrace_set_ctx, trace_other_cpu.
Qed.

(** PmuUninitialize leaves the counters of the other CPUs running: it configures every CPU
    once more and then writes the disabling values, once per CPU, on the processor it runs on;
    on every other processor the last value given to IA32_PERF_GLOBAL_CTRL enables both
    counters. *)
Theorem pmu_stop_leaves_running (here i : Z) (p : pmu) (c : core) :
  (∀ t, cpu_at t = here) → 0 ≤ i < KeQueryMaximumProcessorCountEx → i ≠ here →
  ∃ g, last_write i MSR_IA32_PERF_GLOBAL_CTRL (ptrace (PmuUninitialize p c).1) = Some (Z.lor g 3).
Proof.
  intros Hh Hi Hne. unfold PmuUninitialize, PmuIpiConfigureCpu.
  pose proof (ipi_running (seqZ 0 KeQueryMaximumProcessorCountEx) p c i) as Hr.
  destruct (foldl _ (p, c) _) as [p1 c1]. apply (release_running here _ (p1, c1)); [done..|].
  apply Hr. apply elem_of_seqZ. lia.
Qed.
End stop.

(** ** RDTSC profiles *)
Section rdtsc.
Context `{WinEnv, WinKernel, WinApic}.

Definition occ (q : Z) (ps : list Z) : Z := zlen (filter (λ p, p = q) ps).

(** The table after the traps [ps]: one entry per process, in order of first trap. *)
Definition profile_of (ps : list Z) (q : Z) : RDTSC_PROFILE :=
  RdtscProfile q (occ q ps) 0 (RDTSC_RATE_THRESHOLD <? occ q ps).

Definition table_of (ps ds : list Z) (k : nat) : list RDTSC_PROFILE :=
  (profile_of ps <$> ds) ++ replicate k zero_profile.

Lemma occ_snoc q ps p : occ q (ps ++ [p]) = occ q ps + if decide (p = q) then 1 else 0.
Proof.
  unfold occ, zlen. rewrite filter_app, length_app.
  destruct (decide (p = q)); [rewrite filter_cons_True by done|rewrite filter_cons_False by done];
    simpl; lia.
Qed.

Lemma profile_of_other ps p q : p ≠ q → profile_of (ps ++ [p]) q = profile_of ps q.
Proof. intros Hne. unfold profile_of. rewrite occ_snoc, decide_False by done. by rewrite Z.add_0_r. Qed.

Lemma count_known ps p ds k c :
  NoDup ds → p ∈ ds → Forall (λ q, q ≠ 0) ds → zlen ps < 2147483647 →
  (count_rdtsc p (table_of ps ds k) c).1 = table_of (ps ++ [p]) ds k.
Proof.
  intros Hnd Hin H0s Hlen. induction ds as [|d ds IH]; [by inversion Hin|].
  inversion_clear Hnd as [|?? Hd Hnd']. inversion_clear H0s as [|?? Hz H0s'].
  unfold table_of. rewrite !fmap_cons, <- !app_comm_cons. cbn [count_rdtsc].
  change (ProcessId (profile_of ps d)) with d. change (RdtscCount (profile_of ps d)) with (occ d ps).
  destruct (Z.eqb_spec d p) as [->|Hne].
  - assert (Hocc : 0 ≤ occ p ps < 2147483647).
    { unfold occ, zlen in *. pose proof (length_filter (λ q, q = p) ps). lia. }
    rewrite s32_id by lia.
    assert (Htail : profile_of (ps ++ [p]) <$> ds = profile_of ps <$> ds).
    { apply list_fmap_ext. intros i q Hq. apply profile_of_other. intros ->.
      by apply Hd, (list_elem_of_lookup_2 _ i). }
    rewrite Htail. change (IsFlagged (profile_of ps p)) with (RDTSC_RATE_THRESHOLD <? occ p ps).
    replace (profile_of (ps ++ [p]) p)
      with (RdtscProfile p (occ p ps + 1) 0 (RDTSC_RATE_THRESHOLD <? occ p ps + 1))
      by (unfold profile_of; by rewrite occ_snoc, decide_True).
    unfold RDTSC_RATE_THRESHOLD. destruct (100000 <? occ p ps + 1) eqn:E, (100000 <? occ p ps) eqn:E';
      simpl; bool_props; try done; lia.
  - rewrite (proj2 (Z.eqb_neq d 0)) by done.
    assert (Hin' : p ∈ ds) by (apply elem_of_cons in Hin as [->|]; done).
    specialize (IH Hnd' Hin' H0s'). unfold table_of in IH.
    destruct (count_rdtsc _ _ _) as [l c']. simpl in *. subst. by rewrite (profile_of_other ps p d) by done.
Qed.

Lemma count_new ps p ds k c :
  p ∉ ds → p ∉ ps → p ≠ 0 → Forall (λ q, q ≠ 0) ds →
  (count_rdtsc p (table_of ps ds (S k)) c).1 = table_of (ps ++ [p]) (ds ++ [p]) k.
Proof.
  intros Hd Hp Hz H0s. induction H0s as [|d ds Hdz H0s IH].
  - unfold table_of. cbn [fmap list_fmap app replicate count_rdtsc].
    change (ProcessId zero_profile) with 0. rewrite (proj2 (Z.eqb_neq 0 p)) by done. simpl.
    unfold profile_of. rewrite occ_snoc, decide_True by done.
    assert (Ho : occ p ps = 0).
    { unfold occ, zlen. replace (filter _ ps) with ([] : list Z); [done|]. symmetry.
      apply elem_of_nil_inv. by intros q [-> Hq]%list_elem_of_filter. }
    by rewrite Ho.
  - apply not_elem_of_cons in Hd as [Hne Hd]. unfold table_of in *.
    rewrite <- app_comm_cons, !fmap_cons, <- !app_comm_cons. cbn [count_rdtsc].
    change (ProcessId (profile_of ps d)) with d.
    rewrite (proj2 (Z.eqb_neq d p)), (proj2 (Z.eqb_neq d 0)) by done.
    specialize (IH Hd). destruct (count_rdtsc _ _ _) as [l c']. simpl in *. subst.
    by rewrite (profile_of_other ps p d) by done.
Qed.

(** Handling the traps of a sequence of processes. *)
Definition rdtsc_traps (ps : list Z) (l : list RDTSC_PROFILE) (c : core) : list RDTSC_PROFILE * core :=
  foldl (λ lc p, count_rdtsc p lc.1 lc.2) (l, c) ps.

Lemma rdtsc_traps_table D ps c :
  Forall (λ q, q ≠ 0) ps → NoDup D → (length D ≤ MAX_PROFILED_PROCS)%nat → (∀ q, q ∈ ps → q ∈ D) →
  zlen ps < 2147483647 →
  ∃ ds k, (rdtsc_traps ps (replicate MAX_PROFILED_PROCS zero_profile) c).1 = table_of ps ds k
  ∧ NoDup ds ∧ (∀ q, q ∈ ds ↔ q ∈ ps) ∧ (length ds + k = MAX_PROFILED_PROCS)%nat.
Proof.
  intros Hz Hnd HD Hsub Hlen. unfold rdtsc_traps.
  induction ps as [|p ps IH] using rev_ind.
  { exists [], MAX_PROFILED_PROCS. split_and!; [done|constructor|done|done]. }
  apply Forall_app in Hz as [Hz Hp]. rewrite Forall_singleton in Hp.
  destruct IH as (ds & k & Ht & Hnds & Heq & Hk); [done|set_solver|unfold zlen in *; rewrite length_app in *; lia|].
  rewrite foldl_app. simpl. destruct (foldl _ _ ps) as [l c']. simpl in *. subst l.
  assert (H0s : Forall (λ q, q ≠ 0) ds).
  { apply Forall_forall. intros q Hq. rewrite Forall_forall in Hz. by apply Hz, Heq. }
  assert (Hlp : zlen ps < 2147483647) by (unfold zlen in *; rewrite length_app in *; simpl in *; lia).
  destruct (decide (p ∈ ds)) as [Hin|Hin].
  - exists ds, k. rewrite count_known by done. split_and!; [done..| |done].
    intros q. rewrite elem_of_app, list_elem_of_singleton. rewrite Heq in *. naive_solver.
  - assert (Hnd' : NoDup (ds ++ [p])).
    { apply NoDup_app. split_and!; [done|set_solver|apply NoDup_singleton]. }
    assert (Hroom : (length (ds ++ [p]) ≤ length D)%nat).
    { apply submseteq_length, NoDup_submseteq; [done|].
      intros q. rewrite elem_of_app, list_elem_of_singleton, Heq. set_solver. }
    rewrite length_app in Hroom. simpl in Hroom. destruct k as [|k]; [lia|].
    exists (ds ++ [p]), k. rewrite count_new; [|done|by rewrite <- Heq|done|done].
    split_and!; [done|done| |rewrite length_app; simpl; lia].
    intros q. rewrite !elem_of_app, !list_elem_of_singleton, Heq. done.
Qed.

(** The RDTSC detector counts traps, not a rate: after any sequence of traps by at most 256
    processes, however far apart, the profile of a process holds the number of its traps since
    start and is flagged if and only if that number exceeds RDTSC_RATE_THRESHOLD. *)
Theorem rdtsc_flag_is_total (D ps : list Z) (c : core) (q : Z) :
  Forall (λ q, q ≠ 0) ps → NoDup D → (length D ≤ MAX_PROFILED_PROCS)%nat → (∀ q, q ∈ ps → q ∈ D) →
  zlen ps < 2147483647 → q ∈ ps →
  ∃ e, e ∈ (rdtsc_traps ps (replicate MAX_PROFILED_PROCS zero_profile) c).1
  ∧ ProcessId e = q ∧ RdtscCount e = occ q ps
  ∧ (IsFlagged e = true ↔ RDTSC_RATE_THRESHOLD < occ q ps).
Proof.
  intros Hz Hnd HD Hsub Hlen Hq.
  destruct (rdtsc_traps_table D ps c Hz Hnd HD Hsub Hlen) as (ds & k & -> & _ & Heq & _).
  exists (profile_of ps q). split_and!; try done; [|apply Z.ltb_lt].
  apply elem_of_app. left. apply list_elem_of_fmap. exists q. by rewrite Heq.
Qed.

(** The RDTSC trap is transparent to the process: the handler acts on ring 3 only and on RDTSC
    and RDTSCP only; then it advances RIP past the instruction, and RDX:RAX is the counter. *)
Theorem rdtsc_emulated (pid : Z) (f f' : KTRAP_FRAME) (p p' : pmu) (c c' : core) :
  (∀ t, is_u64 (tsc_at t)) →
  RdtscGpHandler pid f p c = Some (f', p', c') →
  ∃ b t, Z.land (SegCs f) 3 = 3 ∧ rdtsc_at (Rip f) c = Some (Some b)
  ∧ Rip f' = u64 (Rip f + if b then 3 else 2)
  ∧ Rdx f' * 2 ^ 32 + Rax f' = tsc_at t ∧ 0 ≤ Rax f' < 2 ^ 32
  ∧ (b = false → Rcx f' = Rcx f).
Proof.
  intros Htsc. unfold RdtscGpHandler. destruct (negb _) eqn:E; [done|]. bool_props.
  destruct (rdtsc_at (Rip f) c) as [[b|]|]; [|done..].
  destruct (count_rdtsc _ _ _) as [l c1]. intros [= <- <- <-]. exists b, (clock c1).
  change 4294967295 with (Z.ones 32). rewrite !Z.land_ones, Z.shiftr_div_pow2 by lia.
  pose proof (Htsc (clock c1)) as Hu. unfold is_u64 in Hu.
  assert (Hm : (tsc_at (clock c1) / 2 ^ 32) mod 2 ^ 32 = tsc_at (clock c1) / 2 ^ 32).
  { apply Z.mod_small. change (2 ^ 32) with 4294967296. Z.div_mod_to_equations. lia. }
  assert (Hdiv : tsc_at (clock c1) / 2 ^ 32 * 2 ^ 32 + tsc_at (clock c1) mod 2 ^ 32 = tsc_at (clock c1))
    by (rewrite Z.mul_comm; symmetry; by apply Z.div_mod).
  pose proof (Z.mod_pos_bound (tsc_at (clock c1)) (2 ^ 32) ltac:(lia)).
  destruct b; cbn [Rip Rdx Rax Rcx]; rewrite Hm; split_and!; try done; lia.
Qed.
End rdtsc.
