(* ===== verification/WinLoadGuard.v ===== *)
(** * The Windows driver-load guard (windows/src/driver_load_guard.c)

    The digest tables, hashing a driver's file, the verdict on it, the queue
    between the load-image callback and the worker, the pass over the drivers
    present at start, the audit of the system's own defences, start and stop.
    The built-in digests (vuln_driver_hashes.h) are a parameter. *)
From S2P Require Import Prelude Sha256 Uapi WinState WinComms WinMitigate WinRouter DigestTable Bytes PeAuthenticode.
Local Open Scope Z_scope.

Definition LG_PATH_CHARS : Z := 260.
Definition LG_QUEUE_SIZE : Z := 64.
Definition LG_MAX_IMAGE_BYTES : Z := 32 * 1024 * 1024.
Definition LG_READ_CHUNK : Z := 1 * 1024 * 1024.
Definition LG_MAX_USER_HASHES : Z := 256.
Definition LG_MAX_BASELINE : Z := 512.
Definition KG_CODEINTEGRITY_OPTION_ENABLED : Z := 0x01.
Definition KG_CODEINTEGRITY_OPTION_TESTSIGN : Z := 0x02.
Definition KG_CODEINTEGRITY_OPTION_HVCI_KMCI : Z := 0x400.

(** ** State: pointers are [option]s, lists are the entries up to their count *)
Record lg := Lg {
  g_LgTable : option (list (list Z));
  g_LgClass : list Z;
  g_LgTableSorted : bool;
  g_LgDeny : option (list (list Z));
  g_LgAllow : option (list (list Z));
  g_LgQueue : option (list (list Z));       (* 64 paths *)
  g_LgHead : Z;
  g_LgTail : Z;
  g_LgCount : Z;
  g_LgItems : Z;                            (* the semaphore *)
  g_LgBaselinePaths : list (list Z);
  g_LgTimer : bool;                         (* the baseline timer is set and has not fired *)
  g_LgStop : bool;
  g_LgThread : bool;
  g_LgInFlight : Z;
  g_LgDropped : Z;
  g_LgRunning : bool;
  g_LgRegistered : bool;
  g_LgInitialised : bool
}.

Definition set_queue (q : option (list (list Z))) (h t n items : Z) (l : lg) : lg :=
  Lg (g_LgTable l) (g_LgClass l) (g_LgTableSorted l) (g_LgDeny l) (g_LgAllow l) q h t n items
     (g_LgBaselinePaths l) (g_LgTimer l) (g_LgStop l) (g_LgThread l) (g_LgInFlight l) (g_LgDropped l)
     (g_LgRunning l) (g_LgRegistered l) (g_LgInitialised l).
Definition set_flight (inflight dropped : Z) (l : lg) : lg :=
  Lg (g_LgTable l) (g_LgClass l) (g_LgTableSorted l) (g_LgDeny l) (g_LgAllow l) (g_LgQueue l)
     (g_LgHead l) (g_LgTail l) (g_LgCount l) (g_LgItems l) (g_LgBaselinePaths l) (g_LgTimer l)
     (g_LgStop l) (g_LgThread l) inflight dropped (g_LgRunning l) (g_LgRegistered l) (g_LgInitialised l).
Definition set_baseline (b : list (list Z)) (timer : bool) (l : lg) : lg :=
  Lg (g_LgTable l) (g_LgClass l) (g_LgTableSorted l) (g_LgDeny l) (g_LgAllow l) (g_LgQueue l)
     (g_LgHead l) (g_LgTail l) (g_LgCount l) (g_LgItems l) b timer (g_LgStop l) (g_LgThread l)
     (g_LgInFlight l) (g_LgDropped l) (g_LgRunning l) (g_LgRegistered l) (g_LgInitialised l).
Definition set_tables (t : option (list (list Z))) (cl : list Z) (sorted : bool)
    (deny allow : option (list (list Z))) (l : lg) : lg :=
  Lg t cl sorted deny allow (g_LgQueue l) (g_LgHead l) (g_LgTail l) (g_LgCount l) (g_LgItems l)
     (g_LgBaselinePaths l) (g_LgTimer l) (g_LgStop l) (g_LgThread l) (g_LgInFlight l) (g_LgDropped l)
     (g_LgRunning l) (g_LgRegistered l) (g_LgInitialised l).
Definition set_life (stop thread running registered initialised : bool) (l : lg) : lg :=
  Lg (g_LgTable l) (g_LgClass l) (g_LgTableSorted l) (g_LgDeny l) (g_LgAllow l) (g_LgQueue l)
     (g_LgHead l) (g_LgTail l) (g_LgCount l) (g_LgItems l) (g_LgBaselinePaths l) (g_LgTimer l)
     stop thread (g_LgInFlight l) (g_LgDropped l) running registered initialised.

(** ** Small helpers *)
Definition digits : list Z := bytes_of "0123456789abcdef".
Definition LgHexString (Hash : list Z) : list Z :=
  Hash ≫= λ b, [digits !!! Z.to_nat (Z.shiftr b 4); digits !!! Z.to_nat (Z.land b 0x0F)].

(** The part after the last backslash. *)
Fixpoint base_from (base p : list Z) : list Z :=
  match p with
  | [] => base
  | ch :: p => base_from (if ch =? 92 then p else base) p
  end.
Definition LgBaseName (Path : list Z) : list Z := base_from Path Path.

(** Sixteen bytes, '?' for a character that is not printable ASCII. *)
Definition ascii_or_mark (ch : Z) : Z := if (0x20 <=? ch) && (ch <? 0x7F) then ch else 63.
Definition pack_bytes (Name : list Z) : list Z :=
  let b := ascii_or_mark <$> take 16 Name in b ++ replicate (16 - length b) 0.
Definition LgPackName (Name : list Z) : Z * Z :=
  let b := pack_bytes Name in (le_val (take 8 b), le_val (drop 8 b)).

Definition LgListContains (List : option (list (list Z))) (Hash : list Z) : bool :=
  match List with
  | None => false
  | Some items => existsb (λ it, DtCompare it Hash =? 0) items
  end.

Definition lg_table (l : lg) : list (list Z) := default [] (g_LgTable l).
Definition LgBuiltinFind (l : lg) (Hash : list Z) : Z :=
  default (-1) (DtFind (lg_table l) (g_LgTableSorted l) Hash).

(** ** Tables *)
(** Entries that parse, each with its class. *)
Fixpoint parse_builtin (hex : list (list Z)) (cls : list Z) : list (list Z) * list Z :=
  match hex, cls with
  | h :: hex, k :: cls =>
    let '(t, c) := parse_builtin hex cls in
    match DtParseHex64 h 64 with
    | Some d => (d :: t, k :: c)
    | None => (t, c)
    end
  | _, _ => ([], [])
  end.

(** One string of a REG_MULTI_SZ: trailing NULs go, and 256 digests are kept at most. *)
Definition REG_SZ : Z := 1.
Fixpoint trim_nul (rev_data : list Z) : list Z :=
  match rev_data with
  | 0 :: rest => trim_nul rest
  | _ => rev_data
  end.
Definition LgHashListRoutine (items : list (list Z)) (ValueType : Z) (ValueData : list Z) :
    list (list Z) :=
  if negb (ValueType =? REG_SZ) then items else
  let data := rev (trim_nul (rev ValueData)) in
  if LG_MAX_USER_HASHES <=? zlen items then items
  else match DtParseHex64 data (zlen data) with
       | Some d => items ++ [d]
       | None => items
       end.

Class WinFiles := {
  open_at : nat → list Z → Z;                        (* ZwCreateFile *)
  size_at : nat → list Z → Z + Z;                    (* ZwQueryInformationFile: EndOfFile *)
  read_at : nat → list Z → Z → Z → Z + list Z;       (* ZwReadFile: offset, length *)
  vuln_hex : list (list Z);                          (* g_KgVulnHashHex *)
  vuln_class : list Z;                               (* g_KgVulnClass *)
  deny_strings : list (Z * list Z);                  (* DriverDenyHashes, by type *)
  allow_strings : list (Z * list Z);
  ci_options_at : nat → Z + Z;                       (* ZwQuerySystemInformation *)
  blocklist_value : reg_value;                       (* VulnerableDriverBlocklistEnable *)
  thread_at : nat → Z;                               (* PsCreateSystemThread *)
  set_notify_at : nat → Z                            (* PsSetLoadImageNotifyRoutine *)
}.

Section guard.
Context `{WinEnv, WinKernel, WinFiles}.

Definition LgLoadBuiltin (l : lg) (c : core) : lg * core :=
  let t := pool_at (clock c) (zlen vuln_hex * 32) in
  let k := pool_at (S (clock c)) (zlen vuln_hex) in
  let c := tick (tick c) in
  match t, k with
  | Some _, Some _ =>
    let '(table, cls) := parse_builtin vuln_hex vuln_class in
    (set_tables (Some table) cls (DtIsAscending table) (g_LgDeny l) (g_LgAllow l) l, c)
  | _, _ => (set_tables None [] (g_LgTableSorted l) (g_LgDeny l) (g_LgAllow l) l, c)
  end.

(** [strings] are the values RtlQueryRegistryValues hands to the routine. *)
Definition LgLoadList (RegistryPath : option (list Z)) (strings : list (Z * list Z)) (c : core) :
    option (list (list Z)) * core :=
  match pool_at (clock c) (LG_MAX_USER_HASHES * 32) with
  | None => (None, tick c)
  | Some _ =>
    let readable := match RegistryPath with Some p => key_path_fits p | None => false end in
    (Some (if readable then foldl (λ items s, LgHashListRoutine items s.1 s.2) [] strings else []),
     tick c)
  end.

(** ** Hashing a driver file *)
(** The context of the callback: the data hashed and the time of the next call. *)
Definition LgHashUpdate (ctx : list Z * nat) (Data : list Z) : option (list Z * nat) :=
  if NT_SUCCESS (bcrypt_at ctx.2 BcHashData) then Some (ctx.1 ++ Data, S ctx.2) else None.

Definition LgAuthenticodeSha256 (Image : list Z) (c : core) : (Z + list Z) * core :=
  let '(st, c) := bcrypt BcOpen c in
  if negb (NT_SUCCESS st) then (inl st, c) else
  let '(st, c) := bcrypt BcCreate c in
  if negb (NT_SUCCESS st) then (inl st, c) else
  match PeaAuthenticodeHash Image LgHashUpdate ([], clock c) with
  | inr (data, t) =>
    let '(st, c) := bcrypt BcFinish (at_time t c) in
    (if NT_SUCCESS st then inr (bcrypt_sha256 data) else inl st, c)
  | inl PEA_E_FORMAT => (inl STATUS_INVALID_IMAGE_FORMAT, c)
  | inl _ => (inl STATUS_UNSUCCESSFUL, c)
  end.

Fixpoint read_file (fuel : nat) (Path : list Z) (size : Z) (image : list Z) (c : core) :
    (Z + list Z) * core :=
  match fuel with
  | O => (inl STATUS_UNSUCCESSFUL, c)
  | S fuel =>
    let got := zlen image in
    if got <? size then
      let want := Z.min LG_READ_CHUNK (size - got) in
      let r := read_at (clock c) Path got want in
      let c := tick c in
      match r with
      | inl st => (inl st, c)
      | inr [] => (inl STATUS_END_OF_FILE, c)
      | inr bytes => read_file fuel Path size (image ++ bytes) c
      end
    else (if got =? size then inr image else inl STATUS_END_OF_FILE, c)
  end.

Definition LgHashFile (Path : list Z) (c : core) : (Z + list Z) * core :=
  let st := open_at (clock c) Path in
  let c := tick c in
  if negb (NT_SUCCESS st) then (inl st, c) else
  let r := size_at (clock c) Path in
  let c := tick c in
  match r with
  | inl st => (inl st, c)
  | inr eof =>
    if (eof <=? 0) || (LG_MAX_IMAGE_BYTES <? eof) then (inl STATUS_FILE_TOO_LARGE, c) else
    let p := pool_at (clock c) eof in
    let c := tick c in
    match p with
    | None => (inl STATUS_INSUFFICIENT_RESOURCES, c)
    | Some _ =>
      match read_file (S (Z.to_nat eof)) Path eof [] c with
      | (inl st, c) => (inl st, c)
      | (inr image, c) => LgAuthenticodeSha256 image c
      end
    end
  end.

(** ** Reports *)
Definition LgReportDenied (Path : list Z) (Malicious Baseline : bool) (c : core) : core :=
  let level := if Malicious || negb Baseline then 2 else 1 in
  let '(p1, p2) := LgPackName (LgBaseName Path) in
  let c := LogAlert ALERT_VULN_DRIVER c in
  let c := InterlockedIncrement VulnDriverDetected c in
  DispatchCrossModuleEvent PASSIVE_LEVEL ALERT_VULN_DRIVER level p1 p2 c.

Definition LgReportLocked (Path : list Z) (c : core) : core :=
  let '(p1, p2) := LgPackName (LgBaseName Path) in
  let c := LogAlert ALERT_MODULE_LOADED c in
  let c := InterlockedIncrement DriverLockViolations c in
  DispatchCrossModuleEvent PASSIVE_LEVEL ALERT_MODULE_LOADED 1 p1 p2 c.

Definition LgReportUnreadable (Path : list Z) (c : core) : core :=
  let '(p1, p2) := LgPackName (LgBaseName Path) in
  let c := LogAlert ALERT_MODULE_LOADED c in
  DispatchCrossModuleEvent PASSIVE_LEVEL ALERT_MODULE_LOADED 1 p1 p2 c.

(** ** One image: hash it, then decide *)
Definition LgProcessPath (l : lg) (Path : list Z) (Baseline : bool) (c : core) : core :=
  match LgHashFile Path c with
  | (inl st, c) => if Baseline then c else LgReportUnreadable Path c
  | (inr digest, c) =>
    let c := InterlockedIncrement DriversHashed c in
    if LgListContains (g_LgAllow l) digest then c else
    let idx := LgBuiltinFind l digest in
    let operatorListed := LgListContains (g_LgDeny l) digest in
    let malicious := (0 <=? idx) && (g_LgClass l !!! Z.to_nat idx =? 49) in
    if (0 <=? idx) || operatorListed then LgReportDenied Path malicious Baseline c
    else if KgLockMode c && negb Baseline then LgReportLocked Path c
    else c
  end.

(** ** The load-image callback: it counts itself in, queues the path, counts itself out *)
Definition lg_image_relevant (FullImageName : option (list Z)) (ProcessId : Z)
    (SystemModeImage : option bool) : option (list Z) :=
  match SystemModeImage, FullImageName with
  | Some true, Some (ch :: name) => if ProcessId =? 0 then Some (ch :: name) else None
  | _, _ => None
  end.

Definition LgNotifyEnter (l : lg) : lg := set_flight (s32 (g_LgInFlight l + 1)) (g_LgDropped l) l.
Definition LgNotifyExit (l : lg) : lg := set_flight (s32 (g_LgInFlight l - 1)) (g_LgDropped l) l.

Definition LgNotifyBody (name : list Z) (l : lg) : lg :=
  match g_LgRunning l, g_LgQueue l with
  | true, Some q =>
    let path := take (Z.to_nat (LG_PATH_CHARS - 1)) name in
    if g_LgCount l <? LG_QUEUE_SIZE then
      set_queue (Some (<[Z.to_nat (g_LgTail l) := path]> q)) (g_LgHead l)
                ((g_LgTail l + 1) mod LG_QUEUE_SIZE) (g_LgCount l + 1) (g_LgItems l + 1) l
    else set_flight (g_LgInFlight l) (s32 (g_LgDropped l + 1)) l
  | _, _ => l
  end.

Definition LgImageNotify (FullImageName : option (list Z)) (ProcessId : Z) (SystemModeImage : option bool)
    (l : lg) : lg :=
  match lg_image_relevant FullImageName ProcessId SystemModeImage with
  | None => l
  | Some name => LgNotifyExit (LgNotifyBody name (LgNotifyEnter l))
  end.

(** [None]: the null queue is dereferenced. *)
Definition LgDequeue (l : lg) : option (option (list Z) * lg) :=
  if g_LgCount l =? 0 then Some (None, l) else
  match g_LgQueue l with
  | None => None
  | Some q =>
    Some (Some (q !!! Z.to_nat (g_LgHead l)),
          set_queue (Some q) ((g_LgHead l + 1) mod LG_QUEUE_SIZE) (g_LgTail l) (g_LgCount l - 1)
                    (g_LgItems l) l)
  end.

(** ** The worker *)
(** [rounds] is the number of paths before the pass sees the stop event. *)
Definition LgBaselinePass (rounds : nat) (l : lg) (c : core) : lg * core :=
  let c := foldl (λ c p, LgProcessPath l p true c) c (take rounds (g_LgBaselinePaths l)) in
  (set_baseline [] (g_LgTimer l) l, c).

Inductive worker_out :=
  | WExit                          (* the stop event *)
  | WBlocked                       (* nothing is signalled *)
  | WFault                         (* the null queue *)
  | WStep (l : lg) (c : core).

(** One round of LgWorker: KeWaitForMultipleObjects takes the first signalled object;
    [item] is whether the worker's buffer could be allocated, [due] whether the timer is due. *)
Definition LgWorker (item due : bool) (rounds : nat) (l : lg) (c : core) : worker_out :=
  if g_LgStop l then WExit
  else if 0 <? g_LgItems l then
    let l := set_queue (g_LgQueue l) (g_LgHead l) (g_LgTail l) (g_LgCount l) (g_LgItems l - 1) l in
    if negb item then WStep l c else
    match LgDequeue l with
    | None => WFault
    | Some (None, l) => WStep l c
    | Some (Some path, l) => WStep l (LgProcessPath l path false c)
    end
  else if g_LgTimer l && due then
    let '(l, c) := LgBaselinePass rounds (set_baseline (g_LgBaselinePaths l) false l) c in WStep l c
  else WBlocked.

(** ** Drivers already loaded *)
Fixpoint until_nul (l : list Z) : list Z :=
  match l with
  | [] => []
  | b :: l => if b =? 0 then [] else b :: until_nul l
  end.
Definition ansi_path (FullPathName : list Z) : list Z :=
  (λ b, if b <? 0x80 then b else 63) <$> take (Z.to_nat (LG_PATH_CHARS - 1)) (until_nul FullPathName).

(** The paths of the modules that have one, 512 at most. *)
Definition baseline_paths (mods : list AUX_MODULE_EXTENDED_INFO) : list (list Z) :=
  take (Z.to_nat LG_MAX_BASELINE)
       (omap (λ m, match ansi_path (FullPathName m) with [] => None | p => Some p end) mods).

Definition LgCollectBaseline (l : lg) (c : core) : lg * core :=
  let '(st, bytes) := aux_bytes (auxklib_at (clock c)) in
  let c := tick c in
  if negb (st =? STATUS_BUFFER_TOO_SMALL) || (bytes =? 0) then (l, c) else
  match pool_at (clock c) bytes with
  | None => (l, tick c)
  | Some _ =>
    let c := tick c in
    match pool_at (clock c) (LG_MAX_BASELINE * LG_PATH_CHARS * 2) with
    | None => (l, tick c)
    | Some _ =>
      let c := tick c in
      match auxklib_at (clock c) with
      | inl _ => (l, tick c)
      | inr mods => (set_baseline (baseline_paths mods) (g_LgTimer l) l, tick c)
      end
    end
  end.

(** ** Audit of the system's own defences *)
Definition LgReadBlocklistSwitch : Z :=
  match RtlQueryRegistryDword blocklist_value 0xFFFFFFFF with Some v => v | None => 0xFFFFFFFF end.

Definition load_weaknesses (raw : option Z) (blocklist : Z) : Z :=
  let weak := match raw with
              | None => 0
              | Some raw =>
                let w := if negb (has raw KG_CODEINTEGRITY_OPTION_ENABLED)
                            || has raw KG_CODEINTEGRITY_OPTION_TESTSIGN then KG_LP_TESTSIGNING else 0 in
                if negb (has raw KG_CODEINTEGRITY_OPTION_HVCI_KMCI) then Z.lor w KG_LP_NO_HVCI else w
              end in
  if blocklist =? 0 then Z.lor weak KG_LP_NO_BLOCKLIST else weak.

Definition LgAuditLoadPolicy (c : core) : core :=
  let raw := match ci_options_at (clock c) with
             | inr v => Some v
             | inl _ => None
             end in
  let c := tick c in
  let weak := load_weaknesses raw LgReadBlocklistSwitch in
  let c := LogAlert ALERT_LOAD_POLICY c in
  DispatchCrossModuleEvent PASSIVE_LEVEL ALERT_LOAD_POLICY (if weak =? 0 then 0 else 1) weak (default 0 raw) c.

(** ** Start and stop *)
Definition LgFreeState (l : lg) : lg :=
  let l := set_tables None [] (g_LgTableSorted l) None None l in
  let l := set_baseline [] (g_LgTimer l) l in
  set_queue None (g_LgHead l) (g_LgTail l) (g_LgCount l) (g_LgItems l) l.

Definition DriverLoadGuardInitialize (RegistryPath : option (list Z)) (l : lg) (c : core) : Z * lg * core :=
  let '(l, c) := LgLoadBuiltin l c in
  let '(deny, c) := LgLoadList RegistryPath deny_strings c in
  let '(allow, c) := LgLoadList RegistryPath allow_strings c in
  let l := set_tables (g_LgTable l) (g_LgClass l) (g_LgTableSorted l) deny allow l in
  let q := pool_at (clock c) (LG_QUEUE_SIZE * 524) in
  let c := tick c in
  match q with
  | None => (STATUS_INSUFFICIENT_RESOURCES, LgFreeState l, c)
  | Some _ =>
    let l := set_queue (Some (replicate 64 [])) 0 0 0 0 l in
    let l := set_baseline (g_LgBaselinePaths l) false (set_flight 0 0 l) in
    let l := set_life false (g_LgThread l) true (g_LgRegistered l) (g_LgInitialised l) l in
    let st := thread_at (clock c) in
    let c := tick c in
    if negb (NT_SUCCESS st) then
      (st, LgFreeState (set_life false (g_LgThread l) false (g_LgRegistered l) (g_LgInitialised l) l), c)
    else
      let st := set_notify_at (clock c) in
      let c := tick c in
      let l := set_life false true true (if NT_SUCCESS st then true else g_LgRegistered l) true l in
      let '(l, c) := LgCollectBaseline l c in
      let l := match g_LgBaselinePaths l with [] => l | b => set_baseline b true l end in
      (STATUS_SUCCESS, l, LgAuditLoadPolicy c)
  end.

(** Up to the stop event: a callback still counted in after the waits leaves the queue to it. *)
Definition lg_stop_request (l : lg) : lg :=
  let l := set_life (g_LgStop l) (g_LgThread l) false false (g_LgInitialised l) l in
  let l := if negb (g_LgInFlight l =? 0)
           then set_queue None (g_LgHead l) (g_LgTail l) (g_LgCount l) (g_LgItems l) l else l in
  set_life true (g_LgThread l) false false (g_LgInitialised l) l.

Definition DriverLoadGuardUninitialize (l : lg) : lg :=
  if negb (g_LgInitialised l) then l else
  let l := lg_stop_request l in
  let l := set_baseline (g_LgBaselinePaths l) false (set_life true false false false true l) in
  let l := LgFreeState l in
  set_life true false false false false l.
End guard.

(** ** Hashing with one callback or another *)
Definition map_inr {E A B} (f : A → B) (r : E + A) : E + B :=
  match r with inl e => inl e | inr x => inr (f x) end.

Section morphism.
Context {C D : Type} (U : C → list Z → option C) (V : D → list Z → option D) (f : C → D).
Hypothesis Hf : ∀ c x, V (f c) x = f <$> U c x.
Context (File : list Z).

Lemma hash_loop_map fuel off len c :
  hash_loop File V fuel off len (f c) = map_inr f (hash_loop File U fuel off len c).
Proof.
  revert off len c. induction fuel as [|fuel IH]; intros off len c; simpl; [done|].
  destruct (len =? 0); [done|]. destruct (_ || _); [done|]. rewrite Hf.
  destruct (U c _) as [c'|]; simpl; [apply IH|done].
Qed.

Lemma HashRange_map off len c : HashRange File V off len (f c) = map_inr f (HashRange File U off len c).
Proof. apply hash_loop_map. Qed.

Lemma hash_sections_map l sum c :
  hash_sections File V l sum (f c)
  = map_inr (λ sc, (sc.1, f sc.2)) (hash_sections File U l sum c).
Proof.
  revert sum c. induction l as [|s l IH]; intros sum c; cbn [hash_sections]; [done|].
  destruct (Size s =? 0); [apply IH|]. destruct (check _) as [e|[]]; [done|].
  unfold mbind, sum_err_bind. rewrite HashRange_map. destruct (HashRange File U _ _ c); simpl; [done|].
  apply IH.
Qed.

Lemma PeaAuthenticodeHash_map c :
  PeaAuthenticodeHash File V (f c) = map_inr f (PeaAuthenticodeHash File U c).
Proof.
  unfold PeaAuthenticodeHash, mbind, sum_err_bind. destruct (pea_headers File) as [|h]; [done|].
  destruct (read_sections File _ _ _ _) as [|sec]; [done|].
  rewrite HashRange_map. destruct (HashRange File U 0 _ c) as [|c1]; [done|]. simpl.
  assert (Hcert : ∀ off len off' len' c,
    (match HashRange File V off len (f c) with inl e => inl e | inr x => HashRange File V off' len' x end)
    = map_inr f (match HashRange File U off len c with inl e => inl e | inr x => HashRange File U off' len' x end)).
  { intros. rewrite HashRange_map. destruct (HashRange File U off len c0); simpl; [done|]. apply HashRange_map. }
  assert (Htail : ∀ c2,
    (match hash_sections File V sec (sizeOfHeaders h) (f c2) with
     | inl e => inl e
     | inr (sum, ctx) => if sum <? Length File then
         match check (negb (negb (certSize h =? 0)
                 && ((Length File <? certOff h + certSize h) || (Length File - sum <? certSize h)))) with
         | inl e => inl e | inr _ => HashRange File V sum (Length File - sum - certSize h) ctx end
         else inr ctx end)
    = map_inr f (match hash_sections File U sec (sizeOfHeaders h) c2 with
     | inl e => inl e
     | inr (sum, ctx) => if sum <? Length File then
         match check (negb (negb (certSize h =? 0)
                 && ((Length File <? certOff h + certSize h) || (Length File - sum <? certSize h)))) with
         | inl e => inl e | inr _ => HashRange File U sum (Length File - sum - certSize h) ctx end
         else inr ctx end)).
  { intros c2. rewrite hash_sections_map. destruct (hash_sections File U sec _ c2) as [|[sum c3]]; simpl; [done|].
    destruct (sum <? _); [|done]. destruct (check _); [done|]. apply HashRange_map. }
  destruct (certEntry h) as [ce|].
  - rewrite Hcert. destruct (HashRange File U _ _ c1) as [|c2]; [done|].
    destruct (HashRange File U _ _ c2); [done|]. apply Htail.
  - rewrite HashRange_map. destruct (HashRange File U _ _ c1); [done|]. apply Htail.
Qed.
End morphism.

Section guard_proofs.
Context `{WinEnv, WinKernel, WinFiles}.

Lemma LgHashUpdate_collect `{!BCryptWorks} ctx x : collect (fst ctx) x = fst <$> LgHashUpdate ctx x.
Proof. unfold LgHashUpdate, collect. by rewrite bcrypt_ok. Qed.

Lemma LgAuthenticodeSha256_clock Image c : ∃ n, (LgAuthenticodeSha256 Image c).2 = at_time n c.
Proof.
  unfold LgAuthenticodeSha256. simpl. destruct (negb _); [by eexists|]. destruct (negb _); [by eexists|].
  destruct (PeaAuthenticodeHash _ _ _) as [[]|[d t]]; by eexists.
Qed.

Lemma read_file_clock fuel Path size image c : ∃ n, (read_file fuel Path size image c).2 = at_time n c.
Proof.
  revert image c. induction fuel as [|fuel IH]; intros image c; cbn [read_file].
  { exists (clock c). by rewrite at_time_id. }
  destruct (_ <? _); [|exists (clock c); by rewrite at_time_id].
  destruct (read_at _ _ _ _) as [|[|b bytes]]; [by eexists..|].
  destruct (IH (image ++ b :: bytes) (tick c)) as [n ->]. by exists n.
Qed.

Lemma LgHashFile_clock Path c : ∃ n, (LgHashFile Path c).2 = at_time n c.
Proof.
  unfold LgHashFile. destruct (negb _); [by eexists|]. destruct (size_at _ _) as [|eof]; [by eexists|].
  destruct (_ || _); [by eexists|]. destruct (pool_at _ _); [|by eexists].
  match goal with |- context [read_file ?f ?p ?s ?i ?c] =>
    destruct (read_file_clock f p s i c) as [n Hn]; destruct (read_file f p s i c) as [[|im] c1] end;
    simpl in Hn; subst; [by eexists|].
  destruct (LgAuthenticodeSha256_clock im (at_time n (tick (tick (tick c))))) as [n' ->]. by exists n'.
Qed.

(** The file [F] as the guard reads it, in pieces of any size. *)
Record file_is (Path F : list Z) : Prop := FileIs {
  fi_open : ∀ t, NT_SUCCESS (open_at t Path) = true;
  fi_size : ∀ t, size_at t Path = inr (zlen F);
  fi_fits : 0 < zlen F ≤ LG_MAX_IMAGE_BYTES;
  fi_read : ∀ t off want, 0 ≤ off < zlen F → 0 < want →
            ∃ n, 0 < n ≤ want ∧ off + n ≤ zlen F
            ∧ read_at t Path off want = inr (take (Z.to_nat n) (drop (Z.to_nat off) F))
}.

Lemma read_file_whole Path F fuel k c :
  file_is Path F → (k ≤ length F)%nat → (length F - k < fuel)%nat →
  (read_file fuel Path (zlen F) (take k F) c).1 = inr F.
Proof.
  intros Hfi. revert k c. induction fuel as [|fuel IH]; intros k c Hk Hfuel; [lia|]. cbn [read_file].
  assert (Hz : zlen (take k F) = Z.of_nat k) by (unfold zlen; rewrite length_take; lia).
  rewrite Hz. unfold zlen in *. destruct (_ <? _) eqn:E; bool_props.
  - destruct (fi_read _ _ Hfi (clock c) (Z.of_nat k) (Z.min LG_READ_CHUNK (Z.of_nat (length F) - Z.of_nat k)))
      as (n & Hn & Hle & ->); [unfold zlen; lia|unfold LG_READ_CHUNK; lia|]. unfold zlen in Hle.
    rewrite Nat2Z.id. destruct (take (Z.to_nat n) (drop k F)) as [|b bytes] eqn:Et.
    { apply (f_equal length) in Et. rewrite length_take, length_drop in Et. simpl in Et. lia. }
    rewrite <- Et, take_take_drop. apply IH; lia.
  - assert (k = length F) as -> by lia. rewrite Z.eqb_refl. simpl. by rewrite firstn_all.
Qed.

End guard_proofs.

(** ** The verdict *)
Section verdict.
Context `{WinEnv, WinKernel, WinFiles}.

(** The tables the guard loads: 32-byte digests, and the order the check found. *)
Record tables_wf (l : lg) : Prop := TablesWf {
  tw_digests : Forall is_digest (lg_table l);
  tw_sorted : g_LgTableSorted l = true → DtIsAscending (lg_table l) = true;
  tw_deny : Forall is_digest (default [] (g_LgDeny l));
  tw_allow : Forall is_digest (default [] (g_LgAllow l))
}.

Lemma LgListContains_spec L d :
  Forall is_digest (default [] L) → is_digest d → (LgListContains L d = true ↔ d ∈ default [] L).
Proof.
  intros Hw Hd. destruct L as [items|]; simpl; [|split; [done|by intros ?%elem_of_nil]].
  rewrite existsb_exists. simpl in Hw. rewrite Forall_forall in Hw. split.
  - intros (it & Hin%list_elem_of_In & Hc%Z.eqb_eq).
    by rewrite <- (compare_bytes_eq 32 it d (Hw _ Hin) Hd Hc).
  - intros Hin. exists d. split; [by apply list_elem_of_In|]. apply Z.eqb_eq, compare_bytes_refl.
Qed.

Lemma LgBuiltinFind_spec l d :
  tables_wf l → is_digest d →
  (LgBuiltinFind l d = -1 ∧ d ∉ lg_table l)
  ∨ (0 ≤ LgBuiltinFind l d ∧ lg_table l !! Z.to_nat (LgBuiltinFind l d) = Some d).
Proof.
  intros Hw Hd. unfold LgBuiltinFind.
  destruct (DtFind_correct (lg_table l) (g_LgTableSorted l) d (tw_digests _ Hw) Hd (tw_sorted _ Hw))
    as (k & -> & Hk1 & Hk2). simpl.
  destruct (decide (k = -1)) as [->|Hne]; [left; tauto|right; by apply Hk2].
Qed.

(** What the guard may conclude of an image. *)
Inductive lg_verdict := LgQuiet | LgUnreadable | LgLocked | LgDenied (critical : bool).

Definition verdict_of (l : lg) (lock Baseline : bool) (r : Z + list Z) : lg_verdict :=
  match r with
  | inl _ => if Baseline then LgQuiet else LgUnreadable
  | inr d =>
    if decide (d ∈ default [] (g_LgAllow l)) then LgQuiet
    else if decide (d ∈ lg_table l ∨ d ∈ default [] (g_LgDeny l)) then
      LgDenied (((0 <=? LgBuiltinFind l d) && (g_LgClass l !!! Z.to_nat (LgBuiltinFind l d) =? 49))
                || negb Baseline)
    else if lock && negb Baseline then LgLocked else LgQuiet
  end.

(** What it publishes then; [fs] is fail-safe mode before. *)
Definition verdict_entries (Path : list Z) (fs : bool) (v : lg_verdict) : list (Z * Z * Z * Z) :=
  let '(p1, p2) := LgPackName (LgBaseName Path) in
  match v with
  | LgQuiet => []
  | LgUnreadable | LgLocked => [(ALERT_MODULE_LOADED, 1, p1, p2)]
  | LgDenied true => (ALERT_VULN_DRIVER, 2, p1, p2) :: failsafe_entries fs
  | LgDenied false => [(ALERT_VULN_DRIVER, 1, p1, p2)]
  end.

Lemma effect_report `{!BCryptWorks} t lev p1 p2 c c0 :
  effect (LogAlert t c) c0 [] → FailSafeMode (g_SharedState c0) = FailSafeMode (g_SharedState c) →
  t ≠ ALERT_PCI_DISCREPANCY →
  effect c (DispatchCrossModuleEvent PASSIVE_LEVEL t lev p1 p2 c0)
           (routed_entries t lev p1 p2 (FailSafeMode (g_SharedState c)) []).
Proof.
  intros Hq Hf Ht. rewrite <- Hf.
  pose proof (effect_dispatch_with ScanKeyboardDrivers [] t lev p1 p2 c0 ltac:(done)) as Hd.
  exact (effect_trans _ _ _ [] _ (effect_signal t c) (effect_trans _ _ _ [] _ Hq Hd)).
Qed.

Lemma report_effects `{!BCryptWorks} Path mal base c :
  let fs := FailSafeMode (g_SharedState c) in
  effect c (LgReportDenied Path mal base c) (verdict_entries Path fs (LgDenied (mal || negb base)))
  ∧ effect c (LgReportLocked Path c) (verdict_entries Path fs LgLocked)
  ∧ effect c (LgReportUnreadable Path c) (verdict_entries Path fs LgUnreadable).
Proof.
  intros fs. unfold LgReportDenied, LgReportLocked, LgReportUnreadable, verdict_entries.
  destruct (LgPackName (LgBaseName Path)) as [p1 p2]. split_and!.
  - pose proof (effect_report ALERT_VULN_DRIVER (if mal || negb base then 2 else 1) p1 p2 c
      (InterlockedIncrement VulnDriverDetected (LogAlert ALERT_VULN_DRIVER c))
      (effect_increment _ _ _) ltac:(apply signal_failsafe) ltac:(done)) as Hr.
    unfold routed_entries in Hr. by destruct (mal || negb base).
  - apply (effect_report ALERT_MODULE_LOADED 1 p1 p2 c); [apply effect_increment|apply signal_failsafe|done].
  - apply (effect_report ALERT_MODULE_LOADED 1 p1 p2 c); [apply effect_refl|apply signal_failsafe|done].
Qed.

(** What is hashed has a digest. *)
Lemma LgHashFile_digest `{!BCryptWorks} Path c d : (LgHashFile Path c).1 = inr d → is_digest d.
Proof.
  unfold LgHashFile. destruct (negb _); [done|]. destruct (size_at _ _) as [|eof]; [done|].
  destruct (_ || _); [done|]. destruct (pool_at _ _); [|done].
  destruct (read_file _ _ _ _ _) as [[|image] c1]; [done|].
  unfold LgAuthenticodeSha256. cbn [bcrypt]. rewrite !bcrypt_ok. cbn [negb].
  destruct (PeaAuthenticodeHash _ _ _) as [[]|[data t]]; [done..|]. cbn [bcrypt]. rewrite bcrypt_ok.
  intros [= <-]. apply bcrypt_sha256_bytes.
Qed.

Lemma LgProcessPath_effect `{!BCryptWorks} l Path base c :
  tables_wf l →
  effect c (LgProcessPath l Path base c)
    (verdict_entries Path (FailSafeMode (g_SharedState c))
       (verdict_of l (KgLockMode c) base (LgHashFile Path c).1)).
Proof.
  intros Hw. pose proof (LgHashFile_digest Path c) as Hd.
  unfold LgProcessPath. destruct (LgHashFile_clock Path c) as [n Hn].
  assert (Hnil : ∀ fs, verdict_entries Path fs LgQuiet = [])
    by (intros fs; unfold verdict_entries; by destruct (LgPackName _)).
  destruct (LgHashFile Path c) as [[st|d] c1]; simpl in Hn, Hd; subst c1; unfold verdict_of; cbn [fst].
  { destruct base; [rewrite Hnil; by apply effect_quiet|].
    apply (effect_trans _ (at_time n c) _ [] _); [by apply effect_quiet|].
    apply (report_effects Path false false (at_time n c)). }
  specialize (Hd d eq_refl). set (c2 := InterlockedIncrement DriversHashed (at_time n c)).
  assert (E2 : effect c c2 []) by (by apply effect_quiet).
  destruct (LgListContains (g_LgAllow l) d) eqn:Ea.
  { apply LgListContains_spec in Ea; [|apply Hw|done]. rewrite decide_True by done. by rewrite Hnil. }
  rewrite decide_False by (rewrite <- LgListContains_spec, Ea; [done|apply Hw|done]).
  assert (Hden : ((0 <=? LgBuiltinFind l d) || LgListContains (g_LgDeny l) d = true)
                 ↔ (d ∈ lg_table l ∨ d ∈ default [] (g_LgDeny l))).
  { rewrite orb_true_iff, (LgListContains_spec (g_LgDeny l) d (tw_deny _ Hw) Hd), Z.leb_le.
    destruct (LgBuiltinFind_spec l d Hw Hd) as [[-> Hn']|[Hk Hl]]; [naive_solver lia|].
    apply list_elem_of_lookup_2 in Hl. naive_solver. }
  destruct ((0 <=? LgBuiltinFind l d) || LgListContains (g_LgDeny l) d) eqn:Ed.
  - rewrite decide_True by (by apply Hden). apply (effect_trans _ c2 _ [] _ E2). apply report_effects.
  - rewrite decide_False by (rewrite <- Hden; done). change (KgLockMode c2) with (KgLockMode c).
    destruct (KgLockMode c && negb base); [|by rewrite Hnil].
    apply (effect_trans _ c2 _ [] _ E2). apply (report_effects Path false base c2).
Qed.

(** C14 — The verdict on a loaded driver: its notifications are exactly those of the decision table.
    A file that cannot be hashed is reported unless it was present at start; the allow list
    silences a digest; a digest of the built-in table or the deny list is a vulnerable driver,
    critical (with fail-safe mode) when it is malicious or arrived after start and a warning
    otherwise; in lock mode every other driver that arrives after start is reported. *)
Theorem load_guard_verdict `{!BCryptWorks} (l : lg) (Path : list Z) (base : bool) (c : core) log lag :
  tables_wf l → chan c log lag →
  let v := verdict_of l (KgLockMode c) base (LgHashFile Path c).1 in
  let c' := LgProcessPath l Path base c in
  ∃ ns, chan c' (log ++ ns) lag ∧ Forall (authentic (g_HmacKey c)) ns
  ∧ content <$> ns = verdict_entries Path (FailSafeMode (g_SharedState c)) v
  ∧ policy (g_SharedState c') = policy (g_SharedState c)
  ∧ (FailSafeMode (g_SharedState c) = false → FailSafeMode (g_SharedState c') = true → all_full c').
Proof.
  intros Hw Hc v c'. destruct (LgProcessPath_effect l Path base c Hw) as [L _ _ P _ _ F].
  destruct (L log lag Hc) as (ns & Hn & He & Ha). exists ns. split_and!; try done.
  intros Hf Hf'. destruct F as [F|[_ F]]; [|done]. unfold c' in Hf'. congruence.
Qed.
End verdict.

(** ** The queue as a list of paths *)
Record queue_wf (q : list (list Z)) (l : lg) : Prop := QueueWf {
  qw_slots : g_LgQueue l = Some q;
  qw_size : length q = 64%nat;
  qw_head : 0 ≤ g_LgHead l < LG_QUEUE_SIZE;
  qw_count : 0 ≤ g_LgCount l ≤ LG_QUEUE_SIZE;
  qw_tail : g_LgTail l = (g_LgHead l + g_LgCount l) mod LG_QUEUE_SIZE;
  qw_items : g_LgItems l = g_LgCount l
}.

Definition slot (h i : Z) : nat := Z.to_nat ((h + i) mod LG_QUEUE_SIZE).
Definition queue_list (q : list (list Z)) (h n : Z) : list (list Z) :=
  (λ i, q !!! slot h i) <$> seqZ 0 n.

(** The paths waiting, oldest first. *)
Definition pending (l : lg) : list (list Z) :=
  queue_list (default [] (g_LgQueue l)) (g_LgHead l) (g_LgCount l).

Lemma slot_inj h i j : 0 ≤ i < LG_QUEUE_SIZE → 0 ≤ j < LG_QUEUE_SIZE → slot h i = slot h j → i = j.
Proof.
  unfold slot, LG_QUEUE_SIZE. intros Hi Hj Heq. apply Z2Nat.inj in Heq; [|apply Z.mod_pos_bound; lia..].
  Z.div_mod_to_equations. lia.
Qed.

Lemma slot_lt h i : (slot h i < 64)%nat.
Proof. unfold slot, LG_QUEUE_SIZE. pose proof (Z.mod_pos_bound (h + i) 64). lia. Qed.

Lemma queue_list_push q h n x :
  length q = 64%nat → 0 ≤ n < LG_QUEUE_SIZE →
  queue_list (<[slot h n := x]> q) h (n + 1) = queue_list q h n ++ [x].
Proof.
  intros Hq Hn. unfold queue_list. rewrite seqZ_app, fmap_app by lia. f_equal.
  - apply list_fmap_ext. intros k i Hi%lookup_seqZ. simpl.
    rewrite list_lookup_total_insert_ne; [done|]. intros Heq%slot_inj; lia.
  - rewrite Z.add_0_l. simpl. f_equal. apply list_lookup_total_insert_eq.
    rewrite Hq. apply slot_lt.
Qed.

Lemma queue_list_pop q h n :
  0 < n → queue_list q h n = q !!! slot h 0 :: queue_list q ((h + 1) mod LG_QUEUE_SIZE) (n - 1).
Proof.
  intros Hn. unfold queue_list. rewrite seqZ_cons by lia. rewrite fmap_cons. f_equal.
  replace (Z.pred n) with (n - 1) by lia. change (Z.succ 0) with (1 + 0).
  rewrite <- (fmap_add_seqZ 1 0 (n - 1)), <- list_fmap_compose.
  apply list_fmap_ext. intros k i _. simpl. f_equal. unfold slot. f_equal.
  rewrite Zplus_mod_idemp_l. f_equal. lia.
Qed.

Section queue.
Context `{WinEnv, WinKernel, WinFiles}.

(** The callback appends, or counts a drop when 64 paths wait. *)
Lemma LgNotifyBody_spec name q l :
  queue_wf q l → g_LgRunning l = true →
  let l' := LgNotifyBody name l in
  (∃ q', queue_wf q' l') ∧ g_LgRunning l' = true
  ∧ if g_LgCount l <? LG_QUEUE_SIZE
    then pending l' = pending l ++ [take 259 name] ∧ g_LgDropped l' = g_LgDropped l
    else pending l' = pending l ∧ g_LgDropped l' = s32 (g_LgDropped l + 1).
Proof.
  intros Hw Hr l'. destruct Hw as [Hq Hl Hh Hc Ht Hi]. unfold l', LgNotifyBody. rewrite Hr, Hq.
  destruct (_ <? _) eqn:E; bool_props.
  2:{ split; [by exists q|]. split; [done|]. unfold pending. simpl. by rewrite Hq. }
  split; [|split; [done|]].
  - exists (<[Z.to_nat (g_LgTail l) := take (Z.to_nat (LG_PATH_CHARS - 1)) name]> q).
    split; simpl; try done; [by rewrite length_insert|lia| |lia].
    rewrite Ht, Zplus_mod_idemp_l. f_equal. lia.
  - unfold pending. simpl. rewrite Hq. simpl. split; [|done]. rewrite Ht.
    exact (queue_list_push q (g_LgHead l) (g_LgCount l) _ Hl ltac:(lia)).
Qed.

(** The queue refines a list: a relevant image load appends its path (cut to 259 characters),
    or, when 64 paths wait already, drops it and counts the drop; nothing queued is lost or
    reordered, and the semaphore counts exactly the paths that wait. *)
Theorem notify_appends_path (Name : option (list Z)) (pid : Z) (mode : option bool) q (l : lg) :
  queue_wf q l → g_LgRunning l = true →
  let l' := LgImageNotify Name pid mode l in
  (∃ q', queue_wf q' l') ∧ g_LgItems l' = zlen (pending l')
  ∧ match lg_image_relevant Name pid mode with
    | None => l' = l
    | Some name =>
      if zlen (pending l) <? 64
      then pending l' = pending l ++ [take 259 name] ∧ g_LgDropped l' = g_LgDropped l
      else pending l' = pending l ∧ g_LgDropped l' = s32 (g_LgDropped l + 1)
    end.
Proof.
  intros Hw Hr l'.
  assert (Hlen : ∀ q l, queue_wf q l → zlen (pending l) = g_LgCount l).
  { intros q0 l0 H0w. unfold zlen, pending, queue_list. rewrite length_fmap, length_seqZ.
    pose proof (qw_count _ _ H0w). lia. }
  unfold l', LgImageNotify. destruct (lg_image_relevant Name pid mode) as [name|].
  2:{ split; [by exists q|]. split; [|done]. rewrite (Hlen _ _ Hw). apply Hw. }
  assert (Hw1 : queue_wf q (LgNotifyEnter l)) by (by destruct Hw; split).
  destruct (LgNotifyBody_spec name q (LgNotifyEnter l) Hw1 Hr) as ([q' Hw'] & _ & Hcase).
  assert (Hw2 : queue_wf q' (LgNotifyExit (LgNotifyBody name (LgNotifyEnter l)))) by (by destruct Hw'; split).
  split; [by exists q'|]. rewrite !(Hlen _ _ Hw), (Hlen _ _ Hw2). split; [apply Hw2|]. exact Hcase.
Qed.

Lemma LgDequeue_spec q l :
  queue_wf q l → 0 < g_LgCount l →
  ∃ path rest l', pending l = path :: rest ∧ pending l' = rest
  ∧ LgDequeue l = Some (Some path, l')
  ∧ l' = set_queue (Some q) ((g_LgHead l + 1) mod LG_QUEUE_SIZE) (g_LgTail l) (g_LgCount l - 1) (g_LgItems l) l.
Proof.
  intros [Hq Hl Hh Hc Ht Hi] Hpos. unfold LgDequeue. rewrite (proj2 (Z.eqb_neq _ _)) by lia. rewrite Hq.
  eexists _, _, _. split_and!; [|done| |done].
  - unfold pending. rewrite Hq. simpl. apply queue_list_pop. lia.
  - do 3 f_equal. unfold slot. rewrite Z.add_0_r, Z.mod_small by (unfold LG_QUEUE_SIZE in *; lia). done.
Qed.

(** Rounds of the worker, with its buffer, until it stops stepping. *)
Fixpoint lg_rounds (n : nat) (l : lg) (c : core) : option (lg * core) :=
  match n with
  | O => Some (l, c)
  | S n => match LgWorker true false 0 l c with WStep l c => lg_rounds n l c | _ => None end
  end.

(** The tables do not change under the worker. *)
Definition same_tables (l l' : lg) : Prop :=
  g_LgTable l' = g_LgTable l ∧ g_LgClass l' = g_LgClass l ∧ g_LgTableSorted l' = g_LgTableSorted l
  ∧ g_LgDeny l' = g_LgDeny l ∧ g_LgAllow l' = g_LgAllow l.

Lemma LgProcessPath_tables l l' p b c :
  same_tables l l' → LgProcessPath l' p b c = LgProcessPath l p b c.
Proof.
  intros (H3 & H4 & H5 & H6 & H7). unfold LgProcessPath, LgBuiltinFind, lg_table.
  by rewrite H3, H4, H5, H6, H7.
Qed.

Lemma foldl_process_tables l l' ps c :
  same_tables l l' →
  foldl (λ c p, LgProcessPath l' p false c) c ps = foldl (λ c p, LgProcessPath l p false c) c ps.
Proof.
  intros Ht. revert c. induction ps as [|p ps IH]; intros c; [done|].
  simpl. by rewrite (LgProcessPath_tables l l').
Qed.

Lemma worker_step_spec q l c path rest :
  queue_wf q l → g_LgStop l = false → pending l = path :: rest →
  ∃ q' l', LgWorker true false 0 l c = WStep l' (LgProcessPath l path false c)
  ∧ queue_wf q' l' ∧ g_LgStop l' = false ∧ pending l' = rest ∧ same_tables l l'.
Proof.
  intros Hw Hs Hp. assert (Hpos : 0 < g_LgCount l).
  { destruct (decide (0 < g_LgCount l)); [done|]. exfalso. unfold pending, queue_list in Hp.
    by rewrite seqZ_nil in Hp by lia. }
  pose proof (qw_items _ _ Hw) as Hi. unfold LgWorker. rewrite Hs, (proj2 (Z.ltb_lt _ _)) by lia. simpl.
  set (l1 := set_queue _ _ _ _ _ l). unfold LgDequeue. simpl.
  destruct Hw as [Hq Hl Hh Hc Ht _]. rewrite (proj2 (Z.eqb_neq _ _)) by lia. rewrite Hq.
  assert (Hpop := queue_list_pop q (g_LgHead l) (g_LgCount l) Hpos).
  unfold pending in Hp. rewrite Hq in Hp. simpl in Hp. rewrite Hpop in Hp. injection Hp as <- <-.
  eexists q, _. split.
  { f_equal. rewrite (LgProcessPath_tables l) by done. f_equal.
    unfold slot. rewrite Z.add_0_r, Z.mod_small by (unfold LG_QUEUE_SIZE in *; lia). done. }
  split_and!; try done. split; simpl; try done; [apply Z.mod_pos_bound; done|lia| |lia].
  rewrite Ht, Zplus_mod_idemp_l. f_equal. lia.
Qed.

(** Every queued path is processed, oldest first: from a consistent queue, as many rounds of
    the worker as paths wait complete, leave the queue empty, and have handled exactly those
    paths in order as drivers loaded after start. *)
Theorem queued_paths_processed q (l : lg) (c : core) :
  queue_wf q l → g_LgStop l = false →
  ∃ l', lg_rounds (length (pending l)) l c
        = Some (l', foldl (λ c p, LgProcessPath l p false c) c (pending l))
  ∧ pending l' = [].
Proof.
  remember (pending l) as ps eqn:Hps. revert q l c Hps.
  induction ps as [|p ps IH]; intros q l c Hps Hw Hs; [by exists l|]. cbn [length lg_rounds].
  destruct (worker_step_spec q l c p ps Hw Hs (eq_sym Hps)) as (q' & l1 & -> & Hw1 & Hs1 & Hp1 & Ht1).
  destruct (IH q' l1 (LgProcessPath l p false c) (eq_sym Hp1) Hw1 Hs1) as (l' & -> & Hp').
  exists l'. split; [|done]. do 2 f_equal. cbn [foldl]. by apply foldl_process_tables.
Qed.

(** ** Loading the tables *)
Lemma DtParseHex64_digest Text d : length Text = 64%nat → DtParseHex64 Text 64 = Some d → is_digest d.
Proof.
  intros Hl. unfold DtParseHex64. cbn [Z.eqb Pos.eqb negb]. rewrite take_ge by lia. intros Hp.
  destruct (parse_pairs_sound true 64 Text d ltac:(lia) Hp) as (_ & _ & Hlen).
  unfold is_digest. lia.
Qed.

(** The generated table: 64 characters per digest, a class for each. *)
Definition builtin_wf : Prop :=
  Forall (λ h, length h = 64%nat) vuln_hex ∧ length vuln_class = length vuln_hex.

Lemma parse_builtin_digests hex cls :
  Forall (λ h, length h = 64%nat) hex → Forall is_digest (parse_builtin hex cls).1.
Proof.
  intros Hh. revert cls. induction Hh as [|h hex Hl Hh IH]; intros [|k cls]; simpl; try by constructor.
  specialize (IH cls). destruct (parse_builtin hex cls) as [t c]. simpl in *.
  destruct (DtParseHex64 h 64) as [d|] eqn:E; [|done]. constructor; [|done].
  by eapply DtParseHex64_digest.
Qed.

(** Every pair of a parsed digest and its class comes from one entry, and none is missing. *)
Lemma parse_builtin_pairs hex cls d k :
  length cls = length hex →
  let '(t, c) := parse_builtin hex cls in
  length t = length c
  ∧ ((∃ i, t !! i = Some d ∧ c !! i = Some k)
     ↔ ∃ j h, hex !! j = Some h ∧ cls !! j = Some k ∧ DtParseHex64 h 64 = Some d).
Proof.
  revert cls. induction hex as [|h hex IH]; intros [|k0 cls] Hl; simpl in *; try done.
  { split; [done|]. split; [by intros (i & ? & _)|by intros (j & h & ? & _)]. }
  specialize (IH cls ltac:(lia)). destruct (parse_builtin hex cls) as [t c]. destruct IH as [IHl IH].
  destruct (DtParseHex64 h 64) as [d0|] eqn:E.
  - split; [simpl; lia|]. split.
    + intros ([|i] & Ht & Hc); simpl in *; [simplify_eq; by exists 0%nat, h|].
      destruct (proj1 IH (ex_intro _ i (conj Ht Hc))) as (j & h' & ? & ? & ?). by exists (S j), h'.
    + intros ([|j] & h' & Hh & Hk & Hp); simpl in *; [simplify_eq; by exists 0%nat|].
      destruct (proj2 IH (ex_intro _ j (ex_intro _ h' (conj Hh (conj Hk Hp))))) as (i & ? & ?).
      by exists (S i).
  - split; [done|]. rewrite IH. split.
    + intros (j & h' & ? & ? & ?). by exists (S j), h'.
    + intros ([|j] & h' & Hh & Hk & Hp); simpl in *; [by simplify_eq|]. by exists j, h'.
Qed.

Lemma LgHashListRoutine_digests items t data :
  Forall is_digest items → Forall is_digest (LgHashListRoutine items t data).
Proof.
  intros Hi. unfold LgHashListRoutine. destruct (negb _); [done|]. destruct (_ <=? _); [done|].
  destruct (DtParseHex64 _ _) as [d|] eqn:E; [|done]. apply Forall_app. split; [done|].
  apply Forall_singleton. set (x := rev _) in *.
  assert (Hl : zlen x = 64). { unfold DtParseHex64 in E. destruct (zlen x =? 64) eqn:E'; by bool_props. }
  rewrite Hl in E. eapply DtParseHex64_digest, E. unfold zlen in Hl. lia.
Qed.

Lemma LgLoadList_digests path strings c : Forall is_digest (default [] (LgLoadList path strings c).1).
Proof.
  unfold LgLoadList. destruct (pool_at _ _); simpl; [|constructor].
  destruct path as [p|]; [|constructor]. destruct (key_path_fits p); [|constructor].
  assert (Hf : ∀ items, Forall is_digest items →
    Forall is_digest (foldl (λ items s, LgHashListRoutine items s.1 s.2) items strings)).
  { induction strings as [|st strings IH]; intros items Hi; [done|]. simpl.
    by apply IH, LgHashListRoutine_digests. }
  apply Hf. constructor.
Qed.

(** Nothing of the guard is left: no memory, no thread, no registration. *)
Definition lg_released (l : lg) : Prop :=
  g_LgTable l = None ∧ g_LgDeny l = None ∧ g_LgAllow l = None ∧ g_LgQueue l = None
  ∧ g_LgBaselinePaths l = [] ∧ g_LgRunning l = false.

Lemma LgCollectBaseline_frame l c :
  ∃ b, (LgCollectBaseline l c).1 = set_baseline b (g_LgTimer l) l.
Proof.
  assert (Hid : l = set_baseline (g_LgBaselinePaths l) (g_LgTimer l) l) by (by destruct l).
  unfold LgCollectBaseline. destruct (aux_bytes _) as [st bytes]. destruct (_ || _); [by eexists|].
  destruct (pool_at _ _); [|by eexists]. destruct (pool_at _ _); [|by eexists].
  destruct (auxklib_at _); by eexists.
Qed.

Lemma LgLoadBuiltin_wf l c :
  builtin_wf → (∃ t k b, (LgLoadBuiltin l c).1 = set_tables t k b (g_LgDeny l) (g_LgAllow l) l)
  ∧ Forall is_digest (lg_table (LgLoadBuiltin l c).1)
  ∧ (g_LgTableSorted l = false → g_LgTableSorted (LgLoadBuiltin l c).1 = true →
     DtIsAscending (lg_table (LgLoadBuiltin l c).1) = true).
Proof.
  intros [Hh Hc]. unfold LgLoadBuiltin. pose proof (parse_builtin_digests vuln_hex vuln_class Hh) as Hd.
  destruct (pool_at _ _); [|split; [by do 3 eexists|split; [constructor|simpl; congruence]]].
  destruct (pool_at _ _); [|split; [by do 3 eexists|split; [constructor|simpl; congruence]]].
  destruct (parse_builtin vuln_hex vuln_class) as [t k]. split; [by do 3 eexists|done].
Qed.

(** Starting the guard: it either succeeds with its worker and callback running over an empty,
    consistent queue and digest tables in which the lookup is exact, or leaves nothing allocated
    and nothing running. *)
Theorem load_guard_starts (path : option (list Z)) (l : lg) (c : core) :
  builtin_wf → g_LgTableSorted l = false → g_LgRunning l = false → g_LgBaselinePaths l = [] →
  let '(st, l', c') := DriverLoadGuardInitialize path l c in
  if NT_SUCCESS st then
    tables_wf l' ∧ queue_wf (replicate 64 []) l' ∧ pending l' = []
    ∧ g_LgRunning l' = true ∧ g_LgThread l' = true ∧ g_LgInitialised l' = true ∧ g_LgStop l' = false
    ∧ (g_LgBaselinePaths l' ≠ [] → g_LgTimer l' = true)
  else lg_released l'.
Proof.
  intros Hb Hs Hr Hbase. unfold DriverLoadGuardInitialize.
  destruct (LgLoadBuiltin_wf l c Hb) as ((t & k & b & Hl1) & Ht1 & Ht2).
  destruct (LgLoadBuiltin l c) as [l1 c1]. cbn [fst] in *. specialize (Ht2 Hs).
  pose proof (LgLoadList_digests path deny_strings c1) as Hd1.
  destruct (LgLoadList path deny_strings c1) as [deny c2].
  pose proof (LgLoadList_digests path allow_strings c2) as Hd2.
  destruct (LgLoadList path allow_strings c2) as [allow c3]. cbn [fst] in *.
  set (l2 := set_tables _ _ _ deny allow l1).
  assert (Hw : tables_wf l2) by (by split).
  assert (Hr2 : g_LgRunning l2 = false) by (unfold l2; rewrite Hl1; done).
  clearbody l2. destruct (pool_at _ _); [|done].
  destruct (negb (NT_SUCCESS (thread_at _))) eqn:E; bool_props; [by rewrite E|].
  match goal with |- context [LgCollectBaseline ?x ?c] => set (l4 := x);
    destruct (LgCollectBaseline_frame l4 c) as [bp Hbp]; destruct (LgCollectBaseline l4 c) as [l5 c5] end.
  cbn [fst] in Hbp. cbn [NT_SUCCESS]. subst l5.
  assert (Hsame : ∀ timer, tables_wf (set_baseline bp timer l4)
    ∧ queue_wf (replicate 64 []) (set_baseline bp timer l4) ∧ pending (set_baseline bp timer l4) = []).
  { intros timer. split; [by destruct Hw; split|]. split; [by split|done]. }
  destruct bp as [|p bp]; cbn [g_LgBaselinePaths set_baseline].
  - destruct (Hsame (g_LgTimer l4)) as (? & ? & ?). by split_and!.
  - destruct (Hsame true) as (? & ? & ?). by split_and!.
Qed.

(** After the guard is stopped it holds nothing, and a load-image callback that still runs,
    wherever it was when the stop began, finds the guard not running and changes nothing but its
    own in-flight count. *)
Theorem load_guard_stops (l : lg) (name : list Z) :
  g_LgInitialised l = true →
  let l' := DriverLoadGuardUninitialize l in
  lg_released l' ∧ g_LgThread l' = false ∧ g_LgRegistered l' = false ∧ g_LgInitialised l' = false
  ∧ g_LgTimer l' = false
  ∧ LgNotifyBody name l' = l' ∧ LgNotifyBody name (lg_stop_request l) = lg_stop_request l
  ∧ g_LgInFlight l' = g_LgInFlight l.
Proof.
  intros Hi l'. unfold l', DriverLoadGuardUninitialize. rewrite Hi. cbn [negb].
  unfold lg_stop_request, lg_released. cbn [g_LgInFlight set_life].
  destruct (negb (g_LgInFlight l =? 0)); split_and!; done.
Qed.

(** Giving up on a stuck callback takes the queue away from the worker too: the stop sets
    g_LgQueue to NULL before it signals the worker, so a worker that is already awake for a queued
    path dereferences a null pointer. *)
Theorem stuck_callback_faults_worker q (l : lg) (c : core) :
  queue_wf q l → 0 < g_LgCount l → g_LgInFlight l ≠ 0 → g_LgStop l = false →
  let l1 := set_life (g_LgStop l) (g_LgThread l) false false (g_LgInitialised l) l in
  let l2 := set_queue None (g_LgHead l1) (g_LgTail l1) (g_LgCount l1) (g_LgItems l1) l1 in
  lg_stop_request l = set_life true (g_LgThread l2) false false (g_LgInitialised l2) l2
  ∧ ∀ due rounds, LgWorker true due rounds l2 c = WFault.
Proof.
  intros Hw Hc Hf Hs l1 l2. split.
  - unfold lg_stop_request. fold l1. cbn [g_LgInFlight set_life].
    by rewrite (proj2 (Z.eqb_neq _ _)).
  - intros due rounds. unfold LgWorker. cbn [g_LgStop set_queue l2 l1 set_life]. rewrite Hs.
    cbn [g_LgItems set_queue l2 l1 set_life]. rewrite (qw_items _ _ Hw), (proj2 (Z.ltb_lt _ _)) by done.
    simpl. unfold LgDequeue. simpl. by rewrite (proj2 (Z.eqb_neq _ _)) by lia.
Qed.
End queue.
