(* ===== verification/WinHashes.v ===== *)
(** * The shipped digests (windows/src/vuln_driver_hashes.h)

    The table the driver is built with, as the header spells it, and the check
    that it is what the load guard relies on: every entry parses, the digests
    ascend, and there is a class for each. *)
From S2P Require Import Prelude Sha256 Uapi WinState WinComms WinMitigate WinRouter DigestTable WinLoadGuard.
Local Open Scope Z_scope.

Definition vuln_hex_00 : list string := [
  "000e984d3eebc54259a24a17745eed07d9c3658b86462cb5ebc26381302f7a38";
  "001cd8b2ce1932d1a8c32bc2d643ee4fa6f67626d1b6895beea916285450566c";
  "00231ea698565270bf9f542e70490b7a5c6740c2da6699ab548dca0a97ca3171";
  "002616bfe5bf3b13868d649d74ffe748317e3b0b33de8b9008683c906a0cae83";
  "0058db5dab98d570d418af5c2ea15333bec7723b5819ab4f433d7e7760fae8ed";
  "00716eab8a3277128fb5ea8b1ac863e4b81b40674f7c6eb0f201e96341fd87c9";
  "00b3ac33836f15ea53e81746ffa7c2888dc3c98492b59a97ba5a0a64166900d0";
  "00dfeab446afecac7b44b0b1680d5ca7d421eda243e16db8c08706bb593a8391";
  "00e341c11664a6330122830344bce02aab886143bcaf8f642ab8abc57d80f1e3";
  "01096e6d09cad1af557561f678e70434355a4d07a94ba97774957c16e87bab6a";
  "01447fccc18760cdbe70f3eb020d5944d56926bcd16da2cc3a07236e87e89a9f";
  "014b08b368700360821dc007724afe3f4305bf5fbe09fc0d24f5865f19ace197";
  "015956494226d4cbb89283c7b915a46353670c7d41e02f0f2ba741c0d2c73615";
  "0174cea1dd70b374f355126ae6be650dff95897d8c8200caac91d4f9e5e5b871";
  "02576ccba2ff02ec564bef476ac55a92a16222d63c97550fb3d780f5c3de17f5";
  "028011ae3cd1d972b7c46fc8261f583d1fe5dedcef02ee63ee532b3668bfdc25";
  "028aed97e90c5a231069a3fa0853c67ea5853c4bbfea6247c6f4b53509581d05";
  "02d4eb48d6e2ecdf94d58b580dde17e899c161d3cf42aed4d4fb4ad7a2d9255a";
  "02f63773cdd991c891e10044633630154ae6fa63dbfe9b35082e48d4924f2dde";
  "02f753c1688c4f398e1e1ed47384791fef6628bde58f740448f8e0751b321b85";
  "02fcbc5372c9bf31903376bde11d558ab7c7f13bde005120e24bdb1aef5d0134";
  "03192bacd96989bad4181609295764f61a86d2ec9f7918a90a219e674ae3097f";
  "0327ed69df7cb167b411f199c43bd4d69c341328b979d4d157a1537bab57aa2f";
  "03720e3f26c055778017b6dac3dbb68dda97d5ca730f8c354a829ac5cc4ec6c9";
  "0376d4554b4828a7e3721327cb4c9977301c02eb8c50d10d376d3be623d71e3a";
  "0381632cd236cd94fa9e64ccc958516ac50f9437f99092e231a607b1e6be6cf8";
  "038f39558035292f1d794b7cf49f8e751e8633daec31454fe85cccbea83ba3fb";
  "0391107305d76eb9ddf1a5b3b3c50da361e8ab35b573dbd19bf9383436b9303e";
  "039f442ffbda7decaaf1e367db6fc6f28cc73d549527ef5bedf2be8badedbfd7";
  "03a54ad77fc453c9889e170a811d232a305d46fb7f59582d3f1cb234598507a1";
  "03a831e18d933954d432187835e0d6aea8bf10fd84dfbe36a23366e2b0538a11";
  "03df432d7ff56ed53fd050b1875f5a05dffbe1c999adf2dd6c8d790b7ffd2c2d";
  "047c1d5bb80826a6f66c182fc8b5f66f59609a71e734117f20a4f98b9866bde5";
  "047ce557cc7bb580af457c151233b5114de6efbc9bf5e8c919fab453cebe5fa6";
  "047e4158225af627382c412fa1f870479a238841341bc13e60312269feb14083";
  "04cfb452e1ac73fb2f3b8a80d9f27e19a344a6bf0f74c7f9cae3ae82d3770195";
  "04f771d72a812fe9dd6bced402b36b081c80bd3397fdd66dbaa44906ac088159";
  "051dad67cc6cb6b6e20b1230b04c09cc360d106a6b7000e0991381356ace0811";
  "0527451d72ba02db8479ea69689350cc563b939bb2cc685386719ab32b7e2772";
  "0539116b397996d77f961309cefae95af4af97fb8b5113acf4459c417cf39668";
  "054c2b8c5e89a2bff72eb6e1169537cf8654b614d9aac1e1e3d8ea02343872fc";
  "054f04dc0ba1b20701c6f44169ea0fdd27b01a8450a44cc273b0eb0c91cbdb68";
  "057e45b47fe0ca96fe3741058bc4365c9a866dff925cab8cfea4c161b990e8e2";
  "057e6a58e3515e56eab85ccb8ec5086552b7de98c886c37f6a5284c002615565";
  "058afe9e93dcc52e64fc0942b80a159b8617608c15462a7a17984de3cc0b8d04";
  "058c4fbd3a12f0d7ddfc771067f03dea88cc33dd4b61139edcb0b2d17905f084";
  "058c84860fb9fefd4c5cec57b6ef9f43146a6509b6894f2a27fb5a2dd16d578b";
  "05e2d2f2b58da5391598d30d7f5f33ae38cfeb0d9b9ae19b4312de39c678f301";
  "06967882fae2160cec07ea7b31685deefc61e1e6153ed8e87ee8a1f7086afc5b";
  "06c40abdf980ea22c8c4c50d9599db95d586354a8177e2cd670124e46a22a1f1";
  "0713a541b70f58bbcd1807c69ae855e9ce041b807e34978df6c1e9357c53acef";
  "073ea5ba764b889b611816a73efab36882b5158641084b7431799b62d0ecc45d";
  "07736986318dbe12f8562e67b874d679baa4f914c2b0a798d4d7f664ade5e3d5";
  "07c0239c548fdabcb18ac3b54001edd0f8abffd8285e39662d7632a26456d58b";
  "07e8a7f0fcc8be78167704c6679c70ea184961f5a5bd2066620a4b7eeb939885";
  "07f962d8b90f359cf12faa55772d0ef05237ac2fbb2ff7d5cff700df93643e65";
  "08209cd92723526d56863e89f283750e2ee57c69db37ae501aa889c0c60bb552";
  "0820ae4ffc5258b49787423bd392cd29a6a77777b955dd210a41238b02f05c3e";
  "082adcdc2d246d2291bcf135a7519840a84f27cfa3143d1372a9e2aa5e514dbd";
  "083828dd2e4afe22f5d27b56bd7f5a60e43aea7ec8f8cb0a138be84ee639a09c";
  "0867af893422b7191e77907de58faf787d4763cc7e9a2a3a91c72f1995a9c3f3";
  "0895a8fa3ee38bb38cb9fcd0183cf9466c7577eab746b3540bd0b2f282246dc6";
  "08b5f31070e370fbbf4f6e9a99c594c6e33846c82a56c773116705eda3109b62";
  "096e1641d26aa971dabc7de17c0259d3aa922091e38928ba7847e4ead64b7f41";
  "097e26ab94ce6ac36fe5713e0120c805edb048e30bcfa317fd7025f50b761e92";
  "0988d366572a57b3015d875b60704517d05115580678e8f2e126f771eda28f7b";
  "09bc9d0606d8b96f1d9fb18741bdb43aa5c188981d298df047b8c75351d68653";
  "09d6169da055725274a8c53c3139baff8ceef52346e5a910e735bb17f634f8bb";
  "0a06c3ad018bf9756293d858418493f66ca807f67b9a42e72b96276a96bcbe7d";
  "0a1d5ba96cde7e8485077763e34738bf9c2734c81440ecab82ff63606a50dfb2";
  "0a2d4815a03365d40b2b22981d4d8bee81bfbd983db1af30ce497fcdf77f83c9";
  "0a3090ae46b3ce5f4cc6ba2d4dd265033e23c813d5c1e9c7a20a84d5d167dae3";
  "0a3b656fe3eaca840eb5225a5f85816b350d1e052b0cb696d1853503a3a1ea03";
  "0aa61910c3ceb765441c35925a50983b2571ac22da510f1495cf82f078b535b6";
  "0ad2d2fe1b16e42f43788dae1f0f45031b5025ef6bcc52360e18812820682f04";
  "0ae3c446e5f075e8fc3db31eabd744a65b2c50a9b4a52877873547951bc19bc9";
  "0afba623a3ae2726112c6458c212bb48b210566851b7604ed3fbb880ffd3859f";
  "0bc755f3e24023d931c637b4c734ae3a4d50567c87fd025114e0520413721751";
  "0bfed811a8ae3fa634372f74f0d70de1e0183612e91f56ae034486571b55b88b";
  "0c0e58989b97e30979bb3e2800b74c546ce6576b2bc7766a4b92e7e89086766a";
  "0c2d8e8487de5e7749f9899f6fefa6e7d40b394479449b5027a895392af23349";
  "0c66ca63774f8aa697fe172233283af90db88902204524294a4df212f9f0b949";
  "0c7809ac1fa074408518ddc0ac118912c9cd43ed9c89213bc4d59043016b040c";
  "0cab01269e7f3af351add0ac19ca9cc781da658cbf078499ccc3e699f8eac5dd";
  "0cb429e6daaba89111d2edb3e01ef1d8ac9b90813b9d80292fe8050287a63146";
  "0cde416accd63c33ac9f4fd7bb6426c8bc3e6a18a335e9bbfea7cc767c30d3b6";
  "0cf72a6d8c4add613209a1af41c6b09013fa688c9841210b5ff1d2908d99bf00";
  "0d0962db9dc6879067270134801ad425c1f3e85b0dc39877c02aaa9c54aca14e";
  "0d7099bd4a0714a354cfe36f312d907843bcaaa2a1e3dcf269637f58920b1e47";
  "0da70668222c4472540ff820f70b70fa3a0243595880d9401adf60572c24b464";
  "0dbd363c5cf7878d2b375554fb23b4986cc1e40baed15255ce5336618c70a8e7";
  "0dc9021f0c02e18f4c3357da42630adf515655b9473f93385c5c157efd5da4ac";
  "0dcdeb561d4cbe26be3a68ca205f6f0dfb0de6df1757c996474bc6dde526dc0c";
  "0de4247e72d378713bcf22d5c5d3874d079203bb4364e25f67a90d5570bdcce8";
  "0e121d80264c51df9a6fca2f2201d75ccd4dc29d9566bbf0975bb05759e9c6c7";
  "0e1b9e8c711b06b5590ebf5f2499337041b0cc885961f18a77317e97e0690538";
  "0e291148da43ea6a491b8b94bdf573365087940c9b90f6a15a4e589da86a518d";
  "0e798af89d717eaed16d9691f06bb1ea61dbebafd2cbe734af5e2a8ed421a4fd";
  "0e955e57f078a2c0de7d113e85859bb3e0fcac772a5a1b9b9709a90a86ef4cd5";
  "0ebaef662b14410c198395b13347e1d175334ec67919709ad37d65eba013adff";
  "0f4ca9e9507724526f2b624d165750344473d388da38b7f3f6a8366dbc15140b";
  "0f753015dfb54e11585bf8821fcc036dc8dee1f4165f26924d03fa38ab7e3d67";
  "0f78dd64abcb5a3e1d60f9e9c92422f34a52e009770e6434d2d8aabb6d370737";
  "0fd2df82341bf5ebb8a53682e60d08978100c01acb0bed7b6ce2876ada80f670";
  "0fd3e7810b7af01db22a46964389f4483ef8d58b3468f32fd1b034bf80d63c2e";
  "0fe7b0aaeb4b93840492f7d299a5ac481feb74296afcda1da4214db40856f003";
  "0feb05a7cc11793d995c920779cffeae68afabc54ffa8d8c361e5ba44fa57c8e";
  "0ff8bcc7f938ec71ee33fbe089d38e40a8190603558d4765c47b1b09e1dd764a";
  "0ffa2791abaa004489427b2c187b64db87b49aaa0ffb2e576f0c982dbe62c62a";
  "0fffcee9a0270a8160b48885799d2ac099f2e4ee915d3fc3302786e7b83a9429";
  "103c1735b0ad3fc22070c3268580cd3fdbef0129a787dbc51bd5d36639515a8f";
  "1044ea40d459fe4c619a44afe53e6ff5a9cc5a37cf568d974ae23ed62da58759";
  "10576dad4928b01c21ecd2ed9914abba8bf4edae964d5d9d3c0d64ec7657f3d3";
  "106ce1afeb0f1177c68f827821dffa6c78942fc896475fafd741501b3091a5c4";
  "10d0c1f97625ee033b0bdf4136d47a34779a36cf83b82410722ad51fa50df5a6";
  "10f4336d2e8f667e8da6dc127f444c1c304ab747e2dcf1f565ac15d1a2f73339";
  "11101d0bf398ae0631904fff00431e0f23c0b13ca47055cafd797b2b48a6d44e";
  "1126c9b043872383e5e0b1ac893ddf2238a2c130401627b259c81d98a3cefeae";
  "11b0e5d7971aaa2a6c4621f068af390f291fd796c202369605c2e0c7940f50ee";
  "11dc70eb8864bc00b4b8e7c62a52c4602864e2ec717cc0606e1252b119c91085";
  "11dcfa779763dd6e26344b32dd779bb49be470a7b9b43b5f03738c17fed06aa8";
  "11e3d9aa67ef620a452458f67e101aa513c7fbcca8f35e2e5d0e3403d9dee937";
  "11e76c3f091b3771d881e82f7171e72228bd43877aeea9008d7de4bda184aec2";
  "11eecf9e6e2447856ed4cf86ee1cb779cfe0672c808bbd5934cf2f09a62d6170";
  "11f0f2395b3e7a9849bf3f050bfda6b48ae2de856d8541a16b51d9097afb8306";
  "1204026fdc9c859960ee561eb9f1fd9ebf6c88c78c5d4cee35ef029ad5050ec6";
  "120f7983011211e6740d7a3a4cd2354507866ef7d36a48e2e3a9bd5b52c21c8a";
  "1251eef40b877fd379c175c02bb83e230fa5acd30020e54acc0718ab326818b3";
  "126719d008d106b7100ae47ed47666c1334701bd7ddb32d5b8e84048f258700f";
  "129bfa559bde499f748cffc218f2b7ec4b22ee3114ceae8e386fbbe4e58e4523";
  "129fa1795cffca9973f59df59f880a9f2bdb3aa9873363f8e2f598ccc6e32542";
  "12a636449a491ef3dc8688c5d25be9ebf785874f9c4573667eefd42139201aa4";
  "12ae98c0f1d7209cffe3bc8be5b76aa1f4faba40af99a6dd299462cdd3820c94";
  "12af7c39519e16307c2c62a84ca40017b43acf7fa90ec97c182701ffcffa1b61";
  "12d5000637d3894acd900082f22efd5aa2133b679b1cc145444493e25297f1ee";
  "12efdda6610742200f52d2fa41f722757a2b80dbf4107e7c4c437e5437d1db3f";
  "13002b14aa6e63dc7117e2969d038beb009dbd6093a4590c6913b426d773dea3";
  "131e84e32dae6954247fc0699d5ba52bf2936b5a782c795ae9e708829a5c26d6";
  "135621810a6cf5cd73ce2a08c5b1c35111ecac44bc0e1a8e241f328f6f7ed5e9";
  "13999eb266b759e879816fdab640d59ef9e35e2ea61575810979d9eb22fdfd4d";
  "1399e65aa55c898a6cd5fb32d4b19f5bbaf69c56c1383963c99b7a0804eb0203";
  "13a64ee87e5e407cb592026b7d0bed501a2ae5bfaa33312d89e0f62fe4278828";
  "13aa698c09a31d642d3e2a9dd03be2363b11b4024689fb6c97234719446dbbd7";
  "13b82d81d6eac1a8b2e4655504dabecbd70673cdf45c244702a02f3397fdff9a";
  "13cd99ff2120d9fd651814d826b6c8481d549f684a8fbfb2d8775c9faa1c27f5";
  "13d7c729c019c1c5a4b3e9fb27d1dd0b992fb7099f4314e011aafcb3472b7107";
  "13f85a2966610799c72c917262e9f3431891b87780fd269d52e4e11b32808d06";
  "1425075f7a3f009f703ca8d5bbbfe2cfbc1a7de7f5e17d50708ba99dc0f668ff";
  "1452103306895429c54ba1735800b8c8694c3165cdef32ca12ed6ce348019292";
  "145b3490f5d3f45dc014d8c14112e9973796024ef1e896a10998f08bba45d8e5"
]%string.

Definition vuln_hex_01 : list string := [
  "146d77e80ca70ea5cb17bfc9a5cea92334f809cbdc87a51c2d10b8579a4b9c88";
  "148ca220316fe9a0af2b12ed9528273295009d8568bf4c47fbfd4605f0ce2acc";
  "14a0a9fe317192b54fda1516f46af78e6aabac0cf050bf18ec1e5ddaefd8e051";
  "14b04931ee50e5d2560f42cc33b05f047886a8a7d45b3274ae78e5646a1cf1a5";
  "14bd76f66fe5749d1812f7cf47cc5f9a8a830c53a7ede5e42a14a4140a70f5d2";
  "14cfe7b4f7572aa3434ac5dd458a35f286538b34734cf7a310fb7bcba209921c";
  "14d8ec21cc6bad738a8eef146506d04c64282bce01d9659e7f4dcdbff95e4c34";
  "14deaf22605904971fe757778cec9e46a0fd59a1895491760740404843929481";
  "14e6f0d5f93dc52471af549de1c91c1fc1d9dbd175d5932c17e58e6b186694c9";
  "14ec631a3cff171b86e2b0279c8db436cb88ec705c517bd82a964e2c59def92f";
  "157ae92541eda2f5035435c63e1654adfa45c06e37b05cbb60d76a63daa93f04";
  "157ce9ae0d09766cfa3e5be8f90e2ac510f0ce3a0bb7cd97e3a5f9aa20c76661";
  "158f9e2bcec73e821d5df17c1d5f9f46f23ecd9f6cf101588578235240f5cca0";
  "15b081ec83a89182b5bb0a642d56513f40810b5b0a42e904ab6d3fa8f34c0446";
  "15bc804877a607ba0d017df9f6ac951ac7ffbcca8069c5ba28e0cf505f7553b8";
  "15c53eb3a0ea44bbd2901a45a6ebeae29bb123f9c1115c38dfb2cdbec0642229";
  "15ce830a64d7158b7bf45f3eeaa6fdbe8b5d47835a12608296f9cd363bc092ad";
  "15cf3ce2a0ee32488de26222492842a378d6b8af6924578b35dac89fb0c7cb5c";
  "15d44fa77f8d922b5cf03425116c394eefc20ae9a082d3d7f10e68b832be36e7";
  "1622ac0c618a86be17e0f97daa061f9aaa0e721dc0fd30d76bbc5c958e9a9d92";
  "16274f4d9293fff056268a2d53c1a2e27db26d6b643f24651b5f2a0c055b7f40";
  "1631d124bd8b2917c37abfe0f7b3dfa9e309ec54f69bdab2e2b5de3929d523d7";
  "16398965e9cea179b2e5ca884e3af032dece08d4ef33bdd83234ee441d71a5fa";
  "16a1977a9251d6d4bec86bb0702a97bcaefa94444bbfe3978af2f79ee10d62a6";
  "16aca71339240826d226f4adbfa73ea7b065f0f2d145d82d6ac2349d2ebba0d2";
  "16b6a65d569ad3d0a1ff5aaf2374c28cebab4a289ffee42b79f7a48d5979b579";
  "16c63f5ebd96caecae3581a91b949ccc803cf7c18482448d19f9433d6d40ebee";
  "16e924aa8ced646c2ee99602b523f511ea386b78ed78a3d265a560fb64e88ee3";
  "1716d4c523aeea9703032ca93eb9668b9a16f542c00cec248b0a1c132d80bb15";
  "1748436f8e9c251b2c0d1a33499a1aa1a06ae961e1c9911e8c172fe297ab1feb";
  "17a997feed57712f46558b4c99766d5b7722e1b095133b6b391a4743140e45de";
  "17bdeeb4447f0758c3720991d3ed43a405efb49fd2cdbb37f7b5feb349693acb";
  "1822e496ba402b26d4a736d4626334752d0be76b4a68cc2e799e7a9db4a69515";
  "1848cb34d16559e3c8232c369d89fc12b5720b58300d8c4c21dade6e3ea8d585";
  "184cc3969b79f1856614bed64c1d5562d3363e13a92176f2e9a9235a4aa7d051";
  "185a44e928571d883a1175945d273b493da07fe4b49c52e88eb336980c855152";
  "18bea05d56bcbc0e23663db9b6dc79d9db3a218e711415a1e420dea2e183cb5e";
  "18dfe852fade6625862cc963922c1f2389a296af96df11eb7b62bbeddd61e18a";
  "191689c53195dbe828f406b206cb167dcd4671ecdab32b80e01c885f706a6baf";
  "192a27335de23a008c05efe24ea1fa0f633dd8ddc68d904466e4e2741a0bb645";
  "1933f27ebebde55942291381219497019077548a074e8dcdb120c94df1a2489e";
  "19595c3de596f8b705eef1b135768d3051305698ceed083401f8acfba4bd5393";
  "195c81c620c90f2a1579c56bba3fa7effd6cd2e41c350334ad09e5ecc0bc68ce";
  "196c803aa8217eb8d2783ad9750cd27bbe540a449480c842cc128cc7a5a64f04";
  "1970400679c3ae7000f1ba3e0f12c2d5443df7fbb8947cabe45c7ae977806efb";
  "197896f4764d0c9e146cf532bbc531f93e6d61dbf28d25e3e96e2ba48d2b6c6a";
  "198a4dc1c4bd7eff31ff4d1952a592170b25bfb5fedcd9d5d4c4fd3707337e42";
  "1997b7217dfddd8fbd4924e86b58fe585ef4bd91c3069d3deeb34ea70eb82d60";
  "1997e2a6302f3196975f858fef63188a249f79b6c2982d31ae07405e8aada58f";
  "19bfc95d74b27684e420b985589105d51772100383e7c3790a34ae311fee03d8";
  "19c74ea0e0baf04820e5642bd2fa224158801ed966be1041539e3c55bd65c471";
  "19d579e5a08bcb524405bdcbd2ea7247548af9f23ce64582a5be5ae3f184ad23";
  "19e80663f055a038621c6de731151e4e8d6f42fde359efaf2ddeb49c62e317c4";
  "19f89530b8caf720c91c82977132bb1fb2afe695b426b51a1ae1b35570805f32";
  "1a166e70dcaf3ef12836db1927953ee528e532cdae8165e67d776971e4cbc48c";
  "1a8a5aebf83d1fa6daf74e48fc600e22b8fdceafb5dd7c7e14db2aa2a28e8c24";
  "1a902521c5f82ad9acac815229a00e6ed9137b8d49106b64147b088ff89d0f01";
  "1aee4d8a00f126582c4488025c7451fdbb9d0becbbfd58a396a2ac52011fac14";
  "1b14ff6a1054fa4bae158111fbcaf35baeedaa9b664c8fb7241db98f7e1c6c20";
  "1b3a8c75a3baa3eb37b7c768798cdbbb0cf9390c05f6769691652fd73a239268";
  "1b845e5e43ce9e9b645ac198549e81f45c08197aad69708d96cdb9a719eb0e29";
  "1bd6a40e294f4f74f9baf172f5a3e21dad3b7e31b5757d91bda309bd54a72fbe";
  "1c0a63e8a6a335f2498794f44cf5629453075f31db314eaecbd964cf615de3f7";
  "1c271dfdb905e1fbbb26a62869eef75882684b99095b55e768d433c684365560";
  "1c4f56281d762bfaeb2168c13f3349611c8e3443602d2015540a742d6e79e6bc";
  "1c55b6620216c195ce24ef21e6ab7e181146fccf17c06606c4cd419fe3e45bd7";
  "1c8cb72b9a011b60b1b9caea508b26fbbd95a1e3634af66082417381fe6544fb";
  "1c9c86ba5ae540bb5729626cdaec89ca421f8129e4bbf6e1ea49c532b44ea0c9";
  "1ca20c63d8f56c09c48d0faa1894f2e3fccd4b029fd711d9864355e5f29c19f8";
  "1cad825ef477bdbafda6be0bbe9149d915560077d9017655fdb7f2233da9ad01";
  "1cda1a6e33d14d5dd06344425102bf840f8149e817ecfb01c59a2190d3367024";
  "1ce001eda18c7a0636c4053848a1ae69812704795ab057331903d7002d688027";
  "1d1bd2235d422954506b1bdb3070d9d8bada3fb7f9e4f658036031294b3a95df";
  "1d5ded14ba7821a1021815e70399801bf87dadf9b9eb17325e3c918d53971c8e";
  "1d640783395631c1b4878ac7945f227c4c4f64fe26dd30cbed755dc440931e85";
  "1dcdd1efab9abc25f4227b37f76da295a6dc4cf810875ba34ee1d465eb709b70";
  "1df739ca8e7763776f84b421c7859fccb2fbfd47cf27f9980f646597f5ae7836";
  "1e0133cfe93c0e1cdd995b8668134bafcd35976c8f02400112668d91da7eb34a";
  "1e1f20ceb2bfe9f38b50d6c997dbad032b2a79937ef6b3ce41b34bb74fbd24db";
  "1e556fc49ab6caeb5b835abf683ff04a39f0e467ea5607187c8b2fcf2ca77314";
  "1ef80a6b63766ca36e2f2a7d29c49dc5859a58604bd8fde15011d8c379f76e01";
  "1eff553cab0e6db50aa18e1ea10fbc9349b7529c938df4bed580f037cddd1309";
  "1f210a62de46c5acb868a083465b94287331ec28acd3b269e64ab6c3f372021f";
  "1f3723c9b29af85555813a5fb7ed07f9d83de3096064833dd35afa485413c312";
  "1f43d0680cecea2db04d2f2eff7ff37a13beec280e62b76b9dbdc38d0e225fca";
  "1f4647364210b9ec997483f9a707a733c4e1b59263c1046301dee90890273f34";
  "1f5e9fc579028d5cae916743528891aa39a4eecb3f573ea522eeb8da97f95953";
  "1f642b5e76572b80684d15bf48bb6e2b6d2743171280ab50502284808a515904";
  "1f8812611cf7120e89e769cc908fabc0c9e49b27fded8dde6a3de51d9ce34f09";
  "1faa125c9442b20c646411f629dd48afe2d962554c45fc4a8e2d45c1fc611b6c";
  "1fd7a44b042d397ad5a6417e4aa4b30eb2e40df6274d3ac7155ecc68c88cdb6d";
  "1fe70267698ba60012ca4c2c0f21325236bafc7b42fa977a09afa6a0c5ed3784";
  "1ff54579dc4b76e814495d8e1d452a6f868adf06c2de0afdc5c3878b380d0a17";
  "2018ad5f3695295599f756caf556722291485cd67eb9c3f7ec701b206cca4e00";
  "202f7501dbbdcd859b0211ab54f340723d005becce499ca1b3d8469e73529848";
  "206f6277ce57bd0e7d0a29820cb6adb733f92473789605ae41f4e79016e614de";
  "207b6cea0c9f7e94a912b388d5e9f7ace3b6405114f64bcc425042a09170fcac";
  "20c87381f8f0bf953cb109a5d50a2184c0104cc8ab30e2f94dfba89a5d19b9d8";
  "2145851bdcbf8419f09fd7470422dd56be1b415b15f39f0632bdd797cf500b36";
  "2175f4289f3bae19b058e5a4f590c200bede255cd2716dfb054d5e0840f70359";
  "219b46c38170f469d51e04008074ddb949c29c02b3ed0be10aa9dcafce4e7668";
  "21a6689456d9833453d5247e4c5faf13edcd4835408e033c40ae1a225711ae8f";
  "21a8aa12aa944658f05694243e4d7b9ba07ea24447b539d40977e9b7fa19fed1";
  "21af8e034ca42ab24a5d1623f70de9c66eeea63d72aeb0f1846b1e04dbdf4f51";
  "21e6d9229f380d5e9591beaa82bd93547f517af90707d7757f0e27ff4731b484";
  "22074c412bb82bd97768eba0cb40e451d75d969e94d0548af804aafc04ca02fd";
  "221369498ae77e0ff60ce2f59de6ef2bbb01aca8cd55d7a8487760068f5a544a";
  "221dfbc74bbb255b0879360ccc71a74b756b2e0f16e9386b38a9ce9d4e2e34f9";
  "22285768c76fc7cf3e5439c9981ffa8312d7307f51f5e89259913816f195529b";
  "223173a4fcf3c59b84e482303d1368e5ec81ecfa7e5b3af1ae19a8d2080f15ab";
  "223b320fb86cd4a1019ce31ac6901ce6bc41792810bd995db232dad790398852";
  "2274f63f88ec9b2d2ecfca3068026d62cf3085f76329b11b37498ce2b2b644a8";
  "22901319d041f2650d1ade9a8f66f7e6993800d1c20e6014b7da6642d0e8d90e";
  "22afee6f0ec783d59ef4f5d6c189b78fa26302f0ed09670b7bbc9bae26bdb0e5";
  "230fe99d425e870cc03383b195d5a8c0ef3d191baaa4104f6f4cdee4960c48fc";
  "23354a3a8bcc7d51afca16590c18d158f5eddc41379284d4ac373a76029efcab";
  "23440de2db935be1c06b40ff2809215d00d95930abe3fda70ea57cf8a9fc0e98";
  "234664ae69df63d55c1477f3adc33ffdb130fc939c55c16e73e3339a133bcfa3";
  "234fc829bfd4d8d5dca351be176f5a06cb29bbfd5632a93cc218936d32a44851";
  "235ab6981b521a424026926ad7f5d19a188e17491933e76269ad9a17a79ccc24";
  "2381e9fc518488f51e3ec49d5ca4e59d10727d20678067ca147e50b0c4294f9a";
  "23ab90e1990b4c5250f7bacbc7ff90e989583a2ccacf4ba333255f1d385d0ad8";
  "23be3616a4fb4e620f971e4348dc46b7980abca6463be3cb4b83769a955f2810";
  "2418301336cd89b7e3bda2f68bc1aa63b8ea9a75da7a3b40a9ee0a9058789f63";
  "24395b622d4fd48864a50978ffd2b82fdded5189741a6deea9293cc075cd0c6b";
  "24944dd620dc265f435cbac929b3078c72b328dae4a52e95af40e170760c4426";
  "24ab8a064b5e3b501914eab88edd1fab75828a9bb4c781e41783283c45d15c71";
  "24af16a81cc820f3c44efc1733754205faffd637899b706f423500ded5f2bfc7";
  "2537f2ad83f5efc841ed75081d5dfffeb04eea92abfb9844adc091ff2a671b56";
  "253a549a1e13a5a7e242ac1b39d5bebc61dcec7794171a58093700ae760d4b71";
  "253ed7f5c7115e957dfdb1f5c6c51592b491a70b27787903c8fd848e45b9cf22";
  "25454028a4f56d3c58747811a86be43397a6290d1a053bc30d97b41bf3c58c6f";
  "254b14e05fd9e0edee406c528a867e848aabb0506ea603e0e51522c907a01c94";
  "254d4c61b2784ba2796fb0b5395d30ff9113e89ef1537f96a48ea50e2ba195c1";
  "2559a34af1cc5cd65bfd4334d053294046e05d833937e3b6fbfe7ddd381d0963";
  "25819a8c8f2ebceef661d751a56a024a5584f8283d9600273e52d18923c9f455";
  "258359a7fa3d975620c9810dab3a6493972876a024135feaf3ac8482179b2e79";
  "25a0854ef48a4dfbc7f04e94d2b11757e3613b241d39d46a19cb389ce42887e4";
  "25bc1b72ba6092674ec561d7de8f5e4a7adb23c29fa68de5b29a30a671257dac";
  "25d16b2b53fc7b52a65616ab7fc04a503946c20fe96556681bfaddd589401f4a";
  "261969a99718fc68b576eb7b58dbdf7c7a781c8f4572b7a77a0be0eec4b32dc2";
  "262268f21c789c2bdaf1950b556456a9a5114ed5759d806200b0cec107bf76d7";
  "2645298d84585fa987450aa11687b73739cbbc26abaa8125099cae5889beb211";
  "265010deb10af80885726edc450867fa69acbde449b51d13bf891322ff5c1c2d";
  "26536758c2247b6251a342d2e80de1753c006a0dce9b3b8a6a5b1d3110c8fc34";
  "26908983e18b807894909d11d6d0fa2d8fbe7544b61184267851c2a839f3b306";
  "26b8e689a13d3434951559cff24fcfe55edeb7b78c7cc16db1a273c90aa694c1";
  "2704a256d2f4c9177462a134f835c1abe206831e594011c69e7655d19c51d480";
  "270bbba20190463a27ae41ec283922b25d397aab31c96cd4eaa47eadaac07b00";
  "2759e2290295a81e80ef5d8e95266aa08d67832c0af51267ad1100b89d8b890c"
]%string.

Definition vuln_hex_02 : list string := [
  "27ce16300ff18f628c35feb43287504da7f38636661692b83bc7e0eb48c75774";
  "27f5c5eb9a5fc9e02d3ac3cd83fc26b07f3d0143b03db69d6dcf7554d0c50fb6";
  "2815c91fe5053899593cec83218b8dff85cfd85cea667dbbf2153cbc3cde000f";
  "283a2e3eb9bad973e2ec439208f1bfb5121f8d9c37019b8a699be212f05964eb";
  "284bf9b08be5d4fd4b10fda6736cf490c66f9adace013c19be2e31cf74bfc5e9";
  "289761eef2976b001879181b97324408e849729dbf41403fb73ee85565667012";
  "28b39c57628cb12ca1bf2f531055c7d57008be5fd424aa691ecb648efe5768dd";
  "28bac5dbcdd887f35f8fef454d5df1f53c18a90c51d8222636f487a0f351f725";
  "28d3a5a85eef4561c4ad08fd83aca4f7a946f8dca8bfb7958a855a80197f68a6";
  "28eca097fd81f4746777518ad1abe19fd5b4c7a27ca03e554148cf7caceb4013";
  "292ada92cd442f78bfafe4098105c5e3f2427589f32ee5999d90b61c422fa445";
  "2952ae305f9e206bb0b6d7986f2b6942656c310f9d201cf2e2dd6e961c18804e";
  "299f36c717c5d5d77a8e9c15879e95cd825f74e77c7ed24e7cccbefeb38a2165";
  "29a04c696d544e36b5b5b054b3bfa8c7a5bc2aa261c48eded8f0265d82ec9157";
  "29a2ae6439381ea2aa3116df7025cbb5c6c7c07cc8d19508e6021e4d6177a565";
  "29a560a11292c4224a401392e091a8f08230fdfea35521035e2bfda0b3d1f952";
  "29b3f3f315179d30fbe75de7b59f09bc7452e6b538ff02b5252c3ee7b26eccab";
  "29bf8618816bce5fa2845409d98b7b96915e0763bb04719535ca885e4713cfaf";
  "29d6155c68ff372a475d6fe5bde64caa68794bb4164f7e1aae7da5b744f6e6d2";
  "2a30ad675142cf411e7e5f5c53c6423de570a398295b0956130a7a7d77383103";
  "2a7ed8d0be70e0667aa14e161ae1dc6b7daaeb1438b534d73b1093c0b44d78a2";
  "2a82a5b833cf03738f2d159e2912d2947f5216a4d2adf31a204f365d7ceab430";
  "2ac415873e0a8638f5154ac4c1713b6f0527119b59706df65a5b3ed73ece02a6";
  "2ade2faf3b07080560d5d9792ff635c9f6cc1f530fd7cfb005aa8b5a048f2017";
  "2affa6b703f0491a44d6b7b09dfab83b36ac06979810665aaf7dd2913964c44d";
  "2b03a8bad9ecfcacc8e8a21ee310ce359e1382d7a5d5ce5284b32ecc2bcc4b8a";
  "2b20a6459b6ad99e111e861c8b18727c76ce0425f8d34ef777ad1acc32702e58";
  "2b4af74d74a4380130a1c46d2f1ffe112d87d9d7646540bbbd201c5bd176082b";
  "2b4eb3695b6f7c991019d9fe7469a99fd4e73242c42b675dc40741084b8e08d3";
  "2b60228db4f3092063e115537b5731ef3487ecf55c036e812605c5149071332c";
  "2bb0418dcfb3fa15f01220dc039f2c9ad4dc12eb7f0396deaa9b2e81cb5e77e9";
  "2bbbe2ae5aa51868e7afc2c16c3a0a79fa3302e6830feeccca7f0363a62dddb4";
  "2bff494de18fb32985901a06a931dab92eda052172cf7c942cdd6da944b7a4ba";
  "2c1b6a278ff90171a7472423a2626edcf75233aacac1bd7d1995716ef26f8dcf";
  "2c27ad462ed0e16252b834cf0c76b1c5085ad9b7b6a13f67d1d2471177f1b177";
  "2c44c0464e5b01540ba573be7555b3fcbdb65c9f1193f9c1d02b04c70090d4ac";
  "2c451270999882f56418f1dbe35fc833bb51a9b08ae590a7e407790883537647";
  "2c5c067497a0490e9fe79d0e4f9f759af93138b1a0bea08a89af09e119390c7a";
  "2cb14666f3cf80eff612fdc33d50c150e2771a584ce5056ac5cf06f44ccb4ab6";
  "2cd8e9eb8e4754f07fdfc8c3aae4d7fc0d25b346884c3474db35c757d2994b34";
  "2d345b048fabc9d2013358fb20fca0eb441909129f1d81965eadad8c7f812886";
  "2da75d8894499204c6cbec258fb1a37668bd80d9007253c2c2fa8599a11d9631";
  "2dd2620e1c844738429ba31e2545a8b2de1387117e4f24d6fe7fd4246b09ac39";
  "2ddcca718ae393cf1d3fd57ddd648484b97c95086bc1c77c6e00d8cd86d60bd8";
  "2dec76da0b361e4ed49a4015e67cefb0e6b812103d8ebf93b74016d99d9fcfad";
  "2e100aa891445f18f4805dced7c4055aa5bee6c65995daa42a438349ccad6c3c";
  "2e190b58266d9f7ce9681b834b0c7e6ab06e1305ab9258d714212a0bad58c0b4";
  "2e37c0e580bf6f0514af985b1581fef3d66b845aeefa790c625964512a911659";
  "2e43be62587d7c4bb371bc0a1142a87a2a021bd0dcfd6cd107a50837c109e3ba";
  "2e5648f892460e2a2a450519b523007ca6973a3679a59c07582aa5bdbd6584d4";
  "2e6b039e10d2b93fbce625ecb7bf04b38eac69b96385fc3b28541c8da78fd8ad";
  "2eaff8c35176b3725624d475df80c5b2bcc60be35aa6634ec3530af852396795";
  "2ee914c20b3e4a321bcd2ea2f0f437cda6da09dc0819cd6f06960c0567f4cb19";
  "2fa50ee8ed9d5c91d3375950613132497c44f468193bce9fe8e51c918a9498b5";
  "2fb5d7e6db01c9090bba92abf580d38993e02ce9357e08fe1f224a9b18056e5a";
  "2fb8f2a0a32f2e73921a16a7836ff14122da45582aae742e6afd4d7ca15b3da3";
  "2ff09bb919a9909068166c30322c4e904befeba5429e9a11d011297fb8a73c07";
  "2ff73944c43821b3d13abc37245c2c8d4eadc876dead02da45ea82fdf1525973";
  "2ff910d12c2aabeecc43ad8daf14b0b1fbd2f8ba647fca141c80cad9212ab6ad";
  "2ffbb534c73106a2879d5a9d4ad3436c8d3ab8ac6aa8b217e26a6492fa1d16d0";
  "30accf1de5969ff5bf958786b9c9deb9001d1a19d121aac8b3c92c5b463a087e";
  "30d737a6da29ad2fe035c0a5f1f7a423a8cd96b8f3dc9885fe95ef3333478dd7";
  "30de6a51d0a56e8d2b3d37393252eaa16728b6c4747f57153e6b4ca0b6022f56";
  "30f9aca036adbcc15cace326e042ed3590f00045f66982afbf569d8fd9b6747b";
  "313a69d8eea6a933cffac0fa67d46ad9aef0815bb579fce7623d9be825888e30";
  "3171d7af852e8b6be4651c415ea9490568475c45ecaa02a33dda9babb1643b07";
  "31867db933ed4407d22de8f0ef9b52958c40c63c2328e1863dfd3fe58d3b53c3";
  "31add0358eb679d7c10ac1622403a85891bf764154280a589e71ccd297fc7a16";
  "31ce29a3ead6b843b40c9c08e08488e04eba209e13dd8cac7a4a28ab9250f401";
  "31ce60480166e9ebef758b66f770f3fea86dd429da27fc5eed755c3d8c4e20fa";
  "31e708f95a0fd64a29333b05185ef3dfbd6b053d766e73ffc4b7ce08286bad24";
  "31fcf4cbe7de8a5d563144e577324f9206bcc24ddf17473b436f1c693dff0ee7";
  "32157838040ddbd0f7b5ccaf597f6e338b9e00cdb2705e8719149d1ad8249a88";
  "3257940a4fee01241e1475daa884934aaf9ee9d47b9d6e83fc68a36f736c8dd3";
  "32d6b047b0489421f7983da7d5d11f8deb2a56935d5ae0ae23cca1c0903ecad5";
  "330941d4b4c310814278afb3d07f7191470c7da06f694342797dc6a2eb37c5be";
  "331a5bf8965b6410c5517df3ffad4d15afc4390f5b482a6e5fae1c01dd55059f";
  "3325f541c9930a321930853e0d7f0f4c35ba99f99a97bfe275c60248957720fb";
  "3327d9e938d4ae29de110e219662ce04932935a7886e99feb508ffe77c9e00c2";
  "33494ed37d4be23b7de493d5f2c9c31a83a7a834c79a5fd7c2a93c1054f583b1";
  "3390919bb28d5c36cc348f9ef23be5fa49bfd81263eb7740826e4437cbe904cd";
  "33b88ac3151f2192eaf4c2be3c7ad00e49090c8b94ec51b754e19ac784b087aa";
  "33bdf2ede15d5fed1f4f2fc4368419c72aec005e0d489b1cf074a8f74e53a055";
  "33ca5d851b35c1f957f1f688d5a47156be58bc00162dbed5b2a0ff85d4b8bc22";
  "340ab79ca0f9f2c2448e936621ffe937fb200270c2f7f5197b4a669dcdd69c7b";
  "345ebed68c4e68aff5dd14c8df8524b69db4793845ca814bded608b246077792";
  "3484d14dd304bfb29343e2c38ed28cfc6838771d250029468e6a2c4ab8384ea1";
  "348679f0f44eb5a50601c48728a5afd2b4312c95eeb7179ce57d447c0d30f873";
  "34b3acdeac5002880071f73b70aa3abd3a6facb9e281b5c93cc82a7a8a6d5cc1";
  "34d55c87feec5eeb4f826fc6301c22017cd3e83387529a06c5493c260597599b";
  "34d57107b592c4d2c7d1c95eea1ab7400c09d23864c3870ca3656b5ae81859aa";
  "34da66774ba09c4a8fc59349401ca1fefaaf4e66a9c620c7782c072a16089ba3";
  "34e6a56c60746c51034b45a7b2a36617205b598d0bbcc695f92404605a0975d5";
  "34f26fbfb72329cbb7f25d2b40cb0f553e1a80373972bcdad62c3c6284d5b2b1";
  "34f36a59ecf6174eeac15994e54c41fe1e3e3b1eee8ed4c399ec8c63212373d7";
  "350e15bf24dcfdc052db117718329a03e930c17ac8c835e51d001e74bad784e4";
  "353a36d445e4ff60396702ad7b22b5f30bdce52aa05126e2701714a3f11a11c7";
  "354103278f131bb95e96b2d1499f33835bb474bb958ec094c0958022be6f1cdb";
  "35a12d81f7062a22644b500d91b1603b4f97756ad165c3ea571e7fef55c24162";
  "35a7be9b0cde8c3d409a472a320541df070d7af6008e6458a05947f2591da9b5";
  "35ad05063e2b44b2e606464f12405b954ac8bc8417fa9732ba13365dbe26f90b";
  "35b1fdfa5cc9bb4a0d6e148140d59351447fa35c5c899e95da5f62a6b054af56";
  "35b31c96194d78cbb98b3223bf810f78f53fc0e4601f49169938ca883586e4e9";
  "35d552d7603a26ea7ed111bd865cddaf7aa342481c89af7b2697beb25b99e829";
  "36238dc2e5236fca63e81a81855e46218f5bc52591bb4f74996a2aaeadc581a1";
  "36487117894ca7b93f704e26f22725827f6f04ec3b8c45eaa0d283a11de9a9c3";
  "36670821bb4a9d69bb6193e21b0da5c52975f001d3ed2dd7ee6307a2cff8317c";
  "367035e87b8a361bdc51f55a2467b2606eb29feae3af892d8c17df1841c20b97";
  "36729c2c714e05ebf9bc7262bc7f0d5d25d9dc9c8e0c4fdce27143bbdd9d9aa7";
  "36861bb32abd5ba7955aa69269d27772f75d0306485d10ed045125816422c423";
  "36875562e747136313ec5db58174e5fab870997a054ca8d3987d181599c7db6a";
  "36d8d27d2ee91c45502d3a6688afc5c09b2b9776232074e65bd813a230eb37d1";
  "370844987d3467940e9d99f098935b7ff921e734b8b6ac194ce4d7a16da8f75f";
  "372c6118541efaa800bcba6e0c1780f9beb8cab6f2176bcc5fe3664ea19379e4";
  "374bb09b4d6a9f21a5e2320343068bd44848f396d9b25a6f4d80931e6d9505ce";
  "3768122b8ab7a518d3717cabdfdd7d9592ec986b3f85d40064fdf99c6f569f6b";
  "37a1a3fa4dc148924c1bfb60c88ffef082ee58cd0ee804d2de0f1d22c1e7802c";
  "37b0aaf4e3cdc9d4c475a3a08ad2ba1e28e177d7359546c9b0bba14ae73dfed0";
  "37b9fbd6547091b83b2595bb0f9f9035ae95111868a4393aab52bf22087233d7";
  "37d07c39dc10ae82a9d292c74f7c5f93c7bc133a0225402dafc21f664af079b6";
  "37dde6bd8a7a36111c3ac57e0ac20bbb93ce3374d0852bcacc9a2c8c8c30079e";
  "37e33b54de1bbe4cf86fa58aeec39084afb35e0cbe5f69c763ecaec1d352daa0";
  "38050334f2043b6f42fccb934b4eebc9211755a0e9ad1485740351a272696f71";
  "3847a1ed764ba25361a1748761fd9a1cbb65e42db00094f8ad6def9ac5da4116";
  "389d04a947be32b43eab5767f548fc193e9ac5fe5225a3b6dc26ddc80c326d7d";
  "38fa9b5b66a11fd7387012c5c4bbd414eca8361273d57dba1e49aa6af23337f3";
  "3912c38f4c09b107ee9bbb60f43a8193d6bacf00bfb3b59b7b146d76594797cf";
  "3913d9754b78182aa25d38fbd7ea02502bdf1d81e6525ab4b5ffe5f543200478";
  "3966d4b1e4f5442b8507f91b6dbde3523657b47fd2945d990249605727d231ec";
  "39789a159c1196255f1b6d83e23af4082fd4cffe2662e40b71631b4e2e4bc05d";
  "39937d239220c1b779d7d55613de2c0a48bd6e12e0214da4c65992b96cf591df";
  "399effe75d32bdab6fa0a6bffe02dbf0a59219d940b654837c3be1c0bd02e9aa";
  "39b8c4549fcf28f4b5d8aee04bf170f648272197a631c3487a34fdb8d4a826b6";
  "39f5d351878f7216a69d0330c40e5b2793c6d4d3ee72f0673cf7555ea9dbe86a";
  "3a95cc82173032b82a0ffc7d2e438df64c13bc16b4574214c9fe3be37250925e";
  "3aa4f0976b805375a7ef265b0148c0994dabfc6d2b7cd9c5cdec33ef70f6151f";
  "3ad340c8a4a6e071e15095fd286b600847cd600b7312bd573802f26a73600da7";
  "3afd07a7775c13bf147b3ea25fd8fde7cce51bab90753b5af44dc2945d64d699";
  "3b22adc61900fbdc26629dc1135344d878f6a368ec6df0d4ec374559cb669182";
  "3b2a3b74127c7ecf095e0fe5a65af31b9701d2ba6dc2a4d87882de65d84842c0";
  "3b38427f167fde644868a62f0aa1ed03790137905c97024ac21729fa6153eca2";
  "3b8401cefd1dbfb754fe00b513784110836c8e938a40cc606903f46503af2943";
  "3ba724dd78864cd527a99673fde1bf7f9f85f2415c91708e7380fbe5e2c085dd";
  "3bafb4e11a3823b3455728e938c69103dd4ff414529d9579b38b5ee12f77bce0";
  "3bc0cec99dce687304dad8f7a6daf772e695cbd0169d346d03ae12500361a1e8";
  "3bf4f8cb26ba38e54636864c744aac0839e7a1d6cb7b6cf13995e8ab19b9f7f8";
  "3bf77c52cc0e6b1b0f2b8ceffaadb156673768146950401c27fbfd7e2bedd618";
  "3c03433ea3376f6f099ad77a4ce59187817d1bc0c3c0f55fd931320d909dd920";
  "3c92a1df7bb856afaef29216533b1d407408bfc4c6236961eb2b769c205f936f";
  "3c9829a16eb85272b0e1a2917feffaab8ddb23e633b168b389669339a0cee0b5"
]%string.

Definition vuln_hex_03 : list string := [
  "3ce4a30668938fb7785c9958772e3c171af320ecfea8fc298160e80fbf80fb73";
  "3cee638c546efe5bd23880da9fa2b90e8dd0fd4a228fb0ad96f6c11d47a52593";
  "3d31118a2e92377ecb632bd722132c04af4e65e24ff87743796c75eb07cfcd71";
  "3d73996901d2bfac9999a55723cb57ef5bde1e9a73070979df69f1f1fa8782c1";
  "3daf472b3315397d8494994288b36b14f4eceac012356d3b2032e1fbc9c6a3cc";
  "3db84cbf299307b1d3500b50355cf35f63d69c6c56d117335fbef7c84ddcc09b";
  "3de38ef40dbda07a537a7e48cb5d59dbd17bf27d5d399b32df737cd67c0cdb25";
  "3de51a3102db7297d96b4de5b60aca5f3a07e8577bbbed7f755f1de9a9c38e75";
  "3de9802a0a1f2da67908a69b4face53b2e62d8106d7c8e2f1d4acfd0a0694f26";
  "3df5f17da8758288b633611afc1c0b6d42c1e56aed5539cfa313986f70ce90e7";
  "3e28142ad02a1ac63ab86f97834321f30bb28e19d5c997bb0a13807ddb414c0e";
  "3e307281c9f7329579988190e24a655b15bb2e60afc585109f05a79e5aba81a0";
  "3e423caaff9002b38e1d90005df181aa2b3711ebbf6d1eb83941656ccc313811";
  "3e62730949b6cbbaf938d9b2015fe1b84eb63322c4287d0ce2b4c6f987c2dadd";
  "3e7c62daf3da6ea70530adc9a65bd97dcdb4afe0b82e7622f6d965bdaa99025b";
  "3e9b62d2ea2be50a2da670746c4dbe807db9601980af3a1014bcd72d0248d84c";
  "3ed3d54fb8222d861785f0d7e71d6223278fbf4d0baa335a54813087d7c3674e";
  "3ede3c99d8a049232cd6baae9d44518a73c19d93230a1d320407a3fc2f506569";
  "3ee89c1e8738d465d241630ccca4ce218afc02421461e6de91e4dc8133e9501c";
  "3eea0723a9007f5a85382cd2e92d9f9cc94bb9e2f7fbb6d99a7c70c8527caa5a";
  "3f085bc766d865fa012163ed7c044af25285525b1276b6cef2085efab78e9b66";
  "3f36bc2327a34da59c59e3fd4cb920a26f2db1c6a5f8eb17b00dc6e2a4ff71dc";
  "3f44442f56f2ceb6213fce103466862ac750fb99038030003c1b42da35a43a83";
  "3f55375fb70cb355fe7de7f59904b12ef996447cbc7113fefa379995e040d678";
  "3fb37ecca8742677bd94ef6f6fb195b4baac701525c2140773a6475fa3aa633c";
  "401ed2d2768707b5c47556774c119f989986a9e2fa88e1e2626f14e22b85e66b";
  "402318361c6069fc4c8a6f31b6f81921a1116426e9e4504ddb7363f26ff4d9c8";
  "407ca87833bd0931eec8005bb125e56d5765058c9b6422620aa95d8b2044239a";
  "40a8fd2d1de93611ac88f29352476fbe0c2607b1d973dab8923ff0811f92f659";
  "40c740c6820ddc8f01013e7354278166c090cfe5e4027be1b187cf8cbd8a6b3f";
  "40d9ef785f8363522bd79f70b03c30f8e82902860b3d40cebff42f95130c8cd4";
  "40e0be2ed5d07d5ecf14232fe64a95c7ad6fd942a60b4a6e21fda69c75bbb78d";
  "40e624bf557b51775af1ca17062c4eca3693322e250b257aec7dc579e626ef07";
  "40ebdd21c93146a92536688a230801791a86e2bec2719896a3d629ad930e9f17";
  "41011afde89ff9727fbd0380ec2d5cc733e1e0289d1f45d5bd45b7b1aa963aea";
  "410d79a49c02da50f4567166d5acef977b5dbc3aafb67522939bf902e65596a5";
  "410f02303292798ab2a8b3e7d253938b466e83071b15e7d3aaa25f4995b27187";
  "4143a5bbea0d303c22d6edc6f43463e336eea9144218e02adad72133266130d2";
  "414d56461869ed3f6a5a04b3c50aefe90275288d303cce14c5b06b6ec12fb376";
  "41856176aa3af446c206ec18261d6a12cdc98dea472df7f3244e34d383c2858a";
  "419b5bca6d43650893d5e044e785c0ad87cbe1185de0d3feaa9f681c6e7f50b4";
  "41e0ceb69b3725bb0f8ae5ed94d81cd19e3775785e8f6f42523cb13250569baa";
  "4225bd4ba3f5d6d5cbd0606402aedca7342e2538abf85309ed3ccef0a738cbb8";
  "42446592b42e34bf569a631265bcaf2a2192d424531a343a7680f52199b88462";
  "425406152227f499013a6c3fbcf7700d98351a30e7813a30f0003f48eceb08ec";
  "42b528fdde50a21afed0cbdc07a6cb9d22d421eb0228d4782f18d22a83873223";
  "42f468244050bafdcfc061c0eb468fd78267f93404b8703353d68fdca8b4355e";
  "43374fd68dc06c8491b16d177156444ee44f497bbceafd0165f40ba48bf6802f";
  "43b7715e38449bf82ad0bb6b11d03da42150c1ee23148c5f396cc4ab1001622d";
  "43dc82fd548218f0e916687c997291c8056dfdcc5b5f5616833437f96d806a64";
  "43eeac44acc2f0aefc02522f1d203b37798fec9232d5b6c5d266badc118a1d8b";
  "43f88737fcdc8cd913ec2643c1841c87794f987e98b1432dd6220f769183467b";
  "44120b712e4b5ef3b302f03b7aa61f9f6fe6820d966addbcc43d8e09402e5906";
  "443a8982b1bdee0877e7f94a216914844be3c40b457a9e17148c2f81dafe0dd5";
  "448048bafeb3796bfce954dd78e1b90f5849d9b3459c51750f210da8bafb8753";
  "448a507774886c1745beaa86cd0867d93f142f5d2b58d452c5a8250d93359779";
  "44a0599defea351314663582dbc61069b3a095a4ddad571bb17dd0d8b21e7ff2";
  "44a89f82bf3303553f9a9fdf136b4453af6d4c777c95da57c5b8baca8506c272";
  "44c718f75ae2a58e22923644d0caa621d78e8b83fe239d3c1bbba8851274904f";
  "44d64f2cbbb480f7a989f15ebb33fba6f0fae3b38e0c2c6c585c27f43ab0edc7";
  "45222ddbb5e445221e780b84d11a4c579ae8d28e7e9c2c67afced22d589f5e00";
  "4530235508b99dffe4e912cc9cac7bdc237e79f5a331f601c43ba909d7a3af4a";
  "4533a11f4f190354b749f2842b57233e5e9e8b37fa4031bcb976118cff902101";
  "455bc98ba32adab8b47d2d89bdbadca4910f91c182ab2fc3211ba07d3784537b";
  "45624a7469927b999cce153ff0074f675a8c062c5afa3f0c688b6124874ca27a";
  "45799bfaea64e065a9b0c97f9f10f42c830d26e55fdcb354e39179d0993e9c7d";
  "457e2eb5ee1def0e336463b7f62dcc02fdde307b817cf750907a5f5465c4dcb7";
  "4582adb2e67eebaff755ae740c1f24bc3af78e0f28e8e8decb99f86bf155ab23";
  "458efd66c94cd83cbd190d72c329b6c0cec3387802db8ca3cd530a84f80ce2b8";
  "4592f49005ff752a5a319ad49d11f110d417c3c60ea8d6705fd94945982ae8eb";
  "45b7ec74cc78651975d01d88308f3231df4c96036d6c2273d79f53abdfc8888c";
  "45b969ae1b381716a29cd509622470b5b20b70c7efe4c9b7c0568faa298605ff";
  "45b9eee68266d1128bc252087f4a8ae18dbb0e0b6317e28bc248b25ca2431a56";
  "46663d7d250954a56199847ba99e133fba7fb0ff82a5cef8099fa5cc9b1dcd99";
  "46a02c4a9e9fd3700544ff7053ef6b599f7145cbbed25380269af35a1dc35a05";
  "46aac78f7cd865d27189c8308841f12a5512e657be0dd6e8b178aac5223889fe";
  "46cb4aabe49917be885f2c42ade92aceda6b9d0b7739cf0e7c3c6d93820b67c3";
  "46ec6310c5ea5e289299d40f5ecca82b9c722ffc766dfd08f36dc88835e63567";
  "46f2db2a8012348eadc02d2eff62e521326be22cab79e4ebb5fe738ff7255324";
  "46ffe559f5a8f6bd611ac5a9264edf92d8449d8d31b2ddf6b2add5971e309c56";
  "472e29b63e1d9d44269a99962b186113586fbd3603eac3a23c520c7ef73a69cf";
  "47489362609fa9bd398deec955d5600780bb3788eb29a282bcc5245905713eb0";
  "475df18e82d6e8ee09cbc9896f23f75b71aba43b7592d4962737cdc9230eb52d";
  "478c36f8af7844a80e24c1822507beef6314519185717ec7ae224a0e04b2f330";
  "47b766019e0e18251ba39e24d20a99f45bdd5c310a4e94091e4f19d9fef27996";
  "47bcbe0e7087cde7a9fb01fcec12b5ab185112c8f7f5638543715efa774b0cec";
  "47bf6eb5e5e30b734ad31214fd2c9bd938d129d3bc2a5b055615ed4056222d85";
  "47c9323ae818bd2a3b55fc04abd984bd940cd4e27b6d4af311edcb66988ce941";
  "47dba240967fd0088be618163672dfbddf0138178cccd45b54037f622b221220";
  "47f64d6753f40388382097351a26dad54b8fdf59529a24acc65e9ced440ee2c6";
  "48503feae3f95caa8b1dc6850b37f8409577ffe9e6501231241cba03bc4e1ae0";
  "48567fa742841208d4f93f54031218703241baec6f59b1e4ab8a71c26de1cf85";
  "489c02d8102fc401010793d7388b59dc944a2e77cf4179424015cd863701b19b";
  "48ac8ae911c490e1b7f7813c0f345677e110ffaa9ef385b86ca25e5519e2c0de";
  "48b6eb343e4e6e3a4b551e589ae7dd2bc07a5488e938398ee90eaa9041b1644c";
  "48ec0783d0a2aaf4956102479ba4ddfe9f760066d00e1c5b7f022a084951dc73";
  "49373ea79d942e82873583a6515950acc04c578e75720593383ffb7ba4a28f3b";
  "4941c4298f4560fc1e59d0f16f84bab5c060793700b82be2fd7c63735f1657a8";
  "498adc5cd35a5bab1fb935dc93158b297b0882b80206bbb74d003df0f1c8c037";
  "49ed27460730b62403c1d2e4930573121ab0c86c442854bc0a62415ca445a810";
  "4a05ad47cd63932b3df2d0f1f42617321729772211bec651fe061140d3e75957";
  "4a367f9af0d4995eafb7bbdb4fa60eee88e470f7192276d3d66afc58f75013e1";
  "4a525f5350be5a82cf4fb3546a914841642cda5deed7f9baa13d2912eed476fb";
  "4a61add64bbb08af8576aac592fdafe7114b940878babb3ae90bfde26f315187";
  "4a9093e8dbcb867e1b97a0a67ce99a8511900658f5201c34ffb8035881f2dbbe";
  "4ab6430b72807637cc173f174301d8411bc17ec2cb542e739d28f77eb9d47327";
  "4ad2df1ae0c1ffaa2492de91bbe24ff6bf2b2beb18a62366207dfb4257ed5c60";
  "4ada025666ff8886e848052d530a40441fb11939529c92afd3bee1aa04cbc472";
  "4ae065383a4ef5564a515d12adf18427f8d74cc15140edb95e5e2a51ca44fe42";
  "4b10f4f03eaa545d2fdb3b88890917a6fa24142689d3c43a7c39fc5bed5725bf";
  "4b38c075ba6523502dfd39ed10757db58234a1c84d4952b65e30b4a8679bfcca";
  "4b5206b5928e03929cca1eda3f12e6df14b31f80e8c16c1bb29109c072053b90";
  "4b5aecfecf26145aadd23f96a1cdfae0bca4e53af215d4bd77bba5dcc5a4479b";
  "4b5ef4b48a5b23818e84e415c70bd7058f665cb7cba379d05da689e1cbe1148e";
  "4bef5f5160c6a981562597dda319f9a235c28d5beba5268a454f734500ec1f4f";
  "4bf6f1b49ed332b31c695ee1e3e8db69d7514a3179f707034eec96de4865e1d2";
  "4c03f7e80857630277d292ad7324541cad38f652a199d94bc18a10aef98c8bfa";
  "4c068b3c86f5776e9a26680952de22e156ec9700d9c1810e5fd344c994d50419";
  "4c21b7065cb961127ab9e2a0251ab8d50cfd65369a41e88e36bc2908af2b1d8d";
  "4c80a2d3a0ef4ce0a3aec62e9d15b50679dec4cccb69a5c0b72529641ebfa5f4";
  "4c812acb46a9d4b224cc20c70aeca969b00521123008cff8b1eb0367fdb0fc6b";
  "4cdfc6a5ad52d7459157a8cdc44006ce005009cfaabf8fd2939a1636fbcb4985";
  "4ce5523dea824b2f2d4d442a9016d0f1b7cc52dce58a1740f4c43fd28e1c6dcb";
  "4cfd9cb41a51b1e1fdfc9a6855323bf11a0baf18e5d8f0ee7480a8cb5be7c8ac";
  "4cff6e53430b81ecc4fae453e59a0353bcfe73dd5780abfc35f299c16a97998e";
  "4d0f2253d787ef071341406c5e93356ae960be4f4cd459d173c2b900cbcac76a";
  "4d11419d2f1d6217481d12d3f3fcd13f693f7454f9fadcdeee72bdc0ce06c8e2";
  "4d16e1f28bae42b72cad2b1511ec59968d0659a6913cce8056b4572c20303822";
  "4d29b1c2fff1a67d911229f36570e3d9b1cab0397d2cbc858b665403f1add3a3";
  "4d7d06d2f6af50ff5810c8d6a818cb59da635a56c0fdae5d0ed3d0aee4bedf3e";
  "4d7dbc8ef64367eb41cd553adc1590467a506f99e9953998205007d902aa4784";
  "4e19d4ce649c28dd947424483796beace3656284fb0379d97dddd320aa602bbc";
  "4e5cdf9d41843ecf7f9e252b706a0c5ca89ce288a4944ee70dd43fcc06965a8f";
  "4e81c37afc22d3e6cf3af7eafd660cb5919cf32b95b3359da30855b5f665e6ee";
  "4e89a5a25969953961db2a2a1a5c73c8af48f7af169ac3fd098171556bf0854d";
  "4e92baa37cd8b665ca0851f8442766aaf3b96fa61ea137d5972d5eb059389a05";
  "4ea2a3a6edb3c772f9d358a720f9106260ef22d339bd3c7895e7b5cda03e424d";
  "4eaf2205cdd189cc96806bd5364a505f77ad5dbb622558cd374044965fd20658";
  "4ecb25cb7a127729a0124d1c0e0ba7dd0c24a02f48f40f6af174b15581b6925c";
  "4ee2a56c1592ff0e951b452c0de064eba05b7c98e3add04c8aa3b4a84eb797a5";
  "4eebf3fc1a508fe0e54c061a211c44a3df641707adab16ff839187759e8d2a61";
  "4ef8c776a6acd4fd360b22e7d053bba961d687c36ec4fcc0b3e2ff1ef7be967e";
  "4f35cf1f2e0fb87a2728303091ee505a0bc546cf63dcd38178adf48477ec0f91";
  "4f5166322f578fb111b6f2af375052008a5263311890f85c3e4ebc9c0f85affa";
  "506ec3e8b28e52be36b89041bbcd9933b7b79eaf8a53594186813d0f60edebc9";
  "5074f17c7cc4fdabec65b3b07132425ad0d9fefd993e896baba2f97f16277581";
  "507cee84e2924e81916c8bf090efb1beab3c258a79e1e1bf3637b8b7824d0a86";
  "50a6984729650cd8019484e6f19bc63cd4615199031e873c2093cdd6fb86ee14";
  "50f22cdd309f5c3d77f39a27586cd26ccd04294879ea04da4c175a9cb7519284";
  "50f9323eaf7c49cfca5890c6c46d729574d0caca89f7acc9f608c8226f54a975"
]%string.

Definition vuln_hex_04 : list string := [
  "51141c22e37d651703dd57cfda018ff06a0175a78e7c72f8ad733a281721716a";
  "5147b0f2ca9d0bde1f9fceb382c05f7fa9c333709d7bf081d6c00a4132d914af";
  "5167b33a95b4db0a1244cb3b95d4024587d9a5a95222babb033210e6b111d2fb";
  "516e39dcf7480de4bb86727321c099605a34a54f1d5b3a4aa6dc4bcf260274c9";
  "516f0bbbc1b47ec2d83cc51be104920899193e2784a45b835fe68f864af1733b";
  "5173b9240e9bcd0d9b25290bb0aa45d156fd5a0080841515ab44f61e0e6bd894";
  "5182caf10de9cec0740ecde5a081c21cdc100d7eb328ffe6f3f63183889fec6b";
  "51859571d807d984e4f1cf145d5d74491feabd19327309c2c598c496a1976c70";
  "5195443274ee3a382e947f03fd409437730434c2af0c1bb1c99f5ba1953f989e";
  "51a3ab7dd44be6daba53b64c3688b5c1c94c9e2ce1065184fe16cac0d97a0fdc";
  "51ad864af75441b537ab0a37cf045f19117eab5e10fc179ef1e8164d9ef5d2e0";
  "51dbf446deb54beb8aef1de11e0f868ac062a9db0c31d0e16eff99203aec86a9";
  "5234c53ef95231a1848eb4947f8f7390463d9e759af706f19cc3ce2b0f9eae61";
  "52478f3ddd3d0b9eb098e66049d132cc5c7e05720bfc78b6550ce5a40306d993";
  "5271f526b19331c7f8526a5e10b9aedc0ddd325958aa0e908ceaee40692f7ae2";
  "52b1c4667ef36a02a0e6d7f147b8d4bc0e30645e6c88bd2984e53abc693bc18e";
  "52b2a30279b3849123e5eb42ab883372aa807c67b7ffb7f221e6e052ad29e8dc";
  "52b9302507bccd7eb775137a4c17b0df9a5a99671968c01924cd0c52a0c69262";
  "52c7b29023ac2a98b7a9c73de790d820d3d6d095bea0b077d4dad53fa97b0731";
  "52dd5cb7c2ed6c3b9416811fa9a26fe7a20e25c8ed8c950130c532b30c431dec";
  "52fc780cc73b70fda46d528cdea0700d8e4c0ffa586dc0d543f6a86d532ea12e";
  "533b8138ab8f776008ff8918c8cfa52604e43efca4e39da5096404c8424084b7";
  "535c85ce3b60c64d1b7fb202ca3751f36bb96f7bff11b8bed24aafb5e3071df3";
  "536333c1fb9066a12c7791b740fcf637f6f86b45bd57baf0f27ae33c3b6c6cf1";
  "5380daf2497ed35fc6d8b2a2f343dcbb95bb7384eea73781126a641ba3391af8";
  "539aa921b5352ab385430e1608ac5c0ae36f35e678d471b7a5994ec7c02eadea";
  "53e15b21cc69a554d4d61ffe531be90364ed7b1bb64fc302d65eaa642c9fa60a";
  "53e17fa767d63cbc20f34726865de99a511e70d10def3b68e606969d71ab4fe0";
  "53f2bfe03b5d74c9db8c6a849e5a4690cba9a9861dd98c204865000506d8ce67";
  "54231728c29f2d2003ec575729760369bb72be7b656b52b4f02ec198f4ee4dfd";
  "542cd21b0c835b818e6b2eea2efe5b340ff3d554b2b7e13af084f0817cc920fd";
  "543c3f024e4affd0aafa3a229fa19dbe7a70972bb18ed6347d3492dd174edac5";
  "543ee203b355c4cbac74d9bac71fb73c0c5c5c3afe268e2ae8ae48d61d350709";
  "545190e8b2a910e153b12559a9875154a1b40d6424cb4a6299a84b2dc99df700";
  "548c44566d19ba0975c9a22e7b592fda45bfa8831e56f55c1c3e7241d84dd175";
  "54bc506b2f0cf66d12d4a2415ab743c2b2a1f3079089e3e0c0c1f3f49dd7335e";
  "54e111f07f7bdc0b1ae23acac65381f4d1feb16527ce29091ffc394c7325b824";
  "54e969dc477af9a3e5b53dc4edaebc41a7b73c87ecca13dc1fbb8dfc86c0fd78";
  "54fd07a69bd4c9a81d814eb3b195f1fd8531e15300c2796cbdb6344c6cec3c88";
  "5504258361f72faa2b35b15e0fd9edbcbcc30a4d99ef68a7805898cf75d8c809";
  "55054ac1fab3b2fb370640035d50d00ae41775c45a16d0737a11cef1da48faff";
  "550ce92e71808dc6b7fc5cba903c57f761816d35b2e76b4230cb6de6c540fce6";
  "5512aea158c30e4f52c1e27136c1c803c98388d1d8c7269e497728fd0b57d9f5";
  "554bf34bde5e7c86fc463496d19a4369d911ccad90e3c684855192cd677641c4";
  "555ebe7901706dbf801b5dbda6660002d3b36e5c669ec98ccfc6884a7481c56e";
  "559ef0d415c5c3dbc1bfd598f4cad75aac9d4c5c6660fb61b23e44da4dbf89a9";
  "55a69f740a77fc07073c3d077d029dfb2dbe4b673171167e7310bd857eb55982";
  "55b469434acef9803975cdf59c7d80777127847ce27711682f3ba81f9b5f7d9f";
  "55e3b977402be076bfafe332a3fb29ddb6b02edf932d02e963df09adbe89eb91";
  "55f736e288a101c08b7245ccafe158f5a2e6f0a581f49a87d24e5cbbde8961e1";
  "56135fb8d5d3ed93b38679cb0dea9cc16ed7fdb0db9659e40a5c2d82655ada67";
  "5640179b9cffc3517d322ac2c0bc1258b563f65ebb1b67eb22ecf7f3a0500c7d";
  "565733b6e6d8f7b9661f04a3b4f29372f5dec080512551204b92ac4916a144cb";
  "56c6977777763d72cd82b3327d97bb05b13c2424d886d87f9ffbb07ead628142";
  "5721c075bfec3ce946b8a96a58551a765be294212eaf27e5ffd6b738baef57d3";
  "577e381b5d36faf15cde84ed59c51e2dcb65d90140848111429e1c8cfb0553f5";
  "579b30aab603eb66d04584d227da63bbe9dc0910792e8208df1ec29c072a651c";
  "57ae8d2d962cdde554831415725583fcf4ae5fc844c19983a7c37e31b12109a3";
  "57d36936fbf8785380536b03e5d9be172e5dd5c3bf435e19875a80aa96f97e1f";
  "57e9de67e908186b3cb8180caa2e5c5d7b6bb31969557b8bd5710d79089e8868";
  "584f0375649c970b06dc17715f0058f904e0cbcdb376b74ff2ab3be8d6d3e844";
  "5868cb3bf5d5a9237e29210218d3d93683c0e4894bc48685ac7d84a1e25e0462";
  "58d81ddb4104c37284b15fca0d90b4388e430a34d93823df1a3514962dbcddb5";
  "58ed3bafe401102ddf52c9c2e006408ef181ceaf85741a73328d8fe92195edca";
  "590822bd1b935237555d2d03e0535e835cfac71c0cf9dbbc4b0c8061e4106049";
  "59177fb7a0b11837368af1cc115f0d011ea19551070bd153795204ae1bd12e52";
  "591a22e88fbbfcae9d1a77cb62cb34e4f7a1b6d3263520dbf1157570af141b25";
  "5936c769202e628091702af98691e8ee838bf0acbefba7731322457f254665de";
  "596c497e7e405ceb79ba0ba45f993125d88d50fc18867048d0c7a356ebd0c0ed";
  "597e7d5feb149d9087888926d1454dc06f1078ab18c948b44f090910da8645f8";
  "5983d13ccedf9d4387338adbeca6ea6f28db3adaa7c95520b13a83672847801e";
  "59cbdc9190000b1de3719dbdb5d90459c602487672a3bae9c56d8ffae5e64250";
  "59dca87987273c41d84a4da4c67dc05ba1d560c683bd4d9405e003fb81db6a9b";
  "59e004cd839611cbc5f7c061827587dbb120d7aab8d0e44191c0c01aeed9e168";
  "5a021532f0ac453256526428ccf3518cdba4c6373cc72f340ba208b6c41b3a9e";
  "5a63937a6320f50c4782d0675104932907d16a91d89088ac979a7a0129aad986";
  "5a7228ccc80fc1f2760beea3603c856d64c8cae35496af7275e60d646f2671b5";
  "5a7bde3c194e84070ff15718e58b6d9a79d5b11fb4f5754ecbae9f6fee1ca40f";
  "5a84dcef471a265c712cc488aac278cbbfb29f9188db9a9335c2e870afb7c123";
  "5aa7a47c7abaf13453b8ab309ef16bdd80ceaf7407e67fa27932d4591f025d67";
  "5aded75d6beb315849f698a78f8033de26eb151955a1cbc01e3037320e2a0eb6";
  "5af59d6ca109b5cae3350b48b85274ce181e45be4c7f7156bdf58ca3ca7f4188";
  "5b08743c8e1de8343ab0a0d453ca76487c6a438608c68c2b2921ea2c2a92821c";
  "5b08a501124d13262c86889617071743521aeefc2d77f678d541aa8dbad52992";
  "5b08d996938a0ab9a3b7a65e3049482dff819028102d41f7c5924af467b0a3e4";
  "5b0fc1bff6d7cb5ddbaafd13a886cebeda5627d12ce498cbb2a76e892cb41c43";
  "5b5590995c6bcd39884dceda1e87e8516a3767bce00519ce140a46f1a77666ff";
  "5b63080bead00cae92efb917b7a707c6a2d6628a1e90301795617b45273f45e4";
  "5b9623da9ba8e5c80c49473f40ffe7ad315dcadffc3230afdc9d9226d60a715a";
  "5be61901f41d55e6fbd0994869015448f8eb0450ae38f67b75ddb594c3325aac";
  "5bf00eff58e5bbe4cf578ec37b9e13c8fa74511fb2644352fcc091347153a709";
  "5bfc550dcbf7ea19663a3e1db089aa247c372372d00b09e60e047b401df1daf2";
  "5c206b569b7059b7c32eb5fc36922cb435c2b16c8d96de1038c8bd298ed498fe";
  "5c22b7f65de948fdb74ffc3b5bae68f109bf7404a154ddbfa25dfd53e1bde667";
  "5c3ac6f22b3f1614ad0c01c180421f7588460accba5065562bf735d24bd3c674";
  "5c58c38e4737c750ccafa621a18d875299bb5440bb1900eb8469dcf4130049c8";
  "5cb98f5d5ebd97fa1d2d6ed7d0d1ed28eced93ef5ceaa2005243eeaf3f4d6f9d";
  "5cbe195ef5e86f705c8290602ae688e1835e7385ed68ae264c4795e425c1645f";
  "5d10285d802fa793c217933c907d82db58977b865b3dad3848c6ed2550022413";
  "5d108befdc9c3e226b12a22e306ccaa1e66ffd14a328b1ddb1f0ab0c32798bb7";
  "5d8a10b966e30ee6a696ecc6809936411be7ff672593998693c6b1a58baf0e42";
  "5db0fe4b16744f14b4ab1d255a4d3c63710d0073417bae9bb3bfeef4a09d38e0";
  "5dc477cc45e4c1421296373adef9f5795fb9f5035f1400c72bb37678ad7f8954";
  "5dfb950d4771c35f4f82626b5d8859cce74bf03db67f2be3036631894a62eca8";
  "5e1c7bdb1fa71145a0704a5f00d894043a7754cb82d1d8213cb6a899bd767cab";
  "5e39ac13f9fadb4eb6f0e4d44f9685b2d067f6889e35fe9e8ed9d6b8bff52db6";
  "5e71106ee81d050e30afd84cade4ef4a581d70130477aa1e34549e6de50cde87";
  "5e789b6d535b49c66c658978099e50fa2f8d02c2511bdaf9358bb8e40bdcef8e";
  "5e7b92e6a1f656a70ed56ef2a190fce6bb3f12063b891fbfd722ca4e951de15f";
  "5e9099b95b2074fecc6efa6d59552651b1e082aaa3612889f417064d378a797f";
  "5ea22a51f3db36d0fb6f14787a66422b408411f05108c3a75a702eb77870c022";
  "5eb233ed9df3c1def326e2c63ee304dc85af303f8c9f038c993aa6e34f91ffaf";
  "5eb493fc07a9573176f87297a002183d8e60104619a7b83940ce6e83ac54cd7b";
  "5ebfc2c2fc43fc34cc98378f627e6147af473cb37076f4c2ba278210bd88b2bf";
  "5f353fc46843155b6b63e75994f5328b9d4344654d5759a5145cd6e64babe3de";
  "5f39b84cb5132d4facff213c630b05ec97ef9d83b93579530152310d63945762";
  "5f4b06327ffbec2a59725a57c357daf54ea2f58aef5dc7ff3f5370168af09fb0";
  "5f5243c9d9638a23ccf0e32f54c585e5688a4a853ff04898281fa23697aaec34";
  "5fc66378fe68a380ccfab3521657b38912ca1fe5a8d7c857f591e928ab0b4208";
  "5fdb1e7e324f6a5537d63e92f5d8ee7d92891f36171665fbd2d1e73e3db1935f";
  "5ffba52ea8bba7aeaf9fb32e1ba97b5bbd5c31739d594e722d9e89907dbb5cdd";
  "6045d564286f00fc1efedd25ffd22ecb7eaf2b3a6c778e392319380c77e45658";
  "60571dbcaec96d9517e0d116d066e70ae747aa4396d7857b2eea0f4c1a5a70b4";
  "605e0efa14fc8443dc43c2068f17e6f175369909d5f7f1c3730fb5fe062528e6";
  "6063b173d33ebb51db565e8cad66fcae2000b41955a2245c95aee31f68333268";
  "606beced7746cdb684d3a44f41e48713c6bbe5bfb1486c52b5cca815e99d31b4";
  "6094d55d6c7b4fd45cd06658600cef49007bcb73d6a0ab62f6eeabaa19bfd333";
  "60ae64ade82e9364e95f779bbf950571484aa833ece6837489329517012c7757";
  "60f79c1b60a74b98b4f436d6bbbf5aeb9ce6febbe1443d318eea7581962b75a4";
  "60fb851ce3da03c319a423979b47a95dd231085d89b26516f3e25164a1a14dfb";
  "612aa28d12aefd2af8565d4df6df9caa61b5fe8370fffb08933c03d558789e37";
  "613d60ec08d1383b38d0c6c01b870712864865a70f13677dee7cc1270caacab1";
  "615a7c647eba3f2dcea463d5705d5d59ca70b4250f895ad20ce6876076a8fa28";
  "615c391666b0fdaa0a8096320d35c7b951e6a0ee7f984ab3e892f838cb212b60";
  "61a1f530a5d47339275657d7883911d64f64909569cf13d2e6868df01a2a72cb";
  "61a3bf24d4e3eac56c380b022dfc195bad4cc8d03156cdc3ba743faab582284a";
  "61abb8bf6498adf31f9bbeb4f25f97c2003dc6c9d5580d84361b2be693ca4676";
  "61b268c31404e7b77868f5efdc2f134fffcf3059680e1ac26d93ead48529f9a7";
  "61bd9a26c01371d865e681f6354853dc0e27b1064906cd99b15220098be6e88d";
  "6208a115fc72bc9014c7debb188c473c41f64e7ffeb3efbd31af6c48c0726702";
  "625fce937dd4fed61bc3a0475e10b6f05d9061c99b5335bf3f33dc43511300b3";
  "6279821bf9ecced596f474c8fc547dab0bddbb3ab972390596bd4c5c7b85c685";
  "628c559f9f5de53cad74bc1f0c489bbe1aa5ef5672f47f73c0bfff1fcf98faca";
  "62a17c9ec21461badecd1c25744a42bf5c9c0ed39b979fb07ca817f30c862a35";
  "62b89fab85cf77b1e6730d2b55b4f9458f368f89d3ca5672d450e3c3365d8c37";
  "62d1ca62fb251b1eeda5d2577719414e6e26d4afdc5f3df3faf3b35de5cb9506";
  "62daa7ab93684d935cdada8af43cba552d7692cb992411d27ba1ee50a9fb1883";
  "63041a13d1658e22fecc34706e98ab08b54b94e7d028bf2b1308ff85995a01c3";
  "632d62103706b29f10ee8d88c39b5963d9fe388227e78c250e8011c1a43f266b";
  "633ae4822602acd252ff23e73ef4cc98130f3e3988ac459f7fda5102fcef5fce"
]%string.

Definition vuln_hex_05 : list string := [
  "6365024365fb0899e8a81735369a2e01f55523888e84b091858b48ef14a79e23";
  "6370c82c2dbdf93608cccb88d78468edeb27f5d08f9ed0baf161842c0751f6a4";
  "63e9918f94a1ae5d71e8972f49bfbce13d8b1774b7237b022f182f03cc9ce715";
  "6413aa70a5664953223205b6364d676fac0c0491d12ddaadc91b7f12fa53f77b";
  "641490e28b2a1ee223238f5d969b5abf60a1089afe597c4251b285449e6b3b04";
  "6416ea9d2a15899dbf4a98b70bdedb4cc6eaf748c14c554b26ae2fe57ef8aa2a";
  "6429f89dd7e9f8f7784736b6d3471be3c480d4eb4c9a573c698ede1dd64f5010";
  "646a91c588bd5f0f2e7649723297211efec1fcbe92f44f4b3b8858350beaa402";
  "647f209aac750ba26bda9836afa5ef1370e4a62b5c331606086b1c4c92e10841";
  "64aee13f5b8a8becd8425b4248d55fccf7047de27291a22a5632a625b62af0ea";
  "64d060216cf55210f595609487b708d5e70e0706a8de0827369bf58898205f34";
  "64f9e664bc6d4b8f5f68616dd50ae819c3e60452efd5e589d6604b9356841b57";
  "64ff3b13b33cccaa3fd042251c1a6dee18086db11bfbf6d398484fedaadaacff";
  "651ffa0c7aff7b4a7695dddd209dc3e7f68156e29a14d3fcc17aef4f2a205dcc";
  "65205e494d01e07c27da9a623ee5edad33dbcedc755ef5155b19cb2e908cf185";
  "6522fc68fa686a546cd98142b90e5bcbfb8b79127cfb38b9a1249996d3d102dc";
  "653601cf8c3c2c4b778f9025d4e964c887966cc3216bb35a73a3ae75477b4476";
  "654641f7d5e71471cfe67c6afbb443b36d65cb76918ee6c9173ce3002fafe76a";
  "65cf1a886b3e3ec8070bde31cb8e254cd623de1e8c7dd71248b84e6de77a08e6";
  "6601964a52268d49def829aacd687faad911be77a3d5240394a4b63967fe4838";
  "6621a547783013c1ea29da6c5e96ddacf72b9bf339fc48ae85ad3f089b87e1f3";
  "66539655171ddff02d8134241c58a53de3faa6467db7be14131e04b99ef33cee";
  "665512fdf31d81504e6540e94d8f1b39f3e56932054a9b83aa4a45360e1c5477";
  "665b45ff2a2054ffdb3ea55031802c1d7fd3db843ecbcf74b227e0200b37cd56";
  "6694435663bf283a3d5f20e9c90cf1bc4d3687e381b32e1a004a9d24471eb95b";
  "66a9052d6b1d35147f581249f6b524d8cab0b7c6ff80f621a4481f43db462540";
  "66cc007348a41fb33fab59f5ea265006534ba82db4eb7327039cbe2b4ce7e077";
  "66d59e646f3965bc5225eca4285ae65f34b8681fb1bee3eaf440f6795b2fa70f";
  "6742c0ff50c1d6357acb67feda2950f5224cdee37d036f18c292392e44b69443";
  "675329ef7a63a7c58d3daa6cb5c6e299143decec7a149c36a6bfe204bbf0407e";
  "677ec2df835069678876defc3ef5ff73f463ad39e8466d76632d06f6a29a494f";
  "6789e1a2e0d23528a91e49851bd95bceb6ffe9927f34b52a78ecc2b1d4bc13b8";
  "678d7d011499c5793ca87b29c7179d0d959f8d6d5b3b966ee619c3d0cfcb6bc1";
  "679de7449908838c031db59234cb4f482fbf5d27d7e02d0c30d5ad9d2f36495f";
  "67b4d4995c9a054e90af05d7e04baf39759c478a519a3c729cbf6ffb041ae7cb";
  "67c2bd29bc47bb2cfcf8d0a804c75394986bea81a90f4abc322ac9cf4235ce2e";
  "67d4654d7e78e4d0761d8e200096935791d59acb2bf98106dafff449647c840f";
  "68043583bc2f3fc1ca11458e8b921dce2573afdc04bd20ba85eeb806d884eb6f";
  "68105d0f74ab436d36a741095d9ac08b8316e926727d59f3fe874395b291615c";
  "68191d76aaafb52bbec5240c3b371e7dd77ff442b4a3394b41cc402402b43717";
  "681de794238060ec929aa5cf6c4701069f113a8524d31fb2f411648968ca17de";
  "683936955d7e3281573fcbaa149fc384a06dc4a12cd67ce601aba2f1a32b19c3";
  "683f0af364f8a19f81d2e095e17de6d403ba3672bdf4a1caf601bca5b57454df";
  "68b0a239031b158e2927bb5dc8844b662cb4616ee8c1363fa729aa8fa0d86cff";
  "68dca726b16c56c70259c8f936ec20adb9ecb8c3cc73985083f41358c83935f4";
  "68ea8d1bfabf37920686a0814c0bf47cbc4527543716fd94c0d3f23382e15081";
  "68fcb5cf6723dd195cf6d929cf9c6aaaca649f6956eb3bd63c2c1a8391c0b21f";
  "694385b46b72e65604afd251fba3c8febb42225343d38feecec3f424ce45f2c3";
  "6991be9952aa08c0d2ac9fa728410ebdb44988b496ed01b8b7f478785ebb30c4";
  "6999caca67b37860abb5e6d95420d1b0d04966bc6674aac3bfde4e2394ad37fd";
  "69e1de5800cd3fc5b7f37c5babcb0888b7fc152557251d507f735bcf7f697430";
  "6a27a2af4b3123d2e0e0daa23bdda0a2f8cfbef495b257dc83cfe8b4faffd7d5";
  "6a7bd55c6706e69b134aabcf4a006b14efb98a26eb1a23cd6402ca17cfc3eef3";
  "6a95f3c5cec52da45f9b74660b81226b4314ec18e761490140173998500ae015";
  "6aa427e7230a2b077bfecade35ffff67b2f15c051cf92fd207a3412c747f83c3";
  "6ab14c5c89759695dbb4b310b7cad68d9ec2007277e3b4f3abb883bd05ef557c";
  "6ad7bdf11a7ce7296a06eb4f14091df84fafdb04413e714f09f9ea6c686a1323";
  "6ae4d36cf42a3bd1ddf9dd98794b401cd995bc519a12ffbde63e63b03a2424b3";
  "6b2f669c6fb1e839ba146b416021ddfb7bf4785558113e11ac2c8a0e3399f338";
  "6b3196a346973837242d92f3a0ff7bdc2485075d51de0b53650e4ef7348c7a83";
  "6b3316496ab1e2d1ef02be966d9caa171674856e8fb8ea78d6a3bcfe8e2013c1";
  "6b4ac66225600b3d5b89f6b0440ccdd0f59279fd0bbf4af82f1aab63df54b883";
  "6b56978dd0fc606668c0ed2698b3b22ef53dc6e4a676a4c5479438425d4e60a9";
  "6b9090296a10225be115810e29e8ada4f70e4d4a8f88b385ccd9a8a6d2eb6778";
  "6bdf465db8860c80051d4d1b9db1c3153ab65c252f9500b85efc56d255b4cb1d";
  "6bed7f1304c6785a06064b04e0e3cb55384588f18ea2fc348a6fcd5784f47558";
  "6bfb88d3563e28e2fccaad764c14513dc70018519a5a360762cccc35ddc67c0b";
  "6c049aff27517fe269517b07bdc8ef1e7b26e1e76276b02dc5a9688901a88de3";
  "6c7573a36b6cd7b50beb1596c55d9ed95a83110da00c4b3faba71b9d2b5ba63d";
  "6c919efdad21b7d9884903b9d539fbb50dc418ff2c2753c12b35b9ace4c96d73";
  "6c9cf15e82c22d909eb2b17c4f7bc88ca246cf8b66f720d0094c8066c3fc39b9";
  "6c9dc878d9605070921338d09c6dbecbe11dec50c03fc69a0462884a07c2c442";
  "6c9f431814cd58365468ac63ba8b6693c3dd2a2b3ef37b23e5d80d75083b784d";
  "6ca42465bf4101ff63117c171cb31204dd29c45ba4ea7c31fd950f17e19b5d03";
  "6ce1073705194870175a8b9c9ebbbb7ad54df81849b111588ea8aeef910da987";
  "6d4cb02a826973521678309a0076b2fd50894c09dda87ca86089e815f4bc9bce";
  "6d6fe20c9f7ccfe723bf7feecb5acf773a85cb61286452dc4001589f82b1a424";
  "6dac3c94cffbd08956eb3654be9bdddb47c5fc6cb5fe8177f2ced1246c8c59cb";
  "6e3e09583b7bba35ef21419bdc711984e8541eb20a29406940727f73cbb5064a";
  "6e521e54a1e5a03abaae405b58a84758058f3fac5e8cd8a370f232c7dc7bb164";
  "6e64c1bbaa6b5dba3f3795f5932511f8f8a49d68d420267896e2e4e51b9d46bc";
  "6ed3379d7ac1ad8bcfd13cd2502420569088ee7f1e04522ada48481d9a545a08";
  "6ee267fc3d0ac2662a9cfdb0ed5a2354ee09ef4c218303f20350177cae125cf7";
  "6f18cb98188952eb08367adc1c6810e4b1c3902240fdcb15efa0ffb1b69a5f98";
  "6f2cf1c9502c5c5054edb556827ba30ffc2e6689faf807db404672781b032eaf";
  "6f3937451f0170a0aec3033cadceeb86ab30ee3c67add3926e116ccc20c0d9a7";
  "6f3a182bbeba28dd15e1ad52041b8b32670651686697224cad821a334a8600da";
  "6f96c129eb96bc4df9a7d247a98fecb9a3801dde63281ac1aba3d2ef869d32a5";
  "6fa8262990fbc2a1370a94c5c6e700183a5619a0d8de4b6e783215907c4b2d68";
  "6fac3bc346399255c63792f19a2c9b4983b5d4fa3f4da64764870f0f2489d920";
  "6fcb7131bc940fc01dc5444a1ae18bf299e92c3155a783629007cf2a61cda9db";
  "6fe18adf87e3330799361d49e811c7a35a497423833ad83573588b7878df286c";
  "7018d515a6c781ea6097ca71d0f0603ad0d689f7ec99db27fcacd492a9e86027";
  "7070ee6dd615538ca6a701e7bdc2c23a19b84ae8ca5f9edc6307fef47eb05abb";
  "708016fbe22c813a251098f8f992b177b476bd1bbc48c2ed4a122ff74910a965";
  "70870e20f563899e4f05be2d0049cb495552b409ca7f4729a335bcbfffc3f47c";
  "709ab95302bb44c7a7dafaf342ca933422ea03ed7b492be204a319161feb350e";
  "710639fd1eb76520e8733840ad78a81e09ce03930e4d3c47998e3162ae95f90e";
  "7113dee11925b346192f6ee5441974db7d1fe9b5be1497a6b295c06930fdd264";
  "7128d13dc4269de832723d4a3a6cfd7e6553576a9e96464583eb8bb5c2f243aa";
  "713c7a6532cbc952546c3b844ed529b5b285dc29e16036731ceebc6f6431ae77";
  "714ac82a4e2b971f19df9c5cdcc7d7df52ac44ce1bfad675e50122406bed04a2";
  "714d8791e37373f92f0242a6694cc232686caab69d7ae64b5ed31094cc352893";
  "717242ad6a3afb6f236890caa44501a4be8d0ab019f028ba2c74d3455f065804";
  "7188af66fe23bd8cf27f003ad6c7550cdb6faa5c948fe7c3b1435c9246345eb3";
  "718e76d8cdcdf7b06342b5137f5591233aece4bf70fa9d761d38bd02993a0906";
  "71c0c98aa54dc88af8b094ceef88352052d592e0f40892825dedbf1abba16635";
  "71dc8d678e0749599d3db144c93741f64def1b8b0efb98bef963d2215ebb4992";
  "721ab86e40648e8e23db4b87f0a74de4b422262fba2dbafb533eb6ae2feaf067";
  "7220924a787b57f757dd84b30bcd53eb11647eb65a94bfb6ffc6773aa6e6f1bf";
  "727666434d5ea292a7631d0944edd36097db12862730996ce8a3f052be04a2cd";
  "72805e13777a39b440ef381720c0491e6091f9cb6c7b387be33ca5491fcfbfbd";
  "72876e44135f9b49932b547129e32acf9ce3df98a3f9c5c31355160f6d06ca3c";
  "7290fda4ac74e5873b8557b1669a0b859bf7bafbeafa0ea946709f686086b50f";
  "72b36c64f0b349d7816c8e5e2d1a7f59807de0c87d3f071a04dbc56bec9c00db";
  "72b99147839bcfb062d29014ec09fe20a8f261748b5925b00171ef3cb849a4c1";
  "72f100edc998bb2fc40a3a7e7d76c6c37f7173b812f5cd7ae62c824b3fc63d57";
  "72f9cb24cfa641876f34967b96244259f95987ef24d1d729c0e483b3eb9a2740";
  "7334c46a55acf8bb18435ab60ed9b89f2c1ab31587ef052730358efc32fddb62";
  "734b74798a680d2e534c14a033858c4081c7879af1f48037d9d5483aa27a7e90";
  "73664268a737d071f2c3c67503002db08432953f14771317835b6f080d3daeff";
  "739c11fdb8673ab5b78f1a874daf5ba3faddb7910a6d4e0cc49abd8b8537333f";
  "73a0ccf3e32c262142bde91c19f5b1f395878783f157c6bed5874ede5a3afddd";
  "7419b05e74733d2b7ce4c860ab74043b816a7f66a1ff7eec81fe3b35730e3bbb";
  "74264ce2e0ed67730b0f3c719aee37664d4688f872875322a64022cd68e060bb";
  "742b102cc69403c669244f0efcf9ac8e5bbdb9b10f35f03c743651afe5ac32ba";
  "743302af4224d5f44489290c01391c03b928126d726b72e7602fe5760e6d9519";
  "7436cb59411572a6194bfffad9f9e5194107da417457d4e20a6ef1d58491e3c9";
  "7442192141d056cef53a570d072759a648393be52019f32e93ccb7aec5715feb";
  "745273e1620bc657d2210ae1b5abb49f4f5928829f95c8ef01ce151bdbb4c32f";
  "74716032cc2f63c67b9df0882c6794b4bf66147d943329db5f233a04c2fd9b12";
  "748b6350472e21bab16497e4296794619dede7fcdb188fea1574f89498a2ff54";
  "74f9975737dd078c75048bb01549e7678eb61c065d1f50294b80caeb65cbd65e";
  "7509d30b279e30893db7851a2912a5ffb29ec7e839220890d76de8e3a57b4872";
  "752b31418053dc19c0573d16953d5ad24723bd57e5f62eff391e632548855b5f";
  "75822137b0934c2146c789d9f6e52da4de4a191698b68819d6d4b0845bbc34ed";
  "75aa0f984fdc2d0e1db632b65fbec424a87a8c68a822fca1e503a269eba71f2d";
  "75e539170a00e447842a85441be36dc9e1fa81a3f6386806f3d90e7b4cca1ac1";
  "75f1bea34e2bb1d26cf173eba44daeb9bbee8106d43b911a01f73f76be17a165";
  "760e04785b220ef3b141e414b9f3d6cbfeaf1a113e0ec697660ddf06b00c4405";
  "761ca3aee052d4a34f500dee578ef55a4e481b1d6096eb3573f3f828ecfe4f89";
  "765869c7c04b49e77de313806398472ec90dce45206a6d71e448d4e2e499715d";
  "76718b87861bf6e502aa95ea85e378326c8db1759fe010c941b26cba3c881133";
  "7680d9b4f66fe4fe9d4a45f2ebdb3f17e7d3e2519e0b61d691761a2222cf444b";
  "7690ef2838bda2327116243c1792090125b36a5840464e010acdd103f7369807";
  "7699613119b25fc5886305e43ff556f8d53560cfa7707ab456f3165ba4ea374b";
  "76adb3fa346058e95ba3fd549fd48a15adaf4920a3109391f52053ebf39e62cc";
  "76c226cbabd9c94c0cffe915097beb3e9f676b4ae317396206424c60fa209c41";
  "770552bfc6598f165443da94ac0c6aca00f95a6a9a8e89713f9980730d9ee9c2";
  "77280614edf2e476a853c7881a4ff1402d67d4dd3e218af657f44fd4d4fbdbcb"
]%string.

Definition vuln_hex_06 : list string := [
  "773dc9256c4eada182a5b41179a522740ba994eff30f868641bc91574705b8e3";
  "77586c3968ec72ad19fa7098c9da27b0677e45220812eaab197075f4175e8cc6";
  "77aabfc119686757d31cc9d21af9bf3bacecaae09dc92e548355a145db0aa774";
  "77cb09dc2fc3c56f3b12ad03a85cedbe3a8e0bb876dadfd76a1fb6c57602817b";
  "77d7a8efe05ab7041fa33280f271edca9fa46c074885de5d03f4cbf343e65f2d";
  "7823833a22e11345c69d0c9687b3b75e0043492ed9546d6300a3f63017384538";
  "783a127c470a136b07a41bdaf2d78a8e4e73c3fca1a124d33d5f8653ef887d30";
  "785723a3afe96876382524a9e90984f379c41521cd1f86a2172314ad58785e4f";
  "785e87bc23a1353fe0726554fd009aca69c320a98445a604a64e23ab45108087";
  "78c77db3e814b83f60f77f9499d8a1a55ed6f85a3e618b4545b6b60d9e17a665";
  "78ccae1341d6546c9d238e824a2261a961bd9a843f6d951d649fbc09ad0e01a0";
  "79247cd973878500461753431f1528ed35e5f85a8978bf68ac211335ffcae27a";
  "79278979d9300670d1084493bbc03ae374efc5ab02850941e85753885fa88e47";
  "792f87a87cef485e0d41c43096cf36233299ef6457688bb35b1f68c42dfb9831";
  "795e5774aefd74200d552bf7ede17491c254fa7a73e2a00eb0e1462f18211ff5";
  "79d48dd02d288dc1788ab3615e6de3c01e575abd19b27434c0f3f557db43592c";
  "79e3b14b68f1fcf805ccfe7bc2dc81b98346d2e83a6335816b276970e2e2691a";
  "79eac4cc015efad603e984f94067f76408bc929716f1b8dd68106d1066badac9";
  "7a0a29159ad02be390afc0759c8ab257d4fb32e156c0507503d32575e558c8fa";
  "7a1dfe962c0c714c35827f7cf19bbca693bb1e769037b06b5f86d7f33b723f72";
  "7a2b0415957f71aa019d1ce9e8f399130d71dfe5d1b6c83cc8b1182109f414eb";
  "7a4e4ee169fe0f1f079e5f5c1da38ea70fe717e728faf054deb180f9e37fe574";
  "7a62b0aef4ffa0e0e20f02260d37bf507f5b5c04619ae880146ef4dbb3044a96";
  "7a6b6261d365a974e37b513332b003b02cf36250aea1b9d45856c01cd8c77d03";
  "7aa067d928404795b4eb9c169639f23997227504ca4eb7b5b21518e6155abd47";
  "7aaf2aa194b936e48bc90f01ee854768c8383c0be50cfb41b346666aec0cf853";
  "7adc0785210452664cb684b2c7687589090d31f2a3d0892e8e520145c0799110";
  "7af0efdd72c68fdd105bb73be148ab7bf78a157cb1b241a85362a5bc5da91bd8";
  "7af3585ca7c2dd65032fa48759a0124db2c5bbca5fc8caf8bb8f61fa5085149d";
  "7afdb552a7fa25dd716fe3a55c988a59d120e78f9ee95067f31901f51987ab8d";
  "7b49579b74108e2418a6b401cd729e3fafe1c8ba1fe8434f73c8d0f1758b08d3";
  "7b68763c39b45534854ec382434fd5a9640942c1f7393857af642ee327d4c570";
  "7b7e0e1453e733050b586a6fac91883dbb85ae0775c84c4ceb967cfc9b4efd10";
  "7bacb353363cc29f7f3815a9d01e85cd86202d92378d1ab1b11df1ab2f42f40a";
  "7bfa54943180e34aea390a8f63a2cb007cf53c336dff697c60a79103f3c0c19d";
  "7c3328c3734cf58532a0f67149955bb66a2a5cf72d43b383b956e2ebda1f112d";
  "7c62a659a4f8fdecfd5a64f4f4391852996db564d123fc5d20e3f3dfb11ed62c";
  "7c8d7bb3a272afe7fb737bd165fe9bd8f8187f1835289eb66d471cdced74e950";
  "7cb0ab6ed54b51910f2970a2a43513fdd7caa7bb0676d31578e75ac5482722ad";
  "7cc54914473d7c75a483c5672655bd9df2ce20b556a0d92c6e4cb8722ab1647b";
  "7ccc32e11372896cc01d7780e1176ed6fedd17f846001bc3bf78699e4448105f";
  "7d8937c18d6e11a0952e53970a0934cf0e65515637ac24d6ca52ccf4b93d385f";
  "7dc421f6a683f5b4193009192b1586661648b031b14d2d7548cb4c85d7c630b7";
  "7dcd81140dc57d1d412c39940643ea923a1925815097f83788d840c1a7b57d25";
  "7e1d32e156037b09105c3640d06e5b34fbe0bb49c605697d13b5fc26776fae26";
  "7e5abe4530eff3838d44516f95c15d8b3ec6cec44ca7b67998e50641c939d12a";
  "7e82d60575309a6bf6145e7d509dac0b2e815a734a492055bf591c8a7ab55865";
  "7e8e7bc080b4c32ce703b3e8b3cc7e13fa9ef2422dc6f370a2c2b82496564aae";
  "7ea9b2420483183cf7b25d6577848f2dfe2ae064a61d931d6b8b65b31a1b2685";
  "7ebc5906d7fd9c606dc6ef9b49f3e57b63af838f5807fcdcdd5ff47b5b05e39c";
  "7f0eef1ed4c1278372348cb52e27dc3aa2f51a8b6a62db39d2af75031e55a8db";
  "7f1772bdf7dd81cb00d30159d19d4eb9160b54d7609b36f781d08ca3afbd29a7";
  "7f75d91844b0c162eeb24d14bcf63b7f230e111daa7b0a26eaa489eeb22d9057";
  "7f7c6346a25d465fbc06c41d841e6a5c7645545448db88793ab29d8e5637fae5";
  "7f8cabb101d8ee0d76444fa4caa115b88b53ad8bd95516cae563bf92b910fa99";
  "7fa5c326b294f4fc537207a27947c2fcbbfa4eabde1ba4727c92cd8613e0fc7f";
  "7fb0f6fc5bdd22d53f8532cb19da666a77a66ffb1cf3919a2e22b66c13b415b7";
  "7fba2584bb4fb801f322e3a63253ffac36a76d9dc5f0a4747746b0791e2a0d0b";
  "7fd788358585e0b863328475898bb4400ed8d478466d1b7f5cc0252671456cc8";
  "7fe1958f35b91da7819002c38642bb9408db3167bd311c637aaae6f9d45af3e4";
  "80599708ce61ec5d6dcfc5977208a2a0be2252820a88d9ba260d8cdf5dc7fbe4";
  "807e54ac1703e3342373a7967d3f862dd5ee1c00dbabba49d8996677f779c9cd";
  "809403706c3669a0d67bd35a87f66714989d1bc66e2aa6ca5979781ae3c4fdb0";
  "80b2c44b2cdb74bafcc1271c5338f1d80f3621308b6c9d24d52bb28c8983677c";
  "80c6fe45459a08cb5ac7485c23ee3b015fade4c580923baf69e3d5f704cde258";
  "80ddb4d95feb9a00a880d578171f8bb9eff1c49446d54eadc700d140e961a121";
  "81017af32ebdaf0bc0878a8057bc6b8bd3848eb21aca324cd56b27faa1df7377";
  "8111085022bda87e5f6aa4c195e743cc6dd6a3a6d41add475d267dc6b105a69f";
  "811f82960814c21949534fc1808e341a5b22caf52a094e5e427dac3aa6c7aa73";
  "81237053f6eeaf659970e9e5e7abba00261ec2b850b1f5b195d0888f8ce66d6f";
  "8168304169a2453c0c3e0a285c2a07d3b3b83433e0342f6b33400c371af86221";
  "81b5ec019957fd1b214e4f73ddfc73d6dfd93d4ec7a5f29580b629ef63283b43";
  "81b772e718e40e8d1d815cb3b16690c1ebd4e0bc555933db306037cc3341537f";
  "81c301c77dbfff44567165139e9a5ee3af2aee838298451c7075dc6e1aae489f";
  "81e0111c823599201e7e7054557017c0ba148dcd6d9fe74052efdee051c42e13";
  "81f4258c5aee1bfe424880fbc61a1928a816014c502f010be03becbb42e648fb";
  "8210a89ba143d927384d7b2e6b3714d6ae9a9a384796ec6e306df38ca91e9c4e";
  "823da894b2c73ffcd39e77366b6f1abf0ae9604d9b20140a54e6d55053aadeba";
  "826e80ea5f657c75127c066b86caea8089f33b09b12c3d393fca8efedd40c1ef";
  "82e9fc464c46b441fb638ba8883d7b8054a83d4ee10285a753028df9f3ffdf18";
  "82fea578188662b4ed6df4c3aaaf6ebae72a6cd2f8bf135a89150cca1769156b";
  "83a67b544982a2fd1484af752cc4ab2f6c0b50cb3c9dba60b888c2c2e37d1036";
  "83aad7f91c4ebec89fb63e60ccc05628281aa0439362097bd91c69f4b74470bb";
  "83ac9bf01c2d2ab0f66782fade462864f42b86e53dc455e1441c2a16d0ec2847";
  "83e993691aa4f5f599dddd1fab2bc3e0791587c9e93eeb9e405c130922096343";
  "841f965977f33d621d126412032c47dd6118251623c380e5572f7553b620b0e1";
  "84683c840af3440b8b40d34088ec852e092f882ca558409d8338f1f5f46d2741";
  "846cc7c9bf2eab3400e66481568a010fb0dfbac01416a99258a4baabf1e10d35";
  "8483c5dc2323306d4ee3685b7e90a4c11e11b01d04cb607e0bc5aad368fd3c6e";
  "84df20b1d9d87e305c92e5ffae21b10b325609d59d835a954dbd8750ef5dabf4";
  "8561c82c5ae1ab2a5d9214adc620875d83ed7cb9a01253988f5e5aceffe7a901";
  "85686a6dec96776c2e8510fea7ca198b84429fb0b756a2d87ee1cc4570ac9b87";
  "85a3cacfb0eb01fc5784695ccf6bd92a537637ecad747eb162331e78da68eee4";
  "85ac17aec836d5125db7407d2dc3af8e5b01241fea781b2fd55aae796b3912b4";
  "85c5e66f38152d17d5b580126b3348579263bbc8fd22e5417c0090fd75a330ac";
  "86236392bb2cc77100bd83d34a30e3fb60aa727d0b11c147a838d9a205bae80e";
  "865e4bc7290fc3b380e266ccd98c2d4e965beb711d7efd090d052e8326accdd2";
  "869f22f072f71abc741cf9d3b9cbc9020a2611286670c6e6d67cd240629518f6";
  "87279855c17e3924ebfa07f51c1312d0e107f990f4ae174807ac4814da6179ac";
  "87d4a698bcc41a0e725bfeb00d464478d7add9e1abb687e52c8ef3d0d66cc730";
  "88188ebb2dd61397d816274645cce6044489675a52d835faf518b2d137e0604c";
  "8866f6e762dd7dea58c9e9486da53d716f3ae61048a8a10f8033b60fb5028914";
  "88671ef30520d11a63a4cb3acf6b1c827c82acced657baa8f371034957ddf825";
  "886b28af7d2907a61720da0b6ea5d88a9a8512ceb120e88889f3fedd6bf313b4";
  "88b901ce8ee199bc371e9cf39ab5375d31c6881a25ba5827e9b32ba7946ecda1";
  "88f36fda7dcc6d5af2bcbef29d14fd4032247d4b45f5299944be31441ab53bc1";
  "8907c476440abdd7f71feb068443a7c9736aa6bf625dfb8b6931c46341aa4abf";
  "891ad430e7f1d58ef85b437505a6016fa99a72abcfd4734476efc5fc1fcd1cba";
  "891bc3aaad50ffa97059fe8b59f20265ea2076ced64d3ac32f196d42d496dc9f";
  "8920dedd3c5488ecc1db2ace55b2000d4cebf899c5e591b429d3f7767eee2216";
  "8926be6aa6df3b5d20483e0e698ea14fa0fb760844468ed69143d7f503250349";
  "8944a3f50f38d92d17b8cfe2e08201a79ea30f38812d18f28036e59789d3f58c";
  "897b1107e11dab0029bd31582a84a08e70e0f98aff3179b86cc5a0fabcec95b6";
  "89d96210bf36a88acb14086c96e916b790d21b7adf81d0907c823ca2afbe0ce3";
  "89e09de9723da81eb3f50ed98a97321a789122d746ef41d6e94ec68111d09907";
  "89e579ccbbd834bdd1d5b394843b6110813849000d9116489f14c146cbe66811";
  "89ec70089d61eccb9021edc6f1b50a9ef99196467a011e1dc7d0325aa51b7dff";
  "8a228c751d1664b362f10dc7083c223995b976b264da8b7380c51157bed66fbe";
  "8a295d17092c732e0e27e25a5677c1f8f554dd43ec1dd2143a1726ecda17a75a";
  "8a7f6dbb674b86bc7c26642da1262fa54d4f5698b63cf01412aa917550aa8fa9";
  "8a844a8d993db0ee1159b096aee959e32bb9155edd9167b1e6aad2e4019202dd";
  "8a9a9e4276f947cfd188fd28daa35bdfae62a2620e90fdd2311096ee1a905fee";
  "8aa91af14c3af2a7491d07a24886d5750e28886d96b442cd60ac8ee1d144f961";
  "8aba8df5a1aa3f14551047c8c9dea2b2d5867f2ad4dec89b53530c96a13c84db";
  "8ac341d36e1af8959de6410a976400ded8554f5ffb6a462a8080c38a0140f4d4";
  "8b4cbd2bc16071a1868597ec86857dba1140f981e3e943b0857341daffff4e69";
  "8b6251a1883c5ed03ecdead8322e7d8105d075fef160abfe763d5873484b2a27";
  "8bb51f044464a952a8f96cedccf4b425fd9695035cf61b1a2c353713bf6c0fb1";
  "8bce2afd04ec073143a2a4ba51671992451c8e747a84852458321f2d275b5433";
  "8bce4a327c9e77631c03057b0e45cdbb2e751194d42995c0310e3ccdd3d33b7c";
  "8be482157bdb504cc35f1126e31f240e0faf6890790c65c58ec3328f58c780d8";
  "8bec85d128eb0444f10fc89b95b2c6b84a8d0405cb0a6dbc30cff8ea4c0ca043";
  "8c20d10857c37d8ed9151fa95f6bf12f99ef2c0bea36eed2370a1f4da7737951";
  "8c33314792854eef6c6cc4bd1cc4b00f1feed35e8bd260dd4ab0d93b1f6165af";
  "8c87d5f1261a367493fd2f240ace027bef5b178cff3dea22d45e8fa2b0f0541e";
  "8cc23f39380a590d822d9c064a064c274554d814b651ae4b2f0560d8b016f105";
  "8ced17d1ee92ae72749afdfe40f5029223d97f0f977e718bd5ab1242d1ff7cb5";
  "8cef918675dfaeb50cacd36b9c06871fd05e9ffea7addf98a396fae131abe30a";
  "8d1b302e903bcc0f658b2aaa9d27f5845f08f4f5a1263e2a8f3a713769af9f8b";
  "8d3ed9427dcc4f79be3585d41ab9c0bb447d6a0258dd919c4d49e02dedbaa47b";
  "8d6e7e7bbc5635af4a7cdcddcbc7da49420e9887b4f3a9baa95b49721226a8fc";
  "8e1d02a67ad311f9e48d42813e6d208bda3e7e4da0d212d7b484a8454b41678c";
  "8e1f3b15e4e5003a563bf8742558f5dc48fd0fe20238efe759001bf226f234ff";
  "8e38148ad4ed9946e8600b37f63996bf17c0101e3f50123b3b8513c895a4b521";
  "8e681ed97f08f8dc269c85b75160a508e59ba3045ddb14f99d64dd767dc556ba";
  "8e7e98ceafb412758ee40a6d8ff7d65397c82b8a18ca74841a9e1cf05e45f95f";
  "8e9f3f58005d62b241874e9790d457d0fbffc101062166f70a5c27aceefdde36";
  "8ecd15521b2c37d2ff02a138700007f2aff28a0accfa6fb3480a4421194ef7d2";
  "8f69fa6128acbaa8217454ff22eb7fb9be1e841ed47116e7616749600b4bfc4d";
  "8f8956abdeb2a52be2cc514790a737a0ad39a9e698a77c1f358e77f1bf9f180b"
]%string.

Definition vuln_hex_07 : list string := [
  "8fc25a8624138b00199db96d0de2360acd2f9cef82d444c24a9f5d307ed7764b";
  "8fca5b647af3f792898efc1bdc008745643b417282cdee13d4edf93a4a8308a0";
  "8fe475d3082a0226ae9fa945542ac3e0cb5214c0f44193dcff12514cadf52101";
  "9022cdd52aa3420757d5c16fe61a4fd4d538fe74981ddf3f29de00eb7a3be849";
  "902b754dd302a994074ea8d3e619d2f9000e6c6997e428f19f41533f7c5e192c";
  "904d8d0db7b3ed747ecfbb04386dfbe23b71ffd054f32ab17f65bc17d500f730";
  "906d8412b357379db9512e3f584fcda1f788acc1337e5b4d4eff5e6fa59324a6";
  "9088392c38d6b8b7cbcc0959d51f0440f211b037408314b51d393b8aa83d44eb";
  "90f5962e6b2342eae05dc8f4c34d5291742537248587ccf6ac298691806a4517";
  "911541d26b605a97ba099563b9eb7e027c102f139dba5884a57df5a13cf3dcef";
  "911e01544557544de4ad59b374f1234513821c50a00c7afa62a8fcca07385b2f";
  "913ab7134ea3460e76db753cf68f336ada8f0b9c397be88c75f9567a8694f4a5";
  "91793baa79b630f452267c408cc7509f25aa7ac0e39e88576e3daed3dcd5d8e5";
  "918d2e68a724b58d37443aea159e70bf8b1b5ebb089c395cad1d62745ecdaa19";
  "9199979b9f3ea2108299d028373a6effcc41c81a46eecb430cc6653211d2913d";
  "91b0fdd5bfc596b2f7c9db33e822d24f378c706daf6f92682c5fe1043e547f8d";
  "91e5f702691772cd1291ffbd2b645f06fda3b7b2c31c04ca28a3f4d728875cc6";
  "91e64a75caa5015cb1d874372e4fdfefa506de680a962fdd97b83206bdf1e27e";
  "91ee89520105ccbceca6ee0e34070f28c8dc5a3d73ec65f384da5da4f2a36dc0";
  "92bb92314ad69e9d118df55924ddab76b983029f1eae7739bbb098c6bea86ca1";
  "92ca1aec3afc90b44861c2e0be084a3db38d22d52f35e1697643d6477151392f";
  "92d63f2677a536c84c032f04239baf32cde372e9717134138cab290957cf1140";
  "92edd48dfac025d4069eb6491b9730d9d131b77cceaa480af9b3c32bc8c5e3a9";
  "92f9341304bfb77158d29397d1b9695dee0d001ab5f119a8b49f49fa15e0cd98";
  "92f9d73cec5ab3352c4b3cbf4574d13b2e506cba24cc74580e19e941063eaf7d";
  "9303894ee50d95911ccd4583b2aa5484db63de0d8f799b14854577e15914df2d";
  "9305f0834e67aa16fb252bd30927e5f835639ef4b868f20d232260edffefd6f0";
  "931e4d6f7f04b122bc5bc6a61fb4e0186796623f4fc72d0c42ccfa886f1c5fb2";
  "9345c3af554c06aa949492f1642a7a03404956d2952cca8a68658b62dccb0825";
  "9360e91c4183f3215254698bf804ed242957451f06a31b0a2b1c8a7f05035f80";
  "9387ad984318ffc0f2055006aab9c6af251d6d6534c39c1c335be7f115c17177";
  "938e65ff5760e44faf22a35242547c41a0d8d2b21a2f8a12f6b84d4055aad384";
  "93ae26aa102215c0e9aa3b4f2f5a480c9c9b8a18f102c5fd87979d8697a69a69";
  "93cdc6e885459d95d5e9d6b2ee979e5cad44af1f57bca3947d594847cfbd5829";
  "93f787e33a663311a6a553db1c7d7e5b3f4cd20b0b7725b35dbd0dd67308cef4";
  "93ff1003c1d8aa8e47802fd48942aec4cce58658c80b46488047a4826d568761";
  "94111de210f6b3b48dda16b3422f0f9180e30bcb5765b6858c451d1d89196199";
  "942a7b2ebca0edeff5803c8f899ee455c0ec279542c41d2db2664d58c1025c86";
  "9452b5577681c74d568825c4e95c5c9a5e0f682782c8dd932a7d4d732e958802";
  "948735962436df24baa69e58421345d4a295e0821f4f93fd9f64e11f51a9666f";
  "94b42f99cb2ac4db601a3759afe374168bad1714bd48662d74fed69099517a65";
  "94f39e23194d01698b2d8e7bb1c212bf192e81df59766d4adf5f7e33bbe13181";
  "94f49026cb6445f9f20347b464d3d089d1ec3b4f44f7920ae809930a5fd17742";
  "94f4bcc9b062406ee7468659c1710d3e0cb057c7b7194e15cd72845082138019";
  "950b672d3300bcacefe568156fbc8b16fa09da13df2f6ecda31254faaaf041f9";
  "9512115b60e67fa268a7463119add2404150842bb3dffa41124b12dd9cb580a2";
  "951edade4ad00b185929c14622e5efcac1069cadaf6bcc945e744c30f069c9b9";
  "9544fbc011638cbc168f6ea4740cc6ed6fd331769e191fd64bdf9113eb64fde1";
  "954789c665098cf491a9bdf4e04886bad8992a393f91ccbca239bff40cc6dca6";
  "958b3c5b647856ed0fabc30683e9deb256968060b85411e8afe9ed3d94884c38";
  "959860cea7a720811a960e28e0318c470948d96ab3ba3312d20fea0f24bc0979";
  "95ca14e045618fb38834d17c5cc176162a29d846c1463b840c9129fb9af47c68";
  "961012d06eeaabd9eff9b36173e566bf148a5c8f743f3329c70d8918eba26093";
  "964cd4d1cb9a2aafb320d44da14194e406b446338ce097ef798d8bf9884cee81";
  "966cc215b2b8eb69aab3393114a10b7e07ba83df5b2587cb47fd3b172a3fa7cb";
  "968258fe6b307a7887465c7fb0a0b7b45f973b91deb8638af1428d247430d777";
  "96966130b8e6fd63eb036c9229e4c9aa515dc0ac00fa90ab61d55991db106d55";
  "96a5b3cd7c1a6dda5b6f402e6c35ba535270467f56addc7448dbe4aa78428411";
  "96cb847fab0befab75a6f39080dd444d022d4bec73017c9d7187fe6282a0faa1";
  "96ee751f7c38731e97773e07e0f13f4dd361af9aaa1d30b41652c2e6efc3fb3e";
  "970a4c44b046eff139c9c2ea11ef7ccadcbc93612b41afc0a947cceda0ca5a39";
  "9718a5e78f5015a7a9f66c33ae31a6df37535f33039380c6edc103e3a9dbc5ab";
  "9786d12616feaf1302c308b816d3582969f4510208aedffac92225bbb78efc35";
  "978a1e937dd4c03eb2f2a55a0ed8b14294c5c175584ebf85bd20b889bdc9378c";
  "97b976f7e7e5df7af0781bbbb33cb5f3f7a59efdd07995253b31de8123352a67";
  "97cada65b735f3eece349c7b7021c4469d5a9fb3cf8b5e2ac187006469ffbc98";
  "982ad43111d8b7a7900df652c8873eeb6aa485bb429dee6c2ad44acf598bb5e6";
  "98636f857235fb66122296db147cd29440de681a29bbd631fc94373da31f99fa";
  "989e3234c1b61ea2db590cb170f79e25e9c9a6262b7b9a751ecfc6bf4468b8c4";
  "98a55dc61046f4509d2465cbc373a9391c07125e5f4a242d2f475f14f32e5430";
  "98c86fcf018822289340d248f5e2896c41ad0f284febb741b945312ff40bdfa3";
  "98f5cb928827e8dadc79c1be4f27f67755dbeb802c3485af9cace78b9eb65c59";
  "991228f3ea6c1ae8083aa405d1d066e48cd6dbd7d6bc01c81599b2c28f3923f1";
  "9923b3d6e508aa2086c66b36038b37206b0f8d26beaf87022290a2b574c2e047";
  "992eb531739029456311043f99fa48ac896a59e70edc48093facaf3479e0c3f0";
  "995284d05f947e2db58ece30b6d61653a2b94b2c337e5c75ca8315793e0b3955";
  "9994990c02c37472625cc7b2255044feef9b73c08ca3a70c06861b7d26b27a25";
  "9996b31234ba736fc2c6f2b75f641e25d156f19d6ac84cf85283fde08a714842";
  "99dad42b6d9b36f4c5e1815c953060d1ce857b2701e7120a2185181d4b7d60b6";
  "99ddeba6bcdc79e52e3ff8afc63dbe4b299161cf0f5558a2d7630c2a18daf2c6";
  "9a0c3c967acdacd9f89a557cb226420365de4ea0236fd0250d9c00e721b86e0d";
  "9a1d483d6ca994942533fcfe10c11b1725bbb9551e435476453a57ce7ff17029";
  "9a84ad211fc549d0f118b3211cb11fd3ab2ced86de9cd20173d03e1a47834133";
  "9ac6d632f61d9abe287616ade35f555cd8cf5b91adda382c5ced0cbae468b0e7";
  "9acd27f9b7b3075e5d5273ae285de33844aafe0477782ecd4ae573ed282f863a";
  "9b1af050481bda270a08ae873224a142c8b2119eeda59d3a04b1f6d66715a8c8";
  "9b2bb2385b742eef4f614cd6b2e714444f3e983e8643e673c6f3e917618260d4";
  "9b6d450b6e2b66e8356b9d8a354e8c3a96426b7f15adf2f2025dda13c01881a3";
  "9be868eb7e177ee6d762f2a022acf18b6b190fecbe445b3c09fc0494e8244ee8";
  "9bea1a92c747c203cd3e370f422ed6023787817a5495385e5ca473ef59396a2e";
  "9c0e80958b907c8df345ec2f8d711acefb4951ee3e6e84892ecd429f5e1f3acb";
  "9c246d9c611383dc1b32fda185322629aedc8527bd831ebfe41f5f92b1332070";
  "9c31a9fbf833b732b5f3f06c31e200994a65ce187260e66eff62278660dba4ef";
  "9c4db6ee983fd4fa74f8212031ade343a1b9abdb258d05bef1aabd7ab49fbc16";
  "9c4ffe4815b5755d2609be21ba53c9157e8f71137f06fe35044406b968b80320";
  "9c513f4d4c38a10af9f4a967bb6c7901275adf0df8046fc7e1b7e4c3e3c7c3cf";
  "9c7ad854f6670452d7da064d4b429eb90c42155b6f7eaa52ee471d9ee8b61e6f";
  "9c9ab56c8bcf5ec958e7c2346f23a3027f69abdf8af923b591518eee64ad98ad";
  "9ce44d1643bc4d87e5029a4927613035bbd96b4e45a2400aed987396115791f7";
  "9ce5188745ffcb5dc8304dac97cd037360600d8eb4739cfdbfb06bcd0efd72e4";
  "9d06688123a9251aeb76ac8dad2af956566e2f1051550988611c7623dbebb3d3";
  "9d49c2dbbfecf36aec181b93ff33956edd705a23a771401683293ff7e5d77ac0";
  "9d58f640c7295952b71bdcb456cae37213baccdcd3032c1e3aeb54e79081f395";
  "9d61963c098b07fa7ee6dba40f476fc5d2f16301d79a3e8554319d66c69404a9";
  "9d734d6443a707d601d76577692dc613b35201518856d0189b037f7a4fbd420d";
  "9d736f624a306d6e2399778dd92ab7f4f7ab33c6ca0528657bc026214f990a4f";
  "9dcfd796e244d0687cc35eac9538f209f76c6df12de166f19dbc7d2c47fb16b3";
  "9dd70d3c1262b36468cb79ad26580a9d8b90e557d148ea36034b9c1195af6815";
  "9e309324897edf07776adbb2b05252d7a2ad8140c6636bc28a5050e4ea183d40";
  "9e428c1d1cd7358e2c2f25ede45e718b22cb5d04634a4d1ec08a87e71248685b";
  "9e51062d4249945e77c7d3fdecc9797ffc38017465c8068a5f1296bf85ae558c";
  "9e855f9d5f5f4dc9420f34045df5d2c70498468f076d873571fc62e4015e38d3";
  "9e8c7a03ba40396c048e00420b59bfbcc0b318b787bbb3be8cf3f04ce032e901";
  "9f35c5c9f95979f227b6d35f767dd94424285f8960c904188f0624d786ff793c";
  "9f3e67f9454cb009716b89c0a296dcde73aa29145b7dcf776b81605932785b91";
  "9f5d946c292111b2112702c696d379943207abc502cb18123a84531cce72124f";
  "9f70169f9541c8f5b13d3ec1f3514cc4f2607d572ffb4c7e5a98be0856852dd8";
  "9f742d827a2e203a4c9d8fccb1daf2e85d451761fc9c0acb962dd6c447ef10ca";
  "9f86fc8a6eaa3b38f33be4a0d552c184e575afa50a60df7383c06a394e3926d8";
  "9f94d9180104c820c3d27f03e20f5bbc9d2a5bc2ae6e74baf2a848f2f1790ec8";
  "9fa699246d83356d7b4bd99adf3c74f8e0682a650de2687075e70418ee9d5e38";
  "9fb474b921371c4679582df8484932b832345693de94e3c4a158638b4d75a19c";
  "9fba340eece424f30bdf80126f2d72eba5165bc174ccfb5e240b281639f675e3";
  "9fe018578f9b53dc5cfff659974a69351e630f17a078210f7b71c4026c43aaaf";
  "9fee77b87c5726fe35fa349784f1304caa3a0b789a4c75ced2697df2269df19b";
  "9ff4ef4bc143cb8df2ae2f800d5124b117456b2e04d4c33db766b7e8e21ea048";
  "a000d211840cb8fbcbf95c334b1d04eadb45ba03b0413c96472e47e9e22413ff";
  "a002fde686315a7410eaab863f51fb3fe85961e79221b0dbbb4f71d6fe68ce96";
  "a00b50cc1d95abc3ada635f331c5911d1aaf9ae8b86d359db6fc7f6fc5eb0c94";
  "a01529ce82033d94802a3e0cc6a361d51200588068f5bd4f0a08ea05e061240f";
  "a057a2e353d94358ceba83114d8f94adf77c7c25ab9ca47029c80a6bf2d6d35f";
  "a0801ade5de44b65afb8c275e11e4d766ae64af1a5740ad4f1db1acc4e088774";
  "a082cdb569b9f1f82252402fa05785fd409222912d5b9e5423299819e6f940ed";
  "a0dbcf82dc346a49a816b3a6283392c9f2531661e460072ba063be898e5cbda0";
  "a1b56ae08d822bb5d041c2a67584371ffddcb7f6d69191efec5b8189e0028331";
  "a1ee0b8a7974f3d11c10241027c0e7171c798a28589aae9ff8c5a86228642af7";
  "a2246b6ab3feeb637ecd2bc81a955e5ec495ebb6bed562d125cb9a939724166d";
  "a22cbe36242c92676cf6f905ebe5575902989c412875a6bc022f538e1c2455de";
  "a22d5d42dd0cdae016b536799ab9c384c23b42f5662f0b115b3b85ccb9e23242";
  "a233680b53bcdfba264005644e51bfa4ba9923f0a3544ed4596e28fb9f3fd682";
  "a282ba45dd3727203ba40cc8f5f79167bb2d461fe294a49557f4667db1e05658";
  "a298cc166fe3bac9e9e4cae967f8e3bb41b08a6a97117ca4f8e5c4f198dbcffa";
  "a2b0b2e9e458016b22ebbf47411008f0a87efd9103b125870ce37246ab5bdff0";
  "a2d9f91ede8aed51960ca67318ea337152bb311c03275c0650e4421e6af6b7ee";
  "a2dee316cd07963c2eb7ebb1b4189eca78786c835aaafeb6467b37c1353d821a";
  "a35875c5e976f93a10f5f7f0e8415a725ffd555977c29fb428d38f2669bd9ee0";
  "a363deaf1790e9c0610e07a7203749aab8b60f5ededc944abc0ef3010f5e2105";
  "a37371c4e62f106e7da03fd5bdd6f12ecdf7fcaf1195dbf9fb7ef6eb456a7506";
  "a3a6146a681d25f7d8be88fb36e37821a351205d9be2843c4e7cc0b366984b39";
  "a3b12d9f35f9acd46d7e21627ad3e29149d203e211d665a3e03103f9cb7e4b86"
]%string.

Definition vuln_hex_08 : list string := [
  "a3cf1a6edd205e04653b4338c077072ee753cde0a692490ecaf7afde27df5f0b";
  "a3e507e713f11901017fc328186ae98e23de7cea5594687480229f77d45848d8";
  "a465cfa7a0bd76dfe8f261661d348e25d1a6a3975673336f90878618f2e6c21b";
  "a47b9af109988e8e033886638edc84964968eecd0d24483eafaad6a6d68005ea";
  "a4859c5456d03f799de89d2f8cbb36b4518259a6c7c0bc909b1fd16f48363d5a";
  "a490a57a8f57ae27571629197bb652b0f4c84f9414d09bf6cfe2ee1b175101b4";
  "a4a7794cdb933d71f57cf9f31188c1152bdc9fc429e17a84c4f639942965311d";
  "a4ac619fb531793945ad4c72bdd809ebd38512fc234aa452cb8364ee05465a7b";
  "a4c0e1bf3b397ebe5105a15dce686d7a171e01d5d4af32d67a8974de55afdf19";
  "a4c9fdd68c1f70df223d50d849fb83d11b1abc2256b8916e195f32360bb647ad";
  "a4ca4a0932afa09e8df3469768f5ac6feaff2b7ae27ac208a218288fc4fbf102";
  "a4d7e16649ce3c7ad9355e8d7418a4c234b3763e262f8ccfbda4bc64a402ed27";
  "a4e850e7847499e7d4c2754f8a4973fc5b4adeb728e1e142d1d35d519edf3274";
  "a502c904a7fe42183d3ea66f1e01fbd4321eb202280b054b9124dd333f093ba2";
  "a520ff5c754a1fb62ba88399a313d0c0fb99145ba2d3d91dbf4282388b77fa84";
  "a52a6fe55bd1c294d6f26b68839770d97850e9ccd5ecfd7f96b9dc4386e0ff08";
  "a553ba125adf00a769718d5cd26ed1a59b5e397956ebc6163973b10fe8c58214";
  "a59ad5be59f73f2a138c70d8aa634bf5f3364a67e072b64ff2a6d4627514a9ad";
  "a5a2fe8ab935cf47f21e0c5e0de11a98271054109827dc930293b947d3b05079";
  "a60d45d46e5a3dda02f41d20e5782135dd0da42c75eb9c39307bd67a7c9152ea";
  "a62a024b4db990e938d5ae7d83c2f2bf419ff1236e53adad216b8b0fb96257bd";
  "a689804c4e6e9aa07d48f9c99b7a1be6b05cba1c632b1a083b8031f6e1651c28";
  "a6ae7364fd188c10d6b5a729a7ff58a3eb11e7feb0d107d18f9133655c11fb66";
  "a6bf32fafa57bcbb84b06db0d7d28e4b1457ead69c33fa883d5abe84ecd91b51";
  "a7047cee090ddbd150d7337a9357e03ccea56f004a2d29ddb7b8a0636a396240";
  "a720c9a95ab33b29c19fc37fed2b4d2079a2e4b9bd861d406043bd6010fc4d71";
  "a787df19468ba5fce5de825983251507867c6d3ff72d93e19466f2201013bab9";
  "a7bb08f99a9701482ce693d71e95559b10a247c4e8f50deba8097b0d3f191532";
  "a7c4268ab333669a1514dd1251a1a39420c2def0c8fe59926f1184aaa356e362";
  "a7c6f397f1fb230627bb537e1cf59283be04d17d050a384661e00aba6877b145";
  "a801e12c32c0eb197b3cc507d096afc16a32dca6bc71d080e1ae2c17ad13b2ca";
  "a82d08ef67bdfccf0a2cf6d507c9fbb6ac42bd74bf2ade46ec07fe253deb6573";
  "a8492a553ee840235fd12fa47b6caf1e5a8c82c3f4b681921246d7f192ed9126";
  "a88a6133e7c838f38ea832c163333e7acf1c90277442ff7f51e1999338961604";
  "a8c558e74ebe35a095a5b79d4bb26c10b18f8ebb449365e742f856d4e032555c";
  "a97e5c6cd926fa47ab1a69963169223cc669bd654a2f128165ba4ebe1d08bd17";
  "a9b98a8234d3e560feef5ec88f35960f631d111351d7085c011e055dfec7d3ce";
  "a9c149018c802d3f982d3b3857495e29fd231df7ed030588f163b329024a6865";
  "a9e0f35da47fe91d887a28a0670d8e79ceef7c61ff6d9af3d0568a9737fe0673";
  "aa1c07fc6289ddc2182b11e555073e66b7acbfc17c38efb44ecaa19a6aaf722f";
  "aa65f8fcbaad575284db8f3f55958145a5548de0d9682bf9ac6e5d8c98efe000";
  "aa7f25d4857a4b443222934bcbb0904348a799fc884096f653d921817c0b34aa";
  "aa833c9e3bcdc33eaf64fd913e80f5b9ce60618f6e3ff4c386420fea4a494380";
  "aab97fb324c883f1de71112e1d9fb716cef40636e39a3b9f4a5b8678cf7bde3f";
  "aac86a3143de3e18dea6eab813b285da0718e9fb6bc0bbb46c6e7638476061d8";
  "aac9c11490da2ad5316469aa91943b42d019b51ff6f1d9d9767260abd075bb8f";
  "ab1290211250af83be645072d346693890f3f29feda5a3a23ea97758247f7ba1";
  "ab1c74ed1ea4fc7a613aa22fd87ee4251ede260862fdebde2d7d2f00c0f23371";
  "ab300e7e0d5d540900dbe11495b8d6788039d1cffb22e2dc2304b730a71eec97";
  "ab3e5217c5ec836a882d68a23b017de5b4f88328510e4bcb9564759926aec89f";
  "ab3fe6cbd9e3d70a64c5f3b186126cc38a04a624ceefc46afe4825f2001a3caa";
  "ab494aba56e9ea7b6055ac437f6b678e7239b0fda54bf28019480565a098a6e3";
  "ab5324c992c7547020f85de3456516e0dba2c3c5aab10371723a96188354abaf";
  "ab5b4c34bc49b3ae9c6a7607d97b2bd63d9a1b3c669ef18c8865c8a50a3254a9";
  "ab6c6a6a4d7ae58cbbc63283699aaf59cf6ecddf56eba0933178732f2664abcd";
  "abb444b043b6cfe5350dadb38b26507fd5ed83d581781900c7dba1eebdd59df2";
  "abb507455dd1e23e91753f17d6d7a8a5d6572e288f25eb75e4cbdd2e60adae88";
  "abbf92203a31c93b8e719cdabff1c681921edbaf43cd34da79c86cb5a806757f";
  "abe670579d00b0dbc2c1fc477d8d6e41f3af642e48d60dcf558a171a819137e6";
  "abf635a246752555868f203a565ead519c9ada06ea007545a47bf352678c342a";
  "ac22a7cce3795e58c974056a86a06444e831d52185f9f37db88c65e14cd5bb75";
  "ac42c7b1d9feccd48c305698942186d580b7bfd047bb73dbf028f3fed7aa24ad";
  "ac76256f8ca6608abe84ca194d46bc581706ecc6813e1abe5fa2b6cc3b4bdade";
  "ac7b3c3b74e6e282c7f50c17a6213b81b181f779cd7c0c78e3cb426c427a98db";
  "ac7cd788581d6f8098b5d438546eb3584c1b08dbe7fd3b1ddc2a7295bd4dd16f";
  "aca825f3eb50624c3ab6edc84166ba7e432b503baf438485002311feddce35ae";
  "acb65f96f1d5c986b52d980a1c5ea009292ff472087fdd8a98a485404948f585";
  "ad0370586555ffc34b633aea8b5e4f42e85a4ff6051982362ff371e3972b23ef";
  "ad44cfd9c6262a6ff36ee9d03e59ba4b0524ef87f6b980ce15abb10a35d39f88";
  "ad5418a4b5edf1c963da343b1bdba14fac9e8ee49489b2f35136c4aebc9540b8";
  "ad6360cee0b1b293be38348f0f9deb7221e205516524f437aaf8f468b308cb4e";
  "ad825da18a6a79a48acf0888838c4bc110eed0928795194ed3bba016ac0582cd";
  "ae095718a860962d213622b719f8dbcde190e4bedc2cd92e3865efaede65380f";
  "ae55720475ab1c67e39720954111b90e96a5ebf5d3b91277f4c225a228d8739a";
  "ae79e760c739d6214c1e314728a78a6cb6060cce206fde2440a69735d639a0a2";
  "ae7d7d8a5bc48f2fb1dc81806a5eed52c3efc487cfdc8737d3ea3970dca7ce27";
  "ae85245fcb873d6fbf61f1923b8c10f0680abeaf2bf5527aef1c4a52aae321d0";
  "ae8d7bf855b35951bed2e5cd14daf569befe3284f0b90a8296cc89ace3845fbe";
  "aea066ef46a44a082e437c0fd68671ad77ee626f5864a0c2060e8fb970493635";
  "aeaafcb5d6a7f0354915c615bd0cf0e024168d17bd87d4dfe0bd60099482b4a4";
  "aef3985caa213c9e5e0a0d5e75a9a7918a92c08690b5a04a6b14d6372c2dd71c";
  "af0b10dd5b8970b698accf85685be3a421b70e33b41188cdb8c09720b3053839";
  "af10796af9886b896de11d9067ed2b1569e48e0a5a8cacbc06bc50a533d8bec8";
  "af20c1b4eb703083979e6f4e211327495f7a0a27ace9a52bd22dd3737be7a8b1";
  "af45d91fefd4dfffda0ce70957a542b68775368432e52d20dfdf0fc159495c7f";
  "af5a2122b55ee9d8cd3dd49c4ac41bfc9b354912480f06fa7de19829c00c2720";
  "af7b9e3dca8fd4f9eb548bd06cf9f14dbce9f947fc375064aa90b47e7ee8940c";
  "af9c600edb134fb8f21d585bbf7d0a4d3f1b792b6dd104c10d38f220f47671f8";
  "afb9e6b70f707149e7243e41ffafbdda463da9a890c56091c454df60608efa0f";
  "afba0119386ba096b576328f20a8a6e5539c018057c5ac4c0376f03f0b1f6c90";
  "afc1873543735d6299543d91d7c09ee1fa1588ff9f131ba4aedcd32b984c8ec1";
  "afcafa6f79a93b4dc770b9fd937435575882350d2d8e7916f659384fa9e429b0";
  "aff3f4d25b85b6b3147d2b7f586edc3e9aa2ec25c37d5dc7ad809d99677497ea";
  "affeec7af311ecb53182dc6b28c61057eeb6dbd895f92354310f775cf843cfec";
  "b0399dd3c395f84cbd6ac2e3e8ca8ee344a0f699b17db0624f936ae4bb4b7953";
  "b051e5898c7154161b57a6acc7595873c44a3772bd48da71f14a9204cd46babe";
  "b06dad9821beef3442cd9e775228baa56582a3a85c9d178693f3cf236623de17";
  "b0e2a4bf10a9428888e043fa40f7af74a963ed663c6bf4e2f136e39c41f606db";
  "b0ed869a98c4cc2fc84deacb91ab87ca7657f0aea3e1c23234263e99237712fb";
  "b12c8f36a9498df244c0659efae6f5f942068a1e0e9e0f1ba02baa4a378056be";
  "b1375cb06b0e1ec47e3afea13824cff8f3d9d995960556c0795e9bec0fe48b70";
  "b177164100a31fd01e7f0a24cb0a32015736d3c7c65744c21914a2d4459ef83d";
  "b18d0039333d3bd44f8be9bf9b2fa1c7b3ce61a2de45a212b4fd5c5438888271";
  "b1ad1af005bd78e1ea1d1eef5041c2bdb46f60a9baa60f4b7be21f9603f99df0";
  "b1b708dd7b10616693fd6b56e0b47d9fa6b90f9db28cbf3893b815222e2fa2e5";
  "b1d0fdfddddfe520afc18b79b18b5eef730f7586639bd05857a41c0d09a9b9e6";
  "b213524b22aadcc273142c4b8afc2a6219d6b8b7cab4b41adf9944efb8f46005";
  "b261d4065c03dcc732a951a9451b3a9f6054899eb3b8a4062dfed1c0ca3f3755";
  "b29cf0840f2efe394091e07e6701c44916a9e3dafdef6952c1d28fbeb4649df3";
  "b2b37ef379ada79d2abe78375312bfcd4b518139bc525a522c2a6329ba097cc4";
  "b2da4e88826d1a4ea2532278c5bf2b9ad50ed3acd09d283c2a48fc661a72483e";
  "b3183d87a902db1bbdaecb37291b9d37c032ce9dfacbe4b36cc3032f5a643ab4";
  "b32ef857f7603af679fb794432c9c1ecab0ca7a0ac2ae4dd4fd5e80e05d8bb30";
  "b3811667f28da08859380173611954b5ed3cd8deb972a26caeba8f53d64a103d";
  "b3836a0167c7b84aeaa9f1c551d4e4c82aba0e79958776a7ae60ebeca67a606f";
  "b3c9af8c4be8f62d25b955f92d2a4e9ebd34f7fa787580454ef54241102e7b30";
  "b3cbb2b364a494f096e68dc48cca89799ed27e6b97b17633036e363a98fd4421";
  "b40db5bb6a76ca9aed98366dc19f0c31c50b3f0ac96e0f615e4c52abb6bb0cde";
  "b430d3a0bdb837a5d6625d3b1cef07abd1953f969869ff6cf7ba398ae605431a";
  "b4341b5814bf1b0291739f00c359f9dc1e3b8a66dede099086f9760f7f4e0885";
  "b44dfe8ea675910799fefab7626993926c04bad32091ece3dbdad5add31a6f15";
  "b45d78a6780f125143dbd198ac2439be78424e7ae37a4234541ecb327dc190c1";
  "b46fb3ed5a7a84ef594ab0b76f384aa2dca0614574478fb98308806612609465";
  "b47a2f1cf946fb140039d9818693d664ea2f0f8ec9cf3047b0065aba04e2fc13";
  "b49b7bcf44242dac00ca559dca217ec5d935b78c963f23bd0f49f53a610dd569";
  "b4f9272894f926d4f3b957fca673140a3a24dc896f1a49badaa1e04687b223cd";
  "b508921632475b1aadf6194b2f3feea72959b60675dcb44bbc3f8e363f8485ea";
  "b529550e8d2ec6133be50d7139179654301ff84ba09da0cd256c5dec924a185c";
  "b5433ec27586bdd8d2ef606f9212d8ed75ae3ae2e201a1acaf325d9b12239df8";
  "b5603b60137fed0dfcc95ec10563b0d5fa2e033944019ba5f338f7f7bd2aa45b";
  "b5606dc2a76350916cd77348cfdfe502256d759a4743dd4af503d2f7f348eb70";
  "b57caf226aaf1ee53a3e98e2f2ed40837bfa7a889b2914796f03ead147f219a6";
  "b59ad4a1f71f8379c89fc3bc1d2827b0785bbb0192b43549034f24a133eea3a5";
  "b5c8521c00f0a9003d3f91abb0b881e8657ba5f5cf74a1223a88499a85916e68";
  "b5d0849fc567c169176c2002dd358240d75ca0aacfca92c79d252006c6e0444e";
  "b62ecd7eccde402456eab582b49705cc77065d7015e7d92bbc06e0fcff097e58";
  "b6bf2460e023b1005cc60e107b14a3cfdf9284cc378a086d92e5dcdf6e432e2c";
  "b6d717d2497448eefa8d0be3b7b03030da63296ca932c00bfc8fdd71503c6d52";
  "b6d91487921478891e5570663f23a473b1b0490f8cf75bdeb7ab00111999fb9b";
  "b7036cd12dc9e3550239310fd8ff4f14e4266bbd0de3aba7b087068a253b506b";
  "b756d234559ee0ed93328bb598352ead2efb27eabaf1afac5fb3e2f43b9901f3";
  "b7614d88ed04e2d3bf0798380e04b90e04d87a785fbd99f994206da8d9658fe5";
  "b78cb190a4968d06f2cdab65ea0106bc47eefdaffc871ba5dd2c2dccadb1e403";
  "b7e3bd414674a3258be7ce384619b74946bafa218648a00c04e4e74f987f5723";
  "b80303d69de7ca0cb35c5cc7da1e479f088595493b3fb69a1fe9e895c0915d27";
  "b87085d408c250bdaf933642aa64975a7127cbe393023aaf53d918cd8bf0e3ae";
  "b8bf3bd441ebc5814c5d39d053fdcb263e8e58476cbdee4b1226903305f547b6";
  "b8c5be860e52484d513f45266eb41e7587d2db69c5fed075bc6f3b546aba5b6e";
  "b8d3914b796832a576ed0c977db439c8a5d6df5d0608088c39c786ff81bc2f11";
  "b8d748834fb982fa033cd2671843de727999b21fad30979ac4acc4828910ef8b"
]%string.

Definition vuln_hex_09 : list string := [
  "b8e047a7c96a94eb7cf0416253eca48fa7ba66914b684ee75e81651c83c7ac30";
  "b8eb26b6f79020ae988e4fb752dc06e1b6779749bf4f8df2872fc2b92bab8020";
  "b9661dd0dcf81d2ee8e5eb3b728c907b4eb861806971051ad772f7fe4d09eb6a";
  "b975bb2aeb265f1e943a9ca501fc76e2b4514e874ca449c0e59fb36bacf17159";
  "b97f870c501714fa453cf18ae8a30c87d08ff1e6d784afdbb0121aea3da2dc28";
  "b9914ac1acbdc493d78c289bd185c301498c312602cabfcae8aa86cecb9fd14c";
  "ba182292c25044e9abc89bcd2a846a4cd74485ce0c26413e5a859c516f9d89e2";
  "ba28cd5ddcd1cc4e5a0683f042600bd11f7023ccb31f060fcfcf8de7564d8ca3";
  "ba386547523c5779e47c59ccb1b853918386cd398f054ac767a3a5b333e3fad3";
  "ba467c6edee7266721c220fbc84cb80c995d429052846865d869609602d6e48c";
  "ba6a35ef49a3cc02aaf727700fe8182d8f6730c48eb69fc8d30e6e4263f8170d";
  "ba6c0c9b64fa739158b5f4465d53e67e574e4b954c8e143cf4e299f5daa65b60";
  "ba75dd2c8f585b327086b1e8104093a41ccd2b8a87f08b1c43027baa2e3a0ded";
  "ba967ddb4c5c981831bee276d67cde80a8d62d5b11b7a6246e05a380a889ad2d";
  "baa89ffd5255e5c72112ed57937353ae48a050c9af423cbde6b380978ecc235c";
  "bae01ea7b49bd090e198448c41293830a6e2c68821d65f69ec7dc98a16baef21";
  "baec06b150e0298136275860ecb0aae08a9bd731ef14d255fc729c4bd7e4d832";
  "bb0063e65c44da66d705d25121af09b641070219c174f5d83e288ba8fe59e46f";
  "bb11fe81a2d2ca868398055e9f8cc7349ff4ac6d0a4f1e85e7e5d04ed7357349";
  "bb29eb4651e3276b14217628e96a1e5d83c4e883cd29ebd75aa704dda462e82d";
  "bb3b45506d203aafb4ef28586c0655cd2e9095e6238a8ccf76ab6eb6113b4476";
  "bb4e3aa888a779238b210d6406aa480f01d27ea28d20699b1ec29a59dae19913";
  "bbb894950dc19c804c44a7dce8fe9a7267311e992421faffa8912f8b8b4dc09e";
  "bc3171fb4293c061770ecd9db47b19adf8a7375523d58085d6e5deb228a3360c";
  "bc65d8ade2e72475a585307311e3058b3dbc4a7d2be6740c2c53a5902e698e7f";
  "bcaeac1a4a51b210bfc5ebdb6f797797299a171e0b6d50aa8f9bcdb45a51d629";
  "bcc5394705e552d0312592c507b71a6bd921782f82bb5b4acc721d2f056030a5";
  "bcf3c0762d6600506ff3b2f13ac6d978041b0b50131b3a564a558611dd3b96df";
  "bcf811040c7552a2c93409a6cd2d63f8abbae121acca012e0b7f4fdc0b6a6b8b";
  "bd1d579a15ec3c1120cc6e0c8ff6b265623980de3570a5dd2f57d0c5981334d8";
  "bd243e33fa80f4bd6010c23ecdf94b6008fee30df248255dcfe014c91f2ce2af";
  "bd417be8b4db16ca9ea564120798d5af4e665bdefb6bbc753822fbf80267ff9c";
  "bd9386206a5dfdf63bf642e2917fae6d5e8a1e52874cb2cfbabf79e47b9fed74";
  "bd97725f80debb250a388a6656c7bf79ac0c3c9eed6ce00705d9677f413dd843";
  "bdd173909efc3bb3c5d216ea0fd9ec5e935c2572ef48973eeb0917b733ff754c";
  "bddf1750dc00725c1384b34740e798b4f5f70218ab71ac62a5a96773b377df5a";
  "bdf49774a13d717c1f0b84bf82f4d9ec652994a475f0b8a0a3ab685cd5fd74a4";
  "be03e9541f56ac6ed1e81407dcd7cc85c0ffc538c3c2c2c8a9c747edbcf13100";
  "be25688313f29d7e62c996572825c33f3dcdda373ec235efe552aeb2219990bb";
  "be589c5c853c86703e23e3b77455bd0d4330bd5e612d0af538f98cc3c4cec1b4";
  "be62ed235421930c84ce9c7789f3beb6b7a48a6bca9065063b7ce78effde1db2";
  "be690e8bbc4b0ba4b37c1a331294655dff0c73be530428a447e318c06ec06d57";
  "bedb1e28fd1cdf391edc859c58cb318a9ab686f254195246909b245e7aaf7669";
  "bedb25c95cead7deb60ef18c753b65131d9b7dcd13846f09b011060042586213";
  "bee39425ef2cdda84634519f0b5ed8fd509d62ba88e4484ccd436f2b4b5aef7b";
  "bee62b69023212a5a964d323f60e5858d7cbd767a39f3d5ef87cacb080b1dbf2";
  "bf1264cf5b9ca687a447a5021394db27eecf31f009185deb634b32f7ed49f620";
  "bf2ab728d27075bf2245ddc3257ad8df5179c8c4a449493ea995af9a979d6a2e";
  "bf8734d83d2b8bc9798ba931794504af791e9a0d913266fa39d41b574ce53d88";
  "bf92b2918557f6251c798d2843fb694540dbd29f62689a028ff0a2a525986625";
  "bfbc382decb986b6050268e53092eae5e981cb886ccfb116ca7a0b311cef3862";
  "c005f1bcb549d76ab86390217ad6b3a2226ec74fd6f4595c0fd28b73102b1b99";
  "c0166630f8a9453c118c650f9bdaaa1bb6014b4a3d759d90b8268268797133a0";
  "c025ec72d4b8297ee2e0fac7747f39d256aad26fbf0554e3729e3e381bc6ea86";
  "c032e2abdf4f07ba42ce4559e6413387becbebb0a43c287b6d367dbb33bde751";
  "c057c41b368712a5909c51df83ef28a8cf602056996d3763410375e6122edcb2";
  "c0752dc13548fe8d3b5a7a73c04ebcd7bcfa5e4ecec9ba233d193bd36ed4b54e";
  "c09dfc18959fe51d3e5ca1500a94ab74faf0eb72040930e89cdbac653df9e816";
  "c0a60e07b06033497ded62ed49fbf3eb3d8fe750eebc3f0c332f5d84ab17e045";
  "c0c131bc8d6c8b5a2be32474474b1221bce1289c174c87e743ed4a512f5571d4";
  "c0ed71b491aec860932fe92e5527ef444d537b396186ac839d5ed0884cfcaf0c";
  "c0fc1c1c1ff39ea9a695996482ab31cb65c74aaf9f20cba21e9ff34ef054a008";
  "c10c70be4e36fa9c98a4796c2b03db86398e2b07018550b7f0d58edabc553ad2";
  "c13745de817eb38a092524cd3dae805c8fbde967e635e485243782db955508cc";
  "c155197986db77be55716c49262ac009aefce647dae68268a2b9c7a7fd97c7a0";
  "c1795ec9d05d0efe56e76bf4b76a09a804d3cd5b0e75bc47049d5ee488fc2bec";
  "c191c7d4ec03c4ef0f51a67af42a90390f75ebd6f83dbc05e317fe5a90a1fb31";
  "c1b41d6b91448e2409bb2f4fbf4aeb952adf373d0decc9d052277b89ba401407";
  "c1bbe628f79528417ea741dfad2f589fc4e5c62152e632a89ed080da029d5384";
  "c1c18591d7b68fafa870f3d0f1124a353682765236674cc7476c5f1cc71b1528";
  "c1d7ef1165e8ecb5ccd5de4108cd79c88b4d87b4b600f102ecbe2279b242d9e7";
  "c202e7bb00135434321dad49f6c746b1ea071f6e7400a598438868f660f0e887";
  "c2159219e9986ab9e07e00a87fb83835230a2b99174e7f9b94096046c2dace55";
  "c23ac21bfcf3bd7f76d4f3b91844ab35427a1a2d3bbaf93f7916edf7569e4b22";
  "c23b96fdf13b405480bbcd2e611cc67d98fd92f92cd2444da73fd8c4a4770393";
  "c24d0fa3ec5fae870fb0a4e38943d396929d78165354bae56ae5730eb4d062e1";
  "c24f503462a98f7a8bf0dbff0c8242e1f3d4e6cdf4327152f508717f0eafee4b";
  "c2557b448d71c6873bf71f5ab41cc618d12d5c91717bf8738b6b5dce187326c2";
  "c25c71ca670d6d27ced406b8cba8aa92a4b96898ec1506f59f4fef09c1f3bb11";
  "c25cb17f5879e9c2fb4c91adb18e24b50a94738d5deb62a4189065bcf2c1d86b";
  "c264c3d71a57a5dff031d74bd2f6ef715eff603cc8078df123e862603e096be4";
  "c286dfac5ca413efeb1936e876688b6bd46d25dc64206f86efb4f52ad83d1889";
  "c2898d715a1806b6cb574bff1dcd4bb2fd026ac624a2fbe71b7f17a64d0a9451";
  "c29e726448ad3e6452b5d186afb4668e6fcc942be512fe25ed72cfa1b73a6007";
  "c2d209ed240027608003f8d32b621f8baaf5601aaf348e64269e4457a594c7c3";
  "c2f5db10a59577aeff8550a58f9d96ce8aa8c1a13f96814cd0f4bb03274968e9";
  "c31a1e223df7ea4b48df23b4ab92110a5d8732e2383c326dbe521d84dbabf875";
  "c349c8036b5ee61e7b0831943697ba98bfe70a52bac0a06b497c229b0c0fff27";
  "c3577eeb107de6a0cdf6ac3ee75339f09fd0eb00b4d368bf841b6126af7629a1";
  "c36ace67f4e25f391e8709776348397e4fd3930e641b32c1b0da398e59199ca7";
  "c3a215473d836c1d7315f371bff4dea956d7d1b440e43b4671f6e3772bae00dd";
  "c3ad079fc6516504775869a9667e154dc6710a8dc39771fe81b1f15f5c3bdf5d";
  "c3db6290145dc8905c0f97e218e0ef071f435a6ffaf1ed4c0699605d9a540038";
  "c3e3719ca592ba65a67f594ec1a08d0d7ad724b088be77d48cb33627c56f4614";
  "c3fa4872fd2c286904a0cf37a392ef89fb6ba2a84fc9e1b66c70e0cb5ae28efa";
  "c3fa8f5c8094a6c6936faff1d1faa02fd489482f21c288e6c700446ade5c20be";
  "c4020e95f8a69522e400d3b14bf1be4fec2e7db0597626fbd8f8c3c1e85bffa0";
  "c4031eb0a40137c4ab6d2dbdd2755135c63ab137a0aeb74a7bbea6617b96f0a7";
  "c44b807e14e5da43a060cb36a83aa5b1e4b7b95620f9e41d289694f9daa8b77a";
  "c48e5dbc0726c55d22c8682f54321cdeb79e383f78e75e246d1fc54d5c45da9f";
  "c4fc8f04721363f4b570accf700f507fb0b0381a81d3a8ffb768ded65978ac50";
  "c5062c8d91eda5579ee627746b367e37f60eb717f7148f6885ad6bcf315203d6";
  "c53b5f071de2bbc03387451052ab81bae9b8ec0a6e075c970600f791157b0b25";
  "c54ffa9a32cd99972ca905dcf99e20f8429e3cfd45bc1ddf4f9af8b3ed688c88";
  "c5647d315fb5ca1dcf4b063ea3f54003e2545739871519b8f2c98dc5baf66bac";
  "c56536f99207915e5a1f7d4f014ab942bd820e64ff7f371ad0462ef26ed27242";
  "c5732937c3ab5e0fd244cc1b820eaa1fb7d97110c213cd6b9dadebafe3ea853d";
  "c60e5c41c65ea34c8cda7eac06018fd33feb2b43d5b283275e87f161fd259fea";
  "c60fcff9c8e5243bbb22ec94618b9dcb02c59bb49b90c04d7d6ab3ebbd58dc3a";
  "c62bf9d0cc1edfffc15f3f002cd7f51efe3372320ec89d9dc96011000915c186";
  "c6389dca278be297b95846badc2b6859b488f123dbdc5d7bfc6f4393eeb7e678";
  "c662ed197a5849cf491ee099885f8855b4f8a3d0f5b664c772f2b89c0314b44e";
  "c667c465ff3aa9d54a580ea19d01de869d0577fd589514f4c3deb844cbf9f89a";
  "c67c6f1e03a466dc660bcad6051fc38eb6e9004a4e252abe52c6155f5768ad90";
  "c6852ea86cb52934d04af2e042b32017191d5ba342e3cbcad89c719fa039e15b";
  "c6f7acc48d15f334a757a416809eb596d291952cf730a281de4a4423e18dce76";
  "c767a5895119154467ac3fce8e82c20e6538a4e54f6c109001c61f8abd58f9f8";
  "c786f3ca229da18b2806af4d57ecad603859ee548549b19f71a623f477fc740e";
  "c7b1bb39dcd7f0331989f16fcc7cd29a9ae126bee47746a4be385160da3c5a29";
  "c7ba2720675aada538c47fa9e8950a81b6df23f63fa181680e6232651abffbef";
  "c7e5bd0090962b4f31e17ab3d1f97bd9870d23238b591a70e27a0c91db138f95";
  "c7f668acffa12fc2cde7e9baef4da0ff526a1b569d0e453b85f53e9916ceb38e";
  "c7fef94e329bd9b66b281539265f989313356cbd9c345df9e670e9c4b6e0edce";
  "c84806a49da944c20a01e7dba7721e88859a5f65ec338ddb5da3a0d6895e7268";
  "c84b0dbc0024c88c61a06d0aa7663a17a15e7c062f185811c5d85e1155e25aeb";
  "c857c2db1fe1b9c979079add29d5b970147d6a264b4095e6579b5d0669c2b572";
  "c8a34012c22a650972b9ecad988d346c8670bcd51ea2dd3ab7fe4562e117f1b9";
  "c8b5fddf52551259d7d936283aa4fdc4579c5e4b030a11267496cdbdc143e15b";
  "c92d943a465e20f50bae8d46ea38b635d2da85ae4e34f0170fd6f451890c76d7";
  "c92df36fa57fd215aef78a016c6cf6bd535bb3472ce4eb07e403535daa96318c";
  "c9532a354c24fd256c24534c554bca5a126414eb496dbd3223fe9486418df2ea";
  "c9534f81749245346003690ecd5bdbd0a2b7011fa402c4984477ee7b4f80ca95";
  "c9aeead632435bda4f5723fff5c48dc60451072bfc8649f2ad6e066ca910934a";
  "c9b8ecd0657fda14476920fe47783bd8a951d7a4a640935d9199b4a7ae4b8b69";
  "c9cba07502b8a10034ddf75b35f4d6f2a24862cde5bff300720f5df04d4cfe6b";
  "c9fbff8b749a1f580b5b5b9e59ec3ffd769b4179970b82e32a3d36e7a3a8cb1a";
  "ca1c24baafb81908461d7c858749354df0648acd376265683c189c9d00e856cc";
  "ca213b79336c69128620bc39e6d987c1e605299fb6525344ba1b08b7829197c7";
  "ca829178d01990c8d1d6a681dee074a53f0dd873fd8eef6f6161c682449ec8c5";
  "ca94e53f4537f945a734c27d1ad28b318ffd3c746232e3dd03070e2ed505c962";
  "caa87fc917ab2ccf9bf2ad715173d74e031626c6bd3c80dca01f27933fec7242";
  "caac9e1cbeaf4c1e05298e9b0f29468b35a36badd443eb6146e59c5fe520a52e";
  "cab9f96d4a105d5d6ff8da73687a07d7026dd9721a51a5fa3a0d9fa24822aa22";
  "cac6f11d37bf2438a7f07053bbe692bb135bc06c245b56e8411e3bd906e15f98";
  "cb21a13819bf295f34f5b34e3e566d25d880b045831e90ff610daf9e8b1f15cd";
  "cb3dd0482092eb019dc11797dcf09f69fb3f06330e1fba0047678b226b57c2cd";
  "cb57f3a7fe9e1f8e63332c563b0a319b26c944be839eabc03e9a3277756ba612";
  "cb5ebba562c33ef2ed93558913792726c8c2e5898531923589122ae31db64ebb";
  "cb9890d4e303a4c03095d7bc176c42dee1b47d8aa58e2f442ec1514c8f9e3cec";
  "cba6ac0031f6ee2ea4bf8ffc7a1cffff7c4448431584f54b9a0fbec799e2466f"
]%string.

Definition vuln_hex_10 : list string := [
  "cba6df77d819fc098c160402a47ccb616414cbe7e42ea91417cbb5941e04ce41";
  "cbc1543100df83a08f3ee9476cde83db616f610917cd4bf5ecaafad46b6f7e23";
  "cbf98b321670fd17462e7ceb8a0d002b9a1474f8015d94ea267a942a2e20c80b";
  "cc041a5c21339d62c9ea05215c2c42697f73a3820c83133eb6c6fa574a095384";
  "cc11358e14e140a1aec4e22531cc59636b23fcce4e2efcfa505895b40468a9da";
  "cc383ad11e9d06047a1558ed343f389492da3ac2b84b71462aee502a2fa616c8";
  "ccadd6f8b6705e756544646d99f97030f291fc68377ce06f71e8c55512941c47";
  "ccc65f108ad084af41725e42efc3c3c539f89a474c1b1293b111a83e3eba216a";
  "cd1beb64cd67169d57ca4dbc602a94f74891962221bb49c09abf3339ce35bc90";
  "cd3b38875c8b727f18cec382698624679d6413f02cf33d82a7c93b9595860b6d";
  "cd57abaf2f20ea5b3f56db1193cb3772aa09bb2be3c4fa8001e7cf72ae1f078c";
  "cd5bff03256b98922b47a2725128540953a0ac15bd2be204196917d0c707a9cb";
  "cd6153fdb448c7914a172053ad9e33819501145bf7c10f5c572152bee99a5896";
  "cd66e893300e7e59a749fe4e1b1706f8ccb5ae140254def9f5a614648e2da36f";
  "cd7754a6ec6bf19724fb266ec4f1d02607e9b310791d8725d7db5ac84d5430e2";
  "cdcf71696db4031fe3e70969bbe6169744ff91eebb24d6ffb734f922a850183b";
  "cddd341f267a6094f7bd7d1b56427ebc029ccb348e7f0714d9301c2c67fdd5df";
  "cde02c7db90626bcfbfbbc1315d4ce18d4f15667fa57c16b9ac2b060507c62ad";
  "cde6cb8bba989b5e2b197611b96471199e8a0484e895da46e3d3007d3a328151";
  "ce12d9c2996a6626f6fc68415f8a94851b3468c9c62cc408dbdc0227cf77939d";
  "ce89124d29b5e562bbcc2f07b1dfac0f22dd66ad3deb32dd32c8c138a3739ef8";
  "ceb1bf90d8652dac481fba362e5c3a6548a116897e729733f2be27f4edc5fc1f";
  "cec5964d7e32c52439d5eb660fa97827b619a7da9f3264f0c9fa4b69e3cb7cc1";
  "cee01c69cb0c06dd0d98ff05aeb2b0a34a4aa1a71d35a3033bf9c1a35b637c55";
  "cf0855a8517be550b08a981bfacf90f245791cd70620868a241f1b1e2d8dfd89";
  "cf1bb76946253f9a5b709b5237becfee05d7f56670767aed896763a2641bc854";
  "cf24c69123d4a72445547f7b5ad6738fb47f2d3fab06e3d628b7278113a63ae0";
  "cf2ea0e4d21d3774bbacf10a14c75583b448829f87a90b869678fbc4de9b2a99";
  "cf370bf2ef3fb6fd5e9722bad8af5347b74ce7252d291e2958b365aad1b0bb76";
  "cf3ec8972720f84d73e907bb293de40468a0d605ce0da658a786f7b4842b3c62";
  "cf547c9bfe616df155cda71c45b7cd89a2256174eea70f673ee6b9e529d8b72a";
  "cf59e0a6588061ca6851ca766d582c9f6d2138d561d67d265cd6bcdafc99449c";
  "cf63f518c9e45fe87d336c87938eb587049602707f1ed16d605f8521f88e4a96";
  "cf8a7fd4ab9e2dadd9c244f01ea10fbc21f6fccd8c03d10c334daad48efa957b";
  "cf92fa9fb3067b134f3ae49b981c19bb785e90c8d6348e76f346aa12afc211dc";
  "cfae2c01311fb5a6d5aa5be2a3822e01e825258fe4d860e6e8778cb6738b95f3";
  "cff3fc66d54279b755ceedf89268847dbb5139227739e4689f5d9271b1d7923b";
  "d033f5c0a764aa7ecff779cf7fe13140d7d8eb1645dd212f408ed2fa119e3b47";
  "d041654d8cbf189c29919733fd40184ceaf0050295fc7a7e6e3f4cda45b5e090";
  "d052299252f0f0bd70b5e7c46b9ca71a99a052b47f693582becb6f0d567e8245";
  "d0b918d766e6ce4218a833314525dd6eaeba83c597e9e1a9efefa7f95ec64a95";
  "d0d8dcc01aba3ac08084ad40df3c64e7dfdd26ad403b08e610b96e2fcaf8a713";
  "d12acedc9a2702a18499b77dc8ae9e6b2d1eb557eb08c8a14b2ab3a984edec01";
  "d130e3e052b09dc154c32c170c227f7baaf74fa7767943478876c744fc3d026d";
  "d1598c68202647a9d029b0abb2737f3701359ab433677b51bd83459de7155677";
  "d166b6ffd164dbea53f0f588a979f4c5f1f2a1793fc10cda84a4530b7b22fd0c";
  "d16a59cd7c52d1d32bb43670cdca739aadb19ba15996bac62071845e1bfbdb95";
  "d172d95afc72a8a4a6362175bd68b5f4405f166fff94464d845213af586fe8bd";
  "d1c71a98e10105faa0814fec3544474d86ae0e8f88efd77798a716adad3994a2";
  "d2210fe09378b142d1bfc6034cf9e37cbe389bbd55d866a037b936a3fb49cae6";
  "d23f28169d6e5c09a89e5136a4ff899a3b6f886535bb0254a27dd00a2753c412";
  "d253561067550539a9aca8884846432116fac5eee9948f2c5bdce7cf61985b7d";
  "d25904fbf907e19f366d54962ff543d9f53b8fdfd2416c8b9796b6a8dd430e26";
  "d259e9b1d04b5fa966094f15f8edbaeba5da2a14bf34bf0a5490a0e308c025d7";
  "d27af8f0bed1e4f4aeb2b20da89d0ffa1b7b5f7f14148cdf09e6444a0aa5bb1b";
  "d28acafeb6a85294d2672fa894a2934599713aa9ce1b21184dc1ec34131af7bb";
  "d2da77e10d2fd2b8b2aa68ab4af1483ef270311c846644e0ec61ace146ee6feb";
  "d2e10e17bca5e85e6b84345b47aab14adf45d98c672db6acf90479a7faf20b5a";
  "d313c49a56fbc0fc09e20af7b6e1dc82e4bcd0e2b8be42e6c6997dcc12f8268f";
  "d3227dc2e8f83258810cf43719f02a8d52648eb17939fddd79fd70155a47305d";
  "d33f19a12cd8e8649a56ce2a41e2b56d2ed80f203e5ededc4114c78ef773ffa8";
  "d33fe3bbcdf1ef7e42faf4ac81d7da3a6451eb67b477e78b75506b0df21cf598";
  "d342b077ec4b0fd3ced62d1e91911ac274c708e4ee513f52ec8f2cdd99d851f3";
  "d35bc51acafab893698e6064d286541918a789ac7c06a6442bf4351dde842777";
  "d378162a47648bed192270ab4ddd67c99b4ebe8093a267fa1fe1e092559504b0";
  "d3966edd6b2291aad8ce21f35f85ea18a60e5c382891809bf4d4e07d0b0c61a8";
  "d3d601c77d4bb367ab3105920ca8435aa775448a49c1eda6ac6f46ee5d8709cb";
  "d40f6a680914df8c6cf8dda62332ad829a91815ad94439b920af986f93939a7d";
  "d4288c055c6d68b4a45df501877443e544b31c193f8559c8c7eac927ae738e8a";
  "d453110c9050320419c2064ddea08230de6c76f86b07dc58112208e3d24a809e";
  "d475c4fe917020d420b5d0cf1f074b1427f49bd1f4414873501be51700f8832d";
  "d49d6e44d1333ebec32b024d57be1cfa6154bc1db880cd7b89214e754ea240fe";
  "d4e7335a177e47688d68ad89940c272f82728c882623f1630e7fd2e03e16f003";
  "d4e93f592a8342b0eb582d24a114348ce40ecb3c1e7b238d731b02e17d5aae7d";
  "d510b3424178f80cbe926217d74bbecbf682a88f1b6052ef27fd27d601fc14f7";
  "d533f5690055901f1c59b5152abfcedbbd0b0d1209e57b3cf6d0dca23e64b718";
  "d53d5e1311f42580e5cbc675f6435753dd5869418ff47451a0b372f841662534";
  "d5562fb90b0b3deb633ab335bcbd82ce10953466a428b3f27cb5b226b453eaf3";
  "d55dd56e24df201d1ad2204d565da5e8e6080d895c1ac2873a6afdcbb4c8b8c7";
  "d579aa7b6da91da07b281f2b8be478e390ea42ccd3987d115735e8908db6a257";
  "d580349730ace5170e7c33850bdcb37cbf16b70d0d1adc2568fdd223c2a55a77";
  "d588709e2a99d785c3bf6c122ae9310f7aebf775e403af3c315e122ae88f4b1a";
  "d590ee21ef889c847c8c80efe07f91cae4390d5663e6dc7a81077efce3737249";
  "d5b270ac8ca4f87ba51eafb3b28102875bdbdde0f15520ec0a629d8a898c0b2e";
  "d5e671c37f0eeb437d1ef480ff15b855ef2fdbb127f9130443fbaa279c5a3d72";
  "d5f58cbce305cbd4397c1da5e1a51d78575c67616f6d9c7d764f87cda540fa62";
  "d61ce5874adb89b4e992df8df879b568d9c4136df568718a768cd807d789a726";
  "d64c32991be47c638233d9f4c19136415837663c6b00133dc18898079b13db14";
  "d6753d2e6cf2f11932b4fedd4362ab57651f8f3baa886eace22fd98a14ebc2e8";
  "d67899bbb43fec01b10b33105eb970d44aac5b81dd22cab8bf2d86302f6d08a8";
  "d6cb3418c1a512aef6b15586bf5234689d4e471e854103a72d80a8597d263403";
  "d6d56ffa4dcec362148ce6b3806773403cf7ca61f991e17f7286ee975a706f78";
  "d6d5d997bbb55b2328c6486595f6f3070a0d03b4dd7c1d2ec1510f43e61b9bcd";
  "d70bfea03deeea92a253f2b4a8b7181a3064f62c5207f94b5f7ce5a9e62ab4cf";
  "d73c3cac633b3a6b36ddeb4244f52e625ea6cf63df6cb41176b505342353350b";
  "d74599ab8960f16e8026dcd564c5407956444c46c3dea6b38b1c243fbbbdc517";
  "d7841ee6dac956cc0923368d6722063a19c9fa131e55c6f3b7484cce78d826f0";
  "d7b082adddeefc2cc8c48871ca50522121ec4add2796b4e3bdf225fde77e8625";
  "d7bbb86ccc9c1f4e0c47b2d98c54e73e6915d68d560525e62817205434b01fb6";
  "d7bc7306cb489fe4c285bbeddc6d1a09e814ef55cf30bd5b8daf87a52396f102";
  "d7c683ef033ac2dc4dfa0dc61f39931f91c0e8fd19e613f664cb03e14112ef6e";
  "d7cc798804f07ba04cb1ed9233c5852d147b56df612117c54667cf3ebba975de";
  "d82a938dc7b0077a06d940bd3ce6097e3b02cdc254ec6fd863c0e526f2af69fa";
  "d852810a7319e3249077a1b9f1317f6f4157a19bb99b90063d118c30c2c84ac2";
  "d8e3548efca46a3aceca747622881843b170225957cffeacfd149c25907ecf2d";
  "d8f7ddf5de213c6dc0356dc83b6307ec596e66c33c3cdd826a612c12004ba9dc";
  "d8ff25255202321bd00f7aa792800e1fb7aab506dca771a4a8e2cc1af265fa15";
  "d92b2f58c8fca3d3634b0c20578edd5004df571b29790690c97255e6096442c6";
  "d9434a50e1a6252f23af362631a5576017cce3ef109d7fc93748de8bd46f9385";
  "d9674a1364fde6b5e7fb1770bdebb8db7de8e15f3c976e5c5102775c95452967";
  "d9a6d18a51bfd4cb1f375590b051ea95f9e2d9090dcda4be51fca6fddaafb598";
  "d9c3857d2959a3eff45eefe43d8ed1c23bd6908ae8a9a7e2e4e402bbf3e6d3ec";
  "d9cbdfc10ba743d5229f7dbb6507b9864012fb58cb253da92962dc611603a73c";
  "d9d4e7d594b4b318ac78baa79f119e4c85493eec1c1f939ae10b1633346c6e9e";
  "da5e27b18d3c1403975a8e17431242f208621348264ebe770db8b07813a1a0f8";
  "da8945bd5c693c0593c9d0e3bda49bb1c6007cb25643c95708c6b10bef7c136a";
  "da99d80082f3492080cd036d121d6d017b9e8d09edcd59e099b1755aa7e9be16";
  "dadbd564c4fec1cb6a3e2be92031f22b1ddd19796d5d9639bffb927599c69a8d";
  "daf4d9df4b1e64ca7c800500a7f290b9af5fdc5c63c5afadb7d6630480688ddc";
  "db0bcfb5bbd93abc8682508af224a1aa5e96f82f037ee0ba26d1d02a3d639a2a";
  "db58973c75b7cb94ffb31ad46fddf2f16f19075a99a69a7de20f8c0e42d96ba0";
  "db68a9cbe22b22cba782592eef76e63e080ee8d30943be6da694701f44b6c33e";
  "db7a15aa5b85845831dcdcebf837b22cf43fa572dd9cb0bb0d264af519b8d406";
  "dbcad271feda00f614ef9866886cde83e9fffac6e76694fd052790541bb7e993";
  "dc732dc22d0521fce33ed9c37359f702c985d2f35bc00209c3a4a076d6ff564d";
  "dc8a1cf5402f95d61662531507b12b04e16922eb89108eb751d1c634d475ef67";
  "dca34739f3935caed2af248206452e7ba1fdf394c901e74729b5a96884dc6228";
  "dcb8df13141708f0dd470b5411c065f8ad21688daf424bd05c94eb6e63dd08aa";
  "dcd4d4bee76aacba8792df291eb55cc716752bd7ddb51ecb9bec491b02f57c70";
  "dcd5404c83f74f0b7a8d0735174af78782aaa99d2b5b5b24f44c48b295a2ba31";
  "dcef3c2fe44a68992d2344a8ec129e9d35e7790f4317e9bd7bca6bf217252d91";
  "dcf9bc1e511993fd8c87b8cab5c23366cc818cccc40617cabc8f242d4a8751d7";
  "dcfab3c5f99c15cbb7df17c59914af551b90e0ed3c1dc040bad9927b12b67125";
  "dd09931d050a354b34731621191795483930bb5f00aa6fba5bb849ea2c89224c";
  "dd41e9a82e7be92a5d77624054a0b9e5e725492bae527f31e878140482ce802f";
  "dd54115ef08b107691425e4c0bf94dc0ae7c522fba60a0ce3f574ebf4f5dbc5a";
  "dd759c6b9c4222c7b19e8b0ba7288d7395594d6884b9bcdf0ccfada3e6b7a8d5";
  "ddc5ff33a19baf1630a92723b5d0103fcc9ca58ee2a548526b9439eec3c97fe8";
  "dde12d20a00f7987f6e53eeeee3d5667482940f06d012a0003b80f217a105d74";
  "de09000bb9f5f81ff6c9ba239ea2498cff4e3decf6ae0220e4b0d64c3500acf8";
  "de6bf572d39e2611773e7a01f0388f84fb25da6cba2f1f8b9b36ffba467de6fa";
  "de7b59f676aadcc0173e5a8d6b22f74f6a7f9c0ed906e5cc5f3e0fd821adb813";
  "de8a750317ff44704c0b03c374f5cbc37c9ef5c067a33628aa7c51a5b11db383";
  "de99cea1cb680816afa10d2629a8067af1dc289d2d162a21b9dba71eb0e47745";
  "dec8a933dba04463ed9bb7d53338ff87f2c23cfb79e0e988449fc631252c9dcc";
  "decba65bbf2232ac55a698539304cab211b45eef0ed17c05dd7995bef2b98fc6";
  "dee8dbe00a809e5ecdbea898393dd9ecd32fa0a0de80463cc2b903dcdec2cffe";
  "def61560c0650717cb1da923f0d674b363b8f2051247719b34f06744bbb79000";
  "df101558cf68e3f50fb468248699e6f3938be7a893680bd4803fc2afe20bfd78";
  "df1fa63048807a9372a9b29baa712ef3c448ae28fc2c7da559714e40b1321a4d"
]%string.

Definition vuln_hex_11 : list string := [
  "df3fd9fa267e12d7c6b65028373e21978041f0c94375b5c7316498fbad6f4ae0";
  "df4511fb094b63b0f2b3dc72301c598fc170954e6ddc1786091e2406fb366cdc";
  "df4566edea7c02e29d7dc56ff3f7da6c1ef846e1063b2805a5180bb0d6db37e8";
  "df4e25990742fc8d3aed70f6cb4d402e111e7ed08fa5f76aca685b8c03b98b93";
  "df537edc19e05fa4c711b71e02ee63898c6658921babf78eba7833fcb0f5ecb1";
  "df809d2034204821509da0c870b5f34d4f98d5c7e4a35531d9742b40df853305";
  "df813922fcebbcaae99314cc207ec95111a6599ec7fb2d723f6bb1052c493c8a";
  "df82f155376b4e95a3f497b7362ba6039c04d2ae78926f626dbe1a459bc626d7";
  "dfaefd06b680f9ea837e7815fc1cc7d1f4cc375641ac850667ab20739f46ad22";
  "e03d8492926408a299100ef02c46bf3510a816bd9eed2f988b47c066049e9111";
  "e05b62738ebb09250227e87908d67a3fc74e4c684d5a86ef935243a6f0e06792";
  "e060b051d0b8eca8490347f679e63391c792b6b37684e11301f4ed187173c3fd";
  "e0aff24a54400fe9f86564b8ce9f874e7ff51e96085ff950baff05844cff2bd1";
  "e0e65416f40cf3bea00d77515a7d8ab508d3aa2b7b622a8799a49635c4d5dbb5";
  "e0fa3fa9488583353b39f12f857911b7115ecd82b70f6fb7be70633d72147649";
  "e127efb8513c4866dedf8e506418ec65f87b7a49d8cc6606cafc8507d2eb550b";
  "e160fc9d1990bc1e7ffa556d6ada19db0d2c5c7aeb23a491704b37854a666480";
  "e171be5cf5cc1f74ec346a1ab0dfaa38c16da6b4265eed710a3faabfc13b9d56";
  "e1a34446a3d8b2875a505b109a1c78177f9fa887472699ec9db5147b1074e42f";
  "e1a6c1e23108ede9167ffdf9ebc6af64a011bdafc57d25f84afab6c021ae7741";
  "e1b3a3a67599aae12c073ba5ca0928c2c316d438c2b5462194c97687dda64903";
  "e1d2d76829640542eabc0c96356675c0a930e4607869de8037daf62f898903b5";
  "e1d3963c55c7ffa96d16e47ec4bbb4e171f828650ce853eb0b83c90ae9c6265a";
  "e219276a4068b1eea5ce08f83a322845dce4eca89e05c71a0c2417065ce48813";
  "e269b4cb9df863c31ae13012429f67a0f3cd81481025d35ce6531b33b63b5976";
  "e27fa56ceff3fe7d5a723c5f4192ce6aa16994f88cf05935645f9e398292376a";
  "e288439705d9be2c1f74cf8a44c3853ac3708e52c592b23398877006fadf6ccc";
  "e2a330131ca4a9499736fdc72e819a6ff1f883b1c6dc7b83d5b69d288508e0fe";
  "e2b6350e17e9b24b7140eed743b4ae0b01453bbb8cb73b091b51e2306017d80f";
  "e2bc6987462f4cfe4de4b53add75822cb2a197a6958b10cb9d85e16788703d18";
  "e2decc56788d257ce7f6b1915c90ea5a54fb5232f2bf9f311958de495a4eb308";
  "e2e351efd57c89bc0c7b9d4d440113304d0b8a4c88cdf0126442171aa50634d4";
  "e304e5d70d3f986f623fad7f4355d5218d8c1681e423b02db0946cbe1503eb76";
  "e307ebe2d43cc8e290e5ade032a6e38bc6961439f92d6e99b954bf1368a975ef";
  "e330de98db81f9b183ef37d31e111301da669f1fc572e87acf8b8c2fe4e602b5";
  "e35d09a903d76810830aff2fc87bb3071026d982a334b3ee4c68f66cba865109";
  "e35d11538406dd03ac93236be37c16b2da3ad1d38fb59b70b85c484804546b6d";
  "e37671575137d4e726efe2cfb730455bfcc5c08d553330dc68840ce8f7c63280";
  "e38c1b19e1bef9be8e9d8aa0d599086acb33867988e4077e0e7f35cc2bb30738";
  "e38eb95fd1593c73311d426dbd85491494a4521aaa4c4ef66e02f7d6d0339171";
  "e3a74ac9d23efaa857333a4d8a40ed0026f28575475deeb6eb301fcc0db34efc";
  "e3d9b90e2a1a6e997dd3e3ed6b05aa3230d8ca3c25477b847dbe163c0367cc7e";
  "e3f30a5653a65584894a1688c0ec9e1f49b184684c53b6082495f2b945f95371";
  "e410d3084e4d52c6c51e84b2ed710b5f7695da749e7f54232f5093953f67ec77";
  "e42d8953f90e0b052adacd6c8e6cc240d723e5b4605ac897fe9667e661f9ed3c";
  "e44bb3ab324b727873079b55fa804ad1d35d156ea5a5c891808adc99e00bb713";
  "e466e2bf4e190edd8717f6e8466b77a66b3304f5ae1458ca4400025a869fdfd1";
  "e46bb410c3bb95a1f3d61ced157c679bfac7dc997534e46b83b234a6fc5cbb14";
  "e4ac5c7fbb41ee988029b27d8b6be574725689fd1365f5a56f5a12d9120f86c6";
  "e4dbc382c21b4b14b54d37b2fd86e12a7637f177ba4170e19ffde3584ec48e6c";
  "e4df5e185217887012b88164e0fba76d6869c541f6d64db20da505b9707ef370";
  "e4e613e586ccd41daf27a7e55edb3e6d74e25052862c27403a404b103cbb8e1a";
  "e4f90ded38e11860497b9d0290bcf93a6bcb48e836b334010894a2de865b148c";
  "e5183eda50e2c42d2ed10c015be87dff774da180928c076e99888b0d6a931df5";
  "e52bb23d6e4572fda5318addb4dad602629c8f254b8e6c4baf4033dddf13d660";
  "e5316670c0bddc0519ef96b2db89285a8620a260429a97f9d2cf5b58b0287d91";
  "e53dabeff15be08a23fb7eccfd82fd1dbdc3de857b28209dac3b4b2bdc3cb13a";
  "e5a6fe0d0a3894f55b7ba9b4d5a03022f6146544f1f874ae1ef32c29450535b7";
  "e5e4dc1a918e201ec2cf02a036e4dd03dd04dfd179091c8adfbc6745eb830f2f";
  "e618c3484111ea363a1ecd2c5f5d4abab13f2f474c870bfa5f6edb98df66f4cc";
  "e650b4e4b5a95cba582b9749cac4c40e67e854d78eb8494f46f6d11f1fcea4d6";
  "e657e54c341d37881837dbaf553e10bbe31ff2d6ccf9ca939ca5433ec464a73b";
  "e6745f1ac0dc8014e359672c7d5d1c01588ab4a68ea96eea2dea811dcdcf5131";
  "e69bba9f8aae090226841a02e6207fb37f784b83c6641ea15bd20e7bd3418d87";
  "e69e909233b99ba2765ea1124eb0d5054641db17ee8f15135b18767f77d943aa";
  "e6a2ac52a35d470dc336bae5c48a2ebf2d80519bfd57b703da6ce00ddd12163a";
  "e6a53d4cf39b4b0b5069359d0a3b32eb1aa7b56c427487c9f838eb279c6a90d1";
  "e6d1017bb3ef8198ab693b8a3cecb14263d7d132678610348440ce64e147cf3a";
  "e73bb03d54b40035558df2e990367a1c4e9c1ef8e980df6380a63f3bc23e6740";
  "e778dc770a0a85df18e46c8251b92c0f3cc4718f22cf1812ddf8f45aa58b3657";
  "e7a6c3a40724ba871e13d9c55b7967ed252777a2382fea86e4ed6a2a8203fb4a";
  "e7e162c487d9d3595fe6c7844eeb5668657a6f43fee78e9455d15770ab287432";
  "e7e7824d611527b67fc36128da1b35d9b8ce3ffdab3fb96e3dbabd6e9c9570c0";
  "e7fe1fa6d2e5502ff1882a345790d0aab3ad34fe269ab23e3115d2d93db3fe6b";
  "e7ff6a8a70471991d00525b02071eff55a2252d7f8dfb299ac2d169e811f6a84";
  "e80597ea0d75e9198428c81ca5b4495bf11922dd29852a0a2e63998e36857746";
  "e85d36ca271c4d65abc1cdfff0e629dc5d14edb5bf97669badbb40d2715c1d47";
  "e86bc491aafddecfd3a0f8e6b60f76f69e04febd6ec1f79b87380e60280779b0";
  "e8bdfab9d5b5c37f6f23ddf9dddba2feb74261b61a80dee0c6aebffbf39948fb";
  "e8c5227d8827405e0e13a16bbacc6959edd3de95bc167566f742a6c221a0fe75";
  "e928948ee36fa14c99a9147cd3b8d4c8c1917c52b50857d922ac72ed55d1f8e7";
  "e94e8a87459db56837d1c58f9854794aa99f36566a9ded9b398be9d4d3a2c2af";
  "e951858d5317724c015eef07d402e8bcb33cf1a7c2ccf7a75cea63e3430d16a2";
  "e9b433a33dc72eb2622947b41f01d04a48cd71beac775a88f3f1e4c838090ee8";
  "ea318c5300b57b35e07b4c16453a660cd5ce059cdb6578d3057e848e14d68eac";
  "ea7440064405fb9d4bb63876905f14beb70b0b01d26a7ea9b9d25c00932c8cca";
  "ea80b4a2314e44061f33a7403e0740437aa34326082e97816bb6e7693866478b";
  "ea80d2e65b03ea918f918d60cc8397aa4ee11eeb7bf679c7813311ff32ed5c81";
  "eae8045d43f16e33232fd8bd2399f48b14f8a6391c9fffe38960c03fee978b27";
  "eb11a4270a6980a97ea8775422dacbd1e763b7e5898f0a80c71c91449fff7ab4";
  "eb14c5db8307488809897be13c66ef02941f6020f9c34a9664db92a00d551f4a";
  "eb6807c46e2d4808f07cca9242e7a59393fdab6ccf4da1aec124ef2a34398d43";
  "eb6f186c9bf73b0efd227d99e09659c321f0414bda568e99ee9a3863dc1a380d";
  "eb71a8ecef692e74ae356e8cb734029b233185ee5c2ccb6cc87cc6b36bea65cf";
  "eb91e05733244a23f741a299e5e4a57836685a8f45366e690bc30b4befc02b14";
  "ebbaa44277a3ec6e20ad3f6aef5399fdc398306eb4c13aa96e45c9a281820a12";
  "ebc3a28af05f5b0b456f6ea59ad613109bbb1e2a888d7e3808e331335a77f087";
  "ebe03e9a6e5db969762a1723f40294260f6196cb1224faf37993c9c8365007d5";
  "ebe114a72d27b5abf47e17137dbb85f52ca987c8bb80ea709eb3293c9637f73c";
  "ebe86f9f6c9c6639f3327f210c2a945bbbf069f505b1b85e3aee8d1cddf702f9";
  "ebed044bd804567524c093d6e690189f616490be27edc2311cc330293ee9822e";
  "ec81b458b41c9732341ec8cde57b9b7c7bb776b3bc08f45f2c815c3692072d04";
  "ecd1412340d618be39c4ac26d442ed66c0fd1ff6a7641cda404e970fb6c48bad";
  "ecd6e879e5521ca4053a59ef6682a95d97f6d9ba75f313b87bd133afe5267852";
  "ece308c404c03159df71524bcdf1cc2c8746aa41a773e3584d8fa9ff21d8b763";
  "ecf58fd2ad36e4d1462f7f9c697ea73e94f5160953ca0b5c34076786c8efc745";
  "ed302ea33feb557b879f64c4b7835947a9ca31054573e1487f5bbc38449753ff";
  "ed4e21364c3b077d5f5b53ff53db009ca735ad2b66b21559d25ef2c6689dfd1b";
  "ed617d4c50288921a6a760de19db1633bd8172421109dcf68082c67db085ddb1";
  "ed68f30f8246730c2b57495ed1db1480350d879b01d070999d35f38630865f5c";
  "ed8d68c07947c01ca03d886e6ca795a3f8b2f079e8292f019bba3b97b41eef54";
  "edf05640ad7caa10756cc4163e926de74157da1d81b4d245b602a36f4c8cb4d0";
  "ee067313bd75acae24e1661cb6807ed6148f9af34542ed77578144b21f5c8da1";
  "ee15f36881b84a2da82fee37e8ad65e47f1224e64d1d6fe43f7a5ad2efe92f5d";
  "ee24071d9a0ef38dc98929cfb4d316f9fb010de107c110fad2403022cf1eebfc";
  "ee625d1910f91fc9e79237bd60b0ee5efb85c7f859922f30e4434db6cd50fa9b";
  "ee8ee16198dd8eec8d5fbb7f98f64bb849b2dfcf652cc102f4cdc63a4551549f";
  "eed8f67bfdcc3c30362ab35f7f9cf9f21a47065ea03cffcab27ca9d6317a3016";
  "ef0dbc4c4735f30e96e16375b18c2f5fa58e15ef60d17786e39e616a4438e264";
  "efd475a4bb291c3584bdb57a7b5769728a3ba79b60fbba6442b1e46881ad24dd";
  "efde1a896c24055780aefb6f1c5fee097b8dffbe79b7e2c26320f6fe7ea3b74d";
  "f003c8abf8a692de770eb3bb8babec8c72f836d856f9c96f4de30e3ab47fea0f";
  "f020137cb08f86c48810780209a3f4a1fac361ed089ade61c1b5d6c64ded7872";
  "f025ad896e6048a329aecb506503a79bc4d2717350f2c0bb7aec8fa52d31ba93";
  "f02f7cd930d656cbae0ab9d3c3eafd3d8333f182505c539f4ef4032c4c92e725";
  "f06493341f9f16b9d25a3a5e07851dd04b63f36904a21ec1da30bfcb9157724c";
  "f07de42c0f0523698dd70119a327e47ac91e520af8cce16587bf6508456c8767";
  "f08ebddc11aefcb46082c239f8d97ceea247d846e22c4bcdd72af75c1cbc6b0b";
  "f0fb06748758082263e252050904f2fd8a29a77ae71dfdb390346bd2046ebfd4";
  "f16feb4a57df08a5184f5c1d01e724546090a316b6e268c098440953b7fead55";
  "f1768c07fb9554099980845b42ef3e545734ed98cee7be89d546351e7dbaac44";
  "f18605a691056b446c6411b7fa841b8178059bde8094cfe9013e59f4663cdf7f";
  "f1f345591efe74fd12e706132939f51963eb39dd0a1db556123c3e850c60fada";
  "f219247bdbbb8755ba0d765424e4a753ca5b01b1ce4e74a4c651a2867c82f7e4";
  "f246b9d22b3ffe15f2e97f306d049020f38ed162150c97d7a72e3ae0b22c79ad";
  "f291f251d8ffc6c6c2f69b62e8d1153bdb83f54cf60ef9a4c6235db87bfb2c1a";
  "f2b0d70e2d55a5f69ddaac13460cfcd63746ac1c09f826772cca5b857dde240a";
  "f2b51fbeead17f5ee34d5b4a3a83c848fb76f8f0e80769212e137a7aa539a3bc";
  "f2cf5653792f32013c6bf8afb2217953708c7040e248ee7a48543e78097c4512";
  "f2d3101ef507e6d9ae5475d8fd9b1ca6d2548fe0454c25389d6981f1b33f88f7";
  "f2e97fb72237dbbd8981d13a056dd3544c41d802efd129e1ea7e3f655de661b8";
  "f3308899fc0ebdd04a4dacc386873c25dabe32a8f34607fb335148d2dab667d8";
  "f3fc8f8dddbd471fa2d5deb292552876b3c737b09149307f901e38b53cd62648";
  "f4222e186d23160c29fe2bdf163d29561139eae8484d081457e7278872d7e9e2";
  "f424562623d0edf9b506a5f65b23427e7ec9a476570646d2a08ae9fa9fc57305";
  "f43b0b9a1d1445ba66e8370397cb22142439fa4062b7b05e30f9b26a370d767c";
  "f43d977a5fb1bdc10837e7c4ff03526d2b8fa9757da9dd8bd6514cd31748a858";
  "f46c524b79b9b1eb7efd5275dd1604de94560b52edca70ba4e47037f4b55da47";
  "f4f0357629e12ff599ad2f0179ac0f4eaec35044b7498037c2d91282dff9e592";
  "f5215f83138901ca7ade60c2222446fa3dd7e8900a745bd339f8a596cb29356c"
]%string.

Definition vuln_hex_12 : list string := [
  "f5c267770f18d720313eedc7ff363989b04b21394e7c0179088d74b4d0fb2630";
  "f62282e44713d7d2f4c780027c7bbb82ba0b491c8836dfae33a2d82e8b5a43d2";
  "f661571ddc863f0f157e3a14fd090148b840a8b5260d3e079b0fc15e519371df";
  "f67e60228084151fdcb84e94a48693db864cf606b65faef5a1d829175380dbfa";
  "f6a5ef968bd0e47e1ca9433f8e8d0b9bed0aa0a3baf982fdc27b1cc3b4b857b8";
  "f6cb70c945e7b3723de1d334aa2fb97bb8ddb9f68e409deeb9988f446546a57c";
  "f6e714528ad1b9eae72699078499735468140c1627e45f015762206ba7a77b47";
  "f72dbb2a818ba47ca03ffbe50d211050210699c25caec3b97ca960d7286d4b6a";
  "f78e06f649bc0d88770c5465d7792abeb27631ec0ce9a0fa68698b94ebf2cf49";
  "f82cde6dc693a4ac8b485ac9225f2641141213f8333b0be8d7134d0139f17c26";
  "f83465d2c38c20a3854d86c293867de3baae2f90419dbe82405bc9f9dd7bbd8c";
  "f8886a9c759e0426e08d55e410b02c5b05af3c287b15970175e4874316ffaf13";
  "f8aeb50a115b4d35f15f876eb1a6e5ee5f3a142de12eec50b6bdf81196ffbea4";
  "f8e307f2af1c1ae3d5ef6581e651823e3b6bfb9d7b565353cbd50e455c1dc9c8";
  "f8fbc3f89b8d3d96b3e441ff7f36b06d9e89c5421db8533e70eda1080760eebb";
  "f8ffb8a23be71c26f784905110b7e752473be55216300d08a83c40c1496fb6c1";
  "f902d78dada1658d688b1a8aac6ef48bdf968c859149f60f6c26e5b8af4656da";
  "f929b77636026cc0c57a0bd95e4c61f0b28a65e60331807e32235947f5c67931";
  "f94c8dee30d8d349d0b51b9f1624c49ef8b6b8d54d40ecf09af95011d01b705f";
  "f9c290ffc007e94fb61aecff42d267c1e626ec7939025b1a7d7285441d1c490d";
  "f9db97bd12d2d734ccd86045bae1fd5fbeed106ba5cfa519e6fcd9093c1c04a6";
  "f9fead3227d5cf7daf8c5312db672bc7a684e2216b2f48ff2fcd14493bc9c254";
  "fa4be68f1ea1e36aca95fd62b6727cf9d22886c2612391faeb9c56a1c62c2ec9";
  "fa659944a59430edc6162b285d0fa7b6fbfd28b9057f7286eee127888431844e";
  "fa861c61102cbcaa1e5f6020deaa066c4fcdfaee3ded1ee156ab81d59ad54f9a";
  "fa959c48c055ec149d434a5adeb9f9938d1c260a65ee8a4ea1d67bfbdceab83f";
  "fa96eca78a57b779fd398294ae2519b7c4fe9e4369e6e7fa5167aebbe6e0c09a";
  "faa08cb609a5b7be6bfdb61f1e4a5e8adf2f5a1d2492f262483df7326934f5d4";
  "faa37602095f25135312f87ed7adb607ffa5e9b2931b58d00f7376ed0c6ec69a";
  "fab3f1dbc49bd9f0219156fe49d4423c311f529f7d3653f5f69d2b10b9b0bc98";
  "fabe94809d90ade89dad012b22243e3fb755a131800140f8f8b30c989c371301";
  "fac1dd553c0ef841ecb2e9df8a026a0734aa9683c7ec9b129468af0ea758167f";
  "facc577070cf72cb8d9247e36054fcb30c60a35ae056cffac7411648c513e642";
  "fafa1bb36f0ac34b762a10e9f327dcab2152a6d0b16a19697362d49a31e7f566";
  "fb19f241ddae74ec4a0f87dff025ec68dc809f9dd883649c0e58822de28e6f1b";
  "fb2e8e98a58329e86a1ee310fe9dfce7056f4a0ede380eee8768c51b5870c433";
  "fb3176deae54472750747167287284c3cda5e14248ee10844305f322adcb81cd";
  "fb467e8c9edf1ac9ddabbc666cd48fc37b05e9d9390bb347504c899e15bce4d8";
  "fb4826d8c213cd529520e02ce4d823a41b6f5b6c96b73d41ceb2de5dc573ae74";
  "fb5e65aec819c5a91ef0ce0fec0a957826b5e1ac9bac559a1b4201a3870462a3";
  "fb79b99db91dc965263bd2c10ec0f58c6b8f282e0273f40c4249831b74ffec3a";
  "fb7cb120d51e217ee4cc50bee619603be5eb6091634df45acc5249aed283c9be";
  "fc22650cae4722a174da31addbaf088a04ad4f8b2460191da946b3de529f6a0a";
  "fc23abdcf93928e1db8401a7ff53c86c85230a8637c4168f7434208f9e8b5ded";
  "fc26cebb27c76c6e3d22da679cff81477cab4fcabfb6f5a8a27f596ab51713ae";
  "fc7d726e0e803bb38c0f9e910d91970c3dd7444ace1c071381e2e06939616205";
  "fca5f90ce2b210e6026cbf6f2c281fe17a08ddb2e936200847823ef83eaab1eb";
  "fcad50a13dcf1eeefffe2c2f51a052fd13bfaeddb0bd1f3c2353c64284ea62e2";
  "fcae081ec5093f2f794e0fe32456a07d2294decea356ba84f5ca7c0af407b671";
  "fcdf0eaf9c8effa2786c82e774974f1ef4098dcd376461bad37fd4168dcab52b";
  "fcdfe570e6dc6e768ef75138033d9961f78045adca53beb6fdb520f6417e0df1";
  "fcffb9cecbcefc399a2a08d99fcc2b797911afa26f3d69a28a139311cb61c39a";
  "fd33fb2735cc5ef466a54807d3436622407287e325276fcd3ed1290c98bd0533";
  "fd69888d8a21fe3a7a4a7b099734fe254e8bf8f6d77c5b7b28788138b6c6a396";
  "fd826f76a840c23d643611ab94d39b86aed4da221cdd7bfc688aaaf7cc8b64d7";
  "fd8d61102719afb0b8a230d9e8c372af3396bec4a6d72aada42a1f1d36187751";
  "fdd8e305c7aaaf1c8ef047373db48069126a6f3ec9dc3c6b2dc30fc621c84b03";
  "fde2df81ad28f2306a2daf636041eb747a035d8f08709cdac2d53987d9edef4a";
  "fdf15402013191f701086e188d88041481f1562aa43e4ca8a21f4d489e791a36";
  "fe14940b5d3068b7ceffd28a529196811f1d0e175522f4dfab26573e7aca0bb4";
  "fe275be26ecca4c69f1c8ec35145fcae8cd83a5cb20f7ca71ff998d91091bb7e";
  "fe425d4ea7c8d8bc2e8f32969d058f06a02ab11a0e15e465b989e526be17ca84";
  "fe4270a61dbed978c28b2915fcc2826d011148dcb7533fa8bd072ddce5944cef";
  "fe50be756c689ef56976d96135486ee66192a4de0b82b0d52521978fc589f6fa";
  "fe72b01f65bf9e418d6c5020818878ee738163825f9d07bee79d371602edca97";
  "fe9c104a3bb9184a8f792f3f8a3e90d83b9f19cf83cd93d116b02e17f54d727d";
  "fec1c641c7151e931aeb0d1ac59a97d6d3b486c482c1df8794e6424e75e6da1a";
  "fed2e6e84e5f7212a86ede773184d97fb11d24b5da26a030c833dd1bec4ec953";
  "fee16e6386b2626f401714257afd6a2cd92bf0b00e6458240908fa5937fb2554";
  "fee4560f2160a951d83344857eb4587ab10c1cfd8c5cfc23b6f06bef8ebcd984";
  "feef191064d18b6fb63b7299415d1b1e2ec8fcdd742854aa96268d0ec4a0f7b6";
  "ff6108dd2017f9bc7ea93c43c1afbda0f1cc7b00f5afafb4ce3cf0a193e9598b";
  "ff8d17761c1645bdd1f0eccc69024907bbbfbe5c60679402b7d02f95b16310fe";
  "ffd548833a96c2c5f8410b22fc110d10b36a47eb0b16b3d2e7edb82c3cabf97b"
]%string.

Definition g_KgVulnHashHex : list string :=
  vuln_hex_00 ++ vuln_hex_01 ++ vuln_hex_02 ++ vuln_hex_03 ++ vuln_hex_04 ++ vuln_hex_05 ++ vuln_hex_06 ++ vuln_hex_07 ++ vuln_hex_08 ++ vuln_hex_09 ++ vuln_hex_10 ++ vuln_hex_11 ++ vuln_hex_12.

Definition g_KgVulnClass : string :=
  String.concat EmptyString [
  "0011100001000001000000000000000000100010100000100010000101001100";
  "0001000000000000000001000001000000000000011000000010000100000000";
  "0000000000010000100100000000100000010000001001110010000010000000";
  "0000000100000000000000000000000000110000011000000000000000000001";
  "0000100000010000001000000000110001100101001000001110100001001111";
  "0110000000011001010000100000001000000000000100001000000001100000";
  "0100001000000000000101100000001110000010100100000000010001010000";
  "0000010100100000100000000110000101000001000010000100010001010000";
  "0000000001100100000000110000000000100001010100010100000100000100";
  "1000001000010000010000011000000000000000100000000000000000000000";
  "0000000000001001000000010100000000000100100000100000000000000000";
  "1000000000000000100000100010000000001010000000101101000000001000";
  "0000000000010100001001010001000000000000000100000010001110001100";
  "1100000001000000000100001000000000000000000000100000001000001000";
  "0011010110010000100100000001101100100000000000001010000000000001";
  "0000000001000011100010010000000000000100000010000000000110000100";
  "0001000100100000010010000000000001000000000100000000011101000100";
  "0100010010100000100000010000000000000000000011000110001000000000";
  "0000000000010000000010001000010001001010000000000001000000010000";
  "0000000001000000001000001011000000000100000000000000000001000000";
  "0000010011000010000000000000100000000000000000000000000000000000";
  "0000100001010001000000000000000000001011100010000000010001000100";
  "0000000000000000011000000000000000000000000000000000000001000000";
  "0000000000001100001000000000111000100000010000000000000000000000";
  "0000010010110000000000000011000100000000000000110100010100000000";
  "0000000000010100000000101010000010101000000000100000000000000000";
  "1001001000000000000100010100001000000000000000001000100010101000";
  "0100001100000000001001000000000011000000000000010000000000100100";
  "0011000000000000000000001100000100110001000000000000100100000100";
  "010000000000000100"
]%string.

(** The table the load guard builds of it. *)
Definition shipped_hex : list (list Z) := bytes_of <$> g_KgVulnHashHex.
Definition shipped_class : list Z := bytes_of g_KgVulnClass.
Definition shipped_table : list (list Z) := (parse_builtin shipped_hex shipped_class).1.

Lemma shipped_parses : forallb (λ h, bool_decide (is_Some (DtParseHex64 h 64))) shipped_hex = true.
Proof. vm_compute. reflexivity. Qed.

Lemma shipped_ascending : DtIsAscending shipped_table = true.
Proof. vm_compute. reflexivity. Qed.

Lemma shipped_lengths : forallb (λ h, bool_decide (length h = 64%nat)) shipped_hex = true.
Proof. vm_compute. reflexivity. Qed.

Lemma shipped_classes : length shipped_hex = 1874%nat ∧ length shipped_class = 1874%nat.
Proof. split; vm_compute; reflexivity. Qed.

(** With every entry parsed, positions are kept. *)
Lemma parse_builtin_lookup hex cls k h :
  forallb (λ h, bool_decide (is_Some (DtParseHex64 h 64))) hex = true → length cls = length hex →
  hex !! k = Some h → ∃ d, DtParseHex64 h 64 = Some d ∧ (parse_builtin hex cls).1 !! k = Some d
                          ∧ (parse_builtin hex cls).2 !! k = cls !! k.
Proof.
  revert cls k. induction hex as [|x hex IH]; intros [|y cls] k Hp Hl Hk; try done.
  cbn [forallb] in Hp. apply andb_true_iff in Hp as [Hx Hp]. apply bool_decide_eq_true in Hx as [d Hd].
  cbn [parse_builtin]. destruct (parse_builtin hex cls) as [t c] eqn:Ep. rewrite Hd.
  destruct k as [|k]; [injection Hk as <-; by exists d|].
  destruct (IH cls k Hp) as (d' & ? & Ht & Hc); [by injection Hl|done|]. rewrite Ep in Ht, Hc. by exists d'.
Qed.

Lemma parse_builtin_length hex cls :
  forallb (λ h, bool_decide (is_Some (DtParseHex64 h 64))) hex = true → length cls = length hex →
  length (parse_builtin hex cls).1 = length hex.
Proof.
  revert cls. induction hex as [|x hex IH]; intros [|y cls] Hp Hl; try done.
  cbn [forallb] in Hp. apply andb_true_iff in Hp as [Hx Hp]. apply bool_decide_eq_true in Hx as [d Hd].
  cbn [parse_builtin]. specialize (IH cls Hp). destruct (parse_builtin hex cls) as [t c]. rewrite Hd.
  simpl in *. rewrite IH; [done|by injection Hl].
Qed.

#[local] Opaque shipped_hex shipped_class.

Section shipped.
Context `{WinEnv, WinKernel, WinFiles}.

(** The digests the driver ships with are what the load guard needs: when its two tables can be
    allocated, all 1874 entries of the generated header parse, they ascend, so the guard searches
    them by halves, and looking up the digest of entry k finds exactly position k with the class the
    header gives it; a digest that is not in the header is not found. *)
Theorem shipped_digests_found (l : lg) (c : core) :
  vuln_hex = shipped_hex → vuln_class = shipped_class →
  is_Some (pool_at (clock c) (1874 * 32)) → is_Some (pool_at (S (clock c)) 1874) →
  let l' := (LgLoadBuiltin l c).1 in
  g_LgTableSorted l' = true ∧ length (lg_table l') = 1874%nat
  ∧ (∀ k h, shipped_hex !! k = Some h → ∃ d, DtParseHex64 h 64 = Some d
       ∧ LgBuiltinFind l' d = Z.of_nat k ∧ g_LgClass l' !! k = shipped_class !! k)
  ∧ ∀ d, is_digest d → (∀ h, h ∈ shipped_hex → DtParseHex64 h 64 ≠ Some d) → LgBuiltinFind l' d = -1.
Proof.
  intros Hh Hc [t1 Ht1] [t2 Ht2] l'. destruct shipped_classes as [L1 L2].
  assert (Hl' : l' = set_tables (Some shipped_table) (parse_builtin shipped_hex shipped_class).2 true
                       (g_LgDeny l) (g_LgAllow l) l).
  { unfold l', LgLoadBuiltin. rewrite Hh, Hc. unfold zlen. rewrite L1.
    change (Z.of_nat 1874) with 1874. rewrite Ht1, Ht2. unfold shipped_table.
    pose proof shipped_ascending as Ha. unfold shipped_table in Ha.
    destruct (parse_builtin shipped_hex shipped_class) as [t k]. cbn [fst snd] in *. by rewrite Ha. }
  assert (Hdig : Forall is_digest shipped_table).
  { apply parse_builtin_digests, Forall_forall. intros h Hin. pose proof shipped_lengths as Hp.
    rewrite forallb_forall in Hp. specialize (Hp h (proj1 (list_elem_of_In _ _) Hin)).
    by apply bool_decide_eq_true in Hp. }
  assert (Hfind : ∀ d, is_digest d → ∃ k, LgBuiltinFind l' d = k ∧ (k = -1 ↔ d ∉ shipped_table)
            ∧ (k ≠ -1 → 0 ≤ k ∧ shipped_table !! Z.to_nat k = Some d)).
  { intros d Hd. destruct (DtFind_correct shipped_table true d Hdig Hd (λ _, shipped_ascending)) as (k & Hk & ?).
    exists k. split; [|done]. rewrite Hl'. unfold LgBuiltinFind. cbn [g_LgTableSorted set_tables].
    change (lg_table _) with shipped_table. by rewrite Hk. }
  rewrite Hl'. cbn [g_LgTableSorted set_tables g_LgClass]. change (lg_table _) with shipped_table.
  rewrite <- Hl'. split_and!; [done| | |].
  - unfold shipped_table. rewrite parse_builtin_length; [done|apply shipped_parses|congruence].
  - intros k h Hk.
    destruct (parse_builtin_lookup shipped_hex shipped_class k h shipped_parses ltac:(congruence) Hk)
      as (d & Hd & Htk & Hck).
    exists d. split_and!; [exact Hd| |exact Hck]. fold shipped_table in Htk.
    pose proof (Forall_lookup_1 _ _ _ _ Hdig Htk) as Hdd.
    destruct (Hfind d Hdd) as (i & Hi & Hn & Hin).
    assert (Hne : i ≠ -1).
    { intros Hm. apply (proj1 Hn Hm). by eapply list_elem_of_lookup_2. }
    destruct (Hin Hne) as [Hpos Hti]. rewrite Hi. assert (Heq : Z.to_nat i = k); [|lia].
    pose proof (DtIsAscending_all _ Hdig shipped_ascending) as Hasc.
    destruct (Nat.lt_trichotomy (Z.to_nat i) k) as [Hlt|[?|Hlt]]; [|done|];
      [pose proof (Hasc _ _ _ _ Hlt Hti Htk) as Hc'|pose proof (Hasc _ _ _ _ Hlt Htk Hti) as Hc'];
      unfold DtCompare in Hc'; rewrite compare_bytes_refl in Hc'; lia.
  - intros d Hd Hno. destruct (Hfind d Hd) as (i & Hi & Hn & Hin). rewrite Hi. apply Hn. intros Hel.
    apply list_elem_of_lookup in Hel as [k Hk].
    destruct (lookup_lt_is_Some_2 shipped_hex k) as [h Hhk].
    { apply lookup_lt_Some in Hk. unfold shipped_table in Hk.
      rewrite parse_builtin_length in Hk; [done|apply shipped_parses|congruence]. }
    destruct (parse_builtin_lookup shipped_hex shipped_class k h shipped_parses ltac:(congruence) Hhk)
      as (d' & Hd' & Htk & _).
    fold shipped_table in Htk. rewrite Hk in Htk. injection Htk as ->.
    apply (Hno h); [eapply list_elem_of_lookup_2; exact Hhk|exact Hd'].
Qed.
End shipped.
