(* ===== verification/WinHw.v ===== *)
(** * Keyboard-filter and DMA monitor of the Windows driver
      (windows/src/hw_keylogger_detect.c)

    The dispatch tables of driver objects and the AttachedDevice links of device
    objects are a shared store that the monitor patches, repairs and restores
    ([MajorFn], [AttachedDevice]); a pointer is its address, 0 for NULL.  Physical
    memory and configuration space are read through the class at the time of the
    access, and what is written to them is logged in program order
    ([hw_writes]), so a theorem about writes holds for every device. *)
From S2P Require Import Prelude Sha256 Uapi WinState WinComms WinMitigate WinRouter WinIntegrity.
Local Open Scope Z_scope.

Definition STATUS_NOT_IMPLEMENTED : Z := 0xC0000002.
Definition STATUS_DEVICE_NOT_CONNECTED : Z := 0xC000009D.

Definition VTD_ECAP_REG : Z := 0x010.
Definition VTD_RTADDR_REG : Z := 0x020.
Definition VTD_CCMD_REG : Z := 0x028.
Definition VTD_IOTLB_REG : Z := 0x108.
Definition VTD_CCMD_GLOBAL_INVAL : Z := Z.shiftl 3 61.
Definition VTD_IOTLB_GLOBAL_INVAL : Z := Z.shiftl 3 60.

Definition MAX_NEUTRALIZED_FILTERS : Z := 16.
Definition MAX_REPORTED_FILTERS : Z := 16.
Definition MAX_PCI_DEVICES : Z := 512.

Record NEUTRALIZED_FILTER := NeutralizedFilter {
  UnauthorizedDev : Z;
  LowerDev : Z;
  OriginalRead : Z;
  OriginalIntDc : Z;
  nfDriverName : list Z
}.

Record PCI_DISCOVERY_ENTRY := PciDiscoveryEntry {
  peBus : Z; peDevice : Z; peFunction : Z;
  peVendorId : Z; peDeviceId : Z;
  peBaseClass : Z; peSubClass : Z;
  IsKeyboardRelated : bool;
  DmaCapable : bool
}.

(** The fields of PCI_CONFIG_HEADER that are looked at. *)
Record PCI_CONFIG_HEADER := PciConfigHeader {
  hVendorId : Z; hDeviceId : Z;
  hClassCode : list Z;
  hHeaderType : Z;
  hBar : list Z
}.

(** A store of [value], [width] bytes wide, to the physical address [addr]. *)
Record phys_write := PhysWrite { pw_addr : Z; pw_width : Z; pw_value : Z }.
#[export] Instance phys_write_eq_dec : EqDecision phys_write.
Proof. solve_decision. Defined.

(** The globals of the module; the tables hold the entries below their counts. *)
Record hw := Hw {
  MajorFn : Z → Z → Z;                         (* driver object, major code *)
  AttachedDevice : Z → Z;                      (* device object *)
  g_NeutralizedFilters : list NEUTRALIZED_FILTER;
  g_ReportedFilters : list Z;
  g_HwMonitorThread : bool;
  g_PciDevices : list PCI_DISCOVERY_ENTRY;
  g_EcamBase : Z;
  g_VtdMmioBase : Z;
  hw_writes : list phys_write
}.

Definition set_majorfn (f : Z → Z → Z) (h : hw) : hw :=
  Hw f (AttachedDevice h) (g_NeutralizedFilters h) (g_ReportedFilters h) (g_HwMonitorThread h)
     (g_PciDevices h) (g_EcamBase h) (g_VtdMmioBase h) (hw_writes h).
Definition set_attached (f : Z → Z) (h : hw) : hw :=
  Hw (MajorFn h) f (g_NeutralizedFilters h) (g_ReportedFilters h) (g_HwMonitorThread h)
     (g_PciDevices h) (g_EcamBase h) (g_VtdMmioBase h) (hw_writes h).
Definition set_filters (l : list NEUTRALIZED_FILTER) (h : hw) : hw :=
  Hw (MajorFn h) (AttachedDevice h) l (g_ReportedFilters h) (g_HwMonitorThread h)
     (g_PciDevices h) (g_EcamBase h) (g_VtdMmioBase h) (hw_writes h).
Definition set_reported (l : list Z) (h : hw) : hw :=
  Hw (MajorFn h) (AttachedDevice h) (g_NeutralizedFilters h) l (g_HwMonitorThread h)
     (g_PciDevices h) (g_EcamBase h) (g_VtdMmioBase h) (hw_writes h).
Definition set_hwthread (b : bool) (h : hw) : hw :=
  Hw (MajorFn h) (AttachedDevice h) (g_NeutralizedFilters h) (g_ReportedFilters h) b
     (g_PciDevices h) (g_EcamBase h) (g_VtdMmioBase h) (hw_writes h).
Definition set_devices (l : list PCI_DISCOVERY_ENTRY) (h : hw) : hw :=
  Hw (MajorFn h) (AttachedDevice h) (g_NeutralizedFilters h) (g_ReportedFilters h)
     (g_HwMonitorThread h) l (g_EcamBase h) (g_VtdMmioBase h) (hw_writes h).
Definition hw_write (addr width value : Z) (h : hw) : hw :=
  Hw (MajorFn h) (AttachedDevice h) (g_NeutralizedFilters h) (g_ReportedFilters h)
     (g_HwMonitorThread h) (g_PciDevices h) (g_EcamBase h) (g_VtdMmioBase h)
     (hw_writes h ++ [PhysWrite addr width value]).

(** [drv->MajorFunction[major] = f]. *)
Definition set_major (drv major f : Z) (h : hw) : hw :=
  set_majorfn (<[drv := <[major := f]> (MajorFn h drv)]> (MajorFn h)) h.

(** What the object manager, the memory manager and the devices answer. *)
Class WinDevices := {
  stub : Z;                                    (* &NeutralizePassThroughDispatch *)
  DriverObject_of : Z → Z;                     (* DeviceObject->DriverObject *)
  DriverName_of : Z → option (list Z);         (* DriverObject->DriverName; [None]: no Buffer *)
  IoGetDeviceObjectPointer_at : nat → list Z → option Z;
  MmMapIoSpace_at : nat → Z → Z → bool;        (* the mapping is not null *)
  phys_at : nat → Z → Z → list Z               (* address, length *)
}.

(** ** The stub: complete the request, or pass it down *)
Inductive irp_result := IrpCompleted (st : Z) | IrpCallDriver (dev : Z).

Fixpoint find_filter (DevObj : Z) (l : list NEUTRALIZED_FILTER) : option NEUTRALIZED_FILTER :=
  match l with
  | [] => None
  | nf :: l => if UnauthorizedDev nf =? DevObj then Some nf else find_filter DevObj l
  end.

Definition NeutralizePassThroughDispatch (DevObj : Z) (h : hw) : irp_result :=
  let lowerDev := match find_filter DevObj (g_NeutralizedFilters h) with
                  | Some nf => LowerDev nf
                  | None => 0
                  end in
  if lowerDev =? 0 then IrpCompleted STATUS_DEVICE_NOT_CONNECTED else IrpCallDriver lowerDev.

(** The 128-byte ASCII copy of a driver name. *)
Definition unknown_name : list Z := bytes_of "<unknown>" ++ replicate 119 0.
Definition name_copy (DriverName : option (list Z)) : list Z :=
  match DriverName with
  | None => unknown_name
  | Some n => let s := u8 <$> take 127 n in memcpy unknown_name 0 (s ++ [0])
  end.

(** [&g_NeutralizedFilters[i]] of the device, with a new LowerDev. *)
Fixpoint relink (dev lower : Z) (l : list NEUTRALIZED_FILTER) : list NEUTRALIZED_FILTER :=
  match l with
  | [] => []
  | nf :: l => if UnauthorizedDev nf =? dev
               then NeutralizedFilter dev lower (OriginalRead nf) (OriginalIntDc nf) (nfDriverName nf) :: l
               else nf :: relink dev lower l
  end.

Section hardware.
Context `{WinEnv, WinKernel, WinCpu, WinDevices}.

Definition phys_read (addr len : Z) (c : core) : list Z * core := (phys_at (clock c) addr len, tick c).
Definition MmMapIoSpace (addr len : Z) (c : core) : bool * core :=
  (MmMapIoSpace_at (clock c) addr len, tick c).

(** ** Configuration space through ECAM *)
Definition ecam_address (base Bus Device Function Offset : Z) : Z :=
  base + Z.lor (Z.lor (Z.shiftl Bus 20) (Z.shiftl Device 15))
               (Z.lor (Z.shiftl Function 12) (Z.land Offset 0xFFF)).

Definition PciEcamRead (Bus Device Function Offset Length : Z) (h : hw) (c : core) :
    (Z + list Z) * core :=
  if g_EcamBase h =? 0 then (inl STATUS_DEVICE_NOT_READY, c) else
  let pa := ecam_address (g_EcamBase h) Bus Device Function Offset in
  let '(va, c) := MmMapIoSpace pa Length c in
  if negb va then (inl STATUS_INSUFFICIENT_RESOURCES, c) else
  let '(bytes, c) := phys_read pa Length c in
  (inr bytes, c).

Definition PciEcamWrite (Bus Device Function Offset Buffer Length : Z) (h : hw) (c : core) :
    Z * hw * core :=
  if g_EcamBase h =? 0 then (STATUS_DEVICE_NOT_READY, h, c) else
  let pa := ecam_address (g_EcamBase h) Bus Device Function Offset in
  let '(va, c) := MmMapIoSpace pa Length c in
  if negb va then (STATUS_INSUFFICIENT_RESOURCES, h, c) else
  (STATUS_SUCCESS, hw_write pa Length Buffer h, c).

Definition PciGetEcamBaseFromAcpi : Z := STATUS_NOT_IMPLEMENTED.

(** ** The bus walk *)
Definition config_header (b : list Z) : PCI_CONFIG_HEADER :=
  let at_ off n := take n (drop off b) in
  PciConfigHeader (le_val (at_ 0%nat 2%nat)) (le_val (at_ 2%nat 2%nat)) (at_ 9%nat 3%nat)
    (le_val (at_ 14%nat 1%nat)) ((λ i, le_val (at_ (16 + 4 * i)%nat 4%nat)) <$> seq 0 6).

Definition discovery_entry (bus dev func : Z) (hdr : PCI_CONFIG_HEADER) : PCI_DISCOVERY_ENTRY :=
  let base := default 0 (hClassCode hdr !! 2%nat) in
  let sub := default 0 (hClassCode hdr !! 1%nat) in
  PciDiscoveryEntry bus dev func (hVendorId hdr) (hDeviceId hdr) base sub
    ((base =? 0x09) || ((base =? 0x0C) && (sub =? 0x03)))
    (existsb (λ b, negb (b =? 0)) (hBar hdr)).

(** The three loops; the boolean says that the table is full and the walk returns. *)
Fixpoint walk_functions (bus dev : Z) (funcs : list Z) (h : hw) (c : core) : bool * hw * core :=
  match funcs with
  | [] => (false, h, c)
  | func :: funcs =>
    match PciEcamRead bus dev func 0 64 h c with
    | (inl _, c) => walk_functions bus dev funcs h c
    | (inr b, c) =>
      let hdr := config_header b in
      if hVendorId hdr =? 0xFFFF then walk_functions bus dev funcs h c
      else if MAX_PCI_DEVICES <=? zlen (g_PciDevices h) then (true, h, c)
      else
        let h := set_devices (g_PciDevices h ++ [discovery_entry bus dev func hdr]) h in
        if (func =? 0) && negb (has (hHeaderType hdr) 0x80) then (false, h, c)
        else walk_functions bus dev funcs h c
    end
  end.

Fixpoint walk_devices (bus : Z) (devs : list Z) (h : hw) (c : core) : bool * hw * core :=
  match devs with
  | [] => (false, h, c)
  | dev :: devs =>
    match walk_functions bus dev (seqZ 0 8) h c with
    | (true, h, c) => (true, h, c)
    | (false, h, c) => walk_devices bus devs h c
    end
  end.

Fixpoint walk_buses (buses : list Z) (h : hw) (c : core) : hw * core :=
  match buses with
  | [] => (h, c)
  | bus :: buses =>
    match walk_devices bus (seqZ 0 32) h c with
    | (true, h, c) => (h, c)
    | (false, h, c) => walk_buses buses h c
    end
  end.

Definition PciWalkBusTree (h : hw) (c : core) : Z * hw * core :=
  if g_EcamBase h =? 0 then (STATUS_DEVICE_NOT_READY, h, c) else
  let '(h, c) := walk_buses (seqZ 0 255) (set_devices [] h) c in
  (STATUS_SUCCESS, h, c).

(** ** Bus mastering *)
Definition PciDisableBusMaster (Bus Dev Func : Z) (h : hw) (c : core) : Z * hw * core :=
  if g_EcamBase h =? 0 then (STATUS_DEVICE_NOT_READY, h, c) else
  match PciEcamRead Bus Dev Func 0x04 2 h c with
  | (inl st, c) => (st, h, c)
  | (inr b, c) =>
    let cmd := le_val b in
    if negb (has cmd 0x0004) then (STATUS_SUCCESS, h, c) else
    let cmd := Z.land cmd 0xFFFB in
    let '(st, h, c) := PciEcamWrite Bus Dev Func 0x04 cmd 2 h c in
    if negb (NT_SUCCESS st) then (st, h, c) else (STATUS_SUCCESS, h, c)
  end.

(** ** VT-d *)
(** Poll until bit 63 reads 0, 100001 times at most. *)
Fixpoint poll_ivt (fuel : nat) (addr : Z) (c : core) : core :=
  match fuel with
  | O => c
  | S fuel =>
    let '(b, c) := phys_read addr 8 c in
    if Z.testbit (le_val b) 63 then poll_ivt fuel addr c else c
  end.
Definition poll_limit : nat := Z.to_nat 100001.

Definition VtdFlushIommu (VtdRegs : Z) (h : hw) (c : core) : hw * core :=
  let '(b, c) := phys_read (VtdRegs + VTD_ECAP_REG) 8 c in
  let iro := u32 (Z.land (Z.shiftr (le_val b) 8) 0x3FF * 16) in
  let iroOffset := if iro =? 0 then VTD_IOTLB_REG else iro in
  let ccmd := VtdRegs + VTD_CCMD_REG in
  let h := hw_write ccmd 8 VTD_CCMD_GLOBAL_INVAL h in
  let c := poll_ivt poll_limit ccmd c in
  let iotlb := VtdRegs + iroOffset + 8 in
  let h := hw_write iotlb 8 VTD_IOTLB_GLOBAL_INVAL h in
  (h, poll_ivt poll_limit iotlb c).

(** Root and context entries are 16 bytes; Present is bit 0 of the first word, the
    context table's page number its bits 12 to 63. *)
Definition table_address (word : Z) : Z := Z.land word (Z.lnot 0xFFF).

Definition VtdInvalidateContextEntry (VtdRegs Bus Dev Func : Z) (h : hw) (c : core) : Z * hw * core :=
  let '(b, c) := phys_read (VtdRegs + VTD_RTADDR_REG) 8 c in
  let rtAddr := table_address (le_val b) in
  if rtAddr =? 0 then (STATUS_NOT_FOUND, h, c) else
  let '(rootTable, c) := MmMapIoSpace rtAddr 4096 c in
  if negb rootTable then (STATUS_INSUFFICIENT_RESOURCES, h, c) else
  let '(b, c) := phys_read (rtAddr + 16 * Bus) 8 c in
  if negb (Z.testbit (le_val b) 0) then (STATUS_NOT_FOUND, h, c) else
  let ctxPhys := table_address (le_val b) in
  let '(ctxTable, c) := MmMapIoSpace ctxPhys 4096 c in
  if negb ctxTable then (STATUS_INSUFFICIENT_RESOURCES, h, c) else
  let devFunc := Z.lor (Z.shiftl Dev 3) (Z.land Func 0x7) in
  let '(b, c) := phys_read (ctxPhys + 16 * devFunc) 8 c in
  if Z.testbit (le_val b) 0 then
    let h := hw_write (ctxPhys + 16 * devFunc) 8 (Z.land (le_val b) (Z.lnot 1)) h in
    let '(h, c) := VtdFlushIommu VtdRegs h c in
    (STATUS_SUCCESS, h, c)
  else (STATUS_SUCCESS, h, c).

(** ** Keyboard filters *)
Definition NeutralizeKbdFilterDriver (UnauthorizedDrv Dev Lower : Z) (IsTopmost : bool)
    (h : hw) (c : core) : Z * hw * core :=
  let nameBuf := name_copy (DriverName_of UnauthorizedDrv) in
  match find_filter Dev (g_NeutralizedFilters h) with
  | Some _ => (STATUS_SUCCESS, set_filters (relink Dev Lower (g_NeutralizedFilters h)) h, c)
  | None =>
    if MAX_NEUTRALIZED_FILTERS <=? zlen (g_NeutralizedFilters h)
    then (STATUS_INSUFFICIENT_RESOURCES, h, c) else
    let rd := MajorFn h UnauthorizedDrv IRP_MJ_READ in
    let dc := MajorFn h UnauthorizedDrv IRP_MJ_INTERNAL_DEVICE_CONTROL in
    let dispatchAlreadyPatched := rd =? stub in
    let nf := if dispatchAlreadyPatched then NeutralizedFilter Dev Lower 0 0 nameBuf
              else NeutralizedFilter Dev Lower rd dc nameBuf in
    let h := if dispatchAlreadyPatched then h
             else set_major UnauthorizedDrv IRP_MJ_INTERNAL_DEVICE_CONTROL stub
                    (set_major UnauthorizedDrv IRP_MJ_READ stub h) in
    let h := set_filters (g_NeutralizedFilters h ++ [nf]) h in
    let h := if IsTopmost && negb (Lower =? 0)
             then set_attached (<[Lower := 0]> (AttachedDevice h)) h   (* IoDetachDevice *)
             else h in
    let c := LogAlert ALERT_KBD_FILTER_NEUTRALIZED c in
    (STATUS_SUCCESS, h,
     DispatchCrossModuleEvent PASSIVE_LEVEL ALERT_KBD_FILTER_NEUTRALIZED 2 (u64 Dev) 0 c)
  end.

(** One entry of the table, repaired: the entry, and whether it had been tampered with. *)
Definition repatch_entry (nf : NEUTRALIZED_FILTER) (h : hw) : NEUTRALIZED_FILTER * bool * hw :=
  let drv := DriverObject_of (UnauthorizedDev nf) in
  if (UnauthorizedDev nf =? 0) || (drv =? 0) then (nf, false, h) else
  let rd := MajorFn h drv IRP_MJ_READ in
  let '(nf, t1, h) :=
    if rd =? stub then (nf, false, h)
    else (NeutralizedFilter (UnauthorizedDev nf) (LowerDev nf) rd (OriginalIntDc nf) (nfDriverName nf),
          true, set_major drv IRP_MJ_READ stub h) in
  let dc := MajorFn h drv IRP_MJ_INTERNAL_DEVICE_CONTROL in
  if dc =? stub then (nf, t1, h)
  else (NeutralizedFilter (UnauthorizedDev nf) (LowerDev nf) (OriginalRead nf) dc (nfDriverName nf),
        true, set_major drv IRP_MJ_INTERNAL_DEVICE_CONTROL stub h).

Fixpoint repatch_all (l : list NEUTRALIZED_FILTER) (h : hw) : list NEUTRALIZED_FILTER * bool * hw :=
  match l with
  | [] => ([], false, h)
  | nf :: l =>
    let '(nf, t, h) := repatch_entry nf h in
    let '(l, ts, h) := repatch_all l h in
    (nf :: l, t || ts, h)
  end.

Definition EnsureNeutralizedStillPatched (h : hw) (c : core) : hw * core :=
  let '(l, repatchedAny, h) := repatch_all (g_NeutralizedFilters h) h in
  let h := set_filters l h in
  if repatchedAny then (h, LogAlert ALERT_KBD_FILTER_NEUTRALIZED c) else (h, c).

Definition is_neutralized (dev : Z) (h : hw) : bool :=
  match find_filter dev (g_NeutralizedFilters h) with Some _ => true | None => false end.

(** Whether the device was seen before; without enforcement it is remembered. *)
Definition note_filter (dev : Z) (enforcing : bool) (h : hw) : bool * hw :=
  if is_neutralized dev h then (true, h)
  else if enforcing then (false, h)
  else if existsb (Z.eqb dev) (g_ReportedFilters h) then (true, h)
  else if zlen (g_ReportedFilters h) <? MAX_REPORTED_FILTERS
  then (false, set_reported (g_ReportedFilters h ++ [dev]) h)
  else (false, h).

(** A driver object with a name that is not on the list. *)
Definition unauthorized (dev : Z) : bool :=
  let drv := DriverObject_of dev in
  negb (drv =? 0)
  && match DriverName_of drv with
     | Some n => negb (IsWhitelistedDriver (Some n))
     | None => false
     end.

Definition inspect_device (prev current : Z) (h : hw) (c : core) : hw * core :=
  if negb (unauthorized current) then (h, c) else
  let isTopmost := AttachedDevice h current =? 0 in
  let enforcing := KgEnforcing c in
  let '(alreadyNeutralized, h) := note_filter current enforcing h in
  let c := if alreadyNeutralized then c
           else InterlockedIncrement HwDiscrepancyCount (LogAlert ALERT_UNAUTHORIZED_KBD_FILTER c) in
  if enforcing then
    let '(_, h, c) := NeutralizeKbdFilterDriver (DriverObject_of current) current prev isTopmost h c in
    (h, c)
  else (h, c).

(** The walk up the stack; [None] when [fuel] devices do not reach its end. *)
Fixpoint walk_stack (fuel : nat) (prev current : Z) (h : hw) (c : core) : option (hw * core) :=
  if current =? 0 then Some (h, c) else
  match fuel with
  | O => None
  | S fuel =>
    let '(h, c) := inspect_device prev current h c in
    walk_stack fuel current (AttachedDevice h current) h c
  end.
(** StackSize is a CCHAR. *)
Definition stack_fuel : nat := 127.

Definition kbd_name (idx : Z) : list Z := bytes_of "\Device\KeyboardClass" ++ [48 + idx].

Fixpoint detect_stacks (idxs : list Z) (h : hw) (c : core) : option (hw * core) :=
  match idxs with
  | [] => Some (h, c)
  | idx :: idxs =>
    let devObj := IoGetDeviceObjectPointer_at (clock c) (kbd_name idx) in
    let c := tick c in
    match devObj with
    | None => detect_stacks idxs h c
    | Some dev => '(h, c) ← walk_stack stack_fuel 0 dev h c; detect_stacks idxs h c
    end
  end.

Definition PciDetectDiscrepancies (h : hw) (c : core) : option (hw * core) :=
  detect_stacks (seqZ 0 10) h c.

(** ** DMA *)
Definition bdf (bus dev func : Z) : Z := Z.lor (Z.lor (Z.shiftl bus 16) (Z.shiftl dev 8)) func.

(** A present context entry. *)
Definition check_context (vtdRegs bus devFunc : Z) (h : hw) (c : core) : hw * core :=
  let hwDev := u8 (Z.shiftr devFunc 3) in
  let hwFunc := u8 (Z.land devFunc 0x7) in
  if IsAuthorizedDmaDevice (u8 bus) hwDev hwFunc then (h, c) else
  let enforcing := KgEnforcing c in
  let c := InterlockedIncrement HwDmaViolationCount (LogAlert ALERT_UNAUTHORIZED_DMA c) in
  if negb enforcing then (h, c) else
  let '(st, h, c) := VtdInvalidateContextEntry vtdRegs (u8 bus) hwDev hwFunc h c in
  if NT_SUCCESS st then
    let c := LogAlert ALERT_DMA_BLOCKED_IOMMU c in
    (h, DispatchCrossModuleEvent PASSIVE_LEVEL ALERT_DMA_BLOCKED_IOMMU 2 (bdf bus hwDev hwFunc) 0 c)
  else
    let '(st, h, c) := PciDisableBusMaster (u8 bus) hwDev hwFunc h c in
    if NT_SUCCESS st then (h, LogAlert ALERT_DEVICE_BME_DISABLED c) else (h, c).

Fixpoint check_contexts (vtdRegs bus ctxPhys : Z) (devFuncs : list Z) (h : hw) (c : core) : hw * core :=
  match devFuncs with
  | [] => (h, c)
  | devFunc :: devFuncs =>
    let '(b, c) := phys_read (ctxPhys + 16 * devFunc) 8 c in
    let '(h, c) := if Z.testbit (le_val b) 0 then check_context vtdRegs bus devFunc h c else (h, c) in
    check_contexts vtdRegs bus ctxPhys devFuncs h c
  end.

Fixpoint check_roots (vtdRegs rtAddr : Z) (buses : list Z) (h : hw) (c : core) : hw * core :=
  match buses with
  | [] => (h, c)
  | bus :: buses =>
    let '(b, c) := phys_read (rtAddr + 16 * bus) 8 c in
    if negb (Z.testbit (le_val b) 0) then check_roots vtdRegs rtAddr buses h c else
    let ctxPhys := table_address (le_val b) in
    let '(ctxTable, c) := MmMapIoSpace ctxPhys 4096 c in
    if negb ctxTable then check_roots vtdRegs rtAddr buses h c else
    let '(h, c) := check_contexts vtdRegs bus ctxPhys (seqZ 0 256) h c in
    check_roots vtdRegs rtAddr buses h c
  end.

(** Without VT-d: keyboard-related devices of the bus walk. *)
Definition check_pci (e : PCI_DISCOVERY_ENTRY) (h : hw) (c : core) : hw * core :=
  if negb (DmaCapable e) || negb (IsKeyboardRelated e) then (h, c)
  else if IsAuthorizedDmaDevice (peBus e) (peDevice e) (peFunction e) then (h, c)
  else if negb (KgEnforcing c) then
    (h, InterlockedIncrement HwDmaViolationCount (LogAlert ALERT_UNAUTHORIZED_DMA c))
  else
    let c := LogAlert ALERT_UNAUTHORIZED_DMA c in
    let '(st, h, c) := PciDisableBusMaster (peBus e) (peDevice e) (peFunction e) h c in
    let c := if NT_SUCCESS st then
               DispatchCrossModuleEvent PASSIVE_LEVEL ALERT_DEVICE_BME_DISABLED 2
                 (bdf (peBus e) (peDevice e) (peFunction e)) 0 (LogAlert ALERT_DEVICE_BME_DISABLED c)
             else c in
    (h, InterlockedIncrement HwDmaViolationCount c).

Fixpoint check_pcis (l : list PCI_DISCOVERY_ENTRY) (h : hw) (c : core) : hw * core :=
  match l with
  | [] => (h, c)
  | e :: l => let '(h, c) := check_pci e h c in check_pcis l h c
  end.

Definition vtd_unavailable (h : hw) (c : core) : hw * core := check_pcis (g_PciDevices h) h c.

Definition VtdVerifyDmaProtection (h : hw) (c : core) : hw * core :=
  let vtdRegs := g_VtdMmioBase h in
  if vtdRegs =? 0 then vtd_unavailable h c else
  let '(mapped, c) := MmMapIoSpace vtdRegs 0x1000 c in
  if negb mapped then vtd_unavailable h c else
  let '(b, c) := phys_read (vtdRegs + VTD_RTADDR_REG) 8 c in
  let rtAddr := table_address (le_val b) in
  if rtAddr =? 0 then vtd_unavailable h c else
  let '(rootTable, c) := MmMapIoSpace rtAddr 4096 c in
  if negb rootTable then vtd_unavailable h c else
  check_roots vtdRegs rtAddr (seqZ 0 256) h c.

(** ** The monitor thread: one body for each time-out of the wait *)
Definition HwMonitorRound (h : hw) (c : core) : option (hw * core) :=
  '(h, c) ← PciDetectDiscrepancies h c;
  let '(h, c) := VtdVerifyDmaProtection h c in
  Some (EnsureNeutralizedStillPatched h c).

Fixpoint HwMonitorThreadFunc (timeouts : nat) (h : hw) (c : core) : option (hw * core) :=
  match timeouts with
  | O => Some (h, c)
  | S timeouts => '(h, c) ← HwMonitorRound h c; HwMonitorThreadFunc timeouts h c
  end.

(** ** Start and stop *)
Definition HwKeyloggerInitialize (h : hw) (c : core) : option (Z * hw * core) :=
  let h := set_reported [] (set_filters [] h) in
  let '(h, c) := if NT_SUCCESS PciGetEcamBaseFromAcpi
                 then let '(_, h, c) := PciWalkBusTree h c in (h, c) else (h, c) in
  '(h, c) ← PciDetectDiscrepancies h c;
  let '(h, c) := VtdVerifyDmaProtection h c in
  let st := PsCreateSystemThread_at (clock c) in
  let c := tick c in
  if negb (NT_SUCCESS st) then Some (st, h, c)
  else Some (STATUS_SUCCESS, set_hwthread true h, c).

Definition restore_entry (nf : NEUTRALIZED_FILTER) (h : hw) : hw :=
  let drv := DriverObject_of (UnauthorizedDev nf) in
  if (UnauthorizedDev nf =? 0) || (drv =? 0) then h else
  let h := if negb (OriginalRead nf =? 0) && (MajorFn h drv IRP_MJ_READ =? stub)
           then set_major drv IRP_MJ_READ (OriginalRead nf) h else h in
  if negb (OriginalIntDc nf =? 0) && (MajorFn h drv IRP_MJ_INTERNAL_DEVICE_CONTROL =? stub)
  then set_major drv IRP_MJ_INTERNAL_DEVICE_CONTROL (OriginalIntDc nf) h else h.

Definition HwKeyloggerUninitialize (h : hw) : hw :=
  foldl (λ h nf, restore_entry nf h) (set_hwthread false h) (g_NeutralizedFilters h).
End hardware.

(** ** The tables of the driver objects under the monitor *)
Section tables.
Context `{WinEnv, WinKernel, WinCpu, WinDevices}.

Definition drv_of (nf : NEUTRALIZED_FILTER) : Z := DriverObject_of (UnauthorizedDev nf).
Definition saves (MF0 : Z → Z → Z) (nf : NEUTRALIZED_FILTER) : Prop :=
  OriginalRead nf = MF0 (drv_of nf) IRP_MJ_READ
  ∧ OriginalIntDc nf = MF0 (drv_of nf) IRP_MJ_INTERNAL_DEVICE_CONTROL.
Definition saves_nothing (nf : NEUTRALIZED_FILTER) : Prop := OriginalRead nf = 0 ∧ OriginalIntDc nf = 0.
Definition patched_major (m : Z) : Prop := m = IRP_MJ_READ ∨ m = IRP_MJ_INTERNAL_DEVICE_CONTROL.
#[export] Instance patched_major_dec m : Decision (patched_major m).
Proof. unfold patched_major. apply _. Defined.

(** The handlers before the driver was loaded: set, and not the stub. *)
Definition clean_tables (MF0 : Z → Z → Z) : Prop :=
  ∀ d m, patched_major m → MF0 d m ≠ 0 ∧ MF0 d m ≠ stub.

Definition recorded (MF0 : Z → Z → Z) (h : hw) (d : Z) : Prop :=
  ∃ nf, nf ∈ g_NeutralizedFilters h ∧ drv_of nf = d ∧ saves MF0 nf.

(** What the monitor keeps about the tables it found. *)
Record tables_inv (MF0 : Z → Z → Z) (h : hw) : Prop := {
  ti_entry : ∀ nf, nf ∈ g_NeutralizedFilters h →
    UnauthorizedDev nf ≠ 0 ∧ drv_of nf ≠ 0 ∧ (saves MF0 nf ∨ saves_nothing nf);
  ti_table : ∀ d m, MajorFn h d m = MF0 d m
    ∨ (patched_major m ∧ MajorFn h d m = stub ∧ recorded MF0 h d);
  ti_patched : ∀ nf m, nf ∈ g_NeutralizedFilters h → patched_major m → MajorFn h (drv_of nf) m = stub
}.

Lemma set_major_lookup d m f h d' m' :
  MajorFn (set_major d m f h) d' m' = if decide (d' = d ∧ m' = m) then f else MajorFn h d' m'.
Proof.
  unfold set_major. simpl. destruct (decide (d = d')) as [<-|Hd].
  - rewrite fn_lookup_insert. destruct (decide (m = m')) as [<-|Hm].
    + rewrite fn_lookup_insert. by rewrite decide_True.
    + rewrite fn_lookup_insert_ne by done. by rewrite decide_False by naive_solver.
  - rewrite fn_lookup_insert_ne by done. by rewrite decide_False by naive_solver.
Qed.

Lemma set_major_filters d m f h : g_NeutralizedFilters (set_major d m f h) = g_NeutralizedFilters h.
Proof. done. Qed.

Lemma relink_elem dev lower l nf :
  nf ∈ relink dev lower l → ∃ nf0, nf0 ∈ l ∧ UnauthorizedDev nf = UnauthorizedDev nf0
    ∧ OriginalRead nf = OriginalRead nf0 ∧ OriginalIntDc nf = OriginalIntDc nf0.
Proof.
  induction l as [|x l IH]; simpl; [by intros ?%elem_of_nil|].
  destruct (Z.eqb_spec (UnauthorizedDev x) dev) as [<-|_];
    intros [->|Hin]%elem_of_cons; [exists x; repeat split; by left|exists nf; repeat split; by right
                                  |exists x; repeat split; by left|].
  destruct (IH Hin) as (y & ? & ?). exists y. split; [by right|done].
Qed.

Lemma relink_elem_back dev lower l nf0 :
  nf0 ∈ l → ∃ nf, nf ∈ relink dev lower l ∧ UnauthorizedDev nf = UnauthorizedDev nf0
    ∧ OriginalRead nf = OriginalRead nf0 ∧ OriginalIntDc nf = OriginalIntDc nf0.
Proof.
  induction l as [|x l IH]; simpl; [by intros ?%elem_of_nil|].
  intros [->|Hin]%elem_of_cons.
  - destruct (Z.eqb_spec (UnauthorizedDev x) dev) as [<-|_]; (eexists; split; [by left|done]).
  - destruct (UnauthorizedDev x =? dev); [exists nf0; split; [by right|done]|].
    destruct (IH Hin) as (y & ? & ?). exists y. split; [by right|done].
Qed.

(** Changes that keep every table and, for each entry, its device and saved handlers. *)
Lemma tables_inv_same MF0 h h' :
  MajorFn h' = MajorFn h →
  (∀ nf, nf ∈ g_NeutralizedFilters h' → ∃ nf0, nf0 ∈ g_NeutralizedFilters h
     ∧ UnauthorizedDev nf = UnauthorizedDev nf0
     ∧ OriginalRead nf = OriginalRead nf0 ∧ OriginalIntDc nf = OriginalIntDc nf0) →
  (∀ nf0, nf0 ∈ g_NeutralizedFilters h → ∃ nf, nf ∈ g_NeutralizedFilters h'
     ∧ UnauthorizedDev nf = UnauthorizedDev nf0
     ∧ OriginalRead nf = OriginalRead nf0 ∧ OriginalIntDc nf = OriginalIntDc nf0) →
  tables_inv MF0 h → tables_inv MF0 h'.
Proof.
  intros HM Hf Hb [E T P]. split; unfold drv_of, saves, saves_nothing in *.
  - intros nf (n0 & Hin & Hd & Hr & Hi)%Hf. unfold drv_of in *. rewrite Hd, Hr, Hi. by apply E.
  - intros d m. rewrite HM. destruct (T d m) as [?|(? & ? & n0 & Hin & Hd & Hr & Hi)]; [by left|right].
    split_and!; [done|done|]. destruct (Hb n0 Hin) as (n & ? & D & R & I).
    exists n. unfold saves, drv_of in *. by rewrite D, R, I.
  - intros nf m (n0 & Hin & Hd & _)%Hf Hm. rewrite HM. unfold drv_of in *. rewrite Hd. by apply P.
Qed.

(** A driver is either untouched or fully patched. *)
Lemma tables_inv_unpatched MF0 h d :
  tables_inv MF0 h → MajorFn h d IRP_MJ_READ ≠ stub →
  ∀ m, MajorFn h d m = MF0 d m.
Proof.
  intros [E T P] Hr m. destruct (T d m) as [?|(_ & _ & nf & Hin & <- & _)]; [done|].
  destruct Hr. apply P; [done|by left].
Qed.

Lemma tables_inv_patched MF0 h d m :
  clean_tables MF0 → tables_inv MF0 h → MajorFn h d IRP_MJ_READ = stub → patched_major m →
  MajorFn h d m = stub ∧ recorded MF0 h d.
Proof.
  intros Hc [E T P] Hr Hm. destruct (T d IRP_MJ_READ) as [Heq|(_ & _ & nf & Hin & <- & Hs)].
  - destruct (Hc d IRP_MJ_READ (or_introl eq_refl)) as [_ ?]. congruence.
  - split; [by apply P|]. by exists nf.
Qed.
End tables.

Section round_trip.
Context `{WinEnv, WinKernel, WinCpu, WinDevices}.
Variable MF0 : Z → Z → Z.
Hypothesis clean : clean_tables MF0.

(** A new entry: the driver was patched before, or is patched now. *)
Lemma tables_inv_add h h' nf :
  tables_inv MF0 h → UnauthorizedDev nf ≠ 0 → drv_of nf ≠ 0 →
  g_NeutralizedFilters h' = g_NeutralizedFilters h ++ [nf] →
  (∀ d m, MajorFn h' d m = if decide (d = drv_of nf ∧ patched_major m) then stub else MajorFn h d m) →
  (MajorFn h (drv_of nf) IRP_MJ_READ = stub ∧ saves_nothing nf)
  ∨ (MajorFn h (drv_of nf) IRP_MJ_READ ≠ stub ∧ saves MF0 nf) →
  tables_inv MF0 h'.
Proof using clean.
  intros Hinv Hd Hv Hf HM Hcase. pose proof Hinv as [E T P].
  assert (Hrec : ∀ d, recorded MF0 h d → recorded MF0 h' d).
  { intros d (n & Hn & ?). exists n. rewrite Hf, elem_of_app. auto. }
  assert (Hnew : recorded MF0 h' (drv_of nf)).
  { destruct Hcase as [[Hr _]|[_ Hs]].
    - apply Hrec. by destruct (tables_inv_patched MF0 h _ IRP_MJ_READ clean Hinv Hr (or_introl eq_refl)).
    - exists nf. rewrite Hf, elem_of_app. split; [right; by apply list_elem_of_singleton|done]. }
  split.
  - intros n. rewrite Hf, elem_of_app, list_elem_of_singleton. intros [?| ->]; [by apply E|].
    split_and!; [done|done|]. destruct Hcase as [[_ ?]|[_ ?]]; auto.
  - intros d m. rewrite HM. case_decide as Hdm; [right|].
    + destruct Hdm as [-> ?]. done.
    + destruct (T d m) as [?|(? & ? & ?)]; [by left|right]. auto.
  - intros n m. rewrite HM, Hf, elem_of_app, list_elem_of_singleton. intros [Hn| ->] Hm.
    + case_decide; [done|]. by apply P.
    + by rewrite decide_True.
Qed.

Lemma patched_twice d h d' m :
  MajorFn (set_major d IRP_MJ_INTERNAL_DEVICE_CONTROL stub (set_major d IRP_MJ_READ stub h)) d' m
  = if decide (d' = d ∧ (m = IRP_MJ_READ ∨ m = IRP_MJ_INTERNAL_DEVICE_CONTROL)) then stub else MajorFn h d' m.
Proof. rewrite !set_major_lookup. repeat case_decide; naive_solver. Qed.

Lemma neutralize_tables dev lower top h c :
  dev ≠ 0 → DriverObject_of dev ≠ 0 → tables_inv MF0 h →
  tables_inv MF0 (NeutralizeKbdFilterDriver (DriverObject_of dev) dev lower top h c).1.2.
Proof using clean.
  intros Hd Hv Hinv. unfold NeutralizeKbdFilterDriver.
  destruct (find_filter dev _).
  { revert Hinv. apply tables_inv_same; [done|apply relink_elem|apply relink_elem_back]. }
  destruct (_ <=? _); [done|]. set (drv := DriverObject_of dev) in *.
  assert (Hdet : ∀ h0 (b : bool) f, tables_inv MF0 h0 →
            tables_inv MF0 (if b then set_attached f h0 else h0)).
  { intros h0 [] f; [|done]. apply tables_inv_same; [done|by eauto..]. }
  cbn [fst snd]. apply Hdet. destruct (Z.eqb_spec (MajorFn h drv IRP_MJ_READ) stub) as [Hr|Hr].
  - eapply (tables_inv_add h _ (NeutralizedFilter dev lower 0 0 _)); [done..| |left; done].
    intros d m. simpl. case_decide as Hdm; [|done]. destruct Hdm as [-> Hm].
    by apply (tables_inv_patched MF0 h drv m clean Hinv Hr).
  - eapply (tables_inv_add h _ (NeutralizedFilter dev lower (MajorFn h drv IRP_MJ_READ)
              (MajorFn h drv IRP_MJ_INTERNAL_DEVICE_CONTROL) _)); [done..| |right].
    + intros d m. simpl. exact (patched_twice drv h d m).
    + split; [done|]. unfold saves, drv_of. simpl. fold drv.
      by rewrite !(tables_inv_unpatched MF0 h drv).
Qed.

(** Nothing to repair. *)
Lemma repatch_nothing l h :
  (∀ nf m, nf ∈ l → patched_major m → MajorFn h (drv_of nf) m = stub) →
  repatch_all l h = (l, false, h).
Proof.
  induction l as [|nf l IH]; intros Hp; [done|]. cbn [repatch_all].
  assert (repatch_entry nf h = (nf, false, h)) as ->.
  { unfold repatch_entry. fold (drv_of nf). destruct (_ || _); [done|].
    rewrite (Hp nf IRP_MJ_READ), Z.eqb_refl by (by left).
    by rewrite (Hp nf IRP_MJ_INTERNAL_DEVICE_CONTROL), Z.eqb_refl by first [by left|by right]. }
  rewrite IH; [done|]. intros nf' m Hin. apply Hp. by right.
Qed.

Lemma ensure_tables h c : tables_inv MF0 h → EnsureNeutralizedStillPatched h c = (h, c).
Proof.
  intros Hinv. unfold EnsureNeutralizedStillPatched.
  rewrite repatch_nothing by apply Hinv. by destruct h.
Qed.

(** Restoring an entry gives back what it saved. *)
Lemma restore_step d m o h d' m' :
  MajorFn (if negb (o =? 0) && (MajorFn h d m =? stub) then set_major d m o h else h) d' m'
  = if decide (o ≠ 0 ∧ MajorFn h d m = stub ∧ d' = d ∧ m' = m) then o else MajorFn h d' m'.
Proof.
  destruct (Z.eqb_spec o 0); simpl; [by rewrite decide_False by naive_solver|].
  destruct (Z.eqb_spec (MajorFn h d m) stub); [|by rewrite decide_False by naive_solver].
  rewrite set_major_lookup. apply decide_ext. naive_solver.
Qed.

Lemma restore_entry_lookup nf h d m :
  UnauthorizedDev nf ≠ 0 → drv_of nf ≠ 0 →
  MajorFn (restore_entry nf h) d m
  = if decide (d = drv_of nf ∧ MajorFn h d m = stub ∧ m = IRP_MJ_READ ∧ OriginalRead nf ≠ 0)
    then OriginalRead nf
    else if decide (d = drv_of nf ∧ MajorFn h d m = stub ∧ m = IRP_MJ_INTERNAL_DEVICE_CONTROL
                    ∧ OriginalIntDc nf ≠ 0)
    then OriginalIntDc nf else MajorFn h d m.
Proof.
  intros Hu Hv. unfold restore_entry. fold (drv_of nf).
  rewrite (proj2 (Z.eqb_neq _ 0) Hu), (proj2 (Z.eqb_neq _ 0) Hv). simpl orb. cbv iota zeta.
  rewrite restore_step, !(restore_step _ _ (OriginalRead nf)).
  rewrite (decide_False (P := _ ∧ _ ∧ _ ∧ IRP_MJ_INTERNAL_DEVICE_CONTROL = _)) by (by intros (_&_&_&?)).
  destruct (decide (m = IRP_MJ_READ)) as [->|].
  - rewrite decide_False by (by intros (_&_&_&?)).
    rewrite (decide_False (P := d = _ ∧ _ ∧ IRP_MJ_READ = IRP_MJ_INTERNAL_DEVICE_CONTROL ∧ _))
      by (by intros (_&_&?&_)).
    apply decide_ext. naive_solver.
  - rewrite (decide_False (P := d = _ ∧ _ ∧ m = IRP_MJ_READ ∧ _)) by naive_solver.
    rewrite (decide_False (P := _ ∧ _ ∧ _ ∧ m = IRP_MJ_READ)) by naive_solver.
    apply decide_ext. naive_solver.
Qed.

Lemma restore_entry_tables nf h d m :
  (saves MF0 nf ∨ saves_nothing nf) → UnauthorizedDev nf ≠ 0 → drv_of nf ≠ 0 →
  MajorFn h d m = MF0 d m ∨ (patched_major m ∧ MajorFn h d m = stub) →
  MajorFn (restore_entry nf h) d m = MF0 d m
  ∨ (patched_major m ∧ MajorFn (restore_entry nf h) d m = stub ∧ ¬ (drv_of nf = d ∧ saves MF0 nf)).
Proof using clean.
  intros Hs Hu Hv Hm. rewrite restore_entry_lookup by done.
  case_decide as C1; [|case_decide as C2].
  - destruct C1 as (-> & _ & -> & ?). left. destruct Hs as [[-> _]|[? _]]; done.
  - destruct C2 as (-> & _ & -> & ?). left. destruct Hs as [[_ ->]|[_ ?]]; done.
  - destruct Hm as [?|[Hp Hst]]; [by left|right]. split_and!; [done|done|]. intros [<- [Hr Hi]].
    pose proof (clean (drv_of nf) m Hp) as [Hz _].
    destruct Hp as [->| ->]; [apply C1|apply C2]; rewrite ?Hr, ?Hi; done.
Qed.

Lemma restore_all_tables l h d m :
  (∀ nf, nf ∈ l → UnauthorizedDev nf ≠ 0 ∧ drv_of nf ≠ 0 ∧ (saves MF0 nf ∨ saves_nothing nf)) →
  MajorFn h d m = MF0 d m
  ∨ (patched_major m ∧ MajorFn h d m = stub ∧ ∃ nf, nf ∈ l ∧ drv_of nf = d ∧ saves MF0 nf) →
  MajorFn (foldl (λ h nf, restore_entry nf h) h l) d m = MF0 d m.
Proof using clean.
  revert h. induction l as [|nf l IH]; intros h Hl Hm; simpl.
  { destruct Hm as [?|(_ & _ & ? & []%elem_of_nil & _)]; done. }
  destruct (Hl nf) as (Hu & Hv & Hs); [by left|].
  apply IH; [intros ? ?; apply Hl; by right|].
  destruct (restore_entry_tables nf h d m) as [?|(Hp & Hst & Hno)]; [done..| |by left|].
  { naive_solver. }
  right. split_and!; [done|done|]. destruct Hm as [Hm|(_ & _ & n & [->|Hin]%elem_of_cons & Hd & Hsv)].
  - rewrite restore_entry_lookup in Hst by done. pose proof (clean d m Hp) as [_ Hns].
    rewrite !decide_False in Hst by (intros (_ & ? & _); congruence). congruence.
  - by destruct Hno.
  - by exists n.
Qed.
End round_trip.

(** ** The walk up a stack ends *)
Section stacks.
Context `{WinEnv, WinKernel, WinCpu, WinDevices}.

(** From [d], at most [fuel] devices up. *)
Fixpoint stack_ends (fuel : nat) (att : Z → Z) (d : Z) : Prop :=
  d = 0 ∨ match fuel with O => False | S fuel => stack_ends fuel att (att d) end.

(** Links were kept or cut. *)
Definition links_cut (att att' : Z → Z) : Prop := ∀ d, att' d = att d ∨ att' d = 0.

#[export] Instance links_cut_preorder : PreOrder links_cut.
Proof.
  split; [intros att d; by left|]. intros a b c Hab Hbc d.
  destruct (Hbc d) as [->|?]; [apply Hab|by right].
Qed.

Lemma stack_ends_zero fuel att : stack_ends fuel att 0.
Proof. destruct fuel; by left. Qed.

Lemma stack_ends_cut fuel att att' d : links_cut att att' → stack_ends fuel att d → stack_ends fuel att' d.
Proof.
  intros Hc. revert d. induction fuel as [|fuel IH]; intros d [->|Hd]; try (by left).
  right. destruct (Hc d) as [->| ->]; [by apply IH|apply stack_ends_zero].
Qed.

Lemma neutralize_cut drv dev lower top h c :
  links_cut (AttachedDevice h) (AttachedDevice (NeutralizeKbdFilterDriver drv dev lower top h c).1.2).
Proof.
  unfold NeutralizeKbdFilterDriver. destruct (find_filter dev _); [done|].
  destruct (_ <=? _); [done|]. destruct (_ =? stub), (top && _); try done;
    (intros d; simpl; destruct (decide (lower = d)) as [->|?];
      [right; apply fn_lookup_insert|left; by apply fn_lookup_insert_ne]).
Qed.

Lemma note_filter_keeps dev e h :
  ∃ l, (note_filter dev e h).2 = set_reported (g_ReportedFilters h ++ l) h.
Proof.
  unfold note_filter. assert (h = set_reported (g_ReportedFilters h ++ []) h) as Hid.
  { rewrite app_nil_r. by destruct h. }
  repeat case_goal; by eexists.
Qed.

Lemma inspect_cut prev cur h c :
  links_cut (AttachedDevice h) (AttachedDevice (inspect_device prev cur h c).1).
Proof.
  unfold inspect_device. destruct (negb _); [done|].
  destruct (note_filter_keeps cur (KgEnforcing c) h) as [l Hl].
  destruct (note_filter _ _ _) as [a h1]. simpl in Hl. subst h1. destruct (KgEnforcing c); [|done].
  match goal with |- context [NeutralizeKbdFilterDriver ?d ?v ?w ?t ?h0 ?c0] =>
    pose proof (neutralize_cut d v w t h0 c0) as Hn; destruct (NeutralizeKbdFilterDriver d v w t h0 c0) as [[? ?] ?] end.
  done.
Qed.

(** Every keyboard stack ends. *)
Definition stacks_end (att : Z → Z) : Prop :=
  ∀ t idx d, IoGetDeviceObjectPointer_at t (kbd_name idx) = Some d → stack_ends stack_fuel att d.

Lemma stacks_end_cut att att' : links_cut att att' → stacks_end att → stacks_end att'.
Proof. intros Hc He t i d Hd. eapply stack_ends_cut; [exact Hc|by eapply He]. Qed.

(** What an inspection keeps, a scan of every stack keeps, and it ends. *)
Section scan_ind.
Variable I : hw → core → Prop.
Hypothesis I_inspect : ∀ prev cur h c, cur ≠ 0 → I h c →
  I (inspect_device prev cur h c).1 (inspect_device prev cur h c).2.
Hypothesis I_tick : ∀ h c, I h c → I h (tick c).

Lemma walk_stack_ind fuel prev cur h c :
  stack_ends fuel (AttachedDevice h) cur → I h c →
  ∃ h' c', walk_stack fuel prev cur h c = Some (h', c') ∧ I h' c'
  ∧ links_cut (AttachedDevice h) (AttachedDevice h').
Proof using I_inspect.
  revert prev cur h c. induction fuel as [|fuel IH]; intros prev cur h c Hends HI; simpl;
    destruct (Z.eqb_spec cur 0) as [->|Hne]; try (by exists h, c).
  { by destruct Hends. }
  destruct Hends as [?|Hends]; [done|].
  pose proof (inspect_cut prev cur h c) as Hcut. pose proof (I_inspect prev cur h c Hne HI) as HI'.
  destruct (inspect_device prev cur h c) as [h1 c1]. simpl in *.
  assert (He : stack_ends fuel (AttachedDevice h1) (AttachedDevice h1 cur)).
  { destruct (Hcut cur) as [->| ->]; [by eapply stack_ends_cut|apply stack_ends_zero]. }
  destruct (IH cur _ h1 c1 He HI') as (h2 & c2 & Hw & HI2 & Hc2).
  exists h2, c2. split_and!; [done|done|]. by transitivity (AttachedDevice h1).
Qed.

Lemma detect_ind h c :
  stacks_end (AttachedDevice h) → I h c →
  ∃ h' c', PciDetectDiscrepancies h c = Some (h', c') ∧ I h' c'
  ∧ links_cut (AttachedDevice h) (AttachedDevice h').
Proof using I_inspect I_tick.
  unfold PciDetectDiscrepancies. generalize (seqZ 0 10). intros idxs. revert h c.
  induction idxs as [|idx idxs IH]; intros h c He HI; cbn [detect_stacks]; [by exists h, c|].
  destruct (IoGetDeviceObjectPointer_at (clock c) (kbd_name idx)) as [d|] eqn:Ed; [|by apply IH; auto].
  destruct (walk_stack_ind stack_fuel 0 d h (tick c) (He _ _ _ Ed) (I_tick _ _ HI))
    as (h1 & c1 & -> & HI1 & Hc1). cbn [mbind option_bind].
  destruct (IH h1 c1) as (h2 & c2 & Hw & HI2 & Hc2); [|done|].
  { by eapply stacks_end_cut. }
  exists h2, c2. split_and!; [done|done|by transitivity (AttachedDevice h1)].
Qed.
End scan_ind.
End stacks.

(** ** What the DMA check writes *)
Definition add_writes (ws : list phys_write) (h : hw) : hw :=
  Hw (MajorFn h) (AttachedDevice h) (g_NeutralizedFilters h) (g_ReportedFilters h)
     (g_HwMonitorThread h) (g_PciDevices h) (g_EcamBase h) (g_VtdMmioBase h) (hw_writes h ++ ws).

(** A cleared Present bit, the two invalidation commands, or a command register without
    its bus-master bit. *)
Definition dma_write (ecam vtd : Z) (w : phys_write) : Prop :=
  (∃ addr word, w = PhysWrite addr 8 (Z.land word (Z.lnot 1)))
  ∨ w = PhysWrite (vtd + VTD_CCMD_REG) 8 VTD_CCMD_GLOBAL_INVAL
  ∨ (∃ off, w = PhysWrite (vtd + off + 8) 8 VTD_IOTLB_GLOBAL_INVAL)
  ∨ (∃ b d f cmd, w = PhysWrite (ecam_address ecam b d f 0x04) 2 (Z.land cmd 0xFFFB)).

Section dma.
Context `{WinEnv, WinKernel, WinCpu, WinDevices}.

Definition writes_only (h h' : hw) : Prop :=
  ∃ ws, h' = add_writes ws h ∧ Forall (dma_write (g_EcamBase h) (g_VtdMmioBase h)) ws.

Definition filter_count (c : core) : Z := wstats (g_SharedState c) HwDiscrepancyCount.
Definition hw_quiet (c c' : core) : Prop :=
  KgEnforcing c' = KgEnforcing c ∧ filter_count c' = filter_count c.

(** Only such writes, none of them without enforcement, which stays off. *)
Definition dma_step (h : hw) (c : core) (h' : hw) (c' : core) : Prop :=
  writes_only h h' ∧ (KgEnforcing c = false → h' = h ∧ hw_quiet c c').

#[export] Instance writes_only_preorder : PreOrder writes_only.
Proof.
  split.
  - intros h. exists []. split; [|done]. destruct h. unfold add_writes. simpl. by rewrite app_nil_r.
  - intros h1 h2 h3 (w1 & -> & F1) (w2 & -> & F2). exists (w1 ++ w2). rewrite Forall_app. split; [|done].
    unfold add_writes. simpl. by rewrite app_assoc.
Qed.

Lemma writes_only_one h a n v :
  dma_write (g_EcamBase h) (g_VtdMmioBase h) (PhysWrite a n v) → writes_only h (hw_write a n v h).
Proof. intros Hw. eexists [_]. rewrite Forall_singleton. done. Qed.

Lemma dma_step_trans h1 c1 h2 c2 h3 c3 :
  dma_step h1 c1 h2 c2 → dma_step h2 c2 h3 c3 → dma_step h1 c1 h3 c3.
Proof. intros [W1 E1] [W2 E2]. split; [by etrans|]. intros He.
  destruct (E1 He) as [-> [Q1 N1]]. destruct E2 as [-> [Q2 N2]]; [by rewrite Q1|]. split; [done|].
  split; congruence. Qed.

Lemma dma_step_read h c c' : hw_quiet c c' → dma_step h c h c'.
Proof. by intros He. Qed.

Lemma dma_step_enforcing h c h' c' : KgEnforcing c = true → writes_only h h' → dma_step h c h' c'.
Proof. intros He. split; [done|]. by rewrite He. Qed.

Lemma signal_quiet t c : hw_quiet c (LogAlert t c).
Proof.
  unfold LogAlert, SecureCommMsrSignal. destruct (wrmsr_faults_at _ MSR_COVERT_SIGNAL); [done|].
  split; [done|]. unfold filter_count. simpl. by rewrite fn_lookup_insert_ne.
Qed.

Lemma dma_alert_quiet c :
  hw_quiet c (InterlockedIncrement HwDmaViolationCount (LogAlert ALERT_UNAUTHORIZED_DMA c)).
Proof.
  destruct (signal_quiet ALERT_UNAUTHORIZED_DMA c) as [He Hn]. split; [done|].
  unfold filter_count in *. simpl. by rewrite fn_lookup_insert_ne.
Qed.

Lemma PciDisableBusMaster_writes b d f h c : writes_only h (PciDisableBusMaster b d f h c).1.2.
Proof.
  unfold PciDisableBusMaster, PciEcamRead, PciEcamWrite. simpl.
  destruct (g_EcamBase h =? 0); [done|]. destruct (MmMapIoSpace_at _ _ _); [|done]. simpl.
  destruct (has _ 4); [|done]. simpl. destruct (MmMapIoSpace_at _ _ _); [|done]. simpl.
  apply writes_only_one. right. right. right. by eexists _, _, _, _.
Qed.

Lemma VtdFlushIommu_writes h c : writes_only h (VtdFlushIommu (g_VtdMmioBase h) h c).1.
Proof.
  unfold VtdFlushIommu. cbn [fst snd phys_read].
  transitivity (hw_write (g_VtdMmioBase h + VTD_CCMD_REG) 8 VTD_CCMD_GLOBAL_INVAL h);
    apply writes_only_one; unfold dma_write; [by auto|]. right. right. left. simpl. by eexists.
Qed.

Lemma VtdInvalidate_writes b d f h c :
  writes_only h (VtdInvalidateContextEntry (g_VtdMmioBase h) b d f h c).1.2.
Proof.
  unfold VtdInvalidateContextEntry. cbn [phys_read MmMapIoSpace].
  repeat (destruct (_ =? 0) || destruct (negb _); [done|]).
  destruct (Z.testbit _ 0); [|done].
  match goal with |- context [VtdFlushIommu _ ?h0 ?c0] =>
    pose proof (VtdFlushIommu_writes h0 c0) as Hf; cbn [g_VtdMmioBase hw_write] in Hf;
    destruct (VtdFlushIommu (g_VtdMmioBase h) h0 c0) as [h1 c1] end.
  cbn [fst snd] in *. etrans; [|exact Hf]. apply writes_only_one. left. by eexists _, _.
Qed.

Lemma check_context_step bus df h c :
  dma_step h c (check_context (g_VtdMmioBase h) bus df h c).1 (check_context (g_VtdMmioBase h) bus df h c).2.
Proof.
  unfold check_context. destruct (IsAuthorizedDmaDevice _ _ _); [by apply dma_step_read|].
  destruct (KgEnforcing c) eqn:Ee; cbn [negb].
  2:{ apply dma_step_read. exact (dma_alert_quiet c). }
  apply dma_step_enforcing; [done|].
  match goal with |- context [VtdInvalidateContextEntry ?v ?b ?d ?f ?h0 ?c0] =>
    pose proof (VtdInvalidate_writes b d f h0 c0) as Hv;
    destruct (VtdInvalidateContextEntry v b d f h0 c0) as [[st h1] c1] end.
  cbn [fst snd] in Hv. destruct (NT_SUCCESS st); [done|].
  match goal with |- context [PciDisableBusMaster ?b ?d ?f ?h0 ?c0] =>
    pose proof (PciDisableBusMaster_writes b d f h0 c0) as Hb;
    destruct (PciDisableBusMaster b d f h0 c0) as [[st' h2] c2] end.
  cbn [fst snd] in Hb. destruct (NT_SUCCESS st'); by etrans.
Qed.

Lemma check_contexts_step bus ctx dfs h c :
  dma_step h c (check_contexts (g_VtdMmioBase h) bus ctx dfs h c).1
               (check_contexts (g_VtdMmioBase h) bus ctx dfs h c).2.
Proof.
  revert h c. induction dfs as [|df dfs IH]; intros h c; cbn [check_contexts]; [by apply dma_step_read|].
  cbn [phys_read]. assert (Ht : dma_step h c h (tick c)) by by apply dma_step_read.
  destruct (Z.testbit _ 0); [|eapply dma_step_trans; [exact Ht|apply IH]].
  pose proof (check_context_step bus df h (tick c)) as Hc.
  destruct (check_context _ _ _ _ _) as [h1 c1]. cbn [fst snd] in Hc.
  assert (g_VtdMmioBase h = g_VtdMmioBase h1) as -> by (by destruct Hc as [(ws & -> & _) _]).
  eapply dma_step_trans; [exact Ht|]. eapply dma_step_trans; [exact Hc|apply IH].
Qed.

Lemma check_roots_step rt buses h c :
  dma_step h c (check_roots (g_VtdMmioBase h) rt buses h c).1 (check_roots (g_VtdMmioBase h) rt buses h c).2.
Proof.
  revert h c. induction buses as [|bus buses IH]; intros h c; cbn [check_roots]; [by apply dma_step_read|].
  cbn [phys_read MmMapIoSpace]. assert (Ht : ∀ h c, dma_step h c h (tick c)) by (intros; by apply dma_step_read).
  destruct (negb (Z.testbit _ 0)); [eapply dma_step_trans; [apply Ht|apply IH]|].
  destruct (negb _); [do 2 (eapply dma_step_trans; [apply Ht|]); apply IH|].
  match goal with |- context [check_contexts ?v ?b ?x ?d ?h0 ?c0] =>
    pose proof (check_contexts_step b x d h0 c0) as Hc; destruct (check_contexts v b x d h0 c0) as [h1 c1] end.
  cbn [fst snd] in Hc.
  assert (g_VtdMmioBase h = g_VtdMmioBase h1) as -> by (by destruct Hc as [(ws & -> & _) _]).
  do 2 (eapply dma_step_trans; [apply Ht|]). eapply dma_step_trans; [exact Hc|apply IH].
Qed.

Lemma check_pci_step e h c : dma_step h c (check_pci e h c).1 (check_pci e h c).2.
Proof.
  unfold check_pci. destruct (_ || _); [by apply dma_step_read|].
  destruct (IsAuthorizedDmaDevice _ _ _); [by apply dma_step_read|].
  destruct (KgEnforcing c) eqn:Ee; cbn [negb].
  2:{ apply dma_step_read. exact (dma_alert_quiet c). }
  apply dma_step_enforcing; [done|].
  match goal with |- context [PciDisableBusMaster ?b ?d ?f ?h0 ?c0] =>
    pose proof (PciDisableBusMaster_writes b d f h0 c0) as Hb;
    destruct (PciDisableBusMaster b d f h0 c0) as [[st' h2] c2] end.
  done.
Qed.

Lemma check_pcis_step l h c : dma_step h c (check_pcis l h c).1 (check_pcis l h c).2.
Proof.
  revert h c. induction l as [|e l IH]; intros h c; cbn [check_pcis]; [by apply dma_step_read|].
  pose proof (check_pci_step e h c) as He. destruct (check_pci e h c) as [h1 c1].
  eapply dma_step_trans; [exact He|apply IH].
Qed.

Lemma VtdVerify_step h c : dma_step h c (VtdVerifyDmaProtection h c).1 (VtdVerifyDmaProtection h c).2.
Proof.
  unfold VtdVerifyDmaProtection, vtd_unavailable. cbn [phys_read MmMapIoSpace].
  assert (Ht : ∀ h c, dma_step h c h (tick c)) by (intros; by apply dma_step_read).
  destruct (_ =? 0); [apply check_pcis_step|].
  destruct (negb _); [eapply dma_step_trans; [apply Ht|apply check_pcis_step]|].
  destruct (_ =? 0); [do 2 (eapply dma_step_trans; [apply Ht|]); apply check_pcis_step|].
  destruct (negb _); do 3 (eapply dma_step_trans; [apply Ht|]); [apply check_pcis_step|apply check_roots_step].
Qed.
End dma.

Section monitor.
Context `{WinEnv, WinKernel, WinCpu, WinDevices}.

(** A round, and a run of rounds, keep what the scan and the DMA check keep. *)
Section monitor_ind.
Variable I : hw → core → Prop.
Hypothesis I_inspect : ∀ prev cur h c, cur ≠ 0 → I h c →
  I (inspect_device prev cur h c).1 (inspect_device prev cur h c).2.
Hypothesis I_tick : ∀ h c, I h c → I h (tick c).
Hypothesis I_dma : ∀ h c h' c', dma_step h c h' c' → I h c → I h' c'.
Hypothesis I_ensure : ∀ h c, I h c → EnsureNeutralizedStillPatched h c = (h, c).

Lemma monitor_round_ind h c :
  stacks_end (AttachedDevice h) → I h c →
  ∃ h' c', HwMonitorRound h c = Some (h', c') ∧ I h' c' ∧ stacks_end (AttachedDevice h').
Proof using I_inspect I_tick I_dma I_ensure.
  intros He HI. destruct (detect_ind I I_inspect I_tick h c He HI) as (h1 & c1 & Hd & HI1 & Hc).
  unfold HwMonitorRound. rewrite Hd. cbn [mbind option_bind].
  pose proof (VtdVerify_step h1 c1) as Hv. destruct (VtdVerifyDmaProtection h1 c1) as [h2 c2].
  cbn [fst snd] in Hv. assert (HI2 : I h2 c2) by eauto. exists h2, c2. rewrite I_ensure by done.
  split_and!; [done|done|]. destruct Hv as [(ws & -> & _) _]. exact (stacks_end_cut _ _ Hc He).
Qed.

Lemma monitor_rounds_ind n h c :
  stacks_end (AttachedDevice h) → I h c →
  ∃ h' c', HwMonitorThreadFunc n h c = Some (h', c') ∧ I h' c'.
Proof using I_inspect I_tick I_dma I_ensure.
  revert h c. induction n as [|n IH]; intros h c He HI; cbn [HwMonitorThreadFunc]; [by exists h, c|].
  destruct (monitor_round_ind h c He HI) as (h1 & c1 & -> & HI1 & He1). by apply IH.
Qed.

(** The module from its start on. *)
Hypothesis I_thread : ∀ b h c, I h c → I (set_hwthread b h) c.

Lemma monitor_life_ind h c :
  stacks_end (AttachedDevice h) → I (set_reported [] (set_filters [] h)) c →
  ∃ st h1 c1, HwKeyloggerInitialize h c = Some (st, h1, c1) ∧
  ∀ n, ∃ h2 c2, HwMonitorThreadFunc n h1 c1 = Some (h2, c2) ∧ I h2 c2.
Proof using I_inspect I_tick I_dma I_ensure I_thread.
  intros He HI. unfold HwKeyloggerInitialize. cbn [NT_SUCCESS PciGetEcamBaseFromAcpi].
  change (NT_SUCCESS PciGetEcamBaseFromAcpi) with false. cbv iota.
  destruct (detect_ind I I_inspect I_tick (set_reported [] (set_filters [] h)) c He HI)
    as (h1 & c1 & -> & HI1 & Hc). cbn [mbind option_bind].
  pose proof (VtdVerify_step h1 c1) as Hv. destruct (VtdVerifyDmaProtection h1 c1) as [h2 c2].
  cbn [fst snd] in Hv. assert (HI2 : I h2 c2) by eauto.
  assert (He2 : stacks_end (AttachedDevice h2)).
  { destruct Hv as [(ws & -> & _) _]. exact (stacks_end_cut _ _ Hc He). }
  destruct (negb _); (do 3 eexists; split; [done|]; intros n; apply monitor_rounds_ind; auto).
Qed.
End monitor_ind.

Lemma inspect_tables MF0 prev cur h c :
  clean_tables MF0 → cur ≠ 0 → tables_inv MF0 h → tables_inv MF0 (inspect_device prev cur h c).1.
Proof.
  intros Hc Hne Hinv. unfold inspect_device. destruct (unauthorized cur) eqn:Hu; [|done]. simpl.
  assert (Hv : DriverObject_of cur ≠ 0).
  { unfold unauthorized in Hu. destruct (Z.eqb_spec (DriverObject_of cur) 0); done. }
  destruct (note_filter_keeps cur (KgEnforcing c) h) as [l Hl].
  destruct (note_filter _ _ _) as [a h1]. simpl in Hl. subst h1.
  assert (Hrep : tables_inv MF0 (set_reported (g_ReportedFilters h ++ l) h)).
  { revert Hinv. apply tables_inv_same; [done|by eauto..]. }
  destruct (KgEnforcing c); [|done].
  match goal with |- context [NeutralizeKbdFilterDriver ?d ?v ?w ?t ?h0 ?c0] =>
    pose proof (neutralize_tables MF0 Hc v w t h0 c0 Hne Hv Hrep) as Hn;
    destruct (NeutralizeKbdFilterDriver d v w t h0 c0) as [[? ?] ?] end.
  done.
Qed.

End monitor.

(** ** Without enforcement *)
Section detect_only.
Context `{WinEnv, WinKernel, WinCpu, WinDevices}.

(** Since the start [h0], [c0]: nothing was changed, and each filter was counted once. *)
Record watching (h0 : hw) (c0 : core) (h : hw) (c : core) : Prop := {
  w_mode : KgEnforcing c = false;
  w_tables : MajorFn h = MajorFn h0;
  w_links : AttachedDevice h = AttachedDevice h0;
  w_filters : g_NeutralizedFilters h = [];
  w_writes : hw_writes h = hw_writes h0;
  w_reported : NoDup (g_ReportedFilters h) ∧ zlen (g_ReportedFilters h) ≤ MAX_REPORTED_FILTERS
               ∧ Forall (λ d, unauthorized d = true) (g_ReportedFilters h);
  w_counted : zlen (g_ReportedFilters h) < MAX_REPORTED_FILTERS →
              filter_count c = s32 (filter_count c0 + zlen (g_ReportedFilters h))
}.

Lemma watching_inspect h0 c0 prev cur h c :
  watching h0 c0 h c → watching h0 c0 (inspect_device prev cur h c).1 (inspect_device prev cur h c).2.
Proof.
  intros [M T L F W (N & B & U) C]. unfold inspect_device.
  destruct (unauthorized cur) eqn:Hu; [|by split]. rewrite M. cbn [negb].
  unfold note_filter, is_neutralized. rewrite F. cbn [find_filter].
  destruct (existsb _ _) eqn:Hex; [by split|].
  destruct (signal_quiet ALERT_UNAUTHORIZED_KBD_FILTER c) as [Q1 Q2].
  set (c1 := LogAlert ALERT_UNAUTHORIZED_KBD_FILTER c) in *.
  assert (Hcnt : filter_count (InterlockedIncrement HwDiscrepancyCount c1) = s32 (filter_count c + 1)).
  { unfold filter_count in *. simpl. by rewrite fn_lookup_insert, Q2. }
  destruct (zlen (g_ReportedFilters h) <? MAX_REPORTED_FILTERS) eqn:Hlen; bool_props; cbn [fst snd].
  2:{ split; [change (KgEnforcing c1 = false); congruence|done..|lia]. }
  assert (Hz : zlen (g_ReportedFilters h ++ [cur]) = zlen (g_ReportedFilters h) + 1)
    by (unfold zlen; rewrite length_app; simpl; lia).
  split; cbn [MajorFn AttachedDevice g_NeutralizedFilters hw_writes g_ReportedFilters set_reported];
    [change (KgEnforcing c1 = false); congruence|done..| |].
  - split_and!; [|lia|by apply Forall_app_2; [|apply Forall_singleton]].
    apply NoDup_app. split_and!; [done| |apply NoDup_singleton].
    intros d Hd ->%list_elem_of_singleton. apply not_true_iff_false in Hex. apply Hex.
    apply existsb_exists. exists cur. split; [by apply list_elem_of_In|apply Z.eqb_refl].
  - intros _. rewrite Hcnt, Hz, C, s32_add_wrap by lia. f_equal. lia.
Qed.

End detect_only.

(** ** Where the stub sends a request *)
Section forwarding.
Context `{WinEnv, WinKernel, WinCpu, WinDevices}.

(** What the stub does for a device found with [lower] below it. *)
Definition passes_to (lower : Z) : irp_result :=
  if lower =? 0 then IrpCompleted STATUS_DEVICE_NOT_CONNECTED else IrpCallDriver lower.

Lemma find_relink dev lower l d :
  find_filter d (relink dev lower l)
  = (λ nf, if UnauthorizedDev nf =? dev
           then NeutralizedFilter dev lower (OriginalRead nf) (OriginalIntDc nf) (nfDriverName nf)
           else nf) <$> find_filter d l.
Proof.
  induction l as [|x l IH]; [done|]. cbn [relink find_filter].
  destruct (Z.eqb_spec (UnauthorizedDev x) dev) as [<-|Hd]; cbn [find_filter UnauthorizedDev].
  - destruct (Z.eqb_spec (UnauthorizedDev x) d) as [Hd2|Hd2].
    + cbn. by rewrite Z.eqb_refl.
    + assert (Hid : ∀ nf, find_filter d l = Some nf → UnauthorizedDev nf ≠ UnauthorizedDev x).
      { clear -Hd2. induction l as [|y l IH]; [done|]. cbn [find_filter]. intros nf.
        destruct (Z.eqb_spec (UnauthorizedDev y) d) as [<-|]; [by intros [= <-]|by apply IH]. }
      destruct (find_filter d l) as [nf|] eqn:E; [|done]. cbn.
      by rewrite (proj2 (Z.eqb_neq _ _)) by (by apply Hid).
  - destruct (UnauthorizedDev x =? d); [|done]. cbn. by rewrite (proj2 (Z.eqb_neq _ _) Hd).
Qed.

Lemma find_filter_app d l1 l2 :
  find_filter d (l1 ++ l2) = match find_filter d l1 with Some nf => Some nf | None => find_filter d l2 end.
Proof. induction l1 as [|x l1 IH]; [done|]. simpl. by destruct (_ =? d). Qed.

Lemma find_filter_dev d l nf : find_filter d l = Some nf → UnauthorizedDev nf = d.
Proof.
  induction l as [|x l IH]; [done|]. cbn [find_filter].
  destruct (Z.eqb_spec (UnauthorizedDev x) d) as [<-|]; [by intros [= <-]|done].
Qed.

(** Neutralising a device, with room for it. *)
Lemma neutralize_filters drv dev lower top h c :
  let h' := (NeutralizeKbdFilterDriver drv dev lower top h c).1.2 in
  zlen (g_NeutralizedFilters h) < MAX_NEUTRALIZED_FILTERS →
  NeutralizePassThroughDispatch dev h' = passes_to lower
  ∧ (∀ d, d ≠ dev → NeutralizePassThroughDispatch d h' = NeutralizePassThroughDispatch d h)
  ∧ zlen (g_NeutralizedFilters h') ≤ zlen (g_NeutralizedFilters h) + 1.
Proof.
  intros h' Hroom. subst h'. unfold NeutralizeKbdFilterDriver, NeutralizePassThroughDispatch, passes_to.
  destruct (find_filter dev (g_NeutralizedFilters h)) as [nf|] eqn:E.
  - cbn [fst snd g_NeutralizedFilters set_filters]. split_and!.
    + rewrite find_relink, E. cbn. by rewrite (find_filter_dev _ _ _ E), Z.eqb_refl.
    + intros d Hd. rewrite find_relink. destruct (find_filter d _) as [nf'|] eqn:E'; [|done]. cbn.
      by rewrite (find_filter_dev _ _ _ E'), (proj2 (Z.eqb_neq _ _) Hd).
    + assert (length (relink dev lower (g_NeutralizedFilters h)) = length (g_NeutralizedFilters h)) as Hl.
      { clear. induction (g_NeutralizedFilters h) as [|x l IH]; [done|]. simpl.
        destruct (_ =? dev); simpl; congruence. }
      unfold zlen. rewrite Hl. lia.
  - rewrite (proj2 (Z.leb_gt _ _)) by lia. cbn [fst snd].
    assert (Hf : ∀ h0 (b : bool) f, g_NeutralizedFilters (if b then set_attached f h0 else h0)
                 = g_NeutralizedFilters h0) by (by intros ? []).
    rewrite Hf. cbn [g_NeutralizedFilters set_filters].
    assert (Hm : ∀ b : bool, g_NeutralizedFilters (if b then h else
       set_major drv IRP_MJ_INTERNAL_DEVICE_CONTROL stub (set_major drv IRP_MJ_READ stub h))
       = g_NeutralizedFilters h) by (by intros []).
    rewrite Hm. split_and!.
    + rewrite find_filter_app, E. destruct (_ =? stub); cbn; by rewrite Z.eqb_refl.
    + intros d Hd. rewrite find_filter_app. destruct (find_filter d _); [done|].
      destruct (_ =? stub); cbn; by rewrite (proj2 (Z.eqb_neq dev d)) by done.
    + unfold zlen. rewrite length_app. simpl. lia.
Qed.

Lemma inspect_filters prev cur h c :
  KgEnforcing c = true → zlen (g_NeutralizedFilters h) < MAX_NEUTRALIZED_FILTERS →
  let h' := (inspect_device prev cur h c).1 in
  (unauthorized cur = true → NeutralizePassThroughDispatch cur h' = passes_to prev)
  ∧ (∀ d, d ≠ cur → NeutralizePassThroughDispatch d h' = NeutralizePassThroughDispatch d h)
  ∧ zlen (g_NeutralizedFilters h') ≤ zlen (g_NeutralizedFilters h) + 1.
Proof.
  intros He Hroom. unfold inspect_device. destruct (unauthorized cur); [|cbn; by split_and!; try lia].
  rewrite He. cbn [negb].
  assert (Hn : (note_filter cur true h).2 = h).
  { unfold note_filter. by destruct (is_neutralized cur h). }
  destruct (note_filter cur true h) as [a h1]. cbn [snd] in Hn. subst h1.
  match goal with |- context [NeutralizeKbdFilterDriver ?d ?v ?w ?t ?h0 ?c0] =>
    destruct (neutralize_filters d v w t h0 c0 Hroom) as (F1 & F2 & F3);
    destruct (NeutralizeKbdFilterDriver d v w t h0 c0) as [[? ?] ?] end.
  done.
Qed.
End forwarding.

(** ** Walking a stack under enforcement *)
Section walking.
Context `{WinEnv, WinKernel, WinCpu, WinDevices}.

(** The devices from [cur] up to the top, in order. *)
Fixpoint chain (att : Z → Z) (cur : Z) (ds : list Z) : Prop :=
  match ds with
  | [] => cur = 0
  | d :: ds => cur = d ∧ d ≠ 0 ∧ chain att (att d) ds
  end.

Lemma neutralize_keeps drv dev lower top h c :
  let r := NeutralizeKbdFilterDriver drv dev lower top h c in
  KgEnforcing r.2 = KgEnforcing c
  ∧ (top = false ∨ lower = 0 → AttachedDevice r.1.2 = AttachedDevice h).
Proof.
  unfold NeutralizeKbdFilterDriver. cbv zeta. destruct (find_filter dev _); [done|].
  destruct (_ <=? _); [done|]. split; cbn [fst snd].
  - set (c1 := LogAlert _ c). transitivity (KgEnforcing c1); [|apply signal_quiet].
    unfold DispatchCrossModuleEvent, DispatchWith, deliver, KgEnforcing. simpl.
    by destruct (SecureCommNotify_frame ALERT_KBD_FILTER_NEUTRALIZED 2 (u64 dev) 0 (tick c1)) as [[-> _] _].
  - intros [-> | ->]; [|rewrite andb_false_r]; by destruct (_ =? stub).
Qed.

Lemma inspect_keeps prev cur h c :
  KgEnforcing (inspect_device prev cur h c).2 = KgEnforcing c
  ∧ (AttachedDevice h cur ≠ 0 ∨ prev = 0 →
     AttachedDevice (inspect_device prev cur h c).1 = AttachedDevice h).
Proof.
  unfold inspect_device. destruct (negb _); [done|].
  destruct (note_filter_keeps cur (KgEnforcing c) h) as [l Hl].
  destruct (note_filter _ _ _) as [a h1]. simpl in Hl. subst h1.
  set (c1 := if a then c else _).
  assert (Hc1 : KgEnforcing c1 = KgEnforcing c).
  { unfold c1. destruct a; [done|].
    exact (proj1 (signal_quiet ALERT_UNAUTHORIZED_KBD_FILTER c)). }
  destruct (KgEnforcing c) eqn:He; [|done].
  match goal with |- context [NeutralizeKbdFilterDriver ?d ?v ?w ?t ?h0 ?c0] =>
    pose proof (neutralize_keeps d v w t h0 c0) as [N1 N2];
    destruct (NeutralizeKbdFilterDriver d v w t h0 c0) as [[st h2] c2] end.
  cbn [fst snd] in *. split; [congruence|]. intros Hor. apply N2.
  destruct Hor as [?|]; [left; by apply Z.eqb_neq|by right].
Qed.

Lemma walk_forwards ds fuel prev cur h c :
  chain (AttachedDevice h) cur ds → NoDup ds → (length ds ≤ fuel)%nat → KgEnforcing c = true →
  zlen (g_NeutralizedFilters h) + zlen ds ≤ MAX_NEUTRALIZED_FILTERS →
  ∃ h' c', walk_stack fuel prev cur h c = Some (h', c')
  ∧ (∀ i d, ds !! i = Some d → unauthorized d = true →
     NeutralizePassThroughDispatch d h' = passes_to ((prev :: ds) !!! i))
  ∧ ∀ d, d ∉ ds → NeutralizePassThroughDispatch d h' = NeutralizePassThroughDispatch d h.
Proof.
  revert fuel prev cur h c. induction ds as [|d ds IH]; intros fuel prev cur h c Hch Hnd Hf He Hroom.
  { cbn in Hch. subst cur. exists h, c. by destruct fuel. }
  destruct Hch as (-> & Hd0 & Hch). apply NoDup_cons in Hnd as [Hnin Hnd].
  destruct fuel as [|fuel]; cbn [length] in Hf; [lia|]. cbn [walk_stack].
  rewrite (proj2 (Z.eqb_neq d 0) Hd0). unfold zlen in *. cbn [length] in Hroom.
  destruct (inspect_filters prev d h c He) as (F1 & F2 & F3); [unfold zlen; lia|].
  destruct (inspect_keeps prev d h c) as [K1 K2].
  assert (Hlinks : chain (AttachedDevice (inspect_device prev d h c).1)
                     (AttachedDevice (inspect_device prev d h c).1 d) ds).
  { destruct ds as [|d1 ds].
    - cbn in *. by destruct (inspect_cut prev d h c d) as [->| ->].
    - destruct Hch as (Heq & Hne & Hch). rewrite K2 by (left; congruence). done. }
  destruct (inspect_device prev d h c) as [h1 c1]. cbn [fst snd] in *.
  destruct (IH fuel d (AttachedDevice h1 d) h1 c1) as (h2 & c2 & Hw & W1 & W2);
    [done|done|lia|congruence|unfold zlen in *; lia|].
  exists h2, c2. split_and!; [done| |].
  - intros [|i] x; cbn [lookup list_lookup]; intros Hx Hu.
    + injection Hx as ->. rewrite W2 by done. by apply F1.
    + exact (W1 i x Hx Hu).
  - intros x [Hxd Hx]%not_elem_of_cons. by rewrite W2, F2.
Qed.

(** A neutralised filter is bypassed: after an enforcing walk of a stack, listed from the
    device the walk starts at to the top, the stub passes every request an unauthorised device
    of the stack receives to the device just below it, and answers DEVICE_NOT_CONNECTED for
    the device the walk started at; other devices keep their routing.  The walk ends. *)
Theorem stub_forwards_below (ds : list Z) (dev : Z) (h : hw) (c : core) :
  chain (AttachedDevice h) dev ds → NoDup ds → (length ds ≤ stack_fuel)%nat →
  KgEnforcing c = true → zlen (g_NeutralizedFilters h) + zlen ds ≤ MAX_NEUTRALIZED_FILTERS →
  ∃ h' c', walk_stack stack_fuel 0 dev h c = Some (h', c')
  ∧ (∀ i d, ds !! i = Some d → unauthorized d = true →
     NeutralizePassThroughDispatch d h'
     = match i with
       | O => IrpCompleted STATUS_DEVICE_NOT_CONNECTED
       | S j => IrpCallDriver (ds !!! j)
       end)
  ∧ ∀ d, d ∉ ds → NeutralizePassThroughDispatch d h' = NeutralizePassThroughDispatch d h.
Proof.
  intros Hch Hnd Hf He Hroom.
  destruct (walk_forwards ds stack_fuel 0 dev h c Hch Hnd Hf He Hroom) as (h' & c' & Hw & W1 & W2).
  exists h', c'. split_and!; [done| |done]. intros i d Hi Hu. rewrite (W1 i d Hi Hu).
  destruct i as [|j]; [done|].
  assert (Hj : ∃ x, ds !! j = Some x) by (apply lookup_lt_is_Some; apply lookup_lt_Some in Hi; lia).
  destruct Hj as [x Hx]. assert (Hx0 : x ≠ 0).
  { clear -Hch Hx. revert j dev Hch Hx. induction ds as [|y ds IH]; intros [|j] dev Hch Hx; try done.
    - injection Hx as ->. by destruct Hch as (_ & ? & _).
    - destruct Hch as (_ & _ & Hch). by eapply IH. }
  change ((0 :: ds) !!! S j) with (ds !!! j). rewrite (list_lookup_total_correct _ _ _ Hx).
  unfold passes_to. by rewrite (proj2 (Z.eqb_neq x 0) Hx0).
Qed.

(** A walk that starts at the top of the stack, which is the device IoGetDeviceObjectPointer
    returns, sees that device only: if it is an unauthorised filter, its dispatch table is
    patched with nothing below to pass requests to, so every read and internal control request
    it receives is failed with DEVICE_NOT_CONNECTED; the device is not detached, and nothing
    else in the stack is looked at. *)
Theorem top_filter_cuts_keyboard (dev : Z) (h : hw) (c : core) :
  dev ≠ 0 → AttachedDevice h dev = 0 → unauthorized dev = true → KgEnforcing c = true →
  find_filter dev (g_NeutralizedFilters h) = None →
  zlen (g_NeutralizedFilters h) < MAX_NEUTRALIZED_FILTERS →
  ∃ h' c', walk_stack stack_fuel 0 dev h c = Some (h', c')
  ∧ MajorFn h' (DriverObject_of dev) IRP_MJ_READ = stub
  ∧ NeutralizePassThroughDispatch dev h' = IrpCompleted STATUS_DEVICE_NOT_CONNECTED
  ∧ AttachedDevice h' = AttachedDevice h
  ∧ (∀ d, d ≠ dev → NeutralizePassThroughDispatch d h' = NeutralizePassThroughDispatch d h)
  ∧ (∀ d m, d ≠ DriverObject_of dev → MajorFn h' d m = MajorFn h d m).
Proof.
  intros Hd Htop Hu He Hf Hroom. unfold stack_fuel. cbn [walk_stack].
  rewrite (proj2 (Z.eqb_neq dev 0) Hd).
  destruct (inspect_filters 0 dev h c He Hroom) as (F1 & F2 & _).
  destruct (inspect_keeps 0 dev h c) as [_ K2]. specialize (K2 (or_intror eq_refl)).
  assert (HM : ∀ d m, MajorFn (inspect_device 0 dev h c).1 d m
                 = if decide (d = DriverObject_of dev ∧ MajorFn h d IRP_MJ_READ ≠ stub ∧ patched_major m)
                   then stub else MajorFn h d m).
  { intros d m. unfold inspect_device. rewrite Hu, He. cbn [negb].
    unfold note_filter, is_neutralized, NeutralizeKbdFilterDriver. rewrite Hf, Hf.
    rewrite (proj2 (Z.leb_gt _ _)) by lia. rewrite andb_false_r. cbn [fst].
    destruct (Z.eqb_spec (MajorFn h (DriverObject_of dev) IRP_MJ_READ) stub) as [Es|Es]; cbn [MajorFn set_filters].
    - by rewrite decide_False by (intros (-> & ? & _); done).
    - etransitivity; [exact (patched_twice (DriverObject_of dev) h d m)|]. apply decide_ext.
      unfold patched_major. naive_solver. }
  destruct (inspect_device 0 dev h c) as [h' c']. cbn [fst snd] in *.
  exists h', c'. rewrite K2, Htop. split_and!; try done.
  - rewrite HM. case_decide as Hx; [done|]. destruct (decide (MajorFn h (DriverObject_of dev) IRP_MJ_READ = stub));
      [done|]. destruct Hx. split_and!; [done|done|by left].
  - by rewrite F1.
  - intros d m Hne. rewrite HM. by rewrite decide_False by naive_solver.
Qed.
End walking.

(** ** DMA *)
Section dma_theorems.
Context `{WinEnv, WinKernel, WinCpu, WinDevices}.

(** The DMA check always ends and, whatever the devices and the memory answer, touches no
    dispatch table, device link or table of the monitor; its writes clear the Present bit of
    a context entry, clear the bus-master bit of a command register, or are the two
    invalidation commands, and none is made while enforcement is off. *)
Theorem dma_writes_confined (h : hw) (c : core) :
  let '(h', c') := VtdVerifyDmaProtection h c in
  ∃ ws, h' = add_writes ws h
  ∧ Forall (λ w,
      (pw_width w = 8 ∧ Z.testbit (pw_value w) 0 = false)
      ∨ (∃ b d f, pw_addr w = ecam_address (g_EcamBase h) b d f 0x04 ∧ pw_width w = 2
         ∧ Z.testbit (pw_value w) 2 = false)) ws
  ∧ (KgEnforcing c = false → ws = [] ∧ KgEnforcing c' = false).
Proof.
  destruct (VtdVerify_step h c) as [(ws & Hw & HF) Hq].
  destruct (VtdVerifyDmaProtection h c) as [h' c']. cbn [fst snd] in *. subst h'.
  exists ws. split_and!; [done| |].
  - eapply Forall_impl; [exact HF|]. intros w [(a & v & ->)|[->|[(o & ->)|(b & d & f & cmd & ->)]]]; cbn [pw_width pw_value pw_addr].
    + left. split; [done|]. by rewrite Z.land_spec, andb_false_r.
    + by left.
    + by left.
    + right. exists b, d, f. split_and!; [done|done|]. by rewrite Z.land_spec, andb_false_r.
  - intros He. destruct (Hq He) as [Hh [Hc _]]. split; [|congruence]. apply (f_equal hw_writes) in Hh. simpl in Hh.
    rewrite <- (app_nil_r (hw_writes h)) in Hh at 2. by apply app_inv_head in Hh.
Qed.

(** The IOMMU flush is never started: neither command that VtdFlushIommu writes, whatever the
    capability register says, has bit 63, the one that starts an invalidation and that the
    polling waits for. *)
Theorem vtd_flush_not_requested (VtdRegs : Z) (h : hw) (c : core) :
  ∃ off, hw_writes (VtdFlushIommu VtdRegs h c).1
    = hw_writes h ++ [PhysWrite (VtdRegs + VTD_CCMD_REG) 8 VTD_CCMD_GLOBAL_INVAL;
                      PhysWrite (VtdRegs + off + 8) 8 VTD_IOTLB_GLOBAL_INVAL]
  ∧ Z.testbit VTD_CCMD_GLOBAL_INVAL 63 = false ∧ Z.testbit VTD_IOTLB_GLOBAL_INVAL 63 = false.
Proof.
  unfold VtdFlushIommu. cbn [phys_read fst hw_writes hw_write]. eexists.
  split_and!; [by rewrite <- app_assoc|done|done].
Qed.

(** With no VT-d base and no discovered device, as DriverEntry leaves them, the DMA check
    does nothing. *)
Lemma dma_check_inert h c :
  g_VtdMmioBase h = 0 → g_PciDevices h = [] → VtdVerifyDmaProtection h c = (h, c).
Proof. intros Hv Hd. unfold VtdVerifyDmaProtection, vtd_unavailable. by rewrite Hv, Hd. Qed.
End dma_theorems.

(** ** The bus walk, on configuration space that stands still *)
Section walk_spec.
Context `{WinEnv, WinKernel, WinCpu, WinDevices}.
Variable cfg : Z → list Z.                     (* the header at an address *)
Hypothesis mapped : ∀ t a n, MmMapIoSpace_at t a n = true.
Hypothesis still : ∀ t a, phys_at t a 64 = cfg a.

Definition header_at (base bus dev func : Z) : PCI_CONFIG_HEADER :=
  config_header (cfg (ecam_address base bus dev func 0)).

(** The functions of a device that answer; a single-function device has one. *)
Fixpoint answering (base bus dev : Z) (funcs : list Z) : list PCI_DISCOVERY_ENTRY :=
  match funcs with
  | [] => []
  | f :: funcs =>
    let hdr := header_at base bus dev f in
    if hVendorId hdr =? 0xFFFF then answering base bus dev funcs
    else discovery_entry bus dev f hdr
         :: (if (f =? 0) && negb (has (hHeaderType hdr) 0x80) then [] else answering base bus dev funcs)
  end.
Definition on_device (base bus dev : Z) : list PCI_DISCOVERY_ENTRY := answering base bus dev (seqZ 0 8).
Definition on_bus (base bus : Z) : list PCI_DISCOVERY_ENTRY := mjoin (on_device base bus <$> seqZ 0 32).

(** The table after [found] more devices: the first 512. *)
Definition table_of (h : hw) (found : list PCI_DISCOVERY_ENTRY) : hw :=
  set_devices (take 512 (g_PciDevices h ++ found)) h.

Definition walked (h : hw) (found : list PCI_DISCOVERY_ENTRY) (r : bool * hw * core) : Prop :=
  r.1.2 = table_of h found ∧ (r.1.1 = true → (512 ≤ length (g_PciDevices h ++ found))%nat).

Lemma table_of_nil h : (length (g_PciDevices h) ≤ 512)%nat → table_of h [] = h.
Proof. intros Hl. unfold table_of. rewrite app_nil_r, take_ge by lia. by destruct h. Qed.

Lemma table_of_app h a b : table_of (table_of h a) b = table_of h (a ++ b).
Proof.
  unfold table_of, set_devices. cbn. f_equal. rewrite app_assoc.
  destruct (decide (length (g_PciDevices h ++ a) ≤ 512)%nat).
  - by rewrite (take_ge (g_PciDevices h ++ a)).
  - rewrite (take_app_le (g_PciDevices h ++ a)) by lia. rewrite take_app_le by (rewrite length_take; lia).
    by rewrite take_take, Nat.min_id.
Qed.

Lemma table_of_more h a b :
  (512 ≤ length (g_PciDevices (table_of h a) ++ b))%nat → (512 ≤ length (g_PciDevices h ++ a ++ b))%nat.
Proof.
  unfold table_of. change (g_PciDevices (set_devices ?l h)) with l.
  rewrite !length_app, length_take, length_app. lia.
Qed.

Lemma table_of_bound h a : (length (g_PciDevices (table_of h a)) ≤ 512)%nat.
Proof. unfold table_of. change (g_PciDevices (set_devices ?l h)) with l. rewrite length_take. lia. Qed.

Lemma table_of_full h a b :
  (512 ≤ length (g_PciDevices h ++ a))%nat → table_of h (a ++ b) = table_of h a.
Proof. intros Hl. unfold table_of. by rewrite app_assoc, take_app_le. Qed.

Lemma ecam_read bus dev func h c :
  g_EcamBase h ≠ 0 →
  PciEcamRead bus dev func 0 64 h c = (inr (cfg (ecam_address (g_EcamBase h) bus dev func 0)), tick (tick c)).
Proof using mapped still.
  intros Hb. unfold PciEcamRead. rewrite (proj2 (Z.eqb_neq _ 0) Hb). cbn [MmMapIoSpace phys_read].
  by rewrite mapped, still.
Qed.

Lemma walk_functions_spec bus dev funcs h c :
  g_EcamBase h ≠ 0 → (length (g_PciDevices h) ≤ 512)%nat →
  walked h (answering (g_EcamBase h) bus dev funcs) (walk_functions bus dev funcs h c).
Proof using mapped still.
  revert h c. induction funcs as [|f funcs IH]; intros h c Hb Hl; cbn [walk_functions answering].
  { split; [symmetry; by apply table_of_nil|done]. }
  rewrite ecam_read by done. fold (header_at (g_EcamBase h) bus dev f).
  set (hdr := header_at _ _ _ _). destruct (hVendorId hdr =? 0xFFFF); [by apply IH|].
  unfold MAX_PCI_DEVICES, zlen. destruct (512 <=? Z.of_nat (length (g_PciDevices h))) eqn:E; bool_props.
  { split; cbn [fst snd].
    - unfold table_of. rewrite take_app_le by lia. rewrite take_ge by lia. by destruct h.
    - intros _. rewrite length_app. lia. }
  set (e := discovery_entry bus dev f hdr).
  assert (Hone : set_devices (g_PciDevices h ++ [e]) h = table_of h [e]).
  { unfold table_of. by rewrite take_ge by (rewrite length_app; simpl; lia). }
  destruct (_ && _).
  { by split. }
  rewrite Hone. destruct (IH (table_of h [e]) (tick (tick c))) as [R1 R2]; [done| |].
  { apply table_of_bound. }
  change (g_EcamBase (table_of h [e])) with (g_EcamBase h) in *. split.
  - rewrite R1, table_of_app. done.
  - intros Ht%R2. by apply (table_of_more h [e]).
Qed.

Lemma walked_step h a b r :
  (length (g_PciDevices h) ≤ 512)%nat → walked h a r →
  (r.1.1 = true → r.1.2 = table_of h (a ++ b)).
Proof. intros Hl [R1 R2] Ht. by rewrite R1, table_of_full by auto. Qed.

Lemma walk_devices_spec bus devs h c :
  g_EcamBase h ≠ 0 → (length (g_PciDevices h) ≤ 512)%nat →
  walked h (mjoin (on_device (g_EcamBase h) bus <$> devs)) (walk_devices bus devs h c).
Proof using mapped still.
  revert h c. induction devs as [|d devs IH]; intros h c Hb Hl; cbn [walk_devices].
  { split; [symmetry; by apply table_of_nil|done]. }
  rewrite join_fmap_cons. set (rest := mjoin _).
  pose proof (walk_functions_spec bus d (seqZ 0 8) h c Hb Hl) as Hw. fold (on_device (g_EcamBase h) bus d) in Hw.
  pose proof (walked_step h _ rest _ Hl Hw) as Hfull. destruct Hw as [R1 R2].
  destruct (walk_functions bus d (seqZ 0 8) h c) as [[[] h1] c1]; cbn [fst snd] in *.
  { split; [by apply Hfull|]. intros _. specialize (R2 eq_refl). rewrite !length_app in *. lia. }
  subst h1. destruct (IH (table_of h (on_device (g_EcamBase h) bus d)) c1) as [S1 S2]; [done| |].
  { apply table_of_bound. }
  change (g_EcamBase (table_of h _)) with (g_EcamBase h) in *. fold rest in S1, S2. split.
  - by rewrite S1, table_of_app.
  - intros Ht%S2. by apply table_of_more.
Qed.

Lemma walk_buses_spec buses h c :
  g_EcamBase h ≠ 0 → (length (g_PciDevices h) ≤ 512)%nat →
  (walk_buses buses h c).1 = table_of h (mjoin (on_bus (g_EcamBase h) <$> buses)).
Proof using mapped still.
  revert h c. induction buses as [|b buses IH]; intros h c Hb Hl; cbn [walk_buses].
  { symmetry. by apply table_of_nil. }
  rewrite join_fmap_cons. set (rest := mjoin _).
  pose proof (walk_devices_spec b (seqZ 0 32) h c Hb Hl) as Hw. fold (on_bus (g_EcamBase h) b) in Hw.
  pose proof (walked_step h _ rest _ Hl Hw) as Hfull. destruct Hw as [R1 _].
  destruct (walk_devices b (seqZ 0 32) h c) as [[[] h1] c1]; cbn [fst snd] in *; [by apply Hfull|].
  subst h1. rewrite IH; [|done|apply table_of_bound].
  by rewrite table_of_app.
Qed.

(** On configuration space that can be mapped and stands still, the bus walk finds exactly the
    functions that answer on buses 0 to 254, in order, the first 512 of them, one function only
    of a single-function device; bus 255 is never looked at. *)
Theorem bus_walk_correct (h : hw) (c : core) :
  g_EcamBase h ≠ 0 →
  let '(st, h', _) := PciWalkBusTree h c in
  st = STATUS_SUCCESS
  ∧ h' = set_devices (take 512 (mjoin (on_bus (g_EcamBase h) <$> seqZ 0 255))) h.
Proof using mapped still.
  intros Hb. unfold PciWalkBusTree. rewrite (proj2 (Z.eqb_neq _ 0) Hb).
  pose proof (walk_buses_spec (seqZ 0 255) (set_devices [] h) c Hb ltac:(simpl; lia)) as Hw.
  destruct (walk_buses _ _ _) as [h' c']. cbn [fst] in Hw. split; [done|]. by rewrite Hw.
Qed.
End walk_spec.
