(* ===== verification/WinMain.v ===== *)
(** * Loading, unloading and the device of the Windows driver
      (windows/src/driver_main.c)

    DriverEntry composes the modules in the order of the source and unwinds on
    an error; the device's requests are answered as the source answers them.
    The worker threads the modules start are the run functions of their files;
    the load itself is sequential. *)
From S2P Require Import Prelude Sha256 Uapi WinState WinComms WinMitigate WinRouter WinIntegrity WinPmu WinLoadGuard WinHw.
Local Open Scope Z_scope.

Record win := Win {
  wcore : core;
  wmit : mit;
  winteg : integ;
  whw : hw;
  wpmu : pmu;
  wlg : lg;
  device : bool;                  (* \Device\KernelGuard exists *)
  symlink : bool;                 (* \DosDevices\KernelGuard exists *)
  wired : bool                    (* DriverUnload and the dispatch table are set *)
}.

(** What the loader and the I/O manager answer. *)
Class WinBoot := {
  reg_Enforce : reg_value;
  reg_LockMode : reg_value;
  boot_pid : Z;                   (* the process DriverEntry runs in *)
  fresh_pool : list Z;            (* what the keyboard ring's pool block holds *)
  IoCreateDevice_at : nat → Z;
  IoCreateSymbolicLink_at : nat → Z
}.

(** ** Requests to the device *)
Definition CTL_CODE (DeviceType Function Method Access : Z) : Z :=
  Z.lor (Z.lor (Z.shiftl DeviceType 16) (Z.shiftl Access 14)) (Z.lor (Z.shiftl Function 2) Method).
Definition FILE_DEVICE_UNKNOWN : Z := 0x22.
Definition METHOD_BUFFERED : Z := 0.
Definition FILE_READ_ACCESS : Z := 1.
Definition IOCTL_KG_MAP_SHARED_MEM : Z := CTL_CODE FILE_DEVICE_UNKNOWN 0x800 METHOD_BUFFERED FILE_READ_ACCESS.
Definition IOCTL_KG_GET_HMAC_KEY : Z := CTL_CODE FILE_DEVICE_UNKNOWN 0x801 METHOD_BUFFERED FILE_READ_ACCESS.

(** The status and the bytes copied out to the caller. *)
Definition ScpdDispatchCreate : Z * list Z := (STATUS_SUCCESS, []).
Definition ScpdDispatchClose : Z * list Z := (STATUS_SUCCESS, []).

Definition ScpdDispatchIoControl (ioCode OutputBufferLength : Z) (mapping : Z + Z) (c : core) : Z * list Z :=
  if ioCode =? IOCTL_KG_MAP_SHARED_MEM then
    if OutputBufferLength <? 8 then (STATUS_BUFFER_TOO_SMALL, [])
    else match SecureCommMapToUserMode mapping c with
         | (st, Some userMapping) => (st, le_bytes 8 userMapping)
         | (st, None) => (st, [])
         end
  else if ioCode =? IOCTL_KG_GET_HMAC_KEY then
    if OutputBufferLength <? Z.of_nat HMAC_KEY_SIZE then (STATUS_BUFFER_TOO_SMALL, [])
    else (STATUS_SUCCESS, g_HmacKey c)
  else (STATUS_INVALID_DEVICE_REQUEST, []).

Section entry.
Context `{WinEnv, WinKernel, WinCpu, WinDevices, WinApic, WinFiles, WinBoot}.

(** ** Unload *)
Definition ScpdDriverUnload (w : win) : win :=
  let l := DriverLoadGuardUninitialize (wlg w) in
  let c := SecureCommUninitialize (wcore w) in
  let '(p, c) := PmuUninitialize (wpmu w) c in
  let h := HwKeyloggerUninitialize (whw w) in
  let s := KernelIntegrityUninitialize (winteg w) in
  let '(m, c) := CacheMitigationUninitialize (wmit w) c in
  Win c m s h p l false false (wired w).

(** ** Load *)
Definition zero_shared : DRIVER_SHARED_STATE :=
  DriverSharedState (PolicyBlock 0 0 0 0) false true (replicate 32 0) (λ _, 0).
Definition reset_vtd (h : hw) : hw :=
  Hw (MajorFn h) (AttachedDevice h) (g_NeutralizedFilters h) (g_ReportedFilters h)
     (g_HwMonitorThread h) (g_PciDevices h) (g_EcamBase h) 0 (hw_writes h).

(** Steps 6 and 7 and the end; the unwinding of the modules is the caller's. *)
Definition create_device (c : core) : Z * bool * core :=
  let st := IoCreateDevice_at (clock c) in
  let c := tick c in
  if negb (NT_SUCCESS st) then (st, false, c) else
  let st := IoCreateSymbolicLink_at (clock c) in
  (st, NT_SUCCESS st, tick c).

Definition DriverEntry (RegistryPath : option (list Z)) (w : win) : option (Z * win) :=
  let c := set_shared zero_shared (wcore w) in
  let h := reset_vtd (whw w) in
  let c := KgLoadPolicy RegistryPath reg_Enforce reg_LockMode c in
  let '(st, m, c) := CacheMitigationInitialize boot_pid fresh_pool (wmit w) c in
  if negb (NT_SUCCESS st) then
    Some (st, Win c m (winteg w) h (wpmu w) (wlg w) (device w) (symlink w) (wired w)) else
  let '(st, s, c) := KernelIntegrityInitialize (winteg w) c in
  if negb (NT_SUCCESS st) then
    let '(m, c) := CacheMitigationUninitialize m c in
    Some (st, Win c m s h (wpmu w) (wlg w) (device w) (symlink w) (wired w)) else
  '(_, h, c) ← HwKeyloggerInitialize h c;
  let '(_, p, c) := PmuInitialize (wpmu w) c in
  let '(st, c) := SecureCommInitialize c in
  if negb (NT_SUCCESS st) then
    let '(p, c) := PmuUninitialize p c in
    let s := KernelIntegrityUninitialize s in
    let '(m, c) := CacheMitigationUninitialize m c in
    Some (st, Win c m s h p (wlg w) (device w) (symlink w) (wired w)) else
  let '(_, l, c) := DriverLoadGuardInitialize RegistryPath (wlg w) c in
  let '(st, ok, c) := create_device c in
  if negb ok then
    let l := DriverLoadGuardUninitialize l in
    let c := SecureCommUninitialize c in
    let '(p, c) := PmuUninitialize p c in
    let s := KernelIntegrityUninitialize s in
    let '(m, c) := CacheMitigationUninitialize m c in
    Some (st, Win c m s h p l (device w) (symlink w) (wired w)) else
  let c := UpdateSharedStateHash c in
  Some (STATUS_SUCCESS, Win c m s h p l true true true).
End entry.

(** ** What the stops leave alone *)
Definition chan_frame (c c' : core) : Prop :=
  g_SharedMemKernel c' = g_SharedMemKernel c ∧ g_HmacKey c' = g_HmacKey c.
#[export] Instance chan_frame_preorder : PreOrder chan_frame.
Proof. split; [done|]. intros a b c [? ?] [? ?]. split; congruence. Qed.

Section frames.
Context `{WinEnv, WinKernel, WinCpu, WinDevices, WinApic, WinFiles, WinBoot}.

Lemma fold_frame {A} (f : A * core → Z → A * core) l x :
  (∀ y i, chan_frame y.2 (f y i).2) → chan_frame x.2 (foldl f x l).2.
Proof.
  intros Hf. revert x. induction l as [|i l IH]; intros x; [done|]. simpl. etrans; [apply Hf|apply IH].
Qed.

Lemma PmuIpi_frame p c : chan_frame c (PmuIpiConfigureCpu p c).2.
Proof. apply (fold_frame _ _ (p, c)). by intros [q d] i. Qed.

Lemma PmuUninitialize_frame p c : chan_frame c (PmuUninitialize p c).2.
Proof.
  unfold PmuUninitialize. pose proof (PmuIpi_frame p c) as Hi.
  destruct (PmuIpiConfigureCpu p c) as [p1 c1]. etrans; [exact Hi|].
  apply (fold_frame _ _ (p1, c1)). by intros [q d] i.
Qed.

Lemma untag_frame fuel pfn i l c : chan_frame c (untag_loop fuel pfn i l c).2.
Proof.
  revert i l c. induction fuel as [|fuel IH]; intros i l c; [done|]. cbn [untag_loop].
  destruct (l !! i), (last l); try done. destruct (_ =? pfn); [|apply IH]. etrans; [|apply IH]. done.
Qed.

Lemma SensFreePool_frame ptr m c : chan_frame c (SensFreePool ptr m c).2.
Proof.
  unfold SensFreePool. destruct ptr as [ptr|]; [|done].
  match goal with |- context [untag_loop ?f ?p ?i ?l ?c0] =>
    pose proof (untag_frame f p i l c0) as Hu; destruct (untag_loop f p i l c0) as [l' c'] end.
  done.
Qed.

Lemma CacheMitigationUninitialize_frame m c : chan_frame c (CacheMitigationUninitialize m c).2.
Proof.
  unfold CacheMitigationUninitialize.
  set (r := match g_KbdRingBuffer m with None => _ | Some _ => _ end).
  assert (Hr : chan_frame c r.2).
  { unfold r. destruct (g_KbdRingBuffer m) as [[ptr b]|]; [|done].
    pose proof (SensFreePool_frame (Some ptr) m c) as Hs. by destruct (SensFreePool (Some ptr) m c). }
  destruct r as [m1 c1]. cbn [snd] in *. etrans; [exact Hr|].
  destruct (Enabled _); [|done]. generalize (seqZ 0 KeQueryMaximumProcessorCountEx). intros l.
  clear. revert c1. induction l as [|i l IH]; intros c1; [done|]. simpl. etrans; [|apply IH]. done.
Qed.

(** The channel after it was closed and the modules below it stopped. *)
Lemma closed_after_stops m p c :
  let c1 := SecureCommUninitialize c in
  let '(_, c2) := PmuUninitialize p c1 in
  let '(_, c3) := CacheMitigationUninitialize m c2 in
  g_SharedMemKernel c3 = None ∧ g_HmacKey c3 = replicate HMAC_KEY_SIZE 0.
Proof.
  cbv zeta. pose proof (PmuUninitialize_frame p (SecureCommUninitialize c)) as [P1 P2].
  destruct (PmuUninitialize p _) as [p' c2]. cbn [snd] in *.
  pose proof (CacheMitigationUninitialize_frame m c2) as [M1 M2].
  destruct (CacheMitigationUninitialize m c2) as [m' c3]. cbn [snd] in *.
  split; [by rewrite M1, P1|by rewrite M2, P2].
Qed.

(** A start of the channel that failed left none. *)
Lemma SecureCommInitialize_cases c :
  let '(st, c') := SecureCommInitialize c in
  if NT_SUCCESS st then chan c' [] 0 else g_SharedMemKernel c' = None.
Proof.
  unfold SecureCommInitialize. destruct (contiguous_at (clock c)); [|done]. cbn [negb].
  destruct (mdl_at _); [|done]. cbn [negb bcrypt]. cbv iota.
  destruct (NT_SUCCESS (bcrypt_at _ BcGenRandom)) eqn:E; cbn [negb]; [|by rewrite E].
  exists zero_region. split; [done|apply ring_log_zero].
Qed.

Lemma hw_init_total h c :
  stacks_end (AttachedDevice h) →
  ∃ st h1 c1, HwKeyloggerInitialize h c = Some (st, h1, c1)
  ∧ (NT_SUCCESS st = true → g_HwMonitorThread h1 = true).
Proof.
  intros He. unfold HwKeyloggerInitialize. change (NT_SUCCESS PciGetEcamBaseFromAcpi) with false. cbv iota.
  destruct (detect_ind (λ _ _, True) ltac:(done) ltac:(done) (set_reported [] (set_filters [] h)) c He I)
    as (h1 & c1 & -> & _). cbn [mbind option_bind].
  destruct (VtdVerifyDmaProtection h1 c1) as [h2 c2].
  destruct (NT_SUCCESS (PsCreateSystemThread_at (clock c2))) eqn:E; cbn [negb];
    (do 3 eexists; split; [done|]); [done|congruence].
Qed.

(** ** The load guard publishes the audit and nothing else when it starts *)
Definition audit_entries (es : list (Z * Z * Z * Z)) : Prop :=
  es = [] ∨ ∃ level weak raw, es = [(ALERT_LOAD_POLICY, level, weak, raw)].

Lemma load_guard_effect `{!BCryptWorks} path l c :
  ∃ es, effect c (DriverLoadGuardInitialize path l c).2 es ∧ audit_entries es.
Proof.
  assert (Hcl : ∀ t c, effect c (at_time t c) []) by (intros; by apply effect_quiet).
  assert (Hb : ∃ t, (LgLoadBuiltin l c).2 = at_time t c).
  { unfold LgLoadBuiltin. repeat case_match; by eexists. }
  assert (Hl : ∀ s c, ∃ t, (LgLoadList path s c).2 = at_time t c).
  { intros s c0. unfold LgLoadList. destruct (pool_at _ _); by eexists. }
  assert (Hcb : ∀ l c, ∃ t, (LgCollectBaseline l c).2 = at_time t c).
  { intros l0 c0. unfold LgCollectBaseline. destruct (aux_bytes _) as [st bytes].
    destruct (_ || _); [by eexists|]. destruct (pool_at _ _); [|by eexists].
    destruct (pool_at _ _); [|by eexists]. destruct (auxklib_at _); by eexists. }
  unfold DriverLoadGuardInitialize. destruct Hb as [t1 Hb].
  destruct (LgLoadBuiltin l c) as [l1 c1]. cbn [snd] in Hb. subst c1.
  destruct (Hl deny_strings (at_time t1 c)) as [t2 Ht2]. destruct (LgLoadList _ _ _) as [deny c2].
  cbn [snd] in Ht2. subst c2. destruct (Hl allow_strings (at_time t2 (at_time t1 c))) as [t3 Ht3].
  destruct (LgLoadList _ _ _) as [allow c3]. cbn [snd] in Ht3. subst c3.
  destruct (pool_at _ _); [|eexists; split; [by apply (Hcl (S t3) c)|by left]].
  destruct (negb _); [eexists; split; [by apply (Hcl (S (S t3)) c)|by left]|].
  match goal with |- context [LgCollectBaseline ?x ?d] =>
    destruct (Hcb x d) as [t4 Ht4]; destruct (LgCollectBaseline x d) as [l5 c5] end.
  cbn [snd] in *. subst c5. unfold LgAuditLoadPolicy.
  match goal with |- context [LogAlert ALERT_LOAD_POLICY ?d] =>
    assert (Hq : effect c d []) by (by apply effect_quiet); revert Hq; generalize d end.
  intros d Hq. eexists. split.
  - eapply (effect_trans _ d _ [] _ Hq). eapply (effect_report ALERT_LOAD_POLICY); [apply effect_refl|apply signal_failsafe|done].
  - right. by do 3 eexists.
Qed.
End frames.

(** ** Loading *)
Section loading.
Context `{WinEnv, WinKernel, WinCpu, WinDevices, WinApic, WinFiles, WinBoot}.

(** A loaded driver: its device, its worker, its seal, and a channel that holds the audit of
    the load policy and nothing from the scans before it. *)
Record loaded (w : win) : Prop := {
  ld_device : device w = true ∧ symlink w = true ∧ wired w = true;
  ld_worker : thread (winteg w) = true;
  ld_sealed : (VerifySharedStateIntegrity (wcore w)).1 = true;
  ld_channel : ∃ log, chan (wcore w) log 0 ∧ Forall (authentic (g_HmacKey (wcore w))) log
               ∧ audit_entries (content <$> log)
}.

(** What a failed load leaves: nothing of its own but, once step 3 was reached, the keyboard
    monitor as its start left it. *)
Record unwound (w w' : win) : Prop := {
  uw_device : device w' = device w ∧ symlink w' = symlink w ∧ wired w' = wired w;
  uw_worker : thread (winteg w') = false;
  uw_guard : g_LgInitialised (wlg w') = false;
  uw_hw : whw w' = reset_vtd (whw w)
          ∨ ∃ st c1 c2, HwKeyloggerInitialize (reset_vtd (whw w)) c1 = Some (st, whw w', c2)
            ∧ (NT_SUCCESS st = true → g_HwMonitorThread (whw w') = true)
            ∧ g_SharedMemKernel (wcore w') = None
}.

Lemma integrity_init_thread s c :
  thread s = false →
  let '(st, s', _) := KernelIntegrityInitialize s c in thread s' = NT_SUCCESS st.
Proof.
  intros Hs. unfold KernelIntegrityInitialize.
  assert (Hb : thread (BuildIntegrityBaseline s c).1.2 = false).
  { unfold BuildIntegrityBaseline. repeat case_match; simplify_eq; done. }
  destruct (BuildIntegrityBaseline s c) as [[st s1] c1]. cbn [fst snd] in Hb.
  destruct (NT_SUCCESS st) eqn:E; cbn [negb]; [|congruence]. cbn [KeGetCurrentProcessorIndex].
  destruct (NT_SUCCESS (PsCreateSystemThread_at _)) eqn:E2; cbn [negb]; [done|congruence].
Qed.

Lemma guard_uninit l : g_LgInitialised (DriverLoadGuardUninitialize l) = false.
Proof. unfold DriverLoadGuardUninitialize. by destruct (g_LgInitialised l) eqn:E. Qed.

Lemma sealed_after_update `{!BCryptWorks} c : (VerifySharedStateIntegrity (UpdateSharedStateHash c)).1 = true.
Proof.
  rewrite VerifySharedStateIntegrity_works. destruct (UpdateSharedStateHash_works c) as [n ->]. simpl.
  by apply ConstantTimeMemEq_correct; [apply bcrypt_sha256_bytes..|].
Qed.

Lemma update_keeps_channel `{!BCryptWorks} c log lag :
  chan c log lag → chan (UpdateSharedStateHash c) log lag ∧ g_HmacKey (UpdateSharedStateHash c) = g_HmacKey c.
Proof. intros Hc. by destruct (UpdateSharedStateHash_works c) as [n ->]. Qed.

(** The unwinding after the channel was started. *)
Lemma unwound_after w h1 c1 c2 st m s p l c r :
  thread s = true → HwKeyloggerInitialize (reset_vtd (whw w)) c1 = Some (st, h1, c2) →
  (NT_SUCCESS st = true → g_HwMonitorThread h1 = true) → g_SharedMemKernel c = None → r = c →
  g_LgInitialised l = false →
  unwound w (Win (CacheMitigationUninitialize m (PmuUninitialize p r).2).2
                 (CacheMitigationUninitialize m (PmuUninitialize p r).2).1
                 (KernelIntegrityUninitialize s) h1 (PmuUninitialize p r).1 l
                 (device w) (symlink w) (wired w)).
Proof.
  intros Hs Hh Hth Hc -> Hl. split; cbn; try done. right. exists st, c1, c2. split_and!; [done|done|].
  destruct (PmuUninitialize_frame p c) as [P1 _].
  destruct (CacheMitigationUninitialize_frame m (PmuUninitialize p c).2) as [M1 _].
  by rewrite M1, P1.
Qed.


(** Unloading undoes the load: every dispatch table the monitor patched is back, every worker
    is stopped, the load guard has released its tables and takes no more callbacks, the shared
    memory is gone with the key overwritten, and the device and its link are deleted. *)
Theorem unload_releases (MF0 : Z → Z → Z) (w : win) :
  clean_tables MF0 → tables_inv MF0 (whw w) →
  let w' := ScpdDriverUnload w in
  (∀ d m, MajorFn (whw w') d m = MF0 d m)
  ∧ g_HwMonitorThread (whw w') = false ∧ thread (winteg w') = false
  ∧ g_LgInitialised (wlg w') = false
  ∧ (g_LgInitialised (wlg w) = true → lg_released (wlg w') ∧ g_LgThread (wlg w') = false)
  ∧ g_SharedMemKernel (wcore w') = None ∧ g_HmacKey (wcore w') = replicate HMAC_KEY_SIZE 0
  ∧ device w' = false ∧ symlink w' = false.
Proof.
  intros Hc Hi w'. subst w'. unfold ScpdDriverUnload.
  pose proof (closed_after_stops (wmit w) (wpmu w) (wcore w)) as Hcl. cbv zeta in Hcl |- *.
  destruct (PmuUninitialize _ _) as [p c2]. destruct (CacheMitigationUninitialize _ _) as [m c3].
  destruct Hcl as [Hk1 Hk2].
  cbn [whw winteg wlg wcore device symlink]. split_and!; try done.
  - intros d mj. unfold HwKeyloggerUninitialize. eapply restore_all_tables; [done|apply Hi|].
    destruct (ti_table _ _ Hi d mj) as [?|(? & ? & ?)]; [by left|by right].
  - unfold HwKeyloggerUninitialize. assert (Hf : ∀ l h, g_HwMonitorThread h = false →
      g_HwMonitorThread (foldl (λ h nf, restore_entry nf h) h l) = false); [|by apply Hf].
    induction l as [|nf l IH]; intros h Hh; [done|]. simpl. apply IH.
    unfold restore_entry, set_major. repeat case_match; done.
  - apply guard_uninit.
  - intros Hl. unfold DriverLoadGuardUninitialize. by rewrite Hl.
Qed.
End loading.

(** Requests to the device, every case: the key goes out only for IOCTL_KG_GET_HMAC_KEY with
    room for its 32 bytes, a mapping only for IOCTL_KG_MAP_SHARED_MEM with room for a pointer and
    a channel; a request that fails copies nothing out. *)
Theorem device_request_table (ioCode len : Z) (mapping : Z + Z) (c : core) :
  let '(st, out) := ScpdDispatchIoControl ioCode len mapping c in
  if ioCode =? 0x226000 then
    if len <? 8 then st = STATUS_BUFFER_TOO_SMALL ∧ out = []
    else if negb (g_SharedMemMdl c) then st = STATUS_INVALID_PARAMETER ∧ out = []
    else match mapping with
         | inl code => st = code ∧ out = []
         | inr va => if va =? 0 then st = STATUS_INSUFFICIENT_RESOURCES ∧ out = []
                     else st = STATUS_SUCCESS ∧ out = le_bytes 8 va
         end
  else if ioCode =? 0x226004 then
    if len <? 32 then st = STATUS_BUFFER_TOO_SMALL ∧ out = []
    else st = STATUS_SUCCESS ∧ out = g_HmacKey c
  else st = STATUS_INVALID_DEVICE_REQUEST ∧ out = [].
Proof.
  unfold ScpdDispatchIoControl, SecureCommMapToUserMode.
  change IOCTL_KG_MAP_SHARED_MEM with 0x226000. change IOCTL_KG_GET_HMAC_KEY with 0x226004.
  change (Z.of_nat HMAC_KEY_SIZE) with 32.
  destruct (ioCode =? 0x226000).
  - destruct (len <? 8); [done|]. destruct (negb _); [done|].
    destruct mapping as [code|va]; [done|]. by destruct (va =? 0).
  - destruct (ioCode =? 0x226004); [|done]. by destruct (len <? 32).
Qed.
