(* ===== verification/WinMonitor.v ===== *)
(** * The Windows monitor's connection to the driver (windows/usermode/driver_comm.c)

    Opening and closing the device, the decoding of a notification for display, and the
    poll thread that reads the driver's ring and checks each HMAC.  What is done with the
    alerts it hands on is WinTray.v. *)
From S2P Require Import Prelude Text Sha256 Uapi WinState WinComms WinMitigate WinRouter WinLoadGuard.
Local Open Scope Z_scope.

Record ALERT_RECORD := AlertRecord {
  LocalTime : list Z;              (* hour, minute, second, milliseconds *)
  aAlertType : Z;
  aAlertLevel : Z;
  aParam1 : Z;
  aParam2 : Z;
  aSequenceNumber : Z;
  HmacValid : bool;
  TypeText : list Z;
  Details : list Z
}.

#[export] Instance ALERT_RECORD_inhabited : Inhabited ALERT_RECORD :=
  populate (AlertRecord [] 0 0 0 0 0 false [] []).

(** ** Decoding *)
Definition AlertTypeText (alertType : Z) : list Z :=
      if alertType =? ALERT_PMU_L1D_ANOMALY then bytes_of "L1D Cache Attack Pattern"
    else if alertType =? ALERT_PMU_L2_ANOMALY then bytes_of "L2 Cache Attack Pattern"
    else if alertType =? ALERT_PMU_RDTSC_RATE then bytes_of "Timing Reconnaissance (RDTSC)"
    else if alertType =? ALERT_UNAUTHORIZED_KBD_FILTER then bytes_of "Unauthorized Keyboard Filter"
    else if alertType =? ALERT_UNAUTHORIZED_DMA then bytes_of "Unauthorized DMA Access"
    else if alertType =? ALERT_PCI_DISCREPANCY then bytes_of "PCIe Device Discrepancy"
    else if alertType =? ALERT_IDT_HOOK then bytes_of "IDT Hook Detected"
    else if alertType =? ALERT_DISPATCH_HOOK then bytes_of "Driver Dispatch Hook"
    else if alertType =? ALERT_TEXT_PATCH then bytes_of "Kernel .text Patched"
    else if alertType =? ALERT_MODULE_LOADED then bytes_of "Driver Loaded (unexpected)"
    else if alertType =? ALERT_VULN_DRIVER then bytes_of "Vulnerable Driver Loaded"
    else if alertType =? ALERT_DRIVER_BLOCKED then bytes_of "Driver Load Blocked"
    else if alertType =? ALERT_LOAD_POLICY then bytes_of "Driver Load Policy"
    else if alertType =? ALERT_SHARED_STATE_CORRUPT then bytes_of "Driver State Corrupted"
    else if alertType =? ALERT_FAIL_SAFE_ENTERED then bytes_of "CRITICAL: Fail-Safe Mode"
    else bytes_of "Unknown Alert".

(** A character below space or above '~' that is not the terminator. *)
Definition printable_or_mark (b : Z) : Z :=
  if negb (b =? 0) && ((b <? 0x20) || (0x7E <? b)) then 63 else b.
Definition UnpackName (p1 p2 : Z) : list Z :=
  (printable_or_mark <$> le_bytes 8 p1 ++ le_bytes 8 p2) ++ [0].

(** A C string in a buffer. *)
Definition AlertLevelText (level : Z) : list Z :=
  if level =? 0 then bytes_of "Info" else if level =? 1 then bytes_of "Warning" else bytes_of "CRITICAL".

Definition alert_details (n : SECURE_NOTIFICATION) : list Z :=
  let t := AlertType n in
  let p1 := Param1 n in
  let p2 := Param2 n in
  if t =? ALERT_PMU_RDTSC_RATE then
    bytes_of "PID: " ++ fmt_u p1 ++ bytes_of "  count: " ++ fmt_u p2
  else if t =? ALERT_UNAUTHORIZED_DMA then
    bytes_of "Bus:" ++ fmt_X 2 (Z.land (u32 (Z.shiftr p1 16)) 0xFF) ++ bytes_of " Dev:"
    ++ fmt_X 2 (Z.land (u32 (Z.shiftr p1 8)) 0xFF) ++ bytes_of " Func:"
    ++ fmt_X 1 (Z.land (u32 p1) 0xFF) ++ bytes_of "  Domain=" ++ fmt_u p2
  else if (t =? ALERT_IDT_HOOK) || (t =? ALERT_DISPATCH_HOOK) then
    bytes_of "Handler: 0x" ++ fmt_X 16 p1 ++ bytes_of "  vector/func: " ++ fmt_u p2
  else if t =? ALERT_TEXT_PATCH then
    bytes_of "Base: 0x" ++ fmt_X 16 p1 ++ bytes_of "  Size: 0x" ++ fmt_X 1 p2
  else if (t =? ALERT_MODULE_LOADED) || (t =? ALERT_VULN_DRIVER) || (t =? ALERT_DRIVER_BLOCKED) then
    bytes_of "name: " ++ [34] ++ c_string (UnpackName p1 p2) ++ [34]
  else if t =? ALERT_LOAD_POLICY then
    (if p1 =? 0 then bytes_of "all on" else bytes_of "weak:")
    ++ (if has p1 KG_LP_TESTSIGNING then bytes_of " test-signing/CI-off" else [])
    ++ (if has p1 KG_LP_NO_HVCI then bytes_of " HVCI-off" else [])
    ++ (if has p1 KG_LP_NO_BLOCKLIST then bytes_of " blocklist-disabled" else [])
  else bytes_of "Param1: 0x" ++ fmt_X 1 p1 ++ bytes_of "  Param2: 0x" ++ fmt_X 1 p2.

(** The globals of driver_comm.c. *)
Record drvcomm := DrvComm {
  s_Device : bool;
  s_SharedMem : bool;
  s_HmacKey : list Z;
  s_HmacKeyValid : bool;
  s_PollThread : bool;
  s_StopEvent : bool;
  s_Callback : bool
}.

Section monitor.
Context `{WinEnv}.

(** CNG in the monitor's process; [t] is the time of its first call. *)
Definition HmacSha256Verify (s : drvcomm) (t : nat) (data expected : list Z) : bool :=
  if negb (s_HmacKeyValid s) then false
  else if negb (NT_SUCCESS (bcrypt_at t BcOpen)) then false
  else if negb (NT_SUCCESS (bcrypt_at (S t) BcCreate)) then false
  else if negb (NT_SUCCESS (bcrypt_at (S (S t)) BcHashData)) then false
  else if negb (NT_SUCCESS (bcrypt_at (S (S (S t))) BcFinish)) then false
  else ct_diff 32 (bcrypt_hmac (s_HmacKey s) data) expected 0 =? 0.

(** [now] is what GetLocalTime answers. *)
Definition DriverComm_FormatAlert (s : drvcomm) (now : list Z) (t : nat) (n : SECURE_NOTIFICATION) :
    ALERT_RECORD :=
  AlertRecord now (AlertType n) (AlertLevel n) (Param1 n) (Param2 n) (SequenceNumber n)
    (HmacSha256Verify s t (notification_bytes n) (Hmac n))
    (truncate 64 (AlertTypeText (AlertType n))) (truncate 128 (alert_details n)).

(** ** The poll thread

    [mem t] is the region as the thread finds it when it looks at a slot; [now t] the
    local time then.  What it hands to the callback, and its cursor. *)
Fixpoint poll_loop (fuel : nat) (s : drvcomm) (mem : nat → SHARED_MEM_REGION) (now : nat → list Z)
    (t : nat) (writeIdx localRead : Z) : option (list ALERT_RECORD * Z) :=
  if localRead =? writeIdx then Some ([], localRead) else
  match fuel with
  | O => None
  | S fuel =>
    let slot := localRead mod NOTIFICATION_SLOTS in
    let n := Notifications (mem t) !!! Z.to_nat slot in
    '(rest, cursor) ← poll_loop fuel s mem now (t + 4) writeIdx (u32 (localRead + 1));
    if (Magic n =? NOTIFY_MAGIC) && (SequenceNumber n =? localRead)
    then Some (DriverComm_FormatAlert s (now t) t n :: rest, cursor)
    else Some (rest, cursor)
  end.

(** One time-out of the wait. *)
Definition PollThreadProc (s : drvcomm) (mem : nat → SHARED_MEM_REGION) (now : nat → list Z) (t : nat)
    (localRead : Z) : option (list ALERT_RECORD * Z) :=
  if negb (s_SharedMem s) then Some ([], localRead) else
  let writeIdx := WriteIndex (mem t) in
  '(alerts, cursor) ← poll_loop (Z.to_nat (u32 (writeIdx - localRead))) s mem now t writeIdx localRead;
  Some (if s_Callback s then alerts else [], cursor).

(** ** The connection: the answers to the open and the two requests *)
Definition DriverComm_Open (opened : bool) (key : option (list Z)) (mapping : option Z) (s : drvcomm) :
    bool * drvcomm :=
  if negb opened then (false, DrvComm false (s_SharedMem s) (s_HmacKey s) (s_HmacKeyValid s)
                                      (s_PollThread s) (s_StopEvent s) (s_Callback s)) else
  let '(k, valid) := match key with
                     | Some k => (k, bool_decide (length k = HMAC_KEY_SIZE))
                     | None => (s_HmacKey s, false)
                     end in
  match mapping with
  | Some va => if va =? 0
               then (false, DrvComm false (s_SharedMem s) k valid (s_PollThread s) (s_StopEvent s) (s_Callback s))
               else (true, DrvComm true true k valid (s_PollThread s) (s_StopEvent s) (s_Callback s))
  | None => (false, DrvComm false (s_SharedMem s) k valid (s_PollThread s) (s_StopEvent s) (s_Callback s))
  end.

Definition DriverComm_StopPolling (s : drvcomm) : drvcomm :=
  DrvComm (s_Device s) (s_SharedMem s) (s_HmacKey s) (s_HmacKeyValid s) false false (s_Callback s).

Definition DriverComm_Close (s : drvcomm) : drvcomm :=
  let s := DriverComm_StopPolling s in
  DrvComm false false (replicate HMAC_KEY_SIZE 0) false (s_PollThread s) (s_StopEvent s) (s_Callback s).

Definition DriverComm_StartPolling (event thread : bool) (s : drvcomm) : bool * drvcomm :=
  if s_PollThread s then (true, s)
  else if negb event then
    (false, DrvComm (s_Device s) (s_SharedMem s) (s_HmacKey s) (s_HmacKeyValid s) false false true)
  else (thread, DrvComm (s_Device s) (s_SharedMem s) (s_HmacKey s) (s_HmacKeyValid s) thread thread true).

Definition DriverComm_IsConnected (s : drvcomm) : bool := s_Device s.
End monitor.

(** ** The ring as the poll thread finds it *)
Section polling.
Context `{WinEnv}.

(** The slot of entry [i]: entry [i] itself while it is among the last sixteen. *)
Lemma ring_slot r log lag i :
  ring_log r log lag → 0 ≤ i < zlen log → zlen log < 4294967296 →
  let n := Notifications r !!! Z.to_nat (i mod 16) in
  if bool_decide (zlen log - 16 ≤ i) then log !! Z.to_nat i = Some n ∧ Magic n = NOTIFY_MAGIC ∧ SequenceNumber n = i
  else SequenceNumber n ≠ i.
Proof.
  intros Hr Hi Hlen n. unfold zlen in *.
  assert (Hentry : ∀ j, 0 ≤ j < Z.of_nat (length log) → Z.of_nat (length log) - 16 ≤ j → j mod 16 = i mod 16 →
            log !! Z.to_nat j = Some n ∧ Magic n = NOTIFY_MAGIC ∧ SequenceNumber n = j).
  { intros j Hj Hlast Hmod. destruct (lookup_lt_is_Some_2 log (Z.to_nat j)) as [m Hm]; [lia|].
    pose proof (rl_entry _ _ _ Hr _ _ Hm) as He. rewrite Z2Nat.id, Hmod in He by lia.
    unfold zlen in He. specialize (He ltac:(lia)). unfold n. rewrite (list_lookup_total_correct _ _ _ He).
    destruct (rl_sequence _ _ _ Hr _ _ Hm) as [Hs Hmg]. rewrite Z2Nat.id, u32_id in Hs by (unfold is_u32; lia).
    done. }
  case_bool_decide as Hlast; [by apply Hentry|].
  pose (j := i + 16 * ((Z.of_nat (length log) - 1 - i) / 16)).
  assert (Hj : Z.of_nat (length log) - 16 ≤ j < Z.of_nat (length log)) by (unfold j; Z.div_mod_to_equations; lia).
  destruct (Hentry j) as (_ & _ & ->); [lia|lia| |lia]. unfold j. rewrite Z.mul_comm. apply Z_mod_plus_full.
Qed.

Definition poll_range (log : list SECURE_NOTIFICATION) (from upto : Z) : list SECURE_NOTIFICATION :=
  take (Z.to_nat (upto - from)) (drop (Z.to_nat from) log).

Lemma poll_range_empty log from upto : upto ≤ from → poll_range log from upto = [].
Proof. intros Hle. unfold poll_range. by replace (Z.to_nat (upto - from)) with 0%nat by lia. Qed.

Lemma poll_range_cons log i upto n :
  0 ≤ i < upto → log !! Z.to_nat i = Some n → poll_range log i upto = n :: poll_range log (i + 1) upto.
Proof.
  intros Hi Hn. unfold poll_range. rewrite (drop_S _ n) by done.
  replace (Z.to_nat (upto - i)) with (S (Z.to_nat (upto - (i + 1)))) by lia. simpl.
  by replace (S (Z.to_nat i)) with (Z.to_nat (i + 1)) by lia.
Qed.

Lemma poll_loop_delivers s r now log lag fuel t i upto :
  ring_log r log lag → zlen log < 4294967296 → 0 ≤ i ≤ upto → upto ≤ zlen log →
  (Z.to_nat (upto - i) ≤ fuel)%nat →
  ∃ alerts, poll_loop fuel s (λ _, r) now t upto i = Some (alerts, upto)
  ∧ Forall2 (λ a n, ∃ t', a = DriverComm_FormatAlert s (now t') t' n) alerts
            (poll_range log (Z.max i (zlen log - 16)) upto).
Proof.
  intros Hr Hlen. revert t i. induction fuel as [|fuel IH]; intros t i Hi Hup Hf; cbn [poll_loop];
    (destruct (Z.eqb_spec i upto) as [->|Hne];
      [exists []; split; [done|]; rewrite poll_range_empty by lia; constructor|]).
  { lia. }
  assert (Hi32 : is_u32 (i + 1)) by (unfold is_u32; lia). rewrite (u32_id _ Hi32).
  destruct (IH (t + 4)%nat (i + 1)) as (rest & Hl & HF); [lia|lia|lia|]. rewrite Hl. cbn [mbind option_bind].
  unfold NOTIFICATION_SLOTS. pose proof (ring_slot r log lag i Hr ltac:(lia) Hlen) as Hslot.
  set (n := Notifications r !!! Z.to_nat (i mod 16)) in *. cbv zeta in Hslot. case_bool_decide as Hlast.
  - destruct Hslot as (Hn & -> & ->). rewrite !Z.eqb_refl. cbn [andb]. eexists. split; [done|].
    rewrite (Z.max_l i) by lia. rewrite (poll_range_cons _ _ _ n) by (done || lia).
    rewrite (Z.max_l (i + 1)) in HF by lia. constructor; [by eexists|done].
  - rewrite (proj2 (Z.eqb_neq _ _) Hslot), andb_false_r. exists rest. split; [done|].
    rewrite (Z.max_r i) by lia. by rewrite (Z.max_r (i + 1)) in HF by lia.
Qed.

Lemma HmacSha256Verify_authentic `{!BCryptWorks} s t n :
  s_HmacKeyValid s = true → authentic (s_HmacKey s) n →
  HmacSha256Verify s t (notification_bytes n) (Hmac n) = true.
Proof.
  intros Hk Ha. unfold HmacSha256Verify. rewrite Hk, !bcrypt_ok. cbn [negb].
  rewrite Ha. apply (ConstantTimeMemEq_correct _ _ 32); [apply bcrypt_hmac_bytes..|done].
Qed.

(** One poll of the Windows monitor against the log of everything the driver wrote: it ends and
    hands to the callback, in order, exactly the entries from its cursor up to the write index
    that are still in the ring, each marked valid if the driver computed its HMAC under the key
    the monitor holds; entries already overwritten are skipped, and the cursor becomes the write
    index.  The write index stays [lag] entries behind, one for every HMAC the driver ever failed
    to compute, so those entries wait, and once sixteen have failed nothing is delivered. *)
Theorem poll_delivers_log `{!BCryptWorks} (s : drvcomm) (r : SHARED_MEM_REGION) (now : nat → list Z)
    (log : list SECURE_NOTIFICATION) (lag : Z) (t : nat) (cursor : Z) :
  ring_log r log lag → zlen log < 4294967296 → 0 ≤ lag ≤ zlen log - cursor → 0 ≤ cursor →
  s_SharedMem s = true → s_Callback s = true → s_HmacKeyValid s = true →
  ∃ alerts, PollThreadProc s (λ _, r) now t cursor = Some (alerts, zlen log - lag)
  ∧ Forall2 (λ a n, (∃ t', a = DriverComm_FormatAlert s (now t') t' n)
                    ∧ (authentic (s_HmacKey s) n → HmacValid a = true))
            alerts (poll_range log (Z.max cursor (zlen log - 16)) (zlen log - lag))
  ∧ (16 ≤ lag → alerts = []).
Proof.
  intros Hr Hlen Hlag Hcur Hm Hcb Hk. unfold PollThreadProc. rewrite Hm, Hcb. cbn [negb].
  rewrite (rl_index _ _ _ Hr), (u32_id (zlen log - lag)) by (unfold is_u32; lia).
  destruct (poll_loop_delivers s r now log lag (Z.to_nat (u32 (zlen log - lag - cursor))) t cursor
              (zlen log - lag) Hr Hlen) as (alerts & -> & HF); [lia|lia| |].
  { rewrite u32_id by (unfold is_u32; lia). done. }
  exists alerts. cbn [mbind option_bind]. split_and!; [done| |].
  - eapply Forall2_impl; [exact HF|]. intros a n (t' & ->). split; [by eexists|].
    intros Ha. by apply HmacSha256Verify_authentic.
  - intros Hl. rewrite poll_range_empty in HF by lia. by inversion HF.
Qed.
End polling.

(** ** Driver names travel in the two parameters *)
Lemma le_bytes_val n l : length l = n → Forall is_u8 l → le_bytes n (le_val l) = l.
Proof.
  revert l. induction n as [|n IH]; intros [|b l] Hl HF; try done. apply Forall_cons in HF as [Hb HF].
  cbn [le_bytes le_val]. unfold is_u8 in Hb.
  replace ((b + 256 * le_val l) mod 256) with b by (Z.div_mod_to_equations; lia).
  replace ((b + 256 * le_val l) / 256) with (le_val l) by (Z.div_mod_to_equations; lia).
  f_equal. apply IH; [by injection Hl|done].
Qed.

Lemma ascii_or_mark_range ch : 0x20 ≤ ascii_or_mark ch < 0x7F.
Proof. unfold ascii_or_mark. destruct (_ && _) eqn:E; bool_props; lia. Qed.

Lemma pack_bytes_ok Name : length (pack_bytes Name) = 16%nat ∧ Forall is_u8 (pack_bytes Name).
Proof.
  unfold pack_bytes. split.
  - rewrite length_app, length_replicate, length_fmap, length_take. lia.
  - apply Forall_app. split.
    + apply Forall_fmap, Forall_true. intros ch. pose proof (ascii_or_mark_range ch). unfold is_u8. simpl. lia.
    + apply Forall_replicate. unfold is_u8. lia.
Qed.

(** A driver's file name survives the trip from the load guard through Param1 and Param2 to the
    monitor's screen: unpacking what LgPackName packed shows the first sixteen characters, each
    one that is not printable ASCII replaced by a question mark, and nothing else. *)
Theorem packed_name_shown (Name : list Z) :
  let '(p1, p2) := LgPackName Name in
  c_string (UnpackName p1 p2) = ascii_or_mark <$> take 16 Name.
Proof.
  unfold LgPackName, UnpackName. destruct (pack_bytes_ok Name) as [Hl Hu].
  rewrite !le_bytes_val; [|by rewrite length_drop, Hl|by apply Forall_drop
                          |by rewrite length_take, Hl|by apply Forall_take].
  rewrite take_drop. unfold pack_bytes. rewrite fmap_app, fmap_replicate. change (printable_or_mark 0) with 0.
  generalize (take 16 Name). intros l.
  assert (Hz : ∀ k, c_string (replicate k 0 ++ [0]) = []) by (by intros []).
  rewrite <- app_assoc. set (k := (16 - _)%nat). clearbody k.
  induction l as [|ch l IH]; [apply Hz|]. rewrite !fmap_cons.
  pose proof (ascii_or_mark_range ch) as Hr.
  assert (Hp : printable_or_mark (ascii_or_mark ch) = ascii_or_mark ch).
  { unfold printable_or_mark. destruct (_ && _) eqn:E; [|done]. bool_props.
    match goal with Ho : _ ∨ _ |- _ => destruct Ho end; bool_props; lia. }
  rewrite Hp. cbn [app c_string]. rewrite (proj2 (Z.eqb_neq _ 0)) by lia. by rewrite IH.
Qed.

(** ** From an alert in the driver to the monitor's callback *)
Section end_to_end.
Context `{WinEnv, WinKernel}.

Definition shown (a : ALERT_RECORD) : Z * Z * Z * Z := (aAlertType a, aAlertLevel a, aParam1 a, aParam2 a).

Lemma routed_entries_bound t l p1 p2 fs es :
  t ≠ ALERT_PCI_DISCREPANCY →
  routed_entries t l p1 p2 fs es = routed_entries t l p1 p2 fs [] ∧ (length (routed_entries t l p1 p2 fs []) ≤ 3)%nat.
Proof.
  intros Ht. unfold routed_entries. rewrite (proj2 (Z.eqb_neq _ _) Ht).
  destruct (is_tamper t), (t =? ALERT_SHARED_STATE_CORRUPT), ((t =? ALERT_VULN_DRIVER) && (2 <=? l)), fs;
    (split; [done|simpl; lia]).
Qed.

Lemma shown_all `{!BCryptWorks} s now alerts ns :
  s_HmacKeyValid s = true → Forall (authentic (s_HmacKey s)) ns →
  Forall2 (λ a n, ∃ t', a = DriverComm_FormatAlert s (now t') t' n) alerts ns →
  shown <$> alerts = content <$> ns ∧ Forall (λ a, HmacValid a = true) alerts.
Proof.
  intros Hk Ha. induction 1 as [|a n alerts ns (t' & ->) _ IH]; [by split|].
  apply Forall_cons in Ha as [Hn Ha]. destruct (IH Ha) as [E F]. split.
  - rewrite !fmap_cons, E. done.
  - constructor; [by apply HmacSha256Verify_authentic|done].
Qed.

(** C2 — An alert raised in the driver at PASSIVE_LEVEL reaches the monitor: with a working CNG, a
    channel whose index is not behind, and a monitor that has read everything so far and holds
    the key, the next poll hands the callback exactly the entries the routing table gives for the
    alert, in order, every one with a valid HMAC, and leaves the monitor up to date again. *)
Theorem win_alert_end_to_end `{!BCryptWorks} (t l p1 p2 : Z) (c : core) (log : list SECURE_NOTIFICATION)
    (s : drvcomm) (now : nat → list Z) (tm : nat) :
  chan c log 0 → zlen log + 3 < 4294967296 → t ≠ ALERT_PCI_DISCREPANCY →
  s_SharedMem s = true → s_Callback s = true → s_HmacKeyValid s = true → s_HmacKey s = g_HmacKey c →
  let c' := DispatchCrossModuleEvent PASSIVE_LEVEL t l p1 p2 c in
  ∃ r alerts log', g_SharedMemKernel c' = Some r ∧ chan c' log' 0
  ∧ PollThreadProc s (λ _, r) now tm (zlen log) = Some (alerts, zlen log')
  ∧ shown <$> alerts = routed_entries t l p1 p2 (FailSafeMode (g_SharedState c)) []
  ∧ Forall (λ a, HmacValid a = true) alerts.
Proof.
  intros Hc Hlen Ht Hm Hcb Hk Hkey c'.
  destruct (effect_dispatch t l p1 p2 c) as (es & [L _ _ _ _ _ _] & _).
  destruct (L log 0 Hc) as (ns & (r & Hr & Hring) & Hct & Ha). fold c' in Hr.
  destruct (routed_entries_bound t l p1 p2 (FailSafeMode (g_SharedState c)) es Ht) as [He Hb].
  rewrite He in Hct. assert (Hns : (length ns ≤ 3)%nat) by (rewrite <- (length_fmap content), Hct; done).
  exists r. unfold PollThreadProc. rewrite Hm, Hcb. cbn [negb].
  assert (Hz : zlen (log ++ ns) = zlen log + zlen ns) by (unfold zlen; rewrite length_app; lia).
  rewrite (rl_index _ _ _ Hring), Z.sub_0_r, (u32_id (zlen (log ++ ns))) by (unfold is_u32, zlen in *; lia).
  destruct (poll_loop_delivers s r now (log ++ ns) 0 (Z.to_nat (u32 (zlen (log ++ ns) - zlen log))) tm (zlen log)
              (zlen (log ++ ns)) Hring) as (alerts & -> & HF); [unfold zlen in *; lia..| |].
  { rewrite u32_id by (unfold is_u32, zlen in *; lia). done. }
  exists alerts, (log ++ ns). cbn [mbind option_bind].
  assert (Hrange : poll_range (log ++ ns) (Z.max (zlen log) (zlen (log ++ ns) - 16)) (zlen (log ++ ns)) = ns).
  { rewrite Z.max_l by (unfold zlen in *; lia). unfold poll_range, zlen. rewrite Nat2Z.id, drop_app_length.
    apply take_ge. rewrite length_app. lia. }
  rewrite Hrange in HF. rewrite <- Hkey in Ha.
  destruct (shown_all s now alerts ns Hk Ha HF) as [E F].
  split_and!; [done|by exists r|done|congruence|done].
Qed.
End end_to_end.

(** The three enforcement alerts the driver dispatches have no text of their own. *)
Lemma enforcement_alerts_unnamed :
  Forall (λ t, AlertTypeText t = bytes_of "Unknown Alert")
    [ALERT_KBD_FILTER_NEUTRALIZED; ALERT_DMA_BLOCKED_IOMMU; ALERT_DEVICE_BME_DISABLED].
Proof. by repeat constructor. Qed.
