(* ===== verification/WinTray.v ===== *)
(** * The Windows tray application (windows/usermode/main.c, log_window.c)

    The event log, the tray icon, the log dialog and the save file, the procedures of the
    two windows, the callback of the poll thread, and WinMain with its pump.

    Both windows belong to the thread of WinMain, so the messages posted to them wait in one
    queue.  The calls on the shell are a list ([shell]): what was asked of it, in order, each
    with the notification data as it stood.  The answers of the system (memory, room in the
    queue, the file dialog) are a class, read at the number of the call.  Copies of alert
    records on the heap are counted.  Menus and message boxes are recorded when they open;
    the loop they run until they close dispatches messages the way the pump does. *)
From S2P Require Import Prelude Text WinState WinComms WinMonitor.
Local Open Scope Z_scope.

(** ** Constants *)
Definition IDI_TRAY_NORMAL : Z := 101.
Definition IDI_TRAY_ALERT : Z := 102.
Definition ID_TRAY_OPEN_LOG : Z := 201.
Definition ID_TRAY_CLEAR_LOG : Z := 202.
Definition ID_TRAY_ABOUT : Z := 203.
Definition ID_TRAY_EXIT : Z := 204.
Definition IDC_CLEAR_BTN : Z := 302.
Definition IDC_SAVE_BTN : Z := 303.
Definition IDCANCEL : Z := 2.
Definition IDI_ERROR : Z := 32513.
Definition IDI_SHIELD : Z := 32518.
Definition NIF_MESSAGE : Z := 0x01.
Definition NIF_ICON : Z := 0x02.
Definition NIF_TIP : Z := 0x04.
Definition NIF_INFO : Z := 0x10.
Definition NIF_SHOWTIP : Z := 0x80.
Definition NIIF_INFO : Z := 1.
Definition NIIF_WARNING : Z := 2.
Definition NIIF_ERROR : Z := 3.
Definition NIIF_NOSOUND : Z := 0x10.
Definition WM_CONTEXTMENU : Z := 0x007B.
Definition WM_LBUTTONDBLCLK : Z := 0x0203.
Definition WM_RBUTTONUP : Z := 0x0205.
Definition NIN_BALLOONUSERCLICK : Z := 0x0405.
Definition EVENTLOG_ERROR_TYPE : Z := 1.
Definition EVENTLOG_WARNING_TYPE : Z := 2.
Definition EVENTLOG_INFORMATION_TYPE : Z := 4.
Definition KG_EVT_MONITOR_STARTED : Z := 900.
Definition KG_EVT_MONITOR_STOPPED : Z := 901.
Definition KG_EVT_DRIVER_NOT_FOUND : Z := 902.
Definition KG_EVT_ALERT_BASE : Z := 1000.
Definition KG_EVT_HMAC_FAILED : Z := 1999.
Definition STORED_MAX : Z := 512.
Definition LOWORD (w : Z) : Z := u16 w.

(** ** State *)

(** The messages the dialog and the message window handle; the rest goes to the default
    procedures. *)
Inductive dlg_msg :=
  | DlgInit
  | DlgNewAlert (a : ALERT_RECORD)
  | DlgCommand (wParam : Z)
  | DlgSize (right bottom : Z)                  (* the client area *)
  | DlgClose.
Inductive wnd_msg :=
  | WM_TASKBAR_CREATED
  | WM_CREATE
  | WM_DESTROY
  | WM_TRAY_ICON (lParam : Z)
  | WM_NEW_ALERT (a : ALERT_RECORD)
  | WM_COMMAND (wParam : Z)
  | WM_NULL.
Inductive posted := ToWnd (m : wnd_msg) | ToDlg (m : dlg_msg).

(** The fields of the notification data that change, or that a call reads. *)
Record NOTIFYICONDATAW := Nid {
  uFlags : Z;
  hIcon : Z;
  szTip : list Z;
  szInfoTitle : list Z;
  szInfo : list Z;
  dwInfoFlags : Z
}.
Inductive shell_call :=
  | NIM_ADD (n : NOTIFYICONDATAW)
  | NIM_SETVERSION
  | NIM_MODIFY (n : NOTIFYICONDATAW)
  | NIM_DELETE.

Record tray := Tray {
  g_Nid : NOTIFYICONDATAW;
  g_AlertActive : bool;
  g_TotalAlerts : Z;
  shell : list shell_call
}.

Record logwin := LogWin {
  s_hDlg : bool;
  dlg_shown : bool;
  columns : list (list Z * Z);
  rows : list (list (list Z));
  status_text : list Z;
  layout : list (list Z);                       (* of the list, two buttons and status text *)
  s_Stored : list ALERT_RECORD;
  s_StoredCount : Z;
  s_AlertCount : Z
}.

Record app := App {
  g_hMsgWnd : bool;
  the_tray : tray;
  the_log : logwin;
  g_hEventLog : bool;
  events : list (Z * Z * list Z);               (* type, identifier, text *)
  queue : list posted;
  heap : nat;                                   (* live copies of alert records *)
  quit : bool;
  menus : list bool;                            (* each menu shown: is Clear Log enabled *)
  boxes : list (list Z);                        (* message boxes, by title *)
  files : list (list Z * list Z);               (* path and content of each saved log *)
  calls : nat                                   (* calls on the system so far *)
}.

Definition set_the_tray (t : tray) (a : app) : app :=
  App (g_hMsgWnd a) t (the_log a) (g_hEventLog a) (events a) (queue a) (heap a) (quit a) (menus a) (boxes a)
      (files a) (calls a).
Definition set_the_log (l : logwin) (a : app) : app :=
  App (g_hMsgWnd a) (the_tray a) l (g_hEventLog a) (events a) (queue a) (heap a) (quit a) (menus a) (boxes a)
      (files a) (calls a).
Definition set_events (h : bool) (e : list (Z * Z * list Z)) (a : app) : app :=
  App (g_hMsgWnd a) (the_tray a) (the_log a) h e (queue a) (heap a) (quit a) (menus a) (boxes a) (files a) (calls a).
Definition set_queue (q : list posted) (a : app) : app :=
  App (g_hMsgWnd a) (the_tray a) (the_log a) (g_hEventLog a) (events a) q (heap a) (quit a) (menus a) (boxes a)
      (files a) (calls a).
Definition set_heap (n : nat) (a : app) : app :=
  App (g_hMsgWnd a) (the_tray a) (the_log a) (g_hEventLog a) (events a) (queue a) n (quit a) (menus a) (boxes a)
      (files a) (calls a).
Definition set_window (h q : bool) (a : app) : app :=
  App h (the_tray a) (the_log a) (g_hEventLog a) (events a) (queue a) (heap a) q (menus a) (boxes a) (files a) (calls a).
Definition opened (m : list bool) (b : list (list Z)) (a : app) : app :=
  App (g_hMsgWnd a) (the_tray a) (the_log a) (g_hEventLog a) (events a) (queue a) (heap a) (quit a) (menus a ++ m)
      (boxes a ++ b) (files a) (calls a).
Definition add_file (f : list Z * list Z) (a : app) : app :=
  App (g_hMsgWnd a) (the_tray a) (the_log a) (g_hEventLog a) (events a) (queue a) (heap a) (quit a) (menus a) (boxes a)
      (files a ++ [f]) (calls a).
Definition tick (a : app) : app :=
  App (g_hMsgWnd a) (the_tray a) (the_log a) (g_hEventLog a) (events a) (queue a) (heap a) (quit a) (menus a) (boxes a)
      (files a) (S (calls a)).

(** What the system answers to the n-th call. *)
Class Desktop := {
  heap_room : nat → bool;                       (* HeapAlloc *)
  post_room : nat → bool;                       (* PostMessageW *)
  menu_loads : nat → bool;                      (* LoadMenuW *)
  save_name : nat → option (list Z);            (* GetSaveFileNameW *)
  file_created : nat → bool                     (* CreateFileW *)
}.

(** ** The event log *)
Definition EventLog_Open (registered : bool) (a : app) : app := set_events registered (events a) a.
Definition EventLog_Close (a : app) : app := set_events false (events a) a.

Definition EventLog_WriteText (type eventId : Z) (text : list Z) (a : app) : app :=
  if g_hEventLog a then set_events true (events a ++ [(type, eventId, text)]) a else a.

Definition EventLog_WriteAlert (x : ALERT_RECORD) (a : app) : app :=
  if negb (HmacValid x) then
    EventLog_WriteText EVENTLOG_ERROR_TYPE KG_EVT_HMAC_FAILED
      (truncate 512 (bytes_of "Notification " ++ fmt_u (aSequenceNumber x)
        ++ bytes_of " failed HMAC verification; its content was ignored. It may have been forged or tampered with.")) a
  else
    let type := if 2 <=? aAlertLevel x then EVENTLOG_ERROR_TYPE
                else if aAlertLevel x =? 1 then EVENTLOG_WARNING_TYPE else EVENTLOG_INFORMATION_TYPE in
    EventLog_WriteText type (u32 (KG_EVT_ALERT_BASE + aAlertType x))
      (truncate 512 (TypeText x ++ bytes_of ": " ++ Details x ++ bytes_of " (sequence "
        ++ fmt_u (aSequenceNumber x) ++ bytes_of ", level " ++ fmt_u (aAlertLevel x) ++ bytes_of ")")) a.

(** ** The tray icon *)

(** app.rc defines no icons, so a resource icon is never found and the system's is used. *)
Definition app_icons : list Z := [].
Definition LoadIconW (id fallback : Z) : Z := if bool_decide (id ∈ app_icons) then id else fallback.
Definition normal_icon : Z := LoadIconW IDI_TRAY_NORMAL IDI_SHIELD.
Definition alert_icon : Z := LoadIconW IDI_TRAY_ALERT IDI_ERROR.

(** The dash is U+2014, the warning sign U+26A0. *)
Definition tip_prefix : list Z := bytes_of "KernelGuard Monitor " ++ [0x2014].
Definition monitoring_tip : list Z := tip_prefix ++ bytes_of " Monitoring".

Definition modify (n : NOTIFYICONDATAW) (t : tray) : tray :=
  Tray n (g_AlertActive t) (g_TotalAlerts t) (shell t ++ [NIM_MODIFY n]).

Definition TrayIcon_Add (t : tray) : tray :=
  let n := g_Nid t in
  let n := Nid (Z.lor (Z.lor NIF_ICON NIF_MESSAGE) (Z.lor NIF_TIP NIF_SHOWTIP)) normal_icon
               (truncate 128 monitoring_tip) (szInfoTitle n) (szInfo n) (dwInfoFlags n) in
  Tray n (g_AlertActive t) (g_TotalAlerts t) (shell t ++ [NIM_ADD n; NIM_SETVERSION]).

Definition TrayIcon_Remove (t : tray) : tray :=
  Tray (g_Nid t) (g_AlertActive t) (g_TotalAlerts t) (shell t ++ [NIM_DELETE]).

Definition TrayIcon_SetAlert (alert : bool) (t : tray) : tray :=
  let n := g_Nid t in
  let n := Nid NIF_ICON (if alert then alert_icon else normal_icon) (szTip n) (szInfoTitle n) (szInfo n)
               (dwInfoFlags n) in
  Tray n alert (g_TotalAlerts t) (shell t ++ [NIM_MODIFY n]).

Definition TrayIcon_ShowBalloon (title text : list Z) (infoFlags : Z) (t : tray) : tray :=
  let n := g_Nid t in
  modify (Nid NIF_INFO (hIcon n) (szTip n) (truncate 64 title) (truncate 256 text) (Z.lor infoFlags NIIF_NOSOUND)) t.

Definition total_tip (total : Z) : list Z :=
  truncate 128 (if total =? 0 then tip_prefix ++ bytes_of " No alerts"
                else tip_prefix ++ [32] ++ fmt_u total ++ bytes_of " alert(s)").
Definition TrayIcon_UpdateTip (t : tray) : tray :=
  let n := g_Nid t in
  modify (Nid NIF_TIP (hIcon n) (total_tip (g_TotalAlerts t)) (szInfoTitle n) (szInfo n) (dwInfoFlags n)) t.

Definition set_total (total : Z) (t : tray) : tray := Tray (g_Nid t) (g_AlertActive t) total (shell t).
Definition on_tray (f : tray → tray) (a : app) : app := set_the_tray (f (the_tray a)) a.

(** ** The log window: what it shows and saves *)
Definition time_field (a : ALERT_RECORD) (i : nat) : list Z := fmt_02d (LocalTime a !!! i).
Definition level_name (level : Z) : list Z := if level <? 3 then AlertLevelText level else bytes_of "???".
Definition hmac_name (a : ALERT_RECORD) : list Z := if HmacValid a then bytes_of "OK" else bytes_of "FAIL".

Definition InitListView : list (list Z * Z) :=
  [(bytes_of "Time", 100); (bytes_of "Level", 60); (bytes_of "Alert Type", 180); (bytes_of "HMAC", 50);
   (bytes_of "Details", 300)].

Definition AddAlertToList (a : ALERT_RECORD) : list (list Z) :=
  let ms := fmt_u (LocalTime a !!! 3%nat) in
  [truncate 32 (time_field a 0 ++ [58] ++ time_field a 1 ++ [58] ++ time_field a 2 ++ [46]
                ++ replicate (3 - length ms) 48 ++ ms);
   level_name (aAlertLevel a); TypeText a; hmac_name a; Details a].

(** The records SaveLog prints, in the order of the lines. *)
Definition saved_records (l : logwin) : list ALERT_RECORD :=
  (λ i, s_Stored l !!! Z.to_nat (i mod STORED_MAX)) <$> seqZ 0 (s_StoredCount l).

Definition save_line (a : ALERT_RECORD) : list Z :=
  let c := [44] in
  time_field a 0 ++ [58] ++ time_field a 1 ++ [58] ++ time_field a 2 ++ c ++ level_name (aAlertLevel a) ++ c
  ++ TypeText a ++ c ++ hmac_name a ++ c ++ fmt_u (aSequenceNumber a) ++ c
  ++ bytes_of "0x" ++ fmt_X 16 (aParam1 a) ++ c ++ bytes_of "0x" ++ fmt_X 16 (aParam2 a) ++ c
  ++ Details a ++ [13; 10].

Definition log_header : list Z :=
  [0xEF; 0xBB; 0xBF] ++ bytes_of "Time,Level,AlertType,HMAC,Seq,Param1,Param2,Details" ++ [13; 10].
(** A line that does not fit in 512 bytes is left out. *)
Definition saved_text (l : logwin) : list Z :=
  log_header ++ (saved_records l ≫= λ a, if zlen (save_line a) <? 512 then save_line a else []).

Definition set_shown (s : bool) (l : logwin) : logwin :=
  LogWin (s_hDlg l) s (columns l) (rows l) (status_text l) (layout l) (s_Stored l) (s_StoredCount l) (s_AlertCount l).
Definition set_columns (c : list (list Z * Z)) (l : logwin) : logwin :=
  LogWin (s_hDlg l) (dlg_shown l) c (rows l) (status_text l) (layout l) (s_Stored l) (s_StoredCount l) (s_AlertCount l).
Definition set_layout (p : list (list Z)) (l : logwin) : logwin :=
  LogWin (s_hDlg l) (dlg_shown l) (columns l) (rows l) (status_text l) p (s_Stored l) (s_StoredCount l) (s_AlertCount l).
Definition set_log (r : list (list (list Z))) (st : list Z) (s : list ALERT_RECORD) (n : Z) (l : logwin) : logwin :=
  LogWin (s_hDlg l) (dlg_shown l) (columns l) r st (layout l) s n (s_AlertCount l).
Definition on_log (f : logwin → logwin) (a : app) : app := set_the_log (f (the_log a)) a.

(** LogDlgProc, WM_NEW_ALERT without the free, IDC_CLEAR_BTN and WM_SIZE (x, y, width, height). *)
Definition log_alert (x : ALERT_RECORD) (l : logwin) : logwin :=
  let r := rows l ++ [AddAlertToList x] in
  set_log r (truncate 64 (bytes_of "Total alerts: " ++ fmt_u (zlen r)))
          (<[Z.to_nat (s_StoredCount l mod STORED_MAX) := x]> (s_Stored l)) (u32 (s_StoredCount l + 1)) l.
Definition log_clear (l : logwin) : logwin := set_log [] (bytes_of "Log cleared.") (s_Stored l) 0 l.
Definition log_resize (right bottom : Z) : list (list Z) :=
  let btnRowH := 28 in
  [[7; 7; right - 14; bottom - btnRowH - 7]; [7; bottom - btnRowH + 4; 60; 14];
   [72; bottom - btnRowH + 4; 70; 14]; [150; bottom - btnRowH + 6; right - 160; 12]].

Section desktop.
Context `{Desktop}.

(** Messages to a window that is gone are refused. *)
Definition PostMessageW (m : posted) (a : app) : app :=
  if g_hMsgWnd a && post_room (calls a) then tick (set_queue (queue a ++ [m]) a) else tick a.

Definition SaveLog (a : app) : app :=
  match save_name (calls a) with
  | None => tick a
  | Some path =>
    let a := tick a in
    if negb (file_created (calls a)) then opened [] [bytes_of "Error"] (tick a)
    else opened [] [bytes_of "Log Saved"] (add_file (path, saved_text (the_log a)) (tick a))
  end.

Definition LogDlgProc (msg : dlg_msg) (a : app) : app :=
  match msg with
  | DlgInit => on_log (set_columns InitListView) a
  | DlgNewAlert x => set_heap (pred (heap a)) (on_log (log_alert x) a)
  | DlgCommand wParam =>
    if LOWORD wParam =? IDC_CLEAR_BTN then on_log log_clear a
    else if LOWORD wParam =? IDC_SAVE_BTN then SaveLog a
    else if LOWORD wParam =? IDCANCEL then on_log (set_shown false) a
    else a
  | DlgSize r b => on_log (set_layout (log_resize r b)) a
  | DlgClose => on_log (set_shown false) a
  end.

(** ** The log window's interface *)
Definition LogWindow_Create (created : bool) (a : app) : app :=
  if created then
    LogDlgProc DlgInit
      (on_log (λ l, LogWin true false (columns l) (rows l) (status_text l) (layout l) (s_Stored l) (s_StoredCount l)
                           (s_AlertCount l)) a)
  else a.
Definition LogWindow_Show (a : app) : app := if s_hDlg (the_log a) then on_log (set_shown true) a else a.
Definition LogWindow_Hide (a : app) : app := if s_hDlg (the_log a) then on_log (set_shown false) a else a.

(** HeapAlloc and the copy. *)
Definition alloc_copy (a : app) : option app :=
  if heap_room (calls a) then Some (set_heap (S (heap a)) (tick a)) else None.

Definition LogWindow_AddAlert (x : ALERT_RECORD) (a : app) : app :=
  if negb (s_hDlg (the_log a)) then a else
  match alloc_copy a with
  | None => tick a
  | Some a =>
    on_log (λ l, LogWin (s_hDlg l) (dlg_shown l) (columns l) (rows l) (status_text l) (layout l) (s_Stored l)
                        (s_StoredCount l) (u32 (s_AlertCount l + 1)))
           (PostMessageW (ToDlg (DlgNewAlert x)) a)
  end.

Definition LogWindow_Clear (a : app) : app :=
  if s_hDlg (the_log a) then PostMessageW (ToDlg (DlgCommand IDC_CLEAR_BTN)) a else a.

(** ** The message window *)
Definition OnNewAlert (x : ALERT_RECORD) (a : app) : app :=
  match alloc_copy a with None => tick a | Some a => PostMessageW (ToWnd (WM_NEW_ALERT x)) a end.

Definition ShowContextMenu (a : app) : app :=
  if negb (menu_loads (calls a)) then tick a
  else PostMessageW (ToWnd WM_NULL) (opened [negb (g_TotalAlerts (the_tray a) =? 0)] [] (tick a)).

(** DestroyWindow takes the window's messages and the dialog it owns with it. *)
Definition DestroyWindow (on_destroy : app → app) (a : app) : app :=
  set_queue [] (set_window false (quit (on_destroy a)) (on_destroy a)).

Definition on_destroy (a : app) : app := set_window (g_hMsgWnd a) true (on_tray TrayIcon_Remove a).

(** MsgWndProc, WM_NEW_ALERT. *)
Definition alert_balloon (x : ALERT_RECORD) (t : tray) : tray :=
  if 1 <=? aAlertLevel x then
    let critical := 2 <=? aAlertLevel x in
    TrayIcon_SetAlert true
      (TrayIcon_ShowBalloon
         (if critical then [0x26A0] ++ bytes_of " Critical Security Alert" else bytes_of "Security Warning")
         (truncate 256 (TypeText x ++ [10] ++ Details x)) (if critical then NIIF_ERROR else NIIF_WARNING) t)
  else t.
Definition forged_balloon (x : ALERT_RECORD) (t : tray) : tray :=
  if negb (HmacValid x) then
    TrayIcon_ShowBalloon (bytes_of "Notification Integrity Warning")
      (bytes_of "Alert HMAC validation failed " ++ [0x2014] ++ bytes_of " notification may be forged.") NIIF_ERROR t
  else t.
Definition on_new_alert (x : ALERT_RECORD) (a : app) : app :=
  let a := on_tray (λ t, alert_balloon x (set_total (u32 (g_TotalAlerts t + 1)) t)) a in
  let a := EventLog_WriteAlert x a in
  let a := on_tray (λ t, TrayIcon_UpdateTip (forged_balloon x t)) a in
  let a := LogWindow_AddAlert x a in
  set_heap (pred (heap a)) a.

(** MsgWndProc, ID_TRAY_CLEAR_LOG. *)
Definition on_clear (a : app) : app :=
  on_tray (λ t, TrayIcon_UpdateTip (TrayIcon_SetAlert false (set_total 0 t))) (LogWindow_Clear a).

Definition MsgWndProc (msg : wnd_msg) (a : app) : app :=
  match msg with
  | WM_TASKBAR_CREATED | WM_CREATE => on_tray TrayIcon_Add a
  | WM_DESTROY => on_destroy a
  | WM_TRAY_ICON lParam =>
    let e := LOWORD lParam in
    if (e =? WM_LBUTTONDBLCLK) || (e =? NIN_BALLOONUSERCLICK) then LogWindow_Show a
    else if (e =? WM_RBUTTONUP) || (e =? WM_CONTEXTMENU) then ShowContextMenu a
    else a
  | WM_NEW_ALERT x => on_new_alert x a
  | WM_COMMAND wParam =>
    let id := LOWORD wParam in
    if id =? ID_TRAY_OPEN_LOG then LogWindow_Show a
    else if id =? ID_TRAY_CLEAR_LOG then on_clear a
    else if id =? ID_TRAY_ABOUT then opened [] [bytes_of "About"] a
    else if id =? ID_TRAY_EXIT then DestroyWindow on_destroy a
    else a
  | WM_NULL => a
  end.

(** ** The pump

    What happens while it runs: the poll thread calls back, the shell or another program
    posts a message, the user works in the dialog, or the pump takes the next message. *)
Inductive desk_event :=
  | Polled (x : ALERT_RECORD)
  | Arrives (m : wnd_msg)
  | InDialog (m : dlg_msg)
  | Next.

Definition dispatch (p : posted) (a : app) : app :=
  match p with ToWnd m => MsgWndProc m a | ToDlg m => LogDlgProc m a end.

Definition desk_step (e : desk_event) (a : app) : app :=
  match e with
  | Polled x => OnNewAlert x a
  | Arrives m => PostMessageW (ToWnd m) a
  | InDialog m => if s_hDlg (the_log a) then LogDlgProc m a else a
  | Next => match queue a with [] => a | p :: q => dispatch p (set_queue q a) end
  end.

(** GetMessageW ends the loop once the quit message is all that is left. *)
Definition pump_done (a : app) : bool := quit a && match queue a with [] => true | _ => false end.
Fixpoint pump (script : list desk_event) (a : app) : app :=
  match script with
  | [] => a
  | e :: script => if pump_done a then a else pump script (desk_step e a)
  end.

(** ** WinMain *)
Record answers := Answers {
  mutex : option bool;                          (* CreateMutexW; did it exist already *)
  existing : bool;                              (* FindWindowW *)
  wnd_created : bool;
  dlg_created : bool;
  source : bool;                                (* RegisterEventSourceW *)
  dev_opened : bool;
  dev_key : option (list Z);
  dev_mapping : option Z;
  event_created : bool;
  thread_created : bool
}.

Definition zero_record : ALERT_RECORD := AlertRecord [0; 0; 0; 0] 0 0 0 0 0 false [] [].
Definition app0 : app :=
  App false (Tray (Nid 0 0 [] [] [] 0) false 0 [])
      (LogWin false false [] [] [] [] (replicate 512 zero_record) 0 0) false [] [] 0 false [] [] [] 0.
Definition comm0 : drvcomm := DrvComm false false (replicate HMAC_KEY_SIZE 0) false false false false.

(** The message window with its icon, the dialog, the event source. *)
Definition create_windows (s : answers) : app :=
  EventLog_Open (source s) (LogWindow_Create (dlg_created s) (set_window true false (MsgWndProc WM_CREATE app0))).

Definition connect (s : answers) (a : app) : app * drvcomm :=
  let '(ok, d) := DriverComm_Open (dev_opened s) (dev_key s) (dev_mapping s) comm0 in
  if negb ok then
    (on_tray (TrayIcon_ShowBalloon (bytes_of "Driver Not Found")
                (bytes_of "The KernelGuard kernel driver is not running." ++ [10]
                 ++ bytes_of "Install the driver and restart the monitor.") NIIF_WARNING)
       (EventLog_WriteText EVENTLOG_WARNING_TYPE KG_EVT_DRIVER_NOT_FOUND
          (bytes_of "The KernelGuard kernel driver is not running; no alerts can be received.") a), d)
  else
    (on_tray (TrayIcon_ShowBalloon (bytes_of "KernelGuard Monitor Active")
                (bytes_of "Monitoring kernel for side-channel attacks and integrity violations.") NIIF_INFO)
       (EventLog_WriteText EVENTLOG_INFORMATION_TYPE KG_EVT_MONITOR_STARTED
          (bytes_of "KernelGuard Monitor started and connected to the driver.") a),
     (DriverComm_StartPolling (event_created s) (thread_created s) d).2).

Definition cleanup (a : app) (d : drvcomm) : app * drvcomm :=
  (EventLog_Close (EventLog_WriteText EVENTLOG_INFORMATION_TYPE KG_EVT_MONITOR_STOPPED
                     (bytes_of "KernelGuard Monitor stopped.") a),
   DriverComm_Close (DriverComm_StopPolling d)).

Inductive win_result :=
  | Returned (code : Z) (to_existing : list wnd_msg)     (* before the pump *)
  | Pumping (a : app) (d : drvcomm)                      (* the script ended first *)
  | Finished (code : Z) (a : app) (d : drvcomm).

Definition WinMain (s : answers) (script : list desk_event) : win_result :=
  match mutex s with
  | Some false =>
    if negb (wnd_created s) then Returned 1 []
    else
      let '(a, d) := connect s (create_windows s) in
      let a := pump script a in
      if pump_done a then let '(a, d) := cleanup a d in Finished 0 a d else Pumping a d
  | _ => Returned 0 (if existing s then [WM_COMMAND ID_TRAY_OPEN_LOG] else [])
  end.

(** ** What the tray and the log window should show *)

(** The messages of the message window the pump dispatched, and the alerts the poll thread
    handed over, in a run. *)
Definition taken (e : desk_event) (a : app) : list wnd_msg :=
  match e, queue a with Next, ToWnd m :: _ => [m] | _, _ => [] end.
Fixpoint handled (script : list desk_event) (a : app) : list wnd_msg :=
  match script with
  | [] => []
  | e :: script => if pump_done a then [] else taken e a ++ handled script (desk_step e a)
  end.
Definition offered (e : desk_event) : list ALERT_RECORD := match e with Polled x => [x] | _ => [] end.
Fixpoint polled (script : list desk_event) (a : app) : list ALERT_RECORD :=
  match script with
  | [] => []
  | e :: script => if pump_done a then [] else offered e ++ polled script (desk_step e a)
  end.

Definition alert_of (m : wnd_msg) : list ALERT_RECORD := match m with WM_NEW_ALERT x => [x] | _ => [] end.
(** The alerts handled since Clear Log of the tray menu was last handled. *)
Definition track (l : list ALERT_RECORD) (m : wnd_msg) : list ALERT_RECORD :=
  match m with
  | WM_NEW_ALERT x => l ++ [x]
  | WM_COMMAND w => if LOWORD w =? ID_TRAY_CLEAR_LOG then [] else l
  | _ => l
  end.
Definition since_clear (ms : list wnd_msg) : list ALERT_RECORD := foldl track [] ms.

Definition has_warning (l : list ALERT_RECORD) : bool := existsb (λ x, 1 <=? aAlertLevel x) l.

(** The icon and the tip the shell was last given. *)
Definition icon_of (r : option Z) (c : shell_call) : option Z :=
  match c with
  | NIM_ADD n | NIM_MODIFY n => if bool_decide (Z.land (uFlags n) NIF_ICON = 0) then r else Some (hIcon n)
  | NIM_SETVERSION => r
  | NIM_DELETE => None
  end.
Definition tip_of (r : option (list Z)) (c : shell_call) : option (list Z) :=
  match c with
  | NIM_ADD n | NIM_MODIFY n => if bool_decide (Z.land (uFlags n) NIF_TIP = 0) then r else Some (szTip n)
  | NIM_SETVERSION => r
  | NIM_DELETE => None
  end.
Definition icon_sent (t : tray) : option Z := foldl icon_of None (shell t).
Definition tip_sent (t : tray) : option (list Z) := foldl tip_of None (shell t).

(** The rows of the list once the messages that wait are handled. *)
Definition row_step (r : list (list (list Z))) (p : posted) : list (list (list Z)) :=
  match p with
  | ToDlg (DlgNewAlert x) => r ++ [AddAlertToList x]
  | ToDlg (DlgCommand w) => if LOWORD w =? IDC_CLEAR_BTN then [] else r
  | _ => r
  end.
Definition copies (q : list posted) : nat :=
  sum_list_with (λ p, match p with ToWnd (WM_NEW_ALERT _) | ToDlg (DlgNewAlert _) => 1 | _ => 0 end)%nat q.
Definition waiting (q : list posted) : list ALERT_RECORD :=
  q ≫= λ p, match p with ToWnd m => alert_of m | _ => [] end.

(** ** Frames *)
Lemma tray_post m a : the_tray (PostMessageW m a) = the_tray a.
Proof. unfold PostMessageW. by destruct (_ && _). Qed.
Lemma tray_save a : the_tray (SaveLog a) = the_tray a.
Proof. unfold SaveLog. destruct (save_name _); [|done]. by destruct (negb _). Qed.
Lemma tray_event ty id text a : the_tray (EventLog_WriteText ty id text a) = the_tray a.
Proof. unfold EventLog_WriteText. by destruct (g_hEventLog a). Qed.
Lemma tray_event_alert x a : the_tray (EventLog_WriteAlert x a) = the_tray a.
Proof. unfold EventLog_WriteAlert. destruct (negb _); apply tray_event. Qed.
Lemma tray_dlg m a : the_tray (LogDlgProc m a) = the_tray a.
Proof.
  destruct m; try done. unfold LogDlgProc. destruct (_ =? _); [done|]. destruct (_ =? _); [apply tray_save|].
  by destruct (_ =? _).
Qed.
Lemma tray_show a : the_tray (LogWindow_Show a) = the_tray a.
Proof. unfold LogWindow_Show. by destruct (s_hDlg _). Qed.
Lemma tray_clear a : the_tray (LogWindow_Clear a) = the_tray a.
Proof. unfold LogWindow_Clear. destruct (s_hDlg _); [apply tray_post|done]. Qed.
Lemma tray_add x a : the_tray (LogWindow_AddAlert x a) = the_tray a.
Proof.
  unfold LogWindow_AddAlert, alloc_copy. destruct (negb _); [done|]. destruct (heap_room _); [|done].
  change (the_tray (on_log _ ?b)) with (the_tray b). by rewrite tray_post.
Qed.
Lemma tray_new x a : the_tray (OnNewAlert x a) = the_tray a.
Proof. unfold OnNewAlert, alloc_copy. destruct (heap_room _); [|done]. by rewrite tray_post. Qed.
Lemma tray_menu a : the_tray (ShowContextMenu a) = the_tray a.
Proof. unfold ShowContextMenu. destruct (negb _); [done|]. by rewrite tray_post. Qed.

(** ** The indicator and the count follow the alerts *)
Record tray_inv (l : list ALERT_RECORD) (t : tray) : Prop := {
  ti_total : g_TotalAlerts t = u32 (zlen l);
  ti_active : g_AlertActive t = has_warning l
}.

Lemma tray_inv_same l t t' :
  g_TotalAlerts t' = g_TotalAlerts t → g_AlertActive t' = g_AlertActive t → tray_inv l t → tray_inv l t'.
Proof. intros H1 H2 [? ?]. split; congruence. Qed.

Lemma has_warning_snoc l x : has_warning (l ++ [x]) = has_warning l || (1 <=? aAlertLevel x).
Proof. unfold has_warning. rewrite existsb_app. simpl. by rewrite orb_false_r. Qed.

Lemma tray_inv_alert l x a : tray_inv l (the_tray a) → tray_inv (l ++ [x]) (the_tray (on_new_alert x a)).
Proof.
  intros [Ht Ha]. unfold on_new_alert. cbv zeta. change (the_tray (set_heap _ ?b)) with (the_tray b).
  rewrite tray_add. unfold on_tray at 1. cbn [the_tray set_the_tray]. rewrite tray_event_alert.
  unfold on_tray. cbn [the_tray set_the_tray]. set (t := the_tray a) in *.
  assert (Hb : tray_inv (l ++ [x]) (alert_balloon x (set_total (u32 (g_TotalAlerts t + 1)) t))).
  { assert (Hn : u32 (g_TotalAlerts t + 1) = u32 (zlen (l ++ [x]))).
    { rewrite Ht, u32_add_wrap. unfold zlen. rewrite length_app, Nat2Z.inj_add. done. }
    unfold alert_balloon. destruct (1 <=? aAlertLevel x) eqn:E; split; cbn; try done.
    - rewrite has_warning_snoc, E. by rewrite orb_true_r.
    - rewrite has_warning_snoc, E, Ha. by rewrite orb_false_r. }
  revert Hb. generalize (alert_balloon x (set_total (u32 (g_TotalAlerts t + 1)) t)). intros t' Hb.
  eapply tray_inv_same; [| |exact Hb]; unfold forged_balloon; by destruct (negb _).
Qed.

Lemma tray_inv_wnd l m a : tray_inv l (the_tray a) → tray_inv (track l m) (the_tray (MsgWndProc m a)).
Proof.
  intros Hi. destruct m as [| | |lp|x|w|]; cbn [track MsgWndProc].
  1-3: eapply tray_inv_same; [| |exact Hi]; done.
  - destruct (_ || _); [by rewrite tray_show|]. destruct (_ || _); [by rewrite tray_menu|done].
  - by apply tray_inv_alert.
  - destruct (LOWORD w =? ID_TRAY_OPEN_LOG) eqn:E1.
    { bool_props. rewrite E1. by rewrite tray_show. }
    destruct (LOWORD w =? ID_TRAY_CLEAR_LOG).
    { unfold on_clear, on_tray. cbn [the_tray set_the_tray]. rewrite tray_clear. done. }
    destruct (LOWORD w =? ID_TRAY_ABOUT); [done|]. destruct (LOWORD w =? ID_TRAY_EXIT); [|done].
    eapply tray_inv_same; [| |exact Hi]; done.
  - done.
Qed.

Lemma tray_inv_step l e a :
  tray_inv l (the_tray a) → tray_inv (foldl track l (taken e a)) (the_tray (desk_step e a)).
Proof.
  intros Hi. destruct e as [x|m|m|]; cbn [desk_step taken foldl].
  - by rewrite tray_new.
  - by rewrite tray_post.
  - destruct (s_hDlg _); [by rewrite tray_dlg|done].
  - destruct (queue a) as [|[m|m] q]; [done| |].
    + cbn [foldl dispatch]. by apply tray_inv_wnd.
    + cbn [dispatch foldl]. by rewrite tray_dlg.
Qed.

Lemma tray_inv_run l script a :
  tray_inv l (the_tray a) → tray_inv (foldl track l (handled script a)) (the_tray (pump script a)).
Proof.
  revert l a. induction script as [|e script IH]; intros l a Hi; [done|]. cbn [handled pump].
  destruct (pump_done a); [done|]. rewrite foldl_app. by apply IH, tray_inv_step.
Qed.

(** ** Nothing is lost between the poll thread and the log window

    While memory and queue have room, nobody restarts the taskbar and the dialog's own Clear
    button is left alone. *)
Definition outside (m : wnd_msg) : bool :=
  match m with WM_TRAY_ICON _ | WM_COMMAND _ | WM_NULL => true | _ => false end.
Definition in_dialog (m : dlg_msg) : bool :=
  match m with
  | DlgCommand w => negb (LOWORD w =? IDC_CLEAR_BTN)
  | DlgSize _ _ | DlgClose => true
  | _ => false
  end.
Definition quiet (e : desk_event) : bool :=
  match e with Arrives m => outside m | InDialog m => in_dialog m | _ => true end.
Definition room : Prop := ∀ n, heap_room n = true ∧ post_room n = true.
Definition plain (p : posted) : bool :=
  match p with
  | ToWnd (WM_NEW_ALERT _) | ToDlg (DlgNewAlert _) => true
  | ToWnd m => outside m
  | ToDlg (DlgCommand w) => LOWORD w =? IDC_CLEAR_BTN
  | _ => false
  end.

Record desk_inv (pol : list ALERT_RECORD) (ms : list wnd_msg) (a : app) : Prop := {
  di_running : g_hMsgWnd a = true ∧ quit a = false ∧ s_hDlg (the_log a) = true;
  di_plain : Forall plain (queue a);
  di_order : pol = (ms ≫= alert_of) ++ waiting (queue a);
  di_heap : heap a = copies (queue a);
  di_rows : foldl row_step (rows (the_log a)) (queue a) = AddAlertToList <$> since_clear ms;
  di_icon : icon_sent (the_tray a) = Some (if g_AlertActive (the_tray a) then alert_icon else normal_icon);
  di_tip : since_clear ms ≠ [] → tip_sent (the_tray a) = Some (total_tip (g_TotalAlerts (the_tray a)))
}.

Lemma copies_snoc q p : copies (q ++ [p]) = (copies q + copies [p])%nat.
Proof. unfold copies. by rewrite sum_list_with_app. Qed.
Lemma waiting_snoc q p : waiting (q ++ [p]) = waiting q ++ waiting [p].
Proof. unfold waiting. by rewrite bind_app. Qed.

(** The parts of the state the invariant reads. *)
Definition view (a : app) :=
  (g_hMsgWnd a, quit a, queue a, heap a, (s_hDlg (the_log a), rows (the_log a)), the_tray a).
Lemma desk_inv_view pol ms a a' : view a' = view a → desk_inv pol ms a → desk_inv pol ms a'.
Proof.
  unfold view. intros E [? ? ? ? ? ? ?]. injection E as E1 E2 E3 E4 E5 E6 E7.
  split; rewrite ?E1, ?E2, ?E3, ?E4, ?E5, ?E6, ?E7; done.
Qed.

Lemma view_event ty id text a : view (EventLog_WriteText ty id text a) = view a.
Proof. unfold EventLog_WriteText. by destruct (g_hEventLog a). Qed.
Lemma view_event_alert x a : view (EventLog_WriteAlert x a) = view a.
Proof. unfold EventLog_WriteAlert. destruct (negb _); apply view_event. Qed.
Lemma view_save a : view (SaveLog a) = view a.
Proof. unfold SaveLog. destruct (save_name _); [|done]. by destruct (negb _). Qed.
Lemma view_show a : view (LogWindow_Show a) = view a.
Proof. unfold LogWindow_Show. by destruct (s_hDlg _). Qed.
Lemma view_in_dialog m a : in_dialog m = true → view (LogDlgProc m a) = view a.
Proof.
  destruct m as [| |w| |]; cbn [in_dialog LogDlgProc]; try done. intros ->%negb_true_iff.
  destruct (_ =? _); [apply view_save|]. by destruct (_ =? _).
Qed.

Section room.
Context (Hroom : room).

Lemma post_queued m a :
  g_hMsgWnd a = true →
  view (PostMessageW m a) = view (set_queue (queue a ++ [m]) a).
Proof. intros Hw. unfold PostMessageW. rewrite Hw. destruct (Hroom (calls a)) as [_ ->]. done. Qed.

Lemma desk_inv_post pol ms p a :
  plain p = true → copies [p] = 0%nat → waiting [p] = [] → (∀ r, row_step r p = r) →
  desk_inv pol ms a → desk_inv pol ms (PostMessageW p a).
Proof.
  intros Hp Hc Hw Hr [Hrun Hpl Ho Hh Hrw Hi Ht].
  eapply desk_inv_view; [by apply post_queued, Hrun|].
  split; cbn [set_queue queue heap the_log the_tray g_hMsgWnd quit]; try done.
  - apply Forall_app_2; [done|]. constructor; [by rewrite Hp|done].
  - rewrite waiting_snoc, Hw, app_nil_r. done.
  - rewrite copies_snoc, Hc. lia.
  - rewrite foldl_app. cbn [foldl]. by rewrite Hr.
Qed.

(** The poll thread's callback. *)
Lemma desk_inv_polled pol ms x a :
  desk_inv pol ms a → desk_inv (pol ++ [x]) ms (OnNewAlert x a).
Proof.
  intros [Hrun Hpl Ho Hh Hrw Hi Ht]. unfold OnNewAlert, alloc_copy. destruct (Hroom (calls a)) as [-> _].
  eapply desk_inv_view; [by apply post_queued, Hrun|].
  split; cbn [set_queue set_heap tick queue heap the_log the_tray g_hMsgWnd quit]; try done.
  - apply Forall_app_2; [done|]. by constructor.
  - rewrite waiting_snoc, Ho, <- app_assoc. done.
  - rewrite copies_snoc, Hh. simpl. lia.
  - rewrite foldl_app. done.
Qed.

Lemma icon_sent_snoc n act tot sh c : icon_sent (Tray n act tot (sh ++ [c])) = icon_of (foldl icon_of None sh) c.
Proof. unfold icon_sent. cbn [shell]. by rewrite foldl_app. Qed.
Lemma tip_sent_snoc n act tot sh c : tip_sent (Tray n act tot (sh ++ [c])) = tip_of (foldl tip_of None sh) c.
Proof. unfold tip_sent. cbn [shell]. by rewrite foldl_app. Qed.

Definition icon_ok (t : tray) : Prop :=
  icon_sent t = Some (if g_AlertActive t then alert_icon else normal_icon).
Lemma icon_ok_balloon title text f t : icon_ok t → icon_ok (TrayIcon_ShowBalloon title text f t).
Proof. unfold icon_ok, TrayIcon_ShowBalloon, modify. intros Hi. rewrite icon_sent_snoc. exact Hi. Qed.
Lemma icon_ok_set b t : icon_ok (TrayIcon_SetAlert b t).
Proof. unfold icon_ok, TrayIcon_SetAlert. rewrite icon_sent_snoc. by destruct b. Qed.
Lemma icon_ok_tip t : icon_ok t → icon_ok (TrayIcon_UpdateTip t).
Proof. unfold icon_ok, TrayIcon_UpdateTip, modify. intros Hi. rewrite icon_sent_snoc. exact Hi. Qed.
Lemma tip_updated t : tip_sent (TrayIcon_UpdateTip t) = Some (total_tip (g_TotalAlerts (TrayIcon_UpdateTip t))).
Proof. unfold TrayIcon_UpdateTip, modify. by rewrite tip_sent_snoc. Qed.
Lemma icon_ok_alert x n t :
  icon_ok t → icon_ok (TrayIcon_UpdateTip (forged_balloon x (alert_balloon x (set_total n t)))).
Proof.
  intros Hi. apply icon_ok_tip. unfold forged_balloon.
  assert (icon_ok (alert_balloon x (set_total n t))).
  { unfold alert_balloon. destruct (1 <=? _); [apply icon_ok_set|done]. }
  destruct (negb _); [by apply icon_ok_balloon|done].
Qed.

Lemma add_view x a :
  g_hMsgWnd a = true → s_hDlg (the_log a) = true →
  view (LogWindow_AddAlert x a) = view (set_heap (S (heap a)) (set_queue (queue a ++ [ToDlg (DlgNewAlert x)]) a)).
Proof.
  intros Hw Hd. unfold LogWindow_AddAlert, alloc_copy. rewrite Hd. destruct (Hroom (calls a)) as [-> _].
  cbn [negb]. match goal with |- context [PostMessageW ?m ?b] => pose proof (post_queued m b Hw) as Hp end.
  exact Hp.
Qed.

(** The message window handles an alert: the copy it took is freed, a new one waits for the dialog. *)
Lemma on_new_alert_view x a :
  g_hMsgWnd a = true → s_hDlg (the_log a) = true →
  let t := the_tray a in
  view (on_new_alert x a)
  = (true, quit a, queue a ++ [ToDlg (DlgNewAlert x)], heap a, (true, rows (the_log a)),
     TrayIcon_UpdateTip (forged_balloon x (alert_balloon x (set_total (u32 (g_TotalAlerts t + 1)) t)))).
Proof.
  intros Hw Hd t. unfold on_new_alert. cbv zeta. set (a1 := on_tray (λ t, alert_balloon x _) a).
  pose proof (view_event_alert x a1) as He. revert He. generalize (EventLog_WriteAlert x a1). intros a2 He.
  injection He as E1 E2 E3 E4 E5 E6 E7. set (a3 := on_tray _ a2).
  pose proof (add_view x a3 (eq_trans E1 Hw) (eq_trans E5 Hd)) as Ha. revert Ha.
  generalize (LogWindow_AddAlert x a3). intros a4 Ha. injection Ha as F1 F2 F3 F4 F5 F6 F7.
  unfold view. cbn [set_heap g_hMsgWnd quit queue heap the_log the_tray].
  rewrite F1, F2, F3, F4, F5, F6, F7. cbn. rewrite E1, E2, E3, E4, E5, E6, E7. by subst t; cbn; rewrite Hw, Hd.
Qed.

Lemma since_clear_snoc ms m : since_clear (ms ++ [m]) = track (since_clear ms) m.
Proof. unfold since_clear. by rewrite foldl_app. Qed.
Lemma alerts_snoc ms m : (ms ++ [m]) ≫= alert_of = (ms ≫= alert_of) ++ alert_of m.
Proof. rewrite bind_app. simpl. by rewrite app_nil_r. Qed.

(** A message that changes nothing the invariant reads but the queue. *)
Lemma desk_inv_skip pol ms m q a :
  queue a = ToWnd m :: q → alert_of m = [] → (∀ l, track l m = l) →
  desk_inv pol ms a → desk_inv pol (ms ++ [m]) (set_queue q a).
Proof.
  intros Hq Hm Htr [Hrun Hpl Ho Hh Hrw Hi Ht]. rewrite Hq in Hpl, Ho, Hh, Hrw. inversion_clear Hpl.
  split; cbn [set_queue queue heap the_log the_tray g_hMsgWnd quit]; try done.
  - rewrite alerts_snoc, Hm, app_nil_r. unfold waiting in *. cbn in Ho. rewrite Hm in Ho. done.
  - rewrite Hh. by destruct m.
  - by rewrite since_clear_snoc, Htr.
  - by rewrite since_clear_snoc, Htr.
Qed.

Lemma desk_inv_alert pol ms x q a :
  queue a = ToWnd (WM_NEW_ALERT x) :: q →
  desk_inv pol ms a → desk_inv pol (ms ++ [WM_NEW_ALERT x]) (on_new_alert x (set_queue q a)).
Proof.
  intros Hq [(Hw & Hqt & Hd) Hpl Ho Hh Hrw Hi Ht]. rewrite Hq in Hpl, Ho, Hh, Hrw. inversion_clear Hpl.
  pose proof (on_new_alert_view x (set_queue q a) Hw Hd) as Hv. revert Hv.
  generalize (on_new_alert x (set_queue q a)). intros b Hv. cbn in Hv.
  injection Hv as E1 E2 E3 E4 E5 E6 E7.
  split; rewrite ?E1, ?E2, ?E3, ?E4, ?E5, ?E6, ?E7; try done.
  - apply Forall_app_2; [done|]. by constructor.
  - rewrite alerts_snoc, waiting_snoc, app_nil_r, <- app_assoc. done.
  - rewrite copies_snoc, Hh. simpl. lia.
  - rewrite foldl_app, since_clear_snoc. cbn [track foldl row_step] in *. rewrite Hrw, fmap_app. done.
  - by apply icon_ok_alert.
  - intros _. apply tip_updated.
Qed.

Lemma desk_inv_clear pol ms w q a :
  LOWORD w = ID_TRAY_CLEAR_LOG → queue a = ToWnd (WM_COMMAND w) :: q →
  desk_inv pol ms a → desk_inv pol (ms ++ [WM_COMMAND w]) (on_clear (set_queue q a)).
Proof.
  intros Hid Hq [(Hw & Hqt & Hd) Hpl Ho Hh Hrw Hi Ht]. rewrite Hq in Hpl, Ho, Hh, Hrw. inversion_clear Hpl.
  assert (Hs : since_clear (ms ++ [WM_COMMAND w]) = []).
  { rewrite since_clear_snoc. cbn [track]. by rewrite Hid. }
  unfold on_clear, LogWindow_Clear. cbn [the_log set_queue]. rewrite Hd.
  pose proof (post_queued (ToDlg (DlgCommand IDC_CLEAR_BTN)) (set_queue q a) Hw) as Hp. revert Hp.
  generalize (PostMessageW (ToDlg (DlgCommand IDC_CLEAR_BTN)) (set_queue q a)). intros b Hp.
  injection Hp as E1 E2 E3 E4 E5 E6 E7. cbn in E1, E2, E3, E4, E5, E6, E7.
  split; cbn [on_tray set_the_tray g_hMsgWnd quit queue heap the_log the_tray];
    rewrite ?E1, ?E2, ?E3, ?E4, ?E5, ?E6, ?Hs; try done.
  - apply Forall_app_2; [done|]. by constructor.
  - rewrite alerts_snoc, waiting_snoc, !app_nil_r. done.
  - rewrite copies_snoc, Hh. simpl. lia.
  - rewrite foldl_app. done.
  - apply icon_ok_tip, icon_ok_set.
Qed.

Lemma desk_inv_dialog pol ms m q a :
  queue a = ToDlg m :: q → desk_inv pol ms a → desk_inv pol ms (LogDlgProc m (set_queue q a)).
Proof.
  intros Hq [Hrun Hpl Ho Hh Hrw Hi Ht]. rewrite Hq in Hpl, Ho, Hh, Hrw. inversion_clear Hpl as [|?? Hm Hpl'].
  destruct m as [|x|w| |]; try done.
  - split; try done. cbn [heap LogDlgProc set_heap on_log set_the_log set_queue queue]. by rewrite Hh.
  - cbn in Hm. apply Is_true_eq_true in Hm. cbn [LogDlgProc foldl row_step] in *. rewrite Hm in *. by split.
Qed.

Definition exited (a : app) : Prop := quit a = true ∧ queue a = [].

Lemma desk_inv_next pol ms a :
  desk_inv pol ms a → exited (desk_step Next a) ∨ desk_inv pol (ms ++ taken Next a) (desk_step Next a).
Proof.
  intros Hi. pose proof (di_plain _ _ _ Hi) as Hpl. cbn [desk_step taken].
  destruct (queue a) as [|[m|m] q] eqn:Hq; [right; by rewrite app_nil_r| |].
  2: { right. rewrite app_nil_r. by apply desk_inv_dialog. }
  inversion_clear Hpl as [|?? Hm Hpl']. destruct m as [| | |lp|x|w|]; try done; cbn [dispatch MsgWndProc]; cbv zeta.
  - right. pose proof (desk_inv_skip pol ms (WM_TRAY_ICON lp) q a Hq eq_refl (λ _, eq_refl) Hi) as Hs.
    destruct (_ || _); [eapply desk_inv_view; [apply view_show|done]|].
    destruct (_ || _); [|done]. unfold ShowContextMenu. destruct (negb _); [by eapply desk_inv_view; [|exact Hs]|].
    apply desk_inv_post; try done. by eapply desk_inv_view; [|exact Hs].
  - right. by apply desk_inv_alert.
  - destruct (LOWORD w =? ID_TRAY_CLEAR_LOG) eqn:Ec.
    { bool_props. right. rewrite Ec. by apply desk_inv_clear. }
    pose proof (desk_inv_skip pol ms (WM_COMMAND w) q a Hq eq_refl) as Hs. cbn [track] in Hs. rewrite Ec in Hs.
    specialize (Hs (λ _, eq_refl) Hi). destruct (LOWORD w =? ID_TRAY_OPEN_LOG).
    { right. eapply desk_inv_view; [apply view_show|done]. }
    destruct (LOWORD w =? ID_TRAY_ABOUT); [right; by eapply desk_inv_view; [|exact Hs]|].
    destruct (LOWORD w =? ID_TRAY_EXIT); [by left|by right].
  - right. by apply (desk_inv_skip pol ms WM_NULL q a Hq).
Qed.

Lemma desk_inv_step pol ms e a :
  quiet e = true → desk_inv pol ms a →
  exited (desk_step e a) ∨ desk_inv (pol ++ offered e) (ms ++ taken e a) (desk_step e a).
Proof.
  intros He Hi. destruct e as [x|m|m|]; cbn [offered taken quiet] in *.
  - right. rewrite app_nil_r. by apply desk_inv_polled.
  - right. rewrite !app_nil_r. apply desk_inv_post; [by destruct m..|by intros r; destruct m|done].
  - right. rewrite !app_nil_r. cbn [desk_step]. destruct (s_hDlg _); [|done].
    eapply desk_inv_view; [by apply view_in_dialog|done].
  - rewrite app_nil_r. by apply desk_inv_next.
Qed.

Lemma desk_inv_run pol ms script a :
  Forall quiet script → desk_inv pol ms a →
  exited (pump script a) ∨ desk_inv (pol ++ polled script a) (ms ++ handled script a) (pump script a).
Proof.
  intros HF. revert pol ms a. induction HF as [|e script He HF IH]; intros pol ms a Hi.
  { right. cbn. by rewrite !app_nil_r. }
  cbn [pump polled handled]. unfold pump_done.
  rewrite (proj1 (proj2 (di_running _ _ _ Hi))). cbn [andb]. fold pump_done.
  destruct (desk_inv_step pol ms e a) as [[Hq Hn]|Hs]; [by apply Is_true_eq_true|done| |].
  - left. destruct script as [|e' script]; [by split|]. cbn [pump]. unfold pump_done. rewrite Hq, Hn. by split.
  - rewrite !app_assoc. by apply IH.
Qed.
End room.

Lemma has_warning_spec l : has_warning l = true ↔ ∃ x, x ∈ l ∧ 1 ≤ aAlertLevel x.
Proof.
  unfold has_warning. rewrite existsb_exists. setoid_rewrite list_elem_of_In. setoid_rewrite Z.leb_le. done.
Qed.

(** What the start leaves behind. *)
Lemma started_tray s : tray_inv [] (the_tray (connect s (create_windows s)).1).
Proof.
  unfold connect. destruct (DriverComm_Open _ _ _ _) as [ok d]. destruct (negb ok); cbn [fst];
    unfold on_tray; cbn [the_tray set_the_tray]; rewrite tray_event;
    unfold create_windows, LogWindow_Create; by destruct (dlg_created s).
Qed.

Lemma created_inv s : dlg_created s = true → desk_inv [] [] (create_windows s).
Proof. intros Hd. unfold create_windows, LogWindow_Create. rewrite Hd. by split. Qed.

Lemma desk_inv_balloon pol ms title text f a :
  desk_inv pol ms a → desk_inv pol ms (on_tray (TrayIcon_ShowBalloon title text f) a).
Proof.
  intros [Hrun Hpl Ho Hh Hrw Hi Ht]. split; try done.
  - by apply icon_ok_balloon.
  - intros Hl. cbn [the_tray on_tray set_the_tray]. unfold TrayIcon_ShowBalloon, modify.
    rewrite tip_sent_snoc. exact (Ht Hl).
Qed.

Lemma started_inv s : dlg_created s = true → desk_inv [] [] (connect s (create_windows s)).1.
Proof.
  intros Hd%created_inv. unfold connect. destruct (DriverComm_Open _ _ _ _) as [ok d]. destruct (negb ok); cbn [fst];
    apply desk_inv_balloon; (eapply desk_inv_view; [apply view_event|done]).
Qed.


(** WinMain on every path: a second instance asks the first to open its log and returns 0, a
    missing message window returns 1; otherwise it pumps messages and, once told to exit, returns
    0 with the event source closed, the stop recorded as the last event if there was a source,
    no connection, no poll thread and a zeroed key. *)
Theorem WinMain_paths (s : answers) (script : list desk_event) :
  match WinMain s script with
  | Returned code to_existing =>
    (mutex s ≠ Some false ∧ code = 0
     ∧ to_existing = if existing s then [WM_COMMAND ID_TRAY_OPEN_LOG] else [])
    ∨ (mutex s = Some false ∧ wnd_created s = false ∧ code = 1 ∧ to_existing = [])
  | Pumping a d => pump_done a = false
  | Finished code a d =>
    code = 0 ∧ pump_done a = true ∧ g_hEventLog a = false ∧ DriverComm_IsConnected d = false
    ∧ s_PollThread d = false ∧ s_SharedMem d = false
    ∧ s_HmacKeyValid d = false ∧ s_HmacKey d = replicate HMAC_KEY_SIZE 0
    ∧ (g_hEventLog (pump script (connect s (create_windows s)).1) = true → ∃ text,
       last (events a) = Some (EVENTLOG_INFORMATION_TYPE, 901, text))
  end.
Proof.
  unfold WinMain. destruct (mutex s) as [[|]|]; [by left| |by left].
  destruct (wnd_created s); cbn [negb]; [|by right].
  destruct (connect s (create_windows s)) as [a0 d0]. cbn [fst]. destruct (pump_done (pump script a0)) eqn:E; [|done].
  unfold cleanup. split_and!; try done.
  - unfold EventLog_WriteText. by destruct (g_hEventLog _).
  - intros Hg. unfold EventLog_WriteText. rewrite Hg. eexists. cbn [events EventLog_Close set_events]. apply last_snoc.
Qed.

(** Exit of the tray menu ends a pump that has nothing else to do. *)
Lemma exit_ends_pump a :
  g_hMsgWnd a = true → post_room (calls a) = true → queue a = [] → quit a = false →
  pump_done (pump [Arrives (WM_COMMAND ID_TRAY_EXIT); Next] a) = true.
Proof.
  intros Hw Hp Hq Hn. assert (Hd : pump_done a = false) by (unfold pump_done; by rewrite Hn).
  cbn [pump]. rewrite Hd. cbn [desk_step]. unfold PostMessageW. rewrite Hw, Hp, Hq. cbn [andb Datatypes.app].
  set (b := tick _). assert (Hb : pump_done b = false) by (unfold pump_done, b; cbn; by rewrite Hn). by rewrite Hb.
Qed.
End desktop.

(** ** A notification that failed authentication *)
(** What the event log records of a notification whose HMAC failed depends on its sequence number
    only, and is an error with identifier 1999; one that passed is recorded under 1000 plus its
    alert code, as an error from level 2 on, a warning at level 1 and information at level 0. *)
Theorem event_log_trusts_hmac (x y : ALERT_RECORD) (u : app) :
  HmacValid x = false → HmacValid y = false → aSequenceNumber x = aSequenceNumber y →
  EventLog_WriteAlert x u = EventLog_WriteAlert y u
  ∧ (g_hEventLog u = true → ∃ text, events (EventLog_WriteAlert x u) = events u ++ [(EVENTLOG_ERROR_TYPE, 1999, text)])
  ∧ ∀ v, HmacValid v = true → g_hEventLog u = true → is_u32 (aAlertLevel v) → ∃ text,
    events (EventLog_WriteAlert v u)
    = events u ++ [(if aAlertLevel v =? 0 then EVENTLOG_INFORMATION_TYPE
                    else if aAlertLevel v =? 1 then EVENTLOG_WARNING_TYPE else EVENTLOG_ERROR_TYPE,
                    u32 (1000 + aAlertType v), text)].
Proof.
  intros Ha Hb Hs. unfold EventLog_WriteAlert, EventLog_WriteText. rewrite Ha, Hb, Hs. cbn [negb]. split_and!.
  - done.
  - intros ->. by eexists.
  - intros v -> -> Hl. cbn [negb]. eexists. cbn [events set_events]. do 3 f_equal. unfold is_u32 in Hl.
    destruct (2 <=? aAlertLevel v) eqn:E2, (aAlertLevel v =? 0) eqn:E0, (aAlertLevel v =? 1) eqn:E1;
      bool_props; (done || lia).
Qed.
(** ** The saved log *)
Definition log_alerts (as_ : list ALERT_RECORD) (u : logwin) : logwin := foldl (λ u x, log_alert x u) u as_.

(** The slots hold, of each residue, the last alert. *)
Record stored_inv (as_ : list ALERT_RECORD) (u : logwin) : Prop := {
  si_slots : length (s_Stored u) = 512%nat;
  si_count : s_StoredCount u = zlen as_;
  si_slot : ∀ k a, as_ !! k = Some a → zlen as_ - 512 ≤ Z.of_nat k →
            s_Stored u !! Z.to_nat (Z.of_nat k mod 512) = Some a
}.

Lemma stored_inv_add as_ a u :
  zlen as_ + 1 < 4294967296 → stored_inv as_ u → stored_inv (as_ ++ [a]) (log_alert a u).
Proof.
  intros Hb [Hs Hc Hk]. unfold zlen in *. split; cbn [log_alert set_log s_Stored s_StoredCount].
  - by rewrite length_insert.
  - rewrite Hc, u32_id by (unfold is_u32; lia). unfold zlen. rewrite length_app. simpl. lia.
  - intros k x Hx Hr. rewrite Hc. unfold STORED_MAX, zlen in *. rewrite length_app in Hr. simpl in Hr.
    apply lookup_snoc_Some in Hx as [[Hlt Hx]|[-> <-]].
    + rewrite list_lookup_insert_ne; [apply Hk; [done|lia]|].
      intros Heq%(Z2Nat.inj _ _ (proj1 (Z.mod_pos_bound _ 512 ltac:(lia)))
                                (proj1 (Z.mod_pos_bound _ 512 ltac:(lia)))).
      Z.div_mod_to_equations. lia.
    + apply list_lookup_insert_eq. rewrite Hs. pose proof (Z.mod_pos_bound (Z.of_nat (length as_)) 512). lia.
Qed.

Lemma stored_inv_run as0 as_ u :
  zlen as0 + zlen as_ < 4294967296 → stored_inv as0 u → stored_inv (as0 ++ as_) (log_alerts as_ u).
Proof.
  revert as0 u. induction as_ as [|a as_ IH]; intros as0 u Hb Hi; [by rewrite app_nil_r|].
  cbn [log_alerts foldl]. replace (as0 ++ a :: as_) with ((as0 ++ [a]) ++ as_) by by rewrite <- app_assoc.
  unfold zlen in *. cbn [length] in Hb. apply IH.
  - unfold zlen. rewrite length_app. simpl. lia.
  - apply stored_inv_add; [unfold zlen; lia|done].
Qed.

Lemma fitting_lines as_ :
  Forall (λ a, zlen (save_line a) < 512) as_ →
  (as_ ≫= λ a, if zlen (save_line a) <? 512 then save_line a else []) = as_ ≫= save_line.
Proof.
  induction 1 as [|a as_ Ha _ IH]; [done|]. rewrite !bind_cons, IH. by rewrite (proj2 (Z.ltb_lt _ _) Ha).
Qed.

(** The file SaveLog writes, for alerts received since the log was cleared: up to 512 of them it
    is the header and then the line of each, in order; beyond that it still has one line for each alert received, but line i
    shows the latest alert whose number is i modulo 512, so the newest are printed more than once
    and the oldest not at all. *)
Theorem saved_log_lines (as_ : list ALERT_RECORD) (u : logwin) :
  length (s_Stored u) = 512%nat → zlen as_ < 4294967296 →
  let u' := log_alerts as_ (log_clear u) in
  (zlen as_ ≤ 512 → Forall (λ a, zlen (save_line a) < 512) as_ →
   saved_text u' = log_header ++ (as_ ≫= save_line))
  ∧ length (saved_records u') = length as_
  ∧ ∀ i, (i < length as_)%nat →
    saved_records u' !! i = as_ !! (i + 512 * ((length as_ - 1 - i) / 512))%nat.
Proof.
  intros Hs Hb u'.
  assert (Hi : stored_inv as_ u').
  { apply (stored_inv_run []); [unfold zlen in *; simpl; lia|]. by split. }
  assert (Hline : ∀ i, (i < length as_)%nat →
    saved_records u' !! i = as_ !! (i + 512 * ((length as_ - 1 - i) / 512))%nat).
  { intros i Hlt. set (k := (i + 512 * ((length as_ - 1 - i) / 512))%nat).
    assert (Hk : (length as_ - 512 ≤ k < length as_)%nat).
    { unfold k. pose proof (Nat.div_mod (length as_ - 1 - i) 512 ltac:(lia)).
      pose proof (Nat.mod_upper_bound (length as_ - 1 - i) 512 ltac:(lia)). lia. }
    destruct (lookup_lt_is_Some_2 as_ k ltac:(lia)) as [a Ha]. rewrite Ha.
    pose proof (si_slot _ _ Hi k a Ha ltac:(unfold zlen; lia)) as Hsl.
    unfold saved_records. rewrite list_lookup_fmap, lookup_seqZ_lt by (rewrite (si_count _ _ Hi); unfold zlen; lia).
    cbn [fmap option_fmap option_map]. f_equal. unfold STORED_MAX. apply list_lookup_total_correct.
    replace (Z.of_nat k mod 512) with ((0 + Z.of_nat i) mod 512) in Hsl; [done|].
    unfold k. rewrite Nat2Z.inj_add, Nat2Z.inj_mul, Z.add_0_l, Z.mul_comm. symmetry. apply Z_mod_plus_full. }
  assert (Hlen : length (saved_records u') = length as_).
  { unfold saved_records. rewrite length_fmap, length_seqZ, (si_count _ _ Hi). unfold zlen. lia. }
  split_and!; [|done|done]. intros Hle Hfit. unfold saved_text. replace (saved_records u') with as_; [by rewrite fitting_lines|].
  symmetry. apply list_eq. intros i. destruct (decide (i < length as_)%nat).
  - rewrite Hline by done. rewrite Nat.div_small by (unfold zlen in *; lia). f_equal. lia.
  - rewrite !lookup_ge_None_2; [done|lia|lia].
Qed.


(** ** A desktop with room, and what the code does not do *)
#[export] Instance roomy : Desktop := {
  heap_room _ := true;
  post_room _ := true;
  menu_loads _ := true;
  save_name _ := Some (bytes_of "log.txt");
  file_created _ := true
}.
Definition demo_answers : answers :=
  Answers (Some false) false true true true true (Some (replicate 32 7)) (Some 4096) true true.
Definition demo_alert (level : Z) : ALERT_RECORD :=
  AlertRecord [12; 30; 5; 250] 0x20 level 3 4 5 true (bytes_of "IDT Hook Detected") (bytes_of "x").
Definition demo_app : app := (connect demo_answers (create_windows demo_answers)).1.

(** The icon turns to alert at the first warning, not at the first critical alert. *)
Lemma warning_turns_icon :
  icon_sent (the_tray (pump [Polled (demo_alert 1); Next] demo_app)) = Some alert_icon ∧ alert_icon ≠ normal_icon.
Proof. by vm_compute. Qed.

(** The Clear button of the dialog empties the list and leaves icon and count as they were. *)
Lemma dialog_clear_keeps_indicator :
  let a := pump [Polled (demo_alert 2); Next; Next; InDialog (DlgCommand IDC_CLEAR_BTN)] demo_app in
  rows (the_log a) = [] ∧ icon_sent (the_tray a) = Some alert_icon ∧ g_TotalAlerts (the_tray a) = 1.
Proof. by vm_compute. Qed.

(** When the taskbar is recreated the icon is added as if nothing had happened, although the
    indicator is on. *)
Lemma taskbar_restart_hides_alert :
  let a := pump [Polled (demo_alert 2); Next; Next; Arrives WM_TASKBAR_CREATED; Next] demo_app in
  g_AlertActive (the_tray a) = true ∧ icon_sent (the_tray a) = Some normal_icon
  ∧ tip_sent (the_tray a) = Some monitoring_tip.
Proof. by vm_compute. Qed.
