(* ===== verification/WinExample.v ===== *)
(** * A concrete Windows machine

    One instance of every class the Windows model takes, with real SHA-256 and
    HMAC, two CPUs, one keyboard with a filter on top, a driver file and a
    patched module.  Each lemma applies a theorem of the Windows files to it. *)
From S2P Require Import Prelude Sha256 Uapi PeAuthenticode DigestTable WinState WinComms WinMitigate WinRouter WinIntegrity WinPmu WinLoadGuard WinHashes WinHw WinMain WinMonitor WinTray.
Local Open Scope Z_scope.

#[local] Instance demo_env : WinEnv := {
  KeQueryMaximumProcessorCountEx := 2;
  cpu_at := λ _, 0;
  qpc_at := λ t, Z.of_nat t;
  cpuid_at := λ _ _ _, (0, 0, 0, 0);
  rdmsr_at := λ _ _, 0;
  wrmsr_faults_at := λ _ _, true;
  bcrypt_at := λ _ _, STATUS_SUCCESS;
  bcrypt_sha256 := sha256_spec;
  bcrypt_hmac := hmac_spec;
  random_at := λ _, replicate 32 9;
  pool_at := λ _ _, Some 4096;
  contiguous_at := λ _, true;
  mdl_at := λ _, true;
  auxklib_at := λ _, inr [AuxModule 4096 4096 (bytes_of "\SystemRoot\ntoskrnl.exe")];
  upcase := λ c, c
}.

#[local] Instance demo_bcrypt : BCryptWorks.
Proof.
  split; [done|intros m; apply sha256_spec_wf|intros k m; apply (hmac_spec_wf k m)].
Defined.

(** Every byte of kernel memory is a NOP. *)
#[local] Instance demo_kernel : WinKernel := {
  kread_at := λ _ _ n, Some (replicate (Z.to_nat n) 144);
  driver_named_at := λ _ _, None
}.
#[local] Instance demo_cpu : WinCpu := {
  idt_at := λ _ _, IdtEntry 0x1000 16 14 0 true 0 0;
  PsCreateSystemThread_at := λ _, STATUS_SUCCESS
}.
(** One keyboard: device 1 with the filter, device 2, on top. *)
#[local] Instance demo_devices : WinDevices := {
  stub := 7;
  DriverObject_of := λ d, 100 + d;
  DriverName_of := λ d, Some (if d =? 101 then bytes_of "\Driver\Kbdclass" else bytes_of "\Driver\logger");
  IoGetDeviceObjectPointer_at := λ _ _, Some 1;
  MmMapIoSpace_at := λ _ _ _, true;
  phys_at := λ _ _ n, replicate (Z.to_nat n) 255
}.
#[local] Instance demo_apic : WinApic := {
  connect_at := λ _ _, STATUS_SUCCESS;
  map_apic_at := λ _ _, true;
  tsc_at := λ t, Z.of_nat t;
  cr4_at := λ _, 0
}.
(** Every path is the sample image of the Authenticode file. *)
#[local] Instance demo_files : WinFiles := {
  open_at := λ _ _, STATUS_SUCCESS;
  size_at := λ _ _, inr (zlen (sample_pe 0 []));
  read_at := λ _ _ off want, inr (take (Z.to_nat (Z.min want (zlen (sample_pe 0 []) - off)))
                                       (drop (Z.to_nat off) (sample_pe 0 [])));
  vuln_hex := shipped_hex;
  vuln_class := shipped_class;
  deny_strings := [];
  allow_strings := [];
  ci_options_at := λ _, inr 1;
  blocklist_value := RegAbsent;
  thread_at := λ _, STATUS_SUCCESS;
  set_notify_at := λ _, STATUS_SUCCESS
}.
#[local] Instance demo_boot : WinBoot := {
  reg_Enforce := RegDword 1;
  reg_LockMode := RegAbsent;
  boot_pid := 4;
  fresh_pool := [];
  IoCreateDevice_at := λ _, STATUS_SUCCESS;
  IoCreateSymbolicLink_at := λ _, STATUS_SUCCESS
}.

(** ** Its state *)
Definition demo_shared (enforce : Z) : DRIVER_SHARED_STATE :=
  DriverSharedState (PolicyBlock KG_POLICY_VERSION enforce 0 0) false true (replicate 32 0) (λ _, 0).
Definition demo_core (enforce : Z) : core :=
  Core (demo_shared enforce) (λ _, zero_mitigations) (Some zero_region) true (replicate 32 9) 0 0 [] 0.
Definition demo_att (d : Z) : Z := if d =? 1 then 2 else 0.
Definition demo_hw : hw := Hw (λ _ _, 5) demo_att [] [] false [] 0 0 [].
Definition demo_lg : lg :=
  Lg None [] false None None (Some (bytes_of "\Driver\x.sys" :: replicate 63 [])) 0 1 1 1 [] false false true 0 0
     true true true.
Definition demo_entry : SECURE_NOTIFICATION :=
  SecureNotification NOTIFY_MAGIC 0 ALERT_IDT_HOOK 2 5 0x21 4096 (replicate 32 0).
Definition demo_region : SHARED_MEM_REGION :=
  SharedMemRegion 1 0 1 (<[0%nat := demo_entry]> (replicate 16 zero_secure_notification)).
Definition demo_comm : drvcomm := DrvComm true true (replicate 32 9) true true true true.
Definition demo_integ : integ :=
  Integ [BaselineEntry [] 8192 4 (replicate 32 0) false true] 0 false.
Definition demo_win : win :=
  Win (demo_core 1) (Mit [] zero_cat (λ _, SmtSibling 0 0 false) None 0 []) (Integ [] 0 false) demo_hw
      (Pmu (λ _, PmuContext 0 0 0 0 0 false false) [] [])
      (set_life false false false false false (LgFreeState demo_lg)) false false false.

Lemma demo_chan e : chan (demo_core e) [] 0.
Proof. exists zero_region. split; [reflexivity|apply ring_log_zero]. Qed.

Lemma demo_stacks : stacks_end demo_att.
Proof. intros t idx d [= <-]. right. right. by left. Qed.

Lemma demo_clean : clean_tables (MajorFn demo_hw).
Proof. by intros d m _. Qed.

Lemma demo_file : file_is (bytes_of "\Driver\x.sys") (sample_pe 0 []).
Proof.
  split; [done|done|vm_compute; split; congruence|].
  intros t off want Hoff Hw. exists (Z.min want (zlen (sample_pe 0 []) - off)).
  split_and!; [lia..|done].
Qed.

Lemma demo_tables : tables_wf demo_lg.
Proof. by split. Qed.

Lemma demo_queue : queue_wf (bytes_of "\Driver\x.sys" :: replicate 63 []) demo_lg.
Proof. by split. Qed.

Lemma demo_baseline : baseline_reads demo_integ (λ _, replicate 4 144).
Proof.
  intros [|k] e Hk; [injection Hk as <-|done]. split_and!; try done.
  intros t a n Ha Hn Hb. unfold kread_at, demo_kernel. cbn [TextSectionBase] in *.
  unfold zlen in Hb. rewrite length_replicate in Hb. f_equal.
  rewrite drop_replicate, take_replicate. f_equal. lia.
Qed.

(** ** The theorems on it *)
Lemma win_alert_end_to_end_witness :
  let c' := DispatchCrossModuleEvent PASSIVE_LEVEL ALERT_TEXT_PATCH 2 17 18 (demo_core 1) in
  ∃ r alerts log', g_SharedMemKernel c' = Some r ∧ chan c' log' 0
  ∧ PollThreadProc demo_comm (λ _, r) (λ _, []) 0 0 = Some (alerts, zlen log')
  ∧ shown <$> alerts = [(ALERT_TEXT_PATCH, 2, 17, 18); (ALERT_FAIL_SAFE_ENTERED, 2, 0, 0);
                        (ALERT_TEXT_PATCH, 2, 17, 18)]
  ∧ Forall (λ a, HmacValid a = true) alerts.
Proof.
  exact (win_alert_end_to_end ALERT_TEXT_PATCH 2 17 18 (demo_core 1) [] demo_comm (λ _, []) 0 (demo_chan 1)
           eq_refl ltac:(discriminate) eq_refl eq_refl eq_refl eq_refl).
Defined.


Lemma policy_seal_witness :
  let c := demo_core 1 in
  let c' := UpdateSharedStateHash c in
  policy_typed (policy (g_SharedState c)) ∧ (VerifySharedStateIntegrity c').1 = true.
Proof.
  split; [repeat split; discriminate|].
  assert (Hp : policy (g_SharedState (UpdateSharedStateHash (demo_core 1))) = policy (g_SharedState (demo_core 1))).
  { destruct (UpdateSharedStateHash_works (demo_core 1)) as [n ->]. reflexivity. }
  refine (proj1 (policy_seal (demo_core 1) (UpdateSharedStateHash (demo_core 1)) _ _ eq_refl) Hp);
    [|rewrite Hp]; repeat split; discriminate.
Defined.

Lemma load_guard_verdict_witness :
  let p := bytes_of "\Driver\x.sys" in
  let c' := LgProcessPath demo_lg p false (demo_core 1) in
  ∃ ns, chan c' ([] ++ ns) 0 ∧ Forall (authentic (replicate 32 9)) ns
  ∧ content <$> ns = verdict_entries p false
      (verdict_of demo_lg false false (LgHashFile p (demo_core 1)).1)
  ∧ policy (g_SharedState c') = policy (demo_shared 1)
  ∧ (false = false → FailSafeMode (g_SharedState c') = true → all_full c').
Proof.
  exact (load_guard_verdict demo_lg (bytes_of "\Driver\x.sys") false (demo_core 1) [] 0 demo_tables (demo_chan 1)).
Defined.

Lemma queued_paths_processed_witness :
  ∃ l', lg_rounds (length (pending demo_lg)) demo_lg (demo_core 1)
        = Some (l', foldl (λ c p, LgProcessPath demo_lg p false c) (demo_core 1) (pending demo_lg))
  ∧ pending l' = [].
Proof.
  exact (queued_paths_processed (bytes_of "\Driver\x.sys" :: replicate 63 []) demo_lg (demo_core 1) demo_queue eq_refl).
Defined.


Lemma shipped_digests_found_witness :
  g_LgTableSorted (LgLoadBuiltin demo_lg (demo_core 1)).1 = true.
Proof.
  refine (proj1 (shipped_digests_found demo_lg (demo_core 1) eq_refl eq_refl _ _)); exists 4096; reflexivity.
Defined.


Lemma idt_gates_reported_witness :
  let '(ntBase, c1) := GetNtoskrnlBase (demo_core 1) in
  let ntEnd := u64 (ntBase + (GetNtoskrnlSize c1).1) in
  ∃ ns, chan (IdtVerifyKeyboardHandler (demo_core 1)) ([] ++ ns) 0
  ∧ content <$> ns
    = (kbdVectors ≫= λ v, idt_findings ntBase ntEnd v (IdtEntry 0x1000 16 14 0 true 0 0))
  ∧ Forall (authentic (replicate 32 9)) ns.
Proof.
  exact (idt_gates_reported (λ _, IdtEntry 0x1000 16 14 0 true 0 0) (demo_core 1) [] 0
           (λ _ _, eq_refl) (demo_chan 1)).
Defined.



Lemma stub_forwards_below_witness :
  ∃ h' c', walk_stack stack_fuel 0 1 demo_hw (demo_core 1) = Some (h', c')
  ∧ NeutralizePassThroughDispatch 2 h' = IrpCallDriver 1.
Proof.
  destruct (stub_forwards_below [1; 2] 1 demo_hw (demo_core 1)) as (h' & c' & Hw & H1 & _).
  - repeat split; discriminate.
  - apply (bool_decide_unpack _). vm_compute. exact I.
  - apply Nat.leb_le. reflexivity.
  - reflexivity.
  - apply Z.leb_le. reflexivity.
  - exists h', c'. split; [exact Hw|]. exact (H1 1%nat 2 eq_refl eq_refl).
Defined.


Lemma poll_delivers_log_witness :
  ∃ alerts, PollThreadProc demo_comm (λ _, demo_region) (λ _, []) 0 0 = Some (alerts, 1)
  ∧ Forall2 (λ a n, (∃ t', a = DriverComm_FormatAlert demo_comm [] t' n)
                    ∧ (authentic (replicate 32 9) n → HmacValid a = true))
            alerts [demo_entry]
  ∧ (16 ≤ 0 → alerts = []).
Proof.
  exact (poll_delivers_log demo_comm demo_region (λ _, []) [demo_entry] 0 0 0
           (ring_log_store zero_region [] 0 demo_entry 1 ring_log_zero eq_refl eq_refl) eq_refl
           ltac:(split; discriminate) ltac:(discriminate) eq_refl eq_refl eq_refl).
Defined.

Lemma saved_log_lines_witness :
  let a := demo_alert 2 in
  saved_text (log_alerts [a] (log_clear (the_log demo_app))) = log_header ++ save_line a.
Proof.
  intros a. refine (proj1 (saved_log_lines [a] (the_log demo_app) _ _) _ _); [reflexivity|reflexivity|discriminate|].
  apply Forall_singleton. reflexivity.
Defined.


Lemma pmi_isr_escalates_witness :
  let p := Pmu (λ i, PmuContext 2 0 0 i 0 true true) [] [] in
  let '(r, p', c') := PmiIsr 0 p (demo_core 1) in
  r = true ∧ CtxAlertLevel (g_PmuCtx p' 0) ≤ 2.
Proof.
  intros p.
  pose proof (pmi_isr_escalates 0 p (demo_core 1) ltac:(split; discriminate) eq_refl) as Hp.
  destruct (PmiIsr 0 p (demo_core 1)) as [[r p'] c']. destruct Hp as (Hr & _ & _ & _ & [_ Hl] & _).
  split; [exact Hr|exact Hl].
Defined.
